(* ===== verification/_CoqProject ===== *)
-Q . S2P
Prelude.v
Int32.v
LinkedList.v
BitMap.v
Machine.v
Cpu.v
Interrupts.v
AddrSpace.v
Threads.v
Disk.v
FileHdr.v
OpenFile.v
Directory.v
FileSys.v
Console.v
ConsoleTest.v
UserMem.v
ConsoleCalls.v
FileCalls.v
STable.v
Process.v
Syscalls.v
Stubs.v
UserProgs.v
Network.v
MailTest.v
Coff2Noff.v
Coff2Flat.v
ThreadTest.v
StartUp.v
UnixFiles.v
FsTest.v
Stacks.v
Taps.v
TapsOk.v
TapsRun.v
HostCalls.v
Execute.v
ExecuteAgree.v
Disasm.v
Listing.v
Switch.v
