(* ===== verification/Prelude.v ===== *)
(** * Nachos 3.4: verification development (root file)

    The program is the Nachos 3.4 instructional operating system in C++
    (src/src/nachos-3.4/code): a simulated MIPS machine with a clock, a disk, a
    terminal and a network, and a kernel above it with threads, semaphores,
    address spaces, a file system and system calls.  Paths below are relative to
    that directory.  The host is a 32-bit little-endian Unix machine
    ([int], [unsigned] and pointers have 32 bits), as the Makefiles say.

    ** Parts of the program and the files that model them

    - [Prelude] (this file): results of kernel code ([outcome]: a value, a failed
      [ASSERT], [Halt], undefined behaviour), arrays as lists indexed by [Z],
      buffers of bytes, [divRoundUp]/[divRoundDown] (threads/utility.h) and the
      automation the other files share.
    - [Int32]: two's complement 32-bit integers and bytes: [wrap_s32], [wrap_u32],
      little-endian encodings of words, shifts and masks.
    - [LinkedList]: threads/list.cc.  A list is two pointers into a heap of
      elements; the abstraction is the sequence of (key, item) pairs.
    - [BitMap]: userprog/bitmap.cc.  An array of words, abstracted to an array of
      booleans.
    - [Machine]: machine/machine.cc and translate.cc.  Memory, registers, TLB and
      page table; [ReadMem], [WriteMem], [Translate].
    - [Cpu]: machine/mipssim.cc.  Decoding and all instructions, with the branch
      delay slot and delayed loads; the [switch] of [OneInstruction] is cut into
      one definition per group of cases.
    - [Interrupts]: machine/interrupt.cc, stats.cc, timer.cc: simulated time and the
      pending interrupts.  The queue is the sequence a [List] stands for, and its
      insertion is [sorted_insert], which [LinkedList] proves of [SortedInsert].
      Handlers are named by a type [H]; the function [call] runs them, and the class
      [HandlerLaws] is their contract with the interrupt hardware, which the timer
      and the disk discharge.
    - [AddrSpace]: userprog/addrspace.cc.  Loading a NOFF program into frames of
      the physical memory of [Machine], saving and restoring state.
    - [Threads]: threads/thread.cc, scheduler.cc, synch.cc (semaphores) and the end
      of [StartProcess].  The kernel is a record with the threads, the ready list,
      the semaphores and the machine; its steps are a relation, [step], with an
      executable counterpart, [do_op].
    - [Disk]: machine/disk.cc and filesys/synchdisk.cc, above [Interrupts].  The
      class [BlockDevice] with the laws [BlockLaws] is what a disk promises to the
      file system; the synchronous disk is an instance.
    - [FileHdr], [OpenFile], [Directory], [FileSys]: the file system of filesys/,
      compiled without FILESYS_STUB, proved above any [BlockDevice] and so also
      above the synchronous disk.
    - [Console]: machine/console.cc and threads/synchcons.cc, above [Interrupts].  The
      class [ConsoleDevice] with the laws [ConsoleLaws] is what the console promises to
      the system calls; the synchronous console is an instance.
    - [UserMem]: [User2System], [System2User] and [Increase_ProgramCounter] of
      userprog/exception.cc, on the machine of [Machine].
    - [ConsoleCalls], [FileCalls]: the system calls of userprog/exception.cc on the console
      and on files, above any [ConsoleDevice] and any [BlockDevice].  The state [OS]
      is the machine, the console, the file system, the list of deleted objects and the
      disk.
    - [STable]: threads/stable.cc, the table of named semaphores above [Threads].
    - [Process]: threads/pcb.cc, ptable.cc, [StartProcess] and [StartProcess_2] of
      userprog/progtest.cc and the six system calls on processes and semaphores.  Each
      operation is cut where a [P] can block: [pending] says for each thread how its
      call goes on, and [proc_step] interleaves the pieces with all steps of [Threads].
    - [Syscalls]: [ExceptionHandler] and a round of [Machine::Run], for every
      implementation of the calls (the class [Calls]); [OS_calls] is the instance with the
      console and file calls, the calls on processes being a parameter there.
    - [Stubs]: test/start.c, the code in front of every user program, by its words, run on
      [Cpu] with the handler of [Syscalls].
    - [Network]: machine/network.cc, network/post.cc, threads/synchlist.cc.  Many machines,
      each a post office above [Interrupts]; [net_step] interleaves them.
    - [Coff2Noff]: bin/coff2noff.c, the converter that makes the program files, composed
      with the loader of [AddrSpace].  [Coff2Flat]: bin/coff2flat.c.
    - [ThreadTest]: threads/threadtest.cc, and how [main] runs it, above [Threads] and
      [Interrupts]: the world of the interrupt simulator is the kernel, the code that each
      thread has left and what was printed.
    - [StartUp]: [Initialize] and [main] (threads/system.cc, threads/main.cc) and the debug
      messages of threads/utility.cc, for every combination of the macros of a build (the
      record [Build]).
    - [UnixFiles]: the file calls of machine/sysdep.cc and the FILESYS_STUB classes of
      filesys/openfile.h and filesys/filesys.h.  The system calls of the host are the class
      [Unix], their manual pages the class [UnixLaws]; the module [Toy] is a host that
      satisfies the laws.
    - [FsTest]: filesys/fstest.cc, above [FileSys].
    - [Stacks]: the stacks of c++example, with the abstract class of inheritstack.h as the
      class [Stack] and its laws.
    - [Taps], [TapsOk], [TapsRun]: the user programs test/main.c, sinhvien.c and voinuoc.c.
      A program is a set of control points, one for each system call, with the call it
      makes there and where its result leads; the kernel is seen through its calls (the
      record [Sys]: files, descriptors, semaphores, processes, screen), and [step] lets one
      process make one call.  [TapsOk] is the work of the two taps on one line of the
      input, [TapsRun] all of it.
    - [UserProgs]: test/shell.c, above its four calls (the class [ShellCalls]), and
      test/matmult.c.
    - [HostCalls]: the file calls in the build with FILESYS_STUB, on the registers and the
      memory of a program and above [UnixFiles]; it connects [Taps] with the kernel.
    - [Execute]: bin/execute.c and system.c with int.h, instr.h and encode.h, the
      interpreter that runs user programs outside Nachos.  The state [Interp] has the
      registers, the memory and the two program counters; the system calls of the host are
      the class [InterpHost].  [ExecuteAgree] connects it with [Machine] and [Cpu]: the
      relation [agree] on states, and [regular_run] for the programs on which both do the
      same.
    - [Disasm]: bin/d.c and opstrings.c, the disassembler, with a reference assembler,
      [assemble], that reads its lines back.  [Listing]: the loaders of bin/disasm.c and
      bin/main.c, which read from a stream ([FILE]) that is closed, and the loop of disasm.c
      over the text; the section headers are what the object file library of the host finds,
      and are parameters.
    - [Switch]: threads/switch.c, switch.h and [StackAllocate].  [SWITCH] and [ThreadRoot]
      run instruction by instruction on a processor [X86] ([run_to_ret]); the functions
      that [ThreadRoot] calls are a parameter that keeps the calling convention
      ([returns_with]).  The versions for MIPS and Snake are tables of stores and loads.
    - [ConsoleTest]: [ConsoleTest] of userprog/progtest.cc, above [Console].
    - [MailTest]: network/nettest.cc, above [Network]; [mail_test_step] interleaves two
      machines that run it for each other.

    ** How the code is translated

    A C++ object is a record, a method a function from the object (and what it
    reads) to an [outcome] of the results and the new object.  A failed [ASSERT],
    [interrupt->Halt()] and operations without a meaning in C++ (an index out of
    range, a null pointer, an uninitialised read that matters) are the other three
    outcomes, so a theorem that says [= Ok _] also says that none of these happens.
    Memory from [new] that the source does not initialise is a parameter.  Integers
    are elements of [Z] kept in the range of their type, with the wrap-around
    written where the source can overflow.  Loops over a counter are recursions on
    the number of rounds left, so they need no fuel.  The other
    loops have a bound that the theorems prove to be enough, since they say that the
    result is [Ok]: walking a linked list ([List_Mapcar], [SortedInsert_loop]: the number
    of elements of the heap, which a well-formed list cannot exceed); firing the due
    interrupts ([check_all]: the number of pending interrupts, as what a handler
    schedules is never due at once); waiting for the disk ([wait_loop]: the same
    number); waiting for the console ([idle_bound]: the pending interrupts and the
    answers of the keyboard, one of which goes with each poll; [get_bound] for the
    characters that [Read] skips); skipping blanks in ReadInt ([skip_spaces]: the length of the
    input); the threads of the thread test ([run_threads]: the work they have left plus
    one); the loops of [Copy], [Print] and of the stacks (the bytes or elements left); the
    loops over [argv] (its length); the loop of [ConsoleTest] (the answers of the keyboard
    plus one).  The interpreter of [Execute] is run for a given number of instructions.
    Runs of the user programs have no fuel: [taps_serve]
    bounds the number of their steps ([most_steps]) and shows that one is always possible
    until they end.

    The console and the disk of [FileCalls] have clocks of their own, since each is
    proved above its own interrupt queue.  [Process] is about the build in which files
    are those of the host (FILESYS_STUB): [host] gives the content of a program file by
    its name, and is a parameter; [StartProcess_2] runs in one piece, without the
    semaphore [addrLock] that the source takes around the loading.  Addresses of
    objects are never used twice, so a pointer to a deleted object can be told; a call
    through it is undefined if the method reads the object, which [AddrSpace::SaveState],
    called by a thread that has deleted its address space, does not.

    ** What the theorems show

    - The processor: every instruction of every well-formed machine ends in a
      well-formed machine or in an exception, apart from two operations without a
      meaning ([OneInstruction_safe]); delay slots, restart after a trap, decoding,
      exact multiplication, exact overflow traps, and the places where the
      simulator differs from MIPS ([or_srl_deviations]).
    - Memory: translation branch by branch, read after write, totality of accesses,
      isolation of address spaces ([WriteMem_isolation]).
    - Data structures: linked lists refine queues and stable sorted insertion,
      bitmaps refine arrays of booleans.
    - Time: [OneTick] fires exactly the due interrupts in order, [Idle] advances or
      halts; a disk request returns after its latency with its data ([sector_io]).
    - Threads, over all interleavings of steps: each thread is in exactly one place
      and no scheduler routine can fail ([scheduler_safe]), values of semaphores are
      conserved, no wake-up is lost, a context switch is transparent to user
      programs; and one leak ([forgotten_thread_leaks]).
    - Loading: the virtual memory of a new process is its program image if the free frames
      of the memory suffice, with what happens otherwise ([AddrSpace_load_image]), and for a
      file from the converter the sections of the linker's output ([coff_program_loads]).
    - Files: [ReadAt] and [WriteAt] refine operations on a sequence of bytes,
      directories refine a bounded map, headers take and give back exactly their
      sectors; [Create] and [Remove] keep the disk consistent (every sector is free
      or owned once) and change the named file only, formatting establishes this;
      and the places where the code goes wrong ([Allocate_overruns_header],
      [Open_returns_table_entry], [frame_bitmap_too_large]).
    - The console: [Write] shows its bytes and [Read] delivers the lines that are typed
      (without the byte 0xFF, which gets lost) ([console_streams]).
    - System calls: copies between user and kernel memory are exact ([user_memory_copy]),
      numbers survive the console ([console_integers]), Read and Write act on the files of
      the disk as named, down to the SYSCALL instruction ([read_call_refines],
      [write_instruction]), and a program that calls a stub of start.o continues behind its
      call ([stub_calls], [start_exits]); Open, CreateFile, Close and the descriptors of the
      console are described on every branch, with what is wrong with them.
    - Processes, over all interleavings: what Join returns was passed to Exit
      ([join_returns_exit_code]); the table of semaphores is a map ([stable_refines]); and
      three ways in which the process table fails ([exec_slots_exhausted],
      [join_again_dangles], [exec_from_child_undefined]).
    - The network, over all interleavings of the machines: every mailbox is a queue
      ([mail_fifo]).
    - Tests and start-up: any number of threads that run [SimpleThread] take turns and all
      end ([SimpleThreads_terminate]), and nachos without arguments halts after 130 ticks
      ([ThreadTest_halts]); [Initialize] reads every option and [main] runs the commands in
      their order, but none of them in a build with THREADS
      ([threads_build_runs_no_command]); [Copy] and [Print] are inverse
      ([copy_then_print]) once a file can be opened, which it cannot
      ([tests_fail_on_new_table]); the stacks satisfy their contract.
    - Files of the host: an [OpenFile] is a sequence of bytes with a position
      ([host_file_refines]), and the ways in which the position is lost
      ([position_is_lost]); the file calls above it give the programs what [Taps] says
      ([host_calls_refine]).
    - The programs of the two taps, over all interleavings in which voinuoc has looked for
      the end of the output before sinhvien writes to it: they share out the volumes as the
      exercise asks, end, and never use a descriptor wrongly ([taps_serve]); in the other
      order they deadlock ([taps_deadlock_without_slices]).
    - The shell runs its commands if Read keeps its promise ([shell_runs_command]), and
      leaves its buffer on the console of the kernel ([shell_overruns]); the matrix
      multiplication gives the product ([matmult_product]).
    - The two interpreters of MIPS programs do the same on every program that keeps to their
      common instructions and to the rules of delay slots ([interpreters_agree]), and
      differ elsewhere ([interpreters_differ]); [start_program_arguments] shows what the
      offline one puts on the stack, [ilog2_spec] its logarithm.  A line of the
      disassembler determines what its instruction does ([dump_ascii_reassembles]), apart
      from five instructions whose operands it does not print ([dump_ascii_hides]), and a
      listing has the words that the interpreter fetches ([disasm_lists_memory]); but both
      tools read their file from a closed stream ([tools_read_closed_stream]).
    - The flat converter gives the image of a program without gaps ([flat_image]) and
      misplaces the others ([flat_misplaces]).
    - Context switches: a thread continues with the registers it had ([switch_back],
      [switch_back_risc], [switch_to_self]), and a new one runs what [StackAllocate] has
      prepared ([first_switch]).
    - The tests of the devices: the console test echoes up to the first q
      ([ConsoleTest_echoes]), the mail test exchanges its four mails and can only fail
      where a mail is awaited that has not come ([MailTest_exchange]).

    Findings about the code are theorems as well; each is stated as the code behaves.

    ** What is not modelled

    The debugger and the dumps of the machine (output only), machine/sysdep.cc apart from
    its calls on files and those of the network (the host), [SWITCH] for SPARC, which
    works with register windows, and [ThreadRoot] for MIPS and Snake, [Lock] and the other
    operations of [Condition] (empty bodies in the source), the destructors of the global
    tables, which run when the simulator ends, the program test/halt.c, which only calls the
    stub [Halt], and of the offline tools out.c, which prints object files with the structures of
    the host, the options of bin/main.c and bin/disasm.c, and the traces and histograms of
    execute.c. *)

From Stdlib Require Export ZArith Lia.
From stdpp Require Export base numbers list list_numbers option gmap.

Declare Scope nachos_scope.
Delimit Scope nachos_scope with nachos.
Open Scope Z_scope.

(** ** Outcomes of kernel code

    Every kernel routine that can stop the simulator returns an [outcome].
    [AssertFail] is a failed [ASSERT] (threads/utility.h), which calls
    [Abort]; [Halt] is [interrupt->Halt()], which ends in [Exit(0)] and never
    returns; [Undefined] marks a C++ operation with no defined meaning, such as
    a dereference of [NULL] or an access outside an array. *)

Inductive outcome (A : Type) : Type :=
| Ok (a : A)
| AssertFail
| Halt
| Undefined.
Arguments Ok {A} a.
Arguments AssertFail {A}.
Arguments Halt {A}.
Arguments Undefined {A}.

#[export] Instance outcome_ret : MRet outcome := @Ok.
#[export] Instance outcome_bind : MBind outcome := fun A B f m =>
  match m with
  | Ok a => f a
  | AssertFail => AssertFail
  | Halt => Halt
  | Undefined => Undefined
  end.
#[export] Instance outcome_fmap : FMap outcome := fun A B f m =>
  match m with
  | Ok a => Ok (f a)
  | AssertFail => AssertFail
  | Halt => Halt
  | Undefined => Undefined
  end.

(** [ASSERT(condition)] of threads/utility.h. *)
Definition ASSERT (condition : bool) : outcome unit :=
  if condition then Ok tt else AssertFail.

(** Reading an array cell or following a pointer: [None] has no meaning in C++. *)
Definition deref {A} (o : option A) : outcome A :=
  match o with Some a => Ok a | None => Undefined end.

Definition is_ok {A} (m : outcome A) : bool :=
  match m with Ok _ => true | _ => false end.

Lemma bind_Ok_inv {A B} (m : outcome A) (f : A -> outcome B) b :
  m ≫= f = Ok b <-> exists a, m = Ok a /\ f a = Ok b.
Proof.
  split.
  - destruct m; simpl; [eauto | discriminate..].
  - intros (a & -> & H). exact H.
Qed.

Lemma bind_Ok {A B} (a : A) (f : A -> outcome B) : Ok a ≫= f = f a.
Proof. reflexivity. Qed.

Lemma ASSERT_Ok_inv b u : ASSERT b = Ok u <-> b = true.
Proof. destruct b, u; simpl; split; congruence. Qed.

Lemma deref_Ok_inv {A} (o : option A) a : deref o = Ok a <-> o = Some a.
Proof. destruct o; simpl; split; congruence. Qed.

(** [inv_ok] takes apart every hypothesis of the form [_ = Ok _]. *)
Ltac inv_ok_step :=
  match goal with
  | H : (_ ≫= _) = Ok _ |- _ =>
      apply bind_Ok_inv in H;
      let a := fresh "r" in let E := fresh "E" in destruct H as (a & E & H)
  | H : ASSERT _ = Ok _ |- _ => apply ASSERT_Ok_inv in H
  | H : deref _ = Ok _ |- _ => apply deref_Ok_inv in H
  | H : Ok _ = Ok _ |- _ => injection H; clear H; intros
  | H : AssertFail = Ok _ |- _ => discriminate H
  | H : Halt = Ok _ |- _ => discriminate H
  | H : Undefined = Ok _ |- _ => discriminate H
  | H : mret _ = Ok _ |- _ => unfold mret, outcome_ret in H
  | H : (_, _) = (_, _) |- _ => injection H; clear H; intros
  | H : (let '(_, _) := ?r in _) = Ok _ |- _ => destruct r
  end.
Ltac inv_ok := repeat (inv_ok_step; subst; simpl in *).

(** [case_if] splits on the condition of an [if] on a boolean test. *)
Ltac case_if :=
  match goal with
  | |- context [if ?b then _ else _] => destruct b eqn:?
  | H : context [if ?b then _ else _] |- _ => destruct b eqn:?
  end.

(** [to_prop] turns boolean tests on [Z] and [nat] into propositions. *)
Ltac to_prop :=
  repeat match goal with
  | H : (_ =? _)%Z = true |- _ => apply Z.eqb_eq in H
  | H : (_ =? _)%Z = false |- _ => apply Z.eqb_neq in H
  | H : (_ <? _)%Z = true |- _ => apply Z.ltb_lt in H
  | H : (_ <? _)%Z = false |- _ => apply Z.ltb_ge in H
  | H : (_ <=? _)%Z = true |- _ => apply Z.leb_le in H
  | H : (_ <=? _)%Z = false |- _ => apply Z.leb_gt in H
  | H : negb _ = true |- _ => apply negb_true_iff in H
  | H : negb _ = false |- _ => apply negb_false_iff in H
  | H : (_ && _)%bool = true |- _ => apply andb_true_iff in H; destruct H
  | H : (_ || _)%bool = false |- _ => apply orb_false_iff in H; destruct H
  end.

(** [conjs] splits the conjunctions that are visible, without unfolding. *)
Ltac conjs := repeat match goal with |- _ /\ _ => split end.

(** ** Arrays indexed by C integers

    [l .[ i ]] is the cell of an array at an [int] index, [None] outside it;
    [l .[ i <- x ]] stores into a cell. *)

Definition lookupZ {A} (l : list A) (i : Z) : option A :=
  if i <? 0 then None else l !! Z.to_nat i.
Definition insertZ {A} (l : list A) (i : Z) (x : A) : list A :=
  if i <? 0 then l else <[Z.to_nat i := x]> l.
Definition lenZ {A} (l : list A) : Z := Z.of_nat (length l).

Notation "l .[ i ]" := (lookupZ l i) (at level 1, left associativity, format "l .[ i ]") : nachos_scope.
Notation "l .[ i <- x ]" := (insertZ l i x) (at level 1, left associativity, format "l .[ i <- x ]") : nachos_scope.
Open Scope nachos_scope.

Section ArrayLemmas.
Context {A : Type}.
Implicit Types (l : list A) (i j : Z).

Lemma lenZ_nonneg l : 0 <= lenZ l.
Proof. unfold lenZ. lia. Qed.

Lemma lookupZ_Some_range l i x : l.[i] = Some x -> 0 <= i < lenZ l.
Proof.
  unfold lookupZ, lenZ. destruct (Z.ltb_spec i 0); [discriminate|].
  intros H1%lookup_lt_Some. lia.
Qed.

Lemma lookupZ_is_Some l i : is_Some (l.[i]) <-> 0 <= i < lenZ l.
Proof.
  split.
  - intros [x Hx]. by eapply lookupZ_Some_range.
  - intros Hi. unfold lookupZ, lenZ in *.
    rewrite (proj2 (Z.ltb_ge i 0)) by lia. apply lookup_lt_is_Some. lia.
Qed.

Lemma lookupZ_range l i : 0 <= i < lenZ l -> exists x, l.[i] = Some x.
Proof. intros Hi. destruct (proj2 (lookupZ_is_Some l i) Hi) as [x Hx]. eauto. Qed.

Lemma lookupZ_None l i : i < 0 \/ lenZ l <= i -> l.[i] = None.
Proof.
  unfold lookupZ, lenZ. destruct (Z.ltb_spec i 0); [done|].
  intros [?|?]; [lia|]. apply lookup_ge_None. lia.
Qed.

Lemma lenZ_insertZ l i x : lenZ (l.[i <- x]) = lenZ l.
Proof. unfold insertZ, lenZ. case_if; [done|]. by rewrite length_insert. Qed.

Lemma lookupZ_insertZ_eq l i x : 0 <= i < lenZ l -> (l.[i <- x]).[i] = Some x.
Proof.
  unfold lookupZ, insertZ, lenZ. intros Hi.
  rewrite (proj2 (Z.ltb_ge i 0)) by lia. apply list_lookup_insert_eq. lia.
Qed.

Lemma lookupZ_insertZ_ne l i j x : i <> j -> (l.[i <- x]).[j] = l.[j].
Proof.
  unfold lookupZ, insertZ. intros Hij.
  destruct (Z.ltb_spec j 0); [done|].
  destruct (Z.ltb_spec i 0); [done|].
  apply list_lookup_insert_ne. lia.
Qed.

Lemma lookupZ_insertZ l i j x :
  (l.[i <- x]).[j] = if decide (i = j /\ 0 <= i < lenZ l) then Some x else l.[j].
Proof.
  case_decide as Hd.
  - destruct Hd as [<- ?]. by apply lookupZ_insertZ_eq.
  - destruct (decide (i = j)) as [<-|]; [|by apply lookupZ_insertZ_ne].
    rewrite (lookupZ_None l) by lia.
    apply lookupZ_None. rewrite lenZ_insertZ. lia.
Qed.

Lemma insertZ_insertZ l i x y : (l.[i <- x]).[i <- y] = l.[i <- y].
Proof. unfold insertZ. destruct (i <? 0); [done|]. apply list_insert_insert_eq. Qed.
Lemma insertZ_id l i x : l.[i] = Some x -> l.[i <- x] = l.
Proof. unfold insertZ, lookupZ. destruct (i <? 0); [done|]. apply list_insert_id. Qed.

Lemma lookupZ_ext l1 l2 :
  lenZ l1 = lenZ l2 -> (forall i, 0 <= i < lenZ l1 -> l1.[i] = l2.[i]) -> l1 = l2.
Proof.
  intros Hlen H. apply list_eq. intros k.
  destruct (decide (k < length l1)%nat) as [Hk|Hk].
  - specialize (H (Z.of_nat k)). unfold lookupZ, lenZ in H.
    rewrite (proj2 (Z.ltb_ge (Z.of_nat k) 0)) in H by lia.
    rewrite Nat2Z.id in H. apply H. lia.
  - unfold lenZ in Hlen. rewrite !lookup_ge_None_2 by lia. done.
Qed.

Lemma lookupZ_app_l l1 l2 i : i < lenZ l1 -> (l1 ++ l2).[i] = l1.[i].
Proof.
  unfold lookupZ, lenZ. intros Hi. destruct (Z.ltb_spec i 0); [done|].
  apply lookup_app_l. lia.
Qed.

Lemma lookupZ_app_r l1 l2 i : lenZ l1 <= i -> (l1 ++ l2).[i] = l2.[i - lenZ l1].
Proof.
  unfold lookupZ, lenZ. intros Hi.
  rewrite (proj2 (Z.ltb_ge i 0)), (proj2 (Z.ltb_ge (_ - _) 0)) by lia.
  rewrite lookup_app_r by lia. f_equal. lia.
Qed.

Lemma lenZ_app l1 l2 : lenZ (l1 ++ l2) = lenZ l1 + lenZ l2.
Proof. unfold lenZ. rewrite length_app. lia. Qed.

Lemma lookupZ_cons x l k :
  (x :: l).[k] = if k =? 0 then Some x else if k <? 0 then None else l.[k - 1].
Proof.
  unfold lookupZ. destruct (Z.eqb_spec k 0) as [->|]; [done|]. destruct (Z.ltb_spec k 0); [done|].
  rewrite (proj2 (Z.ltb_ge (k - 1) 0)) by lia. by replace (Z.to_nat k) with (S (Z.to_nat (k - 1))) by lia.
Qed.

Lemma lenZ_cons x l : lenZ (x :: l) = lenZ l + 1.
Proof. unfold lenZ. cbn [length]. lia. Qed.

Lemma lookupZ_elem_of l i x : l.[i] = Some x -> x ∈ l.
Proof. unfold lookupZ. case_if; [done|]. apply list_elem_of_lookup_2. Qed.

Lemma Forall_lookupZ (P : A -> Prop) l :
  Forall P l <-> forall i x, l.[i] = Some x -> P x.
Proof.
  rewrite Forall_lookup. unfold lookupZ. split.
  - intros H i x. case_if; [discriminate|]. apply H.
  - intros H i x Hx. apply (H (Z.of_nat i)).
    rewrite (proj2 (Z.ltb_ge _ 0)) by lia. by rewrite Nat2Z.id.
Qed.

Lemma Forall_insertZ (P : A -> Prop) l i x :
  Forall P l -> P x -> Forall P (l.[i <- x]).
Proof.
  intros Hl Hx. unfold insertZ. case_if; [done|]. by apply Forall_insert.
Qed.

End ArrayLemmas.

Create HintDb nachos.
Create Rewrite HintDb arr.
#[export] Hint Rewrite @lenZ_insertZ @lenZ_app : arr.
#[export] Hint Resolve lenZ_nonneg lookupZ_Some_range Forall_insertZ : nachos.

(** ** Blocks of bytes: [bcopy] and friends

    [slice l off n] reads [n] cells from [off]; [splice l off bs] is the array
    after [bcopy] of [bs] to offset [off]. *)

Definition slice {A} (l : list A) (off n : Z) : list A :=
  take (Z.to_nat n) (drop (Z.to_nat off) l).
Definition splice {A} (l : list A) (off : Z) (bs : list A) : list A :=
  take (Z.to_nat off) l ++ bs ++ drop (Z.to_nat off + length bs) l.

Section BlockLemmas.
Context {A : Type}.
Implicit Types (l bs : list A) (i j off n : Z).

Lemma lenZ_slice l off n :
  0 <= off -> 0 <= n -> off + n <= lenZ l -> lenZ (slice l off n) = n.
Proof. unfold slice, lenZ. intros. rewrite length_take, length_drop. lia. Qed.

Lemma lookupZ_slice l off n i :
  0 <= off -> 0 <= i < n -> (slice l off n).[i] = l.[off + i].
Proof.
  intros Hoff Hi. unfold slice, lookupZ.
  rewrite (proj2 (Z.ltb_ge i 0)), (proj2 (Z.ltb_ge (off + i) 0)) by lia.
  rewrite lookup_take_lt by lia. rewrite lookup_drop. f_equal. lia.
Qed.

Lemma lenZ_splice l off bs :
  0 <= off -> off + lenZ bs <= lenZ l -> lenZ (splice l off bs) = lenZ l.
Proof.
  unfold splice, lenZ. intros. rewrite !length_app, length_take, length_drop. lia.
Qed.

Lemma lookupZ_splice l off bs i :
  0 <= off -> off + lenZ bs <= lenZ l ->
  (splice l off bs).[i] =
    if (off <=? i) && (i <? off + lenZ bs) then bs.[i - off] else l.[i].
Proof.
  intros Hoff Hlen. unfold splice, lookupZ, lenZ in *.
  destruct (Z.ltb_spec i 0) as [Hi|Hi].
  { by rewrite (proj2 (Z.leb_gt off i)) by lia. }
  destruct (Z.leb_spec off i); simpl.
  - rewrite lookup_app_r by (rewrite length_take; lia).
    rewrite length_take.
    destruct (Z.ltb_spec i (off + Z.of_nat (length bs))).
    + rewrite (proj2 (Z.ltb_ge (i - off) 0)) by lia.
      rewrite lookup_app_l by lia. f_equal. lia.
    + rewrite lookup_app_r by lia. rewrite lookup_drop. f_equal. lia.
  - rewrite lookup_app_l by (rewrite length_take; lia).
    rewrite lookup_take_lt by lia. done.
Qed.

Lemma Forall_slice (P : A -> Prop) l off n : Forall P l -> Forall P (slice l off n).
Proof. intros H. unfold slice. by apply Forall_take, Forall_drop. Qed.

Lemma Forall_splice (P : A -> Prop) l off bs :
  Forall P l -> Forall P bs -> Forall P (splice l off bs).
Proof.
  intros Hl Hb. unfold splice. rewrite !Forall_app.
  repeat split; auto using Forall_take, Forall_drop.
Qed.

Lemma slice_splice_same l off bs :
  0 <= off -> off + lenZ bs <= lenZ l -> slice (splice l off bs) off (lenZ bs) = bs.
Proof.
  intros Hoff Hlen. pose proof (lenZ_nonneg bs).
  assert (Hl : lenZ (slice (splice l off bs) off (lenZ bs)) = lenZ bs).
  { apply lenZ_slice; [done..|]. by rewrite lenZ_splice. }
  apply lookupZ_ext; [done|]. rewrite Hl. intros i Hi.
  rewrite lookupZ_slice, lookupZ_splice by lia.
  rewrite (proj2 (Z.leb_le _ _)), (proj2 (Z.ltb_lt _ _)) by lia. simpl. f_equal. lia.
Qed.

Lemma slice_splice_disjoint l off bs off' n :
  0 <= off -> off + lenZ bs <= lenZ l -> 0 <= off' -> 0 <= n -> off' + n <= lenZ l ->
  off' + n <= off \/ off + lenZ bs <= off' ->
  slice (splice l off bs) off' n = slice l off' n.
Proof.
  intros. apply lookupZ_ext.
  - rewrite !lenZ_slice by (rewrite ?lenZ_splice; lia). done.
  - rewrite lenZ_slice by (rewrite ?lenZ_splice; lia). intros i Hi.
    rewrite !lookupZ_slice, lookupZ_splice by lia.
    destruct (Z.leb_spec off (off' + i)), (Z.ltb_spec (off' + i) (off + lenZ bs)); simpl; try done; lia.
Qed.

Lemma slice_all l n : n = lenZ l -> slice l 0 n = l.
Proof. intros ->. unfold slice, lenZ. rewrite Nat2Z.id. simpl. apply take_ge. lia. Qed.

(** Pieces of pieces. *)
Lemma slice_slice l off n i k : 0 <= off -> 0 <= i -> 0 <= k -> i + k <= n -> slice (slice l off n) i k = slice l (off + i) k.
Proof.
  intros. unfold slice. rewrite skipn_firstn_comm, firstn_firstn, skipn_skipn. f_equal; [lia|]. f_equal. lia.
Qed.
Lemma slice_drop l (n : nat) i k : 0 <= i -> slice (drop n l) i k = slice l (Z.of_nat n + i) k.
Proof. intros. unfold slice. rewrite skipn_skipn. f_equal. f_equal. lia. Qed.
Lemma slice_splice_n l bs off n : 0 <= off -> off + lenZ bs <= lenZ l -> n = lenZ bs -> slice (splice l off bs) off n = bs.
Proof. intros ? ? ->. by apply slice_splice_same. Qed.
Lemma slice_app_front l l' off n : 0 <= off -> 0 <= n -> off + n <= lenZ l -> slice (l ++ l') off n = slice l off n.
Proof.
  intros. unfold slice, lenZ in *. rewrite drop_app_le by lia. rewrite take_app_le by (rewrite length_drop; lia). done.
Qed.
Lemma slice_app_back l l' n : n = lenZ l' -> slice (l ++ l') (lenZ l) n = l'.
Proof. intros ->. unfold slice, lenZ. rewrite !Nat2Z.id, drop_app_length. apply take_ge. lia. Qed.

End BlockLemmas.

(** [bcopy] into and out of an array: outside of it the copy has no meaning. *)
Definition store {A} (mem : list A) (addr : Z) (bs : list A) : outcome (list A) :=
  if (0 <=? addr) && (addr + lenZ bs <=? lenZ mem) then Ok (splice mem addr bs) else Undefined.
Definition fetch {A} (mem : list A) (addr n : Z) : outcome (list A) :=
  if (0 <=? addr) && (0 <=? n) && (addr + n <=? lenZ mem) then Ok (slice mem addr n) else Undefined.

Lemma store_Ok {A} (mem : list A) a bs mem' :
  store mem a bs = Ok mem' <-> 0 <= a /\ a + lenZ bs <= lenZ mem /\ mem' = splice mem a bs.
Proof.
  unfold store. destruct (Z.leb_spec 0 a), (Z.leb_spec (a + lenZ bs) (lenZ mem)); simpl; split; try done;
    try (intros [= <-]; done); try (intros (? & ? & ->); done || lia).
Qed.

Lemma store_ok {A} (mem : list A) a bs :
  0 <= a -> a + lenZ bs <= lenZ mem -> store mem a bs = Ok (splice mem a bs).
Proof. intros. by apply store_Ok. Qed.

Lemma fetch_ok {A} (mem : list A) a n :
  0 <= a -> 0 <= n -> a + n <= lenZ mem -> fetch mem a n = Ok (slice mem a n).
Proof.
  intros. unfold fetch. by rewrite (proj2 (Z.leb_le 0 a)), (proj2 (Z.leb_le 0 n)), (proj2 (Z.leb_le (a + n) _)) by lia.
Qed.

(** ** Lists *)

(** An array made of blocks of the same size. *)
Lemma lenZ_concat {A} B (ls : list (list A)) :
  Forall (fun l => lenZ l = B) ls -> lenZ (concat ls) = B * lenZ ls.
Proof. induction 1 as [|l ls Hl _ IH]; [unfold lenZ; simpl; lia|]. cbn [concat]. rewrite lenZ_app, lenZ_cons, IH. lia. Qed.

Lemma lookupZ_concat {A} B (ls : list (list A)) k :
  0 < B -> Forall (fun l => lenZ l = B) ls -> 0 <= k -> (concat ls).[k] = l ← ls.[k / B]; l.[k mod B].
Proof.
  intros HB Hls. revert k. induction Hls as [|l ls Hl Hls IH]; intros k Hk; cbn [concat].
  - rewrite !lookupZ_None; [done|unfold lenZ; simpl; pose proof (Z.div_pos k B); lia|unfold lenZ; simpl; lia].
  - rewrite lookupZ_cons. destruct (Z.eqb_spec (k / B) 0) as [E|E].
    + apply Z.div_small_iff in E; [|lia]. rewrite lookupZ_app_l by lia. simpl. by rewrite Z.mod_small by lia.
    + assert (Hge : B <= k). { destruct (Z.le_gt_cases B k); [done|]. rewrite Z.div_small in E by lia. done. }
      rewrite lookupZ_app_r by lia. rewrite Hl, IH by lia. pose proof (Z.div_pos k B Hk HB).
      rewrite (proj2 (Z.ltb_ge (k / B) 0)) by lia.
      replace (k - B) with (k + (-1) * B) by lia. rewrite Z.div_add, Z.mod_add by lia. done.
Qed.

Lemma filter_none {A} (P : A -> Prop) `{!forall x, Decision (P x)} l :
  Forall (fun x => ~ P x) l -> filter P l = [].
Proof.
  induction 1 as [|x l Hx _ IH]; [done|]. rewrite filter_cons, IH. by case_decide.
Qed.

Lemma filter_all {A} (P : A -> Prop) `{!forall x, Decision (P x)} l :
  Forall P l -> filter P l = l.
Proof.
  induction 1 as [|x l Hx _ IH]; [done|]. rewrite filter_cons, IH. by case_decide.
Qed.

(** ** Arithmetic of utility.h *)

(** [divRoundUp(n,s)] of threads/utility.h, on C's truncating division. *)
Definition divRoundUp (n s : Z) : Z :=
  Z.quot n s + (if Z.rem n s >? 0 then 1 else 0).
Definition divRoundDown (n s : Z) : Z := Z.quot n s.

Lemma divRoundDown_div n s : 0 <= n -> 0 < s -> divRoundDown n s = n / s.
Proof. intros. unfold divRoundDown. apply Z.quot_div_nonneg; lia. Qed.

Lemma divRoundUp_spec n s :
  0 <= n -> 0 < s -> (divRoundUp n s - 1) * s < n <= divRoundUp n s * s.
Proof.
  intros Hn Hs. unfold divRoundUp.
  rewrite Z.quot_div_nonneg, Z.rem_mod_nonneg by lia.
  pose proof (Z.div_mod n s ltac:(lia)) as Hdm.
  pose proof (Z.mod_pos_bound n s Hs).
  rewrite Z.gtb_ltb. destruct (Z.ltb_spec 0 (n mod s)); nia.
Qed.

Lemma divRoundUp_nonneg n s : 0 <= n -> 0 < s -> 0 <= divRoundUp n s.
Proof. intros Hn Hs. pose proof (divRoundUp_spec n s Hn Hs). nia. Qed.
