(* ===== verification/Int32.v ===== *)
(** * 32-bit integers

    The i386 host of Makefile.dep (HOST_i386, little endian, ILP32) gives C's
    [int] and [unsigned int] 32 bits.  An [int] is a [Z] in [-2^31, 2^31) and an
    [unsigned int] a [Z] in [0, 2^32); a computation that leaves the range wraps
    around, written out with [wrap_s32] and [wrap_u32]. *)

From S2P Require Import Prelude.

Definition int32_min : Z := -2147483648.
Definition int32_max : Z := 2147483647.
Definition two31 : Z := 2147483648.
Definition two32 : Z := 4294967296.

Definition wrap_u32 (x : Z) : Z := x mod two32.
Definition wrap_s32 (x : Z) : Z := (x + two31) mod two32 - two31.

Definition int32 (x : Z) : Prop := int32_min <= x <= int32_max.
Definition uint32 (x : Z) : Prop := 0 <= x < two32.

#[export] Instance int32_dec x : Decision (int32 x).
Proof. unfold int32. apply _. Defined.
#[export] Instance uint32_dec x : Decision (uint32 x).
Proof. unfold uint32. apply _. Defined.

(** A [char] of the host is signed; memory cells hold the unsigned byte. *)
Definition byte (x : Z) : Prop := 0 <= x < 256.
#[export] Instance byte_dec x : Decision (byte x).
Proof. unfold byte. apply _. Defined.
Definition char_of_byte (x : Z) : Z := if x <? 128 then x else x - 256.
Definition byte_of_int (x : Z) : Z := x mod 256.

Ltac unfold_int32 := unfold int32, uint32, byte, int32_min, int32_max, two31, two32 in *.

Lemma wrap_s32_range x : int32 (wrap_s32 x).
Proof.
  unfold wrap_s32. unfold_int32.
  pose proof (Z.mod_pos_bound (x + 2147483648) 4294967296). lia.
Qed.

Lemma wrap_u32_range x : uint32 (wrap_u32 x).
Proof. unfold wrap_u32. unfold_int32. apply Z.mod_pos_bound. lia. Qed.

Lemma wrap_s32_id x : int32 x -> wrap_s32 x = x.
Proof. unfold wrap_s32. unfold_int32. intros. rewrite Z.mod_small; lia. Qed.

Lemma wrap_u32_id x : uint32 x -> wrap_u32 x = x.
Proof. unfold wrap_u32. intros. by apply Z.mod_small. Qed.

(** The wrapped value differs from the exact one by a multiple of 2^32. *)
Lemma wrap_s32_eq x : exists k, wrap_s32 x = x + k * two32.
Proof.
  unfold wrap_s32. unfold_int32. exists (- ((x + 2147483648) / 4294967296)).
  pose proof (Z.div_mod (x + 2147483648) 4294967296 ltac:(lia)). lia.
Qed.

Lemma wrap_u32_wrap_s32 x : wrap_u32 (wrap_s32 x) = wrap_u32 x.
Proof.
  destruct (wrap_s32_eq x) as [k ->]. unfold wrap_u32. apply Z_mod_plus_full.
Qed.

Lemma wrap_s32_wrap_u32 x : wrap_s32 (wrap_u32 x) = wrap_s32 x.
Proof.
  unfold wrap_s32, wrap_u32. f_equal. rewrite Zplus_mod_idemp_l. done.
Qed.

Lemma wrap_s32_unique x y : int32 y -> (exists k, y = x + k * two32) -> wrap_s32 x = y.
Proof.
  intros Hy [k ->]. rewrite <- (wrap_s32_id _ Hy).
  unfold wrap_s32. f_equal.
  replace (x + k * two32 + two31) with (x + two31 + k * two32) by lia.
  by rewrite Z_mod_plus_full.
Qed.

Lemma wrap_s32_congr x y : (x - y) mod two32 = 0 -> wrap_s32 x = wrap_s32 y.
Proof.
  intros H. unfold wrap_s32. f_equal.
  apply Z.mod_divide in H; [|done]. destruct H as [k Hk].
  replace (x + two31) with (y + two31 + k * two32) by lia. apply Z_mod_plus_full.
Qed.

Lemma wrap_s32_of_neg x : int32 x -> x < 0 -> wrap_u32 x = x + two32.
Proof.
  unfold wrap_u32. unfold_int32. intros.
  symmetry. apply (Z.mod_unique_pos _ _ (-1)); lia.
Qed.

Lemma wrap_u32_nonneg x : int32 x -> 0 <= x -> wrap_u32 x = x.
Proof. intros. apply wrap_u32_id. unfold_int32. lia. Qed.

(** *** Bits *)

(** [int32] says that all the bits from 31 on agree with the sign. *)
Lemma int32_shiftr x : int32 x <-> Z.shiftr x 31 = 0 \/ Z.shiftr x 31 = -1.
Proof.
  rewrite Z.shiftr_div_pow2 by lia. change (2 ^ 31) with 2147483648. unfold_int32.
  pose proof (Z.div_mod x 2147483648 ltac:(lia)).
  pose proof (Z.mod_pos_bound x 2147483648 ltac:(lia)). lia.
Qed.

Lemma int32_land x y : int32 x -> int32 y -> int32 (Z.land x y).
Proof. rewrite !int32_shiftr, Z.shiftr_land. intros [-> | ->] [-> | ->]; auto. Qed.

Lemma int32_lor x y : int32 x -> int32 y -> int32 (Z.lor x y).
Proof. rewrite !int32_shiftr, Z.shiftr_lor. intros [-> | ->] [-> | ->]; auto. Qed.

Lemma int32_lxor x y : int32 x -> int32 y -> int32 (Z.lxor x y).
Proof. rewrite !int32_shiftr, Z.shiftr_lxor. intros [-> | ->] [-> | ->]; auto. Qed.

Lemma int32_lnot x : int32 x -> int32 (Z.lnot x).
Proof. unfold Z.lnot. unfold_int32. lia. Qed.

Lemma int32_shiftr_closed x n : 0 <= n -> int32 x -> int32 (Z.shiftr x n).
Proof.
  intros Hn. rewrite !int32_shiftr. intros Hx.
  rewrite Z.shiftr_shiftr, Z.add_comm, <- Z.shiftr_shiftr by lia.
  destruct Hx as [-> | ->]; [left; apply Z.shiftr_0_l | right].
  rewrite Z.shiftr_div_pow2 by lia.
  rewrite <- (Z.div_unique_pos (-1) (2 ^ n) (-1) (2 ^ n - 1)); [done| |].
  - pose proof (Z.pow_pos_nonneg 2 n). lia.
  - lia.
Qed.

#[export] Hint Resolve wrap_s32_range wrap_u32_range int32_land int32_lor int32_lxor
  int32_lnot : nachos.

(** [x & 0x80000000] on an [int] tests the sign ([SIGN_BIT] of mipssim.h). *)
Definition SIGN_BIT : Z := 2147483648.
Definition sign_set (x : Z) : bool := negb (Z.land (wrap_u32 x) SIGN_BIT =? 0).

(** A mask of low bits. *)
Lemma land_low x n : 0 <= n -> Z.land x (2 ^ n - 1) = x mod 2 ^ n.
Proof. intros. rewrite <- Z.land_ones by done. by rewrite Z.ones_equiv, Z.sub_1_r. Qed.

Lemma land_low_range x k n : 0 <= n -> k = 2 ^ n - 1 -> 0 <= Z.land x k < 2 ^ n.
Proof. intros Hn ->. rewrite land_low by done. apply Z.mod_pos_bound. by apply Z.pow_pos_nonneg. Qed.

Lemma land_pow2_bit x n : 0 <= n -> negb (Z.land x (2 ^ n) =? 0) = Z.testbit x n.
Proof.
  intros Hn. destruct (Z.testbit x n) eqn:E.
  - apply negb_true_iff, Z.eqb_neq. intros H0.
    assert (Z.testbit (Z.land x (2 ^ n)) n = false) as H1 by by rewrite H0, Z.bits_0.
    rewrite Z.land_spec, E, Z.pow2_bits_true in H1 by lia. done.
  - apply negb_false_iff, Z.eqb_eq. apply Z.bits_inj'. intros k Hk.
    rewrite Z.land_spec, Z.bits_0.
    destruct (decide (k = n)) as [-> | Hne]; [by rewrite E|].
    rewrite Z.pow2_bits_false by lia. apply andb_false_r.
Qed.

Lemma sign_set_spec x : int32 x -> sign_set x = (x <? 0).
Proof.
  intros Hx. unfold sign_set. change SIGN_BIT with (2 ^ 31).
  rewrite land_pow2_bit by lia.
  destruct (Z.ltb_spec x 0).
  - rewrite wrap_s32_of_neg by done. apply Z.testbit_true; [lia|].
    change (2 ^ 31) with 2147483648. unfold_int32.
    replace ((x + 4294967296) / 2147483648) with 1; [done|].
    apply Z.div_unique with (x + 2147483648); lia.
  - rewrite wrap_u32_nonneg by done. apply Z.testbit_false; [lia|].
    change (2 ^ 31) with 2147483648. unfold_int32. by rewrite Z.div_small by lia.
Qed.

(** [x ^ y] has the sign bit of the exclusive or of the signs. *)
Lemma sign_set_lxor x y :
  int32 x -> int32 y -> sign_set (Z.lxor x y) = xorb (x <? 0) (y <? 0).
Proof.
  intros Hx Hy. rewrite sign_set_spec by auto with nachos.
  destruct (Z.ltb_spec x 0), (Z.ltb_spec y 0); simpl.
  - apply Z.ltb_ge. apply Z.lxor_nonneg. lia.
  - apply Z.ltb_lt. pose proof (Z.lxor_nonneg x y). lia.
  - apply Z.ltb_lt. pose proof (Z.lxor_nonneg x y). lia.
  - apply Z.ltb_ge. apply Z.lxor_nonneg. lia.
Qed.

(** *** Bytes *)

Lemma byte_of_int_range x : byte (byte_of_int x).
Proof. unfold byte_of_int, byte. apply Z.mod_pos_bound. lia. Qed.

Lemma byte_of_char b : byte b -> byte_of_int (char_of_byte b) = b.
Proof.
  unfold byte_of_int, char_of_byte, byte. intros. case_if; to_prop.
  - rewrite Z.mod_small; lia.
  - symmetry. apply (Z.mod_unique_pos _ _ (-1)); lia.
Qed.

Lemma char_of_byte_range b : byte b -> -128 <= char_of_byte b < 128.
Proof. unfold char_of_byte, byte. intros. case_if; to_prop; lia. Qed.

(** *** Little-endian words: [*(unsigned int * ) &mem[a]] on the i386 host *)

Fixpoint le_combine (bs : list Z) : Z :=
  match bs with
  | [] => 0
  | b :: bs' => b + 256 * le_combine bs'
  end.

Fixpoint le_split (n : nat) (w : Z) : list Z :=
  match n with
  | O => []
  | S n' => w mod 256 :: le_split n' (w / 256)
  end.

Lemma length_le_split n w : length (le_split n w) = n.
Proof. revert w. induction n; intros; simpl; auto. Qed.

Lemma lenZ_le_split n w : lenZ (le_split n w) = Z.of_nat n.
Proof. unfold lenZ. by rewrite length_le_split. Qed.

Lemma le_split_bytes n w : Forall byte (le_split n w).
Proof.
  revert w. induction n; intros; simpl; constructor; auto.
  unfold byte. apply Z.mod_pos_bound. lia.
Qed.

Lemma le_combine_split n w :
  le_combine (le_split n w) = w mod 256 ^ Z.of_nat n.
Proof.
  revert w. induction n as [|n IH]; intros w; simpl.
  - by rewrite Z.mod_1_r.
  - rewrite IH. rewrite Nat2Z.inj_succ, Z.pow_succ_r by lia.
    rewrite Z.rem_mul_r; [done|lia|]. apply Z.pow_pos_nonneg; lia.
Qed.

Lemma le_combine_bound bs :
  Forall byte bs -> 0 <= le_combine bs < 256 ^ lenZ bs.
Proof.
  unfold lenZ. induction 1 as [|b bs Hb _ IH]; [done|]; cbn [le_combine length].
  rewrite Nat2Z.inj_succ, Z.pow_succ_r by lia. unfold byte in Hb. lia.
Qed.

Lemma le_split_combine bs :
  Forall byte bs -> le_split (length bs) (le_combine bs) = bs.
Proof.
  induction 1 as [|b bs Hb _ IH]; [done|]; cbn [le_combine length le_split].
  unfold byte in Hb.
  replace ((b + 256 * le_combine bs) mod 256) with b.
  - f_equal. etransitivity; [|exact IH]. f_equal.
    symmetry. apply Z.div_unique with b; lia.
  - apply Z.mod_unique_pos with (le_combine bs); lia.
Qed.

(** A word stored and fetched again is the word modulo its width. *)
Lemma le_combine_split4 w : le_combine (le_split 4 w) = wrap_u32 w.
Proof. rewrite le_combine_split. reflexivity. Qed.
