(* ===== verification/LinkedList.v ===== *)
(** * Singly linked lists (threads/list.h, threads/list.cc)

    The code keeps [ListElement]s on the C++ heap, linked through [next], and a
    [List] with pointers to the first and last element.  The model keeps the
    heap: [heap A] maps locations to elements, [new] picks a fresh location and
    [delete] removes one.  [Rep] relates a heap and a [List] object to the
    sequence of (key, item) pairs it stands for, and each operation is proved to
    refine the corresponding operation on sequences, which is what the
    scheduler, the semaphores and the interrupt queue rely on. *)

From S2P Require Import Prelude.
From Stdlib Require Import Sorting.Sorted.

Section LinkedList.
Context {A : Type}.

(** [class ListElement] *)
Record ListElement := mkElem {
  elem_next : option positive;
  elem_key : Z;
  elem_item : A }.

(** [class List] *)
Record List := mkList {
  List_first : option positive;
  List_last : option positive }.

(** The C++ heap of list elements. *)
Abbreviation heap := (gmap positive ListElement).

(** [ListElement::ListElement] *)
Definition ListElement_new (itemPtr : A) (sortKey : Z) : ListElement :=
  mkElem None sortKey itemPtr.

Definition set_next (e : ListElement) (n : option positive) : ListElement :=
  mkElem n (elem_key e) (elem_item e).

(** [List::List] *)
Definition List_new : List := mkList None None.

(** [List::IsEmpty] *)
Definition List_IsEmpty (l : List) : bool :=
  match List_first l with None => true | Some _ => false end.

(** [List::Append] *)
Definition List_Append (h : heap) (l : List) (item : A) : outcome (heap * List) :=
  let element := fresh (dom h) in
  let h := <[element := ListElement_new item 0]> h in
  if List_IsEmpty l then Ok (h, mkList (Some element) (Some element))
  else
    last ← deref (List_last l);
    e ← deref (h !! last);
    Ok (<[last := set_next e (Some element)]> h, mkList (List_first l) (Some element)).

(** [List::Prepend] *)
Definition List_Prepend (h : heap) (l : List) (item : A) : outcome (heap * List) :=
  let element := fresh (dom h) in
  let e := ListElement_new item 0 in
  if List_IsEmpty l
  then Ok (<[element := e]> h, mkList (Some element) (Some element))
  else Ok (<[element := set_next e (List_first l)]> h,
           mkList (Some element) (List_last l)).

(** The loop of [List::SortedInsert]: [Some h'] when it links the element in and
    returns, [None] when it reaches the end of the list. *)
Fixpoint SortedInsert_loop (fuel : nat) (h : heap) (sortKey : Z)
    (element ptr : positive) : outcome (option heap) :=
  match fuel with
  | O => Undefined
  | S fuel =>
      e ← deref (h !! ptr);
      match elem_next e with
      | None => Ok None
      | Some n =>
          en ← deref (h !! n);
          if sortKey <? elem_key en then
            ee ← deref (h !! element);
            let h := <[element := set_next ee (elem_next e)]> h in
            Ok (Some (<[ptr := set_next e (Some element)]> h))
          else SortedInsert_loop fuel h sortKey element n
      end
  end.

(** [List::SortedInsert] *)
Definition List_SortedInsert (h : heap) (l : List) (item : A) (sortKey : Z)
    : outcome (heap * List) :=
  let element := fresh (dom h) in
  let e := ListElement_new item sortKey in
  let h := <[element := e]> h in
  match List_first l with
  | None => Ok (h, mkList (Some element) (Some element))
  | Some f =>
      ef ← deref (h !! f);
      if sortKey <? elem_key ef then
        Ok (<[element := set_next e (Some f)]> h, mkList (Some element) (List_last l))
      else
        r ← SortedInsert_loop (size h) h sortKey element f;
        match r with
        | Some h' => Ok (h', l)
        | None =>
            last ← deref (List_last l);
            el ← deref (h !! last);
            Ok (<[last := set_next el (Some element)]> h,
                mkList (List_first l) (Some element))
        end
  end.

(** [List::SortedRemove]: the removed item and its key, [None] for [NULL]. *)
Definition List_SortedRemove (h : heap) (l : List)
    : outcome (option (Z * A) * heap * List) :=
  match List_first l with
  | None => Ok (None, h, l)
  | Some element =>
      e ← deref (h !! element);
      let l' := if decide (List_first l = List_last l) then mkList None None
                else mkList (elem_next e) (List_last l) in
      Ok (Some (elem_key e, elem_item e), delete element h, l')
  end.

(** [List::Remove] is [SortedRemove(NULL)]: the key is dropped. *)
Definition List_Remove (h : heap) (l : List) : outcome (option A * heap * List) :=
  '(r, h', l') ← List_SortedRemove h l;
  Ok (option_map snd r, h', l').

(** [List::Mapcar], with [func] as a state transformer. *)
Fixpoint Mapcar_loop {S} (fuel : nat) (h : heap) (func : A -> S -> S)
    (ptr : option positive) (s : S) : outcome S :=
  match ptr with
  | None => Ok s
  | Some p =>
      match fuel with
      | O => Undefined
      | S fuel =>
          e ← deref (h !! p);
          Mapcar_loop fuel h func (elem_next e) (func (elem_item e) s)
      end
  end.

Definition List_Mapcar {S} (h : heap) (l : List) (func : A -> S -> S) (s : S) : outcome S :=
  Mapcar_loop (size h) h func (List_first l) s.

(** [List::~List]: remove until the list is empty. *)
Fixpoint List_delete (fuel : nat) (h : heap) (l : List) : outcome heap :=
  match fuel with
  | O => Undefined
  | S fuel =>
      '(r, h', l') ← List_Remove h l;
      match r with
      | None => Ok h'
      | Some _ => List_delete fuel h' l'
      end
  end.

(** ** The sequences the lists stand for *)

(** What [SortedInsert] computes on the sequence: the element goes in front of
    the first one with a larger key. *)
Fixpoint sorted_insert (k : Z) (x : A) (xs : list (Z * A)) : list (Z * A) :=
  match xs with
  | [] => [(k, x)]
  | y :: ys => if k <? y.1 then (k, x) :: xs else y :: sorted_insert k x ys
  end.

Definition key_le (x y : Z * A) : Prop := x.1 <= y.1.
Definition sorted (xs : list (Z * A)) : Prop := StronglySorted key_le xs.

(** [chain h p ps xs]: from pointer [p], the elements at [ps] hold [xs]. *)
Fixpoint chain (h : heap) (p : option positive) (ps : list positive)
    (xs : list (Z * A)) : Prop :=
  match ps, xs with
  | [], [] => p = None
  | a :: ps', x :: xs' =>
      p = Some a /\
      exists e, h !! a = Some e /\ (elem_key e, elem_item e) = x /\ chain h (elem_next e) ps' xs'
  | _, _ => False
  end.

Record Rep (h : heap) (l : List) (ps : list positive) (xs : list (Z * A)) : Prop := {
  Rep_chain : chain h (List_first l) ps xs;
  Rep_nodup : NoDup ps;
  Rep_last : List_last l = last ps }.

(** Elements outside [ps] are not touched. *)
Definition same_outside (ps : list positive) (h h' : heap) : Prop :=
  forall a, a ∉ ps -> h' !! a = h !! a.

(** *** Facts about [sorted_insert] *)

Lemma sorted_insert_perm k x xs : sorted_insert k x xs ≡ₚ (k, x) :: xs.
Proof.
  induction xs as [|y ys IH]; simpl; [done|].
  case_if; [done|]. rewrite IH. apply Permutation_swap.
Qed.

Lemma sorted_insert_sorted k x xs : sorted xs -> sorted (sorted_insert k x xs).
Proof.
  unfold sorted. induction 1 as [|y ys Hs IH Hall]; simpl.
  - repeat constructor.
  - destruct (Z.ltb_spec k y.1).
    + constructor; [by constructor|]. constructor; [unfold key_le; simpl; lia|].
      eapply Forall_impl; [exact Hall|]. unfold key_le. simpl. lia.
    + constructor; [done|]. rewrite sorted_insert_perm. constructor; [|done].
      unfold key_le. simpl. lia.
Qed.

(** Equal keys stay in arrival order: the sequence is a queue for each key. *)
Lemma sorted_insert_stable k x xs k' :
  sorted xs ->
  filter (fun y => y.1 = k') (sorted_insert k x xs) =
  filter (fun y => y.1 = k') xs ++ (if decide (k = k') then [(k, x)] else []).
Proof.
  unfold sorted. induction 1 as [|y ys Hs IH Hall]; simpl.
  - rewrite filter_cons. simpl. case_decide; done.
  - destruct (Z.ltb_spec k y.1) as [Hlt|Hge].
    + rewrite (filter_cons _ (k, x)). simpl.
      destruct (decide (k = k')) as [<-|Hne]; [|by rewrite app_nil_r].
      assert (filter (fun z => z.1 = k) (y :: ys) = []) as ->; [|done].
      apply filter_none. constructor; [lia|].
      eapply Forall_impl; [exact Hall|]. unfold key_le. simpl. lia.
    + rewrite !filter_cons, IH. by destruct (decide (y.1 = k')).
Qed.

(** *** Facts about [chain] *)

Lemma chain_length h p ps xs : chain h p ps xs -> length ps = length xs.
Proof.
  revert p xs. induction ps as [|a ps IH]; intros p [|x xs]; simpl; try done.
  intros (_ & e & _ & _ & H). f_equal. eauto.
Qed.

Lemma chain_dom h p ps xs a : chain h p ps xs -> a ∈ ps -> is_Some (h !! a).
Proof.
  revert p xs. induction ps as [|b ps IH]; intros p xs Hc Hin.
  { by apply not_elem_of_nil in Hin. }
  destruct xs as [|x xs]; [done|]. destruct Hc as (_ & e & He & _ & Hc).
  apply elem_of_cons in Hin as [-> | Hin]; eauto.
Qed.

Lemma chain_ext h h' p ps xs :
  (forall a, a ∈ ps -> h' !! a = h !! a) -> chain h p ps xs -> chain h' p ps xs.
Proof.
  revert p xs. induction ps as [|b ps IH]; intros p [|x xs] Hext; simpl; try done.
  intros (-> & e & He & Hx & H). split; [done|]. exists e.
  rewrite Hext by set_solver. conjs; try done. apply IH; [|done]. set_solver.
Qed.

Lemma chain_insert_fresh h p ps xs a e :
  a ∉ ps -> chain h p ps xs -> chain (<[a := e]> h) p ps xs.
Proof.
  intros Ha. apply chain_ext. intros b Hb. apply lookup_insert_ne. set_solver.
Qed.

Lemma chain_fuel h p ps xs : chain h p ps xs -> NoDup ps -> (length ps <= size h)%nat.
Proof.
  intros Hc Hnd.
  rewrite <- size_dom, <- (size_list_to_set (C := gset positive) ps) by done.
  apply subseteq_size. intros a Ha. apply elem_of_dom.
  eapply chain_dom; [exact Hc|]. set_solver.
Qed.

(** Linking a fresh element [b] after the last element [a] of a chain. *)
Lemma chain_link_last h p ps xs a e b k x :
  chain h p ps xs -> NoDup ps -> last ps = Some a -> h !! a = Some e ->
  b ∉ ps -> h !! b = Some (mkElem None k x) ->
  chain (<[a := set_next e (Some b)]> h) p (ps ++ [b]) (xs ++ [(k, x)]).
Proof.
  revert p xs. induction ps as [|c ps IH]; intros p [|y xs]; simpl; try done.
  intros (-> & e' & He' & Hy & Hc) Hnd Hlast He Hb Hbe.
  apply NoDup_cons in Hnd as [Hcps Hnd].
  destruct ps as [|d ps].
  - destruct xs; [|done]. simpl in Hlast. assert (c = a) as -> by congruence.
    assert (e' = e) as -> by congruence.
    split; [done|]. exists (set_next e (Some b)).
    rewrite lookup_insert_eq. conjs; try done.
    simpl. split; [done|]. eexists. rewrite lookup_insert_ne by set_solver. eauto.
  - assert (Hac : a <> c).
    { intros ->. by apply Hcps, last_Some_elem_of. }
    split; [done|]. exists e'. rewrite lookup_insert_ne by done.
    conjs; try done. apply IH; try done. set_solver.
Qed.

Lemma fresh_notin_chain h p ps xs : chain h p ps xs -> fresh (dom h) ∉ ps.
Proof.
  intros Hc Hin. destruct (chain_dom _ _ _ _ _ Hc Hin) as [e He].
  apply (is_fresh (dom h)). apply elem_of_dom. eauto.
Qed.

Lemma fresh_lookup (h : heap) : h !! fresh (dom h) = None.
Proof. apply not_elem_of_dom. apply is_fresh. Qed.

Lemma Rep_empty_iff h l ps xs : Rep h l ps xs -> List_IsEmpty l = true <-> xs = [].
Proof.
  intros [Hc _ _]. unfold List_IsEmpty. destruct ps, xs; simpl in Hc; try done.
  - by rewrite Hc.
  - destruct Hc as [-> _]. done.
Qed.

Lemma Rep_last_lookup h l ps xs :
  Rep h l ps xs -> xs <> [] ->
  exists a e, List_last l = Some a /\ last ps = Some a /\ a ∈ ps /\ h !! a = Some e.
Proof.
  intros HR Hxs. destruct HR as [Hc Hnd Hl].
  pose proof (chain_length _ _ _ _ Hc) as Hlen.
  destruct (last ps) as [a|] eqn:Ha.
  - pose proof (last_Some_elem_of _ _ Ha) as Hin.
    destruct (chain_dom _ _ _ _ _ Hc Hin) as [e He]. eauto 10.
  - apply last_None in Ha as ->. destruct xs; done.
Qed.

(** Splits a non-empty represented list into its first element and the rest. *)
Lemma Rep_cons_inv h l ps x xs :
  Rep h l ps (x :: xs) ->
  exists a e ps', ps = a :: ps' /\ List_first l = Some a /\ h !! a = Some e /\
    (elem_key e, elem_item e) = x /\ chain h (elem_next e) ps' xs.
Proof.
  intros [Hc _ _]. destruct ps as [|a ps]; simpl in Hc; [done|].
  destruct Hc as (Hf & e & He & Hx & Hc'). eauto 10.
Qed.

(** ** Refinement of each operation *)

(** Creating a list gives the empty sequence. *)
Lemma List_new_refines h : Rep h List_new [] [].
Proof. split; [done|constructor|done]. Qed.

Lemma List_Append_refines h l ps xs item :
  Rep h l ps xs ->
  exists h' l' p, List_Append h l item = Ok (h', l') /\
    Rep h' l' (ps ++ [p]) (xs ++ [(0, item)]) /\
    h !! p = None /\ same_outside (p :: ps) h h'.
Proof.
  intros HR. pose proof HR as [Hc Hnd Hl].
  set (p := fresh (dom h)).
  pose proof (fresh_lookup h) as Hp. pose proof (fresh_notin_chain _ _ _ _ Hc) as Hpps.
  fold p in Hp, Hpps. unfold List_Append. fold p.
  destruct (List_IsEmpty l) eqn:Hemp.
  - apply (Rep_empty_iff _ _ _ _ HR) in Hemp as ->.
    pose proof (chain_length _ _ _ _ Hc) as Hlen. destruct ps; [|done].
    do 2 eexists. exists p. conjs; [done| |done|].
    + split; simpl; [|apply NoDup_singleton|done]. split; [done|].
      eexists. rewrite lookup_insert_eq. eauto.
    + intros a Ha. rewrite lookup_insert_ne by set_solver. done.
  - destruct (Rep_last_lookup _ _ _ _ HR) as (a & e & Hla & Hlast & Hin & He).
    { intros Hx. rewrite (proj2 (Rep_empty_iff _ _ _ _ HR) Hx) in Hemp. done. }
    rewrite Hla. simpl. rewrite lookup_insert_ne by set_solver. rewrite He. simpl.
    do 2 eexists. exists p. conjs; [done| |done|].
    + split; simpl.
      * apply chain_link_last; try done.
        -- by apply chain_insert_fresh.
        -- rewrite lookup_insert_ne by set_solver. done.
        -- apply lookup_insert_eq.
      * apply NoDup_app. conjs; [done|set_solver|apply NoDup_singleton].
      * by rewrite last_snoc.
    + intros b Hb. rewrite !lookup_insert_ne by set_solver. done.
Qed.

Lemma List_Prepend_refines h l ps xs item :
  Rep h l ps xs ->
  exists h' l' p, List_Prepend h l item = Ok (h', l') /\
    Rep h' l' (p :: ps) ((0, item) :: xs) /\
    h !! p = None /\ same_outside [p] h h'.
Proof.
  intros HR. pose proof HR as [Hc Hnd Hl].
  set (p := fresh (dom h)).
  pose proof (fresh_lookup h) as Hp. pose proof (fresh_notin_chain _ _ _ _ Hc) as Hpps.
  fold p in Hp, Hpps. unfold List_Prepend. fold p.
  destruct (List_IsEmpty l) eqn:Hemp.
  - apply (Rep_empty_iff _ _ _ _ HR) in Hemp as ->.
    pose proof (chain_length _ _ _ _ Hc) as Hlen. destruct ps; [|done].
    do 2 eexists. exists p. conjs; [done| |done|].
    + split; simpl; [|apply NoDup_singleton|done]. split; [done|].
      eexists. rewrite lookup_insert_eq. eauto.
    + intros a Ha. rewrite lookup_insert_ne by set_solver. done.
  - do 2 eexists. exists p. conjs; [done| |done|].
    + split; simpl.
      * split; [done|]. eexists. rewrite lookup_insert_eq. conjs; [done..|].
        simpl. by apply chain_insert_fresh.
      * by apply NoDup_cons.
      * rewrite Hl. destruct ps; [|done]. destruct xs; [|done].
        simpl in Hc. unfold List_IsEmpty in Hemp. by rewrite Hc in Hemp.
    + intros a Ha. rewrite lookup_insert_ne by set_solver. done.
Qed.

Lemma List_SortedRemove_refines h l ps xs :
  Rep h l ps xs ->
  exists h' l', List_SortedRemove h l = Ok (head xs, h', l') /\
    Rep h' l' (tail ps) (tail xs) /\ same_outside ps h h'.
Proof.
  intros HR. destruct xs as [|x xs].
  - pose proof HR as [Hc Hnd Hl]. pose proof (chain_length _ _ _ _ Hc).
    destruct ps; [|done]. unfold List_SortedRemove. simpl in Hc. rewrite Hc.
    do 2 eexists. conjs; [done..|]. intros a _. done.
  - destruct (Rep_cons_inv _ _ _ _ _ HR) as (a & e & ps' & -> & Hf & He & Hx & Hc').
    pose proof HR as [_ Hnd Hl]. apply NoDup_cons in Hnd as [Ha Hnd].
    unfold List_SortedRemove. rewrite Hf. simpl. rewrite He. simpl.
    do 2 eexists. conjs; [by rewrite Hx| |].
    + assert (Hrest : chain (delete a h) (elem_next e) ps' xs).
      { eapply chain_ext; [|exact Hc']. intros b Hb. apply lookup_delete_ne. set_solver. }
      rewrite Hl. case_decide as Hd.
      * destruct ps' as [|b ps'].
        -- destruct xs; [|done]. split; [done|constructor|done].
        -- simpl in Hd. exfalso. symmetry in Hd.
           apply last_Some_elem_of in Hd. set_solver.
      * split; simpl; [done..|]. destruct ps' as [|b ps']; [|done]. done.
    + intros b Hb. apply lookup_delete_ne. set_solver.
Qed.

Lemma List_Remove_refines h l ps xs :
  Rep h l ps xs ->
  exists h' l', List_Remove h l = Ok (option_map snd (head xs), h', l') /\
    Rep h' l' (tail ps) (tail xs) /\ same_outside ps h h'.
Proof.
  intros HR. destruct (List_SortedRemove_refines _ _ _ _ HR) as (h' & l' & E & HR' & Ho).
  exists h', l'. unfold List_Remove. rewrite E. conjs; done.
Qed.

(** The loop of [SortedInsert], started at an element not above the key. *)
Lemma SortedInsert_loop_spec fuel h sortKey element it a ps x xs :
  (length ps < fuel)%nat ->
  chain h (Some a) (a :: ps) (x :: xs) -> NoDup (a :: ps) ->
  element ∉ a :: ps -> h !! element = Some (mkElem None sortKey it) ->
  (exists h' ps1 ps2, SortedInsert_loop fuel h sortKey element a = Ok (Some h') /\
     ps = ps1 ++ ps2 /\ ps2 <> [] /\
     chain h' (Some a) (a :: ps1 ++ element :: ps2) (x :: sorted_insert sortKey it xs) /\
     same_outside (element :: a :: ps) h h') \/
  (SortedInsert_loop fuel h sortKey element a = Ok None /\
     sorted_insert sortKey it xs = xs ++ [(sortKey, it)]).
Proof.
  revert h a ps x xs. induction fuel as [|fuel IH]; intros h a ps x xs Hfuel Hc Hnd Hel Hit; [lia|].
  simpl in Hc. destruct Hc as (_ & e & He & Hx & Hc). simpl. rewrite He. simpl.
  destruct ps as [|b ps], xs as [|y xs]; simpl in Hc; try done.
  { rewrite Hc. right. done. }
  destruct Hc as (Hn & eb & Heb & Hy & Hc). rewrite Hn. simpl. rewrite Heb. simpl.
  assert (Hk : elem_key eb = y.1) by (by rewrite <- Hy). rewrite Hk.
  apply NoDup_cons in Hnd as [Ha Hnd].
  destruct (sortKey <? y.1) eqn:Hlt.
  - left. rewrite Hit. eexists _, [], (b :: ps).
    conjs; [reflexivity|done|done|done| |].
    + exists (set_next e (Some element)).
      rewrite lookup_insert_eq. conjs; [done|by rewrite <- Hx|]. simpl.
      split; [done|]. exists (set_next (mkElem None sortKey it) (Some b)).
      rewrite lookup_insert_ne by set_solver. rewrite lookup_insert_eq.
      conjs; [done..|]. exists eb.
      rewrite !lookup_insert_ne by set_solver. conjs; [done..|].
      eapply chain_ext; [|exact Hc]. intros c Hin.
      apply NoDup_cons in Hnd as [Hb _]. rewrite !lookup_insert_ne by set_solver. done.
    + intros c Hin. rewrite !lookup_insert_ne by set_solver. done.
  - destruct (IH h b ps y xs) as [(h' & ps1 & ps2 & E & Hps & Hne & Hch & Ho)|[E Hend]].
    + simpl in Hfuel. lia.
    + simpl. split; [done|]. eauto.
    + done.
    + set_solver.
    + done.
    + left. exists h', (b :: ps1), ps2. conjs; [done|by rewrite Hps|done|done| |].
      * exists e. rewrite Ho by set_solver.
        conjs; [done..|]. rewrite Hn. exact Hch.
      * intros c Hin. apply Ho. set_solver.
    + right. split; [done|]. by rewrite Hend.
Qed.

(** Shared end of the two cases that put the element last. *)
Lemma Rep_link_last h l ps xs p k it a e :
  Rep h l ps xs -> xs <> [] -> p ∉ ps -> last ps = Some a -> h !! a = Some e ->
  let h1 := <[p := mkElem None k it]> h in
  Rep (<[a := set_next e (Some p)]> h1) (mkList (List_first l) (Some p))
      (ps ++ [p]) (xs ++ [(k, it)]).
Proof.
  intros [Hc Hnd Hl] Hxs Hp Hlast He h1.
  pose proof (last_Some_elem_of _ _ Hlast) as Hin.
  split; simpl.
  - apply chain_link_last; try done.
    + by apply chain_insert_fresh.
    + unfold h1. rewrite lookup_insert_ne by set_solver. done.
    + apply lookup_insert_eq.
  - apply NoDup_app. conjs; [done|set_solver|apply NoDup_singleton].
  - by rewrite last_snoc.
Qed.

Lemma List_SortedInsert_refines h l ps xs it k :
  Rep h l ps xs ->
  exists h' l' p ps', List_SortedInsert h l it k = Ok (h', l') /\
    Rep h' l' ps' (sorted_insert k it xs) /\ ps' ≡ₚ p :: ps /\
    h !! p = None /\ same_outside (p :: ps) h h'.
Proof.
  intros HR. pose proof HR as [Hc Hnd Hl].
  set (p := fresh (dom h)).
  pose proof (fresh_lookup h) as Hp. pose proof (fresh_notin_chain _ _ _ _ Hc) as Hpps.
  fold p in Hp, Hpps. unfold List_SortedInsert. fold p.
  destruct xs as [|x xs].
  { pose proof (chain_length _ _ _ _ Hc). destruct ps; [|done]. simpl in Hc. rewrite Hc.
    do 2 eexists. exists p, [p]. conjs; [done| |done|done|].
    - split; simpl; [|apply NoDup_singleton|done]. split; [done|].
      eexists. rewrite lookup_insert_eq. eauto.
    - intros a Ha. rewrite lookup_insert_ne by set_solver. done. }
  destruct (Rep_cons_inv _ _ _ _ _ HR) as (a & e & ps' & -> & Hf & He & Hx & Hc').
  rewrite Hf. simpl. rewrite lookup_insert_ne by set_solver. rewrite He. simpl.
  assert (Hk : elem_key e = x.1) by (by rewrite <- Hx). rewrite Hk.
  destruct (k <? x.1) eqn:Hlt.
  - do 2 eexists. exists p, (p :: a :: ps'). conjs; [done| |done|done|].
    + split; simpl; [|by apply NoDup_cons|done].
      split; [done|]. eexists. rewrite lookup_insert_eq. conjs; [done..|].
      exists e. rewrite !lookup_insert_ne by set_solver.
      conjs; [done..|]. do 2 (apply chain_insert_fresh; [set_solver|]). done.
    + intros b Hb. rewrite !lookup_insert_ne by set_solver. done.
  - set (h1 := <[p := ListElement_new it k]> h).
    assert (Hc1 : chain h1 (Some a) (a :: ps') (x :: xs)).
    { unfold h1. apply chain_insert_fresh; [done|]. by rewrite <- Hf. }
    destruct (SortedInsert_loop_spec (size h1) h1 k p it a ps' x xs)
      as [(h' & ps1 & ps2 & E & -> & Hne & Hch & Ho)|[E Hend]]; try done.
    + pose proof (chain_fuel _ _ _ _ Hc1 Hnd). simpl in *. lia.
    + apply lookup_insert_eq.
    + rewrite E. simpl. exists h', l, p, (a :: ps1 ++ p :: ps2).
      assert (Hperm : a :: ps1 ++ p :: ps2 ≡ₚ p :: a :: ps1 ++ ps2).
      { rewrite <- Permutation_middle. apply Permutation_swap. }
      conjs; [done| |done|done|].
      * split; [by rewrite Hf|rewrite Hperm; by apply NoDup_cons|].
        rewrite Hl. rewrite !(app_comm_cons _ _ a).
        destruct ps2 as [|b ps2]; [done|]. rewrite !last_app. simpl. done.
      * intros b Hb. rewrite Ho by set_solver. unfold h1.
        rewrite lookup_insert_ne by set_solver. done.
    + rewrite E. simpl. rewrite Hend.
      destruct (Rep_last_lookup _ _ _ _ HR) as (b & eb & Hlb & Hlast & Hin & Heb); [done|].
      rewrite Hlb. simpl. unfold h1. rewrite lookup_insert_ne by set_solver. rewrite Heb. simpl.
      do 2 eexists. exists p, ((a :: ps') ++ [p]). conjs; [done| | |done|].
      * rewrite <- Hf. apply (Rep_link_last h l (a :: ps') (x :: xs)); done.
      * symmetry. apply Permutation_cons_append.
      * intros c Hb. rewrite !lookup_insert_ne by set_solver. done.
Qed.

Lemma Mapcar_loop_spec {S} fuel h (func : A -> S -> S) p ps xs s :
  (length ps <= fuel)%nat -> chain h p ps xs ->
  Mapcar_loop fuel h func p s = Ok (foldl (fun s x => func x.2 s) s xs).
Proof.
  revert p ps xs s. induction fuel as [|fuel IH]; intros p [|a ps] [|x xs] s Hf Hc;
    simpl in *; try done; try lia; try (by subst p).
  destruct Hc as (-> & e & He & Hx & Hc). rewrite He. simpl. subst x. simpl.
  apply (IH _ ps); [lia|done].
Qed.

Lemma List_Mapcar_refines {S} h l ps xs (func : A -> S -> S) s :
  Rep h l ps xs ->
  List_Mapcar h l func s = Ok (foldl (fun s x => func x.2 s) s xs).
Proof.
  intros [Hc Hnd Hl]. eapply Mapcar_loop_spec; [|exact Hc]. by eapply chain_fuel.
Qed.

(** [~List] frees exactly the elements of the list. *)
Lemma List_delete_refines fuel h l ps xs :
  (length xs < fuel)%nat -> Rep h l ps xs ->
  exists h', List_delete fuel h l = Ok h' /\ same_outside ps h h' /\ (forall a, a ∈ ps -> h' !! a = None).
Proof.
  revert h l ps xs. induction fuel as [|fuel IH]; intros h l ps xs Hf HR; [lia|].
  simpl. unfold List_Remove. destruct xs as [|x xs].
  - pose proof HR as [Hc _ _]. pose proof (chain_length _ _ _ _ Hc). destruct ps; [|done].
    simpl in Hc. unfold List_SortedRemove. rewrite Hc. simpl.
    exists h. conjs; [done|by intros ??|set_solver].
  - destruct (Rep_cons_inv _ _ _ _ _ HR) as (a & e & ps' & -> & Hfst & He & Hx & Hc').
    destruct (List_SortedRemove_refines _ _ _ _ HR) as (h1 & l1 & E & HR1 & Ho1).
    rewrite E. simpl. destruct (IH h1 l1 ps' xs) as (h' & E' & Ho' & Hgone); [simpl in Hf; lia|done|].
    exists h'. conjs; [done| |].
    + intros b Hb. rewrite Ho' by set_solver. apply Ho1. done.
    + intros b [-> | Hb]%elem_of_cons; [|by apply Hgone].
      pose proof HR as [_ Hnd _]. apply NoDup_cons in Hnd as [Hna _].
      rewrite Ho' by done. unfold List_SortedRemove in E. rewrite Hfst in E. simpl in E.
      rewrite He in E. simpl in E. inv_ok. apply lookup_delete_eq.
Qed.

(** ** Properties *)

(** A sequence of [Append]s and a sequence of [Remove]s. *)
Fixpoint append_all (h : heap) (l : List) (items : list A) : outcome (heap * List) :=
  match items with
  | [] => Ok (h, l)
  | x :: items => '(h', l') ← List_Append h l x; append_all h' l' items
  end.
Fixpoint remove_n (n : nat) (h : heap) (l : List) : outcome (list (option A) * heap * List) :=
  match n with
  | O => Ok ([], h, l)
  | S n =>
      '(r, h1, l1) ← List_Remove h l;
      '(rs, h2, l2) ← remove_n n h1 l1;
      Ok (r :: rs, h2, l2)
  end.

Lemma append_all_refines h l ps xs items :
  Rep h l ps xs ->
  exists h' l' ps', append_all h l items = Ok (h', l') /\ Rep h' l' ps' (xs ++ map (pair 0) items).
Proof.
  revert h l ps xs. induction items as [|x items IH]; intros h l ps xs HR; simpl.
  - exists h, l, ps. by rewrite app_nil_r.
  - destruct (List_Append_refines h l ps xs x HR) as (h1 & l1 & p & -> & HR1 & _). simpl.
    destruct (IH _ _ _ _ HR1) as (h' & l' & ps' & -> & HR'). exists h', l', ps'.
    by rewrite <- app_assoc in HR'.
Qed.

Lemma remove_n_refines n h l ps xs :
  Rep h l ps xs ->
  exists h' l' ps', remove_n n h l =
    Ok (map Some (take n xs.*2) ++ replicate (n - length xs) None, h', l') /\ Rep h' l' ps' (drop n xs).
Proof.
  revert h l ps xs. induction n as [|n IH]; intros h l ps xs HR; simpl.
  - exists h, l, ps. by rewrite drop_0.
  - destruct (List_Remove_refines _ _ _ _ HR) as (h1 & l1 & -> & HR1 & _). simpl.
    destruct (IH _ _ _ _ HR1) as (h' & l' & ps' & -> & HR'). simpl. exists h', l', ps'.
    destruct xs as [|x xs]; simpl in *; [|done].
    rewrite take_nil, drop_nil in *. simpl. by rewrite Nat.sub_0_r.
Qed.

(** A list used with [Append] and [Remove] is a first-in first-out queue.
    After any sequence of [Append]s to a list, [Remove] gives the items that were
    there and then the new ones in the order of their insertion, then NULL, and
    never follows a bad pointer. *)
Theorem Append_Remove_fifo h l ps xs items extra :
  Rep h l ps xs ->
  exists h1 l1 h2 l2, append_all h l items = Ok (h1, l1) /\
    remove_n (length xs + length items + extra) h1 l1 =
      Ok (map Some (xs.*2 ++ items) ++ replicate extra None, h2, l2) /\
    List_IsEmpty l2 = true.
Proof.
  intros HR. destruct (append_all_refines _ _ _ _ items HR) as (h1 & l1 & ps1 & E1 & HR1).
  destruct (remove_n_refines (length xs + length items + extra) _ _ _ _ HR1) as (h2 & l2 & ps2 & E2 & HR2).
  exists h1, l1, h2, l2. conjs; [done| |].
  - rewrite E2, fmap_app. rewrite length_app, length_map.
    assert ((map (pair 0) items).*2 = items) as ->.
    { clear. induction items; simpl; [done|]. by f_equal. }
    rewrite take_ge by (rewrite length_app, length_fmap; lia). do 5 f_equal. lia.
  - apply (Rep_empty_iff _ _ _ _ HR2). apply drop_ge. rewrite length_app, length_map. lia.
Qed.

(** C40: [SortedInsert] keeps a sorted list sorted by key, adds exactly the new
    element, and puts it behind the elements with the same key, so that entries
    with equal keys leave in arrival order. *)
Theorem SortedInsert_sorted h l ps xs it k :
  Rep h l ps xs -> sorted xs ->
  exists h' l' ps' xs', List_SortedInsert h l it k = Ok (h', l') /\ Rep h' l' ps' xs' /\
    sorted xs' /\ xs' ≡ₚ (k, it) :: xs /\
    (forall k', filter (fun y => y.1 = k') xs' =
       filter (fun y => y.1 = k') xs ++ (if decide (k = k') then [(k, it)] else [])).
Proof.
  intros HR Hs. destruct (List_SortedInsert_refines _ _ _ _ it k HR) as (h' & l' & p & ps' & E & HR' & _).
  exists h', l', ps', (sorted_insert k it xs). conjs; [done..| | |].
  - by apply sorted_insert_sorted.
  - apply sorted_insert_perm.
  - intros k'. by apply sorted_insert_stable.
Qed.

End LinkedList.

(** A list of two elements with keys 1 and 3, on a heap with a third, unrelated one. *)
Definition sample_heap : gmap positive (@ListElement Z) :=
  {[ 1%positive := mkElem (Some 2%positive) 1 10; 2%positive := mkElem None 3 30;
     3%positive := mkElem None 9 90 ]}.

Lemma sample_Rep : Rep sample_heap (mkList (Some 1%positive) (Some 2%positive)) [1; 2]%positive [(1, 10); (3, 30)].
Proof.
  split; [|apply (bool_decide_unpack _); vm_compute; done|done].
  simpl. conjs; [done|]. eexists. conjs; [done..|]. simpl. eexists. done.
Qed.

Lemma Append_Remove_fifo_witness :
  exists h1 l1 h2 l2, append_all sample_heap (mkList (Some 1%positive) (Some 2%positive)) [7; 8] = Ok (h1, l1) /\
    remove_n 5 h1 l1 = Ok ([Some 10; Some 30; Some 7; Some 8; None], h2, l2) /\ List_IsEmpty l2 = true.
Proof. exact (Append_Remove_fifo _ _ _ _ [7; 8] 1 sample_Rep). Defined.

Lemma SortedInsert_sorted_witness :
  exists h' l' ps' xs', List_SortedInsert sample_heap (mkList (Some 1%positive) (Some 2%positive)) 20 3 = Ok (h', l') /\
    Rep h' l' ps' xs' /\ sorted xs' /\ xs' ≡ₚ [(3, 20); (1, 10); (3, 30)].
Proof.
  destruct (SortedInsert_sorted _ _ _ _ 20 3 sample_Rep) as (h' & l' & ps' & xs' & ? & ? & ? & ? & _).
  - repeat constructor; unfold key_le; simpl; lia.
  - exists h', l', ps', xs'. done.
Defined.


Arguments ListElement A : clear implicits.
Arguments sorted_insert {A} k x xs.
Arguments sorted {A} xs.
