(* ===== verification/BitMap.v ===== *)
(** * Bitmaps (userprog/bitmap.h, userprog/bitmap.cc)

    A [BitMap] is an array of 32-bit words.  The model keeps the words and the
    shifts and masks of the code; [BitMap_bits] is the sequence of booleans the
    words stand for, and every operation is proved to refine the operation on
    that sequence.  The frame allocator of the address spaces and the free
    sector map of the file system are clients.  [FetchFrom] and [WriteBack] go
    through an [OpenFile] and are modelled with it; the conversion between words
    and the bytes of the file is here. *)

From S2P Require Import Prelude Int32.

Definition BitsInByte : Z := 8.
Definition BitsInWord : Z := 32.

(** [class BitMap] *)
Record BitMap := mkBitMap {
  numBits : Z;
  numWords : Z;
  bm_map : list Z }.

(** [map[w] = x] *)
Definition BitMap_set_word (bm : BitMap) (w x : Z) : BitMap :=
  mkBitMap (numBits bm) (numWords bm) ((bm_map bm).[w <- x]).

(** [1 << (which % BitsInWord)] as the unsigned word it is combined with *)
Definition bit_mask (which : Z) : Z := wrap_u32 (Z.shiftl 1 (Z.rem which BitsInWord)).

Definition in_bitmap (bm : BitMap) (which : Z) : bool :=
  (0 <=? which) && (which <? numBits bm).

(** [BitMap::Mark] *)
Definition BitMap_Mark (bm : BitMap) (which : Z) : outcome BitMap :=
  _ ← ASSERT (in_bitmap bm which);
  let w := Z.quot which BitsInWord in
  word ← deref ((bm_map bm).[w]);
  Ok (BitMap_set_word bm w (Z.lor word (bit_mask which))).

(** [BitMap::Clear] *)
Definition BitMap_Clear (bm : BitMap) (which : Z) : outcome BitMap :=
  _ ← ASSERT (in_bitmap bm which);
  let w := Z.quot which BitsInWord in
  word ← deref ((bm_map bm).[w]);
  Ok (BitMap_set_word bm w (Z.land word (wrap_u32 (Z.lnot (bit_mask which))))).

(** [BitMap::Test] *)
Definition BitMap_Test (bm : BitMap) (which : Z) : outcome bool :=
  _ ← ASSERT (in_bitmap bm which);
  word ← deref ((bm_map bm).[Z.quot which BitsInWord]);
  Ok (if negb (Z.land word (bit_mask which) =? 0) then true else false).

(** [for (i = start; i < start + n; i++) Clear(i)] *)
Fixpoint BitMap_clear_loop (n : nat) (i : Z) (bm : BitMap) : outcome BitMap :=
  match n with
  | O => Ok bm
  | S n => bm' ← BitMap_Clear bm i; BitMap_clear_loop n (i + 1) bm'
  end.

(** [BitMap::BitMap]; [storage] is the content of the fresh, uninitialised
    array. *)
Definition BitMap_new (nitems : Z) (storage : list Z) : outcome BitMap :=
  BitMap_clear_loop (Z.to_nat nitems) 0
    (mkBitMap nitems (divRoundUp nitems BitsInWord) storage).

(** The loop of [BitMap::Find], [n] iterations from [i]. *)
Fixpoint BitMap_find_loop (n : nat) (i : Z) (bm : BitMap) : outcome (Z * BitMap) :=
  match n with
  | O => Ok (-1, bm)
  | S n =>
      t ← BitMap_Test bm i;
      if negb t then bm' ← BitMap_Mark bm i; Ok (i, bm')
      else BitMap_find_loop n (i + 1) bm
  end.

(** [BitMap::Find] *)
Definition BitMap_Find (bm : BitMap) : outcome (Z * BitMap) :=
  BitMap_find_loop (Z.to_nat (numBits bm)) 0 bm.

Fixpoint BitMap_numclear_loop (n : nat) (i count : Z) (bm : BitMap) : outcome Z :=
  match n with
  | O => Ok count
  | S n =>
      t ← BitMap_Test bm i;
      BitMap_numclear_loop n (i + 1) (if negb t then count + 1 else count) bm
  end.

(** [BitMap::NumClear] *)
Definition BitMap_NumClear (bm : BitMap) : outcome Z :=
  BitMap_numclear_loop (Z.to_nat (numBits bm)) 0 0 bm.

(** [BitMap::Print]: the numbers printed, in order. *)
Fixpoint BitMap_print_loop (n : nat) (i : Z) (bm : BitMap) : outcome (list Z) :=
  match n with
  | O => Ok []
  | S n =>
      t ← BitMap_Test bm i;
      rest ← BitMap_print_loop n (i + 1) bm;
      Ok (if (t : bool) then i :: rest else rest)
  end.
Definition BitMap_Print (bm : BitMap) : outcome (list Z) :=
  BitMap_print_loop (Z.to_nat (numBits bm)) 0 bm.

(** The bytes [(char * ) map] that [WriteBack] writes and the words [FetchFrom]
    makes of the bytes it reads. *)
Definition words_to_bytes (ws : list Z) : list Z := ws ≫= le_split 4.
Fixpoint bytes_to_words (n : nat) (bs : list Z) : list Z :=
  match n with
  | O => []
  | S n => le_combine (take 4 bs) :: bytes_to_words n (drop 4 bs)
  end.

(** ** The abstract bitmap *)

Definition bit (bm : BitMap) (i : Z) : bool :=
  Z.testbit (default 0 ((bm_map bm).[i / 32])) (i mod 32).

(** The sequence of bits. *)
Definition BitMap_bits (bm : BitMap) : list bool := map (bit bm) (seqZ 0 (numBits bm)).

Record BitMap_wf (bm : BitMap) : Prop := {
  bm_numBits : 0 <= numBits bm;
  bm_numWords : numWords bm = divRoundUp (numBits bm) BitsInWord;
  bm_length : lenZ (bm_map bm) = numWords bm;
  bm_words : Forall uint32 (bm_map bm) }.

Definition count_clear (bs : list bool) : Z := lenZ (filter (fun b => b = false) bs).

(** *** Words and masks *)

Lemma quot_word which : 0 <= which -> Z.quot which BitsInWord = which / 32.
Proof. intros. unfold BitsInWord. apply Z.quot_div_nonneg; lia. Qed.

Lemma bit_mask_eq which : 0 <= which -> bit_mask which = 2 ^ (which mod 32).
Proof.
  intros Hw. unfold bit_mask, BitsInWord. rewrite Z.rem_mod_nonneg by lia.
  rewrite Z.shiftl_1_l. pose proof (Z.mod_pos_bound which 32 ltac:(lia)).
  apply wrap_u32_id. unfold uint32, two32. split; [apply Z.pow_nonneg; lia|].
  change 4294967296 with (2 ^ 32). apply Z.pow_lt_mono_r; lia.
Qed.

Lemma uint32_testbit x n : uint32 x -> 32 <= n -> Z.testbit x n = false.
Proof.
  intros [H0 H1] Hn. destruct (decide (x = 0)) as [-> | Hx]; [apply Z.bits_0|].
  apply Z.bits_above_log2; [done|]. apply Z.log2_lt_pow2; [lia|].
  eapply Z.lt_le_trans; [exact H1|]. change two32 with (2 ^ 32).
  apply Z.pow_le_mono_r; lia.
Qed.

Lemma uint32_of_bits x : 0 <= x -> (forall n, 32 <= n -> Z.testbit x n = false) -> uint32 x.
Proof.
  intros H0 Hb. split; [done|]. destruct (decide (x = 0)) as [-> | Hx]; [done|].
  change two32 with (2 ^ 32). apply Z.log2_lt_pow2; [lia|].
  destruct (Z.lt_ge_cases (Z.log2 x) 32) as [|Hge]; [done|].
  specialize (Hb _ Hge). rewrite Z.bit_log2 in Hb by lia. done.
Qed.

Lemma uint32_lor x y : uint32 x -> uint32 y -> uint32 (Z.lor x y).
Proof.
  intros Hx Hy. apply uint32_of_bits.
  - apply Z.lor_nonneg. unfold uint32 in *. lia.
  - intros n Hn. rewrite Z.lor_spec, !uint32_testbit by done. done.
Qed.

Lemma uint32_land x y : uint32 x -> uint32 y -> uint32 (Z.land x y).
Proof.
  intros Hx Hy. apply uint32_of_bits.
  - apply Z.land_nonneg. unfold uint32 in *. lia.
  - intros n Hn. rewrite Z.land_spec, !uint32_testbit by done. done.
Qed.

Lemma wrap_u32_testbit x n : 0 <= n < 32 -> Z.testbit (wrap_u32 x) n = Z.testbit x n.
Proof.
  intros Hn. unfold wrap_u32. change two32 with (2 ^ 32). by rewrite Z.mod_pow2_bits_low by lia.
Qed.

Lemma mod32_range i : 0 <= i mod 32 < 32.
Proof. apply Z.mod_pos_bound. lia. Qed.

Lemma word_in_range bm i :
  BitMap_wf bm -> 0 <= i < numBits bm -> 0 <= i / 32 < lenZ (bm_map bm).
Proof.
  intros [H0 Hn Hl _] Hi. rewrite Hl, Hn. split; [apply Z.div_pos; lia|].
  pose proof (divRoundUp_spec (numBits bm) 32 H0 ltac:(lia)) as Hs.
  unfold BitsInWord. apply Z.div_lt_upper_bound; lia.
Qed.

(** Setting a word changes the bits of that word only. *)
Lemma bit_set_word bm w x j :
  0 <= w < lenZ (bm_map bm) ->
  bit (BitMap_set_word bm w x) j = if decide (w = j / 32) then Z.testbit x (j mod 32) else bit bm j.
Proof.
  intros Hw. unfold bit. simpl. destruct (decide (w = j / 32)) as [->|].
  - by rewrite lookupZ_insertZ_eq.
  - by rewrite lookupZ_insertZ_ne.
Qed.

Lemma same_word i j : j / 32 = i / 32 -> j mod 32 = i mod 32 -> j = i.
Proof. intros Hd Hm. rewrite (Z.div_mod j 32), (Z.div_mod i 32) by lia. congruence. Qed.

Lemma BitMap_set_word_wf bm w x :
  BitMap_wf bm -> uint32 x -> BitMap_wf (BitMap_set_word bm w x).
Proof.
  intros [? ? ? ?] Hx. split; simpl; try done.
  - by rewrite lenZ_insertZ.
  - by apply Forall_insertZ.
Qed.

(** *** The sequence of bits *)

Lemma lenZ_bits bm : 0 <= numBits bm -> lenZ (BitMap_bits bm) = numBits bm.
Proof. intros. unfold BitMap_bits, lenZ. rewrite length_map, length_seqZ. lia. Qed.

Lemma lookupZ_bits bm i : 0 <= i < numBits bm -> (BitMap_bits bm).[i] = Some (bit bm i).
Proof.
  intros Hi. unfold BitMap_bits, lookupZ. rewrite (proj2 (Z.ltb_ge i 0)) by lia.
  rewrite list_lookup_fmap, lookup_seqZ_lt by lia. simpl. do 2 f_equal. lia.
Qed.

Lemma bits_insert bm bm' i b :
  0 <= i < numBits bm -> numBits bm' = numBits bm ->
  (forall j, 0 <= j < numBits bm -> bit bm' j = if decide (j = i) then b else bit bm j) ->
  BitMap_bits bm' = (BitMap_bits bm).[i <- b].
Proof.
  intros Hi Hn Hb. apply lookupZ_ext.
  - rewrite lenZ_insertZ, !lenZ_bits by lia. done.
  - rewrite lenZ_bits by lia. rewrite Hn. intros j Hj.
    rewrite lookupZ_bits, Hb by lia. destruct (decide (j = i)) as [-> | Hne].
    + rewrite lookupZ_insertZ_eq; [done|]. rewrite lenZ_bits; lia.
    + rewrite lookupZ_insertZ_ne, lookupZ_bits by lia. done.
Qed.

Lemma bit_insert bm bm' i b j :
  BitMap_bits bm' = (BitMap_bits bm).[i <- b] -> numBits bm' = numBits bm ->
  0 <= i < numBits bm -> 0 <= j < numBits bm ->
  bit bm' j = if decide (j = i) then b else bit bm j.
Proof.
  intros Hb Hn Hi Hj. pose proof (lookupZ_bits bm' j ltac:(lia)) as HL. rewrite Hb in HL.
  destruct (decide (j = i)) as [->|].
  - rewrite lookupZ_insertZ_eq in HL by (rewrite lenZ_bits; lia). congruence.
  - rewrite lookupZ_insertZ_ne, lookupZ_bits in HL by lia. congruence.
Qed.

Section Operations.
Context (bm : BitMap) (Hwf : BitMap_wf bm).

Lemma in_bitmap_true i : 0 <= i < numBits bm -> in_bitmap bm i = true.
Proof. intros. unfold in_bitmap. by rewrite (proj2 (Z.leb_le _ _)), (proj2 (Z.ltb_lt _ _)) by lia. Qed.

Lemma in_bitmap_false i : ~ 0 <= i < numBits bm -> in_bitmap bm i = false.
Proof. unfold in_bitmap. intros. destruct (Z.leb_spec 0 i), (Z.ltb_spec i (numBits bm)); simpl; lia. Qed.

Lemma bitmap_word i :
  0 <= i < numBits bm ->
  exists word, (bm_map bm).[i / 32] = Some word /\ uint32 word /\ bit bm i = Z.testbit word (i mod 32).
Proof.
  intros Hi. destruct (lookupZ_range _ _ (word_in_range _ _ Hwf Hi)) as [word Hw].
  exists word. conjs; [done| |].
  - pose proof (bm_words _ Hwf) as Hf. rewrite Forall_lookupZ in Hf. eauto.
  - unfold bit. by rewrite Hw.
Qed.

Lemma BitMap_Mark_spec i :
  0 <= i < numBits bm ->
  exists bm', BitMap_Mark bm i = Ok bm' /\ BitMap_wf bm' /\ numBits bm' = numBits bm /\
    BitMap_bits bm' = (BitMap_bits bm).[i <- true].
Proof.
  intros Hi. destruct (bitmap_word _ Hi) as (word & Hw & Hu & Hb).
  unfold BitMap_Mark. rewrite in_bitmap_true by done. simpl.
  rewrite quot_word, Hw by lia. simpl. rewrite bit_mask_eq by lia.
  pose proof (mod32_range i). eexists. conjs; [done| |done|].
  - apply BitMap_set_word_wf; [done|]. apply uint32_lor; [done|].
    rewrite <- bit_mask_eq by lia. apply wrap_u32_range.
  - apply bits_insert; [done..|]. intros j Hj.
    rewrite bit_set_word by (by apply word_in_range).
    destruct (decide (i / 32 = j / 32)) as [Hd|Hd].
    + rewrite Z.lor_spec, Z.pow2_bits_eqb by lia.
      destruct (decide (j = i)) as [-> | Hne]; [by rewrite Z.eqb_refl, orb_true_r|].
      destruct (Z.eqb_spec (i mod 32) (j mod 32)) as [Hm|Hm].
      * exfalso. apply Hne. by apply same_word.
      * rewrite orb_false_r. unfold bit. by rewrite <- Hd, Hw.
    + rewrite decide_False; [done|congruence].
Qed.

Lemma BitMap_Clear_spec i :
  0 <= i < numBits bm ->
  exists bm', BitMap_Clear bm i = Ok bm' /\ BitMap_wf bm' /\ numBits bm' = numBits bm /\
    BitMap_bits bm' = (BitMap_bits bm).[i <- false].
Proof.
  intros Hi. destruct (bitmap_word _ Hi) as (word & Hw & Hu & Hb).
  unfold BitMap_Clear. rewrite in_bitmap_true by done. simpl.
  rewrite quot_word, Hw by lia. simpl. rewrite bit_mask_eq by lia.
  pose proof (mod32_range i). eexists. conjs; [done| |done|].
  - apply BitMap_set_word_wf; [done|]. apply uint32_land; [done|]. apply wrap_u32_range.
  - apply bits_insert; [done..|]. intros j Hj. pose proof (mod32_range j).
    rewrite bit_set_word by (by apply word_in_range).
    destruct (decide (i / 32 = j / 32)) as [Hd|Hd].
    + rewrite Z.land_spec, wrap_u32_testbit, Z.lnot_spec, Z.pow2_bits_eqb by lia.
      destruct (decide (j = i)) as [-> | Hne]; [by rewrite Z.eqb_refl, andb_false_r|].
      destruct (Z.eqb_spec (i mod 32) (j mod 32)) as [Hm|Hm].
      * exfalso. apply Hne. by apply same_word.
      * rewrite andb_true_r. unfold bit. by rewrite <- Hd, Hw.
    + rewrite decide_False; [done|congruence].
Qed.

Lemma BitMap_Test_spec i : 0 <= i < numBits bm -> BitMap_Test bm i = Ok (bit bm i).
Proof.
  intros Hi. destruct (bitmap_word _ Hi) as (word & Hw & Hu & Hb).
  unfold BitMap_Test. rewrite in_bitmap_true by done. simpl.
  rewrite quot_word, Hw by lia. simpl. rewrite bit_mask_eq by lia.
  rewrite land_pow2_bit, Hb by apply mod32_range. by case_if.
Qed.

(** Outside the bitmap every operation fails its assertion. *)
Lemma BitMap_out_of_range i :
  ~ 0 <= i < numBits bm ->
  BitMap_Mark bm i = AssertFail /\ BitMap_Clear bm i = AssertFail /\ BitMap_Test bm i = AssertFail.
Proof.
  intros Hi. unfold BitMap_Mark, BitMap_Clear, BitMap_Test.
  rewrite in_bitmap_false by done. done.
Qed.

Lemma BitMap_find_loop_spec n i :
  0 <= i -> i + Z.of_nat n = numBits bm ->
  exists r bm', BitMap_find_loop n i bm = Ok (r, bm') /\ BitMap_wf bm' /\ numBits bm' = numBits bm /\
    ((r = -1 /\ bm' = bm /\ forall j, i <= j < numBits bm -> bit bm j = true) \/
     (i <= r < numBits bm /\ bit bm r = false /\ (forall j, i <= j < r -> bit bm j = true) /\
      BitMap_bits bm' = (BitMap_bits bm).[r <- true])).
Proof.
  revert i. induction n as [|n IH]; intros i Hi Hn; simpl.
  - do 2 eexists. conjs; [done..|]. left. conjs; [done..|]. lia.
  - rewrite BitMap_Test_spec by lia. simpl. destruct (bit bm i) eqn:Hb; simpl.
    + destruct (IH (i + 1)) as (r & bm' & E & ? & ? & Hr); [lia..|].
      exists r, bm'. conjs; [done..|].
      assert (Hall : forall m, (forall j, i + 1 <= j < m -> bit bm j = true) ->
                                forall j, i <= j < m -> bit bm j = true).
      { intros m Hm j Hj. destruct (decide (j = i)) as [->|]; [done|]. apply Hm. lia. }
      destruct Hr as [(-> & -> & H1)|(Hr & Hc & H1 & H2)]; [left|right].
      * conjs; [done..|]. by apply Hall.
      * conjs; [lia..|done| |done]. by apply Hall.
    + destruct (BitMap_Mark_spec i) as (bm' & -> & ? & ? & ?); [lia|]. simpl.
      do 2 eexists. conjs; [done..|]. right. conjs; [lia..|done| |done]. lia.
Qed.

Lemma BitMap_Find_spec :
  exists r bm', BitMap_Find bm = Ok (r, bm') /\ BitMap_wf bm' /\ numBits bm' = numBits bm /\
    ((r = -1 /\ bm' = bm /\ forall j, 0 <= j < numBits bm -> bit bm j = true) \/
     (0 <= r < numBits bm /\ bit bm r = false /\ (forall j, 0 <= j < r -> bit bm j = true) /\
      BitMap_bits bm' = (BitMap_bits bm).[r <- true])).
Proof.
  apply BitMap_find_loop_spec; [lia|]. pose proof (bm_numBits _ Hwf). lia.
Qed.

Lemma BitMap_numclear_loop_spec n i count :
  0 <= i -> i + Z.of_nat n = numBits bm ->
  BitMap_numclear_loop n i count bm = Ok (count + count_clear (map (bit bm) (seqZ i (Z.of_nat n)))).
Proof.
  revert i count. induction n as [|n IH]; intros i count Hi Hn.
  - simpl. f_equal. change (count_clear _) with 0. lia.
  - rewrite seqZ_cons by lia. cbn [BitMap_numclear_loop map].
    rewrite BitMap_Test_spec by lia. simpl. rewrite IH by lia. f_equal.
    unfold count_clear. rewrite filter_cons.
    replace (Z.succ i) with (i + 1) by lia. replace (Z.pred (Z.of_nat (S n))) with (Z.of_nat n) by lia.
    destruct (bit bm i); [rewrite decide_False by done|rewrite decide_True by done];
      unfold lenZ; cbn [length negb]; lia.
Qed.

Lemma BitMap_NumClear_spec : BitMap_NumClear bm = Ok (count_clear (BitMap_bits bm)).
Proof.
  unfold BitMap_NumClear. pose proof (bm_numBits _ Hwf).
  rewrite BitMap_numclear_loop_spec by lia. unfold BitMap_bits. by rewrite Z2Nat.id.
Qed.

End Operations.

Lemma BitMap_clear_loop_spec n i bm :
  BitMap_wf bm -> 0 <= i -> i + Z.of_nat n <= numBits bm ->
  exists bm', BitMap_clear_loop n i bm = Ok bm' /\ BitMap_wf bm' /\ numBits bm' = numBits bm /\
    forall j, 0 <= j < numBits bm -> bit bm' j = if decide (i <= j < i + Z.of_nat n) then false else bit bm j.
Proof.
  revert i bm. induction n as [|n IH]; intros i bm Hwf Hi Hn; simpl.
  - exists bm. conjs; [done..|]. intros j Hj. by rewrite decide_False by lia.
  - destruct (BitMap_Clear_spec bm Hwf i) as (bm1 & E & Hwf1 & Hn1 & Hb1); [lia|].
    rewrite E. simpl. destruct (IH (i + 1) bm1) as (bm' & E' & ? & Hn' & Hb'); [done|lia..|].
    exists bm'. conjs; [done..|by rewrite Hn'|]. intros j Hj.
    rewrite Hb' by lia.
    assert (Hj1 : bit bm1 j = if decide (j = i) then false else bit bm j) by (apply bit_insert; [done|done|lia..]).
    rewrite Hj1. repeat case_decide; try lia; done.
Qed.

(** A new bitmap is all clear, whatever the storage held. *)
Lemma BitMap_new_spec nitems storage :
  0 <= nitems -> lenZ storage = divRoundUp nitems BitsInWord -> Forall uint32 storage ->
  exists bm, BitMap_new nitems storage = Ok bm /\ BitMap_wf bm /\ numBits bm = nitems /\
    BitMap_bits bm = replicate (Z.to_nat nitems) false.
Proof.
  intros H0 Hl Hu. unfold BitMap_new.
  destruct (BitMap_clear_loop_spec (Z.to_nat nitems) 0
    (mkBitMap nitems (divRoundUp nitems BitsInWord) storage)) as (bm & E & Hwf & Hn & Hb);
    [by split|lia|simpl; lia|]. simpl in *.
  exists bm. conjs; [done..|]. apply list_eq_same_length with (Z.to_nat nitems).
  - by rewrite length_replicate.
  - unfold BitMap_bits. rewrite length_map, length_seqZ, Hn. done.
  - intros i x y Hi Hx Hy. apply lookup_replicate in Hy as [-> _].
    unfold BitMap_bits in Hx. rewrite list_lookup_fmap, lookup_seqZ_lt in Hx by lia.
    simpl in Hx. rewrite Hb, decide_True in Hx by lia. congruence.
Qed.

(** *** Words and bytes of the stored bitmap *)

Lemma lenZ_words_to_bytes ws : lenZ (words_to_bytes ws) = 4 * lenZ ws.
Proof.
  unfold lenZ, words_to_bytes. induction ws as [|w ws IH]; [done|].
  cbn [mbind list_bind]. rewrite length_app, length_le_split. cbn [length]. lia.
Qed.

Lemma words_to_bytes_bytes ws : Forall byte (words_to_bytes ws).
Proof.
  unfold words_to_bytes. induction ws as [|w ws IH]; [constructor|].
  cbn [mbind list_bind]. apply Forall_app. split; [apply le_split_bytes|done].
Qed.

Lemma bytes_to_words_to_bytes ws rest :
  Forall uint32 ws -> bytes_to_words (length ws) (words_to_bytes ws ++ rest) = ws.
Proof.
  induction 1 as [|w ws Hw _ IH]; [done|].
  unfold words_to_bytes. cbn [mbind list_bind bytes_to_words length].
  rewrite <- app_assoc.
  rewrite take_app_length', drop_app_length' by (by rewrite length_le_split).
  f_equal; [|exact IH]. rewrite le_combine_split4. by apply wrap_u32_id.
Qed.

(** *** Counting clear bits *)

Lemma count_clear_app l1 l2 : count_clear (l1 ++ l2) = count_clear l1 + count_clear l2.
Proof. unfold count_clear. by rewrite filter_app, lenZ_app. Qed.

Lemma count_clear_cons b l : count_clear (b :: l) = (if b then 0 else 1) + count_clear l.
Proof.
  unfold count_clear. rewrite filter_cons. destruct b; [rewrite decide_False by done|rewrite decide_True by done];
    unfold lenZ; cbn [length]; lia.
Qed.

Lemma count_clear_insert l i b b' :
  l.[i] = Some b ->
  count_clear (l.[i <- b']) = count_clear l - (if b then 0 else 1) + (if b' then 0 else 1).
Proof.
  intros Hi. pose proof (lookupZ_Some_range _ _ _ Hi) as Hr. unfold lookupZ, insertZ, lenZ in *.
  rewrite (proj2 (Z.ltb_ge i 0)) in * by lia.
  rewrite insert_take_drop by lia. rewrite <- (take_drop_middle _ _ _ Hi) at 3.
  rewrite !count_clear_app, !count_clear_cons. lia.
Qed.

Lemma count_clear_nonneg l : 0 <= count_clear l.
Proof. apply lenZ_nonneg. Qed.

Lemma count_clear_zero l : count_clear l = 0 <-> Forall (fun b => b = true) l.
Proof.
  induction l as [|b l IH]; [done|]. rewrite count_clear_cons, Forall_cons. pose proof (count_clear_nonneg l).
  destruct b; [|split; [lia|intros [? _]; done]].
  rewrite <- IH. split; [intros; split; [done|lia]|intros [_ ?]; lia].
Qed.

Lemma all_set_zero bm :
  BitMap_wf bm -> count_clear (BitMap_bits bm) = 0 <-> forall j, 0 <= j < numBits bm -> bit bm j = true.
Proof.
  intros Hwf. rewrite count_clear_zero, Forall_lookupZ. split.
  - intros H j Hj. apply (H j). by apply lookupZ_bits.
  - intros H j b Hb. pose proof (lookupZ_Some_range _ _ _ Hb) as Hj.
    rewrite lenZ_bits in Hj by apply Hwf. rewrite lookupZ_bits in Hb by done. rewrite H in Hb by done. congruence.
Qed.

(** ** Properties *)

(** The word array with its shifts and masks implements an array of booleans.
    [Mark] and [Clear] set exactly the bit named and keep every other bit, [Test]
    reads it, and outside the bitmap all three fail their assertion. *)
Theorem BitMap_ops_refine bm which :
  BitMap_wf bm ->
  if bool_decide (0 <= which < numBits bm) then
    (exists bm', BitMap_Mark bm which = Ok bm' /\ BitMap_wf bm' /\
       BitMap_bits bm' = (BitMap_bits bm).[which <- true]) /\
    (exists bm', BitMap_Clear bm which = Ok bm' /\ BitMap_wf bm' /\
       BitMap_bits bm' = (BitMap_bits bm).[which <- false]) /\
    (exists b, BitMap_Test bm which = Ok b /\ (BitMap_bits bm).[which] = Some b)
  else BitMap_Mark bm which = AssertFail /\ BitMap_Clear bm which = AssertFail /\
       BitMap_Test bm which = AssertFail.
Proof.
  intros Hwf. case_bool_decide as Hi; [|by apply BitMap_out_of_range].
  destruct (BitMap_Mark_spec bm Hwf which Hi) as (b1 & ? & ? & _ & ?).
  destruct (BitMap_Clear_spec bm Hwf which Hi) as (b2 & ? & ? & _ & ?).
  conjs; [eauto..|]. exists (bit bm which). split; [by apply BitMap_Test_spec|by apply lookupZ_bits].
Qed.

(** A bitmap of 40 bits with bits 0, 1 and 33 set and one stray bit after the end. *)
Definition sample_bitmap : BitMap := mkBitMap 40 2 [3; 0x80000002].

Lemma sample_bitmap_wf : BitMap_wf sample_bitmap.
Proof. split; simpl; [lia|done|done|]. repeat constructor; unfold_int32; lia. Qed.

Lemma BitMap_ops_refine_witness :
  exists bm', BitMap_Mark sample_bitmap 32 = Ok bm' /\ BitMap_wf bm' /\
    BitMap_bits bm' = (BitMap_bits sample_bitmap).[32 <- true] /\ BitMap_Test bm' 32 = Ok true.
Proof.
  destruct (BitMap_ops_refine sample_bitmap 32 sample_bitmap_wf) as ((bm' & E & H1 & H2) & _).
  exists bm'. conjs; [exact E|exact H1|exact H2|]. vm_compute in E. injection E as <-. reflexivity.
Defined.

(** [Find] allocates.  It returns the lowest clear bit and sets that bit and
    no other, and [NumClear] drops by one; it returns -1, changing nothing,
    exactly when [NumClear] is 0.  A bit it returns was never one in use. *)
Theorem BitMap_Find_allocates bm :
  BitMap_wf bm ->
  exists r bm' n, BitMap_Find bm = Ok (r, bm') /\ BitMap_wf bm' /\ BitMap_NumClear bm = Ok n /\
    (r = -1 <-> n = 0) /\ (r = -1 -> bm' = bm) /\
    (r <> -1 -> 0 <= r < numBits bm /\ (BitMap_bits bm).[r] = Some false /\
       (forall j, 0 <= j < r -> (BitMap_bits bm).[j] = Some true) /\
       BitMap_bits bm' = (BitMap_bits bm).[r <- true] /\ BitMap_NumClear bm' = Ok (n - 1)).
Proof.
  intros Hwf. destruct (BitMap_Find_spec bm Hwf) as (r & bm' & E & Hwf' & Hn & Hc).
  exists r, bm', (count_clear (BitMap_bits bm)).
  rewrite !BitMap_NumClear_spec by done. pose proof (all_set_zero bm Hwf) as Hz.
  conjs; [done..| | |].
  - destruct Hc as [(-> & _ & H)|(Hr & Hb & _)]; [tauto|]. split; [lia|].
    intros H0. apply Hz with (j := r) in H0; [congruence|done].
  - destruct Hc as [(_ & -> & _)|(Hr & _)]; [done|lia].
  - intros Hne. destruct Hc as [(-> & _)|(Hr & Hb & Hlow & Hbits)]; [done|].
    conjs; [lia..| | |done|].
    + by rewrite lookupZ_bits, Hb.
    + intros j Hj. rewrite lookupZ_bits by lia. by rewrite Hlow.
    + rewrite Hbits, (count_clear_insert _ _ false) by (by rewrite lookupZ_bits, Hb). f_equal. lia.
Qed.

Lemma BitMap_Find_allocates_witness :
  exists bm', BitMap_Find sample_bitmap = Ok (2, bm') /\ BitMap_wf bm' /\ BitMap_NumClear bm' = Ok 36.
Proof.
  destruct (BitMap_Find_allocates sample_bitmap sample_bitmap_wf) as (r & bm' & n & E & Hwf & En & _ & _ & H).
  assert (r = 2) as -> by (vm_compute in E; congruence).
  assert (n = 37) as -> by (vm_compute in En; congruence).
  exists bm'. conjs; [done..|]. apply H. lia.
Defined.
