(* ===== verification/Machine.v ===== *)
(** * The simulated machine: registers, memory and address translation
      (machine/machine.h, machine/machine.cc, machine/translate.h,
       machine/translate.cc, machine/disk.h for the page size)

    [Machine] is the hardware state that user programs and the kernel share.
    Memory cells hold unsigned bytes; [mainMemory[i]] as a [char] is
    [char_of_byte].  [RaiseException] ends every access that fails, so a failed
    access is the value [MemFault which badVAddr], and the trap itself is
    [Machine_RaiseException]: the part of it that changes the machine.  The
    page table and the TLB are held by value: the running address space's table
    is the one the hardware points at. *)

From S2P Require Import Prelude Int32.

Definition SectorSize : Z := 512.
Definition PageSize : Z := SectorSize.
Definition NumPhysPages : Z := 128.
Definition MemorySize : Z := 65536.
Definition TLBSize : Z := 4.

(** [enum ExceptionType] *)
Inductive ExceptionType :=
| NoException
| SyscallException
| PageFaultException
| ReadOnlyException
| BusErrorException
| AddressErrorException
| OverflowException
| IllegalInstrException.

#[export] Instance ExceptionType_eq_dec : EqDecision ExceptionType.
Proof. solve_decision. Defined.

Definition StackReg : Z := 29.
Definition RetAddrReg : Z := 31.
Definition NumGPRegs : Z := 32.
Definition HiReg : Z := 32.
Definition LoReg : Z := 33.
Definition PCReg : Z := 34.
Definition NextPCReg : Z := 35.
Definition PrevPCReg : Z := 36.
Definition LoadReg : Z := 37.
Definition LoadValueReg : Z := 38.
Definition BadVAddrReg : Z := 39.
Definition NumTotalRegs : Z := 40.

(** [class TranslationEntry] *)
Record TranslationEntry := mkEntry {
  virtualPage : Z;
  physicalPage : Z;
  valid : bool;
  readOnly : bool;
  use : bool;
  dirty : bool }.

(** [class Machine] *)
Record Machine := mkMachine {
  mainMemory : list Z;
  registers : list Z;
  tlb : option (list TranslationEntry);
  pageTable : option (list TranslationEntry);
  pageTableSize : Z;
  singleStep : bool;
  runUntilTime : Z }.

Definition set_mainMemory (m : Machine) (mem : list Z) : Machine :=
  mkMachine mem (registers m) (tlb m) (pageTable m) (pageTableSize m) (singleStep m) (runUntilTime m).
Definition set_registers (m : Machine) (rs : list Z) : Machine :=
  mkMachine (mainMemory m) rs (tlb m) (pageTable m) (pageTableSize m) (singleStep m) (runUntilTime m).
Definition set_tlb (m : Machine) (t : list TranslationEntry) : Machine :=
  mkMachine (mainMemory m) (registers m) (Some t) (pageTable m) (pageTableSize m) (singleStep m) (runUntilTime m).
Definition set_pageTable (m : Machine) (t : list TranslationEntry) : Machine :=
  mkMachine (mainMemory m) (registers m) (tlb m) (Some t) (pageTableSize m) (singleStep m) (runUntilTime m).

(** [registers[i]], and the assignment to it, for an index inside the array. *)
Definition reg (m : Machine) (i : Z) : Z := default 0 ((registers m).[i]).
Definition set_reg (m : Machine) (i v : Z) : Machine := set_registers m ((registers m).[i <- v]).

(** [CheckEndian]: the four bytes 1, 2, 3, 4 read back as an [unsigned int]. *)
Definition CheckEndian : outcome unit := ASSERT (le_combine [1; 2; 3; 4] =? 0x04030201).

(** [Machine::Machine], with [use_tlb] for the build option USE_TLB; the
    uninitialised fields of the TLB entries are [junk]. *)
Definition Machine_new (use_tlb debug : bool) (junk : TranslationEntry) : outcome Machine :=
  let tlb_entry := mkEntry (virtualPage junk) (physicalPage junk) false (readOnly junk) (use junk) (dirty junk) in
  let m := mkMachine (replicate (Z.to_nat MemorySize) 0) (replicate (Z.to_nat NumTotalRegs) 0)
             (if use_tlb then Some (replicate (Z.to_nat TLBSize) tlb_entry) else None)
             None 0 debug 0 in
  _ ← CheckEndian;
  Ok m.

(** [Machine::ReadRegister] *)
Definition Machine_ReadRegister (m : Machine) (num : Z) : outcome Z :=
  _ ← ASSERT ((0 <=? num) && (num <? NumTotalRegs));
  deref ((registers m).[num]).

(** [Machine::WriteRegister] *)
Definition Machine_WriteRegister (m : Machine) (num value : Z) : outcome Machine :=
  _ ← ASSERT ((0 <=? num) && (num <? NumTotalRegs));
  Ok (set_reg m num value).

(** [Machine::DelayedLoad] (mipssim.cc); a target outside the array is a store
    past the end of [registers]. *)
Definition Machine_DelayedLoad (m : Machine) (nextReg nextValue : Z) : outcome Machine :=
  _ ← deref ((registers m).[reg m LoadReg]);
  let m := set_reg m (reg m LoadReg) (reg m LoadValueReg) in
  let m := set_reg m LoadReg nextReg in
  let m := set_reg m LoadValueReg nextValue in
  Ok (set_reg m 0 0).

(** [Machine::RaiseException], up to the call of [ExceptionHandler(which)]. *)
Definition Machine_RaiseException (m : Machine) (badVAddr : Z) : outcome Machine :=
  Machine_DelayedLoad (set_reg m BadVAddrReg badVAddr) 0 0.

(** [WordToHost], [ShortToHost], [WordToMachine] and [ShortToMachine] on a
    little-endian host. *)
Definition WordToHost (word : Z) : Z := word.
Definition ShortToHost (shortword : Z) : Z := shortword.
Definition WordToMachine (word : Z) : Z := WordToHost word.
Definition ShortToMachine (shortword : Z) : Z := ShortToHost shortword.

(** The search of the TLB for a valid entry of page [vpn]. *)
Fixpoint tlb_search (t : list TranslationEntry) (vpn : Z) (i : Z) : option (Z * TranslationEntry) :=
  match t with
  | [] => None
  | e :: t => if valid e && (wrap_u32 (virtualPage e) =? vpn) then Some (i, e) else tlb_search t vpn (i + 1)
  end.

(** The lookup part of [Translate]: the entry, with the table put back by the
    given function, or the exception. *)
Definition find_entry (m : Machine) (vpn : Z)
    : outcome (ExceptionType + TranslationEntry * (TranslationEntry -> Machine)) :=
  match tlb m with
  | None =>
      if pageTableSize m <=? vpn then Ok (inl AddressErrorException)
      else
        pt ← deref (pageTable m);
        e ← deref (pt.[vpn]);
        if negb (valid e) then Ok (inl PageFaultException)
        else Ok (inr (e, fun e' => set_pageTable m (pt.[vpn <- e'])))
  | Some t =>
      match tlb_search t vpn 0 with
      | None => Ok (inl PageFaultException)
      | Some (i, e) => Ok (inr (e, fun e' => set_tlb m (t.[i <- e'])))
      end
  end.

Definition misaligned (virtAddr size : Z) : bool :=
  ((size =? 4) && negb (Z.land virtAddr 3 =? 0)) || ((size =? 2) && negb (Z.land virtAddr 1 =? 0)).

(** The entry after a successful access. *)
Definition touch (e : TranslationEntry) (writing : bool) : TranslationEntry :=
  mkEntry (virtualPage e) (physicalPage e) (valid e) (readOnly e) true
    (if writing then true else dirty e).

(** [Machine::Translate]: the exception, or the physical address and the machine
    with the use and dirty bits set. *)
Definition Machine_Translate (m : Machine) (virtAddr size : Z) (writing : bool)
    : outcome (ExceptionType + Z * Machine) :=
  if misaligned virtAddr size then Ok (inl AddressErrorException)
  else
    _ ← ASSERT (negb (bool_decide (is_Some (tlb m)) && bool_decide (is_Some (pageTable m))));
    _ ← ASSERT (bool_decide (is_Some (tlb m)) || bool_decide (is_Some (pageTable m)));
    let vpn := wrap_u32 virtAddr / PageSize in
    let offset := wrap_u32 virtAddr mod PageSize in
    r ← find_entry m vpn;
    match r with
    | inl which => Ok (inl which)
    | inr (entry, put) =>
        if readOnly entry && writing then Ok (inl ReadOnlyException)
        else
          let pageFrame := wrap_u32 (physicalPage entry) in
          if NumPhysPages <=? pageFrame then Ok (inl BusErrorException)
          else
            let m' := put (touch entry writing) in
            let physAddr := wrap_s32 (wrap_u32 (pageFrame * PageSize + offset)) in
            _ ← ASSERT ((0 <=? physAddr) && (physAddr + size <=? MemorySize));
            Ok (inr (physAddr, m'))
    end.

(** The result of a memory access: [MemFault] stands for
    [RaiseException(which, badVAddr); return FALSE]. *)
Inductive mem_result (A : Type) :=
| MemOk (a : A) (m : Machine)
| MemFault (which : ExceptionType) (badVAddr : Z).
Arguments MemOk {A} a m.
Arguments MemFault {A} which badVAddr.

(** The value [ReadMem] makes of the bytes at the physical address. *)
Definition load_value (size : Z) (bs : list Z) : outcome Z :=
  if size =? 1 then b ← deref (bs.[0]); Ok (char_of_byte b)
  else if size =? 2 then Ok (ShortToHost (le_combine bs))
  else if size =? 4 then Ok (wrap_s32 (WordToHost (le_combine bs)))
  else AssertFail.

(** [Machine::ReadMem] *)
Definition Machine_ReadMem (m : Machine) (addr size : Z) : outcome (mem_result Z) :=
  r ← Machine_Translate m addr size false;
  match r with
  | inl exception => Ok (MemFault exception addr)
  | inr (physicalAddress, m') =>
      value ← load_value size (slice (mainMemory m') physicalAddress size);
      Ok (MemOk value m')
  end.

(** The bytes [WriteMem] stores. *)
Definition store_bytes (size value : Z) : outcome (list Z) :=
  if size =? 1 then Ok [Z.land value 0xff]
  else if size =? 2 then Ok (le_split 2 (ShortToMachine (Z.land value 0xffff)))
  else if size =? 4 then Ok (le_split 4 (WordToMachine (wrap_u32 value)))
  else AssertFail.

(** [Machine::WriteMem] *)
Definition Machine_WriteMem (m : Machine) (addr size value : Z) : outcome (mem_result unit) :=
  r ← Machine_Translate m addr size true;
  match r with
  | inl exception => Ok (MemFault exception addr)
  | inr (physicalAddress, m') =>
      bs ← store_bytes size value;
      Ok (MemOk tt (set_mainMemory m' (splice (mainMemory m') physicalAddress bs)))
  end.

(** ** Well-formed machines *)

Definition entry_ok (e : TranslationEntry) : Prop := int32 (virtualPage e) /\ int32 (physicalPage e).

(** What the hardware relies on: the arrays have their sizes, the cells their
    widths, and exactly one of the TLB and the page table is in use. *)
Record Machine_wf (m : Machine) : Prop := {
  wf_memory : lenZ (mainMemory m) = MemorySize;
  wf_bytes : Forall byte (mainMemory m);
  wf_registers : lenZ (registers m) = NumTotalRegs;
  wf_words : Forall int32 (registers m);
  wf_tables :
    (exists t, tlb m = Some t /\ pageTable m = None /\ lenZ t = TLBSize /\ Forall entry_ok t) \/
    (exists t, tlb m = None /\ pageTable m = Some t /\ lenZ t = pageTableSize m /\ Forall entry_ok t) }.

Definition valid_size (size : Z) : Prop := size = 1 \/ size = 2 \/ size = 4.

(** *** Registers *)

Lemma reg_set_reg_eq m i v : 0 <= i < lenZ (registers m) -> reg (set_reg m i v) i = v.
Proof. intros Hi. unfold reg, set_reg. simpl. by rewrite lookupZ_insertZ_eq. Qed.

Lemma reg_set_reg_ne m i j v : i <> j -> reg (set_reg m i v) j = reg m j.
Proof. intros Hi. unfold reg, set_reg. simpl. by rewrite lookupZ_insertZ_ne. Qed.

Lemma lenZ_set_reg m i v : lenZ (registers (set_reg m i v)) = lenZ (registers m).
Proof. apply lenZ_insertZ. Qed.

Lemma reg_lookup m i : Machine_wf m -> 0 <= i < 40 -> (registers m).[i] = Some (reg m i).
Proof.
  intros Hwf Hi. unfold reg. destruct (lookupZ_range (registers m) i) as [x ->]; [|done].
  rewrite (wf_registers _ Hwf). done.
Qed.

Lemma reg_int32 m i : Machine_wf m -> int32 (reg m i).
Proof.
  intros Hwf. unfold reg. destruct ((registers m).[i]) as [x|] eqn:E; simpl.
  - pose proof (wf_words _ Hwf) as HF. rewrite Forall_lookupZ in HF. eauto.
  - unfold_int32. lia.
Qed.

Lemma set_reg_wf m i v : Machine_wf m -> int32 v -> Machine_wf (set_reg m i v).
Proof.
  intros [H1 H2 H3 H4 H5] Hv. split; simpl; try done.
  - by rewrite lenZ_insertZ.
  - by apply Forall_insertZ.
Qed.

#[export] Hint Rewrite lenZ_set_reg : arr.
#[export] Hint Resolve reg_int32 set_reg_wf : nachos.

Ltac unfold_regs :=
  unfold StackReg, HiReg, LoReg, PCReg, NextPCReg, PrevPCReg, LoadReg, LoadValueReg, BadVAddrReg, NumTotalRegs in *.

(** Simplifies reads of registers after writes to constant registers. *)
Ltac reg_simpl :=
  repeat first
    [ rewrite reg_set_reg_eq by (autorewrite with arr; try (rewrite wf_registers by assumption); unfold_regs; lia)
    | rewrite reg_set_reg_ne by (unfold_regs; lia) ].

Lemma ReadRegister_spec m num :
  Machine_wf m ->
  Machine_ReadRegister m num = if (0 <=? num) && (num <? 40) then Ok (reg m num) else AssertFail.
Proof.
  intros Hwf. unfold Machine_ReadRegister, NumTotalRegs.
  destruct ((0 <=? num) && (num <? 40)) eqn:E; [|done]. to_prop. simpl.
  by rewrite (reg_lookup m num Hwf) by lia.
Qed.

Lemma DelayedLoad_spec m nextReg nextValue :
  Machine_wf m -> 0 <= reg m LoadReg < 40 ->
  Machine_DelayedLoad m nextReg nextValue =
  Ok (set_reg (set_reg (set_reg (set_reg m (reg m LoadReg) (reg m LoadValueReg))
       LoadReg nextReg) LoadValueReg nextValue) 0 0).
Proof.
  intros Hwf Hl. unfold Machine_DelayedLoad. rewrite (reg_lookup m _ Hwf Hl). done.
Qed.

Lemma DelayedLoad_wf m nextReg nextValue m' :
  Machine_wf m -> int32 nextReg -> int32 nextValue ->
  Machine_DelayedLoad m nextReg nextValue = Ok m' -> Machine_wf m'.
Proof.
  intros Hwf H1 H2 E. unfold Machine_DelayedLoad in E. inv_ok.
  assert (int32 0) by (unfold_int32; lia). auto 10 with nachos.
Qed.

(** *** Translation *)

Lemma tlb_search_Some t vpn i0 i e :
  tlb_search t vpn i0 = Some (i, e) ->
  i0 <= i /\ t.[i - i0] = Some e /\ valid e = true /\ wrap_u32 (virtualPage e) = vpn.
Proof.
  revert i0. induction t as [|x t IH]; intros i0; simpl; [done|].
  destruct (valid x && (wrap_u32 (virtualPage x) =? vpn)) eqn:E.
  - intros [= <- <-]. apply andb_true_iff in E as [Hv Hp]. apply Z.eqb_eq in Hp.
    conjs; [lia| |done..]. by rewrite Z.sub_diag.
  - intros (? & Hl & ? & ?)%IH. conjs; [lia| |done..].
    unfold lookupZ in *. rewrite (proj2 (Z.ltb_ge _ 0)) in Hl by lia. rewrite (proj2 (Z.ltb_ge _ 0)) by lia.
    replace (Z.to_nat (i - i0)) with (S (Z.to_nat (i - (i0 + 1)))) by lia. done.
Qed.

(** The machines that differ only in the translation tables. *)
Definition same_but_tables (m m' : Machine) : Prop :=
  mainMemory m' = mainMemory m /\ registers m' = registers m /\ pageTableSize m' = pageTableSize m /\
  singleStep m' = singleStep m /\ runUntilTime m' = runUntilTime m.

(** What a found entry is, and that putting it back keeps the machine well formed. *)
Lemma find_entry_inr m vpn e put :
  Machine_wf m -> find_entry m vpn = Ok (inr (e, put)) ->
  entry_ok e /\ valid e = true /\
  (forall e', entry_ok e' -> Machine_wf (put e') /\ same_but_tables m (put e')).
Proof.
  intros Hwf E. unfold find_entry in E. pose proof Hwf as [H1 H2 H3 H4 H5].
  destruct (tlb m) as [t|] eqn:Ht.
  - destruct (tlb_search t vpn 0) as [[i e0]|] eqn:Es; inv_ok; simplify_eq.
    apply tlb_search_Some in Es as (Hi & Hl & Hv & Hp). rewrite Z.sub_0_r in Hl.
    destruct H5 as [(t' & [= ->] & Hpt & Hlen & Hf)|(t' & ? & _)]; [|done].
    conjs; [by rewrite Forall_lookupZ in Hf; eauto|done|].
    intros e' He'. split; [|done]. split; simpl; try done. left.
    eexists. conjs; [done..|by rewrite lenZ_insertZ|by apply Forall_insertZ].
  - destruct (pageTableSize m <=? vpn) eqn:Hs; [done|]. inv_ok.
    destruct (negb (valid _)) eqn:Hv; inv_ok; simplify_eq. to_prop.
    destruct H5 as [(t' & ? & _)|(t' & _ & Hpt & Hlen & Hf)]; [done|]. simplify_eq.
    conjs; [by rewrite Forall_lookupZ in Hf; eauto|done|].
    intros e' He'. split; [|done]. split; simpl; try done. right.
    eexists. conjs; [done..|by rewrite lenZ_insertZ|by apply Forall_insertZ].
Qed.

Lemma find_entry_total m vpn : Machine_wf m -> 0 <= vpn -> exists r, find_entry m vpn = Ok r.
Proof.
  intros Hwf Hvpn. unfold find_entry. destruct (wf_tables _ Hwf) as [(t & -> & _)|(t & -> & -> & Hl & _)].
  - destruct (tlb_search t vpn 0) as [[i e]|]; eauto.
  - destruct (Z.leb_spec (pageTableSize m) vpn); [eauto|]. simpl.
    destruct (lookupZ_range t vpn) as [e ->]; [lia|]. simpl. destruct (valid e); simpl; eauto.
Qed.

Lemma wf_table_asserts m :
  Machine_wf m ->
  negb (bool_decide (is_Some (tlb m)) && bool_decide (is_Some (pageTable m))) = true /\
  bool_decide (is_Some (tlb m)) || bool_decide (is_Some (pageTable m)) = true.
Proof.
  intros Hwf. destruct (wf_tables _ Hwf) as [(t & -> & -> & _)|(t & -> & -> & _)]; done.
Qed.

Lemma vpn_offset va : 0 <= wrap_u32 va / PageSize /\ 0 <= wrap_u32 va mod PageSize < 512.
Proof.
  pose proof (wrap_u32_range va). unfold uint32, PageSize, SectorSize in *.
  split; [apply Z.div_pos; lia|apply Z.mod_pos_bound; lia].
Qed.

(** An aligned access of a legal size does not cross the end of its page. *)
Lemma aligned_fits va size :
  valid_size size -> misaligned va size = false -> wrap_u32 va mod PageSize + size <= PageSize.
Proof.
  intros Hs Hm. pose proof (vpn_offset va) as [_ Ho]. unfold PageSize, SectorSize in *.
  unfold misaligned in Hm.
  assert (Hmod : forall k, 0 < k -> (k | 512) -> va mod k = 0 -> (wrap_u32 va mod 512) mod k = 0).
  { intros k Hk [c Hc] H0. unfold wrap_u32, two32.
    rewrite <- (Znumtheory.Zmod_div_mod k 512) by (try lia; by exists c).
    rewrite <- (Znumtheory.Zmod_div_mod k 4294967296); [done|lia..|exists (c * 8388608); lia]. }
  destruct Hs as [-> | [-> | ->]]; simpl in Hm; to_prop.
  - lia.
  - pose proof (land_low va 1 ltac:(lia) : Z.land va 1 = va mod 2) as Hl.
    specialize (Hmod 2 ltac:(lia) ltac:(by exists 256) ltac:(lia)).
    apply Z.mod_divide in Hmod as [c Hc]; lia.
  - pose proof (land_low va 2 ltac:(lia) : Z.land va 3 = va mod 4) as Hl.
    specialize (Hmod 4 ltac:(lia) ltac:(by exists 128) ltac:(lia)).
    apply Z.mod_divide in Hmod as [c Hc]; lia.
Qed.

(** *** The address map

    [phys_of] is the address map a machine realises: the result of [Translate]
    without the new use and dirty bits. *)

Definition entry_map (e : TranslationEntry) : Z * bool := (physicalPage e, readOnly e).

Definition phys_of (m : Machine) (va size : Z) (writing : bool) : outcome (ExceptionType + Z) :=
  r ← Machine_Translate m va size writing;
  Ok (match r with inl which => inl which | inr (pa, _) => inr pa end).

Definition map_found (r : ExceptionType + TranslationEntry * (TranslationEntry -> Machine))
    : ExceptionType + Z * bool :=
  match r with inl which => inl which | inr (e, _) => inr (entry_map e) end.

(** The map depends on the tables only through the entry found for the page. *)
Lemma phys_of_mapping m m' va size writing :
  is_Some (tlb m) <-> is_Some (tlb m') -> is_Some (pageTable m) <-> is_Some (pageTable m') ->
  (forall vpn, (r ← find_entry m vpn; Ok (map_found r)) = (r ← find_entry m' vpn; Ok (map_found r))) ->
  phys_of m' va size writing = phys_of m va size writing.
Proof.
  intros Ht Hp Hf. unfold phys_of, Machine_Translate.
  destruct (misaligned va size); [done|].
  rewrite !(bool_decide_ext _ _ Ht), !(bool_decide_ext _ _ Hp).
  destruct (ASSERT (negb _)); [|done..]. destruct (ASSERT (_ || _)); [|done..]. simpl.
  specialize (Hf (wrap_u32 va / PageSize)).
  destruct (find_entry m _) as [[w|[e p]]| | |], (find_entry m' _) as [[w'|[e' p']]| | |]; simpl in *; try congruence.
  assert (entry_map e = entry_map e') as [= Hph Hro] by congruence. rewrite Hro, Hph.
  destruct (readOnly e' && writing); [done|]. destruct (NumPhysPages <=? _); [done|].
  by destruct (ASSERT _).
Qed.

Lemma tlb_search_touch t n e writing vpn i0 :
  t !! n = Some e ->
  option_map (fun p => entry_map p.2) (tlb_search (<[n := touch e writing]> t) vpn i0) =
  option_map (fun p => entry_map p.2) (tlb_search t vpn i0).
Proof.
  revert n i0. induction t as [|x t IH]; intros [|n] i0 Hn; simpl in *; try done.
  - simplify_eq. by destruct (valid e && _).
  - destruct (valid x && _); [done|]. by apply IH.
Qed.

Lemma find_entry_touch m vpn e put writing :
  find_entry m vpn = Ok (inr (e, put)) ->
  let m' := put (touch e writing) in
  (is_Some (tlb m) <-> is_Some (tlb m')) /\ (is_Some (pageTable m) <-> is_Some (pageTable m')) /\
  forall vpn', (r ← find_entry m vpn'; Ok (map_found r)) = (r ← find_entry m' vpn'; Ok (map_found r)).
Proof.
  intros E. unfold find_entry in E. destruct (tlb m) as [t|] eqn:Ht.
  - destruct (tlb_search t vpn 0) as [[i e0]|] eqn:Es; inv_ok; simplify_eq.
    apply tlb_search_Some in Es as (Hi & Hl & _ & _). rewrite Z.sub_0_r in Hl.
    simpl. conjs; [split; eauto..|]. intros vpn'. unfold find_entry. rewrite Ht. simpl.
    unfold lookupZ, insertZ in *. rewrite (proj2 (Z.ltb_ge i 0)) in * by lia.
    pose proof (tlb_search_touch t _ e writing vpn' 0 Hl) as Hs.
    destruct (tlb_search t vpn' 0) as [[i1 e1]|], (tlb_search (<[_:=_]> t) vpn' 0) as [[i2 e2]|];
      simpl in *; congruence.
  - destruct (pageTableSize m <=? vpn) eqn:Hs; [done|]. inv_ok.
    destruct (negb (valid _)) eqn:Hv; inv_ok; simplify_eq.
    simpl. conjs; [rewrite Ht; done|split; eauto|]. intros vpn'. unfold find_entry. rewrite Ht. simpl.
    rewrite Ht. destruct (pageTableSize m <=? vpn'); [done|]. rewrite E0. simpl.
    rewrite lookupZ_insertZ. case_decide as Hd.
    + destruct Hd as [-> _]. rewrite E1. simpl. by destruct (valid e).
    + destruct (_.[vpn']) as [e'|]; [|done]. simpl. by destruct (valid e').
Qed.

(** What a successful translation gives. *)
Record translated (m : Machine) (va size : Z) (writing : bool) (pa : Z) (m' : Machine) : Prop := {
  tr_wf : Machine_wf m';
  tr_same : same_but_tables m m';
  tr_low : 0 <= pa;
  tr_high : pa + size <= MemorySize;
  tr_frame : pa mod PageSize = wrap_u32 va mod PageSize;
  tr_stable : forall va' size' writing', phys_of m' va' size' writing' = phys_of m va' size' writing' }.

Lemma physAddr_eq frame off :
  0 <= frame < 128 -> 0 <= off < 512 ->
  wrap_s32 (wrap_u32 (frame * PageSize + off)) = frame * PageSize + off.
Proof.
  intros. unfold PageSize, SectorSize. rewrite wrap_u32_id by (unfold_int32; lia).
  apply wrap_s32_id. unfold_int32. lia.
Qed.

Lemma touch_ok e writing : entry_ok e -> entry_ok (touch e writing).
Proof. done. Qed.

(** [Translate] returns: an exception or an address inside the memory. *)
Lemma Translate_total m va size writing :
  Machine_wf m -> valid_size size ->
  (exists which, Machine_Translate m va size writing = Ok (inl which) /\
     which ∈ [AddressErrorException; PageFaultException; ReadOnlyException; BusErrorException]) \/
  (exists pa m', Machine_Translate m va size writing = Ok (inr (pa, m')) /\
     translated m va size writing pa m').
Proof.
  intros Hwf Hs. unfold Machine_Translate.
  destruct (misaligned va size) eqn:Hm. { left. eexists. split; [done|set_solver]. }
  destruct (wf_table_asserts m Hwf) as [-> ->]. simpl.
  destruct (vpn_offset va) as [Hv Ho].
  destruct (find_entry_total m _ Hwf Hv) as [[which|[e put]] E]; rewrite E; simpl.
  { left. eexists. split; [done|]. unfold find_entry in E.
    repeat case_match; inv_ok; simplify_eq; try set_solver.
    case_if; inv_ok; simplify_eq. set_solver. }
  destruct (find_entry_inr _ _ _ _ Hwf E) as (He & _ & Hput).
  destruct (readOnly e && writing). { left. eexists. split; [done|set_solver]. }
  destruct (Z.leb_spec NumPhysPages (wrap_u32 (physicalPage e))) as [|Hf].
  { left. eexists. split; [done|set_solver]. }
  right. pose proof (wrap_u32_range (physicalPage e)) as [Hf0 _]. unfold NumPhysPages in Hf.
  rewrite physAddr_eq by lia.
  pose proof (aligned_fits va size Hs Hm) as Hfit. unfold PageSize, SectorSize, MemorySize in *.
  rewrite (proj2 (Z.leb_le _ _)), (proj2 (Z.leb_le _ _)) by lia. simpl.
  do 2 eexists. split; [done|].
  destruct (Hput (touch e writing)) as [Hwf' Hsame]; [by apply touch_ok|].
  destruct (find_entry_touch _ _ _ _ writing E) as (Ht & Hp & Hfe).
  split; unfold MemorySize, PageSize, SectorSize; [done..|lia|lia| |].
  - rewrite Z.add_comm, Z_mod_plus_full. by rewrite Z.mod_mod by lia.
  - intros. by apply phys_of_mapping.
Qed.

Lemma Translate_inv m va size writing pa m' :
  Machine_wf m -> valid_size size ->
  Machine_Translate m va size writing = Ok (inr (pa, m')) -> translated m va size writing pa m'.
Proof.
  intros Hwf Hs E. destruct (Translate_total m va size writing Hwf Hs) as [(w & E' & _)|(pa' & m1 & E' & H)];
    rewrite E' in E; by simplify_eq.
Qed.

(** *** Memory accesses *)

(** The value a load of [size] bytes makes of a stored value. *)
Definition extend (size v : Z) : Z :=
  if size =? 1 then char_of_byte (v mod 256) else if size =? 2 then v mod 65536 else wrap_s32 v.

Lemma lenZ_1_lookup (l : list Z) : lenZ l = 1 -> exists b, l = [b].
Proof. unfold lenZ. destruct l as [|b [|]]; simpl; intros; try lia. eauto. Qed.

Lemma load_value_total size bs :
  valid_size size -> lenZ bs = size -> Forall byte bs ->
  exists v, load_value size bs = Ok v /\ int32 v.
Proof.
  intros [-> | [-> | ->]] Hl Hb; unfold load_value; simpl.
  - destruct (lenZ_1_lookup _ Hl) as [b ->]. eexists. split; [done|].
    apply Forall_singleton, char_of_byte_range in Hb. unfold_int32. lia.
  - eexists. split; [done|]. apply le_combine_bound in Hb. rewrite Hl in Hb.
    change (256 ^ 2) with 65536 in Hb. unfold ShortToHost. unfold_int32. lia.
  - eexists. split; [done|]. apply wrap_s32_range.
Qed.

Lemma store_bytes_total size value :
  valid_size size ->
  exists bs, store_bytes size value = Ok bs /\ lenZ bs = size /\ Forall byte bs /\
    load_value size bs = Ok (extend size value).
Proof.
  intros [-> | [-> | ->]]; unfold store_bytes, load_value, extend; cbn -[le_split le_combine].
  - pose proof (land_low value 8 ltac:(lia) : Z.land value 255 = value mod 256) as ->.
    eexists. conjs; [done..| |done]. apply Forall_singleton. apply Z.mod_pos_bound. lia.
  - pose proof (land_low value 16 ltac:(lia) : Z.land value 65535 = value mod 65536) as ->.
    eexists. conjs; [done..|apply le_split_bytes|]. unfold ShortToHost, ShortToMachine.
    f_equal. change (le_combine (le_split 2 (value mod 65536)) = value mod 65536).
    rewrite le_combine_split. change (256 ^ Z.of_nat 2) with 65536. apply Z.mod_mod. lia.
  - eexists. conjs; [done..|apply le_split_bytes|]. f_equal.
    change (wrap_s32 (le_combine (le_split 4 (wrap_u32 value))) = wrap_s32 value).
    rewrite le_combine_split4, wrap_s32_wrap_u32. apply wrap_s32_wrap_u32.
Qed.

Lemma phys_of_Translate m va size writing pa m' :
  Machine_Translate m va size writing = Ok (inr (pa, m')) -> phys_of m va size writing = Ok (inr pa).
Proof. intros E. unfold phys_of. by rewrite E. Qed.

Lemma phys_of_set_mainMemory m mem va size writing :
  phys_of (set_mainMemory m mem) va size writing = phys_of m va size writing.
Proof.
  apply phys_of_mapping; [done..|]. intros vpn. unfold find_entry. simpl.
  destruct (tlb m) as [t|]; [by destruct (tlb_search t vpn 0) as [[i e]|]|].
  destruct (pageTableSize m <=? vpn); [done|]. destruct (pageTable m) as [t|]; [|done]. simpl.
  destruct (t.[vpn]) as [e|]; [|done]. simpl. by destruct (valid e).
Qed.

(** The machines with the same registers and address map. *)
Definition same_map (m m' : Machine) : Prop :=
  registers m' = registers m /\ pageTableSize m' = pageTableSize m /\
  singleStep m' = singleStep m /\ runUntilTime m' = runUntilTime m /\
  forall va size writing, phys_of m' va size writing = phys_of m va size writing.

Lemma ReadMem_cases m addr size :
  Machine_wf m -> valid_size size ->
  (exists which, Machine_ReadMem m addr size = Ok (MemFault which addr) /\
     phys_of m addr size false = Ok (inl which) /\ which <> SyscallException) \/
  (exists v m' pa, Machine_ReadMem m addr size = Ok (MemOk v m') /\
     phys_of m addr size false = Ok (inr pa) /\ 0 <= pa /\ pa + size <= MemorySize /\
     load_value size (slice (mainMemory m) pa size) = Ok v /\ int32 v /\
     Machine_wf m' /\ mainMemory m' = mainMemory m /\ same_map m m').
Proof.
  intros Hwf Hs. unfold Machine_ReadMem, phys_of at 1 2.
  destruct (Translate_total m addr size false Hwf Hs) as [(w & -> & Hw)|(pa & m' & E & [H1 H2 H3 H4 H5 H6])].
  - left. exists w. conjs; [done..|]. set_solver.
  - right. rewrite E. simpl. destruct H2 as (Hmem & H2).
    destruct (load_value_total size (slice (mainMemory m) pa size)) as (v & Hv & Hi); [done| | |].
    + apply lenZ_slice; [done|destruct Hs; lia|]. by rewrite (wf_memory _ Hwf).
    + apply Forall_slice, Hwf.
    + rewrite Hmem, Hv. simpl. eexists _, m', pa. conjs; try done. destruct H2 as (? & ? & ? & ?).
      red; conjs; done.
Qed.

Lemma WriteMem_cases m addr size value :
  Machine_wf m -> valid_size size ->
  (exists which, Machine_WriteMem m addr size value = Ok (MemFault which addr) /\
     phys_of m addr size true = Ok (inl which) /\ which <> SyscallException) \/
  (exists m' pa bs, Machine_WriteMem m addr size value = Ok (MemOk tt m') /\
     phys_of m addr size true = Ok (inr pa) /\ 0 <= pa /\ pa + size <= MemorySize /\
     store_bytes size value = Ok bs /\ lenZ bs = size /\
     mainMemory m' = splice (mainMemory m) pa bs /\ Machine_wf m' /\ same_map m m').
Proof.
  intros Hwf Hs. unfold Machine_WriteMem, phys_of at 1 2.
  destruct (Translate_total m addr size true Hwf Hs) as [(w & -> & Hw)|(pa & m' & E & [H1 H2 H3 H4 H5 H6])].
  - left. exists w. conjs; [done..|]. set_solver.
  - right. rewrite E. simpl. destruct (store_bytes_total size value Hs) as (bs & Hbs & Hl & Hb & _).
    rewrite Hbs. simpl. destruct H2 as (Hmem & Hreg & Hps & Hss & Hru).
    eexists _, pa, bs. conjs; try done; simpl.
    + by rewrite Hmem.
    + destruct H1 as [W1 W2 W3 W4 W5]. split; simpl; try done.
      * rewrite lenZ_splice; lia.
      * by apply Forall_splice.
    + red; conjs; try done. intros. rewrite phys_of_set_mainMemory. apply H6.
Qed.

(** A page that can be written can be read, at the same address. *)
Lemma phys_of_write_read m va size pa :
  phys_of m va size true = Ok (inr pa) -> phys_of m va size false = Ok (inr pa).
Proof.
  unfold phys_of, Machine_Translate. destruct (misaligned va size); [done|].
  destruct (ASSERT (negb _)); [|done..]. destruct (ASSERT (_ || _)); [|done..]. simpl.
  destruct (find_entry m _) as [[w|[e p]]| | |]; simpl; try done.
  rewrite andb_true_r, andb_false_r. destruct (readOnly e); [done|].
  destruct (NumPhysPages <=? _); [done|]. by destruct (ASSERT _).
Qed.

Lemma ReadMem_at m addr size pa v :
  Machine_wf m -> valid_size size -> phys_of m addr size false = Ok (inr pa) ->
  load_value size (slice (mainMemory m) pa size) = Ok v ->
  exists m', Machine_ReadMem m addr size = Ok (MemOk v m') /\
    Machine_wf m' /\ mainMemory m' = mainMemory m /\ same_map m m'.
Proof.
  intros Hwf Hs Hp Hv.
  destruct (ReadMem_cases m addr size Hwf Hs) as [(w & _ & Hw & _)|(v' & m' & pa' & E & Hp' & _ & _ & Hv' & _ & ?)].
  - congruence.
  - simplify_eq. rewrite Hp in Hp'. simplify_eq. rewrite Hv in Hv'. simplify_eq. eauto.
Qed.

(** What was written is read back. *)
Lemma WriteMem_ReadMem m addr size value m' :
  Machine_wf m -> valid_size size -> Machine_WriteMem m addr size value = Ok (MemOk tt m') ->
  exists m'', Machine_ReadMem m' addr size = Ok (MemOk (extend size value) m'').
Proof.
  intros Hwf Hs E.
  destruct (WriteMem_cases m addr size value Hwf Hs)
    as [(w & E' & _)|(m1 & pa & bs & E' & Hp & H0 & H1 & Hbs & Hl & Hmem & Hwf' & Hmap)];
    rewrite E' in E; simplify_eq.
  destruct (store_bytes_total (lenZ bs) value Hs) as (bs' & Hbs' & _ & _ & Hload).
  rewrite Hbs in Hbs'. simplify_eq.
  destruct (ReadMem_at m' addr (lenZ bs') pa (extend (lenZ bs') value)) as (m'' & E'' & _); eauto.
  - apply phys_of_write_read. destruct Hmap as (_ & _ & _ & _ & ->). done.
  - rewrite Hmem, slice_splice_same; [done..|]. by rewrite (wf_memory _ Hwf).
Qed.

(** Where the bytes of the two accesses are disjoint, the write is not seen. *)
Lemma WriteMem_frame m addr size value m' pa addr' size' pa' :
  Machine_wf m -> valid_size size -> valid_size size' ->
  Machine_WriteMem m addr size value = Ok (MemOk tt m') ->
  phys_of m addr size true = Ok (inr pa) -> phys_of m addr' size' false = Ok (inr pa') ->
  pa' + size' <= pa \/ pa + size <= pa' ->
  exists v m1 m2, Machine_ReadMem m addr' size' = Ok (MemOk v m1) /\
    Machine_ReadMem m' addr' size' = Ok (MemOk v m2).
Proof.
  intros Hwf Hs Hs' E Hp Hp' Hd.
  destruct (WriteMem_cases m addr size value Hwf Hs)
    as [(w & E' & _)|(m1 & pa1 & bs & E' & Hp1 & H0 & H1 & Hbs & Hl & Hmem & Hwf' & Hmap)];
    rewrite E' in E; simplify_eq. rewrite Hp in Hp1. simplify_eq.
  destruct (ReadMem_cases m addr' size' Hwf Hs') as [(w & _ & Hw & _)|(v & m1 & pa2 & E1 & Hp2 & H2 & H3 & Hv & _)].
  { congruence. }
  rewrite Hp' in Hp2. simplify_eq. pose proof (wf_memory _ Hwf).
  destruct (ReadMem_at m' addr' size' pa2 v) as (m2 & E2 & _); eauto.
  - destruct Hmap as (_ & _ & _ & _ & ->). done.
  - rewrite Hmem, slice_splice_disjoint; [done|lia..| |lia|lia]. destruct Hs'; lia.
Qed.

(** The ranges of the narrow loads. *)
Lemma ReadMem_narrow m addr size v m' :
  Machine_wf m -> Machine_ReadMem m addr size = Ok (MemOk v m') ->
  (size = 1 -> -128 <= v < 128) /\ (size = 2 -> 0 <= v < 65536).
Proof.
  intros Hwf E.
  assert (Hc : valid_size size -> exists pa, 0 <= pa /\ pa + size <= MemorySize /\
    load_value size (slice (mainMemory m) pa size) = Ok v).
  { intros Hs. destruct (ReadMem_cases m addr size Hwf Hs) as [(w & E' & _)|(v' & m1 & pa & E' & _ & ? & ? & ? & _)];
      rewrite E' in E; simplify_eq. eauto. }
  split; intros ->; (destruct Hc as (pa & H0 & H1 & Hv); [unfold valid_size; tauto|]);
    pose proof (Forall_slice _ _ pa 1 (wf_bytes _ Hwf)) as HF;
    pose proof (Forall_slice _ _ pa 2 (wf_bytes _ Hwf)) as HF2; unfold load_value in Hv; simpl in Hv; inv_ok.
  - apply char_of_byte_range. rewrite Forall_lookupZ in HF. eauto.
  - pose proof (le_combine_bound _ HF2) as Hb.
    rewrite lenZ_slice in Hb by (rewrite ?(wf_memory _ Hwf); lia). exact Hb.
Qed.

Lemma int32_small x : 0 <= x < 65536 -> int32 x.
Proof. unfold_int32. lia. Qed.

(** ** Properties *)

(** A machine with the given code at address 0, mapped by one page. *)
Definition sample_machine (code regs : list Z) : Machine :=
  let bytes := code ≫= le_split 4 in
  mkMachine (bytes ++ replicate (Z.to_nat (MemorySize - lenZ bytes)) 0) regs
    None (Some [mkEntry 0 0 true false false false]) 1 false 0.

(** The same machine after a read: the use bit of the page is set. *)
Definition sample_touched (m : Machine) : Machine := set_pageTable m [mkEntry 0 0 true false true false].

(** The registers of a program about to start at address 0, R1 to R3 given. *)
Definition sample_regs (r1 r2 r3 : Z) : list Z :=
  [0; r1; r2; r3] ++ replicate 30 0 ++ [0; 4] ++ replicate 4 0.

Lemma sample_wf code r1 r2 r3 :
  4 * lenZ code <= MemorySize -> int32 r1 -> int32 r2 -> int32 r3 ->
  Machine_wf (sample_machine code (sample_regs r1 r2 r3)).
Proof.
  intros Hc H1 H2 H3.
  assert (Hb : lenZ (code ≫= le_split 4) = 4 * lenZ code).
  { clear. unfold lenZ. induction code as [|w ws IH]; [done|].
    cbn [mbind list_bind]. rewrite length_app, length_le_split. cbn [length]. lia. }
  split; unfold sample_machine; cbn [mainMemory registers tlb pageTable pageTableSize].
  - rewrite lenZ_app. unfold lenZ at 2. rewrite length_replicate, Z2Nat.id by lia. lia.
  - apply Forall_app. split.
    + clear. induction code as [|w ws IH]; [constructor|]. cbn [mbind list_bind].
      apply Forall_app. split; [apply le_split_bytes|done].
    + apply Forall_replicate. unfold byte. lia.
  - done.
  - repeat (apply Forall_cons; split; [first [done|apply int32_small; lia]|]). constructor.
  - right. eexists. conjs; [done..|]. apply Forall_singleton. split; apply int32_small; simpl; lia.
Qed.


Definition memory_exceptions : list ExceptionType :=
  [AddressErrorException; PageFaultException; ReadOnlyException; BusErrorException].

Lemma phys_of_exception m va size writing which :
  Machine_wf m -> valid_size size -> phys_of m va size writing = Ok (inl which) -> which ∈ memory_exceptions.
Proof.
  intros Hwf Hs. unfold phys_of.
  destruct (Translate_total m va size writing Hwf Hs) as [(w & -> & Hin)|(? & ? & -> & _)]; simpl; [|done].
  by intros [= ->].
Qed.

(** On a well-formed machine an access of 1, 2 or 4 bytes always ends, either
    in one of the four memory exceptions with the faulting address, or in a
    well-formed machine; a read leaves the memory and the registers unchanged,
    and no access changes the address map that later accesses see. *)
Theorem memory_access_total m addr size value :
  Machine_wf m -> valid_size size ->
  (exists r, Machine_ReadMem m addr size = Ok r /\
     match r with
     | MemFault which badVAddr => which ∈ memory_exceptions /\ badVAddr = addr
     | MemOk v m' => int32 v /\ Machine_wf m' /\ mainMemory m' = mainMemory m /\ same_map m m'
     end) /\
  (exists r, Machine_WriteMem m addr size value = Ok r /\
     match r with
     | MemFault which badVAddr => which ∈ memory_exceptions /\ badVAddr = addr
     | MemOk _ m' => Machine_wf m' /\ same_map m m'
     end).
Proof.
  intros Hwf Hs. split.
  - destruct (ReadMem_cases m addr size Hwf Hs)
      as [(w & E & Hp & _)|(v & m' & pa & E & _ & _ & _ & _ & ? & ? & ? & ?)]; rewrite E; eexists; split; try done.
    split; [by eapply phys_of_exception|done].
  - destruct (WriteMem_cases m addr size value Hwf Hs)
      as [(w & E & Hp & _)|(m' & pa & bs & E & _ & _ & _ & _ & _ & _ & ? & ?)]; rewrite E; eexists; split; try done.
    split; [by eapply phys_of_exception|done].
Qed.

Lemma memory_access_total_witness :
  exists r, Machine_WriteMem (sample_machine [] (sample_regs 0 0 0)) 600 4 7 = Ok r /\
    match r with
    | MemFault which badVAddr => which ∈ memory_exceptions /\ badVAddr = 600
    | MemOk _ m' => Machine_wf m' /\ same_map (sample_machine [] (sample_regs 0 0 0)) m'
    end.
Proof.
  destruct (memory_access_total (sample_machine [] (sample_regs 0 0 0)) 600 4 7) as [_ H].
  - apply sample_wf; first [vm_compute; done | unfold_int32; lia].
  - unfold valid_size. lia.
  - exact H.
Defined.

(** Memory behaves like memory through the translation.  After a successful
    [WriteMem] the same virtual address reads back the value written (a byte
    sign-extended, a halfword zero-extended, a word exactly), and any address
    whose physical bytes are disjoint from those written reads the same as
    before. *)
Theorem WriteMem_then_ReadMem m addr size value m' :
  Machine_wf m -> valid_size size -> Machine_WriteMem m addr size value = Ok (MemOk tt m') ->
  (exists m'', Machine_ReadMem m' addr size = Ok (MemOk (extend size value) m'')) /\
  (forall addr' size' pa pa', valid_size size' ->
     phys_of m addr size true = Ok (inr pa) -> phys_of m addr' size' false = Ok (inr pa') ->
     pa' + size' <= pa \/ pa + size <= pa' ->
     exists v m1 m2, Machine_ReadMem m addr' size' = Ok (MemOk v m1) /\
       Machine_ReadMem m' addr' size' = Ok (MemOk v m2)).
Proof.
  intros Hwf Hs E. split; [by eapply WriteMem_ReadMem|].
  intros addr' size' pa pa' Hs' Hp Hp' Hd. exact (WriteMem_frame _ _ _ _ _ _ _ _ _ Hwf Hs Hs' E Hp Hp' Hd).
Qed.

Lemma WriteMem_then_ReadMem_witness :
  exists m' m'', Machine_WriteMem (sample_machine [] (sample_regs 0 0 0)) 8 2 70000 = Ok (MemOk tt m') /\
    Machine_ReadMem m' 8 2 = Ok (MemOk (70000 mod 65536) m'').
Proof.
  destruct (Machine_WriteMem (sample_machine [] (sample_regs 0 0 0)) 8 2 70000) as [[u m'|w b]| | |] eqn:E;
    [|exfalso; assert (Hv : match Machine_WriteMem (sample_machine [] (sample_regs 0 0 0)) 8 2 70000 with
        Ok (MemOk _ _) => true | _ => false end = true) by (vm_compute; reflexivity); rewrite E in Hv; done..].
  destruct u.
  destruct (WriteMem_then_ReadMem (sample_machine [] (sample_regs 0 0 0)) 8 2 70000 m') as [(m'' & H) _].
  - apply sample_wf; first [vm_compute; done | unfold_int32; lia].
  - unfold valid_size. lia.
  - exact E.
  - exists m', m''. split; [reflexivity|exact H].
Defined.

(** [Translate] with a linear page table.  For a legal access size the result
    is decided by the entry of the page: address error exactly for a misaligned
    address or a page beyond the table, page fault for an invalid entry,
    read-only exception for a write to a read-only page, bus error for a frame
    outside the memory, and otherwise the byte of that frame at the same
    offset. *)
Theorem Translate_page_table m pt va size writing :
  Machine_wf m -> valid_size size -> tlb m = None -> pageTable m = Some pt ->
  let vpn := wrap_u32 va / PageSize in
  let r := phys_of m va size writing in
  (r = Ok (inl AddressErrorException) <-> misaligned va size = true \/ lenZ pt <= vpn) /\
  (misaligned va size = false -> forall e, pt.[vpn] = Some e ->
    (r = Ok (inl PageFaultException) <-> valid e = false) /\
    (r = Ok (inl ReadOnlyException) <-> valid e = true /\ readOnly e = true /\ writing = true) /\
    (r = Ok (inl BusErrorException) <->
       valid e = true /\ readOnly e && writing = false /\ ~ 0 <= physicalPage e < NumPhysPages) /\
    (forall pa, r = Ok (inr pa) <->
       valid e = true /\ readOnly e && writing = false /\ 0 <= physicalPage e < NumPhysPages /\
       pa = physicalPage e * PageSize + wrap_u32 va mod PageSize)).
Proof.
  intros Hwf Hs Ht Hp vpn r. pose proof (vpn_offset va) as [Hv Ho]. fold vpn in Hv.
  destruct (wf_tables _ Hwf) as [(t & ? & _)|(t & _ & Hp' & Hl & Hf)]; [congruence|].
  assert (t = pt) as -> by congruence. clear Hp'.
  pose proof (aligned_fits va size Hs) as Hfit.
  subst r. unfold phys_of, Machine_Translate. fold vpn.
  destruct (misaligned va size) eqn:Hm.
  { split; [split; [by left|done]|done]. }
  destruct (wf_table_asserts m Hwf) as [-> ->]. cbn [ASSERT mbind outcome_bind].
  unfold find_entry. rewrite Ht, Hp, <- Hl. cbn [deref mbind outcome_bind].
  destruct (Z.leb_spec (lenZ pt) vpn) as [Hge|Hlt].
  { split; [split; [by right|done]|]. intros _ e He. apply lookupZ_Some_range in He. lia. }
  destruct (lookupZ_range pt vpn) as [e He]; [lia|]. rewrite He. cbn [deref mbind outcome_bind].
  rewrite Forall_lookupZ in Hf. destruct (Hf _ _ He) as [_ He32].
  assert (Hframe : (NumPhysPages <=? wrap_u32 (physicalPage e)) = negb (bool_decide (0 <= physicalPage e < NumPhysPages))).
  { unfold NumPhysPages. case_bool_decide as Hd.
    - rewrite wrap_u32_id by (unfold_int32; lia). apply Z.leb_gt. lia.
    - simpl. apply Z.leb_le. destruct (Z.lt_ge_cases (physicalPage e) 0).
      + rewrite wrap_s32_of_neg by done. unfold_int32. lia.
      + rewrite wrap_u32_nonneg by done. lia. }
  split; [split; [|intros [?|?]; [done|lia]]|].
  - intros E. exfalso. revert E. destruct (valid e); cbn; [|done]. destruct (readOnly e && writing); cbn; [done|].
    destruct (NumPhysPages <=? _); cbn; [done|]. by destruct (ASSERT _).
  - intros _ e' [= <-]. destruct (valid e); cbn [negb mbind outcome_bind]; [|naive_solver].
    rewrite Hframe.
    destruct (readOnly e && writing) eqn:Hrw; cbn.
    { destruct (readOnly e), writing; naive_solver. }
    assert (Hrw' : ~ (readOnly e = true /\ writing = true)) by (intros [??]; destruct (readOnly e), writing; done).
    case_bool_decide as Hd; cbn [negb mbind outcome_bind]; [|naive_solver].
    rewrite (wrap_u32_id (physicalPage e)) by (unfold NumPhysPages in Hd; unfold_int32; lia).
    rewrite physAddr_eq; [|unfold NumPhysPages in Hd; lia|exact Ho].
    unfold PageSize, SectorSize, NumPhysPages, MemorySize in *. specialize (Hfit eq_refl).
    rewrite (proj2 (Z.leb_le _ _)), (proj2 (Z.leb_le _ _)) by lia. cbn. naive_solver.
Qed.

Lemma Translate_page_table_witness :
  phys_of (sample_machine [] (sample_regs 0 0 0)) 600 4 false = Ok (inl AddressErrorException) /\
  phys_of (sample_machine [] (sample_regs 0 0 0)) 508 4 true = Ok (inr 508).
Proof.
  split.
  - apply (Translate_page_table (sample_machine [] (sample_regs 0 0 0)) [mkEntry 0 0 true false false false] 600 4 false);
      [apply sample_wf; first [vm_compute; done | unfold_int32; lia]|unfold valid_size; lia|reflexivity..|].
    right. vm_compute. discriminate.
  - apply (Translate_page_table (sample_machine [] (sample_regs 0 0 0)) [mkEntry 0 0 true false false false] 508 4 true)
      with (e := mkEntry 0 0 true false false false);
      [apply sample_wf; first [vm_compute; done | unfold_int32; lia]|unfold valid_size; lia|reflexivity..|].
    vm_compute. repeat split; congruence.
Defined.
