(* ===== verification/Cpu.v ===== *)
(** * The MIPS simulator (machine/mipssim.h, machine/mipssim.cc)

    [Decode] and [OneInstruction] as the code has them, the cases of the big
    [switch] grouped by the order in which they stand in the source.  A case
    that ends in [break] gives [Done], with the machine after it, [pcAfter] and
    the delayed load; one that ends in [RaiseException(...); return] gives
    [Raise].  [OneInstruction] gives [Next] when the program counters advance
    and [Trap] when control goes to [ExceptionHandler], after the register part
    of [RaiseException].  Signed arithmetic wraps at 32 bits as on the host;
    only INT_MIN / -1, which the host traps on, is [Undefined].  The decoded
    instruction is the value [Decode] computes from the word fetched. *)

From S2P Require Import Prelude Int32 Machine.

(** The opcodes of mipssim.h, with the two markers of [opTable]. *)
Inductive OpCode :=
| OP_ADD | OP_ADDI | OP_ADDIU | OP_ADDU | OP_AND | OP_ANDI | OP_BEQ | OP_BGEZ
| OP_BGEZAL | OP_BGTZ | OP_BLEZ | OP_BLTZ | OP_BLTZAL | OP_BNE | OP_DIV | OP_DIVU
| OP_J | OP_JAL | OP_JALR | OP_JR | OP_LB | OP_LBU | OP_LH | OP_LHU | OP_LUI | OP_LW
| OP_LWL | OP_LWR | OP_MFHI | OP_MFLO | OP_MTHI | OP_MTLO | OP_MULT | OP_MULTU
| OP_NOR | OP_OR | OP_ORI | OP_RFE | OP_SB | OP_SH | OP_SLL | OP_SLLV | OP_SLT
| OP_SLTI | OP_SLTIU | OP_SLTU | OP_SRA | OP_SRAV | OP_SRL | OP_SRLV | OP_SUB
| OP_SUBU | OP_SW | OP_SWL | OP_SWR | OP_XOR | OP_XORI | OP_SYSCALL | OP_UNIMP
| OP_RES | SPECIAL | BCOND.

#[export] Instance OpCode_eq_dec : EqDecision OpCode.
Proof. solve_decision. Defined.

Inductive Format := IFMT | JFMT | RFMT.
#[export] Instance Format_eq_dec : EqDecision Format.
Proof. solve_decision. Defined.

Definition R31 : Z := 31.
Definition IndexToAddr (x : Z) : Z := wrap_s32 (Z.shiftl x 2).

Definition opTable : list (OpCode * Format) := [
  (SPECIAL, RFMT); (BCOND, IFMT); (OP_J, JFMT); (OP_JAL, JFMT);
  (OP_BEQ, IFMT); (OP_BNE, IFMT); (OP_BLEZ, IFMT); (OP_BGTZ, IFMT);
  (OP_ADDI, IFMT); (OP_ADDIU, IFMT); (OP_SLTI, IFMT); (OP_SLTIU, IFMT);
  (OP_ANDI, IFMT); (OP_ORI, IFMT); (OP_XORI, IFMT); (OP_LUI, IFMT);
  (OP_UNIMP, IFMT); (OP_UNIMP, IFMT); (OP_UNIMP, IFMT); (OP_UNIMP, IFMT);
  (OP_RES, IFMT); (OP_RES, IFMT); (OP_RES, IFMT); (OP_RES, IFMT);
  (OP_RES, IFMT); (OP_RES, IFMT); (OP_RES, IFMT); (OP_RES, IFMT);
  (OP_RES, IFMT); (OP_RES, IFMT); (OP_RES, IFMT); (OP_RES, IFMT);
  (OP_LB, IFMT); (OP_LH, IFMT); (OP_LWL, IFMT); (OP_LW, IFMT);
  (OP_LBU, IFMT); (OP_LHU, IFMT); (OP_LWR, IFMT); (OP_RES, IFMT);
  (OP_SB, IFMT); (OP_SH, IFMT); (OP_SWL, IFMT); (OP_SW, IFMT);
  (OP_RES, IFMT); (OP_RES, IFMT); (OP_SWR, IFMT); (OP_RES, IFMT);
  (OP_UNIMP, IFMT); (OP_UNIMP, IFMT); (OP_UNIMP, IFMT); (OP_UNIMP, IFMT);
  (OP_RES, IFMT); (OP_RES, IFMT); (OP_RES, IFMT); (OP_RES, IFMT);
  (OP_UNIMP, IFMT); (OP_UNIMP, IFMT); (OP_UNIMP, IFMT); (OP_UNIMP, IFMT);
  (OP_RES, IFMT); (OP_RES, IFMT); (OP_RES, IFMT); (OP_RES, IFMT) ].

Definition specialTable : list OpCode := [
  OP_SLL; OP_RES; OP_SRL; OP_SRA; OP_SLLV; OP_RES; OP_SRLV; OP_SRAV;
  OP_JR; OP_JALR; OP_RES; OP_RES; OP_SYSCALL; OP_UNIMP; OP_RES; OP_RES;
  OP_MFHI; OP_MTHI; OP_MFLO; OP_MTLO; OP_RES; OP_RES; OP_RES; OP_RES;
  OP_MULT; OP_MULTU; OP_DIV; OP_DIVU; OP_RES; OP_RES; OP_RES; OP_RES;
  OP_ADD; OP_ADDU; OP_SUB; OP_SUBU; OP_AND; OP_OR; OP_XOR; OP_NOR;
  OP_RES; OP_RES; OP_SLT; OP_SLTU; OP_RES; OP_RES; OP_RES; OP_RES;
  OP_RES; OP_RES; OP_RES; OP_RES; OP_RES; OP_RES; OP_RES; OP_RES;
  OP_RES; OP_RES; OP_RES; OP_RES; OP_RES; OP_RES; OP_RES; OP_RES ].

(** [class Instruction] *)
Record Instruction := mkInstr {
  opCode : OpCode;
  rs : Z;
  rt : Z;
  rd : Z;
  extra : Z }.

(** [Instruction::Decode], on the unsigned word [value]. *)
Definition Instruction_Decode (value : Z) : outcome Instruction :=
  let rs := Z.land (Z.shiftr value 21) 0x1f in
  let rt := Z.land (Z.shiftr value 16) 0x1f in
  let rd := Z.land (Z.shiftr value 11) 0x1f in
  '(op, format) ← deref (opTable.[Z.land (Z.shiftr value 26) 0x3f]);
  let extra :=
    match format with
    | IFMT =>
        let extra := Z.land value 0xffff in
        if negb (Z.land extra 0x8000 =? 0) then wrap_s32 (Z.lor extra 0xffff0000) else extra
    | RFMT => Z.land (Z.shiftr value 6) 0x1f
    | JFMT => Z.land value 0x3ffffff
    end in
  match op with
  | SPECIAL =>
      op ← deref (specialTable.[Z.land value 0x3f]);
      Ok (mkInstr op rs rt rd extra)
  | BCOND =>
      let i := Z.land value 0x1f0000 in
      let op := if i =? 0 then OP_BLTZ
                else if i =? 0x10000 then OP_BGEZ
                else if i =? 0x100000 then OP_BLTZAL
                else if i =? 0x110000 then OP_BGEZAL
                else OP_UNIMP in
      Ok (mkInstr op rs rt rd extra)
  | _ => Ok (mkInstr op rs rt rd extra)
  end.

(** The loop of [Mult], [n] iterations to go: the final [(hi, lo)]. *)
Fixpoint Mult_loop (n : nat) (a bLo bHi lo hi : Z) : Z * Z :=
  match n with
  | O => (hi, lo)
  | S n =>
      let add := negb (Z.land a 1 =? 0) in
      let lo1 := if add then wrap_u32 (lo + bLo) else lo in
      let hi1 := if add then wrap_u32 ((if lo1 <? bLo then wrap_u32 (hi + 1) else hi) + bHi) else hi in
      if add && (Z.land (wrap_u32 a) 0xfffffffe =? 0) then (hi1, lo1)
      else
        let bHi1 := wrap_u32 (Z.shiftl bHi 1) in
        let bHi2 := if negb (Z.land bLo 0x80000000 =? 0) then Z.lor bHi1 1 else bHi1 in
        Mult_loop n (Z.shiftr a 1) (wrap_u32 (Z.shiftl bLo 1)) bHi2 lo1 hi1
  end.

(** [Mult]: the words stored at [hiPtr] and [loPtr]. *)
Definition Mult (a b : Z) (signedArith : bool) : Z * Z :=
  if (a =? 0) || (b =? 0) then (0, 0)
  else
    let negative := signedArith && xorb (a <? 0) (b <? 0) in
    let a1 := if signedArith && (a <? 0) then wrap_s32 (- a) else a in
    let b1 := if signedArith && (b <? 0) then wrap_s32 (- b) else b in
    let '(hi, lo) := Mult_loop 32 a1 (wrap_u32 b1) 0 0 0 in
    if negative then
      let lo1 := wrap_u32 (wrap_u32 (Z.lnot lo) + 1) in
      let hi1 := wrap_u32 (Z.lnot hi) in
      (wrap_s32 (if lo1 =? 0 then wrap_u32 (hi1 + 1) else hi1), wrap_s32 lo1)
    else (wrap_s32 hi, wrap_s32 lo).

(** The end of a case of the [switch]. *)
Inductive exec_result :=
| Done (m : Machine) (pcAfter nextLoadReg nextLoadValue : Z)
| Raise (m : Machine) (which : ExceptionType) (badVAddr : Z).

Section Exec.
Context (m : Machine) (instr : Instruction) (pcAfter : Z).

(** Operands, and a case that only assigns one register. *)
Definition vrs : Z := reg m (rs instr).
Definition vrt : Z := reg m (rt instr).
Definition assign (r v : Z) : outcome exec_result := Ok (Done (set_reg m r v) pcAfter 0 0).
Definition branch_target (m : Machine) : Z := wrap_s32 (reg m NextPCReg + IndexToAddr (extra instr)).
Definition branch (m : Machine) (taken : bool) : outcome exec_result :=
  Ok (Done m (if taken then branch_target m else pcAfter) 0 0).
Definition link (r : Z) : Machine := set_reg m r (wrap_s32 (reg m NextPCReg + 4)).

(** OP_ADD to OP_ANDI *)
Definition exec_add_and : outcome exec_result :=
  match opCode instr with
  | OP_ADD =>
      let sum := wrap_s32 (vrs + vrt) in
      if negb (sign_set (Z.lxor vrs vrt)) && sign_set (Z.lxor vrs sum)
      then Ok (Raise m OverflowException 0)
      else assign (rd instr) sum
  | OP_ADDI =>
      let sum := wrap_s32 (vrs + extra instr) in
      if negb (sign_set (Z.lxor vrs (extra instr))) && sign_set (Z.lxor (extra instr) sum)
      then Ok (Raise m OverflowException 0)
      else assign (rt instr) sum
  | OP_ADDIU => assign (rt instr) (wrap_s32 (vrs + extra instr))
  | OP_ADDU => assign (rd instr) (wrap_s32 (vrs + vrt))
  | OP_AND => assign (rd instr) (Z.land vrs vrt)
  | OP_ANDI => assign (rt instr) (Z.land vrs (Z.land (extra instr) 0xffff))
  | _ => AssertFail
  end.

(** OP_BEQ to OP_BNE; the linking branches write R31 before they test [rs] *)
Definition exec_branch : outcome exec_result :=
  match opCode instr with
  | OP_BEQ => branch m (vrs =? vrt)
  | OP_BGEZAL => let m1 := link R31 in branch m1 (negb (sign_set (reg m1 (rs instr))))
  | OP_BGEZ => branch m (negb (sign_set vrs))
  | OP_BGTZ => branch m (0 <? vrs)
  | OP_BLEZ => branch m (vrs <=? 0)
  | OP_BLTZAL => let m1 := link R31 in branch m1 (sign_set (reg m1 (rs instr)))
  | OP_BLTZ => branch m (sign_set vrs)
  | OP_BNE => branch m (negb (vrs =? vrt))
  | _ => AssertFail
  end.

(** OP_DIV and OP_DIVU *)
Definition exec_div : outcome exec_result :=
  match opCode instr with
  | OP_DIV =>
      if vrt =? 0 then Ok (Done (set_reg (set_reg m LoReg 0) HiReg 0) pcAfter 0 0)
      else if (vrs =? int32_min) && (vrt =? -1) then Undefined
      else Ok (Done (set_reg (set_reg m LoReg (Z.quot vrs vrt)) HiReg (Z.rem vrs vrt)) pcAfter 0 0)
  | OP_DIVU =>
      let urs := wrap_u32 vrs in
      let urt := wrap_u32 vrt in
      if urt =? 0 then Ok (Done (set_reg (set_reg m LoReg 0) HiReg 0) pcAfter 0 0)
      else Ok (Done (set_reg (set_reg m LoReg (wrap_s32 (urs / urt))) HiReg (wrap_s32 (urs mod urt))) pcAfter 0 0)
  | _ => AssertFail
  end.

Definition jump_target : Z :=
  wrap_s32 (Z.lor (Z.land (wrap_u32 pcAfter) 0xf0000000) (wrap_u32 (IndexToAddr (extra instr)))).

(** OP_JAL to OP_JR; OP_JALR writes [rd] before it reads [rs] *)
Definition exec_jump : outcome exec_result :=
  match opCode instr with
  | OP_JAL => Ok (Done (link R31) jump_target 0 0)
  | OP_J => Ok (Done m jump_target 0 0)
  | OP_JALR => let m1 := link (rd instr) in Ok (Done m1 (reg m1 (rs instr)) 0 0)
  | OP_JR => Ok (Done m vrs 0 0)
  | _ => AssertFail
  end.

(** A memory access followed by the rest of the case, or [return] on failure *)
Definition after_read {A} (r : outcome (mem_result A)) (k : A -> Machine -> outcome exec_result)
    : outcome exec_result :=
  x ← r;
  match x with
  | MemOk v m' => k v m'
  | MemFault which badVAddr => Ok (Raise m which badVAddr)
  end.

Definition address : Z := wrap_s32 (vrs + extra instr).
Definition delayed (m : Machine) (v : Z) : outcome exec_result := Ok (Done m pcAfter (rt instr) v).

(** OP_LB to OP_LW *)
Definition exec_load : outcome exec_result :=
  let tmp := address in
  match opCode instr with
  | OP_LB | OP_LBU =>
      after_read (Machine_ReadMem m tmp 1) (fun value m' =>
        delayed m' (if negb (Z.land value 0x80 =? 0) && bool_decide (opCode instr = OP_LB)
                    then wrap_s32 (Z.lor (wrap_u32 value) 0xffffff00)
                    else Z.land value 0xff))
  | OP_LH | OP_LHU =>
      if negb (Z.land tmp 1 =? 0) then Ok (Raise m AddressErrorException tmp)
      else
        after_read (Machine_ReadMem m tmp 2) (fun value m' =>
          delayed m' (if negb (Z.land value 0x8000 =? 0) && bool_decide (opCode instr = OP_LH)
                      then wrap_s32 (Z.lor (wrap_u32 value) 0xffff0000)
                      else Z.land value 0xffff))
  | OP_LUI => assign (rt instr) (wrap_s32 (Z.shiftl (extra instr) 16))
  | OP_LW =>
      if negb (Z.land tmp 3 =? 0) then Ok (Raise m AddressErrorException tmp)
      else after_read (Machine_ReadMem m tmp 4) (fun value m' => delayed m' value)
  | _ => AssertFail
  end.

(** The value a pending load leaves in [rt], read by OP_LWL and OP_LWR *)
Definition pending_value (m : Machine) : Z :=
  if reg m LoadReg =? rt instr then reg m LoadValueReg else reg m (rt instr).

(** OP_LWL and OP_LWR *)
Definition exec_load_partial : outcome exec_result :=
  let tmp := address in
  match opCode instr with
  | OP_LWL =>
      _ ← ASSERT (Z.land tmp 3 =? 0);
      after_read (Machine_ReadMem m tmp 4) (fun value m' =>
        let old := pending_value m' in
        delayed m' (if Z.land tmp 3 =? 0 then value
                    else if Z.land tmp 3 =? 1 then Z.lor (Z.land old 0xff) (wrap_s32 (Z.shiftl value 8))
                    else if Z.land tmp 3 =? 2 then Z.lor (Z.land old 0xffff) (wrap_s32 (Z.shiftl value 16))
                    else Z.lor (Z.land old 0xffffff) (wrap_s32 (Z.shiftl value 24))))
  | OP_LWR =>
      _ ← ASSERT (Z.land tmp 3 =? 0);
      after_read (Machine_ReadMem m tmp 4) (fun value m' =>
        let old := wrap_u32 (pending_value m') in
        delayed m' (if Z.land tmp 3 =? 0
                    then wrap_s32 (Z.lor (Z.land old 0xffffff00) (Z.land (Z.shiftr value 24) 0xff))
                    else if Z.land tmp 3 =? 1
                    then wrap_s32 (Z.lor (Z.land old 0xffff0000) (Z.land (Z.shiftr value 16) 0xffff))
                    else if Z.land tmp 3 =? 2
                    then wrap_s32 (Z.lor (Z.land old 0xff000000) (Z.land (Z.shiftr value 8) 0xffffff))
                    else value))
  | _ => AssertFail
  end.

Definition assign_hi_lo (hl : Z * Z) : outcome exec_result :=
  Ok (Done (set_reg (set_reg m HiReg hl.1) LoReg hl.2) pcAfter 0 0).

(** OP_MFHI to OP_ORI *)
Definition exec_move_or : outcome exec_result :=
  match opCode instr with
  | OP_MFHI => assign (rd instr) (reg m HiReg)
  | OP_MFLO => assign (rd instr) (reg m LoReg)
  | OP_MTHI => assign HiReg vrs
  | OP_MTLO => assign LoReg vrs
  | OP_MULT => assign_hi_lo (Mult vrs vrt true)
  | OP_MULTU => assign_hi_lo (Mult vrs vrt false)
  | OP_NOR => assign (rd instr) (Z.lnot (Z.lor vrs vrt))
  | OP_OR => assign (rd instr) (Z.lor vrs vrs)
  | OP_ORI => assign (rt instr) (Z.lor vrs (Z.land (extra instr) 0xffff))
  | _ => AssertFail
  end.

(** OP_SB, OP_SH and OP_SW *)
Definition exec_store : outcome exec_result :=
  let store size :=
    after_read (Machine_WriteMem m (wrap_s32 (wrap_u32 address)) size vrt)
      (fun _ m' => Ok (Done m' pcAfter 0 0)) in
  match opCode instr with
  | OP_SB => store 1
  | OP_SH => store 2
  | OP_SW => store 4
  | _ => AssertFail
  end.

Definition flag (b : bool) : Z := if b then 1 else 0.

(** OP_SLL to OP_SUBU *)
Definition exec_shift_sub : outcome exec_result :=
  match opCode instr with
  | OP_SLL => assign (rd instr) (wrap_s32 (Z.shiftl vrt (extra instr)))
  | OP_SLLV => assign (rd instr) (wrap_s32 (Z.shiftl vrt (Z.land vrs 0x1f)))
  | OP_SLT => assign (rd instr) (flag (vrs <? vrt))
  | OP_SLTI => assign (rt instr) (flag (vrs <? extra instr))
  | OP_SLTIU => assign (rt instr) (flag (wrap_u32 vrs <? wrap_u32 (extra instr)))
  | OP_SLTU => assign (rd instr) (flag (wrap_u32 vrs <? wrap_u32 vrt))
  | OP_SRA => assign (rd instr) (Z.shiftr vrt (extra instr))
  | OP_SRAV => assign (rd instr) (Z.shiftr vrt (Z.land vrs 0x1f))
  | OP_SRL => assign (rd instr) (Z.shiftr vrt (extra instr))
  | OP_SRLV => assign (rd instr) (Z.shiftr vrt (Z.land vrs 0x1f))
  | OP_SUB =>
      let diff := wrap_s32 (vrs - vrt) in
      if sign_set (Z.lxor vrs vrt) && sign_set (Z.lxor vrs diff)
      then Ok (Raise m OverflowException 0)
      else assign (rd instr) diff
  | OP_SUBU => assign (rd instr) (wrap_s32 (vrs - vrt))
  | _ => AssertFail
  end.

Definition store_partial (tmp : Z) (value_of : Z -> Z) : outcome exec_result :=
  _ ← ASSERT (Z.land tmp 3 =? 0);
  after_read (Machine_ReadMem m (Z.land tmp (Z.lnot 3)) 4) (fun value m' =>
    w ← Machine_WriteMem m' (Z.land tmp (Z.lnot 3)) 4 (value_of value);
    match w with
    | MemOk _ m'' => Ok (Done m'' pcAfter 0 0)
    | MemFault which badVAddr => Ok (Raise m' which badVAddr)
    end).

(** OP_SWL and OP_SWR *)
Definition exec_store_partial : outcome exec_result :=
  let tmp := address in
  match opCode instr with
  | OP_SWL =>
      store_partial tmp (fun value =>
        if Z.land tmp 3 =? 0 then vrt
        else if Z.land tmp 3 =? 1
        then wrap_s32 (Z.lor (Z.land (wrap_u32 value) 0xff000000) (Z.land (Z.shiftr vrt 8) 0xffffff))
        else if Z.land tmp 3 =? 2
        then wrap_s32 (Z.lor (Z.land (wrap_u32 value) 0xffff0000) (Z.land (Z.shiftr vrt 16) 0xffff))
        else wrap_s32 (Z.lor (Z.land (wrap_u32 value) 0xffffff00) (Z.land (Z.shiftr vrt 24) 0xff)))
  | OP_SWR =>
      store_partial tmp (fun value =>
        if Z.land tmp 3 =? 0 then Z.lor (Z.land value 0xffffff) (wrap_s32 (Z.shiftl vrt 24))
        else if Z.land tmp 3 =? 1 then Z.lor (Z.land value 0xffff) (wrap_s32 (Z.shiftl vrt 16))
        else if Z.land tmp 3 =? 2 then Z.lor (Z.land value 0xff) (wrap_s32 (Z.shiftl vrt 8))
        else vrt)
  | _ => AssertFail
  end.

(** OP_SYSCALL to OP_UNIMP, and [default: ASSERT(FALSE)] *)
Definition exec_trap_xor : outcome exec_result :=
  match opCode instr with
  | OP_SYSCALL => Ok (Raise m SyscallException 0)
  | OP_XOR => assign (rd instr) (Z.lxor vrs vrt)
  | OP_XORI => assign (rt instr) (Z.lxor vrs (Z.land (extra instr) 0xffff))
  | OP_RES | OP_UNIMP => Ok (Raise m IllegalInstrException 0)
  | _ => AssertFail
  end.

(** The [switch] of [OneInstruction] *)
Definition execute : outcome exec_result :=
  match opCode instr with
  | OP_ADD | OP_ADDI | OP_ADDIU | OP_ADDU | OP_AND | OP_ANDI => exec_add_and
  | OP_BEQ | OP_BGEZ | OP_BGEZAL | OP_BGTZ | OP_BLEZ | OP_BLTZ | OP_BLTZAL | OP_BNE => exec_branch
  | OP_DIV | OP_DIVU => exec_div
  | OP_J | OP_JAL | OP_JALR | OP_JR => exec_jump
  | OP_LB | OP_LBU | OP_LH | OP_LHU | OP_LUI | OP_LW => exec_load
  | OP_LWL | OP_LWR => exec_load_partial
  | OP_MFHI | OP_MFLO | OP_MTHI | OP_MTLO | OP_MULT | OP_MULTU | OP_NOR | OP_OR | OP_ORI => exec_move_or
  | OP_SB | OP_SH | OP_SW => exec_store
  | OP_SLL | OP_SLLV | OP_SLT | OP_SLTI | OP_SLTIU | OP_SLTU | OP_SRA | OP_SRAV | OP_SRL | OP_SRLV
  | OP_SUB | OP_SUBU => exec_shift_sub
  | OP_SWL | OP_SWR => exec_store_partial
  | OP_SYSCALL | OP_XOR | OP_XORI | OP_RES | OP_UNIMP => exec_trap_xor
  | OP_RFE | SPECIAL | BCOND => AssertFail
  end.

End Exec.

(** One call of [OneInstruction]: the counters advanced, or control is about to
    go to [ExceptionHandler(which)]. *)
Inductive step_result :=
| Next (m : Machine)
| Trap (which : ExceptionType) (m : Machine).

(** The end of [OneInstruction]: delayed load and program counters. *)
Definition finish_instruction (m : Machine) (pcAfter nextLoadReg nextLoadValue : Z) : outcome Machine :=
  m ← Machine_DelayedLoad m nextLoadReg nextLoadValue;
  let m := set_reg m PrevPCReg (reg m PCReg) in
  let m := set_reg m PCReg (reg m NextPCReg) in
  Ok (set_reg m NextPCReg pcAfter).

Definition raise (m : Machine) (which : ExceptionType) (badVAddr : Z) : outcome step_result :=
  m' ← Machine_RaiseException m badVAddr;
  Ok (Trap which m').

(** [Machine::OneInstruction] *)
Definition Machine_OneInstruction (m : Machine) : outcome step_result :=
  raw ← Machine_ReadMem m (reg m PCReg) 4;
  match raw with
  | MemFault which badVAddr => raise m which badVAddr
  | MemOk raw m =>
      instr ← Instruction_Decode (wrap_u32 raw);
      let pcAfter := wrap_s32 (reg m NextPCReg + 4) in
      r ← execute m instr pcAfter;
      match r with
      | Done m pcAfter nextLoadReg nextLoadValue =>
          m' ← finish_instruction m pcAfter nextLoadReg nextLoadValue;
          Ok (Next m')
      | Raise m which badVAddr => raise m which badVAddr
      end
  end.

(** ** [Mult] computes the exact double-length product *)

Definition two64 : Z := 18446744073709551616.
Definition dword (hi lo : Z) : Z := hi * two32 + lo.

(** Equality modulo 2^64. *)
Definition eq64 (x y : Z) : Prop := x mod two64 = y mod two64.
#[local] Notation "x ≡64 y" := (eq64 x y) (at level 70).

#[export] Instance eq64_equiv : Equivalence eq64.
Proof. split; [by intros x|by intros x y|by intros x y z H1 H2; etrans]. Qed.
#[export] Instance eq64_add : Proper (eq64 ==> eq64 ==> eq64) Z.add.
Proof. intros x x' Hx y y' Hy. unfold eq64 in *. rewrite Zplus_mod, Hx, Hy. by rewrite <- Zplus_mod. Qed.
#[export] Instance eq64_mul : Proper (eq64 ==> eq64 ==> eq64) Z.mul.
Proof. intros x x' Hx y y' Hy. unfold eq64 in *. rewrite Zmult_mod, Hx, Hy. by rewrite <- Zmult_mod. Qed.

Lemma eq64_shift x y k : x = y + k * two64 -> x ≡64 y.
Proof. intros ->. unfold eq64. apply Z_mod_plus_full. Qed.

Lemma eq64_eq x y : 0 <= x < two64 -> 0 <= y < two64 -> x ≡64 y -> x = y.
Proof. unfold eq64. intros Hx Hy. by rewrite !Z.mod_small. Qed.

Lemma wrap_u32_carry x :
  0 <= x < 2 * two32 -> (x < two32 /\ wrap_u32 x = x) \/ (two32 <= x /\ wrap_u32 x = x - two32).
Proof.
  intros Hx. unfold wrap_u32. destruct (Z.lt_ge_cases x two32); [left|right]; split; try done.
  - rewrite Z.mod_small; lia.
  - symmetry. apply (Z.mod_unique_pos _ _ 1); unfold_int32; lia.
Qed.

(** One addition with carry. *)
Lemma mult_add lo hi bLo bHi :
  uint32 lo -> uint32 hi -> uint32 bLo -> uint32 bHi ->
  dword (wrap_u32 ((if wrap_u32 (lo + bLo) <? bLo then wrap_u32 (hi + 1) else hi) + bHi))
        (wrap_u32 (lo + bLo)) ≡64 dword hi lo + dword bHi bLo.
Proof.
  intros Hlo Hhi HbL HbH. unfold uint32 in *.
  assert (Hw : forall x, exists k, wrap_u32 x = x + k * two32).
  { intros x. exists (- (x / two32)). unfold wrap_u32. pose proof (Z.div_mod x two32 ltac:(done)). lia. }
  destruct (wrap_u32_carry (lo + bLo)) as [[Hc ->]|[Hc ->]]; [lia|..].
  - rewrite (proj2 (Z.ltb_ge _ _)) by lia. destruct (Hw (hi + bHi)) as [k ->].
    apply eq64_shift with k. unfold dword, two64, two32. lia.
  - rewrite (proj2 (Z.ltb_lt _ _)) by lia. destruct (Hw (wrap_u32 (hi + 1) + bHi)) as [k ->].
    destruct (Hw (hi + 1)) as [k' ->].
    apply eq64_shift with (k + k'). unfold dword, two64, two32. lia.
Qed.

Lemma lor_1_even x : x mod 2 = 0 -> Z.lor x 1 = x + 1.
Proof.
  intros Hx. rewrite <- Z.lxor_lor, <- Z.add_nocarry_lxor; [done|..];
    rewrite (land_low x 1 ltac:(lia) : Z.land x 1 = x mod 2); done.
Qed.

(** One doubling of the shifted multiplicand. *)
Lemma mult_double bLo bHi :
  uint32 bLo -> uint32 bHi ->
  let bHi1 := wrap_u32 (Z.shiftl bHi 1) in
  let bHi2 := if negb (Z.land bLo 0x80000000 =? 0) then Z.lor bHi1 1 else bHi1 in
  uint32 bHi2 /\ dword bHi2 (wrap_u32 (Z.shiftl bLo 1)) ≡64 2 * dword bHi bLo.
Proof.
  intros HL HH bHi1 bHi2. unfold bHi2, bHi1. clear bHi2 bHi1.
  rewrite !Z.shiftl_mul_pow2 by lia. change (2 ^ 1) with 2.
  change 0x80000000 with (2 ^ 31). rewrite land_pow2_bit by lia.
  assert (Hbit : Z.testbit bLo 31 = (2147483648 <=? bLo)).
  { unfold_int32. destruct (Z.leb_spec 2147483648 bLo).
    - apply Z.testbit_true; [lia|]. change (2 ^ 31) with 2147483648.
      replace (bLo / 2147483648) with 1; [done|]. apply Z.div_unique with (bLo - 2147483648); lia.
    - apply Z.testbit_false; [lia|]. change (2 ^ 31) with 2147483648. by rewrite Z.div_small by lia. }
  rewrite Hbit. unfold uint32 in *.
  assert (Heven : wrap_u32 (bHi * 2) mod 2 = 0).
  { unfold wrap_u32. rewrite <- (Znumtheory.Zmod_div_mod 2 two32); [by rewrite Z_mod_mult|done..|].
    by exists 2147483648. }
  pose proof (wrap_u32_range (bHi * 2)) as Hr. unfold uint32 in Hr.
  destruct (wrap_u32_carry (bHi * 2)) as [[Hc1 E1]|[Hc1 E1]]; [lia|..];
  destruct (wrap_u32_carry (bLo * 2)) as [[Hc2 E2]|[Hc2 E2]]; try lia;
  unfold two32 in *; rewrite E2;
  destruct (Z.leb_spec 2147483648 bLo); try lia;
  rewrite ?lor_1_even by done; rewrite E1 in *; (split; [lia|]);
  (apply eq64_shift with 0; unfold dword, two64, two32; lia) ||
  (apply eq64_shift with (-1); unfold dword, two64, two32; lia).
Qed.

Lemma land_fffffffe a : a mod 2 = 1 -> uint32 a -> Z.land a 0xfffffffe =? 0 = (a =? 1).
Proof.
  intros Ho Ha. destruct (Z.eqb_spec a 1) as [->|Hne]; [done|].
  apply Z.eqb_neq. intros H0.
  assert (Z.land a 0xffffffff = a) as Hid.
  { rewrite (land_low a 32 ltac:(lia) : Z.land a 0xffffffff = a mod 4294967296).
    apply Z.mod_small. exact Ha. }
  assert (Z.land a 0xffffffff = Z.lor (Z.land a 0xfffffffe) (Z.land a 1)) as Hs.
  { rewrite <- Z.land_lor_distr_r. done. }
  rewrite H0, Z.lor_0_l, (land_low a 1 ltac:(lia) : Z.land a 1 = a mod 2) in Hs. lia.
Qed.

(** The loop adds the low [n] bits of [a] times the multiplicand. *)
Lemma Mult_loop_spec n a bLo bHi lo hi :
  (n <= 32)%nat -> int32 a -> uint32 bLo -> uint32 bHi -> uint32 lo -> uint32 hi ->
  let r := Mult_loop n a bLo bHi lo hi in
  uint32 r.1 /\ uint32 r.2 /\
  dword r.1 r.2 ≡64 dword hi lo + (a mod 2 ^ Z.of_nat n) * dword bHi bLo.
Proof.
  revert a bLo bHi lo hi. induction n as [|n IH]; intros a bLo bHi lo hi Hn Ha HbL HbH Hlo Hhi.
  { simpl. conjs; [done..|]. rewrite Z.mod_1_r. apply eq64_shift with 0. lia. }
  cbn [Mult_loop]. rewrite (land_low a 1 ltac:(lia) : Z.land a 1 = a mod 2).
  pose proof (Z.mod_pos_bound a 2 ltac:(lia)) as Hm2.
  assert (Hsplit : a mod 2 ^ Z.of_nat (S n) = a mod 2 + 2 * (Z.shiftr a 1 mod 2 ^ Z.of_nat n)).
  { rewrite Nat2Z.inj_succ, Z.pow_succ_r by lia. rewrite Z.shiftr_div_pow2 by lia.
    change (2 ^ 1) with 2. apply Z.rem_mul_r; [lia|]. apply Z.pow_pos_nonneg; lia. }
  pose proof (mult_double bLo bHi HbL HbH) as [HbH2 Hd].
  assert (Hrec : forall lo hi, uint32 lo -> uint32 hi -> _) by
    (intros lo' hi' Hl' Hh'; exact (IH (Z.shiftr a 1) (wrap_u32 (Z.shiftl bLo 1)) _ lo' hi' ltac:(lia)
      (int32_shiftr_closed a 1 ltac:(lia) Ha) (wrap_u32_range _) HbH2 Hl' Hh')).
  destruct (Z.eqb_spec (a mod 2) 0) as [H0|H1]; simpl negb.
  - destruct (Hrec lo hi Hlo Hhi) as (R1 & R2 & R3). simpl. conjs; [done..|].
    rewrite R3, Hd, Hsplit, H0. apply eq64_shift with 0. lia.
  - set (lo1 := wrap_u32 (lo + bLo)).
    set (hi1 := wrap_u32 ((if lo1 <? bLo then _ else _) + bHi)).
    assert (Hadd : dword hi1 lo1 ≡64 dword hi lo + dword bHi bLo) by (by apply mult_add).
    assert (Hl1 : uint32 lo1) by apply wrap_u32_range.
    assert (Hh1 : uint32 hi1) by apply wrap_u32_range. simpl andb.
    rewrite land_fffffffe; [|unfold wrap_u32; rewrite <- (Znumtheory.Zmod_div_mod 2 two32); [lia|done|done|by exists 2147483648]|apply wrap_u32_range].
    destruct (Z.eqb_spec (wrap_u32 a) 1) as [Ha1|Ha1].
    + simpl. conjs; [done..|]. rewrite Hadd.
      assert (a = 1) as ->.
      { rewrite <- (wrap_s32_id a Ha), <- wrap_s32_wrap_u32, Ha1. done. }
      rewrite Z.mod_1_l; [apply eq64_shift with 0; lia|].
      rewrite Nat2Z.inj_succ, Z.pow_succ_r by lia. pose proof (Z.pow_pos_nonneg 2 (Z.of_nat n)). lia.
    + destruct (Hrec lo1 hi1 Hl1 Hh1) as (R1 & R2 & R3). simpl. conjs; [done..|].
      rewrite R3, Hd, Hadd, Hsplit. apply eq64_shift with 0. replace (a mod 2) with 1 by lia. lia.
Qed.

(** The value of the register pair HI, LO as a signed or an unsigned number. *)
Definition pair_value (signedArith : bool) (hl : Z * Z) : Z :=
  dword (if signedArith then hl.1 else wrap_u32 hl.1) (wrap_u32 hl.2).

Lemma abs_word b :
  int32 b -> wrap_u32 (if b <? 0 then wrap_s32 (- b) else b) = Z.abs b.
Proof.
  intros Hb. destruct (Z.ltb_spec b 0).
  - rewrite wrap_u32_wrap_s32, wrap_u32_id; unfold_int32; lia.
  - rewrite wrap_u32_id; unfold_int32; lia.
Qed.

Lemma Mult_magnitude a b :
  int32 a -> uint32 b ->
  let r := Mult_loop 32 a b 0 0 0 in
  uint32 r.1 /\ uint32 r.2 /\ dword r.1 r.2 = wrap_u32 a * b.
Proof.
  intros Ha Hb r. destruct (Mult_loop_spec 32 a b 0 0 0) as (R1 & R2 & R3); try done; try lia.
  fold r in R1, R2, R3. conjs; try done. apply eq64_eq.
  - unfold dword, two64 in *. unfold_int32. lia.
  - pose proof (wrap_u32_range a). unfold two64. unfold_int32. nia.
  - rewrite R3. apply eq64_shift with 0. change (2 ^ Z.of_nat 32) with two32.
    unfold dword, wrap_u32. lia.
Qed.

Lemma Mult_range a b s : int32 (Mult a b s).1 /\ int32 (Mult a b s).2.
Proof.
  unfold Mult. destruct ((a =? 0) || (b =? 0)); [split; unfold_int32; simpl; lia|].
  destruct (Mult_loop _ _ _ _ _ _) as [hi lo]. destruct (s && _); simpl; auto with nachos.
Qed.

(** ** Decoding is total and gives legal fields *)

Record instr_wf (i : Instruction) : Prop := {
  iw_rs : 0 <= rs i < 32;
  iw_rt : 0 <= rt i < 32;
  iw_rd : 0 <= rd i < 32;
  iw_extra : int32 (extra i);
  iw_shamt : opCode i ∈ [OP_SLL; OP_SRA; OP_SRL] -> 0 <= extra i < 32;
  iw_op : opCode i ∉ [OP_RFE; SPECIAL; BCOND] }.

Lemma opTable_ok :
  Forall (fun e : OpCode * Format => e.1 ∉ [OP_RFE; OP_SLL; OP_SRA; OP_SRL] /\ (e.1 = SPECIAL -> e.2 = RFMT)) opTable.
Proof. apply (bool_decide_unpack _). vm_compute. done. Qed.

Lemma specialTable_ok : Forall (fun op => op ∉ [OP_RFE; SPECIAL; BCOND]) specialTable.
Proof. apply (bool_decide_unpack _). vm_compute. done. Qed.

(** [op_cases H] goes through the opcodes of a list, [in_list] finds one in it. *)
#[local] Ltac op_cases H :=
  match type of H with
  | _ ∈ _ :: _ => apply elem_of_cons in H; destruct H as [H|H]; [|op_cases H]
  | _ ∈ [] => by apply not_elem_of_nil in H
  end.
#[local] Ltac in_list := repeat first [apply list_elem_of_here | apply list_elem_of_further].

Lemma Decode_wf value : exists i, Instruction_Decode value = Ok i /\ instr_wf i.
Proof.
  unfold Instruction_Decode.
  pose proof (land_low_range (Z.shiftr value 21) 31 5 ltac:(lia) eq_refl) as Hrs.
  pose proof (land_low_range (Z.shiftr value 16) 31 5 ltac:(lia) eq_refl) as Hrt.
  pose proof (land_low_range (Z.shiftr value 11) 31 5 ltac:(lia) eq_refl) as Hrd.
  pose proof (land_low_range (Z.shiftr value 6) 31 5 ltac:(lia) eq_refl) as Hsh.
  pose proof (land_low_range (Z.shiftr value 26) 63 6 ltac:(lia) eq_refl) as Hop.
  pose proof (land_low_range value 63 6 ltac:(lia) eq_refl) as Hfn.
  pose proof (land_low_range value 65535 16 ltac:(lia) eq_refl) as Him.
  pose proof (land_low_range value 0x3ffffff 26 ltac:(lia) eq_refl) as Htg.
  destruct (lookupZ_range opTable _ Hop) as [[op format] Eop].
  rewrite Eop. simpl.
  pose proof opTable_ok as HT. rewrite Forall_lookupZ in HT. specialize (HT _ _ Eop) as [HT1 HT2]. simpl in *.
  assert (Hex : int32 match format with
    | IFMT => if negb (Z.land (Z.land value 65535) 32768 =? 0)
              then wrap_s32 (Z.lor (Z.land value 65535) 4294901760) else Z.land value 65535
    | JFMT => Z.land value 67108863
    | RFMT => Z.land (value ≫ 6) 31 end).
  { destruct format; [case_if; [apply wrap_s32_range|]|..]; unfold_int32; lia. }
  destruct op; try (exfalso; apply HT1; in_list; fail);
    try (eexists; split; [reflexivity|]; split; simpl; try done; intros Hin; op_cases Hin; done).
  - destruct (lookupZ_range specialTable _ Hfn) as [op Esp]. rewrite Esp.
    pose proof specialTable_ok as HS. rewrite Forall_lookupZ in HS. specialize (HS _ _ Esp).
    eexists. split; [reflexivity|]. rewrite (HT2 eq_refl) in *. split; simpl; done.
  - eexists. split; [reflexivity|]. split; simpl; try done; repeat case_if; intros Hin; op_cases Hin; done.
Qed.

(** ** The switch keeps the machine well formed *)

(** [m'] is a well-formed machine with the control registers of [m]. *)
Definition keeps (m m' : Machine) : Prop :=
  Machine_wf m' /\ forall r, 34 <= r < 40 -> reg m' r = reg m r.

Definition exec_ok (m : Machine) (i : Instruction) (r : outcome exec_result) : Prop :=
  match r with
  | Ok (Done m' pc nextReg nextVal) => keeps m m' /\ int32 pc /\ 0 <= nextReg < 32 /\ int32 nextVal
  | Ok (Raise m' which badVAddr) =>
      Machine_wf m' /\ registers m' = registers m /\ int32 badVAddr /\ which <> NoException
  | AssertFail => opCode i ∈ [OP_LWL; OP_LWR; OP_SWL; OP_SWR] /\ Z.land (address m i) 3 <> 0
  | Undefined => opCode i = OP_DIV /\ vrs m i = int32_min /\ vrt m i = -1
  | Halt => False
  end.

Lemma keeps_refl m : Machine_wf m -> keeps m m.
Proof. done. Qed.

Lemma keeps_set_reg m m' r v : keeps m m' -> 0 <= r < 34 -> int32 v -> keeps m (set_reg m' r v).
Proof.
  intros [Hwf Hk] Hr Hv. split; [by apply set_reg_wf|].
  intros j Hj. rewrite reg_set_reg_ne by lia. by apply Hk.
Qed.

Lemma keeps_same_regs m m' : Machine_wf m' -> registers m' = registers m -> keeps m m'.
Proof. intros Hwf Hr. split; [done|]. intros r _. unfold reg. by rewrite Hr. Qed.

#[local] Hint Resolve keeps_refl keeps_set_reg : nachos.
#[local] Hint Extern 1 (int32 0) => (apply int32_small; lia) : nachos.
#[local] Hint Extern 1 (0 <= _ < _) => (unfold HiReg, LoReg, R31 in *; lia) : nachos.
#[local] Hint Resolve iw_rs iw_rt iw_rd : nachos.

#[local] Ltac ok := conjs; auto with nachos; try lia.

Section ExecOk.
Context (m : Machine) (i : Instruction) (pcAfter : Z).
Context (Hwf : Machine_wf m) (Hi : instr_wf i) (Hpc : int32 pcAfter).

Lemma vrs_int32 : int32 (vrs m i).
Proof. by apply reg_int32. Qed.
Lemma vrt_int32 : int32 (vrt m i).
Proof. by apply reg_int32. Qed.
#[local] Hint Resolve vrs_int32 vrt_int32 : nachos.

Lemma assign_ok r v : 0 <= r < 34 -> int32 v -> exec_ok m i (assign m pcAfter r v).
Proof. intros. simpl. ok. Qed.

Lemma gp_index r : 0 <= r < 32 -> 0 <= r < 34.
Proof. lia. Qed.
#[local] Hint Resolve gp_index : nachos.

Lemma branch_ok m' taken : keeps m m' -> exec_ok m i (branch i pcAfter m' taken).
Proof.
  intros Hk. simpl. ok.
  destruct taken; [apply wrap_s32_range|done].
Qed.

Lemma raise_ok m' which badVAddr :
  Machine_wf m' -> registers m' = registers m -> int32 badVAddr -> which <> NoException ->
  exec_ok m i (Ok (Raise m' which badVAddr)).
Proof. done. Qed.

Lemma link_keeps r : 0 <= r < 34 -> keeps m (link m r).
Proof. intros. apply keeps_set_reg; auto with nachos. Qed.

Lemma land_imm_int32 x k : int32 x -> int32 (Z.land x (Z.land k 0xffff)).
Proof.
  intros. apply int32_land; [done|]. apply int32_small.
  exact (land_low_range k 65535 16 ltac:(lia) eq_refl).
Qed.

Lemma imm_int32 k : int32 (Z.land k 0xffff).
Proof. apply int32_small. exact (land_low_range k 65535 16 ltac:(lia) eq_refl). Qed.
#[local] Hint Resolve link_keeps land_imm_int32 imm_int32 : nachos.

Lemma exec_add_and_ok : opCode i ∈ [OP_ADD; OP_ADDI; OP_ADDIU; OP_ADDU; OP_AND; OP_ANDI] ->
  exec_ok m i (exec_add_and m i pcAfter).
Proof.
  intros Ho. unfold exec_add_and.
  op_cases Ho; rewrite Ho; try case_if;
    first [apply raise_ok; auto with nachos | apply assign_ok; auto with nachos].
Qed.

Lemma exec_branch_ok :
  opCode i ∈ [OP_BEQ; OP_BGEZ; OP_BGEZAL; OP_BGTZ; OP_BLEZ; OP_BLTZ; OP_BLTZAL; OP_BNE] ->
  exec_ok m i (exec_branch m i pcAfter).
Proof.
  intros Ho. unfold exec_branch.
  op_cases Ho; rewrite Ho; apply branch_ok; auto with nachos.
Qed.

Lemma quot_rem_int32 a b :
  int32 a -> int32 b -> b <> 0 -> ~ (a = int32_min /\ b = -1) ->
  int32 (Z.quot a b) /\ int32 (Z.rem a b).
Proof.
  intros Ha Hb H0 Hn. pose proof (Z.quot_rem a b H0) as Hqr.
  pose proof (Z.rem_bound_abs a b H0) as Hr. pose proof (Z.rem_sign_mul a b H0) as Hs.
  unfold_int32. split; [|lia]. nia.
Qed.

Lemma exec_div_ok : opCode i ∈ [OP_DIV; OP_DIVU] -> exec_ok m i (exec_div m i pcAfter).
Proof.
  intros Ho. unfold exec_div. op_cases Ho; rewrite Ho.
  - destruct (Z.eqb_spec (vrt m i) 0). { simpl. ok. }
    destruct (Z.eqb_spec (vrs m i) int32_min), (Z.eqb_spec (vrt m i) (-1)); simpl; try done;
      (destruct (quot_rem_int32 (vrs m i) (vrt m i)); [auto with nachos..|tauto|]);
      ok.
  - case_if; simpl; ok.
Qed.

Lemma exec_jump_ok : opCode i ∈ [OP_J; OP_JAL; OP_JALR; OP_JR] -> exec_ok m i (exec_jump m i pcAfter).
Proof.
  intros Ho. unfold exec_jump. op_cases Ho; rewrite Ho; simpl;
    ok; try apply wrap_s32_range; apply reg_int32; auto with nachos.
  apply (link_keeps (rd i)). auto with nachos.
Qed.

(** A read followed by a continuation that keeps the machine. *)
Lemma after_read_ok size addr k :
  valid_size size -> int32 addr ->
  (forall v m', int32 v -> keeps m m' -> registers m' = registers m -> same_map m m' ->
     exec_ok m i (k v m')) ->
  exec_ok m i (after_read m (Machine_ReadMem m addr size) k).
Proof.
  intros Hs Ha Hk. unfold after_read.
  destruct (ReadMem_cases m addr size Hwf Hs)
    as [(w & -> & Hp & Hw)|(v & m' & pa & -> & _ & _ & _ & _ & Hv & Hwf' & _ & Hm)]; simpl.
  - conjs; try done. intros ->. unfold phys_of in Hp.
    destruct (Translate_total m addr size false Hwf Hs) as [(w & E & Hin)|(? & ? & E & _)];
      rewrite E in Hp; simpl in Hp; simplify_eq. set_solver.
  - destruct Hm as (Hr & ?). apply Hk; [done|by apply keeps_same_regs|done|by red].
Qed.

Lemma after_write_ok m1 size addr value :
  Machine_wf m1 -> registers m1 = registers m -> valid_size size -> int32 addr ->
  exec_ok m i (w ← Machine_WriteMem m1 addr size value;
    match w with
    | MemOk _ m'' => Ok (Done m'' pcAfter 0 0)
    | MemFault which badVAddr => Ok (Raise m1 which badVAddr)
    end).
Proof.
  intros Hwf1 Hr1 Hs Ha.
  destruct (WriteMem_cases m1 addr size value Hwf1 Hs)
    as [(w & -> & Hp & Hw)|(m' & pa & bs & -> & _ & _ & _ & _ & _ & _ & Hwf' & Hm)]; simpl.
  - conjs; try done. intros ->. unfold phys_of in Hp.
    destruct (Translate_total m1 addr size true Hwf1 Hs) as [(w & E & Hin)|(? & ? & E & _)];
      rewrite E in Hp; simpl in Hp; simplify_eq. set_solver.
  - destruct Hm as (Hr & _). ok. apply keeps_same_regs; [done|congruence].
Qed.

Lemma delayed_ok m' v : keeps m m' -> int32 v -> exec_ok m i (delayed i pcAfter m' v).
Proof. intros. simpl. ok; apply Hi. Qed.

Lemma address_int32 : int32 (address m i).
Proof. apply wrap_s32_range. Qed.
#[local] Hint Resolve address_int32 : nachos.

Lemma byte_int32 v : int32 (Z.land v 0xff).
Proof.
  apply int32_small. pose proof (land_low_range v 255 8 ltac:(lia) eq_refl).
  change (2 ^ 8) with 256 in *. lia.
Qed.
#[local] Hint Resolve byte_int32 : nachos.

Lemma exec_load_ok : opCode i ∈ [OP_LB; OP_LBU; OP_LH; OP_LHU; OP_LUI; OP_LW] ->
  exec_ok m i (exec_load m i pcAfter).
Proof.
  intros Ho. unfold exec_load. op_cases Ho; rewrite Ho;
    try (apply assign_ok; auto with nachos);
    try (destruct (negb (Z.land (address m i) _ =? 0)); [apply raise_ok; auto with nachos|]);
    (apply after_read_ok; [unfold valid_size; tauto|auto with nachos|]);
    intros v m' Hv Hk _ _; (apply delayed_ok; [done|]); try case_if; auto with nachos.
Qed.

Lemma exec_load_partial_ok : opCode i ∈ [OP_LWL; OP_LWR] -> exec_ok m i (exec_load_partial m i pcAfter).
Proof.
  intros Ho. unfold exec_load_partial. op_cases Ho; rewrite Ho;
    (destruct (Z.eqb_spec (Z.land (address m i) 3) 0); [|simpl; rewrite Ho; by split; [in_list|]]); simpl;
    (apply after_read_ok; [unfold valid_size; tauto|auto with nachos|]);
    intros v m' Hv Hk _ _; (apply delayed_ok; [done|]); auto with nachos.
Qed.

Lemma exec_move_or_ok :
  opCode i ∈ [OP_MFHI; OP_MFLO; OP_MTHI; OP_MTLO; OP_MULT; OP_MULTU; OP_NOR; OP_OR; OP_ORI] ->
  exec_ok m i (exec_move_or m i pcAfter).
Proof.
  pose proof (Mult_range (vrs m i) (vrt m i) true) as [M1 M2].
  pose proof (Mult_range (vrs m i) (vrt m i) false) as [M3 M4].
  intros Ho. unfold exec_move_or. op_cases Ho; rewrite Ho;
    try (apply assign_ok; auto with nachos); cbn [exec_ok assign_hi_lo]; ok.
Qed.

Lemma exec_store_ok : opCode i ∈ [OP_SB; OP_SH; OP_SW] -> exec_ok m i (exec_store m i pcAfter).
Proof.
  intros Ho. unfold exec_store, after_read. op_cases Ho; rewrite Ho;
    apply after_write_ok; auto with nachos; unfold valid_size; tauto.
Qed.

Lemma int32_shiftr_reg x k : int32 x -> 0 <= k -> int32 (Z.shiftr x k).
Proof. intros. by apply int32_shiftr_closed. Qed.

Lemma flag_int32 b : int32 (flag b).
Proof. apply int32_small. unfold flag. destruct b; lia. Qed.

Lemma shamt_reg x : 0 <= Z.land x 0x1f.
Proof. exact (proj1 (land_low_range x 31 5 ltac:(lia) eq_refl)). Qed.
#[local] Hint Resolve int32_shiftr_reg flag_int32 shamt_reg : nachos.

Lemma exec_shift_sub_ok :
  opCode i ∈ [OP_SLL; OP_SLLV; OP_SLT; OP_SLTI; OP_SLTIU; OP_SLTU; OP_SRA; OP_SRAV; OP_SRL; OP_SRLV;
              OP_SUB; OP_SUBU] ->
  exec_ok m i (exec_shift_sub m i pcAfter).
Proof.
  pose proof (iw_shamt _ Hi) as Hsh.
  intros Ho. unfold exec_shift_sub. op_cases Ho; rewrite Ho; try case_if;
    first [apply raise_ok; auto with nachos | apply assign_ok; auto with nachos];
    apply int32_shiftr_reg; auto with nachos; apply Hsh; rewrite Ho; in_list.
Qed.

Lemma store_partial_ok tmp f :
  tmp = address m i -> opCode i ∈ [OP_SWL; OP_SWR] -> exec_ok m i (store_partial m pcAfter tmp f).
Proof.
  intros -> Ho. unfold store_partial.
  destruct (Z.eqb_spec (Z.land (address m i) 3) 0); [|simpl; split; [|done]; op_cases Ho; rewrite Ho; in_list]. simpl.
  assert (int32 (Z.land (address m i) (Z.lnot 3))) by (apply int32_land; auto with nachos; change (Z.lnot 3) with (-4); unfold_int32; lia).
  apply after_read_ok; [unfold valid_size; tauto|done|]. intros v m' Hv [Hk _] Hr _.
  apply after_write_ok; try done. unfold valid_size; tauto.
Qed.

Lemma exec_store_partial_ok : opCode i ∈ [OP_SWL; OP_SWR] -> exec_ok m i (exec_store_partial m i pcAfter).
Proof.
  intros Ho. unfold exec_store_partial.
  op_cases Ho; rewrite Ho; apply store_partial_ok; try done; rewrite Ho; in_list.
Qed.

Lemma exec_trap_xor_ok : opCode i ∈ [OP_SYSCALL; OP_XOR; OP_XORI; OP_RES; OP_UNIMP] ->
  exec_ok m i (exec_trap_xor m i pcAfter).
Proof.
  intros Ho. unfold exec_trap_xor. op_cases Ho; rewrite Ho;
    first [apply raise_ok; auto with nachos | apply assign_ok; auto with nachos].
Qed.

Lemma execute_ok : exec_ok m i (execute m i pcAfter).
Proof.
  pose proof (iw_op _ Hi) as Hop. unfold execute. destruct (opCode i) eqn:E;
    try (exfalso; apply Hop; in_list; fail);
    first [apply exec_add_and_ok | apply exec_branch_ok | apply exec_div_ok | apply exec_jump_ok
          | apply exec_load_ok | apply exec_load_partial_ok | apply exec_move_or_ok | apply exec_store_ok
          | apply exec_shift_sub_ok | apply exec_store_partial_ok | apply exec_trap_xor_ok];
    rewrite E; in_list.
Qed.

End ExecOk.

(** ** One instruction *)

(** What holds between instructions: the pending load names a general register
    and R0 is zero. *)
Record cpu_wf (m : Machine) : Prop := {
  cw_machine : Machine_wf m;
  cw_load : 0 <= reg m LoadReg < 32;
  cw_zero : reg m 0 = 0 }.

(** [instr] is the instruction at the program counter; [m1] is the machine after
    the fetch. *)
Definition fetched (m : Machine) (instr : Instruction) (m1 : Machine) : Prop :=
  exists raw, Machine_ReadMem m (reg m PCReg) 4 = Ok (MemOk raw m1) /\
    Instruction_Decode (wrap_u32 raw) = Ok instr.

(** The pending load of [m] has been done in [m']. *)
Definition load_done (m m' : Machine) : Prop :=
  reg m LoadReg <> 0 -> reg m' (reg m LoadReg) = reg m LoadValueReg.

Definition same_pcs (m m' : Machine) : Prop :=
  reg m' PCReg = reg m PCReg /\ reg m' NextPCReg = reg m NextPCReg /\ reg m' PrevPCReg = reg m PrevPCReg.

(** Reads of any register after [DelayedLoad]. *)
Lemma DelayedLoad_regs m nextReg nextVal :
  Machine_wf m -> 0 <= reg m LoadReg < 32 -> 0 <= nextReg < 32 -> int32 nextVal ->
  exists m', Machine_DelayedLoad m nextReg nextVal = Ok m' /\ cpu_wf m' /\
    reg m' LoadReg = nextReg /\ reg m' LoadValueReg = nextVal /\ load_done m m' /\ same_pcs m m' /\
    (forall r, 0 < r < 32 -> r <> reg m LoadReg -> reg m' r = reg m r).
Proof.
  intros Hwf Hl Hn Hv. pose proof (wf_registers _ Hwf) as HL.
  rewrite DelayedLoad_spec by (auto; lia). eexists. split; [done|].
  set (m1 := set_reg m (reg m LoadReg) (reg m LoadValueReg)).
  set (m2 := set_reg m1 LoadReg nextReg). set (m3 := set_reg m2 LoadValueReg nextVal).
  assert (H1 : Machine_wf m1) by (apply set_reg_wf; auto with nachos).
  assert (H2 : Machine_wf m2) by (apply set_reg_wf; [done|apply int32_small; lia]).
  assert (H3 : Machine_wf m3) by (apply set_reg_wf; auto with nachos).
  assert (H4 : Machine_wf (set_reg m3 0 0)) by (apply set_reg_wf; [done|apply int32_small; lia]).
  assert (E37 : reg (set_reg m3 0 0) LoadReg = nextReg) by (unfold m3, m2; by reg_simpl).
  conjs; [split; [done|by rewrite E37|by reg_simpl]|done|unfold m3; by reg_simpl|..].
  - intros Hne. unfold m3, m2, m1. rewrite (reg_set_reg_ne _ 0) by lia.
    rewrite !(reg_set_reg_ne _ _ (reg m LoadReg)) by (unfold_regs; lia). by reg_simpl.
  - unfold same_pcs, m3, m2, m1. conjs; rewrite !reg_set_reg_ne by (unfold_regs; lia); done.
  - intros r Hr Hne. unfold m3, m2, m1. rewrite !reg_set_reg_ne by (unfold_regs; lia). done.
Qed.

Lemma raise_spec m which badVAddr :
  Machine_wf m -> 0 <= reg m LoadReg < 32 -> int32 badVAddr ->
  exists m', raise m which badVAddr = Ok (Trap which m') /\ cpu_wf m' /\
    reg m' LoadReg = 0 /\ load_done m m' /\ same_pcs m m' /\
    (forall r, 0 < r < 32 -> r <> reg m LoadReg -> reg m' r = reg m r).
Proof.
  intros Hwf Hl Hb. unfold raise, Machine_RaiseException.
  set (mb := set_reg m BadVAddrReg badVAddr).
  assert (Hmb : Machine_wf mb) by (apply set_reg_wf; done).
  assert (El : reg mb LoadReg = reg m LoadReg) by (unfold mb; by reg_simpl).
  destruct (DelayedLoad_regs mb 0 0 Hmb) as (m' & -> & H1 & H2 & _ & H4 & H5 & H6);
    [by rewrite El|lia|apply int32_small; lia|].
  exists m'. unfold load_done, same_pcs in *. rewrite El in *. unfold mb in *. conjs; try done.
  - intros Hne. rewrite H4 by done. by reg_simpl.
  - destruct H5 as (-> & _ & _). by reg_simpl.
  - destruct H5 as (_ & -> & _). by reg_simpl.
  - destruct H5 as (_ & _ & ->). by reg_simpl.
  - intros r Hr Hne. rewrite H6 by done. by reg_simpl.
Qed.

Lemma finish_spec m pcAfter nextReg nextVal :
  Machine_wf m -> 0 <= reg m LoadReg < 32 -> int32 pcAfter -> 0 <= nextReg < 32 -> int32 nextVal ->
  exists m', finish_instruction m pcAfter nextReg nextVal = Ok m' /\ cpu_wf m' /\
    reg m' LoadReg = nextReg /\ reg m' LoadValueReg = nextVal /\ load_done m m' /\
    reg m' PCReg = reg m NextPCReg /\ reg m' PrevPCReg = reg m PCReg /\ reg m' NextPCReg = pcAfter /\
    (forall r, 0 < r < 32 -> r <> reg m LoadReg -> reg m' r = reg m r).
Proof.
  intros Hwf Hl Hpc Hn Hv. unfold finish_instruction.
  destruct (DelayedLoad_regs m nextReg nextVal Hwf Hl Hn Hv)
    as (m1 & -> & [W1 W2 W3] & E1 & E2 & Hd & (P1 & P2 & P3) & Hr). simpl.
  set (m2 := set_reg m1 PrevPCReg (reg m1 PCReg)). set (m3 := set_reg m2 PCReg (reg m2 NextPCReg)).
  assert (H2 : Machine_wf m2) by (apply set_reg_wf; auto with nachos).
  assert (H3 : Machine_wf m3) by (apply set_reg_wf; auto with nachos).
  assert (H4 : Machine_wf (set_reg m3 NextPCReg pcAfter)) by (by apply set_reg_wf).
  assert (Hlow : forall r, 0 <= r < 32 \/ r = LoadReg \/ r = LoadValueReg ->
                 reg (set_reg m3 NextPCReg pcAfter) r = reg m1 r).
  { intros r Hr'. unfold m3, m2. rewrite !reg_set_reg_ne by (unfold_regs; lia). done. }
  eexists. split; [done|]. conjs.
  - split; [done|rewrite Hlow by auto; lia|rewrite Hlow by lia; done].
  - rewrite Hlow by auto. done.
  - rewrite Hlow by auto. done.
  - intros Hne. rewrite Hlow by auto. by apply Hd.
  - rewrite <- P2. unfold m3, m2. by reg_simpl.
  - rewrite <- P1. unfold m3, m2. by reg_simpl.
  - by reg_simpl.
  - intros r Hr' Hne. rewrite Hlow by lia. by apply Hr.
Qed.

(** The shared case analysis of [OneInstruction]. *)
Lemma OneInstruction_cases m :
  cpu_wf m ->
  match Machine_OneInstruction m with
  | Ok (Next m') =>
      cpu_wf m' /\ load_done m m' /\ reg m' PCReg = reg m NextPCReg /\ reg m' PrevPCReg = reg m PCReg
  | Ok (Trap which m') =>
      cpu_wf m' /\ load_done m m' /\ same_pcs m m' /\ reg m' LoadReg = 0 /\ which <> NoException
  | AssertFail => exists instr m1, fetched m instr m1 /\
      opCode instr ∈ [OP_LWL; OP_LWR; OP_SWL; OP_SWR] /\ Z.land (address m1 instr) 3 <> 0
  | Undefined => exists instr m1, fetched m instr m1 /\
      opCode instr = OP_DIV /\ vrs m1 instr = int32_min /\ vrt m1 instr = -1
  | Halt => False
  end.
Proof.
  intros [Hwf Hl Hz]. unfold Machine_OneInstruction.
  assert (Hs4 : valid_size 4) by (unfold valid_size; lia).
  destruct (ReadMem_cases m (reg m PCReg) 4 Hwf Hs4)
    as [(w & E & Hp & Hw)|(raw & m1 & pa & E & _ & _ & _ & _ & Hraw & Hwf1 & _ & Hmap)]; rewrite E, bind_Ok.
  - destruct (raise_spec m w (reg m PCReg) Hwf Hl ltac:(auto with nachos)) as (m' & -> & ? & ? & ? & ? & _).
    conjs; try done. intros ->. unfold phys_of in Hp.
    destruct (Translate_total m (reg m PCReg) 4 false Hwf Hs4) as [(w & E' & Hin)|(? & ? & E' & _)];
      rewrite E' in Hp; simpl in Hp; simplify_eq. set_solver.
  - destruct Hmap as (Hreg & _).
    assert (Hr : forall r, reg m1 r = reg m r) by (intros; unfold reg; by rewrite Hreg).
    destruct (Decode_wf (wrap_u32 raw)) as (instr & Ed & Hi). rewrite Ed, bind_Ok.
    assert (Hf : fetched m instr m1) by (exists raw; done).
    pose proof (execute_ok m1 instr (wrap_s32 (reg m1 NextPCReg + 4)) Hwf1 Hi ltac:(auto with nachos)) as Hx.
    destruct (execute _ _ _) as [[m2 pc nr nv|m2 w b]| | |]; cbn [exec_ok mbind outcome_bind] in *.
    + destruct Hx as ((Hwf2 & Hk) & Hpc & Hn & Hv).
      assert (Hk' : forall r, 34 <= r < 40 -> reg m2 r = reg m r) by (intros; rewrite Hk, Hr; done).
      destruct (finish_spec m2 pc nr nv Hwf2) as (m' & -> & ? & _ & _ & Hd & ? & ? & _); try done.
      { rewrite Hk' by (unfold_regs; lia). done. }
      cbn [mbind outcome_bind]. unfold load_done in *. rewrite !Hk' in * by (unfold_regs; lia). done.
    + destruct Hx as (Hwf2 & Hreg2 & Hb & Hw).
      assert (Hr' : forall r, reg m2 r = reg m r) by (intros; unfold reg; by rewrite Hreg2, Hreg).
      destruct (raise_spec m2 w b Hwf2) as (m' & -> & ? & ? & Hd & Hp & _); [by rewrite Hr'|done|].
      unfold load_done, same_pcs in *. rewrite !Hr' in *. done.
    + eauto.
    + done.
    + eauto.
Qed.

(** ** Properties *)

Lemma sample_cpu_wf code r1 r2 r3 :
  4 * lenZ code <= MemorySize -> int32 r1 -> int32 r2 -> int32 r3 ->
  cpu_wf (sample_machine code (sample_regs r1 r2 r3)).
Proof. intros. split; [by apply sample_wf|done|done]. Qed.

Definition machine_of (r : step_result) : Machine := match r with Next m | Trap _ m => m end.

(** C7: on a well-formed machine [OneInstruction] keeps the hardware state well
    formed (register and memory sizes and widths, R0 zero, a legal pending load)
    and the simulator stops only in the places the code provides for: an
    assertion fails for an unaligned LWL, LWR, SWL or SWR, and only the
    quotient INT_MIN / -1 has no meaning. *)
Theorem OneInstruction_safe m :
  cpu_wf m ->
  (exists r, Machine_OneInstruction m = Ok r /\ cpu_wf (machine_of r)) \/
  (exists instr m1, fetched m instr m1 /\
     ((Machine_OneInstruction m = AssertFail /\ opCode instr ∈ [OP_LWL; OP_LWR; OP_SWL; OP_SWR] /\
       Z.land (address m1 instr) 3 <> 0) \/
      (Machine_OneInstruction m = Undefined /\ opCode instr = OP_DIV /\
       vrs m1 instr = int32_min /\ vrt m1 instr = -1))).
Proof.
  intros Hm. pose proof (OneInstruction_cases m Hm) as Hc.
  destruct (Machine_OneInstruction m) as [[m'|w m']| | |]; simpl.
  - left. exists (Next m'). split; [done|]. apply Hc.
  - left. exists (Trap w m'). split; [done|]. apply Hc.
  - right. destruct Hc as (i & m1 & ? & ? & ?). exists i, m1. eauto 10.
  - done.
  - right. destruct Hc as (i & m1 & ? & ? & ? & ?). exists i, m1. split; [done|]. right. eauto.
Qed.

(** The word 0x00221820 is ADD r3,r1,r2. *)
Lemma OneInstruction_safe_witness :
  exists r, Machine_OneInstruction (sample_machine [0x00221820] (sample_regs 5 7 0)) = Ok r /\
    cpu_wf (machine_of r) /\ reg (machine_of r) 3 = 12.
Proof.
  destruct (OneInstruction_safe (sample_machine [0x00221820] (sample_regs 5 7 0)))
    as [(r & E & H)|(i & m1 & Hf & [(E & _)|(E & _)])].
  - apply sample_cpu_wf; try (apply int32_small; lia). vm_compute. done.
  - exists r. conjs; [done..|].
    assert (Hv : match Machine_OneInstruction (sample_machine [0x00221820] (sample_regs 5 7 0)) with
                 | Ok r => reg (machine_of r) 3 | _ => 0 end = 12) by (vm_compute; reflexivity).
    rewrite E in Hv. exact Hv.
  - exfalso. assert (Hv : is_ok (Machine_OneInstruction (sample_machine [0x00221820] (sample_regs 5 7 0))) = true)
      by (vm_compute; reflexivity). rewrite E in Hv. done.
  - exfalso. assert (Hv : is_ok (Machine_OneInstruction (sample_machine [0x00221820] (sample_regs 5 7 0))) = true)
      by (vm_compute; reflexivity). rewrite E in Hv. done.
Defined.

(** C38: the delay slots.  When [OneInstruction] completes, the instruction it
    ran was followed by the one in the branch delay slot (the new PC is the old
    NextPC) and the load left pending by the previous instruction is in its
    register; when it traps, the program counters are unchanged, so the
    instruction can be restarted, and the pending load has been done. *)
Theorem OneInstruction_delay_slots m r :
  cpu_wf m -> Machine_OneInstruction m = Ok r ->
  load_done m (machine_of r) /\
  match r with
  | Next m' => reg m' PCReg = reg m NextPCReg /\ reg m' PrevPCReg = reg m PCReg
  | Trap which m' => same_pcs m m' /\ reg m' LoadReg = 0 /\ which <> NoException
  end.
Proof.
  intros Hm E. pose proof (OneInstruction_cases m Hm) as Hc. rewrite E in Hc.
  destruct r; simpl; tauto.
Qed.

(** The word 0x0000000c is SYSCALL. *)
Lemma OneInstruction_delay_slots_witness :
  exists r, Machine_OneInstruction (sample_machine [0x0000000c] (sample_regs 5 7 0)) = Ok r /\
    reg (machine_of r) PCReg = 0 /\ exists m', r = Trap SyscallException m'.
Proof.
  destruct (Machine_OneInstruction (sample_machine [0x0000000c] (sample_regs 5 7 0))) as [r| | |] eqn:E;
    [|exfalso; assert (Hv : is_ok (Machine_OneInstruction (sample_machine [0x0000000c] (sample_regs 5 7 0))) = true)
      by (vm_compute; reflexivity); rewrite E in Hv; done..].
  destruct (OneInstruction_delay_slots (sample_machine [0x0000000c] (sample_regs 5 7 0)) r) as [_ H].
  - apply sample_cpu_wf; try (apply int32_small; lia). vm_compute. done.
  - exact E.
  - assert (Hv : match Machine_OneInstruction (sample_machine [0x0000000c] (sample_regs 5 7 0)) with
                 | Ok (Trap SyscallException m) => true | _ => false end = true) by (vm_compute; reflexivity).
    rewrite E in Hv. destruct r as [m'|[] m']; try done.
    exists (Trap SyscallException m'). conjs; [done| |by eexists].
    destruct H as [[H _] _]. exact H.
Defined.

Lemma wrap_u32_lnot x : uint32 x -> wrap_u32 (Z.lnot x) = two32 - 1 - x.
Proof.
  intros Hx. unfold Z.lnot, wrap_u32. symmetry.
  apply (Z.mod_unique_pos _ _ (-1)); unfold_int32; lia.
Qed.

(** The negation of a double word at the end of [Mult]. *)
Lemma Mult_negate hi lo :
  uint32 hi -> uint32 lo -> 0 < dword hi lo <= 2 ^ 62 ->
  let lo1 := wrap_u32 (wrap_u32 (Z.lnot lo) + 1) in
  let hi1 := wrap_u32 (Z.lnot hi) in
  pair_value true (wrap_s32 (if lo1 =? 0 then wrap_u32 (hi1 + 1) else hi1), wrap_s32 lo1) = - dword hi lo.
Proof.
  intros Hh Hl Hp. rewrite !wrap_u32_lnot by done. change (2 ^ 62) with 4611686018427387904 in Hp.
  unfold pair_value; cbn [fst snd]. rewrite wrap_u32_wrap_s32. unfold dword in *. unfold_int32.
  destruct (decide (lo = 0)) as [-> | Hlo].
  - replace (4294967296 - 1 - 0 + 1) with 4294967296 by lia. change (wrap_u32 4294967296) with 0. simpl.
    rewrite (wrap_u32_id (_ + 1)) by (unfold_int32; lia). change (wrap_u32 0) with 0.
    rewrite (wrap_s32_unique _ (- hi)); [lia|unfold_int32; lia|]. exists (-1). unfold_int32. lia.
  - rewrite (wrap_u32_id (_ - lo + 1)) by (unfold_int32; lia).
    rewrite (proj2 (Z.eqb_neq _ _)) by lia.
    rewrite (wrap_s32_unique _ (-1 - hi)); [|unfold_int32; lia|exists (-1); unfold_int32; lia].
    rewrite wrap_u32_id by (unfold_int32; lia). lia.
Qed.

(** The shift-and-add loop leaves the product. *)
Lemma Mult_value a b signedArith :
  int32 a -> int32 b ->
  pair_value signedArith (Mult a b signedArith) =
  if signedArith then a * b else wrap_u32 a * wrap_u32 b.
Proof.
  intros Ha Hb. unfold Mult.
  destruct (Z.eqb_spec a 0) as [->|Ha0]; [destruct signedArith; reflexivity|].
  destruct (Z.eqb_spec b 0) as [->|Hb0]; [destruct signedArith; unfold pair_value, dword; cbn [fst snd orb];
    change (wrap_u32 0) with 0; lia|].
  simpl orb. destruct signedArith; simpl andb.
  - destruct (Mult_magnitude (if a <? 0 then wrap_s32 (- a) else a)
                (wrap_u32 (if b <? 0 then wrap_s32 (- b) else b))) as (R1 & R2 & R3);
      [case_if; auto with nachos|apply wrap_u32_range|].
    destruct (Mult_loop _ _ _ _ _ _) as [hi lo]. simpl in R1, R2, R3. rewrite !abs_word in R3 by done.
    assert (Hb62 : 0 < Z.abs a * Z.abs b <= 2 ^ 62).
    { change (2 ^ 62) with (2147483648 * 2147483648). unfold_int32. nia. }
    destruct (xorb (a <? 0) (b <? 0)) eqn:Hx.
    + rewrite Mult_negate by (rewrite ?R3; done). rewrite R3.
      destruct (Z.ltb_spec a 0), (Z.ltb_spec b 0); try done; nia.
    + unfold pair_value; cbn [fst snd]. change (2 ^ 62) with 4611686018427387904 in Hb62.
      rewrite wrap_u32_wrap_s32, (wrap_u32_id lo) by done.
      rewrite wrap_s32_id; [|unfold dword in R3; unfold_int32; lia]. rewrite R3.
      destruct (Z.ltb_spec a 0), (Z.ltb_spec b 0); try done; nia.
  - destruct (Mult_magnitude a (wrap_u32 b)) as (R1 & R2 & R3); [done|apply wrap_u32_range|].
    destruct (Mult_loop _ _ _ _ _ _) as [hi lo]. simpl in R1, R2, R3.
    unfold pair_value; cbn [fst snd]. rewrite !wrap_u32_wrap_s32, (wrap_u32_id hi), (wrap_u32_id lo) by done.
    exact R3.
Qed.

(** C32: MULT and MULTU are exact.  The shift-and-add loop of [Mult], run on
    32-bit words with an arithmetic shift of the multiplier, leaves in HI and LO
    the 64-bit product of its operands, signed or unsigned. *)
Theorem Mult_exact a b signedArith :
  int32 a -> int32 b ->
  pair_value signedArith (Mult a b signedArith) =
  if signedArith then a * b else wrap_u32 a * wrap_u32 b.
Proof. apply Mult_value. Qed.

Lemma Mult_exact_witness :
  pair_value true (Mult (-2147483648) 2147483647 true) = -2147483648 * 2147483647.
Proof. apply (Mult_exact (-2147483648) 2147483647 true); unfold_int32; lia. Defined.

Lemma add_overflow_test x y :
  int32 x -> int32 y ->
  negb (sign_set (Z.lxor x y)) && sign_set (Z.lxor x (wrap_s32 (x + y))) = negb (bool_decide (int32 (x + y))).
Proof.
  intros Hx Hy. rewrite !sign_set_lxor by auto with nachos.
  destruct (bool_decide_reflect (int32 (x + y))) as [Hs|Hs].
  - rewrite wrap_s32_id by done.
    destruct (Z.ltb_spec x 0), (Z.ltb_spec y 0), (Z.ltb_spec (x + y) 0); simpl; try done; lia.
  - assert (wrap_s32 (x + y) = if x <? 0 then x + y + two32 else x + y - two32) as ->.
    { apply wrap_s32_unique; destruct (Z.ltb_spec x 0); unfold_int32; try lia; [by exists 1|by exists (-1)]. }
    unfold_int32. destruct (Z.ltb_spec x 0), (Z.ltb_spec y 0); simpl; try lia;
      (match goal with |- context [?z <? 0] => destruct (Z.ltb_spec z 0) end); simpl; first [done|lia].
Qed.

Lemma sub_overflow_test x y :
  int32 x -> int32 y ->
  sign_set (Z.lxor x y) && sign_set (Z.lxor x (wrap_s32 (x - y))) = negb (bool_decide (int32 (x - y))).
Proof.
  intros Hx Hy. rewrite !sign_set_lxor by auto with nachos.
  destruct (bool_decide_reflect (int32 (x - y))) as [Hs|Hs].
  - rewrite wrap_s32_id by done.
    destruct (Z.ltb_spec x 0), (Z.ltb_spec y 0), (Z.ltb_spec (x - y) 0); simpl; try done; lia.
  - assert (wrap_s32 (x - y) = if x <? 0 then x - y + two32 else x - y - two32) as ->.
    { apply wrap_s32_unique; destruct (Z.ltb_spec x 0); unfold_int32; try lia; [exists 1; lia|exists (-1); lia]. }
    unfold_int32. destruct (Z.ltb_spec x 0), (Z.ltb_spec y 0); simpl; try lia;
      (match goal with |- context [?z <? 0] => destruct (Z.ltb_spec z 0) end); simpl; first [done|lia].
Qed.

(** The outcome of a checked operation with exact result [v]. *)
Definition checked (m : Machine) (pcAfter r v : Z) : outcome exec_result :=
  if bool_decide (int32 v) then Ok (Done (set_reg m r v) pcAfter 0 0)
  else Ok (Raise m OverflowException 0).

(** ADD, ADDI and SUB trap with an overflow exception, changing nothing,
    exactly when the mathematical result does not fit in 32 bits, and store that
    result otherwise: the sign-bit tests of the code are exact. *)
Theorem add_sub_overflow_exact m i pcAfter :
  Machine_wf m -> instr_wf i ->
  (opCode i = OP_ADD -> execute m i pcAfter = checked m pcAfter (rd i) (vrs m i + vrt m i)) /\
  (opCode i = OP_ADDI -> execute m i pcAfter = checked m pcAfter (rt i) (vrs m i + extra i)) /\
  (opCode i = OP_SUB -> execute m i pcAfter = checked m pcAfter (rd i) (vrs m i - vrt m i)).
Proof.
  intros Hwf Hi. pose proof (reg_int32 m (rs i) Hwf) as Hs. pose proof (reg_int32 m (rt i) Hwf) as Ht.
  pose proof (iw_extra _ Hi) as He. unfold execute, checked. conjs; intros E; rewrite E.
  - unfold exec_add_and. rewrite E, add_overflow_test by done.
    case_bool_decide as Hd; simpl; [|done]. unfold assign. by rewrite wrap_s32_id.
  - unfold exec_add_and. rewrite E, (Z.lxor_comm (vrs m i)), (Z.add_comm (vrs m i)), add_overflow_test by done.
    case_bool_decide as Hd; simpl; [|done]. unfold assign. by rewrite wrap_s32_id.
  - unfold exec_shift_sub. rewrite E, sub_overflow_test by done.
    case_bool_decide as Hd; simpl; [|done]. unfold assign. by rewrite wrap_s32_id.
Qed.

Lemma add_sub_overflow_exact_witness :
  let m := sample_machine [] (sample_regs 2147483647 1 0) in
  execute m (mkInstr OP_ADD 1 2 3 0) 8 = checked m 8 3 (vrs m (mkInstr OP_ADD 1 2 3 0) + vrt m (mkInstr OP_ADD 1 2 3 0))
  /\ checked m 8 3 (2147483647 + 1) = Ok (Raise m OverflowException 0).
Proof.
  split; [|reflexivity].
  apply (add_sub_overflow_exact (sample_machine [] (sample_regs 2147483647 1 0)) (mkInstr OP_ADD 1 2 3 0) 8).
  - apply sample_cpu_wf; first [vm_compute; done | unfold_int32; lia].
  - split; simpl; first [lia | unfold_int32; lia | intros H; op_cases H; done].
  - reflexivity.
Defined.

(** *** Fields and extensions *)

Lemma land_shifted_0 x k n : 0 <= n -> 0 <= x < 2 ^ n -> Z.land x (Z.shiftl k n) = 0.
Proof.
  intros Hn Hx. apply Z.bits_inj'. intros j Hj. rewrite Z.land_spec, Z.bits_0.
  destruct (Z.lt_ge_cases j n).
  - by rewrite Z.shiftl_spec_low, andb_false_r by lia.
  - rewrite <- (Z.mod_small x (2 ^ n)) by done. by rewrite Z.mod_pow2_bits_high by lia.
Qed.

Lemma lor_disjoint_add x y : Z.land x y = 0 -> Z.lor x y = x + y.
Proof. intros H. by rewrite <- Z.lxor_lor, <- Z.add_nocarry_lxor. Qed.

(** Sign extension of 16 bits, as [Decode] and OP_LH do it. *)
Lemma sext16 x :
  0 <= x < 65536 ->
  (if negb (Z.land x 0x8000 =? 0) then wrap_s32 (Z.lor x 0xffff0000) else x) =
  if x <? 32768 then x else x - 65536.
Proof.
  intros Hx. rewrite (land_pow2_bit x 15 ltac:(lia) : negb (Z.land x 0x8000 =? 0) = Z.testbit x 15).
  assert (Hb : Z.testbit x 15 = negb (x <? 32768)).
  { destruct (Z.ltb_spec x 32768); cbn [negb].
    - apply Z.testbit_false; [lia|]. by rewrite Z.div_small by lia.
    - apply Z.testbit_true; [lia|]. change (2 ^ 15) with 32768.
      replace (x / 32768) with 1; [done|]. apply Z.div_unique with (x - 32768); lia. }
  rewrite Hb. destruct (Z.ltb_spec x 32768); simpl; [done|].
  rewrite lor_disjoint_add by exact (land_shifted_0 x 0xffff 16 ltac:(lia) Hx).
  apply wrap_s32_unique; [unfold_int32; lia|]. exists (-1). unfold_int32. lia.
Qed.

Lemma sext8 v :
  -128 <= v < 128 ->
  (if negb (Z.land v 0x80 =? 0) then wrap_s32 (Z.lor (wrap_u32 v) 0xffffff00) else Z.land v 0xff) = v.
Proof.
  intros Hv. rewrite (land_pow2_bit v 7 ltac:(lia) : negb (Z.land v 0x80 =? 0) = Z.testbit v 7).
  assert (Hb : Z.testbit v 7 = (v <? 0)).
  { destruct (Z.ltb_spec v 0).
    - apply Z.testbit_true; [lia|]. change (2 ^ 7) with 128.
      replace (v / 128) with (-1); [done|]. apply Z.div_unique with (v + 128); lia.
    - apply Z.testbit_false; [lia|]. by rewrite Z.div_small by lia. }
  rewrite Hb. destruct (Z.ltb_spec v 0).
  - rewrite wrap_s32_of_neg by (unfold_int32; lia).
    assert (v + two32 = Z.lor (v + 256) 0xffffff00) as ->.
    { rewrite lor_disjoint_add by (apply (land_shifted_0 (v + 256) 0xffffff 8); lia). unfold_int32. lia. }
    rewrite <- Z.lor_assoc, Z.lor_diag.
    rewrite lor_disjoint_add by (apply (land_shifted_0 (v + 256) 0xffffff 8); lia).
    apply wrap_s32_unique; [unfold_int32; lia|]. exists (-1). unfold_int32. lia.
  - rewrite (land_low v 8 ltac:(lia) : Z.land v 255 = v mod 256). apply Z.mod_small. lia.
Qed.

(** [Decode] loses nothing.  The fields it extracts put the instruction word
    together again, by the format of the major opcode; a 16-bit immediate comes
    out sign-extended, and every opcode it returns has a case in the switch. *)
Theorem Decode_fields value :
  uint32 value ->
  exists i op format, Instruction_Decode value = Ok i /\
    opTable.[value / 2 ^ 26] = Some (op, format) /\ opCode i ∉ [OP_RFE; SPECIAL; BCOND] /\
    match format with
    | RFMT => value = (value / 2 ^ 26) * 2 ^ 26 + rs i * 2 ^ 21 + rt i * 2 ^ 16 + rd i * 2 ^ 11
                      + extra i * 2 ^ 6 + value mod 2 ^ 6 /\
              specialTable.[value mod 2 ^ 6] = Some (opCode i)
    | IFMT => value = (value / 2 ^ 26) * 2 ^ 26 + rs i * 2 ^ 21 + rt i * 2 ^ 16 + extra i mod 2 ^ 16 /\
              -32768 <= extra i < 32768
    | JFMT => value = (value / 2 ^ 26) * 2 ^ 26 + extra i /\ 0 <= extra i < 2 ^ 26
    end.
Proof.
  intros Hu. destruct (Decode_wf value) as (i & E & Hi). pose proof (iw_op _ Hi) as Hop.
  pose proof E as E0. unfold Instruction_Decode in E.
  assert (Hidx : Z.land (Z.shiftr value 26) 63 = value / 2 ^ 26).
  { rewrite (land_low _ 6 ltac:(lia) : Z.land (Z.shiftr value 26) 63 = Z.shiftr value 26 mod 64).
    rewrite Z.shiftr_div_pow2 by lia. apply Z.mod_small. unfold_int32.
    change (2 ^ 26) with 67108864. split; [apply Z.div_pos; lia|apply Z.div_lt_upper_bound; lia]. }
  rewrite Hidx in E. destruct (opTable.[value / 2 ^ 26]) as [[op format]|] eqn:Et; [|done].
  exists i, op, format. rewrite !sext16 in E by exact (land_low_range value 65535 16 ltac:(lia) eq_refl).
  rewrite (land_low _ 5 ltac:(lia) : Z.land (Z.shiftr value 21) 31 = Z.shiftr value 21 mod 32) in E.
  rewrite (land_low _ 5 ltac:(lia) : Z.land (Z.shiftr value 16) 31 = Z.shiftr value 16 mod 32) in E.
  rewrite (land_low _ 5 ltac:(lia) : Z.land (Z.shiftr value 11) 31 = Z.shiftr value 11 mod 32) in E.
  rewrite (land_low _ 5 ltac:(lia) : Z.land (Z.shiftr value 6) 31 = Z.shiftr value 6 mod 32) in E.
  rewrite (land_low _ 16 ltac:(lia) : Z.land value 65535 = value mod 65536) in E.
  rewrite (land_low _ 26 ltac:(lia) : Z.land value 0x3ffffff = value mod 67108864) in E.
  rewrite (land_low _ 6 ltac:(lia) : Z.land value 63 = value mod 64) in E.
  rewrite !Z.shiftr_div_pow2 in E by lia.
  change (2 ^ 26) with 67108864 in *. change (2 ^ 21) with 2097152 in *. change (2 ^ 16) with 65536 in *.
  change (2 ^ 11) with 2048 in *. change (2 ^ 6) with 64 in *.
  pose proof opTable_ok as HT. rewrite Forall_lookupZ in HT. specialize (HT _ _ Et) as [HT1 HT2].
  cbn [deref mbind outcome_bind fst snd] in E, HT1, HT2.
  conjs; [exact E0|done|done|]. clear E0.
  assert (Hf : rs i = value / 2097152 mod 32 /\ rt i = value / 65536 mod 32 /\ rd i = value / 2048 mod 32 /\
    extra i = match format with
              | IFMT => if value mod 65536 <? 32768 then value mod 65536 else value mod 65536 - 65536
              | JFMT => value mod 67108864
              | RFMT => value / 64 mod 32 end).
  { destruct op; try (injection E as <-; done).
    destruct (specialTable.[value mod 64]); [|done]. by injection E as <-. }
  destruct Hf as (-> & -> & -> & Hex). destruct format; rewrite Hex.
  - destruct (Z.ltb_spec (value mod 65536) 32768); Z.to_euclidean_division_equations; lia.
  - Z.to_euclidean_division_equations; lia.
  - split; [Z.to_euclidean_division_equations; lia|].
    assert (op = SPECIAL) as ->.
    { assert (Forall (fun e : OpCode * Format => e.2 = RFMT -> e.1 = SPECIAL) opTable) as HF
        by (apply (bool_decide_unpack _); vm_compute; done).
      rewrite Forall_lookupZ in HF. exact (HF _ _ Et eq_refl). }
    destruct (specialTable.[value mod 64]); [|done]. by injection E as <-.
Qed.

Lemma Decode_fields_witness :
  exists i op format, Instruction_Decode 0x2422fffe = Ok i /\
    opTable.[0x2422fffe / 2 ^ 26] = Some (op, format) /\ extra i = -2.
Proof.
  destruct (Decode_fields 0x2422fffe) as (i & op & format & E & H1 & _).
  - unfold_int32. lia.
  - exists i, op, format. conjs; [done..|]. vm_compute in E. injection E as <-. reflexivity.
Defined.

Lemma ReadMem_aligned m addr v m' :
  Machine_ReadMem m addr 4 = Ok (MemOk v m') -> Z.land addr 3 = 0.
Proof.
  unfold Machine_ReadMem, Machine_Translate, misaligned. simpl.
  destruct (Z.eqb_spec (Z.land addr 3) 0); [done|]. done.
Qed.

(** The load delay slot.  LW with target [rt] leaves [rt] as it was for the
    next instruction, and whatever that instruction is, even one that traps or
    that writes [rt] itself, the loaded word is in [rt] after it. *)
Theorem LW_load_delay m instr m1 v m2 :
  cpu_wf m -> fetched m instr m1 -> opCode instr = OP_LW -> rt instr <> 0 ->
  Machine_ReadMem m1 (address m1 instr) 4 = Ok (MemOk v m2) ->
  exists m', Machine_OneInstruction m = Ok (Next m') /\
    (rt instr <> reg m LoadReg -> reg m' (rt instr) = reg m (rt instr)) /\
    (forall r, Machine_OneInstruction m' = Ok r -> reg (machine_of r) (rt instr) = v).
Proof.
  intros [Hwf Hl Hz] (raw & Er & Ed) Hop Hrt Ev.
  assert (Hs4 : valid_size 4) by (unfold valid_size; lia).
  destruct (ReadMem_cases m (reg m PCReg) 4 Hwf Hs4)
    as [(w & E & _)|(raw' & m1' & pa & E & _ & _ & _ & _ & _ & Hwf1 & _ & Hreg1 & _)];
    rewrite E in Er; simplify_eq.
  destruct (ReadMem_cases m1 (address m1 instr) 4 Hwf1 Hs4)
    as [(w & E2 & _)|(v' & m2' & pa2 & E2 & _ & _ & _ & _ & Hv & Hwf2 & _ & Hreg2 & _)];
    rewrite E2 in Ev; simplify_eq.
  assert (Hr : forall r, reg m2 r = reg m r) by (intros; unfold reg; by rewrite Hreg2, Hreg1).
  destruct (Decode_wf (wrap_u32 raw)) as (i & Ed' & Hi). rewrite Ed in Ed'. simplify_eq.
  destruct (finish_spec m2 (wrap_s32 (reg m1 NextPCReg + 4)) (rt i) v Hwf2)
    as (m' & Ef & Hm' & EL & EV & _ & _ & _ & _ & Hrest); auto with nachos.
  { by rewrite Hr. }
  exists m'. conjs.
  - unfold Machine_OneInstruction. rewrite E, bind_Ok, Ed, bind_Ok. unfold execute, exec_load. rewrite Hop.
    rewrite (ReadMem_aligned _ _ _ _ E2). cbn [negb Z.eqb]. unfold after_read.
    rewrite E2, bind_Ok. unfold delayed. rewrite bind_Ok, Ef. done.
  - intros Hne. rewrite Hrest; [by rewrite Hr|pose proof (iw_rt _ Hi); lia|]. by rewrite Hr.
  - intros r Er'. pose proof (OneInstruction_cases m' Hm') as Hc. rewrite Er' in Hc.
    rewrite <- EL, <- EV. destruct r; apply Hc; by rewrite EL.
Qed.

(** The words are LW r2,8(r0) and ADDU r2,r1,r1, and the datum 77. *)
Lemma LW_load_delay_witness :
  let m := sample_machine [0x8c020008; 0x00211021; 77] (sample_regs 5 6 0) in
  exists m', Machine_OneInstruction m = Ok (Next m') /\ reg m' 2 = 6 /\
    (forall r, Machine_OneInstruction m' = Ok r -> reg (machine_of r) 2 = 77).
Proof.
  destruct (LW_load_delay (sample_machine [0x8c020008; 0x00211021; 77] (sample_regs 5 6 0))
    (mkInstr OP_LW 0 2 0 8)
    (sample_touched (sample_machine [0x8c020008; 0x00211021; 77] (sample_regs 5 6 0))) 77
    (sample_touched (sample_machine [0x8c020008; 0x00211021; 77] (sample_regs 5 6 0)))) as (m' & E & H1 & H2).
  - apply sample_cpu_wf; first [vm_compute; done | unfold_int32; lia].
  - exists (wrap_s32 0x8c020008). split; reflexivity.
  - reflexivity.
  - done.
  - reflexivity.
  - exists m'. conjs; [done| |done]. exact (H1 ltac:(done)).
Defined.

(** LB, LBU, LH and LHU put in the delayed-load register the sign- or
    zero-extension of the byte or halfword read. *)
Theorem narrow_load_extends m i pcAfter v m' :
  Machine_wf m ->
  (opCode i ∈ [OP_LB; OP_LBU] -> Machine_ReadMem m (address m i) 1 = Ok (MemOk v m') ->
     -128 <= v < 128 /\
     execute m i pcAfter = Ok (Done m' pcAfter (rt i) (if bool_decide (opCode i = OP_LB) then v else v mod 256))) /\
  (opCode i ∈ [OP_LH; OP_LHU] -> Machine_ReadMem m (address m i) 2 = Ok (MemOk v m') ->
     0 <= v < 65536 /\
     execute m i pcAfter = Ok (Done m' pcAfter (rt i)
       (if bool_decide (opCode i = OP_LHU) then v else if v <? 32768 then v else v - 65536))).
Proof.
  intros Hwf. split; intros Ho E; pose proof (ReadMem_narrow _ _ _ _ _ Hwf E) as [H1 H2].
  - specialize (H1 eq_refl). split; [done|]. pose proof (sext8 _ H1) as Hs.
    pose proof (land_low v 8 ltac:(lia) : Z.land v 255 = v mod 256) as Hl.
    op_cases Ho; unfold execute, exec_load, after_read; rewrite Ho, E, bind_Ok; unfold delayed; do 2 f_equal.
    + rewrite bool_decide_eq_true_2 by done. by rewrite andb_true_r.
    + rewrite bool_decide_eq_false_2 by done. by rewrite andb_false_r.
  - specialize (H2 eq_refl). split; [done|]. pose proof (sext16 _ H2) as Hs.
    pose proof (land_low v 16 ltac:(lia) : Z.land v 65535 = v mod 65536) as Hl.
    rewrite Z.mod_small in Hl by done.
    assert (Ha : Z.land (address m i) 1 = 0).
    { revert E. unfold Machine_ReadMem, Machine_Translate, misaligned. simpl.
      by destruct (Z.eqb_spec (Z.land (address m i) 1) 0). }
    op_cases Ho; unfold execute, exec_load, after_read; rewrite Ho, Ha, E; cbn [negb Z.eqb];
      rewrite bind_Ok; unfold delayed; do 2 f_equal.
    + rewrite bool_decide_eq_true_2, bool_decide_eq_false_2, andb_true_r by done.
      rewrite (wrap_u32_id v) by (unfold_int32; lia). rewrite <- Hs. by case_if.
    + rewrite bool_decide_eq_false_2, bool_decide_eq_true_2, andb_false_r by done. done.
Qed.

Lemma narrow_load_extends_witness :
  let m := sample_machine [0x000000fe] (sample_regs 0 0 0) in
  exists m', execute m (mkInstr OP_LB 0 4 0 0) 8 = Ok (Done m' 8 4 (-2)).
Proof.
  destruct (narrow_load_extends (sample_machine [0x000000fe] (sample_regs 0 0 0)) (mkInstr OP_LB 0 4 0 0)
    8 (-2) (sample_touched (sample_machine [0x000000fe] (sample_regs 0 0 0)))) as [H _].
  - apply sample_cpu_wf; first [vm_compute; done | unfold_int32; lia].
  - eexists. apply H; [apply list_elem_of_here|reflexivity].
Defined.

(** Three operations differ from the MIPS instruction set.  OR never looks at
    its second operand; SRL and SRLV shift in copies of the sign bit, so for a
    negative word the result is negative, where a logical shift of the unsigned
    word by at least one place never is. *)
Theorem or_srl_deviations m i pcAfter :
  (opCode i = OP_OR -> execute m i pcAfter = Ok (Done (set_reg m (rd i) (vrs m i)) pcAfter 0 0)) /\
  (opCode i = OP_SRL -> 0 < extra i < 32 -> vrt m i < 0 -> int32 (vrt m i) ->
     exists v, execute m i pcAfter = Ok (Done (set_reg m (rd i) v) pcAfter 0 0) /\
       v < 0 <= Z.shiftr (wrap_u32 (vrt m i)) (extra i) /\ v = vrt m i / 2 ^ extra i) /\
  (opCode i = OP_SRLV -> vrt m i < 0 ->
     exists v, execute m i pcAfter = Ok (Done (set_reg m (rd i) v) pcAfter 0 0) /\ v < 0).
Proof.
  conjs; intros Ho; unfold execute; rewrite Ho.
  - unfold exec_move_or. rewrite Ho. unfold assign. by rewrite Z.lor_diag.
  - intros He Hn Hi. unfold exec_shift_sub. rewrite Ho. eexists. conjs; [done|..].
    + by apply Z.shiftr_neg.
    + apply Z.shiftr_nonneg. apply wrap_u32_range.
    + by rewrite Z.shiftr_div_pow2 by lia.
  - intros Hn. unfold exec_shift_sub. rewrite Ho. eexists. split; [done|]. by apply Z.shiftr_neg.
Qed.

(** SRL of -2 by one place gives -1, not 0x7fffffff. *)
Lemma or_srl_deviations_witness :
  let m := sample_machine [] (sample_regs (-2) 6 0) in
  exists v, execute m (mkInstr OP_SRL 0 1 3 1) 8 = Ok (Done (set_reg m 3 v) 8 0 0) /\ v < 0 /\
    Z.shiftr (wrap_u32 (-2)) 1 = 0x7fffffff.
Proof.
  destruct (or_srl_deviations (sample_machine [] (sample_regs (-2) 6 0)) (mkInstr OP_SRL 0 1 3 1) 8)
    as (_ & H & _).
  destruct H as (v & E & [Hv _] & _); [reflexivity|simpl; lia|reflexivity|unfold_int32; vm_compute; split; congruence|].
  exists v. conjs; [exact E|exact Hv|reflexivity].
Defined.
