(* ===== verification/Interrupts.v ===== *)
(** * Simulated time and hardware interrupts
      (machine/interrupt.h, machine/interrupt.cc, machine/stats.h,
       machine/stats.cc, machine/timer.cc, threads/system.cc)

    The pending interrupts are a sorted list: [pending] is the sequence of
    (when, interrupt) pairs that the [List] of LinkedList.v stands for, and
    [SortedInsert] is [sorted_insert], which [List_SortedInsert_refines]
    justifies.  The interrupt handlers ([VoidFunctionPtr]s into the device
    simulators) and [Thread::Yield] are not part of this component: they are the
    parameters [call] and [yield] on the whole system state.  The class
    [HandlerLaws] says what the interrupt machinery relies on: a handler
    returns, runs with interrupts disabled, leaves the clock alone and schedules
    only into the future.  Ticks are 32-bit [int]s and wrap around; the laws are
    asked for only while the clock is at least [MaxDelay] below the limit. *)

From S2P Require Import Prelude Int32 Machine LinkedList.
From Stdlib Require Import Sorting.Sorted.

(** [enum IntStatus], [enum MachineStatus], [enum IntType] *)
Inductive IntStatus := IntOff | IntOn.
Inductive MachineStatus := IdleMode | SystemMode | UserMode.
Inductive IntType := TimerInt | DiskInt | ConsoleWriteInt | ConsoleReadInt | NetworkSendInt | NetworkRecvInt.

#[export] Instance IntStatus_eq_dec : EqDecision IntStatus.
Proof. solve_decision. Defined.
#[export] Instance MachineStatus_eq_dec : EqDecision MachineStatus.
Proof. solve_decision. Defined.
#[export] Instance IntType_eq_dec : EqDecision IntType.
Proof. solve_decision. Defined.

(** [class Statistics] *)
Record Statistics := mkStats {
  totalTicks : Z;
  idleTicks : Z;
  systemTicks : Z;
  userTicks : Z;
  numDiskReads : Z;
  numDiskWrites : Z;
  numConsoleCharsRead : Z;
  numConsoleCharsWritten : Z;
  numPageFaults : Z;
  numPacketsSent : Z;
  numPacketsRecvd : Z }.

Definition UserTick : Z := 1.
Definition SystemTick : Z := 10.
Definition RotationTime : Z := 500.
Definition SeekTime : Z := 500.
Definition ConsoleTime : Z := 100.
Definition NetworkTime : Z := 100.
Definition TimerTicks : Z := 100.

(** [Statistics::Statistics] *)
Definition Statistics_new : Statistics := mkStats 0 0 0 0 0 0 0 0 0 0 0.

(** [Statistics::Print]: the numbers in the order in which they are printed. *)
Definition Statistics_Print (st : Statistics) : list Z :=
  [totalTicks st; idleTicks st; systemTicks st; userTicks st; numDiskReads st; numDiskWrites st;
   numConsoleCharsRead st; numConsoleCharsWritten st; numPageFaults st; numPacketsRecvd st; numPacketsSent st].

Definition set_ticks (st : Statistics) (total idle system user : Z) : Statistics :=
  mkStats total idle system user (numDiskReads st) (numDiskWrites st) (numConsoleCharsRead st)
    (numConsoleCharsWritten st) (numPageFaults st) (numPacketsSent st) (numPacketsRecvd st).

Section Interrupts.
Context {W H : Type}.

(** [class PendingInterrupt]; [H] names the handler functions. *)
Record PendingInterrupt := mkPending {
  handler : H;
  arg : Z;
  when : Z;
  type : IntType }.

(** [class Interrupt] *)
Record Interrupt := mkInterrupt {
  level : IntStatus;
  pending : list (Z * PendingInterrupt);
  inHandler : bool;
  yieldOnReturn : bool;
  status : MachineStatus }.

(** The global objects: [interrupt], [stats], [machine] ([None] for NULL) and
    the devices and threads, which only the handlers and [Yield] touch. *)
Record Sys := mkSys {
  interrupt : Interrupt;
  stats : Statistics;
  machine : option Machine;
  world : W }.

Definition set_interrupt (s : Sys) (i : Interrupt) : Sys := mkSys i (stats s) (machine s) (world s).
Definition set_stats (s : Sys) (st : Statistics) : Sys := mkSys (interrupt s) st (machine s) (world s).
Definition set_level (s : Sys) (l : IntStatus) : Sys :=
  let i := interrupt s in
  set_interrupt s (mkInterrupt l (pending i) (inHandler i) (yieldOnReturn i) (status i)).
Definition set_pending (s : Sys) (p : list (Z * PendingInterrupt)) : Sys :=
  let i := interrupt s in
  set_interrupt s (mkInterrupt (level i) p (inHandler i) (yieldOnReturn i) (status i)).
Definition set_inHandler (s : Sys) (b : bool) : Sys :=
  let i := interrupt s in
  set_interrupt s (mkInterrupt (level i) (pending i) b (yieldOnReturn i) (status i)).
Definition set_yieldOnReturn (s : Sys) (b : bool) : Sys :=
  let i := interrupt s in
  set_interrupt s (mkInterrupt (level i) (pending i) (inHandler i) b (status i)).
Definition set_status (s : Sys) (m : MachineStatus) : Sys :=
  let i := interrupt s in
  set_interrupt s (mkInterrupt (level i) (pending i) (inHandler i) (yieldOnReturn i) m).

Definition now (s : Sys) : Z := totalTicks (stats s).

(** [Interrupt::Interrupt] *)
Definition Interrupt_new : Interrupt := mkInterrupt IntOff [] false false SystemMode.

(** [Interrupt::ChangeLevel] *)
Definition Interrupt_ChangeLevel (s : Sys) (old now : IntStatus) : Sys := set_level s now.

(** [Interrupt::YieldOnReturn] *)
Definition Interrupt_YieldOnReturn (s : Sys) : outcome Sys :=
  _ ← ASSERT (inHandler (interrupt s));
  Ok (set_yieldOnReturn s true).

(** [Interrupt::Schedule], with [PendingInterrupt::PendingInterrupt] *)
Definition Interrupt_Schedule (s : Sys) (h : H) (arg fromNow : Z) (type : IntType) : outcome Sys :=
  let when := wrap_s32 (now s + fromNow) in
  let toOccur := mkPending h arg when type in
  _ ← ASSERT (0 <? fromNow);
  Ok (set_pending s (sorted_insert when toOccur (pending (interrupt s)))).

(** [Interrupt::Halt]: prints the statistics and never returns. *)
Definition Interrupt_Halt {A} (s : Sys) : outcome A := Halt.

Section Running.
(** The handlers and [currentThread->Yield()]. *)
Context (call : H -> Z -> Sys -> outcome Sys) (yield : Sys -> outcome Sys).

(** [machine->DelayedLoad(0, 0)] in [CheckIfDue] *)
Definition finish_delayed_load (s : Sys) : outcome Sys :=
  match machine s with
  | None => Ok s
  | Some m =>
      m' ← Machine_DelayedLoad m 0 0;
      Ok (mkSys (interrupt s) (stats s) (Some m') (world s))
  end.

(** The last part of [CheckIfDue]: call the handler of [toOccur]. *)
Definition fire (s : Sys) (toOccur : PendingInterrupt) : outcome Sys :=
  let old := status (interrupt s) in
  s ← finish_delayed_load s;
  let s := set_status (set_inHandler s true) SystemMode in
  s ← call (handler toOccur) (arg toOccur) s;
  Ok (set_inHandler (set_status s old) false).

(** [Interrupt::CheckIfDue] *)
Definition Interrupt_CheckIfDue (s : Sys) (advanceClock : bool) : outcome (bool * Sys) :=
  _ ← ASSERT (bool_decide (level (interrupt s) = IntOff));
  match pending (interrupt s) with
  | [] => Ok (false, s)
  | (when, toOccur) :: rest =>
      let s := set_pending s rest in
      let st := stats s in
      if negb advanceClock && (now s <? when) then
        Ok (false, set_pending s (sorted_insert when toOccur rest))
      else
        let s := if now s <? when
                 then set_stats s (set_ticks st when (wrap_s32 (idleTicks st + (when - totalTicks st)))
                                     (systemTicks st) (userTicks st))
                 else s in
        if bool_decide (status (interrupt s) = IdleMode) && bool_decide (type toOccur = TimerInt)
           && match rest with [] => true | _ => false end
        then Ok (false, set_pending s (sorted_insert when toOccur rest))
        else s ← fire s toOccur; Ok (true, s)
  end.

(** [while (CheckIfDue(FALSE)) ;] *)
Fixpoint check_loop (fuel : nat) (s : Sys) : outcome Sys :=
  match fuel with
  | O => Undefined
  | S fuel =>
      '(fired, s) ← Interrupt_CheckIfDue s false;
      if (fired : bool) then check_loop fuel s else Ok s
  end.

(** The number of due interrupts bounds the loop. *)
Definition check_all (s : Sys) : outcome Sys := check_loop (S (length (pending (interrupt s)))) s.

Definition advance (s : Sys) : Sys :=
  let st := stats s in
  if bool_decide (status (interrupt s) = SystemMode)
  then set_stats s (set_ticks st (wrap_s32 (totalTicks st + SystemTick)) (idleTicks st)
                      (wrap_s32 (systemTicks st + SystemTick)) (userTicks st))
  else set_stats s (set_ticks st (wrap_s32 (totalTicks st + UserTick)) (idleTicks st)
                      (systemTicks st) (wrap_s32 (userTicks st + UserTick))).

(** [Interrupt::OneTick] *)
Definition Interrupt_OneTick (s : Sys) : outcome Sys :=
  let old := status (interrupt s) in
  let s := advance s in
  let s := Interrupt_ChangeLevel s IntOn IntOff in
  s ← check_all s;
  let s := Interrupt_ChangeLevel s IntOff IntOn in
  if yieldOnReturn (interrupt s) then
    let s := set_status (set_yieldOnReturn s false) SystemMode in
    s ← yield s;
    Ok (set_status s old)
  else Ok s.

(** [Interrupt::SetLevel] *)
Definition Interrupt_SetLevel (s : Sys) (now : IntStatus) : outcome (IntStatus * Sys) :=
  let old := level (interrupt s) in
  _ ← ASSERT (bool_decide (now = IntOff) || negb (inHandler (interrupt s)));
  let s := Interrupt_ChangeLevel s old now in
  s ← (if bool_decide (now = IntOn) && bool_decide (old = IntOff) then Interrupt_OneTick s else Ok s);
  Ok (old, s).

(** [Interrupt::Enable] *)
Definition Interrupt_Enable (s : Sys) : outcome Sys :=
  '(_, s) ← Interrupt_SetLevel s IntOn;
  Ok s.

(** [Interrupt::Idle] *)
Definition Interrupt_Idle (s : Sys) : outcome Sys :=
  let s := set_status s IdleMode in
  '(fired, s) ← Interrupt_CheckIfDue s true;
  if (fired : bool) then
    s ← check_all s;
    Ok (set_status (set_yieldOnReturn s false) SystemMode)
  else Interrupt_Halt s.

End Running.

(** [class Timer]; its own handler is called with [timer_arg]. *)
Record Timer := mkTimer {
  randomize : bool;
  timer_handler : Z -> Sys -> outcome Sys;
  timer_arg : Z }.

(** [Timer::TimeOfNextInterrupt]; [random] is the next value of [Random()]. *)
Definition Timer_TimeOfNextInterrupt (t : Timer) (random : Z) : Z :=
  if randomize t then 1 + Z.rem random (TimerTicks * 2) else TimerTicks.

(** [Timer::Timer]: schedules the first interrupt; [TimerHandler] is the name of
    the static handler function and [this] the address of the timer. *)
Definition Timer_new (s : Sys) (TimerHandler : H) (this random : Z) (t : Timer) : outcome Sys :=
  Interrupt_Schedule s TimerHandler this (Timer_TimeOfNextInterrupt t random) TimerInt.

(** [Timer::TimerExpired] *)
Definition Timer_TimerExpired (s : Sys) (TimerHandler : H) (this random : Z) (t : Timer) : outcome Sys :=
  s ← Interrupt_Schedule s TimerHandler this (Timer_TimeOfNextInterrupt t random) TimerInt;
  timer_handler t (timer_arg t) s.

(** [TimerInterruptHandler] of threads/system.cc *)
Definition TimerInterruptHandler (dummy : Z) (s : Sys) : outcome Sys :=
  if negb (bool_decide (status (interrupt s) = IdleMode)) then Interrupt_YieldOnReturn s else Ok s.

(** ** What the interrupt machinery relies on and keeps *)

Definition MaxDelay : Z := 65536.

Definition due (t : Z) (p : Z * PendingInterrupt) : Prop := p.1 <= t.
#[export] Instance due_dec t p : Decision (due t p).
Proof. unfold due. apply _. Defined.

(** Time is accounted for, and the queue is sorted by time. *)
Record int_wf (s : Sys) : Prop := {
  iw_sorted : sorted (pending (interrupt s));
  iw_account : now s = idleTicks (stats s) + systemTicks (stats s) + userTicks (stats s);
  iw_idle : 0 <= idleTicks (stats s);
  iw_system : 0 <= systemTicks (stats s);
  iw_user : 0 <= userTicks (stats s);
  iw_fits : now s <= int32_max;
  iw_machine : match machine s with None => True | Some m => Machine_wf m /\ 0 <= reg m LoadReg < 32 end }.

Definition same_ticks (s s' : Sys) : Prop :=
  now s' = now s /\ idleTicks (stats s') = idleTicks (stats s) /\
  systemTicks (stats s') = systemTicks (stats s) /\ userTicks (stats s') = userTicks (stats s).

(** What a handler may do to the state of the interrupt hardware. *)
Record handler_step (s s' : Sys) : Prop := {
  hs_level : level (interrupt s') = level (interrupt s);
  hs_inHandler : inHandler (interrupt s') = inHandler (interrupt s);
  hs_status : status (interrupt s') = status (interrupt s);
  hs_ticks : same_ticks s s';
  hs_machine : match machine s' with None => True | Some m => Machine_wf m /\ 0 <= reg m LoadReg < 32 end;
  hs_sorted : sorted (pending (interrupt s'));
  hs_pending : exists new, pending (interrupt s') ≡ₚ pending (interrupt s) ++ new /\
                 Forall (fun p => ~ due (now s) p) new }.

(** The contract between the interrupt hardware and the device handlers. *)
Class HandlerLaws (call : H -> Z -> Sys -> outcome Sys) := {
  call_returns : forall h a s,
    int_wf s -> inHandler (interrupt s) = true -> level (interrupt s) = IntOff ->
    status (interrupt s) = SystemMode -> now s + MaxDelay <= int32_max ->
    exists s', call h a s = Ok s' /\ handler_step s s' }.

Section Laws.
Context (call : H -> Z -> Sys -> outcome Sys) `{!HandlerLaws call}.

(** The handler of [x] is called: the interrupt is taken off the front of the queue, a
    delayed load of the processor is finished, and the handler runs in system mode with
    interrupts off on the devices as they are in [s]; what it leaves is [s']. *)
Definition load_finished (m m' : option Machine) : Prop :=
  match m with None => m' = None | Some m => exists m1, Machine_DelayedLoad m 0 0 = Ok m1 /\ m' = Some m1 end.
Definition handler_called (s : Sys) (k : Z) (x : PendingInterrupt) (s' : Sys) : Prop :=
  exists s1 s2, call (handler x) (arg x) s1 = Ok s2 /\
    pending (interrupt s) = (k, x) :: pending (interrupt s1) /\ yieldOnReturn (interrupt s1) = yieldOnReturn (interrupt s) /\
    inHandler (interrupt s1) = true /\ status (interrupt s1) = SystemMode /\ level (interrupt s1) = IntOff /\
    stats s1 = stats s /\ world s1 = world s /\ load_finished (machine s) (machine s1) /\
    pending (interrupt s') = pending (interrupt s2) /\ yieldOnReturn (interrupt s') = yieldOnReturn (interrupt s2) /\
    stats s' = stats s2 /\ world s' = world s2 /\ machine s' = machine s2.

(** The handlers of the interrupts [xs] are called, one after the other, and nothing else
    happens to the devices, the statistics and the processor. *)
Inductive handlers_called : list (Z * PendingInterrupt) -> Sys -> Sys -> Prop :=
| called_none s s' :
    yieldOnReturn (interrupt s') = yieldOnReturn (interrupt s) -> stats s' = stats s -> world s' = world s -> machine s' = machine s ->
    handlers_called [] s s'
| called_next k x xs s s1 s' : handler_called s k x s1 -> handlers_called xs s1 s' -> handlers_called ((k, x) :: xs) s s'.

Lemma finish_delayed_load_ok s :
  int_wf s ->
  exists m', finish_delayed_load s = Ok (mkSys (interrupt s) (stats s) m' (world s)) /\
    match m' with None => True | Some m => Machine_wf m /\ 0 <= reg m LoadReg < 32 end /\ load_finished (machine s) m'.
Proof.
  intros Hwf. unfold finish_delayed_load. pose proof (iw_machine _ Hwf) as Hm.
  destruct (machine s) as [m|] eqn:E.
  - destruct Hm as [Hm Hl]. pose proof (wf_registers _ Hm) as HL.
    assert (H0 : int32 0) by (apply int32_small; lia).
    rewrite DelayedLoad_spec by (auto; lia). eexists. split; [done|]. split; [split|eexists; split; [by apply DelayedLoad_spec; auto; lia|done]].
    + auto 10 with nachos.
    + rewrite (reg_set_reg_ne _ 0), (reg_set_reg_ne _ LoadValueReg), reg_set_reg_eq by
        (autorewrite with arr; rewrite ?HL; unfold_regs; lia). lia.
  - exists None. split; [|done]. destruct s; simpl in *; by subst.
Qed.

(** Handlers run with interrupts off; [fire] keeps the hardware state. *)
Lemma fire_ok s p :
  int_wf s -> level (interrupt s) = IntOff -> now s + MaxDelay <= int32_max ->
  exists s', fire call s p = Ok s' /\ int_wf s' /\ level (interrupt s') = IntOff /\
    inHandler (interrupt s') = false /\ status (interrupt s') = status (interrupt s) /\ same_ticks s s' /\
    (exists new, pending (interrupt s') ≡ₚ pending (interrupt s) ++ new /\ Forall (fun q => ~ due (now s) q) new) /\
    forall s0 k, pending (interrupt s0) = (k, p) :: pending (interrupt s) -> yieldOnReturn (interrupt s) = yieldOnReturn (interrupt s0) ->
      stats s = stats s0 -> world s = world s0 -> machine s = machine s0 -> handler_called s0 k p s'.
Proof.
  intros Hwf Hlv Hmax. unfold fire.
  destruct (finish_delayed_load_ok s Hwf) as (m' & -> & Hm & Hfin). rewrite bind_Ok.
  set (s1 := set_status (set_inHandler (mkSys (interrupt s) (stats s) m' (world s)) true) SystemMode).
  assert (Hwf1 : int_wf s1) by (destruct Hwf; split; done).
  destruct (call_returns (handler p) (arg p) s1) as (s2 & Ec & [L1 L2 L3 L4 L5 L6 L7]); try done.
  rewrite Ec, bind_Ok. eexists. split; [done|].
  destruct L4 as (T1 & T2 & T3 & T4), Hwf. unfold now in *. simpl in *.
  conjs; [|by rewrite L1|done|done|unfold same_ticks, now; simpl; conjs; congruence|done|].
  - split; simpl; unfold now in *; simpl; first [done|congruence].
  - intros s0 k Hp Hy Hs Hw Hmm. exists s1, s2. rewrite <- Hmm. conjs; try done.
Qed.

Lemma due_front t xs :
  sorted xs -> (forall p, head xs = Some p -> ~ due t p) -> Forall (fun p => ~ due t p) xs.
Proof.
  intros Hs Hh. destruct xs as [|x xs]; [constructor|].
  apply StronglySorted_inv in Hs as [_ Hall]. specialize (Hh x eq_refl). constructor; [done|].
  eapply Forall_impl; [exact Hall|]. unfold due, key_le in *. simpl. lia.
Qed.

Lemma set_pending_wf s p : int_wf s -> sorted p -> int_wf (set_pending s p).
Proof. intros [] Hp. by split. Qed.

Lemma sorted_tail (x : Z * PendingInterrupt) xs : sorted (x :: xs) -> sorted xs.
Proof. intros Hs. by apply StronglySorted_inv in Hs as [? _]. Qed.

(** [CheckIfDue(FALSE)] when nothing is due: the queue is kept. *)
Lemma CheckIfDue_none s :
  int_wf s -> level (interrupt s) = IntOff -> Forall (fun p => ~ due (now s) p) (pending (interrupt s)) ->
  exists p, Interrupt_CheckIfDue call s false = Ok (false, set_pending s p) /\
    p ≡ₚ pending (interrupt s) /\ sorted p.
Proof.
  intros Hwf Hlv Hall. unfold Interrupt_CheckIfDue. rewrite Hlv. simpl.
  pose proof (iw_sorted _ Hwf) as Hs. destruct (pending (interrupt s)) as [|[k x] rest] eqn:E.
  - exists []. conjs; [|done|constructor]. unfold set_pending, set_interrupt.
    destruct s as [[] ? ? ?]; simpl in *. by subst.
  - apply Forall_cons in Hall as [Hk _]. unfold due in Hk. simpl in Hk.
    unfold now in *. simpl. rewrite (proj2 (Z.ltb_lt _ _)) by lia.
    exists (sorted_insert k x rest). conjs; [done|apply sorted_insert_perm|].
    apply sorted_insert_sorted. by eapply sorted_tail.
Qed.

(** [CheckIfDue(FALSE)] when the first interrupt is due and the machine is not
    left idle with only the timer: it fires. *)
Lemma CheckIfDue_fires s k x rest :
  int_wf s -> level (interrupt s) = IntOff -> now s + MaxDelay <= int32_max ->
  pending (interrupt s) = (k, x) :: rest -> due (now s) (k, x) ->
  (status (interrupt s) <> IdleMode \/ type x <> TimerInt \/ rest <> []) ->
  exists s', Interrupt_CheckIfDue call s false = Ok (true, s') /\ int_wf s' /\
    level (interrupt s') = IntOff /\ inHandler (interrupt s') = false /\
    status (interrupt s') = status (interrupt s) /\ same_ticks s s' /\
    (exists new, pending (interrupt s') ≡ₚ rest ++ new /\ Forall (fun q => ~ due (now s) q) new) /\ handler_called s k x s'.
Proof.
  intros Hwf Hlv Hmax E Hdue Hne. unfold Interrupt_CheckIfDue. rewrite Hlv, E. simpl.
  unfold due, now in *. simpl in *. rewrite (proj2 (Z.ltb_ge _ _)) by lia.
  assert (bool_decide (status (interrupt (set_pending s rest)) = IdleMode) && bool_decide (type x = TimerInt) &&
    match rest with [] => true | _ => false end = false) as ->.
  { repeat case_bool_decide; simpl in *; try done. destruct rest; [|done]. naive_solver. }
  destruct (fire_ok (set_pending s rest) x) as (s' & -> & F1 & F2 & F3 & F4 & F5 & F6 & F7); try done.
  - apply set_pending_wf; [done|]. eapply sorted_tail. rewrite <- E. apply Hwf.
  - simpl. exists s'. conjs; try done. by apply F7.
Qed.

Lemma filter_due_split t (xs : list (Z * PendingInterrupt)) :
  xs ≡ₚ filter (due t) xs ++ filter (fun p => ~ due t p) xs.
Proof.
  induction xs as [|x xs IH]; [done|]. rewrite !filter_cons.
  destruct (decide (due t x)) as [Hd|Hd].
  - rewrite decide_False by tauto. simpl. by rewrite <- IH.
  - rewrite decide_True by done. rewrite <- Permutation_middle. by rewrite <- IH.
Qed.

(** Every interrupt that is due has been taken off the queue and its handler called, in the
    order of time; no other interrupt has. *)
Definition drained (s s' : Sys) : Prop :=
  int_wf s' /\ level (interrupt s') = IntOff /\ status (interrupt s') = status (interrupt s) /\
  same_ticks s s' /\ (inHandler (interrupt s) = false -> inHandler (interrupt s') = false) /\
  Forall (fun p => ~ due (now s) p) (pending (interrupt s')) /\
  (exists new, pending (interrupt s') ≡ₚ filter (fun p => ~ due (now s) p) (pending (interrupt s)) ++ new /\
    Forall (fun p => ~ due (now s) p) new) /\
  exists xs, handlers_called xs s s' /\ xs ≡ₚ filter (due (now s)) (pending (interrupt s)) /\ sorted xs.

Lemma drained_none s p :
  int_wf s -> level (interrupt s) = IntOff -> Forall (fun q => ~ due (now s) q) (pending (interrupt s)) ->
  p ≡ₚ pending (interrupt s) -> sorted p -> drained s (set_pending s p).
Proof.
  intros Hwf Hlv Hall Hp Hs. split; [by apply set_pending_wf|]. conjs; try done; simpl.
  - by rewrite Hp.
  - exists []. by rewrite app_nil_r, filter_all.
  - exists []. rewrite filter_none by done. conjs; [by constructor|done|constructor].
Qed.

(** An idle machine with nothing but a due timer interrupt keeps it. *)
Lemma CheckIfDue_idle_timer s k x :
  level (interrupt s) = IntOff -> pending (interrupt s) = [(k, x)] -> due (now s) (k, x) ->
  status (interrupt s) = IdleMode -> type x = TimerInt ->
  Interrupt_CheckIfDue call s false = Ok (false, s).
Proof.
  intros Hlv E Hd Hst Ht. unfold Interrupt_CheckIfDue. rewrite Hlv, E. simpl.
  unfold due, now in *. simpl in *. rewrite (proj2 (Z.ltb_ge _ _)) by lia.
  rewrite bool_decide_eq_true_2 by exact Hst. rewrite bool_decide_eq_true_2 by exact Ht. simpl.
  unfold set_pending, set_interrupt. simpl. destruct s as [[] ? ? ?]; simpl in *. by subst.
Qed.

(** What the loop keeps, and that it leaves nothing due unless the machine idles. *)
Definition checked_all (s s' : Sys) : Prop :=
  int_wf s' /\ level (interrupt s') = IntOff /\ status (interrupt s') = status (interrupt s) /\
  same_ticks s s' /\ (inHandler (interrupt s) = false -> inHandler (interrupt s') = false) /\
  (status (interrupt s) <> IdleMode -> drained s s').

Lemma drained_checked s s' : drained s s' -> checked_all s s'.
Proof. intros Hd. pose proof Hd as (? & ? & ? & ? & ? & _). by red. Qed.

(** The loop returns after firing every due interrupt. *)
Lemma check_loop_ok n s :
  int_wf s -> level (interrupt s) = IntOff -> now s + MaxDelay <= int32_max ->
  (length (filter (due (now s)) (pending (interrupt s))) < n)%nat ->
  exists s', check_loop call n s = Ok s' /\ checked_all s s'.
Proof.
  revert s. induction n as [|n IH]; intros s Hwf Hlv Hmax Hn; [lia|]. simpl.
  destruct (decide (Forall (fun p => ~ due (now s) p) (pending (interrupt s)))) as [Hall|Hsome].
  { destruct (CheckIfDue_none s Hwf Hlv Hall) as (p & -> & Hp & Hs). rewrite bind_Ok.
    eexists. split; [done|]. by apply drained_checked, drained_none. }
  destruct (pending (interrupt s)) as [|[k x] rest] eqn:E; [by destruct Hsome|].
  destruct (decide (due (now s) (k, x))) as [Hd|Hd].
  2:{ exfalso. apply Hsome. rewrite <- E. apply due_front; [apply Hwf|]. rewrite E. by intros p [= <-]. }
  destruct (decide (status (interrupt s) = IdleMode /\ type x = TimerInt /\ rest = [])) as [(Hi & Ht & ->)|Hne].
  { rewrite (CheckIfDue_idle_timer s k x) by done. rewrite bind_Ok. exists s. split; [done|]. by red. }
  assert (Hne' : status (interrupt s) <> IdleMode \/ type x <> TimerInt \/ rest <> []).
  { destruct (decide (status (interrupt s) = IdleMode)), (decide (type x = TimerInt)); [|tauto..].
    right; right. intros ->. by apply Hne. }
  destruct (CheckIfDue_fires s k x rest Hwf Hlv Hmax E Hd Hne')
    as (s1 & -> & Hwf1 & Hlv1 & Hih1 & Hst1 & (T1 & T2 & T3 & T4) & (new & Hp1 & Hnew) & Hcalled). rewrite bind_Ok.
  assert (Hf1 : filter (due (now s1)) (pending (interrupt s1)) ≡ₚ filter (due (now s)) rest).
  { rewrite T1, Hp1, filter_app. rewrite (filter_none (due (now s)) new) by done. by rewrite app_nil_r. }
  rewrite filter_cons, decide_True in Hn by done. simpl in Hn.
  destruct (IH s1) as (s' & -> & W' & L' & St' & (U1 & U2 & U3 & U4) & Ih' & Hdr);
    [done|done|by rewrite T1|rewrite Hf1; lia|].
  exists s'. split; [done|]. rewrite T1 in *.
  split; [done|]. conjs; [done|congruence|unfold same_ticks; conjs; congruence|auto|].
  intros Hst. rewrite Hst1 in Hdr. destruct (Hdr Hst) as (_ & _ & _ & _ & _ & Hall & (new' & Hp' & Hnew') & xs & Hxs & Hpx & Hsx).
  rewrite T1 in *. split; [done|]. conjs; [done|congruence|unfold same_ticks; conjs; congruence|auto|done| |].
  - rewrite E, filter_cons, decide_False by tauto. exists (filter (fun p => ~ due (now s) p) new ++ new'). split.
    + rewrite Hp', Hp1, filter_app. by rewrite app_assoc.
    + rewrite (filter_all _ new) by done. by apply Forall_app.
  - exists ((k, x) :: xs). rewrite E, filter_cons, decide_True by done. conjs; [by econstructor|by rewrite Hpx, Hf1|].
    pose proof (iw_sorted _ Hwf) as Hso. rewrite E in Hso. apply StronglySorted_inv in Hso as [_ Hge]. constructor; [done|].
    rewrite Hpx, Hf1. apply Forall_forall. intros q [_ Hq]%list_elem_of_filter. by apply (proj1 (Forall_forall _ _) Hge).
Qed.

Lemma check_all_ok s :
  int_wf s -> level (interrupt s) = IntOff -> now s + MaxDelay <= int32_max ->
  exists s', check_all call s = Ok s' /\ checked_all s s'.
Proof.
  intros. apply check_loop_ok; try done.
  apply Nat.lt_succ_r. apply length_filter.
Qed.

Lemma set_level_wf s l : int_wf s -> int_wf (set_level s l).
Proof. intros []. by split. Qed.
Lemma set_status_wf s m : int_wf s -> int_wf (set_status s m).
Proof. intros []. by split. Qed.
Lemma set_yieldOnReturn_wf s b : int_wf s -> int_wf (set_yieldOnReturn s b).
Proof. intros []. by split. Qed.

Definition tick_of (s : Sys) : Z := if bool_decide (status (interrupt s) = SystemMode) then SystemTick else UserTick.

Lemma advance_ok s :
  int_wf s -> now s + MaxDelay <= int32_max ->
  int_wf (advance s) /\ now (advance s) = now s + tick_of s /\ interrupt (advance s) = interrupt s.
Proof.
  intros [H1 H2 H3 H4 H5 H6 H7] Hmax. unfold advance, tick_of, MaxDelay, SystemTick, UserTick, now in *.
  case_bool_decide; simpl; rewrite !wrap_s32_id by (unfold_int32; lia);
    (split; [split; unfold now; simpl; try done; lia|done]).
Qed.

(** C31: one tick of simulated time.  On a well-formed system whose handlers keep
    their contract, [OneTick] adds 10 ticks in system mode and 1 in user mode,
    then fires every interrupt that is due: its handler is called with its argument, in
    system mode with interrupts off, once and in the order of time, and nothing else touches
    the devices; none that is due stays in the queue, and none that is not due goes.  The
    queue stays sorted and the time accounted for, and only then, with
    interrupts enabled, the thread yields if a handler asked for it.  The firing loop always
    ends. *)
Theorem OneTick_fires_all_due (yield : Sys -> outcome Sys) s :
  int_wf s -> status (interrupt s) <> IdleMode -> now s + SystemTick + MaxDelay <= int32_max ->
  exists s1, drained (set_level (advance s) IntOff) s1 /\ now s1 = now s + tick_of s /\
    Interrupt_OneTick call yield s =
      (let s2 := set_level s1 IntOn in
       if yieldOnReturn (interrupt s1)
       then s3 ← yield (set_status (set_yieldOnReturn s2 false) SystemMode); Ok (set_status s3 (status (interrupt s)))
       else Ok s2).
Proof.
  intros Hwf Hst Hmax. destruct (advance_ok s Hwf) as (Hwf1 & Hnow & Hint); [unfold SystemTick in *; lia|].
  assert (Htick : 0 <= tick_of s <= SystemTick) by (unfold tick_of, SystemTick, UserTick; case_bool_decide; lia).
  destruct (check_all_ok (set_level (advance s) IntOff)) as (s1 & E & Hc).
  - by apply set_level_wf.
  - done.
  - unfold now in *. simpl. unfold now in Hnow. lia.
  - pose proof Hc as (_ & _ & _ & (T & _) & _ & Hd). exists s1. conjs.
    + apply Hd. simpl. by rewrite Hint.
    + unfold now in *. simpl in T. congruence.
    + unfold Interrupt_OneTick, Interrupt_ChangeLevel. rewrite E. done.
Qed.

(** The interrupts after which an idle machine gives up. *)
Definition nothing_to_wait_for (p : list (Z * PendingInterrupt)) : Prop :=
  p = [] \/ exists k x, p = [(k, x)] /\ type x = TimerInt.

Lemma advance_clock_wf s k :
  int_wf s -> now s < k -> k <= int32_max ->
  int_wf (set_stats s (set_ticks (stats s) k (wrap_s32 (idleTicks (stats s) + (k - totalTicks (stats s))))
            (systemTicks (stats s)) (userTicks (stats s)))).
Proof.
  intros [H1 H2 H3 H4 H5 H6 H7] Hk Hmax. unfold now in *.
  rewrite wrap_s32_id by (unfold_int32; lia). split; unfold now; simpl; try done; lia.
Qed.

(** Idling.  With no thread to run, the machine halts exactly when no interrupt
    is pending or only the timer's is; otherwise the clock jumps to the time of
    the earliest pending interrupt, the jump is charged to idle time, its handler
    and all others due by then run, and [Idle] returns in system mode with no
    yield requested. *)
Theorem Idle_advances_or_halts s :
  int_wf s -> level (interrupt s) = IntOff ->
  Forall (fun p => p.1 + MaxDelay <= int32_max) (pending (interrupt s)) -> now s + MaxDelay <= int32_max ->
  (nothing_to_wait_for (pending (interrupt s)) -> Interrupt_Idle call s = Halt) /\
  (~ nothing_to_wait_for (pending (interrupt s)) ->
   exists s' k x, Interrupt_Idle call s = Ok s' /\ head (pending (interrupt s)) = Some (k, x) /\
     int_wf s' /\ now s' = Z.max (now s) k /\
     idleTicks (stats s') = idleTicks (stats s) + (Z.max (now s) k - now s) /\
     status (interrupt s') = SystemMode /\ yieldOnReturn (interrupt s') = false).
Proof.
  intros Hwf Hlv Hall Hmax. unfold Interrupt_Idle, Interrupt_CheckIfDue.
  change (level (interrupt (set_status s IdleMode))) with (level (interrupt s)). rewrite Hlv.
  rewrite (bool_decide_eq_true_2 (IntOff = IntOff)) by done.
  change (pending (interrupt (set_status s IdleMode))) with (pending (interrupt s)).
  split.
  - intros [->|(k & x & -> & Ht)]; [done|]. cbn [ASSERT mbind outcome_bind negb andb].
    rewrite (bool_decide_eq_true_2 (type x = TimerInt)) by done.
    destruct (now _ <? k); (rewrite bool_decide_eq_true_2 by done); done.
  - intros Hne. destruct (pending (interrupt s)) as [|[k x] rest] eqn:E; [by destruct Hne; left|].
    apply Forall_cons in Hall as [Hk _]. simpl in Hk. cbn [ASSERT mbind outcome_bind negb andb].
    set (s0 := set_pending (set_status s IdleMode) rest).
    assert (Hwf0 : int_wf s0).
    { apply set_pending_wf; [by apply set_status_wf|]. eapply sorted_tail. rewrite <- E. apply Hwf. }
    set (s1 := if now s0 <? k then _ else s0).
    assert (Hs1 : int_wf s1 /\ level (interrupt s1) = IntOff /\ status (interrupt s1) = IdleMode /\
       now s1 = Z.max (now s) k /\ idleTicks (stats s1) = idleTicks (stats s) + (Z.max (now s) k - now s)).
    { change (now s) with (now s0). change (idleTicks (stats s)) with (idleTicks (stats s0)).
      assert (Hid : 0 <= idleTicks (stats s0) <= now s0) by (destruct Hwf0; lia).
      unfold s1. unfold MaxDelay in *. destruct (Z.ltb_spec (now s0) k).
      - conjs; [apply advance_clock_wf; [done|done|lia]|done|done|change (k = Z.max (now s0) k); lia|].
        cbn [stats set_stats set_ticks idleTicks]. change (totalTicks (stats s0)) with (now s0).
        rewrite wrap_s32_id by (unfold_int32; lia). lia.
      - conjs; [done|done|done|lia|lia]. }
    destruct Hs1 as (Hwf1 & Hlv1 & Hst1 & Hnow1 & Hidle1).
    assert (bool_decide (status (interrupt s1) = IdleMode) && bool_decide (type x = TimerInt) &&
      match rest with [] => true | _ => false end = false) as ->.
    { rewrite bool_decide_eq_true_2 by done. case_bool_decide as Ht; [|done]. destruct rest; [|done].
      exfalso. apply Hne. right. eauto. }
    destruct (fire_ok s1 x Hwf1 Hlv1) as (s2 & -> & Hwf2 & Hlv2 & _ & Hst2 & (T1 & T2 & _) & _); [lia|].
    rewrite !bind_Ok. cbn beta iota.
    destruct (check_all_ok s2 Hwf2 Hlv2) as (s3 & -> & Hwf3 & _ & _ & (U1 & U2 & _) & _); [lia|].
    rewrite bind_Ok. eexists _, k, x. split; [done|].
    conjs; [done|by apply set_status_wf, set_yieldOnReturn_wf|unfold now in *; simpl; lia|simpl; lia|done|done].
Qed.

End Laws.

(** ** The timer keeps the contract *)

Lemma Schedule_step s h a fromNow ty :
  int_wf s -> 0 < fromNow <= MaxDelay -> now s + MaxDelay <= int32_max ->
  exists s', Interrupt_Schedule s h a fromNow ty = Ok s' /\ handler_step s s' /\
    yieldOnReturn (interrupt s') = yieldOnReturn (interrupt s) /\
    (now s + fromNow, mkPending h a (now s + fromNow) ty) ∈ pending (interrupt s').
Proof.
  intros Hwf Hf Hmax. pose proof Hwf as [H1 H2 H3 H4 H5 H6 H7].
  assert (0 <= now s) by (unfold now in *; lia).
  unfold Interrupt_Schedule. rewrite wrap_s32_id by (unfold_int32; lia).
  rewrite (proj2 (Z.ltb_lt _ _)) by lia. simpl. eexists. split; [done|]. conjs; [|done|].
  - split; simpl; try done.
    + by apply sorted_insert_sorted.
    + eexists. split; [rewrite sorted_insert_perm; apply Permutation_cons_append|].
      apply Forall_singleton. unfold due. simpl. lia.
  - simpl. rewrite sorted_insert_perm. apply list_elem_of_here.
Qed.

Section TimerDevice.
Context (TimerHandler : H) (this : Z) (doRandom : bool) (random : Sys -> Z).
Context (random_nonneg : forall s, 0 <= random s).

Definition timer : Timer := mkTimer doRandom TimerInterruptHandler 0.

(** The system whose only device is the timer. *)
Definition timer_call (h : H) (a : Z) (s : Sys) : outcome Sys :=
  Timer_TimerExpired s TimerHandler this (random s) timer.

Lemma TimeOfNextInterrupt_range r : 0 <= r -> 0 < Timer_TimeOfNextInterrupt timer r <= MaxDelay.
Proof.
  intros Hr. unfold Timer_TimeOfNextInterrupt, timer, TimerTicks, MaxDelay. simpl.
  destruct doRandom; [|lia]. change (100 * 2) with 200.
  pose proof (Z.rem_bound_pos r 200 ltac:(lia) ltac:(lia)). lia.
Qed.

#[export] Instance timer_laws : HandlerLaws timer_call.
Proof.
  split. intros h a s Hwf Hih Hlv Hst Hmax. unfold timer_call, Timer_TimerExpired.
  destruct (Schedule_step s TimerHandler this (Timer_TimeOfNextInterrupt timer (random s)) TimerInt Hwf
    (TimeOfNextInterrupt_range _ (random_nonneg s)) Hmax) as (s1 & -> & [L1 L2 L3 L4 L5 L6 L7] & _).
  rewrite bind_Ok. unfold timer, timer_handler, TimerInterruptHandler.
  rewrite bool_decide_eq_false_2 by (rewrite L3, Hst; done). simpl.
  unfold Interrupt_YieldOnReturn. rewrite L2, Hih. simpl. eexists. split; [done|]. by split.
Qed.

End TimerDevice.
End Interrupts.

(** A system with two interrupts pending, one of them due at the next tick. *)
Definition sample_sys : Sys (W := unit) (H := unit) :=
  mkSys (mkInterrupt IntOff [(5, mkPending tt 0 5 DiskInt); (200, mkPending tt 0 200 TimerInt)] false false SystemMode)
    Statistics_new None tt.

Lemma sample_sys_wf : int_wf sample_sys.
Proof. split; simpl; try done. repeat constructor; unfold key_le; simpl; lia. Qed.

Lemma OneTick_fires_all_due_witness :
  exists s1, drained (timer_call tt 0 false (fun _ => 0)) (set_level (advance sample_sys) IntOff) s1 /\ now s1 = 10 /\
    Interrupt_OneTick (timer_call tt 0 false (fun _ => 0)) (fun s => Ok s) sample_sys =
      (let s2 := set_level s1 IntOn in
       if yieldOnReturn (interrupt s1)
       then Ok (set_status (set_status (set_yieldOnReturn s2 false) SystemMode) SystemMode)
       else Ok s2).
Proof.
  exact (OneTick_fires_all_due (timer_call tt 0 false (fun _ => 0))
    (HandlerLaws0 := timer_laws tt 0 false (fun _ => 0) (fun _ => Z.le_refl 0)) (fun s => Ok s)
    sample_sys sample_sys_wf ltac:(done) ltac:(vm_compute; congruence)).
Defined.

Lemma Idle_advances_or_halts_witness :
  exists s' k x, Interrupt_Idle (timer_call tt 0 false (fun _ => 0)) sample_sys = Ok s' /\
    head (pending (interrupt sample_sys)) = Some (k, x) /\ int_wf s' /\ now s' = Z.max 0 k.
Proof.
  destruct (Idle_advances_or_halts (timer_call tt 0 false (fun _ => 0))
    (HandlerLaws0 := timer_laws tt 0 false (fun _ => 0) (fun _ => Z.le_refl 0)) sample_sys sample_sys_wf)
    as [_ Hi].
  - reflexivity.
  - repeat constructor; vm_compute; congruence.
  - vm_compute. congruence.
  - destruct Hi as (s' & k & x & H1 & H2 & H3 & H4 & _).
    + intros [?|(k & x & ? & _)]; done.
    + exists s', k, x. conjs; [exact H1|exact H2|exact H3|exact H4].
Defined.
