(* ===== verification/AddrSpace.v ===== *)
(** * Address spaces: loading a user program (userprog/addrspace.h,
      userprog/addrspace.cc, bin/noff.h; the UNIX-file [OpenFile] of
      filesys/openfile.h)

    [AddrSpace_load] is the body both constructors share: read the NOFF header,
    allocate frames from [gPhysPageBitMap], zero them, and copy the code and
    initialised data segments page by page into physical memory.  Stores outside
    [mainMemory] have no meaning.  [virt] is the virtual memory image that a page
    table and the physical memory stand for; loading is proved to produce the
    image code ++ data ++ zeros in frames nobody else owns.  [addrLock] makes the
    allocation atomic; the locking itself is the subject of Threads.v. *)

From S2P Require Import Prelude Int32 Machine BitMap.

Definition UserStackSize : Z := 1024.
Definition NOFFMAGIC : Z := 0xbadfad.

(** [struct segment] and [struct noffHeader] *)
Record Segment := mkSegment { virtualAddr : Z; inFileAddr : Z; seg_size : Z }.
Record NoffHeader := mkNoff { noffMagic : Z; code : Segment; initData : Segment; uninitData : Segment }.

(** [class AddrSpace]; the page table pointer is not set before the allocation. *)
Record AddrSpace := mkAddrSpace { as_pageTable : option (list TranslationEntry); as_numPages : Z }.

(** [OpenFile::ReadAt] on a UNIX file with the given content: the bytes
    [ReadPartial] delivers; [Lseek] asserts that the position is legal. *)
Definition OpenFile_ReadAt_stub (content : list Z) (numBytes position : Z) : outcome (list Z) :=
  _ ← ASSERT (0 <=? position);
  if numBytes <? 0 then Undefined else Ok (slice content position numBytes).

Definition segment_of_bytes (bs : list Z) : Segment :=
  let word i := wrap_s32 (le_combine (slice bs (4 * i) 4)) in
  mkSegment (word 0) (word 1) (word 2).

(** The 40 bytes of the header as the struct. *)
Definition NoffHeader_of_bytes (bs : list Z) : NoffHeader :=
  mkNoff (wrap_s32 (le_combine (slice bs 0 4)))
    (segment_of_bytes (slice bs 4 12)) (segment_of_bytes (slice bs 16 12)) (segment_of_bytes (slice bs 28 12)).

Definition swap_segment (s : Segment) : Segment :=
  mkSegment (WordToHost (virtualAddr s)) (WordToHost (inFileAddr s)) (WordToHost (seg_size s)).

(** [SwapHeader] *)
Definition SwapHeader (h : NoffHeader) : NoffHeader :=
  mkNoff (WordToHost (noffMagic h)) (swap_segment (code h)) (swap_segment (initData h)) (swap_segment (uninitData h)).

(** The header as read from the file; [junk] is the uninitialised struct. *)
Definition read_header (content junk : list Z) : outcome NoffHeader :=
  bs ← OpenFile_ReadAt_stub content 40 0;
  let h := NoffHeader_of_bytes (splice junk 0 bs) in
  let h := if negb (noffMagic h =? NOFFMAGIC) && (WordToHost (noffMagic h) =? NOFFMAGIC)
           then SwapHeader h else h in
  _ ← ASSERT (noffMagic h =? NOFFMAGIC);
  Ok h.

(** The number of pages of the address space. *)
Definition space_pages (h : NoffHeader) : Z :=
  divRoundUp (wrap_u32 (seg_size (code h) + seg_size (initData h) + seg_size (uninitData h) + UserStackSize)) PageSize.

(** What [bzero] leaves in a page. *)
Definition zero_page : list Z := replicate (Z.to_nat PageSize) 0.

(** The translation loop: page [i] and the [n - 1] after it. *)
Fixpoint alloc_pages (n : nat) (i : Z) (mem : list Z) (bm : BitMap)
    : outcome (list TranslationEntry * list Z * BitMap) :=
  match n with
  | O => Ok ([], mem, bm)
  | S n =>
      '(frame, bm) ← BitMap_Find bm;
      let e := mkEntry i frame true false false false in
      mem ← store mem (frame * PageSize) zero_page;
      '(es, mem, bm) ← alloc_pages n (i + 1) mem bm;
      Ok (e :: es, mem, bm)
  end.

(** [executable->ReadAt(&mainMemory[base] + pageTable[page].physicalPage *
    PageSize + off, numBytes, position)] *)
Definition read_into (content : list Z) (pt : list TranslationEntry) (base : Z)
    (mem : list Z) (page off numBytes position : Z) : outcome (list Z) :=
  e ← deref (pt.[page]);
  bs ← OpenFile_ReadAt_stub content numBytes position;
  store mem (base + physicalPage e * PageSize + off) bs.

(** Copies [n] consecutive pages; the last of [total] pages has [last] bytes. *)
Fixpoint copy_pages (content : list Z) (pt : list TranslationEntry) (base : Z)
    (n : nat) (j total last page position : Z) (mem : list Z) : outcome (list Z) :=
  match n with
  | O => Ok mem
  | S n =>
      mem ← read_into content pt base mem (page + j) 0 (if j <? wrap_u32 (total - 1) then PageSize else last)
              (wrap_s32 (position + j * PageSize));
      copy_pages content pt base n (j + 1) total last page position mem
  end.

(** The copying part of the constructors. *)
Definition load_segments (content : list Z) (h : NoffHeader) (pt : list TranslationEntry) (mem : list Z)
    : outcome (list Z) :=
  let base := virtualAddr (code h) in
  let numCodePage := wrap_u32 (divRoundUp (seg_size (code h)) PageSize) in
  let lastCodePageSize := wrap_s32 (seg_size (code h) - (numCodePage - 1) * PageSize) in
  let tempDataSize := wrap_s32 (seg_size (initData h) - (PageSize - lastCodePageSize)) in
  let '(numDataPage, firstDataPageSize) :=
    if tempDataSize <? 0 then (0, seg_size (initData h))
    else (wrap_u32 (divRoundUp tempDataSize PageSize), PageSize - lastCodePageSize) in
  let lastDataPageSize := wrap_s32 (tempDataSize - (numDataPage - 1) * PageSize) in
  mem ← copy_pages content pt base (Z.to_nat numCodePage) 0 numCodePage lastCodePageSize 0
          (inFileAddr (code h)) mem;
  mem ← (if (lastCodePageSize <? PageSize) && (0 <? firstDataPageSize)
         then read_into content pt base mem (numCodePage - 1) lastCodePageSize firstDataPageSize
                (inFileAddr (initData h))
         else Ok mem);
  copy_pages content pt base (Z.to_nat numDataPage) 0 numDataPage lastDataPageSize numCodePage
    (inFileAddr (initData h) + firstDataPageSize) mem.

(** [AddrSpace::AddrSpace(OpenFile * )], and [AddrSpace::AddrSpace(char * )] after
    the file has been opened *)
Definition AddrSpace_load (content junk : list Z) (m : Machine) (gPhysPageBitMap : BitMap)
    : outcome (AddrSpace * Machine * BitMap) :=
  h ← read_header content junk;
  let numPages := space_pages h in
  free ← BitMap_NumClear gPhysPageBitMap;
  if wrap_u32 free <? numPages then Ok (mkAddrSpace None 0, m, gPhysPageBitMap)
  else
    '(pt, mem, bm) ← alloc_pages (Z.to_nat numPages) 0 (mainMemory m) gPhysPageBitMap;
    mem ← load_segments content h pt mem;
    Ok (mkAddrSpace (Some pt) numPages, set_mainMemory m mem, bm).

(** [AddrSpace::AddrSpace(char * )]: [file] is what [fileSystem->Open] found, and
    [fields] what the fields of the new object happen to hold, which is what they
    keep when the file cannot be opened. *)
Definition AddrSpace_load_name (file : option (list Z)) (fields : AddrSpace) (junk : list Z) (m : Machine)
    (gPhysPageBitMap : BitMap) : outcome (AddrSpace * Machine * BitMap) :=
  match file with
  | None => Ok (fields, m, gPhysPageBitMap)
  | Some content => AddrSpace_load content junk m gPhysPageBitMap
  end.

(** [AddrSpace::InitRegisters] *)
Fixpoint zero_registers (n : nat) (i : Z) (m : Machine) : outcome Machine :=
  match n with
  | O => Ok m
  | S n => m ← Machine_WriteRegister m i 0; zero_registers n (i + 1) m
  end.
Definition AddrSpace_InitRegisters (space : AddrSpace) (m : Machine) : outcome Machine :=
  m ← zero_registers (Z.to_nat NumTotalRegs) 0 m;
  m ← Machine_WriteRegister m PCReg 0;
  m ← Machine_WriteRegister m NextPCReg 4;
  Machine_WriteRegister m StackReg (wrap_s32 (as_numPages space * PageSize - 16)).

Lemma lenZ_WriteRegister m i v m' :
  Machine_WriteRegister m i v = Ok m' -> lenZ (registers m') = lenZ (registers m).
Proof.
  unfold Machine_WriteRegister. destruct (ASSERT _) as [[]| | |]; [|done..]. cbn [mbind outcome_bind].
  intros [= <-]. apply lenZ_set_reg.
Qed.

Lemma lenZ_InitRegisters space m m' :
  AddrSpace_InitRegisters space m = Ok m' -> lenZ (registers m') = lenZ (registers m).
Proof.
  assert (HZ : forall n i m m', zero_registers n i m = Ok m' -> lenZ (registers m') = lenZ (registers m)).
  { clear. induction n as [|n IH]; intros i m m' H; cbn [zero_registers] in H; [by simplify_eq|].
    apply bind_Ok_inv in H as (m1 & E & H). by rewrite (IH _ _ _ H), (lenZ_WriteRegister _ _ _ _ E). }
  unfold AddrSpace_InitRegisters. intros H. apply bind_Ok_inv in H as (m1 & E1 & H). apply bind_Ok_inv in H as (m2 & E2 & H).
  apply bind_Ok_inv in H as (m3 & E3 & H).
  by rewrite (lenZ_WriteRegister _ _ _ _ H), (lenZ_WriteRegister _ _ _ _ E3), (lenZ_WriteRegister _ _ _ _ E2), (HZ _ _ _ _ E1).
Qed.

(** [AddrSpace::~AddrSpace]: the page table is deleted; the frames stay marked in the bitmap. *)
Definition AddrSpace_delete (space : AddrSpace) : AddrSpace := mkAddrSpace None (as_numPages space).

(** [AddrSpace::SaveState]: nothing to save *)
Definition AddrSpace_SaveState (space : AddrSpace) (m : Machine) : Machine := m.

(** [AddrSpace::RestoreState] *)
Definition AddrSpace_RestoreState (space : AddrSpace) (m : Machine) : Machine :=
  mkMachine (mainMemory m) (registers m) (tlb m) (as_pageTable space) (as_numPages space)
    (singleStep m) (runUntilTime m).

(** ** The virtual memory image *)

Definition frame_of (e : TranslationEntry) : Z := physicalPage e.

(** The byte at virtual address [v]. *)
Definition vbyte (mem : list Z) (pt : list TranslationEntry) (v : Z) : option Z :=
  e ← pt.[v / PageSize]; mem.[frame_of e * PageSize + v mod PageSize].

(** Frames inside the memory, no two pages on the same frame. *)
Record table_wf (mem : list Z) (pt : list TranslationEntry) : Prop := {
  tw_frames : Forall (fun e => 0 <= frame_of e /\ frame_of e * PageSize + PageSize <= lenZ mem) pt;
  tw_nodup : NoDup (map frame_of pt) }.

Lemma page_split v : 0 <= v -> v = v / 512 * 512 + v mod 512 /\ 0 <= v mod 512 < 512 /\ 0 <= v / 512.
Proof.
  intros. pose proof (Z.div_mod v 512 ltac:(lia)). pose proof (Z.mod_pos_bound v 512 ltac:(lia)).
  pose proof (Z.div_pos v 512). lia.
Qed.

Lemma NoDup_frames pt i j e e' :
  NoDup (map frame_of pt) -> pt.[i] = Some e -> pt.[j] = Some e' -> frame_of e = frame_of e' -> i = j.
Proof.
  unfold lookupZ. intros Hnd. destruct (Z.ltb_spec i 0), (Z.ltb_spec j 0); try done.
  intros Hi Hj He. enough (Z.to_nat i = Z.to_nat j) by lia.
  apply (NoDup_lookup (frame_of <$> pt) _ _ (frame_of e)); [done|..];
    rewrite list_lookup_fmap, ?Hi, ?Hj; simpl; congruence.
Qed.

Lemma frame_in pt k e : pt.[k] = Some e -> frame_of e ∈ map frame_of pt.
Proof. intros He. apply list_elem_of_fmap. exists e. split; [done|]. by eapply lookupZ_elem_of. Qed.

(** A store into part of a page changes exactly that part of the image. *)
Lemma vbyte_store mem mem' pt page e off bs v :
  table_wf mem pt -> pt.[page] = Some e -> 0 <= off -> off + lenZ bs <= PageSize ->
  store mem (frame_of e * PageSize + off) bs = Ok mem' -> 0 <= v ->
  vbyte mem' pt v =
    if (page * PageSize + off <=? v) && (v <? page * PageSize + off + lenZ bs)
    then bs.[v - (page * PageSize + off)] else vbyte mem pt v.
Proof.
  intros [Hf Hnd] Hp Ho Hl (Hs1 & Hs2 & ->)%store_Ok Hv.
  pose proof (page_split v Hv) as (Hsplit & Hm & Hd). pose proof (lenZ_nonneg bs).
  pose proof (lookupZ_Some_range _ _ _ Hp) as Hpr. rewrite Forall_lookupZ in Hf.
  unfold vbyte, PageSize, SectorSize in *.
  destruct (pt.[v / 512]) as [e'|] eqn:E; simpl.
  - pose proof (Hf _ _ E) as [Hf0 Hf1]. rewrite lookupZ_splice by lia.
    destruct (decide (v / 512 = page)) as [Heq|Hne].
    + assert (e' = e) as -> by (subst page; congruence).
      destruct (Z.leb_spec (frame_of e * 512 + off) (frame_of e * 512 + v mod 512)),
        (Z.leb_spec (page * 512 + off) v); try lia; simpl; [|done].
      destruct (Z.ltb_spec (frame_of e * 512 + v mod 512) (frame_of e * 512 + off + lenZ bs)),
        (Z.ltb_spec v (page * 512 + off + lenZ bs)); try lia; [|done]. f_equal. lia.
    + assert (frame_of e' <> frame_of e) as Hfe.
      { intros Heq. apply Hne. by eapply NoDup_frames. }
      destruct (Z.leb_spec (frame_of e * 512 + off) (frame_of e' * 512 + v mod 512)),
        (Z.ltb_spec (frame_of e' * 512 + v mod 512) (frame_of e * 512 + off + lenZ bs)),
        (Z.leb_spec (page * 512 + off) v), (Z.ltb_spec v (page * 512 + off + lenZ bs)); simpl; try done; nia.
  - assert (v / 512 <> page) by congruence.
    destruct (Z.leb_spec (page * 512 + off) v), (Z.ltb_spec v (page * 512 + off + lenZ bs)); simpl; try done; nia.
Qed.

(** *** Allocation *)

(** [mem'] differs from [mem] only inside the frames of [pt]. *)
Definition same_outside_frames (pt : list TranslationEntry) (mem mem' : list Z) : Prop :=
  lenZ mem' = lenZ mem /\ forall a, a / PageSize ∉ map frame_of pt -> mem'.[a] = mem.[a].

Lemma same_outside_frames_trans pt m1 m2 m3 :
  same_outside_frames pt m1 m2 -> same_outside_frames pt m2 m3 -> same_outside_frames pt m1 m3.
Proof. intros [L1 H1] [L2 H2]. split; [congruence|]. intros a Ha. by rewrite H2, H1. Qed.

Lemma store_same_outside mem a bs mem' pt e off :
  store mem (frame_of e * PageSize + off) bs = Ok mem' -> frame_of e ∈ map frame_of pt ->
  a = frame_of e * PageSize + off -> 0 <= off -> off + lenZ bs <= PageSize ->
  same_outside_frames pt mem mem'.
Proof.
  intros (H0 & H1 & ->)%store_Ok Hin -> Ho Hl. split; [by apply lenZ_splice|].
  intros a Ha. rewrite lookupZ_splice by done. unfold PageSize, SectorSize in *.
  destruct (Z.leb_spec (frame_of e * 512 + off) a), (Z.ltb_spec a (frame_of e * 512 + off + lenZ bs)); simpl; try done.
  exfalso. apply Ha. replace (a / 512) with (frame_of e); [done|].
  apply Z.div_unique with (a - frame_of e * 512); lia.
Qed.

Lemma lenZ_zeros : lenZ zero_page = PageSize.
Proof. unfold lenZ, zero_page. by rewrite length_replicate. Qed.

Lemma zeros_lookup i : 0 <= i < PageSize -> zero_page.[i] = Some 0.
Proof.
  intros Hi. unfold lookupZ, zero_page. rewrite (proj2 (Z.ltb_ge i 0)) by lia.
  apply lookup_replicate_2. unfold PageSize, SectorSize in *. lia.
Qed.

(** What the translation loop gives. *)
Record allocated (n i : Z) (mem : list Z) (bm : BitMap) (pt : list TranslationEntry)
    (mem' : list Z) (bm' : BitMap) : Prop := {
  al_length : lenZ pt = n;
  al_entries : forall k e, pt.[k] = Some e -> e = mkEntry (i + k) (frame_of e) true false false false;
  al_frames : forall f, f ∈ map frame_of pt -> 0 <= f < numBits bm /\ f < NumPhysPages /\ bit bm f = false;
  al_nodup : NoDup (map frame_of pt);
  al_bm_wf : BitMap_wf bm';
  al_numBits : numBits bm' = numBits bm;
  al_bits : forall f, 0 <= f < numBits bm -> bit bm' f = bit bm f || bool_decide (f ∈ map frame_of pt);
  al_outside : same_outside_frames pt mem mem';
  al_zero : forall a, a / PageSize ∈ map frame_of pt -> mem'.[a] = Some 0 }.

Lemma frame_div f a : a / 512 = f <-> f * 512 <= a < f * 512 + 512.
Proof. split; intros; Z.to_euclidean_division_equations; lia. Qed.

(** The free bits of the bitmap that stand for frames of the memory. *)
Definition free_frames (bm : BitMap) : Z := count_clear (take (Z.to_nat NumPhysPages) (BitMap_bits bm)).

Lemma free_frames_le bm : 0 <= free_frames bm <= count_clear (BitMap_bits bm).
Proof.
  unfold free_frames. split; [apply count_clear_nonneg|]. rewrite <- (take_drop (Z.to_nat NumPhysPages) (BitMap_bits bm)) at 2. rewrite count_clear_app.
  pose proof (count_clear_nonneg (drop (Z.to_nat NumPhysPages) (BitMap_bits bm))). lia.
Qed.

(** [Find] gives the first free bit: it is a frame of the memory as long as there is one. *)
Lemma first_clear_exists bm r :
  BitMap_wf bm -> 0 <= r < numBits bm -> bit bm r = false -> (forall j, 0 <= j < r -> bit bm j = true) -> 0 < free_frames bm <-> r < NumPhysPages.
Proof.
  intros Hwf Hr Hb Hall. unfold free_frames. destruct (Z.lt_ge_cases r NumPhysPages) as [Hlt|Hge]; (split; [|intros; try lia]).
  - done.
  - destruct (decide (count_clear (take (Z.to_nat NumPhysPages) (BitMap_bits bm)) = 0)) as [E|E]; [|pose proof (count_clear_nonneg (take (Z.to_nat NumPhysPages) (BitMap_bits bm))); lia].
    apply count_clear_zero in E. rewrite Forall_lookup in E. specialize (E (Z.to_nat r) false). rewrite lookup_take_lt in E by lia.
    pose proof (lookupZ_bits bm r Hr) as L. unfold lookupZ in L. rewrite (proj2 (Z.ltb_ge r 0)), Hb in L by lia. by apply E in L.
  - intros Hpos. exfalso. assert (E : count_clear (take (Z.to_nat NumPhysPages) (BitMap_bits bm)) = 0); [|lia].
    apply count_clear_zero, Forall_lookup. intros j b Hj. apply lookup_take_Some in Hj as [Hj Hlt].
    pose proof (lookup_lt_Some _ _ _ Hj) as Hlen. assert (HL : lenZ (BitMap_bits bm) = numBits bm) by (apply lenZ_bits, Hwf). unfold lenZ in HL.
    pose proof (lookupZ_bits bm (Z.of_nat j) ltac:(lia)) as L. unfold lookupZ in L. rewrite (proj2 (Z.ltb_ge (Z.of_nat j) 0)), Nat2Z.id, Hj, Hall in L by lia. congruence.
Qed.

Lemma free_frames_insert bm bm1 r :
  BitMap_wf bm -> 0 <= r < numBits bm -> bit bm r = false -> r < NumPhysPages -> BitMap_bits bm1 = (BitMap_bits bm).[r <- true] -> free_frames bm1 = free_frames bm - 1.
Proof.
  intros Hwf Hr Hb Hlt E. unfold free_frames. rewrite E. unfold insertZ at 1. rewrite (proj2 (Z.ltb_ge r 0)), take_insert_lt by lia.
  pose proof (count_clear_insert (take (Z.to_nat NumPhysPages) (BitMap_bits bm)) r false true) as Hci. unfold insertZ in Hci. rewrite (proj2 (Z.ltb_ge r 0)) in Hci by lia. rewrite Hci; [lia|].
  unfold lookupZ. rewrite (proj2 (Z.ltb_ge r 0)), lookup_take_lt by lia. pose proof (lookupZ_bits bm r Hr) as L. unfold lookupZ in L. by rewrite (proj2 (Z.ltb_ge r 0)), Hb in L by lia.
Qed.

Lemma alloc_pages_spec n i mem bm :
  BitMap_wf bm -> Z.of_nat n <= free_frames bm -> lenZ mem = MemorySize ->
  exists pt mem' bm', alloc_pages n i mem bm = Ok (pt, mem', bm') /\
    allocated (Z.of_nat n) i mem bm pt mem' bm'.
Proof.
  revert i mem bm. induction n as [|n IH]; intros i mem bm Hwf Hn Hfit; cbn [alloc_pages].
  - do 3 eexists. split; [done|]. split; simpl; try done; try set_solver.
    + intros k e He. apply lookupZ_Some_range in He. unfold lenZ in He. simpl in He. lia.
    + constructor.
    + intros. by rewrite orb_false_r.
  - destruct (BitMap_Find_spec bm Hwf) as (r & bm1 & -> & Hwf1 & Hn1 & [(_ & _ & Hall)|(Hr & Hb & Hmin & Hbits)]).
    { apply (all_set_zero bm Hwf) in Hall. pose proof (free_frames_le bm). lia. }
    assert (Hrn : r < NumPhysPages) by (apply (first_clear_exists bm r Hwf Hr Hb Hmin); lia).
    assert (Hbit1 : forall j, 0 <= j < numBits bm -> bit bm1 j = if decide (j = r) then true else bit bm j)
      by (intros; by apply bit_insert).
    rewrite bind_Ok. cbn beta iota.
    destruct (store mem (r * PageSize) zero_page) as [mem1| | |] eqn:Es; cycle 1.
    1,2,3: exfalso; unfold store in Es; rewrite lenZ_zeros in Es;
      rewrite (proj2 (Z.leb_le _ _)), (proj2 (Z.leb_le _ _)) in Es by (unfold PageSize, SectorSize, NumPhysPages, MemorySize in *; lia); done.
    apply store_Ok in Es as (H0 & H1 & ->). rewrite lenZ_zeros in H1.
    set (mem1 := splice mem (r * PageSize) zero_page).
    assert (Hlen1 : lenZ mem1 = lenZ mem) by (apply lenZ_splice; rewrite ?lenZ_zeros; lia).
    assert (Hmem1 : forall a, mem1.[a] = if decide (a / PageSize = r) then Some 0 else mem.[a]).
    { intros a. unfold mem1. rewrite lookupZ_splice, lenZ_zeros by (rewrite ?lenZ_zeros; lia).
      unfold PageSize, SectorSize in *. case_decide as Hd; rewrite frame_div in Hd.
      - rewrite (proj2 (Z.leb_le _ _)), (proj2 (Z.ltb_lt _ _)) by lia. simpl.
        apply (zeros_lookup (a - r * 512)). unfold PageSize, SectorSize. lia.
      - destruct (Z.leb_spec (r * 512) a), (Z.ltb_spec a (r * 512 + 512)); simpl; try done; lia. }
    destruct (IH (i + 1) mem1 bm1 Hwf1) as (pt & mem' & bm' & E & [A1 A2 A3 A4 A5 A6 A7 A8 A9]).
    { rewrite (free_frames_insert bm bm1 r) by done. lia. }
    { by rewrite Hlen1. }
    cbn [mbind outcome_bind]. rewrite E. cbn [mbind outcome_bind]. eexists _, mem', bm'. split; [done|].
    assert (Hrf : r ∉ map frame_of pt).
    { intros Hin. apply A3 in Hin as (Hf & _ & Hbf). rewrite Hn1 in Hf. rewrite Hbit1, decide_True in Hbf by done. done. }
    destruct A8 as [A8 A8']. split; simpl.
    + unfold lenZ in *. cbn [length]. lia.
    + intros k e. rewrite lookupZ_cons. destruct (Z.eqb_spec k 0) as [->|].
      * intros [= <-]. simpl. f_equal. lia.
      * destruct (k <? 0); [done|]. intros He. rewrite (A2 _ _ He) at 1. f_equal. lia.
    + intros f [-> | Hf]%elem_of_cons; [done|]. apply A3 in Hf as (Hf & Hf' & Hbf). rewrite Hn1 in Hf.
      rewrite Hbit1 in Hbf by done. case_decide; done.
    + by apply NoDup_cons.
    + done.
    + congruence.
    + intros f Hf. rewrite A7, Hbit1 by (rewrite ?Hn1; done). destruct (decide (f = r)) as [->|Hne].
      * rewrite Hb. simpl. symmetry. apply bool_decide_eq_true_2. set_solver.
      * f_equal. apply bool_decide_ext. set_solver.
    + split; [congruence|]. intros a Ha. rewrite A8' by set_solver. rewrite Hmem1, decide_False; [done|set_solver].
    + intros a Ha. destruct (decide (a / PageSize ∈ map frame_of pt)) as [Hin|Hni]; [by apply A9|].
      rewrite A8', Hmem1, decide_True; [done| |done]. set_solver.
Qed.

(** When the frames of the memory run out before the bits of the bitmap do, the loop clears a
    frame behind the end of the memory. *)
Lemma alloc_pages_overruns n i mem bm :
  BitMap_wf bm -> free_frames bm < Z.of_nat n <= count_clear (BitMap_bits bm) -> lenZ mem = MemorySize -> alloc_pages n i mem bm = Undefined.
Proof.
  revert i mem bm. induction n as [|n IH]; intros i mem bm Hwf Hn Hfit; cbn [alloc_pages]; [pose proof (free_frames_le bm); lia|].
  destruct (BitMap_Find_spec bm Hwf) as (r & bm1 & -> & Hwf1 & Hn1 & [(_ & _ & Hall)|(Hr & Hb & Hmin & Hbits)]).
  { apply (all_set_zero bm Hwf) in Hall. lia. }
  rewrite bind_Ok. cbn beta iota. destruct (store mem (r * PageSize) zero_page) as [mem1| | |] eqn:Es; [|unfold store in Es; by destruct (_ && _)..].
  apply store_Ok in Es as (_ & H1 & ->). rewrite lenZ_zeros in H1.
  assert (Hrn : r < NumPhysPages) by (unfold PageSize, SectorSize, NumPhysPages, MemorySize in *; lia).
  rewrite bind_Ok. rewrite (IH (i + 1)); [done|done| |].
  - rewrite (free_frames_insert bm bm1 r), Hbits, (count_clear_insert _ _ false) by (done || by rewrite lookupZ_bits, Hb). lia.
  - rewrite lenZ_splice; [done| |]; rewrite ?lenZ_zeros; unfold PageSize, SectorSize in *; lia.
Qed.

(** *** Copying *)

Lemma table_wf_same mem mem' pt : lenZ mem' = lenZ mem -> table_wf mem pt -> table_wf mem' pt.
Proof. intros Hl [H1 H2]. split; [by rewrite Hl|done]. Qed.

Section Copy.
Context (content : list Z) (pt : list TranslationEntry).
Context (Hcontent : lenZ content <= int32_max).

(** [content] has been copied to virtual addresses [lo] to [hi] from position [pos]. *)
Definition copied (mem mem' : list Z) (lo hi pos : Z) : Prop :=
  same_outside_frames pt mem mem' /\
  forall v, 0 <= v -> vbyte mem' pt v =
    if (lo <=? v) && (v <? hi) then content.[pos + (v - lo)] else vbyte mem pt v.

Lemma read_into_spec mem page off numBytes position :
  table_wf mem pt -> 0 <= page < lenZ pt -> 0 <= off -> 0 <= numBytes -> off + numBytes <= PageSize ->
  0 <= position -> position + numBytes <= lenZ content ->
  exists mem', read_into content pt 0 mem page off numBytes position = Ok mem' /\
    copied mem mem' (page * PageSize + off) (page * PageSize + off + numBytes) position.
Proof.
  intros Hwf Hp Ho Hn Hfit Hpos Hc. unfold read_into, OpenFile_ReadAt_stub.
  destruct (lookupZ_range _ _ Hp) as [e He]. rewrite He. cbn [deref mbind outcome_bind].
  rewrite (proj2 (Z.leb_le 0 position)) by done. cbn [ASSERT mbind outcome_bind].
  rewrite (proj2 (Z.ltb_ge numBytes 0)) by done. cbn [mbind outcome_bind].
  assert (Hl : lenZ (slice content position numBytes) = numBytes) by (by apply lenZ_slice).
  pose proof (tw_frames _ _ Hwf) as HF. rewrite Forall_lookupZ in HF. destruct (HF _ _ He) as [Hf0 Hf1].
  assert (Hs : store mem (frame_of e * PageSize + off) (slice content position numBytes) =
               Ok (splice mem (frame_of e * PageSize + off) (slice content position numBytes))).
  { apply store_Ok. unfold PageSize, SectorSize in *. rewrite Hl. conjs; [lia..|done]. }
  change (physicalPage e) with (frame_of e). rewrite Z.add_0_l, Hs. eexists. split; [done|]. split.
  - eapply store_same_outside; [exact Hs| |done|done|by rewrite Hl].
    by eapply frame_in.
  - intros v Hv. rewrite (vbyte_store _ _ _ _ _ _ _ _ Hwf He Ho ltac:(by rewrite Hl) Hs Hv), Hl.
    destruct (Z.leb_spec (page * PageSize + off) v), (Z.ltb_spec v (page * PageSize + off + numBytes)); simpl; try done.
    rewrite lookupZ_slice by lia. done.
Qed.

Lemma copied_wf mem mem' lo hi pos : table_wf mem pt -> copied mem mem' lo hi pos -> table_wf mem' pt.
Proof. intros Hwf [[Hl _] _]. by eapply table_wf_same. Qed.

(** Two copies of adjoining pieces are one copy. *)
Lemma copied_join m1 m2 m3 lo mid hi pos :
  copied m1 m2 lo mid pos -> copied m2 m3 mid hi (pos + (mid - lo)) -> lo <= mid <= hi -> copied m1 m3 lo hi pos.
Proof.
  intros [O1 H1] [O2 H2] Hm. split; [by eapply same_outside_frames_trans|].
  intros v Hv. rewrite H2, H1 by done.
  destruct (Z.leb_spec mid v), (Z.ltb_spec v hi), (Z.leb_spec lo v), (Z.ltb_spec v mid); simpl; try done; try lia.
  f_equal. lia.
Qed.

Lemma copied_nothing mem lo pos : copied mem mem lo lo pos.
Proof.
  split; [split; done|]. intros v Hv. destruct (Z.leb_spec lo v), (Z.ltb_spec v lo); simpl; try done; lia.
Qed.

(** The page loop copies a whole segment of [L] bytes. *)
Lemma copy_pages_spec n j L total last page position mem :
  0 <= L -> total = divRoundUp L PageSize -> last = L - (total - 1) * PageSize ->
  0 <= j -> j + Z.of_nat n = total -> 0 <= page -> page + total <= lenZ pt ->
  0 <= position -> position + L <= lenZ content -> table_wf mem pt ->
  exists mem', copy_pages content pt 0 n j total last page position mem = Ok mem' /\
    copied mem mem' ((page + j) * PageSize) (Z.max ((page + j) * PageSize) (page * PageSize + L))
      (position + j * PageSize).
Proof.
  intros HL Htot Hlast. revert j mem. pose proof (divRoundUp_spec L PageSize HL ltac:(done)) as Hs.
  rewrite <- Htot in Hs. unfold PageSize, SectorSize in *.
  induction n as [|n IH]; intros j mem Hj Hn Hp Hpt Hpos Hc Hwf; cbn [copy_pages];
    unfold PageSize, SectorSize.
  - exists mem. split; [done|]. rewrite Z.max_l by lia. apply copied_nothing.
  - assert (Htb : total < 2147483648) by (unfold_int32; lia).
    rewrite (wrap_u32_id (total - 1)) by (unfold_int32; lia).
    rewrite (wrap_s32_id (position + j * 512)) by (unfold_int32; lia).
    set (nb := if j <? total - 1 then 512 else last).
    assert (Hnb : 0 <= nb <= 512 /\ (page + j) * 512 + nb = Z.min ((page + (j + 1)) * 512) (page * 512 + L)).
    { unfold nb. destruct (Z.ltb_spec j (total - 1)); lia. }
    destruct (read_into_spec mem (page + j) 0 nb (position + j * 512) Hwf) as (m1 & -> & Hc1);
      unfold PageSize, SectorSize; [lia..|]. cbn [mbind outcome_bind].
    rewrite !Z.add_0_r in Hc1. unfold PageSize, SectorSize in Hc1.
    destruct (IH (j + 1) m1) as (m2 & -> & Hc2); [lia..|by eapply copied_wf|].
    exists m2. split; [done|].
    destruct (Z.lt_ge_cases (page * 512 + L) ((page + (j + 1)) * 512)) as [Hshort|Hlong].
    + rewrite Z.max_l in Hc2 by lia. rewrite Z.max_r by lia.
      replace (page * 512 + L) with ((page + j) * 512 + nb) by lia.
      destruct Hc1 as [O1 H1], Hc2 as [O2 H2]. split; [by eapply same_outside_frames_trans|].
      intros v Hv. rewrite H2 by done.
      destruct (Z.leb_spec ((page + (j + 1)) * 512) v), (Z.ltb_spec v ((page + (j + 1)) * 512)); simpl; try lia; by apply H1.
    + rewrite Z.max_r in Hc2 by lia. rewrite Z.max_r by lia.
      apply (copied_join mem m1 m2 _ ((page + j) * 512 + nb)); [done| |lia].
      replace ((page + j) * 512 + nb) with ((page + (j + 1)) * 512) by lia.
      replace (position + j * 512 + ((page + (j + 1)) * 512 - (page + j) * 512)) with (position + (j + 1) * 512) by lia.
      done.
Qed.

End Copy.

(** What the loader expects of a NOFF file: code linked at address 0, segments
    inside the file, sizes that do not overflow. *)
Record noff_ok (content : list Z) (h : NoffHeader) : Prop := {
  no_base : virtualAddr (code h) = 0;
  no_code : 0 <= seg_size (code h);
  no_data : 0 <= seg_size (initData h);
  no_bss : 0 <= seg_size (uninitData h);
  no_total : seg_size (code h) + seg_size (initData h) + seg_size (uninitData h) + UserStackSize + PageSize <= int32_max;
  no_codeAddr : 0 <= inFileAddr (code h) /\ inFileAddr (code h) + seg_size (code h) <= lenZ content;
  no_dataAddr : seg_size (initData h) = 0 \/ (0 <= inFileAddr (initData h) /\ inFileAddr (initData h) + seg_size (initData h) <= lenZ content);
  no_content : lenZ content <= int32_max }.

Lemma load_data_spec content pt c d da n last mem :
  lenZ content <= int32_max -> 0 <= c -> 0 <= d -> n = divRoundUp c PageSize -> last = c - (n - 1) * PageSize ->
  c + d <= lenZ pt * PageSize -> c + d + PageSize <= int32_max -> d = 0 \/ (0 <= da /\ da + d <= lenZ content) -> table_wf mem pt ->
  let tempDataSize := wrap_s32 (d - (PageSize - last)) in
  let '(numDataPage, firstDataPageSize) :=
    if tempDataSize <? 0 then (0, d) else (wrap_u32 (divRoundUp tempDataSize PageSize), PageSize - last) in
  let lastDataPageSize := wrap_s32 (tempDataSize - (numDataPage - 1) * PageSize) in
  exists mem', (mem ← (if (last <? PageSize) && (0 <? firstDataPageSize)
         then read_into content pt 0 mem (n - 1) last firstDataPageSize da else Ok mem);
     copy_pages content pt 0 (Z.to_nat numDataPage) 0 numDataPage lastDataPageSize n (da + firstDataPageSize) mem) = Ok mem' /\
    copied content pt mem mem' c (c + d) da.
Proof.
  intros Hct Hc Hd Hn Hlast Hfit Hmax Hda Hwf.
  pose proof (divRoundUp_spec c PageSize Hc ltac:(done)) as Hs. rewrite <- Hn in Hs.
  pose proof (divRoundUp_nonneg c PageSize Hc ltac:(done)) as Hn0. rewrite <- Hn in Hn0.
  unfold PageSize, SectorSize in *.
  rewrite (wrap_s32_id (d - (512 - last))) by (unfold_int32; lia). cbv zeta.
  destruct (Z.ltb_spec (d - (512 - last)) 0) as [Hneg|Hpos].
  - rewrite (proj2 (Z.ltb_lt last 512)) by lia. cbn [Z.to_nat copy_pages andb].
    destruct (Z.ltb_spec 0 d).
    + destruct (read_into_spec content pt mem (n - 1) last d da Hwf) as (m1 & -> & Hc1);
        unfold PageSize, SectorSize in *; [lia..|].
      exists m1. split; [done|]. replace ((n - 1) * 512 + last) with c in Hc1 by lia. done.
    + exists mem. split; [done|]. replace (c + d) with c by lia. apply copied_nothing.
  - destruct Hda as [-> | [Hda Hdl]].
    { replace (0 - (512 - last)) with 0 by lia. change (wrap_u32 (divRoundUp 0 512)) with 0. rewrite (proj2 (Z.ltb_ge last 512)) by lia.
      exists mem. split; [done|]. rewrite Z.add_0_r. apply copied_nothing. }
    set (temp := d - (512 - last)) in *.
    pose proof (divRoundUp_spec temp 512 ltac:(lia) ltac:(lia)) as Ht.
    pose proof (divRoundUp_nonneg temp 512 ltac:(lia) ltac:(lia)) as Ht0.
    rewrite (wrap_u32_id (divRoundUp temp 512)) by (unfold_int32; lia).
    rewrite (wrap_s32_id (temp - (divRoundUp temp 512 - 1) * 512)) by (unfold_int32; lia).
    assert (Hfirst : exists m1, (if (last <? 512) && (0 <? 512 - last)
        then read_into content pt 0 mem (n - 1) last (512 - last) da else Ok mem) = Ok m1 /\
        copied content pt mem m1 c (n * 512) da).
    { destruct (Z.ltb_spec last 512); simpl.
      - rewrite (proj2 (Z.ltb_lt 0 (512 - last))) by lia.
        destruct (read_into_spec content pt mem (n - 1) last (512 - last) da Hwf) as (m1 & -> & Hc1);
          unfold PageSize, SectorSize in *; [lia..|].
        exists m1. split; [done|]. replace ((n - 1) * 512 + last) with c in Hc1 by lia.
        replace (c + (512 - last)) with (n * 512) in Hc1 by lia. done.
      - exists mem. split; [done|]. replace (n * 512) with c by lia. apply copied_nothing. }
    destruct Hfirst as (m1 & -> & Hc1). cbn [mbind outcome_bind].
    destruct (copy_pages_spec content pt Hct (Z.to_nat (divRoundUp temp 512)) 0 temp (divRoundUp temp 512)
      (temp - (divRoundUp temp 512 - 1) * 512) n (da + (512 - last)) m1) as (m2 & -> & Hc2);
      unfold PageSize, SectorSize in *; try lia; try done.
    { by eapply copied_wf. }
    exists m2. split; [done|]. rewrite !Z.add_0_r, Z.max_r in Hc2 by lia.
    apply (copied_join content pt mem m1 m2 c (n * 512)); [done| |lia].
    replace (c + d) with (n * 512 + temp) by lia. replace (da + (n * 512 - c)) with (da + (512 - last)) by lia. done.
Qed.

Lemma load_segments_spec content h pt mem :
  noff_ok content h -> seg_size (code h) + seg_size (initData h) <= lenZ pt * PageSize -> table_wf mem pt ->
  exists mem', load_segments content h pt mem = Ok mem' /\ same_outside_frames pt mem mem' /\
    forall v, 0 <= v -> vbyte mem' pt v =
      if v <? seg_size (code h) then content.[inFileAddr (code h) + v]
      else if v <? seg_size (code h) + seg_size (initData h)
      then content.[inFileAddr (initData h) + (v - seg_size (code h))] else vbyte mem pt v.
Proof.
  intros [Hb Hc Hd Hu Ht [Hca Hcl] Hda Hct] Hfit Hwf. unfold load_segments. rewrite Hb.
  set (c := seg_size (code h)) in *. set (d := seg_size (initData h)) in *.
  pose proof (divRoundUp_spec c PageSize Hc ltac:(done)) as Hs.
  pose proof (divRoundUp_nonneg c PageSize Hc ltac:(done)) as Hn0.
  unfold PageSize, SectorSize, UserStackSize in *.
  rewrite (wrap_u32_id (divRoundUp c 512)) by (unfold_int32; lia).
  set (n := divRoundUp c 512) in *.
  rewrite (wrap_s32_id (c - (n - 1) * 512)) by (unfold_int32; lia).
  destruct (copy_pages_spec content pt Hct (Z.to_nat n) 0 c n (c - (n - 1) * 512) 0 (inFileAddr (code h)) mem)
    as (m1 & E1 & Hc1); unfold PageSize, SectorSize in *; try lia; try done.
  rewrite Z.max_r in Hc1 by lia. replace ((0 + 0) * 512) with 0 in Hc1 by lia.
  replace (0 * 512 + c) with c in Hc1 by lia. rewrite Z.mul_0_l, Z.add_0_r in Hc1.
  pose proof (load_data_spec content pt c d (inFileAddr (initData h)) n (c - (n - 1) * 512) m1 Hct Hc Hd eq_refl eq_refl)
    as Hdata. unfold PageSize, SectorSize in Hdata.
  specialize (Hdata ltac:(lia) ltac:(lia) Hda ltac:(by eapply copied_wf)). cbv zeta in Hdata |- *.
  destruct (if wrap_s32 (d - (512 - (c - (n - 1) * 512))) <? 0 then _ else _) as [ndp fdp].
  destruct Hdata as (m2 & E2 & Hc2). rewrite E1. cbn [mbind outcome_bind].
  exists m2. split; [exact E2|]. destruct Hc1 as [O1 H1], Hc2 as [O2 H2].
  split; [by eapply same_outside_frames_trans|]. intros v Hv. rewrite H2, H1 by done.
  destruct (Z.leb_spec c v), (Z.ltb_spec v (c + d)), (Z.leb_spec 0 v), (Z.ltb_spec v c); simpl; try done; try lia;
    f_equal; lia.
Qed.

(** ** Properties *)

Lemma space_pages_fit content h :
  noff_ok content h -> seg_size (code h) + seg_size (initData h) <= space_pages h * PageSize /\ 0 < space_pages h <= int32_max.
Proof.
  intros [Hb Hc Hd Hu Ht _ _ _]. unfold space_pages, UserStackSize, PageSize, SectorSize in *.
  rewrite wrap_u32_id by (unfold_int32; lia).
  pose proof (divRoundUp_spec (seg_size (code h) + seg_size (initData h) + seg_size (uninitData h) + 1024) 512) as Hs.
  lia.
Qed.

(** The image of a program: its code, then its initialised data, then zeros. *)
Definition program_image (content : list Z) (h : NoffHeader) (v : Z) : option Z :=
  if v <? seg_size (code h) then content.[inFileAddr (code h) + v]
  else if v <? seg_size (code h) + seg_size (initData h)
  then content.[inFileAddr (initData h) + (v - seg_size (code h))] else Some 0.

Lemma count_clear_bound bs : count_clear bs <= lenZ bs.
Proof. unfold count_clear, lenZ. pose proof (length_filter (fun b => b = false) bs). lia. Qed.

Lemma load_image_ok content junk m bm h :
  Machine_wf m -> BitMap_wf bm -> numBits bm <= int32_max -> read_header content junk = Ok h -> noff_ok content h ->
  (count_clear (BitMap_bits bm) < space_pages h ->
     AddrSpace_load content junk m bm = Ok (mkAddrSpace None 0, m, bm)) /\
  (free_frames bm < space_pages h <= count_clear (BitMap_bits bm) -> AddrSpace_load content junk m bm = Undefined) /\
  (space_pages h <= free_frames bm ->
     exists pt mem' bm', AddrSpace_load content junk m bm =
         Ok (mkAddrSpace (Some pt) (space_pages h), set_mainMemory m mem', bm') /\
       lenZ pt = space_pages h /\ NoDup (map frame_of pt) /\
       (forall f, f ∈ map frame_of pt -> 0 <= f < NumPhysPages /\ bit bm f = false) /\
       (forall f, 0 <= f < numBits bm -> bit bm' f = bit bm f || bool_decide (f ∈ map frame_of pt)) /\
       same_outside_frames pt (mainMemory m) mem' /\
       (forall v, 0 <= v < space_pages h * PageSize -> vbyte mem' pt v = program_image content h v)).
Proof.
  intros Hm Hbm Hnb Hh Hok. destruct (space_pages_fit _ _ Hok) as [Hsp Hsp2]. pose proof (wf_memory _ Hm) as HM.
  unfold AddrSpace_load. rewrite Hh, bind_Ok, BitMap_NumClear_spec, bind_Ok by done.
  pose proof (free_frames_le bm) as Hle. pose proof (count_clear_bound (BitMap_bits bm)) as Hcb.
  rewrite lenZ_bits in Hcb by apply Hbm. rewrite wrap_u32_id by (unfold_int32; lia).
  split; [|split]; intros Hlt; [by rewrite (proj2 (Z.ltb_lt _ _)) by done|..]; rewrite (proj2 (Z.ltb_ge _ _)) by lia.
  { rewrite alloc_pages_overruns; [done|done|lia|done]. }
  destruct (alloc_pages_spec (Z.to_nat (space_pages h)) 0 (mainMemory m) bm) as (pt & mem1 & bm1 & E & A); [done|lia|done|].
  rewrite E, bind_Ok. destruct A as [A1 A2 A3 A4 A5 A6 A7 A8 A9]. rewrite Z2Nat.id in A1 by lia.
  assert (Hwf1 : table_wf mem1 pt).
  { split; [|done]. apply Forall_lookupZ. intros k e He.
    pose proof (frame_in _ _ _ He) as Hin.
    destruct (A3 _ Hin) as (Hf & Hf' & _). destruct A8 as [-> _].
    rewrite HM. unfold MemorySize, NumPhysPages, PageSize, SectorSize in *. lia. }
  destruct (load_segments_spec content h pt mem1 Hok) as (mem2 & E2 & O2 & H2); [by rewrite A1|done|].
  rewrite E2, bind_Ok. exists pt, mem2, bm1. conjs; [done..| | | | ].
  - intros f Hf. destruct (A3 _ Hf) as (Hr & Hf' & Hb). split; [lia|done].
  - done.
  - by eapply same_outside_frames_trans.
  - intros v Hv. rewrite H2 by lia. unfold program_image. case_if; [done|]. case_if; [done|].
    unfold vbyte. unfold PageSize, SectorSize in *.
    destruct (lookupZ_range pt (v / 512)) as [e He].
    { rewrite A1. split; [apply Z.div_pos; lia|apply Z.div_lt_upper_bound; lia]. }
    rewrite He. simpl. apply A9.
    replace ((frame_of e * 512 + v mod 512) / 512) with (frame_of e).
    + by eapply frame_in.
    + apply Z.div_unique with (v mod 512); [|lia]. pose proof (Z.mod_pos_bound v 512). lia.
Qed.

(** C8: loading a program into the frames that the bitmap [bm] has free.  If the bitmap has
    fewer free bits than the program needs pages, the constructor changes nothing.  If there
    are enough free frames of the memory, it gives a page table on
    distinct frames that were free, marks exactly these in the bitmap, makes the
    virtual address space hold the code, the initialised data and zeros after
    them, and leaves every other byte of physical memory as it was.  The third case is that
    the free bits are enough and the free frames are not, since the bitmap of the kernel has
    256 bits and the memory 128 frames: then the constructor writes behind the memory. *)
Theorem AddrSpace_load_image content junk m bm h :
  Machine_wf m -> BitMap_wf bm -> numBits bm <= int32_max -> read_header content junk = Ok h -> noff_ok content h ->
  (count_clear (BitMap_bits bm) < space_pages h ->
     AddrSpace_load content junk m bm = Ok (mkAddrSpace None 0, m, bm)) /\
  (free_frames bm < space_pages h <= count_clear (BitMap_bits bm) -> AddrSpace_load content junk m bm = Undefined) /\
  (space_pages h <= free_frames bm ->
     exists pt mem' bm', AddrSpace_load content junk m bm =
         Ok (mkAddrSpace (Some pt) (space_pages h), set_mainMemory m mem', bm') /\
       lenZ pt = space_pages h /\ NoDup (map frame_of pt) /\
       (forall f, f ∈ map frame_of pt -> 0 <= f < NumPhysPages /\ bit bm f = false) /\
       (forall f, 0 <= f < numBits bm -> bit bm' f = bit bm f || bool_decide (f ∈ map frame_of pt)) /\
       same_outside_frames pt (mainMemory m) mem' /\
       (forall v, 0 <= v < space_pages h * PageSize -> vbyte mem' pt v = program_image content h v)).
Proof. apply load_image_ok. Qed.

(** A program of one instruction and one word of data. *)
Definition sample_program : list Z :=
  words_to_bytes [0xbadfad; 0; 40; 4; 4; 44; 4; 0; 0; 0; 0x0000000c; 77].
Definition sample_header : NoffHeader :=
  mkNoff 0xbadfad (mkSegment 0 40 4) (mkSegment 4 44 4) (mkSegment 0 0 0).
(** The bitmap of the kernel, of 256 bits, when the first 65 frames are in use. *)
Definition sample_frames : BitMap := mkBitMap 256 8 ([0xffffffff; 0xffffffff; 1] ++ replicate 5 0).

Lemma sample_noff_ok : noff_ok sample_program sample_header.
Proof. split; vm_compute; try done; [..|right]; split; congruence. Qed.

Lemma sample_frames_wf : BitMap_wf sample_frames.
Proof. split; [vm_compute; congruence|done|done|]. repeat constructor; unfold_int32; lia. Qed.

Lemma AddrSpace_load_image_witness :
  exists pt mem' bm', AddrSpace_load sample_program (replicate 40 0) (sample_machine [] (sample_regs 0 0 0)) sample_frames =
      Ok (mkAddrSpace (Some pt) 3, set_mainMemory (sample_machine [] (sample_regs 0 0 0)) mem', bm') /\
    lenZ pt = 3 /\ vbyte mem' pt 4 = Some 77 /\ vbyte mem' pt 1535 = Some 0.
Proof.
  destruct (AddrSpace_load_image sample_program (replicate 40 0) (sample_machine [] (sample_regs 0 0 0)) sample_frames
    sample_header) as (_ & _ & H).
  - apply sample_wf; first [vm_compute; done | unfold_int32; lia].
  - exact sample_frames_wf.
  - vm_compute. congruence.
  - vm_compute. reflexivity.
  - exact sample_noff_ok.
  - destruct H as (pt & mem' & bm' & E & Hl & _ & _ & _ & _ & Hv); [vm_compute; congruence|].
    exists pt, mem', bm'. conjs; [exact E|exact Hl|rewrite Hv; [reflexivity|vm_compute; split; congruence]|].
    rewrite Hv; [reflexivity|vm_compute; split; congruence].
Defined.

(** A translated address is in the frame of its page, at the same offset. *)
Lemma phys_of_entry m pt va size writing pa :
  Machine_wf m -> tlb m = None -> pageTable m = Some pt -> phys_of m va size writing = Ok (inr pa) ->
  exists e, pt.[wrap_u32 va / PageSize] = Some e /\ pa = frame_of e * PageSize + wrap_u32 va mod PageSize /\
    misaligned va size = false.
Proof.
  intros Hwf Htlb Hpt Hp. unfold phys_of, Machine_Translate in Hp. destruct (misaligned va size) eqn:Hmis; [done|].
  pose proof (vpn_offset va) as [_ Ho].
  destruct (wf_table_asserts m Hwf) as [A1 A2]. rewrite A1, A2 in Hp. cbn [ASSERT mbind outcome_bind] in Hp.
  unfold find_entry in Hp. rewrite Htlb, Hpt in Hp. destruct (pageTableSize _ <=? _); [done|].
  cbn [deref mbind outcome_bind] in Hp.
  destruct (pt.[wrap_u32 va / PageSize]) as [e|] eqn:He; [|done]. cbn [deref mbind outcome_bind] in Hp.
  destruct (valid e); [|done]. cbn [negb mbind outcome_bind] in Hp. destruct (readOnly e && writing); [done|].
  destruct (Z.leb_spec NumPhysPages (wrap_u32 (physicalPage e))) as [|Hfr]; [done|].
  unfold NumPhysPages in Hfr. pose proof (wrap_u32_range (physicalPage e)) as [Hf0 _].
  rewrite physAddr_eq in Hp by lia. destruct (ASSERT _); [|done..]. cbn [mbind outcome_bind] in Hp.
  injection Hp as <-. exists e. conjs; [done| |done]. do 2 f_equal.
  destruct (wf_tables _ Hwf) as [(t & Ht & _)|(t & _ & Ht & _ & Hf)]; [congruence|].
  assert (t = pt) as -> by congruence. rewrite Forall_lookupZ in Hf. destruct (Hf _ _ He) as [_ Hi]. unfold frame_of.
  destruct (Z.lt_ge_cases (physicalPage e) 0); [|by apply wrap_u32_nonneg].
  rewrite wrap_s32_of_neg in Hfr by done. unfold_int32. lia.
Qed.

(** A translated access stays inside one frame of the installed page table. *)
Lemma phys_of_in_frame m pt va size writing pa :
  Machine_wf m -> tlb m = None -> pageTable m = Some pt -> valid_size size ->
  phys_of m va size writing = Ok (inr pa) ->
  exists e, e ∈ pt /\ frame_of e * PageSize <= pa /\ pa + size <= frame_of e * PageSize + PageSize.
Proof.
  intros Hwf Htlb Hpt Hs Hp. destruct (phys_of_entry _ _ _ _ _ _ Hwf Htlb Hpt Hp) as (e & He & -> & Hmis).
  pose proof (aligned_fits va size Hs Hmis) as Hfit. pose proof (vpn_offset va) as [_ Ho].
  exists e. split; [by eapply lookupZ_elem_of|]. unfold PageSize, SectorSize in *. lia.
Qed.

(** C37: address spaces are isolated.  While the page table of one address space
    is installed, a [WriteMem] by the running program never changes any byte of
    the virtual memory of another address space whose frames are different. *)
Theorem WriteMem_isolation m space pt other va size value m' v :
  as_pageTable space = Some pt ->
  Machine_wf (AddrSpace_RestoreState space m) -> tlb m = None -> valid_size size ->
  (forall f, f ∈ map frame_of pt -> f ∉ map frame_of other) ->
  Machine_WriteMem (AddrSpace_RestoreState space m) va size value = Ok (MemOk tt m') ->
  vbyte (mainMemory m') other v = vbyte (mainMemory m) other v.
Proof.
  intros Hpt Hwf Htlb Hs Hdisj E. set (m1 := AddrSpace_RestoreState space m) in *.
  destruct (WriteMem_cases m1 va size value Hwf Hs)
    as [(w & E' & _)|(m2 & pa & bs & E' & Hp & H0 & H1 & _ & Hl & Hmem & _ & _)]; rewrite E' in E; simplify_eq.
  rewrite Hmem. change (mainMemory m1) with (mainMemory m).
  unfold vbyte. destruct (other.[v / PageSize]) as [e'|] eqn:Ev; [|done]. simpl.
  pose proof (wf_memory _ Hwf) as HM. change (mainMemory m1) with (mainMemory m) in HM.
  rewrite lookupZ_splice by lia.
  destruct (phys_of_in_frame m1 pt va (lenZ bs) true pa Hwf Htlb Hpt Hs Hp) as (e & Hin & Hlo & Hhi).
  assert (Hne : frame_of e' <> frame_of e).
  { intros Heq. apply (Hdisj (frame_of e)).
    - apply list_elem_of_fmap. eauto.
    - rewrite <- Heq. by eapply frame_in. }
  unfold PageSize, SectorSize in *. pose proof (Z.mod_pos_bound v 512 ltac:(lia)).
  destruct (Z.leb_spec pa (frame_of e' * 512 + v mod 512)),
    (Z.ltb_spec (frame_of e' * 512 + v mod 512) (pa + lenZ bs)); simpl; try done. nia.
Qed.

Lemma WriteMem_isolation_witness :
  exists m', Machine_WriteMem (AddrSpace_RestoreState (mkAddrSpace (Some [mkEntry 0 5 true false false false]) 1)
      (sample_machine [] (sample_regs 0 0 0))) 8 4 99 = Ok (MemOk tt m') /\
    vbyte (mainMemory m') [mkEntry 0 6 true false false false] 8 = Some 0.
Proof.
  set (sp := mkAddrSpace (Some [mkEntry 0 5 true false false false]) 1).
  destruct (Machine_WriteMem (AddrSpace_RestoreState sp (sample_machine [] (sample_regs 0 0 0))) 8 4 99)
    as [[u m'|w b]| | |] eqn:E;
    [|exfalso; assert (Hv : match Machine_WriteMem (AddrSpace_RestoreState sp (sample_machine [] (sample_regs 0 0 0))) 8 4 99
        with Ok (MemOk _ _) => true | _ => false end = true) by (vm_compute; reflexivity); rewrite E in Hv; done..].
  destruct u. exists m'. split; [done|].
  rewrite (WriteMem_isolation (sample_machine [] (sample_regs 0 0 0)) sp [mkEntry 0 5 true false false false]
    [mkEntry 0 6 true false false false] 8 4 99 m' 8).
  - reflexivity.
  - reflexivity.
  - pose proof (sample_wf [] 0 0 0 ltac:(vm_compute; done) ltac:(unfold_int32; lia) ltac:(unfold_int32; lia)
      ltac:(unfold_int32; lia)) as [W1 W2 W3 W4 _].
    split; [exact W1|exact W2|exact W3|exact W4|]. right. eexists. conjs; [reflexivity..|].
    apply Forall_singleton. split; apply int32_small; simpl; lia.
  - reflexivity.
  - unfold valid_size. lia.
  - intros f Hf. simpl in *. set_solver.
  - exact E.
Defined.

(** The frame bitmap is larger than the memory.  [gPhysPageBitMap] has 256
    bits while the machine has 128 frames: when the 128 real frames are in use,
    a new program still passes the test for free memory and the constructor
    then clears a frame beyond the end of [mainMemory]. *)
Theorem frame_bitmap_too_large content junk m bm h :
  Machine_wf m -> BitMap_wf bm -> numBits bm = 256 ->
  (forall f, 0 <= f < 256 -> bit bm f = bool_decide (f < NumPhysPages)) ->
  read_header content junk = Ok h -> noff_ok content h -> space_pages h <= 128 ->
  AddrSpace_load content junk m bm = Undefined.
Proof.
  intros Hm Hbm Hnb Hbits Hh Hok Hsp. destruct (space_pages_fit _ _ Hok) as [_ Hsp2].
  assert (Hmap : BitMap_bits bm = map (fun f => bool_decide (f < NumPhysPages)) (seqZ 0 256)).
  { unfold BitMap_bits. rewrite Hnb. apply map_ext_in. intros f Hf. apply list_elem_of_In, elem_of_seqZ in Hf. apply Hbits. lia. }
  apply (load_image_ok content junk m bm h Hm Hbm); [rewrite Hnb; unfold int32_max; lia|done|done|]. unfold free_frames. rewrite Hmap.
  change (count_clear (take (Z.to_nat NumPhysPages) (map (fun f => bool_decide (f < NumPhysPages)) (seqZ 0 256)))) with 0.
  change (count_clear (map (fun f => bool_decide (f < NumPhysPages)) (seqZ 0 256))) with 128. lia.
Qed.

Lemma frame_bitmap_too_large_witness :
  AddrSpace_load sample_program (replicate 40 0) (sample_machine [] (sample_regs 0 0 0))
    (mkBitMap 256 8 (replicate 4 0xffffffff ++ replicate 4 0)) = Undefined.
Proof.
  apply (frame_bitmap_too_large sample_program (replicate 40 0) (sample_machine [] (sample_regs 0 0 0))
    (mkBitMap 256 8 (replicate 4 0xffffffff ++ replicate 4 0)) sample_header).
  - apply sample_wf; first [vm_compute; done | unfold_int32; lia].
  - split; [vm_compute; congruence|done|done|]. repeat constructor; unfold_int32; lia.
  - reflexivity.
  - assert (H : Forall (fun f => bit (mkBitMap 256 8 (replicate 4 0xffffffff ++ replicate 4 0)) f =
        bool_decide (f < NumPhysPages)) (seqZ 0 256)) by (apply (bool_decide_unpack _); vm_compute; done).
    intros f Hf. rewrite Forall_forall in H. apply H. apply elem_of_seqZ. lia.
  - vm_compute. reflexivity.
  - exact sample_noff_ok.
  - vm_compute. congruence.
Defined.
