(* ===== verification/Threads.v ===== *)
(** * Threads, the scheduler and semaphores
      (threads/thread.h, threads/thread.cc, threads/scheduler.cc,
       threads/synch.h, threads/synch.cc)

    The kernel runs on one processor: only [currentThread] executes, and every
    routine here runs with interrupts disabled until it either returns or calls
    [SWITCH].  So each routine is a function on the kernel state, up to the
    context switch; a thread that is switched out remembers in [at] where it
    will continue, and [resume] is what it does when [SWITCH] returns to it.
    [Sleep] with an empty ready list leaves the processor idle in the loop
    around [Interrupt::Idle]; the [V]s done by interrupt handlers and the
    time-slice [Yield]s are steps of their own, allowed wherever interrupts are
    enabled.  The ready list and the semaphore queues are the sequences the
    [List]s of LinkedList.v stand for ([Append] at the end, [Remove] at the
    front). *)

From S2P Require Import Prelude Int32 Machine AddrSpace.

(** [enum ThreadStatus] *)
Inductive ThreadStatus := JUST_CREATED | RUNNING | READY | BLOCKED.
#[export] Instance ThreadStatus_eq_dec : EqDecision ThreadStatus.
Proof. solve_decision. Defined.

(** Where a thread is: [Fresh] starts in [ThreadRoot], [InThread] is its own
    code, the others are inside [Scheduler::Run], called from [Yield], from
    [Sleep] in [Semaphore::P] or from [Sleep] in [Finish]. *)
Inductive resume_point := Fresh | InThread | InYield | InP (s : positive) | InFinish.
#[export] Instance resume_point_eq_dec : EqDecision resume_point.
Proof. solve_decision. Defined.

(** [class Thread]; [stack] is the word at the bottom of the stack, [None] for
    the main thread, whose stack is not allocated. *)
Record Thread := mkThread {
  t_status : ThreadStatus;
  at_ : resume_point;
  stack : option Z;
  userRegisters : list Z;
  space : option AddrSpace;
  processID : Z;
  exitStatus : Z }.

(** [class Semaphore] *)
Record Semaphore := mkSem { value : Z; queue : list positive }.

(** The global objects the scheduler works on. *)
Record Kernel := mkKernel {
  threads : gmap positive Thread;
  readyList : list positive;
  currentThread : positive;
  threadToBeDestroyed : option positive;
  semaphores : gmap positive Semaphore;
  cpu : Machine;
  idle : bool }.

Definition STACK_FENCEPOST : Z := 0xdeadbeef.

Definition set_threads (k : Kernel) ts := mkKernel ts (readyList k) (currentThread k) (threadToBeDestroyed k) (semaphores k) (cpu k) (idle k).
Definition set_ready (k : Kernel) l := mkKernel (threads k) l (currentThread k) (threadToBeDestroyed k) (semaphores k) (cpu k) (idle k).
Definition set_current (k : Kernel) t := mkKernel (threads k) (readyList k) t (threadToBeDestroyed k) (semaphores k) (cpu k) (idle k).
Definition set_doomed (k : Kernel) o := mkKernel (threads k) (readyList k) (currentThread k) o (semaphores k) (cpu k) (idle k).
Definition set_sems (k : Kernel) ss := mkKernel (threads k) (readyList k) (currentThread k) (threadToBeDestroyed k) ss (cpu k) (idle k).
Definition set_cpu (k : Kernel) m := mkKernel (threads k) (readyList k) (currentThread k) (threadToBeDestroyed k) (semaphores k) m (idle k).
Definition set_idle (k : Kernel) b := mkKernel (threads k) (readyList k) (currentThread k) (threadToBeDestroyed k) (semaphores k) (cpu k) b.

Definition with_status (th : Thread) st := mkThread st (at_ th) (stack th) (userRegisters th) (space th) (processID th) (exitStatus th).
Definition with_at (th : Thread) a := mkThread (t_status th) a (stack th) (userRegisters th) (space th) (processID th) (exitStatus th).
Definition with_regs (th : Thread) r := mkThread (t_status th) (at_ th) (stack th) r (space th) (processID th) (exitStatus th).
Definition with_stack (th : Thread) st := mkThread (t_status th) (at_ th) st (userRegisters th) (space th) (processID th) (exitStatus th).

Definition with_space (th : Thread) sp := mkThread (t_status th) (at_ th) (stack th) (userRegisters th) sp (processID th) (exitStatus th).

(** Changes the control block of a thread that exists. *)
Definition upd_thread (k : Kernel) (t : positive) (f : Thread -> Thread) : outcome Kernel :=
  th ← deref (threads k !! t);
  Ok (set_threads k (<[t := f th]> (threads k))).

(** [Thread::Thread]; [junk] is the uninitialised register array. *)
Definition Thread_new (junk : list Z) : Thread := mkThread JUST_CREATED Fresh None junk None 0 0.

(** [Semaphore::Semaphore] *)
Definition Semaphore_new (initialValue : Z) : Semaphore := mkSem initialValue [].

(** [Scheduler::ReadyToRun] *)
Definition Scheduler_ReadyToRun (k : Kernel) (t : positive) : outcome Kernel :=
  k ← upd_thread k t (fun th => with_status th READY);
  Ok (set_ready k (readyList k ++ [t])).

(** [Scheduler::FindNextToRun] *)
Definition Scheduler_FindNextToRun (k : Kernel) : option positive * Kernel :=
  match readyList k with
  | [] => (None, k)
  | t :: rest => (Some t, set_ready k rest)
  end.

(** [Thread::CheckOverflow] *)
Definition Thread_CheckOverflow (th : Thread) : outcome unit :=
  match stack th with
  | None => Ok tt
  | Some w => ASSERT (wrap_s32 w =? wrap_s32 STACK_FENCEPOST)
  end.

(** [Thread::SaveUserState] and [Thread::RestoreUserState] *)
Fixpoint read_registers (n : nat) (i : Z) (m : Machine) : outcome (list Z) :=
  match n with
  | O => Ok []
  | S n =>
      v ← Machine_ReadRegister m i;
      vs ← read_registers n (i + 1) m;
      Ok (v :: vs)
  end.
Definition Thread_SaveUserState (m : Machine) (th : Thread) : outcome Thread :=
  rs ← read_registers (Z.to_nat NumTotalRegs) 0 m;
  Ok (with_regs th rs).
Fixpoint write_registers (n : nat) (i : Z) (vs : list Z) (m : Machine) : outcome Machine :=
  match n with
  | O => Ok m
  | S n =>
      v ← deref (vs.[i]);
      m ← Machine_WriteRegister m i v;
      write_registers n (i + 1) vs m
  end.
Definition Thread_RestoreUserState (m : Machine) (th : Thread) : outcome Machine :=
  write_registers (Z.to_nat NumTotalRegs) 0 (userRegisters th) m.

(** [Scheduler::Run] up to and including [SWITCH] *)
Definition Scheduler_Run (k : Kernel) (nextThread : positive) : outcome Kernel :=
  old ← deref (threads k !! currentThread k);
  old ← (match space old with
         | Some sp =>
             old ← Thread_SaveUserState (cpu k) old;
             Ok old
         | None => Ok old
         end);
  let k := set_threads k (<[currentThread k := old]> (threads k)) in
  let k := match space old with Some sp => set_cpu k (AddrSpace_SaveState sp (cpu k)) | None => k end in
  _ ← Thread_CheckOverflow old;
  let k := set_idle (set_current k nextThread) false in
  upd_thread k nextThread (fun th => with_status th RUNNING).

(** [Thread::~Thread] on [threadToBeDestroyed] in [Scheduler::Run] *)
Definition destroy_doomed (k : Kernel) : outcome Kernel :=
  match threadToBeDestroyed k with
  | None => Ok k
  | Some t =>
      _ ← ASSERT (negb (bool_decide (t = currentThread k)));
      Ok (set_doomed (set_threads k (delete t (threads k))) None)
  end.

(** [Scheduler::Run] after [SWITCH] has returned to the current thread *)
Definition Scheduler_Run_after (k : Kernel) : outcome Kernel :=
  k ← destroy_doomed k;
  th ← deref (threads k !! currentThread k);
  match space th with
  | Some sp =>
      m ← Thread_RestoreUserState (cpu k) th;
      Ok (set_cpu k (AddrSpace_RestoreState sp m))
  | None => Ok k
  end.

(** The loop of [Thread::Sleep]: run the next thread, or stay idle. *)
Definition dispatch (k : Kernel) : outcome Kernel :=
  match Scheduler_FindNextToRun k with
  | (None, k) => Ok (set_idle k true)
  | (Some t, k) => Scheduler_Run k t
  end.

(** [Thread::Sleep], called by the current thread, which goes on at [a] *)
Definition Thread_Sleep (k : Kernel) (a : resume_point) : outcome Kernel :=
  k ← upd_thread k (currentThread k) (fun th => with_at (with_status th BLOCKED) a);
  dispatch k.

(** [Thread::Yield] by the current thread *)
Definition Thread_Yield (k : Kernel) : outcome Kernel :=
  match Scheduler_FindNextToRun k with
  | (None, k) => Ok k
  | (Some t, k) =>
      k ← Scheduler_ReadyToRun k (currentThread k);
      k ← upd_thread k (currentThread k) (fun th => with_at th InYield);
      Scheduler_Run k t
  end.

(** [Thread::StackAllocate] and [Thread::Fork] *)
Definition Thread_StackAllocate (th : Thread) : Thread := with_at (with_stack th (Some STACK_FENCEPOST)) Fresh.
Definition Thread_Fork (k : Kernel) (t : positive) : outcome Kernel :=
  k ← upd_thread k t Thread_StackAllocate;
  Scheduler_ReadyToRun k t.

(** [Thread::Finish] by the current thread *)
Definition Thread_Finish (k : Kernel) : outcome Kernel :=
  Thread_Sleep (set_doomed k (Some (currentThread k))) InFinish.

(** [Thread::FreeSpace]: the thread keeps its pointer to the address space it has deleted, and
    [Scheduler::Run] calls [SaveState] through it, which has an empty body and reads nothing. *)
Definition Thread_FreeSpace (th : Thread) : Thread :=
  match space th with
  | Some sp => mkThread (t_status th) (at_ th) (stack th) (userRegisters th) (Some (AddrSpace_delete sp)) (processID th) (exitStatus th)
  | None => th
  end.

(** The loop of [Semaphore::P], from the test on: the thread sleeps in the queue, or
    takes the value and goes on. *)
Definition P_loop (k : Kernel) (s : positive) : outcome Kernel :=
  sem ← deref (semaphores k !! s);
  if value sem =? 0 then
    let k := set_sems k (<[s := mkSem (value sem) (queue sem ++ [currentThread k])]> (semaphores k)) in
    Thread_Sleep k (InP s)
  else
    k ← upd_thread k (currentThread k) (fun th => with_at th InThread);
    Ok (set_sems k (<[s := mkSem (wrap_s32 (value sem - 1)) (queue sem)]> (semaphores k))).

(** [Semaphore::P] by the current thread *)
Definition Semaphore_P (k : Kernel) (s : positive) : outcome Kernel := P_loop k s.

(** [Semaphore::V] *)
Definition Semaphore_V (k : Kernel) (s : positive) : outcome Kernel :=
  sem ← deref (semaphores k !! s);
  k ← (match queue sem with [] => Ok k | t :: _ => Scheduler_ReadyToRun k t end);
  Ok (set_sems k (<[s := mkSem (wrap_s32 (value sem + 1)) (tail (queue sem))]> (semaphores k))).

(** What the current thread does when [SWITCH] returns to it. *)
Definition resume (k : Kernel) : outcome Kernel :=
  th ← deref (threads k !! currentThread k);
  match at_ th with
  | Fresh => upd_thread k (currentThread k) (fun th => with_at th InThread)
  | InThread => Ok k
  | InYield =>
      k ← Scheduler_Run_after k;
      upd_thread k (currentThread k) (fun th => with_at th InThread)
  | InP s => k ← Scheduler_Run_after k; P_loop k s
  | InFinish => AssertFail
  end.

(** The end of [StartProcess] (userprog/progtest.cc): the current thread gets its
    address space and the machine its initial state. *)
Definition StartProcess_enter (k : Kernel) (sp : AddrSpace) : outcome Kernel :=
  k ← upd_thread k (currentThread k) (fun th => with_space th (Some sp));
  m ← AddrSpace_InitRegisters sp (cpu k);
  Ok (set_cpu k (AddrSpace_RestoreState sp m)).

(** ** Steps *)

Definition current_at (k : Kernel) : option resume_point := at_ <$> threads k !! currentThread k.

(** The current thread executes its own code. *)
Definition in_thread (k : Kernel) : Prop := idle k = false /\ current_at k = Some InThread.

Inductive label := Tau | DidP (s : positive) | DidV (s : positive).
#[export] Instance label_eq_dec : EqDecision label.
Proof. solve_decision. Defined.

Definition P_label (k : Kernel) (s : positive) : label :=
  match semaphores k !! s with
  | Some sem => if value sem =? 0 then Tau else DidP s
  | None => Tau
  end.

Definition resume_label (k : Kernel) : label :=
  match current_at k with Some (InP s) => P_label k s | _ => Tau end.

Inductive step (k : Kernel) : label -> Kernel -> Prop :=
| step_P s k' : in_thread k -> Semaphore_P k s = Ok k' -> step k (P_label k s) k'
| step_V s sem k' :
    in_thread k \/ idle k = true -> semaphores k !! s = Some sem -> value sem < int32_max ->
    Semaphore_V k s = Ok k' -> step k (DidV s) k'
| step_Yield k' : in_thread k -> Thread_Yield k = Ok k' -> step k Tau k'
| step_new t junk :
    in_thread k -> threads k !! t = None -> lenZ junk = NumTotalRegs ->
    step k Tau (set_threads k (<[t := Thread_new junk]> (threads k)))
| step_new_sem s v :
    in_thread k -> semaphores k !! s = None -> 0 <= v <= int32_max ->
    step k Tau (set_sems k (<[s := Semaphore_new v]> (semaphores k)))
| step_Fork t th k' :
    in_thread k -> threads k !! t = Some th -> t_status th = JUST_CREATED ->
    Thread_Fork k t = Ok k' -> step k Tau k'
| step_Finish k' : in_thread k -> Thread_Finish k = Ok k' -> step k Tau k'
| step_dispatch k' : idle k = true -> readyList k <> [] -> dispatch k = Ok k' -> step k Tau k'
| step_resume k' :
    idle k = false -> current_at k <> Some InThread -> resume k = Ok k' ->
    step k (resume_label k) k'
| step_StartProcess sp k' : in_thread k -> StartProcess_enter k sp = Ok k' -> step k Tau k'
| step_user m' :
    in_thread k -> lenZ (registers m') = NumTotalRegs -> step k Tau (set_cpu k m').

Inductive steps : Kernel -> list label -> Kernel -> Prop :=
| steps_refl k : steps k [] k
| steps_cons k l k1 ls k2 : step k l k1 -> steps k1 ls k2 -> steps k (l :: ls) k2.

(** ** The invariant *)

(** A thread that has been taken off the queue of [s] and has not yet tested
    the value again. *)
Definition waking (s : positive) (th : Thread) : bool :=
  bool_decide (at_ th = InP s) && negb (bool_decide (t_status th = BLOCKED)).
Definition woken (ts : gmap positive Thread) (s : positive) : Z :=
  Z.of_nat (size (filter (fun p : positive * Thread => waking s p.2 = true) ts)).

Lemma waking_awake s th : t_status th <> BLOCKED -> waking s th = bool_decide (at_ th = InP s).
Proof. intros. unfold waking. rewrite (bool_decide_eq_false_2 (_ = BLOCKED)) by done. apply andb_true_r. Qed.

Lemma waking_blocked s th : t_status th = BLOCKED -> waking s th = false.
Proof. intros. unfold waking. rewrite (bool_decide_eq_true_2 (_ = BLOCKED)) by done. apply andb_false_r. Qed.

Lemma waking_elsewhere s th : at_ th <> InP s -> waking s th = false.
Proof. intros. unfold waking. by rewrite bool_decide_eq_false_2. Qed.

Lemma woken_fresh ts t th s :
  ts !! t = None -> woken (<[t := th]> ts) s = woken ts s + Z.b2z (waking s th).
Proof.
  intros Hn. unfold woken. destruct (waking s th) eqn:E; simpl.
  - rewrite map_filter_insert_True by done. rewrite map_size_insert_None; [lia|].
    apply map_lookup_filter_None. by left.
  - rewrite map_filter_insert_False by (simpl; congruence). rewrite delete_id by done. lia.
Qed.

Lemma woken_upd ts t th th' s :
  ts !! t = Some th -> woken (<[t := th']> ts) s = woken ts s - Z.b2z (waking s th) + Z.b2z (waking s th').
Proof.
  intros Ht. rewrite <- (insert_delete_id ts t th Ht) at 2. rewrite <- (insert_delete_eq ts t th').
  rewrite !woken_fresh by apply lookup_delete_eq. lia.
Qed.

Lemma woken_delete ts t th s :
  ts !! t = Some th -> woken (delete t ts) s = woken ts s - Z.b2z (waking s th).
Proof.
  intros Ht. rewrite <- (insert_delete_id ts t th Ht) at 2. rewrite woken_fresh by apply lookup_delete_eq. lia.
Qed.

Lemma woken_nonneg ts s : 0 <= woken ts s.
Proof. unfold woken. lia. Qed.

(** A thread that can be put on the ready list. *)
Definition can_run (ts : gmap positive Thread) (t : positive) : Prop :=
  exists th, ts !! t = Some th /\ t_status th = READY /\ at_ th <> InFinish /\ at_ th <> InThread.

(** [runner] is the thread that executes, [taken] one that has left the ready
    list to be run next. *)
Record kinv (ts : gmap positive Thread) (rl : list positive) (ss : gmap positive Semaphore)
    (runner taken doomed : option positive) : Prop := {
  ki_runner : forall t, runner = Some t ->
    exists th, ts !! t = Some th /\ t_status th = RUNNING /\ at_ th <> InFinish;
  ki_taken : forall t, taken = Some t -> t ∉ rl /\ can_run ts t;
  ki_nodup : NoDup rl;
  ki_ready : forall t, t ∈ rl -> can_run ts t;
  ki_value : forall s sem, ss !! s = Some sem -> 0 <= value sem <= int32_max;
  ki_queue : forall s sem, ss !! s = Some sem -> NoDup (queue sem) /\
    forall t, t ∈ queue sem -> exists th, ts !! t = Some th /\ t_status th = BLOCKED /\ at_ th = InP s;
  ki_place : forall t th, ts !! t = Some th ->
    match t_status th with
    | RUNNING => runner = Some t
    | READY => t ∈ rl \/ taken = Some t
    | BLOCKED => at_ th = InFinish \/ exists s sem, at_ th = InP s /\ ss !! s = Some sem /\ t ∈ queue sem
    | JUST_CREATED => at_ th = Fresh
    end;
  ki_doomed : forall t, doomed = Some t ->
    exists th, ts !! t = Some th /\ t_status th = BLOCKED /\ at_ th = InFinish;
  ki_thread : forall t th, ts !! t = Some th ->
    lenZ (userRegisters th) = NumTotalRegs /\ (stack th = None \/ stack th = Some STACK_FENCEPOST);
  ki_sem : forall t th s, ts !! t = Some th -> at_ th = InP s -> is_Some (ss !! s);
  ki_wakeup : forall s sem, ss !! s = Some sem -> queue sem <> [] -> value sem <= woken ts s }.

(** Each thread is in exactly one place: running, on the ready list, on the queue
    of one semaphore, finished or not yet forked. *)
Record kernel_wf (k : Kernel) : Prop := {
  kw_inv : kinv (threads k) (readyList k) (semaphores k)
             (if idle k then None else Some (currentThread k)) None (threadToBeDestroyed k);
  kw_current : exists th, threads k !! currentThread k = Some th /\
                 (idle k = true -> at_ th <> InThread);
  kw_cpu : lenZ (registers (cpu k)) = NumTotalRegs }.

(** Rewrites lookups in the updated thread table. *)
Ltac lk t t' := destruct (decide (t' = t)) as [->|?];
  [rewrite ?lookup_insert_eq in * | rewrite ?lookup_insert_ne in * by done].

Section KinvSteps.
Context (ts : gmap positive Thread) (rl : list positive) (ss : gmap positive Semaphore).

(** A change of a control block that keeps status and position. *)
Lemma kinv_same runner taken doomed t th th' :
  kinv ts rl ss runner taken doomed -> ts !! t = Some th ->
  t_status th' = t_status th -> at_ th' = at_ th -> stack th' = stack th ->
  lenZ (userRegisters th') = NumTotalRegs ->
  kinv (<[t := th']> ts) rl ss runner taken doomed.
Proof.
  intros [H1 H2 H3 H4 H5 H6 H7 H8 H9 H10 H11] Ht Hs Ha Hk Hr.
  assert (HL : forall u thu, ts !! u = Some thu -> exists thu', <[t := th']> ts !! u = Some thu' /\
            t_status thu' = t_status thu /\ at_ thu' = at_ thu).
  { intros u thu Hu. lk t u; [simplify_eq|]; eauto. }
  assert (HC : forall u, can_run ts u -> can_run (<[t := th']> ts) u).
  { intros u (thu & Hu & E1 & E2 & E3). destruct (HL _ _ Hu) as (thu' & ? & ? & ?). exists thu'. conjs; congruence. }
  split; try done.
  - intros u Hu. destruct (H1 u Hu) as (thu & E & ? & ?). destruct (HL _ _ E) as (thu' & ? & ? & ?).
    exists thu'. conjs; congruence.
  - intros u Hu. destruct (H2 u Hu). auto.
  - auto.
  - intros s sem Hsem. destruct (H6 s sem Hsem) as [? Hq]. split; [done|]. intros u Hu.
    destruct (Hq u Hu) as (thu & E & ? & ?). destruct (HL _ _ E) as (thu' & ? & ? & ?). exists thu'. conjs; congruence.
  - intros u thu Hu. lk t u; [simplify_eq; rewrite Hs, Ha; by apply H7|by apply H7].
  - intros u Hu. destruct (H8 u Hu) as (thu & E & ? & ?). destruct (HL _ _ E) as (thu' & ? & ? & ?).
    exists thu'. conjs; congruence.
  - intros u thu Hu. lk t u; [simplify_eq; rewrite Hk; split; [done|apply (H9 _ _ Ht)]|exact (H9 _ _ Hu)].
  - intros u thu s Hu. lk t u; [simplify_eq; rewrite Ha; exact (H10 _ _ _ Ht)|exact (H10 _ _ _ Hu)].
  - intros s sem Hsem Hq. rewrite (woken_upd _ _ _ _ _ Ht). specialize (H11 s sem Hsem Hq).
    unfold waking in *. rewrite Hs, Ha. lia.
Qed.

(** [FindNextToRun] *)
Lemma kinv_take runner doomed t :
  kinv ts (t :: rl) ss runner None doomed -> kinv ts rl ss runner (Some t) doomed.
Proof.
  intros [H1 H2 H3 H4 H5 H6 H7 H8 H9 H10 H11]. apply NoDup_cons in H3 as [Hn Hnd]. split; try done.
  - intros u [= <-]. split; [done|]. apply H4. set_solver.
  - intros u Hu. apply H4. set_solver.
  - intros u thu Hu. specialize (H7 u thu Hu). destruct (t_status thu); try done.
    destruct H7 as [Hin|]; [|done]. apply elem_of_cons in Hin as [-> | ?]; auto.
Qed.

(** The chosen thread becomes the running one. *)
Lemma kinv_run doomed t th :
  kinv ts rl ss None (Some t) doomed -> ts !! t = Some th ->
  kinv (<[t := with_status th RUNNING]> ts) rl ss (Some t) None doomed.
Proof.
  intros [H1 H2 H3 H4 H5 H6 H7 H8 H9 H10 H11] Ht.
  destruct (H2 t eq_refl) as [Hnin (th0 & Ht0 & Hst & Hnf & Hni)].
  assert (th0 = th) as -> by congruence. split; try done.
  - intros u [= <-]. exists (with_status th RUNNING). rewrite lookup_insert_eq. done.
  - intros u Hu. destruct (H4 u Hu) as (thu & E & ?). exists thu. lk t u; [done|]. done.
  - intros s sem Hsem. destruct (H6 s sem Hsem) as [? Hq]. split; [done|]. intros u Hu.
    destruct (Hq u Hu) as (thu & E & ? & ?). exists thu. lk t u; [congruence|done].
  - intros u thu Hu. lk t u; [by simplify_eq|]. specialize (H7 u thu Hu).
    destruct (t_status thu); try done. destruct H7 as [?|[= ?]]; [by left|congruence].
  - intros u Hu. destruct (H8 u Hu) as (thu & E & ? & ?). exists thu. lk t u; [congruence|done].
  - intros u thu Hu. lk t u; [simplify_eq; apply (H9 _ _ Ht)|exact (H9 _ _ Hu)].
  - intros u thu s Hu. lk t u; [simplify_eq; apply (H10 _ _ _ Ht)|exact (H10 _ _ _ Hu)].
  - intros s sem Hsem Hq. rewrite (woken_upd _ _ _ _ _ Ht). specialize (H11 s sem Hsem Hq).
    rewrite !waking_awake by (simpl; congruence). simpl. lia.
Qed.

(** The running thread goes to the end of the ready list. *)
Lemma kinv_yield taken doomed t th :
  kinv ts rl ss (Some t) taken doomed -> ts !! t = Some th -> at_ th = InThread -> taken <> Some t ->
  kinv (<[t := with_at (with_status th READY) InYield]> ts) (rl ++ [t]) ss None taken doomed.
Proof.
  intros [H1 H2 H3 H4 H5 H6 H7 H8 H9 H10 H11] Ht Ha Htk.
  destruct (H1 t eq_refl) as (th0 & Ht0 & Hst & _). assert (th0 = th) as -> by congruence.
  assert (Hnin : t ∉ rl). { intros Hin. destruct (H4 t Hin) as (? & ? & ? & _). congruence. }
  split; try done.
  - intros u Hu. destruct (H2 u Hu) as [? (thu & E & ?)]. assert (u <> t) by congruence.
    split; [set_solver|]. exists thu. by rewrite lookup_insert_ne.
  - apply NoDup_app. conjs; [done|set_solver|apply NoDup_singleton].
  - intros u Hu. destruct (decide (u = t)) as [->|Hne].
    + eexists. rewrite lookup_insert_eq. done.
    + destruct (H4 u ltac:(set_solver)) as (thu & E & ?). exists thu. by rewrite lookup_insert_ne.
  - intros s sem Hsem. destruct (H6 s sem Hsem) as [? Hq]. split; [done|]. intros u Hu.
    destruct (Hq u Hu) as (thu & E & ? & ?). exists thu. lk t u; [congruence|done].
  - intros u thu Hu. lk t u; [simplify_eq; simpl; set_solver|]. specialize (H7 u thu Hu).
    destruct (t_status thu); try done; [congruence|set_solver].
  - intros u Hu. destruct (H8 u Hu) as (thu & E & ? & ?). exists thu. lk t u; [congruence|done].
  - intros u thu Hu. lk t u; [simplify_eq; apply (H9 _ _ Ht)|exact (H9 _ _ Hu)].
  - intros u thu s Hu. lk t u; [by simplify_eq|exact (H10 _ _ _ Hu)].
  - intros s sem Hsem Hq. rewrite (woken_upd _ _ _ _ _ Ht). specialize (H11 s sem Hsem Hq).
    rewrite !waking_elsewhere by (simpl; congruence). simpl. lia.
Qed.

(** The running thread blocks on a semaphore whose value is zero. *)
Lemma kinv_block doomed t th s sem :
  kinv ts rl ss (Some t) None doomed -> ts !! t = Some th -> ss !! s = Some sem -> value sem = 0 ->
  (at_ th = InThread \/ at_ th = InP s) ->
  kinv (<[t := with_at (with_status th BLOCKED) (InP s)]> ts) rl
    (<[s := mkSem (value sem) (queue sem ++ [t])]> ss) None None doomed.
Proof.
  intros [H1 H2 H3 H4 H5 H6 H7 H8 H9 H10 H11] Ht Hs Hv Hat.
  destruct (H1 t eq_refl) as (th0 & Ht0 & Hst & Hnf). assert (th0 = th) as -> by congruence.
  assert (Hnq : forall s' sem', ss !! s' = Some sem' -> t ∉ queue sem').
  { intros s' sem' Hs' Hin. destruct (H6 _ _ Hs') as [_ Hq]. destruct (Hq t Hin) as (? & ? & ? & _). congruence. }
  split; try done.
  - intros u Hu. destruct (H4 u Hu) as (thu & E & Hst' & ?). exists thu. lk t u; [congruence|done].
  - intros s' sem' Hs'. lk s s'; [specialize (H5 _ _ Hs); simplify_eq; simpl; lia|by eapply H5].
  - intros s' sem' Hs'. lk s s'.
    + simplify_eq. simpl. destruct (H6 _ _ Hs) as [Hnd Hq]. split.
      * apply NoDup_app. conjs; [done| |apply NoDup_singleton]. intros u Hu ->%list_elem_of_singleton.
        by apply (Hnq s sem).
      * intros u [Hu|Hu%list_elem_of_singleton]%elem_of_app; [|subst u; eexists; by rewrite lookup_insert_eq].
        destruct (Hq u Hu) as (thu & E & ? & ?). exists thu. lk t u; [congruence|done].
    + destruct (H6 _ _ Hs') as [Hnd Hq]. split; [done|]. intros u Hu.
      destruct (Hq u Hu) as (thu & E & ? & ?). exists thu. lk t u; [congruence|done].
  - intros u thu Hu. lk t u.
    + simplify_eq. simpl. right. exists s. eexists. rewrite lookup_insert_eq. conjs; [done..|]. simpl. set_solver.
    + specialize (H7 u thu Hu). destruct (t_status thu); try done; [congruence|].
      destruct H7 as [?|(s' & sem' & ? & Hs' & ?)]; [by left|right]. lk s s'.
      * exists s. eexists. rewrite lookup_insert_eq. conjs; [done..|]. simplify_eq. simpl. set_solver.
      * exists s', sem'. by rewrite lookup_insert_ne.
  - intros u Hu. destruct (H8 u Hu) as (thu & E & ? & ?). exists thu. lk t u; [congruence|done].
  - intros u thu Hu. lk t u; [simplify_eq; apply (H9 _ _ Ht)|exact (H9 _ _ Hu)].
  - intros u thu s' Hu Ha. destruct (decide (s' = s)) as [->|]; [rewrite lookup_insert_eq; eauto|].
    rewrite lookup_insert_ne by done. lk t u; [simplify_eq; simpl in *; congruence|by eapply H10].
  - intros s' sem' Hs' Hq. lk s s'.
    + simplify_eq. simpl. rewrite Hv. apply woken_nonneg.
    + rewrite (woken_upd _ _ _ _ _ Ht). specialize (H11 s' sem' Hs' Hq).
      rewrite !waking_elsewhere by (simpl; destruct Hat; congruence). simpl. lia.
Qed.

(** The running thread gets through [P]. *)
Lemma kinv_P doomed t th s sem v :
  kinv ts rl ss (Some t) None doomed -> ts !! t = Some th -> ss !! s = Some sem ->
  (at_ th = InThread \/ at_ th = InP s) -> 0 < value sem -> v = value sem - 1 ->
  kinv (<[t := with_at th InThread]> ts) rl (<[s := mkSem v (queue sem)]> ss) (Some t) None doomed.
Proof.
  intros [H1 H2 H3 H4 H5 H6 H7 H8 H9 H10 H11] Ht Hs Hat Hv ->.
  destruct (H1 t eq_refl) as (th0 & Ht0 & Hst & Hnf). assert (th0 = th) as -> by congruence.
  split; try done.
  - intros u [= <-]. eexists. by rewrite lookup_insert_eq.
  - intros u Hu. destruct (H4 u Hu) as (thu & E & Hst' & ?). exists thu. lk t u; [congruence|done].
  - intros s' sem' Hs'. lk s s'; [specialize (H5 _ _ Hs); simplify_eq; simpl; lia|by eapply H5].
  - intros s' sem' Hs'. assert (exists sem0, ss !! s' = Some sem0 /\ queue sem0 = queue sem') as (sem0 & E & <-).
    { lk s s'; [|eauto]. simplify_eq. eauto. }
    destruct (H6 _ _ E) as [Hnd Hq]. split; [done|]. intros u Hu.
    destruct (Hq u Hu) as (thu & E' & ? & ?). exists thu. lk t u; [congruence|done].
  - intros u thu Hu. lk t u; [simplify_eq; simpl; by rewrite Hst|]. specialize (H7 u thu Hu).
    destruct (t_status thu); try done. destruct H7 as [?|(s' & sem' & ? & Hs' & ?)]; [by left|right]. lk s s'.
    + exists s. eexists. rewrite lookup_insert_eq. conjs; [done..|]. simplify_eq. done.
    + exists s', sem'. by rewrite lookup_insert_ne.
  - intros u Hu. destruct (H8 u Hu) as (thu & E & ? & ?). exists thu. lk t u; [congruence|done].
  - intros u thu Hu. lk t u; [simplify_eq; apply (H9 _ _ Ht)|exact (H9 _ _ Hu)].
  - intros u thu s' Hu Ha. destruct (decide (s' = s)) as [->|]; [rewrite lookup_insert_eq; eauto|].
    rewrite lookup_insert_ne by done. lk t u; [by simplify_eq|by eapply H10].
  - intros s' sem' Hs' Hq. rewrite (woken_upd _ _ _ _ _ Ht).
    rewrite (waking_elsewhere s' (with_at th InThread)) by done. lk s s'.
    + simplify_eq. simpl in *. specialize (H11 s sem Hs Hq). destruct (waking s th); simpl; lia.
    + specialize (H11 s' sem' Hs' Hq). rewrite waking_elsewhere by (destruct Hat; congruence). simpl. lia.
Qed.

(** The running thread leaves [Yield] or [ThreadRoot] for its own code. *)
Lemma kinv_enter taken doomed t th :
  kinv ts rl ss (Some t) taken doomed -> ts !! t = Some th -> at_ th = Fresh \/ at_ th = InYield ->
  kinv (<[t := with_at th InThread]> ts) rl ss (Some t) taken doomed.
Proof.
  intros [H1 H2 H3 H4 H5 H6 H7 H8 H9 H10 H11] Ht Hat.
  destruct (H1 t eq_refl) as (th0 & Ht0 & Hst & Hnf). assert (th0 = th) as -> by congruence.
  assert (HC : forall u, can_run ts u -> can_run (<[t := with_at th InThread]> ts) u).
  { intros u (thu & E & Hst' & ?). exists thu. lk t u; [congruence|done]. }
  split; try done.
  - intros u [= <-]. eexists. by rewrite lookup_insert_eq.
  - intros u Hu. destruct (H2 u Hu). auto.
  - auto.
  - intros s sem Hs. destruct (H6 _ _ Hs) as [Hnd Hq]. split; [done|]. intros u Hu.
    destruct (Hq u Hu) as (thu & E' & ? & ?). exists thu. lk t u; [congruence|done].
  - intros u thu Hu. lk t u; [simplify_eq; simpl; by rewrite Hst|exact (H7 _ _ Hu)].
  - intros u Hu. destruct (H8 u Hu) as (thu & E & ? & ?). exists thu. lk t u; [congruence|done].
  - intros u thu Hu. lk t u; [simplify_eq; apply (H9 _ _ Ht)|exact (H9 _ _ Hu)].
  - intros u thu s Hu Ha. lk t u; [by simplify_eq|by eapply H10].
  - intros s sem Hs Hq. rewrite (woken_upd _ _ _ _ _ Ht). specialize (H11 s sem Hs Hq).
    rewrite !waking_elsewhere by (simpl; destruct Hat; congruence). simpl. lia.
Qed.

(** [V] wakes the first waiting thread. *)
Lemma kinv_wake runner doomed t th rest s sem v :
  kinv ts rl ss runner None doomed -> ts !! t = Some th -> ss !! s = Some sem ->
  queue sem = t :: rest -> value sem < int32_max -> v = value sem + 1 ->
  kinv (<[t := with_status th READY]> ts) (rl ++ [t]) (<[s := mkSem v rest]> ss) runner None doomed.
Proof.
  intros [H1 H2 H3 H4 H5 H6 H7 H8 H9 H10 H11] Ht Hs Hqs Hmax ->.
  destruct (H6 _ _ Hs) as [Hnds Hqin]. rewrite Hqs in Hnds. apply NoDup_cons in Hnds as [Htr Hnds].
  destruct (Hqin t ltac:(rewrite Hqs; set_solver)) as (th0 & Ht0 & Hst & Ha). assert (th0 = th) as -> by congruence.
  assert (Hnin : t ∉ rl). { intros Hin. destruct (H4 t Hin) as (? & ? & ? & _). congruence. }
  split; try done.
  - intros u Hu. destruct (H1 u Hu) as (thu & E & ? & ?). exists thu. lk t u; [congruence|done].
  - apply NoDup_app. conjs; [done|set_solver|apply NoDup_singleton].
  - intros u Hu. destruct (decide (u = t)) as [->|Hne].
    + exists (with_status th READY). rewrite lookup_insert_eq. simpl. rewrite Ha. done.
    + destruct (H4 u ltac:(set_solver)) as (thu & E & ?). exists thu. by rewrite lookup_insert_ne.
  - intros s' sem' Hs'. lk s s'; [simplify_eq; simpl; specialize (H5 _ _ Hs); lia|by eapply H5].
  - intros s' sem' Hs'. lk s s'.
    + simplify_eq. simpl. split; [done|]. intros u Hu. destruct (Hqin u ltac:(rewrite Hqs; set_solver)) as (thu & E & ? & ?).
      exists thu. rewrite lookup_insert_ne; [done|]. set_solver.
    + destruct (H6 _ _ Hs') as [Hnd Hq]. split; [done|]. intros u Hu.
      destruct (Hq u Hu) as (thu & E & ? & ?). exists thu. lk t u; [congruence|done].
  - intros u thu Hu. lk t u; [simplify_eq; simpl; set_solver|]. specialize (H7 u thu Hu).
    destruct (t_status thu); try done; [set_solver|].
    destruct H7 as [?|(s' & sem' & ? & Hs' & ?)]; [by left|right]. lk s s'.
    + exists s. eexists. rewrite lookup_insert_eq. conjs; [done..|]. simplify_eq. simpl. rewrite Hqs in *. set_solver.
    + exists s', sem'. by rewrite lookup_insert_ne.
  - intros u Hu. destruct (H8 u Hu) as (thu & E & ? & ?). exists thu. lk t u; [congruence|done].
  - intros u thu Hu. lk t u; [simplify_eq; apply (H9 _ _ Ht)|exact (H9 _ _ Hu)].
  - intros u thu s' Hu Ha'. destruct (decide (s' = s)) as [->|]; [rewrite lookup_insert_eq; eauto|].
    rewrite lookup_insert_ne by done. lk t u; [simplify_eq; simpl in *; congruence|by eapply H10].
  - intros s' sem' Hs' Hq. rewrite (woken_upd _ _ _ _ _ Ht), (waking_blocked _ th) by done.
    rewrite waking_awake by done. simpl. lk s s'.
    + simplify_eq. simpl in *. rewrite bool_decide_eq_true_2 by done. specialize (H11 s sem Hs). rewrite Hqs in H11.
      specialize (H11 ltac:(done)). simpl. lia.
    + specialize (H11 s' sem' Hs' Hq). destruct (bool_decide _); simpl; lia.
Qed.

(** [V] without waiters. *)
Lemma kinv_V_empty runner doomed s sem v :
  kinv ts rl ss runner None doomed -> ss !! s = Some sem -> queue sem = [] -> value sem < int32_max -> v = value sem + 1 ->
  kinv ts rl (<[s := mkSem v []]> ss) runner None doomed.
Proof.
  intros [H1 H2 H3 H4 H5 H6 H7 H8 H9 H10 H11] Hs Hqs Hmax ->. split; try done.
  - intros s' sem' Hs'. lk s s'; [simplify_eq; simpl; specialize (H5 _ _ Hs); lia|by eapply H5].
  - intros s' sem' Hs'. lk s s'; [simplify_eq; simpl; split; [constructor|set_solver]|by eapply H6].
  - intros u thu Hu. specialize (H7 u thu Hu). destruct (t_status thu); try done.
    destruct H7 as [?|(s' & sem' & ? & Hs' & ?)]; [by left|right]. lk s s'.
    + simplify_eq. rewrite Hqs in *. set_solver.
    + exists s', sem'. by rewrite lookup_insert_ne.
  - intros u thu s' Hu Ha. destruct (decide (s' = s)) as [->|]; [rewrite lookup_insert_eq; eauto|].
    rewrite lookup_insert_ne by done. by eapply H10.
  - intros s' sem' Hs' Hq. lk s s'; [by simplify_eq|by eapply H11].
Qed.

(** [Finish] blocks the running thread for ever. *)
Lemma kinv_finish doomed t th :
  kinv ts rl ss (Some t) None doomed -> ts !! t = Some th -> at_ th = InThread ->
  kinv (<[t := with_at (with_status th BLOCKED) InFinish]> ts) rl ss None None (Some t).
Proof.
  intros [H1 H2 H3 H4 H5 H6 H7 H8 H9 H10 H11] Ht Ha.
  destruct (H1 t eq_refl) as (th0 & Ht0 & Hst & Hnf). assert (th0 = th) as -> by congruence.
  split; try done.
  - intros u Hu. destruct (H4 u Hu) as (thu & E & Hst' & ?). exists thu. lk t u; [congruence|done].
  - intros s sem Hs. destruct (H6 _ _ Hs) as [Hnd Hq]. split; [done|]. intros u Hu.
    destruct (Hq u Hu) as (thu & E' & ? & ?). exists thu. lk t u; [congruence|done].
  - intros u thu Hu. lk t u; [simplify_eq; by left|]. specialize (H7 u thu Hu).
    destruct (t_status thu); try done. congruence.
  - intros u [= <-]. eexists. by rewrite lookup_insert_eq.
  - intros u thu Hu. lk t u; [simplify_eq; apply (H9 _ _ Ht)|exact (H9 _ _ Hu)].
  - intros u thu s Hu Ha'. lk t u; [by simplify_eq|by eapply H10].
  - intros s sem Hs Hq. rewrite (woken_upd _ _ _ _ _ Ht). specialize (H11 s sem Hs Hq).
    rewrite !waking_elsewhere by (simpl; congruence). simpl. lia.
Qed.

(** [Fork] of a new thread. *)
Lemma kinv_fork runner doomed t th :
  kinv ts rl ss runner None doomed -> ts !! t = Some th -> t_status th = JUST_CREATED ->
  kinv (<[t := with_status (Thread_StackAllocate th) READY]> ts) (rl ++ [t]) ss runner None doomed.
Proof.
  intros [H1 H2 H3 H4 H5 H6 H7 H8 H9 H10 H11] Ht Hst.
  assert (Hnin : t ∉ rl). { intros Hin. destruct (H4 t Hin) as (? & ? & ? & _). congruence. }
  pose proof (H7 _ _ Ht) as Hfresh. rewrite Hst in Hfresh.
  split; try done.
  - intros u Hu. destruct (H1 u Hu) as (thu & E & ? & ?). exists thu. lk t u; [congruence|done].
  - apply NoDup_app. conjs; [done|set_solver|apply NoDup_singleton].
  - intros u Hu. destruct (decide (u = t)) as [->|Hne].
    + eexists. by rewrite lookup_insert_eq.
    + destruct (H4 u ltac:(set_solver)) as (thu & E & ?). exists thu. by rewrite lookup_insert_ne.
  - intros s sem Hs. destruct (H6 _ _ Hs) as [Hnd Hq]. split; [done|]. intros u Hu.
    destruct (Hq u Hu) as (thu & E' & ? & ?). exists thu. lk t u; [congruence|done].
  - intros u thu Hu. lk t u; [simplify_eq; simpl; set_solver|]. specialize (H7 u thu Hu).
    destruct (t_status thu); try done. set_solver.
  - intros u Hu. destruct (H8 u Hu) as (thu & E & ? & ?). exists thu. lk t u; [congruence|done].
  - intros u thu Hu. lk t u; [simplify_eq; simpl; split; [apply (H9 _ _ Ht)|by right]|exact (H9 _ _ Hu)].
  - intros u thu s Hu Ha. lk t u; [by simplify_eq|by eapply H10].
  - intros s sem Hs Hq. rewrite (woken_upd _ _ _ _ _ Ht). specialize (H11 s sem Hs Hq).
    rewrite !waking_elsewhere by (simpl; congruence). simpl. lia.
Qed.

Lemma kinv_new runner taken doomed t junk :
  kinv ts rl ss runner taken doomed -> ts !! t = None -> lenZ junk = NumTotalRegs ->
  kinv (<[t := Thread_new junk]> ts) rl ss runner taken doomed.
Proof.
  intros [H1 H2 H3 H4 H5 H6 H7 H8 H9 H10 H11] Ht Hj.
  assert (HL : forall u thu, ts !! u = Some thu -> <[t := Thread_new junk]> ts !! u = Some thu).
  { intros u thu Hu. rewrite lookup_insert_ne; [done|congruence]. }
  assert (HC : forall u, can_run ts u -> can_run (<[t := Thread_new junk]> ts) u).
  { intros u (thu & E & ?). exists thu. auto. }
  split; try done.
  - intros u Hu. destruct (H1 u Hu) as (thu & E & ?). eauto.
  - intros u Hu. destruct (H2 u Hu). auto.
  - auto.
  - intros s sem Hs. destruct (H6 _ _ Hs) as [Hnd Hq]. split; [done|]. intros u Hu.
    destruct (Hq u Hu) as (thu & E' & ?). eauto.
  - intros u thu Hu. lk t u; [by simplify_eq|exact (H7 _ _ Hu)].
  - intros u Hu. destruct (H8 u Hu) as (thu & E & ?). eauto.
  - intros u thu Hu. lk t u; [simplify_eq; simpl; auto|exact (H9 _ _ Hu)].
  - intros u thu s Hu Ha. lk t u; [by simplify_eq|by eapply H10].
  - intros s sem Hs Hq. rewrite woken_fresh by done. specialize (H11 s sem Hs Hq).
    rewrite waking_elsewhere by done. simpl. lia.
Qed.

Lemma kinv_new_sem runner taken doomed s v :
  kinv ts rl ss runner taken doomed -> ss !! s = None -> 0 <= v <= int32_max ->
  kinv ts rl (<[s := Semaphore_new v]> ss) runner taken doomed.
Proof.
  intros [H1 H2 H3 H4 H5 H6 H7 H8 H9 H10 H11] Hs Hv. split; try done.
  - intros s' sem' Hs'. lk s s'; [by simplify_eq|by eapply H5].
  - intros s' sem' Hs'. lk s s'; [simplify_eq; simpl; split; [constructor|set_solver]|by eapply H6].
  - intros u thu Hu. specialize (H7 u thu Hu). destruct (t_status thu); try done.
    destruct H7 as [?|(s' & sem' & ? & Hs' & ?)]; [by left|right]. exists s', sem'.
    rewrite lookup_insert_ne; [done|congruence].
  - intros u thu s' Hu Ha. destruct (decide (s' = s)) as [->|]; [rewrite lookup_insert_eq; eauto|].
    rewrite lookup_insert_ne by done. by eapply H10.
  - intros s' sem' Hs' Hq. lk s s'; [by simplify_eq|by eapply H11].
Qed.

(** The finished thread is deleted. *)
Lemma kinv_destroy runner taken t :
  kinv ts rl ss runner taken (Some t) -> kinv (delete t ts) rl ss runner taken None.
Proof.
  intros [H1 H2 H3 H4 H5 H6 H7 H8 H9 H10 H11]. destruct (H8 t eq_refl) as (th & Ht & Hst & Ha).
  assert (HL : forall u thu, ts !! u = Some thu -> t_status thu <> BLOCKED \/ at_ thu <> InFinish -> delete t ts !! u = Some thu).
  { intros u thu Hu Hne. rewrite lookup_delete_ne; [done|]. intros <-. destruct Hne; congruence. }
  assert (HC : forall u, can_run ts u -> can_run (delete t ts) u).
  { intros u (thu & E & Hs & Hf & ?). exists thu. split; [|done]. apply HL; auto. }
  assert (HD : forall u thu, delete t ts !! u = Some thu -> ts !! u = Some thu).
  { intros u thu Hu. by apply lookup_delete_Some in Hu as [_ ?]. }
  split; try done.
  - intros u Hu. destruct (H1 u Hu) as (thu & E & ? & ?). exists thu. split; [|done]. apply HL; auto.
  - intros u Hu. destruct (H2 u Hu). auto.
  - auto.
  - intros s sem Hs. destruct (H6 _ _ Hs) as [Hnd Hq]. split; [done|]. intros u Hu.
    destruct (Hq u Hu) as (thu & E' & ? & Hat). exists thu. split; [|done]. apply HL; [done|]. right. by rewrite Hat.
  - intros u thu Hu. exact (H7 _ _ (HD _ _ Hu)).
  - intros u thu Hu. exact (H9 _ _ (HD _ _ Hu)).
  - intros u thu s Hu. exact (H10 _ _ _ (HD _ _ Hu)).
  - intros s sem Hs Hq. rewrite (woken_delete _ _ _ _ Ht), waking_blocked by done. specialize (H11 s sem Hs Hq). simpl. lia.
Qed.

End KinvSteps.

(** *** Saving and restoring the user registers *)

Lemma read_registers_spec n i m :
  lenZ (registers m) = NumTotalRegs -> 0 <= i -> i + Z.of_nat n <= NumTotalRegs ->
  exists rs, read_registers n i m = Ok rs /\ lenZ rs = Z.of_nat n /\
    forall j, 0 <= j < Z.of_nat n -> rs.[j] = (registers m).[i + j].
Proof.
  intros Hl. revert i. induction n as [|n IH]; intros i Hi Hn; cbn [read_registers].
  - exists []. conjs; [done..|]. lia.
  - unfold Machine_ReadRegister. unfold NumTotalRegs in *.
    rewrite (proj2 (Z.leb_le 0 i)), (proj2 (Z.ltb_lt i 40)) by lia. simpl.
    destruct (lookupZ_range (registers m) i) as [v Hv]; [lia|]. rewrite Hv. simpl.
    destruct (IH (i + 1)) as (rs & -> & Hlr & Hr); [lia..|]. simpl. exists (v :: rs).
    conjs; [done|unfold lenZ in *; cbn [length]; lia|]. intros j Hj. rewrite lookupZ_cons.
    destruct (Z.eqb_spec j 0) as [->|]; [by rewrite Z.add_0_r|].
    rewrite (proj2 (Z.ltb_ge j 0)), Hr by lia. f_equal. lia.
Qed.

Lemma SaveUserState_spec m th :
  lenZ (registers m) = NumTotalRegs -> Thread_SaveUserState m th = Ok (with_regs th (registers m)).
Proof.
  intros Hl. unfold Thread_SaveUserState.
  destruct (read_registers_spec (Z.to_nat NumTotalRegs) 0 m Hl) as (rs & -> & Hlr & Hr); [done..|]. simpl. do 2 f_equal.
  apply lookupZ_ext; [by rewrite Hl, Hlr|]. intros j Hj. rewrite Hr by lia. f_equal.
Qed.

Lemma write_registers_spec n i vs m :
  lenZ (registers m) = NumTotalRegs -> lenZ vs = NumTotalRegs -> 0 <= i -> i + Z.of_nat n = NumTotalRegs ->
  exists rs, write_registers n i vs m = Ok (set_registers m rs) /\ lenZ rs = NumTotalRegs /\
    forall j, rs.[j] = if i <=? j then vs.[j] else (registers m).[j].
Proof.
  intros Hl Hv. revert i m Hl. induction n as [|n IH]; intros i m Hl Hi Hn; cbn [write_registers].
  - exists (registers m). conjs; [by destruct m|done|]. intros j. destruct (Z.leb_spec i j); [|done].
    rewrite !lookupZ_None by lia. done.
  - destruct (lookupZ_range vs i) as [v Ev]; [lia|]. rewrite Ev. simpl. unfold Machine_WriteRegister.
    rewrite (proj2 (Z.leb_le 0 i)), (proj2 (Z.ltb_lt i NumTotalRegs)) by lia. simpl.
    destruct (IH (i + 1) (set_reg m i v)) as (rs & -> & Hlr & Hr); [by rewrite lenZ_set_reg|lia..|].
    exists rs. conjs; [done..|]. intros j. rewrite Hr. simpl.
    destruct (Z.leb_spec (i + 1) j), (Z.leb_spec i j); try lia; try done.
    + assert (j = i) as -> by lia. rewrite lookupZ_insertZ_eq; [done|lia].
    + by rewrite lookupZ_insertZ_ne by lia.
Qed.

Lemma RestoreUserState_spec m th :
  lenZ (registers m) = NumTotalRegs -> lenZ (userRegisters th) = NumTotalRegs ->
  Thread_RestoreUserState m th = Ok (set_registers m (userRegisters th)).
Proof.
  intros Hl Hv. unfold Thread_RestoreUserState.
  destruct (write_registers_spec (Z.to_nat NumTotalRegs) 0 (userRegisters th) m Hl Hv) as (rs & -> & Hlr & Hr); [done..|].
  do 2 f_equal. apply lookupZ_ext; [congruence|]. intros j Hj. rewrite Hr.
  by rewrite (proj2 (Z.leb_le 0 j)) by lia.
Qed.

(** *** The operations keep the invariant and never fail *)

Lemma upd_thread_ok k t th f :
  threads k !! t = Some th -> upd_thread k t f = Ok (set_threads k (<[t := f th]> (threads k))).
Proof. intros H. unfold upd_thread. by rewrite H. Qed.

Definition saved (k : Kernel) (th : Thread) : Thread :=
  match space th with Some _ => with_regs th (registers (cpu k)) | None => th end.

Lemma CheckOverflow_ok th : stack th = None \/ stack th = Some STACK_FENCEPOST -> Thread_CheckOverflow th = Ok tt.
Proof. unfold Thread_CheckOverflow. by intros [-> | ->]. Qed.

(** [Run] up to the switch, from a state with nobody running. *)
Lemma Run_ok k t :
  kinv (threads k) (readyList k) (semaphores k) None (Some t) (threadToBeDestroyed k) ->
  is_Some (threads k !! currentThread k) -> lenZ (registers (cpu k)) = NumTotalRegs ->
  exists k', Scheduler_Run k t = Ok k' /\ kernel_wf k' /\ readyList k' = readyList k /\
    semaphores k' = semaphores k /\ currentThread k' = t /\ idle k' = false /\ cpu k' = cpu k /\
    (forall u, u <> currentThread k -> userRegisters <$> threads k' !! u = userRegisters <$> threads k !! u) /\
    (forall th, threads k !! currentThread k = Some th ->
       userRegisters <$> threads k' !! currentThread k = Some (userRegisters (saved k th))).
Proof.
  intros Hinv [old Hold] Hcpu. unfold Scheduler_Run. rewrite Hold. cbn [deref mbind outcome_bind].
  destruct (ki_thread _ _ _ _ _ _ Hinv _ _ Hold) as [Hregs Hstk].
  assert (E : (match space old with Some sp => old ← Thread_SaveUserState (cpu k) old; Ok old | None => Ok old end)
            = Ok (saved k old)).
  { unfold saved. destruct (space old); [|done]. by rewrite SaveUserState_spec. }
  rewrite E. cbn [mbind outcome_bind].
  assert (Hs : t_status (saved k old) = t_status old /\ at_ (saved k old) = at_ old /\ stack (saved k old) = stack old /\
               lenZ (userRegisters (saved k old)) = NumTotalRegs /\ space (saved k old) = space old).
  { unfold saved. destruct (space old) eqn:?; done. }
  destruct Hs as (Hs1 & Hs2 & Hs3 & Hs4 & Hs5).
  set (k1 := set_threads k (<[currentThread k := saved k old]> (threads k))).
  replace (match space (saved k old) with Some sp => set_cpu k1 (AddrSpace_SaveState sp (cpu k1)) | None => k1 end) with k1
    by (destruct (space (saved k old)); [|done]; unfold set_cpu, AddrSpace_SaveState; by destruct k1).
  rewrite CheckOverflow_ok by (by rewrite Hs3). cbn [mbind outcome_bind].
  pose proof (kinv_same _ _ _ _ _ _ _ _ _ Hinv Hold Hs1 Hs2 Hs3 Hs4) as Hinv1.
  destruct (ki_taken _ _ _ _ _ _ Hinv1 t eq_refl) as [_ (th & Hth & _)].
  rewrite (upd_thread_ok _ _ th) by exact Hth. eexists. split; [done|].
  pose proof (kinv_run _ _ _ _ _ _ Hinv1 Hth) as Hinv2.
  conjs; try done; simpl.
  - split; simpl; [done| |done]. eexists. rewrite lookup_insert_eq. done.
  - intros u Hu. destruct (decide (u = t)) as [->|].
    + rewrite lookup_insert_eq. rewrite lookup_insert_ne in Hth by done. by rewrite Hth.
    + by rewrite !lookup_insert_ne by done.
  - intros th0 Hth0. assert (th0 = old) as -> by congruence. destruct (decide (currentThread k = t)) as [Heq|].
    + rewrite Heq, lookup_insert_eq. rewrite Heq, lookup_insert_eq in Hth. by simplify_eq.
    + by rewrite lookup_insert_ne, lookup_insert_eq by done.
Qed.

(** [dispatch] from a state with nobody running; [E] is what it keeps. *)
Lemma dispatch_ok k th :
  kinv (threads k) (readyList k) (semaphores k) None None (threadToBeDestroyed k) ->
  threads k !! currentThread k = Some th -> at_ th <> InThread -> lenZ (registers (cpu k)) = NumTotalRegs ->
  exists k', dispatch k = Ok k' /\ kernel_wf k' /\ semaphores k' = semaphores k.
Proof.
  intros Hinv Hc Hat Hcpu. unfold dispatch, Scheduler_FindNextToRun. destruct (readyList k) as [|t rest] eqn:Er.
  - eexists. split; [done|]. split; [|done]. split; simpl; [by rewrite Er| |done]. eauto.
  - destruct (Run_ok (set_ready k rest) t) as (k' & -> & Hwf & _ & Hs & _); simpl; [by apply kinv_take|by eexists|done|].
    by exists k'.
Qed.

Lemma wf_running k :
  kernel_wf k -> idle k = false ->
  kinv (threads k) (readyList k) (semaphores k) (Some (currentThread k)) None (threadToBeDestroyed k) /\
  exists th, threads k !! currentThread k = Some th /\ t_status th = RUNNING /\ at_ th <> InFinish.
Proof.
  intros [Hinv _ _] Hi. rewrite Hi in Hinv. split; [done|]. exact (ki_runner _ _ _ _ _ _ Hinv _ eq_refl).
Qed.

Lemma wf_in_thread k :
  kernel_wf k -> in_thread k ->
  kinv (threads k) (readyList k) (semaphores k) (Some (currentThread k)) None (threadToBeDestroyed k) /\
  exists th, threads k !! currentThread k = Some th /\ t_status th = RUNNING /\ at_ th = InThread.
Proof.
  intros Hwf [Hi Hat]. destruct (wf_running k Hwf Hi) as [? (th & E & ? & ?)]. split; [done|].
  exists th. unfold current_at in Hat. rewrite E in Hat. by simplify_eq/=.
Qed.

(** The effect of one pass through the loop of [P] on the semaphores. *)
Definition P_effect (ss : gmap positive Semaphore) (t s : positive) (ss' : gmap positive Semaphore) : Prop :=
  exists sem, ss !! s = Some sem /\
    ss' = <[s := if value sem =? 0 then mkSem 0 (queue sem ++ [t]) else mkSem (value sem - 1) (queue sem)]> ss.

Lemma P_loop_ok k s th :
  kernel_wf k -> idle k = false -> threads k !! currentThread k = Some th ->
  at_ th = InThread \/ at_ th = InP s -> is_Some (semaphores k !! s) ->
  exists k', P_loop k s = Ok k' /\ kernel_wf k' /\
    P_effect (semaphores k) (currentThread k) s (semaphores k').
Proof.
  intros Hwf Hi Hc Hat [sem Hs]. destruct (wf_running k Hwf Hi) as [Hinv _]. destruct Hwf as [_ _ Hcpu].
  pose proof (ki_value _ _ _ _ _ _ Hinv s sem Hs) as Hv. unfold P_loop, P_effect. rewrite Hs. cbn [deref mbind outcome_bind].
  destruct (Z.eqb_spec (value sem) 0) as [E|E].
  - unfold Thread_Sleep. rewrite (upd_thread_ok _ _ th) by done. cbn [mbind outcome_bind].
    match goal with |- context [dispatch ?k1] => destruct (dispatch_ok k1 (with_at (with_status th BLOCKED) (InP s))) as (k' & -> & Hwf & Hss) end;
      simpl; [by apply kinv_block|by rewrite lookup_insert_eq|done|done|].
    exists k'. conjs; [done..|]. exists sem. split; [done|]. rewrite Hss. simpl. by rewrite E.
  - rewrite (upd_thread_ok _ _ th) by done. cbn [mbind outcome_bind]. eexists. split; [done|].
    rewrite wrap_s32_id by (unfold_int32; lia). split; [|by exists sem; rewrite (proj2 (Z.eqb_neq _ _))].
    split; simpl; [rewrite Hi; apply kinv_P; try done; lia| |done].
    eexists. rewrite lookup_insert_eq. split; [done|]. by rewrite Hi.
Qed.

Lemma V_ok k s sem :
  kernel_wf k -> semaphores k !! s = Some sem -> value sem < int32_max ->
  exists k', Semaphore_V k s = Ok k' /\ kernel_wf k' /\
    semaphores k' = <[s := mkSem (value sem + 1) (tail (queue sem))]> (semaphores k).
Proof.
  intros [Hinv (c & Hc & Hci) Hcpu] Hs Hmax. pose proof (ki_value _ _ _ _ _ _ Hinv s sem Hs) as Hv.
  unfold Semaphore_V. rewrite Hs. cbn [deref mbind outcome_bind].
  rewrite wrap_s32_id by (unfold_int32; lia). destruct (queue sem) as [|t rest] eqn:Eq; cbn [mbind outcome_bind tail].
  - eexists. conjs; [done| |done]. split; simpl; [by eapply kinv_V_empty|by exists c|done].
  - destruct (ki_queue _ _ _ _ _ _ Hinv s sem Hs) as [_ Hq].
    destruct (Hq t) as (th & Ht & Hst & Ha); [rewrite Eq; set_solver|].
    unfold Scheduler_ReadyToRun. rewrite (upd_thread_ok _ _ th) by done. cbn [mbind outcome_bind].
    eexists. conjs; [done| |done]. split; simpl; [by eapply kinv_wake| |done].
    destruct (decide (currentThread k = t)) as [<-|].
    + exists (with_status th READY). rewrite lookup_insert_eq. split; [done|]. simpl. by rewrite Ha.
    + exists c. by rewrite lookup_insert_ne.
Qed.

Lemma Yield_ok k :
  kernel_wf k -> in_thread k ->
  exists k', Thread_Yield k = Ok k' /\ kernel_wf k' /\ semaphores k' = semaphores k.
Proof.
  intros Hwf Hit. destruct (wf_in_thread k Hwf Hit) as [Hinv (th & Hc & Hst & Ha)].
  unfold Thread_Yield, Scheduler_FindNextToRun. destruct (readyList k) as [|t rest] eqn:Er; [by exists k|].
  apply kinv_take in Hinv. assert (t <> currentThread k) as Hne.
  { intros ->. destruct (ki_taken _ _ _ _ _ _ Hinv _ eq_refl) as [_ (? & ? & ? & _)]. congruence. }
  unfold Scheduler_ReadyToRun. rewrite (upd_thread_ok _ _ th) by done. cbn [mbind outcome_bind].
  rewrite (upd_thread_ok _ _ (with_status th READY)) by (simpl; by rewrite lookup_insert_eq). cbn [mbind outcome_bind].
  match goal with |- context [Scheduler_Run ?k1 t] => destruct (Run_ok k1 t) as (k' & -> & Hwf' & _ & Hs & _) end; simpl.
  - rewrite insert_insert_eq. apply kinv_yield; [done..|congruence].
  - rewrite lookup_insert_eq. by eexists.
  - apply Hwf.
  - by exists k'.
Qed.

Lemma Fork_ok k t th :
  kernel_wf k -> threads k !! t = Some th -> t_status th = JUST_CREATED ->
  exists k', Thread_Fork k t = Ok k' /\ kernel_wf k' /\ semaphores k' = semaphores k /\
    readyList k' = readyList k ++ [t].
Proof.
  intros [Hinv (c & Hc & Hci) Hcpu] Ht Hst. unfold Thread_Fork, Scheduler_ReadyToRun.
  rewrite (upd_thread_ok _ _ th) by done. cbn [mbind outcome_bind].
  rewrite (upd_thread_ok _ _ (Thread_StackAllocate th)) by (simpl; by rewrite lookup_insert_eq). cbn [mbind outcome_bind].
  eexists. conjs; [done| |done..]. split; simpl; [rewrite insert_insert_eq; by apply kinv_fork| |done].
  destruct (decide (currentThread k = t)) as [<-|].
  - eexists. rewrite lookup_insert_eq. done.
  - exists c. by rewrite !lookup_insert_ne.
Qed.

Lemma Finish_ok k :
  kernel_wf k -> in_thread k ->
  exists k', Thread_Finish k = Ok k' /\ kernel_wf k' /\ semaphores k' = semaphores k.
Proof.
  intros Hwf Hit. destruct (wf_in_thread k Hwf Hit) as [Hinv (th & Hc & Hst & Ha)].
  unfold Thread_Finish, Thread_Sleep. rewrite (upd_thread_ok _ _ th) by done. cbn [mbind outcome_bind].
  match goal with |- context [dispatch ?k1] => destruct (dispatch_ok k1 (with_at (with_status th BLOCKED) InFinish)) as (k' & -> & Hwf' & Hss) end; simpl.
  - by eapply kinv_finish.
  - by rewrite lookup_insert_eq.
  - done.
  - apply Hwf.
  - by exists k'.
Qed.

(** The machine a thread finds when [Run] returns to it. *)
Definition restored (th : Thread) (m : Machine) : Machine :=
  match space th with
  | Some sp => AddrSpace_RestoreState sp (set_registers m (userRegisters th))
  | None => m
  end.

(** [Run] after the switch: the finished thread is gone, the current thread has
    its registers back. *)
Lemma Run_after_ok k th :
  kernel_wf k -> idle k = false -> threads k !! currentThread k = Some th ->
  exists k', Scheduler_Run_after k = Ok k' /\ kernel_wf k' /\ idle k' = false /\
    semaphores k' = semaphores k /\ currentThread k' = currentThread k /\ threadToBeDestroyed k' = None /\
    threads k' = (match threadToBeDestroyed k with Some d => delete d (threads k) | None => threads k end) /\
    threads k' !! currentThread k' = Some th /\ cpu k' = restored th (cpu k).
Proof.
  intros Hwf Hi Hc. destruct (wf_running k Hwf Hi) as [Hinv (th0 & E0 & Hst & _)]. destruct Hwf as [_ _ Hcpu].
  assert (th0 = th) as -> by congruence.
  set (ts' := match threadToBeDestroyed k with Some d => delete d (threads k) | None => threads k end).
  assert (Hd : destroy_doomed k = Ok (set_doomed (set_threads k ts') None) /\ ts' !! currentThread k = Some th /\
               kinv ts' (readyList k) (semaphores k) (Some (currentThread k)) None None).
  { unfold destroy_doomed, ts'. destruct (threadToBeDestroyed k) as [d|] eqn:Ed.
    - destruct (ki_doomed _ _ _ _ _ _ Hinv d eq_refl) as (thd & Ehd & ? & ?).
      assert (d <> currentThread k) by congruence. rewrite bool_decide_eq_false_2 by done.
      conjs; [done|by rewrite lookup_delete_ne|by apply kinv_destroy].
    - conjs; [by destruct k; simpl in *; subst|done..]. }
  destruct Hd as (Hd & Hc' & Hinv'). unfold Scheduler_Run_after. rewrite Hd. cbn [mbind outcome_bind]. simpl.
  rewrite Hc'. cbn [deref mbind outcome_bind]. destruct (ki_thread _ _ _ _ _ _ Hinv _ _ Hc) as [Hr _]. unfold restored.
  destruct (space th) as [sp|]; [rewrite RestoreUserState_spec by done|]; cbn [mbind outcome_bind];
    eexists; (conjs; [done| |done..]); split; simpl; rewrite ?Hi; try done; exists th; by split.
Qed.

(** A thread that has been switched to goes on. *)
Lemma resume_ok k :
  kernel_wf k -> idle k = false ->
  exists k', resume k = Ok k' /\ kernel_wf k' /\
    match current_at k with
    | Some (InP s) => P_effect (semaphores k) (currentThread k) s (semaphores k')
    | _ => semaphores k' = semaphores k
    end.
Proof.
  intros Hwf Hi. destruct (wf_running k Hwf Hi) as [Hinv (th & Hc & Hst & Hnf)]. unfold resume, current_at.
  rewrite Hc. cbn [deref mbind outcome_bind fmap option_fmap option_map].
  destruct (at_ th) as [| | |s|] eqn:Ha; [| | | |done].
  - rewrite (upd_thread_ok _ _ th) by done. eexists. conjs; [done| |done].
    destruct Hwf as [_ _ Hcpu]. split; simpl; [rewrite Hi; apply kinv_enter; auto| |done].
    eexists. rewrite lookup_insert_eq. split; [done|]. by rewrite Hi.
  - by exists k.
  - destruct (Run_after_ok k th Hwf Hi Hc) as (k1 & -> & Hwf1 & Hi1 & Hs1 & Hc1 & _ & _ & Hth1 & _).
    cbn [mbind outcome_bind]. rewrite (upd_thread_ok _ _ th) by done. eexists. conjs; [done| |done].
    destruct (wf_running k1 Hwf1 Hi1) as [Hinv1 _]. destruct Hwf1 as [_ _ Hcpu].
    split; simpl; [rewrite Hi1; apply kinv_enter; auto| |done].
    eexists. rewrite lookup_insert_eq. split; [done|]. by rewrite Hi1.
  - destruct (Run_after_ok k th Hwf Hi Hc) as (k1 & -> & Hwf1 & Hi1 & Hs1 & Hc1 & _ & _ & Hth1 & _).
    cbn [mbind outcome_bind]. destruct (P_loop_ok k1 s th) as (k' & -> & Hwf' & He); [done|done|done|by right| |].
    + rewrite Hs1. exact (ki_sem _ _ _ _ _ _ Hinv _ _ s Hc Ha).
    + exists k'. by rewrite <- Hs1, <- Hc1.
Qed.

(** *** Every step keeps the invariant and counts *)

(** What a label does to the value of [s]. *)
Definition gain (s : positive) (l : label) : Z :=
  match l with
  | Tau => 0
  | DidP s' => if decide (s' = s) then -1 else 0
  | DidV s' => if decide (s' = s) then 1 else 0
  end.

(** Every semaphore that exists still does, with its value changed by [l]. *)
Definition counts (l : label) (ss ss' : gmap positive Semaphore) : Prop :=
  forall s sem, ss !! s = Some sem -> exists sem', ss' !! s = Some sem' /\ value sem' = value sem + gain s l.

Lemma counts_same ss : counts Tau ss ss.
Proof. intros s sem H. exists sem. split; [done|]. simpl. lia. Qed.

Lemma counts_P ss t s ss' :
  P_effect ss t s ss' ->
  counts (match ss !! s with Some sem => if value sem =? 0 then Tau else DidP s | None => Tau end) ss ss'.
Proof.
  intros (sem & Hs & ->) s' sem' Hs'. rewrite Hs. lk s s'.
  - simplify_eq. eexists. split; [done|]. destruct (Z.eqb_spec (value sem) 0) as [E|E]; simpl.
    + lia.
    + rewrite decide_True by done. lia.
  - exists sem'. split; [done|]. destruct (value sem =? 0); simpl; [lia|]. rewrite decide_False by done. lia.
Qed.

Lemma counts_V ss s sem q :
  ss !! s = Some sem -> counts (DidV s) ss (<[s := mkSem (value sem + 1) q]> ss).
Proof.
  intros Hs s' sem' Hs'. simpl. lk s s'.
  - simplify_eq. eexists. split; [done|]. rewrite decide_True by done. done.
  - exists sem'. split; [done|]. rewrite decide_False by done. lia.
Qed.

Lemma step_ok k l k' :
  kernel_wf k -> step k l k' -> kernel_wf k' /\ counts l (semaphores k) (semaphores k').
Proof.
  intros Hwf Hst. pose proof Hwf as [Hinv (c & Hc & Hci) Hcpu].
  destruct Hst as [s k' Hit E|s sem k' _ Hs Hmax E|k' Hit E|t junk Hit Hn Hj|s v Hit Hn Hv|t th k' Hit Ht Hjc E|k' Hit E|k' Hi Hr E|k' Hi Ha E|sp k' Hit E|m' Hit Hl].
  - destruct (wf_in_thread k Hwf Hit) as [_ (th & Hth & _ & Hat)].
    assert (is_Some (semaphores k !! s)) as Hs.
    { unfold Semaphore_P, P_loop in E. destruct (semaphores k !! s); [by eexists|done]. }
    destruct (P_loop_ok k s th Hwf (proj1 Hit) Hth (or_introl Hat) Hs) as (k1 & E1 & Hwf1 & He).
    unfold Semaphore_P in E. rewrite E1 in E. injection E as <-. split; [done|]. exact (counts_P _ _ _ _ He).
  - destruct (V_ok k s sem Hwf Hs Hmax) as (k1 & E1 & Hwf1 & Hss). rewrite E1 in E; injection E as <-. split; [done|].
    rewrite Hss. by apply counts_V.
  - destruct (Yield_ok k Hwf Hit) as (k1 & E1 & Hwf1 & Hss). rewrite E1 in E; injection E as <-. rewrite Hss. split; [done|apply counts_same].
  - split; [|apply counts_same]. split; simpl; [by apply kinv_new| |done].
    exists c. rewrite lookup_insert_ne by congruence. done.
  - split; [split; simpl; [by apply kinv_new_sem|by exists c|done]|].
    intros s' sem' Hs'. exists sem'. simpl. rewrite lookup_insert_ne by congruence. split; [done|lia].
  - destruct (Fork_ok k t th Hwf Ht Hjc) as (k1 & E1 & Hwf1 & Hss & _). rewrite E1 in E; injection E as <-. rewrite Hss. split; [done|apply counts_same].
  - destruct (Finish_ok k Hwf Hit) as (k1 & E1 & Hwf1 & Hss). rewrite E1 in E; injection E as <-. rewrite Hss. split; [done|apply counts_same].
  - rewrite Hi in Hinv. destruct (dispatch_ok k c Hinv Hc (Hci Hi) Hcpu) as (k1 & E1 & Hwf1 & Hss). rewrite E1 in E; injection E as <-.
    rewrite Hss. split; [done|apply counts_same].
  - destruct (resume_ok k Hwf Hi) as (k1 & E1 & Hwf1 & Hss). rewrite E1 in E; injection E as <-. split; [done|].
    unfold resume_label. destruct (current_at k) as [[| | |s|]|]; try (rewrite Hss; apply counts_same). exact (counts_P _ _ _ _ Hss).
  - unfold StartProcess_enter in E. rewrite (upd_thread_ok _ _ c) in E by done. cbn [mbind outcome_bind] in E.
    apply bind_Ok_inv in E as (m & Em & E). apply lenZ_InitRegisters in Em. simplify_eq. split; [|apply counts_same].
    destruct (ki_thread _ _ _ _ _ _ Hinv _ _ Hc) as [Hr _]. split; simpl; [by eapply kinv_same| |by rewrite Em].
    eexists. rewrite lookup_insert_eq. split; [done|]. by destruct Hit as [-> _].
  - split; [|apply counts_same]. split; simpl; [done|by exists c|done].
Qed.

Definition total_gain (s : positive) (ls : list label) : Z := foldr (fun l n => gain s l + n) 0 ls.

Lemma steps_ok k ls k' :
  steps k ls k' -> kernel_wf k -> kernel_wf k' /\
  forall s sem, semaphores k !! s = Some sem ->
    exists sem', semaphores k' !! s = Some sem' /\ value sem' = value sem + total_gain s ls.
Proof.
  induction 1 as [k|k l k1 ls k2 Hst _ IH]; intros Hwf.
  - split; [done|]. intros s sem Hs. exists sem. split; [done|]. simpl. lia.
  - destruct (step_ok k l k1 Hwf Hst) as [Hwf1 Hc]. destruct (IH Hwf1) as [Hwf2 Hc2]. split; [done|].
    intros s sem Hs. destruct (Hc s sem Hs) as (sem1 & Hs1 & Hv1). destruct (Hc2 s sem1 Hs1) as (sem2 & Hs2 & Hv2).
    exists sem2. split; [done|]. simpl. lia.
Qed.

(** ** The kernel as [Initialize] leaves it *)

(** The main thread runs; [addrLock] is the first semaphore. *)
Definition main_thread (junk : list Z) : Thread :=
  with_at (with_status (Thread_new junk) RUNNING) InThread.
Definition kernel_boot (m : Machine) (junk : list Z) : Kernel :=
  mkKernel {[ 1%positive := main_thread junk ]} [] 1 None {[ 1%positive := Semaphore_new 1 ]} m false.

Lemma boot_wf m junk :
  lenZ (registers m) = NumTotalRegs -> lenZ junk = NumTotalRegs -> kernel_wf (kernel_boot m junk).
Proof.
  intros Hm Hj. split; simpl; [|by eexists|done]. split; simpl; try done.
  - intros t [= <-]. by eexists.
  - constructor.
  - set_solver.
  - intros s sem [<- <-]%lookup_singleton_Some. simpl. by unfold int32_max.
  - intros s sem [<- <-]%lookup_singleton_Some. simpl. split; [constructor|set_solver].
  - intros t th [<- <-]%lookup_singleton_Some. done.
  - intros t th [<- <-]%lookup_singleton_Some. simpl. auto.
  - intros t th s [<- <-]%lookup_singleton_Some. done.
  - intros s sem [<- <-]%lookup_singleton_Some. done.
Qed.

(** A state the kernel can get into. *)
Definition reachable (k : Kernel) : Prop :=
  exists m junk ls, lenZ (registers m) = NumTotalRegs /\ lenZ junk = NumTotalRegs /\ steps (kernel_boot m junk) ls k.

Lemma reachable_wf k : reachable k -> kernel_wf k.
Proof. intros (m & junk & ls & Hm & Hj & Hs). exact (proj1 (steps_ok _ _ _ Hs (boot_wf m junk Hm Hj))). Qed.

(** Every thread is in one place: the running one is the current one, the ready
    ones are those on the ready list, a blocked one has finished or waits in the
    queue of the semaphore it called [P] on. *)
Definition place_ok (k : Kernel) (t : positive) (th : Thread) : Prop :=
  match t_status th with
  | RUNNING => idle k = false /\ t = currentThread k
  | READY => t ∈ readyList k
  | BLOCKED => at_ th = InFinish \/ exists s sem, at_ th = InP s /\ semaphores k !! s = Some sem /\ t ∈ queue sem
  | JUST_CREATED => t ∉ readyList k
  end.

Lemma wf_place k t th : kernel_wf k -> threads k !! t = Some th -> place_ok k t th.
Proof.
  intros [Hinv _ _] Ht. pose proof (ki_place _ _ _ _ _ _ Hinv t th Ht) as H. unfold place_ok.
  destruct (t_status th) eqn:Est; [| |by destruct H|done].
  - intros Hin. destruct (ki_ready _ _ _ _ _ _ Hinv t Hin) as (? & ? & ? & _). congruence.
  - destruct (idle k); [done|]. by simplify_eq.
Qed.

(** C4: in every reachable state of the kernel, whatever the threads and the
    interrupt handlers did, each thread is in exactly one place (running, on the
    ready list, on the queue of the semaphore it waits for, finished or not yet
    forked), no queue holds a thread twice, and no routine of the scheduler can
    fail: [Yield], [Finish], [P], [V], the loop of [Sleep] and the code after
    [SWITCH] all return, without a failing ASSERT or a dangling pointer. *)
Theorem scheduler_safe k :
  reachable k ->
  (forall t th, threads k !! t = Some th -> place_ok k t th) /\ NoDup (readyList k) /\
  (forall s sem, semaphores k !! s = Some sem -> NoDup (queue sem)) /\
  (in_thread k -> is_ok (Thread_Yield k) /\ is_ok (Thread_Finish k) /\
     forall s, is_Some (semaphores k !! s) -> is_ok (Semaphore_P k s)) /\
  (forall s sem, semaphores k !! s = Some sem -> value sem < int32_max -> is_ok (Semaphore_V k s)) /\
  (idle k = true -> is_ok (dispatch k)) /\ (idle k = false -> is_ok (resume k)).
Proof.
  intros Hr. pose proof (reachable_wf k Hr) as Hwf. pose proof Hwf as [Hinv (c & Hc & Hci) Hcpu]. conjs.
  - intros t th. by apply wf_place.
  - exact (ki_nodup _ _ _ _ _ _ Hinv).
  - intros s sem Hs. exact (proj1 (ki_queue _ _ _ _ _ _ Hinv s sem Hs)).
  - intros Hit. destruct (wf_in_thread k Hwf Hit) as [_ (th & Hth & _ & Hat)]. conjs.
    + destruct (Yield_ok k Hwf Hit) as (? & -> & _). done.
    + destruct (Finish_ok k Hwf Hit) as (? & -> & _). done.
    + intros s Hs. unfold Semaphore_P.
      destruct (P_loop_ok k s th Hwf (proj1 Hit) Hth (or_introl Hat) Hs) as (? & -> & _). done.
  - intros s sem Hs Hm. destruct (V_ok k s sem Hwf Hs Hm) as (? & -> & _). done.
  - intros Hi. rewrite Hi in Hinv. destruct (dispatch_ok k c Hinv Hc (Hci Hi) Hcpu) as (? & -> & _). done.
  - intros Hi. destruct (resume_ok k Hwf Hi) as (? & -> & _). done.
Qed.

(** *** Runs as a function *)

(** The operations the kernel can do next, [step] as a program. *)
Inductive kernel_op :=
| OpP (s : positive) | OpV (s : positive) | OpYield | OpNew (t : positive) (junk : list Z)
| OpFork (t : positive) | OpFinish | OpDispatch | OpResume | OpStartProcess (sp : AddrSpace).

Definition in_threadb (k : Kernel) : bool := negb (idle k) && bool_decide (current_at k = Some InThread).

Definition do_op (k : Kernel) (o : kernel_op) : option (label * outcome Kernel) :=
  match o with
  | OpP s => if in_threadb k then Some (P_label k s, Semaphore_P k s) else None
  | OpV s =>
      match semaphores k !! s with
      | Some sem => if (in_threadb k || idle k) && (value sem <? int32_max) then Some (DidV s, Semaphore_V k s) else None
      | None => None
      end
  | OpYield => if in_threadb k then Some (Tau, Thread_Yield k) else None
  | OpNew t junk =>
      if in_threadb k && bool_decide (threads k !! t = None) && (lenZ junk =? NumTotalRegs)
      then Some (Tau, Ok (set_threads k (<[t := Thread_new junk]> (threads k)))) else None
  | OpFork t =>
      match threads k !! t with
      | Some th => if in_threadb k && bool_decide (t_status th = JUST_CREATED) then Some (Tau, Thread_Fork k t) else None
      | None => None
      end
  | OpFinish => if in_threadb k then Some (Tau, Thread_Finish k) else None
  | OpDispatch => if idle k && bool_decide (readyList k <> []) then Some (Tau, dispatch k) else None
  | OpResume =>
      if negb (idle k) && bool_decide (current_at k <> Some InThread)
      then Some (resume_label k, resume k) else None
  | OpStartProcess sp => if in_threadb k then Some (Tau, StartProcess_enter k sp) else None
  end.

Fixpoint run (os : list kernel_op) (k : Kernel) : option (list label * Kernel) :=
  match os with
  | [] => Some ([], k)
  | o :: os =>
      match do_op k o with
      | Some (l, Ok k1) => match run os k1 with Some (ls, k2) => Some (l :: ls, k2) | None => None end
      | _ => None
      end
  end.

Lemma in_threadb_spec k : in_threadb k = true -> in_thread k.
Proof. unfold in_threadb, in_thread. intros [Hi%negb_true_iff Ha%bool_decide_eq_true]%andb_true_iff. done. Qed.

Lemma do_op_sound k o l k' : do_op k o = Some (l, Ok k') -> step k l k'.
Proof.
  assert (HT := in_threadb_spec k). intros H.
  destruct o as [s|s| |t junk|t| | | |sp]; simpl in H; repeat case_match; simplify_eq;
    repeat match goal with H : _ && _ = true |- _ => apply andb_true_iff in H as [? ?] end;
    repeat match goal with H : bool_decide _ = true |- _ => apply bool_decide_eq_true in H end.
  - by apply step_P; auto.
  - eapply step_V; eauto; [|lia]. destruct (in_threadb k); auto.
  - apply step_Yield; auto.
  - apply step_new; auto. by apply Z.eqb_eq.
  - eapply step_Fork; eauto.
  - apply step_Finish; auto.
  - by apply step_dispatch.
  - apply step_resume; auto. by apply negb_true_iff.
  - eapply step_StartProcess; eauto.
Qed.

Lemma run_sound os k ls k' : run os k = Some (ls, k') -> steps k ls k'.
Proof.
  revert k ls. induction os as [|o os IH]; intros k ls H; simpl in H; [simplify_eq; apply steps_refl|].
  destruct (do_op k o) as [[l [k1| | |]]|] eqn:E; simplify_eq. destruct (run os k1) as [[ls1 k2]|] eqn:E1; simplify_eq.
  eapply steps_cons; [by eapply do_op_sound|by apply IH].
Qed.

(** A run whose end satisfies a test exists when the evaluation says so. *)
Lemma run_test os k ls (Q : Kernel -> Prop) :
  match run os k with Some (ls', k') => ls' = ls /\ Q k' | None => False end -> exists k', steps k ls k' /\ Q k'.
Proof.
  destruct (run os k) as [[ls' k']|] eqn:E; [|done]. intros [-> HQ]. exists k'. split; [by eapply run_sound|done].
Qed.

Definition sample_junk : list Z := replicate 40 0.
Definition sample_labels : list label := [Tau; Tau; DidP 1; Tau; Tau; DidV 1; Tau; DidP 1].

(** The main thread forks thread 2, gets through [P] once and blocks on the second
    call; thread 2 calls [V] and finishes; main gets through. *)
Lemma sample_run m : exists k, steps (kernel_boot m sample_junk) sample_labels k /\ in_thread k /\
  threads k !! 2%positive = None /\ (value <$> semaphores k !! 1%positive) = Some 0.
Proof.
  apply (run_test [OpNew 2 sample_junk; OpFork 2; OpP 1; OpP 1; OpResume; OpV 1; OpFinish; OpResume]).
  vm_compute. repeat split.
Qed.

Definition sample_cpu : Machine := sample_machine [] (sample_regs 0 0 0).

Lemma sample_cpu_regs : lenZ (registers sample_cpu) = NumTotalRegs.
Proof. reflexivity. Qed.

Lemma sample_reachable k : steps (kernel_boot sample_cpu sample_junk) sample_labels k -> reachable k.
Proof. intros H. exists sample_cpu, sample_junk, sample_labels. conjs; [apply sample_cpu_regs|reflexivity|done]. Qed.

Lemma scheduler_safe_witness :
  exists k, reachable k /\ in_thread k /\ is_ok (Thread_Finish k).
Proof.
  destruct (sample_run sample_cpu) as (k & Hs & Hit & _). exists k.
  pose proof (sample_reachable k Hs) as Hr. conjs; [done..|].
  destruct (scheduler_safe k Hr) as (_ & _ & _ & H & _). apply (H Hit).
Defined.

(** How often [P] and [V] of [s] got through. *)
Definition count_P (s : positive) (ls : list label) : Z :=
  Z.of_nat (length (filter (fun l => l = DidP s) ls)).
Definition count_V (s : positive) (ls : list label) : Z :=
  Z.of_nat (length (filter (fun l => l = DidV s) ls)).

Lemma total_gain_counts s ls : total_gain s ls = count_V s ls - count_P s ls.
Proof.
  unfold count_V, count_P. induction ls as [|l ls IH]; [done|]. cbn [total_gain foldr]. fold (total_gain s ls).
  rewrite IH, !filter_cons. destruct l as [|s'|s']; simpl gain;
    repeat match goal with |- context [decide ?P] => destruct (decide P); try congruence end; cbn [length]; lia.
Qed.

(** C5: semaphores count: along any run of the kernel, the value of a semaphore is
    its value at the start plus the number of completed [V]s minus the number of
    completed [P]s, and since it is never negative, [P] can never complete more
    often than the initial value and the [V]s allow, whatever the interleaving of
    threads, time slices and interrupt handlers. *)
Theorem semaphore_conservation k ls k' s sem :
  reachable k -> steps k ls k' -> semaphores k !! s = Some sem ->
  exists sem', semaphores k' !! s = Some sem' /\
    value sem' = value sem + count_V s ls - count_P s ls /\ 0 <= value sem' /\
    count_P s ls <= value sem + count_V s ls.
Proof.
  intros Hr Hs Hsem. destruct (steps_ok _ _ _ Hs (reachable_wf k Hr)) as [[Hinv _ _] Hc].
  destruct (Hc s sem Hsem) as (sem' & Hs' & Hv). rewrite total_gain_counts in Hv.
  pose proof (ki_value _ _ _ _ _ _ Hinv s sem' Hs') as Hb. exists sem'. conjs; [done|lia..].
Qed.

Lemma reachable_boot : reachable (kernel_boot sample_cpu sample_junk).
Proof. exists sample_cpu, sample_junk, []. conjs; [apply sample_cpu_regs|reflexivity|apply steps_refl]. Qed.

Lemma semaphore_conservation_witness :
  exists k sem', semaphores k !! 1%positive = Some sem' /\ value sem' = 1 + 1 - 2.
Proof.
  destruct (sample_run sample_cpu) as (k & Hs & _).
  destruct (semaphore_conservation (kernel_boot sample_cpu sample_junk) sample_labels k 1 (Semaphore_new 1)
              reachable_boot Hs) as (sem' & H & Hv & _); [reflexivity|].
  exists k, sem'. split; [exact H|]. rewrite Hv. reflexivity.
Defined.

Lemma woken_pos ts s : 0 < woken ts s -> exists t th, ts !! t = Some th /\ at_ th = InP s /\ t_status th <> BLOCKED.
Proof.
  unfold woken. intros H. set (f := filter _ ts) in *. assert (f <> ∅) as Hne.
  { intros E. rewrite E, map_size_empty in H. lia. }
  apply map_choose in Hne as (t & th & E). subst f. apply map_lookup_filter_Some in E as [E Hw]. exists t, th. split; [done|].
  unfold waking in Hw. apply andb_true_iff in Hw as [Ha Hb]. simpl in *. split.
  - by apply bool_decide_eq_true in Ha.
  - by apply negb_true_iff, bool_decide_eq_false in Hb.
Qed.

(** C21: no wakeup is lost: in every reachable state, when a semaphore has a positive
    value while threads still wait in its queue, a thread that [V] has already woken
    is on its way, on the ready list or running, back to the test in [P]. *)
Theorem no_lost_wakeup k s sem :
  reachable k -> semaphores k !! s = Some sem -> queue sem <> [] -> 0 < value sem ->
  exists t th, threads k !! t = Some th /\ at_ th = InP s /\ t ∉ queue sem /\
    (t ∈ readyList k \/ (idle k = false /\ t = currentThread k)).
Proof.
  intros Hr Hs Hq Hv. pose proof (reachable_wf k Hr) as Hwf. pose proof (kw_inv k Hwf) as Hinv.
  pose proof (ki_wakeup _ _ _ _ _ _ Hinv s sem Hs Hq) as Hw.
  destruct (woken_pos (threads k) s) as (t & th & Ht & Ha & Hst); [lia|]. exists t, th. conjs; [done..| |].
  - intros Hin. destruct (proj2 (ki_queue _ _ _ _ _ _ Hinv s sem Hs) t Hin) as (? & ? & ? & _). congruence.
  - pose proof (wf_place k t th Hwf Ht) as Hp. unfold place_ok in Hp.
    destruct (t_status th) eqn:E; [|by right|by left|done].
    pose proof (ki_place _ _ _ _ _ _ Hinv t th Ht) as Hp'. rewrite E in Hp'. congruence.
Qed.

(** Threads 2 and 3 wait on a semaphore, main calls [V] once. *)
Lemma sample_contention m : exists k, steps (kernel_boot m sample_junk)
    [Tau; Tau; Tau; Tau; DidP 1; Tau; Tau; Tau; Tau; Tau; Tau; DidV 1] k /\
  semaphores k !! 1%positive = Some (mkSem 1 [3%positive]).
Proof.
  apply (run_test [OpNew 2 sample_junk; OpFork 2; OpNew 3 sample_junk; OpFork 3; OpP 1; OpYield;
                   OpResume; OpP 1; OpResume; OpP 1; OpResume; OpV 1]).
  vm_compute. repeat split.
Qed.

Lemma no_lost_wakeup_witness :
  exists k t th, threads k !! t = Some th /\ at_ th = InP 1 /\ t ∉ queue (mkSem 1 [3%positive]) /\
    (t ∈ readyList k \/ (idle k = false /\ t = currentThread k)).
Proof.
  destruct (sample_contention sample_cpu) as (k & Hs & Hq). exists k.
  assert (Hr : reachable k) by (do 3 eexists; conjs; [apply sample_cpu_regs| |exact Hs]; reflexivity).
  apply (no_lost_wakeup k 1 (mkSem 1 [3%positive]) Hr Hq); [discriminate|simpl; lia].
Defined.

(** ** What a thread finds when it runs again *)

(** The part of a control block that belongs to the thread's user program. *)
Definition user_view (th : Thread) : resume_point * list Z * option AddrSpace := (at_ th, userRegisters th, space th).
Definition view (k : Kernel) (u : positive) := user_view <$> threads k !! u.

Lemma view_upd k t f k' u :
  upd_thread k t f = Ok k' -> u <> t \/ (forall th, user_view (f th) = user_view th) ->
  view k' u = view k u /\ currentThread k' = currentThread k.
Proof.
  unfold upd_thread, view. destruct (threads k !! t) as [th|] eqn:E; [|done]. intros [= <-] Hf. simpl. split; [|done].
  lk t u; [|done]. rewrite E. simpl. destruct Hf as [?|Hf]; [done|]. by rewrite Hf.
Qed.

Lemma view_ReadyToRun k t k' u :
  Scheduler_ReadyToRun k t = Ok k' -> view k' u = view k u /\ currentThread k' = currentThread k.
Proof.
  unfold Scheduler_ReadyToRun. destruct (upd_thread k t _) as [k1| | |] eqn:E; [|done..]. intros [= <-].
  exact (view_upd _ _ _ _ u E (or_intror (fun _ => eq_refl))).
Qed.

Lemma view_Run k n k' u : Scheduler_Run k n = Ok k' -> u <> currentThread k -> view k' u = view k u.
Proof.
  unfold Scheduler_Run. intros H Hu. apply bind_Ok_inv in H as (old & Eo & H). apply bind_Ok_inv in H as (old' & _ & H).
  apply bind_Ok_inv in H as (_ & _ & H). apply (view_upd _ _ _ _ u) in H as [-> _]; [|by right].
  unfold view. destruct (space old'); simpl; by rewrite lookup_insert_ne.
Qed.

Lemma view_dispatch k k' u : dispatch k = Ok k' -> u <> currentThread k -> view k' u = view k u.
Proof.
  unfold dispatch, Scheduler_FindNextToRun. destruct (readyList k) as [|t r].
  - by intros [= <-].
  - intros H Hu. by rewrite (view_Run _ _ _ u H).
Qed.

Lemma view_Sleep k a k' u : Thread_Sleep k a = Ok k' -> u <> currentThread k -> view k' u = view k u.
Proof.
  unfold Thread_Sleep. intros H Hu. apply bind_Ok_inv in H as (k1 & E & H).
  apply (view_upd _ _ _ _ u) in E as [<- Hc]; [|by left]. apply (view_dispatch _ _ _ H). congruence.
Qed.

Lemma view_P_loop k s k' u : P_loop k s = Ok k' -> u <> currentThread k -> view k' u = view k u.
Proof.
  unfold P_loop. intros H Hu. apply bind_Ok_inv in H as (sem & _ & H). destruct (value sem =? 0).
  - by rewrite (view_Sleep _ _ _ u H).
  - apply bind_Ok_inv in H as (k1 & E & H). simplify_eq. by apply (view_upd _ _ _ _ u) in E as [<- _]; [|left].
Qed.

Lemma view_V k s k' u : Semaphore_V k s = Ok k' -> view k' u = view k u.
Proof.
  unfold Semaphore_V. intros H. apply bind_Ok_inv in H as (sem & _ & H). apply bind_Ok_inv in H as (k1 & E & H).
  simplify_eq. destruct (queue sem); [by simplify_eq|]. by apply (view_ReadyToRun _ _ _ u) in E as [<- _].
Qed.

Lemma view_Yield k k' u : Thread_Yield k = Ok k' -> u <> currentThread k -> view k' u = view k u.
Proof.
  unfold Thread_Yield, Scheduler_FindNextToRun. destruct (readyList k) as [|t r]; [by intros [= <-]|]. intros H Hu.
  apply bind_Ok_inv in H as (k1 & E1 & H). apply bind_Ok_inv in H as (k2 & E2 & H).
  apply (view_ReadyToRun _ _ _ u) in E1 as [E1 Hc1]. simpl in Hc1.
  apply (view_upd _ _ _ _ u) in E2 as [E2 Hc2]; [|left; congruence].
  rewrite (view_Run _ _ _ u H) by congruence. rewrite E2, E1. done.
Qed.

Lemma view_Fork k t k' u : Thread_Fork k t = Ok k' -> u <> t -> view k' u = view k u.
Proof.
  unfold Thread_Fork. intros H Hu. apply bind_Ok_inv in H as (k1 & E1 & H).
  apply (view_ReadyToRun _ _ _ u) in H as [-> _]. by apply (view_upd _ _ _ _ u) in E1 as [-> _]; [|left].
Qed.

Lemma view_Run_after k k' u :
  Scheduler_Run_after k = Ok k' -> threadToBeDestroyed k <> Some u ->
  view k' u = view k u /\ currentThread k' = currentThread k.
Proof.
  unfold Scheduler_Run_after. intros H Hu. apply bind_Ok_inv in H as (k1 & E1 & H). apply bind_Ok_inv in H as (th & _ & H).
  assert (view k1 u = view k u /\ currentThread k1 = currentThread k) as [<- <-].
  { unfold destroy_doomed in E1. destruct (threadToBeDestroyed k) as [d|]; [|by simplify_eq].
    apply bind_Ok_inv in E1 as (_ & _ & E1). simplify_eq. unfold view. simpl.
    rewrite lookup_delete_ne; [done|]. congruence. }
  destruct (space th); [|by simplify_eq]. apply bind_Ok_inv in H as (m & _ & H). by simplify_eq.
Qed.

Lemma view_resume k k' u :
  resume k = Ok k' -> threadToBeDestroyed k <> Some u -> u <> currentThread k -> view k' u = view k u.
Proof.
  unfold resume. intros H Hd Hu. apply bind_Ok_inv in H as (th & _ & H). destruct (at_ th).
  - by apply (view_upd _ _ _ _ u) in H as [-> _]; [|left].
  - by simplify_eq.
  - apply bind_Ok_inv in H as (k1 & E & H). apply (view_Run_after _ _ u) in E as [<- Hc]; [|done].
    apply (view_upd _ _ _ _ u) in H as [-> _]; [done|]. left. congruence.
  - apply bind_Ok_inv in H as (k1 & E & H). apply (view_Run_after _ _ u) in E as [<- Hc]; [|done].
    apply (view_P_loop _ _ _ u H). congruence.
  - done.
Qed.

(** A step of the kernel leaves the control block of every other thread alone,
    unless it is not yet forked or about to be deleted. *)
Lemma view_step k l k' u th :
  step k l k' -> threads k !! u = Some th -> t_status th <> JUST_CREATED ->
  threadToBeDestroyed k <> Some u -> u <> currentThread k -> view k' u = view k u.
Proof.
  intros Hst Ht Hj Hd Hu.
  destruct Hst as [s k' Hit E|s sem k' _ Hs Hmax E|k' Hit E|t junk Hit Hn ?|s v Hit Hn Hv|t th' k' Hit Ht' Hjc E|k' Hit E|k' Hi Hr E|k' Hi Ha E|sp k' Hit E|m' Hit Hl].
  - exact (view_P_loop _ _ _ u E Hu).
  - exact (view_V _ _ _ u E).
  - exact (view_Yield _ _ u E Hu).
  - unfold view. simpl. rewrite lookup_insert_ne; [done|congruence].
  - done.
  - apply (view_Fork _ _ _ u E). congruence.
  - unfold Thread_Finish in E. exact (view_Sleep _ _ _ u E Hu).
  - exact (view_dispatch _ _ u E Hu).
  - exact (view_resume _ _ u E Hd Hu).
  - unfold StartProcess_enter in E. apply bind_Ok_inv in E as (k1 & E1 & E). apply bind_Ok_inv in E as (m & _ & E).
    simplify_eq. by apply (view_upd _ _ _ _ u) in E1 as [<- _]; [|left].
  - done.
Qed.

(** While a thread that was switched out in [Yield] or [P] does not run, nothing
    touches its saved registers and its address space. *)
Lemma view_away k l k' u a r sp :
  kernel_wf k -> step k l k' -> u <> currentThread k -> view k u = Some (a, r, sp) -> a <> Fresh -> a <> InFinish ->
  view k' u = Some (a, r, sp).
Proof.
  intros [Hinv _ _] Hst Hu Hv Hf Hfin. unfold view in Hv. destruct (threads k !! u) as [th|] eqn:E; [|done].
  simpl in Hv. injection Hv as Ha Hr Hsp. rewrite (view_step k l k' u th Hst E); [| | |done].
  - unfold view. rewrite E. simpl. unfold user_view. by subst.
  - intros Hj. pose proof (ki_place _ _ _ _ _ _ Hinv u th E) as Hp. rewrite Hj in Hp. congruence.
  - intros Hd. destruct (ki_doomed _ _ _ _ _ _ Hinv u Hd) as (? & ? & ? & ?). congruence.
Qed.

(** A run during which [t] is never the current thread. *)
Inductive steps_without (t : positive) : Kernel -> list label -> Kernel -> Prop :=
| sw_refl k : steps_without t k [] k
| sw_cons k l k1 ls k2 :
    currentThread k <> t -> step k l k1 -> steps_without t k1 ls k2 -> steps_without t k (l :: ls) k2.

Lemma steps_without_view t k ls k' a r sp :
  steps_without t k ls k' -> kernel_wf k -> view k t = Some (a, r, sp) -> a <> Fresh -> a <> InFinish ->
  kernel_wf k' /\ view k' t = Some (a, r, sp).
Proof.
  induction 1 as [k|k l k1 ls k2 Hne Hst _ IH]; intros Hwf Hv Hf Hfin; [done|].
  destruct (step_ok k l k1 Hwf Hst) as [Hwf1 _]. apply IH; [done| |done..].
  by apply (view_away k l k1 t a r sp Hwf Hst (not_eq_sym Hne) Hv Hf Hfin).
Qed.

Lemma Run_saves k n k' th sp :
  Scheduler_Run k n = Ok k' -> lenZ (registers (cpu k)) = NumTotalRegs ->
  threads k !! currentThread k = Some th -> space th = Some sp ->
  view k' (currentThread k) = Some (at_ th, registers (cpu k), Some sp).
Proof.
  unfold Scheduler_Run. intros H Hl Ht Hsp. rewrite Ht in H. cbn [deref mbind outcome_bind] in H. rewrite Hsp in H.
  rewrite SaveUserState_spec in H by done. cbn [mbind outcome_bind with_regs space] in H. rewrite Hsp in H.
  apply bind_Ok_inv in H as (_ & _ & H). apply (view_upd _ _ _ _ (currentThread k)) in H as [-> _]; [|by right].
  unfold view. simpl. rewrite lookup_insert_eq. simpl. unfold user_view. simpl. by rewrite Hsp.
Qed.

(** The current thread gives up the processor in [Yield] or blocks in [P]. *)
Definition gives_up (k k1 : Kernel) : Prop := Thread_Yield k = Ok k1 \/ exists s, Semaphore_P k s = Ok k1.

Lemma gives_up_saves k k1 th sp :
  lenZ (registers (cpu k)) = NumTotalRegs -> gives_up k k1 -> currentThread k1 <> currentThread k ->
  threads k !! currentThread k = Some th -> space th = Some sp ->
  exists a, a <> Fresh /\ a <> InFinish /\ view k1 (currentThread k) = Some (a, registers (cpu k), Some sp).
Proof.
  intros Hl Hg Hne Ht Hsp. destruct Hg as [H|[s H]].
  - unfold Thread_Yield, Scheduler_FindNextToRun in H. destruct (readyList k) as [|n r]; [by simplify_eq|].
    unfold Scheduler_ReadyToRun in H. rewrite (upd_thread_ok _ _ th) in H by done. cbn [mbind outcome_bind] in H.
    rewrite (upd_thread_ok _ _ (with_status th READY)) in H by (simpl; by rewrite lookup_insert_eq).
    cbn [mbind outcome_bind] in H. exists InYield. conjs; [done..|].
    refine (Run_saves _ n k1 (with_at (with_status th READY) InYield) sp H Hl _ Hsp). simpl. by rewrite lookup_insert_eq.
  - unfold Semaphore_P, P_loop in H. apply bind_Ok_inv in H as (sem & _ & H). destruct (value sem =? 0).
    + unfold Thread_Sleep in H. rewrite (upd_thread_ok _ _ th) in H by done. cbn [mbind outcome_bind] in H.
      unfold dispatch, Scheduler_FindNextToRun in H. simpl readyList in H. destruct (readyList k) as [|n r]; [by simplify_eq|].
      exists (InP s). conjs; [done..|].
      refine (Run_saves _ n k1 (with_at (with_status th BLOCKED) (InP s)) sp H Hl _ Hsp). simpl. by rewrite lookup_insert_eq.
    + rewrite (upd_thread_ok _ _ th) in H by done. by simplify_eq/=.
Qed.

(** C14: a user program does not notice a context switch: when a thread with an address
    space gives up the processor, in [Yield] or by blocking in [P], then after any run
    of the other threads and the interrupt handlers, as soon as the scheduler gets back
    to it, [Scheduler::Run] puts all 40 machine registers back to what they were and
    the page table to its own. *)
Theorem context_switch_transparent k k1 ls k2 th sp :
  reachable k -> in_thread k -> threads k !! currentThread k = Some th -> space th = Some sp ->
  gives_up k k1 -> currentThread k1 <> currentThread k ->
  steps_without (currentThread k) k1 ls k2 -> currentThread k2 = currentThread k -> idle k2 = false ->
  exists k3, Scheduler_Run_after k2 = Ok k3 /\ registers (cpu k3) = registers (cpu k) /\
    pageTable (cpu k3) = as_pageTable sp /\ pageTableSize (cpu k3) = as_numPages sp.
Proof.
  intros Hr Hit Ht Hsp Hg Hne Hs Hc2 Hi2. pose proof (reachable_wf k Hr) as Hwf.
  destruct (gives_up_saves k k1 th sp (kw_cpu k Hwf) Hg Hne Ht Hsp) as (a & Hf & Hfin & Hv).
  assert (kernel_wf k1) as Hwf1.
  { destruct Hg as [H|[s H]].
    - apply (step_ok k Tau k1 Hwf). by apply step_Yield.
    - apply (step_ok k (P_label k s) k1 Hwf). by apply step_P. }
  destruct (steps_without_view _ _ _ _ _ _ _ Hs Hwf1 Hv Hf Hfin) as [Hwf2 Hv2]. rewrite <- Hc2 in Hv2.
  unfold view in Hv2. destruct (threads k2 !! currentThread k2) as [th2|] eqn:E2; [|done]. simpl in Hv2.
  injection Hv2 as _ Hregs Hsp2. destruct (Run_after_ok k2 th2 Hwf2 Hi2 E2) as (k3 & E3 & _ & _ & _ & _ & _ & _ & _ & Hcpu).
  exists k3. rewrite Hcpu. unfold restored. rewrite Hsp2. simpl. done.
Qed.

(** The end of a run from a small machine. *)
Definition small_cpu : Machine := mkMachine [] (replicate 40 0) None None 0 false 0.
Definition small_boot : Kernel := kernel_boot small_cpu sample_junk.
Definition after (os : list kernel_op) : Kernel := match run os small_boot with Some (_, k) => k | None => small_boot end.

Lemma after_steps os ls k : run os small_boot = Some (ls, k) -> reachable k.
Proof. intros H. exists small_cpu, sample_junk, ls. conjs; [done..|]. by eapply run_sound. Qed.

Definition sample_space : AddrSpace := mkAddrSpace (Some []) 3.
Definition ops_start : list kernel_op := [OpStartProcess sample_space; OpNew 2 sample_junk; OpFork 2].

Lemma context_switch_transparent_witness :
  exists k3, Scheduler_Run_after (after (ops_start ++ [OpYield; OpResume; OpYield])) = Ok k3 /\
    registers (cpu k3) = registers (cpu (after ops_start)) /\
    pageTable (cpu k3) = Some [] /\ pageTableSize (cpu k3) = 3.
Proof.
  apply (context_switch_transparent (after ops_start) (after (ops_start ++ [OpYield])) [Tau; Tau]
           (after (ops_start ++ [OpYield; OpResume; OpYield]))
           (with_space (main_thread sample_junk) (Some sample_space)) sample_space).
  - apply (after_steps ops_start [Tau; Tau; Tau]). vm_compute. reflexivity.
  - vm_compute. split; reflexivity.
  - vm_compute. reflexivity.
  - reflexivity.
  - left. vm_compute. reflexivity.
  - vm_compute. discriminate.
  - apply sw_cons with (after (ops_start ++ [OpYield; OpResume])).
    + vm_compute. discriminate.
    + apply (do_op_sound _ OpResume). vm_compute. reflexivity.
    + eapply sw_cons; [vm_compute; discriminate| |apply sw_refl].
      apply (do_op_sound _ OpYield). vm_compute. reflexivity.
  - vm_compute. reflexivity.
  - vm_compute. reflexivity.
Defined.

(** ** Finished threads *)

(** What only [Finish] and the code after [SWITCH] change. *)
Lemma doomed_upd k t f k' : upd_thread k t f = Ok k' -> threadToBeDestroyed k' = threadToBeDestroyed k.
Proof. unfold upd_thread. intros H. apply bind_Ok_inv in H as (th & _ & H). by simplify_eq. Qed.

Lemma Run_frame k n k' u :
  Scheduler_Run k n = Ok k' -> threadToBeDestroyed k' = threadToBeDestroyed k /\
  at_ <$> threads k' !! u = at_ <$> threads k !! u.
Proof.
  unfold Scheduler_Run. intros H. apply bind_Ok_inv in H as (old & Eo & H). apply bind_Ok_inv in H as (old' & E' & H).
  apply bind_Ok_inv in H as (_ & _ & H). destruct (threads k !! currentThread k) as [old0|] eqn:Ec; [|done].
  injection Eo as ->. assert (at_ old' = at_ old) as Hat.
  { destruct (space old); [|by simplify_eq]. apply bind_Ok_inv in E' as (o & E' & Eo). simplify_eq.
    unfold Thread_SaveUserState in E'. apply bind_Ok_inv in E' as (rs & _ & E'). by simplify_eq. }
  pose proof (doomed_upd _ _ _ _ H) as ->. apply (view_upd _ _ _ _ u) in H as [H _]; [|by right].
  split; [by destruct (space old')|]. unfold view in H. apply (f_equal (fmap (fun v => v.1.1))) in H.
  rewrite <- !option_fmap_compose in H. change ((fun v => v.1.1) ∘ user_view) with at_ in H. rewrite H.
  destruct (space old'); simpl; (lk (currentThread k) u; [rewrite Ec; simpl; by rewrite Hat|done]).
Qed.

Lemma dispatch_frame k k' u :
  dispatch k = Ok k' -> threadToBeDestroyed k' = threadToBeDestroyed k /\
  at_ <$> threads k' !! u = at_ <$> threads k !! u.
Proof.
  unfold dispatch, Scheduler_FindNextToRun. destruct (readyList k); intros H; [by simplify_eq|].
  exact (Run_frame _ _ _ u H).
Qed.

Lemma doomed_P k s k' : P_loop k s = Ok k' -> threadToBeDestroyed k' = threadToBeDestroyed k.
Proof.
  unfold P_loop, Thread_Sleep. intros H. apply bind_Ok_inv in H as (sem & _ & H).
  destruct (value sem =? 0); apply bind_Ok_inv in H as (k1 & E & H); apply doomed_upd in E.
  - apply (dispatch_frame _ _ 1) in H as [-> _]. done.
  - by simplify_eq.
Qed.

Lemma doomed_Run_after k k' : Scheduler_Run_after k = Ok k' -> threadToBeDestroyed k' = None.
Proof.
  unfold Scheduler_Run_after. intros H. apply bind_Ok_inv in H as (k1 & E1 & H). apply bind_Ok_inv in H as (th & _ & H).
  assert (threadToBeDestroyed k1 = None).
  { unfold destroy_doomed in E1. destruct (threadToBeDestroyed k) eqn:E; [|by simplify_eq].
    apply bind_Ok_inv in E1 as (_ & _ & E1). by simplify_eq. }
  destruct (space th); [|by simplify_eq]. apply bind_Ok_inv in H as (m & _ & H). by simplify_eq.
Qed.

Lemma doomed_ReadyToRun k t k' : Scheduler_ReadyToRun k t = Ok k' -> threadToBeDestroyed k' = threadToBeDestroyed k.
Proof. unfold Scheduler_ReadyToRun. intros H. apply bind_Ok_inv in H as (k1 & E & H). apply doomed_upd in E. by simplify_eq. Qed.

Lemma doomed_step k l k' :
  step k l k' -> threadToBeDestroyed k' = threadToBeDestroyed k \/ threadToBeDestroyed k' = None \/
    (idle k = false /\ threadToBeDestroyed k' = Some (currentThread k)).
Proof.
  intros Hst.
  destruct Hst as [s k' Hit E|s sem k' _ Hs Hmax E|k' Hit E|t junk Hit Hn ?|s v Hit Hn Hv|t th' k' Hit Ht' Hjc E|k' Hit E|k' Hi Hr E|k' Hi Ha E|sp k' Hit E|m' Hit Hl]; auto.
  - left. exact (doomed_P _ _ _ E).
  - left. unfold Semaphore_V in E. apply bind_Ok_inv in E as (sem' & _ & E). apply bind_Ok_inv in E as (k1 & E1 & E).
    simplify_eq. destruct (queue sem'); [by simplify_eq|exact (doomed_ReadyToRun _ _ _ E1)].
  - left. unfold Thread_Yield, Scheduler_FindNextToRun in E. destruct (readyList k) as [|t r]; [by simplify_eq|].
    apply bind_Ok_inv in E as (k1 & E1 & E). apply bind_Ok_inv in E as (k2 & E2 & E).
    apply (Run_frame _ _ _ 1) in E as [-> _]. by rewrite (doomed_upd _ _ _ _ E2), (doomed_ReadyToRun _ _ _ E1).
  - left. unfold Thread_Fork in E. apply bind_Ok_inv in E as (k1 & E1 & E).
    by rewrite (doomed_ReadyToRun _ _ _ E), (doomed_upd _ _ _ _ E1).
  - right. right. split; [apply Hit|]. unfold Thread_Finish, Thread_Sleep in E. apply bind_Ok_inv in E as (k1 & E1 & E).
    apply (dispatch_frame _ _ 1) in E as [-> _]. exact (doomed_upd _ _ _ _ E1).
  - left. apply (dispatch_frame _ _ 1 E).
  - unfold resume in E. apply bind_Ok_inv in E as (th & _ & E). destruct (at_ th); [| | | |done].
    + left. exact (doomed_upd _ _ _ _ E).
    + left. by simplify_eq.
    + right. left. apply bind_Ok_inv in E as (k1 & E1 & E). rewrite (doomed_upd _ _ _ _ E). exact (doomed_Run_after _ _ E1).
    + right. left. apply bind_Ok_inv in E as (k1 & E1 & E). rewrite (doomed_P _ _ _ E). exact (doomed_Run_after _ _ E1).
  - left. unfold StartProcess_enter in E. apply bind_Ok_inv in E as (k1 & E1 & E). apply bind_Ok_inv in E as (m & _ & E).
    simplify_eq. exact (doomed_upd _ _ _ _ E1).
Qed.

(** [d] has finished and is not marked for deletion. *)
Definition forgotten (k : Kernel) (d : positive) : Prop :=
  at_ <$> threads k !! d = Some InFinish /\ threadToBeDestroyed k <> Some d.

Lemma finished_blocked k d th :
  kernel_wf k -> threads k !! d = Some th -> at_ th = InFinish -> t_status th = BLOCKED.
Proof.
  intros [Hinv _ _] Ht Ha. pose proof (ki_place _ _ _ _ _ _ Hinv d th Ht) as Hp. destruct (t_status th); [congruence| | |done].
  - destruct (ki_runner _ _ _ _ _ _ Hinv d Hp) as (? & ? & ? & ?). congruence.
  - destruct Hp as [Hp|]; [|done]. destruct (ki_ready _ _ _ _ _ _ Hinv d Hp) as (? & ? & ? & ? & ?). congruence.
Qed.

Lemma step_forgotten k l k' d : kernel_wf k -> step k l k' -> forgotten k d -> forgotten k' d.
Proof.
  intros Hwf Hst [Ha Hd]. destruct (threads k !! d) as [th|] eqn:E; [|done]. injection Ha as Ha.
  pose proof (finished_blocked k d th Hwf E Ha) as Hb.
  assert (Hrun : idle k = false -> currentThread k <> d).
  { intros Hi Hc. destruct (wf_running k Hwf Hi) as [_ (th' & ? & ? & ?)]. congruence. }
  split.
  - destruct (decide (d = currentThread k)) as [Hc|Hc].
    + assert (idle k = true) as Hi by (destruct (idle k); [done|]; by destruct Hrun).
      destruct Hst as [s k' [? _] _|s sem k' _ Hs Hmax Ev|k' [? _] _|t junk [? _] _ _|s v [? _] _ _|t th' k' [? _] _ _ _|k' [? _] _|k' _ Hr Ev|k' ? _ _|sp k' [? _] _|m' [? _] _]; try congruence.
      * apply (view_V _ _ _ d) in Ev. unfold view in Ev. rewrite E in Ev. simpl in Ev.
        destruct (threads k' !! d); [|done]. injection Ev as ? _ _. simpl. congruence.
      * apply (dispatch_frame _ _ d) in Ev as [_ ->]. rewrite E. simpl. congruence.
    + pose proof (view_step k l k' d th Hst E ltac:(congruence) Hd Hc) as Hv. unfold view in Hv. rewrite E in Hv. simpl in Hv.
      destruct (threads k' !! d); [|done]. injection Hv as ? _ _. simpl. congruence.
  - destruct (doomed_step k l k' Hst) as [-> | [-> | [Hi ->]]]; [done..|]. specialize (Hrun Hi). congruence.
Qed.

(** [Thread::Finish] leaves the control block and the stack to the next thread that
    returns from [SWITCH], as [threadToBeDestroyed]; a thread that starts in
    [ThreadRoot] does not look at it.  So when a thread finishes while another one is
    still marked, the first is forgotten, and nothing the kernel does afterwards ever
    deletes it. *)
Theorem forgotten_thread_leaks k d k1 ls k2 :
  reachable k -> in_thread k -> threadToBeDestroyed k = Some d -> Thread_Finish k = Ok k1 -> steps k1 ls k2 ->
  exists th, threads k2 !! d = Some th /\ t_status th = BLOCKED /\ threadToBeDestroyed k2 <> Some d.
Proof.
  intros Hr Hit Hd Hf Hs. pose proof (reachable_wf k Hr) as Hwf.
  destruct (wf_in_thread k Hwf Hit) as [Hinv (th & Hc & Hst & _)].
  destruct (ki_doomed _ _ _ _ _ _ Hinv d Hd) as (thd & Ed & Hbd & Had). assert (d <> currentThread k) as Hne by congruence.
  assert (forgotten k1 d /\ kernel_wf k1) as [Hfg Hwf1].
  { split; [|by apply (step_ok k Tau k1 Hwf), step_Finish]. unfold Thread_Finish, Thread_Sleep in Hf.
    rewrite (upd_thread_ok _ _ th) in Hf by done. cbn [mbind outcome_bind] in Hf.
    apply (dispatch_frame _ _ d) in Hf as [Hf1 Hf2]. split; [rewrite Hf2|rewrite Hf1]; simpl; [|congruence].
    rewrite lookup_insert_ne by done. rewrite Ed. simpl. by rewrite Had. }
  clear - Hfg Hwf1 Hs. induction Hs as [k|k l k3 ls k2 Hst _ IH].
  - destruct Hfg as [Ha Hd]. destruct (threads k !! d) as [th|] eqn:E; [|done]. injection Ha as Ha.
    exists th. conjs; [done|by eapply finished_blocked|done].
  - apply IH; [by eapply step_forgotten|by eapply step_ok].
Qed.

(** Main and thread 2 finish one after the other; thread 3 is left running. *)
Definition ops_finish : list kernel_op :=
  [OpNew 2 sample_junk; OpFork 2; OpNew 3 sample_junk; OpFork 3; OpFinish; OpResume].

Lemma forgotten_thread_leaks_witness :
  threadToBeDestroyed (after (ops_finish ++ [OpFinish; OpResume])) = Some 2%positive /\
  exists th, threads (after (ops_finish ++ [OpFinish; OpResume])) !! 1%positive = Some th /\ t_status th = BLOCKED /\
    threadToBeDestroyed (after (ops_finish ++ [OpFinish; OpResume])) <> Some 1%positive.
Proof.
  split; [vm_compute; reflexivity|].
  apply (forgotten_thread_leaks (after ops_finish) 1 (after (ops_finish ++ [OpFinish])) [Tau]).
  - apply (after_steps ops_finish [Tau; Tau; Tau; Tau; Tau; Tau]). vm_compute. reflexivity.
  - vm_compute. split; reflexivity.
  - vm_compute. reflexivity.
  - vm_compute. reflexivity.
  - eapply steps_cons; [|apply steps_refl]. apply (do_op_sound _ OpResume). vm_compute. reflexivity.
Defined.
