(* ===== verification/Disk.v ===== *)
(** * The disk and its synchronous interface
      (machine/disk.h, machine/disk.cc, filesys/synchdisk.cc)

    [Disk] simulates an asynchronous disk on a UNIX file: a request transfers the
    data at once, marks the disk busy and schedules the interrupt that ends it
    after the time a real disk would need.  [SynchDisk] waits for that interrupt:
    here for a caller that is the only runnable thread, so that [Sleep] in
    [Semaphore::P] idles until the interrupt of the disk fires.  The file system
    above uses only the class [BlockDevice]; [ready n] says that the device can
    do [n] more operations, since the clock of the simulation is a 32-bit [int]. *)

From S2P Require Import Prelude Int32 Machine LinkedList Interrupts.
From Stdlib Require Import Sorting.Sorted.

Definition SectorSize : Z := 512.
Definition SectorsPerTrack : Z := 32.
Definition NumTracks : Z := 32.
Definition NumSectors : Z := 1024.
Definition MagicNumber : Z := 0x456789ab.
Definition MagicSize : Z := 4.
Definition DiskSize : Z := MagicSize + NumSectors * SectorSize.

(** ** The UNIX file *)

(** [Lseek] and [Read]: [Read] asserts that it got all the bytes. *)
Definition unix_read (file : list Z) (position nBytes : Z) : outcome (list Z) :=
  _ ← ASSERT (0 <=? position);
  let bs := slice file position nBytes in
  _ ← ASSERT (lenZ bs =? nBytes);
  Ok bs.

(** [Lseek] and [WriteFile]: a gap before the position is filled with zeros. *)
Definition unix_write (file : list Z) (position : Z) (bs : list Z) : outcome (list Z) :=
  _ ← ASSERT (0 <=? position);
  Ok (splice (file ++ replicate (Z.to_nat (position + lenZ bs - lenZ file)) 0) position bs).

(** ** The disk *)

(** [class Disk] *)
Record Disk := mkDisk {
  disk_file : list Z;
  active : bool;
  lastSector : Z;
  bufferInit : Z }.

(** [Disk::Disk]: [file] is the content of the UNIX file, [None] if there is none. *)
Definition Disk_new (file : option (list Z)) : outcome Disk :=
  match file with
  | Some f =>
      magic ← unix_read f 0 MagicSize;
      _ ← ASSERT (wrap_s32 (le_combine magic) =? MagicNumber);
      Ok (mkDisk f false 0 0)
  | None =>
      f ← unix_write [] 0 (le_split 4 MagicNumber);
      f ← unix_write f (DiskSize - 4) (le_split 4 0);
      Ok (mkDisk f false 0 0)
  end.

(** [Disk::TimeToSeek]: the seek time and [*rotation]. *)
Definition Disk_TimeToSeek (d : Disk) (totalTicks newSector : Z) : Z * Z :=
  let newTrack := Z.quot newSector SectorsPerTrack in
  let oldTrack := Z.quot (lastSector d) SectorsPerTrack in
  let seek := wrap_s32 (Z.abs (newTrack - oldTrack) * SeekTime) in
  let over := Z.rem (wrap_s32 (totalTicks + seek)) RotationTime in
  (seek, if 0 <? over then RotationTime - over else 0).

(** [Disk::ModuloDiff] *)
Definition Disk_ModuloDiff (to from : Z) : Z :=
  let toOffset := Z.rem to SectorsPerTrack in
  let fromOffset := Z.rem from SectorsPerTrack in
  Z.rem ((toOffset - fromOffset) + SectorsPerTrack) SectorsPerTrack.

(** [Disk::ComputeLatency] *)
Definition Disk_ComputeLatency (d : Disk) (totalTicks newSector : Z) (writing : bool) : Z :=
  let '(seek, rotation) := Disk_TimeToSeek d totalTicks newSector in
  let timeAfter := wrap_s32 (totalTicks + seek + rotation) in
  if negb writing && (seek =? 0)
     && (Disk_ModuloDiff newSector (Z.quot (bufferInit d) RotationTime) <? Z.quot (wrap_s32 (timeAfter - bufferInit d)) RotationTime)
  then RotationTime
  else
    let rotation := wrap_s32 (rotation + Disk_ModuloDiff newSector (Z.quot timeAfter RotationTime) * RotationTime) in
    wrap_s32 (seek + rotation + RotationTime).

(** [Disk::UpdateLast] *)
Definition Disk_UpdateLast (d : Disk) (totalTicks newSector : Z) : Disk :=
  let '(seek, rotate) := Disk_TimeToSeek d totalTicks newSector in
  mkDisk (disk_file d) (active d) newSector
    (if seek =? 0 then bufferInit d else wrap_s32 (totalTicks + seek + rotate)).

Definition set_active (d : Disk) (b : bool) : Disk := mkDisk (disk_file d) b (lastSector d) (bufferInit d).
Definition set_file (d : Disk) (f : list Z) : Disk := mkDisk f (active d) (lastSector d) (bufferInit d).

(** ** The devices of a machine with a disk *)

(** [class SynchDisk]: the disk and the value of the semaphore it waits on. *)
Record SynchDisk := mkSynchDisk { sd_disk : Disk; sd_semaphore : Z }.

(** The one interrupt handler, [DiskDone] of machine/disk.cc. *)
Inductive disk_handler := DiskDone.

Abbreviation DSys := (Sys (W := SynchDisk) (H := disk_handler)).

Definition set_world (s : DSys) (w : SynchDisk) : DSys := mkSys (interrupt s) (stats s) (machine s) w.
Definition the_disk (s : DSys) : Disk := sd_disk (world s).
Definition with_disk (s : DSys) (d : Disk) : DSys := set_world s (mkSynchDisk d (sd_semaphore (world s))).

Definition count_read (st : Statistics) : Statistics :=
  mkStats (totalTicks st) (idleTicks st) (systemTicks st) (userTicks st) (wrap_s32 (numDiskReads st + 1)) (numDiskWrites st)
    (numConsoleCharsRead st) (numConsoleCharsWritten st) (numPageFaults st) (numPacketsSent st) (numPacketsRecvd st).
Definition count_write (st : Statistics) : Statistics :=
  mkStats (totalTicks st) (idleTicks st) (systemTicks st) (userTicks st) (numDiskReads st) (wrap_s32 (numDiskWrites st + 1))
    (numConsoleCharsRead st) (numConsoleCharsWritten st) (numPageFaults st) (numPacketsSent st) (numPacketsRecvd st).

(** [Disk::ReadRequest]: the bytes that land in the caller's buffer. *)
Definition Disk_ReadRequest (s : DSys) (sectorNumber : Z) : outcome (list Z * DSys) :=
  let d := the_disk s in
  let ticks := Disk_ComputeLatency d (now s) sectorNumber false in
  _ ← ASSERT (negb (active d));
  _ ← ASSERT ((0 <=? sectorNumber) && (sectorNumber <? NumSectors));
  data ← unix_read (disk_file d) (SectorSize * sectorNumber + MagicSize) SectorSize;
  let d := Disk_UpdateLast (set_active d true) (now s) sectorNumber in
  let s := set_stats (with_disk s d) (count_read (stats s)) in
  s ← Interrupt_Schedule s DiskDone 0 ticks DiskInt;
  Ok (data, s).

(** [Disk::WriteRequest]; [data] points to at least a sector's worth of bytes. *)
Definition Disk_WriteRequest (s : DSys) (sectorNumber : Z) (data : list Z) : outcome DSys :=
  let d := the_disk s in
  let ticks := Disk_ComputeLatency d (now s) sectorNumber true in
  _ ← ASSERT (negb (active d));
  _ ← ASSERT ((0 <=? sectorNumber) && (sectorNumber <? NumSectors));
  if lenZ data <? SectorSize then Undefined else
  file ← unix_write (disk_file d) (SectorSize * sectorNumber + MagicSize) (slice data 0 SectorSize);
  let d := Disk_UpdateLast (set_active (set_file d file) true) (now s) sectorNumber in
  let s := set_stats (with_disk s d) (count_write (stats s)) in
  Interrupt_Schedule s DiskDone 0 ticks DiskInt.

(** [SynchDisk::RequestDone]: the [V], in a handler, wakes the waiting thread. *)
Definition SynchDisk_RequestDone (s : DSys) : outcome DSys :=
  Ok (set_world s (mkSynchDisk (the_disk s) (wrap_s32 (sd_semaphore (world s) + 1)))).

(** [Disk::HandleInterrupt], called by [DiskDone] *)
Definition Disk_HandleInterrupt (s : DSys) : outcome DSys :=
  let s := with_disk s (set_active (the_disk s) false) in
  SynchDisk_RequestDone s.

Definition disk_call (h : disk_handler) (a : Z) (s : DSys) : outcome DSys := Disk_HandleInterrupt s.

(** The loop of [semaphore->P()]: with nothing else to run, [Sleep] idles. *)
Fixpoint wait_loop (fuel : nat) (s : DSys) : outcome DSys :=
  if sd_semaphore (world s) =? 0 then
    match fuel with
    | O => Undefined
    | S fuel => s ← Interrupt_Idle disk_call s; wait_loop fuel s
    end
  else Ok (set_world s (mkSynchDisk (the_disk s) (wrap_s32 (sd_semaphore (world s) - 1)))).

(** [semaphore->P()]; [yield] is what [OneTick] may do when interrupts are
    enabled again.  Each [Idle] fires a pending interrupt. *)
Definition wait_done (s : DSys) : outcome DSys :=
  '(oldLevel, s) ← Interrupt_SetLevel disk_call (fun s => Ok s) s IntOff;
  s ← wait_loop (length (pending (interrupt s))) s;
  '(_, s) ← Interrupt_SetLevel disk_call (fun s => Ok s) s oldLevel;
  Ok s.

(** [SynchDisk::ReadSector] and [SynchDisk::WriteSector]; [lock->Acquire] and
    [lock->Release] are empty. *)
Definition SynchDisk_ReadSector (s : DSys) (sectorNumber : Z) : outcome (list Z * DSys) :=
  '(data, s) ← Disk_ReadRequest s sectorNumber;
  s ← wait_done s;
  Ok (data, s).
Definition SynchDisk_WriteSector (s : DSys) (sectorNumber : Z) (data : list Z) : outcome DSys :=
  s ← Disk_WriteRequest s sectorNumber data;
  wait_done s.

(** ** Latency *)

Ltac unfold_disk := unfold SectorSize, SectorsPerTrack, NumTracks, NumSectors, MagicSize, SeekTime, RotationTime, MaxDelay in *.

(** Linear arithmetic with division by constants. *)
Ltac dlia := Z.to_euclidean_division_equations; lia.

Definition sector_ok (n : Z) : Prop := 0 <= n < NumSectors.

(** The cylinder distance in ticks. *)
Definition seek_time (d : Disk) (newSector : Z) : Z :=
  Z.abs (newSector / SectorsPerTrack - lastSector d / SectorsPerTrack) * SeekTime.

Lemma seek_time_range d n : sector_ok n -> sector_ok (lastSector d) -> 0 <= seek_time d n <= 15500.
Proof. unfold sector_ok, seek_time. unfold_disk. intros. dlia. Qed.

Lemma TimeToSeek_spec d t n :
  sector_ok n -> sector_ok (lastSector d) -> 0 <= t -> t + MaxDelay <= int32_max ->
  exists rotation, Disk_TimeToSeek d t n = (seek_time d n, rotation) /\ 0 <= rotation < RotationTime /\
    (t + seek_time d n + rotation) mod RotationTime = 0.
Proof.
  intros Hn Hl Ht Hmax. pose proof (seek_time_range d n Hn Hl) as Hs. unfold Disk_TimeToSeek, sector_ok in *. unfold_disk.
  rewrite !Z.quot_div_nonneg by lia.
  change (Z.abs (n / 32 - lastSector d / 32) * 500) with (seek_time d n).
  rewrite (wrap_s32_id (seek_time d n)) by (unfold_int32; lia). rewrite wrap_s32_id by (unfold_int32; lia).
  rewrite Z.rem_mod_nonneg by lia. eexists. split; [done|]. destruct (Z.ltb_spec 0 ((t + seek_time d n) mod 500)).
  - split; dlia.
  - split; dlia.
Qed.

Lemma ModuloDiff_spec to from :
  0 <= to -> 0 <= from -> 0 <= Disk_ModuloDiff to from < SectorsPerTrack /\
  Disk_ModuloDiff to from = (to - from) mod SectorsPerTrack.
Proof.
  intros. unfold Disk_ModuloDiff. unfold_disk. 
  pose proof (Z.mod_pos_bound to 32 ltac:(lia)). pose proof (Z.mod_pos_bound from 32 ltac:(lia)).
  rewrite !Z.rem_mod_nonneg by (rewrite ?Z.rem_mod_nonneg by lia; lia). dlia.
Qed.

(** The track buffer holds the sector. *)
Definition buffered (d : Disk) (t n : Z) : Prop :=
  seek_time d n = 0 /\
  forall rotation, 0 <= rotation < RotationTime -> (t + rotation) mod RotationTime = 0 ->
    Disk_ModuloDiff n (bufferInit d / RotationTime) < (t + rotation - bufferInit d) / RotationTime.

(** [start] is the first time from [from] on at which the beginning of a sector in
    the position of [n] passes under the head. *)
Definition first_pass (from n start : Z) : Prop :=
  from <= start /\ start mod RotationTime = 0 /\ (start / RotationTime) mod SectorsPerTrack = n mod SectorsPerTrack /\
  forall t, from <= t -> t mod RotationTime = 0 -> (t / RotationTime) mod SectorsPerTrack = n mod SectorsPerTrack -> start <= t.

Lemma first_pass_intro from n r :
  0 <= n -> 0 <= from -> 0 <= r < RotationTime -> (from + r) mod RotationTime = 0 ->
  first_pass from n (from + r + Disk_ModuloDiff n ((from + r) / RotationTime) * RotationTime).
Proof.
  intros Hn Hf Hr Hm. unfold first_pass. unfold_disk.
  assert (0 <= (from + r) / 500) by (apply Z.div_pos; lia).
  destruct (ModuloDiff_spec n ((from + r) / 500)) as [Hd He]; [lia..|]. unfold_disk.
  set (q := (from + r) / 500) in *. assert (from + r = 500 * q) as E by dlia.
  set (k := Disk_ModuloDiff n q) in *. rewrite E. replace (500 * q + k * 500) with ((q + k) * 500) by lia. conjs.
  - lia.
  - by rewrite Z.mod_mul.
  - rewrite Z.div_mul by lia. dlia.
  - intros t Ht1 Ht2 Ht3. set (p := t / 500) in *. assert (t = 500 * p) by dlia. dlia.
Qed.

Lemma ComputeLatency_spec d t n writing :
  sector_ok n -> sector_ok (lastSector d) -> 0 <= bufferInit d <= int32_max -> 0 <= t -> t + MaxDelay <= int32_max ->
  RotationTime <= Disk_ComputeLatency d t n writing <= 32000 /\
  (Disk_ComputeLatency d t n writing = RotationTime /\ writing = false /\ buffered d t n \/
   first_pass (t + seek_time d n) n (t + Disk_ComputeLatency d t n writing - RotationTime)).
Proof.
  intros Hn Hl Hb Ht Hmax. unfold Disk_ComputeLatency. pose proof (seek_time_range d n Hn Hl) as Hs.
  destruct (TimeToSeek_spec d t n Hn Hl Ht Hmax) as (r & -> & Hr & Hm). unfold sector_ok in *.
  unfold MaxDelay, NumSectors, RotationTime in *. cbn iota beta. rewrite (wrap_s32_id (t + _ + r)) by (unfold_int32; lia).
  rewrite (wrap_s32_id (_ - bufferInit d)) by (unfold_int32; lia).
  destruct (negb writing && _ && _) eqn:E.
  - split; [lia|]. left. apply andb_true_iff in E as [[Hw%negb_true_iff Hz%Z.eqb_eq]%andb_true_iff Hq%Z.ltb_lt].
    conjs; [done|done|]. split; [done|]. unfold RotationTime.
    intros r' Hr' Hm'. rewrite Hz in *. rewrite Z.add_0_r in *. assert (r' = r) as -> by dlia.
    rewrite !(Z.quot_div_nonneg (bufferInit d)) in * by lia.
    assert (0 <= bufferInit d / 500) by (apply Z.div_pos; lia).
    destruct (ModuloDiff_spec n (bufferInit d / 500)) as [Hd _]; [lia..|].
    destruct (decide (0 <= t + r - bufferInit d)).
    + rewrite Z.quot_div_nonneg in * by lia. done.
    + pose proof (Z.quot_opp_l (bufferInit d - (t + r)) 500 ltac:(lia)) as Ho.
      replace (- (bufferInit d - (t + r))) with (t + r - bufferInit d) in Ho by lia.
      pose proof (Z.quot_pos (bufferInit d - (t + r)) 500 ltac:(lia) ltac:(lia)). lia.
  - rewrite (Z.quot_div_nonneg (t + seek_time d n + r)) by lia.
    assert (0 <= (t + seek_time d n + r) / 500) by (apply Z.div_pos; lia).
    destruct (ModuloDiff_spec n ((t + seek_time d n + r) / 500)) as [Hd _]; [lia..|]. unfold SectorsPerTrack in *.
    rewrite (wrap_s32_id (r + _)) by (unfold_int32; lia). rewrite wrap_s32_id by (unfold_int32; lia). split; [lia|]. right.
    pose proof (first_pass_intro (t + seek_time d n) n r ltac:(lia) ltac:(lia) Hr Hm) as Hf. unfold RotationTime in Hf.
    replace (t + (seek_time d n + (r + Disk_ModuloDiff n ((t + seek_time d n + r) / 500) * 500) + 500) - 500)
      with (t + seek_time d n + r + Disk_ModuloDiff n ((t + seek_time d n + r) / 500) * 500) by lia. done.
Qed.

(** ** Waiting for the disk *)

(** The interrupt hardware between two requests. *)
Record quiet (s : DSys) : Prop := {
  q_wf : int_wf s;
  q_level : level (interrupt s) = IntOn;
  q_handler : inHandler (interrupt s) = false;
  q_yield : yieldOnReturn (interrupt s) = false;
  q_status : status (interrupt s) = SystemMode;
  q_semaphore : sd_semaphore (world s) = 0 }.

(** Idling until the one pending interrupt, the disk's, has fired. *)
Lemma Idle_disk (s : DSys) w x :
  int_wf s -> level (interrupt s) = IntOff -> pending (interrupt s) = [(w, x)] -> type x = DiskInt ->
  now s < w -> w <= int32_max ->
  exists s', Interrupt_Idle disk_call s = Ok s' /\ int_wf s' /\ now s' = w /\
    interrupt s' = mkInterrupt IntOff [] false false SystemMode /\
    world s' = mkSynchDisk (set_active (the_disk s) false) (wrap_s32 (sd_semaphore (world s) + 1)).
Proof.
  intros Hwf Hlv Hp Hty Hnow Hmax. unfold Interrupt_Idle, Interrupt_CheckIfDue.
  change (level (interrupt (set_status s IdleMode))) with (level (interrupt s)). rewrite Hlv.
  rewrite (bool_decide_eq_true_2 (IntOff = IntOff)) by done. cbn [ASSERT mbind outcome_bind].
  change (pending (interrupt (set_status s IdleMode))) with (pending (interrupt s)). rewrite Hp.
  cbn [negb andb]. set (s0 := set_pending (set_status s IdleMode) []). change (now s0) with (now s).
  rewrite (proj2 (Z.ltb_lt (now s) w)) by lia. rewrite (bool_decide_eq_false_2 (type x = TimerInt)) by congruence.
  rewrite andb_false_r. cbn [andb].
  assert (Hwf0 : int_wf s0) by (apply set_pending_wf; [by apply set_status_wf|constructor]).
  pose proof (advance_clock_wf s0 w Hwf0 Hnow Hmax) as Hwf1. unfold fire.
  match goal with |- context [finish_delayed_load ?s1] => destruct (finish_delayed_load_ok s1 Hwf1) as (m' & -> & Hm & _) end.
  cbn [mbind outcome_bind disk_call Disk_HandleInterrupt SynchDisk_RequestDone]. eexists. split; [|split].
  - unfold check_all. cbn. rewrite Hlv. done.
  - destruct Hwf1. split; simpl in *; done.
  - conjs; [done| |done]. by rewrite <- Hlv.
Qed.

(** [semaphore->P()] returns once the interrupt has fired. *)
Lemma wait_done_ok (s : DSys) w x :
  quiet s -> pending (interrupt s) = [(w, x)] -> type x = DiskInt -> now s < w -> w + MaxDelay <= int32_max ->
  exists s', wait_done s = Ok s' /\ quiet s' /\ pending (interrupt s') = [] /\ now s' = w + SystemTick /\
    the_disk s' = set_active (the_disk s) false.
Proof.
  intros [Hwf Hlv Hih Hy Hst Hsem] Hp Hty Hnow Hmax. unfold wait_done, Interrupt_SetLevel, Interrupt_ChangeLevel.
  rewrite (bool_decide_eq_true_2 (IntOff = IntOff)) by done. cbn [ASSERT orb mbind outcome_bind].
  rewrite (bool_decide_eq_false_2 (IntOff = IntOn)) by done. cbn [andb mbind outcome_bind].
  change (pending (interrupt (set_level s IntOff))) with (pending (interrupt s)). rewrite Hp. cbn [length wait_loop].
  change (sd_semaphore (world (set_level s IntOff))) with (sd_semaphore (world s)). rewrite Hsem. cbn [Z.eqb].
  destruct (Idle_disk (set_level s IntOff) w x) as (s1 & -> & Hwf1 & Hnow1 & Hint & Hw1);
    [by apply set_level_wf|done|done|done|done|unfold MaxDelay in *; lia|].
  cbn [mbind outcome_bind wait_loop]. rewrite Hw1. cbn [sd_semaphore world set_level set_interrupt].
  rewrite Hsem. change (wrap_s32 (0 + 1)) with 1. cbn [Z.eqb mbind outcome_bind]. rewrite Hlv.
  set (s2 := set_world s1 _). assert (Hint2 : interrupt s2 = mkInterrupt IntOff [] false false SystemMode) by done.
  rewrite Hint2. cbn [inHandler negb orb]. rewrite orb_true_r. cbn [ASSERT mbind outcome_bind level].
  rewrite (bool_decide_eq_true_2 (IntOn = IntOn)), (bool_decide_eq_true_2 (IntOff = IntOff)) by done. cbn [andb].
  assert (Hwf2 : int_wf (set_level s2 IntOn)) by (apply set_level_wf; destruct Hwf1; by split).
  unfold Interrupt_OneTick. destruct (advance_ok (set_level s2 IntOn) Hwf2) as (Hwf3 & Hnow3 & Hint3).
  { change (now (set_level s2 IntOn)) with (now s1). lia. }
  set (s3 := advance (set_level s2 IntOn)) in *. unfold Interrupt_ChangeLevel.
  assert (Hi3 : interrupt s3 = mkInterrupt IntOn [] false false SystemMode) by (rewrite Hint3; unfold set_level; by rewrite Hint2).
  unfold check_all. change (pending (interrupt (set_level s3 IntOff))) with (pending (interrupt s3)). rewrite Hi3.
  cbn [length pending check_loop]. unfold Interrupt_CheckIfDue.
  change (pending (interrupt (set_level s3 IntOff))) with (pending (interrupt s3)). rewrite Hi3. cbn.
  rewrite bool_decide_eq_true_2 by done. cbn [ASSERT mbind outcome_bind]. cbn [interrupt set_level set_interrupt yieldOnReturn].
  rewrite Hi3. cbn. eexists. split; [done|].
  assert (Hw3 : world s3 = mkSynchDisk (set_active (the_disk s) false) 0).
  { change (world s3) with (world (advance (set_level s2 IntOn))). unfold advance. unfold the_disk at 1 in Hw1.
    case_bool_decide; simpl; unfold the_disk; by rewrite Hw1. }
  conjs; simpl; rewrite ?Hi3; try done.
  - split; simpl; rewrite ?Hi3, ?Hw3; try done. by apply set_level_wf, set_level_wf.
  - change (now s3 = w + SystemTick). rewrite Hnow3. change (now (set_level s2 IntOn)) with (now s1). rewrite Hnow1.
    unfold tick_of. change (status (interrupt (set_level s2 IntOn))) with (status (interrupt s2)). by rewrite Hint2.
  - unfold the_disk. simpl. by rewrite Hw3.
Qed.

(** ** Sectors *)

(** The content of a sector. *)
Definition sector_of (d : Disk) (n : Z) : list Z := slice (disk_file d) (SectorSize * n + MagicSize) SectorSize.

Record disk_wf (d : Disk) : Prop := {
  dw_length : lenZ (disk_file d) = DiskSize;
  dw_bytes : Forall byte (disk_file d);
  dw_last : sector_ok (lastSector d);
  dw_buffer : 0 <= bufferInit d <= int32_max }.

(** The disk is free, the clock has room for [n] more requests. *)
Record disk_ready (n : nat) (s : DSys) : Prop := {
  dr_quiet : quiet s;
  dr_pending : pending (interrupt s) = [];
  dr_active : active (the_disk s) = false;
  dr_disk : disk_wf (the_disk s);
  dr_time : now s + (2 + Z.of_nat n) * MaxDelay <= int32_max }.

Lemma wf_now_nonneg {W H} (s : Sys (W := W) (H := H)) : int_wf s -> 0 <= now s.
Proof. intros []. lia. Qed.

Lemma UpdateLast_wf d t n :
  disk_wf d -> sector_ok n -> 0 <= t -> t + MaxDelay <= int32_max -> disk_wf (Disk_UpdateLast d t n).
Proof.
  intros [H1 H2 H3 H4] Hn Ht Hm. unfold Disk_UpdateLast. destruct (TimeToSeek_spec d t n Hn H3 Ht Hm) as (r & -> & Hr & _).
  split; simpl; try done. destruct (_ =? 0); [done|]. pose proof (seek_time_range d n Hn H3). unfold RotationTime, MaxDelay in *.
  rewrite wrap_s32_id by (unfold_int32; lia). lia.
Qed.

Lemma UpdateLast_frame d t n :
  active (Disk_UpdateLast d t n) = active d /\ disk_file (Disk_UpdateLast d t n) = disk_file d.
Proof. unfold Disk_UpdateLast. by destruct (Disk_TimeToSeek d t n). Qed.

(** The common part of the two requests: schedule the interrupt and wait. *)
Lemma request_ok k (s : DSys) d st ticks :
  disk_ready (S k) s -> disk_wf d -> st = count_read (stats s) \/ st = count_write (stats s) -> 0 < ticks <= 32000 ->
  exists s1 s', Interrupt_Schedule (set_stats (with_disk s d) st) DiskDone 0 ticks DiskInt = Ok s1 /\
    wait_done s1 = Ok s' /\ disk_ready k s' /\ the_disk s' = set_active d false /\ now s' = now s + ticks + SystemTick.
Proof.
  intros [[Hwf Hlv Hih Hy Hst Hsem] Hp Ha Hd Ht] Hwd Hstats Htk.
  pose proof (wf_now_nonneg s Hwf) as Hn0. unfold MaxDelay in Ht.
  assert (Hts : totalTicks st = now s /\ idleTicks st = idleTicks (stats s) /\ systemTicks st = systemTicks (stats s) /\
                userTicks st = userTicks (stats s)) by (destruct Hstats as [-> | ->]; done).
  destruct Hts as (E1 & E2 & E3 & E4). unfold Interrupt_Schedule.
  change (now (set_stats (with_disk s d) st)) with (totalTicks st). rewrite E1.
  rewrite wrap_s32_id by (unfold_int32; lia). rewrite (proj2 (Z.ltb_lt _ _)) by lia. cbn [ASSERT mbind outcome_bind].
  eexists. match goal with |- context [Ok ?s1 = Ok _] => destruct (wait_done_ok s1 (now s + ticks) (mkPending DiskDone 0 (now s + ticks) DiskInt))
    as (s' & Hw & Hq & Hp' & Hn' & Hd') end.
  - split; try done. destruct Hwf. split; simpl; unfold now in *; simpl; rewrite ?E1, ?E2, ?E3, ?E4; try done.
    rewrite Hp. simpl. repeat constructor.
  - simpl. by rewrite Hp.
  - done.
  - unfold now in *. simpl. rewrite E1. lia.
  - unfold MaxDelay. lia.
  - exists s'. conjs; [done|exact Hw| |done|done]. simpl in Hd'. split; [done|done| |rewrite Hd'; by destruct Hwd|].
    + by rewrite Hd'.
    + unfold MaxDelay, SystemTick in *. lia.
Qed.

Lemma unix_read_ok f pos n :
  0 <= pos -> 0 <= n -> pos + n <= lenZ f -> unix_read f pos n = Ok (slice f pos n).
Proof.
  intros. unfold unix_read. rewrite (proj2 (Z.leb_le 0 pos)) by lia. cbn [ASSERT mbind outcome_bind].
  rewrite lenZ_slice, Z.eqb_refl by lia. done.
Qed.

Lemma unix_write_ok f pos bs : 0 <= pos -> pos + lenZ bs <= lenZ f -> unix_write f pos bs = Ok (splice f pos bs).
Proof.
  intros. unfold unix_write. rewrite (proj2 (Z.leb_le 0 pos)) by lia. cbn [ASSERT mbind outcome_bind].
  replace (Z.to_nat _) with O by lia. by rewrite app_nil_r.
Qed.

Lemma sector_inside n : sector_ok n -> 0 <= SectorSize * n + MagicSize /\ SectorSize * n + MagicSize + SectorSize <= DiskSize.
Proof. unfold sector_ok, DiskSize. unfold_disk. lia. Qed.

Lemma sector_okb n : sector_ok n -> (0 <=? n) && (n <? NumSectors) = true.
Proof. unfold sector_ok. intros. by rewrite (proj2 (Z.leb_le _ _)), (proj2 (Z.ltb_lt _ _)) by lia. Qed.

(** The latency of a request to a ready disk. *)
Lemma ready_latency k (s : DSys) n writing :
  disk_ready (S k) s -> sector_ok n ->
  RotationTime <= Disk_ComputeLatency (the_disk s) (now s) n writing <= 32000.
Proof.
  intros [[Hwf _ _ _ _ _] _ _ [_ _ Hl Hb] Ht] Hn. pose proof (wf_now_nonneg s Hwf).
  refine (proj1 (ComputeLatency_spec _ _ _ _ Hn Hl Hb _ _)); unfold MaxDelay in *; lia.
Qed.

Lemma ReadSector_ok k (s : DSys) n :
  disk_ready (S k) s -> sector_ok n ->
  exists s', SynchDisk_ReadSector s n = Ok (sector_of (the_disk s) n, s') /\ disk_ready k s' /\
    disk_file (the_disk s') = disk_file (the_disk s) /\
    now s' = now s + Disk_ComputeLatency (the_disk s) (now s) n false + SystemTick.
Proof.
  intros Hr Hn. pose proof (ready_latency k s n false Hr Hn) as Hlat. unfold RotationTime in Hlat.
  pose proof Hr as [[Hwf _ _ _ _ _] _ Ha Hd Ht]. unfold SynchDisk_ReadSector, Disk_ReadRequest.
  rewrite Ha, sector_okb by done. cbn [ASSERT negb mbind outcome_bind]. pose proof (sector_inside n Hn) as [? ?].
  rewrite unix_read_ok by (rewrite ?(dw_length _ Hd); unfold SectorSize in *; lia). cbn [mbind outcome_bind].
  destruct (request_ok k s (Disk_UpdateLast (set_active (the_disk s) true) (now s) n) (count_read (stats s))
    (Disk_ComputeLatency (the_disk s) (now s) n false) Hr) as (s1 & s' & -> & Hw & Hr' & Hd' & Hn').
  - pose proof (wf_now_nonneg s Hwf). apply UpdateLast_wf; [by destruct Hd|done|done|unfold MaxDelay in *; lia].
  - by left.
  - lia.
  - cbn [mbind outcome_bind]. rewrite Hw. cbn [mbind outcome_bind]. exists s'. conjs; [done..| |done].
    rewrite Hd'. exact (proj2 (UpdateLast_frame _ (now s) n)).
Qed.

Lemma WriteSector_ok k (s : DSys) n data :
  disk_ready (S k) s -> sector_ok n -> SectorSize <= lenZ data -> Forall byte data ->
  exists s', SynchDisk_WriteSector s n data = Ok s' /\ disk_ready k s' /\
    disk_file (the_disk s') = splice (disk_file (the_disk s)) (SectorSize * n + MagicSize) (slice data 0 SectorSize) /\
    now s' = now s + Disk_ComputeLatency (the_disk s) (now s) n true + SystemTick.
Proof.
  intros Hr Hn Hlen Hb. pose proof (ready_latency k s n true Hr Hn) as Hlat. unfold RotationTime in Hlat.
  pose proof Hr as [[Hwf _ _ _ _ _] _ Ha Hd Ht]. unfold SynchDisk_WriteSector, Disk_WriteRequest.
  rewrite Ha, sector_okb by done. cbn [ASSERT negb mbind outcome_bind]. pose proof (sector_inside n Hn) as [? ?].
  rewrite (proj2 (Z.ltb_ge _ _)) by lia.
  assert (Hls : lenZ (slice data 0 SectorSize) = SectorSize) by (apply lenZ_slice; unfold SectorSize in *; lia).
  rewrite unix_write_ok by (rewrite ?(dw_length _ Hd), ?Hls; lia). cbn [mbind outcome_bind].
  set (d1 := set_active (set_file _ _) true). assert (Hd1 : disk_wf d1).
  { destruct Hd as [H1 H2 H3 H4]. split; simpl; try done; [rewrite lenZ_splice; rewrite ?H1, ?Hls; lia|].
    apply Forall_splice; [done|]. by apply Forall_slice. }
  destruct (request_ok k s (Disk_UpdateLast d1 (now s) n) (count_write (stats s))
    (Disk_ComputeLatency (the_disk s) (now s) n true) Hr) as (s1 & s' & -> & Hw & Hr' & Hd' & Hn').
  - pose proof (wf_now_nonneg s Hwf). apply UpdateLast_wf; [done|done|done|unfold MaxDelay in *; lia].
  - by right.
  - lia.
  - cbn [mbind outcome_bind]. rewrite Hw. exists s'. conjs; [done..| |done].
    rewrite Hd'. exact (proj2 (UpdateLast_frame _ (now s) n)).
Qed.

(** Writing a sector changes that sector only. *)
Lemma sector_of_splice d d' n n' bs :
  disk_wf d -> sector_ok n -> sector_ok n' -> lenZ bs = SectorSize ->
  disk_file d' = splice (disk_file d) (SectorSize * n + MagicSize) bs ->
  sector_of d' n' = if decide (n' = n) then bs else sector_of d n'.
Proof.
  intros Hd Hn Hn' Hbs E. unfold sector_of. rewrite E. pose proof (sector_inside n Hn). pose proof (sector_inside n' Hn').
  pose proof (dw_length _ Hd) as HL. case_decide as Hc.
  - subst n'. transitivity (slice (splice (disk_file d) (SectorSize * n + MagicSize) bs) (SectorSize * n + MagicSize) (lenZ bs)); [by rewrite Hbs|].
    apply slice_splice_same; lia.
  - apply slice_splice_disjoint; rewrite ?Hbs, ?HL; unfold SectorSize in *; lia.
Qed.

(** C20: sector I/O.  On a free disk with time left, [SynchDisk::ReadSector] and
    [WriteSector] return, after an idle wait for the interrupt of the disk, with the
    disk free again; a read delivers the content of the sector, a write changes that
    sector and no other.  The wait is the time to move the head to the track plus the
    time until the sector has passed under the head for the first time, or, for a
    read from the track buffer, one rotation step.  A sector number out of range
    stops the simulation. *)
Theorem sector_io k s n data :
  disk_ready (S k) s -> SectorSize <= lenZ data -> Forall byte data ->
  (sector_ok n ->
    (exists s1, SynchDisk_ReadSector s n = Ok (sector_of (the_disk s) n, s1) /\ disk_ready k s1 /\
       (forall j, sector_of (the_disk s1) j = sector_of (the_disk s) j) /\
       (now s1 = now s + RotationTime + SystemTick /\ buffered (the_disk s) (now s) n \/
        first_pass (now s + seek_time (the_disk s) n) n (now s1 - SystemTick - RotationTime))) /\
    (exists s1, SynchDisk_WriteSector s n data = Ok s1 /\ disk_ready k s1 /\
       (forall j, sector_ok j -> sector_of (the_disk s1) j = if decide (j = n) then slice data 0 SectorSize else sector_of (the_disk s) j) /\
       first_pass (now s + seek_time (the_disk s) n) n (now s1 - SystemTick - RotationTime))) /\
  (~ sector_ok n -> SynchDisk_ReadSector s n = AssertFail /\ SynchDisk_WriteSector s n data = AssertFail).
Proof.
  intros Hr Hlen Hb. pose proof Hr as [[Hwf _ _ _ _ _] _ Ha [Hd1 Hd2 Hd3 Hd4] Ht].
  pose proof (wf_now_nonneg s Hwf) as H0.
  assert (Hm : now s + MaxDelay <= int32_max) by (unfold MaxDelay in *; lia).
  split; [intros Hn; split|].
  - destruct (ReadSector_ok k s n Hr Hn) as (s1 & E & Hr1 & Hf & Hnow). exists s1. conjs; [done..| |].
    + intros j. unfold sector_of. by rewrite Hf.
    + destruct (ComputeLatency_spec _ _ n false Hn Hd3 Hd4 H0 Hm) as [_ [(E1 & _ & E2)|E1]]; [left|right].
      * split; [lia|done].
      * by replace (now s1 - SystemTick - RotationTime) with (now s + Disk_ComputeLatency (the_disk s) (now s) n false - RotationTime) by lia.
  - destruct (WriteSector_ok k s n data Hr Hn Hlen Hb) as (s1 & E & Hr1 & Hf & Hnow). exists s1. conjs; [done..| |].
    + intros j Hj. apply (sector_of_splice (the_disk s)); [done..| |done]. apply lenZ_slice; unfold SectorSize in *; lia.
    + destruct (ComputeLatency_spec _ _ n true Hn Hd3 Hd4 H0 Hm) as [_ [(_ & E1 & _)|E1]]; [done|].
      by replace (now s1 - SystemTick - RotationTime) with (now s + Disk_ComputeLatency (the_disk s) (now s) n true - RotationTime) by lia.
  - intros Hn. unfold SynchDisk_ReadSector, Disk_ReadRequest, SynchDisk_WriteSector, Disk_WriteRequest. rewrite Ha.
    assert ((0 <=? n) && (n <? NumSectors) = false) as ->; [|done].
    apply andb_false_iff. unfold sector_ok in Hn. rewrite Z.leb_gt, Z.ltb_ge. lia.
Qed.

(** *** A new disk *)

(** A new UNIX file: the magic number, then zeros. *)
Definition blank_file (N : nat) : list Z := splice ([0xab; 0x89; 0x67; 0x45] ++ replicate N 0) (DiskSize - 4) (replicate 4 0).

Lemma blank_file_ok N :
  Z.of_nat N = DiskSize - 4 -> disk_wf (mkDisk (blank_file N) false 0 0) /\
    forall n, sector_ok n -> sector_of (mkDisk (blank_file N) false 0 0) n = replicate 512 0.
Proof.
  intros HN. unfold blank_file. set (f := splice _ _ _).
  assert (HL : lenZ ([0xab; 0x89; 0x67; 0x45] ++ replicate N 0) = DiskSize).
  { rewrite lenZ_app. unfold lenZ at 2. rewrite length_replicate. change (lenZ [0xab; 0x89; 0x67; 0x45]) with 4. lia. }
  assert (Hpos : 0 <= DiskSize - 4) by (unfold DiskSize; unfold_disk; lia).
  assert (Hend : DiskSize - 4 + lenZ (replicate 4 0) <= lenZ ([0xab; 0x89; 0x67; 0x45] ++ replicate N 0)).
  { rewrite HL. change (lenZ (replicate 4 0)) with 4. lia. }
  assert (Hf : lenZ f = DiskSize) by (unfold f; by rewrite lenZ_splice).
  split.
  - split; simpl; [done| |unfold sector_ok, NumSectors; lia|unfold int32_max; lia].
    apply Forall_splice; [|apply Forall_replicate; unfold byte; lia]. apply Forall_app.
    split; [repeat constructor; unfold byte; lia|]. apply Forall_replicate. unfold byte. lia.
  - intros n Hn. pose proof (sector_inside n Hn) as [Ha Hb]. unfold sector_of. cbn [disk_file].
    apply lookupZ_ext; [rewrite lenZ_slice; rewrite ?Hf; [reflexivity|unfold SectorSize in *; lia..]|].
    intros i Hi. rewrite lenZ_slice in Hi by (rewrite ?Hf; unfold SectorSize in *; lia). rewrite lookupZ_slice by (unfold SectorSize in *; lia).
    assert (H0 : forall m j, 0 <= j < Z.of_nat m -> (replicate m 0).[j] = Some 0).
    { intros m j Hj. unfold lookupZ. rewrite (proj2 (Z.ltb_ge j 0)) by lia. apply lookup_replicate_2. lia. }
    rewrite H0 by (unfold SectorSize in *; lia). unfold f. rewrite lookupZ_splice by done.
    change (lenZ (replicate 4 0)) with 4 in *. case_if.
    + apply H0. to_prop. lia.
    + rewrite lookupZ_app_r; change (lenZ [0xab; 0x89; 0x67; 0x45]) with 4.
      * apply H0. unfold sector_ok in Hn. unfold DiskSize in *. unfold_disk. lia.
      * unfold sector_ok in Hn. unfold_disk. lia.
Qed.

(** [Disk::Disk] without a UNIX file makes a blank disk. *)
Lemma Disk_new_blank :
  exists d, Disk_new None = Ok d /\ disk_wf d /\ active d = false /\
    forall n, sector_ok n -> sector_of d n = replicate 512 0.
Proof.
  assert (E : forall p, 0 <= p -> (f ← unix_write [0xab; 0x89; 0x67; 0x45] p (replicate 4 0); Ok (mkDisk f false 0 0)) =
    Ok (mkDisk (splice ([0xab; 0x89; 0x67; 0x45] ++ replicate (Z.to_nat p) 0) p (replicate 4 0)) false 0 0)).
  { intros p Hp. unfold unix_write. rewrite (proj2 (Z.leb_le 0 p)) by done. cbn [ASSERT mbind outcome_bind].
    change (lenZ (replicate 4 0)) with 4. change (lenZ [0xab; 0x89; 0x67; 0x45]) with 4. by replace (p + 4 - 4) with p by lia. }
  assert (Hp : 0 <= DiskSize - 4) by (unfold DiskSize; unfold_disk; lia).
  exists (mkDisk (blank_file (Z.to_nat (DiskSize - 4))) false 0 0).
  destruct (blank_file_ok (Z.to_nat (DiskSize - 4)) (Z2Nat.id _ Hp)) as [H1 H2]. conjs; [|done..].
  unfold Disk_new. change (unix_write [] 0 (le_split 4 MagicNumber)) with (Ok [0xab; 0x89; 0x67; 0x45]).
  rewrite bind_Ok. change (le_split 4 0) with (replicate 4 0). exact (E _ Hp).
Qed.

(** A machine that has just been started, with interrupts enabled and this disk. *)
Definition blank_sys (d : Disk) : DSys :=
  mkSys (mkInterrupt IntOn [] false false SystemMode) Statistics_new None (mkSynchDisk d 0).

Lemma blank_ready d n :
  disk_wf d -> active d = false -> (n <= 1000)%nat -> disk_ready n (blank_sys d).
Proof.
  intros Hd Ha Hn. split; try done.
  - split; try done. split; simpl; try done. constructor.
  - unfold now, MaxDelay, int32_max. simpl. lia.
Qed.

Lemma sector_io_witness :
  exists s s1, SynchDisk_ReadSector s 40 = Ok (sector_of (the_disk s) 40, s1) /\
    sector_of (the_disk s) 40 = replicate 512 0 /\ SynchDisk_ReadSector s 1024 = AssertFail.
Proof.
  destruct Disk_new_blank as (d & _ & Hd & Ha & Hs). exists (blank_sys d).
  pose proof (blank_ready d 1 Hd Ha ltac:(lia)) as Hr.
  assert (Hl : SectorSize <= lenZ (replicate 512 0)) by (unfold lenZ, SectorSize; rewrite length_replicate; lia).
  assert (Hb : Forall byte (replicate 512 0)) by (apply Forall_replicate; unfold byte; lia).
  destruct (sector_io 0 (blank_sys d) 40 (replicate 512 0) Hr Hl Hb) as [H _].
  destruct (sector_io 0 (blank_sys d) 1024 (replicate 512 0) Hr Hl Hb) as [_ H'].
  assert (H40 : sector_ok 40) by (unfold sector_ok, NumSectors; lia).
  destruct (H H40) as [(s1 & E & _) _]. exists s1. split; [exact E|]. split; [exact (Hs 40 H40)|].
  apply H'. unfold sector_ok, NumSectors. lia.
Defined.

(** ** The interface to the file system *)

Class BlockDevice (D : Type) := {
  read_sector : D -> Z -> outcome (list Z * D);
  write_sector : D -> Z -> list Z -> outcome D;
  sector : D -> Z -> list Z;
  ready : nat -> D -> Prop }.

(** A device that is ready for [n] operations delivers what was written last. *)
Class BlockLaws (D : Type) `{!BlockDevice D} := {
  ready_S : forall n d, ready (S n) d -> ready n d;
  sector_len : forall n d i, ready n d -> sector_ok i -> lenZ (sector d i) = SectorSize;
  sector_bytes : forall n d i, ready n d -> sector_ok i -> Forall byte (sector d i);
  read_sector_ok : forall n d i, ready (S n) d -> sector_ok i ->
    exists d', read_sector d i = Ok (sector d i, d') /\ ready n d' /\ forall j, sector_ok j -> sector d' j = sector d j;
  write_sector_ok : forall n d i data, ready (S n) d -> sector_ok i -> SectorSize <= lenZ data -> Forall byte data ->
    exists d', write_sector d i data = Ok d' /\ ready n d' /\
      forall j, sector_ok j -> sector d' j = if decide (j = i) then slice data 0 SectorSize else sector d j }.

#[export] Instance SynchDisk_device : BlockDevice DSys := {
  read_sector := SynchDisk_ReadSector;
  write_sector := SynchDisk_WriteSector;
  sector := fun s => sector_of (the_disk s);
  ready := disk_ready }.

#[export] Instance SynchDisk_laws : BlockLaws DSys.
Proof.
  split; simpl.
  - intros n s [? ? ? ? Ht]. split; try done. unfold MaxDelay in *. lia.
  - intros n s i [_ _ _ [HL _ _ _] _] Hi. pose proof (sector_inside i Hi). unfold sector_of.
    apply lenZ_slice; unfold SectorSize in *; lia.
  - intros n s i [_ _ _ [_ Hb _ _] _] Hi. by apply Forall_slice.
  - intros n s i Hr Hi. destruct (ReadSector_ok n s i Hr Hi) as (s' & E & Hr' & Hf & _). exists s'. conjs; [done..|].
    intros j _. unfold sector_of. by rewrite Hf.
  - intros n s i data Hr Hi Hl Hb. destruct (WriteSector_ok n s i data Hr Hi Hl Hb) as (s' & E & Hr' & Hf & _).
    exists s'. conjs; [done..|]. intros j Hj. eapply sector_of_splice; [apply Hr|done|done| |done].
    apply lenZ_slice; unfold SectorSize in *; lia.
Qed.
