(* ===== verification/FileHdr.v ===== *)
(** * File headers (filesys/filehdr.h, filesys/filehdr.cc)

    A file header is the in-memory image of one disk sector: the length of the
    file and the table of its data sectors.  [Allocate] takes the sectors from the
    bitmap of free sectors, [Deallocate] gives them back. *)

From S2P Require Import Prelude Int32 BitMap Disk.

(** [NumDirect]: as many sector numbers as fit in a sector after two [int]s. *)
Definition NumDirect : Z := (SectorSize - 2 * 4) / 4.
Definition MaxFileSize : Z := NumDirect * SectorSize.

(** [class FileHeader] *)
Record FileHeader := mkHdr {
  numBytes : Z;
  numSectors : Z;
  dataSectors : list Z }.

(** The object as the bytes of a sector, [(char * )this], and back. *)
Definition hdr_to_bytes (h : FileHeader) : list Z :=
  words_to_bytes (map wrap_u32 (numBytes h :: numSectors h :: dataSectors h)).
Definition hdr_of_bytes (bs : list Z) : FileHeader :=
  mkHdr (wrap_s32 (le_combine (slice bs 0 4))) (wrap_s32 (le_combine (slice bs 4 4)))
    (map wrap_s32 (bytes_to_words (Z.to_nat NumDirect) (drop 8 bs))).

(** The loop of [Allocate], [n] iterations from [i]: storing behind the end of
    [dataSectors] has no meaning. *)
Fixpoint allocate_loop (n : nat) (i : Z) (ds : list Z) (freeMap : BitMap) : outcome (list Z * BitMap) :=
  match n with
  | O => Ok (ds, freeMap)
  | S n =>
      '(sector, freeMap) ← BitMap_Find freeMap;
      _ ← deref (ds.[i]);
      allocate_loop n (i + 1) (ds.[i <- sector]) freeMap
  end.

(** [FileHeader::Allocate]; [h] is the object before the call. *)
Definition FileHeader_Allocate (h : FileHeader) (freeMap : BitMap) (fileSize : Z)
    : outcome (bool * FileHeader * BitMap) :=
  let numSectors := divRoundUp fileSize SectorSize in
  free ← BitMap_NumClear freeMap;
  if free <? numSectors then Ok (false, mkHdr fileSize numSectors (dataSectors h), freeMap)
  else
    '(ds, freeMap) ← allocate_loop (Z.to_nat numSectors) 0 (dataSectors h) freeMap;
    Ok (true, mkHdr fileSize numSectors ds, freeMap).

(** [FileHeader::Deallocate] *)
Fixpoint deallocate_loop (n : nat) (i : Z) (ds : list Z) (freeMap : BitMap) : outcome BitMap :=
  match n with
  | O => Ok freeMap
  | S n =>
      sector ← deref (ds.[i]);
      t ← BitMap_Test freeMap sector;
      _ ← ASSERT t;
      freeMap ← BitMap_Clear freeMap sector;
      deallocate_loop n (i + 1) ds freeMap
  end.
Definition FileHeader_Deallocate (h : FileHeader) (freeMap : BitMap) : outcome BitMap :=
  deallocate_loop (Z.to_nat (numSectors h)) 0 (dataSectors h) freeMap.

(** [FileHeader::ByteToSector] and [FileHeader::FileLength] *)
Definition FileHeader_ByteToSector (h : FileHeader) (offset : Z) : outcome Z :=
  deref ((dataSectors h).[Z.quot offset SectorSize]).
Definition FileHeader_FileLength (h : FileHeader) : Z := numBytes h.

Section OnDisk.
Context {D : Type} `{!BlockDevice D}.

(** [FileHeader::FetchFrom] and [FileHeader::WriteBack] *)
Definition FileHeader_FetchFrom (d : D) (sector : Z) : outcome (FileHeader * D) :=
  '(bs, d) ← read_sector d sector;
  Ok (hdr_of_bytes bs, d).
Definition FileHeader_WriteBack (h : FileHeader) (d : D) (sector : Z) : outcome D :=
  write_sector d sector (hdr_to_bytes h).

(** [FileHeader::Print]: the numbers and the bytes of the file it prints. *)
Fixpoint print_loop (n : nat) (i k : Z) (h : FileHeader) (d : D) : outcome (list (list Z) * D) :=
  match n with
  | O => Ok ([], d)
  | S n =>
      sec ← deref ((dataSectors h).[i]);
      '(data, d) ← read_sector d sec;
      let shown := slice data 0 (Z.max 0 (Z.min SectorSize (numBytes h - k))) in
      '(rest, d) ← print_loop n (i + 1) (k + lenZ shown) h d;
      Ok (shown :: rest, d)
  end.
Definition FileHeader_Print (h : FileHeader) (d : D) : outcome (Z * list Z * list (list Z) * D) :=
  '(blocks, d) ← print_loop (Z.to_nat (numSectors h)) 0 0 h d;
  Ok (numBytes h, slice (dataSectors h) 0 (numSectors h), blocks, d).

End OnDisk.

(** ** The sectors of a file *)

(** The data sectors in use. *)
Definition hdr_sectors (h : FileHeader) : list Z := take (Z.to_nat (numSectors h)) (dataSectors h).

Record hdr_wf (h : FileHeader) : Prop := {
  hw_bytes : 0 <= numBytes h <= MaxFileSize;
  hw_sectors : numSectors h = divRoundUp (numBytes h) SectorSize;
  hw_table : lenZ (dataSectors h) = NumDirect;
  hw_words : Forall int32 (dataSectors h);
  hw_ok : Forall sector_ok (hdr_sectors h) }.

Lemma sector_count n :
  0 <= n <= MaxFileSize -> 0 <= divRoundUp n SectorSize <= NumDirect /\ n <= divRoundUp n SectorSize * SectorSize.
Proof.
  unfold MaxFileSize. change NumDirect with 126. unfold SectorSize. intros Hn.
  pose proof (divRoundUp_spec n 512 ltac:(lia) ltac:(lia)). lia.
Qed.

(** *** Round trip through a sector *)

Lemma wrap_s32_u32 x : int32 x -> wrap_s32 (wrap_u32 x) = x.
Proof.
  intros Hx. apply wrap_s32_unique; [done|]. unfold wrap_u32. exists (x / two32).
  unfold two32. pose proof (Z.div_mod x 4294967296). lia.
Qed.

Lemma map_wrap_s32_u32 l : Forall int32 l -> map wrap_s32 (map wrap_u32 l) = l.
Proof. induction 1 as [|x l Hx _ IH]; [done|]. cbn [map]. by rewrite IH, wrap_s32_u32. Qed.

Lemma Forall_wrap_u32 l : Forall uint32 (map wrap_u32 l).
Proof. induction l; constructor; auto with nachos. Qed.

Lemma hdr_to_bytes_length h : lenZ (dataSectors h) = NumDirect -> lenZ (hdr_to_bytes h) = SectorSize.
Proof.
  intros HL. unfold hdr_to_bytes. rewrite lenZ_words_to_bytes. unfold lenZ in *. rewrite length_map. cbn [length].
  change NumDirect with 126 in HL. unfold SectorSize. lia.
Qed.

Lemma hdr_round_trip h rest :
  int32 (numBytes h) -> int32 (numSectors h) -> Forall int32 (dataSectors h) -> lenZ (dataSectors h) = NumDirect ->
  hdr_of_bytes (hdr_to_bytes h ++ rest) = h.
Proof.
  intros Hb Hs Hd HL. destruct h as [nb ns ds]. unfold hdr_of_bytes, hdr_to_bytes. cbn [numBytes numSectors dataSectors] in *.
  unfold words_to_bytes. cbn [map mbind list_bind]. fold (words_to_bytes (map wrap_u32 ds)).
  set (b1 := le_split 4 (wrap_u32 nb)). set (b2 := le_split 4 (wrap_u32 ns)).
  assert (H1 : length b1 = 4%nat) by apply length_le_split. assert (H2 : length b2 = 4%nat) by apply length_le_split.
  rewrite <- !app_assoc. f_equal.
  - unfold slice. change (Z.to_nat 0) with 0%nat. rewrite drop_0, take_app_length' by done. unfold b1.
    rewrite le_combine_split4, (wrap_u32_id (wrap_u32 nb)) by apply wrap_u32_range. by apply wrap_s32_u32.
  - unfold slice. rewrite drop_app_length' by done. rewrite take_app_length' by done. unfold b2.
    rewrite le_combine_split4, (wrap_u32_id (wrap_u32 ns)) by apply wrap_u32_range. by apply wrap_s32_u32.
  - rewrite app_assoc, drop_app_length' by (rewrite length_app; lia).
    replace (Z.to_nat NumDirect) with (length (map wrap_u32 ds)) by (rewrite length_map; unfold lenZ in HL; lia).
    rewrite bytes_to_words_to_bytes by apply Forall_wrap_u32. by apply map_wrap_s32_u32.
Qed.

Lemma hdr_wf_ints h : hdr_wf h -> int32 (numBytes h) /\ int32 (numSectors h).
Proof.
  intros [Hb Hs _ _ _]. pose proof (sector_count _ Hb) as [Hc _]. rewrite Hs.
  unfold MaxFileSize in *. change NumDirect with 126 in *. unfold SectorSize, int32, int32_min, int32_max in *. lia.
Qed.

(** *** Allocation *)

(** [bm'] is [bm] with the sectors in [secs] set to [b]. *)
Definition updated (bm bm' : BitMap) (secs : list Z) (b : bool) : Prop :=
  BitMap_wf bm' /\ numBits bm' = numBits bm /\
  forall j, 0 <= j < numBits bm -> bit bm' j = if decide (j ∈ secs) then b else bit bm j.

Lemma updated_nil bm b : BitMap_wf bm -> updated bm bm [] b.
Proof. intros Hwf. split; [done|]. split; [done|]. intros j Hj. rewrite decide_False by set_solver. done. Qed.

Lemma updated_cons bm bm1 bm2 s secs b :
  0 <= s < numBits bm -> BitMap_wf bm1 -> numBits bm1 = numBits bm -> BitMap_bits bm1 = (BitMap_bits bm).[s <- b] ->
  updated bm1 bm2 secs b -> updated bm bm2 (s :: secs) b.
Proof.
  intros Hs Hwf Hn Hb (Hwf2 & Hn2 & Hb2). split; [done|]. split; [congruence|]. intros j Hj.
  rewrite Hb2, (bit_insert bm bm1 s b) by (congruence || done || lia).
  destruct (decide (j = s)) as [->|]; [rewrite (decide_True (P := s ∈ s :: secs)) by set_solver; by destruct (decide _)|].
  destruct (decide (j ∈ secs)); [rewrite decide_True by set_solver|rewrite decide_False by set_solver]; done.
Qed.

(** What the loop of [Allocate] stores: fresh, distinct sectors. *)
Lemma allocate_loop_ok n i ds bm :
  BitMap_wf bm -> 0 <= i -> i + Z.of_nat n <= lenZ ds -> Z.of_nat n <= count_clear (BitMap_bits bm) ->
  exists secs bm', allocate_loop n i ds bm = Ok (splice ds i secs, bm') /\ lenZ secs = Z.of_nat n /\ NoDup secs /\
    (forall s, s ∈ secs -> 0 <= s < numBits bm /\ bit bm s = false) /\ updated bm bm' secs true.
Proof.
  revert i ds bm. induction n as [|n IH]; intros i ds bm Hwf Hi Hlen Hfree; cbn [allocate_loop].
  - exists [], bm. conjs; [|done|constructor|set_solver|by apply updated_nil].
    do 2 f_equal. unfold splice. simpl. rewrite Nat.add_0_r. by rewrite take_drop.
  - destruct (BitMap_Find_spec bm Hwf) as (s & bm1 & -> & Hwf1 & Hn1 & [(_ & _ & Hall)|(Hs & Hclear & _ & Hb1)]).
    { rewrite (proj2 (all_set_zero bm Hwf) Hall) in Hfree. lia. }
    cbn [mbind outcome_bind]. destruct (lookupZ_range ds i) as [x Hx]; [lia|]. rewrite Hx. cbn [deref mbind outcome_bind].
    assert (Hc : count_clear (BitMap_bits bm1) = count_clear (BitMap_bits bm) - 1).
    { rewrite Hb1, (count_clear_insert _ _ false) by (rewrite lookupZ_bits by lia; congruence). lia. }
    destruct (IH (i + 1) (ds.[i <- s]) bm1) as (secs & bm' & -> & Hl & Hnd & Hin & Hup);
      [done|lia|rewrite lenZ_insertZ; lia|lia|].
    assert (Hbit : forall j, 0 <= j < numBits bm -> bit bm1 j = if decide (j = s) then true else bit bm j).
    { intros j Hj. by apply bit_insert. }
    exists (s :: secs), bm'. conjs.
    + do 2 f_equal. apply lookupZ_ext.
      * rewrite !lenZ_splice; rewrite ?lenZ_insertZ; try lia; unfold lenZ in *; cbn [length]; lia.
      * rewrite lenZ_splice by (rewrite ?lenZ_insertZ; lia). rewrite lenZ_insertZ. intros j Hj.
        rewrite !lookupZ_splice by (rewrite ?lenZ_insertZ; unfold lenZ in *; cbn [length]; lia).
        rewrite lookupZ_cons. replace (lenZ (s :: secs)) with (lenZ secs + 1) by (unfold lenZ; cbn [length]; lia).
        destruct (Z.eqb_spec (j - i) 0).
        -- assert (j = i) as -> by lia. rewrite (proj2 (Z.leb_gt (i + 1) i)), (proj2 (Z.leb_le i i)), (proj2 (Z.ltb_lt i (i + (lenZ secs + 1)))) by lia.
           cbn [andb]. apply lookupZ_insertZ_eq. lia.
        -- rewrite lookupZ_insertZ_ne by lia. replace (j - i - 1) with (j - (i + 1)) by lia.
           destruct (Z.leb_spec (i + 1) j), (Z.leb_spec i j), (Z.ltb_spec j (i + 1 + lenZ secs)), (Z.ltb_spec j (i + (lenZ secs + 1)));
             cbn [andb]; try lia; try done. by rewrite (proj2 (Z.ltb_ge (j - i) 0)) by lia.
    + unfold lenZ in *. cbn [length]. lia.
    + apply NoDup_cons. split; [|done]. intros Hs'. destruct (Hin s Hs') as [_ Hb]. rewrite Hbit, decide_True in Hb by (done || lia). done.
    + intros t [->|Ht]%elem_of_cons; [done|]. destruct (Hin t Ht) as [Ht1 Ht2]. rewrite Hn1 in Ht1. split; [done|].
      rewrite Hbit in Ht2 by done. by destruct (decide (t = s)).
    + by eapply updated_cons.
Qed.

Lemma take_splice (ds secs : list Z) n : lenZ secs = n -> n <= lenZ ds -> take (Z.to_nat n) (splice ds 0 secs) = secs.
Proof.
  intros Hl Hn. unfold splice. change (Z.to_nat 0) with 0%nat. rewrite take_0. cbn [app].
  rewrite take_app_length'; [done|]. unfold lenZ in *. lia.
Qed.

Lemma Forall_sector_int32 l : Forall sector_ok l -> Forall int32 l.
Proof. intros H. eapply Forall_impl; [exact H|]. unfold sector_ok, NumSectors. unfold_int32. lia. Qed.

(** [Allocate] for a size that fits a header. *)
Lemma Allocate_ok h bm size :
  BitMap_wf bm -> numBits bm = NumSectors -> 0 <= size <= MaxFileSize ->
  lenZ (dataSectors h) = NumDirect -> Forall int32 (dataSectors h) ->
  (count_clear (BitMap_bits bm) < divRoundUp size SectorSize ->
     exists h', FileHeader_Allocate h bm size = Ok (false, h', bm)) /\
  (divRoundUp size SectorSize <= count_clear (BitMap_bits bm) ->
     exists h' bm', FileHeader_Allocate h bm size = Ok (true, h', bm') /\ hdr_wf h' /\ numBytes h' = size /\
       NoDup (hdr_sectors h') /\ (forall s, s ∈ hdr_sectors h' -> bit bm s = false) /\ updated bm bm' (hdr_sectors h') true).
Proof.
  intros Hwf Hbits Hsize HL Hint. unfold FileHeader_Allocate. rewrite (BitMap_NumClear_spec bm Hwf). rewrite bind_Ok.
  pose proof (sector_count size Hsize) as [Hc _]. split; intros Hlt.
  - rewrite (proj2 (Z.ltb_lt _ _)) by lia. eauto.
  - rewrite (proj2 (Z.ltb_ge _ _)) by lia.
    destruct (allocate_loop_ok (Z.to_nat (divRoundUp size SectorSize)) 0 (dataSectors h) bm)
      as (secs & bm' & -> & Hl & Hnd & Hin & Hup); [done|lia|lia|lia|].
    rewrite bind_Ok. eexists _, bm'. split; [done|].
    assert (E : hdr_sectors (mkHdr size (divRoundUp size SectorSize) (splice (dataSectors h) 0 secs)) = secs).
    { unfold hdr_sectors. cbn [numSectors dataSectors]. apply take_splice; lia. }
    assert (Hok : Forall sector_ok secs).
    { apply Forall_forall. intros s Hs. unfold sector_ok. rewrite <- Hbits. by apply Hin. }
    rewrite E. conjs; [|done|done| |done].
    + split; cbn [numBytes numSectors dataSectors]; [done|done|rewrite lenZ_splice; lia| |by rewrite E].
      apply Forall_splice; [done|]. by apply Forall_sector_int32.
    + intros s Hs. by apply Hin.
Qed.

(** [Deallocate] clears the sectors of the file, which must be set. *)
Lemma deallocate_loop_ok n i ds bm secs :
  BitMap_wf bm -> 0 <= i -> slice ds i (Z.of_nat n) = secs -> i + Z.of_nat n <= lenZ ds -> NoDup secs ->
  (forall s, s ∈ secs -> 0 <= s < numBits bm /\ bit bm s = true) ->
  exists bm', deallocate_loop n i ds bm = Ok bm' /\ updated bm bm' secs false.
Proof.
  revert i bm secs. induction n as [|n IH]; intros i bm secs Hwf Hi Hsl Hlen Hnd Hin; cbn [deallocate_loop].
  - exists bm. split; [done|]. assert (secs = []) as -> by (by rewrite <- Hsl). by apply updated_nil.
  - destruct (lookupZ_range ds i) as [s Hs]; [lia|]. rewrite Hs. cbn [deref mbind outcome_bind].
    assert (Hc : secs = s :: slice ds (i + 1) (Z.of_nat n)).
    { rewrite <- Hsl. unfold slice. rewrite !Nat2Z.id. unfold lookupZ in Hs.
      rewrite (proj2 (Z.ltb_ge i 0)) in Hs by lia. rewrite (drop_S ds s (Z.to_nat i) Hs).
      replace (Z.to_nat (i + 1)) with (S (Z.to_nat i)) by lia. done. }
    rewrite Hc in *. apply NoDup_cons in Hnd as [Hnin Hnd]. destruct (Hin s) as [Hr Hb]; [set_solver|].
    rewrite (BitMap_Test_spec bm Hwf s Hr), Hb. cbn [ASSERT mbind outcome_bind].
    destruct (BitMap_Clear_spec bm Hwf s Hr) as (bm1 & -> & Hwf1 & Hn1 & Hb1). cbn [mbind outcome_bind].
    destruct (IH (i + 1) bm1 _ Hwf1 ltac:(lia) eq_refl ltac:(lia) Hnd) as (bm' & -> & Hup).
    + intros t Ht. destruct (Hin t) as [Htr Htb]; [set_solver|]. split; [congruence|].
      rewrite (bit_insert bm bm1 s false) by done. by rewrite decide_False by set_solver.
    + exists bm'. split; [done|]. by eapply updated_cons.
Qed.

Lemma Deallocate_ok h bm :
  hdr_wf h -> BitMap_wf bm -> numBits bm = NumSectors -> NoDup (hdr_sectors h) ->
  (forall s, s ∈ hdr_sectors h -> bit bm s = true) ->
  exists bm', FileHeader_Deallocate h bm = Ok bm' /\ updated bm bm' (hdr_sectors h) false.
Proof.
  intros [Hb Hs HL _ Hok] Hwf Hbits Hnd Hset. pose proof (sector_count _ Hb) as [Hc _]. unfold FileHeader_Deallocate.
  apply deallocate_loop_ok; [done|lia| |lia|done|].
  - unfold slice, hdr_sectors. change (Z.to_nat 0) with 0%nat. rewrite drop_0. do 2 f_equal. lia.
  - intros s Hin. split; [|by apply Hset]. rewrite Hbits. rewrite Forall_forall in Hok. by apply Hok.
Qed.

Lemma hdr_sectors_length h : hdr_wf h -> lenZ (hdr_sectors h) = numSectors h.
Proof.
  intros [Hb Hs HL _ _]. pose proof (sector_count _ Hb) as [Hc _]. unfold hdr_sectors, lenZ in *. rewrite length_take. lia.
Qed.

Lemma hdr_sector h s : hdr_wf h -> s ∈ hdr_sectors h -> sector_ok s.
Proof. intros [_ _ _ _ Hok]. rewrite Forall_forall in Hok. apply Hok. Qed.

(** The sector of a byte inside the file. *)
Lemma ByteToSector_ok h i :
  hdr_wf h -> 0 <= i < numSectors h ->
  exists s, FileHeader_ByteToSector h (i * SectorSize) = Ok s /\ (hdr_sectors h).[i] = Some s /\ sector_ok s.
Proof.
  intros Hwf Hi. pose proof (hdr_sectors_length h Hwf) as HL. destruct (lookupZ_range (hdr_sectors h) i) as [s Hs]; [lia|].
  exists s. assert (E : (dataSectors h).[i] = Some s).
  { rewrite <- Hs. unfold hdr_sectors, lookupZ. destruct (i <? 0); [done|]. rewrite lookup_take_lt by lia. done. }
  conjs; [|done|].
  - unfold FileHeader_ByteToSector, SectorSize. rewrite Z.quot_mul, E by lia. done.
  - eapply hdr_sector; [done|]. by eapply lookupZ_elem_of.
Qed.

Section OnDiskLemmas.
Context {D : Type} `{!BlockDevice D, !BlockLaws D}.

(** A header that the disk holds in a sector. *)
Definition on_disk (d : D) (sec : Z) (h : FileHeader) : Prop := hdr_of_bytes (sector d sec) = h.

Lemma FetchFrom_ok n d sec :
  ready (S n) d -> sector_ok sec ->
  exists d', FileHeader_FetchFrom d sec = Ok (hdr_of_bytes (sector d sec), d') /\ ready n d' /\
    forall j, sector_ok j -> sector d' j = sector d j.
Proof.
  intros Hr Hs. unfold FileHeader_FetchFrom. destruct (read_sector_ok n d sec Hr Hs) as (d' & -> & Hr' & Hf).
  cbn [mbind outcome_bind]. by exists d'.
Qed.

Lemma WriteBack_ok n d sec h :
  ready (S n) d -> sector_ok sec -> hdr_wf h ->
  exists d', FileHeader_WriteBack h d sec = Ok d' /\ ready n d' /\ on_disk d' sec h /\
    forall j, sector_ok j -> j <> sec -> sector d' j = sector d j.
Proof.
  intros Hr Hs Hwf. unfold FileHeader_WriteBack. pose proof (hdr_wf_ints h Hwf) as [H1 H2]. destruct Hwf as [_ _ HL Hint _].
  pose proof (hdr_to_bytes_length h HL) as Hlen.
  destruct (write_sector_ok n d sec (hdr_to_bytes h) Hr Hs) as (d' & -> & Hr' & Hf); [lia|apply words_to_bytes_bytes|].
  exists d'. conjs; [done|done| |].
  - unfold on_disk. rewrite Hf, decide_True by done. rewrite slice_all by done.
    rewrite <- (app_nil_r (hdr_to_bytes h)). by apply hdr_round_trip.
  - intros j Hj Hne. by rewrite Hf, decide_False.
Qed.

(** C34: a file header and the free map.  For a size that a header can describe,
    [Allocate] fails exactly when there are too few free sectors, and then leaves the
    map alone; otherwise it takes as many distinct free sectors as the size needs and
    marks exactly those, and [Deallocate] of the header, as read back from the disk
    after [WriteBack], clears exactly those again: the map is as before. *)
Theorem header_allocation (h : FileHeader) bm size (d : D) sec :
  BitMap_wf bm -> numBits bm = NumSectors -> 0 <= size <= MaxFileSize ->
  lenZ (dataSectors h) = NumDirect -> Forall int32 (dataSectors h) -> sector_ok sec -> ready 2 d ->
  let need := divRoundUp size SectorSize in
  exists ok h' bm', FileHeader_Allocate h bm size = Ok (ok, h', bm') /\
    (ok = true <-> need <= count_clear (BitMap_bits bm)) /\
    (ok = false -> bm' = bm) /\
    (ok = true -> lenZ (hdr_sectors h') = need /\ NoDup (hdr_sectors h') /\
       (forall j, j ∈ hdr_sectors h' -> (BitMap_bits bm).[j] = Some false) /\
       (forall j, sector_ok j -> bit bm' j = bool_decide (j ∈ hdr_sectors h') || bit bm j) /\
       exists s1 s2 bm2, FileHeader_WriteBack h' d sec = Ok s1 /\ FileHeader_FetchFrom s1 sec = Ok (h', s2) /\
         FileHeader_Deallocate h' bm' = Ok bm2 /\ BitMap_bits bm2 = BitMap_bits bm).
Proof.
  intros Hwf Hbits Hsize HL Hint Hsec Hr need. destruct (Allocate_ok h bm size Hwf Hbits Hsize HL Hint) as [Hf Ht].
  destruct (decide (need <= count_clear (BitMap_bits bm))) as [Hle|Hgt].
  - destruct (Ht Hle) as (h' & bm' & E & Hh & Hnb & Hnd & Hfree & Hwf' & Hn' & Hup). exists true, h', bm'. conjs; [done|done|done|].
    intros _. pose proof (hdr_sectors_length h' Hh) as Hlen. pose proof (hw_ok _ Hh) as Hok. rewrite Forall_forall in Hok. conjs.
    + rewrite Hlen, (hw_sectors _ Hh), Hnb. done.
    + done.
    + intros j Hj. rewrite lookupZ_bits by (rewrite Hbits; by apply Hok). by rewrite Hfree.
    + intros j Hj. rewrite Hup by (rewrite Hbits; done). by case_bool_decide; [rewrite decide_True|rewrite decide_False].
    + destruct (WriteBack_ok 1 d sec h' Hr Hsec Hh) as (s1 & E1 & Hr1 & Hon & _).
      destruct (FetchFrom_ok 0 s1 sec Hr1 Hsec) as (s2 & E2 & _). rewrite Hon in E2.
      destruct (Deallocate_ok h' bm' Hh Hwf') as (bm2 & E3 & Hwf2 & Hn2 & Hup2); [congruence|done| |].
      { intros j Hj. rewrite Hup by (rewrite Hbits; by apply Hok). by rewrite decide_True. }
      exists s1, s2, bm2. conjs; [done..|]. apply lookupZ_ext; rewrite !lenZ_bits by (destruct Hwf2, Hwf; lia); [congruence|].
      intros j Hj. rewrite Hn2, Hn' in Hj. rewrite !lookupZ_bits by (rewrite ?Hn2, ?Hn'; done).
      rewrite Hup2 by (by rewrite Hn'). rewrite Hup by done. destruct (decide (j ∈ hdr_sectors h')); [by rewrite Hfree|done].
  - destruct (Hf ltac:(unfold need in *; lia)) as (h' & E). exists false, h', bm. conjs; [done| |done|done]. split; [done|intros; lia].
Qed.

End OnDiskLemmas.

Lemma header_allocation_witness :
  exists h bm size d sec, let need := divRoundUp size SectorSize in
  need = 3 /\ exists ok h' bm', FileHeader_Allocate h bm size = Ok (ok, h', bm') /\
    (ok = true <-> need <= count_clear (BitMap_bits bm)) /\
    (ok = true -> exists s1 s2 bm2, FileHeader_WriteBack h' d sec = Ok s1 /\ FileHeader_FetchFrom (D := DSys) s1 sec = Ok (h', s2) /\
         FileHeader_Deallocate h' bm' = Ok bm2 /\ BitMap_bits bm2 = BitMap_bits bm).
Proof.
  destruct Disk_new_blank as (dk & _ & Hd & Ha & _).
  destruct (BitMap_new_spec 1024 (replicate 32 0)) as (bm & _ & Hwf & Hn & _);
    [lia|reflexivity|apply Forall_replicate; unfold_int32; lia|].
  exists (mkHdr 0 0 (replicate 126 0)), bm, 1200, (blank_sys dk), 5. split; [reflexivity|].
  destruct (header_allocation (mkHdr 0 0 (replicate 126 0)) bm 1200 (blank_sys dk) 5 Hwf Hn)
    as (ok & h' & bm' & E & Hok & _ & H).
  - unfold MaxFileSize, SectorSize. change NumDirect with 126. lia.
  - reflexivity.
  - apply Forall_replicate. unfold_int32. lia.
  - unfold sector_ok, NumSectors. lia.
  - apply blank_ready; [exact Hd|exact Ha|lia].
  - exists ok, h', bm'. split; [exact E|]. split; [exact Hok|]. intros Ht. destruct (H Ht) as (_ & _ & _ & _ & H'). exact H'.
Defined.

(** *** Files that are too large *)

Lemma allocate_loop_overrun n i ds bm :
  BitMap_wf bm -> 0 <= i <= lenZ ds -> lenZ ds < i + Z.of_nat n -> Z.of_nat n <= count_clear (BitMap_bits bm) ->
  allocate_loop n i ds bm = Undefined.
Proof.
  revert i ds bm. induction n as [|n IH]; intros i ds bm Hwf Hi Hover Hfree; [lia|]. cbn [allocate_loop].
  destruct (BitMap_Find_spec bm Hwf) as (s & bm1 & -> & Hwf1 & Hn1 & [(_ & _ & Hall)|(Hs & Hclear & _ & Hb1)]).
  { rewrite (proj2 (all_set_zero bm Hwf) Hall) in Hfree. lia. }
  cbn [mbind outcome_bind]. destruct (decide (i = lenZ ds)) as [->|Hne]; [by rewrite lookupZ_None by lia|].
  destruct (lookupZ_range ds i) as [x Hx]; [lia|]. rewrite Hx. cbn [deref mbind outcome_bind].
  apply IH; [done|rewrite lenZ_insertZ; lia|rewrite lenZ_insertZ; lia|].
  rewrite Hb1, (count_clear_insert _ _ false) by (rewrite lookupZ_bits by lia; congruence). lia.
Qed.

(** A file that is too large.  [Allocate] compares the size only with the number of
    free sectors: for a file of more than [MaxFileSize] bytes on a disk with enough free
    sectors it stores sector numbers behind the end of [dataSectors]. *)
Theorem Allocate_overruns_header h bm size :
  BitMap_wf bm -> lenZ (dataSectors h) = NumDirect -> MaxFileSize < size ->
  divRoundUp size SectorSize <= count_clear (BitMap_bits bm) ->
  FileHeader_Allocate h bm size = Undefined.
Proof.
  intros Hwf HL Hsize Hfree. unfold FileHeader_Allocate. rewrite (BitMap_NumClear_spec bm Hwf), bind_Ok.
  rewrite (proj2 (Z.ltb_ge _ _)) by lia. unfold MaxFileSize in Hsize. change NumDirect with 126 in *.
  pose proof (divRoundUp_spec size SectorSize) as Hd. unfold SectorSize in *.
  rewrite allocate_loop_overrun; [done|done|lia|lia|lia].
Qed.

Lemma Allocate_overruns_header_witness :
  exists bm, FileHeader_Allocate (mkHdr 0 0 (replicate 126 0)) bm 65000 = Undefined.
Proof.
  destruct (BitMap_new_spec 1024 (replicate 32 0)) as (bm & _ & Hwf & Hn & Hb);
    [lia|reflexivity|apply Forall_replicate; unfold_int32; lia|].
  exists bm. apply (Allocate_overruns_header (mkHdr 0 0 (replicate 126 0)) bm 65000 Hwf).
  - reflexivity.
  - unfold MaxFileSize, SectorSize. change NumDirect with 126. lia.
  - rewrite Hb. vm_compute. discriminate.
Defined.
