(* ===== verification/OpenFile.v ===== *)
(** * Open files (filesys/openfile.h, filesys/openfile.cc)

    [ReadAt] and [WriteAt] transfer any range of bytes of a file by whole sectors.
    The bytes of a file, [file_bytes], are its data sectors in order, cut at the
    length of the file; the theorems say that [ReadAt] is a slice of that sequence
    and [WriteAt] replaces a slice of it and touches no other sector. *)

From S2P Require Import Prelude Int32 BitMap Disk FileHdr.

(** [class OpenFile] *)
Record OpenFile := mkOpenFile { hdr : FileHeader; seekPosition : Z; of_type : Z }.

Section OpenFile.
Context {D : Type} `{!BlockDevice D}.
(** [new char[n]]: the bytes that happen to be in the new buffer. *)
Context (uninit : Z -> list Z).

(** [OpenFile::OpenFile(int, int)]; the constructor without a type leaves it as it
    is in the fresh object. *)
Definition OpenFile_new (d : D) (sector type : Z) : outcome (OpenFile * D) :=
  '(h, d) ← FileHeader_FetchFrom d sector;
  Ok (mkOpenFile h 0 type, d).

(** [OpenFile::Seek], [OpenFile::Length], [OpenFile::GetCurrentPos] *)
Definition OpenFile_Seek (f : OpenFile) (position : Z) : OpenFile := mkOpenFile (hdr f) position (of_type f).
Definition OpenFile_Length (f : OpenFile) : Z := FileHeader_FileLength (hdr f).
Definition OpenFile_GetCurrentPos (f : OpenFile) : Z := seekPosition f.

(** The sectors [i], [i+1], ... ([n] of them) into consecutive parts of a buffer. *)
Fixpoint read_sectors (n : nat) (i : Z) (h : FileHeader) (d : D) : outcome (list Z * D) :=
  match n with
  | O => Ok ([], d)
  | S n =>
      sec ← FileHeader_ByteToSector h (i * SectorSize);
      '(bs, d) ← read_sector d sec;
      '(rest, d) ← read_sectors n (i + 1) h d;
      Ok (bs ++ rest, d)
  end.

(** [OpenFile::ReadAt]: the bytes copied to [into]; the result is their number. *)
Definition OpenFile_ReadAt (f : OpenFile) (d : D) (numBytes position : Z) : outcome (list Z * D) :=
  let fileLength := FileHeader_FileLength (hdr f) in
  if (numBytes <=? 0) || (fileLength <=? position) then Ok ([], d)
  else
    let numBytes := if fileLength <? wrap_s32 (position + numBytes) then wrap_s32 (fileLength - position) else numBytes in
    let firstSector := divRoundDown position SectorSize in
    let lastSector := divRoundDown (wrap_s32 (position + numBytes - 1)) SectorSize in
    let numSectors := 1 + lastSector - firstSector in
    '(buf, d) ← read_sectors (Z.to_nat numSectors) firstSector (hdr f) d;
    bytes ← fetch buf (position - firstSector * SectorSize) numBytes;
    Ok (bytes, d).

(** Consecutive parts of a buffer to the sectors [i], [i+1], ... *)
Fixpoint write_sectors (n : nat) (i firstSector : Z) (h : FileHeader) (buf : list Z) (d : D) : outcome D :=
  match n with
  | O => Ok d
  | S n =>
      sec ← FileHeader_ByteToSector h (i * SectorSize);
      bs ← fetch buf ((i - firstSector) * SectorSize) SectorSize;
      d ← write_sector d sec bs;
      write_sectors n (i + 1) firstSector h buf d
  end.

(** [ReadAt(&buf[off], SectorSize, sector * SectorSize)] *)
Definition read_into_buf (f : OpenFile) (d : D) (buf : list Z) (off sector : Z) : outcome (list Z * D) :=
  '(bytes, d) ← OpenFile_ReadAt f d SectorSize (sector * SectorSize);
  buf ← store buf off bytes;
  Ok (buf, d).

(** The first and the last sector, if they are to be partially modified. *)
Definition read_partial (f : OpenFile) (d : D) (buf : list Z) (firstSector lastSector : Z)
    (firstAligned lastAligned : bool) : outcome (list Z * D) :=
  '(buf, d) ← (if negb firstAligned then read_into_buf f d buf 0 firstSector else Ok (buf, d));
  if negb lastAligned && (negb (firstSector =? lastSector) || firstAligned)
  then read_into_buf f d buf ((lastSector - firstSector) * SectorSize) lastSector
  else Ok (buf, d).

(** [OpenFile::WriteAt]: the number of bytes written. *)
Definition OpenFile_WriteAt (f : OpenFile) (d : D) (from : list Z) (numBytes position : Z) : outcome (Z * D) :=
  let fileLength := FileHeader_FileLength (hdr f) in
  if (numBytes <=? 0) || (fileLength <=? position) then Ok (0, d)
  else
    let numBytes := if fileLength <? wrap_s32 (position + numBytes) then wrap_s32 (fileLength - position) else numBytes in
    let firstSector := divRoundDown position SectorSize in
    let lastSector := divRoundDown (wrap_s32 (position + numBytes - 1)) SectorSize in
    let numSectors := 1 + lastSector - firstSector in
    let buf := uninit (numSectors * SectorSize) in
    let firstAligned := position =? firstSector * SectorSize in
    let lastAligned := position + numBytes =? (lastSector + 1) * SectorSize in
    '(buf, d) ← read_partial f d buf firstSector lastSector firstAligned lastAligned;
    bytes ← fetch from 0 numBytes;
    buf ← store buf (position - firstSector * SectorSize) bytes;
    d ← write_sectors (Z.to_nat numSectors) firstSector firstSector (hdr f) buf d;
    Ok (numBytes, d).

(** [OpenFile::Read] and [OpenFile::Write] *)
Definition OpenFile_Read (f : OpenFile) (d : D) (numBytes : Z) : outcome (list Z * OpenFile * D) :=
  '(bytes, d) ← OpenFile_ReadAt f d numBytes (seekPosition f);
  Ok (bytes, OpenFile_Seek f (wrap_s32 (seekPosition f + lenZ bytes)), d).
Definition OpenFile_Write (f : OpenFile) (d : D) (from : list Z) (numBytes : Z) : outcome (Z * OpenFile * D) :=
  '(n, d) ← OpenFile_WriteAt f d from numBytes (seekPosition f);
  Ok (n, OpenFile_Seek f (wrap_s32 (seekPosition f + n)), d).

(** ** The bytes of a file *)

Definition blocks (d : D) (h : FileHeader) : list (list Z) := map (sector d) (hdr_sectors h).
Definition file_bytes (d : D) (h : FileHeader) : list Z := slice (concat (blocks d h)) 0 (numBytes h).

Section Lemmas.
Context `{!BlockLaws D}.
Context (uninit_len : forall n, 0 <= n -> lenZ (uninit n) = n) (uninit_bytes : forall n, Forall byte (uninit n)).

Lemma blocks_len n d h : ready n d -> hdr_wf h -> Forall (fun l => lenZ l = SectorSize) (blocks d h).
Proof.
  intros Hr Hwf. unfold blocks. apply Forall_map. pose proof (hw_ok _ Hwf) as Hok.
  eapply Forall_impl; [exact Hok|]. intros s Hs. simpl. by eapply sector_len.
Qed.

Lemma lenZ_map {A B} (g : A -> B) l : lenZ (map g l) = lenZ l.
Proof. unfold lenZ. by rewrite length_map. Qed.

Lemma lookupZ_map {A B} (g : A -> B) l i : (map g l).[i] = g <$> l.[i].
Proof. unfold lookupZ. case_if; [done|]. apply list_lookup_fmap. Qed.

Lemma raw_len n d h : ready n d -> hdr_wf h -> lenZ (concat (blocks d h)) = SectorSize * numSectors h.
Proof.
  intros Hr Hwf. rewrite (lenZ_concat SectorSize) by (by eapply blocks_len). unfold blocks.
  by rewrite lenZ_map, hdr_sectors_length.
Qed.

Lemma size_fits h : hdr_wf h -> 0 <= numBytes h <= SectorSize * numSectors h /\ 0 <= numSectors h <= 126 /\
  SectorSize * (numSectors h - 1) < numBytes h.
Proof.
  intros [Hb Hs _ _ _]. rewrite Hs. pose proof (sector_count _ Hb) as [Hc Hc'].
  change NumDirect with 126 in *. unfold SectorSize in *. pose proof (divRoundUp_spec (numBytes h) 512 ltac:(lia) ltac:(lia)). lia.
Qed.

Lemma file_bytes_len n d h : ready n d -> hdr_wf h -> lenZ (file_bytes d h) = numBytes h.
Proof.
  intros Hr Hwf. pose proof (size_fits h Hwf). unfold file_bytes. apply lenZ_slice; [lia..|].
  rewrite (raw_len n) by done. lia.
Qed.

(** Byte [k] of the file is in block [k / SectorSize]. *)
Lemma file_byte n d h k :
  ready n d -> hdr_wf h -> 0 <= k < numBytes h ->
  (file_bytes d h).[k] = s ← (hdr_sectors h).[k / SectorSize]; (sector d s).[k mod SectorSize].
Proof.
  intros Hr Hwf Hk. unfold file_bytes. rewrite lookupZ_slice by lia. rewrite Z.add_0_l.
  rewrite (lookupZ_concat SectorSize) by (done || (by eapply blocks_len) || lia). unfold blocks. rewrite lookupZ_map.
  by destruct ((hdr_sectors h).[k / SectorSize]).
Qed.

Lemma file_bytes_ext d d' h :
  (forall s, s ∈ hdr_sectors h -> sector d' s = sector d s) -> file_bytes d' h = file_bytes d h.
Proof.
  intros Hs. unfold file_bytes, blocks. do 2 f_equal. apply map_ext_in. intros s Hin. apply Hs. by apply list_elem_of_In.
Qed.

(** *** Reading *)

Lemma read_sectors_ok m n i h d :
  ready (n + m) d -> hdr_wf h -> 0 <= i -> i + Z.of_nat n <= numSectors h ->
  exists d', read_sectors n i h d = Ok (concat (slice (blocks d h) i (Z.of_nat n)), d') /\ ready m d' /\
    forall j, sector_ok j -> sector d' j = sector d j.
Proof.
  revert i d. induction n as [|n IH]; intros i d Hr Hwf Hi Hn; cbn [read_sectors].
  - exists d. conjs; [|done|done]. unfold slice. by rewrite take_0.
  - destruct (ByteToSector_ok h i Hwf) as (s & -> & Hs & Hok); [lia|]. cbn [mbind outcome_bind].
    destruct (read_sector_ok (n + m) d s Hr Hok) as (d1 & -> & Hr1 & Hf1). cbn [mbind outcome_bind].
    destruct (IH (i + 1) d1 Hr1 Hwf) as (d' & -> & Hr' & Hf'); [lia..|]. cbn [mbind outcome_bind]. exists d'. conjs; [|done|].
    + do 2 f_equal. assert (blocks d1 h = blocks d h) as ->.
      { unfold blocks. apply map_ext_in. intros t Ht. apply Hf1. eapply hdr_sector; [done|]. by apply list_elem_of_In. }
      assert (Hb : (blocks d h).[i] = Some (sector d s)) by (unfold blocks; by rewrite lookupZ_map, Hs).
      unfold slice. unfold lookupZ in Hb. rewrite (proj2 (Z.ltb_ge i 0)) in Hb by lia. rewrite (drop_S _ _ _ Hb).
      replace (Z.to_nat (i + 1)) with (S (Z.to_nat i)) by lia. rewrite !Nat2Z.id. done.
    + intros j Hj. by rewrite Hf', Hf1.
Qed.

(** The number of sectors that a range of bytes touches. *)
Definition touched (position n : Z) : nat := Z.to_nat (1 + (position + n - 1) / SectorSize - position / SectorSize).

Lemma touched_fits h position n :
  hdr_wf h -> 0 <= position -> 0 < n -> position + n <= numBytes h ->
  position / SectorSize + Z.of_nat (touched position n) <= numSectors h /\
  Z.of_nat (touched position n) = 1 + (position + n - 1) / SectorSize - position / SectorSize /\
  0 <= position / SectorSize <= (position + n - 1) / SectorSize.
Proof.
  intros Hwf Hp Hn Hfit. pose proof (size_fits h Hwf) as (Hs & _). unfold touched, SectorSize in *.
  assert (0 <= position / 512 <= (position + n - 1) / 512) by dlia. split; [|lia]. rewrite Z2Nat.id by lia. dlia.
Qed.

(** The bytes of the buffer that [read_sectors] fills are those of the file. *)
Lemma buffer_byte n d h i m b :
  ready n d -> hdr_wf h -> 0 <= i -> i + m <= numSectors h -> 0 <= b < m * SectorSize ->
  i * SectorSize + b < numBytes h ->
  (concat (slice (blocks d h) i m)).[b] = (file_bytes d h).[i * SectorSize + b].
Proof.
  intros Hr Hwf Hi Hm Hb Hk. pose proof (blocks_len n d h Hr Hwf) as Hlen. unfold SectorSize in *.
  rewrite (lookupZ_concat 512); [|lia|by apply Forall_slice|lia].
  rewrite lookupZ_slice by dlia. rewrite (file_byte n) by (done || lia). unfold SectorSize.
  replace (i * 512 + b) with (b + i * 512) by lia. rewrite Z.div_add, Z.mod_add by lia.
  unfold blocks. rewrite lookupZ_map. rewrite (Z.add_comm i). by destruct ((hdr_sectors h).[b / 512 + i]).
Qed.

Lemma ReadAt_nothing f d n position :
  n <= 0 \/ numBytes (hdr f) <= position -> OpenFile_ReadAt f d n position = Ok ([], d).
Proof.
  intros H. unfold OpenFile_ReadAt, FileHeader_FileLength.
  destruct (Z.leb_spec n 0), (Z.leb_spec (numBytes (hdr f)) position); simpl; try done. lia.
Qed.

Lemma ReadAt_ok m f d n position :
  hdr_wf (hdr f) -> 0 <= position < numBytes (hdr f) -> 0 < n -> position + n <= int32_max ->
  let len := Z.min n (numBytes (hdr f) - position) in
  ready (touched position len + m) d ->
  exists d', OpenFile_ReadAt f d n position = Ok (slice (file_bytes d (hdr f)) position len, d') /\ ready m d' /\
    forall j, sector_ok j -> sector d' j = sector d j.
Proof.
  intros Hwf Hp Hn Hmax len Hr. unfold OpenFile_ReadAt, FileHeader_FileLength. pose proof (size_fits _ Hwf) as (Hs & Hc & _).
  assert (Hb : numBytes (hdr f) <= 64512) by (unfold SectorSize in *; lia).
  rewrite (proj2 (Z.leb_gt n 0)), (proj2 (Z.leb_gt (numBytes (hdr f)) position)) by lia. cbn [orb].
  rewrite (wrap_s32_id (position + n)) by (unfold_int32; lia). rewrite (wrap_s32_id (numBytes (hdr f) - position)) by (unfold_int32; lia).
  assert ((if numBytes (hdr f) <? position + n then numBytes (hdr f) - position else n) = len) as ->.
  { unfold len. destruct (Z.ltb_spec (numBytes (hdr f)) (position + n)); lia. }
  rewrite wrap_s32_id by (unfold_int32; lia). rewrite !divRoundDown_div by (unfold SectorSize; lia).
  destruct (touched_fits (hdr f) position len Hwf) as (Ht1 & Ht2 & Ht3); [lia..|]. rewrite <- Ht2. rewrite Nat2Z.id.
  destruct (read_sectors_ok m (touched position len) (position / SectorSize) (hdr f) d) as (d' & -> & Hr' & Hf'); [done|done|lia|lia|].
  cbn [mbind outcome_bind]. set (buf := concat _).
  assert (HL : lenZ buf = SectorSize * Z.of_nat (touched position len)).
  { unfold buf. rewrite (lenZ_concat SectorSize) by (apply Forall_slice; by eapply blocks_len).
    rewrite lenZ_slice; [lia|lia|lia|]. unfold blocks. rewrite lenZ_map, hdr_sectors_length by done. lia. }
  assert (Hoff : 0 <= position - position / SectorSize * SectorSize /\ position - position / SectorSize * SectorSize + len <= lenZ buf).
  { rewrite HL, Ht2. unfold SectorSize in *. split; dlia. }
  rewrite fetch_ok by lia. cbn [mbind outcome_bind]. exists d'. conjs; [|done|done]. do 2 f_equal.
  pose proof (file_bytes_len _ d _ Hr Hwf) as HF. apply lookupZ_ext; rewrite !lenZ_slice by lia; [done|].
  intros k Hk. rewrite !lookupZ_slice by lia. unfold buf.
  rewrite (buffer_byte (touched position len + m)) by (done || lia || (rewrite HL in Hoff; lia)). f_equal. lia.
Qed.

(** *** Writing *)

Lemma write_sectors_ok m n i first h buf d :
  ready (n + m) d -> hdr_wf h -> NoDup (hdr_sectors h) -> 0 <= first <= i -> i + Z.of_nat n <= numSectors h ->
  (i - first + Z.of_nat n) * SectorSize <= lenZ buf -> Forall byte buf ->
  exists d', write_sectors n i first h buf d = Ok d' /\ ready m d' /\
    (forall j s, i <= j < i + Z.of_nat n -> (hdr_sectors h).[j] = Some s -> sector d' s = slice buf ((j - first) * SectorSize) SectorSize) /\
    (forall s, sector_ok s -> (forall j, i <= j < i + Z.of_nat n -> (hdr_sectors h).[j] <> Some s) -> sector d' s = sector d s).
Proof.
  intros Hr Hwf Hnd. revert i d Hr. induction n as [|n IH]; intros i d Hr Hi Hn Hlen Hb; cbn [write_sectors].
  - exists d. conjs; [done|done|lia|done].
  - destruct (ByteToSector_ok h i Hwf) as (s & -> & Hs & Hok); [lia|]. cbn [mbind outcome_bind].
    assert (H0 : 0 <= (i - first) * SectorSize) by (unfold SectorSize; lia).
    assert (H1 : (i - first) * SectorSize + SectorSize <= lenZ buf) by (unfold SectorSize in *; lia).
    rewrite fetch_ok by (unfold SectorSize in *; lia). cbn [mbind outcome_bind].
    assert (HL : lenZ (slice buf ((i - first) * SectorSize) SectorSize) = SectorSize) by (apply lenZ_slice; unfold SectorSize in *; lia).
    destruct (write_sector_ok (n + m) d s (slice buf ((i - first) * SectorSize) SectorSize) Hr Hok) as (d1 & -> & Hr1 & Hf1);
      [lia|by apply Forall_slice|]. cbn [mbind outcome_bind].
    destruct (IH (i + 1) d1 Hr1) as (d' & -> & Hr' & Hw & Hf'); [lia..|lia|done|].
    assert (Hinj : forall j t, i < j -> (hdr_sectors h).[j] = Some t -> t <> s).
    { intros j t Hj Ht ->. unfold lookupZ in Hs, Ht. rewrite (proj2 (Z.ltb_ge _ 0)) in Hs by lia.
      rewrite (proj2 (Z.ltb_ge _ 0)) in Ht by lia. pose proof (NoDup_lookup _ _ _ _ Hnd Hs Ht). lia. }
    rewrite slice_all in Hf1 by done. exists d'. conjs; [done|done| |].
    + intros j t Hj Ht. destruct (decide (j = i)) as [->|]; [|by apply Hw; [lia|]].
      assert (t = s) as -> by congruence. rewrite Hf'; [by rewrite Hf1, decide_True|done|].
      intros j' Hj' E. by eapply (Hinj j' s); [lia|exact E|].
    + intros t Ht Hne. rewrite Hf'; [|done|intros j Hj; apply Hne; lia]. rewrite Hf1 by done. rewrite decide_False; [done|].
      intros ->. apply (Hne i); [lia|done].
Qed.

(** Bytes of a buffer that agree with the file from [base] on. *)
Definition agrees (d : D) (h : FileHeader) (base : Z) (buf : list Z) (lo hi : Z) : Prop :=
  forall k, lo <= k < hi -> k < numBytes h -> buf.[k - base] = (file_bytes d h).[k].

(** Reading one sector into the buffer. *)
Lemma read_into_buf_ok m f d buf off sec :
  ready (S m) d -> hdr_wf (hdr f) -> 0 <= sec < numSectors (hdr f) -> 0 <= off -> off + SectorSize <= lenZ buf -> Forall byte buf ->
  exists buf' d', read_into_buf f d buf off sec = Ok (buf', d') /\ ready m d' /\
    (forall j, sector_ok j -> sector d' j = sector d j) /\ lenZ buf' = lenZ buf /\ Forall byte buf' /\
    agrees d (hdr f) (sec * SectorSize - off) buf' (sec * SectorSize) (sec * SectorSize + SectorSize) /\
    (forall b, b < off \/ off + SectorSize <= b -> buf'.[b] = buf.[b]).
Proof.
  intros Hr Hwf Hsec Hoff Hlen Hb. pose proof (size_fits _ Hwf) as (Hs & Hc & Hlast). unfold read_into_buf.
  set (len := Z.min SectorSize (numBytes (hdr f) - sec * SectorSize)).
  assert (Hin : 0 <= sec * SectorSize < numBytes (hdr f)) by (unfold SectorSize in *; lia).
  assert (Hl : 0 < len <= SectorSize) by (unfold len, SectorSize in *; lia).
  assert (Ht : touched (sec * SectorSize) len = 1%nat).
  { unfold touched. unfold SectorSize in *. replace (sec * 512 + len - 1) with (len - 1 + sec * 512) by lia.
    rewrite Z.div_add, Z.div_mul, Z.div_small by lia. lia. }
  destruct (ReadAt_ok m f d SectorSize (sec * SectorSize) Hwf Hin) as (d' & -> & Hr' & Hf');
    [unfold SectorSize; lia|unfold SectorSize, int32_max in *; lia|fold len; rewrite Ht; exact Hr|]. fold len. cbn [mbind outcome_bind].
  pose proof (file_bytes_len _ d _ Hr Hwf) as HF.
  assert (HLs : lenZ (slice (file_bytes d (hdr f)) (sec * SectorSize) len) = len) by (apply lenZ_slice; unfold len in *; lia).
  rewrite store_ok by lia. cbn [mbind outcome_bind]. eexists _, d'. conjs; [done|done|done| | | |].
  - apply lenZ_splice; lia.
  - apply Forall_splice; [done|]. apply Forall_slice. unfold file_bytes. apply Forall_slice. apply Forall_concat. unfold blocks.
    apply Forall_map. pose proof (hw_ok _ Hwf) as Hok. eapply Forall_impl; [exact Hok|]. intros s Hs'. simpl. by eapply sector_bytes.
  - intros k Hk Hkn. rewrite lookupZ_splice by lia. rewrite HLs.
    rewrite (proj2 (Z.leb_le off (k - (sec * SectorSize - off)))) by lia.
    rewrite (proj2 (Z.ltb_lt (k - (sec * SectorSize - off)) (off + len))) by (unfold len; lia). cbn [andb].
    rewrite lookupZ_slice by (unfold len in *; lia). f_equal. lia.
  - intros b Hbo. rewrite lookupZ_splice by lia. rewrite HLs. destruct (Z.leb_spec off b), (Z.ltb_spec b (off + len)); cbn [andb]; try done. lia.
Qed.

Lemma ready_le a b d : ready (a + b) d -> ready b d.
Proof. induction a as [|a IH]; [done|]. intros H. by apply IH, ready_S. Qed.

Lemma agrees_frame d h base buf buf' lo hi :
  agrees d h base buf lo hi -> (forall k, lo <= k < hi -> buf'.[k - base] = buf.[k - base]) -> agrees d h base buf' lo hi.
Proof. intros Ha Hf k Hk Hn. rewrite Hf by done. by apply Ha. Qed.

(** After [read_partial] the parts of the first and the last sector that will not
    be overwritten hold the bytes of the file. *)
Lemma read_partial_ok m f d buf first last position stop (fa la : bool) :
  ready (2 + m) d -> hdr_wf (hdr f) -> 0 <= first <= last -> last < numSectors (hdr f) ->
  lenZ buf = (1 + last - first) * SectorSize -> Forall byte buf ->
  fa = (position =? first * SectorSize) -> la = (stop =? (last + 1) * SectorSize) ->
  first * SectorSize <= position < first * SectorSize + SectorSize -> last * SectorSize < stop <= (last + 1) * SectorSize ->
  exists buf' d', read_partial f d buf first last fa la = Ok (buf', d') /\ ready m d' /\
    (forall j, sector_ok j -> sector d' j = sector d j) /\ lenZ buf' = lenZ buf /\ Forall byte buf' /\
    agrees d (hdr f) (first * SectorSize) buf' (first * SectorSize) position /\
    agrees d (hdr f) (first * SectorSize) buf' stop ((last + 1) * SectorSize).
Proof.
  intros Hr Hwf Hfl Hlast Hlen Hb Efa Ela Hpos Hstop. unfold read_partial. unfold SectorSize in *.
  assert (H1 : exists buf1 d1, (if negb fa then read_into_buf f d buf 0 first else Ok (buf, d)) = Ok (buf1, d1) /\ ready (1 + m) d1 /\
    (forall j, sector_ok j -> sector d1 j = sector d j) /\ lenZ buf1 = lenZ buf /\ Forall byte buf1 /\
    (fa = false -> agrees d (hdr f) (first * 512) buf1 (first * 512) (first * 512 + 512))).
  { destruct fa; cbn [negb].
    - exists buf, d. conjs; try done. by apply ready_S.
    - destruct (read_into_buf_ok (1 + m) f d buf 0 first Hr Hwf) as (buf1 & d1 & E & Hr1 & Hf1 & Hl1 & Hb1 & Ha1 & _);
        [lia|lia|unfold SectorSize; lia|done|]. exists buf1, d1. conjs; try done. intros _. unfold SectorSize in *. by rewrite Z.sub_0_r in Ha1. }
  destruct H1 as (buf1 & d1 & -> & Hr1 & Hf1 & Hl1 & Hb1 & Ha1). cbn [mbind outcome_bind].
  assert (Hhead : agrees d (hdr f) (first * 512) buf1 (first * 512) position).
  { destruct fa; [symmetry in Efa; apply Z.eqb_eq in Efa; intros k; lia|]. intros k Hk. apply Ha1; [done|lia]. }
  destruct (negb la && (negb (first =? last) || fa)) eqn:Ec.
  - destruct (read_into_buf_ok m f d1 buf1 ((last - first) * 512) last Hr1 Hwf) as (buf2 & d2 & -> & Hr2 & Hf2 & Hl2 & Hb2 & Ha2 & Hk2);
      [lia|lia|unfold SectorSize; lia|done|]. unfold SectorSize in *. exists buf2, d2. conjs; [done|done| |lia|done| |].
    + intros j Hj. by rewrite Hf2, Hf1.
    + destruct (decide (first = last)) as [->|Hne].
      * destruct fa; [symmetry in Efa; apply Z.eqb_eq in Efa; intros k; lia|]. rewrite Z.eqb_refl in Ec. cbn in Ec. by rewrite andb_false_r in Ec.
      * eapply agrees_frame; [exact Hhead|]. intros k Hk. apply Hk2. lia.
    + intros k Hk Hn. rewrite <- (file_bytes_ext d d1 (hdr f)).
      * replace (k - first * 512) with (k - (last * 512 - (last - first) * 512)) by lia. apply Ha2; lia.
      * intros s Hs. apply Hf1. by eapply hdr_sector.
  - exists buf1, d1. conjs; [done|by apply ready_S|done|done|done|done|].
    destruct la; [symmetry in Ela; apply Z.eqb_eq in Ela; intros k; lia|]. cbn [negb andb] in Ec.
    apply orb_false_iff in Ec as [He%negb_false_iff Hfa]. apply Z.eqb_eq in He. subst last.
    intros k Hk Hn. apply (Ha1 Hfa); lia.
Qed.

Lemma WriteAt_nothing f d from n position :
  n <= 0 \/ numBytes (hdr f) <= position -> OpenFile_WriteAt f d from n position = Ok (0, d).
Proof.
  intros H. unfold OpenFile_WriteAt, FileHeader_FileLength.
  destruct (Z.leb_spec n 0), (Z.leb_spec (numBytes (hdr f)) position); simpl; try done. lia.
Qed.

(** The content of a file after its sectors [first] to [last] have been written
    from a buffer. *)
Lemma written_bytes m0 m1 d d' h buf position bytes first last :
  ready m0 d -> ready m1 d' -> hdr_wf h -> 0 <= first <= last -> last < numSectors h ->
  lenZ buf = (1 + last - first) * SectorSize -> first * SectorSize <= position ->
  position + lenZ bytes <= (last + 1) * SectorSize -> position + lenZ bytes <= numBytes h ->
  last * SectorSize < position + lenZ bytes -> position < first * SectorSize + SectorSize ->
  agrees d h (first * SectorSize) buf (first * SectorSize) position ->
  agrees d h (first * SectorSize) buf (position + lenZ bytes) ((last + 1) * SectorSize) ->
  (forall j s, first <= j < first + (1 + last - first) -> (hdr_sectors h).[j] = Some s ->
     sector d' s = slice (splice buf (position - first * SectorSize) bytes) ((j - first) * SectorSize) SectorSize) ->
  (forall s, sector_ok s -> (forall j, first <= j < first + (1 + last - first) -> (hdr_sectors h).[j] <> Some s) -> sector d' s = sector d s) ->
  NoDup (hdr_sectors h) ->
  file_bytes d' h = splice (file_bytes d h) position bytes.
Proof.
  intros Hr Hr' Hwf Hfl Hlast Hlen Hp1 Hp2 Hp3 Hp4 Hp5 Ha1 Ha2 Hw Hf Hnd. pose proof (lenZ_nonneg bytes) as Hb0.
  pose proof (file_bytes_len _ d h Hr Hwf) as HL. pose proof (file_bytes_len _ d' h Hr' Hwf) as HL'.
  assert (0 <= position) by (unfold SectorSize in *; lia).
  apply lookupZ_ext; [rewrite lenZ_splice; lia|]. rewrite HL'. intros k Hk. rewrite lookupZ_splice by lia.
  rewrite (file_byte m1) by done. pose proof (size_fits h Hwf) as (Hs & _).
  destruct (lookupZ_range (hdr_sectors h) (k / SectorSize)) as [s Es].
  { rewrite hdr_sectors_length by done. unfold SectorSize in *. dlia. }
  rewrite Es. cbn [mbind option_bind]. destruct (decide (first <= k / SectorSize <= last)) as [Hin|Hout].
  - rewrite (Hw (k / SectorSize) s) by (done || lia). unfold SectorSize in *.
    rewrite lookupZ_slice by dlia. rewrite lookupZ_splice by (rewrite ?Hlen; lia).
    replace ((k / 512 - first) * 512 + k mod 512) with (k - first * 512) by dlia.
    destruct (Z.leb_spec position k).
    + rewrite (proj2 (Z.leb_le (position - first * 512) (k - first * 512))) by lia. cbn [andb].
      destruct (Z.ltb_spec k (position + lenZ bytes)).
      * rewrite (proj2 (Z.ltb_lt (k - first * 512) _)) by lia. f_equal. lia.
      * rewrite (proj2 (Z.ltb_ge (k - first * 512) _)) by lia. apply Ha2; [dlia|lia].
    + rewrite (proj2 (Z.leb_gt (position - first * 512) (k - first * 512))) by lia. cbn [andb]. apply Ha1; [dlia|lia].
  - assert (Hno : sector d' s = sector d s).
    { apply Hf.
      - eapply hdr_sector; [done|]. by eapply lookupZ_elem_of.
      - intros j Hj Ej. unfold lookupZ in Es, Ej. rewrite (proj2 (Z.ltb_ge j 0)) in Ej by lia.
        destruct (k / SectorSize <? 0) eqn:E0; [done|]. apply Z.ltb_ge in E0.
        pose proof (NoDup_lookup _ _ _ _ Hnd Es Ej). lia. }
    rewrite Hno. unfold SectorSize in *.
    assert ((position <=? k) && (k <? position + lenZ bytes) = false) as ->.
    { apply andb_false_iff. rewrite Z.leb_gt, Z.ltb_ge. dlia. }
    rewrite (file_byte m0) by (done || lia). unfold SectorSize. by rewrite Es.
Qed.

Lemma WriteAt_ok m f d from n position :
  hdr_wf (hdr f) -> NoDup (hdr_sectors (hdr f)) -> 0 <= position < numBytes (hdr f) -> 0 < n -> position + n <= int32_max ->
  let len := Z.min n (numBytes (hdr f) - position) in
  len <= lenZ from -> Forall byte from -> ready (2 + (touched position len + m)) d ->
  exists d', OpenFile_WriteAt f d from n position = Ok (len, d') /\ ready m d' /\
    file_bytes d' (hdr f) = splice (file_bytes d (hdr f)) position (slice from 0 len) /\
    (forall s, sector_ok s -> s ∉ hdr_sectors (hdr f) -> sector d' s = sector d s).
Proof.
  intros Hwf Hnd Hp Hn Hmax len Hfrom Hbf Hr. unfold OpenFile_WriteAt, FileHeader_FileLength. pose proof (size_fits _ Hwf) as (Hs & Hc & _).
  assert (Hb : numBytes (hdr f) <= 64512) by (unfold SectorSize in *; lia).
  rewrite (proj2 (Z.leb_gt n 0)), (proj2 (Z.leb_gt (numBytes (hdr f)) position)) by lia. cbn [orb].
  rewrite (wrap_s32_id (position + n)) by (unfold_int32; lia). rewrite (wrap_s32_id (numBytes (hdr f) - position)) by (unfold_int32; lia).
  assert ((if numBytes (hdr f) <? position + n then numBytes (hdr f) - position else n) = len) as ->.
  { unfold len. destruct (Z.ltb_spec (numBytes (hdr f)) (position + n)); lia. }
  rewrite wrap_s32_id by (unfold_int32; lia). rewrite !divRoundDown_div by (unfold SectorSize; lia).
  destruct (touched_fits (hdr f) position len Hwf) as (Ht1 & Ht2 & Ht3); [lia..|].
  set (first := position / SectorSize) in *. set (last := (position + len - 1) / SectorSize) in *.
  assert (Hpos : first * SectorSize <= position < first * SectorSize + SectorSize) by (unfold first, SectorSize; dlia).
  assert (Hstop : last * SectorSize < position + len <= (last + 1) * SectorSize) by (unfold last, SectorSize; dlia).
  assert (HL0 : lenZ (uninit ((1 + last - first) * SectorSize)) = (1 + last - first) * SectorSize).
  { apply uninit_len. unfold SectorSize. lia. }
  destruct (read_partial_ok (touched position len + m) f d (uninit ((1 + last - first) * SectorSize)) first last position (position + len)
    (position =? first * SectorSize) (position + len =? (last + 1) * SectorSize) Hr Hwf Ht3 ltac:(lia) HL0 (uninit_bytes _) eq_refl eq_refl Hpos Hstop)
    as (buf & d1 & -> & Hr1 & Hf1 & Hl1 & Hb1 & Ha1 & Ha2). cbn [mbind outcome_bind].
  assert (Hls : lenZ (slice from 0 len) = len) by (apply lenZ_slice; lia).
  rewrite fetch_ok by lia. cbn [mbind outcome_bind]. rewrite store_ok by (rewrite ?Hls, ?Hl1; lia). cbn [mbind outcome_bind].
  set (buf2 := splice buf _ _). assert (HL2 : lenZ buf2 = (1 + last - first) * SectorSize) by (unfold buf2; rewrite lenZ_splice; lia).
  rewrite <- Ht2, Nat2Z.id.
  destruct (write_sectors_ok m (touched position len) first first (hdr f) buf2 d1) as (d' & -> & Hr' & Hw & Hf'); [done|done|done|lia|lia| | |].
  { rewrite HL2, <- Ht2. replace (first - first) with 0 by lia. lia. }
  { unfold buf2. apply Forall_splice; [done|]. by apply Forall_slice. }
  cbn [mbind outcome_bind]. exists d'. rewrite Ht2 in Hw, Hf'. conjs; [done|done| |].
  - assert (Hsame : file_bytes d1 (hdr f) = file_bytes d (hdr f)).
    { apply file_bytes_ext. intros s Hss. apply Hf1. by eapply hdr_sector. }
    rewrite <- Hsame. eapply (written_bytes _ m d1 d' (hdr f) buf position (slice from 0 len) first last Hr1 Hr' Hwf); rewrite ?Hls; try done; try lia.
    + intros k Hk Hkn. rewrite Ha1 by done. by rewrite Hsame.
    + intros k Hk Hkn. rewrite Ha2 by done. by rewrite Hsame.
  - intros s Hok Hns. rewrite Hf'; [by apply Hf1|done|]. intros j Hj Ej. apply Hns. by eapply lookupZ_elem_of.
Qed.

Lemma touched_bound h position n :
  hdr_wf h -> 0 <= position -> 0 < n -> position + n <= numBytes h -> (touched position n <= 126)%nat.
Proof.
  intros Hwf Hp Hn Hfit. destruct (touched_fits h position n Hwf Hp Hn Hfit) as (H1 & _ & H3).
  pose proof (size_fits h Hwf) as (_ & H & _). lia.
Qed.

Lemma slice_zero (l : list Z) off n : n <= 0 -> slice l off n = [].
Proof. intros. unfold slice. by replace (Z.to_nat n) with O by lia. Qed.

Lemma splice_nil (l : list Z) off : splice l off [] = l.
Proof. unfold splice. simpl. rewrite Nat.add_0_r. apply take_drop. Qed.

(** [ReadAt] for every range. *)
Lemma ReadAt_any m f d n position :
  hdr_wf (hdr f) -> 0 <= position -> position + n <= int32_max -> ready (126 + m) d ->
  let len := Z.max 0 (Z.min n (numBytes (hdr f) - position)) in
  exists d', OpenFile_ReadAt f d n position = Ok (slice (file_bytes d (hdr f)) position len, d') /\ ready m d' /\
    lenZ (slice (file_bytes d (hdr f)) position len) = len /\ forall j, sector_ok j -> sector d' j = sector d j.
Proof.
  intros Hwf Hp Hmax Hr len. pose proof (file_bytes_len _ d _ Hr Hwf) as HF. pose proof (size_fits _ Hwf) as (Hs & _).
  destruct (decide (n <= 0 \/ numBytes (hdr f) <= position)) as [Hno|Hyes].
  - exists d. rewrite ReadAt_nothing by done. unfold len. rewrite slice_zero by lia.
    conjs; [done|by eapply ready_le|unfold lenZ; simpl; lia|done].
  - assert (Hlen : len = Z.min n (numBytes (hdr f) - position)) by lia.
    pose proof (touched_bound (hdr f) position len Hwf Hp ltac:(lia) ltac:(lia)) as Ht.
    destruct (ReadAt_ok m f d n position Hwf) as (d' & E & Hr' & Hf'); [lia|lia|done| |].
    + rewrite <- Hlen. apply (ready_le (126 - touched position len)).
      by replace (126 - touched position len + (touched position len + m))%nat with (126 + m)%nat by lia.
    + rewrite <- Hlen in E. exists d'. conjs; [done|done| |done]. apply lenZ_slice; lia.
Qed.

(** C18: reading a file.  For every range of bytes, aligned or not, inside the file or
    reaching beyond its end, [ReadAt] returns exactly the bytes of the file in that
    range, as many as there are, and changes nothing on the disk. *)
Theorem ReadAt_refines m f d n position :
  hdr_wf (hdr f) -> 0 <= position -> position + n <= int32_max -> ready (126 + m) d ->
  let len := Z.max 0 (Z.min n (numBytes (hdr f) - position)) in
  exists d', OpenFile_ReadAt f d n position = Ok (slice (file_bytes d (hdr f)) position len, d') /\ ready m d' /\
    lenZ (slice (file_bytes d (hdr f)) position len) = len /\ forall j, sector_ok j -> sector d' j = sector d j.
Proof. intros Hwf Hp Hmax Hr. by apply ReadAt_any. Qed.

(** Writing a file.  [WriteAt] replaces exactly the bytes of the file in the given
    range, cut at the end of the file, keeps every other byte of the file, even in the
    sectors it writes only in part, and changes no sector of any other file. *)
Theorem WriteAt_refines m f d from n position :
  hdr_wf (hdr f) -> NoDup (hdr_sectors (hdr f)) -> 0 <= position -> position + n <= int32_max ->
  n <= lenZ from -> Forall byte from -> ready (128 + m) d ->
  let len := Z.max 0 (Z.min n (numBytes (hdr f) - position)) in
  exists d', OpenFile_WriteAt f d from n position = Ok (len, d') /\ ready m d' /\
    file_bytes d' (hdr f) = splice (file_bytes d (hdr f)) position (slice from 0 len) /\
    (forall s, sector_ok s -> s ∉ hdr_sectors (hdr f) -> sector d' s = sector d s) /\
    (forall h, hdr_wf h -> (forall s, s ∈ hdr_sectors h -> s ∉ hdr_sectors (hdr f)) -> file_bytes d' h = file_bytes d h).
Proof.
  intros Hwf Hnd Hp Hmax Hfrom Hbf Hr len.
  assert (H : exists d', OpenFile_WriteAt f d from n position = Ok (len, d') /\ ready m d' /\
    file_bytes d' (hdr f) = splice (file_bytes d (hdr f)) position (slice from 0 len) /\
    (forall s, sector_ok s -> s ∉ hdr_sectors (hdr f) -> sector d' s = sector d s)).
  { destruct (decide (n <= 0 \/ numBytes (hdr f) <= position)) as [Hno|Hyes].
    - exists d. rewrite WriteAt_nothing by done. assert (len = 0) as -> by lia. rewrite (slice_zero from), splice_nil by lia.
      conjs; [done|by eapply ready_le|done|done].
    - assert (Hlen : len = Z.min n (numBytes (hdr f) - position)) by lia.
      pose proof (touched_bound (hdr f) position len Hwf Hp ltac:(lia) ltac:(lia)) as Ht.
      rewrite Hlen. apply WriteAt_ok; [done|done|lia|lia|lia|lia|done|].
      rewrite <- Hlen. apply (ready_le (126 - touched position len)).
      by replace (126 - touched position len + (2 + (touched position len + m)))%nat with (128 + m)%nat by lia. }
  destruct H as (d' & E & Hr' & Hc & Hf). exists d'. conjs; [done..|].
  intros h Hh Hdis. apply file_bytes_ext. intros s Hs. apply Hf; [by eapply hdr_sector|by apply Hdis].
Qed.

End Lemmas.
End OpenFile.

(** *** An open file on a blank disk *)

Definition sample_hdr : FileHeader := mkHdr 1000 2 ([7; 3] ++ replicate 124 0).

Lemma sample_hdr_wf : hdr_wf sample_hdr /\ NoDup (hdr_sectors sample_hdr).
Proof.
  split.
  - split; simpl; [unfold MaxFileSize; change NumDirect with 126; unfold SectorSize; lia|reflexivity|reflexivity| |].
    + repeat constructor; unfold_int32; lia.
    + repeat constructor; unfold sector_ok, NumSectors; lia.
  - change (hdr_sectors sample_hdr) with [7; 3]. repeat constructor; set_solver.
Qed.

Lemma ReadAt_refines_witness :
  exists d d', OpenFile_ReadAt (D := DSys) (mkOpenFile sample_hdr 0 0) d 20 990 =
      Ok (slice (file_bytes d sample_hdr) 990 10, d') /\ lenZ (slice (file_bytes d sample_hdr) 990 10) = 10.
Proof.
  destruct Disk_new_blank as (dk & _ & Hd & Ha & _). exists (blank_sys dk).
  destruct (ReadAt_refines (D := DSys) 0 (mkOpenFile sample_hdr 0 0) (blank_sys dk) 20 990) as (d' & E & _ & HL & _).
  - apply sample_hdr_wf.
  - lia.
  - unfold int32_max. lia.
  - apply blank_ready; [exact Hd|exact Ha|lia].
  - exists d'. split; [exact E|exact HL].
Defined.

Definition zeros (n : Z) : list Z := replicate (Z.to_nat n) 0.

Lemma lenZ_zeros_buf n : 0 <= n -> lenZ (zeros n) = n.
Proof. intros. unfold lenZ, zeros. rewrite length_replicate. lia. Qed.

Lemma zeros_bytes n : Forall byte (zeros n).
Proof. apply Forall_replicate. unfold byte. lia. Qed.

Lemma WriteAt_refines_witness :
  exists d d', OpenFile_WriteAt (D := DSys) zeros (mkOpenFile sample_hdr 0 0) d [1; 2; 3; 4; 5] 5 510 = Ok (5, d') /\
    file_bytes d' sample_hdr = splice (file_bytes d sample_hdr) 510 [1; 2; 3; 4; 5].
Proof.
  destruct Disk_new_blank as (dk & _ & Hd & Ha & _). exists (blank_sys dk).
  destruct (WriteAt_refines (D := DSys) zeros lenZ_zeros_buf zeros_bytes 0 (mkOpenFile sample_hdr 0 0) (blank_sys dk) [1; 2; 3; 4; 5] 5 510)
    as (d' & E & _ & Hc & _).
  - apply sample_hdr_wf.
  - apply sample_hdr_wf.
  - lia.
  - unfold int32_max. lia.
  - unfold lenZ. simpl. lia.
  - repeat constructor; unfold byte; lia.
  - apply blank_ready; [exact Hd|exact Ha|lia].
  - exists d'. split; [exact E|exact Hc].
Defined.
