(* ===== verification/Directory.v ===== *)
(** * Directories (filesys/directory.h, filesys/directory.cc)

    A directory is a table of entries, stored as it is in memory in a file.  Names
    are compared and stored up to [FileNameMaxLen] characters.  [dir_lookup] is the
    finite map from names to header sectors that a table stands for. *)

From S2P Require Import Prelude Int32 BitMap Disk FileHdr OpenFile.

Definition FileNameMaxLen : Z := 9.
Definition DirectoryEntrySize : Z := 20.

(** [class DirectoryEntry]: 20 bytes, with padding after [inUse] and [name]. *)
Record DirectoryEntry := mkDirEntry {
  inUse : bool;
  pad1 : list Z;
  de_sector : Z;
  name : list Z;
  pad2 : list Z }.

Definition set_inUse (e : DirectoryEntry) (b : bool) : DirectoryEntry := mkDirEntry b (pad1 e) (de_sector e) (name e) (pad2 e).

(** [class Directory] *)
Record Directory := mkDirectory { tableSize : Z; table : list DirectoryEntry }.

(** [Directory::Directory]: [storage] is the fresh array, of which only the
    [inUse] flags are set. *)
Definition Directory_new (size : Z) (storage : list DirectoryEntry) : Directory :=
  mkDirectory size (map (fun e => set_inUse e false) (take (Z.to_nat size) storage)).

(** ** Strings of C *)

(** [!strncmp(a, s, n)] for an array of characters [a] and a string [s], which ends
    in a NUL that is not written. *)
Fixpoint strncmp_eq (n : nat) (a s : list Z) : bool :=
  match n with
  | O => true
  | S n =>
      let x := default 0 (head a) in
      let y := default 0 (head s) in
      if x =? y then if x =? 0 then true else strncmp_eq n (tail a) (tail s) else false
  end.

(** [strncpy(a, s, n)] *)
Definition strncpy (n : Z) (a s : list Z) : list Z :=
  let copied := take (Z.to_nat n) s in
  copied ++ replicate (Z.to_nat n - length copied) 0 ++ drop (Z.to_nat n) a.

(** ** The operations *)

(** The loops over the table, from index [i]. *)
Fixpoint find_index (i : Z) (t : list DirectoryEntry) (nm : list Z) : Z :=
  match t with
  | [] => -1
  | e :: t => if inUse e && strncmp_eq (Z.to_nat FileNameMaxLen) (name e) nm then i else find_index (i + 1) t nm
  end.

(** [Directory::FindIndex] *)
Definition Directory_FindIndex (dir : Directory) (nm : list Z) : Z :=
  find_index 0 (take (Z.to_nat (tableSize dir)) (table dir)) nm.

(** [Directory::Find] *)
Definition Directory_Find (dir : Directory) (nm : list Z) : outcome Z :=
  let i := Directory_FindIndex dir nm in
  if i =? -1 then Ok (-1) else e ← deref ((table dir).[i]); Ok (de_sector e).

Fixpoint add_loop (t : list DirectoryEntry) (nm : list Z) (newSector : Z) : option (list DirectoryEntry) :=
  match t with
  | [] => None
  | e :: t =>
      if negb (inUse e)
      then Some (mkDirEntry true (pad1 e) newSector (strncpy FileNameMaxLen (name e) nm) (pad2 e) :: t)
      else cons e <$> add_loop t nm newSector
  end.

(** [Directory::Add] *)
Definition Directory_Add (dir : Directory) (nm : list Z) (newSector : Z) : bool * Directory :=
  if negb (Directory_FindIndex dir nm =? -1) then (false, dir)
  else match add_loop (table dir) nm newSector with
       | Some t => (true, mkDirectory (tableSize dir) t)
       | None => (false, dir)
       end.

(** [Directory::Remove] *)
Definition Directory_Remove (dir : Directory) (nm : list Z) : outcome (bool * Directory) :=
  let i := Directory_FindIndex dir nm in
  if i =? -1 then Ok (false, dir)
  else
    e ← deref ((table dir).[i]);
    Ok (true, mkDirectory (tableSize dir) ((table dir).[i <- set_inUse e false])).

(** [Directory::List]: the [name] arrays that are printed. *)
Definition Directory_List (dir : Directory) : list (list Z) :=
  map name (filter (fun e => inUse e = true) (table dir)).

(** ** The table as bytes *)

Definition entry_to_bytes (e : DirectoryEntry) : list Z :=
  [Z.b2z (inUse e)] ++ pad1 e ++ le_split 4 (wrap_u32 (de_sector e)) ++ name e ++ pad2 e.
Definition entry_of_bytes (bs : list Z) : DirectoryEntry :=
  mkDirEntry (negb (default 0 (bs.[0]) =? 0)) (slice bs 1 3) (wrap_s32 (le_combine (slice bs 4 4))) (slice bs 8 10) (slice bs 18 2).

Definition table_to_bytes (t : list DirectoryEntry) : list Z := concat (map entry_to_bytes t).
Fixpoint table_of_bytes (n : nat) (bs : list Z) : list DirectoryEntry :=
  match n with
  | O => []
  | S n => entry_of_bytes (take 20 bs) :: table_of_bytes n (drop 20 bs)
  end.

Section OnDisk.
Context {D : Type} `{!BlockDevice D} (uninit : Z -> list Z).

(** [Directory::FetchFrom]: what [ReadAt] delivers replaces the start of the table. *)
Definition Directory_FetchFrom (dir : Directory) (f : OpenFile) (d : D) : outcome (Directory * D) :=
  '(bytes, d) ← OpenFile_ReadAt f d (tableSize dir * DirectoryEntrySize) 0;
  image ← store (table_to_bytes (table dir)) 0 bytes;
  Ok (mkDirectory (tableSize dir) (table_of_bytes (length (table dir)) image), d).

(** [Directory::WriteBack] *)
Definition Directory_WriteBack (dir : Directory) (f : OpenFile) (d : D) : outcome D :=
  '(_, d) ← OpenFile_WriteAt uninit f d (table_to_bytes (table dir)) (tableSize dir * DirectoryEntrySize) 0;
  Ok d.

(** [Directory::Print]: for each file in use its name, header sector and what
    [FileHeader::Print] prints. *)
Fixpoint Directory_print_loop (t : list DirectoryEntry) (d : D) : outcome (list (list Z * Z * (Z * list Z * list (list Z))) * D) :=
  match t with
  | [] => Ok ([], d)
  | e :: t =>
      if inUse e then
        '(h, d) ← FileHeader_FetchFrom d (de_sector e);
        '(p, d) ← FileHeader_Print h d;
        '(rest, d) ← Directory_print_loop t d;
        Ok ((name e, de_sector e, p) :: rest, d)
      else Directory_print_loop t d
  end.
Definition Directory_Print (dir : Directory) (d : D) := Directory_print_loop (table dir) d.

End OnDisk.

(** ** The map of names *)

(** The string in an array: up to the first NUL. *)
Fixpoint cstr (l : list Z) : list Z :=
  match l with
  | [] => []
  | c :: l => if c =? 0 then [] else c :: cstr l
  end.

(** The part of a name that counts. *)
Definition key (nm : list Z) : list Z := take (Z.to_nat FileNameMaxLen) nm.
Definition entry_key (e : DirectoryEntry) : list Z := cstr (take (Z.to_nat FileNameMaxLen) (name e)).

Definition cstring (nm : list Z) : Prop := Forall (fun c => 0 < c < 256) nm.

Fixpoint dir_lookup (t : list DirectoryEntry) (k : list Z) : option Z :=
  match t with
  | [] => None
  | e :: t => if inUse e && bool_decide (entry_key e = k) then Some (de_sector e) else dir_lookup t k
  end.

Definition used (t : list DirectoryEntry) : list DirectoryEntry := filter (fun e => inUse e = true) t.

Record entry_wf (e : DirectoryEntry) : Prop := {
  ew_sector : int32 (de_sector e);
  ew_name : lenZ (name e) = FileNameMaxLen + 1;
  ew_pad1 : lenZ (pad1 e) = 3;
  ew_pad2 : lenZ (pad2 e) = 2;
  ew_bytes : Forall byte (name e) /\ Forall byte (pad1 e) /\ Forall byte (pad2 e) }.

Record dir_wf (dir : Directory) : Prop := {
  dw_size : lenZ (table dir) = tableSize dir;
  dw_entries : Forall entry_wf (table dir);
  dw_distinct : NoDup (map entry_key (used (table dir))) }.

(** *** Strings *)

Lemma strncmp_key n a nm :
  cstring nm -> strncmp_eq n a nm = true <-> cstr (take n a) = take n nm.
Proof.
  intros Hc. revert a nm Hc. induction n as [|n IH]; intros a nm Hc; [by rewrite !take_0|].
  destruct nm as [|c nm]; [|apply Forall_cons in Hc as [Hc0 Hc]]; destruct a as [|x a];
    cbn [strncmp_eq head tail take cstr].
  - done.
  - simpl. destruct (Z.eqb_spec x 0) as [->|]; split; done.
  - cbn [from_option]. unfold id. destruct (Z.eqb_spec 0 c); [lia|]. split; done.
  - cbn [from_option]. unfold id. destruct (Z.eqb_spec x c) as [->|Hne].
    + rewrite (proj2 (Z.eqb_neq c 0)) by lia. rewrite IH by done. split; [intros ->|intros [= ->]]; done.
    + destruct (x =? 0); split; try done. intros [= -> _]. done.
Qed.

Lemma entry_match e nm :
  cstring nm -> inUse e && strncmp_eq (Z.to_nat FileNameMaxLen) (name e) nm = inUse e && bool_decide (entry_key e = key nm).
Proof.
  intros Hc. f_equal. apply eq_bool_prop_intro. rewrite !Is_true_true, bool_decide_eq_true. by apply strncmp_key.
Qed.

Lemma cstr_nonzero l r : cstring l -> cstr (l ++ r) = l ++ cstr r.
Proof.
  induction 1 as [|c l Hc _ IH]; [done|]. cbn [app cstr]. rewrite (proj2 (Z.eqb_neq c 0)) by lia. by rewrite IH.
Qed.

Lemma cstr_replicate m l : cstr (replicate (S m) 0 ++ l) = [].
Proof. done. Qed.

(** A name just stored with [strncpy] reads back as its key. *)
Lemma strncpy_key a nm : cstring nm -> lenZ a = FileNameMaxLen + 1 -> cstr (take (Z.to_nat FileNameMaxLen) (strncpy FileNameMaxLen a nm)) = key nm.
Proof.
  intros Hc Ha. unfold strncpy, key, FileNameMaxLen in *. change (Z.to_nat 9) with 9%nat.
  set (cp := take 9 nm). assert (Hl : (length cp <= 9)%nat) by (unfold cp; rewrite length_take; lia).
  assert (Hcp : cstring cp) by (by apply Forall_take).
  rewrite app_assoc, take_app_length' by (rewrite length_app, length_replicate; lia). rewrite cstr_nonzero by done.
  destruct (9 - length cp)%nat; [|cbn [replicate cstr]]; simpl; by rewrite app_nil_r.
Qed.

Lemma strncpy_length a nm : lenZ a = FileNameMaxLen + 1 -> lenZ (strncpy FileNameMaxLen a nm) = FileNameMaxLen + 1.
Proof.
  unfold strncpy, FileNameMaxLen, lenZ. change (Z.to_nat 9) with 9%nat. intros Ha.
  rewrite !length_app, length_replicate, length_take, length_drop. lia.
Qed.

Lemma strncpy_bytes a nm : Forall byte a -> cstring nm -> Forall byte (strncpy FileNameMaxLen a nm).
Proof.
  intros Ha Hn. unfold strncpy. rewrite !Forall_app. conjs.
  - apply Forall_take. eapply Forall_impl; [exact Hn|]. unfold byte. lia.
  - apply Forall_replicate. unfold byte. lia.
  - by apply Forall_drop.
Qed.

(** *** Looking up *)

Lemma used_cons e t : used (e :: t) = if inUse e then e :: used t else used t.
Proof. unfold used. rewrite filter_cons. destruct (inUse e); [by rewrite decide_True|by rewrite decide_False]. Qed.

Lemma dir_lookup_Some t k s :
  dir_lookup t k = Some s -> exists e, e ∈ used t /\ entry_key e = k /\ de_sector e = s.
Proof.
  induction t as [|e t IH]; [done|]. cbn [dir_lookup]. rewrite used_cons. destruct (inUse e); cbn [andb].
  - case_bool_decide; [intros [= <-]; exists e; split; [set_solver|done]|]. intros (e' & ? & ?)%IH. exists e'. split; [set_solver|done].
  - exact IH.
Qed.

Lemma dir_lookup_None t k : dir_lookup t k = None <-> k ∉ map entry_key (used t).
Proof.
  induction t as [|e t IH]; [split; [set_solver|done]|]. cbn [dir_lookup]. rewrite used_cons. destruct (inUse e); cbn [andb map].
  - case_bool_decide; [split; [done|set_solver]|]. rewrite IH. set_solver.
  - exact IH.
Qed.

Lemma dir_lookup_elem t k s :
  NoDup (map entry_key (used t)) -> dir_lookup t k = Some s <-> exists e, e ∈ used t /\ entry_key e = k /\ de_sector e = s.
Proof.
  intros Hnd. split; [apply dir_lookup_Some|]. intros (e & He & Hk & Hs). induction t as [|x t IH]; [set_solver|].
  rewrite used_cons in *. cbn [dir_lookup]. destruct (inUse x); cbn [andb]; [|by apply IH].
  cbn [map] in Hnd. apply NoDup_cons in Hnd as [Hx Hnd]. apply elem_of_cons in He as [->|He].
  - by rewrite bool_decide_eq_true_2, Hs.
  - rewrite bool_decide_eq_false_2; [by apply IH|]. intros Hxk. apply Hx. rewrite Hxk, <- Hk. by apply list_elem_of_fmap_2.
Qed.

(** Tables with the same entries in use stand for the same map. *)
Lemma dir_lookup_insert t t' e k :
  NoDup (map entry_key (used t')) -> used t' ≡ₚ e :: used t ->
  dir_lookup t' k = if bool_decide (entry_key e = k) then Some (de_sector e) else dir_lookup t k.
Proof.
  intros Hnd Hp. pose proof Hnd as Hnd'. rewrite Hp in Hnd'. cbn [map fmap list_fmap] in Hnd'. apply NoDup_cons in Hnd' as [Hx Hnd'].
  case_bool_decide as Hk.
  - apply dir_lookup_elem; [done|]. exists e. rewrite Hp. split; [set_solver|done].
  - destruct (dir_lookup t k) as [s|] eqn:E.
    + apply dir_lookup_elem in E as (x & Hin & ? & ?); [|done]. apply dir_lookup_elem; [done|]. exists x. rewrite Hp. split; [set_solver|done].
    + apply dir_lookup_None. apply dir_lookup_None in E. rewrite Hp. cbn [map fmap list_fmap]. set_solver.
Qed.

Lemma find_index_spec i t nm :
  cstring nm -> 0 <= i ->
  (find_index i t nm = -1 /\ dir_lookup t (key nm) = None) \/
  exists j e, find_index i t nm = i + j /\ 0 <= j /\ t.[j] = Some e /\ inUse e = true /\ entry_key e = key nm /\
    dir_lookup t (key nm) = Some (de_sector e).
Proof.
  intros Hc. revert i. induction t as [|e t IH]; intros i Hi; [by left|]. cbn [find_index dir_lookup]. rewrite entry_match by done.
  destruct (inUse e && bool_decide (entry_key e = key nm)) eqn:E.
  - right. exists 0, e. apply andb_true_iff in E as [E1 E2%bool_decide_eq_true]. conjs; try done. lia.
  - destruct (IH (i + 1) ltac:(lia)) as [?|(j & e' & H1 & H2 & H3 & H4)]; [by left|right]. exists (j + 1), e'.
    conjs; [lia|lia| |by apply H4..]. rewrite lookupZ_cons, (proj2 (Z.eqb_neq _ _)), (proj2 (Z.ltb_ge _ _)) by lia.
    by replace (j + 1 - 1) with j by lia.
Qed.

Lemma FindIndex_table dir nm : dir_wf dir -> Directory_FindIndex dir nm = find_index 0 (table dir) nm.
Proof.
  intros [Hs _ _]. unfold Directory_FindIndex. rewrite take_ge; [done|]. unfold lenZ in Hs. lia.
Qed.

Lemma Find_ok dir nm :
  dir_wf dir -> cstring nm -> Directory_Find dir nm = Ok (default (-1) (dir_lookup (table dir) (key nm))).
Proof.
  intros Hwf Hc. unfold Directory_Find. rewrite FindIndex_table by done.
  destruct (find_index_spec 0 (table dir) nm Hc ltac:(lia)) as [[-> ->]|(j & e & -> & Hj & He & _ & _ & ->)]; [done|].
  rewrite (proj2 (Z.eqb_neq _ _)) by lia. rewrite ?Z.add_0_l. by rewrite He.
Qed.

(** *** Adding *)

Lemma add_loop_spec t nm s :
  match add_loop t nm s with
  | None => used t = t
  | Some t' => exists e, e ∈ t /\ lenZ t' = lenZ t /\
      let e' := mkDirEntry true (pad1 e) s (strncpy FileNameMaxLen (name e) nm) (pad2 e) in
      used t' ≡ₚ e' :: used t /\ forall P : DirectoryEntry -> Prop, Forall P t -> P e' -> Forall P t'
  end.
Proof.
  induction t as [|e t IH]; [done|]. cbn [add_loop]. rewrite used_cons. destruct (inUse e) eqn:Eu; cbn [negb].
  - destruct (add_loop t nm s) as [t'|]; cbn [fmap option_fmap option_map].
    + destruct IH as (x & Hx & Hl & Hp & HP). exists x. conjs; [set_solver|rewrite !lenZ_cons; lia| |].
      * rewrite used_cons, Eu. rewrite Hp. apply Permutation_swap.
      * intros P [? ?]%Forall_cons ?. constructor; auto.
    + by rewrite IH.
  - exists e. conjs; [set_solver|by rewrite !lenZ_cons|by rewrite used_cons|].
    intros P [? ?]%Forall_cons ?. by constructor.
Qed.

(** The table is full when all its entries are in use. *)
Lemma used_full t : used t = t <-> ~ lenZ (used t) < lenZ t.
Proof.
  split; [intros ->; lia|]. unfold used, lenZ. intros Hge. induction t as [|e t IH]; [done|]. rewrite filter_cons in *.
  pose proof (length_filter (fun e => inUse e = true) t) as Hle. case_decide; cbn [length] in *; [|lia].
  f_equal. apply IH. lia.
Qed.

Lemma Add_ok dir nm s :
  dir_wf dir -> cstring nm -> int32 s ->
  (dir_lookup (table dir) (key nm) <> None \/ used (table dir) = table dir -> Directory_Add dir nm s = (false, dir)) /\
  (dir_lookup (table dir) (key nm) = None -> used (table dir) <> table dir ->
   exists dir' e, Directory_Add dir nm s = (true, dir') /\ dir_wf dir' /\ tableSize dir' = tableSize dir /\
     used (table dir') ≡ₚ e :: used (table dir) /\ entry_key e = key nm /\ de_sector e = s /\ inUse e = true).
Proof.
  intros Hwf Hc Hs. unfold Directory_Add. rewrite FindIndex_table by done. pose proof (add_loop_spec (table dir) nm s) as Ha.
  destruct (find_index_spec 0 (table dir) nm Hc ltac:(lia)) as [[-> Hno]|(j & e & -> & Hj & He & _ & _ & Hyes)].
  - cbn [Z.eqb negb]. rewrite Hno. destruct (add_loop (table dir) nm s) as [t'|].
    + destruct Ha as (e & He & Hl & Hp & HP). split.
      { intros [?|Hf]; [done|]. exfalso. apply Permutation_length in Hp. rewrite Hf in Hp. cbn [length] in Hp.
        pose proof (length_filter (fun e => inUse e = true) t') as Hlf. fold (used t') in Hlf. unfold lenZ in Hl. lia. }
      intros _ _. eexists _, _. split; [done|]. destruct Hwf as [H1 H2 H3].
      assert (Hew : entry_wf e) by (rewrite Forall_forall in H2; by apply H2). destruct Hew as [W1 W2 W3 W4 (W5 & W6 & W7)].
      assert (Hk : entry_key (mkDirEntry true (pad1 e) s (strncpy FileNameMaxLen (name e) nm) (pad2 e)) = key nm) by (by apply strncpy_key).
      conjs; [|done|exact Hp|exact Hk|done|done]. split; simpl.
      * congruence.
      * apply HP; [done|]. split; simpl; [done|by apply strncpy_length|done|done|]. conjs; [by apply strncpy_bytes|done|done].
      * rewrite Hp. cbn [map fmap list_fmap]. rewrite Hk. apply NoDup_cons. split; [|done]. by apply dir_lookup_None.
    + split; [done|]. intros _ Hn. by destruct Hn.
  - rewrite (proj2 (Z.eqb_neq _ _)) by lia. cbn [negb]. rewrite Hyes. split; [done|]. done.
Qed.

(** *** Removing *)

Lemma used_clear t j e :
  t.[j] = Some e -> inUse e = true -> used t ≡ₚ e :: used (t.[j <- set_inUse e false]).
Proof.
  intros Hj Hu. pose proof (lookupZ_Some_range _ _ _ Hj) as Hr. unfold lookupZ, insertZ in *.
  destruct (Z.ltb_spec j 0); [lia|]. rewrite <- (take_drop_middle _ _ _ Hj) at 1.
  rewrite insert_take_drop by (unfold lenZ in Hr; lia). unfold used. rewrite !filter_app, !filter_cons.
  rewrite decide_True by done. rewrite decide_False by done. by rewrite Permutation_middle.
Qed.

Lemma Remove_ok dir nm :
  dir_wf dir -> cstring nm ->
  (dir_lookup (table dir) (key nm) = None -> Directory_Remove dir nm = Ok (false, dir)) /\
  (forall s, dir_lookup (table dir) (key nm) = Some s ->
   exists dir' e, Directory_Remove dir nm = Ok (true, dir') /\ dir_wf dir' /\ tableSize dir' = tableSize dir /\
     used (table dir) ≡ₚ e :: used (table dir') /\ entry_key e = key nm /\ de_sector e = s).
Proof.
  intros Hwf Hc. unfold Directory_Remove. rewrite FindIndex_table by done.
  destruct (find_index_spec 0 (table dir) nm Hc ltac:(lia)) as [[-> ->]|(j & e & -> & Hj & He & Hu & Hk & ->)]; [done|].
  split; [done|]. intros s [= <-]. rewrite (proj2 (Z.eqb_neq _ _)) by lia. rewrite ?Z.add_0_l. rewrite He. cbn [deref mbind outcome_bind].
  eexists _, e. split; [done|]. destruct Hwf as [H1 H2 H3]. pose proof (used_clear _ _ _ He Hu) as Hp.
  conjs; [|done|exact Hp|done|done]. split; simpl.
  - by rewrite lenZ_insertZ.
  - apply Forall_insertZ; [done|]. rewrite Forall_forall in H2. pose proof (H2 e (lookupZ_elem_of _ _ _ He)) as [? ? ? ? ?]. by split.
  - rewrite Hp in H3. cbn [map fmap list_fmap] in H3. by apply NoDup_cons in H3 as [_ ?].
Qed.

(** *** The table in a file *)

Lemma entry_to_bytes_length e : entry_wf e -> length (entry_to_bytes e) = 20%nat.
Proof.
  intros [_ Hn H1 H2 _]. unfold entry_to_bytes, FileNameMaxLen, lenZ in *. rewrite !length_app, length_le_split. cbn [length]. lia.
Qed.

Lemma slice_app_at {A} (a b c : list A) off n : lenZ a = off -> lenZ b = n -> slice (a ++ b ++ c) off n = b.
Proof.
  intros Ha Hb. unfold slice, lenZ in *. rewrite drop_app_length' by lia. rewrite take_app_length' by lia. done.
Qed.

Lemma entry_round_trip e : entry_wf e -> entry_of_bytes (entry_to_bytes e) = e.
Proof.
  intros [Hs Hn H1 H2 _]. destruct e as [u p1 s nm p2]. unfold entry_of_bytes, entry_to_bytes. simpl in Hs, Hn, H1, H2.
  cbn [inUse pad1 de_sector name pad2]. set (sb := le_split 4 (wrap_u32 s)).
  assert (Hsb : lenZ sb = 4) by (unfold lenZ, sb; by rewrite length_le_split). unfold FileNameMaxLen in *. f_equal.
  - by destruct u.
  - apply slice_app_at; done.
  - rewrite app_assoc. rewrite (slice_app_at _ sb) by (rewrite ?lenZ_app, ?H1; done). unfold sb.
    rewrite le_combine_split4, (wrap_u32_id (wrap_u32 s)) by apply wrap_u32_range. by apply wrap_s32_u32.
  - rewrite (app_assoc p1), app_assoc. apply slice_app_at; [rewrite !lenZ_app, H1, Hsb; done|lia].
  - rewrite <- (app_nil_r p2) at 1. rewrite (app_assoc sb), (app_assoc p1), app_assoc.
    apply slice_app_at; [rewrite !lenZ_app, H1, Hsb, Hn; done|done].
Qed.

Lemma table_to_bytes_length t : Forall entry_wf t -> lenZ (table_to_bytes t) = DirectoryEntrySize * lenZ t.
Proof.
  intros Ht. unfold table_to_bytes. rewrite (lenZ_concat 20); [by rewrite lenZ_map|]. apply Forall_map.
  eapply Forall_impl; [exact Ht|]. intros e He. simpl. unfold lenZ. by rewrite entry_to_bytes_length.
Qed.

Lemma table_to_bytes_bytes t : Forall entry_wf t -> Forall byte (table_to_bytes t).
Proof.
  intros Ht. unfold table_to_bytes. apply Forall_concat, Forall_map. eapply Forall_impl; [exact Ht|].
  intros e [_ _ _ _ (? & ? & ?)]. simpl. unfold entry_to_bytes. rewrite !Forall_app. conjs; try done.
  - constructor; [|constructor]. unfold byte. destruct (inUse e); simpl; lia.
  - apply le_split_bytes.
Qed.

Lemma table_round_trip t : Forall entry_wf t -> table_of_bytes (length t) (table_to_bytes t) = t.
Proof.
  induction 1 as [|e t He Ht IH]; [done|]. unfold table_to_bytes. cbn [length map concat table_of_bytes].
  pose proof (entry_to_bytes_length e He) as Hl. rewrite take_app_length', drop_app_length' by done.
  fold (table_to_bytes t). by rewrite entry_round_trip, IH.
Qed.

Section OnDiskLemmas.
Context {D : Type} `{!BlockDevice D, !BlockLaws D} (uninit : Z -> list Z).
Context (uninit_len : forall n, 0 <= n -> lenZ (uninit n) = n) (uninit_bytes : forall n, Forall byte (uninit n)).

(** A file that is as long as the table of [dir] and fits in one sector. *)
Definition dir_file (f : OpenFile) (size : Z) : Prop :=
  hdr_wf (hdr f) /\ NoDup (hdr_sectors (hdr f)) /\ numBytes (hdr f) = size * DirectoryEntrySize /\
  0 < size * DirectoryEntrySize <= SectorSize.

Lemma touched_one n : 0 < n <= SectorSize -> touched 0 n = 1%nat.
Proof. intros. unfold touched, SectorSize in *. rewrite !Z.div_small by lia. done. Qed.

Lemma Directory_FetchFrom_ok m dir f d :
  ready (S m) d -> dir_file f (tableSize dir) -> dir_wf dir ->
  exists d', Directory_FetchFrom dir f d =
      Ok (mkDirectory (tableSize dir) (table_of_bytes (length (table dir)) (file_bytes d (hdr f))), d') /\
    ready m d' /\ forall j, sector_ok j -> sector d' j = sector d j.
Proof.
  intros Hr (Hwf & _ & Hn & Hs) [Hl He _]. unfold Directory_FetchFrom. set (n := tableSize dir * DirectoryEntrySize) in *.
  pose proof (file_bytes_len _ d _ Hr Hwf) as HF. unfold SectorSize in Hs.
  destruct (ReadAt_ok m f d n 0 Hwf) as (d' & E & Hr' & Hf'); [lia|lia|unfold int32_max; lia| |].
  { replace (Z.min n (numBytes (hdr f) - 0)) with n by lia. rewrite touched_one; [done|unfold SectorSize; lia]. }
  replace (Z.min n (numBytes (hdr f) - 0)) with n in E by lia. rewrite slice_all in E by lia. rewrite E. cbn [mbind outcome_bind].
  pose proof (table_to_bytes_length (table dir) He) as HT.
  rewrite store_ok by (rewrite ?HT, ?HF; lia). cbn [mbind outcome_bind]. exists d'. conjs; [|done|done]. do 4 f_equal.
  unfold splice. change (Z.to_nat 0) with 0%nat. rewrite take_0, drop_ge; [by rewrite app_nil_r|]. unfold lenZ in *. lia.
Qed.

Lemma Directory_WriteBack_ok m dir f d :
  ready (3 + m) d -> dir_file f (tableSize dir) -> dir_wf dir ->
  exists d', Directory_WriteBack uninit dir f d = Ok d' /\ ready m d' /\
    file_bytes d' (hdr f) = table_to_bytes (table dir) /\
    forall s, sector_ok s -> s ∉ hdr_sectors (hdr f) -> sector d' s = sector d s.
Proof.
  intros Hr (Hwf & Hnd & Hn & Hs) [Hl He _]. unfold Directory_WriteBack. set (n := tableSize dir * DirectoryEntrySize) in *.
  pose proof (file_bytes_len _ d _ Hr Hwf) as HF. pose proof (table_to_bytes_length (table dir) He) as HT. unfold SectorSize in Hs.
  destruct (WriteAt_ok uninit uninit_len uninit_bytes m f d (table_to_bytes (table dir)) n 0 Hwf Hnd) as (d' & E & Hr' & Hc & Hf');
    [lia|lia|unfold int32_max; lia|lia|by apply table_to_bytes_bytes| |].
  { replace (Z.min n (numBytes (hdr f) - 0)) with n by lia. rewrite touched_one; [done|unfold SectorSize; lia]. }
  replace (Z.min n (numBytes (hdr f) - 0)) with n in * by lia. rewrite slice_all in Hc by lia.
  rewrite E. cbn [mbind outcome_bind]. exists d'. conjs; [done|done| |done]. rewrite Hc.
  unfold splice. change (Z.to_nat 0) with 0%nat. rewrite take_0, drop_ge; [by rewrite app_nil_r|]. unfold lenZ in *. lia.
Qed.

(** C33: a directory is a bounded map from names to header sectors.  Two names are the
    same if their first nine characters are.  [Find] looks up, [Add] inserts a new
    name unless it is there or the table is full, [Remove] deletes; a table written to
    its file with [WriteBack] is what [FetchFrom] gives any other directory of its size. *)
Theorem directory_map m dir f d nm s :
  dir_wf dir -> cstring nm -> int32 s -> dir_file f (tableSize dir) -> ready (4 + m) d ->
  Directory_Find dir nm = Ok (default (-1) (dir_lookup (table dir) (key nm))) /\
  (exists ok dir', Directory_Add dir nm s = (ok, dir') /\ dir_wf dir' /\
     ok = bool_decide (dir_lookup (table dir) (key nm) = None /\ lenZ (used (table dir)) < tableSize dir) /\
     (ok = false -> dir' = dir) /\
     (ok = true -> forall k, dir_lookup (table dir') k = if bool_decide (key nm = k) then Some s else dir_lookup (table dir) k)) /\
  (exists ok dir', Directory_Remove dir nm = Ok (ok, dir') /\ dir_wf dir' /\
     ok = bool_decide (dir_lookup (table dir) (key nm) <> None) /\
     forall k, dir_lookup (table dir') k = if bool_decide (key nm = k) then None else dir_lookup (table dir) k) /\
  (exists d1, Directory_WriteBack uninit dir f d = Ok d1 /\
     forall other, dir_wf other -> tableSize other = tableSize dir -> exists d2, Directory_FetchFrom other f d1 = Ok (dir, d2)).
Proof.
  intros Hwf Hc Hs Hf Hr. conjs.
  - by apply Find_ok.
  - destruct (Add_ok dir nm s Hwf Hc Hs) as [Hno Hyes]. pose proof (dw_size _ Hwf) as Hsz.
    pose proof (used_full (table dir)) as Hfull. rewrite Hsz in Hfull.
    destruct (decide (dir_lookup (table dir) (key nm) = None /\ lenZ (used (table dir)) < tableSize dir)) as [[H1 H2]|Hn].
    + destruct (Hyes H1) as (dir' & e & E & Hwf' & _ & Hp & Hk & Hsec & _); [by intros ?%Hfull|].
      exists true, dir'. conjs; [done|done|by rewrite bool_decide_eq_true_2|done|]. intros _ k.
      rewrite (dir_lookup_insert (table dir) (table dir') e) by (done || apply Hwf'). by rewrite Hk, Hsec.
    + exists false, dir. rewrite bool_decide_eq_false_2 by done. conjs; [|done..]. apply Hno.
      destruct (decide (dir_lookup (table dir) (key nm) = None)); [|by left]. right. apply Hfull. tauto.
  - destruct (Remove_ok dir nm Hwf Hc) as [Hno Hyes]. destruct (dir_lookup (table dir) (key nm)) as [s'|] eqn:E.
    + destruct (Hyes s' eq_refl) as (dir' & e & Er & Hwf' & _ & Hp & Hk & _). exists true, dir'. conjs; [done|done|by rewrite bool_decide_eq_true_2|].
      intros k. rewrite (dir_lookup_insert (table dir') (table dir) e k) by (done || apply Hwf). rewrite Hk. case_bool_decide as Hkk; [|done].
      subst k. apply dir_lookup_None. pose proof (dw_distinct _ Hwf) as Hnd. rewrite Hp in Hnd. cbn [map fmap list_fmap] in Hnd.
      apply NoDup_cons in Hnd as [Hx _]. by rewrite Hk in Hx.
    + exists false, dir. rewrite bool_decide_eq_false_2 by tauto. conjs; [by apply Hno|done|done|]. intros k. case_bool_decide; [by subst|done].
  - destruct (Directory_WriteBack_ok (S m) dir f d Hr Hf Hwf) as (d1 & E1 & Hr1 & Hb & _).
    exists d1. split; [done|]. intros other Hwo Hsz. destruct (Directory_FetchFrom_ok m other f d1 Hr1) as (d2 & E2 & _); [by rewrite Hsz|done|].
    assert (El : length (table other) = length (table dir)) by (pose proof (dw_size _ Hwo); pose proof (dw_size _ Hwf); unfold lenZ in *; lia).
    exists d2. rewrite E2, Hb, Hsz, El. rewrite table_round_trip by apply Hwf. by destruct dir.
Qed.

End OnDiskLemmas.

(** *** A directory with two files *)

Definition blank_entry : DirectoryEntry := mkDirEntry false [0; 0; 0] 0 (replicate 10 0) [0; 0].
Definition sample_dir : Directory :=
  mkDirectory 10 (mkDirEntry true [0; 0; 0] 5 [97; 98; 0; 0; 0; 0; 0; 0; 0; 0] [0; 0] :: replicate 9 blank_entry).
Definition sample_dir_file : OpenFile := mkOpenFile (mkHdr 200 1 (9 :: replicate 125 0)) 0 0.

Lemma blank_entry_wf : entry_wf blank_entry.
Proof. split; simpl; try done. conjs; repeat constructor; unfold byte; lia. Qed.

Lemma sample_dir_wf : dir_wf sample_dir.
Proof.
  split.
  - reflexivity.
  - apply Forall_cons. split; [|apply Forall_replicate, blank_entry_wf].
    split; simpl; try done. conjs; repeat constructor; unfold byte; lia.
  - change (map entry_key (used (table sample_dir))) with [[97; 98]]. apply NoDup_singleton.
Qed.

Lemma sample_dir_file_ok : dir_file sample_dir_file 10.
Proof.
  split; [|split; [|split; [reflexivity|unfold DirectoryEntrySize, SectorSize; lia]]].
  - split; simpl; [unfold MaxFileSize; change NumDirect with 126; unfold SectorSize; lia|reflexivity|reflexivity| |].
    + apply Forall_cons. split; [unfold_int32; lia|]. apply (Forall_replicate int32 125 0). unfold_int32. lia.
    + repeat constructor; unfold sector_ok, NumSectors; lia.
  - change (hdr_sectors (hdr sample_dir_file)) with [9]. apply NoDup_singleton.
Qed.

Lemma directory_map_witness :
  exists dir', Directory_Add sample_dir [99] 8 = (true, dir') /\ dir_wf dir' /\
    dir_lookup (table dir') [99] = Some 8 /\ dir_lookup (table dir') [97; 98] = Some 5.
Proof.
  destruct Disk_new_blank as (dk & _ & Hd & Ha & _).
  destruct (directory_map (D := DSys) zeros lenZ_zeros_buf zeros_bytes 0 sample_dir sample_dir_file (blank_sys dk) [99] 8 sample_dir_wf)
    as (_ & (ok & dir' & E & Hwf & Hok & _ & Hl) & _).
  - repeat constructor; lia.
  - unfold_int32. lia.
  - exact sample_dir_file_ok.
  - apply blank_ready; [exact Hd|exact Ha|lia].
  - assert (ok = true) as Ht by (rewrite Hok; vm_compute; reflexivity). exists dir'. subst ok.
    split; [rewrite E, Ht; reflexivity|]. split; [exact Hwf|]. rewrite !(Hl Ht). split; vm_compute; reflexivity.
Defined.
