(* ===== verification/FileSys.v ===== *)
(** * The file system (filesys/filesys.h, filesys/filesys.cc, and
      [FetchFrom] and [WriteBack] of userprog/bitmap.cc)

    The file system keeps two files open: the bitmap of free sectors, whose header
    is in sector 0, and the directory, whose header is in sector 1.  [fs_wf] says that
    every sector belongs to exactly one owner, the two system files, the header of a
    file in the directory or its data, or else is free in the bitmap; [fs_file] is the
    content of a file by name.  [Create], [Remove] and writing to a file are shown to
    keep the first and to act on the second as they should.

    An object made with [new] holds whatever is in memory until it is assigned:
    [Heap] gives that content for each kind of object. *)

From S2P Require Import Prelude Int32 BitMap Disk FileHdr OpenFile Directory.

Definition FreeMapSector : Z := 0.
Definition DirectorySector : Z := 1.
Definition FreeMapFileSize : Z := NumSectors / 8.
Definition NumDirEntries : Z := 10.
Definition DirectoryFileSize : Z := DirectoryEntrySize * NumDirEntries.

Record Heap := mkHeap {
  new_chars : Z -> list Z;
  new_words : Z -> list Z;
  new_entries : Z -> list DirectoryEntry;
  new_header : FileHeader;
  new_type : Z }.

(** The objects have their sizes and hold bytes and words. *)
Record heap_ok (H : Heap) : Prop := {
  ho_chars : forall n, 0 <= n -> lenZ (new_chars H n) = n;
  ho_bytes : forall n, Forall byte (new_chars H n);
  ho_words : forall n, 0 <= n -> lenZ (new_words H n) = n;
  ho_uint32 : forall n, Forall uint32 (new_words H n);
  ho_entries : forall n, 0 <= n -> lenZ (new_entries H n) = n;
  ho_entry_wf : forall n, Forall entry_wf (new_entries H n);
  ho_sectors : lenZ (dataSectors (new_header H)) = NumDirect;
  ho_int32 : Forall int32 (dataSectors (new_header H)) }.

(** [class FileSystem]: [objects] are the [OpenFile]s made so far, [openf] holds
    pointers to them. *)
Record FileSystem := mkFS {
  freeMapFile : OpenFile;
  directoryFile : OpenFile;
  objects : list OpenFile;
  openf : list (option nat);
  index : Z }.

Definition set_openf (fs : FileSystem) (l : list (option nat)) : FileSystem :=
  mkFS (freeMapFile fs) (directoryFile fs) (objects fs) l (index fs).
Definition set_index (fs : FileSystem) (i : Z) : FileSystem :=
  mkFS (freeMapFile fs) (directoryFile fs) (objects fs) (openf fs) i.
Definition add_object (fs : FileSystem) (f : OpenFile) : FileSystem :=
  mkFS (freeMapFile fs) (directoryFile fs) (objects fs ++ [f]) (openf fs) (index fs).

Section FileSystem.
Context {D : Type} `{!BlockDevice D} (H : Heap).

(** [BitMap::FetchFrom] and [BitMap::WriteBack] *)
Definition BitMap_FetchFrom (bm : BitMap) (f : OpenFile) (d : D) : outcome (BitMap * D) :=
  '(bytes, d) ← OpenFile_ReadAt f d (numWords bm * 4) 0;
  image ← store (words_to_bytes (bm_map bm)) 0 bytes;
  Ok (mkBitMap (numBits bm) (numWords bm) (bytes_to_words (length (bm_map bm)) image), d).
Definition BitMap_WriteBack (bm : BitMap) (f : OpenFile) (d : D) : outcome D :=
  '(_, d) ← OpenFile_WriteAt (new_chars H) f d (words_to_bytes (bm_map bm)) (numWords bm * 4) 0;
  Ok d.

(** [new Directory(NumDirEntries)] and [new BitMap(NumSectors)] *)
Definition new_Directory : Directory := Directory_new NumDirEntries (new_entries H NumDirEntries).
Definition new_BitMap : outcome BitMap := BitMap_new NumSectors (new_words H (divRoundUp NumSectors BitsInWord)).

(** The formatting branch of the constructor: the two files it opens. *)
Definition FileSystem_format (d : D) : outcome (OpenFile * OpenFile * D) :=
  freeMap ← new_BitMap;
  let directory := new_Directory in
  freeMap ← BitMap_Mark freeMap FreeMapSector;
  freeMap ← BitMap_Mark freeMap DirectorySector;
  '(ok1, mapHdr, freeMap) ← FileHeader_Allocate (new_header H) freeMap FreeMapFileSize;
  _ ← ASSERT ok1;
  '(ok2, dirHdr, freeMap) ← FileHeader_Allocate (new_header H) freeMap DirectoryFileSize;
  _ ← ASSERT ok2;
  d ← FileHeader_WriteBack mapHdr d FreeMapSector;
  d ← FileHeader_WriteBack dirHdr d DirectorySector;
  '(freeMapFile, d) ← OpenFile_new d FreeMapSector (new_type H);
  '(directoryFile, d) ← OpenFile_new d DirectorySector (new_type H);
  d ← BitMap_WriteBack freeMap freeMapFile d;
  d ← Directory_WriteBack (new_chars H) directory directoryFile d;
  Ok (freeMapFile, directoryFile, d).

(** [FileSystem::Create] *)
Definition FileSystem_Create (fs : FileSystem) (d : D) (nm : list Z) (initialSize : Z) : outcome (bool * D) :=
  '(directory, d) ← Directory_FetchFrom new_Directory (directoryFile fs) d;
  found ← Directory_Find directory nm;
  if negb (found =? -1) then Ok (false, d)
  else
    freeMap ← new_BitMap;
    '(freeMap, d) ← BitMap_FetchFrom freeMap (freeMapFile fs) d;
    '(sector, freeMap) ← BitMap_Find freeMap;
    if sector =? -1 then Ok (false, d)
    else
      let '(added, directory) := Directory_Add directory nm sector in
      if negb added then Ok (false, d)
      else
        '(allocated, hdr, freeMap) ← FileHeader_Allocate (new_header H) freeMap initialSize;
        if negb allocated then Ok (false, d)
        else
          d ← FileHeader_WriteBack hdr d sector;
          d ← Directory_WriteBack (new_chars H) directory (directoryFile fs) d;
          d ← BitMap_WriteBack freeMap (freeMapFile fs) d;
          Ok (true, d).

(** [FileSystem::Open(char * )]: the new object is dropped and an entry of [openf]
    returned. *)
Definition FileSystem_Open (fs : FileSystem) (d : D) (nm : list Z) : outcome (option nat * FileSystem * D) :=
  '(directory, d) ← Directory_FetchFrom new_Directory (directoryFile fs) d;
  sector ← Directory_Find directory nm;
  '(fs, d) ← (if 0 <=? sector then '(f, d) ← OpenFile_new d sector (new_type H); Ok (add_object fs f, d) else Ok (fs, d));
  let fs := set_index fs (index fs + 1) in
  p ← deref ((openf fs).[index fs - 1]);
  Ok (p, fs, d).

(** [FileSystem::FindFreeSlot], from [i] on *)
Fixpoint find_free_slot (n : nat) (i : Z) (l : list (option nat)) : outcome Z :=
  match n with
  | O => Ok (-1)
  | S n => p ← deref (l.[i]); if (p : option nat) then find_free_slot n (i + 1) l else Ok i
  end.
Definition FileSystem_FindFreeSlot (fs : FileSystem) : outcome Z := find_free_slot 13 2 (openf fs).

(** [FileSystem::Open(char *, int)] *)
Definition FileSystem_Open_type (fs : FileSystem) (d : D) (nm : list Z) (type : Z) : outcome (option nat * FileSystem * D) :=
  freeSlot ← FileSystem_FindFreeSlot fs;
  '(directory, d) ← Directory_FetchFrom new_Directory (directoryFile fs) d;
  sector ← Directory_Find directory nm;
  '(fs, d) ← (if 0 <=? sector then
                '(f, d) ← OpenFile_new d sector type;
                _ ← deref ((openf fs).[freeSlot]);
                Ok (set_openf (add_object fs f) ((openf fs).[freeSlot <- Some (length (objects fs))]), d)
              else Ok (fs, d));
  p ← deref ((openf fs).[freeSlot]);
  Ok (p, fs, d).

(** [FileSystem::Remove] *)
Definition FileSystem_Remove (fs : FileSystem) (d : D) (nm : list Z) : outcome (bool * D) :=
  '(directory, d) ← Directory_FetchFrom new_Directory (directoryFile fs) d;
  sector ← Directory_Find directory nm;
  if sector =? -1 then Ok (false, d)
  else
    '(fileHdr, d) ← FileHeader_FetchFrom d sector;
    freeMap ← new_BitMap;
    '(freeMap, d) ← BitMap_FetchFrom freeMap (freeMapFile fs) d;
    freeMap ← FileHeader_Deallocate fileHdr freeMap;
    freeMap ← BitMap_Clear freeMap sector;
    '(_, directory) ← Directory_Remove directory nm;
    d ← BitMap_WriteBack freeMap (freeMapFile fs) d;
    d ← Directory_WriteBack (new_chars H) directory (directoryFile fs) d;
    Ok (true, d).

(** [FileSystem::List] *)
Definition FileSystem_List (fs : FileSystem) (d : D) : outcome (list (list Z) * D) :=
  '(directory, d) ← Directory_FetchFrom new_Directory (directoryFile fs) d;
  Ok (Directory_List directory, d).

(** [FileSystem::Print]: what is printed of the two headers, the map and the files. *)
Definition FileSystem_Print (fs : FileSystem) (d : D) :=
  '(bitHdr, d) ← FileHeader_FetchFrom d FreeMapSector;
  '(p1, d) ← FileHeader_Print bitHdr d;
  '(dirHdr, d) ← FileHeader_FetchFrom d DirectorySector;
  '(p2, d) ← FileHeader_Print dirHdr d;
  freeMap ← new_BitMap;
  '(freeMap, d) ← BitMap_FetchFrom freeMap (freeMapFile fs) d;
  bits ← BitMap_Print freeMap;
  '(directory, d) ← Directory_FetchFrom new_Directory (directoryFile fs) d;
  '(files, d) ← Directory_Print directory d;
  Ok (p1, p2, bits, files, d).

Definition str_stdin : list Z := [115; 116; 100; 105; 110].
Definition str_stdout : list Z := [115; 116; 100; 111; 117; 116].

(** [openf[index++] = this->Open(name, type)] *)
Definition open_standard (fs : FileSystem) (d : D) (nm : list Z) (type : Z) : outcome (FileSystem * D) :=
  '(p, fs, d) ← FileSystem_Open_type fs d nm type;
  _ ← deref ((openf fs).[index fs]);
  Ok (set_index (set_openf fs ((openf fs).[index fs <- p])) (index fs + 1), d).

(** [FileSystem::FileSystem] *)
Definition FileSystem_new (format : bool) (d : D) : outcome (FileSystem * D) :=
  '(freeMapFile, directoryFile, d) ←
    (if format then FileSystem_format d
     else
       '(freeMapFile, d) ← OpenFile_new d FreeMapSector (new_type H);
       '(directoryFile, d) ← OpenFile_new d DirectorySector (new_type H);
       Ok (freeMapFile, directoryFile, d));
  let fs := mkFS freeMapFile directoryFile [] (replicate 15 None) 0 in
  '(fs, d) ← open_standard fs d str_stdin 2;
  '(fs, d) ← open_standard fs d str_stdout 3;
  '(_, d) ← FileSystem_Create fs d str_stdin 0;
  '(_, d) ← FileSystem_Create fs d str_stdout 0;
  Ok (fs, d).

(** ** What is on the disk *)

Definition free_map (d : D) (fs : FileSystem) : BitMap :=
  mkBitMap NumSectors 32 (bytes_to_words 32 (file_bytes d (hdr (freeMapFile fs)))).
Definition dir_table (d : D) (fs : FileSystem) : list DirectoryEntry :=
  table_of_bytes 10 (file_bytes d (hdr (directoryFile fs))).
Definition disk_dir (d : D) (fs : FileSystem) : Directory := mkDirectory NumDirEntries (dir_table d fs).
Definition hdr_at (d : D) (s : Z) : FileHeader := hdr_of_bytes (sector d s).

(** The sectors of a file in the directory: its header and its data. *)
Definition owned (d : D) (e : DirectoryEntry) : list Z := de_sector e :: hdr_sectors (hdr_at d (de_sector e)).
Definition system_sectors (fs : FileSystem) : list Z :=
  [FreeMapSector; DirectorySector] ++ hdr_sectors (hdr (freeMapFile fs)) ++ hdr_sectors (hdr (directoryFile fs)).
Definition owners (d : D) (fs : FileSystem) : list Z :=
  system_sectors fs ++ (used (dir_table d fs) ≫= owned d).

(** The file system on the disk is consistent. *)
Record fs_wf (d : D) (fs : FileSystem) : Prop := {
  fw_map_file : hdr_wf (hdr (freeMapFile fs)) /\ numBytes (hdr (freeMapFile fs)) = FreeMapFileSize;
  fw_dir_file : hdr_wf (hdr (directoryFile fs)) /\ numBytes (hdr (directoryFile fs)) = DirectoryFileSize;
  fw_map_hdr : hdr_at d FreeMapSector = hdr (freeMapFile fs);
  fw_dir_hdr : hdr_at d DirectorySector = hdr (directoryFile fs);
  fw_dir : dir_wf (disk_dir d fs);
  fw_files : forall e, e ∈ used (dir_table d fs) -> sector_ok (de_sector e) /\ hdr_wf (hdr_at d (de_sector e));
  fw_nodup : NoDup (owners d fs);
  fw_map : forall s, sector_ok s -> bit (free_map d fs) s = bool_decide (s ∈ owners d fs) }.

(** The content of the file with a given name. *)
Definition fs_file (d : D) (fs : FileSystem) (nm : list Z) : option (list Z) :=
  s ← dir_lookup (dir_table d fs) (key nm); Some (file_bytes d (hdr_at d s)).

(** The number of free sectors. *)
Definition free_sectors (d : D) (fs : FileSystem) : Z := NumSectors - lenZ (owners d fs).
End FileSystem.

(** *** Which sectors an operation changes *)

Section Changes.
Context {D : Type} `{!BlockDevice D}.

(** Every sector outside [l] is as before. *)
Definition only (l : list Z) (d d' : D) : Prop := forall s, sector_ok s -> s ∉ l -> sector d' s = sector d s.

Lemma only_nil d d' : (forall s, sector_ok s -> sector d' s = sector d s) -> only [] d d'.
Proof. intros Hs s Hok _. by apply Hs. Qed.

Lemma only_trans l1 l2 d d1 d2 : only l1 d d1 -> only l2 d1 d2 -> only (l1 ++ l2) d d2.
Proof. intros H1 H2 s Hok Hn. rewrite H2, H1 by (done || set_solver). done. Qed.

Lemma only_file l d d' h : only l d d' -> hdr_wf h -> (forall s, s ∈ hdr_sectors h -> s ∉ l) -> file_bytes d' h = file_bytes d h.
Proof. intros Ho Hwf Hd. apply file_bytes_ext. intros s Hs. apply Ho; [by eapply hdr_sector|by apply Hd]. Qed.

Lemma only_hdr l d d' s : only l d d' -> sector_ok s -> s ∉ l -> hdr_at d' s = hdr_at d s.
Proof. intros Ho Hok Hn. unfold hdr_at. by rewrite Ho. Qed.

Lemma only_owned l d d' e : only l d d' -> sector_ok (de_sector e) -> de_sector e ∉ l -> owned d' e = owned d e.
Proof. intros Ho Hok Hn. unfold owned. by rewrite (only_hdr l d d'). Qed.

End Changes.

Section FileSystemLemmas.
Context {D : Type} `{!BlockDevice D, !BlockLaws D} (H : Heap) (Hok : heap_ok H).

(** *** The two system files *)

Lemma bytes_to_words_ok n bs : Forall byte bs -> (4 * n <= length bs)%nat ->
  length (bytes_to_words n bs) = n /\ Forall uint32 (bytes_to_words n bs).
Proof.
  revert bs. induction n as [|n IH]; intros bs Hb Hl; cbn [bytes_to_words length]; [by split|].
  destruct (IH (drop 4 bs)) as [H1 H2]; [by apply Forall_drop|rewrite length_drop; lia|]. split; [congruence|].
  constructor; [|done]. pose proof (le_combine_bound (take 4 bs) ltac:(by apply Forall_take)) as Hc.
  unfold lenZ in Hc. rewrite length_take, Nat.min_l in Hc by lia. exact Hc.
Qed.

Lemma file_bytes_bytes n d h : ready n d -> hdr_wf h -> Forall byte (file_bytes d h).
Proof.
  intros Hr Hwf. unfold file_bytes. apply Forall_slice, Forall_concat. unfold blocks. apply Forall_map.
  pose proof (hw_ok _ Hwf) as Hs. eapply Forall_impl; [exact Hs|]. intros s Hss. simpl. by eapply sector_bytes.
Qed.

Definition map_file (f : OpenFile) : Prop :=
  hdr_wf (hdr f) /\ numBytes (hdr f) = FreeMapFileSize.

Lemma decoded_map_wf n d f : ready n d -> map_file f -> BitMap_wf (mkBitMap NumSectors 32 (bytes_to_words 32 (file_bytes d (hdr f)))).
Proof.
  intros Hr [Hwf Hn]. destruct (bytes_to_words_ok 32 (file_bytes d (hdr f))) as [H1 H2].
  - by eapply file_bytes_bytes.
  - pose proof (file_bytes_len _ d _ Hr Hwf) as HL. rewrite Hn in HL. change FreeMapFileSize with 128 in HL. unfold lenZ in HL. lia.
  - split; cbn [numBits numWords bm_map]; [unfold NumSectors; lia|reflexivity|unfold lenZ; by rewrite H1|done].
Qed.

Lemma BitMap_FetchFrom_ok m bm f d :
  ready (S m) d -> map_file f -> BitMap_wf bm -> numBits bm = NumSectors ->
  exists d', BitMap_FetchFrom bm f d = Ok (mkBitMap NumSectors 32 (bytes_to_words 32 (file_bytes d (hdr f))), d') /\
    ready m d' /\ only [] d d'.
Proof.
  intros Hr [Hwf Hn] [_ Hw Hl _] Hbits. change FreeMapFileSize with 128 in Hn. rewrite Hbits in Hw. change (divRoundUp NumSectors BitsInWord) with 32 in Hw.
  unfold BitMap_FetchFrom. rewrite Hw, Hbits. change (32 * 4) with 128. pose proof (file_bytes_len _ d _ Hr Hwf) as HF.
  destruct (ReadAt_ok m f d 128 0 Hwf) as (d' & E & Hr' & Hf'); [lia|lia|unfold int32_max; lia| |].
  { rewrite Hn. change (Z.min 128 (128 - 0)) with 128. rewrite touched_one; [done|unfold SectorSize; lia]. }
  rewrite Hn in E. change (Z.min 128 (128 - 0)) with 128 in E. rewrite slice_all in E by lia. rewrite E. cbn [mbind outcome_bind].
  pose proof (lenZ_words_to_bytes (bm_map bm)) as HT. rewrite store_ok by lia. cbn [mbind outcome_bind].
  exists d'. conjs; [|done|by apply only_nil]. replace (length (bm_map bm)) with 32%nat by (unfold lenZ in *; lia). do 4 f_equal.
  unfold splice. change (Z.to_nat 0) with 0%nat. rewrite take_0, drop_ge; [by rewrite app_nil_r|]. unfold lenZ in *. lia.
Qed.

Lemma BitMap_WriteBack_ok m bm f d :
  ready (3 + m) d -> map_file f -> NoDup (hdr_sectors (hdr f)) -> BitMap_wf bm -> numBits bm = NumSectors ->
  exists d', BitMap_WriteBack H bm f d = Ok d' /\ ready m d' /\ only (hdr_sectors (hdr f)) d d' /\
    mkBitMap NumSectors 32 (bytes_to_words 32 (file_bytes d' (hdr f))) = bm.
Proof.
  intros Hr [Hwf Hn] Hnd [_ Hw Hl Hu] Hbits. change FreeMapFileSize with 128 in Hn. rewrite Hbits in Hw. change (divRoundUp NumSectors BitsInWord) with 32 in Hw.
  unfold BitMap_WriteBack. rewrite Hw. change (32 * 4) with 128. pose proof (file_bytes_len _ d _ Hr Hwf) as HF.
  pose proof (lenZ_words_to_bytes (bm_map bm)) as HT.
  destruct (WriteAt_ok (new_chars H) (ho_chars H Hok) (ho_bytes H Hok) m f d (words_to_bytes (bm_map bm)) 128 0 Hwf Hnd) as (d' & E & Hr' & Hc & Hf');
    [lia|lia|unfold int32_max; lia|lia|apply words_to_bytes_bytes| |].
  { rewrite Hn. change (Z.min 128 (128 - 0)) with 128. rewrite touched_one; [done|unfold SectorSize; lia]. }
  rewrite Hn in E, Hc. change (Z.min 128 (128 - 0)) with 128 in *. rewrite slice_all in Hc by lia.
  rewrite E. cbn [mbind outcome_bind]. exists d'. conjs; [done|done|done|]. rewrite Hc.
  unfold splice. change (Z.to_nat 0) with 0%nat. rewrite take_0, drop_ge by (unfold lenZ in *; lia). cbn [app].
  replace 32%nat with (length (bm_map bm)) by (unfold lenZ in *; lia). rewrite bytes_to_words_to_bytes by done.
  destruct bm; simpl in *. congruence.
Qed.

Lemma new_BitMap_ok : exists bm, new_BitMap H = Ok bm /\ BitMap_wf bm /\ numBits bm = NumSectors /\
  forall j, sector_ok j -> bit bm j = false.
Proof.
  destruct (BitMap_new_spec NumSectors (new_words H (divRoundUp NumSectors BitsInWord))) as (bm & E & Hwf & Hn & Hb);
    [unfold NumSectors; lia|apply (ho_words H Hok); done|apply (ho_uint32 H Hok)|].
  exists bm. conjs; [done..|]. intros j Hj. assert (Hj' : 0 <= j < numBits bm) by (rewrite Hn; exact Hj).
  pose proof (lookupZ_bits bm j Hj') as HL. rewrite Hb in HL. unfold lookupZ in HL. destruct (j <? 0); [done|].
  apply lookup_replicate in HL as [-> _]. done.
Qed.

Lemma new_Directory_wf : dir_wf (new_Directory H) /\ used (table (new_Directory H)) = [] /\ length (table (new_Directory H)) = 10%nat.
Proof.
  assert (HL : length (new_entries H NumDirEntries) = 10%nat).
  { pose proof (ho_entries H Hok NumDirEntries ltac:(done)) as HL. unfold lenZ in HL. change NumDirEntries with 10 in HL at 2. lia. }
  pose proof (ho_entry_wf H Hok NumDirEntries) as HE.
  unfold new_Directory, Directory_new. change (Z.to_nat NumDirEntries) with 10%nat. rewrite take_ge by lia.
  assert (Hu : used (map (fun e => set_inUse e false) (new_entries H NumDirEntries)) = []).
  { unfold used. apply filter_none, Forall_map. eapply Forall_impl; [exact HE|]. done. }
  conjs; [|exact Hu|cbn [table]; by rewrite length_map]. split; cbn [table tableSize].
  - rewrite lenZ_map. unfold lenZ. by rewrite HL.
  - apply Forall_map. eapply Forall_impl; [exact HE|]. intros e [? ? ? ? ?]. by split.
  - rewrite Hu. constructor.
Qed.

(** *** Consequences of consistency *)

Lemma wf_map_file d fs : fs_wf d fs -> map_file (freeMapFile fs) /\ NoDup (hdr_sectors (hdr (freeMapFile fs))).
Proof.
  intros Hwf. split; [exact (fw_map_file _ _ Hwf)|]. pose proof (fw_nodup _ _ Hwf) as Hnd. unfold owners, system_sectors in Hnd.
  apply NoDup_app in Hnd as [Hnd _]. apply NoDup_app in Hnd as (_ & _ & Hnd). by apply NoDup_app in Hnd as [? _].
Qed.

Lemma wf_dir_file d fs : fs_wf d fs -> dir_file (directoryFile fs) NumDirEntries.
Proof.
  intros Hwf. destruct (fw_dir_file _ _ Hwf) as [H1 H2]. split; [done|]. split; [|split].
  - pose proof (fw_nodup _ _ Hwf) as Hnd. unfold owners, system_sectors in Hnd.
    apply NoDup_app in Hnd as [Hnd _]. apply NoDup_app in Hnd as (_ & _ & Hnd). by apply NoDup_app in Hnd as (_ & _ & ?).
  - rewrite H2. reflexivity.
  - unfold NumDirEntries, DirectoryEntrySize, SectorSize. lia.
Qed.

Lemma sys_elem d fs s : s ∈ system_sectors fs -> s ∈ owners d fs.
Proof. intros Hs. unfold owners. apply elem_of_app. by left. Qed.

Lemma owned_elem d fs e s : e ∈ used (dir_table d fs) -> s ∈ owned d e -> s ∈ owners d fs.
Proof. intros He Hs. unfold owners. apply elem_of_app. right. apply list_elem_of_bind. eauto. Qed.

Lemma owners_ok d fs s : fs_wf d fs -> s ∈ owners d fs -> sector_ok s.
Proof.
  intros Hwf. unfold owners, system_sectors. rewrite !elem_of_app, list_elem_of_bind.
  intros [[Hs|[Hs|Hs]]|(e & Hs & He)].
  - unfold sector_ok, NumSectors, FreeMapSector, DirectorySector in *. set_solver by lia.
  - eapply hdr_sector; [exact (proj1 (fw_map_file _ _ Hwf))|done].
  - eapply hdr_sector; [exact (proj1 (fw_dir_file _ _ Hwf))|done].
  - destruct (fw_files _ _ Hwf e He) as [H1 H2]. unfold owned in Hs. apply elem_of_cons in Hs as [->|Hs]; [done|by eapply hdr_sector].
Qed.

(** Files of the directory and the system do not share sectors. *)
Lemma owned_not_system d fs e s : fs_wf d fs -> e ∈ used (dir_table d fs) -> s ∈ owned d e -> s ∉ system_sectors fs.
Proof.
  intros Hwf He Hs Hin. pose proof (fw_nodup _ _ Hwf) as Hnd. unfold owners in Hnd. apply NoDup_app in Hnd as (_ & Hd & _).
  apply (Hd s Hin). apply list_elem_of_bind. eauto.
Qed.

Lemma system_split d fs : fs_wf d fs ->
  (forall s, s ∈ hdr_sectors (hdr (freeMapFile fs)) -> s <> 0 /\ s <> 1 /\ s ∉ hdr_sectors (hdr (directoryFile fs))) /\
  (forall s, s ∈ hdr_sectors (hdr (directoryFile fs)) -> s <> 0 /\ s <> 1).
Proof.
  intros Hwf. pose proof (fw_nodup _ _ Hwf) as Hnd. unfold owners, system_sectors, FreeMapSector, DirectorySector in Hnd.
  apply NoDup_app in Hnd as [Hnd _]. apply NoDup_app in Hnd as (_ & H01 & Hnd). apply NoDup_app in Hnd as (_ & Hd & _).
  split; intros s Hs; conjs.
  - intros ->. apply (H01 0); set_solver.
  - intros ->. apply (H01 1); set_solver.
  - by apply Hd.
  - intros ->. apply (H01 0); set_solver.
  - intros ->. apply (H01 1); set_solver.
Qed.

Lemma free_map_wf m d fs : ready m d -> fs_wf d fs -> BitMap_wf (free_map d fs).
Proof. intros Hr Hwf. eapply decoded_map_wf; [done|]. by eapply wf_map_file. Qed.

(** The bitmap counts the free sectors. *)
Lemma count_clear_owners m d fs : ready m d -> fs_wf d fs -> count_clear (BitMap_bits (free_map d fs)) = free_sectors d fs.
Proof.
  intros Hr Hwf. unfold BitMap_bits, free_sectors. cbn [numBits free_map].
  assert (E : map (bit (free_map d fs)) (seqZ 0 NumSectors) = map (fun s => bool_decide (s ∈ owners d fs)) (seqZ 0 NumSectors)).
  { apply map_ext_in. intros s Hs%list_elem_of_In%elem_of_seqZ. apply Hwf. unfold sector_ok. lia. }
  rewrite E. assert (Hc : forall l : list Z, count_clear (map (fun s => bool_decide (s ∈ owners d fs)) l) =
      lenZ l - lenZ (filter (fun s => s ∈ owners d fs) l)).
  { induction l as [|s l IH]; [done|]. cbn [map]. rewrite count_clear_cons, IH, filter_cons, lenZ_cons.
    destruct (decide (s ∈ owners d fs)); [rewrite bool_decide_eq_true_2 by done; rewrite lenZ_cons|rewrite bool_decide_eq_false_2 by done]; lia. }
  rewrite Hc. unfold lenZ at 1. rewrite length_seqZ.
  assert (Hp : filter (fun s => s ∈ owners d fs) (seqZ 0 NumSectors) ≡ₚ owners d fs).
  { apply NoDup_Permutation; [apply NoDup_filter, NoDup_seqZ|apply Hwf|]. intros s. rewrite list_elem_of_filter, elem_of_seqZ. split; [tauto|].
    intros Hs. split; [done|]. pose proof (owners_ok d fs s Hwf Hs) as Hs'. unfold sector_ok in Hs'. lia. }
  unfold lenZ at 1. rewrite Hp. unfold NumSectors, lenZ. lia.
Qed.

(** Reading the directory from the disk. *)
Lemma fetch_dir m d fs :
  ready (S m) d -> fs_wf d fs ->
  exists d', Directory_FetchFrom (new_Directory H) (directoryFile fs) d = Ok (disk_dir d fs, d') /\ ready m d' /\ only [] d d'.
Proof.
  intros Hr Hwf. destruct new_Directory_wf as (Hd & _ & Hl).
  destruct (Directory_FetchFrom_ok m (new_Directory H) (directoryFile fs) d Hr) as (d' & E & Hr' & Hs);
    [exact (wf_dir_file d fs Hwf)|done|]. rewrite Hl in E. exists d'. conjs; [exact E|done|by apply only_nil].
Qed.

Lemma fetch_map m d fs :
  ready (S m) d -> fs_wf d fs ->
  exists bm d', new_BitMap H = Ok bm /\ BitMap_FetchFrom bm (freeMapFile fs) d = Ok (free_map d fs, d') /\ ready m d' /\ only [] d d'.
Proof.
  intros Hr Hwf. destruct new_BitMap_ok as (bm & E & Hbm & Hn & _).
  destruct (BitMap_FetchFrom_ok m bm (freeMapFile fs) d Hr) as (d' & E' & Hr' & Hs); [by eapply wf_map_file|done|done|].
  exists bm, d'. by conjs.
Qed.

(** Nothing changes when no sector does. *)
Lemma same_views d d' fs : only [] d d' -> hdr_wf (hdr (freeMapFile fs)) -> hdr_wf (hdr (directoryFile fs)) ->
  dir_table d' fs = dir_table d fs /\ free_map d' fs = free_map d fs /\ (forall s, sector_ok s -> hdr_at d' s = hdr_at d s).
Proof.
  intros Ho Hm Hd. conjs.
  - unfold dir_table. by rewrite (only_file [] d d' _ Ho Hd (fun x _ => not_elem_of_nil x)).
  - unfold free_map. by rewrite (only_file [] d d' _ Ho Hm (fun x _ => not_elem_of_nil x)).
  - intros s Hs. by apply (only_hdr [] d d'); [|done|set_solver].
Qed.

Lemma bind_owned_ext d d' l : (forall e, e ∈ l -> owned d' e = owned d e) -> l ≫= owned d' = l ≫= owned d.
Proof.
  induction l as [|e l IH]; intros He; [done|]. cbn [mbind list_bind]. rewrite He by set_solver. f_equal. apply IH. intros x Hx. apply He. set_solver.
Qed.

Lemma fs_wf_same d d' fs : fs_wf d fs -> only [] d d' ->
  fs_wf d' fs /\ (forall nm, fs_file d' fs nm = fs_file d fs nm) /\ owners d' fs = owners d fs.
Proof.
  intros Hwf Ho. destruct (same_views d d' fs Ho) as (Ht & Hm & Hh); [apply Hwf|apply Hwf|].
  assert (Hsys : forall s, s ∈ owners d fs -> hdr_at d' s = hdr_at d s) by (intros s Hs; apply Hh; by eapply owners_ok).
  assert (How : owners d' fs = owners d fs).
  { unfold owners. rewrite Ht. f_equal. apply bind_owned_ext. intros e He. unfold owned. rewrite Hh; [done|]. by apply Hwf. }
  pose proof Hwf as [H1 H2 H3 H4 H5 H6 H7 H8]. conjs; [| |exact How].
  - split; [exact H1|exact H2| | | | | |].
    + rewrite <- H3. apply Hh. unfold sector_ok, NumSectors, FreeMapSector. lia.
    + rewrite <- H4. apply Hh. unfold sector_ok, NumSectors, DirectorySector. lia.
    + unfold disk_dir in *. by rewrite Ht.
    + rewrite Ht. intros e He. destruct (H6 e He) as [Hs Hw]. split; [done|]. by rewrite Hh.
    + by rewrite How.
    + rewrite How, Hm. exact H8.
  - intros nm. unfold fs_file. rewrite Ht. destruct (dir_lookup (dir_table d fs) (key nm)) as [s|] eqn:E; [|done]. simpl. f_equal.
    apply dir_lookup_Some in E as (e & He & _ & <-). destruct (H6 e He) as [Hs Hw]. rewrite Hh by done.
    exact (only_file [] d d' _ Ho Hw (fun x _ => not_elem_of_nil x)).
Qed.

(** *** Creating a file *)

Definition system_data (fs : FileSystem) : list Z :=
  hdr_sectors (hdr (directoryFile fs)) ++ hdr_sectors (hdr (freeMapFile fs)).

Lemma system_data_elem fs s : s ∈ system_data fs -> s ∈ system_sectors fs.
Proof. unfold system_data, system_sectors. set_solver. Qed.

Lemma system_hdr_not_data d fs : fs_wf d fs -> 0 ∉ system_data fs /\ 1 ∉ system_data fs.
Proof.
  intros Hwf. destruct (system_split d fs Hwf) as [Hm Hd]. unfold system_data.
  split; intros [Hs|Hs]%elem_of_app; [apply Hd in Hs|apply Hm in Hs|apply Hd in Hs|apply Hm in Hs]; lia.
Qed.

Lemma system_headers fs : FreeMapSector ∈ system_sectors fs /\ DirectorySector ∈ system_sectors fs.
Proof. unfold system_sectors. split; apply elem_of_app; left; set_solver. Qed.

Lemma owned_header d e : de_sector e ∈ owned d e.
Proof. apply list_elem_of_here. Qed.

Lemma owned_data d e s : s ∈ hdr_sectors (hdr_at d (de_sector e)) -> s ∈ owned d e.
Proof. apply list_elem_of_further. Qed.

Section Rebuild.
Context (d d' : D) (fs : FileSystem) (Hwf : fs_wf d fs).

(** The headers of the files and of the system after a change of [l] and the data
    of the system files. *)
Lemma kept_hdr l s :
  only (l ++ system_data fs) d d' -> s ∈ owners d fs -> s ∉ l -> s ∉ system_data fs -> hdr_at d' s = hdr_at d s.
Proof.
  intros Ho Hs Hn Hn'. apply (only_hdr (l ++ system_data fs)); [done|by eapply owners_ok|]. rewrite elem_of_app. tauto.
Qed.

Lemma kept_system l :
  only (l ++ system_data fs) d d' -> (forall s, s ∈ l -> s ∉ system_sectors fs) ->
  hdr_at d' FreeMapSector = hdr (freeMapFile fs) /\ hdr_at d' DirectorySector = hdr (directoryFile fs).
Proof.
  intros Ho Hl. destruct (system_hdr_not_data d fs Hwf) as [N0 N1]. rewrite <- (fw_map_hdr _ _ Hwf), <- (fw_dir_hdr _ _ Hwf).
  destruct (system_headers fs) as [H0 H1].
  split; apply (kept_hdr l); try done; try (by apply sys_elem); intros Hin; by apply (Hl _ Hin).
Qed.

(** A file of the directory none of whose sectors is in [l]. *)
Lemma kept_file l e :
  only (l ++ system_data fs) d d' -> e ∈ used (dir_table d fs) -> (forall s, s ∈ owned d e -> s ∉ l) ->
  hdr_at d' (de_sector e) = hdr_at d (de_sector e) /\ owned d' e = owned d e /\
  file_bytes d' (hdr_at d (de_sector e)) = file_bytes d (hdr_at d (de_sector e)).
Proof.
  intros Ho He Hl. assert (Hns : forall s, s ∈ owned d e -> s ∉ l ++ system_data fs).
  { intros s Hs. rewrite elem_of_app. intros [Hin|Hin]; [by eapply Hl|]. apply system_data_elem in Hin. by eapply owned_not_system. }
  destruct (fw_files _ _ Hwf e He) as [Hs Hw]. pose proof (owned_header d e) as Hd.
  assert (E : hdr_at d' (de_sector e) = hdr_at d (de_sector e)) by (apply (only_hdr (l ++ system_data fs)); auto).
  conjs; [done|unfold owned; by rewrite E|]. apply (only_file (l ++ system_data fs)); [done|done|].
  intros s Hin. by apply Hns, owned_data.
Qed.

(** The state after a file has been added. *)
Lemma rebuild_add e h' :
  let new := de_sector e :: hdr_sectors h' in
  only ([de_sector e] ++ system_data fs) d d' -> dir_wf (disk_dir d' fs) ->
  used (dir_table d' fs) ≡ₚ e :: used (dir_table d fs) -> hdr_at d' (de_sector e) = h' -> hdr_wf h' ->
  NoDup new -> (forall s, s ∈ new -> sector_ok s /\ s ∉ owners d fs) ->
  (forall s, sector_ok s -> bit (free_map d' fs) s = bool_decide (s ∈ new) || bit (free_map d fs) s) ->
  fs_wf d' fs /\ owners d' fs ≡ₚ new ++ owners d fs /\
  (forall nm, fs_file d' fs nm = if bool_decide (entry_key e = key nm) then Some (file_bytes d' h') else fs_file d fs nm).
Proof.
  intros new Ho Hdir Hu Hh Hhw Hnd Hnew Hbits.
  assert (Hl : forall s, s ∈ [de_sector e] -> s ∉ owners d fs) by (intros s ->%list_elem_of_singleton; apply Hnew, list_elem_of_here).
  destruct (kept_system [de_sector e] Ho) as [Hm0 Hm1]; [intros s Hs Hin; by apply (Hl s Hs), sys_elem|].
  assert (Hk : forall x, x ∈ used (dir_table d fs) -> hdr_at d' (de_sector x) = hdr_at d (de_sector x) /\ owned d' x = owned d x /\
     file_bytes d' (hdr_at d (de_sector x)) = file_bytes d (hdr_at d (de_sector x))).
  { intros x Hx. apply (kept_file [de_sector e]); [done|done|]. intros s Hs Hin. apply (Hl s Hin). by eapply owned_elem. }
  assert (How : owners d' fs ≡ₚ new ++ owners d fs).
  { unfold owners. rewrite Hu. cbn [mbind list_bind]. rewrite (bind_owned_ext d d' (used (dir_table d fs))) by (intros x Hx; by apply Hk).
    unfold owned at 1. rewrite Hh. fold new. rewrite !app_assoc. apply Permutation_app_tail, Permutation_app_comm. }
  pose proof Hwf as [W1 W2 W3 W4 W5 W6 W7 W8]. conjs; [split; [exact W1|exact W2|exact Hm0|exact Hm1|exact Hdir| | |]|exact How|].
  - intros x Hx. rewrite Hu in Hx. apply elem_of_cons in Hx as [->|Hx].
    + split; [apply Hnew, list_elem_of_here|by rewrite Hh].
    + destruct (W6 x Hx) as [Hs Hw]. split; [done|]. by rewrite (proj1 (Hk x Hx)).
  - rewrite How. apply NoDup_app. conjs; [done| |done]. intros s Hs. by apply Hnew.
  - intros s Hs. rewrite Hbits, (W8 s Hs) by done. rewrite <- bool_decide_or. apply bool_decide_ext. rewrite How, elem_of_app. done.
  - intros nm. unfold fs_file. rewrite (dir_lookup_insert (dir_table d fs) (dir_table d' fs) e) by (exact (dw_distinct _ Hdir) || done).
    case_bool_decide; [simpl; by rewrite Hh|]. destruct (dir_lookup (dir_table d fs) (key nm)) as [s|] eqn:E; [|done].
    simpl. f_equal. apply dir_lookup_Some in E as (x & Hx & _ & <-). destruct (Hk x Hx) as (E1 & _ & E2). by rewrite E1.
Qed.

(** The state after a file has been removed. *)
Lemma rebuild_remove e :
  only ([] ++ system_data fs) d d' -> dir_wf (disk_dir d' fs) -> used (dir_table d fs) ≡ₚ e :: used (dir_table d' fs) ->
  (forall s, sector_ok s -> bit (free_map d' fs) s = negb (bool_decide (s ∈ owned d e)) && bit (free_map d fs) s) ->
  fs_wf d' fs /\ owners d fs ≡ₚ owned d e ++ owners d' fs /\
  (forall nm, fs_file d' fs nm = if bool_decide (entry_key e = key nm) then None else fs_file d fs nm).
Proof.
  intros Ho Hdir Hu Hbits. destruct (kept_system [] Ho) as [Hm0 Hm1]; [intros s Hs; by apply not_elem_of_nil in Hs|].
  assert (Hsub : forall x, x ∈ used (dir_table d' fs) -> x ∈ used (dir_table d fs)) by (intros x Hx; rewrite Hu; by apply list_elem_of_further).
  assert (Hk : forall x, x ∈ used (dir_table d' fs) -> hdr_at d' (de_sector x) = hdr_at d (de_sector x) /\ owned d' x = owned d x /\
     file_bytes d' (hdr_at d (de_sector x)) = file_bytes d (hdr_at d (de_sector x))).
  { intros x Hx. apply (kept_file []); [done|by apply Hsub|]. intros s _. apply not_elem_of_nil. }
  assert (How : owners d fs ≡ₚ owned d e ++ owners d' fs).
  { unfold owners. rewrite Hu. cbn [mbind list_bind]. rewrite (bind_owned_ext d d' (used (dir_table d' fs))) by (intros x Hx; by apply Hk).
    rewrite !app_assoc. apply Permutation_app_tail, Permutation_app_comm. }
  pose proof Hwf as [W1 W2 W3 W4 W5 W6 W7 W8]. pose proof W7 as Hnd. rewrite How in Hnd. apply NoDup_app in Hnd as (_ & Hdis & Hnd).
  conjs; [split; [exact W1|exact W2|exact Hm0|exact Hm1|exact Hdir| |exact Hnd|]|exact How|].
  - intros x Hx. destruct (W6 x (Hsub x Hx)) as [Hs Hw]. split; [done|]. by rewrite (proj1 (Hk x Hx)).
  - intros s Hs. rewrite Hbits, (W8 s Hs) by done. destruct (decide (s ∈ owned d e)) as [Hin|Hin].
    + rewrite (bool_decide_eq_true_2 _ Hin). symmetry. apply bool_decide_eq_false_2. by apply Hdis.
    + rewrite (bool_decide_eq_false_2 _ Hin). apply bool_decide_ext. rewrite How, elem_of_app. tauto.
  - intros nm. unfold fs_file. pose proof (dw_distinct _ W5) as HN. rewrite (dir_lookup_insert (dir_table d' fs) (dir_table d fs) e) by done.
    case_bool_decide as Hkey.
    + rewrite <- Hkey. assert (dir_lookup (dir_table d' fs) (entry_key e) = None) as ->; [|done]. apply dir_lookup_None.
      cbn [disk_dir table] in HN. rewrite Hu in HN. cbn [map fmap list_fmap] in HN. by apply NoDup_cons in HN as [? _].
    + destruct (dir_lookup (dir_table d' fs) (key nm)) as [s|] eqn:E; [|done].
      simpl. f_equal. apply dir_lookup_Some in E as (x & Hx & _ & <-). destruct (Hk x Hx) as (E1 & _ & E2). by rewrite E1.
Qed.
End Rebuild.

(** The last part of [Create] and [Remove]: the header, the directory and the map
    are written back. *)
Lemma flush_ok m d fs sec h dir bm :
  fs_wf d fs -> ready (7 + m) d -> sector_ok sec -> sec ∉ owners d fs -> hdr_wf h -> dir_wf dir -> tableSize dir = NumDirEntries ->
  BitMap_wf bm -> numBits bm = NumSectors ->
  exists d1 d2 d3, FileHeader_WriteBack h d sec = Ok d1 /\
    Directory_WriteBack (new_chars H) dir (directoryFile fs) d1 = Ok d2 /\
    BitMap_WriteBack H bm (freeMapFile fs) d2 = Ok d3 /\ ready m d3 /\ only ([sec] ++ system_data fs) d d3 /\
    hdr_at d3 sec = h /\ dir_table d3 fs = table dir /\ free_map d3 fs = bm.
Proof.
  intros Hwf Hr Hsec Hfree Hh Hdir Hts Hbm Hbits.
  pose proof (wf_dir_file d fs Hwf) as Hdf. destruct (wf_map_file d fs Hwf) as [Hmf Hmnd].
  assert (Hsys : sec ∉ system_sectors fs) by (intros Hin; by apply Hfree, sys_elem).
  assert (Hnd : sec ∉ system_data fs) by (intros Hin; by apply Hsys, system_data_elem). unfold system_data in Hnd.
  rewrite elem_of_app in Hnd.
  destruct (WriteBack_ok (6 + m) d sec h Hr Hsec Hh) as (d1 & E1 & Hr1 & Hon & O1). rewrite <- Hts in Hdf.
  destruct (Directory_WriteBack_ok (new_chars H) (ho_chars H Hok) (ho_bytes H Hok) (3 + m) dir (directoryFile fs) d1 Hr1 Hdf Hdir) as (d2 & E2 & Hr2 & Hb2 & O2).
  destruct (BitMap_WriteBack_ok m bm (freeMapFile fs) d2 Hr2 Hmf Hmnd Hbm Hbits) as (d3 & E3 & Hr3 & O3 & Hb3).
  exists d1, d2, d3. destruct (system_split d fs Hwf) as [Hsm _]. conjs; [done|done|done|done| | | |exact Hb3].
  - intros s Hs Hn. unfold system_data in Hn. rewrite !elem_of_app in Hn. rewrite O3, O2, O1; try done; try tauto.
    intros ->. apply Hn. left. apply list_elem_of_here.
  - assert (E : sector d3 sec = sector d1 sec) by (rewrite O3, O2; tauto || done). unfold hdr_at. rewrite E. exact Hon.
  - unfold dir_table. assert (E : file_bytes d3 (hdr (directoryFile fs)) = file_bytes d2 (hdr (directoryFile fs))).
    { apply (only_file (hdr_sectors (hdr (freeMapFile fs)))); [done|apply Hdf|]. intros s Hs Hin. by apply (Hsm s Hin). }
    rewrite E, Hb2. replace 10%nat with (length (table dir)); [apply table_round_trip, Hdir|].
    pose proof (dw_size _ Hdir) as HL. rewrite Hts in HL. unfold lenZ, NumDirEntries in HL. lia.
Qed.

Lemma fs_file_none d fs nm : fs_file d fs nm = None <-> dir_lookup (dir_table d fs) (key nm) = None.
Proof. unfold fs_file. by destruct (dir_lookup (dir_table d fs) (key nm)). Qed.

Lemma found_sector d fs nm s : fs_wf d fs -> dir_lookup (dir_table d fs) (key nm) = Some s -> sector_ok s.
Proof. intros Hwf (e & He & _ & <-)%dir_lookup_Some. by apply Hwf. Qed.

(** What [Create] does when it succeeds. *)
Definition created (d d' : D) (fs : FileSystem) (nm : list Z) (size : Z) : Prop :=
  free_sectors d' fs = free_sectors d fs - 1 - divRoundUp size SectorSize /\
  lenZ (used (dir_table d' fs)) = lenZ (used (dir_table d fs)) + 1 /\
  exists content, lenZ content = size /\
    forall nm', fs_file d' fs nm' = if bool_decide (key nm = key nm') then Some content else fs_file d fs nm'.

Definition unchanged (d d' : D) (fs : FileSystem) : Prop :=
  owners d' fs = owners d fs /\ forall nm, fs_file d' fs nm = fs_file d fs nm.

(** [Create] can make the file. *)
Definition can_create (d : D) (fs : FileSystem) (nm : list Z) (size : Z) : Prop :=
  fs_file d fs nm = None /\ lenZ (used (dir_table d fs)) < NumDirEntries /\ 1 + divRoundUp size SectorSize <= free_sectors d fs.

Lemma Create_gives_up k m d d' fs : fs_wf d fs -> ready (k + m) d' -> only [] d d' -> ready m d' /\ fs_wf d' fs /\ unchanged d d' fs.
Proof.
  intros Hwf Hr Ho. destruct (fs_wf_same d d' fs Hwf Ho) as (Hw & Hf & How). conjs; [by eapply ready_le|done|by split].
Qed.

(** [Create] once a free sector has been found and the name is new. *)
Lemma Create_tail m d fs nm size sec bm1 :
  fs_wf d fs -> ready (7 + m) d -> cstring nm -> 0 <= size <= MaxFileSize ->
  fs_file d fs nm = None -> BitMap_wf bm1 -> numBits bm1 = NumSectors -> sector_ok sec -> bit (free_map d fs) sec = false ->
  BitMap_bits bm1 = (BitMap_bits (free_map d fs)).[sec <- true] -> BitMap_wf (free_map d fs) ->
  lenZ (used (dir_table d fs)) < NumDirEntries -> divRoundUp size SectorSize <= free_sectors d fs - 1 ->
  exists dir h bm2 d1 d2 d3, Directory_Add (disk_dir d fs) nm sec = (true, dir) /\
    FileHeader_Allocate (new_header H) bm1 size = Ok (true, h, bm2) /\ FileHeader_WriteBack h d sec = Ok d1 /\
    Directory_WriteBack (new_chars H) dir (directoryFile fs) d1 = Ok d2 /\ BitMap_WriteBack H bm2 (freeMapFile fs) d2 = Ok d3 /\
    ready m d3 /\ fs_wf d3 fs /\ created d d3 fs nm size.
Proof.
  intros Hwf Hr Hc Hsize Hnone Hw1 Hn1 Hsec Hclear Hb1 Hwb Hroom Hspace.
  assert (Hint : int32 sec) by (unfold sector_ok, NumSectors in Hsec; unfold_int32; lia).
  destruct (Add_ok (disk_dir d fs) nm sec (fw_dir _ _ Hwf) Hc Hint) as [_ Hadd].
  destruct Hadd as (dir & e & Ea & Hdir & Hts & Hu & Hk & Hs & _); [by apply fs_file_none| |].
  { rewrite used_full. rewrite (dw_size _ (fw_dir _ _ Hwf)). cbn [disk_dir tableSize table]. lia. }
  cbn [disk_dir table tableSize] in Hu, Hts.
  destruct (Allocate_ok (new_header H) bm1 size Hw1 Hn1 Hsize (ho_sectors H Hok) (ho_int32 H Hok)) as [_ Hal].
  assert (Hcc : count_clear (BitMap_bits bm1) = free_sectors d fs - 1).
  { rewrite Hb1, (count_clear_insert _ _ false); [rewrite (count_clear_owners _ d fs Hr Hwf); lia|].
    rewrite lookupZ_bits by exact Hsec. by rewrite Hclear. }
  destruct Hal as (h & bm2 & El & Hh & Hnb & Hnd & Hfree & Hw2 & Hn2 & Hb2); [lia|].
  assert (Hnot : sec ∉ owners d fs) by (rewrite (fw_map _ _ Hwf sec Hsec) in Hclear; by apply bool_decide_eq_false in Hclear).
  assert (Hbit1 : forall j, sector_ok j -> bit bm1 j = if decide (j = sec) then true else bit (free_map d fs) j).
  { intros j Hj. apply bit_insert; done. }
  assert (Hhs : forall j, j ∈ hdr_sectors h -> sector_ok j /\ j <> sec /\ j ∉ owners d fs).
  { intros j Hj. pose proof (hdr_sector h j Hh Hj) as Hjs. pose proof (Hfree j Hj) as Hf. rewrite (Hbit1 j Hjs) in Hf.
    destruct (decide (j = sec)); [done|]. rewrite (fw_map _ _ Hwf j Hjs) in Hf. apply bool_decide_eq_false in Hf. done. }
  destruct (flush_ok m d fs sec h dir bm2 Hwf Hr Hsec Hnot Hh Hdir Hts Hw2) as (d1 & d2 & d3 & F1 & F2 & F3 & Hr3 & Ho & Hhd & Htab & Hmap); [congruence|].
  subst sec. destruct (rebuild_add d d3 fs Hwf e h) as (Hwf3 & How & Hfile); [exact Ho| | |exact Hhd|exact Hh| | | |].
  - unfold disk_dir. rewrite Htab. destruct dir as [ts tb]. cbn [tableSize table] in *. by rewrite <- Hts.
  - by rewrite Htab.
  - apply NoDup_cons. split; [|done]. intros Hin. by destruct (Hhs _ Hin) as (_ & ? & _).
  - intros j [->|Hj]%elem_of_cons; [done|]. by destruct (Hhs _ Hj) as (? & _ & ?).
  - intros j Hj. rewrite Hmap, Hb2 by (rewrite Hn1; exact Hj). rewrite (Hbit1 j Hj).
    destruct (decide (j ∈ hdr_sectors h)) as [Hin|Hin].
    + rewrite bool_decide_eq_true_2; [done|]. by apply list_elem_of_further.
    + destruct (decide (j = de_sector e)) as [->|Hne]; [rewrite bool_decide_eq_true_2; [done|apply list_elem_of_here]|].
      rewrite bool_decide_eq_false_2; [done|]. by intros [?|?]%elem_of_cons.
  - exists dir, h, bm2, d1, d2, d3. conjs; [done..|]. split.
    + unfold free_sectors. assert (HL : lenZ (owners d3 fs) = 1 + lenZ (hdr_sectors h) + lenZ (owners d fs)).
      { unfold lenZ. rewrite How, length_app. cbn [length]. lia. }
      rewrite HL, hdr_sectors_length, (hw_sectors _ Hh), Hnb by done. lia.
    + split; [rewrite Htab; unfold lenZ; rewrite Hu; cbn [length]; lia|]. exists (file_bytes d3 h). split; [rewrite (file_bytes_len _ _ _ Hr3 Hh); done|]. intros nm'. by rewrite Hfile, Hk.
Qed.

Lemma Create_ok m fs d nm size :
  fs_wf d fs -> ready (9 + m) d -> cstring nm -> 0 <= size <= MaxFileSize ->
  exists ok d', FileSystem_Create H fs d nm size = Ok (ok, d') /\ ready m d' /\ fs_wf d' fs /\
    (ok = true <-> can_create d fs nm size) /\ (if ok then created d d' fs nm size else unchanged d d' fs).
Proof.
  intros Hwf Hr Hc Hsize. unfold FileSystem_Create.
  destruct (fetch_dir (8 + m) d fs Hr Hwf) as (d1 & -> & Hr1 & O1). cbn [mbind outcome_bind].
  rewrite (Find_ok (disk_dir d fs) nm (fw_dir _ _ Hwf) Hc). cbn [mbind outcome_bind disk_dir table].
  destruct (fs_wf_same d d1 fs Hwf O1) as (Hwf1 & Hfile1 & How1).
  destruct (dir_lookup (dir_table d fs) (key nm)) as [s|] eqn:El; cbn [from_option].
  { pose proof (found_sector d fs nm s Hwf El) as Hs. unfold id, sector_ok in *. rewrite (proj2 (Z.eqb_neq s (-1))) by lia. cbn [negb].
    exists false, d1. destruct (Create_gives_up 8 m d d1 fs Hwf Hr1 O1) as (G1 & G2 & G3). conjs; [reflexivity|exact G1|exact G2| |exact G3].
    split; [done|]. intros (Hn & _). apply fs_file_none in Hn. congruence. }
  rewrite Z.eqb_refl. cbn [negb]. pose proof (proj2 (fs_file_none d fs nm) El) as Hnone.
  destruct (fetch_map (7 + m) d1 fs Hr1 Hwf1) as (bm0 & d2 & -> & E2 & Hr2 & O2). cbn [mbind outcome_bind]. rewrite E2. cbn [mbind outcome_bind].
  assert (O12 : only [] d d2) by (exact (only_trans [] [] d d1 d2 O1 O2)).
  destruct (fs_wf_same d d2 fs Hwf O12) as (Hwf2 & Hfile2 & How2).
  destruct (same_views d d2 fs O12 (proj1 (fw_map_file _ _ Hwf)) (proj1 (fw_dir_file _ _ Hwf))) as (Ht2 & Hm2 & _).
  destruct (same_views d1 d2 fs O2 (proj1 (fw_map_file _ _ Hwf)) (proj1 (fw_dir_file _ _ Hwf))) as (_ & Hm12 & _).
  rewrite <- Hm12. pose proof (free_map_wf _ d2 fs Hr2 Hwf2) as Hbw.
  assert (Hgive : exists ok d', Ok (false, d2) = Ok (ok, d') /\ ready m d' /\ fs_wf d' fs /\
    (ok = true <-> False) /\ (if ok then created d d' fs nm size else unchanged d d' fs)).
  { exists false, d2. destruct (Create_gives_up 7 m d d2 fs Hwf Hr2 O12) as (G1 & G2 & G3).
    conjs; [reflexivity|exact G1|exact G2|split; [discriminate|tauto]|exact G3]. }
  assert (Hfs : free_sectors d2 fs = free_sectors d fs) by (unfold free_sectors; by rewrite How2).
  pose proof (sector_count size Hsize) as [[Hneed _] _].
  destruct (BitMap_Find_spec (free_map d2 fs) Hbw) as (sec & bm1 & -> & Hw1 & Hn1 & [(-> & _ & Hall)|(Hs & Hclear & _ & Hb1)]); cbn [mbind outcome_bind].
  { rewrite Z.eqb_refl. destruct Hgive as (ok & d' & E & G1 & G2 & G3 & G4). exists ok, d'. conjs; [exact E|exact G1|exact G2| |exact G4].
    assert (free_sectors d fs = 0) as H0 by (rewrite <- Hfs, <- (count_clear_owners _ _ _ Hr2 Hwf2); by apply all_set_zero).
    unfold can_create. rewrite H0. intuition lia. }
  rewrite (proj2 (Z.eqb_neq sec (-1))) by lia.
  assert (Hdd : disk_dir d2 fs = disk_dir d fs) by (unfold disk_dir; by rewrite Ht2). rewrite <- Hdd.
  assert (Hint : int32 sec) by (unfold free_map, NumSectors in Hs; cbn [numBits] in Hs; unfold_int32; lia).
  destruct (decide (lenZ (used (dir_table d2 fs)) < NumDirEntries)) as [Hroom|Hfull]; cycle 1.
  { destruct (Add_ok (disk_dir d2 fs) nm sec (fw_dir _ _ Hwf2) Hc Hint) as [Hno _]. rewrite Hno.
    - cbn [negb]. destruct Hgive as (ok & d' & E & G1 & G2 & G3 & G4). exists ok, d'. conjs; [exact E|exact G1|exact G2| |exact G4].
      unfold can_create. rewrite <- Ht2. tauto.
    - right. apply used_full. rewrite (dw_size _ (fw_dir _ _ Hwf2)). exact Hfull. }
  destruct (decide (divRoundUp size SectorSize <= free_sectors d2 fs - 1)) as [Hsp|Hsp]; cycle 1.
  { destruct (Add_ok (disk_dir d2 fs) nm sec (fw_dir _ _ Hwf2) Hc Hint) as [_ Hyes].
    destruct Hyes as (dir & e & -> & _); [cbn [disk_dir table]; by rewrite Ht2| |].
    { rewrite used_full, (dw_size _ (fw_dir _ _ Hwf2)). cbn [disk_dir tableSize table]. tauto. }
    cbn [negb]. destruct (Allocate_ok (new_header H) bm1 size Hw1 Hn1 Hsize (ho_sectors H Hok) (ho_int32 H Hok)) as [Hal _].
    destruct Hal as (h' & ->).
    - rewrite Hb1, (count_clear_insert _ _ false); [rewrite (count_clear_owners _ _ _ Hr2 Hwf2); lia|].
      rewrite lookupZ_bits by exact Hs. by rewrite Hclear.
    - cbn [mbind outcome_bind negb]. destruct Hgive as (ok & d' & E & G1 & G2 & G3 & G4). exists ok, d'. conjs; [exact E|exact G1|exact G2| |exact G4].
      unfold can_create. rewrite <- Hfs. intuition lia. }
  destruct (Create_tail m d2 fs nm size sec bm1) as (dir & h & bm2 & e1 & e2 & e3 & -> & -> & F1 & F2 & F3 & Hr3 & Hwf3 & Hcr);
    [exact Hwf2|exact Hr2|exact Hc|exact Hsize|by rewrite Hfile2|exact Hw1|exact Hn1|exact Hs|exact Hclear|exact Hb1|exact Hbw|exact Hroom|exact Hsp|].
  cbn [negb mbind outcome_bind]. rewrite F1. cbn [mbind outcome_bind]. rewrite F2. cbn [mbind outcome_bind]. rewrite F3. cbn [mbind outcome_bind].
  exists true, e3. conjs; [reflexivity|exact Hr3|exact Hwf3| |].
  - split; [|done]. intros _. unfold can_create. rewrite <- Ht2, <- Hfs. conjs; [exact Hnone|exact Hroom|lia].
  - destruct Hcr as (Hfree & Hcnt & c & Hl & Hcc). split; [lia|]. split; [by rewrite Hcnt, Ht2|]. exists c. split; [done|]. intros nm'. rewrite Hcc. by rewrite Hfile2.
Qed.

(** *** Removing a file *)

Lemma flush_remove m d fs dir bm :
  fs_wf d fs -> ready (6 + m) d -> dir_wf dir -> tableSize dir = NumDirEntries -> BitMap_wf bm -> numBits bm = NumSectors ->
  exists d1 d2, BitMap_WriteBack H bm (freeMapFile fs) d = Ok d1 /\
    Directory_WriteBack (new_chars H) dir (directoryFile fs) d1 = Ok d2 /\ ready m d2 /\
    only ([] ++ system_data fs) d d2 /\ dir_table d2 fs = table dir /\ free_map d2 fs = bm.
Proof.
  intros Hwf Hr Hdir Hts Hbm Hbits. pose proof (wf_dir_file d fs Hwf) as Hdf. destruct (wf_map_file d fs Hwf) as [Hmf Hmnd].
  rewrite <- Hts in Hdf. destruct (BitMap_WriteBack_ok (3 + m) bm (freeMapFile fs) d Hr Hmf Hmnd Hbm Hbits) as (d1 & E1 & Hr1 & O1 & Hb1).
  destruct (Directory_WriteBack_ok (new_chars H) (ho_chars H Hok) (ho_bytes H Hok) m dir (directoryFile fs) d1 Hr1 Hdf Hdir) as (d2 & E2 & Hr2 & Hb2 & O2).
  exists d1, d2. destruct (system_split d fs Hwf) as [Hsm _]. conjs; [exact E1|exact E2|exact Hr2| | |].
  - intros s Hs Hn. unfold system_data in Hn. rewrite !elem_of_app in Hn. rewrite O2, O1; tauto || done.
  - unfold dir_table. rewrite Hb2. replace 10%nat with (length (table dir)); [apply table_round_trip, Hdir|].
    pose proof (dw_size _ Hdir) as HL. rewrite Hts in HL. unfold lenZ, NumDirEntries in HL. lia.
  - rewrite <- Hb1. unfold free_map. do 2 f_equal. apply (only_file (hdr_sectors (hdr (directoryFile fs)))); [exact O2|apply Hmf|].
    intros s Hs. by apply (Hsm s Hs).
Qed.

(** What [Remove] does to a file that exists. *)
Definition removed (d d' : D) (fs : FileSystem) (nm : list Z) : Prop :=
  (exists content, fs_file d fs nm = Some content /\
     free_sectors d' fs = free_sectors d fs + 1 + divRoundUp (lenZ content) SectorSize) /\
  forall nm', fs_file d' fs nm' = if bool_decide (key nm = key nm') then None else fs_file d fs nm'.

(** The sectors of a file in the directory are distinct and marked. *)
Lemma owned_facts d fs e : fs_wf d fs -> e ∈ used (dir_table d fs) ->
  NoDup (owned d e) /\ forall s, s ∈ owned d e -> sector_ok s /\ bit (free_map d fs) s = true.
Proof.
  intros Hwf He. split.
  - pose proof (fw_nodup _ _ Hwf) as Hnd. unfold owners in Hnd. apply NoDup_app in Hnd as (_ & _ & Hnd).
    apply list_elem_of_split in He as (l1 & l2 & E). rewrite E, bind_app in Hnd. apply NoDup_app in Hnd as (_ & _ & Hnd).
    cbn [mbind list_bind] in Hnd. by apply NoDup_app in Hnd as [? _].
  - intros s Hs. pose proof (owned_elem d fs e s He Hs) as Ho. pose proof (owners_ok d fs s Hwf Ho) as Hss. split; [done|].
    rewrite (fw_map _ _ Hwf s Hss). by apply bool_decide_eq_true_2.
Qed.

Lemma FileSystem_Remove_ok m fs d nm :
  fs_wf d fs -> ready (9 + m) d -> cstring nm ->
  exists ok d', FileSystem_Remove H fs d nm = Ok (ok, d') /\ ready m d' /\ fs_wf d' fs /\
    (ok = true <-> fs_file d fs nm <> None) /\ (if ok then removed d d' fs nm else unchanged d d' fs).
Proof.
  intros Hwf Hr Hc. unfold FileSystem_Remove.
  destruct (fetch_dir (8 + m) d fs Hr Hwf) as (d1 & -> & Hr1 & O1). cbn [mbind outcome_bind].
  rewrite (Find_ok (disk_dir d fs) nm (fw_dir _ _ Hwf) Hc). cbn [mbind outcome_bind disk_dir table].
  destruct (dir_lookup (dir_table d fs) (key nm)) as [sec|] eqn:El; cbn [from_option]; cycle 1.
  { rewrite Z.eqb_refl. destruct (Create_gives_up 8 m d d1 fs Hwf Hr1 O1) as (G1 & G2 & G3).
    exists false, d1. conjs; [reflexivity|exact G1|exact G2| |exact G3]. split; [discriminate|]. intros Hn. by apply fs_file_none in El. }
  pose proof (found_sector d fs nm sec Hwf El) as Hsec. unfold id. rewrite (proj2 (Z.eqb_neq sec (-1))) by (unfold sector_ok in Hsec; lia).
  destruct (FetchFrom_ok (7 + m) d1 sec Hr1 Hsec) as (d2 & -> & Hr2 & O2). cbn [mbind outcome_bind]. apply only_nil in O2.
  assert (O12 : only [] d d2) by (exact (only_trans [] [] d d1 d2 O1 O2)).
  destruct (fs_wf_same d d2 fs Hwf O12) as (Hwf2 & _ & _).
  destruct (fetch_map (6 + m) d2 fs Hr2 Hwf2) as (bm0 & d3 & -> & E3 & Hr3 & O3). cbn [mbind outcome_bind]. rewrite E3. cbn [mbind outcome_bind].
  assert (O13 : only [] d d3) by (exact (only_trans [] [] d d2 d3 O12 O3)).
  destruct (fs_wf_same d d3 fs Hwf O13) as (Hwf3 & Hfile3 & How3).
  destruct (same_views d d3 fs O13 (proj1 (fw_map_file _ _ Hwf)) (proj1 (fw_dir_file _ _ Hwf))) as (Ht3 & Hm3 & Hh3).
  destruct (same_views d2 d3 fs O3 (proj1 (fw_map_file _ _ Hwf)) (proj1 (fw_dir_file _ _ Hwf))) as (_ & Hm23 & _). rewrite <- Hm23.
  destruct (same_views d d1 fs O1 (proj1 (fw_map_file _ _ Hwf)) (proj1 (fw_dir_file _ _ Hwf))) as (_ & _ & Hh1).
  fold (hdr_at d1 sec). rewrite (Hh1 sec Hsec), <- (Hh3 sec Hsec). rewrite <- Ht3 in El.
  destruct (Remove_ok (disk_dir d3 fs) nm (fw_dir _ _ Hwf3) Hc) as [_ Hrem].
  destruct (Hrem sec El) as (dir & e & Er & Hdir & Hts & Hu & Hk & Hs). cbn [disk_dir table tableSize] in Hu, Hts. subst sec.
  assert (He : e ∈ used (dir_table d3 fs)) by (rewrite Hu; apply list_elem_of_here).
  destruct (owned_facts d3 fs e Hwf3 He) as [Hnd Hmarked]. unfold owned in Hnd. apply NoDup_cons in Hnd as [Hne Hnd].
  pose proof (proj2 (fw_files _ _ Hwf3 e He)) as Hhw. pose proof (free_map_wf _ d3 fs Hr3 Hwf3) as Hbw.
  destruct (Deallocate_ok (hdr_at d3 (de_sector e)) (free_map d3 fs) Hhw Hbw eq_refl Hnd) as (bm1 & -> & Hw1 & Hn1 & Hb1).
  { intros s Hin. apply Hmarked. by apply owned_data. }
  cbn [mbind outcome_bind]. assert (Hsec' : 0 <= de_sector e < numBits bm1) by (rewrite Hn1; exact Hsec).
  destruct (BitMap_Clear_spec bm1 Hw1 (de_sector e) Hsec') as (bm2 & -> & Hw2 & Hn2 & Hb2). cbn [mbind outcome_bind].
  assert (Hdd : disk_dir d fs = disk_dir d3 fs) by (unfold disk_dir; by rewrite Ht3).
  rewrite Hdd, Er. cbn [mbind outcome_bind].
  destruct (flush_remove m d3 fs dir bm2 Hwf3 Hr3 Hdir Hts Hw2) as (d4 & d5 & F1 & F2 & Hr5 & Ho & Htab & Hmap); [rewrite Hn2, Hn1; reflexivity|].
  rewrite F1. cbn [mbind outcome_bind]. rewrite F2. cbn [mbind outcome_bind].
  destruct (rebuild_remove d3 d5 fs Hwf3 e) as (Hwf5 & How & Hfile); [exact Ho| | | |].
  - unfold disk_dir. rewrite Htab. destruct dir as [ts tb]. cbn [tableSize table] in *. by rewrite <- Hts.
  - by rewrite Htab.
  - intros s Hss. assert (Hss' : 0 <= s < numBits bm1) by (rewrite Hn1; exact Hss).
    rewrite Hmap, (bit_insert bm1 bm2 (de_sector e) false s Hb2 Hn2 Hsec' Hss'), (Hb1 s Hss). unfold owned.
    destruct (decide (s = de_sector e)) as [->|Hns]; [rewrite bool_decide_eq_true_2; [reflexivity|apply list_elem_of_here]|].
    destruct (decide (s ∈ hdr_sectors (hdr_at d3 (de_sector e)))) as [Hin|Hin].
    + rewrite bool_decide_eq_true_2; [reflexivity|by apply list_elem_of_further].
    + rewrite bool_decide_eq_false_2; [reflexivity|]. intros [?|?]%elem_of_cons; contradiction.
  - exists true, d5. conjs; [reflexivity|exact Hr5|exact Hwf5| |].
    + split; [|reflexivity]. intros _ Hn. rewrite <- Hfile3 in Hn. apply fs_file_none in Hn. rewrite El in Hn. discriminate Hn.
    + split.
      * exists (file_bytes d3 (hdr_at d3 (de_sector e))). split; [rewrite <- Hfile3; unfold fs_file; rewrite El; reflexivity|].
        rewrite (file_bytes_len _ _ _ Hr3 Hhw), <- (hw_sectors _ Hhw), <- hdr_sectors_length by done. unfold free_sectors. rewrite <- How3.
        assert (HL : lenZ (owners d3 fs) = 1 + lenZ (hdr_sectors (hdr_at d3 (de_sector e))) + lenZ (owners d5 fs)).
        { unfold lenZ. rewrite How, length_app. unfold owned. cbn [length]. lia. }
        lia.
      * intros nm'. rewrite Hfile, Hk, Hfile3. reflexivity.
Qed.

(** C2: [Create] and [Remove] on a consistent file system keep it consistent (every
    sector is free or has exactly one owner) and return; what they do to the files is
    what their names say.  [Create] succeeds exactly when the name is new, the
    directory has room and there are enough free sectors for header and data, and then
    adds a file of that length and takes exactly those sectors; [Remove] succeeds
    exactly when the file is there, deletes it and frees exactly its sectors; every
    other file keeps its content, and an unsuccessful call changes nothing. *)
Theorem create_remove_refine m fs d nm size :
  fs_wf d fs -> ready (9 + m) d -> cstring nm -> 0 <= size <= MaxFileSize ->
  (exists ok d', FileSystem_Create H fs d nm size = Ok (ok, d') /\ ready m d' /\ fs_wf d' fs /\
    (ok = true <-> can_create d fs nm size) /\ (if ok then created d d' fs nm size else unchanged d d' fs)) /\
  (exists ok d', FileSystem_Remove H fs d nm = Ok (ok, d') /\ ready m d' /\ fs_wf d' fs /\
    (ok = true <-> fs_file d fs nm <> None) /\ (if ok then removed d d' fs nm else unchanged d d' fs)).
Proof. intros Hwf Hr Hc Hs. split; [by apply Create_ok|by apply FileSystem_Remove_ok]. Qed.

(** *** Writing to a file *)

Lemma bind_disjoint {A} (g : A -> list Z) l x y s :
  NoDup (l ≫= g) -> x ∈ l -> y ∈ l -> s ∈ g x -> s ∈ g y -> x = y.
Proof.
  induction l as [|a l IH]; intros Hnd Hx Hy Hsx Hsy; [by apply not_elem_of_nil in Hx|].
  cbn [mbind list_bind] in Hnd. apply NoDup_app in Hnd as (_ & Hd & Hnd).
  apply elem_of_cons in Hx as [->|Hx]; apply elem_of_cons in Hy as [->|Hy]; [done| | |by apply IH].
  - exfalso. apply (Hd s Hsx). apply list_elem_of_bind. eauto.
  - exfalso. apply (Hd s Hsy). apply list_elem_of_bind. eauto.
Qed.

(** A change of the data of one file. *)
Lemma rebuild_write d d' fs e :
  fs_wf d fs -> e ∈ used (dir_table d fs) -> only (hdr_sectors (hdr_at d (de_sector e))) d d' ->
  fs_wf d' fs /\ owners d' fs = owners d fs /\ hdr_at d' (de_sector e) = hdr_at d (de_sector e) /\ dir_table d' fs = dir_table d fs /\
  forall nm, fs_file d' fs nm = if bool_decide (entry_key e = key nm) then Some (file_bytes d' (hdr_at d (de_sector e))) else fs_file d fs nm.
Proof.
  intros Hwf He Ho. set (l := hdr_sectors (hdr_at d (de_sector e))) in *.
  assert (Hsys : forall s, s ∈ system_sectors fs -> s ∉ l).
  { intros s Hs Hin. by apply (owned_not_system d fs e s Hwf He (owned_data d e s Hin)). }
  pose proof (fw_nodup _ _ Hwf) as Hnd. unfold owners in Hnd. apply NoDup_app in Hnd as (_ & _ & Hnd).
  assert (Hhd : forall x, x ∈ used (dir_table d fs) -> de_sector x ∉ l).
  { intros x Hx Hin. assert (x = e) as ->.
    { exact (bind_disjoint (owned d) _ x e _ Hnd Hx He (owned_header d x) (owned_data d e _ Hin)). }
    destruct (owned_facts d fs e Hwf He) as [Hn _]. unfold owned in Hn. by apply NoDup_cons in Hn as [? _]. }
  assert (Hh : forall x, x ∈ used (dir_table d fs) -> hdr_at d' (de_sector x) = hdr_at d (de_sector x)).
  { intros x Hx. apply (only_hdr l); [done|apply (fw_files _ _ Hwf x Hx)|by apply Hhd]. }
  assert (Ht : dir_table d' fs = dir_table d fs).
  { unfold dir_table. f_equal. apply (only_file l); [done|apply (fw_dir_file _ _ Hwf)|]. intros s Hs. apply Hsys.
    unfold system_sectors. rewrite !elem_of_app. tauto. }
  assert (Hm : free_map d' fs = free_map d fs).
  { unfold free_map. do 2 f_equal. apply (only_file l); [done|apply (fw_map_file _ _ Hwf)|]. intros s Hs. apply Hsys.
    unfold system_sectors. rewrite !elem_of_app. tauto. }
  assert (How : owners d' fs = owners d fs).
  { unfold owners. rewrite Ht. f_equal. apply bind_owned_ext. intros x Hx. unfold owned. by rewrite Hh. }
  destruct (system_headers fs) as [S0 S1]. pose proof Hwf as [W1 W2 W3 W4 W5 W6 W7 W8].
  conjs; [split; [exact W1|exact W2| | | | | |]|exact How|by apply Hh|exact Ht|].
  - rewrite <- W3. apply (only_hdr l); [done|unfold sector_ok, NumSectors, FreeMapSector; lia|by apply Hsys].
  - rewrite <- W4. apply (only_hdr l); [done|unfold sector_ok, NumSectors, DirectorySector; lia|by apply Hsys].
  - unfold disk_dir. rewrite Ht. exact W5.
  - rewrite Ht. intros x Hx. rewrite Hh by exact Hx. exact (W6 x Hx).
  - rewrite How. exact W7.
  - rewrite How, Hm. exact W8.
  - intros nm. unfold fs_file. rewrite Ht. pose proof (dw_distinct _ W5) as HN. cbn [disk_dir table] in HN.
    case_bool_decide as Hk.
    + rewrite (proj2 (dir_lookup_elem (dir_table d fs) (key nm) (de_sector e) HN)) by (exists e; by conjs).
      cbn [mbind option_bind]. by rewrite Hh.
    + destruct (dir_lookup (dir_table d fs) (key nm)) as [s|] eqn:E; [|reflexivity]. cbn [mbind option_bind]. f_equal.
      apply dir_lookup_Some in E as (x & Hx & Hkx & <-). rewrite Hh by exact Hx.
      apply (only_file l); [done|apply (W6 x Hx)|]. intros s Hs Hin. apply Hk. rewrite <- Hkx. f_equal.
      symmetry. exact (bind_disjoint (owned d) _ x e s Hnd Hx He (owned_data d x s Hs) (owned_data d e s Hin)).
Qed.

(** [WriteAt] on a file of the file system. *)
Lemma write_file_ok m fs d f nm s from n position old :
  fs_wf d fs -> ready (128 + m) d -> dir_lookup (dir_table d fs) (key nm) = Some s -> hdr f = hdr_at d s ->
  fs_file d fs nm = Some old -> 0 <= position -> position < lenZ old -> 0 < n -> position + n <= int32_max ->
  n <= lenZ from -> Forall byte from ->
  let len := Z.min n (lenZ old - position) in
  exists d', OpenFile_WriteAt (new_chars H) f d from n position = Ok (len, d') /\ ready m d' /\ fs_wf d' fs /\
    owners d' fs = owners d fs /\ dir_table d' fs = dir_table d fs /\ hdr_at d' s = hdr_at d s /\
    forall nm', fs_file d' fs nm' = if bool_decide (key nm = key nm') then Some (splice old position (slice from 0 len)) else fs_file d fs nm'.
Proof.
  intros Hwf Hr Hl Hf Hold Hp1 Hp2 Hn Hmax Hfrom Hb. unfold fs_file in Hold. rewrite Hl in Hold. injection Hold as Hold.
  apply dir_lookup_Some in Hl as (e & He & Hk & <-). destruct (fw_files _ _ Hwf e He) as [_ Hhw].
  destruct (owned_facts d fs e Hwf He) as [Hnd _]. unfold owned in Hnd. apply NoDup_cons in Hnd as [_ Hnd].
  pose proof (file_bytes_len _ d _ Hr Hhw) as HL. rewrite Hold in HL. rewrite HL in *. intros len.
  pose proof (touched_bound (hdr_at d (de_sector e)) position len Hhw Hp1 ltac:(lia) ltac:(lia)) as Ht.
  destruct (WriteAt_ok (new_chars H) (ho_chars H Hok) (ho_bytes H Hok) m f d from n position) as (d' & E & Hr' & Hc & Ho);
    rewrite ?Hf; [done|done|lia|lia|lia|lia|done| |].
  - fold len. apply (ready_le (126 - touched position len)).
    by replace (126 - touched position len + (2 + (touched position len + m)))%nat with (128 + m)%nat by lia.
  - rewrite Hf in E, Hc, Ho. fold len in E, Hc. destruct (rebuild_write d d' fs e Hwf He Ho) as (Hwf' & How & Hhd & Htab & Hfile).
    exists d'. conjs; [exact E|exact Hr'|exact Hwf'|exact How|exact Htab|exact Hhd|]. intros nm'. rewrite Hfile, Hk, Hc, Hold. reflexivity.
Qed.

(** C3: writing to a file of the file system.  When an open file has the header that
    the directory gives for a name, [WriteAt] replaces the given range of that file's
    content, and of no other file's: the directory, the map and every other file stay as
    they are, and the file system stays consistent. *)
Theorem write_file_refine m fs d f nm s from n position old :
  fs_wf d fs -> ready (128 + m) d -> dir_lookup (dir_table d fs) (key nm) = Some s -> hdr f = hdr_at d s ->
  fs_file d fs nm = Some old -> 0 <= position -> position < lenZ old -> 0 < n -> position + n <= int32_max ->
  n <= lenZ from -> Forall byte from ->
  let len := Z.min n (lenZ old - position) in
  exists d', OpenFile_WriteAt (new_chars H) f d from n position = Ok (len, d') /\ ready m d' /\ fs_wf d' fs /\
    owners d' fs = owners d fs /\
    forall nm', fs_file d' fs nm' = if bool_decide (key nm = key nm') then Some (splice old position (slice from 0 len)) else fs_file d fs nm'.
Proof.
  intros Hwf Hr Hl Hf Hold Hp1 Hp2 Hn Hmax Hfrom Hb.
  destruct (write_file_ok m fs d f nm s from n position old Hwf Hr Hl Hf Hold Hp1 Hp2 Hn Hmax Hfrom Hb) as (d' & ? & ? & ? & ? & _ & _ & ?).
  exists d'. by conjs.
Qed.

(** *** Formatting *)

(** The map after the four sectors of the system have been taken. *)
Lemma format_map : exists bm0 bm1 bm2 h1 bm3 h2 bm4,
  new_BitMap H = Ok bm0 /\ BitMap_Mark bm0 FreeMapSector = Ok bm1 /\ BitMap_Mark bm1 DirectorySector = Ok bm2 /\
  FileHeader_Allocate (new_header H) bm2 FreeMapFileSize = Ok (true, h1, bm3) /\
  FileHeader_Allocate (new_header H) bm3 DirectoryFileSize = Ok (true, h2, bm4) /\
  BitMap_wf bm4 /\ numBits bm4 = NumSectors /\ hdr_wf h1 /\ numBytes h1 = FreeMapFileSize /\ hdr_wf h2 /\ numBytes h2 = DirectoryFileSize /\
  NoDup ([0; 1] ++ hdr_sectors h1 ++ hdr_sectors h2) /\
  forall j, sector_ok j -> bit bm4 j = bool_decide (j ∈ [0; 1] ++ hdr_sectors h1 ++ hdr_sectors h2).
Proof.
  destruct new_BitMap_ok as (bm0 & E0 & W0 & N0 & B0).
  destruct (BitMap_Mark_spec bm0 W0 0) as (bm1 & E1 & W1 & N1 & L1); [rewrite N0; unfold NumSectors; lia|]. rewrite N0 in N1.
  destruct (BitMap_Mark_spec bm1 W1 1) as (bm2 & E2 & W2 & N2 & L2); [rewrite N1; unfold NumSectors; lia|]. rewrite N1 in N2.
  assert (S0 : sector_ok 0) by (unfold sector_ok, NumSectors; lia). assert (S1 : sector_ok 1) by (unfold sector_ok, NumSectors; lia).
  assert (B1 : forall j, sector_ok j -> bit bm1 j = if decide (j = 0) then true else bit bm0 j) by (intros j Hj; apply bit_insert; rewrite ?N0; done).
  assert (B2 : forall j, sector_ok j -> bit bm2 j = if decide (j = 1) then true else bit bm1 j) by (intros j Hj; apply bit_insert; rewrite ?N1; done).
  assert (Hclear : forall bm, BitMap_wf bm -> numBits bm = NumSectors -> (exists j, sector_ok j /\ bit bm j = false) -> 1 <= count_clear (BitMap_bits bm)).
  { intros bm Hw Hn (j & Hj & Hbj). pose proof (count_clear_nonneg (BitMap_bits bm)). destruct (decide (count_clear (BitMap_bits bm) = 0)) as [Hz|]; [|lia].
    rewrite (proj1 (all_set_zero bm Hw) Hz j) in Hbj by (rewrite Hn; exact Hj). done. }
  assert (Hsz : forall x, 0 < x <= 512 -> divRoundUp x SectorSize = 1 /\ 0 <= x <= MaxFileSize).
  { intros x Hx. pose proof (divRoundUp_spec x SectorSize). unfold MaxFileSize, SectorSize in *. change NumDirect with 126. lia. }
  destruct (Hsz FreeMapFileSize ltac:(done)) as [D1 Z1]. destruct (Hsz DirectoryFileSize ltac:(done)) as [D2 Z2].
  destruct (Allocate_ok (new_header H) bm2 FreeMapFileSize W2 N2 Z1 (ho_sectors H Hok) (ho_int32 H Hok)) as [_ A1].
  destruct A1 as (h1 & bm3 & E3 & Hh1 & Hb1 & Hd1 & Hf1 & W3 & N3 & U3).
  { rewrite D1. apply Hclear; [done|done|]. exists 2. split; [unfold sector_ok, NumSectors; lia|].
    rewrite B2, B1, B0 by (unfold sector_ok, NumSectors; lia). done. }
  rewrite N2 in N3. assert (HL1 : lenZ (hdr_sectors h1) = 1) by (rewrite hdr_sectors_length, (hw_sectors _ Hh1), Hb1; done).
  assert (B3 : forall j, sector_ok j -> bit bm3 j = if decide (j ∈ hdr_sectors h1) then true else bit bm2 j) by (intros j Hj; apply U3; by rewrite N2).
  destruct (hdr_sectors h1) as [|s1 [|? ?]] eqn:Eh1; [done| |unfold lenZ in HL1; cbn [length] in HL1; lia].
  assert (Ss1 : sector_ok s1) by (eapply hdr_sector; [exact Hh1|]; rewrite Eh1; apply list_elem_of_here).
  pose proof (Hf1 s1 (list_elem_of_here _ _)) as F1. rewrite B2, B1 in F1 by done.
  destruct (Allocate_ok (new_header H) bm3 DirectoryFileSize W3 N3 Z2 (ho_sectors H Hok) (ho_int32 H Hok)) as [_ A2].
  destruct A2 as (h2 & bm4 & E4 & Hh2 & Hb2 & Hd2 & Hf2 & W4 & N4 & U4).
  { rewrite D2. apply Hclear; [done|done|]. exists (if decide (s1 = 2) then 3 else 2).
    destruct (decide (s1 = 2)) as [->|Hne]; (split; [unfold sector_ok, NumSectors; lia|]);
      rewrite B3, decide_False, B2, B1, B0 by (set_solver || (unfold sector_ok, NumSectors; lia)); done. }
  rewrite N3 in N4. exists bm0, bm1, bm2, h1, bm3, h2, bm4. rewrite Eh1. conjs; try done.
  - apply NoDup_app. split; [|split].
    + repeat constructor; set_solver.
    + intros x Hx Hin. apply elem_of_app in Hin as [Hin|Hin].
      * apply list_elem_of_singleton in Hin as ->. destruct (decide (s1 = 1)), (decide (s1 = 0)); try done; set_solver.
      * assert (Hxs : sector_ok x) by (by eapply hdr_sector). pose proof (Hf2 x Hin) as F2. rewrite B3, B2, B1 in F2 by done.
        destruct (decide (x ∈ [s1])), (decide (x = 1)), (decide (x = 0)); try done. set_solver.
    + apply NoDup_app. split; [apply NoDup_singleton|]. split; [|done]. intros x ->%list_elem_of_singleton Hin.
      pose proof (Hf2 s1 Hin) as F2. rewrite B3, decide_True in F2 by (done || set_solver). done.
  - intros j Hj. rewrite U4 by (by rewrite N3). rewrite B3, B2, B1, B0 by done.
    repeat case_decide; symmetry; (apply bool_decide_eq_true_2 || apply bool_decide_eq_false_2); set_solver.
Qed.

Lemma OpenFile_new_ok m d sec type :
  ready (S m) d -> sector_ok sec ->
  exists d', OpenFile_new d sec type = Ok (mkOpenFile (hdr_at d sec) 0 type, d') /\ ready m d' /\ only [] d d'.
Proof.
  intros Hr Hs. unfold OpenFile_new. destruct (FetchFrom_ok m d sec Hr Hs) as (d' & -> & Hr' & O). cbn [mbind outcome_bind].
  exists d'. conjs; [reflexivity|done|by apply only_nil].
Qed.

(** A formatted disk holds an empty, consistent file system. *)
Lemma format_ok m d :
  ready (10 + m) d ->
  exists f1 f2 d', FileSystem_format H d = Ok (f1, f2, d') /\ ready m d' /\
    forall fs, freeMapFile fs = f1 -> directoryFile fs = f2 ->
      fs_wf d' fs /\ used (dir_table d' fs) = [] /\ free_sectors d' fs = NumSectors - 4.
Proof.
  intros Hr. unfold FileSystem_format.
  destruct format_map as (bm0 & bm1 & bm2 & h1 & bm3 & h2 & bm4 & -> & E1 & E2 & E3 & E4 & W4 & N4 & Hh1 & Hb1 & Hh2 & Hb2 & Hnd & Hbits).
  cbn [mbind outcome_bind]. rewrite E1. cbn [mbind outcome_bind]. rewrite E2. cbn [mbind outcome_bind]. rewrite E3. cbn [mbind outcome_bind ASSERT].
  rewrite E4. cbn [mbind outcome_bind ASSERT]. clear E1 E2 E3 E4.
  assert (S0 : sector_ok FreeMapSector) by (unfold sector_ok, NumSectors, FreeMapSector; lia).
  assert (S1 : sector_ok DirectorySector) by (unfold sector_ok, NumSectors, DirectorySector; lia).
  pose proof Hnd as Hnd'. apply NoDup_app in Hnd' as (_ & H01 & Hnd12). apply NoDup_app in Hnd12 as (Hn1 & Hd12 & Hn2).
  assert (N0 : 0 ∉ hdr_sectors h1 ++ hdr_sectors h2 /\ 1 ∉ hdr_sectors h1 ++ hdr_sectors h2) by (split; apply H01; set_solver).
  rewrite !elem_of_app in N0.
  destruct (WriteBack_ok (9 + m) d FreeMapSector h1 Hr S0 Hh1) as (d1 & -> & Hr1 & On1 & O1). cbn [mbind outcome_bind].
  destruct (WriteBack_ok (8 + m) d1 DirectorySector h2 Hr1 S1 Hh2) as (d2 & -> & Hr2 & On2 & O2). cbn [mbind outcome_bind].
  assert (On1' : hdr_at d2 FreeMapSector = h1) by (unfold hdr_at; rewrite O2 by done; exact On1).
  destruct (OpenFile_new_ok (7 + m) d2 FreeMapSector (new_type H) Hr2 S0) as (d3 & -> & Hr3 & O3). rewrite On1'. cbn [mbind outcome_bind].
  assert (On2' : hdr_at d3 DirectorySector = h2) by (rewrite (only_hdr [] d2 d3 _ O3 S1 (not_elem_of_nil _)); exact On2).
  destruct (OpenFile_new_ok (6 + m) d3 DirectorySector (new_type H) Hr3 S1) as (d4 & -> & Hr4 & O4). rewrite On2'. cbn [mbind outcome_bind].
  set (f1 := mkOpenFile h1 0 (new_type H)). set (f2 := mkOpenFile h2 0 (new_type H)).
  destruct (BitMap_WriteBack_ok (3 + m) bm4 f1 d4 Hr4 (conj Hh1 Hb1) Hn1 W4 N4) as (d5 & -> & Hr5 & O5 & Hm5). cbn [mbind outcome_bind].
  destruct new_Directory_wf as (Hdw & Hdu & Hdl).
  assert (Hdf : dir_file f2 (tableSize (new_Directory H))).
  { split; [exact Hh2|]. split; [exact Hn2|]. split; [exact Hb2|]. change (tableSize (new_Directory H)) with 10. unfold DirectoryEntrySize, SectorSize. lia. }
  destruct (Directory_WriteBack_ok (new_chars H) (ho_chars H Hok) (ho_bytes H Hok) m (new_Directory H) f2 d5 Hr5 Hdf Hdw) as (d6 & -> & Hr6 & Hb6 & O6).
  cbn [mbind outcome_bind]. exists f1, f2, d6. conjs; [reflexivity|exact Hr6|]. intros fs Ef1 Ef2.
  assert (Ht : dir_table d6 fs = table (new_Directory H)).
  { unfold dir_table. rewrite Ef2, Hb6. rewrite <- Hdl. apply table_round_trip, Hdw. }
  assert (Hm : free_map d6 fs = bm4).
  { rewrite <- Hm5. unfold free_map. rewrite Ef1. do 2 f_equal. apply (only_file (hdr_sectors h2)); [exact O6|exact Hh1|]. exact Hd12. }
  assert (Hu : used (dir_table d6 fs) = []) by (rewrite Ht; exact Hdu).
  assert (How : owners d6 fs = [0; 1] ++ hdr_sectors h1 ++ hdr_sectors h2).
  { unfold owners, system_sectors. rewrite Hu, Ef1, Ef2. cbn [mbind list_bind]. by rewrite app_nil_r. }
  assert (Hk : forall s, sector_ok s -> s ∉ hdr_sectors h1 -> s ∉ hdr_sectors h2 -> hdr_at d6 s = hdr_at d4 s).
  { intros s Hs Hs1 Hs2. unfold hdr_at. rewrite O6, O5 by done. done. }
  conjs; [split| |].
  - rewrite Ef1. split; [exact Hh1|exact Hb1].
  - rewrite Ef2. split; [exact Hh2|exact Hb2].
  - rewrite Hk, Ef1 by (exact S0 || (unfold FreeMapSector; tauto)).
    rewrite (only_hdr [] d3 d4 _ O4 S0 (not_elem_of_nil _)), (only_hdr [] d2 d3 _ O3 S0 (not_elem_of_nil _)). exact On1'.
  - rewrite Hk, Ef2 by (exact S1 || (unfold DirectorySector; tauto)).
    rewrite (only_hdr [] d3 d4 _ O4 S1 (not_elem_of_nil _)). exact On2'.
  - unfold disk_dir. rewrite Ht. exact Hdw.
  - rewrite Hu. intros e He. by apply not_elem_of_nil in He.
  - rewrite How. exact Hnd.
  - rewrite How, Hm. exact Hbits.
  - exact Hu.
  - unfold free_sectors. rewrite How, !lenZ_app, !hdr_sectors_length, (hw_sectors _ Hh1), (hw_sectors _ Hh2), Hb1, Hb2 by done. reflexivity.
Qed.

Lemma fs_wf_ext d fs fs' :
  freeMapFile fs' = freeMapFile fs -> directoryFile fs' = directoryFile fs -> fs_wf d fs -> fs_wf d fs'.
Proof.
  intros E1 E2 [W1 W2 W3 W4 W5 W6 W7 W8]. unfold disk_dir, owners, system_sectors, free_map, dir_table in *.
  split; unfold disk_dir, owners, system_sectors, free_map, dir_table; rewrite ?E1, ?E2; assumption.
Qed.

Lemma open_standard_missing m fs d nm type :
  fs_wf d fs -> ready (S m) d -> cstring nm -> fs_file d fs nm = None -> openf fs = replicate 15 None -> 0 <= index fs < 15 ->
  exists d', open_standard H fs d nm type = Ok (set_index fs (index fs + 1), d') /\ ready m d' /\ only [] d d'.
Proof.
  intros Hwf Hr Hc Hnone Hopen Hi. unfold open_standard, FileSystem_Open_type, FileSystem_FindFreeSlot. rewrite Hopen.
  change (find_free_slot 13 2 (replicate 15 None)) with (Ok 2). cbn [mbind outcome_bind].
  destruct (fetch_dir m d fs Hr Hwf) as (d1 & -> & Hr1 & O1). cbn [mbind outcome_bind].
  rewrite (Find_ok (disk_dir d fs) nm (fw_dir _ _ Hwf) Hc). cbn [mbind outcome_bind disk_dir table].
  apply fs_file_none in Hnone. rewrite Hnone. cbn [from_option Z.leb Z.compare mbind outcome_bind]. rewrite Hopen.
  change ((replicate 15 None).[2]) with (Some (@None nat)). cbn [deref mbind outcome_bind]. rewrite Hopen.
  assert (E : forall i, 0 <= i < 15 -> (replicate 15 (@None nat)).[i] = Some None /\ (replicate 15 (@None nat)).[i <- None] = replicate 15 None).
  { intros i Hi'. unfold lookupZ, insertZ. rewrite (proj2 (Z.ltb_ge i 0)) by lia. split; [apply lookup_replicate_2; lia|].
    apply list_insert_id, lookup_replicate_2. lia. }
  destruct (E (index fs) Hi) as [E1 E2]. rewrite E1. cbn [deref mbind outcome_bind]. rewrite E2.
  exists d1. conjs; [|done|done]. destruct fs as [a b c o i]. cbn [openf] in Hopen. subst o. reflexivity.
Qed.

Definition stdin_stdout (nm : list Z) : bool := bool_decide (key nm = str_stdin \/ key nm = str_stdout).

(** C19: formatting.  Starting the file system on a disk with the format flag always
    succeeds, whatever the disk and the uninitialised memory hold, and leaves a
    consistent file system with two empty files, stdin and stdout, and all but six
    sectors free; no entry of the table of open files is set. *)
Theorem format_gives_consistent_fs m d :
  ready (30 + m) d ->
  exists fs d', FileSystem_new H true d = Ok (fs, d') /\ ready m d' /\ fs_wf d' fs /\
    (forall nm, fs_file d' fs nm = if stdin_stdout nm then Some [] else None) /\
    free_sectors d' fs = NumSectors - 6 /\ openf fs = replicate 15 None /\ index fs = 2.
Proof.
  intros Hr. unfold FileSystem_new. destruct (format_ok (20 + m) d Hr) as (f1 & f2 & d1 & -> & Hr1 & Hf). cbn [mbind outcome_bind].
  set (fs0 := mkFS f1 f2 [] (replicate 15 None) 0). destruct (Hf fs0 eq_refl eq_refl) as (W1 & U1 & F1).
  assert (C1 : cstring str_stdin) by (repeat constructor; lia). assert (C2 : cstring str_stdout) by (repeat constructor; lia).
  assert (Hnone : forall nm, fs_file d1 fs0 nm = None) by (intros nm; apply fs_file_none, dir_lookup_None; rewrite U1; apply not_elem_of_nil).
  destruct (open_standard_missing (19 + m) fs0 d1 str_stdin 2 W1 Hr1 C1 (Hnone _) eq_refl ltac:(cbn; lia)) as (d2 & -> & Hr2 & O2). cbn [mbind outcome_bind].
  destruct (fs_wf_same d1 d2 fs0 W1 O2) as (W2 & Hf2 & How2). set (fs1 := set_index fs0 (index fs0 + 1)).
  assert (W2' : fs_wf d2 fs1) by (exact (fs_wf_ext d2 fs0 fs1 eq_refl eq_refl W2)).
  destruct (open_standard_missing (18 + m) fs1 d2 str_stdout 3 W2' Hr2 C2) as (d3 & -> & Hr3 & O3);
    [change (fs_file d2 fs0 str_stdout = None); by rewrite Hf2|reflexivity|cbn; lia|]. cbn [mbind outcome_bind].
  set (fs := set_index fs1 (index fs1 + 1)). destruct (fs_wf_same d2 d3 fs1 W2' O3) as (W3 & Hf3 & How3).
  assert (W3' : fs_wf d3 fs) by (exact (fs_wf_ext d3 fs1 fs eq_refl eq_refl W3)).
  assert (N3 : forall nm, fs_file d3 fs nm = None).
  { intros nm. change (fs_file d3 fs1 nm = None). rewrite Hf3. change (fs_file d2 fs0 nm = None). by rewrite Hf2. }
  assert (F3 : free_sectors d3 fs = NumSectors - 4).
  { rewrite <- F1. unfold free_sectors. change (owners d3 fs) with (owners d3 fs1). rewrite How3. change (owners d2 fs1) with (owners d2 fs0). by rewrite How2. }
  assert (Z0 : 0 <= 0 <= MaxFileSize) by (unfold MaxFileSize, SectorSize; change NumDirect with 126; lia).
  destruct (Create_ok (9 + m) fs d3 str_stdin 0 W3' Hr3 C1 Z0) as (ok1 & d4 & -> & Hr4 & W4 & Hok1 & Hres1). cbn [mbind outcome_bind].
  assert (U3 : used (dir_table d3 fs) = []).
  { destruct (same_views d2 d3 fs1 O3 (proj1 (fw_map_file _ _ W2')) (proj1 (fw_dir_file _ _ W2'))) as (T3 & _).
    destruct (same_views d1 d2 fs0 O2 (proj1 (fw_map_file _ _ W1)) (proj1 (fw_dir_file _ _ W1))) as (T2 & _).
    change (used (dir_table d3 fs1) = []). rewrite T3. change (used (dir_table d2 fs0) = []). by rewrite T2. }
  assert (ok1 = true) as ->.
  { apply Hok1. unfold can_create. conjs; [apply N3|rewrite U3; reflexivity|rewrite F3; vm_compute; discriminate]. }
  destruct Hres1 as (F4 & K4 & c1 & L1 & Hc1). rewrite U3 in K4. rewrite F3 in F4.
  destruct (Create_ok m fs d4 str_stdout 0 W4 Hr4 C2 Z0) as (ok2 & d5 & -> & Hr5 & W5 & Hok2 & Hres2). cbn [mbind outcome_bind].
  assert (ok2 = true) as ->.
  { apply Hok2. unfold can_create. conjs; [rewrite Hc1; apply N3|rewrite K4; reflexivity|rewrite F4; vm_compute; discriminate]. }
  destruct Hres2 as (F5 & _ & c2 & L2 & Hc2). rewrite F4 in F5.
  assert (Hnil : forall c : list Z, lenZ c = 0 -> c = []) by (intros c Hc; unfold lenZ in Hc; apply nil_length_inv; lia).
  exists fs, d5. conjs; [reflexivity|exact Hr5|exact W5| |rewrite F5; reflexivity|reflexivity|reflexivity].
  intros nm. rewrite Hc2, Hc1, N3, (Hnil c1 L1), (Hnil c2 L2). change (key str_stdin) with str_stdin. change (key str_stdout) with str_stdout.
  unfold stdin_stdout. destruct (decide (str_stdout = key nm)) as [E2|E2]; [rewrite !bool_decide_eq_true_2 by auto; reflexivity|].
  rewrite (bool_decide_eq_false_2 _ E2). destruct (decide (str_stdin = key nm)) as [E1|E1]; [rewrite !bool_decide_eq_true_2 by auto; reflexivity|].
  rewrite !bool_decide_eq_false_2; [reflexivity|intros [?|?]; congruence|exact E1].
Qed.

(** What [FileSystem::Open(char * )] returns is not the file it was asked for: it
    looks the name up and makes an [OpenFile] for it, but returns the entry of the table
    of open files at [index], which does not depend on the name.  After formatting
    that is NULL, "not found", for every file that exists. *)
Theorem Open_returns_table_entry m fs d nm p :
  fs_wf d fs -> ready (2 + m) d -> cstring nm -> (openf fs).[index fs] = Some p ->
  exists fs' d', FileSystem_Open H fs d nm = Ok (p, fs', d') /\ ready m d' /\ openf fs' = openf fs /\ index fs' = index fs + 1 /\
    (fs_file d fs nm <> None -> exists f, objects fs' = objects fs ++ [f] /\ Some (file_bytes d (hdr f)) = fs_file d fs nm).
Proof.
  intros Hwf Hr Hc Hp. unfold FileSystem_Open.
  destruct (fetch_dir (S m) d fs Hr Hwf) as (d1 & -> & Hr1 & O1). cbn [mbind outcome_bind].
  rewrite (Find_ok (disk_dir d fs) nm (fw_dir _ _ Hwf) Hc). cbn [mbind outcome_bind disk_dir table]. unfold fs_file.
  destruct (dir_lookup (dir_table d fs) (key nm)) as [sec|] eqn:El; cbn [from_option].
  - pose proof (found_sector d fs nm sec Hwf El) as Hs. unfold id. rewrite (proj2 (Z.leb_le 0 sec)) by (unfold sector_ok in Hs; lia).
    destruct (OpenFile_new_ok m d1 sec (new_type H) Hr1 Hs) as (d2 & -> & Hr2 & O2). cbn [mbind outcome_bind].
    cbn [add_object set_index openf index objects]. replace (index fs + 1 - 1) with (index fs) by lia. rewrite Hp. cbn [deref mbind outcome_bind].
    eexists _, d2. conjs; [reflexivity|exact Hr2|reflexivity|reflexivity|]. intros _. eexists. split; [reflexivity|].
    cbn [hdr mbind option_bind]. by rewrite (only_hdr [] d d1 _ O1 Hs (not_elem_of_nil _)).
  - change (0 <=? -1) with false. cbn [mbind outcome_bind set_index openf index]. replace (index fs + 1 - 1) with (index fs) by lia.
    rewrite Hp. cbn [deref mbind outcome_bind]. eexists _, d1. conjs; [reflexivity|by apply ready_S|reflexivity|reflexivity|done].
Qed.
End FileSystemLemmas.

(** *** A formatted disk *)

Definition zero_heap : Heap :=
  mkHeap zeros zeros (fun n => replicate (Z.to_nat n) blank_entry) (mkHdr 0 0 (replicate 126 0)) 0.

Lemma zero_heap_ok : heap_ok zero_heap.
Proof.
  split; cbn [new_chars new_words new_entries new_header zero_heap dataSectors].
  - exact lenZ_zeros_buf.
  - exact zeros_bytes.
  - exact lenZ_zeros_buf.
  - intros n. apply Forall_replicate. unfold_int32. lia.
  - intros n Hn. unfold lenZ. rewrite length_replicate. lia.
  - intros n. apply Forall_replicate, blank_entry_wf.
  - reflexivity.
  - apply Forall_replicate. unfold_int32. lia.
Qed.

Lemma format_gives_consistent_fs_witness :
  exists d fs d', FileSystem_new (D := DSys) zero_heap true d = Ok (fs, d') /\ fs_wf d' fs /\ fs_file d' fs str_stdin = Some [].
Proof.
  destruct Disk_new_blank as (dk & _ & Hd & Ha & _). exists (blank_sys dk).
  destruct (format_gives_consistent_fs (D := DSys) zero_heap zero_heap_ok 0 (blank_sys dk)) as (fs & d' & E & _ & Hw & Hf & _).
  - apply blank_ready; [exact Hd|exact Ha|lia].
  - exists fs, d'. split; [exact E|]. split; [exact Hw|]. rewrite (Hf str_stdin). reflexivity.
Defined.

(** A freshly formatted file system on a blank disk. *)
Lemma sample_fs : exists (d : DSys) fs, ready 500 d /\ fs_wf d fs /\ used (dir_table d fs) = [] /\ free_sectors d fs = 1020 /\
  openf fs = replicate 15 None /\ index fs = 2.
Proof.
  destruct Disk_new_blank as (dk & _ & Hd & Ha & _).
  destruct (format_ok (D := DSys) zero_heap zero_heap_ok 500 (blank_sys dk)) as (f1 & f2 & d' & _ & Hr & Hf); [apply blank_ready; [done|done|lia]|].
  exists d', (mkFS f1 f2 [] (replicate 15 None) 2). destruct (Hf (mkFS f1 f2 [] (replicate 15 None) 2) eq_refl eq_refl) as (H1 & H2 & H3).
  by conjs.
Qed.

Lemma create_remove_refine_witness :
  exists (d : DSys) fs d', FileSystem_Create zero_heap fs d [97] 600 = Ok (true, d') /\ fs_wf d' fs /\ free_sectors d' fs = 1017.
Proof.
  destruct sample_fs as (d & fs & Hr & Hwf & Hu & Hfree & _). exists d, fs.
  destruct (create_remove_refine (D := DSys) zero_heap zero_heap_ok 491 fs d [97] 600 Hwf Hr) as [(ok & d' & E & _ & Hw & Hok & Hres) _].
  - repeat constructor; lia.
  - unfold MaxFileSize, SectorSize. change NumDirect with 126. lia.
  - exists d'. assert (Ht : ok = true).
    { apply Hok. split; [|split; [rewrite Hu; reflexivity|rewrite Hfree; vm_compute; discriminate]].
      apply fs_file_none, dir_lookup_None. rewrite Hu. apply not_elem_of_nil. }
    subst ok. split; [exact E|]. split; [exact Hw|]. destruct Hres as (F & _). rewrite F, Hfree. reflexivity.
Defined.

(** The same with a file of 600 bytes. *)
Lemma sample_fs_file : exists (d : DSys) fs content s, ready 480 d /\ fs_wf d fs /\ fs_file d fs [97] = Some content /\ lenZ content = 600 /\
  dir_lookup (dir_table d fs) (key [97]) = Some s /\ (openf fs).[index fs] = Some None.
Proof.
  destruct sample_fs as (d & fs & Hr & Hwf & Hu & Hfree & Ho & Hi).
  destruct (Create_ok (D := DSys) zero_heap zero_heap_ok 480 fs d [97] 600 Hwf) as (ok & d' & _ & Hr' & Hw & Hok & Hres).
  - exact (ready_le 11 489 d Hr).
  - repeat constructor; lia.
  - unfold MaxFileSize, SectorSize. change NumDirect with 126. lia.
  - assert (ok = true) as ->.
    { apply Hok. split; [|split; [rewrite Hu; reflexivity|rewrite Hfree; vm_compute; discriminate]].
      apply fs_file_none, dir_lookup_None. rewrite Hu. apply not_elem_of_nil. }
    destruct Hres as (_ & _ & c & Hl & Hc). pose proof (Hc [97]) as Hfile. rewrite bool_decide_eq_true_2 in Hfile by reflexivity.
    destruct (dir_lookup (dir_table d' fs) (key [97])) as [s|] eqn:E; [|unfold fs_file in Hfile; rewrite E in Hfile; discriminate].
    exists d', fs, c, s. conjs; [exact Hr'|exact Hw|exact Hfile|exact Hl|exact E|]. rewrite Ho, Hi. reflexivity.
Qed.

Lemma write_file_refine_witness :
  exists (d : DSys) fs d' old, fs_file d fs [97] = Some old /\ fs_wf d' fs /\
    fs_file d' fs [97] = Some (splice old 510 [1; 2; 3; 4]).
Proof.
  destruct sample_fs_file as (d & fs & old & s & Hr & Hwf & Hf & Hl & Hs & _).
  destruct (write_file_refine (D := DSys) zero_heap zero_heap_ok 352 fs d (mkOpenFile (hdr_at d s) 0 0) [97] s [1; 2; 3; 4] 4 510 old Hwf Hr Hs)
    as (d' & _ & _ & Hw & _ & Hfile).
  - reflexivity.
  - exact Hf.
  - lia.
  - lia.
  - lia.
  - unfold int32_max. lia.
  - unfold lenZ. cbn [length]. lia.
  - repeat constructor; unfold byte; lia.
  - exists d, fs, d', old. split; [exact Hf|]. split; [exact Hw|]. rewrite (Hfile [97]), Hl. reflexivity.
Defined.

Lemma Open_returns_table_entry_witness :
  exists (d : DSys) fs content fs' d', fs_file d fs [97] = Some content /\ FileSystem_Open zero_heap fs d [97] = Ok (None, fs', d').
Proof.
  destruct sample_fs_file as (d & fs & old & s & Hr & Hwf & Hf & Hl & Hs & Ho).
  destruct (Open_returns_table_entry (D := DSys) zero_heap zero_heap_ok 478 fs d [97] None Hwf Hr) as (fs' & d' & E & _).
  - repeat constructor; lia.
  - exact Ho.
  - exists d, fs, old, fs', d'. split; [exact Hf|exact E].
Defined.
