(* ===== verification/Console.v ===== *)
(** * The terminal and the synchronous console

    machine/console.cc and threads/synchcons.cc, above the interrupt hardware of
    [Interrupts].  The keyboard and the display are UNIX files of the host: the
    display is the sequence of bytes written, the keyboard the sequence of answers
    the host gives to [PollFile] and [Read].  The semaphores of threads/synchcons.cc
    are their values; one thread at a time uses the console, so a [P] that finds the
    value 0 idles until an interrupt changes it.  [console_drain] describes what the
    interrupts of the terminal do up to a point in time; [console_write_ok] and
    [console_read_ok] say what the two operations do with the streams of characters.
    [ConsoleDevice] with [ConsoleLaws] is what the system calls rely on. *)

From Stdlib Require Import Sorting.Sorted.
From S2P Require Import Prelude Int32 LinkedList Machine Interrupts.

(** ** The terminal *)

Definition EOF : Z := -1.

(** What [PollFile] says about the keyboard, and the character [Read] then gets; at
    the end of the file [PollFile] says yes and [Read] gets nothing. *)
Inductive keypress := NoKey | Key (c : Z) | EndOfFile.

#[export] Instance keypress_eq_dec : EqDecision keypress.
Proof. solve_decision. Defined.

(** [class Console], with the two UNIX files; the handlers are those of
    threads/synchcons.cc. *)
Record Console := mkConsole {
  keyboard : list keypress;
  display : list Z;
  putBusy : bool;
  incoming : Z }.

(** [class SynchConsole] and the four static semaphores *)
Record SynchConsole := mkSynchConsole {
  cons : Console;
  synchReadAvail : Z;
  synchWriteAvail : Z;
  RLineBlock : Z;
  WLineBlock : Z }.

Inductive console_handler := ConsoleReadPoll | ConsoleWriteDone.

Abbreviation CSys := (Sys (W := SynchConsole) (H := console_handler)).

Definition set_term (s : CSys) (w : SynchConsole) : CSys := mkSys (interrupt s) (stats s) (machine s) w.
Definition set_cons (w : SynchConsole) (c : Console) : SynchConsole :=
  mkSynchConsole c (synchReadAvail w) (synchWriteAvail w) (RLineBlock w) (WLineBlock w).

(** The semaphores by name. *)
Inductive console_sem := ReadAvail | WriteAvail | RLine | WLine.
Definition sem_value (w : SynchConsole) (x : console_sem) : Z :=
  match x with ReadAvail => synchReadAvail w | WriteAvail => synchWriteAvail w | RLine => RLineBlock w | WLine => WLineBlock w end.
Definition set_sem (w : SynchConsole) (x : console_sem) (v : Z) : SynchConsole :=
  match x with
  | ReadAvail => mkSynchConsole (cons w) v (synchWriteAvail w) (RLineBlock w) (WLineBlock w)
  | WriteAvail => mkSynchConsole (cons w) (synchReadAvail w) v (RLineBlock w) (WLineBlock w)
  | RLine => mkSynchConsole (cons w) (synchReadAvail w) (synchWriteAvail w) v (WLineBlock w)
  | WLine => mkSynchConsole (cons w) (synchReadAvail w) (synchWriteAvail w) (RLineBlock w) v
  end.

Definition count_char_read (st : Statistics) : Statistics :=
  mkStats (totalTicks st) (idleTicks st) (systemTicks st) (userTicks st) (numDiskReads st) (numDiskWrites st)
    (wrap_s32 (numConsoleCharsRead st + 1)) (numConsoleCharsWritten st) (numPageFaults st) (numPacketsSent st) (numPacketsRecvd st).
Definition count_char_written (st : Statistics) : Statistics :=
  mkStats (totalTicks st) (idleTicks st) (systemTicks st) (userTicks st) (numDiskReads st) (numDiskWrites st)
    (numConsoleCharsRead st) (wrap_s32 (numConsoleCharsWritten st + 1)) (numPageFaults st) (numPacketsSent st) (numPacketsRecvd st).

(** [SynchReadFunct] and [SynchWriteFunct]: a [V] in a handler, where interrupts are
    off and stay off. *)
Definition V_in_handler (x : console_sem) (s : CSys) : CSys :=
  set_term s (set_sem (world s) x (wrap_s32 (sem_value (world s) x + 1))).
Definition SynchReadFunct : CSys -> CSys := V_in_handler ReadAvail.
Definition SynchWriteFunct : CSys -> CSys := V_in_handler WriteAvail.

(** [Console::CheckCharAvail] *)
Definition Console_CheckCharAvail (s : CSys) : outcome CSys :=
  s ← Interrupt_Schedule s ConsoleReadPoll 0 ConsoleTime ConsoleReadInt;
  let w := world s in
  let c := cons w in
  if negb (incoming c =? EOF) then Ok s
  else match keyboard c with
  | [] => Ok s
  | NoKey :: more => Ok (set_term s (set_cons w (mkConsole more (display c) (putBusy c) (incoming c))))
  | EndOfFile :: _ => AssertFail
  | Key ch :: more =>
      let s := set_term s (set_cons w (mkConsole more (display c) (putBusy c) ch)) in
      Ok (SynchReadFunct (set_stats s (count_char_read (stats s))))
  end.

(** [Console::WriteDone] *)
Definition Console_WriteDone (s : CSys) : outcome CSys :=
  let w := world s in
  let c := cons w in
  let s := set_term s (set_cons w (mkConsole (keyboard c) (display c) false (incoming c))) in
  Ok (SynchWriteFunct (set_stats s (count_char_written (stats s)))).

(** [ConsoleReadPoll] and [ConsoleWriteDone] *)
Definition console_call (h : console_handler) (a : Z) (s : CSys) : outcome CSys :=
  match h with ConsoleReadPoll => Console_CheckCharAvail s | ConsoleWriteDone => Console_WriteDone s end.

(** [Console::GetChar] *)
Definition Console_GetChar (s : CSys) : Z * CSys :=
  let c := cons (world s) in
  (incoming c, set_term s (set_cons (world s) (mkConsole (keyboard c) (display c) (putBusy c) EOF))).

(** [Console::PutChar] *)
Definition Console_PutChar (s : CSys) (ch : Z) : outcome CSys :=
  let c := cons (world s) in
  _ ← ASSERT (negb (putBusy c));
  let s := set_term s (set_cons (world s) (mkConsole (keyboard c) (display c ++ [ch]) true (incoming c))) in
  Interrupt_Schedule s ConsoleWriteDone 0 ConsoleTime ConsoleWriteInt.

(** [Console::Console] with the standard input and output of the host, and
    [SynchConsole::SynchConsole] *)
Definition SynchConsole_new (keys : list keypress) (s : CSys) : outcome CSys :=
  let c := mkConsole keys [] false EOF in
  let s := set_term s (mkSynchConsole c 0 0 1 1) in
  Interrupt_Schedule s ConsoleReadPoll 0 ConsoleTime ConsoleReadInt.

(** ** The synchronous console *)

Definition SetLevel (s : CSys) (l : IntStatus) : outcome (IntStatus * CSys) :=
  Interrupt_SetLevel console_call (fun s => Ok s) s l.

(** The loop of [Semaphore::P]: with no thread to run, [Sleep] idles. *)
Fixpoint P_wait (fuel : nat) (x : console_sem) (s : CSys) : outcome CSys :=
  if sem_value (world s) x =? 0 then
    match fuel with
    | O => Undefined
    | S fuel => s ← Interrupt_Idle console_call s; P_wait fuel x s
    end
  else Ok (set_term s (set_sem (world s) x (wrap_s32 (sem_value (world s) x - 1)))).

(** An upper bound for the number of times [P] idles: each time an interrupt fires,
    a poll that finds no character in the buffer takes an answer of the keyboard. *)
Definition idle_bound (s : CSys) : nat := length (pending (interrupt s)) + length (keyboard (cons (world s))).

(** [Semaphore::P] and [Semaphore::V] by the running thread *)
Definition console_P (x : console_sem) (s : CSys) : outcome CSys :=
  '(oldLevel, s) ← SetLevel s IntOff;
  s ← P_wait (idle_bound s) x s;
  '(_, s) ← SetLevel s oldLevel;
  Ok s.
Definition console_V (x : console_sem) (s : CSys) : outcome CSys :=
  '(oldLevel, s) ← SetLevel s IntOff;
  '(_, s) ← SetLevel (V_in_handler x s) oldLevel;
  Ok s.

(** The loop of [SynchConsole::Write] *)
Fixpoint write_loop (from : list Z) (s : CSys) : outcome CSys :=
  match from with
  | [] => Ok s
  | ch :: from => s ← Console_PutChar s ch; s ← console_P WriteAvail s; write_loop from s
  end.

(** [SynchConsole::Write] *)
Definition SynchConsole_Write (s : CSys) (from : list Z) (numBytes : Z) : outcome (Z * CSys) :=
  s ← console_P WLine s;
  bytes ← fetch from 0 (Z.max 0 numBytes);
  s ← write_loop bytes s;
  s ← console_V WLine s;
  Ok (numBytes, s).

(** [do { synchReadAvail->P(); ch = cons->GetChar(); } while (ch == EOF)] *)
Fixpoint get_loop (fuel : nat) (s : CSys) : outcome (Z * CSys) :=
  match fuel with
  | O => Undefined
  | S fuel =>
      s ← console_P ReadAvail s;
      let '(ch, s) := Console_GetChar s in
      if ch =? EOF then get_loop fuel s else Ok (ch, s)
  end.

(** Each round takes a unit of the semaphore or an answer of the keyboard. *)
Definition get_bound (s : CSys) : nat := S (Z.to_nat (synchReadAvail (world s)) + length (keyboard (cons (world s)))).

(** The loop of [SynchConsole::Read]: the characters read, and the last value of [ch]. *)
Fixpoint read_loop (n : nat) (ch : Z) (s : CSys) : outcome (list Z * Z * CSys) :=
  match n with
  | O => Ok ([], ch, s)
  | S n =>
      '(ch, s) ← get_loop (get_bound s) s;
      if (ch =? 10) || (ch =? 1) then Ok ([], ch, s)
      else
        '(line, last, s) ← read_loop n ch s;
        Ok (ch :: line, last, s)
  end.

(** [SynchConsole::Read]: what is in [into] afterwards and the result; [ch] is the
    value of an uninitialised variable. *)
Definition SynchConsole_Read (s : CSys) (numBytes ch : Z) : outcome (list Z * Z * CSys) :=
  s ← console_P RLine s;
  '(line, ch, s) ← read_loop (Z.to_nat numBytes) ch s;
  s ← console_V RLine s;
  Ok (line ++ replicate (Z.to_nat numBytes - length line) 0, if ch =? 1 then -1 else lenZ line, s).

(** ** What the interrupts do *)

(** The effect of a poll on the terminal, when the keyboard is not at its end. *)
Definition poll_world (w : SynchConsole) : SynchConsole :=
  let c := cons w in
  if negb (incoming c =? EOF) then w
  else match keyboard c with
  | NoKey :: more => set_cons w (mkConsole more (display c) (putBusy c) (incoming c))
  | Key ch :: more =>
      set_sem (set_cons w (mkConsole more (display c) (putBusy c) ch)) ReadAvail (wrap_s32 (synchReadAvail w + 1))
  | _ => w
  end.

Definition write_world (w : SynchConsole) : SynchConsole :=
  let c := cons w in
  set_sem (set_cons w (mkConsole (keyboard c) (display c) false (incoming c))) WriteAvail (wrap_s32 (synchWriteAvail w + 1)).

Definition keys_ok (w : SynchConsole) : Prop := EndOfFile ∉ keyboard (cons w).

Definition poll_at (t : Z) : Z * PendingInterrupt := (t, mkPending ConsoleReadPoll 0 t ConsoleReadInt).
Definition write_at (t : Z) : Z * PendingInterrupt := (t, mkPending ConsoleWriteDone 0 t ConsoleWriteInt).
Definition write_part (ow : option Z) : list (Z * PendingInterrupt) :=
  match ow with Some w => [write_at w] | None => [] end.

(** The interrupts of the terminal: the next poll at [p], the end of a write at [ow]. *)
Record view (l : IntStatus) (st : MachineStatus) (p : Z) (ow : option Z) (w : SynchConsole) (t : Z) (s : CSys) : Prop := {
  v_wf : int_wf s;
  v_level : level (interrupt s) = l;
  v_handler : inHandler (interrupt s) = false;
  v_yield : yieldOnReturn (interrupt s) = false;
  v_status : status (interrupt s) = st;
  v_pending : pending (interrupt s) ≡ₚ poll_at p :: write_part ow;
  v_world : world s = w;
  v_now : now s = t }.

(** Everything that is due at [t] has happened. *)
Definition is_due (t : Z) (ow : option Z) : bool := match ow with Some w => w <=? t | None => false end.
Definition drain_poll (t p : Z) : Z := if p <=? t then t + ConsoleTime else p.
Definition drain_write (t : Z) (ow : option Z) : option Z := if is_due t ow then None else ow.
Definition drain_world (t p : Z) (ow : option Z) (w : SynchConsole) : SynchConsole :=
  let w := if p <=? t then poll_world w else w in if is_due t ow then write_world w else w.

Lemma poll_write_comm w : poll_world (write_world w) = write_world (poll_world w).
Proof.
  destruct w as [[ks d b i] ra wa rl wl]. unfold poll_world, write_world. simpl.
  destruct (negb (i =? EOF)); [done|]. by destruct ks as [|[] ks].
Qed.

Lemma keys_ok_poll w : keys_ok w -> keys_ok (poll_world w).
Proof.
  destruct w as [[ks d b i] ra wa rl wl]. unfold poll_world, keys_ok. simpl. destruct (negb (i =? EOF)); [done|].
  destruct ks as [|[] ks]; simpl; rewrite ?not_elem_of_cons; tauto.
Qed.

Lemma keys_ok_write w : keys_ok w -> keys_ok (write_world w).
Proof. done. Qed.

Lemma call_poll s t :
  keys_ok (world s) -> 0 <= t -> now s = t -> t + MaxDelay <= int32_max ->
  exists st, console_call ConsoleReadPoll 0 s =
      Ok (mkSys (interrupt (set_pending s (sorted_insert (t + ConsoleTime) (poll_at (t + ConsoleTime)).2 (pending (interrupt s)))))
                st (machine s) (poll_world (world s))) /\
    (st = stats s \/ st = count_char_read (stats s)).
Proof.
  intros Hk H0 Ht Hm. unfold console_call, Console_CheckCharAvail, Interrupt_Schedule, keys_ok in *.
  rewrite Ht, wrap_s32_id by (unfold_int32; unfold ConsoleTime, MaxDelay in *; lia). cbn [ASSERT mbind outcome_bind Z.ltb].
  change (0 <? ConsoleTime) with true. cbn [ASSERT mbind outcome_bind]. unfold poll_world. cbn [world set_pending set_interrupt].
  destruct (negb (incoming (cons (world s)) =? EOF)); [eexists; by eauto|].
  destruct (keyboard (cons (world s))) as [|[|ch|] more] eqn:E; try (eexists; split; [reflexivity|by auto]).
  exfalso. apply Hk, list_elem_of_here.
Qed.

Lemma stats_wf (s : CSys) i st m w :
  int_wf s -> sorted (pending i) -> (st = stats s \/ st = count_char_read (stats s) \/ st = count_char_written (stats s)) ->
  m = machine s -> int_wf (mkSys i st m w : CSys).
Proof. intros [] Hs Hst ->. destruct Hst as [->|[->| ->]]; by split. Qed.

(** The head of the queue fires. *)
Lemma fire_poll p rest st w t s :
  int_wf s -> level (interrupt s) = IntOff -> yieldOnReturn (interrupt s) = false -> status (interrupt s) = st ->
  inHandler (interrupt s) = false ->
  pending (interrupt s) ≡ₚ write_part rest -> world s = w -> now s = t -> keys_ok w -> t + MaxDelay <= int32_max ->
  exists s', fire console_call s (poll_at p).2 = Ok s' /\ view IntOff st (t + ConsoleTime) rest (poll_world w) t s'.
Proof.
  intros Hwf Hl Hy Hst Hi Hp Hw Ht Hk Hm. unfold fire. pose proof (iw_sorted _ Hwf) as Hs.
  destruct (finish_delayed_load_ok s Hwf) as (m' & -> & Hm' & _). cbn [mbind outcome_bind handler arg poll_at snd].
  set (s1 := set_status _ _).
  assert (Hwf1 : int_wf s1) by (destruct Hwf; split; done).
  assert (0 <= t) by (subst t; destruct Hwf; lia).
  destruct (call_poll s1 t) as (st' & -> & Hst'); [by rewrite <- Hw in Hk|done|done|done|]. cbn [mbind outcome_bind].
  eexists. split; [done|]. split; try done.
  - apply (stats_wf s1); [done| |tauto|done]. cbn [interrupt set_pending set_interrupt pending]. by apply sorted_insert_sorted.
  - cbn. rewrite sorted_insert_perm, Hp. done.
  - by rewrite <- Hw.
  - rewrite <- Ht. unfold now. simpl. by destruct Hst' as [-> | ->].
Qed.

Lemma fire_write w0 p st w t s :
  int_wf s -> level (interrupt s) = IntOff -> yieldOnReturn (interrupt s) = false -> status (interrupt s) = st ->
  inHandler (interrupt s) = false ->
  pending (interrupt s) ≡ₚ [poll_at p] -> world s = w -> now s = t ->
  exists s', fire console_call s (write_at w0).2 = Ok s' /\ view IntOff st p None (write_world w) t s'.
Proof.
  intros Hwf Hl Hy Hst Hi Hp Hw Ht. unfold fire. pose proof (iw_sorted _ Hwf) as Hs.
  destruct (finish_delayed_load_ok s Hwf) as (m' & -> & Hm' & _). cbn [mbind outcome_bind handler arg write_at snd].
  set (s1 := set_status _ _). assert (Hwf1 : int_wf s1) by (destruct Hwf; split; done).
  cbn [console_call]. eexists. split; [done|]. split; try done.
  - apply (stats_wf s1); [done|done|tauto|done].
  - by rewrite <- Hw.
Qed.

(** Which interrupt is the head. *)
Lemma queue_head p ow x rest :
  x :: rest ≡ₚ poll_at p :: write_part ow ->
  (x = poll_at p /\ rest ≡ₚ write_part ow) \/ (exists w, ow = Some w /\ x = write_at w /\ rest ≡ₚ [poll_at p]).
Proof.
  intros HP. assert (Hx : x ∈ poll_at p :: write_part ow) by (rewrite <- HP; apply list_elem_of_here).
  apply elem_of_cons in Hx as [->|Hx].
  - left. split; [done|]. by apply Permutation_cons_inv in HP.
  - right. destruct ow as [w|]; [|by apply elem_of_nil in Hx]. apply list_elem_of_singleton in Hx as ->. exists w. conjs; [done..|].
    apply (Permutation_cons_inv (a := write_at w)). rewrite HP. apply Permutation_swap.
Qed.

(** The head of the queue, when it is due, fires. *)
Lemma fire_head st p ow w t (s : CSys) k x rest :
  view IntOff st p ow w t s -> pending (interrupt s) = (k, x) :: rest -> keys_ok w -> t + MaxDelay <= int32_max ->
  exists s', fire console_call (set_pending s rest) x = Ok s' /\
    ((k = p /\ view IntOff st (t + ConsoleTime) ow (poll_world w) t s') \/
     (ow = Some k /\ view IntOff st p None (write_world w) t s')).
Proof.
  intros [Hwf Hl Hi Hy Hst Hp Hw Ht] E Hk Hm. rewrite E in Hp.
  assert (Hwf' : int_wf (set_pending s rest)).
  { apply set_pending_wf; [done|]. eapply sorted_tail. rewrite <- E. apply Hwf. }
  destruct (queue_head _ _ _ _ Hp) as [[Hx Hr]|(w0 & -> & Hx & Hr)]; injection Hx as -> ->.
  - destruct (fire_poll p ow st w t (set_pending s rest)) as (s' & E' & V'); try done. exists s'. split; [exact E'|]. by left.
  - destruct (fire_write w0 p st w t (set_pending s rest)) as (s' & E' & V'); try done. exists s'. split; [exact E'|]. by right.
Qed.

Lemma no_timer l st p ow w t (s : CSys) k x rest :
  view l st p ow w t s -> pending (interrupt s) = (k, x) :: rest -> type x <> TimerInt.
Proof.
  intros [_ _ _ _ _ Hp _ _] E. rewrite E in Hp. by destruct (queue_head _ _ _ _ Hp) as [[[= -> ->] _]|(w0 & _ & [= -> ->] & _)].
Qed.

Lemma due_head l st p ow w t (s : CSys) :
  view l st p ow w t s -> (p <=? t) || is_due t ow = true ->
  exists k x rest, pending (interrupt s) = (k, x) :: rest /\ k <= t.
Proof.
  intros [Hwf _ _ _ _ Hp _ Ht] Hd. destruct (pending (interrupt s)) as [|[k x] rest] eqn:E.
  { by apply Permutation_nil_cons in Hp. }
  exists k, x, rest. split; [done|]. pose proof (iw_sorted _ Hwf) as Hs. rewrite E in Hs.
  apply StronglySorted_inv in Hs as [_ Hall]. rewrite Forall_forall in Hall.
  assert (Hle : forall y, y ∈ poll_at p :: write_part ow -> k <= y.1).
  { intros y Hy. rewrite <- Hp in Hy. apply elem_of_cons in Hy as [-> | Hy]; [done|]. by specialize (Hall y Hy). }
  apply orb_true_iff in Hd as [Hd|Hd].
  - specialize (Hle (poll_at p) (list_elem_of_here _ _)). simpl in Hle. to_prop. lia.
  - destruct ow as [w0|]; [|done]. simpl in Hd. specialize (Hle (write_at w0)). simpl in Hle.
    to_prop. enough (k <= w0) by lia. apply Hle, list_elem_of_further, list_elem_of_here.
Qed.

Lemma none_due l st p ow w t (s : CSys) :
  view l st p ow w t s -> (p <=? t) || is_due t ow = false -> Forall (fun q => ~ due (now s) q) (pending (interrupt s)).
Proof.
  intros [_ _ _ _ _ Hp _ Ht] Hd. rewrite Hp, Ht. apply orb_false_iff in Hd as [H1 H2]. to_prop.
  constructor; [unfold due; simpl; lia|]. destruct ow; simpl in *; to_prop; repeat constructor. unfold due. simpl. lia.
Qed.

Definition due_count (t p : Z) (ow : option Z) : nat := (if p <=? t then 1 else 0) + (if is_due t ow then 1 else 0).

(** The loop over [CheckIfDue] brings the terminal up to the present. *)
Lemma drain_loop n st p ow w t (s : CSys) :
  view IntOff st p ow w t s -> keys_ok w -> t + MaxDelay <= int32_max -> (due_count t p ow < n)%nat ->
  exists s', check_loop console_call n s = Ok s' /\
    view IntOff st (drain_poll t p) (drain_write t ow) (drain_world t p ow w) t s'.
Proof.
  revert p ow w s. induction n as [|n IH]; intros p ow w s V Hk Hm Hn; [lia|]. cbn [check_loop].
  destruct ((p <=? t) || is_due t ow) eqn:Hd.
  - destruct (due_head _ _ _ _ _ _ _ V Hd) as (k & x & rest & E & Hkt). pose proof (no_timer _ _ _ _ _ _ _ _ _ _ V E) as Hty.
    destruct (fire_head _ _ _ _ _ _ _ _ _ V E Hk Hm) as (s1 & E1 & V1).
    assert (Interrupt_CheckIfDue console_call s false = Ok (true, s1)) as ->.
    { unfold Interrupt_CheckIfDue. rewrite (v_level _ _ _ _ _ _ _ V), E. cbn [mbind outcome_bind].
      rewrite (bool_decide_eq_true_2 (IntOff = IntOff)) by done. cbn [ASSERT mbind outcome_bind negb andb].
      change (now (set_pending s rest)) with (now s). rewrite (v_now _ _ _ _ _ _ _ V), (proj2 (Z.ltb_ge _ _)) by lia.
      rewrite (bool_decide_eq_false_2 (type x = TimerInt)), andb_false_r by done. cbn [andb]. by rewrite E1. }
    cbn [mbind outcome_bind]. unfold drain_poll, drain_write, drain_world, due_count in *.
    destruct V1 as [[-> V1]|[-> V1]].
    + rewrite (proj2 (Z.leb_le p t)) in * by lia.
      destruct (IH (t + ConsoleTime) ow (poll_world w) s1) as (s' & -> & V'); [done|by apply keys_ok_poll|done| |].
      { rewrite (proj2 (Z.leb_gt _ _)) by (unfold ConsoleTime; lia). lia. }
      exists s'. split; [done|]. rewrite (proj2 (Z.leb_gt (t + ConsoleTime) t)) in V' by (unfold ConsoleTime; lia). exact V'.
    + cbn [is_due] in *. rewrite (proj2 (Z.leb_le k t)) in * by lia.
      destruct (IH p None (write_world w) s1) as (s' & -> & V'); [done|by apply keys_ok_write|done|simpl; lia|].
      exists s'. split; [done|]. cbn [is_due] in V'. rewrite poll_write_comm in V'. by destruct (p <=? t).
  - pose proof (none_due _ _ _ _ _ _ _ V Hd) as Hnone.
    destruct (CheckIfDue_none console_call s (v_wf _ _ _ _ _ _ _ V) (v_level _ _ _ _ _ _ _ V) Hnone) as (q & -> & Hq & Hs).
    cbn [mbind outcome_bind]. eexists. split; [done|]. apply orb_false_iff in Hd as [H1 H2].
    unfold drain_poll, drain_write, drain_world. rewrite H1, H2. destruct V as [Hwf Hl Hi Hy Hst Hp Hw Ht].
    split; try done; [by apply set_pending_wf|]. simpl. by rewrite Hq.
Qed.

(** After the head has fired, bringing the rest up to date gives the same. *)
Lemma drain_after_head st p ow w t (s1 : CSys) k :
  k <= t ->
  ((k = p /\ view IntOff st (t + ConsoleTime) ow (poll_world w) t s1) \/ (ow = Some k /\ view IntOff st p None (write_world w) t s1)) ->
  keys_ok w -> t + MaxDelay <= int32_max ->
  exists s', check_all console_call s1 = Ok s' /\
    view IntOff st (drain_poll t p) (drain_write t ow) (drain_world t p ow w) t s'.
Proof.
  intros Hkt V1 Hk Hm. unfold check_all, drain_poll, drain_write, drain_world. destruct V1 as [[-> V1]|[-> V1]].
  - rewrite (proj2 (Z.leb_le p t)) by lia.
    assert (Hgt : (t + ConsoleTime <=? t) = false) by (apply Z.leb_gt; unfold ConsoleTime; lia).
    destruct (drain_loop (S (length (pending (interrupt s1)))) _ _ _ _ _ _ V1) as (s' & -> & V').
    + by apply keys_ok_poll.
    + done.
    + rewrite (v_pending _ _ _ _ _ _ _ V1). unfold due_count. rewrite Hgt. destruct (is_due t ow), ow; simpl; lia.
    + exists s'. split; [done|]. unfold drain_poll, drain_write, drain_world in V'. by rewrite Hgt in V'.
  - cbn [is_due]. rewrite (proj2 (Z.leb_le k t)) by lia.
    destruct (drain_loop (S (length (pending (interrupt s1)))) _ _ _ _ _ _ V1) as (s' & -> & V').
    + by apply keys_ok_write.
    + done.
    + rewrite (v_pending _ _ _ _ _ _ _ V1). unfold due_count. simpl. destruct (p <=? t); lia.
    + exists s'. split; [done|]. unfold drain_poll, drain_write, drain_world in V'. cbn [is_due] in V'.
      rewrite poll_write_comm in V'. by destruct (p <=? t).
Qed.

(** The time of the next interrupt. *)
Definition next_time (p : Z) (ow : option Z) : Z := match ow with Some w => Z.min p w | None => p end.

Lemma head_next l st p ow w t (s : CSys) :
  view l st p ow w t s -> exists x rest, pending (interrupt s) = (next_time p ow, x) :: rest.
Proof.
  intros V. pose proof V as [Hwf _ _ _ _ Hp _ Ht]. destruct (pending (interrupt s)) as [|[k x] rest] eqn:E.
  { by apply Permutation_nil_cons in Hp. }
  exists x, rest. do 2 f_equal. pose proof (iw_sorted _ Hwf) as Hs. rewrite E in Hs. apply StronglySorted_inv in Hs as [_ Hall].
  destruct (queue_head _ _ _ _ Hp) as [[[= -> ->] Hr]|(w0 & -> & [= -> ->] & Hr)].
  - destruct ow as [w0|]; [|done]. rewrite Hr in Hall. apply Forall_cons in Hall as [Hall _]. unfold key_le in Hall. cbn [next_time fst write_at poll_at] in *. lia.
  - rewrite Hr in Hall. apply Forall_cons in Hall as [Hall _]. unfold key_le in Hall. cbn [next_time fst write_at poll_at] in *. lia.
Qed.

(** Idling brings the terminal up to the time of the next interrupt. *)
Lemma Idle_view p ow w t (s : CSys) T :
  view IntOff SystemMode p ow w t s -> keys_ok w -> T = Z.max t (next_time p ow) -> T + MaxDelay <= int32_max ->
  exists s', Interrupt_Idle console_call s = Ok s' /\
    view IntOff SystemMode (drain_poll T p) (drain_write T ow) (drain_world T p ow w) T s'.
Proof.
  intros V Hk HT Hm. destruct (head_next _ _ _ _ _ _ _ V) as (x & rest & E). set (k := next_time p ow) in *.
  pose proof (no_timer _ _ _ _ _ _ _ _ _ _ V E) as Hty. pose proof V as [Hwf Hl Hi Hy Hst Hp Hw Ht].
  unfold Interrupt_Idle, Interrupt_CheckIfDue. change (level (interrupt (set_status s IdleMode))) with (level (interrupt s)).
  rewrite Hl. rewrite (bool_decide_eq_true_2 (IntOff = IntOff)) by done. cbn [ASSERT mbind outcome_bind].
  change (pending (interrupt (set_status s IdleMode))) with (pending (interrupt s)). rewrite E. cbn [negb andb].
  set (s0 := set_status s IdleMode).
  set (s1 := if now s0 <? k then set_stats s0 (set_ticks (stats s0) k (wrap_s32 (idleTicks (stats s0) + (k - totalTicks (stats s0))))
               (systemTicks (stats s0)) (userTicks (stats s0))) else s0).
  assert (Hs1 : (if now (set_pending s0 rest) <? k then set_stats (set_pending s0 rest)
     (set_ticks (stats (set_pending s0 rest)) k (wrap_s32 (idleTicks (stats (set_pending s0 rest)) + (k - totalTicks (stats (set_pending s0 rest)))))
               (systemTicks (stats (set_pending s0 rest))) (userTicks (stats (set_pending s0 rest)))) else set_pending s0 rest) = set_pending s1 rest).
  { unfold s1. change (now (set_pending s0 rest)) with (now s0). by destruct (now s0 <? k). }
  rewrite Hs1.
  assert (V1 : view IntOff IdleMode p ow w T s1).
  { assert (Hwf0 : int_wf s0) by by apply set_status_wf. unfold s1. change (now s0) with (now s). rewrite Ht.
    unfold MaxDelay in Hm. destruct (Z.ltb_spec t k) as [Hlt|Hge].
    - split; try done; [apply advance_clock_wf; [done|change (now s0) with (now s); lia|lia]|].
      unfold now. simpl. lia.
    - split; try done. change (now s0) with (now s). lia. }
  rewrite (bool_decide_eq_false_2 (type x = TimerInt)), andb_false_r by done. cbn [andb].
  assert (E1 : pending (interrupt s1) = (k, x) :: rest) by (unfold s1; by destruct (now s0 <? k)).
  destruct (fire_head _ _ _ _ _ _ _ _ _ V1 E1 Hk Hm) as (s2 & -> & V2). cbn [mbind outcome_bind].
  destruct (drain_after_head IdleMode p ow w T s2 k ltac:(lia) V2 Hk Hm) as (s3 & -> & V3). cbn [mbind outcome_bind].
  eexists. split; [done|]. destruct V3. split; try done. by apply set_status_wf, set_yieldOnReturn_wf.
Qed.

Lemma set_term_view l st p ow w w' t (s : CSys) : view l st p ow w t s -> view l st p ow w' t (set_term s w').
Proof. intros [Hwf ? ? ? ? ? ? ?]. split; try done. destruct Hwf. by split. Qed.

(** Turning interrupts off and on again; the latter costs a tick. *)
Lemma SetLevel_off p ow w t (s : CSys) :
  view IntOn SystemMode p ow w t s ->
  exists s', SetLevel s IntOff = Ok (IntOn, s') /\ view IntOff SystemMode p ow w t s'.
Proof.
  intros [Hwf Hl Hi Hy Hst Hp Hw Ht]. unfold SetLevel, Interrupt_SetLevel, Interrupt_ChangeLevel. rewrite Hl.
  cbn. eexists. split; [done|]. split; try done. by apply set_level_wf.
Qed.

Lemma SetLevel_on p ow w t (s : CSys) :
  view IntOff SystemMode p ow w t s -> keys_ok w -> t + 2 * MaxDelay <= int32_max ->
  exists s', SetLevel s IntOn = Ok (IntOff, s') /\
    view IntOn SystemMode (drain_poll (t + SystemTick) p) (drain_write (t + SystemTick) ow)
      (drain_world (t + SystemTick) p ow w) (t + SystemTick) s'.
Proof.
  intros [Hwf Hl Hi Hy Hst Hp Hw Ht] Hk Hm. unfold SetLevel, Interrupt_SetLevel, Interrupt_ChangeLevel. rewrite Hl, Hi.
  rewrite orb_true_r. cbn [negb ASSERT mbind outcome_bind].
  rewrite (bool_decide_eq_true_2 (IntOn = IntOn)), (bool_decide_eq_true_2 (IntOff = IntOff)) by done. cbn [andb].
  unfold Interrupt_OneTick. set (s0 := set_level s IntOn).
  destruct (advance_ok s0) as (Hwf1 & Hn1 & Hi1); [by apply set_level_wf|change (now s0) with (now s); unfold MaxDelay in *; lia|].
  unfold Interrupt_ChangeLevel. set (s1 := set_level (advance s0) IntOff).
  assert (V1 : view IntOff SystemMode p ow w (t + SystemTick) s1).
  { split; [by apply set_level_wf|done|..]; unfold s1; simpl; rewrite ?Hi1; try done.
    - unfold advance. by case_bool_decide.
    - change (now (advance s0) = t + SystemTick). rewrite Hn1. unfold tick_of. change (status (interrupt s0)) with (status (interrupt s)).
      rewrite Hst, bool_decide_eq_true_2 by done. change (now s0) with (now s). lia. }
  unfold check_all.
  destruct (drain_loop (S (length (pending (interrupt s1)))) _ _ _ _ _ _ V1 Hk) as (s2 & -> & V2).
  { unfold MaxDelay, SystemTick in *. lia. }
  { rewrite (v_pending _ _ _ _ _ _ _ V1). unfold due_count. destruct (p <=? _), (is_due _ ow) eqn:Ed, ow; simpl in *; first [lia|done]. }
  cbn [mbind outcome_bind]. destruct V2 as [W1 W2 W3 W4 W5 W6 W7 W8].
  change (yieldOnReturn (interrupt (set_level s2 IntOn))) with (yieldOnReturn (interrupt s2)). rewrite W4. cbn [mbind outcome_bind].
  eexists. split; [done|]. split; try done. by apply set_level_wf.
Qed.

(** ** Streams of characters *)

(** All characters that are typed. *)
Fixpoint pressed (ks : list keypress) : list Z :=
  match ks with
  | [] => []
  | Key c :: ks => c :: pressed ks
  | _ :: ks => pressed ks
  end.

(** Those that a reader can get: 0xFF is not told from [EOF] and gets lost. *)
Fixpoint typed (ks : list keypress) : list Z :=
  match ks with
  | [] => []
  | Key c :: ks => if c =? EOF then typed ks else c :: typed ks
  | _ :: ks => typed ks
  end.

(** The characters a reader gets: the one in the buffer, then what is typed. *)
Definition input (w : SynchConsole) : list Z :=
  let c := cons w in (if incoming c =? EOF then [] else [incoming c]) ++ typed (keyboard c).

Lemma typed_pressed ks : typed ks = List.filter (fun c => negb (c =? EOF)) (pressed ks).
Proof. induction ks as [|[|c|] ks IH]; cbn [typed pressed List.filter]; [done|done| |done]. rewrite IH. by destruct (c =? EOF). Qed.

(** The character in the buffer and all that are typed, without the bytes 0xFF. *)
Lemma input_pressed w : input w = List.filter (fun c => negb (c =? EOF)) (incoming (cons w) :: pressed (keyboard (cons w))).
Proof. unfold input. rewrite typed_pressed. cbn [List.filter]. by destruct (incoming (cons w) =? EOF). Qed.

Definition kb (w : SynchConsole) : Z := lenZ (keyboard (cons w)).

(** The number of characters that the host still has. *)
Definition is_key (k : keypress) : bool := match k with Key _ => true | _ => false end.
Definition presses (w : SynchConsole) : Z := lenZ (List.filter is_key (keyboard (cons w))).

(** The keyboard does not end, and the semaphore does not overflow. *)
Record term_wf (w : SynchConsole) : Prop := {
  tw_keys : keys_ok w;
  tw_avail : 0 <= synchReadAvail w;
  tw_bound : synchReadAvail w + kb w <= int32_max }.

(** A character in the buffer has been announced. *)
Definition armed (w : SynchConsole) : Prop := incoming (cons w) <> EOF -> 1 <= synchReadAvail w.

(** An upper bound for the time at which all that is typed has been read. *)
Definition pot (t : Z) (w : SynchConsole) : Z := t + 110 * (2 * kb w + synchReadAvail w).

(** What polling keeps. *)
Record polled (w w' : SynchConsole) : Prop := {
  po_input : input w' = input w;
  po_display : display (cons w') = display (cons w);
  po_busy : putBusy (cons w') = putBusy (cons w);
  po_write : synchWriteAvail w' = synchWriteAvail w;
  po_rline : RLineBlock w' = RLineBlock w;
  po_wline : WLineBlock w' = WLineBlock w;
  po_wf : term_wf w -> term_wf w';
  po_armed : term_wf w -> armed w -> armed w';
  po_sum : term_wf w -> synchReadAvail w' + kb w' <= synchReadAvail w + kb w;
  po_avail : term_wf w -> synchReadAvail w <= synchReadAvail w';
  po_pot : forall t, term_wf w -> pot t w' <= pot t w;
  po_count : term_wf w -> synchReadAvail w' + presses w' = synchReadAvail w + presses w }.

#[export] Instance polled_refl : Reflexive polled.
Proof. split; try done; intros; lia. Qed.
#[export] Instance polled_trans : Transitive polled.
Proof.
  intros w1 w2 w3 [A1 A2 A3 A4 A5 A6 A7 A8 A9 A10 A11 A12] [B1 B2 B3 B4 B5 B6 B7 B8 B9 B10 B11 B12].
  split; try congruence; try tauto.
  - intros Hw. specialize (A9 Hw). specialize (B9 (A7 Hw)). lia.
  - intros Hw. specialize (A10 Hw). specialize (B10 (A7 Hw)). lia.
  - intros t Hw. specialize (A11 t Hw). specialize (B11 t (A7 Hw)). lia.
  - intros Hw. specialize (A12 Hw). specialize (B12 (A7 Hw)). lia.
Qed.

Lemma polled_poll w : polled w (poll_world w).
Proof.
  destruct w as [[ks d b i] ra wa rl wl]. unfold poll_world. simpl. destruct (Z.eqb_spec i EOF) as [->|Hi]; simpl; [|reflexivity].
  destruct ks as [|[|c|] ks]; try reflexivity.
  - split; try done; unfold kb, pot, armed, kb; simpl; rewrite ?lenZ_cons; try (intros; lia).
    intros [H1 H2 H3]. split; unfold keys_ok, kb in *; simpl in *; rewrite ?lenZ_cons, ?not_elem_of_cons in *; first [tauto|lia].
  - assert (Hra : term_wf (mkSynchConsole (mkConsole (Key c :: ks) d b EOF) ra wa rl wl) -> wrap_s32 (ra + 1) = ra + 1).
    { intros [_ H2 H3]. unfold kb in *. simpl in *. rewrite lenZ_cons in H3. pose proof (lenZ_nonneg ks).
      apply wrap_s32_id. unfold_int32. lia. }
    split; unfold kb, pot, armed, kb, input, presses; simpl; try done; rewrite ?lenZ_cons.
    + by destruct (c =? EOF).
    + intros Hw. rewrite Hra by done. destruct Hw as [H1 H2 H3]. split; unfold keys_ok, kb in *; simpl in *;
        rewrite ?lenZ_cons, ?not_elem_of_cons in *; first [tauto|lia].
    + intros Hw _ _. rewrite Hra by done. destruct Hw as [_ H2 _]. simpl in H2. lia.
    + intros Hw. rewrite Hra by done. lia.
    + intros Hw. rewrite Hra by done. lia.
    + intros t Hw. rewrite Hra by done. lia.
    + intros Hw. rewrite Hra by done. lia.
Qed.

(** ** The operations *)

(** Between two operations: interrupts on, the next poll ahead, no write under way. *)
Record at_rest (w : SynchConsole) (t : Z) (s : CSys) : Prop := {
  ar_poll : exists p, view IntOn SystemMode p None w t s /\ t < p <= t + ConsoleTime;
  ar_wf : term_wf w }.

(** The same with interrupts off. *)
Definition off_rest (p : Z) (w : SynchConsole) (t : Z) (s : CSys) : Prop :=
  view IntOff SystemMode p None w t s /\ t < p <= t + ConsoleTime /\ term_wf w.

Lemma drain_polled t p w : polled w (drain_world t p None w).
Proof. unfold drain_world. simpl. destruct (p <=? t); [apply polled_poll|reflexivity]. Qed.

Lemma rest_off w t s :
  at_rest w t s -> exists p s', SetLevel s IntOff = Ok (IntOn, s') /\ off_rest p w t s'.
Proof.
  intros [(p & V & Hp) Hw]. destruct (SetLevel_off _ _ _ _ _ V) as (s' & -> & V'). by exists p, s'.
Qed.

Lemma off_on p w t s :
  off_rest p w t s -> t + 2 * MaxDelay <= int32_max ->
  exists s' w', SetLevel s IntOn = Ok (IntOff, s') /\ at_rest w' (t + SystemTick) s' /\ polled w w'.
Proof.
  intros (V & Hp & Hw) Hm. destruct (SetLevel_on _ _ _ _ _ V (tw_keys _ Hw) Hm) as (s' & -> & V').
  pose proof (drain_polled (t + SystemTick) p w) as Hpo. eexists s', _. split; [done|]. split; [|exact Hpo].
  split; [|by apply Hpo]. eexists. split; [exact V'|]. unfold drain_poll, ConsoleTime, SystemTick in *.
  destruct (Z.leb_spec p (t + 10)); lia.
Qed.

(** [P] on a semaphore that is up, and [V]. *)
Lemma P_up x w t s :
  at_rest w t s -> 0 < sem_value w x <= int32_max -> term_wf (set_sem w x (sem_value w x - 1)) -> t + 2 * MaxDelay <= int32_max ->
  exists s' w', console_P x s = Ok s' /\ at_rest w' (t + SystemTick) s' /\ polled (set_sem w x (sem_value w x - 1)) w'.
Proof.
  intros Hr Hv Hw' Hm. destruct (rest_off _ _ _ Hr) as (p & s1 & E1 & V1 & Hp & _). unfold console_P. rewrite E1.
  cbn [mbind outcome_bind]. pose proof (v_world _ _ _ _ _ _ _ V1) as Ew.
  assert (P_wait (idle_bound s1) x s1 = Ok (set_term s1 (set_sem w x (sem_value w x - 1)))) as ->.
  { destruct (idle_bound s1); simpl; rewrite Ew, (proj2 (Z.eqb_neq _ 0)), wrap_s32_id by (unfold_int32; lia); done. }
  cbn [mbind outcome_bind].
  destruct (off_on p (set_sem w x (sem_value w x - 1)) t (set_term s1 (set_sem w x (sem_value w x - 1)))) as (s' & w' & -> & ? & ?).
  - split; [by eapply set_term_view|done].
  - done.
  - cbn [mbind outcome_bind]. by exists s', w'.
Qed.

Lemma V_up x w t s :
  at_rest w t s -> 0 <= sem_value w x < int32_max -> term_wf (set_sem w x (sem_value w x + 1)) -> t + 2 * MaxDelay <= int32_max ->
  exists s' w', console_V x s = Ok s' /\ at_rest w' (t + SystemTick) s' /\ polled (set_sem w x (sem_value w x + 1)) w'.
Proof.
  intros Hr Hv Hw' Hm. destruct (rest_off _ _ _ Hr) as (p & s1 & E1 & V1 & Hp & _). unfold console_V. rewrite E1.
  cbn [mbind outcome_bind]. pose proof (v_world _ _ _ _ _ _ _ V1) as Ew. unfold V_in_handler. rewrite Ew, wrap_s32_id by (unfold_int32; lia).
  destruct (off_on p (set_sem w x (sem_value w x + 1)) t (set_term s1 (set_sem w x (sem_value w x + 1)))) as (s' & w' & -> & ? & ?).
  - split; [by eapply set_term_view|done].
  - done.
  - cbn [mbind outcome_bind]. by exists s', w'.
Qed.

(** *** Writing *)

Definition put (w : SynchConsole) (ch : Z) : SynchConsole :=
  let c := cons w in set_cons w (mkConsole (keyboard c) (display c ++ [ch]) true (incoming c)).
Definition shown (w : SynchConsole) (chs : list Z) : SynchConsole :=
  let c := cons w in set_cons w (mkConsole (keyboard c) (display c ++ chs) (putBusy c) (incoming c)).

(** Polls do not see what is written. *)
Lemma poll_put w ch : poll_world (put w ch) = put (poll_world w) ch.
Proof.
  destruct w as [[ks d b i] ra wa rl wl]. unfold poll_world, put. simpl. destruct (negb (i =? EOF)); [done|]. by destruct ks as [|[] ks].
Qed.

Lemma write_put w ch :
  putBusy (cons w) = false -> synchWriteAvail w = 0 ->
  set_sem (write_world (put w ch)) WriteAvail (sem_value (write_world (put w ch)) WriteAvail - 1) = shown w [ch].
Proof. destruct w as [[ks d b i] ra wa rl wl]. simpl. intros -> ->. done. Qed.

Lemma PutChar_view p w t s ch :
  view IntOn SystemMode p None w t s -> putBusy (cons w) = false -> t + MaxDelay <= int32_max -> 0 <= t ->
  exists s', Console_PutChar s ch = Ok s' /\ view IntOn SystemMode p (Some (t + ConsoleTime)) (put w ch) t s'.
Proof.
  intros [Hwf Hl Hi Hy Hst Hp Hw Ht] Hb Hm H0. unfold Console_PutChar, Interrupt_Schedule. rewrite Hw, Hb. cbn [negb ASSERT mbind outcome_bind].
  change (now (set_term s _)) with (now s). rewrite Ht, wrap_s32_id by (unfold_int32; unfold ConsoleTime, MaxDelay in *; lia).
  change (0 <? ConsoleTime) with true. cbn [ASSERT mbind outcome_bind]. eexists. split; [reflexivity|]. split; try done.
  - apply set_pending_wf; [destruct Hwf; by split|]. apply sorted_insert_sorted, Hwf.
  - cbn [interrupt set_pending set_interrupt pending set_term]. rewrite sorted_insert_perm, Hp. apply Permutation_swap.
Qed.

(** The wait for the end of a write: one or two interrupts. *)
Lemma write_wait n p w t s ch :
  view IntOff SystemMode p (Some (t + ConsoleTime)) (put w ch) t s -> t < p <= t + ConsoleTime -> term_wf w ->
  putBusy (cons w) = false -> synchWriteAvail w = 0 -> t + 2 * MaxDelay <= int32_max -> (2 <= n)%nat ->
  exists s' p' w', P_wait n WriteAvail s = Ok s' /\ off_rest p' (shown w' [ch]) (t + ConsoleTime) s' /\ polled w w'.
Proof.
  intros V Hp Hw Hb Hs Hm Hn. destruct n as [|[|n]]; [lia..|]. unfold MaxDelay, ConsoleTime in *.
  assert (Hk : keys_ok (put w ch)) by apply Hw.
  assert (Hend : forall m q w' s1, view IntOff SystemMode q None (write_world (put w' ch)) (t + 100) s1 -> polled w w' -> t + 100 < q <= t + 200 ->
    exists s' p' w'', P_wait m WriteAvail s1 = Ok s' /\ off_rest p' (shown w'' [ch]) (t + 100) s' /\ polled w w'').
  { intros m q w' s1 V1 Hpo Hq. pose proof (po_busy _ _ Hpo) as Hb'. pose proof (po_write _ _ Hpo) as Hs'. rewrite Hb in Hb'. rewrite Hs in Hs'.
    exists (set_term s1 (shown w' [ch])), q, w'. conjs; [|split; [by eapply set_term_view|split; [unfold ConsoleTime; lia|]]|done].
    - rewrite <- (write_put w') by done. pose proof (v_world _ _ _ _ _ _ _ V1) as Ew.
      destruct m; simpl; rewrite Ew; simpl; rewrite Hs'; done.
    - destruct (po_wf _ _ Hpo Hw). by split. }
  cbn [P_wait]. rewrite (v_world _ _ _ _ _ _ _ V). change (sem_value (put w ch) WriteAvail) with (synchWriteAvail w). rewrite Hs. cbn [Z.eqb].
  destruct (decide (p < t + 100)) as [Hlt|Hge].
  - destruct (Idle_view _ _ _ _ _ p V Hk) as (s1 & -> & V1); [simpl; lia|unfold MaxDelay; lia|]. cbn [mbind outcome_bind].
    unfold drain_poll, drain_write, drain_world in V1. cbn [is_due] in V1. rewrite Z.leb_refl, (proj2 (Z.leb_gt _ _)), poll_put in V1 by lia.
    rewrite (v_world _ _ _ _ _ _ _ V1). change (sem_value (put (poll_world w) ch) WriteAvail) with (synchWriteAvail (poll_world w)).
    pose proof (polled_poll w) as Hpo. rewrite (po_write _ _ Hpo), Hs. cbn [Z.eqb].
    destruct (Idle_view _ _ _ _ _ (t + 100) V1) as (s2 & -> & V2); [apply (po_wf _ _ Hpo Hw)|unfold ConsoleTime; simpl; lia|unfold MaxDelay; lia|].
    cbn [mbind outcome_bind]. unfold drain_poll, drain_write, drain_world, ConsoleTime in V2. cbn [is_due] in V2.
    rewrite Z.leb_refl, (proj2 (Z.leb_gt _ _)) in V2 by lia. eapply Hend; [exact V2|done|lia].
  - assert (p = t + 100) as -> by lia.
    destruct (Idle_view _ _ _ _ _ (t + 100) V Hk) as (s1 & -> & V1); [simpl; lia|unfold MaxDelay; lia|]. cbn [mbind outcome_bind].
    unfold drain_poll, drain_write, drain_world, ConsoleTime in V1. cbn [is_due] in V1. rewrite Z.leb_refl, poll_put in V1.
    eapply (Hend (S n)); [exact V1|apply polled_poll|lia].
Qed.

Lemma polled_shown w w' chs : polled w w' -> polled (shown w chs) (shown w' chs).
Proof.
  intros [A1 A2 A3 A4 A5 A6 A7 A8 A9 A10 A11 A12]. split; try done; simpl.
  - by rewrite A2.
  - intros []. destruct A7 as [? ? ?]; [by split|]. by split.
  - intros []. by apply A8.
  - intros []. by apply A9.
  - intros []. by apply A10.
  - intros t' []. by apply A11.
  - intros []. by apply A12.
Qed.

Lemma polled_wline v w w' : polled w w' -> polled (set_sem w WLine v) (set_sem w' WLine v).
Proof.
  intros [A1 A2 A3 A4 A5 A6 A7 A8 A9 A10 A11 A12]. split; try done; simpl.
  - intros []. destruct A7 as [? ? ?]; [by split|]. by split.
  - intros []. by apply A8.
  - intros []. by apply A9.
  - intros []. by apply A10.
  - intros t' []. by apply A11.
  - intros []. by apply A12.
Qed.

Lemma rest_nonneg w t s : at_rest w t s -> 0 <= t.
Proof. intros [(p & V & _) _]. rewrite <- (v_now _ _ _ _ _ _ _ V). destruct (v_wf _ _ _ _ _ _ _ V). lia. Qed.

(** A character takes 110 ticks. *)
Lemma put_char_ok w t s ch :
  at_rest w t s -> putBusy (cons w) = false -> synchWriteAvail w = 0 -> t + 3 * MaxDelay <= int32_max ->
  exists s1 s' w', Console_PutChar s ch = Ok s1 /\ console_P WriteAvail s1 = Ok s' /\
    at_rest w' (t + ConsoleTime + SystemTick) s' /\ polled (shown w [ch]) w'.
Proof.
  intros Hr Hb Hs Hm. pose proof (rest_nonneg _ _ _ Hr) as H0. destruct Hr as [(p & V & Hp) Hw]. unfold MaxDelay in *.
  destruct (PutChar_view _ _ _ _ ch V Hb) as (s1 & -> & V1); [unfold MaxDelay; lia|done|].
  exists s1. unfold console_P. destruct (SetLevel_off _ _ _ _ _ V1) as (s2 & -> & V2). cbn [mbind outcome_bind].
  destruct (write_wait (idle_bound s2) p w t s2 ch V2 Hp Hw Hb Hs) as (s3 & p' & w' & -> & Hr3 & Hpo).
  - unfold MaxDelay. lia.
  - unfold idle_bound. rewrite (v_pending _ _ _ _ _ _ _ V2). simpl. lia.
  - cbn [mbind outcome_bind]. unfold ConsoleTime in *.
    destruct (off_on _ _ _ _ Hr3) as (s4 & w4 & -> & Hr4 & Hpo4); [unfold MaxDelay; lia|]. cbn [mbind outcome_bind].
    exists s4, w4. conjs; [done..|]. etransitivity; [|exact Hpo4]. by apply polled_shown.
Qed.

Lemma write_loop_ok bs w t s :
  at_rest w t s -> putBusy (cons w) = false -> synchWriteAvail w = 0 ->
  t + 110 * lenZ bs + 3 * MaxDelay <= int32_max ->
  exists s' w', write_loop bs s = Ok s' /\ at_rest w' (t + 110 * lenZ bs) s' /\ polled (shown w bs) w'.
Proof.
  revert w t s. induction bs as [|ch bs IH]; intros w t s Hr Hb Hs Hm.
  - exists s, w. split; [done|]. change (lenZ []) with 0. split; [by replace (t + 110 * 0) with t by lia|].
    unfold shown. rewrite app_nil_r. destruct w as [[] ? ? ? ?]. reflexivity.
  - rewrite lenZ_cons in *. pose proof (lenZ_nonneg bs).
    destruct (put_char_ok w t s ch Hr Hb Hs) as (s1 & s2 & w2 & E1 & E2 & Hr2 & Hpo); [lia|].
    cbn [write_loop]. rewrite E1. cbn [mbind outcome_bind]. rewrite E2. cbn [mbind outcome_bind].
    unfold ConsoleTime, SystemTick in *.
    destruct (IH w2 (t + 100 + 10) s2 Hr2) as (s' & w' & -> & Hr' & Hpo'); [by rewrite (po_busy _ _ Hpo)|by rewrite (po_write _ _ Hpo)|lia|].
    exists s', w'. split; [done|]. split; [by replace (t + 110 * (lenZ bs + 1)) with (t + 100 + 10 + 110 * lenZ bs) by lia|].
    etransitivity; [|exact Hpo']. apply (polled_shown _ _ bs) in Hpo.
    replace (shown w (ch :: bs)) with (shown (shown w [ch]) bs); [done|]. unfold shown. simpl. by rewrite <- app_assoc.
Qed.

(** *** Reading *)

Definition taken (w : SynchConsole) : SynchConsole := set_sem w ReadAvail (synchReadAvail w - 1).

(** Something is still to come, or has been announced. *)
Definition expecting (w : SynchConsole) : Prop := 0 < synchReadAvail w \/ exists c, Key c ∈ keyboard (cons w).

Lemma typed_key c ks : c ∈ typed ks -> Key c ∈ ks.
Proof.
  induction ks as [|[|c0|] ks IH]; simpl; intros H; [by apply elem_of_nil in H|apply list_elem_of_further; auto| |apply list_elem_of_further; auto].
  destruct (c0 =? EOF); [apply list_elem_of_further; auto|].
  apply elem_of_cons in H as [->|H]; [apply list_elem_of_here|apply list_elem_of_further; auto].
Qed.

Lemma input_expecting w c rest : armed w -> input w = c :: rest -> expecting w.
Proof.
  unfold input, armed, expecting. destruct (Z.eqb_spec (incoming (cons w)) EOF) as [_|Hn]; simpl; intros Ha E.
  - right. exists c. apply typed_key. rewrite E. apply list_elem_of_here.
  - left. specialize (Ha Hn). lia.
Qed.

(** The poll that an idle reader waits for. *)
Lemma poll_expecting w :
  term_wf w -> incoming (cons w) = EOF -> synchReadAvail w = 0 -> expecting w ->
  expecting (poll_world w) /\ kb (poll_world w) = kb w - 1 /\ synchReadAvail (poll_world w) <= 1 /\
  (synchReadAvail (poll_world w) = 0 -> incoming (cons (poll_world w)) = EOF).
Proof.
  destruct w as [[ks d b i] ra wa rl wl]. simpl. intros [Hk _ Hb] -> -> [?|(c & Hc)]; [simpl in *; lia|]. simpl in Hc.
  unfold poll_world, expecting, kb in *. simpl in *. destruct ks as [|[|c0|] ks]; [by apply elem_of_nil in Hc|..]; simpl.
  - rewrite lenZ_cons. conjs; try done; try lia. right. exists c. by apply elem_of_cons in Hc as [|].
  - change (wrap_s32 (0 + 1)) with 1. rewrite lenZ_cons. conjs; try done; lia.
  - exfalso. apply Hk, list_elem_of_here.
Qed.

(** The loop of [P] on [synchReadAvail]: each round takes an answer of the keyboard. *)
Lemma read_wait n p w t s :
  off_rest p w t s -> armed w -> expecting w -> pot t w + 2 * MaxDelay <= int32_max ->
  (synchReadAvail w = 0 -> kb w <= Z.of_nat n) ->
  exists s' p' w' t', P_wait n ReadAvail s = Ok s' /\ off_rest p' (taken w') t' s' /\ polled w w' /\
    1 <= synchReadAvail w' /\ pot t' w' <= pot t w.
Proof.
  revert p w t s. induction n as [|n IH]; intros p w t s (V & Hp & Hw) Ha He Hm Hn.
  all: pose proof Hw as [Hk H0 Hb]; pose proof (lenZ_nonneg (keyboard (cons w))) as Hl; fold (kb w) in Hl.
  all: destruct (decide (synchReadAvail w = 0)) as [Hz|Hnz].
  - destruct He as [?|(c & Hc)]; [lia|]. specialize (Hn Hz). unfold kb in Hn.
    destruct (keyboard (cons w)); [by apply elem_of_nil in Hc|]. rewrite lenZ_cons in *. pose proof (lenZ_nonneg l). lia.
  - exists (set_term s (taken w)), p, w, t. simpl. rewrite (v_world _ _ _ _ _ _ _ V). simpl.
    rewrite (proj2 (Z.eqb_neq _ 0)), wrap_s32_id by (unfold_int32; lia). conjs; [done| |reflexivity|lia|lia].
    split; [by eapply set_term_view|split; [done|]]. split; unfold taken, kb in *; simpl; [done|lia|lia].
  - specialize (Hn Hz). cbn [P_wait]. rewrite (v_world _ _ _ _ _ _ _ V). change (sem_value w ReadAvail) with (synchReadAvail w). rewrite Hz. cbn [Z.eqb].
    assert (Hi : incoming (cons w) = EOF).
    { destruct (decide (incoming (cons w) = EOF)) as [|Hne]; [done|]. specialize (Ha Hne). lia. }
    destruct (poll_expecting w Hw Hi Hz He) as (He1 & Hkb & Hra & Hinc). pose proof (polled_poll w) as Hpo.
    unfold pot, MaxDelay, ConsoleTime in *.
    destruct (Idle_view _ _ _ _ _ p V Hk) as (s1 & -> & V1); [simpl; lia|unfold MaxDelay; lia|]. cbn [mbind outcome_bind].
    unfold drain_poll, drain_write, drain_world, ConsoleTime in V1. cbn [is_due] in V1. rewrite Z.leb_refl in V1.
    destruct (IH (p + 100) (poll_world w) p s1) as (s' & p' & w' & t' & E & Hr & Hpo' & H1 & Ht'); [|by apply Hpo|done|lia|lia|].
    { split; [done|]. split; [unfold ConsoleTime; lia|by apply Hpo]. }
    exists s', p', w', t'. conjs; [done|done|by etransitivity|done|lia].
  - exists (set_term s (taken w)), p, w, t. simpl. rewrite (v_world _ _ _ _ _ _ _ V). simpl.
    rewrite (proj2 (Z.eqb_neq _ 0)), wrap_s32_id by (unfold_int32; lia). conjs; [done| |reflexivity|lia|lia].
    split; [by eapply set_term_view|split; [done|]]. split; unfold taken, kb in *; simpl; [done|lia|lia].
Qed.

Definition emptied (w : SynchConsole) : SynchConsole :=
  let c := cons w in set_cons w (mkConsole (keyboard c) (display c) (putBusy c) EOF).

(** What reading leaves alone. *)
Record same_out (w w' : SynchConsole) : Prop := {
  so_display : display (cons w') = display (cons w);
  so_busy : putBusy (cons w') = putBusy (cons w);
  so_write : synchWriteAvail w' = synchWriteAvail w;
  so_rline : RLineBlock w' = RLineBlock w;
  so_wline : WLineBlock w' = WLineBlock w }.

#[export] Instance same_out_refl : Reflexive same_out.
Proof. by split. Qed.
#[export] Instance same_out_trans : Transitive same_out.
Proof. intros w1 w2 w3 [] []. split; congruence. Qed.

Lemma polled_same_out w w' : polled w w' -> same_out w w'.
Proof. by intros []. Qed.

(** [synchReadAvail->P()]: the streams stay, one announcement is used up. *)
Lemma P_ReadAvail w t s :
  at_rest w t s -> armed w -> expecting w -> pot t w + 3 * MaxDelay <= int32_max ->
  exists s' w' t', console_P ReadAvail s = Ok s' /\ at_rest w' t' s' /\ same_out w w' /\ input w' = input w /\
    synchReadAvail w' + kb w' < synchReadAvail w + kb w /\ pot t' w' <= pot t w /\
    synchReadAvail w' + presses w' + 1 = synchReadAvail w + presses w.
Proof.
  intros Hr Ha He Hm. destruct (rest_off _ _ _ Hr) as (p & s1 & E1 & Hr1). pose proof Hr1 as (V1 & _ & Hw).
  unfold console_P. rewrite E1. cbn [mbind outcome_bind]. unfold MaxDelay in *.
  destruct (read_wait (idle_bound s1) p w t s1 Hr1 Ha He) as (s2 & p2 & w2 & t2 & -> & Hr2 & Hpo2 & H1 & Ht2); [unfold MaxDelay; lia| |].
  { intros _. unfold idle_bound, kb, lenZ. rewrite (v_world _ _ _ _ _ _ _ V1). lia. }
  cbn [mbind outcome_bind]. pose proof (po_wf _ _ Hpo2 Hw) as [_ Hw2 Hw2']. pose proof (lenZ_nonneg (keyboard (cons w2))).
  destruct (off_on _ _ _ _ Hr2) as (s3 & w3 & -> & Hr3 & Hpo3); [unfold MaxDelay, pot, kb in *; lia|]. cbn [mbind outcome_bind].
  destruct Hr2 as (_ & _ & Hw3). exists s3, w3, (t2 + SystemTick). conjs; [done|done| | | | |].
  - etransitivity; [by apply polled_same_out|]. etransitivity; [|by apply polled_same_out]. by split.
  - rewrite (po_input _ _ Hpo3). change (input (taken w2)) with (input w2). apply Hpo2.
  - pose proof (po_sum _ _ Hpo3 Hw3). pose proof (po_sum _ _ Hpo2 Hw). unfold taken, kb in *. simpl in *. lia.
  - pose proof (po_pot _ _ Hpo3 (t2 + SystemTick) Hw3) as Hp3. unfold pot, taken, kb, SystemTick in *. simpl in *. lia.
  - pose proof (po_count _ _ Hpo3 Hw3). pose proof (po_count _ _ Hpo2 Hw). unfold taken, presses in *. simpl in *. lia.
Qed.

Lemma GetChar_rest w t s :
  at_rest w t s -> Console_GetChar s = (incoming (cons w), set_term s (emptied w)) /\ at_rest (emptied w) t (set_term s (emptied w)).
Proof.
  intros [(p & V & Hp) Hw]. unfold Console_GetChar. rewrite (v_world _ _ _ _ _ _ _ V). split; [done|].
  split; [exists p; split; [by eapply set_term_view|done]|]. destruct Hw. by split.
Qed.

(** The next character of the stream is delivered. *)
Lemma get_loop_ok n w t s c rest :
  at_rest w t s -> armed w -> input w = c :: rest -> pot t w + 3 * MaxDelay <= int32_max ->
  synchReadAvail w + kb w < Z.of_nat n ->
  exists s' w' t', get_loop n s = Ok (c, s') /\ at_rest w' t' s' /\ armed w' /\ input w' = rest /\ same_out w w' /\ pot t' w' <= pot t w.
Proof.
  revert w t s. induction n as [|n IH]; intros w t s Hr Ha Hi Hm Hn.
  { destruct Hr as [_ [_ H0 _]]. pose proof (lenZ_nonneg (keyboard (cons w))). unfold kb in *. lia. }
  cbn [get_loop]. destruct (P_ReadAvail w t s Hr Ha (input_expecting _ _ _ Ha Hi) Hm) as (s1 & w1 & t1 & -> & Hr1 & So1 & Hi1 & Hd1 & Ht1 & _).
  cbn [mbind outcome_bind]. destruct (GetChar_rest _ _ _ Hr1) as [-> Hr2].
  assert (Ha2 : armed (emptied w1)) by by intros [].
  destruct (Z.eqb_spec (incoming (cons w1)) EOF) as [He|Hne].
  - assert (Hi2 : input (emptied w1) = c :: rest).
    { rewrite <- Hi, <- Hi1. unfold input. simpl. rewrite He. done. }
    destruct (IH (emptied w1) t1 (set_term s1 (emptied w1)) Hr2 Ha2 Hi2) as (s' & w' & t' & -> & ? & ? & ? & So' & Hp').
    { change (pot t1 (emptied w1)) with (pot t1 w1). lia. }
    { change (synchReadAvail w1 + kb w1 < Z.of_nat n). lia. }
    exists s', w', t'. conjs; [done..| |change (pot t1 (emptied w1)) with (pot t1 w1) in Hp'; lia].
    etransitivity; [exact So1|]. etransitivity; [|exact So']. by split.
  - rewrite Hi in Hi1. unfold input in Hi1. rewrite (proj2 (Z.eqb_neq _ _)) in Hi1 by done. injection Hi1 as -> Hrest.
    exists (set_term s1 (emptied w1)), (emptied w1), t1. conjs; [done|done|done|done| |done].
    etransitivity; [exact So1|]. by split.
Qed.

(** *** A line *)

(** The reference: at most [n] characters of the stream, up to a newline or a ctrl-A,
    which is taken from the stream; [None] when the stream ends before. *)
Fixpoint read_line (n : nat) (inp : list Z) : option (list Z * option Z * list Z) :=
  match n, inp with
  | O, _ => Some ([], None, inp)
  | S _, [] => None
  | S n, c :: rest =>
      if (c =? 10) || (c =? 1) then Some ([], Some c, rest)
      else '(line, stop, rest) ← read_line n rest; Some (c :: line, stop, rest)
  end.

Lemma last_default (a : Z) l d d' : List.last (a :: l) d = List.last (a :: l) d'.
Proof. revert a. induction l as [|b l IH]; intros a; [done|]. exact (IH b). Qed.

(** The last value of [ch] is a ctrl-A exactly when that ended the line. *)
Lemma read_line_last n inp line stop rest ch last :
  read_line n inp = Some (line, stop, rest) -> (0 < n)%nat -> last = default (List.last line ch) stop ->
  (last =? 1) = bool_decide (stop = Some 1).
Proof.
  intros Hl Hn ->. assert (Hs : stop = None -> Forall (fun c => c <> 1) line /\ line <> []).
  { clear ch. revert inp line stop rest Hl Hn. induction n as [|n IH]; intros inp line stop rest Hl Hn Hs; [lia|].
    destruct inp as [|c inp]; [done|]. cbn [read_line] in Hl. destruct ((c =? 10) || (c =? 1)) eqn:Ec; [by simplify_eq|].
    apply orb_false_iff in Ec as [_ Ec%Z.eqb_neq].
    destruct (read_line n inp) as [[[l' s'] r']|] eqn:E; [|done]. simpl in Hl. injection Hl as <- <- <-. split; [|done].
    constructor; [done|]. destruct n; [by injection E as <- _ _|]. eapply IH; [exact E|lia|done]. }
  destruct stop as [c|].
  - change (default (List.last line ch) (Some c)) with c. destruct (Z.eqb_spec c 1) as [->|]; case_bool_decide; congruence.
  - rewrite bool_decide_eq_false_2 by done. destruct (Hs eq_refl) as [Hall Hne]. apply Z.eqb_neq. change (List.last line ch <> 1).
    destruct line as [|a l]; [done|]. clear -Hall. revert a Hall. induction l as [|b l IH]; intros a Hall; apply Forall_cons in Hall as [Ha Hall]; [done|].
    exact (IH b Hall).
Qed.

Lemma read_loop_ok n ch w t s line stop rest :
  at_rest w t s -> armed w -> read_line n (input w) = Some (line, stop, rest) -> pot t w + 3 * MaxDelay <= int32_max ->
  exists last s' w' t', read_loop n ch s = Ok (line, last, s') /\ at_rest w' t' s' /\ armed w' /\ input w' = rest /\
    same_out w w' /\ pot t' w' <= pot t w /\
    last = default (List.last line ch) stop.
Proof.
  revert ch w t s line stop rest. induction n as [|n IH]; intros ch w t s line stop rest Hr Ha Hl Hm.
  { injection Hl as <- <- <-. exists ch, s, w, t. conjs; try done; lia. }
  cbn [read_line] in Hl. destruct (input w) as [|c inp] eqn:Ei; [done|]. cbn [read_loop].
  destruct (get_loop_ok (get_bound s) w t s c inp Hr Ha Ei Hm) as (s1 & w1 & t1 & -> & Hr1 & Ha1 & Hi1 & So1 & Hp1).
  { unfold get_bound. destruct Hr as [(p & V & _) [_ H0 _]]. rewrite (v_world _ _ _ _ _ _ _ V). unfold kb, lenZ. lia. }
  cbn [mbind outcome_bind]. destruct ((c =? 10) || (c =? 1)) eqn:Ec.
  { injection Hl as <- <- <-. exists c, s1, w1, t1. conjs; done. }
  destruct (read_line n inp) as [[[line' stop'] rest']|] eqn:El; [|done]. injection Hl as <- <- <-.
  destruct (IH c w1 t1 s1 line' stop' rest' Hr1 Ha1) as (last & s' & w' & t' & -> & ? & ? & ? & So' & ? & Hlast); [by rewrite Hi1|lia|].
  cbn [mbind outcome_bind]. exists last, s', w', t'. conjs; [done..|by transitivity w1|lia|].
  rewrite Hlast. destruct stop'; [done|]. simpl. destruct line' as [|a l]; [done|apply last_default].
Qed.

(** ** The console as a device *)

(** Nobody uses the console, and the clock has room for all that is typed and for
    [n] more characters. *)
Record console_ready (n : nat) (s : CSys) : Prop := {
  cr_rest : at_rest (world s) (now s) s;
  cr_armed : armed (world s);
  cr_busy : putBusy (cons (world s)) = false;
  cr_write : synchWriteAvail (world s) = 0;
  cr_rline : RLineBlock (world s) = 1;
  cr_wline : WLineBlock (world s) = 1;
  cr_time : pot (now s) (world s) + 200 * Z.of_nat n + 4 * MaxDelay <= int32_max }.

Lemma rest_exact w t s : at_rest w t s -> world s = w /\ now s = t.
Proof. intros [(p & V & _) _]. split; [apply (v_world _ _ _ _ _ _ _ V)|apply (v_now _ _ _ _ _ _ _ V)]. Qed.

Lemma pot_ge t w : term_wf w -> t <= pot t w.
Proof. intros [_ H0 _]. pose proof (lenZ_nonneg (keyboard (cons w))). unfold pot, kb. lia. Qed.

(** Writing [numBytes] characters of [from]. *)
Lemma console_write_ok n s from numBytes :
  console_ready (n + S (Z.to_nat numBytes)) s -> numBytes <= lenZ from ->
  exists s', SynchConsole_Write s from numBytes = Ok (numBytes, s') /\ console_ready n s' /\
    display (cons (world s')) = display (cons (world s)) ++ slice from 0 (Z.max 0 numBytes) /\
    input (world s') = input (world s) /\ now s' = now s + 110 * Z.max 0 numBytes + 20.
Proof.
  intros [Hr Ha Hb Hwa Hrl Hwl Ht] Hf. pose proof (ar_wf _ _ _ Hr) as Hw. pose proof (pot_ge (now s) _ Hw) as Hpg.
  unfold SynchConsole_Write. unfold MaxDelay in Ht. pose proof (lenZ_nonneg from) as Hfl.
  destruct (P_up WLine _ _ _ Hr) as (s1 & w1 & -> & Hr1 & Hpo1); simpl; rewrite ?Hwl;
    [unfold int32_max; lia|destruct Hw; by split|unfold MaxDelay; lia|]. cbn [mbind outcome_bind].
  rewrite fetch_ok by lia. cbn [mbind outcome_bind]. set (bs := slice from 0 (Z.max 0 numBytes)).
  assert (Hbs : lenZ bs = Z.max 0 numBytes) by (apply lenZ_slice; lia).
  simpl in Hpo1. rewrite Hwl in Hpo1. change (1 - 1) with 0 in Hpo1.
  destruct (write_loop_ok bs w1 _ s1 Hr1) as (s2 & w2 & -> & Hr2 & Hpo2);
    [by rewrite (po_busy _ _ Hpo1)|by rewrite (po_write _ _ Hpo1)|rewrite Hbs; unfold MaxDelay, SystemTick; lia|]. cbn [mbind outcome_bind].
  rewrite Hbs in Hr2. pose proof (ar_wf _ _ _ Hr2) as Hw2.
  assert (Hz : WLineBlock w2 = 0) by (rewrite (po_wline _ _ Hpo2); exact (po_wline _ _ Hpo1)).
  destruct (V_up WLine _ _ _ Hr2) as (s3 & w3 & -> & Hr3 & Hpo3); simpl; rewrite ?Hz;
    [unfold int32_max; lia|destruct Hw2; by split|unfold MaxDelay, SystemTick; lia|]. cbn [mbind outcome_bind].
  simpl in Hpo3. rewrite Hz in Hpo3. change (0 + 1) with 1 in Hpo3.
  assert (Hpo : polled (shown (world s) bs) w3).
  { etransitivity; [|exact Hpo3]. apply (polled_wline 1) in Hpo2. etransitivity; [|exact Hpo2].
    apply (polled_shown _ _ bs), (polled_wline 1) in Hpo1. simpl in Hpo1. rewrite <- Hwl in Hpo1 at 1.
    destruct (world s) as [[] ? ? ? ?]. exact Hpo1. }
  exists s3. destruct (rest_exact _ _ _ Hr3) as [Ew Et]. rewrite Ew, Et. split; [done|].
  assert (Hws : term_wf (shown (world s) bs)) by (destruct Hw; by split).
  split; [|conjs; [apply Hpo|apply Hpo|unfold SystemTick; lia]].
  split; rewrite ?Ew, ?Et; try by rewrite ?(po_busy _ _ Hpo), ?(po_write _ _ Hpo), ?(po_rline _ _ Hpo), ?(po_wline _ _ Hpo).
  - by apply Hpo.
  - pose proof (po_pot _ _ Hpo (now s + SystemTick + 110 * Z.max 0 numBytes + SystemTick) Hws) as Hp.
    change (pot ?t (shown (world s) bs)) with (pot t (world s)) in Hp. unfold pot, SystemTick, MaxDelay in *. lia.
Qed.

(** Reading at most [numBytes] characters. *)
Lemma console_read_ok n s numBytes ch line stop rest :
  console_ready (S n) s -> read_line (Z.to_nat numBytes) (input (world s)) = Some (line, stop, rest) ->
  exists s' last, SynchConsole_Read s numBytes ch =
      Ok (line ++ replicate (Z.to_nat numBytes - length line) 0, if last =? 1 then -1 else lenZ line, s') /\
    console_ready n s' /\ input (world s') = rest /\ display (cons (world s')) = display (cons (world s)) /\
    last = default (List.last line ch) stop.
Proof.
  intros [Hr Ha Hb Hwa Hrl Hwl Ht] Hl. pose proof (ar_wf _ _ _ Hr) as Hw. pose proof (pot_ge (now s) _ Hw) as Hpg.
  unfold SynchConsole_Read. unfold MaxDelay in Ht.
  destruct (P_up RLine _ _ _ Hr) as (s1 & w1 & -> & Hr1 & Hpo1); simpl; rewrite ?Hrl;
    [unfold int32_max; lia|destruct Hw; by split|unfold MaxDelay; lia|]. cbn [mbind outcome_bind].
  simpl in Hpo1. rewrite Hrl in Hpo1. change (1 - 1) with 0 in Hpo1. set (w0 := mkSynchConsole _ _ _ 0 _) in Hpo1.
  assert (Hw0 : term_wf w0) by (destruct Hw; by split).
  pose proof (po_pot _ _ Hpo1 (now s + SystemTick) Hw0) as Hp1. change (pot ?t w0) with (pot t (world s)) in Hp1.
  assert (Hpt : forall t, pot (t + SystemTick) (world s) = pot t (world s) + SystemTick) by (intros; unfold pot; lia). rewrite Hpt in Hp1.
  destruct (read_loop_ok (Z.to_nat numBytes) ch w1 _ s1 line stop rest Hr1) as (last & s2 & w2 & t2 & -> & Hr2 & Ha2 & Hi2 & So2 & Hp2 & Hlast).
  { by apply (po_armed _ _ Hpo1 Hw0). }
  { by rewrite (po_input _ _ Hpo1). }
  { unfold SystemTick, MaxDelay in *. lia. }
  cbn [mbind outcome_bind]. pose proof (ar_wf _ _ _ Hr2) as Hw2. pose proof (pot_ge t2 _ Hw2) as Hpg2.
  assert (Hz : RLineBlock w2 = 0) by (rewrite (so_rline _ _ So2); exact (po_rline _ _ Hpo1)).
  destruct (V_up RLine _ _ _ Hr2) as (s3 & w3 & -> & Hr3 & Hpo3); simpl; rewrite ?Hz;
    [unfold int32_max; lia|destruct Hw2; by split|unfold MaxDelay, SystemTick in *; lia|]. cbn [mbind outcome_bind].
  simpl in Hpo3. rewrite Hz in Hpo3. change (0 + 1) with 1 in Hpo3. set (w2' := mkSynchConsole _ _ _ 1 _) in Hpo3.
  assert (Hw2' : term_wf w2') by (destruct Hw2; by split).
  exists s3, last. destruct (rest_exact _ _ _ Hr3) as [Ew Et]. rewrite Ew. split; [done|].
  split; [|conjs; [rewrite (po_input _ _ Hpo3); exact Hi2|rewrite (po_display _ _ Hpo3)|done]].
  - split; rewrite ?Ew, ?Et; [exact Hr3|by apply (po_armed _ _ Hpo3 Hw2')|..].
    + rewrite (po_busy _ _ Hpo3). change (putBusy (cons w2) = false). rewrite (so_busy _ _ So2), (po_busy _ _ Hpo1). exact Hb.
    + rewrite (po_write _ _ Hpo3). change (synchWriteAvail w2 = 0). rewrite (so_write _ _ So2), (po_write _ _ Hpo1). exact Hwa.
    + exact (po_rline _ _ Hpo3).
    + rewrite (po_wline _ _ Hpo3). change (WLineBlock w2 = 1). rewrite (so_wline _ _ So2), (po_wline _ _ Hpo1). exact Hwl.
    + pose proof (po_pot _ _ Hpo3 (t2 + SystemTick) Hw2') as Hp3. change (pot ?t w2') with (pot t w2) in Hp3.
      unfold pot, SystemTick, MaxDelay in *. lia.
  - change (display (cons w2) = display (cons (world s))). rewrite (so_display _ _ So2), (po_display _ _ Hpo1). done.
Qed.

(** C12: the synchronous console.  The stream of a console is the character in its buffer
    and then all characters that are typed, except for the byte 0xFF, which [GetChar] cannot
    tell from [EOF] and which is lost.  On a console nobody uses, whose keyboard does not
    reach its end: [SynchConsole::Write] shows exactly the bytes it is given, in order,
    takes 110 ticks for each and 20 more, and loses nothing of the stream;
    [SynchConsole::Read], when enough is typed, delivers the next characters of the stream
    up to a newline, a ctrl-A or the size of the buffer (the comment of the source names CR
    and ^D), with the rest of the buffer zero and the length of the line (or -1 after a
    ctrl-A) as its result, and leaves the rest of the stream for the next read.  Both
    return, with the console free again. *)
Theorem console_streams n s :
  input (world s) = List.filter (fun c => negb (c =? EOF)) (incoming (cons (world s)) :: pressed (keyboard (cons (world s)))) /\
  (forall from numBytes, console_ready (n + S (Z.to_nat numBytes)) s -> numBytes <= lenZ from ->
    exists s', SynchConsole_Write s from numBytes = Ok (numBytes, s') /\ console_ready n s' /\
      display (cons (world s')) = display (cons (world s)) ++ slice from 0 (Z.max 0 numBytes) /\
      input (world s') = input (world s) /\ now s' = now s + 110 * Z.max 0 numBytes + 20) /\
  (forall numBytes ch line stop rest, console_ready (S n) s -> 0 < numBytes ->
    read_line (Z.to_nat numBytes) (input (world s)) = Some (line, stop, rest) ->
    exists s', SynchConsole_Read s numBytes ch =
        Ok (line ++ replicate (Z.to_nat numBytes - length line) 0, if bool_decide (stop = Some 1) then -1 else lenZ line, s') /\
      console_ready n s' /\ input (world s') = rest /\ display (cons (world s')) = display (cons (world s))).
Proof.
  split; [apply input_pressed|]. split; [intros; by apply console_write_ok|]. intros numBytes ch line stop rest Hr Hn Hl.
  destruct (console_read_ok n s numBytes ch line stop rest Hr Hl) as (s' & last & E & Hr' & Hi & Hd & Hlast).
  exists s'. conjs; [|done..]. rewrite E. do 3 f_equal. rewrite (read_line_last _ _ _ _ _ ch last Hl ltac:(lia) Hlast). done.
Qed.

(** *** A new console *)

Definition boot_sys (w : SynchConsole) : CSys :=
  mkSys (mkInterrupt IntOn [] false false SystemMode) Statistics_new None w.

(** The console that the kernel creates when it starts is ready. *)
Lemma new_console_ready n keys w :
  EndOfFile ∉ keys -> 220 * lenZ keys + 200 * Z.of_nat n <= 1000000000 ->
  exists s, SynchConsole_new keys (boot_sys w) = Ok s /\ console_ready n s /\
    input (world s) = typed keys /\ display (cons (world s)) = [].
Proof.
  intros Hk Hn. pose proof (lenZ_nonneg keys). eexists. split; [reflexivity|]. split; [|done].
  assert (Hw : term_wf (mkSynchConsole (mkConsole keys [] false EOF) 0 0 1 1)).
  { split; unfold kb; simpl; [done|lia|unfold int32_max; lia]. }
  split; try done.
  - split; [|done]. exists 100. split; [|unfold now, ConsoleTime; simpl; lia]. split; try done.
    split; try done; simpl. repeat constructor.
  - by intros [].
  - unfold pot, kb, now, MaxDelay, int32_max. simpl. lia.
Qed.

(** The keys "hi", newline and "x", with a pause. *)
Definition keys_hi : list keypress := [Key 104; NoKey; Key 105; Key 10; Key 120].

Lemma console_streams_witness :
  exists s s1 s2, SynchConsole_new keys_hi (boot_sys (mkSynchConsole (mkConsole [] [] false EOF) 0 0 0 0)) = Ok s /\
    SynchConsole_Write s [111; 107; 33] 2 = Ok (2, s1) /\ display (cons (world s1)) = [111; 107] /\
    SynchConsole_Read s 4 0 = Ok ([104; 105; 0; 0], 2, s2) /\ input (world s2) = [120].
Proof.
  destruct (new_console_ready 8 keys_hi (mkSynchConsole (mkConsole [] [] false EOF) 0 0 0 0)) as (s & E & Hr & Hi & Hd).
  { apply (bool_decide_unpack (EndOfFile ∉ keys_hi)). vm_compute. exact I. }
  { vm_compute. discriminate. }
  destruct (proj1 (proj2 (console_streams 5 s)) [111; 107; 33] 2 Hr ltac:(vm_compute; discriminate)) as (s1 & E1 & _ & D1 & _ & _).
  assert (E0 : read_line (Z.to_nat 4) (input (world s)) = Some ([104; 105], Some 10, [120])) by (rewrite Hi; reflexivity).
  destruct (proj2 (proj2 (console_streams 7 s)) 4 0 [104; 105] (Some 10) [120] Hr ltac:(lia) E0) as (s2 & E2 & _ & I2 & _).
  exists s, s1, s2. rewrite Hd in D1. conjs; [exact E|exact E1|exact D1|exact E2|exact I2].
Defined.

(** ** The interface to the system calls *)

Class ConsoleDevice (C : Type) := {
  cons_write : C -> list Z -> Z -> outcome (Z * C);
  cons_read : C -> Z -> Z -> outcome (list Z * Z * C);
  cons_input : C -> list Z;
  cons_output : C -> list Z;
  cons_ready : nat -> C -> Prop }.

(** A console that is ready for [n] characters shows what is written and delivers what
    is typed, line by line. *)
Class ConsoleLaws (C : Type) `{!ConsoleDevice C} := {
  cons_ready_le : forall n m c, cons_ready n c -> (m <= n)%nat -> cons_ready m c;
  cons_write_ok : forall n c from numBytes,
    cons_ready (n + S (Z.to_nat numBytes)) c -> numBytes <= lenZ from ->
    exists c', cons_write c from numBytes = Ok (numBytes, c') /\ cons_ready n c' /\
      cons_output c' = cons_output c ++ slice from 0 (Z.max 0 numBytes) /\ cons_input c' = cons_input c;
  cons_read_ok : forall n c numBytes ch line stop rest,
    cons_ready (S n) c -> 0 < numBytes -> read_line (Z.to_nat numBytes) (cons_input c) = Some (line, stop, rest) ->
    exists c', cons_read c numBytes ch =
        Ok (line ++ replicate (Z.to_nat numBytes - length line) 0, if bool_decide (stop = Some 1) then -1 else lenZ line, c') /\
      cons_ready n c' /\ cons_input c' = rest /\ cons_output c' = cons_output c }.

#[export] Instance SynchConsole_device : ConsoleDevice CSys := {
  cons_write := SynchConsole_Write;
  cons_read := SynchConsole_Read;
  cons_input := fun s => input (world s);
  cons_output := fun s => display (cons (world s));
  cons_ready := console_ready }.

#[export] Instance SynchConsole_laws : ConsoleLaws CSys.
Proof.
  split; simpl.
  - intros n m s [] Hle. split; try done. lia.
  - intros n s from numBytes Hr Hl. destruct (console_write_ok n s from numBytes Hr Hl) as (s' & E & Hr' & Hd & Hi & _). by exists s'.
  - intros n s numBytes ch line stop rest Hr Hn Hl.
    destruct (console_read_ok n s numBytes ch line stop rest Hr Hl) as (s' & last & E & Hr' & Hi & Hd & Hlast).
    exists s'. conjs; [|done..]. rewrite E. do 3 f_equal. by rewrite (read_line_last _ _ _ _ _ ch last Hl ltac:(lia) Hlast).
Qed.
