(* ===== verification/ConsoleTest.v ===== *)
(** * The console test (userprog/progtest.cc)

    [ConsoleTest] echoes what is typed until a q.  It uses a [Console] of its own with two
    semaphores; its handlers [ReadAvail] and [WriteDone] make a [V] as those of
    threads/synchcons.cc do, so the console of [Console] serves with [synchReadAvail] for
    [readAvail] and [synchWriteAvail] for [writeDone].  The character 0xFF is not told from
    [EOF], and a test that types it is not described. *)

From S2P Require Import Prelude Int32 LinkedList Machine Interrupts Console.

Definition char_q : Z := 113.

(** The loop of [ConsoleTest]; every round takes a character. *)
Fixpoint ConsoleTest_loop (rounds : nat) (s : CSys) : outcome CSys :=
  match rounds with
  | O => Undefined
  | S rounds =>
      s ← console_P ReadAvail s;
      let '(ch, s) := Console_GetChar s in
      s ← Console_PutChar s ch;
      s ← console_P WriteAvail s;
      if ch =? char_q then Ok s else ConsoleTest_loop rounds s
  end.

(** [ConsoleTest]: the constructor of [Console], the two semaphores and the loop *)
Definition ConsoleTest (keys : list keypress) (s : CSys) : outcome CSys :=
  let s := set_term s (mkSynchConsole (mkConsole keys [] false EOF) 0 0 (RLineBlock (world s)) (WLineBlock (world s))) in
  s ← Interrupt_Schedule s ConsoleReadPoll 0 ConsoleTime ConsoleReadInt;
  ConsoleTest_loop (S (length keys)) s.

(** The reference: a sequence up to and including the first [c], and what follows it. *)
Fixpoint up_to (c : Z) (l : list Z) : list Z :=
  match l with [] => [] | x :: l => if x =? c then [x] else x :: up_to c l end.
Fixpoint beyond (c : Z) (l : list Z) : list Z :=
  match l with [] => [] | x :: l => if x =? c then l else beyond c l end.

(** Every announcement is for a character of the stream. *)
Definition announced (w : SynchConsole) : Prop := synchReadAvail w + presses w = lenZ (input w).

Lemma typed_presses ks : lenZ (typed ks) <= lenZ (List.filter is_key ks).
Proof.
  induction ks as [|[|c|] ks IH]; simpl; [done|done| |done]. destruct (c =? EOF); rewrite ?lenZ_cons; lia.
Qed.

Lemma typed_all ks : Key EOF ∉ ks -> lenZ (List.filter is_key ks) = lenZ (typed ks).
Proof.
  induction ks as [|[|c|] ks IH]; simpl; rewrite ?not_elem_of_cons; try done; intros [Hc Hk]; [auto| |auto].
  destruct (Z.eqb_spec c EOF) as [->|]; [done|]. rewrite !lenZ_cons. by rewrite IH.
Qed.

(** One round: the next character of the stream is taken and shown, and a poll is never
    answered with [EOF]. *)
Lemma echo_round w t s c rest :
  at_rest w t s -> armed w -> announced w -> putBusy (cons w) = false -> synchWriteAvail w = 0 -> input w = c :: rest ->
  pot t w + 4 * MaxDelay <= int32_max ->
  exists s1 s2 s3 s4 w' t', console_P ReadAvail s = Ok s1 /\ Console_GetChar s1 = (c, s2) /\ Console_PutChar s2 c = Ok s3 /\
    console_P WriteAvail s3 = Ok s4 /\ at_rest w' t' s4 /\ armed w' /\ announced w' /\ input w' = rest /\
    putBusy (cons w') = false /\ synchWriteAvail w' = 0 /\ display (cons w') = display (cons w) ++ [c] /\ pot t' w' <= pot t w + 110.
Proof.
  intros Hr Ha Hn Hb Hs Hi Hm. unfold MaxDelay in *.
  destruct (P_ReadAvail w t s Hr Ha (input_expecting _ _ _ Ha Hi)) as (s1 & w1 & t1 & E1 & Hr1 & [So1 So2 So3 _ _] & Hi1 & _ & Ht1 & Hc1); [unfold MaxDelay; lia|].
  destruct (GetChar_rest _ _ _ Hr1) as [E2 Hr2]. pose proof (ar_wf _ _ _ Hr1) as Hw1. pose proof (tw_avail _ Hw1) as H0.
  assert (Hne : incoming (cons w1) <> EOF).
  { intros He. pose proof (typed_presses (keyboard (cons w1))) as Hp. unfold announced in Hn. rewrite <- Hi1 in Hn.
    unfold input in Hn. rewrite He, Z.eqb_refl in Hn. cbn [app] in Hn.
    unfold presses in *. lia. }
  assert (Ec : incoming (cons w1) = c /\ input (emptied w1) = rest).
  { rewrite Hi in Hi1. unfold input in Hi1 |- *. rewrite (proj2 (Z.eqb_neq _ _)) in Hi1 by done. by injection Hi1 as -> <-. }
  destruct Ec as [<- Hi2].
  pose proof (pot_ge t1 w1 Hw1) as Hge.
  destruct (put_char_ok _ _ _ (incoming (cons w1)) Hr2) as (s3 & s4 & w4 & E3 & E4 & Hr4 & Hpo); [by rewrite <- Hb|by rewrite <- Hs|unfold MaxDelay; lia|].
  assert (Hw2 : term_wf (shown (emptied w1) [incoming (cons w1)])) by (destruct Hw1; by split).
  unfold ConsoleTime, SystemTick in Hr4.
  exists s1, (set_term s1 (emptied w1)), s3, s4, w4, (t1 + 100 + 10). conjs; try done.
  - apply (po_armed _ _ Hpo); [done|]. by intros [].
  - unfold announced. rewrite (po_count _ _ Hpo Hw2), (po_input _ _ Hpo). change (synchReadAvail w1 + presses w1 = lenZ (input (emptied w1))).
    rewrite Hi2. unfold announced in Hn. rewrite Hi, lenZ_cons in Hn. lia.
  - by rewrite (po_input _ _ Hpo).
  - by rewrite (po_busy _ _ Hpo), <- Hb.
  - by rewrite (po_write _ _ Hpo), <- Hs.
  - rewrite (po_display _ _ Hpo). simpl. by rewrite So1.
  - pose proof (po_pot _ _ Hpo (t1 + 100 + 10) Hw2) as Hp. change (pot (t1 + 100 + 10) w4 <= pot (t1 + 100 + 10) w1) in Hp. unfold pot in *. lia.
Qed.

Lemma echo_loop n w t s :
  at_rest w t s -> armed w -> announced w -> putBusy (cons w) = false -> synchWriteAvail w = 0 -> char_q ∈ input w ->
  (length (input w) <= n)%nat -> pot t w + 110 * Z.of_nat n + 4 * MaxDelay <= int32_max ->
  exists s' w' t', ConsoleTest_loop n s = Ok s' /\ at_rest w' t' s' /\ input w' = beyond char_q (input w) /\
    display (cons w') = display (cons w) ++ up_to char_q (input w) /\ t' <= pot t w + 110 * Z.of_nat n.
Proof.
  revert w t s. induction n as [|n IH]; intros w t s Hr Ha Hn Hb Hs Hq Hl Hm.
  { destruct (input w); [by apply elem_of_nil in Hq|simpl in Hl; lia]. }
  destruct (input w) as [|c rest] eqn:Hi; [by apply elem_of_nil in Hq|].
  destruct (echo_round w t s c rest) as (s1 & s2 & s3 & s4 & w4 & t4 & E1 & E2 & E3 & E4 & Hr4 & Ha4 & Hn4 & Hi4 & Hb4 & Hs4 & Hd4 & Hp4); [done..|unfold MaxDelay in *; lia|].
  cbn [ConsoleTest_loop]. rewrite E1. cbn [mbind outcome_bind]. rewrite E2, E3. cbn [mbind outcome_bind]. rewrite E4. cbn [mbind outcome_bind up_to beyond].
  pose proof (pot_ge t4 w4 (ar_wf _ _ _ Hr4)) as Hge.
  destruct (Z.eqb_spec c char_q) as [->|Hc].
  - exists s4, w4, t4. conjs; try done. lia.
  - apply elem_of_cons in Hq as [Hq|Hq]; [done|]. simpl in Hl.
    destruct (IH w4 t4 s4) as (s' & w' & t' & E & Hr' & Hi' & Hd' & Ht'); [done..|by rewrite Hi4|rewrite Hi4; lia|unfold MaxDelay in *; lia|].
    rewrite Hi4 in Hi', Hd'. exists s', w', t'. conjs; try done; [|lia]. by rewrite Hd', Hd4, <- app_assoc.
Qed.

(** C26: [ConsoleTest] echoes.  Whatever is typed, with pauses anywhere, if it has a q and
    neither 0xFF nor the end of the input comes, the test ends, the display shows exactly the
    characters up to and including the first q, the characters behind it are still there to be
    read, and the time is bounded by the number of polls. *)
Theorem ConsoleTest_echoes keys w :
  EndOfFile ∉ keys -> Key EOF ∉ keys -> char_q ∈ typed keys -> lenZ keys <= 3000000 ->
  exists s, ConsoleTest keys (boot_sys w) = Ok s /\ display (cons (world s)) = up_to char_q (typed keys) /\
    input (world s) = beyond char_q (typed keys) /\ now s <= 330 * lenZ keys + 110.
Proof.
  intros Hk He Hq Hn. pose proof (lenZ_nonneg keys) as H0. unfold ConsoleTest.
  set (w0 := mkSynchConsole _ _ _ _ _).
  assert (Hw : term_wf w0) by (split; unfold kb; simpl; [done|lia|unfold int32_max; lia]).
  assert (E : exists s, Interrupt_Schedule (set_term (boot_sys w) w0) ConsoleReadPoll 0 ConsoleTime ConsoleReadInt = Ok s /\ at_rest w0 0 s).
  { eexists. split; [reflexivity|]. split; [|done]. exists 100. split; [|unfold ConsoleTime; lia]. split; try done. split; try done; simpl. repeat constructor. }
  destruct E as (s & -> & Hr). cbn [mbind outcome_bind].
  destruct (echo_loop (S (length keys)) w0 0 s) as (s' & w' & t' & E & Hr' & Hi & Hd & Ht); try done.
  - by intros [].
  - unfold announced, presses. simpl. by rewrite typed_all.
  - change (input w0) with (typed keys). pose proof (typed_presses keys) as Hp. pose proof (List.filter_length_le is_key keys). unfold lenZ in Hp. lia.
  - unfold pot, kb, MaxDelay, int32_max. simpl synchReadAvail. change (keyboard (cons w0)) with keys. unfold lenZ in *. lia.
  - destruct (rest_exact _ _ _ Hr') as [Ew En]. exists s'. rewrite Ew, En. conjs; [done..|]. unfold pot, kb in Ht. change (keyboard (cons w0)) with keys in Ht. simpl synchReadAvail in Ht. unfold lenZ in *. lia.
Qed.

(** The keys a, pause, q, b. *)
Definition keys_aqb : list keypress := [Key 97; NoKey; Key 113; Key 98].

Lemma ConsoleTest_echoes_witness :
  exists s, ConsoleTest keys_aqb (boot_sys (mkSynchConsole (mkConsole [] [] false EOF) 0 0 0 0)) = Ok s /\
    display (cons (world s)) = [97; 113] /\ input (world s) = [98] /\ now s <= 1430.
Proof.
  apply (ConsoleTest_echoes keys_aqb).
  - apply (bool_decide_unpack (EndOfFile ∉ keys_aqb)). vm_compute. exact I.
  - apply (bool_decide_unpack (Key EOF ∉ keys_aqb)). vm_compute. exact I.
  - apply (bool_decide_unpack (char_q ∈ typed keys_aqb)). vm_compute. exact I.
  - vm_compute. discriminate.
Defined.

(** The character 0xFF is not told from [EOF], so a poll can put the next character in its
    place: of six of them and an a, one is lost. *)
Theorem ConsoleTest_loses_character :
  exists s, ConsoleTest [Key EOF; Key EOF; Key EOF; Key EOF; Key EOF; Key EOF; Key 97; Key 113]
      (boot_sys (mkSynchConsole (mkConsole [] [] false EOF) 0 0 0 0)) = Ok s /\
    display (cons (world s)) = [EOF; EOF; EOF; EOF; EOF; 97; 113].
Proof. eexists. split; vm_compute; reflexivity. Qed.
