(* ===== verification/UserMem.v ===== *)
(** * User memory as the kernel sees it

    The first part of userprog/exception.cc: [User2System] and [System2User] copy a
    string between the memory of the running program and the kernel, byte by byte
    through the translation, and [Increase_ProgramCounter] steps over the system call.
    A byte that cannot be translated raises an exception inside the kernel, and the
    handler of userprog/exception.cc halts the machine.  Kernel buffers hold bytes
    (0 to 255); [ubyte] is the byte of the running program at a virtual address. *)

From S2P Require Import Prelude Int32 Machine AddrSpace.

(** [ExceptionHandler] for anything but a system call: [NoException] returns, every
    other exception prints a message and halts. *)
Definition handle_fault {A} (which : ExceptionType) (m : A) : outcome A :=
  match which with NoException => Ok m | _ => Halt end.

(** [machine->ReadMem] and [machine->WriteMem] called by the kernel: a fault is
    raised, and handled, before the call returns. *)
Definition kernel_ReadMem (m : Machine) (addr size : Z) : outcome (Z * Machine) :=
  r ← Machine_ReadMem m addr size;
  match r with
  | MemOk v m => Ok (v, m)
  | MemFault which badVAddr => m ← Machine_RaiseException m badVAddr; _ ← handle_fault which m; Undefined
  end.
Definition kernel_WriteMem (m : Machine) (addr size value : Z) : outcome Machine :=
  r ← Machine_WriteMem m addr size value;
  match r with
  | MemOk _ m => Ok m
  | MemFault which badVAddr => m ← Machine_RaiseException m badVAddr; handle_fault which m
  end.

(** The loop of [User2System]: the bytes up to the NUL, which is the last if it is
    found. *)
Fixpoint user2system_loop (n : nat) (virtAddr i : Z) (m : Machine) : outcome (list Z * Machine) :=
  match n with
  | O => Ok ([], m)
  | S n =>
      '(oneChar, m) ← kernel_ReadMem m (wrap_s32 (virtAddr + i)) 1;
      if oneChar =? 0 then Ok ([byte_of_int oneChar], m)
      else
        '(bs, m) ← user2system_loop n virtAddr (i + 1) m;
        Ok (byte_of_int oneChar :: bs, m)
  end.

(** [User2System]: a buffer of [limit + 1] bytes; an allocation of a negative size
    has no meaning. *)
Definition User2System (m : Machine) (virtAddr limit : Z) : outcome (list Z * Machine) :=
  if limit <? -1 then Undefined
  else
    '(bs, m) ← user2system_loop (Z.to_nat limit) virtAddr 0 m;
    Ok (bs ++ replicate (Z.to_nat (limit + 1) - length bs) 0, m).

(** The loop of [System2User], with [n + 1] bytes left *)
Fixpoint system2user_loop (n : nat) (virtAddr i : Z) (buffer : list Z) (m : Machine) : outcome (Z * Machine) :=
  oneChar ← deref (buffer.[i]);
  m ← kernel_WriteMem m (wrap_s32 (virtAddr + i)) 1 (char_of_byte oneChar);
  match n with
  | O => Ok (i + 1, m)
  | S n => if oneChar =? 0 then Ok (i + 1, m) else system2user_loop n virtAddr (i + 1) buffer m
  end.

(** [System2User] *)
Definition System2User (m : Machine) (virtAddr len : Z) (buffer : list Z) : outcome (Z * Machine) :=
  if len <? 0 then Ok (-1, m)
  else if len =? 0 then Ok (len, m)
  else system2user_loop (Z.to_nat (len - 1)) virtAddr 0 buffer m.

(** [Increase_ProgramCounter] *)
Definition Increase_ProgramCounter (m : Machine) : outcome Machine :=
  next ← Machine_ReadRegister m NextPCReg;
  let pcAfter := wrap_s32 (next + 4) in
  pc ← Machine_ReadRegister m PCReg;
  m ← Machine_WriteRegister m PrevPCReg pc;
  next ← Machine_ReadRegister m NextPCReg;
  m ← Machine_WriteRegister m PCReg next;
  Machine_WriteRegister m NextPCReg pcAfter.

(** ** The memory of the running program *)

(** Where a byte is, for reading or for writing. *)
Definition pa_of (m : Machine) (v : Z) (writing : bool) : option Z :=
  match phys_of m v 1 writing with Ok (inr pa) => Some pa | _ => None end.
Definition ubyte (m : Machine) (v : Z) : option Z := pa ← pa_of m v false; (mainMemory m).[pa].

(** No two virtual addresses share a byte. *)
Definition injective (m : Machine) : Prop :=
  forall v v' pa, pa_of m v false = Some pa -> pa_of m v' false = Some pa -> wrap_u32 v = wrap_u32 v'.

Lemma pa_of_same_map m m' v b : same_map m m' -> pa_of m' v b = pa_of m v b.
Proof. intros (_ & _ & _ & _ & H). unfold pa_of. by rewrite H. Qed.

Lemma pa_of_write_read m v pa : pa_of m v true = Some pa -> pa_of m v false = Some pa.
Proof.
  unfold pa_of. destruct (phys_of m v 1 true) as [[w|pa']| | |] eqn:E; try done. intros [= ->].
  by rewrite (phys_of_write_read _ _ _ _ E).
Qed.

(** Translation sees an address as an unsigned number. *)
Lemma phys_of_wrap m v v' writing :
  wrap_u32 v = wrap_u32 v' -> phys_of m v 1 writing = phys_of m v' 1 writing.
Proof. intros E. unfold phys_of, Machine_Translate. change (misaligned v 1) with false. change (misaligned v' 1) with false. by rewrite E. Qed.

Lemma valid_size_1 : valid_size 1. Proof. by left. Qed.

(** The state in which the kernel touches user memory. *)
Record user_ok (m : Machine) : Prop := {
  uo_wf : Machine_wf m;
  uo_load : 0 <= reg m LoadReg < 32;
  uo_inj : injective m }.

Lemma user_ok_step m m' : user_ok m -> Machine_wf m' -> same_map m m' -> user_ok m'.
Proof.
  intros [H1 H2 H3] Hwf Hs. pose proof Hs as (Hr & _). split; [done|unfold reg in *; by rewrite Hr|].
  intros v v' pa. rewrite !(pa_of_same_map m m') by done. apply H3.
Qed.

(** Registers do not matter for translation. *)
Lemma phys_of_set_reg m i x va size writing : phys_of (set_reg m i x) va size writing = phys_of m va size writing.
Proof.
  apply phys_of_mapping; try done. intros vpn. unfold find_entry. simpl. destruct (tlb m) as [t|].
  - by destruct (tlb_search t vpn 0) as [[]|].
  - destruct (_ <=? vpn); [done|]. destruct (pageTable m) as [pt|]; [|done]. simpl. destruct (pt.[vpn]) as [e|]; [|done]. simpl. by destruct (valid e).
Qed.

Lemma user_ok_set_reg m i x : user_ok m -> int32 x -> (i = LoadReg -> 0 <= x < 32) -> user_ok (set_reg m i x).
Proof.
  intros [H1 H2 H3] Hx Hi. split; [by apply set_reg_wf| |].
  - destruct (decide (i = LoadReg)) as [->|Hne]; [|by rewrite reg_set_reg_ne].
    rewrite reg_set_reg_eq; [auto|]. rewrite (wf_registers _ H1). unfold LoadReg, NumTotalRegs. lia.
  - intros v v' pa. unfold pa_of. rewrite !phys_of_set_reg. apply H3.
Qed.

(** An exception that is raised in the kernel halts the machine. *)
Lemma fault_halts {A} (k : Machine -> outcome A) m which v writing :
  user_ok m -> phys_of m v 1 writing = Ok (inl which) ->
  (m' ← Machine_RaiseException m v; m' ← handle_fault which m'; k m') = Halt.
Proof.
  intros [Hwf Hl _] Hp. pose proof (phys_of_exception _ _ _ _ _ Hwf valid_size_1 Hp) as Hm.
  unfold Machine_RaiseException, Machine_DelayedLoad.
  assert (Hl' : reg (set_reg m BadVAddrReg v) LoadReg = reg m LoadReg) by (apply reg_set_reg_ne; unfold BadVAddrReg, LoadReg; lia).
  rewrite Hl'. destruct (lookupZ_range (registers (set_reg m BadVAddrReg v)) (reg m LoadReg)) as [x ->].
  { rewrite lenZ_set_reg, (wf_registers _ Hwf). unfold NumTotalRegs. lia. }
  cbn [deref mbind outcome_bind]. unfold memory_exceptions in Hm.
  repeat (apply elem_of_cons in Hm as [->|Hm]; [done|]). by apply elem_of_nil in Hm.
Qed.

(** A read of a byte. *)
Lemma kernel_ReadMem_byte m v :
  user_ok m ->
  match ubyte m v with
  | Some b => exists m', kernel_ReadMem m v 1 = Ok (char_of_byte b, m') /\ user_ok m' /\ mainMemory m' = mainMemory m /\ same_map m m'
  | None => kernel_ReadMem m v 1 = Halt
  end.
Proof.
  intros Huo. pose proof (uo_wf _ Huo) as Hwf. unfold kernel_ReadMem, ubyte, pa_of.
  destruct (ReadMem_cases m v 1 Hwf valid_size_1) as [(w & -> & Hp & _)|(x & m' & pa & -> & Hp & H0 & H1 & Hl & _ & W & M & S)]; rewrite Hp.
  - cbn [mbind option_bind outcome_bind]. exact (fault_halts (fun _ => Undefined) m w v false Huo Hp).
  - cbn [mbind option_bind outcome_bind]. unfold load_value in Hl. change (1 =? 1) with true in Hl. cbn iota in Hl.
    rewrite lookupZ_slice, Z.add_0_r in Hl by lia.
    destruct ((mainMemory m).[pa]) as [b|]; [|done]. cbn [deref mbind outcome_bind] in Hl. injection Hl as <-.
    exists m'. conjs; try done. by eapply user_ok_step.
Qed.

(** A write of a byte. *)
Lemma kernel_WriteMem_byte m v x :
  user_ok m ->
  match pa_of m v true with
  | Some pa => exists m', kernel_WriteMem m v 1 x = Ok m' /\ user_ok m' /\ same_map m m' /\
      0 <= pa < lenZ (mainMemory m) /\ mainMemory m' = splice (mainMemory m) pa [byte_of_int x]
  | None => kernel_WriteMem m v 1 x = Halt
  end.
Proof.
  intros Huo. pose proof (uo_wf _ Huo) as Hwf. unfold kernel_WriteMem, pa_of.
  destruct (WriteMem_cases m v 1 x Hwf valid_size_1) as [(w & -> & Hp & _)|(m' & pa & bs & -> & Hp & H0 & H1 & Hb & _ & M & W & S)]; rewrite Hp.
  - cbn [mbind outcome_bind]. rewrite <- (fault_halts Ok m w v true Huo Hp). unfold mbind.
    destruct (Machine_RaiseException m v) as [y| | |]; simpl; try done. by destruct (handle_fault w y).
  - cbn [mbind outcome_bind]. exists m'. conjs; [done|by eapply user_ok_step|done|done|rewrite (wf_memory _ Hwf); lia|].
    unfold store_bytes in Hb. change (1 =? 1) with true in Hb. cbn iota in Hb. injection Hb as <-. rewrite M. do 2 f_equal.
    unfold byte_of_int. exact (land_low x 8 ltac:(lia)).
Qed.

(** What a write changes. *)
Lemma ubyte_write m m' v pa b :
  user_ok m -> pa_of m v true = Some pa -> same_map m m' -> 0 <= pa < lenZ (mainMemory m) ->
  mainMemory m' = splice (mainMemory m) pa [b] ->
  forall v', ubyte m' v' = if decide (wrap_u32 v' = wrap_u32 v) then Some b else ubyte m v'.
Proof.
  intros [Hwf _ Hinj] Hpa Hs Hr HM v'. pose proof (pa_of_write_read _ _ _ Hpa) as Hpr.
  unfold ubyte. rewrite (pa_of_same_map m m') by done. rewrite HM.
  assert (Hsame : wrap_u32 v' = wrap_u32 v -> pa_of m v' false = Some pa).
  { intros He. rewrite <- Hpr. unfold pa_of. by rewrite (phys_of_wrap m v' v false He). }
  case_decide as Hd.
  - rewrite (Hsame Hd). cbn [mbind option_bind]. rewrite lookupZ_splice by (change (lenZ [b]) with 1; lia).
    change (lenZ [b]) with 1. rewrite (proj2 (Z.leb_le _ _)), (proj2 (Z.ltb_lt _ _)) by lia. cbn [andb]. by rewrite Z.sub_diag.
  - destruct (pa_of m v' false) as [pa'|] eqn:E; [|done]. cbn [mbind option_bind].
    assert (Hne : pa' <> pa) by (intros ->; apply Hd; by eapply Hinj).
    rewrite lookupZ_splice by (change (lenZ [b]) with 1; lia). change (lenZ [b]) with 1.
    destruct (Z.leb_spec pa pa'), (Z.ltb_spec pa' (pa + 1)); try done. lia.
Qed.

(** ** Strings *)

(** The bytes of a memory [f] from [i] on, before the first NUL, at most [n]; [None]
    when a byte is missing. *)
Fixpoint cstring_at (f : Z -> option Z) (n : nat) (i : Z) : option (list Z) :=
  match n with
  | O => Some []
  | S n => b ← f i; if b =? 0 then Some [] else bs ← cstring_at f n (i + 1); Some (b :: bs)
  end.

(** The memory of the program as [User2System] addresses it. *)
Definition at_user (m : Machine) (virtAddr i : Z) : option Z := ubyte m (wrap_s32 (virtAddr + i)).

(** The bytes up to the first NUL, which is included. *)
Fixpoint upto_nul (bs : list Z) : list Z :=
  match bs with [] => [] | b :: bs => if b =? 0 then [b] else b :: upto_nul bs end.

Lemma cstring_at_ext f g n i : (forall j, f j = g j) -> cstring_at f n i = cstring_at g n i.
Proof. intros H. revert i. induction n as [|n IH]; intros i; [done|]. simpl. by rewrite H, IH. Qed.

Lemma char_of_byte_0 b : byte b -> (char_of_byte b =? 0) = (b =? 0).
Proof. unfold char_of_byte. unfold_int32. intros. destruct (b <? 128) eqn:E; [done|]. to_prop. destruct (Z.eqb_spec (b - 256) 0), (Z.eqb_spec b 0); lia. Qed.

Lemma ubyte_byte m v b : Machine_wf m -> ubyte m v = Some b -> byte b.
Proof.
  intros Hwf. unfold ubyte. destruct (pa_of m v false) as [pa|]; [|done]. simpl. intros Hb.
  pose proof (wf_bytes _ Hwf) as HF. rewrite Forall_lookupZ in HF. eauto.
Qed.

Lemma same_map_refl m : same_map m m.
Proof. by red. Qed.
Lemma same_map_trans m1 m2 m3 : same_map m1 m2 -> same_map m2 m3 -> same_map m1 m3.
Proof. intros (A1 & A2 & A3 & A4 & A5) (B1 & B2 & B3 & B4 & B5). red. conjs; congruence. Qed.

Lemma ubyte_same m m' v : mainMemory m' = mainMemory m -> same_map m m' -> ubyte m' v = ubyte m v.
Proof. intros HM Hs. unfold ubyte. by rewrite (pa_of_same_map m m'), HM. Qed.

(** [User2System]'s loop reads the string. *)
Lemma user2system_loop_spec n va i m :
  user_ok m ->
  match cstring_at (at_user m va) n i with
  | Some str => exists m' tail, user2system_loop n va i m = Ok (str ++ tail, m') /\ (tail = [] \/ tail = [0]) /\
      (length (str ++ tail) <= n)%nat /\ user_ok m' /\ mainMemory m' = mainMemory m /\ same_map m m'
  | None => user2system_loop n va i m = Halt
  end.
Proof.
  revert i m. induction n as [|n IH]; intros i m Huo; simpl.
  { exists m, []. conjs; [done|by left|done|done|done|apply same_map_refl]. }
  change (at_user m va i) with (ubyte m (wrap_s32 (va + i))). pose proof (kernel_ReadMem_byte m (wrap_s32 (va + i)) Huo) as HR.
  destruct (ubyte m (wrap_s32 (va + i))) as [b|] eqn:Eb; cbn [mbind option_bind]; [|by rewrite HR].
  destruct HR as (m1 & -> & Huo1 & HM1 & HS1). cbn [mbind outcome_bind].
  pose proof (ubyte_byte _ _ _ (uo_wf _ Huo) Eb) as Hb. rewrite char_of_byte_0, byte_of_char by done.
  destruct (Z.eqb_spec b 0) as [->|Hne].
  { exists m1, [0]. conjs; [done|by right|simpl; lia|done|done|done]. }
  specialize (IH (i + 1) m1 Huo1).
  rewrite (cstring_at_ext (at_user m1 va) (at_user m va)) in IH by (intros; unfold at_user; by apply ubyte_same).
  destruct (cstring_at (at_user m va) n (i + 1)) as [str|]; cbn [option_bind].
  - destruct IH as (m2 & tail & -> & Ht & Hl & Huo2 & HM2 & HS2). exists m2, tail. conjs; [done|done|simpl; lia|done|congruence|by eapply same_map_trans].
  - by rewrite IH.
Qed.

(** The buffer with a string and zeros behind it. *)
Definition kernel_buf (limit : Z) (str : list Z) : list Z := str ++ replicate (Z.to_nat (limit + 1) - length str) 0.

Lemma User2System_spec m va limit :
  user_ok m -> -1 <= limit ->
  match cstring_at (at_user m va) (Z.to_nat limit) 0 with
  | Some str => exists m', User2System m va limit = Ok (kernel_buf limit str, m') /\ (length str <= Z.to_nat limit)%nat /\
      user_ok m' /\ mainMemory m' = mainMemory m /\ same_map m m'
  | None => User2System m va limit = Halt
  end.
Proof.
  intros Huo Hl. unfold User2System. rewrite (proj2 (Z.ltb_ge _ _)) by lia.
  pose proof (user2system_loop_spec (Z.to_nat limit) va 0 m Huo) as HL.
  destruct (cstring_at (at_user m va) (Z.to_nat limit) 0) as [str|].
  - destruct HL as (m' & tail & -> & Ht & Hlen & H1 & H2 & H3). cbn [mbind outcome_bind]. exists m'. rewrite length_app in *.
    conjs; try done; [|lia]. do 2 f_equal. unfold kernel_buf. rewrite <- app_assoc. f_equal.
    destruct Ht as [-> | ->]; simpl in *; [f_equal; lia|].
    replace (Z.to_nat (limit + 1) - length str)%nat with (S (Z.to_nat (limit + 1) - (length str + 1))) by lia. done.
  - by rewrite HL.
Qed.

Lemma lenZ_upto_nul l : lenZ (upto_nul l) <= lenZ l.
Proof. induction l as [|b l IH]; simpl; [done|]. destruct (b =? 0); rewrite !lenZ_cons; [|lia]. pose proof (lenZ_nonneg l). change (lenZ (@nil Z)) with 0. lia. Qed.

Lemma slice_S {A} (l : list A) i n b : l.[i] = Some b -> 0 <= n -> slice l i (n + 1) = b :: slice l (i + 1) n.
Proof.
  intros Hb Hn. pose proof (lookupZ_Some_range _ _ _ Hb) as Hr. unfold slice, lookupZ in *. rewrite (proj2 (Z.ltb_ge i 0)) in Hb by lia.
  replace (Z.to_nat (n + 1)) with (S (Z.to_nat n)) by lia. replace (Z.to_nat (i + 1)) with (S (Z.to_nat i)) by lia.
  by rewrite (drop_S _ _ _ Hb).
Qed.

Lemma wrap_u32_apart x d : 0 < d < two32 -> wrap_u32 x <> wrap_u32 (x + d).
Proof.
  unfold wrap_u32, two32. intros Hd E. pose proof (Z.div_mod x 4294967296 ltac:(lia)). pose proof (Z.div_mod (x + d) 4294967296 ltac:(lia)). nia.
Qed.

Lemma store_one va i b m :
  user_ok m -> byte b -> is_Some (pa_of m (wrap_s32 (va + i)) true) ->
  exists m', kernel_WriteMem m (wrap_s32 (va + i)) 1 (char_of_byte b) = Ok m' /\ user_ok m' /\ same_map m m' /\
    forall v, ubyte m' v = if decide (wrap_u32 v = wrap_u32 (va + i)) then Some b else ubyte m v.
Proof.
  intros Huo Hb [pa Hpa]. pose proof (kernel_WriteMem_byte m (wrap_s32 (va + i)) (char_of_byte b) Huo) as HW. rewrite Hpa in HW.
  destruct HW as (m' & E & Huo' & Hs & Hr & HM). rewrite byte_of_char in HM by done.
  exists m'. conjs; [done..|]. intros v. rewrite (ubyte_write m m' _ pa b Huo Hpa Hs Hr HM). by rewrite wrap_u32_wrap_s32.
Qed.

(** [bs] is stored from [i] on, and nothing else has changed. *)
Definition stored (va i : Z) (bs : list Z) (m m' : Machine) : Prop :=
  (forall j, 0 <= j < lenZ bs -> at_user m' va (i + j) = bs.[j]) /\
  (forall v, (forall j, 0 <= j < lenZ bs -> wrap_u32 v <> wrap_u32 (va + (i + j))) -> ubyte m' v = ubyte m v).

Lemma stored_one va i b m m' :
  (forall v, ubyte m' v = if decide (wrap_u32 v = wrap_u32 (va + i)) then Some b else ubyte m v) -> stored va i [b] m m'.
Proof.
  intros Hu. change (lenZ [b]) with 1. split.
  - change (lenZ [b]) with 1. intros j Hj. assert (j = 0) as -> by lia. rewrite Z.add_0_r. unfold at_user. rewrite Hu, decide_True; [done|apply wrap_u32_wrap_s32].
  - change (lenZ [b]) with 1. intros v Hv. rewrite Hu, decide_False; [done|]. specialize (Hv 0). rewrite Z.add_0_r in Hv. apply Hv. lia.
Qed.

Lemma stored_cons va i b bs m m1 m' :
  (forall v, ubyte m1 v = if decide (wrap_u32 v = wrap_u32 (va + i)) then Some b else ubyte m v) ->
  stored va (i + 1) bs m1 m' -> lenZ bs < int32_max -> stored va i (b :: bs) m m'.
Proof.
  intros Hu [Hs1 Hs2] Hl.
  assert (Hfar : forall j, 0 <= j < lenZ bs -> wrap_u32 (va + i) <> wrap_u32 (va + (i + 1 + j))).
  { intros j Hj. replace (va + (i + 1 + j)) with (va + i + (1 + j)) by lia. apply wrap_u32_apart. unfold_int32. lia. }
  split; rewrite lenZ_cons.
  - intros j Hj. rewrite lookupZ_cons. destruct (decide (j = 0)) as [->|Hne].
    + rewrite Z.add_0_r. unfold at_user. rewrite Hs2 by (intros; rewrite wrap_u32_wrap_s32; auto).
      rewrite Hu, decide_True; [done|apply wrap_u32_wrap_s32].
    + rewrite (proj2 (Z.eqb_neq j 0)), (proj2 (Z.ltb_ge j 0)) by lia. rewrite <- Hs1 by lia. f_equal. lia.
  - intros v Hv. rewrite Hs2, Hu, decide_False; [done| |].
    + specialize (Hv 0). rewrite Z.add_0_r in Hv. apply Hv. pose proof (lenZ_nonneg bs). lia.
    + intros j Hj. replace (i + 1 + j) with (i + (j + 1)) by lia. apply Hv. lia.
Qed.

(** [System2User]'s loop stores the bytes up to a NUL. *)
Lemma system2user_loop_ok n va i buf m :
  user_ok m -> 0 <= i -> i + Z.of_nat n + 1 <= lenZ buf -> Forall byte buf -> Z.of_nat n < int32_max ->
  let bs := upto_nul (slice buf i (Z.of_nat n + 1)) in
  (forall j, 0 <= j < lenZ bs -> is_Some (pa_of m (wrap_s32 (va + (i + j))) true)) ->
  exists m', system2user_loop n va i buf m = Ok (i + lenZ bs, m') /\ user_ok m' /\ same_map m m' /\ stored va i bs m m'.
Proof.
  revert i m. induction n as [|n IH]; intros i m Huo Hi Hlen Hb Hn bs Hpa.
  all: destruct (lookupZ_range buf i) as [b Eb]; [lia|]; assert (Hbb : byte b) by (rewrite Forall_lookupZ in Hb; eauto).
  all: assert (H0 : 0 < lenZ bs) by (unfold bs; rewrite (slice_S _ _ _ b Eb) by lia; simpl upto_nul; destruct (b =? 0); rewrite lenZ_cons;
         [change (lenZ (@nil Z)) with 0; lia|pose proof (lenZ_nonneg (upto_nul (slice buf (i + 1) (Z.of_nat 0)))); 
          match goal with |- 0 < lenZ ?l + 1 => pose proof (lenZ_nonneg l) end; lia]).
  all: destruct (store_one va i b m Huo Hbb) as (m1 & E1 & Huo1 & Hs1 & Hu1); [specialize (Hpa 0); rewrite Z.add_0_r in Hpa; apply Hpa; lia|].
  all: cbn [system2user_loop]; rewrite Eb; cbn [deref mbind outcome_bind]; rewrite E1; cbn [mbind outcome_bind].
  - assert (bs = [b]) as -> by (unfold bs; rewrite (slice_S _ _ _ b Eb) by lia; simpl; by destruct (b =? 0)).
    exists m1. conjs; [done..|]. by apply stored_one.
  - unfold bs in *; clear bs. rewrite (slice_S _ _ _ b Eb) in * by lia. cbn [upto_nul] in *. destruct (b =? 0) eqn:Ez.
    + exists m1. conjs; [done..|]. by apply stored_one.
    + replace (Z.of_nat (S n)) with (Z.of_nat n + 1) in * by lia. set (bs := upto_nul (slice buf (i + 1) (Z.of_nat n + 1))) in *.
      destruct (IH (i + 1) m1 Huo1) as (m2 & E2 & Huo2 & Hs2 & Hst2); [lia|lia|done|lia| |].
      { fold bs. intros j Hj. rewrite (pa_of_same_map m m1) by done. replace (va + (i + 1 + j)) with (va + (i + (j + 1))) by lia.
        apply Hpa. rewrite lenZ_cons. lia. }
      fold bs in E2, Hst2. rewrite E2. exists m2. conjs; [rewrite lenZ_cons; do 2 f_equal; lia|done|by eapply same_map_trans|].
      eapply stored_cons; [done|done|]. pose proof (lenZ_upto_nul (slice buf (i + 1) (Z.of_nat n + 1))) as Hl. fold bs in Hl.
      rewrite lenZ_slice in Hl by lia. lia.
Qed.

(** A byte that cannot be written halts the machine. *)
Lemma system2user_loop_halt n va i buf m j :
  user_ok m -> 0 <= i -> i + Z.of_nat n + 1 <= lenZ buf -> Forall byte buf ->
  0 <= j < lenZ (upto_nul (slice buf i (Z.of_nat n + 1))) -> pa_of m (wrap_s32 (va + (i + j))) true = None ->
  system2user_loop n va i buf m = Halt.
Proof.
  revert i m j. induction n as [|n IH]; intros i m j Huo Hi Hlen Hb Hj Hpa.
  all: destruct (lookupZ_range buf i) as [b Eb]; [lia|]; assert (Hbb : byte b) by (rewrite Forall_lookupZ in Hb; eauto).
  all: rewrite (slice_S _ _ _ b Eb) in Hj by lia; cbn [upto_nul system2user_loop] in *; rewrite Eb; cbn [deref mbind outcome_bind].
  all: pose proof (kernel_WriteMem_byte m (wrap_s32 (va + i)) (char_of_byte b) Huo) as HW.
  all: destruct (pa_of m (wrap_s32 (va + i)) true) as [pa|] eqn:Epa; [|by rewrite HW].
  all: destruct HW as (m1 & -> & Huo1 & Hs1 & _); cbn [mbind outcome_bind].
  all: assert (Hj0 : j <> 0) by (intros ->; rewrite Z.add_0_r in Hpa; congruence).
  - exfalso. destruct (b =? 0); simpl in Hj; rewrite lenZ_cons in Hj; change (lenZ (@nil Z)) with 0 in Hj; lia.
  - destruct (b =? 0); rewrite lenZ_cons in Hj; [change (lenZ (@nil Z)) with 0 in Hj; lia|].
    replace (Z.of_nat (S n)) with (Z.of_nat n + 1) in Hj by lia.
    apply (IH (i + 1) m1 (j - 1)); try done; try lia.
    rewrite (pa_of_same_map m m1) by done. by replace (va + (i + 1 + (j - 1))) with (va + (i + j)) by lia.
Qed.

Lemma System2User_ok m va len buf :
  user_ok m -> 0 < len <= lenZ buf -> len <= int32_max -> Forall byte buf ->
  let bs := upto_nul (slice buf 0 len) in
  (forall j, 0 <= j < lenZ bs -> is_Some (pa_of m (wrap_s32 (va + j)) true)) ->
  exists m', System2User m va len buf = Ok (lenZ bs, m') /\ user_ok m' /\ same_map m m' /\ stored va 0 bs m m'.
Proof.
  intros Huo Hl Hm Hb bs Hpa. unfold System2User. rewrite (proj2 (Z.ltb_ge len 0)), (proj2 (Z.eqb_neq len 0)) by lia.
  destruct (system2user_loop_ok (Z.to_nat (len - 1)) va 0 buf m Huo) as (m' & E & Huo' & Hs & Hst); [lia|lia|done|lia| |].
  - replace (Z.of_nat (Z.to_nat (len - 1)) + 1) with len by lia. exact Hpa.
  - replace (Z.of_nat (Z.to_nat (len - 1)) + 1) with len in * by lia. exists m'. by rewrite E.
Qed.

Lemma System2User_halt m va len buf j :
  user_ok m -> 0 < len <= lenZ buf -> Forall byte buf ->
  0 <= j < lenZ (upto_nul (slice buf 0 len)) -> pa_of m (wrap_s32 (va + j)) true = None ->
  System2User m va len buf = Halt.
Proof.
  intros Huo Hl Hb Hj Hpa. unfold System2User. rewrite (proj2 (Z.ltb_ge len 0)), (proj2 (Z.eqb_neq len 0)) by lia.
  apply (system2user_loop_halt (Z.to_nat (len - 1)) va 0 buf m j); try done; [lia|].
  by replace (Z.of_nat (Z.to_nat (len - 1)) + 1) with len by lia.
Qed.

(** A stored string with its NUL is found again. *)
Lemma cstring_stored va str m m' i n :
  stored va i (str ++ [0]) m m' -> 0 ∉ str -> (length str <= n)%nat -> cstring_at (at_user m' va) n i = Some str.
Proof.
  intros [Hs _] H0 Hn. rewrite lenZ_app in Hs. change (lenZ [0]) with 1 in Hs.
  assert (Hread : forall j, 0 <= j <= lenZ str -> at_user m' va (i + j) = (str ++ [0]).[j]) by (intros; apply Hs; lia).
  clear Hs. revert i n Hread Hn. induction str as [|b str IH]; intros i n Hread Hn.
  - destruct n as [|n]; [done|]. simpl. specialize (Hread 0). rewrite Z.add_0_r in Hread. rewrite Hread by done. done.
  - destruct n as [|n]; [simpl in Hn; lia|]. apply not_elem_of_cons in H0 as [Hb H0]. rewrite lenZ_cons in Hread. simpl.
    pose proof (lenZ_nonneg str). pose proof (Hread 0 ltac:(lia)) as E0. rewrite Z.add_0_r in E0. rewrite E0. simpl.
    rewrite (proj2 (Z.eqb_neq b 0)) by done. rewrite (IH H0 (i + 1) n); [done| |simpl in Hn; lia].
    intros j Hj. replace (i + 1 + j) with (i + (j + 1)) by lia. rewrite Hread by lia. cbn [app]. rewrite lookupZ_cons.
    rewrite (proj2 (Z.eqb_neq (j + 1) 0)), (proj2 (Z.ltb_ge (j + 1) 0)) by lia. f_equal. lia.
Qed.

Lemma upto_nul_string str rest : 0 ∉ str -> upto_nul (str ++ 0 :: rest) = str ++ [0].
Proof.
  induction str as [|b str IH]; intros H0; [done|]. apply not_elem_of_cons in H0 as [Hb H0]. simpl.
  rewrite (proj2 (Z.eqb_neq b 0)) by done. by rewrite IH.
Qed.

(** *** The memory of a loaded program *)

(** Different pages of an address space are on different frames, so no byte of it is
    reached by two addresses. *)
Lemma table_injective m pt :
  Machine_wf m -> tlb m = None -> pageTable m = Some pt -> NoDup (map frame_of pt) -> injective m.
Proof.
  intros Hwf Htlb Hpt Hnd v v' pa Hv Hv'.
  assert (Hkey : forall u, pa_of m u false = Some pa ->
    exists e, pt.[wrap_u32 u / PageSize] = Some e /\ pa = frame_of e * PageSize + wrap_u32 u mod PageSize).
  { intros u Hu. unfold pa_of in Hu. destruct (phys_of m u 1 false) as [[w|pa']| | |] eqn:E; try done. injection Hu as ->.
    destruct (phys_of_entry _ _ _ _ _ _ Hwf Htlb Hpt E) as (e & He & Hpa & _). by exists e. }
  destruct (Hkey v Hv) as (e & He & E). destruct (Hkey v' Hv') as (e' & He' & E').
  unfold PageSize, SectorSize in *. pose proof (Z.mod_pos_bound (wrap_u32 v) 512 ltac:(lia)). pose proof (Z.mod_pos_bound (wrap_u32 v') 512 ltac:(lia)).
  assert (Hf : frame_of e = frame_of e') by nia.
  pose proof (NoDup_frames pt _ _ e e' Hnd He He' Hf) as Hp.
  rewrite (Z.div_mod (wrap_u32 v) 512), (Z.div_mod (wrap_u32 v') 512) by lia. nia.
Qed.

(** ** Copying *)

(** C17: copying between the kernel and a user program.  [System2User] stores the bytes
    of the buffer up to the first NUL (which it stores too) or [len] bytes, returns
    their number, and changes no other byte of user memory; if one of these addresses
    cannot be written it halts the machine.  [User2System] returns the string at an
    address, cut at [limit], in a zeroed buffer of [limit + 1] bytes, and halts if it
    runs into an address that cannot be read.  So a string that was copied out is
    copied in again unchanged. *)
Theorem user_memory_copy m va :
  user_ok m ->
  (forall len buf, 0 < len <= lenZ buf -> len <= int32_max -> Forall byte buf ->
    let bs := upto_nul (slice buf 0 len) in
    ((forall j, 0 <= j < lenZ bs -> is_Some (pa_of m (wrap_s32 (va + j)) true)) ->
      exists m', System2User m va len buf = Ok (lenZ bs, m') /\ user_ok m' /\ same_map m m' /\ stored va 0 bs m m' /\
        (forall str limit, bs = str ++ [0] -> 0 ∉ str -> lenZ str <= limit ->
          exists m'', User2System m' va limit = Ok (kernel_buf limit str, m'') /\ mainMemory m'' = mainMemory m')) /\
    (forall j, 0 <= j < lenZ bs -> pa_of m (wrap_s32 (va + j)) true = None -> System2User m va len buf = Halt)) /\
  (forall limit, 0 <= limit ->
    match cstring_at (at_user m va) (Z.to_nat limit) 0 with
    | Some str => exists m', User2System m va limit = Ok (kernel_buf limit str, m') /\ user_ok m' /\
        mainMemory m' = mainMemory m /\ same_map m m'
    | None => User2System m va limit = Halt
    end).
Proof.
  intros Huo. split.
  - intros len buf Hl Hm Hb bs. split; [|intros j Hj Hpa; by eapply System2User_halt].
    intros Hpa. destruct (System2User_ok m va len buf Huo Hl Hm Hb Hpa) as (m' & E & Huo' & Hs & Hst).
    exists m'. conjs; [done..|]. intros str limit Hbs H0 Hlim. unfold bs in Hbs. rewrite Hbs in Hst.
    pose proof (lenZ_nonneg str). pose proof (User2System_spec m' va limit Huo' ltac:(lia)) as HU.
    rewrite (cstring_stored va str m m' 0 (Z.to_nat limit) Hst H0) in HU by (unfold lenZ in *; lia).
    destruct HU as (m'' & E'' & _ & _ & HM & _). by exists m''.
  - intros limit Hlim. pose proof (User2System_spec m va limit Huo ltac:(lia)) as HU. destruct (cstring_at _ _ _) as [str|]; [|done].
    destruct HU as (m' & ? & _ & ?). by exists m'.
Qed.

(** A program with one page, in frame 0. *)
Definition one_page : Machine := sample_machine [] (sample_regs 0 0 0).

Lemma one_page_ok : user_ok one_page.
Proof.
  assert (Hwf : Machine_wf one_page) by (apply sample_wf; first [vm_compute; done | unfold_int32; lia]).
  split; [done|vm_compute; split; congruence|].
  apply (table_injective one_page [mkEntry 0 0 true false false false]); [done|reflexivity|reflexivity|].
  simpl. apply NoDup_singleton.
Qed.

Lemma user_memory_copy_witness :
  exists m' m'', System2User one_page 100 4 [104; 105; 0; 7] = Ok (3, m') /\
    User2System m' 100 5 = Ok ([104; 105; 0; 0; 0; 0], m'') /\ User2System one_page 2000 5 = Halt.
Proof.
  destruct (user_memory_copy one_page 100 one_page_ok) as [H1 _].
  destruct (user_memory_copy one_page 2000 one_page_ok) as [_ H2].
  destruct (H1 4 [104; 105; 0; 7]) as [H _]; [vm_compute; split; congruence|vm_compute; congruence|repeat constructor; unfold_int32; lia|].
  destruct H as (m' & E & _ & _ & _ & Hr).
  { intros j Hj. change (lenZ (upto_nul (slice [104; 105; 0; 7] 0 4))) with 3 in Hj.
    assert (j = 0 \/ j = 1 \/ j = 2) as [-> | [-> | ->]] by lia; vm_compute; eauto. }
  assert (H0 : 0 ∉ [104; 105]) by (repeat (apply not_elem_of_cons; split; [lia|]); apply not_elem_of_nil).
  destruct (Hr [104; 105] 5 eq_refl H0 ltac:(vm_compute; congruence)) as (m'' & E'' & _).
  exists m', m''. split; [exact E|]. split; [exact E''|]. exact (H2 5 ltac:(lia)).
Defined.

(** ** The program counter *)

Lemma Increase_ProgramCounter_spec m :
  Machine_wf m ->
  exists m', Increase_ProgramCounter m = Ok m' /\ Machine_wf m' /\ mainMemory m' = mainMemory m /\
    reg m' PrevPCReg = reg m PCReg /\ reg m' PCReg = reg m NextPCReg /\ reg m' NextPCReg = wrap_s32 (reg m NextPCReg + 4) /\
    (forall r, r <> PrevPCReg -> r <> PCReg -> r <> NextPCReg -> reg m' r = reg m r).
Proof.
  intros Hwf. unfold Increase_ProgramCounter. rewrite !ReadRegister_spec by done.
  change ((0 <=? NextPCReg) && (NextPCReg <? 40)) with true. change ((0 <=? PCReg) && (PCReg <? 40)) with true. cbn [mbind outcome_bind].
  unfold Machine_WriteRegister. change ((0 <=? PrevPCReg) && (PrevPCReg <? NumTotalRegs)) with true. cbn [ASSERT mbind outcome_bind].
  pose proof (reg_int32 m PCReg Hwf) as I1. pose proof (reg_int32 m NextPCReg Hwf) as I2.
  pose proof (wf_registers _ Hwf) as HL. unfold NumTotalRegs in HL.
  rewrite ReadRegister_spec by (by apply set_reg_wf).
  change ((0 <=? NextPCReg) && (NextPCReg <? 40)) with true. change ((0 <=? PCReg) && (PCReg <? NumTotalRegs)) with true.
  change ((0 <=? NextPCReg) && (NextPCReg <? NumTotalRegs)) with true. cbn [ASSERT mbind outcome_bind].
  rewrite (reg_set_reg_ne m PrevPCReg NextPCReg) by (unfold PrevPCReg, NextPCReg; lia).
  eexists. split; [done|]. conjs.
  - repeat apply set_reg_wf; try done. apply wrap_s32_range.
  - done.
  - rewrite !reg_set_reg_ne, reg_set_reg_eq by (rewrite ?lenZ_set_reg, ?HL; unfold PrevPCReg, PCReg, NextPCReg; lia). done.
  - rewrite reg_set_reg_ne, reg_set_reg_eq by (rewrite ?lenZ_set_reg, ?HL; unfold PrevPCReg, PCReg, NextPCReg; lia). done.
  - rewrite reg_set_reg_eq by (rewrite ?lenZ_set_reg, ?HL; unfold PrevPCReg, PCReg, NextPCReg; lia). done.
  - intros r H1 H2 H3. by rewrite !reg_set_reg_ne by congruence.
Qed.

Lemma Increase_ProgramCounter_user m m' : user_ok m -> Increase_ProgramCounter m = Ok m' -> user_ok m' /\ forall v w, pa_of m' v w = pa_of m v w.
Proof.
  intros Huo. unfold Increase_ProgramCounter, Machine_WriteRegister. intros H.
  pose proof (uo_wf _ Huo) as Hwf. pose proof (reg_int32 m PCReg Hwf). pose proof (reg_int32 m NextPCReg Hwf).
  rewrite !ReadRegister_spec in H by done. change ((0 <=? NextPCReg) && (NextPCReg <? 40)) with true in H. change ((0 <=? PCReg) && (PCReg <? 40)) with true in H.
  cbn [mbind outcome_bind] in H. change ((0 <=? PrevPCReg) && (PrevPCReg <? NumTotalRegs)) with true in H. cbn [ASSERT mbind outcome_bind] in H.
  rewrite ReadRegister_spec in H by (by apply set_reg_wf). change ((0 <=? NextPCReg) && (NextPCReg <? 40)) with true in H.
  change ((0 <=? PCReg) && (PCReg <? NumTotalRegs)) with true in H. change ((0 <=? NextPCReg) && (NextPCReg <? NumTotalRegs)) with true in H.
  cbn [ASSERT mbind outcome_bind] in H. injection H as <-. split.
  - repeat (apply user_ok_set_reg; [|first [done | apply wrap_s32_range | apply reg_int32; by apply set_reg_wf]|done]). exact Huo.
  - intros v w. unfold pa_of. by rewrite !phys_of_set_reg.
Qed.
