(* ===== verification/ConsoleCalls.v ===== *)
(** * The system calls of the console

    [Exception_ReadInt], [PrintInt], [ReadChar], [PrintChar], [ReadString] and
    [PrintString] of userprog/exception.cc, above any [ConsoleDevice] (the synchronous
    console of [Console] is one).  A call gets the machine and the console and gives
    both back; the arguments are in the registers 4 and 5 of the machine, the result in
    register 2.  Numbers are printed and read in decimal; [decimal] is the reference. *)

From S2P Require Import Prelude Int32 Machine Interrupts AddrSpace Console UserMem.

(** [strlen] of a buffer *)
Fixpoint strlen (bs : list Z) : outcome Z :=
  match bs with
  | [] => Undefined
  | b :: bs => if b =? 0 then Ok 0 else n ← strlen bs; Ok (n + 1)
  end.

(** The value of a string of decimal digits. *)
Definition digits_value (ds : list Z) : Z := foldl (fun ret d => ret * 10 + (d - 48)) 0 ds.

Section Calls.
Context {C : Type} `{!ConsoleDevice C}.
(** The value of an uninitialised variable of [SynchConsole::Read]. *)
Context (junk : Z).

(** [gSynchConsole->Read(&c, 1)]: the character in [c]. *)
Definition read_char (c : C) : outcome (Z * C) :=
  '(buf, _, c) ← cons_read c 1 junk;
  ch ← deref (buf.[0]);
  Ok (ch, c).

(** [while (c == ' ') gSynchConsole->Read(&c, 1)], which starts with a blank in [c];
    each round takes a character. *)
Fixpoint skip_spaces (fuel : nat) (c : C) : outcome (Z * C) :=
  match fuel with
  | O => Undefined
  | S fuel => '(ch, c) ← read_char c; if ch =? 32 then skip_spaces fuel c else Ok (ch, c)
  end.

(** The loop that reads digits, with room for [n] more; [ch] is the last character. *)
Fixpoint read_digits (n : nat) (ch : Z) (c : C) : outcome (list Z * C) :=
  match n with
  | O => Ok ([], c)
  | S n =>
      if (ch <=? 57) && (48 <=? ch) then
        '(next, c) ← read_char c;
        '(ds, c) ← read_digits n next c;
        Ok (ch :: ds, c)
      else Ok ([], c)
  end.

(** [Exception_ReadInt] *)
Definition Exception_ReadInt (m : Machine) (c : C) : outcome (Machine * C) :=
  let maxlen := 11%nat in
  '(ch, c) ← skip_spaces (S (length (cons_input c))) c;
  let '(sign, num_string) :=
    if ch =? 45 then (true, [])
    else if ch =? 43 then (false, [])
    else if (48 <=? ch) && (ch <=? 57) then (false, [ch])
    else (false, []) in
  '(ch, c) ← read_char c;
  '(ds, c) ← read_digits (maxlen - length num_string) ch c;
  let ret := digits_value (num_string ++ ds) in
  let ret := if 2147483647 <? ret then 0 else ret in
  let ret := if (sign : bool) then - ret else ret in
  m ← Machine_WriteRegister m 2 (wrap_s32 ret);
  Ok (m, c).

(** The loop that fills [tmp], which has room for [n] digits, lowest digit first *)
Fixpoint to_digits (n : nat) (x : Z) : outcome (list Z) :=
  match n with
  | O => Undefined
  | S n =>
      let d := Z.rem x 10 in
      let x := Z.quot x 10 in
      if x =? 0 then Ok [d] else ds ← to_digits n x; Ok (d :: ds)
  end.

(** [Exception_PrintInt] *)
Definition Exception_PrintInt (m : Machine) (c : C) : outcome (Machine * C) :=
  n ← Machine_ReadRegister m 4;
  let '(n, sign) := if n <? 0 then (wrap_s32 (- n), [45]) else (n, []) in
  tmp ← to_digits 11 n;
  let num_string := sign ++ map (fun d => byte_of_int (48 + d)) (rev tmp) in
  if 11 <? lenZ num_string then Undefined else
  '(_, c) ← cons_write c num_string (lenZ num_string);
  m ← Machine_WriteRegister m 2 0;
  Ok (m, c).

(** [Exception_ReadChar] and [Exception_PrintChar] *)
Definition Exception_ReadChar (m : Machine) (c : C) : outcome (Machine * C) :=
  '(ch, c) ← read_char c;
  m ← Machine_WriteRegister m 2 ch;
  Ok (m, c).
Definition Exception_PrintChar (m : Machine) (c : C) : outcome (Machine * C) :=
  r ← Machine_ReadRegister m 4;
  '(_, c) ← cons_write c [byte_of_int r] 1;
  m ← Machine_WriteRegister m 2 0;
  Ok (m, c).

(** [Exception_ReadString]: the pointer [buffer] is never set, so the first store
    through it has no meaning. *)
Definition Exception_ReadString (m : Machine) (c : C) : outcome (Machine * C) :=
  addr ← Machine_ReadRegister m 4;
  maxLength ← Machine_ReadRegister m 5;
  if 0 <? maxLength then Undefined
  else
    '(_, _, c) ← cons_read c maxLength junk;
    '(_, m) ← System2User m addr maxLength [];
    Ok (m, c).

(** [Exception_PrintString] *)
Definition Exception_PrintString (m : Machine) (c : C) : outcome (Machine * C) :=
  addr ← Machine_ReadRegister m 4;
  '(buffer, m) ← User2System m addr 255;
  len ← strlen buffer;
  '(_, c) ← cons_write c buffer len;
  Ok (m, c).

End Calls.

(** ** Decimal numbers *)

Definition digit (d : Z) : Prop := 48 <= d <= 57.

(** The decimal notation of a number: a sign, then digits without leading zeros. *)
Definition decimal (n : Z) (s : list Z) : Prop :=
  exists ds, s = (if n <? 0 then [45] else []) ++ ds /\ Forall digit ds /\ ds <> [] /\
    (head ds = Some 48 -> ds = [48]) /\ digits_value ds = Z.abs n.

Lemma digits_value_app ds d : digits_value (ds ++ [d]) = digits_value ds * 10 + (d - 48).
Proof. unfold digits_value. by rewrite foldl_app. Qed.

(** The loop of [PrintInt] gives the digits of a number below 10^n. *)
Lemma to_digits_ok n x :
  0 <= x < 10 ^ Z.of_nat n -> (0 < n)%nat ->
  exists tmp, to_digits n x = Ok tmp /\ (length tmp <= n)%nat /\ tmp <> [] /\ Forall (fun d => 0 <= d <= 9) tmp /\
    digits_value (map (fun d => 48 + d) (rev tmp)) = x /\ (head (rev tmp) = Some 0 -> tmp = [0]).
Proof.
  revert x. induction n as [|n IH]; intros x Hx Hn; [lia|]. cbn [to_digits].
  rewrite Z.rem_mod_nonneg, Z.quot_div_nonneg by lia. pose proof (Z.mod_pos_bound x 10 ltac:(lia)) as Hm.
  pose proof (Z.div_mod x 10 ltac:(lia)) as Hd.
  destruct (Z.eqb_spec (x / 10) 0) as [Hz|Hnz].
  - exists [x mod 10]. conjs; [done|simpl; lia|done|constructor; [lia|constructor]| |].
    + unfold digits_value. simpl. lia.
    + simpl. congruence.
  - replace (Z.of_nat (S n)) with (Z.of_nat n + 1) in Hx by lia. rewrite Z.pow_add_r in Hx by lia.
    destruct n as [|n]; [simpl in Hx; lia|].
    destruct (IH (x / 10)) as (tmp & -> & Hl & Hne & Hf & Hv & Hlast); [|lia|].
    { split; [apply Z.div_pos; lia|]. apply Z.div_lt_upper_bound; lia. }
    cbn [mbind outcome_bind]. exists (x mod 10 :: tmp). conjs; [done|simpl; lia|done|constructor; [lia|done]| |].
    + simpl. rewrite map_app. simpl. rewrite digits_value_app, Hv. lia.
    + simpl. assert (Hr : rev tmp <> []) by (intros E%(f_equal (@rev Z)); by rewrite rev_involutive in E).
      assert (Hh : head (rev tmp ++ [x mod 10]) = head (rev tmp)) by by destruct (rev tmp).
      rewrite Hh. intros E. rewrite (Hlast E) in Hv. unfold digits_value in Hv. simpl in Hv. lia.
Qed.

Lemma to_digits_more n n' x tmp : to_digits n x = Ok tmp -> (n <= n')%nat -> to_digits n' x = Ok tmp.
Proof.
  revert n' x tmp. induction n as [|n IH]; intros n' x tmp E Hn; [done|]. destruct n' as [|n']; [lia|]. cbn [to_digits] in *.
  destruct (Z.quot x 10 =? 0); [done|]. inv_ok. rewrite (IH n' _ _ E0) by lia. done.
Qed.

Lemma foldl_digits_ge ds a : 0 <= a -> Forall digit ds -> a * 10 ^ lenZ ds <= foldl (fun ret d => ret * 10 + (d - 48)) a ds.
Proof.
  revert a. induction ds as [|d ds IH]; intros a Ha Hd; simpl; [change (lenZ (@nil Z)) with 0; lia|].
  apply Forall_cons in Hd as [Hd Hds]. unfold digit in Hd. rewrite lenZ_cons, Z.pow_add_r by (pose proof (lenZ_nonneg ds); lia).
  specialize (IH (a * 10 + (d - 48)) ltac:(lia) Hds). change (10 ^ 1) with 10. pose proof (Z.pow_nonneg 10 (lenZ ds) ltac:(lia)). nia.
Qed.

(** A number of 31 bits has at most ten digits. *)
Lemma decimal_length ds x :
  Forall digit ds -> ds <> [] -> (head ds = Some 48 -> ds = [48]) -> digits_value ds = x -> x <= int32_max -> (length ds <= 10)%nat.
Proof.
  intros Hd Hne Hz Hv Hx. destruct ds as [|d ds]; [done|]. apply Forall_cons in Hd as [Hd Hds]. unfold digit in Hd.
  destruct (decide (d = 48)) as [->|Hn]; [rewrite (Hz eq_refl); simpl; lia|].
  pose proof (foldl_digits_ge ds (0 * 10 + (d - 48)) ltac:(lia) Hds) as Hge. unfold digits_value in Hv. cbn [foldl] in Hv.
  destruct (decide (length (d :: ds) <= 10)%nat) as [|Hlong]; [done|]. cbn [length] in Hlong. exfalso.
  pose proof (Z.pow_le_mono_r 10 10 (lenZ ds) ltac:(lia) ltac:(unfold lenZ; lia)) as Hp. change (10 ^ 10) with 10000000000 in Hp.
  unfold_int32. nia.
Qed.

(** The notation is unique. *)
Lemma digits_value_pos ds : Forall digit ds -> ds <> [] -> head ds <> Some 48 -> 0 < digits_value ds.
Proof.
  intros Hd Hne Hh. destruct ds as [|d ds]; [done|]. apply Forall_cons in Hd as [Hd Hds]. unfold digit in Hd.
  pose proof (foldl_digits_ge ds (0 * 10 + (d - 48)) ltac:(lia) Hds) as Hge. unfold digits_value. cbn [foldl].
  pose proof (Z.pow_pos_nonneg 10 (lenZ ds) ltac:(lia) (lenZ_nonneg ds)). assert (d <> 48) by (intros ->; by apply Hh). nia.
Qed.

Lemma digits_unique ds ds' :
  Forall digit ds -> Forall digit ds' -> head ds <> Some 48 -> head ds' <> Some 48 -> digits_value ds = digits_value ds' -> ds = ds'.
Proof.
  revert ds'. induction ds as [|d a IH] using rev_ind; intros ds' Hd Hd' Hh Hh' E.
  - destruct ds' as [|d' a']; [done|]. pose proof (digits_value_pos _ Hd' ltac:(done) Hh'). change (digits_value []) with 0 in E. lia.
  - destruct ds' as [|d' a' _] using rev_ind.
    { assert (a ++ [d] <> []) by by destruct a. pose proof (digits_value_pos _ Hd ltac:(done) Hh).
      change (digits_value []) with 0 in E. lia. }
    rewrite !digits_value_app in E. apply Forall_app in Hd as [Ha [Hd _]%Forall_cons]. apply Forall_app in Hd' as [Ha' [Hd' _]%Forall_cons].
    unfold digit in Hd, Hd'. assert (d = d') as -> by lia. f_equal. apply IH; [done|done| | |lia].
    + by destruct a.
    + by destruct a'.
Qed.

Lemma decimal_unique n s s' : decimal n s -> decimal n s' -> s = s'.
Proof.
  intros (ds & -> & Hd & Hne & Hz & Hv) (ds' & -> & Hd' & Hne' & Hz' & Hv'). f_equal.
  destruct (decide (head ds = Some 48)) as [H|H], (decide (head ds' = Some 48)) as [H'|H'].
  - by rewrite (Hz H), (Hz' H').
  - pose proof (digits_value_pos _ Hd' Hne' H'). rewrite (Hz H) in Hv. change (digits_value [48]) with 0 in Hv. lia.
  - pose proof (digits_value_pos _ Hd Hne H). rewrite (Hz' H') in Hv'. change (digits_value [48]) with 0 in Hv'. lia.
  - apply digits_unique; try done. congruence.
Qed.

Lemma decimal_m42 : decimal (-42) [45; 52; 50].
Proof. exists [52; 50]. conjs; [done|repeat constructor; unfold digit; lia|done|done|done]. Qed.

(** What the register holds that a call returns its result in. *)
Lemma write_result m v :
  Machine_wf m -> int32 v ->
  exists m', Machine_WriteRegister m 2 v = Ok m' /\ Machine_wf m' /\ reg m' 2 = v /\ mainMemory m' = mainMemory m /\
    (forall r, r <> 2 -> reg m' r = reg m r).
Proof.
  intros Hwf Hv. unfold Machine_WriteRegister. change ((0 <=? 2) && (2 <? NumTotalRegs)) with true. cbn [ASSERT mbind outcome_bind].
  eexists. split; [done|]. conjs; [by apply set_reg_wf| |done|].
  - apply reg_set_reg_eq. rewrite (wf_registers _ Hwf). unfold NumTotalRegs. lia.
  - intros r Hr. by apply reg_set_reg_ne.
Qed.

Lemma digits_decimal x tmp :
  tmp <> [] -> Forall (fun d => 0 <= d <= 9) tmp -> digits_value (map (fun d => 48 + d) (rev tmp)) = Z.abs x ->
  (head (rev tmp) = Some 0 -> tmp = [0]) ->
  decimal x ((if x <? 0 then [45] else []) ++ map (fun d => 48 + d) (rev tmp)).
Proof.
  intros Hne Hf Hv Hh. eexists. conjs; [done| | | |done].
  - apply Forall_map, Forall_rev. eapply Forall_impl; [exact Hf|]. unfold digit. cbn beta. lia.
  - destruct tmp as [|d tmp]; [done|]. simpl. rewrite map_app. by destruct (map _ (rev tmp)).
  - intros E. rewrite Hh; [done|]. destruct (rev tmp) as [|d r]; [done|]. cbn [map head] in *. injection E as E. f_equal. lia.
Qed.

Section Laws.
Context {C : Type} `{!ConsoleDevice C} `{!ConsoleLaws C} (junk : Z).

(** A newline and a ctrl-A arrive as NUL. *)
Definition as_read (x : Z) : Z := if (x =? 10) || (x =? 1) then 0 else x.

Lemma read_char_ok n (c : C) x rest :
  cons_ready (S n) c -> cons_input c = x :: rest ->
  exists c', read_char junk c = Ok (as_read x, c') /\ cons_ready n c' /\ cons_input c' = rest /\ cons_output c' = cons_output c.
Proof.
  intros Hr Hi. unfold read_char, as_read.
  assert (Hl : read_line (Z.to_nat 1) (cons_input c) =
    if (x =? 10) || (x =? 1) then Some ([], Some x, rest) else Some ([x], None, rest)).
  { rewrite Hi. simpl. by destruct ((x =? 10) || (x =? 1)). }
  destruct ((x =? 10) || (x =? 1)).
  - destruct (cons_read_ok n c 1 junk _ _ _ Hr ltac:(lia) Hl) as (c' & -> & ? & ? & ?). by exists c'.
  - destruct (cons_read_ok n c 1 junk _ _ _ Hr ltac:(lia) Hl) as (c' & -> & ? & ? & ?). by exists c'.
Qed.

Lemma skip_spaces_ok k n (c : C) x rest fuel :
  cons_ready (n + S k) c -> cons_input c = replicate k 32 ++ x :: rest -> as_read x <> 32 -> (k < fuel)%nat ->
  exists c', skip_spaces junk fuel c = Ok (as_read x, c') /\ cons_ready n c' /\ cons_input c' = rest /\ cons_output c' = cons_output c.
Proof.
  revert c fuel. induction k as [|k IH]; intros c fuel Hr Hi Hx Hf; (destruct fuel as [|fuel]; [lia|]); cbn [skip_spaces].
  - replace (n + 1)%nat with (S n) in Hr by lia. destruct (read_char_ok n c x rest Hr Hi) as (c' & -> & ?). cbn [mbind outcome_bind].
    rewrite (proj2 (Z.eqb_neq _ _)) by done. by exists c'.
  - replace (n + S (S k))%nat with (S (n + S k)) in Hr by lia.
    destruct (read_char_ok (n + S k) c 32 (replicate k 32 ++ x :: rest) Hr Hi) as (c1 & -> & Hr1 & Hi1 & Ho1). cbn [mbind outcome_bind].
    change (as_read 32) with 32. cbn [Z.eqb].
    destruct (IH c1 fuel Hr1 Hi1 Hx ltac:(lia)) as (c' & E & ? & ? & ?). rewrite E. exists c'. conjs; [done..|congruence].
Qed.

Lemma as_read_digit d : digit d -> as_read d = d.
Proof. unfold digit, as_read. intros. rewrite (proj2 (Z.eqb_neq d 10)), (proj2 (Z.eqb_neq d 1)) by lia. done. Qed.

Lemma digit_test d : digit d -> (d <=? 57) && (48 <=? d) = true.
Proof. unfold digit. intros. by rewrite (proj2 (Z.leb_le d 57)), (proj2 (Z.leb_le 48 d)) by lia. Qed.

Lemma not_digit_test d : ~ digit (as_read d) -> (as_read d <=? 57) && (48 <=? as_read d) = false.
Proof. unfold digit. intros. apply andb_false_iff. rewrite !Z.leb_gt. lia. Qed.

(** The loop takes all digits and the character behind them, of which the first has
    been read. *)
Lemma read_digits_ok ds n k (c : C) first stop rest :
  cons_ready (k + length ds) c -> first :: cons_input c = ds ++ stop :: rest -> Forall digit ds -> ~ digit (as_read stop) ->
  (length ds < n)%nat ->
  exists c', read_digits junk n (as_read first) c = Ok (ds, c') /\ cons_ready k c' /\ cons_input c' = rest /\ cons_output c' = cons_output c.
Proof.
  revert n c first. induction ds as [|d ds IH]; intros n c first Hr Hi Hd Hs Hn; (destruct n as [|n]; [simpl in Hn; lia|]); cbn [read_digits].
  - injection Hi as -> <-. rewrite not_digit_test by done. exists c. rewrite Nat.add_0_r in Hr. done.
  - injection Hi as -> Hi. apply Forall_cons in Hd as [Hd Hds]. rewrite as_read_digit, digit_test by done.
    simpl in Hr, Hn. replace (k + S (length ds))%nat with (S (k + length ds)) in Hr by lia.
    destruct (cons_input c) as [|y inp] eqn:Ei; [by destruct ds|].
    destruct (read_char_ok (k + length ds) c y inp Hr Ei) as (c1 & -> & Hr1 & Hi1 & Ho1). cbn [mbind outcome_bind].
    destruct (IH n c1 y Hr1) as (c' & -> & ? & ? & ?); [by rewrite Hi1|done|done|lia|]. cbn [mbind outcome_bind].
    exists c'. conjs; [done..|congruence].
Qed.

Lemma byte_of_digit d : 0 <= d <= 9 -> byte_of_int (48 + d) = 48 + d.
Proof. unfold byte_of_int. intros. apply Z.mod_small. lia. Qed.

(** [PrintInt] shows the decimal notation. *)
Lemma PrintInt_ok n m (c : C) :
  Machine_wf m -> reg m 4 <> int32_min -> cons_ready (n + 12) c ->
  exists s m' c', Exception_PrintInt m c = Ok (m', c') /\ decimal (reg m 4) s /\ (length s <= 11)%nat /\
    cons_output c' = cons_output c ++ s /\ cons_input c' = cons_input c /\ cons_ready n c' /\
    reg m' 2 = 0 /\ Machine_wf m' /\ mainMemory m' = mainMemory m.
Proof.
  intros Hwf Hmin Hr. pose proof (reg_int32 m 4 Hwf) as Hi. unfold Exception_PrintInt.
  rewrite ReadRegister_spec by done. change ((0 <=? 4) && (4 <? 40)) with true. cbn [mbind outcome_bind].
  set (x := reg m 4) in *.
  assert (Hx : (if x <? 0 then (wrap_s32 (- x), [45]) else (x, [])) = (Z.abs x, if x <? 0 then [45] else [])).
  { destruct (Z.ltb_spec x 0); [|f_equal; lia]. f_equal. rewrite wrap_s32_id by (unfold_int32; lia). lia. }
  rewrite Hx. destruct (to_digits_ok 10 (Z.abs x)) as (tmp & E10 & Hl & Hne & Hf & Hv & Hlast); [unfold_int32; simpl; lia|lia|].
  rewrite (to_digits_more 10 11 _ _ E10) by lia. cbn [mbind outcome_bind].
  assert (Hmap : map (fun d => byte_of_int (48 + d)) (rev tmp) = map (fun d => 48 + d) (rev tmp)).
  { apply map_ext_Forall. apply Forall_rev. eapply Forall_impl; [exact Hf|]. intros d Hd. by apply byte_of_digit. }
  rewrite Hmap. set (ds := map (fun d => 48 + d) (rev tmp)) in *. set (s := (if x <? 0 then [45] else []) ++ ds).
  assert (Hls : (length s <= 11)%nat).
  { unfold s, ds. rewrite length_app, length_map, length_rev. destruct (x <? 0); simpl; lia. }
  rewrite (proj2 (Z.ltb_ge 11 (lenZ s))) by (unfold lenZ; lia).
  destruct (cons_write_ok n c s (lenZ s)) as (c' & -> & Hr' & Ho & Hin).
  { apply (cons_ready_le (n + 12)); [done|]. unfold lenZ. lia. }
  { done. }
  cbn [mbind outcome_bind]. destruct (write_result m 0 Hwf) as (m' & -> & Hwf' & H2 & HM & _); [unfold_int32; lia|].
  cbn [mbind outcome_bind]. exists s, m', c'. conjs; try done.
  - by apply digits_decimal.
  - rewrite Ho. do 2 f_equal. rewrite Z.max_r by (unfold lenZ; lia). by apply slice_all.
Qed.
(** The two ways in which [ReadInt] meets the number: behind a sign, or at its first
    digit. *)
Lemma ReadInt_tail n (c : C) ds len stop rest :
  cons_ready (n + S (length ds)) c -> cons_input c = ds ++ stop :: rest -> Forall digit ds -> ~ digit (as_read stop) -> (length ds < len)%nat ->
  exists ch c1 c', read_char junk c = Ok (ch, c1) /\ read_digits junk len ch c1 = Ok (ds, c') /\
    cons_ready n c' /\ cons_input c' = rest /\ cons_output c' = cons_output c.
Proof.
  intros Hr Hi Hd Hs Hl. destruct (cons_input c) as [|y inp] eqn:Ei; [by destruct ds|].
  replace (n + S (length ds))%nat with (S (n + length ds)) in Hr by lia.
  destruct (read_char_ok (n + length ds) c y inp Hr Ei) as (c1 & E1 & Hr1 & Hi1 & Ho1).
  destruct (read_digits_ok ds len n c1 y stop rest Hr1) as (c' & E' & ? & ? & ?); [by rewrite Hi1|done|done|done|].
  exists (as_read y), c1, c'. conjs; [done..|congruence].
Qed.

Lemma ReadInt_ok n m (c : C) k x s stop rest :
  Machine_wf m -> int32_min < x <= int32_max -> decimal x s -> ~ digit (as_read stop) ->
  cons_input c = replicate k 32 ++ s ++ stop :: rest -> cons_ready (n + (k + length s + 1)) c ->
  exists m' c', Exception_ReadInt junk m c = Ok (m', c') /\ reg m' 2 = x /\ Machine_wf m' /\ mainMemory m' = mainMemory m /\
    cons_input c' = rest /\ cons_output c' = cons_output c /\ cons_ready n c'.
Proof.
  intros Hwf Hx (ds & -> & Hd & Hne & Hz & Hv) Hs Hi Hr. pose proof (decimal_length ds (Z.abs x) Hd Hne Hz Hv ltac:(unfold_int32; lia)) as Hlen.
  destruct (write_result m x Hwf) as (m' & Em & Hwf' & H2 & HM & _); [unfold_int32; lia|].
  unfold Exception_ReadInt. destruct ds as [|d ds]; [done|]. pose proof Hd as [Hd0 Hds]%Forall_cons.
  assert (Hbig : forall b : bool, b = (x <? 0) -> wrap_s32 (if b then - (if 2147483647 <? Z.abs x then 0 else Z.abs x)
                                        else if 2147483647 <? Z.abs x then 0 else Z.abs x) = x).
  { intros b ->. rewrite (proj2 (Z.ltb_ge _ (Z.abs x))) by (unfold_int32; lia). destruct (Z.ltb_spec x 0); apply wrap_s32_unique;
      unfold_int32; try lia; exists 0; lia. }
  assert (Hfuel : (k < S (length (cons_input c)))%nat) by (rewrite Hi, length_app, length_replicate; lia).
  destruct (x <? 0) eqn:Esign; cbn [app length] in *.
  - destruct (skip_spaces_ok k (n + S (length (d :: ds))) c 45 ((d :: ds) ++ stop :: rest) (S (length (cons_input c))))
      as (c1 & E1 & Hr1 & Hi1 & Ho1); [|exact Hi|done|done|].
    { eapply cons_ready_le; [exact Hr|]. simpl. lia. }
    rewrite E1. change (as_read 45) with 45. cbn [mbind outcome_bind Z.eqb Pos.eqb length].
    destruct (ReadInt_tail n c1 (d :: ds) 11 stop rest Hr1 Hi1 Hd Hs) as (ch & c2 & c' & E2 & E3 & ? & ? & ?); [simpl; lia|].
    rewrite E2. cbn [mbind outcome_bind]. cbn [length Nat.sub]. rewrite E3. cbn [mbind outcome_bind app].
    rewrite Hv, (Hbig true eq_refl), Em. cbn [mbind outcome_bind]. exists m', c'. conjs; try done. congruence.
  - destruct (skip_spaces_ok k (n + S (length ds)) c d (ds ++ stop :: rest) (S (length (cons_input c))))
      as (c1 & E1 & Hr1 & Hi1 & Ho1); [|exact Hi|rewrite as_read_digit by done; unfold digit in Hd0; lia|done|].
    { eapply cons_ready_le; [exact Hr|]. simpl. lia. }
    rewrite E1, as_read_digit by done. cbn [mbind outcome_bind].
    rewrite (proj2 (Z.eqb_neq d 45)), (proj2 (Z.eqb_neq d 43)) by (unfold digit in Hd0; lia).
    rewrite (andb_comm (48 <=? d)), digit_test by done.
    destruct (ReadInt_tail n c1 ds 10 stop rest Hr1 Hi1 Hds Hs) as (ch & c2 & c' & E2 & E3 & ? & ? & ?); [simpl in *; lia|].
    rewrite E2. cbn [mbind outcome_bind]. cbn [length Nat.sub]. rewrite E3. cbn [mbind outcome_bind app].
    rewrite Hv, (Hbig false eq_refl), Em. cbn [mbind outcome_bind]. exists m', c'. conjs; try done. congruence.
Qed.

(** C30: numbers on the console.  For every argument but INT_MIN, [PrintInt] shows the
    decimal notation of register 4: a minus sign if it is negative, then its digits
    without leading zeros.  [ReadInt] on that notation, after any number of blanks and
    followed by anything but a digit, gives the same number in register 2 and takes
    exactly the blanks, the number and the character behind it. *)
Theorem console_integers n m (c : C) :
  Machine_wf m -> reg m 4 <> int32_min -> cons_ready (n + 12) c ->
  exists s m' c', Exception_PrintInt m c = Ok (m', c') /\ decimal (reg m 4) s /\
    cons_output c' = cons_output c ++ s /\ cons_input c' = cons_input c /\ cons_ready n c' /\
    reg m' 2 = 0 /\ mainMemory m' = mainMemory m /\
    forall k l (c1 : C) m1 stop rest, Machine_wf m1 -> ~ digit (as_read stop) ->
      cons_input c1 = replicate k 32 ++ s ++ stop :: rest -> cons_ready (l + (k + length s + 1)) c1 ->
      exists m2 c2, Exception_ReadInt junk m1 c1 = Ok (m2, c2) /\ reg m2 2 = reg m 4 /\ mainMemory m2 = mainMemory m1 /\
        cons_input c2 = rest /\ cons_output c2 = cons_output c1 /\ cons_ready l c2.
Proof.
  intros Hwf Hmin Hr. pose proof (reg_int32 m 4 Hwf) as Hi.
  destruct (PrintInt_ok n m c Hwf Hmin Hr) as (s & m' & c' & E & Hs & _ & Ho & Hin & Hr' & H2 & _ & HM).
  exists s, m', c'. conjs; try done. intros k l c1 m1 stop rest Hwf1 Hst Hi1 Hr1.
  destruct (ReadInt_ok l m1 c1 k (reg m 4) s stop rest Hwf1) as (m2 & c2 & ? & ? & _ & ? & ? & ? & ?);
    [unfold_int32; lia|done..|]. by exists m2, c2.
Qed.

Lemma strlen_string str rest : 0 ∉ str -> strlen (str ++ 0 :: rest) = Ok (lenZ str).
Proof.
  induction str as [|b str IH]; intros H0; [done|]. apply not_elem_of_cons in H0 as [Hb H0]. cbn [app strlen].
  rewrite (proj2 (Z.eqb_neq b 0)) by done. rewrite (IH H0). cbn [mbind outcome_bind]. by rewrite lenZ_cons.
Qed.

Lemma cstring_no_nul f n i str : cstring_at f n i = Some str -> 0 ∉ str.
Proof.
  revert i str. induction n as [|n IH]; intros i str E; simpl in E; [injection E as <-; apply not_elem_of_nil|].
  destruct (f i) as [b|]; [|done]. cbn [mbind option_bind] in E. destruct (Z.eqb_spec b 0); [injection E as <-; apply not_elem_of_nil|].
  destruct (cstring_at f n (i + 1)) as [bs|] eqn:E'; [|done]. cbn [mbind option_bind] in E. injection E as <-.
  apply not_elem_of_cons. split; [done|]. by eapply IH.
Qed.

(** [PrintString], on its own. *)
Lemma print_string_ok n m (c : C) :
  user_ok m -> cons_ready (n + 256) c ->
  match cstring_at (at_user m (reg m 4)) 255 0 with
  | Some str => exists m' c', Exception_PrintString m c = Ok (m', c') /\ cons_output c' = cons_output c ++ str /\
      cons_input c' = cons_input c /\ cons_ready n c' /\ user_ok m' /\ mainMemory m' = mainMemory m /\ same_map m m'
  | None => Exception_PrintString m c = Halt
  end.
Proof.
  intros Huo Hr. pose proof (uo_wf _ Huo) as Hwf. unfold Exception_PrintString. rewrite ReadRegister_spec by done.
  change ((0 <=? 4) && (4 <? 40)) with true. cbn [mbind outcome_bind].
  pose proof (User2System_spec m (reg m 4) 255 Huo ltac:(lia)) as HU. change (Z.to_nat 255) with 255%nat in HU.
  destruct (cstring_at (at_user m (reg m 4)) 255 0) as [str|] eqn:Es; [|by rewrite HU].
  destruct HU as (m' & -> & Hl & Huo' & HM & Hs). cbn [mbind outcome_bind]. unfold kernel_buf.
  replace (Z.to_nat (255 + 1) - length str)%nat with (S (255 - length str)) by lia. cbn [replicate].
  rewrite strlen_string by by eapply cstring_no_nul. cbn [mbind outcome_bind].
  destruct (cons_write_ok n c (str ++ 0 :: replicate (255 - length str) 0) (lenZ str)) as (c' & -> & Hr' & Ho & Hi).
  { eapply cons_ready_le; [exact Hr|]. unfold lenZ. lia. }
  { rewrite lenZ_app. pose proof (lenZ_nonneg (0 :: replicate (255 - length str) 0)). lia. }
  cbn [mbind outcome_bind]. exists m', c'. conjs; try done. rewrite Ho. f_equal.
  unfold slice. change (Z.to_nat 0) with O. rewrite drop_0, Z.max_r by (unfold lenZ; lia). unfold lenZ. rewrite Nat2Z.id.
  by rewrite take_app_length.
Qed.

(** Strings and characters on the console.  [PrintString] shows the string at the
    address in register 4, up to its NUL and cut at 255 characters, and halts the machine
    if it runs into an address that cannot be read; [PrintChar] shows the low byte of
    register 4; [ReadChar] takes the next character of the stream and gives it in
    register 2, with NUL for a newline or a ctrl-A. *)
Theorem console_strings n m (c : C) :
  user_ok m ->
  (cons_ready (n + 256) c ->
    match cstring_at (at_user m (reg m 4)) 255 0 with
    | Some str => exists m' c', Exception_PrintString m c = Ok (m', c') /\ cons_output c' = cons_output c ++ str /\
        cons_input c' = cons_input c /\ cons_ready n c' /\ user_ok m' /\ mainMemory m' = mainMemory m /\ same_map m m'
    | None => Exception_PrintString m c = Halt
    end) /\
  (cons_ready (n + 2) c ->
    exists m' c', Exception_PrintChar m c = Ok (m', c') /\ cons_output c' = cons_output c ++ [byte_of_int (reg m 4)] /\
      cons_input c' = cons_input c /\ cons_ready n c' /\ reg m' 2 = 0) /\
  (forall x rest, cons_ready (S n) c -> cons_input c = x :: rest -> -128 <= x < 128 ->
    exists m' c', Exception_ReadChar junk m c = Ok (m', c') /\ reg m' 2 = as_read x /\ cons_input c' = rest /\
      cons_output c' = cons_output c /\ cons_ready n c').
Proof.
  intros Huo. pose proof (uo_wf _ Huo) as Hwf.
  assert (E4 : Machine_ReadRegister m 4 = Ok (reg m 4)) by (rewrite ReadRegister_spec by done; done). conjs.
  - intros Hr. by apply print_string_ok.
  - intros Hr. unfold Exception_PrintChar. rewrite E4. cbn [mbind outcome_bind].
    destruct (cons_write_ok n c [byte_of_int (reg m 4)] 1) as (c' & -> & Hr' & Ho & Hi); [done|done|]. cbn [mbind outcome_bind].
    destruct (write_result m 0 Hwf) as (m' & -> & _ & H2 & _); [unfold_int32; lia|]. cbn [mbind outcome_bind]. by exists m', c'.
  - intros x rest Hr Hi Hx. unfold Exception_ReadChar.
    destruct (read_char_ok n c x rest Hr Hi) as (c' & -> & ? & ? & ?). cbn [mbind outcome_bind].
    destruct (write_result m (as_read x) Hwf) as (m' & -> & _ & H2 & _).
    { unfold as_read. destruct (_ || _); unfold_int32; lia. }
    cbn [mbind outcome_bind]. by exists m', c'.
Qed.

(** The notation of INT_MIN. *)
Definition int_min_notation : list Z := [45; 50; 49; 52; 55; 52; 56; 51; 54; 52; 56].

(** The most negative number.  [PrintInt] of INT_MIN, whose negation overflows,
    shows "-./,),(-*,(" instead of its notation, and [ReadInt] of its notation gives
    0. *)
Theorem int_min_misprinted n m (c : C) :
  Machine_wf m ->
  (reg m 4 = int32_min -> cons_ready (n + 12) c ->
    exists m' c', Exception_PrintInt m c = Ok (m', c') /\
      cons_output c' = cons_output c ++ [45; 46; 47; 44; 41; 44; 40; 45; 42; 44; 40]) /\
  (forall rest, cons_input c = int_min_notation ++ 10 :: rest -> cons_ready (n + 12) c ->
    exists m' c', Exception_ReadInt junk m c = Ok (m', c') /\ reg m' 2 = 0 /\ cons_input c' = rest).
Proof.
  intros Hwf. split.
  - intros H4 Hr. unfold Exception_PrintInt. rewrite ReadRegister_spec, H4 by done.
    change ((0 <=? 4) && (4 <? 40)) with true. cbn [mbind outcome_bind].
    change (if int32_min <? 0 then (wrap_s32 (- int32_min), [45]) else (int32_min, [])) with (int32_min, [45]). cbn iota beta.
    change (to_digits 11 int32_min) with (Ok [-8; -4; -6; -3; -8; -4; -7; -4; -1; -2]). cbn [mbind outcome_bind].
    change ([45] ++ map (fun d => byte_of_int (48 + d)) (rev [-8; -4; -6; -3; -8; -4; -7; -4; -1; -2]))
      with [45; 46; 47; 44; 41; 44; 40; 45; 42; 44; 40]. set (s := [45; 46; 47; 44; 41; 44; 40; 45; 42; 44; 40]).
    change (lenZ s) with 11. change (11 <? 11) with false. cbn iota.
    destruct (cons_write_ok n c s 11 Hr ltac:(vm_compute; congruence)) as (c' & -> & _ & Ho & _). cbn [mbind outcome_bind].
    destruct (write_result m 0 Hwf) as (m' & -> & _); [unfold_int32; lia|]. cbn [mbind outcome_bind]. by exists m', c'.
  - intros rest Hi Hr. unfold Exception_ReadInt.
    destruct (skip_spaces_ok 0 (n + 11) c 45 (tail int_min_notation ++ 10 :: rest) (S (length (cons_input c)))) as (c1 & -> & Hr1 & Hi1 & _);
      [eapply cons_ready_le; [exact Hr|lia]|exact Hi|done|lia|]. change (as_read 45) with 45. cbn [mbind outcome_bind Z.eqb Pos.eqb].
    destruct (ReadInt_tail n c1 (tail int_min_notation) 11 10 rest) as (ch & c2 & c' & -> & E & _ & ? & _);
      [exact Hr1|exact Hi1|cbn [tail int_min_notation]; repeat (apply Forall_cons_2; [unfold digit; lia|]); apply Forall_nil_2|change (as_read 10) with 0; unfold digit; lia|simpl; lia|].
    cbn [mbind outcome_bind length Nat.sub]. rewrite E. cbn [mbind outcome_bind].
    change (digits_value ([] ++ tail int_min_notation)) with 2147483648. cbn [Z.ltb Z.compare Pos.compare Pos.compare_cont].
    destruct (write_result m 0 Hwf) as (m' & Em & _ & H2 & _); [unfold_int32; lia|].
    change (wrap_s32 (- 0)) with 0. rewrite Em. cbn [mbind outcome_bind]. by exists m', c'.
Qed.
End Laws.

(** ** Runs on the synchronous console *)

Definition with_reg4 (v : Z) : Machine := set_reg one_page 4 v.

Lemma with_reg4_wf v : int32 v -> Machine_wf (with_reg4 v).
Proof. intros Hv. apply set_reg_wf; [exact (uo_wf _ one_page_ok)|done]. Qed.

Lemma keys_no_eof (ks : list keypress) : bool_decide (EndOfFile ∉ ks) = true -> EndOfFile ∉ ks.
Proof. intros H. by apply bool_decide_eq_true in H. Qed.

Definition no_console : SynchConsole := mkSynchConsole (mkConsole [] [] false EOF) 0 0 0 0.

Lemma console_integers_witness :
  exists (s : CSys) m' s' m2 s2,
    SynchConsole_new [Key 32; Key 45; NoKey; Key 52; Key 50; Key 10; Key 120] (boot_sys no_console) = Ok s /\
    Exception_PrintInt (with_reg4 (-42)) s = Ok (m', s') /\ decimal (-42) (cons_output s') /\
    Exception_ReadInt 0 (with_reg4 0) s' = Ok (m2, s2) /\ reg m2 2 = -42 /\ cons_input s2 = [120].
Proof.
  destruct (new_console_ready 40 [Key 32; Key 45; NoKey; Key 52; Key 50; Key 10; Key 120] no_console) as (s & E & Hr & Hi & Hd).
  { apply keys_no_eof. vm_compute. reflexivity. }
  { vm_compute. discriminate. }
  assert (H4 : reg (with_reg4 (-42)) 4 = -42) by (vm_compute; reflexivity).
  destruct (console_integers 0 28 (with_reg4 (-42)) s) as (str & m' & s' & E1 & Hdec & Ho & Hin & Hr' & _ & _ & Hread).
  { apply with_reg4_wf. unfold_int32. lia. }
  { rewrite H4. unfold int32_min. lia. }
  { exact Hr. }
  rewrite H4 in Hdec.
  change (cons_output s' = cons_output s ++ str) in Ho. change (cons_input s' = cons_input s) in Hin.
  assert (Hstr : str = [45; 52; 50]) by exact (decimal_unique _ _ _ Hdec decimal_m42).
  destruct (Hread 1%nat 20%nat s' (with_reg4 0) 10 [120]) as (m2 & s2 & E2 & H2 & _ & Hi2 & _).
  { apply with_reg4_wf. unfold_int32. lia. }
  { unfold digit. vm_compute. intros []. congruence. }
  { rewrite Hin. change (cons_input s) with (input (world s)). rewrite Hi, Hstr. reflexivity. }
  { rewrite Hstr. apply (cons_ready_le 28); [exact Hr'|simpl; lia]. }
  exists s, m', s', m2, s2. rewrite H4 in H2. conjs; [exact E|exact E1| |exact E2|exact H2|exact Hi2].
  rewrite Ho. change (cons_output s) with (display (cons (world s))). rewrite Hd. exact Hdec.
Defined.

Lemma console_strings_witness :
  exists (s : CSys) m' s', SynchConsole_new [Key 10] (boot_sys no_console) = Ok s /\
    Exception_PrintString one_page s = Ok (m', s') /\ cons_output s' = [] /\
    Exception_PrintString (with_reg4 2000) s = Halt /\
    exists m2 s2, Exception_ReadChar 0 one_page s = Ok (m2, s2) /\ reg m2 2 = 0.
Proof.
  destruct (new_console_ready 300 [Key 10] no_console) as (s & E & Hr & Hi & Hd).
  { apply keys_no_eof. vm_compute. reflexivity. }
  { vm_compute. discriminate. }
  assert (Hu : user_ok (with_reg4 2000)).
  { apply user_ok_set_reg; [exact one_page_ok|unfold_int32; lia|done]. }
  destruct (console_strings 0 44 one_page s one_page_ok) as [Hp _]. specialize (Hp Hr).
  destruct (console_strings 0 44 (with_reg4 2000) s Hu) as [Hp2 _]. specialize (Hp2 Hr).
  destruct (console_strings 0 299 one_page s one_page_ok) as (_ & _ & Hc).
  assert (E0 : cstring_at (at_user one_page (reg one_page 4)) 255 0 = Some []) by (vm_compute; reflexivity).
  assert (E2 : cstring_at (at_user (with_reg4 2000) (reg (with_reg4 2000) 4)) 255 0 = None) by (vm_compute; reflexivity).
  rewrite E0 in Hp. rewrite E2 in Hp2. destruct Hp as (m' & s' & E1 & Ho & _).
  destruct (Hc 10 [] Hr Hi ltac:(lia)) as (m2 & s2 & E3 & H2 & _).
  exists s, m', s'. conjs; [exact E|exact E1| |exact Hp2|exists m2, s2; split; [exact E3|exact H2]].
  rewrite Ho. change (cons_output s) with (display (cons (world s))). rewrite Hd. reflexivity.
Defined.

Lemma int_min_misprinted_witness :
  exists (s : CSys) m' s' m2 s2, Exception_PrintInt (with_reg4 int32_min) s = Ok (m', s') /\
    cons_output s' = [45; 46; 47; 44; 41; 44; 40; 45; 42; 44; 40] /\
    cons_input s = int_min_notation ++ [10] /\ Exception_ReadInt 0 one_page s = Ok (m2, s2) /\ reg m2 2 = 0.
Proof.
  destruct (new_console_ready 12 (map Key (int_min_notation ++ [10])) no_console) as (s & E & Hr & Hi & Hd).
  { apply keys_no_eof. vm_compute. reflexivity. }
  { vm_compute. discriminate. }
  destruct (int_min_misprinted 0 0 (with_reg4 int32_min) s) as [H1 _]; [apply with_reg4_wf; unfold_int32; lia|].
  destruct (H1 ltac:(vm_compute; reflexivity) Hr) as (m' & s' & E1 & Ho).
  destruct (int_min_misprinted 0 0 one_page s (uo_wf _ one_page_ok)) as [_ H2].
  destruct (H2 [] Hi Hr) as (m2 & s2 & E2 & R2 & _).
  exists s, m', s', m2, s2. conjs; [exact E1| |exact Hi|exact E2|exact R2].
  rewrite Ho. change (cons_output s) with (display (cons (world s))). rewrite Hd. reflexivity.
Defined.
