(* ===== verification/FileCalls.v ===== *)
(** * The system calls of the file system

    [Exception_CreateFile], [Open], [Close], [Read] and [Write] of
    userprog/exception.cc, above any console and any block device.  The state of a call,
    [OS], is the machine, the console, the file system with its table of open files, and
    the disk; [freed] names the [OpenFile] objects that were deleted, so that a use of a
    pointer to one of them has no meaning. *)

From S2P Require Import Prelude Int32 Machine Disk FileHdr OpenFile Directory FileSys AddrSpace Console UserMem ConsoleCalls.

Record OS {C D : Type} := mkOS {
  os_machine : Machine;
  os_console : C;
  os_fs : FileSystem;
  os_freed : list nat;
  os_disk : D }.
Arguments OS : clear implicits.
Arguments mkOS {C D} _ _ _ _ _.

Section FileCalls.
Context {C D : Type} `{!ConsoleDevice C} `{!BlockDevice D} (H : Heap).
(** The value of an uninitialised variable of [SynchConsole::Read]. *)
Context (junk : Z).
Abbreviation os := (OS C D).

Definition set_machine (s : os) (m : Machine) : os := mkOS m (os_console s) (os_fs s) (os_freed s) (os_disk s).
Definition set_console (s : os) (c : C) : os := mkOS (os_machine s) c (os_fs s) (os_freed s) (os_disk s).
Definition set_fs (s : os) (fs : FileSystem) : os := mkOS (os_machine s) (os_console s) fs (os_freed s) (os_disk s).
Definition set_disk (s : os) (d : D) : os := mkOS (os_machine s) (os_console s) (os_fs s) (os_freed s) d.

(** [machine->ReadRegister] and [machine->WriteRegister] *)
Definition get_arg (s : os) (r : Z) : outcome Z := Machine_ReadRegister (os_machine s) r.
Definition set_result (s : os) (v : Z) : outcome os := m ← Machine_WriteRegister (os_machine s) 2 v; Ok (set_machine s m).

(** [fileSystem->openf[id]], an array of 15 pointers *)
Definition openf_at (s : os) (id : Z) : outcome (option nat) := deref ((openf (os_fs s)).[id]).

(** The object behind a pointer. *)
Definition object_at (s : os) (p : option nat) : outcome OpenFile :=
  match p with
  | None => Undefined
  | Some p => if bool_decide (p ∈ os_freed s) then Undefined else deref (objects (os_fs s) !! p)
  end.
Definition file_at (s : os) (id : Z) : outcome OpenFile := p ← openf_at s id; object_at s p.

(** The object after a [Read] or a [Write] has moved its position. *)
Definition set_object (s : os) (id : Z) (f : OpenFile) : outcome os :=
  p ← openf_at s id;
  p ← deref p;
  let fs := os_fs s in
  Ok (set_fs s (mkFS (freeMapFile fs) (directoryFile fs) (<[p := f]> (objects fs)) (openf fs) (index fs))).

(** [User2System] on the state *)
Definition copy_in (s : os) (addr limit : Z) : outcome (list Z * os) :=
  '(buf, m) ← User2System (os_machine s) addr limit;
  Ok (buf, set_machine s m).
Definition copy_out (s : os) (addr len : Z) (buf : list Z) : outcome os :=
  '(_, m) ← System2User (os_machine s) addr len buf;
  Ok (set_machine s m).

(** [Exception_CreateFile] *)
Definition Exception_CreateFile (s : os) : outcome os :=
  addr ← get_arg s 4;
  '(fileName, s) ← copy_in s addr 33;
  len ← strlen fileName;
  s ← (if len =? 0 then set_result s (-1) else Ok s);
  '(created, d) ← FileSystem_Create H (os_fs s) (os_disk s) (cstr fileName) 0;
  let s := set_disk s d in
  s ← (if negb created then set_result s (-1) else Ok s);
  set_result s 0.

(** [Exception_Open] *)
Definition Exception_Open (s : os) : outcome os :=
  virtAddr ← get_arg s 4;
  type ← get_arg s 5;
  '(filename, s) ← copy_in s virtAddr 32;
  freeSlot ← FileSystem_FindFreeSlot (os_fs s);
  if negb (freeSlot =? -1) then
    if (type =? 0) || (type =? 1) then
      '(p, fs, d) ← FileSystem_Open_type H (os_fs s) (os_disk s) (cstr filename) type;
      let s := set_disk (set_fs s (set_openf fs ((openf fs).[freeSlot <- p]))) d in
      match p with Some _ => set_result s freeSlot | None => Ok s end
    else if type =? 2 then set_result s 0
    else set_result s 1
  else set_result s (-1).

(** [Exception_Close]: the pointer stays in the table. *)
Definition Exception_Close (s : os) : outcome os :=
  fileId ← get_arg s 4;
  if (0 <=? fileId) && (fileId <=? 14) then
    p ← openf_at s fileId;
    match p with
    | Some q =>
        s ← set_result s 0;
        if bool_decide (q ∈ os_freed s) then Undefined
        else Ok (mkOS (os_machine s) (os_console s) (os_fs s) (q :: os_freed s) (os_disk s))
    | None => set_result s (-1)
    end
  else set_result s (-1).

(** [Exception_Read]: what is read from a file lands at the front of [temp]. *)
Definition Exception_Read (s : os) : outcome os :=
  addr ← get_arg s 4;
  charCount ← get_arg s 5;
  id ← get_arg s 6;
  if (id <? 0) || (14 <? id) then set_result s (-1)
  else
    p ← openf_at s id;
    match p with
    | None => set_result s (-1)
    | Some _ =>
        f ← file_at s id;
        if of_type f =? 3 then set_result s (-1)
        else
          let firstPositionInFile := OpenFile_GetCurrentPos f in
          '(temp, s) ← copy_in s addr charCount;
          if of_type f =? 2 then
            '(buf, size, c) ← cons_read (os_console s) charCount junk;
            temp ← store temp 0 (map byte_of_int buf);
            s ← copy_out (set_console s c) addr size temp;
            set_result s size
          else
            '(bytes, f, d) ← OpenFile_Read f (os_disk s) charCount;
            temp ← store temp 0 bytes;
            s ← set_object (set_disk s d) id f;
            if 0 <? lenZ bytes then
              let n := wrap_s32 (OpenFile_GetCurrentPos f - firstPositionInFile) in
              s ← copy_out s addr n temp;
              set_result s n
            else set_result s (-2)
    end.

(** The loop that writes a line to the display: the characters before the NUL or the
    newline, and their number. *)
Fixpoint stdout_loop (temp : list Z) (i : Z) (c : C) : outcome (Z * C) :=
  match temp with
  | [] => Undefined
  | b :: temp =>
      if (b =? 0) || (b =? 10) then
        '(_, c) ← cons_write c [10] 1;
        Ok (i, c)
      else
        '(_, c) ← cons_write c [b] 1;
        stdout_loop temp (i + 1) c
  end.

(** [Exception_Write]: after an error the call goes on. *)
Definition Exception_Write (s : os) : outcome os :=
  virtAddr ← get_arg s 4;
  charcount ← get_arg s 5;
  id ← get_arg s 6;
  s ← (if (id <? 0) || (14 <? id) then set_result s (-1) else Ok s);
  p ← openf_at s id;
  s ← (match p with None => set_result s (-1) | Some _ => Ok s end);
  f ← file_at s id;
  s ← (if (of_type f =? 1) || (of_type f =? 2) then set_result s (-1) else Ok s);
  let OldPos := OpenFile_GetCurrentPos f in
  '(temp, s) ← copy_in s virtAddr charcount;
  if of_type f =? 0 then
    '(n, f, d) ← OpenFile_Write (new_chars H) f (os_disk s) temp charcount;
    s ← set_object (set_disk s d) id f;
    if 0 <? n then set_result s (wrap_s32 (OpenFile_GetCurrentPos f - OldPos)) else Ok s
  else if of_type f =? 3 then
    '(i, c) ← stdout_loop temp 0 (os_console s);
    set_result (set_console s c) (wrap_s32 (i - 1))
  else Ok s.


(** ** What the calls do *)

(** [id] is open on the file [nm], whose content is [old]. *)
Record open_on (s : os) (id : Z) (nm : list Z) (f : OpenFile) (old : list Z) : Prop := {
  oo_ptr : exists p, (openf (os_fs s)).[id] = Some (Some p) /\ p ∉ os_freed s /\ objects (os_fs s) !! p = Some f;
  oo_id : 0 <= id <= 14;
  oo_entry : exists sec, dir_lookup (dir_table (os_disk s) (os_fs s)) (key nm) = Some sec /\ hdr f = hdr_at (os_disk s) sec;
  oo_file : fs_file (os_disk s) (os_fs s) nm = Some old;
  oo_pos : 0 <= seekPosition f }.

(** The arguments of a call. *)
Definition arg (s : os) (r : Z) : Z := reg (os_machine s) r.

Lemma get_arg_ok s r : Machine_wf (os_machine s) -> 0 <= r < 40 -> get_arg s r = Ok (arg s r).
Proof.
  intros Hwf Hr. unfold get_arg. rewrite ReadRegister_spec by done. by rewrite (proj2 (Z.leb_le 0 r)), (proj2 (Z.ltb_lt r 40)) by lia.
Qed.

Lemma set_result_ok s v :
  user_ok (os_machine s) -> int32 v ->
  exists s', set_result s v = Ok s' /\ user_ok (os_machine s') /\ arg s' 2 = v /\ (forall v, ubyte (os_machine s') v = ubyte (os_machine s) v) /\
    os_console s' = os_console s /\ os_fs s' = os_fs s /\ os_freed s' = os_freed s /\ os_disk s' = os_disk s.
Proof.
  intros Huo Hv. unfold set_result, Machine_WriteRegister. change ((0 <=? 2) && (2 <? NumTotalRegs)) with true. cbn [ASSERT mbind outcome_bind].
  eexists. split; [reflexivity|]. conjs; try done.
  - by apply user_ok_set_reg.
  - apply reg_set_reg_eq. rewrite (wf_registers _ (uo_wf _ Huo)). unfold NumTotalRegs. lia.
  - intros x. unfold ubyte, pa_of. cbn [os_machine set_machine]. by rewrite phys_of_set_reg.
Qed.

Lemma copy_in_ok s addr n str :
  user_ok (os_machine s) -> -1 <= n -> cstring_at (at_user (os_machine s) addr) (Z.to_nat n) 0 = Some str ->
  exists m', copy_in s addr n = Ok (kernel_buf n str, set_machine s m') /\ user_ok m' /\ same_map (os_machine s) m' /\
    mainMemory m' = mainMemory (os_machine s) /\ (length str <= Z.to_nat n)%nat.
Proof.
  intros Huo Hn Hs. pose proof (User2System_spec _ addr n Huo Hn) as HU. rewrite Hs in HU. destruct HU as (m' & E & ? & ? & ? & ?).
  exists m'. unfold copy_in. by rewrite E.
Qed.

(** The object that is open as [id], in a state with the same file table. *)
Lemma open_file_at s s' id nm f old :
  open_on s id nm f old -> os_fs s' = os_fs s -> os_freed s' = os_freed s ->
  exists p, openf_at s' id = Ok (Some p) /\ file_at s' id = Ok f /\ openf_at s id = Ok (Some p).
Proof.
  intros [(p & Hp & Hf & Ho) _ _ _ _] Efs Efr. exists p. unfold file_at, openf_at, object_at. rewrite Efs, Efr, Hp. cbn [deref mbind outcome_bind].
  rewrite bool_decide_eq_false_2, Ho by done. done.
Qed.

Lemma set_object_ok s s' id nm f old f' :
  open_on s id nm f old -> os_fs s' = os_fs s -> os_freed s' = os_freed s ->
  exists fs', set_object s' id f' = Ok (set_fs s' fs') /\ freeMapFile fs' = freeMapFile (os_fs s) /\ directoryFile fs' = directoryFile (os_fs s) /\
    openf fs' = openf (os_fs s) /\ length (objects fs') = length (objects (os_fs s)) /\ exists p, (openf fs').[id] = Some (Some p) /\ p ∉ os_freed s /\ objects fs' !! p = Some f'.
Proof.
  intros Ho Efs Efr. pose proof Ho as [(p & Hp & Hf & Hob) _ _ _ _]. unfold set_object, openf_at. rewrite Efs, Hp.
  cbn [deref mbind outcome_bind]. eexists. split; [reflexivity|]. conjs; [done|done|done|apply length_insert|]. exists p. conjs; [done|done|].
  apply list_lookup_insert_eq. by eapply lookup_lt_Some.
Qed.

Lemma kernel_buf_ok n str :
  0 <= n -> (length str <= Z.to_nat n)%nat -> Forall byte str -> lenZ (kernel_buf n str) = n + 1 /\ Forall byte (kernel_buf n str).
Proof.
  intros Hn Hl Hb. unfold kernel_buf. split.
  - unfold lenZ in *. rewrite length_app, length_replicate. lia.
  - apply Forall_app. split; [done|]. apply Forall_replicate. unfold_int32. lia.
Qed.

Lemma kernel_buf_nul n str : 0 <= n -> (length str <= Z.to_nat n)%nat -> exists rest, kernel_buf n str = str ++ 0 :: rest.
Proof.
  intros Hn Hl. unfold kernel_buf. destruct (Z.to_nat (n + 1) - length str)%nat as [|j] eqn:Ej; [lia|]. by exists (replicate j 0).
Qed.

Lemma cstring_at_bytes m va n i str : Machine_wf m -> cstring_at (at_user m va) n i = Some str -> Forall byte str.
Proof.
  intros Hwf. revert i str. induction n as [|n IH]; intros i str E; simpl in E; [injection E as <-; constructor|].
  destruct (at_user m va i) as [b|] eqn:Eb; [|done]. cbn [mbind option_bind] in E. destruct (b =? 0); [injection E as <-; constructor|].
  destruct (cstring_at (at_user m va) n (i + 1)) as [bs|] eqn:E'; [|done]. cbn [mbind option_bind] in E. injection E as <-.
  constructor; [by eapply ubyte_byte|]. by eapply IH.
Qed.

Section Laws.
Context `{!BlockLaws D} (Hok : heap_ok H).

(** The state a call starts in: the machine runs a user program, the file system is
    consistent, the disk has time for [k] more requests and every deleted object was once
    made. *)
Record os_ok (k : nat) (s : os) : Prop := {
  ok_user : user_ok (os_machine s);
  ok_fs : fs_wf (os_disk s) (os_fs s);
  ok_ready : ready k (os_disk s);
  ok_table : lenZ (openf (os_fs s)) = 15;
  ok_freed : Forall (fun p => (p < length (objects (os_fs s)))%nat) (os_freed s) }.

Lemma os_ok_next k k' s s' :
  os_ok k s -> user_ok (os_machine s') -> fs_wf (os_disk s') (os_fs s') -> ready k' (os_disk s') ->
  lenZ (openf (os_fs s')) = lenZ (openf (os_fs s)) -> length (objects (os_fs s')) = length (objects (os_fs s)) -> os_freed s' = os_freed s ->
  os_ok k' s'.
Proof. intros [H1 H2 H3 H4 H5] ??? E1 E2 E3. split; try assumption; rewrite ?E1, ?E2, ?E3; assumption. Qed.

Definition moved (f : OpenFile) (n : Z) : OpenFile := OpenFile_Seek f (seekPosition f + n).

Lemma open_on_length k s id nm f old : os_ok k s -> open_on s id nm f old -> lenZ old = numBytes (hdr f) /\ hdr_wf (hdr f) /\ old = file_bytes (os_disk s) (hdr f).
Proof.
  intros [_ Hwf Hr _ _] [_ _ (sec & Hsec & Hhdr) Hfile _]. unfold fs_file in Hfile. rewrite Hsec in Hfile. injection Hfile as <-.
  rewrite Hhdr. apply dir_lookup_Some in Hsec as (e & He & _ & <-). destruct (fw_files _ _ Hwf e He) as [_ Hhw].
  conjs; [by apply (file_bytes_len _ _ _ Hr)|done|done].
Qed.

Lemma moved_seek f n : 0 <= n -> 0 <= seekPosition f -> seekPosition f + n <= int32_max -> OpenFile_Seek f (wrap_s32 (seekPosition f + n)) = moved f n.
Proof. intros. unfold moved. rewrite wrap_s32_id by (unfold_int32; lia). reflexivity. Qed.

Lemma moved_by f n : int32 n -> wrap_s32 (OpenFile_GetCurrentPos (moved f n) - OpenFile_GetCurrentPos f) = n.
Proof. intros Hn. unfold OpenFile_GetCurrentPos, moved, OpenFile_Seek. cbn [seekPosition]. rewrite wrap_s32_id; replace (seekPosition f + n - seekPosition f) with n by lia; done. Qed.

(** Writing an open file. *)
Lemma write_open_ok k s id nm f old from n :
  os_ok (128 + k) s -> open_on s id nm f old -> 0 <= n -> seekPosition f + n <= int32_max -> n <= lenZ from -> Forall byte from ->
  let len := Z.max 0 (Z.min n (lenZ old - seekPosition f)) in
  exists d', OpenFile_Write (new_chars H) f (os_disk s) from n = Ok (len, moved f len, d') /\ ready k d' /\ fs_wf d' (os_fs s) /\
    (exists sec, dir_lookup (dir_table d' (os_fs s)) (key nm) = Some sec /\ hdr f = hdr_at d' sec) /\
    forall nm', fs_file d' (os_fs s) nm' = if bool_decide (key nm = key nm') then Some (splice old (seekPosition f) (slice from 0 len))
      else fs_file (os_disk s) (os_fs s) nm'.
Proof.
  intros Hs Hop Hn Hmax Hfl Hfb len. destruct (open_on_length _ _ _ _ _ _ Hs Hop) as (Hnum & _). destruct Hs as [Huo Hwf Hr _ _].
  destruct Hop as [_ Hid (sec & Hsec & Hhdr) Hfile Hpos]. unfold OpenFile_Write.
  destruct (decide (n <= 0 \/ lenZ old <= seekPosition f)) as [Hno|Hyes].
  - assert (Hl0 : len = 0) by lia. rewrite Hl0. exists (os_disk s). rewrite (slice_zero from), splice_nil by lia.
    rewrite WriteAt_nothing by lia. cbn [mbind outcome_bind]. rewrite moved_seek by lia.
    conjs; [reflexivity|exact (ready_le 128 k _ Hr)|exact Hwf|by exists sec|]. intros nm'.
    case_bool_decide as Hk; [|reflexivity]. rewrite <- Hfile. unfold fs_file. by rewrite Hk.
  - assert (Hl : Z.min n (lenZ old - seekPosition f) = len) by lia.
    destruct (write_file_ok H Hok k (os_fs s) (os_disk s) f nm sec from n (seekPosition f) old Hwf Hr Hsec Hhdr Hfile Hpos ltac:(lia) ltac:(lia) Hmax Hfl Hfb)
      as (d' & E & Hr' & Hwf' & _ & Htab & Hhd & Hfs).
    rewrite Hl in E, Hfs. exists d'. rewrite E. cbn [mbind outcome_bind]. rewrite moved_seek by lia.
    conjs; [reflexivity|exact Hr'|exact Hwf'| |exact Hfs]. exists sec. rewrite Htab, Hhd. exact (conj Hsec Hhdr).
Qed.

(** Reading an open file. *)
Lemma read_open_ok k s id nm f old n :
  os_ok (126 + k) s -> open_on s id nm f old -> 0 <= n -> seekPosition f + n <= int32_max ->
  let len := Z.max 0 (Z.min n (lenZ old - seekPosition f)) in
  let bytes := slice old (seekPosition f) len in
  lenZ bytes = len /\ Forall byte bytes /\
  exists d', OpenFile_Read f (os_disk s) n = Ok (bytes, moved f len, d') /\ ready k d' /\ fs_wf d' (os_fs s) /\
    (exists sec, dir_lookup (dir_table d' (os_fs s)) (key nm) = Some sec /\ hdr f = hdr_at d' sec) /\
    forall nm', fs_file d' (os_fs s) nm' = fs_file (os_disk s) (os_fs s) nm'.
Proof.
  intros Hs Hop Hn Hmax len bytes. destruct (open_on_length _ _ _ _ _ _ Hs Hop) as (Hnum & Hhw & Hold). destruct Hs as [Huo Hwf Hr _ _].
  destruct Hop as [_ Hid (sec & Hsec & Hhdr) Hfile Hpos].
  destruct (ReadAt_any k f (os_disk s) n (seekPosition f) Hhw Hpos Hmax Hr) as (d' & E & Hr' & HL & Ho).
  rewrite <- Hnum, <- Hold in E, HL. fold len in E, HL. fold bytes in E, HL. apply only_nil in Ho.
  conjs; [exact HL|unfold bytes; apply Forall_slice; rewrite Hold; exact (file_bytes_bytes _ _ _ Hr Hhw)|].
  exists d'. unfold OpenFile_Read. rewrite E. cbn [mbind outcome_bind]. rewrite HL, moved_seek by lia.
  destruct (fs_wf_same H Hok (os_disk s) d' (os_fs s) Hwf Ho) as (Hw & Hf & _).
  assert (Hso : sector_ok sec) by (apply dir_lookup_Some in Hsec as (e & He & _ & <-); apply (fw_files _ _ Hwf e He)).
  conjs; [reflexivity|exact Hr'|exact Hw| |exact Hf]. exists sec.
  destruct (same_views H Hok (os_disk s) d' (os_fs s) Ho) as (Ht & _ & Hh); [apply Hwf|apply Hwf|]. rewrite Ht, (Hh sec Hso). exact (conj Hsec Hhdr).
Qed.

Lemma splice_front (buf bytes : list Z) : lenZ bytes <= lenZ buf -> slice (splice buf 0 bytes) 0 (lenZ bytes) = bytes.
Proof. intros Hl. unfold slice, splice. change (Z.to_nat 0) with O. rewrite drop_0, take_0. cbn [app]. unfold lenZ. by rewrite Nat2Z.id, take_app_length. Qed.

(** [System2User] on the state. *)
Lemma copy_out_ok s addr len buf :
  user_ok (os_machine s) -> 0 < len <= lenZ buf -> len <= int32_max -> Forall byte buf ->
  let bs := upto_nul (slice buf 0 len) in
  (forall j, 0 <= j < lenZ bs -> is_Some (pa_of (os_machine s) (wrap_s32 (addr + j)) true)) ->
  exists m', copy_out s addr len buf = Ok (set_machine s m') /\ user_ok m' /\ same_map (os_machine s) m' /\ stored addr 0 bs (os_machine s) m'.
Proof.
  intros Huo Hl Hm Hb bs Hpa. destruct (System2User_ok (os_machine s) addr len buf Huo Hl Hm Hb Hpa) as (m' & E & Hm').
  exists m'. unfold copy_out. rewrite E. by split.
Qed.

(** What register 2 holds at the end of a call that sets it to [v] when [b] holds. *)
Lemma result_when s b v :
  user_ok (os_machine s) -> int32 v ->
  exists s', (if b : bool then set_result s v else Ok s) = Ok s' /\ user_ok (os_machine s') /\ arg s' 2 = (if b then v else arg s 2) /\
    (forall v, ubyte (os_machine s') v = ubyte (os_machine s) v) /\
    os_console s' = os_console s /\ os_fs s' = os_fs s /\ os_freed s' = os_freed s /\ os_disk s' = os_disk s.
Proof. intros Hu Hv. destruct b; [by apply set_result_ok|]. by exists s. Qed.

Lemma result_when_regs s (b : bool) v s' r : (if b then set_result s v else Ok s) = Ok s' -> r <> 2 -> arg s' r = arg s r.
Proof.
  destruct b; [|by intros [= <-]]. unfold set_result, Machine_WriteRegister. change ((0 <=? 2) && (2 <? NumTotalRegs)) with true. cbn [ASSERT mbind outcome_bind].
  intros [= <-] Hr. by apply reg_set_reg_ne.
Qed.

(** The end of [Exception_Read]: what was read is copied to the user program and counted
    in register 2; a negative count copies nothing. *)
Lemma copy_result s addr size buf :
  user_ok (os_machine s) -> -1 <= size <= lenZ buf -> size <= int32_max -> Forall byte buf ->
  let bs := upto_nul (slice buf 0 size) in
  (forall j, 0 <= j < lenZ bs -> is_Some (pa_of (os_machine s) (wrap_s32 (addr + j)) true)) ->
  exists s', (s ← copy_out s addr size buf; set_result s size) = Ok s' /\
    user_ok (os_machine s') /\ arg s' 2 = size /\ stored addr 0 bs (os_machine s) (os_machine s') /\
    os_console s' = os_console s /\ os_fs s' = os_fs s /\ os_freed s' = os_freed s /\ os_disk s' = os_disk s.
Proof.
  intros Huo Hsz Hmax HB bs Hpa.
  assert (Hm : exists m, copy_out s addr size buf = Ok (set_machine s m) /\ user_ok m /\ stored addr 0 bs (os_machine s) m).
  { destruct (decide (0 < size)) as [Hlt|Hge].
    - destruct (copy_out_ok s addr size buf Huo) as (m & E & Hu & _ & Hst); [lia|lia|done|done|]. by exists m.
    - exists (os_machine s). unfold copy_out, System2User. conjs; [|exact Huo|].
      + destruct (Z.ltb_spec size 0); [reflexivity|]. by rewrite (proj2 (Z.eqb_eq size 0)) by lia.
      + unfold bs. rewrite slice_zero by lia. split; [intros j Hj; change (lenZ (upto_nul [])) with 0 in Hj; lia|done]. }
  destruct Hm as (m & -> & Hu & Ha & Hb). cbn [mbind outcome_bind].
  destruct (set_result_ok (set_machine s m) size Hu) as (s' & -> & ? & ? & Hv & ? & ? & ? & ?); [unfold_int32; lia|].
  exists s'. conjs; try done. split; [intros j Hj; unfold at_user; rewrite Hv; by apply Ha|intros v Hx; rewrite Hv; by apply Hb].
Qed.

Lemma read_result s addr len bytes buf :
  user_ok (os_machine s) -> lenZ bytes = len -> len <= lenZ buf -> len <= int32_max -> Forall byte bytes -> Forall byte buf ->
  (forall j, 0 <= j < lenZ (upto_nul bytes) -> is_Some (pa_of (os_machine s) (wrap_s32 (addr + j)) true)) ->
  exists s', (if 0 <? len then s ← copy_out s addr len (splice buf 0 bytes); set_result s len else set_result s (-2)) = Ok s' /\
    user_ok (os_machine s') /\ arg s' 2 = (if 0 <? len then len else -2) /\ stored addr 0 (upto_nul bytes) (os_machine s) (os_machine s') /\
    os_console s' = os_console s /\ os_fs s' = os_fs s /\ os_freed s' = os_freed s /\ os_disk s' = os_disk s.
Proof.
  intros Huo HL Hlb Hmax HB HBb Hpa. pose proof (lenZ_nonneg bytes).
  assert (Hfr : slice (splice buf 0 bytes) 0 len = bytes) by (rewrite <- HL; apply splice_front; lia). destruct (Z.ltb_spec 0 len) as [Hlt|Hge].
  - pose proof (copy_result s addr len (splice buf 0 bytes) Huo) as Hc. rewrite Hfr in Hc. apply Hc; [|exact Hmax|by apply Forall_splice|exact Hpa].
    rewrite lenZ_splice by lia. lia.
  - destruct (set_result_ok s (-2) Huo) as (s' & -> & ? & ? & Hv & ? & ? & ? & ?); [unfold_int32; lia|]. exists s'. conjs; try done.
    destruct bytes as [|b bytes]; [|rewrite lenZ_cons in HL; pose proof (lenZ_nonneg bytes); lia].
    split; [intros j Hj; change (lenZ (upto_nul [])) with 0 in Hj; lia|intros v _; apply Hv].
Qed.

(** The Write system call on a file that is open for writing.  The [charcount]
    bytes that are written at the position of the file are the string at the address in
    register 4, cut at [charcount], and zeros behind it; the write is cut at the end of
    the file.  The call returns the number of bytes written in register 2 and moves the
    position by as much; no other file changes, nor does user memory.  At the end of the
    file nothing is written and register 2 keeps its value. *)
Lemma write_call_refines k s nm f old str :
  let n := arg s 5 in
  os_ok (128 + k) s -> open_on s (arg s 6) nm f old -> of_type f = 0 ->
  0 <= n -> seekPosition f + n <= int32_max -> cstring_at (at_user (os_machine s) (arg s 4)) (Z.to_nat n) 0 = Some str ->
  let len := Z.max 0 (Z.min n (lenZ old - seekPosition f)) in
  exists s', Exception_Write s = Ok s' /\ os_ok k s' /\
    (exists old', open_on s' (arg s 6) nm (moved f len) old') /\
    (forall nm', fs_file (os_disk s') (os_fs s') nm' =
       if bool_decide (key nm = key nm') then Some (splice old (seekPosition f) (slice (kernel_buf n str) 0 len))
       else fs_file (os_disk s) (os_fs s) nm') /\
    arg s' 2 = (if 0 <? len then len else arg s 2) /\ (forall v, ubyte (os_machine s') v = ubyte (os_machine s) v) /\
    os_console s' = os_console s /\ forall r, r <> 2 -> arg s' r = arg s r.
Proof.
  intros n Hs Hop Hty Hn Hmax Hstr len. pose proof Hs as [Huo _ _ _ _]. pose proof (uo_wf _ Huo) as Hmw. pose proof Hop as [_ Hid _ _ Hpos].
  unfold Exception_Write. rewrite !get_arg_ok by (done || lia). cbn [mbind outcome_bind].
  rewrite (proj2 (Z.ltb_ge (arg s 6) 0)), (proj2 (Z.ltb_ge 14 (arg s 6))) by lia. cbn [orb mbind outcome_bind].
  destruct (open_file_at s s _ _ _ _ Hop eq_refl eq_refl) as (p & Ep & Ef & _). rewrite Ep. cbn [mbind outcome_bind]. rewrite Ef.
  cbn [mbind outcome_bind]. rewrite Hty. cbn [mbind outcome_bind Z.eqb orb]. fold n.
  destruct (copy_in_ok s (arg s 4) n str Huo ltac:(lia) Hstr) as (m1 & -> & Huo1 & Hs1 & HM1 & Hl1). cbn [mbind outcome_bind].
  destruct (kernel_buf_ok n str Hn Hl1 (cstring_at_bytes _ _ _ _ _ Hmw Hstr)) as [Hkl Hkb]. cbn [os_disk set_machine].
  destruct (write_open_ok k s _ nm f old (kernel_buf n str) n Hs Hop Hn Hmax ltac:(lia) Hkb) as (d' & -> & Hr' & Hwf' & Hent & Hfs).
  fold len in Hfs |- *. cbn [mbind outcome_bind].
  destruct (set_object_ok s (set_disk (set_machine s m1) d') _ _ _ _ (moved f len) Hop eq_refl eq_refl) as (fs' & -> & F1 & F2 & F3 & FL & F4).
  cbn [mbind outcome_bind]. assert (Hli : int32 len) by (unfold_int32; lia). rewrite (moved_by f len Hli).
  destruct (result_when (set_fs (set_disk (set_machine s m1) d') fs') (0 <? len) len Huo1 Hli) as (s' & Eres & Huo' & H2 & Hv & Hc & E1 & E2 & E3).
  rewrite Eres. cbn [os_machine os_console os_fs os_freed os_disk set_fs set_disk set_machine] in *. exists s'.
  assert (Hff : forall nm', fs_file d' fs' nm' = fs_file d' (os_fs s) nm') by (intros; unfold fs_file, dir_table; by rewrite F2).
  conjs; [reflexivity| | | | | |exact Hc|].
  - apply (os_ok_next _ k s s' Hs Huo'); rewrite ?E1, ?E2, ?E3, ?F3, ?FL; [exact (fs_wf_ext _ _ _ F1 F2 Hwf')|exact Hr'|reflexivity..].
  - eexists. split; rewrite ?E1, ?E2, ?E3; [exact F4|exact Hid| | |].
    + unfold dir_table in *. rewrite F2. exact Hent.
    + rewrite Hff, Hfs, bool_decide_eq_true_2 by done. reflexivity.
    + unfold moved, OpenFile_Seek. cbn [seekPosition]. lia.
  - rewrite E1, E3. intros nm'. rewrite Hff. exact (Hfs nm').
  - rewrite H2. destruct (0 <? len); [done|]. unfold arg, reg. cbn [os_machine set_fs set_disk set_machine]. by destruct Hs1 as (-> & _).
  - intros v. rewrite Hv. by apply ubyte_same.
  - intros r Hr2. rewrite (result_when_regs _ _ _ _ r Eres Hr2). unfold arg, reg. cbn [os_machine set_fs set_disk set_machine]. by destruct Hs1 as (-> & _).
Qed.

(** C16: the Read system call on a file that is open on the disk, for reading or for both.
    The bytes from the position of the file on, at most [charCount] of them and cut at
    the end of the file, are what the call reads.  Those up to the first NUL (the NUL
    included) land at the address in register 4, no other byte of user memory changes.  The
    position moves by the number of bytes read and register 2 holds that number, which
    counts the bytes behind a NUL although they are not delivered (syscall.h promises them),
    or -2 at the end of the file.  No file changes. *)
Theorem read_call_refines k s nm f old str :
  let n := arg s 5 in
  os_ok (126 + k) s -> open_on s (arg s 6) nm f old -> of_type f = 0 \/ of_type f = 1 ->
  0 <= n -> seekPosition f + n <= int32_max -> cstring_at (at_user (os_machine s) (arg s 4)) (Z.to_nat n) 0 = Some str ->
  let len := Z.max 0 (Z.min n (lenZ old - seekPosition f)) in
  let bs := upto_nul (slice old (seekPosition f) len) in
  (forall j, 0 <= j < lenZ bs -> is_Some (pa_of (os_machine s) (wrap_s32 (arg s 4 + j)) true)) ->
  exists s', Exception_Read s = Ok s' /\ os_ok k s' /\ open_on s' (arg s 6) nm (moved f len) old /\
    stored (arg s 4) 0 bs (os_machine s) (os_machine s') /\ arg s' 2 = (if 0 <? len then len else -2) /\
    (forall nm', fs_file (os_disk s') (os_fs s') nm' = fs_file (os_disk s) (os_fs s) nm') /\ os_console s' = os_console s.
Proof.
  intros n Hs Hop Hty Hn Hmax Hstr len bs Hpa. pose proof Hs as [Huo _ _ _ _]. pose proof (uo_wf _ Huo) as Hmw. pose proof Hop as [_ Hid _ Hfile Hpos].
  unfold Exception_Read. rewrite !get_arg_ok by (done || lia). cbn [mbind outcome_bind].
  rewrite (proj2 (Z.ltb_ge (arg s 6) 0)), (proj2 (Z.ltb_ge 14 (arg s 6))) by lia. cbn [orb mbind outcome_bind].
  destruct (open_file_at s s _ _ _ _ Hop eq_refl eq_refl) as (p & Ep & Ef & _). rewrite Ep. cbn [mbind outcome_bind]. rewrite Ef.
  cbn [mbind outcome_bind]. rewrite (proj2 (Z.eqb_neq (of_type f) 3)), (proj2 (Z.eqb_neq (of_type f) 2)) by lia. fold n.
  destruct (copy_in_ok s (arg s 4) n str Huo ltac:(lia) Hstr) as (m1 & -> & Huo1 & Hs1 & HM1 & Hl1). cbn [mbind outcome_bind].
  destruct (kernel_buf_ok n str Hn Hl1 (cstring_at_bytes _ _ _ _ _ Hmw Hstr)) as [Hkl Hkb]. cbn [os_disk set_machine].
  destruct (read_open_ok k s _ nm f old n Hs Hop Hn Hmax) as (HL & HB & d' & -> & Hr' & Hwf' & Hent & Hfs).
  fold len in HL, HB |- *. set (bytes := slice old (seekPosition f) len) in *. cbn [mbind outcome_bind].
  rewrite store_ok by lia. cbn [mbind outcome_bind].
  destruct (set_object_ok s (set_disk (set_machine s m1) d') _ _ _ _ (moved f len) Hop eq_refl eq_refl) as (fs' & -> & F1 & F2 & F3 & FL & F4).
  cbn [mbind outcome_bind]. assert (Hli : int32 len) by (unfold_int32; lia). rewrite (moved_by f len Hli), HL.
  assert (Hv1 : forall v, ubyte m1 v = ubyte (os_machine s) v) by (intros v; by apply ubyte_same).
  set (s1 := set_fs (set_disk (set_machine s m1) d') fs').
  destruct (read_result s1 (arg s 4) len bytes (kernel_buf n str) Huo1 HL) as (s' & -> & Huo' & H2 & Hst & Hc & E1 & E2 & E3); [lia|lia|done|done| |].
  { intros j Hj. cbn [os_machine s1 set_fs set_disk set_machine]. rewrite (pa_of_same_map _ _ _ _ Hs1). by apply Hpa. }
  cbn [s1 os_machine os_console os_fs os_freed os_disk set_fs set_disk set_machine] in Hst, Hc, E1, E2, E3. exists s'.
  assert (Hff : forall nm', fs_file d' fs' nm' = fs_file (os_disk s) (os_fs s) nm') by (intros nm'; rewrite <- (Hfs nm'); unfold fs_file, dir_table; by rewrite F2).
  conjs; [reflexivity| | | |exact H2| |exact Hc].
  - apply (os_ok_next _ k s s' Hs Huo'); rewrite ?E1, ?E2, ?E3, ?F3, ?FL; [exact (fs_wf_ext _ _ _ F1 F2 Hwf')|exact Hr'|reflexivity..].
  - split; rewrite ?E1, ?E2, ?E3; [exact F4|exact Hid| | |].
    + unfold dir_table in *. rewrite F2. exact Hent.
    + rewrite Hff. exact Hfile.
    + unfold moved, OpenFile_Seek. cbn [seekPosition]. lia.
  - destruct Hst as [Ha Hb]. split; [exact Ha|]. intros v Hx. rewrite Hb by exact Hx. apply Hv1.
  - intros nm'. rewrite E1, E3. apply Hff.
Qed.
(** *** Opening *)

(** The descriptor [Open] gives out: the first NULL from 2 on. *)
Definition first_free (l : list (option nat)) (slot : Z) : Prop :=
  2 <= slot < 15 /\ l.[slot] = Some None /\ forall j, 2 <= j < slot -> l.[j] <> Some None.
Definition table_full (l : list (option nat)) : Prop := forall j, 2 <= j < 15 -> l.[j] <> Some None.

Lemma find_free_slot_spec n i l :
  0 <= i -> i + Z.of_nat n <= lenZ l ->
  exists r, find_free_slot n i l = Ok r /\
    ((r = -1 /\ forall j, i <= j < i + Z.of_nat n -> l.[j] <> Some None) \/
     (i <= r < i + Z.of_nat n /\ l.[r] = Some None /\ forall j, i <= j < r -> l.[j] <> Some None)).
Proof.
  revert i. induction n as [|n IH]; intros i Hi Hl; cbn [find_free_slot]; [exists (-1); split; [done|]; left; split; [done|lia]|].
  destruct (lookupZ_range l i ltac:(lia)) as [p Hp]. rewrite Hp. cbn [deref mbind outcome_bind]. destruct p as [p|].
  - destruct (IH (i + 1) ltac:(lia) ltac:(lia)) as (r & E & Hr). exists r. split; [exact E|].
    assert (Hfirst : forall j, (i + 1 <= j -> l.[j] <> Some None) -> i <= j -> l.[j] <> Some None).
    { intros j Hj Hij. destruct (decide (j = i)) as [->|]; [by rewrite Hp|apply Hj; lia]. }
    destruct Hr as [[-> Hr]|(H1 & H2 & H3)]; [left|right].
    + split; [done|]. intros j Hj. apply Hfirst; [intros; apply Hr; lia|lia].
    + conjs; [lia|lia|done|]. intros j Hj. apply Hfirst; [intros; apply H3; lia|lia].
  - exists i. split; [done|]. right. conjs; [lia|lia|done|lia].
Qed.

Lemma Open_type_ok m fs d nm type slot :
  fs_wf d fs -> ready (2 + m) d -> cstring nm -> FileSystem_FindFreeSlot fs = Ok slot -> (openf fs).[slot] = Some None ->
  exists d', ready m d' /\ only [] d d' /\
    FileSystem_Open_type H fs d nm type = Ok (
      match dir_lookup (dir_table d fs) (key nm) with
      | Some sec => (Some (length (objects fs)),
          set_openf (add_object fs (mkOpenFile (hdr_at d sec) 0 type)) ((openf fs).[slot <- Some (length (objects fs))]), d')
      | None => (None, fs, d')
      end).
Proof.
  intros Hwf Hr Hc Hfind Hslot. unfold FileSystem_Open_type. rewrite Hfind. cbn [mbind outcome_bind].
  destruct (fetch_dir H Hok (S m) d fs Hr Hwf) as (d1 & -> & Hr1 & O1). cbn [mbind outcome_bind].
  rewrite (Find_ok (disk_dir d fs) nm (fw_dir _ _ Hwf) Hc). cbn [mbind outcome_bind disk_dir table].
  destruct (dir_lookup (dir_table d fs) (key nm)) as [sec|] eqn:El; cbn [from_option].
  - pose proof (found_sector d fs nm sec Hwf El) as Hs. unfold id. rewrite (proj2 (Z.leb_le 0 sec)) by (unfold sector_ok in Hs; lia).
    destruct (OpenFile_new_ok m d1 sec type Hr1 Hs) as (d2 & -> & Hr2 & O2). cbn [mbind outcome_bind].
    rewrite Hslot. cbn [deref mbind outcome_bind openf set_openf add_object].
    rewrite lookupZ_insertZ_eq by (by eapply lookupZ_Some_range). cbn [deref mbind outcome_bind].
    rewrite (only_hdr [] d d1 sec O1 Hs (not_elem_of_nil _)). exists d2. conjs; [exact Hr2|exact (only_trans [] [] d d1 d2 O1 O2)|reflexivity].
  - change (0 <=? -1) with false. cbn [mbind outcome_bind]. rewrite Hslot. cbn [deref mbind outcome_bind].
    exists d1. conjs; [by apply ready_S|exact O1|reflexivity].
Qed.

Lemma cstr_kernel_buf n str : cstring str -> (length str <= Z.to_nat n)%nat -> 0 <= n -> cstr (kernel_buf n str) = str.
Proof.
  intros Hc Hl Hn. unfold kernel_buf. rewrite cstr_nonzero by done. destruct (Z.to_nat (n + 1) - length str)%nat eqn:E; [lia|].
  rewrite <- (app_nil_r (replicate _ 0)), cstr_replicate. apply app_nil_r.
Qed.

Lemma cstring_at_cstring m va n str : Machine_wf m -> cstring_at (at_user m va) n 0 = Some str -> cstring str.
Proof.
  intros Hwf Hs. pose proof (cstring_at_bytes _ _ _ _ _ Hwf Hs) as HB. pose proof (cstring_no_nul _ _ _ _ Hs) as H0.
  apply Forall_forall. intros c Hc. rewrite Forall_forall in HB. pose proof (HB c Hc) as Hb. assert (c <> 0) by (intros ->; done).
  unfold byte in Hb. lia.
Qed.

(** The end of a call that has changed nothing but the machine, the disk's clock and the
    table of open files. *)
Lemma quiet_result k k' s s1 b v :
  os_ok k s -> user_ok (os_machine s1) -> same_map (os_machine s) (os_machine s1) -> mainMemory (os_machine s1) = mainMemory (os_machine s) ->
  os_console s1 = os_console s -> os_freed s1 = os_freed s -> only [] (os_disk s) (os_disk s1) -> ready k' (os_disk s1) -> int32 v ->
  freeMapFile (os_fs s1) = freeMapFile (os_fs s) -> directoryFile (os_fs s1) = directoryFile (os_fs s) ->
  lenZ (openf (os_fs s1)) = 15 -> (length (objects (os_fs s)) <= length (objects (os_fs s1)))%nat ->
  exists s', (if b : bool then set_result s1 v else Ok s1) = Ok s' /\ os_ok k' s' /\
    (forall nm, fs_file (os_disk s') (os_fs s') nm = fs_file (os_disk s) (os_fs s) nm) /\
    (forall v, ubyte (os_machine s') v = ubyte (os_machine s) v) /\ os_console s' = os_console s /\
    arg s' 2 = (if b then v else arg s 2) /\ os_fs s' = os_fs s1 /\ os_freed s' = os_freed s /\ os_disk s' = os_disk s1.
Proof.
  intros Hs Huo1 Hm1 HM1 Hc1 Hf1 Ho1 Hr1 Hv F1 F2 Ht Hob. destruct (result_when s1 b v Huo1 Hv) as (s' & -> & Huo' & H2 & Hu & Hc & E1 & E2 & E3).
  exists s'. destruct Hs as [_ Hwf _ _ Hfr]. destruct (fs_wf_same H Hok _ _ _ Hwf Ho1) as (Hw & Hf & _).
  conjs; [reflexivity| | | |by rewrite Hc| |exact E1|by rewrite E2|exact E3].
  - split; rewrite ?E1, ?E2, ?E3, ?Hf1; [exact Huo'|exact (fs_wf_ext _ _ _ F1 F2 Hw)|exact Hr1|exact Ht|].
    eapply Forall_impl; [exact Hfr|]. cbn beta. lia.
  - intros nm. rewrite E1, E3, <- (Hf nm). unfold fs_file, dir_table. by rewrite F2.
  - intros x. rewrite Hu. by apply ubyte_same.
  - rewrite H2. destruct b; [done|]. unfold arg, reg. by destruct Hm1 as (-> & _).
Qed.

(** The state after a descriptor was opened. *)
Lemma opened_on k s s' r nm sec f :
  os_ok (2 + k) s -> set_openf (set_openf (add_object (os_fs s) f) ((openf (os_fs s)).[r <- Some (length (objects (os_fs s)))]))
    (((openf (os_fs s)).[r <- Some (length (objects (os_fs s)))]).[r <- Some (length (objects (os_fs s)))]) = os_fs s' -> os_freed s' = os_freed s -> only [] (os_disk s) (os_disk s') ->
  (forall nm, fs_file (os_disk s') (os_fs s') nm = fs_file (os_disk s) (os_fs s) nm) ->
  dir_lookup (dir_table (os_disk s) (os_fs s)) (key nm) = Some sec -> hdr f = hdr_at (os_disk s) sec -> seekPosition f = 0 -> 2 <= r < 15 ->
  open_on s' r nm f (file_bytes (os_disk s) (hdr f)) /\ objects (os_fs s') = objects (os_fs s) ++ [f] /\
  openf (os_fs s') = (openf (os_fs s)).[r <- Some (length (objects (os_fs s)))].
Proof.
  intros [_ Hwf _ Htab Hfr] E1 E2 Ho Hf El Hhdr Hpos Hrng. 
  assert (Hobj : objects (os_fs s') = objects (os_fs s) ++ [f]) by (rewrite <- E1; reflexivity).
  assert (Hopen : openf (os_fs s') = (openf (os_fs s)).[r <- Some (length (objects (os_fs s)))]) by (rewrite <- E1; apply insertZ_insertZ).
  conjs; [|exact Hobj|exact Hopen]. split; [|lia| | |lia].
  - exists (length (objects (os_fs s))). rewrite Hopen, lookupZ_insertZ_eq, Hobj, E2 by lia. conjs; [done| |by apply list_lookup_middle].
    intros Hin. rewrite Forall_forall in Hfr. pose proof (Hfr _ Hin) as Hbad. cbn beta in Hbad. lia.
  - destruct (same_views H Hok (os_disk s) (os_disk s') (os_fs s) Ho) as (Ht & _ & Hh); [apply Hwf|apply Hwf|].
    exists sec. rewrite (Hh sec (found_sector _ _ _ _ Hwf El)). split; [|exact Hhdr]. rewrite <- El, <- Ht. unfold dir_table. by rewrite <- E1.
  - rewrite Hf. unfold fs_file. rewrite El, Hhdr. reflexivity.
Qed.

(** The Open system call.  The descriptor is the first free one from 2 on, and it is
    open on the named file at position 0; the object is new and no other changes.  With
    no free descriptor the call returns -1.  When the file does not exist nothing
    changes, and register 2 still holds what the program left there.  With the types of
    the console the call returns 0 or 1 and opens nothing. *)
Theorem open_call_refines k s nm :
  os_ok (2 + k) s -> cstring_at (at_user (os_machine s) (arg s 4)) 32 0 = Some nm ->
  let fs := os_fs s in
  exists s', Exception_Open s = Ok s' /\ os_ok k s' /\ (forall nm', fs_file (os_disk s') (os_fs s') nm' = fs_file (os_disk s) fs nm') /\
    (forall v, ubyte (os_machine s') v = ubyte (os_machine s) v) /\ os_console s' = os_console s /\
    (table_full (openf fs) -> arg s' 2 = -1 /\ os_fs s' = fs) /\
    forall slot, first_free (openf fs) slot ->
      if (arg s 5 =? 0) || (arg s 5 =? 1) then
        match fs_file (os_disk s) fs nm with
        | Some content =>
            arg s' 2 = slot /\ exists f, seekPosition f = 0 /\ of_type f = arg s 5 /\ open_on s' slot nm f content /\
            objects (os_fs s') = objects fs ++ [f] /\ openf (os_fs s') = (openf fs).[slot <- Some (length (objects fs))]
        | None => arg s' 2 = arg s 2 /\ os_fs s' = fs
        end
      else arg s' 2 = (if arg s 5 =? 2 then 0 else 1) /\ os_fs s' = fs.
Proof.
  intros Hs Hstr fs. pose proof Hs as [Huo Hwf Hr Htab Hfr]. pose proof (uo_wf _ Huo) as Hmw.
  unfold Exception_Open. rewrite !get_arg_ok by (done || lia). cbn [mbind outcome_bind].
  destruct (copy_in_ok s (arg s 4) 32 nm Huo ltac:(lia) Hstr) as (m1 & -> & Huo1 & Hs1 & HM1 & Hl1). cbn [mbind outcome_bind].
  pose proof (cstring_at_cstring _ _ _ _ Hmw Hstr) as Hc. rewrite (cstr_kernel_buf 32 nm Hc Hl1 ltac:(lia)).
  cbn [os_fs os_disk set_machine]. fold fs.
  destruct (find_free_slot_spec 13 2 (openf fs) ltac:(lia) ltac:(unfold fs; lia)) as (r & Er & Hr').
  change (FileSystem_FindFreeSlot fs) with (find_free_slot 13 2 (openf fs)). rewrite Er. cbn [mbind outcome_bind].
  assert (Hq : forall v, int32 v -> exists s', set_result (set_machine s m1) v = Ok s' /\ os_ok k s' /\
    (forall nm, fs_file (os_disk s') (os_fs s') nm = fs_file (os_disk s) (os_fs s) nm) /\
    (forall v, ubyte (os_machine s') v = ubyte (os_machine s) v) /\ os_console s' = os_console s /\ arg s' 2 = v /\ os_fs s' = fs).
  { intros v Hv. destruct (quiet_result _ k s (set_machine s m1) true v Hs Huo1 Hs1 HM1 eq_refl eq_refl) as (s' & E & H1 & H2 & H3 & H4 & H5 & H6 & _);
      try done; [exact (ready_le 2 k _ Hr)|]. by exists s'. }
  destruct Hr' as [[-> Hfull]|(Hrng & Hnone & Hfst)].
  { destruct (Hq (-1)) as (s' & -> & ? & ? & ? & ? & ? & ?); [unfold_int32; lia|]. exists s'. conjs; try done.
    intros slot (Hsl & Hsn & _). destruct (Hfull slot); [lia|done]. }
  rewrite (proj2 (Z.eqb_neq r (-1))) by lia. cbn [negb].
  assert (Huniq : forall slot, first_free (openf fs) slot -> slot = r).
  { intros slot (Hsl & Hsn & Hsf). destruct (Z.lt_trichotomy slot r) as [Hlt|[?|Hlt]]; [destruct (Hfst slot ltac:(lia) Hsn)|done|destruct (Hsf r ltac:(lia) Hnone)]. }
  assert (Hnf : table_full (openf fs) -> False) by (intros Hx; destruct (Hx r ltac:(lia) Hnone)).
  destruct ((arg s 5 =? 0) || (arg s 5 =? 1)) eqn:Ety.
  2: { destruct (Hq (if arg s 5 =? 2 then 0 else 1)) as (s' & E & ? & ? & ? & ? & ? & ?); [destruct (arg s 5 =? 2); unfold_int32; lia|].
       exists s'. conjs; try done. destruct (arg s 5 =? 2); exact E. }
  destruct (Open_type_ok k fs (os_disk s) nm (arg s 5) r Hwf Hr Hc Er Hnone) as (d' & Hr' & Ho & ->).
  assert (Hlk : fs_file (os_disk s) fs nm = (sec ← dir_lookup (dir_table (os_disk s) fs) (key nm); Some (file_bytes (os_disk s) (hdr_at (os_disk s) sec)))) by reflexivity.
  destruct (same_views H Hok (os_disk s) d' fs Ho) as (Ht & _ & Hh); [apply Hwf|apply Hwf|].
  assert (Hrl : 0 <= r < lenZ (openf fs)) by (unfold fs; lia). 
  destruct (dir_lookup (dir_table (os_disk s) fs) (key nm)) as [sec|] eqn:El; rewrite Hlk; cbn [mbind outcome_bind option_bind].
  - pose proof (found_sector (os_disk s) fs nm sec Hwf El) as Hso. set (f := mkOpenFile (hdr_at (os_disk s) sec) 0 (arg s 5)).
    match goal with |- context [set_result ?x r] => destruct (quiet_result _ k s x true r Hs Huo1 Hs1 HM1 eq_refl eq_refl Ho Hr')
      as (s' & -> & Ok1 & Hf1 & Hu1 & Hc1 & H2 & E1 & E2 & E3) end.
    { unfold_int32. lia. }
    { reflexivity. }
    { reflexivity. }
    { cbn [os_fs openf set_disk set_fs set_machine set_openf add_object]. rewrite !lenZ_insertZ. exact Htab. }
    { cbn [os_fs objects set_disk set_fs set_machine set_openf add_object]. rewrite length_app. fold fs. lia. }
    exists s'. conjs; [reflexivity|exact Ok1|exact Hf1|exact Hu1|exact Hc1|intros []%Hnf|]. intros slot ->%Huniq. split; [exact H2|]. exists f.
    destruct (opened_on k s s' r nm sec f Hs (eq_sym E1) E2) as (Ho1 & Ho2 & Ho3); [rewrite E3; exact Ho|exact Hf1|exact El|reflexivity|reflexivity|lia|].
    conjs; [reflexivity|reflexivity|exact Ho1|exact Ho2|exact Ho3].
  - assert (Hid : set_openf fs ((openf fs).[r <- None]) = fs) by (rewrite insertZ_id by exact Hnone; by destruct fs).
    rewrite Hid. destruct (quiet_result _ k s (set_disk (set_fs (set_machine s m1) fs) d') false 0 Hs Huo1 Hs1 HM1 eq_refl eq_refl Ho Hr')
      as (s' & E & Ok1 & Hf1 & Hu1 & Hc1 & H2 & E1 & E2 & E3); [unfold_int32; lia|reflexivity|reflexivity|exact Htab|reflexivity|].
    exists s'. conjs; [exact E|exact Ok1|exact Hf1|exact Hu1|exact Hc1|intros []%Hnf|]. intros slot _. exact (conj H2 E1).
Qed.
(** The CreateFile system call makes an empty file when the name is new, the
    directory has room and the disk has a sector left, and changes no file otherwise;
    whichever it is, and even for the empty name, register 2 ends up as 0. *)
Theorem create_call_returns_zero k s nm :
  os_ok (9 + k) s -> cstring_at (at_user (os_machine s) (arg s 4)) 33 0 = Some nm ->
  exists s', Exception_CreateFile s = Ok s' /\ os_ok k s' /\ arg s' 2 = 0 /\
    (can_create (os_disk s) (os_fs s) nm 0 -> created (os_disk s) (os_disk s') (os_fs s) nm 0) /\
    (~ can_create (os_disk s) (os_fs s) nm 0 -> unchanged (os_disk s) (os_disk s') (os_fs s)) /\
    (forall v, ubyte (os_machine s') v = ubyte (os_machine s) v) /\ os_fs s' = os_fs s /\ os_console s' = os_console s.
Proof.
  intros Hs Hstr. pose proof Hs as [Huo Hwf Hr _ _]. pose proof (uo_wf _ Huo) as Hmw. unfold Exception_CreateFile.
  rewrite !get_arg_ok by (done || lia). cbn [mbind outcome_bind].
  destruct (copy_in_ok s (arg s 4) 33 nm Huo ltac:(lia) Hstr) as (m1 & -> & Huo1 & Hs1 & HM1 & Hl1). cbn [mbind outcome_bind].
  pose proof (cstring_at_cstring _ _ _ _ Hmw Hstr) as Hc. rewrite (cstr_kernel_buf 33 nm Hc Hl1 ltac:(lia)).
  destruct (kernel_buf_nul 33 nm ltac:(lia) Hl1) as [rest Hrest].
  rewrite Hrest, strlen_string by by eapply cstring_no_nul. cbn [mbind outcome_bind].
  destruct (result_when (set_machine s m1) (lenZ nm =? 0) (-1) Huo1) as (s1 & -> & Huo2 & _ & Hu2 & Hc2 & Ef2 & Er2 & Ed2); [unfold_int32; lia|].
  cbn [mbind outcome_bind]. rewrite Ef2, Ed2. cbn [os_fs os_disk set_machine].
  destruct (Create_ok H Hok k (os_fs s) (os_disk s) nm 0 Hwf Hr Hc) as (ok & d' & -> & Hr' & Hw' & Hcan & Hres);
    [unfold MaxFileSize, SectorSize; change NumDirect with 126; lia|]. cbn [mbind outcome_bind].
  destruct (result_when (set_disk s1 d') (negb ok) (-1) Huo2) as (s2 & -> & Huo3 & _ & Hu3 & Hc3 & Ef3 & Er3 & Ed3); [unfold_int32; lia|].
  cbn [mbind outcome_bind].
  destruct (result_when s2 true 0 Huo3) as (s' & -> & Huo' & H2 & Hu4 & Hc4 & Ef4 & Er4 & Ed4); [unfold_int32; lia|].
  cbn [os_machine os_console os_fs os_freed os_disk set_disk set_machine] in *. exists s'.
  assert (Ef : os_fs s' = os_fs s) by congruence. assert (Ed : os_disk s' = d') by congruence.
  conjs; [reflexivity| |exact H2| | | |exact Ef|congruence].
  - apply (os_ok_next _ k s s' Hs Huo'); rewrite ?Ef, ?Ed; [exact Hw'|exact Hr'|reflexivity|reflexivity|congruence].
  - rewrite Ed. intros Hy. by rewrite (proj2 Hcan Hy) in Hres.
  - rewrite Ed. intros Hy. destruct ok; [destruct Hy; by apply Hcan|exact Hres].
  - intros v. rewrite Hu4, Hu3, Hu2. by apply ubyte_same.
Qed.

(** The Close system call returns 0 and frees the object but keeps the pointer to it:
    the descriptor is never given out again, and every later Close, Read or Write that
    names it uses memory that was freed. *)
Theorem close_leaves_dangling k s q :
  let id := arg s 4 in
  os_ok k s -> 0 <= id <= 14 -> (openf (os_fs s)).[id] = Some (Some q) -> q ∉ os_freed s ->
  exists s', Exception_Close s = Ok s' /\ arg s' 2 = 0 /\ os_fs s' = os_fs s /\ ~ first_free (openf (os_fs s')) id /\
    forall m, Machine_wf m ->
      (reg m 4 = id -> Exception_Close (set_machine s' m) = Undefined) /\
      (reg m 6 = id -> Exception_Read (set_machine s' m) = Undefined /\ Exception_Write (set_machine s' m) = Undefined).
Proof.
  intros id [Huo _ _ Htab Hfr] Hid Hq Hnf. assert (Hrng : (0 <=? id) && (id <=? 14) = true) by lia.
  assert (Hrng' : (id <? 0) || (14 <? id) = false) by lia. pose proof (uo_wf _ Huo) as Hmw.
  destruct (set_result_ok s 0 Huo) as (s1 & E1 & _ & H2 & _ & _ & Ef & Er & Ed); [unfold_int32; lia|].
  exists (mkOS (os_machine s1) (os_console s1) (os_fs s1) (q :: os_freed s1) (os_disk s1)).
  set (s' := mkOS _ _ _ _ _). conjs; [|exact H2|exact Ef| |].
  - unfold Exception_Close. rewrite get_arg_ok by (done || lia). cbn [mbind outcome_bind]. fold id. rewrite Hrng. unfold openf_at. rewrite Hq.
    cbn [deref mbind outcome_bind]. rewrite E1. cbn [mbind outcome_bind]. rewrite bool_decide_eq_false_2; [reflexivity|by rewrite Er].
  - intros (_ & Hn & _). cbn [os_fs s'] in Hn. rewrite Ef in Hn. congruence.
  - intros m Hwf. assert (Hat : forall s0, os_fs s0 = os_fs s' -> openf_at s0 id = Ok (Some q)).
    { intros s0 E. unfold openf_at. rewrite E. cbn [os_fs s']. by rewrite Ef, Hq. }
    assert (Hbad : forall s0, os_fs s0 = os_fs s' -> os_freed s0 = q :: os_freed s1 -> file_at s0 id = Undefined).
    { intros s0 E E'. unfold file_at. rewrite (Hat s0 E). cbn [mbind outcome_bind object_at]. rewrite E'.
      rewrite bool_decide_eq_true_2; [reflexivity|apply list_elem_of_here]. }
    split; intros Hreg; [|split]; unfold Exception_Close, Exception_Read, Exception_Write; rewrite !get_arg_ok by (exact Hwf || lia); cbn [mbind outcome_bind];
      change (arg (set_machine s' m)) with (reg m); rewrite Hreg.
    + rewrite Hrng, Hat by reflexivity. cbn [mbind outcome_bind]. unfold set_result, Machine_WriteRegister.
      change ((0 <=? 2) && (2 <? NumTotalRegs)) with true. cbn [ASSERT mbind outcome_bind].
      rewrite bool_decide_eq_true_2; [reflexivity|apply list_elem_of_here].
    + rewrite Hrng', Hat by reflexivity. cbn [mbind outcome_bind]. rewrite Hbad by reflexivity. reflexivity.
    + rewrite Hrng'. cbn [mbind outcome_bind]. rewrite Hat by reflexivity. cbn [mbind outcome_bind]. rewrite Hbad by reflexivity. reflexivity.
Qed.
(** *** The console as a file *)

Section ConsoleFiles.
Context `{!ConsoleLaws C}.

(** [id] is a descriptor of the object [f]. *)
Definition descriptor (s : os) (id : Z) (f : OpenFile) : Prop :=
  0 <= id <= 14 /\ exists p, (openf (os_fs s)).[id] = Some (Some p) /\ p ∉ os_freed s /\ objects (os_fs s) !! p = Some f.

Lemma descriptor_at s id f : descriptor s id f -> (id <? 0) || (14 <? id) = false /\ exists p, openf_at s id = Ok (Some p) /\ file_at s id = Ok f.
Proof.
  intros (Hid & p & Hp & Hf & Ho). split; [lia|]. exists p. unfold file_at, openf_at, object_at. rewrite Hp. cbn [deref mbind outcome_bind].
  by rewrite bool_decide_eq_false_2, Ho.
Qed.

Lemma read_line_length n inp line stop rest : read_line n inp = Some (line, stop, rest) -> (length line <= n)%nat.
Proof.
  revert inp line. induction n as [|n IH]; intros inp line E; [injection E as <- <- <-; done|]. destruct inp as [|c inp]; [done|]. cbn [read_line] in E.
  destruct ((c =? 10) || (c =? 1)); [injection E as <- <- <-; simpl; lia|]. destruct (read_line n inp) as [[[l st] r]|] eqn:El; [|done].
  cbn [mbind option_bind] in E. injection E as <- <- <-. apply IH in El. simpl. lia.
Qed.

Fixpoint upto_newline (str : list Z) : list Z :=
  match str with [] => [] | b :: str => if b =? 10 then [] else b :: upto_newline str end.

Lemma length_upto_newline str : (length (upto_newline str) <= length str)%nat.
Proof. induction str as [|b str IH]; [done|]. cbn [upto_newline]. destruct (b =? 10); simpl; lia. Qed.

Lemma stdout_loop_ok n str rest i (c : C) :
  0 ∉ str -> cons_ready (n + 2 * S (length (upto_newline str))) c ->
  exists c', stdout_loop (str ++ 0 :: rest) i c = Ok (i + lenZ (upto_newline str), c') /\ cons_ready n c' /\
    cons_output c' = cons_output c ++ upto_newline str ++ [10] /\ cons_input c' = cons_input c.
Proof.
  revert i c. induction str as [|b str IH]; intros i c H0 Hr; cbn [app stdout_loop upto_newline] in *.
  - cbn [Z.eqb orb]. destruct (cons_write_ok n c [10] 1) as (c' & -> & Hr' & Ho & Hi); [exact Hr|done|]. cbn [mbind outcome_bind]. exists c'.
    conjs; [do 2 f_equal; unfold lenZ; simpl; lia|done|exact Ho|done].
  - apply not_elem_of_cons in H0 as [Hb H0]. rewrite (proj2 (Z.eqb_neq b 0)) by done. cbn [orb]. destruct (b =? 10) eqn:E10.
    + apply Z.eqb_eq in E10. subst b. destruct (cons_write_ok n c [10] 1) as (c' & -> & Hr' & Ho & Hi); [exact Hr|done|]. cbn [mbind outcome_bind].
      exists c'. conjs; [do 2 f_equal; unfold lenZ; simpl; lia|done|exact Ho|done].
    + cbn [length] in Hr. destruct (cons_write_ok (n + 2 * S (length (upto_newline str))) c [b] 1) as (c1 & -> & Hr1 & Ho1 & Hi1); [|done|].
      { by replace (n + 2 * S (length (upto_newline str)) + S (Z.to_nat 1))%nat with (n + 2 * S (S (length (upto_newline str))))%nat by (simpl; lia). }
      cbn [mbind outcome_bind]. destruct (IH (i + 1) c1 H0 Hr1) as (c' & -> & Hr' & Ho & Hi). exists c'.
      conjs; [do 2 f_equal; rewrite lenZ_cons; lia|done| |congruence]. rewrite Ho, Ho1. by rewrite <- app_assoc.
Qed.

(** Write and Read on a descriptor of the console.  Write shows the string at the
    address in register 4, cut at [charcount] characters and at its first newline, and a
    newline; register 2 is one less than the number of characters shown before the
    newline, -1 for an empty line.  Read takes a line from the keyboard into user memory
    and returns its length, or -1 and nothing when the line was ended by control-A. *)
Theorem console_descriptors n s f str :
  user_ok (os_machine s) -> descriptor s (arg s 6) f -> 0 <= arg s 5 <= int32_max ->
  cstring_at (at_user (os_machine s) (arg s 4)) (Z.to_nat (arg s 5)) 0 = Some str ->
  (of_type f = 3 -> cons_ready (n + 2 * S (length (upto_newline str))) (os_console s) ->
    exists s', Exception_Write s = Ok s' /\ cons_ready n (os_console s') /\
      cons_output (os_console s') = cons_output (os_console s) ++ upto_newline str ++ [10] /\
      cons_input (os_console s') = cons_input (os_console s) /\
      arg s' 2 = lenZ (upto_newline str) - 1 /\ os_fs s' = os_fs s /\ os_disk s' = os_disk s) /\
  (forall line stop rest, of_type f = 2 -> cons_ready (S n) (os_console s) -> 0 < arg s 5 ->
    read_line (Z.to_nat (arg s 5)) (cons_input (os_console s)) = Some (line, stop, rest) ->
    let got := if bool_decide (stop = Some 1) then [] else upto_nul (map byte_of_int line) in
    (forall j, 0 <= j < lenZ got -> is_Some (pa_of (os_machine s) (wrap_s32 (arg s 4 + j)) true)) ->
    exists s', Exception_Read s = Ok s' /\ cons_ready n (os_console s') /\ cons_input (os_console s') = rest /\
      stored (arg s 4) 0 got (os_machine s) (os_machine s') /\
      arg s' 2 = (if bool_decide (stop = Some 1) then -1 else lenZ line) /\ os_fs s' = os_fs s /\ os_disk s' = os_disk s).
Proof.
  intros Huo Hd Hn Hstr. pose proof (uo_wf _ Huo) as Hmw. destruct (descriptor_at _ _ _ Hd) as (Hid & p & Ep & Ef).
  destruct (copy_in_ok s (arg s 4) (arg s 5) str Huo ltac:(lia) Hstr) as (m1 & Ecp & Huo1 & Hs1 & HM1 & Hl1).
  destruct (kernel_buf_ok (arg s 5) str ltac:(lia) Hl1 (cstring_at_bytes _ _ _ _ _ Hmw Hstr)) as [Hkl Hkb]. split.
  - intros Hty Hr. unfold Exception_Write. rewrite !get_arg_ok by (done || lia). cbn [mbind outcome_bind]. rewrite Hid.
    cbn [mbind outcome_bind]. rewrite Ep. cbn [mbind outcome_bind]. rewrite Ef. cbn [mbind outcome_bind]. rewrite Hty.
    cbn [Z.eqb Pos.eqb orb mbind outcome_bind]. rewrite Ecp. cbn [mbind outcome_bind os_console set_machine].
    destruct (kernel_buf_nul (arg s 5) str ltac:(lia) Hl1) as [tl ->].
    destruct (stdout_loop_ok n str tl 0 (os_console s) (cstring_no_nul _ _ _ _ Hstr) Hr) as (c' & -> & Hr' & Ho & Hi). cbn [mbind outcome_bind].
    pose proof (lenZ_nonneg (upto_newline str)). pose proof (length_upto_newline str).
    rewrite wrap_s32_id by (unfold_int32; unfold lenZ in *; lia).
    destruct (set_result_ok (set_console (set_machine s m1) c') (0 + lenZ (upto_newline str) - 1) Huo1) as (s' & E & _ & H2 & _ & Hc & E1 & _ & E3);
      [unfold_int32; unfold lenZ in *; lia|]. exists s'. rewrite Hc. conjs; [exact E|exact Hr'|exact Ho|exact Hi|rewrite H2; lia|exact E1|exact E3].
  - intros line stop rest Hty Hr Hpos Hl got Hpa. unfold Exception_Read. rewrite !get_arg_ok by (done || lia). cbn [mbind outcome_bind]. rewrite Hid.
    rewrite Ep. cbn [mbind outcome_bind]. rewrite Ef. cbn [mbind outcome_bind]. rewrite Hty. cbn [Z.eqb Pos.eqb]. rewrite Ecp.
    cbn [mbind outcome_bind os_console set_machine]. pose proof (read_line_length _ _ _ _ _ Hl) as Hll.
    destruct (cons_read_ok n (os_console s) (arg s 5) junk line stop rest Hr Hpos Hl) as (c' & -> & Hr' & Hi & Ho). cbn [mbind outcome_bind].
    set (size := if bool_decide (stop = Some 1) then -1 else lenZ line). set (buf := map byte_of_int _).
    assert (Hbl : lenZ buf = arg s 5) by (unfold buf, lenZ; rewrite length_map, length_app, length_replicate; lia).
    rewrite store_ok by lia. cbn [mbind outcome_bind].
    assert (Hgot : upto_nul (slice (splice (kernel_buf (arg s 5) str) 0 buf) 0 size) = got).
    { unfold got, size. case_bool_decide; [by rewrite slice_zero by lia|]. f_equal. unfold slice, splice. change (Z.to_nat 0) with O.
      rewrite drop_0, take_0. cbn [app]. unfold lenZ, buf. rewrite Nat2Z.id, map_app, <- app_assoc. apply take_app_length'. by rewrite length_map. }
    destruct (copy_result (set_console (set_machine s m1) c') (arg s 4) size (splice (kernel_buf (arg s 5) str) 0 buf) Huo1)
      as (s' & -> & _ & H2 & Hst & Hc & E1 & _ & E3).
    + rewrite lenZ_splice by lia. unfold size, lenZ in *. case_bool_decide; lia.
    + unfold size, lenZ in *. case_bool_decide; lia.
    + apply Forall_splice; [exact Hkb|]. apply Forall_map, Forall_true. apply byte_of_int_range.
    + rewrite Hgot. intros j Hj. cbn [os_machine set_console set_machine]. rewrite (pa_of_same_map _ _ _ _ Hs1). by apply Hpa.
    + rewrite Hgot in Hst. exists s'. rewrite Hc. conjs; [reflexivity|exact Hr'|exact Hi| |exact H2|exact E1|exact E3].
      destruct Hst as [Ha Hb]. split; [exact Ha|]. intros v Hx. rewrite Hb by exact Hx. by apply ubyte_same.
Qed.
End ConsoleFiles.
End Laws.
End FileCalls.

(** ** Examples *)

(** A program with the word [w] at address 0 and the given arguments; 26984 is the word of
    the string hi, 97 that of a. *)
Definition call_page (w r4 r5 r6 : Z) : Machine :=
  set_reg (set_reg (set_reg (sample_machine [w] (sample_regs 0 0 0)) 4 r4) 5 r5) 6 r6.

Lemma call_page_ok w r4 r5 r6 : int32 r4 -> int32 r5 -> int32 r6 -> user_ok (call_page w r4 r5 r6).
Proof.
  intros H4 H5 H6. repeat (apply user_ok_set_reg; [|done|done]).
  assert (Hwf : Machine_wf (sample_machine [w] (sample_regs 0 0 0))) by (apply sample_wf; first [vm_compute; done | unfold_int32; lia]).
  split; [done|vm_compute; split; congruence|].
  apply (table_injective _ [mkEntry 0 0 true false false false]); [done|reflexivity|reflexivity|].
  simpl. apply NoDup_singleton.
Qed.

(** A file system with a file of 600 bytes, open as descriptor 3 with the given type. *)
Lemma sample_os m type :
  user_ok m -> exists (s : OS CSys DSys) f old, os_machine s = m /\ os_ok 480 s /\ open_on s 3 [97] f old /\ of_type f = type /\ seekPosition f = 0 /\
    lenZ old = 600 /\ os_freed s = [] /\ openf (os_fs s) = [None; None; None; Some O] ++ replicate 11 None /\
    cons_ready 20 (os_console s) /\ cons_output (os_console s) = [] /\ cons_input (os_console s) = [104; 105; 10; 120].
Proof.
  intros Hu. destruct sample_fs_file as (d & fs & old & sec & Hr & Hwf & Hf & Hl & Hs & _).
  destruct (new_console_ready 20 keys_hi no_console) as (c & _ & Hc & Hi & Hd).
  { apply (bool_decide_unpack (EndOfFile ∉ keys_hi)). vm_compute. exact I. }
  { vm_compute. discriminate. }
  set (f := mkOpenFile (hdr_at d sec) 0 type).
  set (fs' := mkFS (freeMapFile fs) (directoryFile fs) [f] ([None; None; None; Some O] ++ replicate 11 None) 2).
  exists (mkOS m c fs' [] d), f, old. cbn [os_machine os_console os_fs os_freed os_disk].
  conjs; [reflexivity| | |reflexivity|reflexivity|exact Hl|reflexivity|reflexivity|exact Hc|exact Hd|etransitivity; [exact Hi|reflexivity]].
  - split; cbn [os_machine os_console os_fs os_freed os_disk]; [exact Hu|exact (fs_wf_ext d fs fs' eq_refl eq_refl Hwf)|exact Hr|reflexivity|constructor].
  - split; cbn [os_machine os_console os_fs os_freed os_disk]; [|lia| |exact Hf|cbn; lia].
    + exists O. conjs; [reflexivity|apply not_elem_of_nil|reflexivity].
    + exists sec. split; [exact Hs|reflexivity].
Qed.

Lemma read_call_refines_witness :
  exists (s s' : OS CSys DSys) old, fs_file (os_disk s) (os_fs s) [97] = Some old /\ Exception_Read 0 s = Ok s' /\
    arg s' 2 = 4 /\ stored 0 0 (upto_nul (slice old 0 4)) (os_machine s) (os_machine s').
Proof.
  assert (Hu : user_ok (call_page 26984 0 4 3)) by (apply call_page_ok; unfold_int32; lia).
  destruct (sample_os (call_page 26984 0 4 3) 1 Hu) as (s & f & old & Em & Hs & Hop & Hty & Hpos & Hl & _).
  assert (A4 : arg s 4 = 0) by (unfold arg; rewrite Em; reflexivity). assert (A5 : arg s 5 = 4) by (unfold arg; rewrite Em; reflexivity).
  assert (A6 : arg s 6 = 3) by (unfold arg; rewrite Em; reflexivity).
  destruct (read_call_refines (C := CSys) (D := DSys) zero_heap 0 zero_heap_ok 354 s [97] f old [104; 105] Hs) as (s' & E & _ & _ & Hst & H2 & _).
  - rewrite A6. exact Hop.
  - right. exact Hty.
  - lia.
  - rewrite Hpos, A5. vm_compute. discriminate.
  - rewrite A4, A5, Em. vm_compute. reflexivity.
  - rewrite A4, A5, Hl, Hpos, Em. change (Z.max 0 (Z.min 4 (600 - 0))) with 4. intros j Hj. pose proof (lenZ_upto_nul (slice old 0 4)) as Hle.
    rewrite lenZ_slice in Hle by lia. assert (j = 0 \/ j = 1 \/ j = 2 \/ j = 3) as [-> | [-> | [-> | ->]]] by lia; vm_compute; eauto.
  - rewrite A5, Hl, Hpos in H2. rewrite A4, A5, Hl, Hpos in Hst. exists s, s', old. split; [exact (oo_file _ _ _ _ _ Hop)|].
    split; [exact E|]. split; [exact H2|exact Hst].
Defined.

Lemma open_call_refines_witness :
  exists (s s' : OS CSys DSys), Exception_Open zero_heap s = Ok s' /\ arg s' 2 = 2 /\ exists f old, open_on s' 2 [97] f old.
Proof.
  assert (Hu : user_ok (call_page 97 0 0 0)) by (apply call_page_ok; unfold_int32; lia).
  destruct (sample_os (call_page 97 0 0 0) 0 Hu) as (s & f & old & Em & Hs & Hop & _ & _ & _ & Hfr & Ho & _).
  assert (A4 : arg s 4 = 0) by (unfold arg; rewrite Em; reflexivity). assert (A5 : arg s 5 = 0) by (unfold arg; rewrite Em; reflexivity).
  destruct (open_call_refines (C := CSys) (D := DSys) zero_heap zero_heap_ok 478 s [97] Hs) as (s' & E & _ & _ & _ & _ & _ & H1).
  - rewrite A4, Em. vm_compute. reflexivity.
  - assert (Hff : first_free (openf (os_fs s)) 2) by (rewrite Ho; split; [lia|]; split; [reflexivity|lia]).
    specialize (H1 2 Hff). rewrite A5 in H1. cbn [Z.eqb orb] in H1. rewrite (oo_file _ _ _ _ _ Hop) in H1. destruct H1 as (A2 & f' & _ & _ & Hop' & _).
    exists s, s'. split; [exact E|]. split; [exact A2|]. exists f', old. exact Hop'.
Defined.

Lemma create_call_returns_zero_witness :
  exists (s s' : OS CSys DSys), Exception_CreateFile zero_heap s = Ok s' /\ arg s' 2 = 0 /\ unchanged (os_disk s) (os_disk s') (os_fs s).
Proof.
  assert (Hu : user_ok (call_page 97 0 0 0)) by (apply call_page_ok; unfold_int32; lia).
  destruct (sample_os (call_page 97 0 0 0) 0 Hu) as (s & f & old & Em & Hs & Hop & _).
  assert (A4 : arg s 4 = 0) by (unfold arg; rewrite Em; reflexivity).
  destruct (create_call_returns_zero (C := CSys) (D := DSys) zero_heap zero_heap_ok 471 s [97] Hs) as (s' & E & _ & H2 & _ & Hun & _).
  - rewrite A4, Em. vm_compute. reflexivity.
  - exists s, s'. split; [exact E|]. split; [exact H2|]. apply Hun. intros (Hnone & _). rewrite (oo_file _ _ _ _ _ Hop) in Hnone. discriminate.
Defined.

Lemma close_leaves_dangling_witness :
  exists (s s' : OS CSys DSys), Exception_Close s = Ok s' /\ arg s' 2 = 0 /\ Exception_Close (set_machine s' (call_page 0 3 0 0)) = Undefined.
Proof.
  assert (Hu : user_ok (call_page 0 3 0 0)) by (apply call_page_ok; unfold_int32; lia).
  destruct (sample_os (call_page 0 3 0 0) 0 Hu) as (s & f & old & Em & Hs & _ & _ & _ & _ & Hfr & Ho & _).
  assert (A4 : arg s 4 = 3) by (unfold arg; rewrite Em; reflexivity).
  destruct (close_leaves_dangling (C := CSys) (D := DSys) zero_heap 0 480 s O Hs) as (s' & E & H2 & _ & _ & Hd).
  - rewrite A4. lia.
  - rewrite A4, Ho. reflexivity.
  - rewrite Hfr. apply not_elem_of_nil.
  - exists s, s'. split; [exact E|]. split; [exact H2|]. apply (Hd (call_page 0 3 0 0) (uo_wf _ Hu)). rewrite A4. reflexivity.
Defined.

Lemma console_descriptors_witness :
  exists (s s' t t' : OS CSys DSys), Exception_Write zero_heap s = Ok s' /\ cons_output (os_console s') = [104; 105; 10] /\ arg s' 2 = 1 /\
    Exception_Read 0 t = Ok t' /\ cons_input (os_console t') = [120] /\ arg t' 2 = 2.
Proof.
  assert (Hu : user_ok (call_page 26984 0 4 3)) by (apply call_page_ok; unfold_int32; lia).
  destruct (sample_os (call_page 26984 0 4 3) 3 Hu) as (s & f & old & Em & Hs & Hop & Hty & _ & _ & _ & _ & Hr & Ho & Hi).
  destruct (sample_os (call_page 26984 0 4 3) 2 Hu) as (t & g & old' & Em' & Ht & Hop' & Hty' & _ & _ & _ & _ & Hr' & Ho' & Hi').
  assert (Ha : forall x : OS CSys DSys, os_machine x = call_page 26984 0 4 3 -> arg x 4 = 0 /\ arg x 5 = 4 /\ arg x 6 = 3) by (intros x Ex; unfold arg; rewrite Ex; done).
  destruct (Ha s Em) as (A4 & A5 & A6). destruct (Ha t Em') as (B4 & B5 & B6).
  destruct (console_descriptors (C := CSys) (D := DSys) zero_heap 0 14 s f [104; 105]) as [Hw _].
  - rewrite Em. exact Hu.
  - rewrite A6. exact (conj (oo_id _ _ _ _ _ Hop) (oo_ptr _ _ _ _ _ Hop)).
  - rewrite A5. vm_compute. split; discriminate.
  - rewrite A4, A5, Em. vm_compute. reflexivity.
  - destruct (console_descriptors (C := CSys) (D := DSys) zero_heap 0 19 t g [104; 105]) as [_ Hrd].
    + rewrite Em'. exact Hu.
    + rewrite B6. exact (conj (oo_id _ _ _ _ _ Hop') (oo_ptr _ _ _ _ _ Hop')).
    + rewrite B5. vm_compute. split; discriminate.
    + rewrite B4, B5, Em'. vm_compute. reflexivity.
    + destruct (Hw Hty Hr) as (s' & E & _ & Hout & _ & H2 & _).
      destruct (Hrd [104; 105] (Some 10) [120] Hty' Hr') as (t' & E' & _ & Hin & _ & H2' & _).
      * lia.
      * rewrite B5, Hi'. reflexivity.
      * rewrite B4, Em'. rewrite bool_decide_eq_false_2 by congruence. intros j Hj. change (lenZ (upto_nul (map byte_of_int [104; 105]))) with 2 in Hj.
        assert (j = 0 \/ j = 1) as [-> | ->] by lia; vm_compute; eauto.
      * exists s, s', t, t'. rewrite Ho in Hout. split; [exact E|]. split; [exact Hout|]. split; [exact H2|]. split; [exact E'|]. split; [exact Hin|exact H2'].
Defined.
