(* ===== verification/STable.v ===== *)
(** * The table of named semaphores (threads/stable.h, threads/stable.cc)

    [STable] keeps up to ten semaphores that user programs share by name.  A [Sem] is
    kept as its name, a C string, and the kernel's semaphore it owns; [s], where an
    operation takes it, is the address a [new Semaphore] returns.  The three operations
    begin with the same search, [find_sem]. *)

From S2P Require Import Prelude Int32 BitMap Machine AddrSpace Threads.

Definition MAX_SEMAPHORE : Z := 10.

(** [class Sem]; the array [name] has 50 bytes. *)
Record Sem := mkSemObj { sem_name : list Z; sem_sem : positive }.

(** [class STable] *)
Record STable := mkSTable { st_bm : BitMap; semTab : list (option Sem) }.

(** [STable::STable]; [storage] is the uninitialised array of the bitmap. *)
Definition STable_new (storage : list Z) : outcome STable :=
  bm ← BitMap_new MAX_SEMAPHORE storage;
  Ok (mkSTable bm (replicate (Z.to_nat MAX_SEMAPHORE) None)).

(** [Sem::Sem]: [strcpy] has room for 49 characters and the NUL. *)
Definition Sem_new (k : Kernel) (s : positive) (na : list Z) (i : Z) : outcome (Sem * Kernel) :=
  if 50 <? lenZ na + 1 then Undefined
  else Ok (mkSemObj na s, set_sems k (<[s := Semaphore_new i]> (semaphores k))).

(** The search for a name, from slot [i] on. *)
Fixpoint find_sem (n : nat) (i : Z) (tab : STable) (nm : list Z) : outcome (option Sem) :=
  match n with
  | O => Ok None
  | S n =>
      used ← BitMap_Test (st_bm tab) i;
      if used : bool then
        p ← deref ((semTab tab).[i]);
        sem ← deref p;
        if bool_decide (nm = sem_name sem) then Ok (Some sem) else find_sem n (i + 1) tab nm
      else find_sem n (i + 1) tab nm
  end.

(** [STable::FindFreeSlot] *)
Definition STable_FindFreeSlot (tab : STable) : outcome (Z * STable) :=
  '(i, bm) ← BitMap_Find (st_bm tab);
  Ok (i, mkSTable bm (semTab tab)).

(** [STable::Create] *)
Definition STable_Create (tab : STable) (k : Kernel) (s : positive) (nm : list Z) (init : Z) : outcome (Z * STable * Kernel) :=
  found ← find_sem (Z.to_nat MAX_SEMAPHORE) 0 tab nm;
  match found with
  | Some _ => Ok (-1, tab, k)
  | None =>
      '(pid, tab) ← STable_FindFreeSlot tab;
      if pid <? 0 then Ok (-1, tab, k)
      else
        '(sem, k) ← Sem_new k s nm init;
        _ ← deref ((semTab tab).[pid]);
        Ok (0, mkSTable (st_bm tab) ((semTab tab).[pid <- Some sem]), k)
  end.

(** [STable::Wait]: the number the call returns once the caller is past [P], and the
    kernel as [P] leaves it. *)
Definition STable_Wait (tab : STable) (k : Kernel) (nm : list Z) : outcome (Z * Kernel) :=
  found ← find_sem (Z.to_nat MAX_SEMAPHORE) 0 tab nm;
  match found with
  | Some sem => k ← Semaphore_P k (sem_sem sem); Ok (0, k)
  | None => Ok (-1, k)
  end.

(** [STable::Signal] *)
Definition STable_Signal (tab : STable) (k : Kernel) (nm : list Z) : outcome (Z * Kernel) :=
  found ← find_sem (Z.to_nat MAX_SEMAPHORE) 0 tab nm;
  match found with
  | Some sem => k ← Semaphore_V k (sem_sem sem); Ok (0, k)
  | None => Ok (-1, k)
  end.

(** ** The table as a map *)

(** The first entry with a name. *)
Fixpoint lookup_name (l : list (option Sem)) (nm : list Z) : option Sem :=
  match l with
  | [] => None
  | Some e :: l => if bool_decide (nm = sem_name e) then Some e else lookup_name l nm
  | None :: l => lookup_name l nm
  end.
Definition st_lookup (tab : STable) (nm : list Z) : option positive := sem_sem <$> lookup_name (semTab tab) nm.

(** The number of semaphores. *)
Definition st_count (tab : STable) : Z := lenZ (filter is_Some (semTab tab)).

Record stable_wf (tab : STable) : Prop := {
  sw_bm : BitMap_wf (st_bm tab);
  sw_bits : numBits (st_bm tab) = MAX_SEMAPHORE;
  sw_len : lenZ (semTab tab) = MAX_SEMAPHORE;
  sw_used : forall i p, (semTab tab).[i] = Some p -> bit (st_bm tab) i = bool_decide (is_Some p) }.

Lemma find_sem_ok n i tab nm :
  stable_wf tab -> 0 <= i -> i + Z.of_nat n = MAX_SEMAPHORE ->
  find_sem n i tab nm = Ok (lookup_name (drop (Z.to_nat i) (semTab tab)) nm).
Proof.
  intros Hwf. pose proof Hwf as [Hbm Hbits Hlen Hused]. revert i. induction n as [|n IH]; intros i Hi Hn; cbn [find_sem].
  - rewrite drop_ge by (unfold lenZ in Hlen; lia). done.
  - rewrite (BitMap_Test_spec _ Hbm) by lia. cbn [mbind outcome_bind].
    destruct (lookupZ_range (semTab tab) i ltac:(lia)) as [p Hp]. rewrite (Hused i p Hp), Hp.
    rewrite (drop_S (semTab tab) p (Z.to_nat i)) by (unfold lookupZ in Hp; by rewrite (proj2 (Z.ltb_ge i 0)) in Hp by lia). rewrite (IH (i + 1)) by lia.
    replace (Z.to_nat (i + 1)) with (S (Z.to_nat i)) by lia. destruct p as [e|]; cbn [lookup_name]; [|by rewrite bool_decide_eq_false_2 by by intros []].
    rewrite bool_decide_eq_true_2 by done. cbn [deref mbind outcome_bind]. by case_bool_decide.
Qed.

Lemma lookup_name_insert l i e nm :
  l !! i = Some None -> lookup_name l (sem_name e) = None ->
  lookup_name (<[i := Some e]> l) nm = if bool_decide (nm = sem_name e) then Some e else lookup_name l nm.
Proof.
  revert i. induction l as [|p l IH]; intros i Hi Hnone; [done|]. destruct i as [|i]; simpl in Hi.
  - injection Hi as ->. simpl in Hnone |- *. done.
  - change (<[S i := Some e]> (p :: l)) with (p :: <[i := Some e]> l). destruct p as [e'|]; cbn [lookup_name] in *; [|by apply IH].
    destruct (decide (sem_name e = sem_name e')) as [Heq|Heq]; [by rewrite bool_decide_eq_true_2 in Hnone|].
    rewrite bool_decide_eq_false_2 in Hnone by done. rewrite (IH i Hi Hnone).
    destruct (decide (nm = sem_name e)) as [->|Hx]; [by rewrite (bool_decide_eq_false_2 _ Heq), bool_decide_eq_true_2|].
    by rewrite !(bool_decide_eq_false_2 _ Hx).
Qed.

Lemma count_insert (l : list (option Sem)) i e : l !! i = Some None -> lenZ (filter is_Some (<[i := Some e]> l)) = lenZ (filter is_Some l) + 1.
Proof.
  revert i. induction l as [|p l IH]; intros i Hi; [done|]. destruct i as [|i]; simpl in Hi.
  - injection Hi as ->. change (<[0%nat := Some e]> (None :: l)) with (Some e :: l). rewrite !filter_cons.
    rewrite decide_True by done. rewrite decide_False by (by intros []). rewrite lenZ_cons. lia.
  - change (<[S i := Some e]> (p :: l)) with (p :: <[i := Some e]> l). rewrite !filter_cons. destruct (decide (is_Some p)); rewrite ?lenZ_cons, (IH i Hi); lia.
Qed.

Lemma count_full (l : list (option Sem)) : lenZ (filter is_Some l) = lenZ l <-> Forall is_Some l.
Proof.
  assert (Hle : forall l : list (option Sem), lenZ (filter is_Some l) <= lenZ l) by (intros l'; unfold lenZ; pose proof (length_filter is_Some l'); lia).
  induction l as [|p l IH]; [done|]. rewrite filter_cons, Forall_cons, lenZ_cons. specialize (Hle l). destruct (decide (is_Some p)) as [H|H].
  - rewrite lenZ_cons. rewrite <- IH. intuition lia.
  - split; [lia|by intros [? _]].
Qed.

(** C35: the table of semaphores is a map from at most ten names to semaphores of the
    kernel.  Create adds a name that is new with a semaphore of the given value, and
    fails, changing nothing, for a name in use and for an eleventh one; Wait and Signal
    are [P] and [V] on the semaphore of the name and fail for a name that is not there.
    A name of fifty characters or more does not fit the array of [Sem], and storing it has
    no meaning. *)
Theorem stable_refines tab k s nm init :
  stable_wf tab ->
  match st_lookup tab nm with
  | Some r =>
      STable_Create tab k s nm init = Ok (-1, tab, k) /\
      STable_Wait tab k nm = (k' ← Semaphore_P k r; Ok (0, k')) /\
      STable_Signal tab k nm = (k' ← Semaphore_V k r; Ok (0, k'))
  | None =>
      STable_Wait tab k nm = Ok (-1, k) /\ STable_Signal tab k nm = Ok (-1, k) /\
      if bool_decide (st_count tab = MAX_SEMAPHORE) then STable_Create tab k s nm init = Ok (-1, tab, k)
      else if lenZ nm <? 50 then
        exists tab', STable_Create tab k s nm init = Ok (0, tab', set_sems k (<[s := Semaphore_new init]> (semaphores k))) /\
          stable_wf tab' /\ st_count tab' = st_count tab + 1 /\
          forall nm', st_lookup tab' nm' = if bool_decide (nm' = nm) then Some s else st_lookup tab nm'
      else STable_Create tab k s nm init = Undefined
  end.
Proof.
  intros Hwf. pose proof Hwf as [Hbm Hbits Hlen Hused].
  assert (Hfind : find_sem (Z.to_nat MAX_SEMAPHORE) 0 tab nm = Ok (lookup_name (semTab tab) nm)) by (apply find_sem_ok; done).
  unfold STable_Create, STable_Wait, STable_Signal, st_lookup. rewrite Hfind. cbn [mbind outcome_bind].
  destruct (lookup_name (semTab tab) nm) as [e|] eqn:El; cbn [fmap option_fmap option_map]; [done|]. conjs; [done|done|].
  unfold STable_FindFreeSlot. destruct (BitMap_Find_spec (st_bm tab) Hbm) as (r & bm' & -> & Hbm' & Hn' & Hcase). cbn [mbind outcome_bind].
  destruct Hcase as [(-> & -> & Hall)|(Hr & Hclear & _ & Hbits')].
  - rewrite bool_decide_eq_true_2; [by destruct tab|]. unfold st_count. rewrite <- Hlen. apply count_full, Forall_lookupZ. intros i p Hp.
    pose proof (lookupZ_Some_range _ _ _ Hp). pose proof (Hall i ltac:(lia)) as Hb. rewrite (Hused i p Hp) in Hb. by apply bool_decide_eq_true in Hb.
  - destruct (lookupZ_range (semTab tab) r ltac:(lia)) as [p Hp]. assert (p = None) as ->.
    { rewrite (Hused r p Hp) in Hclear. apply bool_decide_eq_false in Hclear. by destruct p; [destruct Hclear|]. }
    rewrite bool_decide_eq_false_2.
    2: { unfold st_count. rewrite <- Hlen. intros Hf%count_full. rewrite Forall_lookupZ in Hf. by destruct (Hf r None Hp). }
    rewrite (proj2 (Z.ltb_ge r 0)) by lia. unfold Sem_new. destruct (Z.ltb_spec (lenZ nm) 50) as [Hs|Hs].
    + rewrite (proj2 (Z.ltb_ge 50 (lenZ nm + 1))) by lia. cbn [mbind outcome_bind semTab st_bm]. rewrite Hp. cbn [deref mbind outcome_bind].
      assert (Hp' : semTab tab !! Z.to_nat r = Some None) by (unfold lookupZ in Hp; by rewrite (proj2 (Z.ltb_ge r 0)) in Hp by lia).
      assert (Hins : (semTab tab).[r <- Some (mkSemObj nm s)] = <[Z.to_nat r := Some (mkSemObj nm s)]> (semTab tab))
        by (unfold insertZ; by rewrite (proj2 (Z.ltb_ge r 0)) by lia).
      eexists. split; [reflexivity|]. conjs.
      * split; cbn [semTab st_bm]; [done|lia|by rewrite lenZ_insertZ|]. intros i p. destruct (decide (i = r)) as [->|Hne].
        -- rewrite lookupZ_insertZ_eq by lia. intros [= <-]. rewrite (bit_insert _ _ r true r Hbits') by lia. by rewrite decide_True.
        -- rewrite lookupZ_insertZ_ne by congruence. intros Hi. pose proof (lookupZ_Some_range _ _ _ Hi).
           rewrite (bit_insert _ _ r true i Hbits') by lia. rewrite decide_False by done. by apply Hused.
      * unfold st_count. cbn [semTab]. rewrite Hins. by apply count_insert.
      * intros nm'. cbn [semTab]. rewrite Hins, lookup_name_insert by done. cbn [sem_name]. by case_bool_decide.
    + by rewrite (proj2 (Z.ltb_lt 50 (lenZ nm + 1))) by lia.
Qed.

(** A new table is empty. *)
Lemma STable_new_ok storage :
  lenZ storage = 1 -> Forall uint32 storage ->
  exists tab, STable_new storage = Ok tab /\ stable_wf tab /\ st_count tab = 0 /\ forall nm, st_lookup tab nm = None.
Proof.
  intros Hl Hu. unfold STable_new. destruct (BitMap_new_spec MAX_SEMAPHORE storage ltac:(done) Hl Hu) as (bm & -> & Hbm & Hn & Hbits).
  cbn [mbind outcome_bind]. eexists. split; [reflexivity|]. conjs; [|done|done]. split; cbn [semTab st_bm]; [done|done|done|].
  intros i p Hp. pose proof (lookupZ_Some_range _ _ _ Hp) as Hi. change (lenZ (replicate (Z.to_nat MAX_SEMAPHORE) (@None Sem))) with MAX_SEMAPHORE in Hi.
  assert (p = None) as -> by (apply lookupZ_elem_of, elem_of_replicate in Hp; tauto).
  rewrite bool_decide_eq_false_2 by by intros []. pose proof (lookupZ_bits bm i ltac:(lia)) as Hb. rewrite Hbits in Hb.
  apply lookupZ_elem_of, elem_of_replicate in Hb. tauto.
Qed.

Lemma stable_refines_witness :
  exists tab k tab', STable_new [7] = Ok tab /\ STable_Create tab k 5 [109] 1 = Ok (0, tab', set_sems k (<[5%positive := Semaphore_new 1]> (semaphores k))) /\
    st_lookup tab' [109] = Some 5%positive /\ STable_Wait tab k [110] = Ok (-1, k).
Proof.
  destruct (STable_new_ok [7]) as (tab & E & Hwf & Hc & Hl); [reflexivity|repeat constructor; unfold_int32; lia|].
  exists tab, small_boot. pose proof (stable_refines tab small_boot 5 [109] 1 Hwf) as H1. pose proof (stable_refines tab small_boot 5 [110] 1 Hwf) as H2.
  rewrite Hl in H1, H2. destruct H1 as (_ & _ & H1). rewrite bool_decide_eq_false_2 in H1 by (rewrite Hc; unfold MAX_SEMAPHORE; lia).
  destruct H1 as (tab' & E' & _ & _ & Hl'). exists tab'. split; [exact E|]. split; [exact E'|]. split; [rewrite Hl'; reflexivity|exact (proj1 H2)].
Defined.

(** [P] tests for zero only: on a semaphore that was created with a negative value the
    caller does not wait. *)
Lemma negative_value_passes k s sem th :
  semaphores k !! s = Some sem -> value sem < 0 -> threads k !! currentThread k = Some th ->
  exists k', Semaphore_P k s = Ok k' /\ currentThread k' = currentThread k /\ readyList k' = readyList k /\ idle k' = idle k.
Proof.
  intros Hs Hv Ht. unfold Semaphore_P, P_loop. rewrite Hs. cbn [deref mbind outcome_bind]. rewrite (proj2 (Z.eqb_neq (value sem) 0)) by lia.
  unfold upd_thread. rewrite Ht. cbn [deref mbind outcome_bind]. by eexists.
Qed.
