(* ===== verification/Process.v ===== *)
(** * Processes

    threads/pcb.h, pcb.cc, ptable.h, ptable.cc, [StartProcess] and [StartProcess_2] of
    userprog/progtest.cc, and the system calls Exec, Join, Exit, CreateSemaphore, Wait and
    Signal of userprog/exception.cc, above the threads and semaphores of Threads.v.

    A system call runs in the kernel until it reaches a [P]; there the scheduler may run
    other threads.  So a call is cut into the pieces between its [P]s: [pending] holds, for
    a thread that is in or past such a [P], the [point] where the call goes on, and
    [continue] is the next piece.  Pieces run without a context switch, as all their other
    operations do.

    The file system is the one of the user-program build, where a file is a UNIX file:
    [host] gives the content of the files that can be opened.  Addresses of new semaphores
    and threads are never used twice, so that a pointer to a deleted object points to
    nothing. *)

From S2P Require Import Prelude Int32 BitMap Machine AddrSpace Threads Directory UserMem STable.

(** [class PCB]; its field [pid] is never used. *)
Record PCB := mkPCB {
  joinsem : positive;
  exitsem : positive;
  multex : positive;
  exitcode : Z;
  numwait : Z;
  pcb_name : list Z;
  pcb_thread : option positive;
  parentID : Z }.

(** [class PTable] *)
Record PTable := mkPTable {
  psize : Z;
  pt_bm : BitMap;
  pcb : list (option PCB);
  bmsem : positive }.

(** The [P]s inside the calls: of [bmsem] in [ExecUpdate], of [multex] in [PCB::Exec], in
    [IncNumWait] of the parent and in [DecNumWait] of the parent, of [joinsem], of
    [exitsem], and of a named semaphore. *)
Inductive point :=
| ExecBmsem (name : list Z)
| ExecMultex (index : Z) (name : list Z)
| JoinMultex (pid parent : Z)
| JoinJoinsem (pid : Z)
| ExitMultex (pid parent code : Z)
| ExitExitsem (pid code : Z)
| WaitSem.

(** [names] are the [name] fields of the threads, [None] for a pointer to memory that was
    freed; [frames] is [gPhysPageBitMap]. *)
Record Procs := mkProcs {
  ker : Kernel;
  ptab : PTable;
  stab : STable;
  frames : BitMap;
  names : gmap positive (option (list Z));
  pending : gmap positive point;
  nextSem : positive;
  nextThread : positive }.

Definition set_ker (σ : Procs) k := mkProcs k (ptab σ) (stab σ) (frames σ) (names σ) (pending σ) (nextSem σ) (nextThread σ).
Definition set_ptab (σ : Procs) t := mkProcs (ker σ) t (stab σ) (frames σ) (names σ) (pending σ) (nextSem σ) (nextThread σ).
Definition set_stab (σ : Procs) t := mkProcs (ker σ) (ptab σ) t (frames σ) (names σ) (pending σ) (nextSem σ) (nextThread σ).
Definition set_frames (σ : Procs) f := mkProcs (ker σ) (ptab σ) (stab σ) f (names σ) (pending σ) (nextSem σ) (nextThread σ).
Definition set_names (σ : Procs) n := mkProcs (ker σ) (ptab σ) (stab σ) (frames σ) n (pending σ) (nextSem σ) (nextThread σ).
Definition set_pending (σ : Procs) p := mkProcs (ker σ) (ptab σ) (stab σ) (frames σ) (names σ) p (nextSem σ) (nextThread σ).

Definition me (σ : Procs) : positive := currentThread (ker σ).
Definition my_thread (σ : Procs) : outcome Thread := deref (threads (ker σ) !! me σ).
Definition my_pid (σ : Procs) : outcome Z := th ← my_thread σ; Ok (processID th).

(** What a piece of a call ends with: the number the call returns, or a [P]. *)
Abbreviation piece := (outcome (Procs * option Z)).

(** [new Semaphore(..., v)] and [delete] of a semaphore *)
Definition new_sem (σ : Procs) (v : Z) : positive * Procs :=
  let s := nextSem σ in
  (s, mkProcs (set_sems (ker σ) (<[s := Semaphore_new v]> (semaphores (ker σ)))) (ptab σ) (stab σ) (frames σ) (names σ) (pending σ)
        (Pos.succ s) (nextThread σ)).
Definition delete_sem (σ : Procs) (s : positive) : outcome Procs :=
  _ ← deref (semaphores (ker σ) !! s);
  Ok (set_ker σ (set_sems (ker σ) (delete s (semaphores (ker σ))))).

(** [s->P()] in a call that goes on at [p], and [s->V()] *)
Definition at_P (σ : Procs) (s : positive) (p : point) : piece :=
  k ← Semaphore_P (ker σ) s;
  Ok (set_pending (set_ker σ k) (<[me σ := p]> (pending σ)), None).
Definition do_V (σ : Procs) (s : positive) : outcome Procs :=
  k ← Semaphore_V (ker σ) s;
  Ok (set_ker σ k).

(** [pcb[i]], and a change of the object behind it *)
Definition pcb_at (σ : Procs) (i : Z) : outcome (option PCB) := deref ((pcb (ptab σ)).[i]).
Definition set_pcb (σ : Procs) (i : Z) (b : PCB) : Procs :=
  let t := ptab σ in set_ptab σ (mkPTable (psize t) (pt_bm t) ((pcb t).[i <- Some b]) (bmsem t)).
Definition the_pcb (σ : Procs) (i : Z) : outcome PCB := p ← pcb_at σ i; deref p.

Definition with_exitcode (b : PCB) c := mkPCB (joinsem b) (exitsem b) (multex b) c (numwait b) (pcb_name b) (pcb_thread b) (parentID b).
Definition with_numwait (b : PCB) n := mkPCB (joinsem b) (exitsem b) (multex b) (exitcode b) n (pcb_name b) (pcb_thread b) (parentID b).
Definition with_name (b : PCB) n := mkPCB (joinsem b) (exitsem b) (multex b) (exitcode b) (numwait b) n (pcb_thread b) (parentID b).
Definition with_thread (b : PCB) t := mkPCB (joinsem b) (exitsem b) (multex b) (exitcode b) (numwait b) (pcb_name b) t (parentID b).
Definition with_parent (b : PCB) p := mkPCB (joinsem b) (exitsem b) (multex b) (exitcode b) (numwait b) (pcb_name b) (pcb_thread b) p.

Section Process.
Context (host : list Z -> option (list Z)).
(** What uninitialised memory holds: the fields of a new [PCB], the registers of a new
    thread, the fields of a new address space and the header read from a file. *)
Context (junk_pcb : PCB) (junk_regs : list Z) (junk_space : AddrSpace) (junk_header : list Z).

(** ** pcb.cc *)

(** [PCB::PCB(int)] *)
Definition PCB_new (σ : Procs) : PCB * Procs :=
  let '(j, σ) := new_sem σ 0 in
  let '(e, σ) := new_sem σ 0 in
  let '(m, σ) := new_sem σ 1 in
  (mkPCB j e m (exitcode junk_pcb) (numwait junk_pcb) (pcb_name junk_pcb) (pcb_thread junk_pcb) (parentID junk_pcb), σ).

(** [PCB::SetFileName], into an array of 255 bytes *)
Definition PCB_SetFileName (b : PCB) (fn : list Z) : outcome PCB :=
  if 255 <? lenZ fn + 1 then Undefined else Ok (with_name b fn).

(** [PCB::~PCB]: the address space of the thread is deleted first, although the thread still
    points to it.  [Finish] does not return, so what follows it in the destructor and in its
    callers is never executed. *)
Definition PCB_delete (σ : Procs) (b : PCB) : outcome Procs :=
  σ ← delete_sem σ (joinsem b);
  σ ← delete_sem σ (exitsem b);
  σ ← delete_sem σ (multex b);
  match pcb_thread b with
  | Some t =>
      th ← deref (threads (ker σ) !! t);
      let σ := set_ker σ (set_threads (ker σ) (<[t := Thread_FreeSpace th]> (threads (ker σ)))) in
      _ ← ASSERT (bool_decide (t = me σ));
      k ← Thread_Finish (ker σ);
      Ok (set_ker σ k)
  | None => Undefined
  end.

(** [PCB::Exec] up to [multex->P()], and what follows *)
Definition PCB_Exec (σ : Procs) (b : PCB) (filename : list Z) (pid : Z) : piece := at_P σ (multex b) (ExecMultex pid filename).
Definition PCB_Exec_forks (σ : Procs) (filename : list Z) (pid : Z) : outcome (Procs * Z) :=
  b ← the_pcb σ pid;
  let t := nextThread σ in
  let th := Thread_new junk_regs in
  let th := mkThread (t_status th) (at_ th) (stack th) (userRegisters th) (space th) pid (exitStatus th) in
  parent ← my_pid σ;
  let σ := mkProcs (set_threads (ker σ) (<[t := th]> (threads (ker σ)))) (ptab σ) (stab σ) (frames σ) (<[t := Some filename]> (names σ))
             (pending σ) (nextSem σ) (Pos.succ t) in
  let b := with_parent (with_thread b (Some t)) parent in
  k ← Thread_Fork (ker σ) t;
  σ ← do_V (set_pcb (set_ker σ k) pid b) (multex b);
  Ok (σ, pid).

(** The rest of [PCB::IncNumWait] and [PCB::DecNumWait] after their [P] *)
Definition PCB_IncNumWait (σ : Procs) (i : Z) : outcome Procs :=
  b ← the_pcb σ i;
  do_V (set_pcb σ i (with_numwait b (wrap_s32 (numwait b + 1)))) (multex b).
Definition PCB_DecNumWait (σ : Procs) (i : Z) : outcome Procs :=
  b ← the_pcb σ i;
  do_V (if numwait b =? 0 then σ else set_pcb σ i (with_numwait b (wrap_s32 (numwait b - 1)))) (multex b).

(** ** ptable.cc *)

(** [PTable::PTable]; [storage] is the uninitialised array of the bitmap, [t] the
    uninitialised object. *)
Definition PTable_new (σ : Procs) (size : Z) (storage : list Z) : outcome Procs :=
  if (size <? 0) || (10 <? size) then Ok σ
  else
    bm ← BitMap_new size storage;
    bm ← BitMap_Mark bm 0;
    let '(s, σ) := new_sem σ 1 in
    let '(b, σ) := PCB_new σ in
    Ok (set_ptab σ (mkPTable size bm ((replicate (Z.to_nat size) None).[0 <- Some (with_parent b (-1))]) s)).

(** [PTable::GetFreeSlot], from [i] on *)
Fixpoint free_slot (n : nat) (i : Z) (σ : Procs) : outcome Z :=
  match n with
  | O => Ok (-1)
  | S n => p ← pcb_at σ i; if (p : option PCB) then free_slot n (i + 1) σ else Ok i
  end.
Definition PTable_GetFreeSlot (σ : Procs) : outcome Z := free_slot (Z.to_nat (psize (ptab σ))) 0 σ.

(** [PTable::IsExist] *)
Definition PTable_IsExist (σ : Procs) (pid : Z) : outcome bool := p ← pcb_at σ pid; Ok (bool_decide (is_Some p)).

(** [PTable::ExecUpdate] up to [bmsem->P()], from there to [multex->P()], and to the end *)
Definition PTable_ExecUpdate (σ : Procs) (name : list Z) : piece := at_P σ (bmsem (ptab σ)) (ExecBmsem name).
Definition ExecUpdate_fails (σ : Procs) : piece := σ ← do_V σ (bmsem (ptab σ)); Ok (σ, Some (-1)).
Definition ExecUpdate_checks (σ : Procs) (name : list Z) : piece :=
  match host name with
  | None => ExecUpdate_fails σ
  | Some _ =>
      n ← deref (names σ !! me σ);
      n ← deref n;
      if bool_decide (name = n) then ExecUpdate_fails σ
      else
        index ← PTable_GetFreeSlot σ;
        if index <? 0 then ExecUpdate_fails σ
        else
          parent ← my_pid σ;
          let '(b, σ) := PCB_new σ in
          b ← PCB_SetFileName b name;
          let b := with_parent b parent in
          PCB_Exec (set_pcb σ index b) b name index
  end.
Definition ExecUpdate_ends (σ : Procs) (name : list Z) (index : Z) : piece :=
  '(σ, id) ← PCB_Exec_forks σ name index;
  σ ← do_V σ (bmsem (ptab σ));
  Ok (σ, Some id).

(** [PTable::JoinUpdate] in three pieces *)
Definition PTable_JoinUpdate (σ : Procs) (pid : Z) : piece :=
  if (pid <? 0) || (psize (ptab σ) <=? pid) then Ok (σ, Some (-1))
  else
    p ← pcb_at σ pid;
    cur ← my_pid σ;
    match p with
    | Some b =>
        if negb (parentID b =? cur) then Ok (σ, Some (-1))
        else
          parent ← the_pcb σ (parentID b);
          at_P σ (multex parent) (JoinMultex pid (parentID b))
    | None => Ok (σ, Some (-1))
    end.
Definition JoinUpdate_waits (σ : Procs) (pid parent : Z) : piece :=
  σ ← PCB_IncNumWait σ parent;
  b ← the_pcb σ pid;
  at_P σ (joinsem b) (JoinJoinsem pid).
Definition JoinUpdate_ends (σ : Procs) (pid : Z) : piece :=
  b ← the_pcb σ pid;
  σ ← do_V σ (exitsem b);
  Ok (σ, Some (exitcode b)).

(** [PTable::Remove] *)
Definition PTable_Remove (σ : Procs) (pid : Z) : outcome (Procs * bool) :=
  p ← pcb_at σ pid;
  match p with
  | Some b => σ ← PCB_delete σ b; Ok (σ, false)
  | None => Ok (σ, true)
  end.

(** [PTable::ExitUpdate] in three pieces; the last one returns only if [Remove] does. *)
Definition PTable_ExitUpdate (σ : Procs) (extcode : Z) : piece :=
  pid ← my_pid σ;
  if pid =? 0 then Halt
  else
    exists_ ← PTable_IsExist σ pid;
    if negb exists_ then Ok (σ, Some (-1))
    else
      b ← the_pcb σ pid;
      let σ := set_pcb σ pid (with_exitcode b extcode) in
      parent ← the_pcb σ (parentID b);
      at_P σ (multex parent) (ExitMultex pid (parentID b) extcode).
Definition ExitUpdate_waits (σ : Procs) (pid parent extcode : Z) : piece :=
  σ ← PCB_DecNumWait σ parent;
  b ← the_pcb σ pid;
  σ ← do_V σ (joinsem b);
  at_P σ (exitsem b) (ExitExitsem pid extcode).
Definition ExitUpdate_ends (σ : Procs) (pid extcode : Z) : piece :=
  '(σ, returned) ← PTable_Remove σ pid;
  Ok (σ, if returned : bool then Some extcode else None).

(** [PTable::GetFileName] *)
Definition PTable_GetFileName (σ : Procs) (id : Z) : outcome (list Z) := b ← the_pcb σ id; Ok (pcb_name b).

(** ** progtest.cc *)

(** [StartProcess_2] up to [machine->Run()], in a thread that was just forked *)
Definition StartProcess_2 (σ : Procs) (id : Z) : outcome Procs :=
  fileName ← PTable_GetFileName σ id;
  '(sp, m, bm) ← AddrSpace_load_name (host fileName) junk_space junk_header (cpu (ker σ)) (frames σ);
  k ← StartProcess_enter (set_cpu (ker σ) m) sp;
  Ok (set_frames (set_ker σ k) bm).

(** [StartProcess]: without the file it returns. *)
Definition StartProcess (σ : Procs) (filename : list Z) : outcome Procs :=
  match host filename with
  | None => Ok σ
  | Some content =>
      '(sp, m, bm) ← AddrSpace_load content junk_header (cpu (ker σ)) (frames σ);
      k ← StartProcess_enter (set_cpu (ker σ) m) sp;
      Ok (set_frames (set_ker σ k) bm)
  end.

(** ** exception.cc *)

(** The string argument in register [r]. *)
Definition name_arg (σ : Procs) (r limit : Z) : outcome (list Z * Procs) :=
  a ← Machine_ReadRegister (cpu (ker σ)) r;
  '(buf, m) ← User2System (cpu (ker σ)) a limit;
  Ok (cstr buf, set_ker σ (set_cpu (ker σ) m)).

Definition Exception_Exec (σ : Procs) : piece :=
  '(name, σ) ← name_arg σ 4 33;
  match host name with None => Ok (σ, Some (-1)) | Some _ => PTable_ExecUpdate σ name end.
Definition Exception_Join (σ : Procs) : piece := id ← Machine_ReadRegister (cpu (ker σ)) 4; PTable_JoinUpdate σ id.
Definition Exception_Exit (σ : Procs) : piece := st ← Machine_ReadRegister (cpu (ker σ)) 4; PTable_ExitUpdate σ st.
Definition Exception_CreateSemaphore (σ : Procs) : piece :=
  semval ← Machine_ReadRegister (cpu (ker σ)) 5;
  '(name, σ) ← name_arg σ 4 255;
  '(r, tab, k) ← STable_Create (stab σ) (ker σ) (nextSem σ) name semval;
  Ok (mkProcs k (ptab σ) tab (frames σ) (names σ) (pending σ) (Pos.succ (nextSem σ)) (nextThread σ), Some (if r =? -1 then -1 else 0)).
Definition Exception_Wait (σ : Procs) : piece :=
  '(name, σ) ← name_arg σ 4 255;
  '(r, k) ← STable_Wait (stab σ) (ker σ) name;
  if r =? -1 then Ok (set_ker σ k, Some r) else Ok (set_pending (set_ker σ k) (<[me σ := WaitSem]> (pending σ)), None).
Definition Exception_Signal (σ : Procs) : piece :=
  '(name, σ) ← name_arg σ 4 255;
  '(r, k) ← STable_Signal (stab σ) (ker σ) name;
  Ok (set_ker σ k, Some r).

(** The end of a call that returns [v]: [WriteRegister(2, v)] and
    [Increase_ProgramCounter]; a call that still waits ends later. *)
Definition return_to_user (r : Procs * option Z) : outcome Procs :=
  let '(σ, v) := r in
  match v with
  | None => Ok σ
  | Some v =>
      m ← Machine_WriteRegister (cpu (ker σ)) 2 v;
      m ← Increase_ProgramCounter m;
      Ok (set_pending (set_ker σ (set_cpu (ker σ) m)) (delete (me σ) (pending σ)))
  end.

(** [delete[] name] at the end of [Exception_Exec] frees the name of the new thread. *)
Definition free_name (σ : Procs) (index : Z) : outcome Procs :=
  b ← the_pcb σ index;
  t ← deref (pcb_thread b);
  Ok (set_names σ (<[t := None]> (names σ))).

Definition SC_Exit : Z := 1.
Definition SC_Exec : Z := 2.
Definition SC_Join : Z := 3.
Definition SC_CreateSemaphore : Z := 18.
Definition SC_Wait : Z := 19.
Definition SC_Signal : Z := 20.

(** What happens to the processes: Exec has taken a slot for a new one, a process has called
    Exit, Join has returned. *)
Inductive event := Quiet | Started (pid : Z) | Exited (pid code : Z) | Joined (pid code : Z).
#[export] Instance event_eq_dec : EqDecision event.
Proof. solve_decision. Defined.

Definition is_process_call (type : Z) : bool :=
  (type =? SC_Exit) || (type =? SC_Exec) || (type =? SC_Join) || (type =? SC_CreateSemaphore) || (type =? SC_Wait) || (type =? SC_Signal).

(** The first piece of the call that the current thread makes, one of the six. *)
Definition process_call (σ : Procs) : outcome (Procs * event) :=
  type ← Machine_ReadRegister (cpu (ker σ)) 2;
  if type =? SC_Exit then
    pid ← my_pid σ;
    code ← Machine_ReadRegister (cpu (ker σ)) 4;
    r ← Exception_Exit σ;
    σ ← return_to_user r;
    Ok (σ, match r.2 with None => Exited pid code | Some _ => Quiet end)
  else
    r ← (if type =? SC_Exec then Exception_Exec σ
         else if type =? SC_Join then Exception_Join σ
         else if type =? SC_CreateSemaphore then Exception_CreateSemaphore σ
         else if type =? SC_Wait then Exception_Wait σ
         else Exception_Signal σ);
    σ ← return_to_user r;
    Ok (σ, Quiet).

(** The next piece of a call, once its [P] is over. *)
Definition continue (σ : Procs) (p : point) : outcome (Procs * event) :=
  match p with
  | ExecBmsem name =>
      r ← ExecUpdate_checks σ name;
      σ' ← return_to_user r;
      Ok (σ', match pending σ' !! me σ with Some (ExecMultex index _) => Started index | _ => Quiet end)
  | ExecMultex index name =>
      r ← ExecUpdate_ends σ name index;
      σ ← return_to_user r;
      σ ← free_name σ index;
      Ok (σ, Quiet)
  | JoinMultex pid parent => r ← JoinUpdate_waits σ pid parent; σ ← return_to_user r; Ok (σ, Quiet)
  | JoinJoinsem pid =>
      r ← JoinUpdate_ends σ pid;
      σ ← return_to_user r;
      Ok (σ, match r.2 with Some v => Joined pid v | None => Quiet end)
  | ExitMultex pid parent code => r ← ExitUpdate_waits σ pid parent code; σ ← return_to_user r; Ok (σ, Quiet)
  | ExitExitsem pid code => r ← ExitUpdate_ends σ pid code; σ ← return_to_user r; Ok (σ, Quiet)
  | WaitSem => σ ← return_to_user (σ, Some 0); Ok (σ, Quiet)
  end.

(** ** Steps of the system *)

(** What the scheduler and the user programs do between the pieces of the calls. *)
Inductive quiet (k : Kernel) : Kernel -> Prop :=
| quiet_Yield k' : in_thread k -> Thread_Yield k = Ok k' -> quiet k k'
| quiet_dispatch k' : idle k = true -> readyList k <> [] -> dispatch k = Ok k' -> quiet k k'
| quiet_resume k' : idle k = false -> current_at k <> Some InThread -> resume k = Ok k' -> quiet k k'
| quiet_user m : in_thread k -> lenZ (registers m) = NumTotalRegs -> quiet k (set_cpu k m).

(** The current thread runs a user program. *)
Definition in_user (σ : Procs) : Prop :=
  in_thread (ker σ) /\ pending σ !! me σ = None /\ exists th sp, threads (ker σ) !! me σ = Some th /\ space th = Some sp.

Inductive proc_step (σ : Procs) : event -> Procs -> Prop :=
| ps_quiet k' : quiet (ker σ) k' -> proc_step σ Quiet (set_ker σ k')
| ps_call type σ' e :
    in_user σ -> Machine_ReadRegister (cpu (ker σ)) 2 = Ok type -> is_process_call type = true ->
    process_call σ = Ok (σ', e) -> proc_step σ e σ'
| ps_continue p σ' e :
    in_thread (ker σ) -> pending σ !! me σ = Some p -> continue σ p = Ok (σ', e) -> proc_step σ e σ'
| ps_start th σ' :
    in_thread (ker σ) -> pending σ !! me σ = None -> threads (ker σ) !! me σ = Some th -> space th = None -> processID th <> 0 ->
    StartProcess_2 σ (processID th) = Ok σ' -> proc_step σ Quiet σ'
| ps_main th filename σ' :
    in_thread (ker σ) -> pending σ !! me σ = None -> threads (ker σ) !! me σ = Some th -> space th = None -> processID th = 0 ->
    StartProcess σ filename = Ok σ' -> proc_step σ Quiet σ'.

Inductive proc_steps : Procs -> list event -> Procs -> Prop :=
| pss_refl σ : proc_steps σ [] σ
| pss_snoc σ es σ1 e σ2 : proc_steps σ es σ1 -> proc_step σ1 e σ2 -> proc_steps σ (es ++ [e]) σ2.

(** *** What the kernel routines leave alone *)

Definition at_of (k : Kernel) (t : positive) : option resume_point := at_ <$> threads k !! t.
Definition sv (k : Kernel) (s : positive) : option Z := value <$> semaphores k !! s.

Lemma at_upd k t f k' :
  upd_thread k t f = Ok k' -> (forall th, at_ (f th) = at_ th) ->
  (forall u, at_of k' u = at_of k u) /\ semaphores k' = semaphores k /\ currentThread k' = currentThread k.
Proof.
  unfold upd_thread, at_of. destruct (threads k !! t) as [th|] eqn:E; [|done]. intros [= <-] Hf. conjs; [|done|done]. simpl.
  intros u. lk t u; [|done]. by rewrite E; simpl; rewrite Hf.
Qed.

Lemma at_upd_to k t f a k' :
  upd_thread k t f = Ok k' -> (forall th, at_ (f th) = a) ->
  at_of k' t = Some a /\ (forall u, u <> t -> at_of k' u = at_of k u) /\ semaphores k' = semaphores k /\ currentThread k' = currentThread k.
Proof.
  unfold upd_thread, at_of. destruct (threads k !! t) as [th|] eqn:E; [|done]. intros [= <-] Hf. conjs; [| |done|done]; simpl.
  - rewrite lookup_insert_eq. simpl. by rewrite Hf.
  - intros u Hu. by rewrite lookup_insert_ne.
Qed.

Lemma at_Run k n k' : Scheduler_Run k n = Ok k' -> (forall u, at_of k' u = at_of k u) /\ semaphores k' = semaphores k.
Proof.
  unfold Scheduler_Run. intros H. apply bind_Ok_inv in H as (old & Eo & H). apply bind_Ok_inv in H as (old' & Eo' & H).
  apply bind_Ok_inv in H as (_ & _ & H). apply at_upd in H as (Ha & Hs & _); [|done].
  assert (Hold : at_ old' = at_ old).
  { destruct (space old); [|by simplify_eq]. apply bind_Ok_inv in Eo' as (o & E & Eo'). simplify_eq.
    unfold Thread_SaveUserState in E. apply bind_Ok_inv in E as (? & _ & E). by simplify_eq. }
  apply deref_Ok_inv in Eo. split; [|rewrite Hs; by destruct (space old')]. intros u. rewrite Ha. unfold at_of. destruct (space old'); simpl;
    lk (currentThread k) u; rewrite ?Eo; simpl; congruence.
Qed.

Lemma at_dispatch k k' : dispatch k = Ok k' -> (forall u, at_of k' u = at_of k u) /\ semaphores k' = semaphores k.
Proof.
  unfold dispatch, Scheduler_FindNextToRun. destruct (readyList k) as [|t r]; [by intros [= <-]|]. intros H. exact (at_Run _ _ _ H).
Qed.

Lemma at_Sleep k a k' :
  Thread_Sleep k a = Ok k' ->
  at_of k' (currentThread k) = Some a /\ (forall u, u <> currentThread k -> at_of k' u = at_of k u) /\ semaphores k' = semaphores k.
Proof.
  unfold Thread_Sleep. intros H. apply bind_Ok_inv in H as (k1 & E & H). apply (at_upd_to _ _ _ a) in E as (H1 & H2 & H3 & _); [|done].
  destruct (at_dispatch _ _ H) as [H4 H5]. rewrite H4, H5, H1. conjs; [done| |done]. intros u Hu. rewrite H4. by apply H2.
Qed.
Lemma at_P_loop k s k' :
  P_loop k s = Ok k' ->
  exists v, sv k s = Some v /\ (forall u, u <> currentThread k -> at_of k' u = at_of k u) /\ (forall r, r <> s -> sv k' r = sv k r) /\
    ((v = 0 /\ at_of k' (currentThread k) = Some (InP s) /\ sv k' s = Some 0) \/
     (v <> 0 /\ at_of k' (currentThread k) = Some InThread /\ sv k' s = Some (wrap_s32 (v - 1)) /\ currentThread k' = currentThread k)).
Proof.
  unfold P_loop. intros H. apply bind_Ok_inv in H as (sem & E & H). apply deref_Ok_inv in E. exists (value sem).
  unfold sv. rewrite E. split; [done|]. destruct (Z.eqb_spec (value sem) 0) as [Hz|Hz].
  - apply at_Sleep in H as (H1 & H2 & H3). cbn [currentThread set_sems] in *. rewrite H3. cbn [semaphores set_sems]. conjs; [exact H2| |left].
    + intros r Hr. by rewrite lookup_insert_ne.
    + conjs; [done|done|]. rewrite lookup_insert_eq. simpl. by rewrite Hz.
  - apply bind_Ok_inv in H as (k1 & E1 & H). injection H as <-. apply (at_upd_to _ _ _ InThread) in E1 as (H1 & H2 & H3 & H4); [|done].
    conjs; [exact H2| |right]; cbn [semaphores set_sems currentThread]; rewrite ?H3.
    + intros r Hr. by rewrite lookup_insert_ne.
    + conjs; [done|exact H1|by rewrite lookup_insert_eq|exact H4].
Qed.

Lemma at_ReadyToRun k t k' :
  Scheduler_ReadyToRun k t = Ok k' -> (forall u, at_of k' u = at_of k u) /\ semaphores k' = semaphores k /\ currentThread k' = currentThread k.
Proof. unfold Scheduler_ReadyToRun. intros H. apply bind_Ok_inv in H as (k1 & E & H). injection H as <-. exact (at_upd _ _ _ _ E (fun _ => eq_refl)). Qed.

Lemma at_V k s k' :
  Semaphore_V k s = Ok k' ->
  exists v, sv k s = Some v /\ (forall u, at_of k' u = at_of k u) /\ (forall r, r <> s -> sv k' r = sv k r) /\
    sv k' s = Some (wrap_s32 (v + 1)) /\ currentThread k' = currentThread k.
Proof.
  unfold Semaphore_V. intros H. apply bind_Ok_inv in H as (sem & E & H). apply deref_Ok_inv in E. apply bind_Ok_inv in H as (k1 & E1 & H).
  injection H as <-. exists (value sem). unfold sv. rewrite E. split; [done|].
  assert ((forall u, at_of k1 u = at_of k u) /\ semaphores k1 = semaphores k /\ currentThread k1 = currentThread k) as (H1 & H2 & H3).
  { destruct (queue sem); [by injection E1 as <-|exact (at_ReadyToRun _ _ _ E1)]. }
  conjs; cbn [semaphores set_sems currentThread]; rewrite ?H2; [exact H1| |by rewrite lookup_insert_eq|exact H3].
  intros r Hr. by rewrite lookup_insert_ne.
Qed.

Lemma at_Fork k t k' :
  Thread_Fork k t = Ok k' ->
  at_of k' t = Some Fresh /\ (forall u, u <> t -> at_of k' u = at_of k u) /\ semaphores k' = semaphores k /\ currentThread k' = currentThread k.
Proof.
  unfold Thread_Fork. intros H. apply bind_Ok_inv in H as (k1 & E & H). apply (at_upd_to _ _ _ Fresh) in E as (H1 & H2 & H3 & H4); [|done].
  apply at_ReadyToRun in H as (H5 & H6 & H7). conjs; [by rewrite H5|intros u Hu; rewrite H5; by apply H2|congruence|congruence].
Qed.

Lemma at_Run_after k k' :
  Scheduler_Run_after k = Ok k' ->
  (forall u a, at_of k' u = Some a -> at_of k u = Some a) /\ semaphores k' = semaphores k /\ currentThread k' = currentThread k /\
  at_of k' (currentThread k) = at_of k (currentThread k).
Proof.
  unfold Scheduler_Run_after. intros H. apply bind_Ok_inv in H as (k1 & E1 & H). apply bind_Ok_inv in H as (th & _ & H).
  assert ((forall u a, at_of k1 u = Some a -> at_of k u = Some a) /\ semaphores k1 = semaphores k /\ currentThread k1 = currentThread k /\
    at_of k1 (currentThread k) = at_of k (currentThread k)) as (H1 & H2 & H3 & H4).
  { unfold destroy_doomed in E1. destruct (threadToBeDestroyed k) as [d|]; [|by injection E1 as <-].
    apply bind_Ok_inv in E1 as (u0 & Ha & E1). apply ASSERT_Ok_inv, negb_true_iff, bool_decide_eq_false in Ha. injection E1 as <-.
    unfold at_of. simpl. conjs; [|done|done|by rewrite lookup_delete_ne].
    intros u a. destruct (decide (d = u)) as [->|]; [by rewrite lookup_delete_eq|by rewrite lookup_delete_ne]. }
  destruct (space th); [apply bind_Ok_inv in H as (m & _ & H)|]; injection H as <-; conjs; first [exact H1|exact H2|exact H3|exact H4].
Qed.

(** Between the pieces of the calls no semaphore gains a value, and a thread leaves a [P]
    only when the value was not zero. *)
Definition not_waiting (a : resume_point) : Prop := forall s, a <> InP s.

Record calm (k k' : Kernel) : Prop := {
  calm_at : forall t a', at_of k' t = Some a' -> exists a, at_of k t = Some a /\
    (a' = a \/ (not_waiting a' /\ forall s, a = InP s -> exists v, sv k s = Some v /\ v <> 0));
  calm_sv : forall s, match sv k s with
    | None => sv k' s = None
    | Some v => exists v', sv k' s = Some v' /\ (v' <> 0 -> v <> 0)
    end }.

Lemma calm_same k k' :
  (forall t a', at_of k' t = Some a' -> exists a, at_of k t = Some a /\
    (a' = a \/ (not_waiting a' /\ forall s, a = InP s -> exists v, sv k s = Some v /\ v <> 0))) ->
  semaphores k' = semaphores k -> calm k k'.
Proof. intros Ha Hs. split; [exact Ha|]. intros s. unfold sv. rewrite Hs. destruct (semaphores k !! s) as [sem|]; simpl; [by eexists|done]. Qed.

Lemma calm_P k s k' : P_loop k s = Ok k' -> at_of k (currentThread k) = Some (InP s) -> calm k k'.
Proof.
  intros H Ha. apply at_P_loop in H as (v & Hv & H1 & H2 & H3). split.
  - intros t a' Ha'. destruct (decide (t = currentThread k)) as [->|Ht]; [|rewrite H1 in Ha' by done; exists a'; auto].
    exists (InP s). split; [done|]. destruct H3 as [(-> & E & _)|(Hnz & E & _)]; rewrite E in Ha'; injection Ha' as <-; [by left|].
    right. split; [done|]. intros r [= <-]. by exists v.
  - intros r. destruct (decide (r = s)) as [->|Hr]; [|rewrite H2 by done; destruct (sv k r) as [w|]; [by exists w|done]].
    rewrite Hv. destruct H3 as [(-> & _ & E)|(Hnz & _ & E & _)]; [by exists 0|]. by eexists.
Qed.

Lemma calm_before k0 k k' :
  (forall u a, at_of k u = Some a -> at_of k0 u = Some a) -> semaphores k = semaphores k0 -> calm k k' -> calm k0 k'.
Proof.
  intros Ha Hs [C1 C2]. assert (Hsv : forall s, sv k0 s = sv k s) by (intros s; unfold sv; by rewrite Hs). split.
  - intros t a' (a & H1 & H2)%C1. exists a. split; [by apply Ha|]. destruct H2 as [->|[H2 H3]]; [by left|right]. split; [done|].
    intros s. rewrite Hsv. apply H3.
  - intros s. rewrite Hsv. apply C2.
Qed.

(** The current thread leaves [Yield], starts, or is put back on the ready list. *)
Lemma calm_to k a k' :
  not_waiting a -> (forall s, at_of k (currentThread k) <> Some (InP s)) -> is_Some (at_of k (currentThread k)) ->
  at_of k' (currentThread k) = Some a -> (forall u, u <> currentThread k -> at_of k' u = at_of k u) -> semaphores k' = semaphores k -> calm k k'.
Proof.
  intros Hw Hn [a0 H0] H1 H2 H3. apply calm_same; [|done]. intros t a' Ha'. destruct (decide (t = currentThread k)) as [->|Ht].
  - rewrite H1 in Ha'. injection Ha' as <-. exists a0. split; [done|]. right. split; [done|]. intros s ->. by destruct (Hn s).
  - rewrite H2 in Ha' by done. exists a'. auto.
Qed.

Lemma quiet_calm k k' : quiet k k' -> calm k k'.
Proof.
  intros [k1 [Hi Hc] E|k1 _ _ E|k1 Hi Hc E|m _ _]; [| | |by apply calm_same; [intros t a Ha; exists a; auto|]].
  - change (current_at k) with (at_of k (currentThread k)) in Hc.
    unfold Thread_Yield, Scheduler_FindNextToRun in E. destruct (readyList k) as [|t r]; [injection E as <-; apply calm_same; [intros u a Ha; exists a; auto|done]|].
    apply bind_Ok_inv in E as (k2 & E2 & E). apply bind_Ok_inv in E as (k3 & E3 & E). apply at_Run in E as [H1 H2].
    apply at_ReadyToRun in E2 as (H3 & H4 & H5). cbn [set_ready currentThread] in *. apply (at_upd_to _ _ _ InYield) in E3 as (H6 & H7 & H8 & H9); [|done].
    apply (calm_to k InYield); [done|by rewrite Hc|by rewrite Hc|by rewrite H1, <- H5| |cbn [set_ready semaphores] in H4; congruence].
    intros u Hu. rewrite H1, H7 by congruence. by rewrite H3.
  - apply at_dispatch in E as [H1 H2]. apply calm_same; [|done]. intros t a. rewrite H1. intros Ha. exists a. auto.
  - unfold resume in E. apply bind_Ok_inv in E as (th & Et & E). apply deref_Ok_inv in Et.
    assert (Hat : at_of k (currentThread k) = Some (at_ th)) by (unfold at_of; by rewrite Et). destruct (at_ th) as [| | |s|] eqn:Ea; [| | | |done].
    + apply (at_upd_to _ _ _ InThread) in E as (H1 & H2 & H3 & _); [|done]. apply (calm_to k InThread); [done|by rewrite Hat|by rewrite Hat|done|done|done].
    + injection E as <-. apply calm_same; [intros u a Ha; exists a; auto|done].
    + apply bind_Ok_inv in E as (k2 & E2 & E). apply at_Run_after in E2 as (H1 & H2 & H3 & H4).
      apply (at_upd_to _ _ _ InThread) in E as (H5 & H6 & H7 & _); [|done]. apply (calm_before k k2); [done|done|].
      apply (calm_to k2 InThread); rewrite ?H3; [done|by rewrite H4, Hat|by rewrite H4, Hat|by rewrite <- H3|intros u Hu; apply H6; congruence|done].
    + apply bind_Ok_inv in E as (k2 & E2 & E). apply at_Run_after in E2 as (H1 & H2 & H3 & H4). apply (calm_before k k2); [done|done|].
      apply (calm_P k2 s); [done|]. by rewrite H3, H4.
Qed.
(** *** The invariant of Join and Exit *)

(** The uses of the semaphores. *)
Inductive role := RBm | RJoin (i : Z) | RExit (i : Z) | RMultex (i : Z) | RNamed (i : Z).
Definition pcb_of (σ : Procs) (i : Z) : option PCB := match (pcb (ptab σ)).[i] with Some p => p | None => None end.
Definition role_sem (σ : Procs) (r : role) : option positive :=
  match r with
  | RBm => Some (bmsem (ptab σ))
  | RJoin i => joinsem <$> pcb_of σ i
  | RExit i => exitsem <$> pcb_of σ i
  | RMultex i => multex <$> pcb_of σ i
  | RNamed i => match (semTab (stab σ)).[i] with Some (Some e) => Some (sem_sem e) | _ => None end
  end.

(** Process [i] has called Exit with the code in its [PCB]. *)
Definition has_left (σ : Procs) (tr : list event) (i : Z) : Prop := exists b, pcb_of σ i = Some b /\ Exited i (exitcode b) ∈ tr.

(** No semaphore has two uses; the join semaphore of a process has a value, and a thread is
    past it, only when the process has called Exit. *)
Record pinv (σ : Procs) (tr : list event) : Prop := {
  pi_old : forall r s, role_sem σ r = Some s -> (s < nextSem σ)%positive;
  pi_inj : forall r1 r2 s, role_sem σ r1 = Some s -> role_sem σ r2 = Some s -> r1 = r2;
  pi_value : forall i s v, role_sem σ (RJoin i) = Some s -> sv (ker σ) s = Some v -> v <> 0 -> has_left σ tr i;
  pi_join : forall t a i, at_of (ker σ) t = Some a -> pending σ !! t = Some (JoinJoinsem i) ->
    (exists s, role_sem σ (RJoin i) = Some s /\ a = InP s) \/ has_left σ tr i;
  pi_exit : forall t i p c, pending σ !! t = Some (ExitMultex i p c) -> has_left σ tr i;
  pi_threads : forall t, is_Some (at_of (ker σ) t) \/ is_Some (pending σ !! t) -> (t < nextThread σ)%positive;
  pi_sems : forall s, is_Some (sv (ker σ) s) -> (s < nextSem σ)%positive }.

(** The invariant looks at few parts of the state. *)
Record like (σ σ' : Procs) : Prop := {
  like_pcb : forall i, pcb_of σ' i = pcb_of σ i;
  like_bm : bmsem (ptab σ') = bmsem (ptab σ);
  like_tab : semTab (stab σ') = semTab (stab σ);
  like_next : nextSem σ' = nextSem σ;
  like_thread : nextThread σ' = nextThread σ;
  like_psize : psize (ptab σ') = psize (ptab σ) }.

Lemma like_role σ σ' r : like σ σ' -> role_sem σ' r = role_sem σ r.
Proof. intros [H1 H2 H3 _ _ _]. destruct r; cbn [role_sem]; rewrite ?H1, ?H2, ?H3; done. Qed.

Lemma like_left σ σ' tr i : like σ σ' -> has_left σ' tr i <-> has_left σ tr i.
Proof. intros [H _ _ _ _ _]. unfold has_left. by rewrite H. Qed.

Lemma left_more σ tr e i : has_left σ tr i -> has_left σ (tr ++ [e]) i.
Proof. intros (b & H1 & H2). exists b. split; [done|]. apply elem_of_app. by left. Qed.

Lemma pinv_more σ tr e : pinv σ tr -> pinv σ (tr ++ [e]).
Proof.
  intros [H1 H2 H3 H4 H5 H6 H7]. split; [done|done| | | |done|done].
  - intros. eapply left_more, H3; eauto.
  - intros t a i Ha Hp. destruct (H4 t a i Ha Hp); [by left|right; by apply left_more].
  - intros. eapply left_more, H5; eauto.
Qed.

(** The kernel moves on without touching the calls. *)
Lemma pinv_calm σ σ' tr : pinv σ tr -> like σ σ' -> pending σ' = pending σ -> calm (ker σ) (ker σ') -> pinv σ' tr.
Proof.
  intros [H1 H2 H3 H4 H5 H6 H7] Hl Hp [C1 C2]. pose proof Hl as [_ _ _ Hn Ht _]. split.
  - intros r s. rewrite (like_role _ _ _ Hl), Hn. apply H1.
  - intros r1 r2 s. rewrite !(like_role _ _ _ Hl). apply H2.
  - intros i s v. rewrite (like_role _ _ _ Hl), (like_left _ _ _ _ Hl). intros Hr Hv Hz. specialize (C2 s).
    destruct (sv (ker σ) s) as [v0|] eqn:E; [|congruence]. destruct C2 as (v' & E' & Hz'). apply (H3 i s v0 Hr E). apply Hz'. congruence.
  - intros t a' i Ha' Hpe. rewrite (like_role _ _ _ Hl), (like_left _ _ _ _ Hl). rewrite Hp in Hpe. apply C1 in Ha' as (a & Ha & Hc).
    destruct (H4 t a i Ha Hpe) as [(s & Hs & ->)|?]; [|by right]. destruct Hc as [->|[_ Hc]]; [left; by exists s|]. right.
    destruct (Hc s eq_refl) as (v & Hv & Hz). exact (H3 i s v Hs Hv Hz).
  - intros t i p c. rewrite Hp, (like_left _ _ _ _ Hl). apply H5.
  - intros t. rewrite Hp, Ht. intros [[a' Ha']|Hs]; [|apply H6; by right]. apply C1 in Ha' as (a & Ha & _). apply H6. left. by eexists.
  - intros s [v Hv]. rewrite Hn. specialize (C2 s). destruct (sv (ker σ) s) as [v0|] eqn:E; [apply H7; by rewrite E|congruence].
Qed.

(** What no step takes back: the entries of the table keep their semaphores, a deleted
    semaphore and a freed name stay so. *)
Definition same_sems (b b' : PCB) : Prop := joinsem b' = joinsem b /\ exitsem b' = exitsem b /\ multex b' = multex b.

Record evolves (σ σ' : Procs) : Prop := {
  ev_pcb : forall i b, pcb_of σ i = Some b -> exists b', pcb_of σ' i = Some b' /\ same_sems b b';
  ev_dead : forall s, (s < nextSem σ)%positive -> sv (ker σ) s = None -> sv (ker σ') s = None;
  ev_names : forall t, (t < nextThread σ)%positive -> names σ !! t = Some None -> names σ' !! t = Some None;
  ev_sem : (nextSem σ <= nextSem σ')%positive;
  ev_thread : (nextThread σ <= nextThread σ')%positive;
  ev_psize : psize (ptab σ') = psize (ptab σ) }.

Lemma evolves_trans σ1 σ2 σ3 : evolves σ1 σ2 -> evolves σ2 σ3 -> evolves σ1 σ3.
Proof.
  intros [A1 A2 A3 A4 A5 A6] [B1 B2 B3 B4 B5 B6]. split; [| | |lia|lia|congruence].
  - intros i b H. destruct (A1 i b H) as (b' & H' & ? & ? & ?). destruct (B1 i b' H') as (b'' & H'' & ? & ? & ?). exists b''. split; [done|].
    unfold same_sems. conjs; congruence.
  - intros s Hs H. apply B2; [lia|]. by apply A2.
  - intros t Ht H. apply B3; [lia|]. by apply A3.
Qed.

Lemma evolves_like σ σ' : like σ σ' -> names σ' = names σ -> (forall s, sv (ker σ) s = None -> sv (ker σ') s = None) -> evolves σ σ'.
Proof.
  intros [H1 _ _ H4 H5 H6] Hn Hs. split; [|by intros s _; apply Hs|by rewrite Hn|lia|lia|done].
  intros i b H. exists b. rewrite H1. by split.
Qed.

(** A [V] on a semaphore that is no join semaphore, or on that of a process that has called Exit. *)
Lemma pinv_V σ s σ' tr :
  do_V σ s = Ok σ' -> pinv σ tr -> (forall i, role_sem σ (RJoin i) = Some s -> has_left σ tr i) ->
  pinv σ' tr /\ like σ σ' /\ evolves σ σ' /\ pending σ' = pending σ /\ me σ' = me σ /\ ptab σ' = ptab σ /\ (forall t, at_of (ker σ') t = at_of (ker σ) t).
Proof.
  unfold do_V. intros H [H1 H2 H3 H4 H5 H6 H7] Hs. apply bind_Ok_inv in H as (k & E & H). injection H as <-.
  apply at_V in E as (v & Hv & A1 & A2 & A3 & A4). conjs; [|by split|apply evolves_like; [by split|done|]|done|exact A4|done|exact A1].
  2: { intros r Hr. cbn [ker set_ker]. rewrite A2; [done|]. intros ->. congruence. }
  split; cbn [ker pending set_ker]; try done.
  - intros i r w Hr Hw Hz. destruct (decide (r = s)) as [->|Hne]; [by apply Hs|]. rewrite A2 in Hw by done. by eapply H3.
  - intros t a i. rewrite A1. apply H4.
  - intros t. rewrite A1. apply H6.
  - intros r Hr. apply H7. destruct (decide (r = s)) as [->|Hne]; [by rewrite Hv|by rewrite A2 in Hr].
Qed.

(** A [P], at a point that fits. *)
Lemma pinv_P σ s p σ' r tr :
  at_P σ s p = Ok (σ', r) -> pinv σ tr -> is_Some (at_of (ker σ) (me σ)) ->
  (forall i, p = JoinJoinsem i -> role_sem σ (RJoin i) = Some s) ->
  (forall i q c, p = ExitMultex i q c -> has_left σ tr i) ->
  pinv σ' tr /\ like σ σ' /\ evolves σ σ' /\ r = None /\ ptab σ' = ptab σ /\ pending σ' = <[me σ := p]> (pending σ).
Proof.
  unfold at_P. intros H [H1 H2 H3 H4 H5 H6 H7] Hme Hj Hx. apply bind_Ok_inv in H as (k & E & H). injection H as <- <-.
  apply at_P_loop in E as (v & Hv & A1 & A2 & A3). fold (me σ) in *. conjs; [|by split|apply evolves_like; [by split|done|]|done|done|done].
  2: { intros r Hr. cbn [ker set_ker set_pending]. rewrite A2; [done|]. intros ->. congruence. }
  assert (Hlike : like σ (set_pending (set_ker σ k) (<[me σ := p]> (pending σ)))) by by split.
  split; cbn [ker pending set_ker set_pending]; try done.
  - intros i r w Hr Hw Hz. destruct (decide (r = s)) as [->|Hne]; [|rewrite A2 in Hw by done; by eapply H3].
    destruct A3 as [(-> & _ & Es)|(Hnz & _ & Es & _)]; [congruence|]. exact (H3 i s v Hr Hv Hnz).
  - intros t a i Ha. destruct (decide (t = me σ)) as [->|Hne].
    + rewrite lookup_insert_eq. intros [= ->]. specialize (Hj i eq_refl). destruct A3 as [(-> & Ea & _)|(Hnz & _ & _ & _)].
      * left. exists s. split; [done|]. congruence.
      * right. exact (H3 i s v Hj Hv Hnz).
    + rewrite lookup_insert_ne by done. rewrite A1 in Ha by done. by apply H4.
  - intros t i q c. destruct (decide (t = me σ)) as [->|Hne]; [rewrite lookup_insert_eq; intros [= ->]; by eapply Hx|].
    rewrite lookup_insert_ne by done. apply H5.
  - intros t Ht. destruct (decide (t = me σ)) as [->|Hne]; [apply H6; by left|]. rewrite lookup_insert_ne in Ht by done. rewrite A1 in Ht by done. by apply H6.
  - intros r Hr. apply H7. destruct (decide (r = s)) as [->|Hne]; [by rewrite Hv|by rewrite A2 in Hr].
Qed.
(** The object behind a slot changes, with the same semaphores. *)
Lemma pcb_of_set σ i b j : 0 <= i < lenZ (pcb (ptab σ)) -> pcb_of (set_pcb σ i b) j = if decide (j = i) then Some b else pcb_of σ j.
Proof.
  intros Hi. unfold pcb_of, set_pcb. cbn [ptab set_ptab pcb]. destruct (decide (j = i)) as [->|Hj]; [by rewrite lookupZ_insertZ_eq|].
  by rewrite lookupZ_insertZ_ne.
Qed.

Lemma pcb_of_range σ i b : pcb_of σ i = Some b -> 0 <= i < lenZ (pcb (ptab σ)).
Proof. unfold pcb_of. destruct ((pcb (ptab σ)).[i]) eqn:E; [|done]. intros _. by eapply lookupZ_Some_range. Qed.

Lemma role_set_pcb σ i b b' r : pcb_of σ i = Some b -> same_sems b b' -> role_sem (set_pcb σ i b') r = role_sem σ r.
Proof.
  intros Hb (S1 & S2 & S3). pose proof (pcb_of_range _ _ _ Hb) as Hi.
  destruct r as [|j|j|j|j]; cbn [role_sem]; try done; rewrite (pcb_of_set σ i b' j Hi); destruct (decide (j = i)) as [->|]; try done; rewrite Hb; simpl; congruence.
Qed.

Definition slots (σ : Procs) : list bool := (fun p => bool_decide (is_Some p)) <$> pcb (ptab σ).

Lemma slots_set_pcb σ i b b' : pcb_of σ i = Some b -> slots (set_pcb σ i b') = slots σ.
Proof.
  intros Hb. pose proof (pcb_of_range _ _ _ Hb) as Hi. unfold slots, set_pcb. cbn [ptab set_ptab pcb]. unfold insertZ.
  rewrite (proj2 (Z.ltb_ge i 0)) by lia. rewrite list_fmap_insert. apply list_insert_id. rewrite list_lookup_fmap.
  unfold pcb_of, lookupZ in Hb. rewrite (proj2 (Z.ltb_ge i 0)) in Hb by lia. destruct (pcb (ptab σ) !! Z.to_nat i) as [p|]; [|done]. by subst p.
Qed.

Lemma pinv_set_pcb σ i b b' tr :
  pcb_of σ i = Some b -> same_sems b b' -> exitcode b' = exitcode b \/ Exited i (exitcode b') ∈ tr -> pinv σ tr ->
  pinv (set_pcb σ i b') tr /\ evolves σ (set_pcb σ i b').
Proof.
  intros Hb Hs Hx [H1 H2 H3 H4 H5 H6 H7]. pose proof (pcb_of_range _ _ _ Hb) as Hi.
  assert (Hr : forall r, role_sem (set_pcb σ i b') r = role_sem σ r) by (intros r; by eapply role_set_pcb).
  assert (Hl : forall j, has_left σ tr j -> has_left (set_pcb σ i b') tr j).
  { intros j (b0 & Hb0 & Hin). unfold has_left. rewrite (pcb_of_set σ i b' j Hi). destruct (decide (j = i)) as [->|]; [|by exists b0].
    exists b'. split; [done|]. rewrite Hb in Hb0. injection Hb0 as <-. destruct Hx as [->|?]; done. }
  split.
  - split; cbn [ker pending nextSem nextThread set_pcb set_ptab]; try done.
    + intros r s. rewrite Hr. apply H1.
    + intros r1 r2 s. rewrite !Hr. apply H2.
    + intros j s v. rewrite Hr. intros. eapply Hl, H3; eauto.
    + intros t a j Ha Hp. rewrite Hr. destruct (H4 t a j Ha Hp); [by left|right; by apply Hl].
    + intros. eapply Hl, H5; eauto.
  - split; cbn [ker names nextSem nextThread set_pcb set_ptab]; try done.
    intros j b0 Hb0. rewrite (pcb_of_set σ i b' j Hi). destruct (decide (j = i)) as [->|]; [|exists b0; by split].
    exists b'. rewrite Hb in Hb0. by injection Hb0 as <-.
Qed.
(** New semaphores have addresses that were never used. *)
Lemma sv_new k s v r : sv (set_sems k (<[s := Semaphore_new v]> (semaphores k))) r = if decide (r = s) then Some v else sv k r.
Proof. unfold sv. cbn [semaphores set_sems]. destruct (decide (r = s)) as [->|]; [by rewrite lookup_insert_eq|by rewrite lookup_insert_ne]. Qed.

Lemma PCB_new_spec σ b σ1 :
  PCB_new σ = (b, σ1) ->
  let n := nextSem σ in
  joinsem b = n /\ exitsem b = Pos.succ n /\ multex b = Pos.succ (Pos.succ n) /\ nextSem σ1 = Pos.succ (Pos.succ (Pos.succ n)) /\
  ptab σ1 = ptab σ /\ stab σ1 = stab σ /\ names σ1 = names σ /\ pending σ1 = pending σ /\ nextThread σ1 = nextThread σ /\ frames σ1 = frames σ /\
  threads (ker σ1) = threads (ker σ) /\ me σ1 = me σ /\ sv (ker σ1) n = Some 0 /\
  (forall s, (s < n)%positive -> sv (ker σ1) s = sv (ker σ) s) /\ (forall s, is_Some (sv (ker σ1) s) -> is_Some (sv (ker σ) s) \/ (s < nextSem σ1)%positive).
Proof.
  intros H n. unfold PCB_new, new_sem in H. injection H as <- <-. cbn [joinsem exitsem multex ker ptab stab names pending nextSem nextThread frames threads].
  fold n. conjs; try done.
  - rewrite !sv_new. rewrite !decide_False by lia. by rewrite decide_True.
  - intros s Hs. rewrite !sv_new. by rewrite !decide_False by lia.
  - intros s. rewrite !sv_new. repeat case_decide; try (intros _; right; lia). auto.
Qed.

Lemma pinv_new_pcb σ b σ1 i b' tr :
  PCB_new σ = (b, σ1) -> same_sems b b' -> pcb_of σ i = None -> 0 <= i < lenZ (pcb (ptab σ)) -> pinv σ tr ->
  pinv (set_pcb σ1 i b') tr /\ evolves σ (set_pcb σ1 i b').
Proof.
  intros HN (S1 & S2 & S3) Hnone Hi [H1 H2 H3 H4 H5 H6 H7]. apply PCB_new_spec in HN as (J & E & M & NS & PT & ST & NA & PE & NT & _ & TH & _ & V0 & Vs & Vd).
  set (n := nextSem σ) in *. rewrite J in S1. rewrite E in S2. rewrite M in S3.
  assert (Hp : forall j, pcb_of (set_pcb σ1 i b') j = if decide (j = i) then Some b' else pcb_of σ j).
  { intros j. rewrite pcb_of_set by by rewrite PT. unfold pcb_of. by rewrite PT. }
  assert (Hr : forall r s, role_sem (set_pcb σ1 i b') r = Some s -> (role_sem σ r = Some s /\ r <> RJoin i /\ r <> RExit i /\ r <> RMultex i) \/
    (r = RJoin i /\ s = n) \/ (r = RExit i /\ s = Pos.succ n) \/ (r = RMultex i /\ s = Pos.succ (Pos.succ n))).
  { intros r s. destruct r as [|j|j|j|j]; cbn [role_sem]; rewrite ?Hp; try (destruct (decide (j = i)) as [->|]; cbn [fmap option_fmap option_map]; [intros [= <-]; rewrite ?S1, ?S2, ?S3; tauto|]);
      cbn [set_pcb set_ptab ptab bmsem stab]; rewrite ?PT, ?ST; intros Hs; left; (split; [exact Hs|]); conjs; congruence. }
  assert (Hl : forall j, has_left σ tr j -> has_left (set_pcb σ1 i b') tr j).
  { intros j (b0 & Hb0 & Hin). exists b0. rewrite Hp, decide_False; [done|]. congruence. }
  assert (Ha : forall t, at_of (ker σ1) t = at_of (ker σ) t) by (intros t; unfold at_of; by rewrite TH).
  split.
  - split; cbn [ker pending nextSem nextThread set_pcb set_ptab]; rewrite ?NS, ?PE, ?NT.
    + intros r s [[Ho _]|[[_ ->]|[[_ ->]|[_ ->]]]]%Hr; [apply H1 in Ho|..]; lia.
    + intros r1 r2 s Hr1%Hr Hr2%Hr. destruct Hr1 as [[Ho1 _]|Hn1], Hr2 as [[Ho2 _]|Hn2]; [by eapply H2|apply H1 in Ho1; lia|apply H1 in Ho2; lia|].
      destruct Hn1 as [[-> ->]|[[-> ->]|[-> ->]]], Hn2 as [[-> ?]|[[-> ?]|[-> ?]]]; done || lia.
    + intros j s v [[Ho _]|[[_ ->]|[[? _]|[? _]]]]%Hr Hv Hz; [|congruence|done|done]. pose proof (H1 _ _ Ho). rewrite Vs in Hv by done. by eapply Hl, H3.
    + intros t a j. rewrite Ha. intros Hat Hpe. destruct (H4 t a j Hat Hpe) as [(s & Hs & ->)|?]; [left|right; by apply Hl]. exists s. split; [|done].
      cbn [role_sem] in *. rewrite Hp, decide_False; [done|]. intros ->. by rewrite Hnone in Hs.
    + intros t j p c Hpe. by eapply Hl, H5.
    + intros t. rewrite Ha. apply H6.
    + intros s [Ho|?]%Vd; [apply H7 in Ho; lia|lia].
  - split; cbn [ker names nextSem nextThread set_pcb set_ptab]; rewrite ?NS, ?NA, ?NT; [| |done|lia|lia|cbn [ptab set_pcb set_ptab psize]; by rewrite PT].
    + intros j b0 Hb0. exists b0. rewrite Hp, decide_False; [by split|congruence].
    + intros s Hs Hd. by rewrite Vs.
Qed.

(** The table of named semaphores. *)
Lemma find_sem_in n i tab nm e : find_sem n i tab nm = Ok (Some e) -> exists j, (semTab tab).[j] = Some (Some e).
Proof.
  revert i. induction n as [|n IH]; intros i H; [done|]. cbn [find_sem] in H. apply bind_Ok_inv in H as (u & _ & H). destruct u; [|by eapply IH].
  apply bind_Ok_inv in H as (p & Ep & H). apply bind_Ok_inv in H as (e' & Ee & H). apply deref_Ok_inv in Ep. apply deref_Ok_inv in Ee. subst p.
  case_bool_decide; [injection H as ->; by exists i|by eapply IH].
Qed.

Lemma Create_inv tab k s nm init r tab' k' :
  STable_Create tab k s nm init = Ok (r, tab', k') ->
  (k' = k /\ semTab tab' = semTab tab) \/
  (k' = set_sems k (<[s := Semaphore_new init]> (semaphores k)) /\ exists i e, sem_sem e = s /\ semTab tab' = (semTab tab).[i <- Some e]).
Proof.
  unfold STable_Create. intros H. apply bind_Ok_inv in H as (f & _ & H). destruct f; [injection H as <- <- <-; by left|].
  apply bind_Ok_inv in H as ([pid tab1] & Ef & H). unfold STable_FindFreeSlot in Ef. apply bind_Ok_inv in Ef as ([? bm] & _ & Ef). injection Ef as <- <-.
  destruct (_ <? 0); [injection H as <- <- <-; by left|]. apply bind_Ok_inv in H as ([e k1] & Es & H). apply bind_Ok_inv in H as (? & _ & H).
  injection H as <- <- <-. unfold Sem_new in Es. destruct (50 <? _); [done|]. injection Es as <- <-. right. split; [done|]. eexists _, _. by split; [|reflexivity].
Qed.

Lemma pinv_create σ nm init r tab k tr :
  STable_Create (stab σ) (ker σ) (nextSem σ) nm init = Ok (r, tab, k) -> pinv σ tr ->
  let σ' := mkProcs k (ptab σ) tab (frames σ) (names σ) (pending σ) (Pos.succ (nextSem σ)) (nextThread σ) in
  pinv σ' tr /\ evolves σ σ'.
Proof.
  intros H [H1 H2 H3 H4 H5 H6 H7] σ'. set (n := nextSem σ) in *.
  assert (exists i, forall r s, role_sem σ' r = Some s -> role_sem σ r = Some s \/ r = RNamed i /\ s = n) as [i Hr].
  { apply Create_inv in H as [[_ Et]|(_ & i & e & <- & Et)].
    - exists 0. intros q s. left. destruct q; try done. cbn [role_sem σ' stab] in *. by rewrite <- Et.
    - exists i. intros q s. destruct q as [|j|j|j|j]; try (intros; by left). cbn [role_sem σ' stab]. rewrite Et.
      destruct (decide (i = j)) as [->|Hne]; [|rewrite lookupZ_insertZ_ne by done; by left].
      destruct (decide (0 <= j < lenZ (semTab (stab σ)))) as [Hj|Hj]; [rewrite lookupZ_insertZ_eq by done; intros [= <-]; by right|].
      by rewrite (lookupZ_None ((semTab (stab σ)).[j <- Some e])) by (rewrite lenZ_insertZ; lia). }
  assert (Hsv : forall s, s <> n -> sv k s = sv (ker σ) s).
  { intros s Hs. apply Create_inv in H as [[-> _]|(-> & _)]; [done|]. rewrite sv_new. by rewrite decide_False. }
  assert (Ha : forall t, at_of k t = at_of (ker σ) t) by (intros t; by apply Create_inv in H as [[-> _]|(-> & _)]).
  split.
  - split; cbn [ker pending nextSem nextThread σ']; fold n.
    + intros q s [Ho|[_ ->]]%Hr; [apply H1 in Ho|]; lia.
    + intros r1 r2 s Hr1%Hr Hr2%Hr. destruct Hr1 as [Ho1|[-> ->]], Hr2 as [Ho2|[-> ?]]; [by eapply H2|subst; apply H1 in Ho1; lia|apply H1 in Ho2; lia|done].
    + intros j s v [Ho|[? _]]%Hr Hv Hz; [|done]. pose proof (H1 _ _ Ho). rewrite Hsv in Hv by lia. by eapply H3.
    + intros t a j. rewrite Ha. apply H4.
    + apply H5.
    + intros t. rewrite Ha. apply H6.
    + intros s Hs. destruct (decide (s = n)) as [->|]; [lia|]. rewrite Hsv in Hs by done. apply H7 in Hs. lia.
  - split; cbn [ker names nextSem nextThread σ']; [intros j b0 Hb0; exists b0; by split| |done|lia|lia|done].
    intros s Hs Hd. rewrite Hsv by lia. done.
Qed.
(** Fewer semaphores, fewer pending calls. *)
Lemma pinv_less σ σ' tr :
  pinv σ tr -> like σ σ' -> names σ' = names σ -> (forall t, at_of (ker σ') t = at_of (ker σ) t) ->
  (forall t p, pending σ' !! t = Some p -> pending σ !! t = Some p) -> (forall s v, sv (ker σ') s = Some v -> sv (ker σ) s = Some v) ->
  pinv σ' tr /\ evolves σ σ'.
Proof.
  intros [H1 H2 H3 H4 H5 H6 H7] Hl Hn Ha Hp Hs. pose proof Hl as [_ _ _ Hns Hnt _]. split.
  - split; rewrite ?Hns, ?Hnt.
    + intros r s. rewrite (like_role _ _ _ Hl). apply H1.
    + intros r1 r2 s. rewrite !(like_role _ _ _ Hl). apply H2.
    + intros i s v. rewrite (like_role _ _ _ Hl), (like_left _ _ _ _ Hl). eauto.
    + intros t a i. rewrite Ha, (like_role _ _ _ Hl), (like_left _ _ _ _ Hl). eauto.
    + intros t i p c. rewrite (like_left _ _ _ _ Hl). eauto.
    + intros t. rewrite Ha. intros [?|[p ?]]; apply H6; [by left|right]. exists p. by apply Hp.
    + intros s [v Hv]. apply H7. exists v. by apply Hs.
  - apply evolves_like; [done|done|]. intros s Hd. destruct (sv (ker σ') s) as [v|] eqn:E; [|done]. apply Hs in E. congruence.
Qed.

Lemma delete_sem_spec σ s σ' :
  delete_sem σ s = Ok σ' -> like σ σ' /\ names σ' = names σ /\ ptab σ' = ptab σ /\ pending σ' = pending σ /\
    threads (ker σ') = threads (ker σ) /\ me σ' = me σ /\ (forall r v, sv (ker σ') r = Some v -> sv (ker σ) r = Some v) /\ sv (ker σ') s = None.
Proof.
  unfold delete_sem. intros H. apply bind_Ok_inv in H as (x & _ & H). injection H as <-. conjs; try done; unfold sv; cbn [ker set_ker semaphores set_sems].
  - intros r v. destruct (decide (s = r)) as [->|]; [by rewrite lookup_delete_eq|by rewrite lookup_delete_ne].
  - by rewrite lookup_delete_eq.
Qed.

Lemma at_FreeSpace k t th u : deref (threads k !! t) = Ok th -> at_of (set_threads k (<[t := Thread_FreeSpace th]> (threads k))) u = at_of k u.
Proof.
  intros H. unfold at_of. cbn [threads set_threads]. destruct (decide (t = u)) as [<-|]; [|by rewrite lookup_insert_ne]. rewrite lookup_insert_eq.
  destruct (threads k !! t); [|done]. injection H as ->. cbn. f_equal. unfold Thread_FreeSpace. by destruct (space th).
Qed.

Lemma pinv_delete σ b σ' tr :
  PCB_delete σ b = Ok σ' -> pinv σ tr -> at_of (ker σ) (me σ) = Some InThread ->
  pinv σ' tr /\ evolves σ σ' /\ ptab σ' = ptab σ /\ (forall s, s = joinsem b \/ s = exitsem b \/ s = multex b -> sv (ker σ') s = None).
Proof.
  unfold PCB_delete. intros H Hinv Hat. apply bind_Ok_inv in H as (σ1 & E1 & H). apply bind_Ok_inv in H as (σ2 & E2 & H). apply bind_Ok_inv in H as (σ3 & E3 & H).
  destruct (pcb_thread b) as [t|]; [|done]. apply bind_Ok_inv in H as (th & Eth & H). cbv zeta in H. set (σ4 := set_ker σ3 _) in H.
  apply bind_Ok_inv in H as (y & _ & H). apply bind_Ok_inv in H as (k & EF & H). injection H as <-.
  apply delete_sem_spec in E1 as (L1 & N1 & P1 & Q1 & T1 & M1 & S1 & D1). apply delete_sem_spec in E2 as (L2 & N2 & P2 & Q2 & T2 & M2 & S2 & D2).
  apply delete_sem_spec in E3 as (L3 & N3 & P3 & Q3 & T3 & M3 & S3 & D3).
  assert (A1 : forall t, at_of (ker σ1) t = at_of (ker σ) t) by (intros u; unfold at_of; by rewrite T1).
  assert (A2 : forall t, at_of (ker σ2) t = at_of (ker σ1) t) by (intros u; unfold at_of; by rewrite T2).
  assert (A3 : forall t, at_of (ker σ3) t = at_of (ker σ2) t) by (intros u; unfold at_of; by rewrite T3).
  destruct (pinv_less σ σ1 tr Hinv L1 N1 A1 ltac:(by rewrite Q1) S1) as [I1 V1].
  destruct (pinv_less σ1 σ2 tr I1 L2 N2 A2 ltac:(by rewrite Q2) S2) as [I2 V2].
  destruct (pinv_less σ2 σ3 tr I2 L3 N3 A3 ltac:(by rewrite Q3) S3) as [I3 V3].
  assert (A4 : forall u, at_of (ker σ4) u = at_of (ker σ3) u) by (intros u; by apply at_FreeSpace).
  destruct (pinv_less σ3 σ4 tr I3 ltac:(by split) eq_refl A4 ltac:(done) ltac:(done)) as [I4 V4].
  unfold Thread_Finish in EF. apply at_Sleep in EF as (F1 & F2 & F3). cbn [set_doomed currentThread] in F1, F2.
  assert (Hcur : at_of (ker σ4) (currentThread (ker σ4)) = Some InThread) by (change (currentThread (ker σ4)) with (me σ3); by rewrite A4, A3, A2, A1, M3, M2, M1).
  assert (Hc : calm (ker σ4) k) by (apply (calm_to (ker σ4) InFinish); [done|by rewrite Hcur|by rewrite Hcur|done|done|done]).
  assert (Hdead : forall s, sv k s = sv (ker σ3) s) by (intros s; unfold sv; by rewrite F3).
  conjs.
  - apply (pinv_calm σ4); [done|by split|done|done].
  - eapply evolves_trans, evolves_trans, evolves_trans, evolves_trans; [exact V1|exact V2|exact V3|exact V4|]. apply evolves_like; [by split|done|]. intros s. cbn [ker set_ker]. by rewrite Hdead.
  - cbn [ptab set_ker σ4]. congruence.
  - cbn [ker set_ker]. intros s Hs. rewrite Hdead. destruct (sv (ker σ3) s) as [v|] eqn:E; [|done].
    pose proof (S3 _ _ E) as E'. pose proof (S2 _ _ E') as E''. destruct Hs as [->|[->| ->]]; congruence.
Qed.

Lemma return_spec σ r σ' tr :
  return_to_user (σ, r) = Ok σ' -> pinv σ tr ->
  pinv σ' tr /\ evolves σ σ' /\ ptab σ' = ptab σ /\ (forall t, at_of (ker σ') t = at_of (ker σ) t) /\ me σ' = me σ /\
  pending σ' = match r with None => pending σ | Some _ => delete (me σ) (pending σ) end.
Proof.
  intros H Hinv. destruct r as [v|]; cbn [return_to_user] in H.
  - apply bind_Ok_inv in H as (m & _ & H). apply bind_Ok_inv in H as (m' & _ & H). injection H as <-.
    destruct (pinv_less σ (set_pending (set_ker σ (set_cpu (ker σ) m')) (delete (me σ) (pending σ))) tr Hinv) as [I V]; [by split|done|done| |done|by conjs].
    cbn [pending set_pending]. intros t p. destruct (decide (me σ = t)) as [<-|]; [by rewrite lookup_delete_eq|by rewrite lookup_delete_ne].
  - injection H as <-. conjs; try done. by apply evolves_like.
Qed.
(** *** The pieces of the calls *)

Record moves (tr : list event) (σ σ' : Procs) : Prop := {
  mv_inv : pinv σ' tr;
  mv_evolves : evolves σ σ';
  mv_slots : slots σ' = slots σ }.

(** The thread that makes the call still runs. *)
Definition runs (σ : Procs) : Prop := at_of (ker σ) (me σ) = Some InThread.

Lemma moves_trans tr σ1 σ2 σ3 : moves tr σ1 σ2 -> moves tr σ2 σ3 -> moves tr σ1 σ3.
Proof. intros [_ E1 S1] [I2 E2 S2]. split; [done|by eapply evolves_trans|congruence]. Qed.

Lemma the_pcb_inv σ i b : the_pcb σ i = Ok b -> pcb_of σ i = Some b.
Proof.
  unfold the_pcb, pcb_at, pcb_of. intros H. apply bind_Ok_inv in H as (p & E & H). apply deref_Ok_inv in E. apply deref_Ok_inv in H. by rewrite E, H.
Qed.

Lemma moves_V tr σ s σ' :
  do_V σ s = Ok σ' -> pinv σ tr -> runs σ -> (forall i, role_sem σ (RJoin i) = Some s -> has_left σ tr i) ->
  moves tr σ σ' /\ runs σ' /\ me σ' = me σ /\ ptab σ' = ptab σ /\ pending σ' = pending σ.
Proof.
  intros H I R Hs. destruct (pinv_V _ _ _ _ H I Hs) as (I' & L & V & P & M & T & A). conjs; [|unfold runs; by rewrite A, M|done|done|done].
  split; [done|done|]. unfold slots. by rewrite T.
Qed.

(** A [V] on a semaphore with another use. *)
Lemma moves_V_role tr σ s σ' r :
  do_V σ s = Ok σ' -> pinv σ tr -> runs σ -> role_sem σ r = Some s -> (forall i, r <> RJoin i) ->
  moves tr σ σ' /\ runs σ' /\ me σ' = me σ /\ ptab σ' = ptab σ /\ pending σ' = pending σ.
Proof. intros H I R Hr Hn. apply (moves_V tr σ s); [done..|]. intros i Hi. destruct (Hn i). by eapply pi_inj. Qed.

Lemma moves_P tr σ s p σ' r :
  at_P σ s p = Ok (σ', r) -> pinv σ tr -> runs σ ->
  (forall i, p = JoinJoinsem i -> role_sem σ (RJoin i) = Some s) -> (forall i q c, p = ExitMultex i q c -> has_left σ tr i) ->
  moves tr σ σ' /\ r = None /\ pending σ' !! me σ = Some p.
Proof.
  intros H I R Hj Hx. destruct (pinv_P _ _ _ _ _ _ H I) as (I' & L & V & -> & T & P); [by rewrite R|done|done|].
  conjs; [|done|by rewrite P, lookup_insert_eq]. split; [done|done|]. unfold slots. by rewrite T.
Qed.

Lemma moves_set_pcb tr σ i b b' :
  pcb_of σ i = Some b -> same_sems b b' -> exitcode b' = exitcode b \/ Exited i (exitcode b') ∈ tr -> pinv σ tr -> runs σ ->
  moves tr σ (set_pcb σ i b') /\ runs (set_pcb σ i b') /\ me (set_pcb σ i b') = me σ.
Proof.
  intros Hb Hs Hx I R. destruct (pinv_set_pcb _ _ _ _ _ Hb Hs Hx I) as [I' V]. conjs; [|done|done]. split; [done|done|by eapply slots_set_pcb].
Qed.

Lemma moves_return tr σ r σ' :
  return_to_user (σ, r) = Ok σ' -> pinv σ tr ->
  moves tr σ σ' /\ me σ' = me σ /\ pending σ' = (match r with None => pending σ | Some _ => delete (me σ) (pending σ) end) /\ ptab σ' = ptab σ /\ (runs σ -> runs σ').
Proof.
  intros H I. destruct (return_spec _ _ _ _ H I) as (I' & V & T & A & M & P). conjs; [split; [done|done|unfold slots; by rewrite T]|done|done|done|].
  unfold runs. by rewrite A, M.
Qed.

Lemma moves_IncNumWait tr σ i σ' : PCB_IncNumWait σ i = Ok σ' -> pinv σ tr -> runs σ -> moves tr σ σ' /\ runs σ' /\ me σ' = me σ.
Proof.
  unfold PCB_IncNumWait. intros H I R. apply bind_Ok_inv in H as (b & Hb & H). apply the_pcb_inv in Hb.
  destruct (moves_set_pcb tr σ i b (with_numwait b (wrap_s32 (numwait b + 1))) Hb ltac:(done) ltac:(by left) I R) as (M1 & R1 & E1).
  destruct (moves_V_role tr _ _ _ (RMultex i) H (mv_inv _ _ _ M1) R1) as (M2 & R2 & E2 & _); [|done|].
  - cbn [role_sem]. rewrite pcb_of_set by by eapply pcb_of_range. by rewrite decide_True.
  - conjs; [by eapply moves_trans|done|congruence].
Qed.

Lemma moves_DecNumWait tr σ i σ' : PCB_DecNumWait σ i = Ok σ' -> pinv σ tr -> runs σ -> moves tr σ σ' /\ runs σ' /\ me σ' = me σ /\ pending σ' = pending σ.
Proof.
  unfold PCB_DecNumWait. intros H I R. apply bind_Ok_inv in H as (b & Hb & H). apply the_pcb_inv in Hb. destruct (numwait b =? 0).
  - destruct (moves_V_role tr _ _ _ (RMultex i) H I R) as (M2 & R2 & E2 & _ & P2); [cbn [role_sem]; by rewrite Hb|done|by conjs].
  - destruct (moves_set_pcb tr σ i b (with_numwait b (wrap_s32 (numwait b - 1))) Hb ltac:(done) ltac:(by left) I R) as (M1 & R1 & E1).
    destruct (moves_V_role tr _ _ _ (RMultex i) H (mv_inv _ _ _ M1) R1) as (M2 & R2 & E2 & _ & P2); [|done|].
    + cbn [role_sem]. rewrite pcb_of_set by by eapply pcb_of_range. by rewrite decide_True.
    + conjs; [by eapply moves_trans|done|congruence|done].
Qed.

Lemma moves_fails tr σ σ' r : ExecUpdate_fails σ = Ok (σ', r) -> pinv σ tr -> runs σ -> moves tr σ σ' /\ r = Some (-1) /\ pending σ' = pending σ /\ me σ' = me σ.
Proof.
  unfold ExecUpdate_fails. intros H I R. apply bind_Ok_inv in H as (σ1 & E & H). injection H as <- <-.
  destruct (moves_V_role tr _ _ _ RBm E I R) as (M & _ & ? & _ & ?); [done|done|]. by conjs.
Qed.

Lemma free_slot_inv n i σ j : free_slot n i σ = Ok j -> j = -1 \/ (pcb_of σ j = None /\ 0 <= j < lenZ (pcb (ptab σ))).
Proof.
  revert i. induction n as [|n IH]; intros i H; cbn [free_slot] in H; [injection H as <-; by left|]. apply bind_Ok_inv in H as (p & E & H).
  unfold pcb_at in E. apply deref_Ok_inv in E. destruct p; [by eapply IH|]. injection H as <-. right. split; [unfold pcb_of; by rewrite E|by eapply lookupZ_Some_range].
Qed.
Lemma moves_checks tr σ name σ' r :
  ExecUpdate_checks σ name = Ok (σ', r) -> pinv σ tr -> runs σ ->
  (moves tr σ σ' /\ r = Some (-1) /\ pending σ' = pending σ /\ me σ' = me σ) \/
  (pinv σ' tr /\ evolves σ σ' /\ r = None /\
   exists i, (slots σ).[i] = Some false /\ slots σ' = (slots σ).[i <- true] /\ pending σ' !! me σ = Some (ExecMultex i name)).
Proof.
  unfold ExecUpdate_checks. intros H I R. destruct (host name); [|left; by apply moves_fails]. apply bind_Ok_inv in H as (n & _ & H).
  apply bind_Ok_inv in H as (n' & _ & H). destruct (bool_decide _); [left; by apply moves_fails|]. apply bind_Ok_inv in H as (i & Ei & H).
  destruct (Z.ltb_spec i 0) as [Hi|Hi]; [left; by apply moves_fails|right]. apply free_slot_inv in Ei as [->|[Hnone Hrng]]; [lia|].
  apply bind_Ok_inv in H as (parent & _ & H). destruct (PCB_new σ) as [b σ1] eqn:EN. apply bind_Ok_inv in H as (b1 & Eb & H).
  unfold PCB_SetFileName in Eb. destruct (255 <? _); [done|]. injection Eb as <-. set (b' := with_parent (with_name b name) parent) in *.
  destruct (pinv_new_pcb σ b σ1 i b' tr EN ltac:(done) Hnone Hrng I) as [I1 V1].
  apply PCB_new_spec in EN as (_ & _ & _ & _ & PT & _ & _ & _ & _ & _ & TH & ME & _). unfold PCB_Exec in H.
  assert (Hme : me (set_pcb σ1 i b') = me σ) by exact ME.
  destruct (moves_P tr _ _ _ _ _ H I1) as ([I2 V2 S2] & -> & P2); [|done|done|].
  { unfold runs, at_of. rewrite Hme. cbn [ker set_pcb set_ptab]. rewrite TH. exact R. }
  conjs; [done|by eapply evolves_trans|done|]. exists i. rewrite S2, <- Hme. conjs; [| |done].
  - unfold slots, lookupZ. rewrite (proj2 (Z.ltb_ge i 0)) by lia. rewrite list_lookup_fmap. unfold pcb_of in Hnone.
    destruct (lookupZ_range _ _ Hrng) as [p Hp]. rewrite Hp in Hnone. subst p. unfold lookupZ in Hp. rewrite (proj2 (Z.ltb_ge i 0)) in Hp by lia. by rewrite Hp.
  - unfold slots, set_pcb. cbn [ptab set_ptab pcb]. rewrite PT. unfold insertZ. rewrite (proj2 (Z.ltb_ge i 0)) by lia. by rewrite list_fmap_insert.
Qed.

Lemma moves_forks tr σ name pid σ' id :
  PCB_Exec_forks σ name pid = Ok (σ', id) -> pinv σ tr -> runs σ -> moves tr σ σ' /\ runs σ' /\ me σ' = me σ /\ id = pid.
Proof.
  unfold PCB_Exec_forks. intros H I R. apply bind_Ok_inv in H as (b & Hb & H). apply the_pcb_inv in Hb. apply bind_Ok_inv in H as (parent & _ & H).
  apply bind_Ok_inv in H as (k & EF & H). apply bind_Ok_inv in H as (σ2 & EV & H). injection H as <- <-. cbn [ker] in EF.
  apply at_Fork in EF as (A1 & A2 & A3 & A4). set (t := nextThread σ) in *.
  assert (Hne : me σ <> t) by (intros E; pose proof (pi_threads _ _ I (me σ) (or_introl (mk_is_Some _ _ R))) as Hx; fold t in Hx; lia).
  assert (Ha : forall u, u <> t -> at_of k u = at_of (ker σ) u).
  { intros u Hu. rewrite A2 by done. unfold at_of. cbn [threads set_threads]. by rewrite lookup_insert_ne. }
  assert (Hs : forall s, sv k s = sv (ker σ) s) by (intros s; unfold sv; by rewrite A3).
  set (σ1 := mkProcs k (ptab σ) (stab σ) (frames σ) (<[t := Some name]> (names σ)) (pending σ) (nextSem σ) (Pos.succ t)).
  assert (I1 : pinv σ1 tr).
  { destruct I as [H1 H2 H3 H4 H5 H6 H7]. split; cbn [ker pending nextSem nextThread σ1]; try done.
    - intros i s v. rewrite Hs. apply H3.
    - intros u a i Hu Hp. destruct (decide (u = t)) as [->|Hut]; [|rewrite Ha in Hu by done; exact (H4 u a i Hu Hp)].
      pose proof (H6 t (or_intror (mk_is_Some _ _ Hp))) as Hx. fold t in Hx. lia.
    - intros u Hu. destruct (decide (u = t)) as [->|Hut]; [lia|]. rewrite Ha in Hu by done. apply H6 in Hu. fold t in Hu. lia.
    - intros s. rewrite Hs. apply H7. }
  assert (V1 : evolves σ σ1).
  { split; cbn [ker names nextSem nextThread σ1]; fold t; [intros i b0 Hb0; exists b0; by split|by intros s _; rewrite Hs| |done|lia|done].
    intros u Hu. rewrite lookup_insert_ne by lia. done. }
  assert (Hme : me σ1 = me σ) by exact A4. assert (R1 : runs σ1) by (unfold runs; rewrite Hme; cbn [ker σ1]; by rewrite Ha).
  destruct (moves_set_pcb tr σ1 pid b (with_parent (with_thread b (Some t)) parent) Hb ltac:(done) ltac:(by left) I1 R1) as (M2 & R2 & E2).
  destruct (moves_V_role tr _ _ _ (RMultex pid) EV (mv_inv _ _ _ M2) R2) as (M3 & R3 & E3 & _); [|done|].
  - cbn [role_sem]. change (set_pcb (set_ker _ k) pid _) with (set_pcb σ1 pid (with_parent (with_thread b (Some t)) parent)).
    rewrite pcb_of_set by by eapply (pcb_of_range σ1). by rewrite decide_True.
  - conjs; [|done|exact (eq_trans E3 Hme)|done]. eapply moves_trans; [|exact (moves_trans _ _ _ _ M2 M3)]. by split.
Qed.

Lemma moves_Join tr σ pid σ' r : PTable_JoinUpdate σ pid = Ok (σ', r) -> pinv σ tr -> runs σ -> moves tr σ σ'.
Proof.
  assert (Hrefl : pinv σ tr -> moves tr σ σ) by (intros; split; [done|by apply evolves_like|done]).
  unfold PTable_JoinUpdate. intros H I R. destruct (_ || _); [injection H as <- <-; auto|]. apply bind_Ok_inv in H as (p & _ & H).
  apply bind_Ok_inv in H as (c & _ & H). destruct p as [b|]; [|injection H as <- <-; auto]. destruct (negb _); [injection H as <- <-; auto|].
  apply bind_Ok_inv in H as (pb & _ & H). by destruct (moves_P tr _ _ _ _ _ H I R) as (M & _).
Qed.

Lemma moves_Join_waits tr σ pid parent σ' r : JoinUpdate_waits σ pid parent = Ok (σ', r) -> pinv σ tr -> runs σ -> moves tr σ σ' /\ r = None.
Proof.
  unfold JoinUpdate_waits. intros H I R. apply bind_Ok_inv in H as (σ1 & E & H). destruct (moves_IncNumWait _ _ _ _ E I R) as (M1 & R1 & E1).
  apply bind_Ok_inv in H as (b & Hb & H). apply the_pcb_inv in Hb.
  destruct (moves_P tr _ _ _ _ _ H (mv_inv _ _ _ M1) R1) as (M2 & -> & _); [|done|split; [by eapply moves_trans|done]].
  intros i [= <-]. cbn [role_sem]. by rewrite Hb.
Qed.

Lemma moves_Join_ends tr σ pid σ' r :
  JoinUpdate_ends σ pid = Ok (σ', r) -> pinv σ tr -> runs σ -> pending σ !! me σ = Some (JoinJoinsem pid) ->
  moves tr σ σ' /\ runs σ' /\ exists v, r = Some v /\ Exited pid v ∈ tr.
Proof.
  unfold JoinUpdate_ends. intros H I R Hp. apply bind_Ok_inv in H as (b & Hb & H). apply the_pcb_inv in Hb. apply bind_Ok_inv in H as (σ1 & E & H).
  injection H as <- <-. destruct (moves_V_role tr _ _ _ (RExit pid) E I R) as (M1 & R1 & _); [cbn [role_sem]; by rewrite Hb|done|].
  conjs; [done|done|]. exists (exitcode b). split; [done|]. destruct (pi_join _ _ I (me σ) InThread pid R Hp) as [(s & _ & ?)|(b' & Hb' & Hin)]; [done|]. congruence.
Qed.

Lemma moves_Exit_waits tr σ pid parent code σ' r :
  ExitUpdate_waits σ pid parent code = Ok (σ', r) -> pinv σ tr -> runs σ -> pending σ !! me σ = Some (ExitMultex pid parent code) -> moves tr σ σ' /\ r = None.
Proof.
  unfold ExitUpdate_waits. intros H I R Hp. apply bind_Ok_inv in H as (σ1 & E & H).
  destruct (moves_DecNumWait _ _ _ _ E I R) as (M1 & R1 & E1 & P1). apply bind_Ok_inv in H as (b & Hb & H). apply the_pcb_inv in Hb.
  apply bind_Ok_inv in H as (σ2 & E2 & H). destruct (moves_V tr _ _ _ E2 (mv_inv _ _ _ M1) R1) as (M2 & R2 & _).
  - intros i Hi. assert (RJoin i = RJoin pid) as [= ->] by (eapply (pi_inj _ _ (mv_inv _ _ _ M1)); [exact Hi|cbn [role_sem]; by rewrite Hb]).
    apply (pi_exit _ _ (mv_inv _ _ _ M1) (me σ1) pid parent code). by rewrite P1, E1.
  - destruct (moves_P tr _ _ _ _ _ H (mv_inv _ _ _ M2) R2) as (M3 & -> & _); [done|done|]. split; [|done].
    eapply moves_trans; [exact M1|by eapply moves_trans].
Qed.
Lemma moves_refl tr σ : pinv σ tr -> moves tr σ σ.
Proof. intros. split; [done|by apply evolves_like|done]. Qed.

Lemma moves_more tr e σ σ' : moves tr σ σ' -> moves (tr ++ [e]) σ σ'.
Proof. intros [I V S]. split; [by apply pinv_more|done|done]. Qed.

Lemma moves_cpu tr σ m : pinv σ tr -> moves tr σ (set_ker σ (set_cpu (ker σ) m)).
Proof. intros I. destruct (pinv_less σ (set_ker σ (set_cpu (ker σ) m)) tr I) as [I' V]; [by split|done|done|done|done|by split]. Qed.

Lemma moves_Exit tr σ pid code σ' r :
  PTable_ExitUpdate σ code = Ok (σ', r) -> my_pid σ = Ok pid -> pinv σ tr -> runs σ ->
  moves (tr ++ [match r with None => Exited pid code | Some _ => Quiet end]) σ σ'.
Proof.
  unfold PTable_ExitUpdate. intros H Hpid I R. rewrite Hpid in H. cbn [mbind outcome_bind] in H. destruct (pid =? 0); [done|].
  apply bind_Ok_inv in H as (ex & _ & H). destruct ex; cbn [negb] in H; [|injection H as <- <-; by apply moves_refl, pinv_more].
  apply bind_Ok_inv in H as (b & Hb & H). apply the_pcb_inv in Hb. apply bind_Ok_inv in H as (pb & _ & H).
  assert (Hr : r = None) by (unfold at_P in H; apply bind_Ok_inv in H as (? & _ & H); congruence). subst r.
  assert (Hin : Exited pid code ∈ tr ++ [Exited pid code]) by (apply elem_of_app; right; apply list_elem_of_here).
  destruct (moves_set_pcb _ σ pid b (with_exitcode b code) Hb ltac:(done) (or_intror Hin) (pinv_more _ _ (Exited pid code) I) R) as (M1 & R1 & _).
  destruct (moves_P _ _ _ _ _ _ H (mv_inv _ _ _ M1) R1) as (M2 & _); [done| |by eapply moves_trans].
  intros i q c [= <- _ _]. exists (with_exitcode b code). split; [|done]. rewrite pcb_of_set by by eapply pcb_of_range. by rewrite decide_True.
Qed.

Lemma moves_Exit_ends tr σ pid code σ' r : ExitUpdate_ends σ pid code = Ok (σ', r) -> pinv σ tr -> runs σ -> moves tr σ σ'.
Proof.
  unfold ExitUpdate_ends, PTable_Remove. intros H I R. apply bind_Ok_inv in H as ([σ1 ret] & E & H). injection H as <- _.
  apply bind_Ok_inv in E as (p & _ & E). destruct p as [b|]; [|injection E as <- _; by apply moves_refl].
  apply bind_Ok_inv in E as (σ2 & E2 & E). injection E as <- _. destruct (pinv_delete _ _ _ tr E2 I R) as (I2 & V2 & T2 & _).
  split; [done|done|unfold slots; by rewrite T2].
Qed.

Lemma name_arg_moves tr σ r n nm σ' : name_arg σ r n = Ok (nm, σ') -> pinv σ tr -> runs σ -> moves tr σ σ' /\ runs σ' /\ me σ' = me σ.
Proof.
  unfold name_arg. intros H I R. apply bind_Ok_inv in H as (a & _ & H). apply bind_Ok_inv in H as ([buf m] & _ & H). injection H as _ <-.
  conjs; [by apply moves_cpu|done|done].
Qed.

(** The calls that do not end a process. *)
Lemma moves_calls tr σ σ' r :
  Exception_Exec σ = Ok (σ', r) \/ Exception_Join σ = Ok (σ', r) \/ Exception_CreateSemaphore σ = Ok (σ', r) \/
  Exception_Wait σ = Ok (σ', r) \/ Exception_Signal σ = Ok (σ', r) ->
  pinv σ tr -> runs σ -> moves tr σ σ'.
Proof.
  intros H I R. destruct H as [H|[H|[H|[H|H]]]].
  - unfold Exception_Exec in H. apply bind_Ok_inv in H as ([nm σ1] & E & H). destruct (name_arg_moves _ _ _ _ _ _ E I R) as (M1 & R1 & _).
    destruct (host nm); [|injection H as <- <-; done]. destruct (moves_P _ _ _ _ _ _ H (mv_inv _ _ _ M1) R1) as (M2 & _); [done|done|by eapply moves_trans].
  - unfold Exception_Join in H. apply bind_Ok_inv in H as (id & _ & H). by eapply moves_Join.
  - unfold Exception_CreateSemaphore in H. apply bind_Ok_inv in H as (v & _ & H). apply bind_Ok_inv in H as ([nm σ1] & E & H).
    destruct (name_arg_moves _ _ _ _ _ _ E I R) as (M1 & R1 & _). apply bind_Ok_inv in H as ([[q tab] k] & EC & H). injection H as <- _.
    destruct (pinv_create _ _ _ _ _ _ tr EC (mv_inv _ _ _ M1)) as [I2 V2]. eapply moves_trans; [exact M1|]. by split.
  - unfold Exception_Wait in H. apply bind_Ok_inv in H as ([nm σ1] & E & H). destruct (name_arg_moves _ _ _ _ _ _ E I R) as (M1 & R1 & _).
    apply bind_Ok_inv in H as ([q k] & EW & H). unfold STable_Wait in EW. apply bind_Ok_inv in EW as ([e|] & _ & EW).
    + apply bind_Ok_inv in EW as (k1 & EP & EW). injection EW as <- <-. injection H as <- _.
      assert (HP : at_P σ1 (sem_sem e) WaitSem = Ok (set_pending (set_ker σ1 k1) (<[me σ1 := WaitSem]> (pending σ1)), None)) by (unfold at_P; by rewrite EP).
      destruct (moves_P _ _ _ _ _ _ HP (mv_inv _ _ _ M1) R1) as (M2 & _); [done|done|by eapply moves_trans].
    + injection EW as <- <-. injection H as <- _. eapply moves_trans; [exact M1|]. destruct σ1. by apply moves_refl, M1.
  - unfold Exception_Signal in H. apply bind_Ok_inv in H as ([nm σ1] & E & H). destruct (name_arg_moves _ _ _ _ _ _ E I R) as (M1 & R1 & _).
    apply bind_Ok_inv in H as ([q k] & ES & H). injection H as <- _. unfold STable_Signal in ES. apply bind_Ok_inv in ES as ([e|] & Ef & ES).
    + apply bind_Ok_inv in ES as (k1 & EV & ES). injection ES as <- <-. apply find_sem_in in Ef as [j Hj].
      assert (HV : do_V σ1 (sem_sem e) = Ok (set_ker σ1 k1)) by (unfold do_V; by rewrite EV).
      destruct (moves_V_role tr _ _ _ (RNamed j) HV (mv_inv _ _ _ M1) R1) as (M2 & _); [cbn [role_sem]; by rewrite Hj|done|by eapply moves_trans].
    + injection ES as <- <-. eapply moves_trans; [exact M1|]. destruct σ1. by apply moves_refl, M1.
Qed.
Lemma moves_enter tr σ m sp k bm :
  StartProcess_enter (set_cpu (ker σ) m) sp = Ok k -> pinv σ tr -> moves tr σ (set_frames (set_ker σ k) bm).
Proof.
  unfold StartProcess_enter. intros H I. apply bind_Ok_inv in H as (k1 & E & H). apply bind_Ok_inv in H as (m' & _ & H). injection H as <-.
  apply at_upd in E as (A & S & _); [|done].
  destruct (pinv_less σ (set_frames (set_ker σ (set_cpu k1 (AddrSpace_RestoreState sp m'))) bm) tr I) as [I' V]; [by split|done|exact A|done| |by split].
  intros s v. unfold sv. cbn [ker set_frames set_ker semaphores set_cpu]. by rewrite S.
Qed.

(** The number of new processes. *)
Definition is_started (e : event) : bool := match e with Started _ => true | _ => false end.
Definition started (tr : list event) : Z := lenZ (filter (fun e => is_started e = true) tr).

(** What a step does to the invariant and to the table. *)
Record stepped (tr : list event) (σ : Procs) (e : event) (σ' : Procs) : Prop := {
  st_inv : pinv σ' (tr ++ [e]);
  st_evolves : evolves σ σ';
  st_slots : (is_started e = false /\ slots σ' = slots σ) \/ (is_started e = true /\ exists i, (slots σ).[i] = Some false /\ slots σ' = (slots σ).[i <- true]);
  st_joined : forall pid v, e = Joined pid v -> Exited pid v ∈ tr }.

Lemma moves_stepped tr σ σ' e : moves (tr ++ [e]) σ σ' -> is_started e = false -> (forall pid v, e = Joined pid v -> Exited pid v ∈ tr) -> stepped tr σ e σ'.
Proof. intros [I V S] He Hj. split; [done|done|by left|done]. Qed.

Lemma moves_return_tr tr σ σ1 r σ' : moves tr σ σ1 -> return_to_user (σ1, r) = Ok σ' -> moves tr σ σ'.
Proof. intros M H. eapply moves_trans; [exact M|]. by destruct (moves_return _ _ _ _ H (mv_inv _ _ _ M)). Qed.

Lemma call_stepped tr σ σ' e : process_call σ = Ok (σ', e) -> pinv σ tr -> runs σ -> stepped tr σ e σ'.
Proof.
  unfold process_call. intros H I R. apply bind_Ok_inv in H as (ty & _ & H). destruct (ty =? SC_Exit).
  - apply bind_Ok_inv in H as (pid & Hpid & H). apply bind_Ok_inv in H as (code & Hc & H). apply bind_Ok_inv in H as ([σ1 r] & E & H).
    apply bind_Ok_inv in H as (σ2 & E2 & H). injection H as <- <-. unfold Exception_Exit in E. rewrite Hc in E. cbn [mbind outcome_bind] in E.
    apply moves_stepped; [|by destruct r|by destruct r]. eapply moves_return_tr; [|exact E2]. cbn [snd]. by apply moves_Exit.
  - apply bind_Ok_inv in H as ([σ1 r] & E & H). apply bind_Ok_inv in H as (σ2 & E2 & H). injection H as <- <-. apply moves_stepped; [|done|done].
    apply moves_more. eapply moves_return_tr; [|exact E2]. eapply (moves_calls tr σ σ1 r); [|done|done].
    destruct (ty =? SC_Exec); [by left|right]. destruct (ty =? SC_Join); [by left|right]. destruct (ty =? SC_CreateSemaphore); [by left|right].
    destruct (ty =? SC_Wait); [by left|by right].
Qed.

Lemma continue_stepped tr σ p σ' e :
  continue σ p = Ok (σ', e) -> pinv σ tr -> runs σ -> pending σ !! me σ = Some p -> stepped tr σ e σ'.
Proof.
  intros H I R Hp. destruct p as [name|index name|pid parent|pid|pid parent code|pid code|]; cbn [continue] in H.
  - apply bind_Ok_inv in H as ([σ1 r] & E & H). apply bind_Ok_inv in H as (σ2 & E2 & H). injection H as <- <-.
    destruct (moves_checks _ _ _ _ _ E I R) as [(M & -> & Pe & Me)|(I1 & V1 & -> & i & S1 & S2 & Pe)].
    + destruct (moves_return _ _ _ _ E2 (mv_inv _ _ _ M)) as (M2 & _ & P2 & _). rewrite P2, Me, lookup_delete_eq.
      apply moves_stepped; [|done|done]. apply moves_more. by eapply moves_trans.
    + injection E2 as <-. rewrite Pe. split; [by apply pinv_more|done|right; split; [done|by exists i]|done].
  - apply bind_Ok_inv in H as ([σ1 r] & E & H). apply bind_Ok_inv in H as (σ2 & E2 & H). apply bind_Ok_inv in H as (σ3 & E3 & H). injection H as <- <-.
    unfold ExecUpdate_ends in E. apply bind_Ok_inv in E as ([σa id] & Ea & E). apply bind_Ok_inv in E as (σb & Eb & E). injection E as <- <-.
    destruct (moves_forks _ _ _ _ _ _ Ea I R) as (Ma & Ra & _ & ->).
    destruct (moves_V_role tr _ _ _ RBm Eb (mv_inv _ _ _ Ma) Ra) as (Mb & _); [done|done|].
    pose proof (moves_return_tr _ _ _ _ _ (moves_trans _ _ _ _ Ma Mb) E2) as M2. apply moves_stepped; [|done|done]. apply moves_more.
    eapply moves_trans; [exact M2|]. unfold free_name in E3. apply bind_Ok_inv in E3 as (b & _ & E3). apply bind_Ok_inv in E3 as (t & _ & E3). injection E3 as <-.
    destruct (mv_inv _ _ _ M2) as [H1 H2 H3 H4 H5 H6 H7]. split; [by split| |done]. split; cbn [ker names nextSem nextThread set_names]; try done.
    { intros i b0 Hb0. exists b0. by split. }
    intros u _ Hu. destruct (decide (t = u)) as [->|]; [by rewrite lookup_insert_eq|by rewrite lookup_insert_ne].
  - apply bind_Ok_inv in H as ([σ1 r] & E & H). apply bind_Ok_inv in H as (σ2 & E2 & H). injection H as <- <-.
    destruct (moves_Join_waits _ _ _ _ _ _ E I R) as [M _]. apply moves_stepped; [|done|done]. by eapply moves_more, moves_return_tr.
  - apply bind_Ok_inv in H as ([σ1 r] & E & H). apply bind_Ok_inv in H as (σ2 & E2 & H). injection H as <- <-.
    destruct (moves_Join_ends _ _ _ _ _ E I R Hp) as (M & _ & v & -> & Hin). cbn [snd]. apply moves_stepped; [|done|by intros ? ? [= <- <-]].
    by eapply moves_more, moves_return_tr.
  - apply bind_Ok_inv in H as ([σ1 r] & E & H). apply bind_Ok_inv in H as (σ2 & E2 & H). injection H as <- <-.
    destruct (moves_Exit_waits _ _ _ _ _ _ _ E I R Hp) as [M _]. apply moves_stepped; [|done|done]. by eapply moves_more, moves_return_tr.
  - apply bind_Ok_inv in H as ([σ1 r] & E & H). apply bind_Ok_inv in H as (σ2 & E2 & H). injection H as <- <-.
    pose proof (moves_Exit_ends _ _ _ _ _ _ E I R) as M. apply moves_stepped; [|done|done]. by eapply moves_more, moves_return_tr.
  - apply bind_Ok_inv in H as (σ2 & E2 & H). injection H as <- <-. apply moves_stepped; [|done|done]. eapply moves_more, moves_return_tr; [by apply moves_refl|done].
Qed.

Lemma step_stepped tr σ e σ' : proc_step σ e σ' -> pinv σ tr -> stepped tr σ e σ'.
Proof.
  intros H I. destruct H as [k' Hq|ty σ' e [[_ Hat] _] _ _ H|p σ' e [_ Hat] Hp H|th σ' [_ Hat] _ _ _ _ H|th fn σ' [_ Hat] _ _ _ _ H].
  - apply quiet_calm in Hq. apply moves_stepped; [|done|done]. apply moves_more. pose proof (pinv_calm σ (set_ker σ k') tr I ltac:(by split) eq_refl Hq) as I'.
    split; [done| |done]. apply evolves_like; [by split|done|]. intros s Hs. pose proof (calm_sv _ _ Hq s) as C. by rewrite Hs in C.
  - by apply call_stepped.
  - by apply (continue_stepped tr σ p).
  - unfold StartProcess_2 in H. apply bind_Ok_inv in H as (fn & _ & H). apply bind_Ok_inv in H as ([[sp m] bm] & _ & H).
    apply bind_Ok_inv in H as (k & E & H). injection H as <-. apply moves_stepped; [|done|done]. apply moves_more. by eapply moves_enter.
  - unfold StartProcess in H. apply moves_stepped; [|done|done]. apply moves_more. destruct (host fn) as [content|]; [|injection H as <-; by apply moves_refl].
    apply bind_Ok_inv in H as ([[sp m] bm] & _ & H). apply bind_Ok_inv in H as (k & E & H). injection H as <-. by eapply moves_enter.
Qed.
(** *** The initial state *)

Definition str_main : list Z := [109; 97; 105; 110].

(** The end of [Initialize]: the main thread, [pTab] and [semTab]; [words] is what the
    bitmaps' memory holds. *)
Definition Procs_boot (m : Machine) (bm : BitMap) (words : list Z) : outcome Procs :=
  let σ := mkProcs (set_sems (kernel_boot m junk_regs) ∅) (mkPTable 0 bm [] 1) (mkSTable bm []) bm {[ 1%positive := Some str_main ]} ∅ 1 2 in
  σ ← PTable_new σ 10 words;
  tab ← STable_new words;
  Ok (set_stab σ tab).

Lemma boot_facts m bm words σ :
  Procs_boot m bm words = Ok σ ->
  (exists b, (forall i, pcb_of σ i = if decide (i = 0) then Some b else None) /\ joinsem b = 2%positive /\ exitsem b = 3%positive /\ multex b = 4%positive /\
    pcb (ptab σ) = (replicate 10 None).[0 <- Some b]) /\
  bmsem (ptab σ) = 1%positive /\ psize (ptab σ) = 10 /\ (forall i, role_sem σ (RNamed i) = None) /\ nextSem σ = 5%positive /\ nextThread σ = 2%positive /\ pending σ = ∅ /\
  (forall t, is_Some (at_of (ker σ) t) -> t = 1%positive) /\ sv (ker σ) 2 = Some 0 /\ (forall s, is_Some (sv (ker σ) s) -> (s < 5)%positive).
Proof.
  unfold Procs_boot. intros H. apply bind_Ok_inv in H as (σ1 & E & H). apply bind_Ok_inv in H as (tab & Et & H). injection H as <-.
  unfold PTable_new in E. cbn [orb Z.ltb Z.compare Pos.compare Pos.compare_cont] in E. apply bind_Ok_inv in E as (bm1 & _ & E). apply bind_Ok_inv in E as (bm2 & _ & E).
  unfold STable_new in Et. apply bind_Ok_inv in Et as (bm3 & _ & Et). injection Et as <-. unfold new_sem, PCB_new in E. injection E as <-.
  conjs; try done.
  - exists (mkPCB 2 3 4 (exitcode junk_pcb) (numwait junk_pcb) (pcb_name junk_pcb) (pcb_thread junk_pcb) (-1)). split; [|done].
    intros i. unfold pcb_of. cbn [ptab set_stab set_ptab pcb].
    destruct (decide (i = 0)) as [->|Hi]; [done|]. rewrite lookupZ_insertZ_ne by done. match goal with |- context [lookupZ ?l i] => destruct (lookupZ l i) as [p|] eqn:Ep end; [|done].
    apply lookupZ_elem_of in Ep. apply (elem_of_replicate 10) in Ep as [-> _]. done.
  - intros i. cbn [role_sem stab set_stab semTab]. match goal with |- context [lookupZ ?l i] => destruct (lookupZ l i) as [p|] eqn:Ep end; [|done].
    apply lookupZ_elem_of in Ep. apply (elem_of_replicate 10) in Ep as [-> _]. done.
  - intros t. unfold at_of. cbn. intros [x Hx]. destruct (decide (t = 1%positive)) as [->|Ht]; [done|]. by rewrite lookup_singleton_ne in Hx.
  - intros s. unfold sv. cbn [ker set_stab set_ptab semaphores set_sems nextSem Pos.succ]. intros Hs.
    destruct (decide (s = 4%positive)); [lia|]. destruct (decide (s = 3%positive)); [lia|]. destruct (decide (s = 2%positive)); [lia|].
    destruct (decide (s = 1%positive)); [lia|]. rewrite !lookup_insert_ne in Hs by done. rewrite lookup_empty in Hs. by destruct Hs.
Qed.

Lemma boot_pinv m bm words σ : Procs_boot m bm words = Ok σ -> pinv σ [].
Proof.
  intros H. apply boot_facts in H as ((b & Hb & J & E & M & _) & Hbm & _ & Hn & Hs & Ht & Hp & Ha & Hv & Hd).
  assert (Hr : forall r s, role_sem σ r = Some s -> (r = RBm /\ s = 1%positive) \/ (r = RJoin 0 /\ s = 2%positive) \/ (r = RExit 0 /\ s = 3%positive) \/ (r = RMultex 0 /\ s = 4%positive)).
  { intros [|i|i|i|i] s Hrs; [cbn [role_sem] in Hrs; rewrite Hbm in Hrs; left; split; [done|congruence]|..|by rewrite Hn in Hrs]; cbn [role_sem] in Hrs; rewrite Hb in Hrs;
      destruct (decide (i = 0)) as [->|]; try done; cbn [fmap option_fmap option_map] in Hrs; injection Hrs as <-; rewrite ?J, ?E, ?M; tauto. }
  split; rewrite ?Hs, ?Ht, ?Hp.
  - intros r s [[_ ->]|[[_ ->]|[[_ ->]|[_ ->]]]]%Hr; done.
  - intros r1 r2 s Hr1%Hr Hr2%Hr. destruct Hr1 as [[-> ->]|[[-> ->]|[[-> ->]|[-> ->]]]], Hr2 as [[-> ?]|[[-> ?]|[[-> ?]|[-> ?]]]]; done.
  - intros i s v [[? _]|[[_ ->]|[[? _]|[? _]]]]%Hr; [done| |done|done]. rewrite Hv. congruence.
  - done.
  - done.
  - intros t [?%Ha|[p Hpt]]; [by subst|]. by rewrite lookup_empty in Hpt.
  - exact Hd.
Qed.

Lemma steps_inv m bm words σ0 tr σ : Procs_boot m bm words = Ok σ0 -> proc_steps σ0 tr σ -> pinv σ tr.
Proof. intros Hb H. induction H as [|σ0 es σ1 e σ2 _ IH Hst]; [by eapply boot_pinv|]. exact (st_inv _ _ _ _ (step_stepped _ _ _ _ Hst (IH Hb))). Qed.

(** C6: what Join returns.  Along every interleaving of the processes, when Join on a
    process returns a code, that process has called Exit with that code before. *)
Theorem join_returns_exit_code m bm words σ0 tr σ :
  Procs_boot m bm words = Ok σ0 -> proc_steps σ0 tr σ ->
  forall tr1 pid v tr2, tr = tr1 ++ Joined pid v :: tr2 -> Exited pid v ∈ tr1.
Proof.
  intros Hb H. induction H as [|σ0 es σ1 e σ2 Hss IH Hst]; intros tr1 pid v tr2 Htr.
  - by destruct tr1.
  - destruct tr2 as [|e' tr3 _] using rev_ind.
    + apply app_inj_tail in Htr as [<- ->].
      exact (st_joined _ _ _ _ (step_stepped _ _ _ _ Hst (steps_inv _ _ _ _ _ _ Hb Hss)) pid v eq_refl).
    + change (Joined pid v :: tr3 ++ [e']) with ((Joined pid v :: tr3) ++ [e']) in Htr. rewrite app_assoc in Htr. apply app_inj_tail in Htr as [-> _].
      by eapply IH.
Qed.
(** The slots in use and the processes started. *)
Definition taken (l : list bool) : Z := lenZ (filter (fun x => x = true) l).

Lemma taken_insert l i : l.[i] = Some false -> taken (l.[i <- true]) = taken l + 1.
Proof.
  intros H. unfold insertZ, lookupZ in *. destruct (i <? 0); [done|]. revert H. generalize (Z.to_nat i). clear i. induction l as [|x l IH]; intros j H; [done|].
  unfold taken in *. destruct j as [|j]; simpl in H.
  - injection H as ->. change (<[0%nat := true]> (false :: l)) with (true :: l). rewrite !filter_cons. rewrite decide_True by done.
    rewrite decide_False by done. rewrite lenZ_cons. lia.
  - change (<[S j := true]> (x :: l)) with (x :: <[j := true]> l). rewrite !filter_cons. destruct (decide (x = true)); rewrite ?lenZ_cons, (IH j H); lia.
Qed.

Lemma taken_le l : taken l <= lenZ l.
Proof. unfold taken, lenZ. pose proof (length_filter (fun x => x = true) l). lia. Qed.

Lemma taken_all l : taken l = lenZ l -> Forall (fun x => x = true) l.
Proof.
  induction l as [|x l IH]; intros H; [done|]. pose proof (taken_le l) as Hle. unfold taken in *. rewrite filter_cons, lenZ_cons in H.
  destruct (decide (x = true)) as [->|]; [rewrite lenZ_cons in H; constructor; [done|apply IH; lia]|lia].
Qed.

Lemma started_snoc tr e : started (tr ++ [e]) = started tr + if is_started e then 1 else 0.
Proof.
  unfold started. rewrite filter_app, lenZ_app. f_equal. rewrite filter_cons, filter_nil. destruct (is_started e); [by rewrite decide_True|by rewrite decide_False].
Qed.

Lemma steps_slots m bm words σ0 tr σ :
  Procs_boot m bm words = Ok σ0 -> proc_steps σ0 tr σ -> taken (slots σ) = 1 + started tr /\ lenZ (slots σ) = 10.
Proof.
  intros Hb H. induction H as [σ|σ0 es σ1 e σ2 Hss IH Hst].
  - apply boot_facts in Hb as ((b & _ & _ & _ & _ & Hp) & _). unfold slots. by rewrite Hp.
  - specialize (IH Hb) as [IH1 IH2]. rewrite started_snoc.
    destruct (st_slots _ _ _ _ (step_stepped _ _ _ _ Hst (steps_inv _ _ _ _ _ _ Hb Hss))) as [[-> ->]|[-> (i & Hi & ->)]]; [split; [lia|done]|].
    rewrite taken_insert, lenZ_insertZ by done. split; [lia|done].
Qed.

Lemma free_slot_full n i σ : 0 <= i -> i + Z.of_nat n <= lenZ (slots σ) -> Forall (fun x => x = true) (slots σ) -> free_slot n i σ = Ok (-1).
Proof.
  intros Hi Hn HF. revert i Hi Hn. induction n as [|n IH]; intros i Hi Hn; [done|]. cbn [free_slot]. unfold pcb_at.
  assert (Hl : lenZ (slots σ) = lenZ (pcb (ptab σ))) by (unfold slots, lenZ; by rewrite length_fmap).
  destruct (lookupZ_range (pcb (ptab σ)) i ltac:(lia)) as [p Hp]. rewrite Hp. cbn [deref mbind outcome_bind].
  assert (Hs : (slots σ).[i] = Some (bool_decide (is_Some p))).
  { unfold slots, lookupZ in *. destruct (i <? 0); [done|]. by rewrite list_lookup_fmap, Hp. }
  rewrite Forall_lookupZ in HF. specialize (HF i _ Hs). apply bool_decide_eq_true in HF as [b ->]. apply IH; lia.
Qed.

(** A run from a state of the invariant keeps what no step takes back. *)
Lemma steps_evolve tr0 σ1 tr σ2 : pinv σ1 tr0 -> proc_steps σ1 tr σ2 -> pinv σ2 (tr0 ++ tr) /\ evolves σ1 σ2.
Proof.
  intros I H. induction H as [σ|σ1 es σ2 e σ3 Hss IH Hst]; [rewrite app_nil_r; split; [done|by apply evolves_like]|].
  destruct (IH I) as [I2 V2]. destruct (step_stepped _ _ _ _ Hst I2) as [I3 V3 _ _]. rewrite app_assoc. split; [done|by eapply evolves_trans].
Qed.

(** C39: the slots of the process table are never given back, because the destructor of
    [PCB] does not return: however many processes end, Exec succeeds at most nine times,
    and after that finds no free slot. *)
Theorem exec_slots_exhausted m bm words σ0 tr σ :
  Procs_boot m bm words = Ok σ0 -> proc_steps σ0 tr σ ->
  started tr <= 9 /\ (started tr = 9 -> PTable_GetFreeSlot σ = Ok (-1)).
Proof.
  intros Hb H. destruct (steps_slots _ _ _ _ _ _ Hb H) as [H1 H2]. pose proof (taken_le (slots σ)). split; [lia|]. intros H9.
  destruct (steps_evolve _ _ _ _ (boot_pinv _ _ _ _ Hb) H) as [_ V]. pose proof (ev_psize _ _ V) as Hp. apply boot_facts in Hb as (_ & _ & Hp0 & _). rewrite Hp0 in Hp.
  unfold PTable_GetFreeSlot. rewrite Hp. apply free_slot_full; [lia|lia|]. apply taken_all. lia.
Qed.

(** A process that has been joined and has left keeps its slot, with pointers to its
    deleted semaphores: whenever its parent calls Join on it again, the call passes its
    checks and does [P] on a semaphore that no longer exists. *)
Theorem join_again_dangles m bm words σ0 tr σ pid code b σ1 :
  Procs_boot m bm words = Ok σ0 -> proc_steps σ0 tr σ -> in_thread (ker σ) -> pcb_of σ pid = Some b ->
  ExitUpdate_ends σ pid code = Ok (σ1, None) ->
  forall tr2 σ2 parent σ3, proc_steps σ1 tr2 σ2 -> PCB_IncNumWait σ2 parent = Ok σ3 ->
  is_Some (pcb_of σ2 pid) /\ JoinUpdate_waits σ2 pid parent = Undefined.
Proof.
  intros Hb Hs [_ R] Hpcb HE tr2 σ2 parent σ3 Hs2 HI. pose proof (steps_inv _ _ _ _ _ _ Hb Hs) as I.
  unfold ExitUpdate_ends, PTable_Remove in HE. apply bind_Ok_inv in HE as ([σa ret] & E & HE). injection HE as <- Hret. apply bind_Ok_inv in E as (p & Ep & E).
  unfold pcb_at in Ep. apply deref_Ok_inv in Ep. unfold pcb_of in Hpcb. rewrite Ep in Hpcb. subst p. apply bind_Ok_inv in E as (σb & Ed & E). injection E as <- _.
  destruct (pinv_delete _ _ _ tr Ed I R) as (I1 & V1 & T1 & D1). destruct (steps_evolve _ _ _ _ I1 Hs2) as [I2 V2].
  assert (Hb1 : pcb_of σb pid = Some b) by (unfold pcb_of; by rewrite T1, Ep).
  assert (Hlt : (joinsem b < nextSem σb)%positive) by (apply (pi_old _ _ I1 (RJoin pid)); cbn [role_sem]; by rewrite Hb1).
  destruct (ev_pcb _ _ V2 pid b Hb1) as (b2 & Hb2 & J2 & _). split; [by rewrite Hb2|]. unfold JoinUpdate_waits. rewrite HI. cbn [mbind outcome_bind].
  pose proof (ev_dead _ _ V2 _ Hlt (D1 _ (or_introl eq_refl))) as Hdead. unfold PCB_IncNumWait in HI. apply bind_Ok_inv in HI as (pb & Hpb & HI). apply the_pcb_inv in Hpb.
  unfold do_V in HI. apply bind_Ok_inv in HI as (k & EV & HI). injection HI as <-. apply at_V in EV as (v & Hv & _ & A2 & _). cbn [ker set_pcb set_ptab] in *.
  set (σ3 := set_ker _ k). assert (exists b3, the_pcb σ3 pid = Ok b3 /\ joinsem b3 = joinsem b2) as (b3 & E3 & J3).
  { unfold the_pcb, pcb_at. pose proof (pcb_of_set σ2 parent (with_numwait pb (wrap_s32 (numwait pb + 1))) pid (pcb_of_range _ _ _ Hpb)) as Hset. rewrite Hb2 in Hset.
    unfold pcb_of in Hset. change (pcb (ptab σ3)) with (pcb (ptab (set_pcb σ2 parent (with_numwait pb (wrap_s32 (numwait pb + 1)))))).
    set (q := lookupZ (pcb _) pid) in Hset |- *. destruct q as [p|]; [|by destruct (decide (pid = parent))]. subst p.
    destruct (decide (pid = parent)) as [->|]; [rewrite Hb2 in Hpb; injection Hpb as <-|]; by eexists. }
  rewrite E3. cbn [mbind outcome_bind]. unfold at_P, Semaphore_P, P_loop. rewrite J3, J2. cbn [ker σ3 set_ker]. specialize (A2 (joinsem b)). unfold sv in A2, Hdead, Hv.
  destruct (semaphores k !! joinsem b) as [sem|] eqn:Ek; [|done]. destruct (decide (joinsem b = multex pb)) as [Hx|Hx].
  - rewrite <- Hx in Hv. by rewrite Hv in Hdead.
  - rewrite Hdead in A2. by specialize (A2 Hx).
Qed.

Lemma return_ptab r σ' : return_to_user r = Ok σ' -> ptab σ' = ptab r.1 /\ nextThread σ' = nextThread r.1.
Proof.
  destruct r as [σ [v|]]; cbn [return_to_user fst]; intros H; [|by injection H as <-].
  apply bind_Ok_inv in H as (m & _ & H). apply bind_Ok_inv in H as (m' & _ & H). by injection H as <-.
Qed.

Lemma ends_thread σ name index σ' r :
  ExecUpdate_ends σ name index = Ok (σ', r) -> pcb_thread <$> pcb_of σ' index = Some (Some (nextThread σ)) /\ nextThread σ' = Pos.succ (nextThread σ).
Proof.
  unfold ExecUpdate_ends, PCB_Exec_forks, do_V. intros H. apply bind_Ok_inv in H as ([σ1 id] & E & H). apply bind_Ok_inv in H as (σ2 & E2 & H). injection H as <- _.
  apply bind_Ok_inv in E2 as (k2 & _ & E2). injection E2 as <-. apply bind_Ok_inv in E as (b & Hb & E). apply the_pcb_inv in Hb. apply bind_Ok_inv in E as (pa & _ & E).
  apply bind_Ok_inv in E as (k & _ & E). apply bind_Ok_inv in E as (σ3 & E3 & E). injection E as <- _. apply bind_Ok_inv in E3 as (k3 & _ & E3). injection E3 as <-.
  split; [|done]. set (b' := with_parent (with_thread b (Some (nextThread σ))) pa).
  change (pcb_thread <$> pcb_of (set_pcb σ index b') index = Some (Some (nextThread σ))). rewrite pcb_of_set by by eapply pcb_of_range. by rewrite decide_True.
Qed.

(** A process started by Exec cannot start another.  Its thread's name is the string
    that [Exception_Exec] frees when it returns, so its own call of Exec on a program
    that exists reads freed memory. *)
Theorem exec_from_child_undefined m bm words σ0 tr σ index name σ1 :
  Procs_boot m bm words = Ok σ0 -> proc_steps σ0 tr σ -> in_thread (ker σ) -> pending σ !! me σ = Some (ExecMultex index name) ->
  continue σ (ExecMultex index name) = Ok (σ1, Quiet) ->
  forall tr2 σ2 name2, proc_steps σ1 tr2 σ2 -> me σ2 = nextThread σ -> host name2 <> None -> ExecUpdate_checks σ2 name2 = Undefined.
Proof.
  intros Hb Hs Hit Hp HC tr2 σ2 name2 Hs2 Hme Hh. pose proof (steps_inv _ _ _ _ _ _ Hb Hs) as I.
  pose proof (continue_stepped tr σ _ σ1 Quiet HC I (proj2 Hit) Hp) as [I1 _ _ _]. destruct (steps_evolve _ _ _ _ I1 Hs2) as [_ V2].
  cbn [continue] in HC. apply bind_Ok_inv in HC as ([σr r] & E & HC). apply bind_Ok_inv in HC as (σa & ER & HC). apply bind_Ok_inv in HC as (σb & EF & HC). injection HC as <-.
  apply ends_thread in E as (T1 & T2). apply return_ptab in ER as [P1 P2]. cbn [fst] in P1, P2.
  unfold free_name in EF. apply bind_Ok_inv in EF as (b' & Hb' & EF). apply the_pcb_inv in Hb'. apply bind_Ok_inv in EF as (t' & Ht' & EF). apply deref_Ok_inv in Ht'. injection EF as <-.
  assert (t' = nextThread σ) as ->.
  { unfold pcb_of in Hb', T1. rewrite P1 in Hb'. cbn [fst] in Hb'. rewrite Hb' in T1. cbn in T1. congruence. }
  assert (Hn : names σ2 !! nextThread σ = Some None) by (apply (ev_names _ _ V2); [cbn [nextThread set_names]; lia|apply lookup_insert_eq]).
  unfold ExecUpdate_checks. destruct (host name2); [|done]. rewrite Hme, Hn. reflexivity.
Qed.
(** *** Executing a sequence of steps *)

Inductive proc_op := PUser (f : Machine -> Machine) | PYield | PDispatch | PResume | PCall | PContinue | PStart | PMain (filename : list Z).

(** The current thread is in its own code with no call pending; its address space. *)
Definition thread_space (σ : Procs) : option (option AddrSpace * Z) :=
  if in_threadb (ker σ) then
    match pending σ !! me σ, threads (ker σ) !! me σ with
    | None, Some th => Some (space th, processID th)
    | _, _ => None
    end
  else None.

Definition quietly (σ : Procs) (k : outcome Kernel) : outcome (Procs * event) := k ← k; Ok (set_ker σ k, Quiet).

Definition do_proc (σ : Procs) (o : proc_op) : outcome (Procs * event) :=
  let k := ker σ in
  match o with
  | PUser f => if in_threadb k && (lenZ (registers (f (cpu k))) =? NumTotalRegs) then Ok (set_ker σ (set_cpu k (f (cpu k))), Quiet) else Undefined
  | PYield => if in_threadb k then quietly σ (Thread_Yield k) else Undefined
  | PDispatch => if idle k && bool_decide (readyList k <> []) then quietly σ (dispatch k) else Undefined
  | PResume => if negb (idle k) && bool_decide (current_at k <> Some InThread) then quietly σ (resume k) else Undefined
  | PCall =>
      match thread_space σ with
      | Some (Some _, _) => type ← Machine_ReadRegister (cpu k) 2; if is_process_call type then process_call σ else Undefined
      | _ => Undefined
      end
  | PContinue => if in_threadb k then p ← deref (pending σ !! me σ); continue σ p else Undefined
  | PStart =>
      match thread_space σ with
      | Some (None, pid) => if pid =? 0 then Undefined else σ ← StartProcess_2 σ pid; Ok (σ, Quiet)
      | _ => Undefined
      end
  | PMain fn =>
      match thread_space σ with
      | Some (None, pid) => if pid =? 0 then σ ← StartProcess σ fn; Ok (σ, Quiet) else Undefined
      | _ => Undefined
      end
  end.

Lemma thread_space_inv σ sp pid :
  thread_space σ = Some (sp, pid) -> in_thread (ker σ) /\ pending σ !! me σ = None /\ exists th, threads (ker σ) !! me σ = Some th /\ space th = sp /\ processID th = pid.
Proof.
  unfold thread_space. destruct (in_threadb (ker σ)) eqn:E; [|done]. apply in_threadb_spec in E. destruct (pending σ !! me σ); [done|].
  destruct (threads (ker σ) !! me σ) as [th|]; [|done]. intros [= <- <-]. conjs; [done|done|]. by exists th.
Qed.

Lemma do_proc_sound σ o σ' e : do_proc σ o = Ok (σ', e) -> proc_step σ e σ'.
Proof.
  assert (HT := in_threadb_spec (ker σ)).
  assert (HQ : forall k, quietly σ k = Ok (σ', e) -> (forall k', k = Ok k' -> quiet (ker σ) k') -> proc_step σ e σ').
  { intros k H Hk. unfold quietly in H. apply bind_Ok_inv in H as (k' & E & H). injection H as <- <-. apply ps_quiet. by apply Hk. }
  intros H. destruct o as [f| | | | | | |fn]; cbn [do_proc] in H.
  - destruct (_ && _) eqn:E; [|done]. injection H as <- <-. apply andb_true_iff in E as [E1 E2%Z.eqb_eq]. apply ps_quiet, quiet_user; auto.
  - destruct (in_threadb (ker σ)); [|done]. apply (HQ _ H). intros k' E. apply quiet_Yield; auto.
  - destruct (_ && _) eqn:E; [|done]. apply andb_true_iff in E as [E1 E2%bool_decide_eq_true]. apply (HQ _ H). intros k' E. by apply quiet_dispatch.
  - destruct (_ && _) eqn:E; [|done]. apply andb_true_iff in E as [E1%negb_true_iff E2%bool_decide_eq_true]. apply (HQ _ H). intros k' E. by apply quiet_resume.
  - destruct (thread_space σ) as [[[sp|] pid]|] eqn:E; [|done..]. apply thread_space_inv in E as (E1 & E2 & th & E3 & E4 & _).
    apply bind_Ok_inv in H as (ty & Ety & H). destruct (is_process_call ty) eqn:Ec; [|done]. apply (ps_call σ ty); try done. split; [done|]. split; [done|]. by exists th, sp.
  - destruct (in_threadb (ker σ)); [|done]. apply bind_Ok_inv in H as (p & Ep & H). apply deref_Ok_inv in Ep. apply (ps_continue σ p); auto.
  - destruct (thread_space σ) as [[[sp|] pid]|] eqn:E; [done| |done]. apply thread_space_inv in E as (E1 & E2 & th & E3 & E4 & <-).
    destruct (Z.eqb_spec (processID th) 0); [done|]. apply bind_Ok_inv in H as (σ1 & E5 & H). injection H as <- <-. by apply (ps_start σ th).
  - destruct (thread_space σ) as [[[sp|] pid]|] eqn:E; [done| |done]. apply thread_space_inv in E as (E1 & E2 & th & E3 & E4 & <-).
    destruct (Z.eqb_spec (processID th) 0); [|done]. apply bind_Ok_inv in H as (σ1 & E5 & H). injection H as <- <-. by apply (ps_main σ th fn).
Qed.

Fixpoint run_procs (os : list proc_op) (σ : Procs) (tr : list event) : outcome (Procs * list event) :=
  match os with
  | [] => Ok (σ, tr)
  | o :: os => '(σ, e) ← do_proc σ o; run_procs os σ (tr ++ [e])
  end.

Lemma run_procs_sound os σ0 tr0 σ tr σ' : proc_steps σ0 tr0 σ -> run_procs os σ tr0 = Ok (σ', tr) -> proc_steps σ0 tr σ'.
Proof.
  revert σ tr0. induction os as [|o os IH]; intros σ tr0 Hs H; cbn [run_procs] in H; [by injection H as <- <-|].
  apply bind_Ok_inv in H as ([σ1 e] & E & H). eapply IH; [|exact H]. eapply pss_snoc; [exact Hs|by eapply do_proc_sound].
Qed.
End Process.

(** ** Examples *)

Definition one_program (nm : list Z) : option (list Z) := if bool_decide (nm = [77]) then Some sample_program else None.
Definition zero_pcb : PCB := mkPCB 1 1 1 0 0 [] None 0.
Definition no_space : AddrSpace := mkAddrSpace None 0.

Definition do_sample := run_procs one_program zero_pcb sample_junk no_space (replicate 40 0).
Definition sample_boot : outcome Procs := Procs_boot zero_pcb sample_junk sample_cpu sample_frames [0].

(** A user program calls [code] with the arguments [a] and [b]. *)
Definition do_call (code a b : Z) : list proc_op := [PUser (fun m => set_reg (set_reg (set_reg m 2 code) 4 a) 5 b); PCall].

(** The main program starts the program M, waits for it, and gets the 7 it exits with. *)
Definition join_run : list proc_op :=
  [PMain [77]] ++ do_call SC_Exec 4 0 ++ [PContinue; PContinue] ++ do_call SC_Join 1 0 ++ [PContinue; PResume; PStart] ++
  do_call SC_Exit 7 0 ++ [PContinue; PResume; PContinue].

Abbreviation sample_steps := (proc_steps one_program zero_pcb sample_junk no_space (replicate 40 0)).

(** What an evaluation shows of a run from a state that was reached. *)
Lemma sample_more os σ0 tr0 σ (Q : Procs -> list event -> Prop) :
  sample_steps σ0 tr0 σ -> match do_sample os σ tr0 with Ok (σ', tr) => Q σ' tr | _ => False end ->
  exists σ' tr, sample_steps σ0 tr σ' /\ Q σ' tr.
Proof.
  intros Hs H. destruct (do_sample os σ tr0) as [[σ' tr]| | |] eqn:E; [|done..]. exists σ', tr. split; [|done]. by eapply run_procs_sound.
Qed.

Lemma sample_from_boot os (Q : Procs -> list event -> Prop) :
  match (σ ← sample_boot; do_sample os σ []) with Ok (σ', tr) => Q σ' tr | _ => False end ->
  exists σ0 σ tr, sample_boot = Ok σ0 /\ sample_steps σ0 tr σ /\ Q σ tr.
Proof.
  intros H. destruct sample_boot as [σ0| | |] eqn:E; [|done..]. cbn [mbind outcome_bind] in H.
  destruct (sample_more os σ0 [] σ0 Q (pss_refl _ _ _ _ _ σ0) H) as (σ & tr & Hs & HQ). by exists σ0, σ, tr.
Qed.

Definition join_trace : list event := replicate 3 Quiet ++ [Started 1] ++ replicate 7 Quiet ++ [Exited 1 7] ++ replicate 2 Quiet.

Lemma join_returns_exit_code_witness :
  exists σ0 σ, sample_boot = Ok σ0 /\ sample_steps σ0 (join_trace ++ [Joined 1 7]) σ /\ Exited 1 7 ∈ join_trace.
Proof.
  destruct (sample_from_boot join_run (fun _ tr => tr = join_trace ++ [Joined 1 7])) as (σ0 & σ & tr & E & Hs & ->); [vm_compute; reflexivity|].
  exists σ0, σ. split; [exact E|]. split; [exact Hs|].
  exact (join_returns_exit_code one_program zero_pcb sample_junk no_space (replicate 40 0) sample_cpu sample_frames [0] σ0 _ σ E Hs join_trace 1 7 [] eq_refl).
Defined.

(** The main program calls Exec nine times. *)
Definition nine_execs : list proc_op := [PMain [77]] ++ concat (replicate 9 (do_call SC_Exec 4 0 ++ [PContinue; PContinue])).

Lemma exec_slots_exhausted_witness :
  exists σ0 σ tr, sample_boot = Ok σ0 /\ sample_steps σ0 tr σ /\ started tr = 9 /\ PTable_GetFreeSlot σ = Ok (-1).
Proof.
  destruct (sample_from_boot nine_execs (fun _ tr => started tr = 9)) as (σ0 & σ & tr & E & Hs & H9); [vm_compute; reflexivity|].
  exists σ0, σ, tr. split; [exact E|]. split; [exact Hs|]. split; [exact H9|].
  exact (proj2 (exec_slots_exhausted one_program zero_pcb sample_junk no_space (replicate 40 0) sample_cpu sample_frames [0] σ0 tr σ E Hs) H9).
Defined.

(** After the run of [join_run] the other process leaves, and Join is called again. *)
Definition leave_run : list proc_op := join_run ++ [PYield; PResume].
Definition again_run : list proc_op := [PResume] ++ do_call SC_Join 1 0.

Lemma join_again_dangles_witness :
  exists σ σ1 tr2 σ2, ExitUpdate_ends σ 1 7 = Ok (σ1, None) /\ sample_steps σ1 tr2 σ2 /\ pending σ2 !! me σ2 = Some (JoinMultex 1 0) /\
    JoinUpdate_waits σ2 1 0 = Undefined.
Proof.
  destruct (sample_from_boot leave_run (fun σ _ => in_threadb (ker σ) = true /\ exists b, pcb_of σ 1 = Some b /\
    match ExitUpdate_ends σ 1 7 with
    | Ok (σ1, None) => match do_sample again_run σ1 [] with
                       | Ok (σ2, _) => pending σ2 !! me σ2 = Some (JoinMultex 1 0) /\ is_ok (PCB_IncNumWait σ2 0) = true
                       | _ => False end
    | _ => False end)) as (σ0 & σ & tr & E & Hs & Hit & b & Hb & H).
  { vm_compute. split; [reflexivity|]. eexists. split; [reflexivity|]. split; reflexivity. }
  destruct (ExitUpdate_ends σ 1 7) as [[σ1 [v|]]| | |] eqn:EE; [destruct H| |destruct H..].
  destruct (sample_more again_run σ1 [] σ1 (fun σ2 _ => pending σ2 !! me σ2 = Some (JoinMultex 1 0) /\ is_ok (PCB_IncNumWait σ2 0) = true)
    (pss_refl _ _ _ _ _ σ1) H) as (σ2 & tr2 & Hs2 & Hp & Hok).
  destruct (PCB_IncNumWait σ2 0) as [σ3| | |] eqn:EI; [|discriminate Hok..].
  exists σ, σ1, tr2, σ2. split; [exact EE|]. split; [exact Hs2|]. split; [exact Hp|].
  exact (proj2 (join_again_dangles one_program zero_pcb sample_junk no_space (replicate 40 0) sample_cpu sample_frames [0] σ0 tr σ 1 7 b σ1 E Hs
    (in_threadb_spec _ Hit) Hb EE tr2 σ2 0 σ3 Hs2 EI)).
Defined.

(** Before the end of the first Exec; then the new process runs. *)
Definition exec_run : list proc_op := [PMain [77]] ++ do_call SC_Exec 4 0 ++ [PContinue].

Lemma exec_from_child_undefined_witness :
  exists σ σ1 tr2 σ2, continue one_program zero_pcb sample_junk σ (ExecMultex 1 [77]) = Ok (σ1, Quiet) /\ sample_steps σ1 tr2 σ2 /\ me σ2 = 2%positive /\
    ExecUpdate_checks one_program zero_pcb σ2 [77] = Undefined.
Proof.
  destruct (sample_from_boot exec_run (fun σ _ => in_threadb (ker σ) = true /\ pending σ !! me σ = Some (ExecMultex 1 [77]) /\ nextThread σ = 2%positive /\
    match continue one_program zero_pcb sample_junk σ (ExecMultex 1 [77]) with
    | Ok (σ1, Quiet) => match do_sample [PYield; PResume; PStart] σ1 [] with Ok (σ2, _) => me σ2 = 2%positive | _ => False end
    | _ => False end)) as (σ0 & σ & tr & E & Hs & Hit & Hp & Hn & H).
  { vm_compute. repeat split. }
  destruct (continue one_program zero_pcb sample_junk σ (ExecMultex 1 [77])) as [[σ1 []]| | |] eqn:EC; [|destruct H..].
  destruct (sample_more [PYield; PResume; PStart] σ1 [] σ1 (fun σ2 _ => me σ2 = 2%positive) (pss_refl _ _ _ _ _ σ1) H) as (σ2 & tr2 & Hs2 & Hme).
  exists σ, σ1, tr2, σ2. split; [exact EC|]. split; [exact Hs2|]. split; [exact Hme|].
  refine (exec_from_child_undefined one_program zero_pcb sample_junk no_space (replicate 40 0) sample_cpu sample_frames [0] σ0 tr σ 1 [77] σ1 E Hs
    (in_threadb_spec _ Hit) Hp EC tr2 σ2 [77] Hs2 _ _); [rewrite Hn; exact Hme|discriminate].
Defined.
