(* ===== verification/Syscalls.v ===== *)
(** * The exception handler

    [ExceptionHandler] of userprog/exception.cc, for any implementation of the system
    calls ([Calls]), and a step of the loop of [Machine::Run]: an instruction, and the
    handler when it traps.  [OS_calls] is the implementation of the console and file calls
    on the state of FileCalls.v. *)

From S2P Require Import Prelude Int32 Machine Cpu Disk FileHdr OpenFile Directory FileSys AddrSpace Console UserMem ConsoleCalls FileCalls.

(** What the handler needs of the kernel: the machine in its state, and a function for
    each system call. *)
Class Calls (S : Type) := {
  call_machine : S -> Machine;
  call_with : S -> Machine -> S;
  do_ReadInt : S -> outcome S;
  do_PrintInt : S -> outcome S;
  do_ReadChar : S -> outcome S;
  do_PrintChar : S -> outcome S;
  do_ReadString : S -> outcome S;
  do_PrintString : S -> outcome S;
  do_CreateFile : S -> outcome S;
  do_Open : S -> outcome S;
  do_Close : S -> outcome S;
  do_Read : S -> outcome S;
  do_Write : S -> outcome S;
  do_Exec : S -> outcome S;
  do_Join : S -> outcome S;
  do_Exit : S -> outcome S;
  do_CreateSemaphore : S -> outcome S;
  do_Wait : S -> outcome S;
  do_Signal : S -> outcome S;
  call_with_machine : forall s m, call_machine (call_with s m) = m }.

Section Handler.
Context {S : Type} `{!Calls S}.

(** [Increase_ProgramCounter] on the state *)
Definition step_pc (s : S) : outcome S := m ← Increase_ProgramCounter (call_machine s); Ok (call_with s m).

(** A system call and [Increase_ProgramCounter] *)
Definition then_step (f : S -> outcome S) (s : S) : outcome S := s ← f s; step_pc s.

(** [case SC_Sum] *)
Definition do_Sum (s : S) : outcome S :=
  a ← Machine_ReadRegister (call_machine s) 4;
  b ← Machine_ReadRegister (call_machine s) 5;
  m ← Machine_WriteRegister (call_machine s) 2 (wrap_s32 (a + b));
  Ok (call_with s m).

(** [ExceptionHandler]; the codes are those of userprog/syscall.h. *)
Definition ExceptionHandler (which : ExceptionType) (s : S) : outcome S :=
  type ← Machine_ReadRegister (call_machine s) 2;
  match which with
  | NoException => Ok s
  | PageFaultException | ReadOnlyException | BusErrorException | AddressErrorException | OverflowException | IllegalInstrException => Halt
  | SyscallException =>
      match type with
      | 28 => then_step do_Sum s
      | 0 => Halt
      | 11 => then_step do_ReadInt s
      | 12 => then_step do_PrintInt s
      | 13 => then_step do_ReadChar s
      | 14 => then_step do_PrintChar s
      | 15 => then_step do_ReadString s
      | 16 => then_step do_PrintString s
      | 4 => then_step do_CreateFile s
      | 5 => then_step do_Open s
      | 8 => then_step do_Close s
      | 6 => then_step do_Read s
      | 7 => then_step do_Write s
      | 2 => then_step do_Exec s
      | 3 => then_step do_Join s
      | 1 => then_step do_Exit s
      | 18 => then_step do_CreateSemaphore s
      | 19 => then_step do_Wait s
      | 20 => then_step do_Signal s
      | _ => Ok s
      end
  end.

(** One round of [Machine::Run], without the clock: [OneInstruction], and the handler when
    it raises an exception. *)
Definition user_step (s : S) : outcome S :=
  r ← Machine_OneInstruction (call_machine s);
  match r with
  | Next m => Ok (call_with s m)
  | Trap which m => ExceptionHandler which (call_with s m)
  end.

Fixpoint user_steps (n : nat) (s : S) : outcome S :=
  match n with O => Ok s | Datatypes.S n => s ← user_step s; user_steps n s end.

(** ** The SYSCALL instruction *)

(** The program counter is at a SYSCALL, and no load to register [r] is pending. *)
Record at_syscall (m : Machine) : Prop := {
  as_user : user_ok m;
  as_zero : reg m 0 = 0;
  as_word : exists pa, phys_of m (reg m PCReg) 4 false = Ok (inr pa) /\ load_value 4 (slice (mainMemory m) pa 4) = Ok 12 }.
Definition no_load (m : Machine) (r : Z) : Prop := reg m LoadReg <> r.

Lemma RaiseException_memory m v m' :
  Machine_RaiseException m v = Ok m' -> mainMemory m' = mainMemory m /\ forall va size w, phys_of m' va size w = phys_of m va size w.
Proof.
  unfold Machine_RaiseException, Machine_DelayedLoad. intros H. apply bind_Ok_inv in H as (x & _ & H). injection H as <-.
  split; [done|]. intros. by rewrite !phys_of_set_reg.
Qed.

Lemma syscall_traps m :
  at_syscall m ->
  exists m', Machine_OneInstruction m = Ok (Trap SyscallException m') /\ at_syscall m' /\ same_pcs m m' /\ reg m' LoadReg = 0 /\ mainMemory m' = mainMemory m /\
    (forall v w, pa_of m' v w = pa_of m v w) /\ (forall r, 0 < r < 32 -> no_load m r -> reg m' r = reg m r) /\
    forall va size w, phys_of m' va size w = phys_of m va size w.
Proof.
  intros [[Hwf Hl Hinj] H0 (pa & Hpa & Hv)].
  destruct (ReadMem_at m (reg m PCReg) 4 pa 12 Hwf ltac:(by right; right) Hpa Hv) as (m1 & E & Hwf1 & HM & Hs). pose proof Hs as (Hr & _ & _ & _ & Hph).
  unfold Machine_OneInstruction. rewrite E. cbn [mbind outcome_bind]. change (wrap_u32 12) with 12.
  destruct (Instruction_Decode 12) as [i| | |] eqn:Ed; [|discriminate Ed..]. cbn [mbind outcome_bind].
  assert (Ho : opCode i = OP_SYSCALL) by (vm_compute in Ed; injection Ed as <-; reflexivity).
  assert (Hex : forall pc, execute m1 i pc = Ok (Raise m1 SyscallException 0)) by (intros pc; unfold execute, exec_trap_xor; by rewrite Ho).
  rewrite Hex. cbn [mbind outcome_bind]. assert (Hl1 : 0 <= reg m1 LoadReg < 32) by (unfold reg in *; by rewrite Hr).
  destruct (raise_spec m1 SyscallException 0 Hwf1 Hl1 ltac:(apply int32_small; lia)) as (m' & E' & [Hwf' Hl' Hz'] & HL0 & _ & Hpc & Hregs).
  exists m'. split; [exact E'|]. unfold raise in E'. apply bind_Ok_inv in E' as (m2 & ER & E'). injection E' as ->.
  apply RaiseException_memory in ER as [HM' Hph'].
  assert (Hreg : forall r, reg m1 r = reg m r) by (intros r; unfold reg; by rewrite Hr).
  assert (Hpa' : forall v w, pa_of m' v w = pa_of m v w) by (intros v w; unfold pa_of; by rewrite Hph', Hph).
  unfold same_pcs in *. rewrite !Hreg in Hpc. destruct Hpc as (P1 & P2 & P3). conjs; try done.
  - split; [|done|].
    + split; [done|done|]. intros v v' q. rewrite !Hpa'. apply Hinj.
    + exists pa. rewrite P1, Hph', Hph, HM', HM. done.
  - congruence.
  - intros r Hrr Hn. rewrite Hregs by (done || by rewrite Hreg). apply Hreg.
  - intros va size w. by rewrite Hph', Hph.
Qed.
(** The codes [ExceptionHandler] knows. *)
Definition implemented : list Z := [28; 0; 11; 12; 13; 14; 15; 16; 4; 5; 8; 6; 7; 2; 3; 1; 18; 19; 20].

Lemma unknown_call s : Machine_wf (call_machine s) -> reg (call_machine s) 2 ∉ implemented -> ExceptionHandler SyscallException s = Ok s.
Proof.
  intros Hwf Hn. unfold ExceptionHandler. rewrite ReadRegister_spec by done. change ((0 <=? 2) && (2 <? 40)) with true. cbn [mbind outcome_bind].
  destruct (reg (call_machine s) 2) as [|p|p] eqn:E; [destruct Hn; by apply list_elem_of_In; simpl; tauto| |done].
  repeat (destruct p as [p|p|]; try done); destruct Hn; apply list_elem_of_In; simpl; tauto.
Qed.
Lemma step_pc_ok s :
  user_ok (call_machine s) ->
  exists s', step_pc s = Ok s' /\ Machine_wf (call_machine s') /\ mainMemory (call_machine s') = mainMemory (call_machine s) /\
    reg (call_machine s') PCReg = reg (call_machine s) NextPCReg /\ reg (call_machine s') NextPCReg = wrap_s32 (reg (call_machine s) NextPCReg + 4) /\
    (forall r, 0 <= r < 32 -> reg (call_machine s') r = reg (call_machine s) r) /\ exists m, s' = call_with s m.
Proof.
  intros [Hwf _ _]. unfold step_pc. destruct (Increase_ProgramCounter_spec _ Hwf) as (m & -> & Hwf' & HM & _ & H1 & H2 & H3). cbn [mbind outcome_bind].
  exists (call_with s m). rewrite call_with_machine. conjs; try done; [|by exists m]. intros r Hr. apply H3; unfold PrevPCReg, PCReg, NextPCReg; lia.
Qed.

Lemma unknown_spins n s :
  at_syscall (call_machine s) -> no_load (call_machine s) 2 -> reg (call_machine s) 2 ∉ implemented ->
  exists s', user_steps n s = Ok s' /\ reg (call_machine s') 2 = reg (call_machine s) 2 /\ same_pcs (call_machine s) (call_machine s') /\ at_syscall (call_machine s').
Proof.
  revert s. induction n as [|n IH]; intros s Hat Hl Hn; [by exists s|].
  destruct (syscall_traps _ Hat) as (m' & E & Hat' & (P1 & P2 & P3) & HL & _ & _ & Hr & _). assert (E2 : reg m' 2 = reg (call_machine s) 2) by (apply Hr; [lia|done]).
  assert (Hus : user_step s = Ok (call_with s m')).
  { unfold user_step. rewrite E. cbn [mbind outcome_bind]. apply unknown_call; rewrite call_with_machine; [apply Hat'|by rewrite E2]. }
  cbn [user_steps]. rewrite Hus. cbn [mbind outcome_bind].
  destruct (IH (call_with s m')) as (s' & E' & R & (Q1 & Q2 & Q3) & A); rewrite ?call_with_machine in *; [done|unfold no_load; by rewrite HL|by rewrite E2|].
  exists s'. unfold same_pcs. conjs; try done; congruence.
Qed.

(** What the handler does with a user program, for every implementation of the system
    calls.  An exception that is not a system call, and the call Halt, stop the machine.
    Sum leaves the sum of its arguments in register 2 and goes on behind the SYSCALL.  A
    call with a code the handler does not know returns to the same SYSCALL, so that the
    program makes it again for ever. *)
Theorem exception_control s :
  let m := call_machine s in
  (forall which m', Machine_OneInstruction m = Ok (Trap which m') -> Machine_wf m' -> which <> SyscallException -> which <> NoException -> user_step s = Halt) /\
  (at_syscall m -> no_load m 2 ->
    (reg m 2 = 0 -> user_step s = Halt) /\
    (reg m 2 = 28 -> no_load m 4 -> no_load m 5 ->
      exists s', user_step s = Ok s' /\ reg (call_machine s') 2 = wrap_s32 (reg m 4 + reg m 5) /\ reg (call_machine s') PCReg = reg m NextPCReg /\
        reg (call_machine s') NextPCReg = wrap_s32 (reg m NextPCReg + 4) /\ mainMemory (call_machine s') = mainMemory m) /\
    (reg m 2 ∉ implemented ->
      forall n, exists s', user_steps n s = Ok s' /\ reg (call_machine s') 2 = reg m 2 /\ same_pcs m (call_machine s') /\ at_syscall (call_machine s'))).
Proof.
  intros m. split.
  - intros which m' E Hwf Hs Hn. unfold user_step. fold m. rewrite E. cbn [mbind outcome_bind]. unfold ExceptionHandler. rewrite call_with_machine, ReadRegister_spec by done.
    change ((0 <=? 2) && (2 <? 40)) with true. cbn [mbind outcome_bind]. by destruct which.
  - intros Hat Hl2. destruct (syscall_traps m Hat) as (m' & E & Hat' & Hpc & HL & HM & _ & Hr & _). pose proof (uo_wf _ (as_user _ Hat')) as Hwf'.
    assert (E2 : reg m' 2 = reg m 2) by (apply Hr; [lia|done]).
    assert (Hstep : forall k, reg m 2 = k -> Machine_ReadRegister (call_machine (call_with s m')) 2 = Ok k).
    { intros k <-. rewrite call_with_machine, ReadRegister_spec by done. change ((0 <=? 2) && (2 <? 40)) with true. by rewrite E2. }
    conjs.
    + intros H0. unfold user_step. fold m. rewrite E. cbn [mbind outcome_bind]. unfold ExceptionHandler. by rewrite (Hstep 0 H0).
    + intros H28 Hl4 Hl5. unfold user_step. fold m. rewrite E. cbn [mbind outcome_bind]. unfold ExceptionHandler. rewrite (Hstep 28 H28). cbn [mbind outcome_bind].
      unfold then_step, do_Sum. rewrite !call_with_machine, !ReadRegister_spec by done. change ((0 <=? 4) && (4 <? 40)) with true. change ((0 <=? 5) && (5 <? 40)) with true.
      cbn [mbind outcome_bind]. unfold Machine_WriteRegister. change ((0 <=? 2) && (2 <? NumTotalRegs)) with true. cbn [ASSERT mbind outcome_bind].
      rewrite (Hr 4), (Hr 5) by (lia || done). set (v := wrap_s32 (reg m 4 + reg m 5)).
      destruct (step_pc_ok (call_with (call_with s m') (set_reg m' 2 v))) as (s' & -> & _ & HM' & P1 & P2 & Hlow & _).
      { rewrite call_with_machine. apply user_ok_set_reg; [apply Hat'|apply wrap_s32_range|done]. }
      rewrite !call_with_machine in *. exists s'. destruct Hpc as (Q1 & Q2 & Q3). conjs; [done| | | |by rewrite HM'].
      * rewrite Hlow by lia. apply reg_set_reg_eq. rewrite (wf_registers _ Hwf'). unfold NumTotalRegs. lia.
      * rewrite P1, reg_set_reg_ne by (unfold NextPCReg; lia). done.
      * rewrite P2, reg_set_reg_ne by (unfold NextPCReg; lia). by rewrite Q2.
    + intros Hn n. by apply unknown_spins.
Qed.
End Handler.

(** ** The console and file calls *)

Section OSCalls.
Context {C D : Type} `{!ConsoleDevice C} `{!BlockDevice D} (H : Heap) (junk : Z).
(** The calls on processes and semaphores, by code; Process.v has them. *)
Context (process : Z -> OS C D -> outcome (OS C D)).

Definition on_console (f : Machine -> C -> outcome (Machine * C)) (s : OS C D) : outcome (OS C D) :=
  '(m, c) ← f (os_machine s) (os_console s);
  Ok (set_console (set_machine s m) c).

#[export] Instance OS_calls : Calls (OS C D) := {
  call_machine := os_machine;
  call_with := set_machine;
  do_ReadInt := on_console (Exception_ReadInt junk);
  do_PrintInt := on_console Exception_PrintInt;
  do_ReadChar := on_console (Exception_ReadChar junk);
  do_PrintChar := on_console Exception_PrintChar;
  do_ReadString := on_console (Exception_ReadString junk);
  do_PrintString := on_console Exception_PrintString;
  do_CreateFile := Exception_CreateFile H;
  do_Open := Exception_Open H;
  do_Close := Exception_Close;
  do_Read := Exception_Read junk;
  do_Write := Exception_Write H;
  do_Exec := process 2;
  do_Join := process 3;
  do_Exit := process 1;
  do_CreateSemaphore := process 18;
  do_Wait := process 19;
  do_Signal := process 20;
  call_with_machine := fun s m => eq_refl }.

Context `{!ConsoleLaws C} `{!BlockLaws D} (Hok : heap_ok H).

(** The state in which the handler runs, after a SYSCALL. *)
Lemma at_user_traps m m' va i : (forall v w, pa_of m' v w = pa_of m v w) -> mainMemory m' = mainMemory m -> at_user m' va i = at_user m va i.
Proof. intros Hp HM. unfold at_user, ubyte. by rewrite Hp, HM. Qed.

Lemma step_pc_os (s : OS C D) :
  user_ok (os_machine s) ->
  exists m, step_pc s = Ok (set_machine s m) /\ user_ok m /\ (forall v, ubyte m v = ubyte (os_machine s) v) /\
    reg m PCReg = reg (os_machine s) NextPCReg /\ reg m NextPCReg = wrap_s32 (reg (os_machine s) NextPCReg + 4) /\ reg m 2 = reg (os_machine s) 2.
Proof.
  intros Hu. unfold step_pc. cbn [call_machine call_with OS_calls]. destruct (Increase_ProgramCounter_spec _ (uo_wf _ Hu)) as (m & E & _ & HM & _ & H1 & H2 & H3).
  rewrite E. cbn [mbind outcome_bind]. destruct (Increase_ProgramCounter_user _ _ Hu E) as [Hu' Hp]. exists m.
  conjs; [done|done| |done|done|by apply H3]. intros v. unfold ubyte. by rewrite Hp, HM.
Qed.

(** C1: a Write from the user program to the disk.  When the program executes a SYSCALL with
    the code of Write in register 2, and register 6 holds a descriptor that is open for
    writing, then [charcount] bytes, cut at the end of the file, replace those of the file
    on the disk at the position of the descriptor: the bytes at the address in register 4 up
    to the first NUL, and zeros for those behind it, since the kernel copies the buffer as a
    string (syscall.h promises all [charcount] bytes).  No other file changes and no byte of
    user memory does, the position moves on, and the program goes on behind the SYSCALL.
    Register 2 holds the number of bytes written if there are any; at the end of the file
    nothing is written and it keeps 7, the code of the call. *)
Theorem write_instruction k (s : OS C D) nm f old str :
  let m := os_machine s in
  let n := reg m 5 in
  at_syscall m -> reg m 2 = 7 -> Forall (no_load m) [2; 4; 5; 6] ->
  os_ok (128 + k) s -> open_on s (reg m 6) nm f old -> of_type f = 0 ->
  0 <= n -> seekPosition f + n <= int32_max -> cstring_at (at_user m (reg m 4)) (Z.to_nat n) 0 = Some str ->
  let len := Z.max 0 (Z.min n (lenZ old - seekPosition f)) in
  exists s', user_step s = Ok s' /\ os_ok k s' /\ (exists old', open_on s' (reg m 6) nm (moved f len) old') /\
    (forall nm', fs_file (os_disk s') (os_fs s') nm' =
       if bool_decide (key nm = key nm') then Some (splice old (seekPosition f) (slice (kernel_buf n str) 0 len))
       else fs_file (os_disk s) (os_fs s) nm') /\
    (forall v, ubyte (os_machine s') v = ubyte m v) /\ os_console s' = os_console s /\ reg (os_machine s') 2 = (if 0 <? len then len else 7) /\
    reg (os_machine s') PCReg = reg m NextPCReg /\ reg (os_machine s') NextPCReg = wrap_s32 (reg m NextPCReg + 4).
Proof.
  intros m n Hat H2 Hnl Hs Hop Hty Hn Hmax Hstr len. destruct (syscall_traps m Hat) as (m' & E & Hat' & (_ & Hnpc & _) & _ & HM & Hpa & Hr & _).
  rewrite !Forall_cons in Hnl. destruct Hnl as (L2 & L4 & L5 & L6 & _).
  assert (R2 : reg m' 2 = 7) by (rewrite Hr by (lia || done); exact H2). assert (R4 : reg m' 4 = reg m 4) by (apply Hr; [lia|done]).
  assert (R5 : reg m' 5 = n) by (apply Hr; [lia|done]). assert (R6 : reg m' 6 = reg m 6) by (apply Hr; [lia|done]).
  set (s1 := set_machine s m'). assert (Hs1 : os_ok (128 + k) s1) by (destruct Hs as [_ W1 W2 W3 W4]; split; [exact (as_user _ Hat')|exact W1|exact W2|exact W3|exact W4]).
  assert (Hop1 : open_on s1 (arg s1 6) nm f old) by (unfold arg; cbn [os_machine s1 set_machine]; rewrite R6; destruct Hop as [O1 O2 O3 O4 O5]; split; [exact O1|exact O2|exact O3|exact O4|exact O5]).
  assert (Hu1 : forall v, ubyte m' v = ubyte m v) by (intros v; unfold ubyte; by rewrite Hpa, HM).
  destruct (write_call_refines H Hok k s1 nm f old str Hs1 Hop1 Hty) as (s2 & Ew & Hs2 & Hop2 & Hfs2 & A2 & Hu2 & Hc2 & Hregs).
  { unfold arg. cbn [os_machine s1 set_machine]. lia. }
  { unfold arg. cbn [os_machine s1 set_machine]. by rewrite R5. }
  { unfold arg. cbn [os_machine s1 set_machine]. rewrite R4, R5, <- Hstr. apply cstring_at_ext. intros j. by apply at_user_traps. }
  change (arg s1 5) with (reg m' 5) in *. change (arg s1 6) with (reg m' 6) in *. change (arg s1 2) with (reg m' 2) in *. rewrite R5, ?R6, ?R2 in *. fold len in Hop2, Hfs2, A2.
  destruct (step_pc_os s2 (ok_user _ _ Hs2)) as (m3 & Ep & Hu3 & Hub3 & P1 & P2 & P3). exists (set_machine s2 m3).
  assert (Hnp : reg (os_machine s2) NextPCReg = reg m NextPCReg) by (change (reg (os_machine s2) NextPCReg) with (arg s2 NextPCReg); rewrite Hregs by done; exact Hnpc).
  conjs.
  - unfold user_step. cbn [call_machine call_with OS_calls]. fold m. rewrite E. cbn [mbind outcome_bind]. unfold ExceptionHandler. cbn [call_machine OS_calls].
    change (os_machine (set_machine s m')) with m'. rewrite ReadRegister_spec by apply Hat'. change ((0 <=? 2) && (2 <? 40)) with true. cbn [mbind outcome_bind].
    rewrite R2. unfold then_step. cbn [do_Write OS_calls]. fold s1. rewrite Ew. cbn [mbind outcome_bind]. exact Ep.
  - destruct Hs2 as [_ W1 W2 W3 W4]. split; [exact Hu3|exact W1|exact W2|exact W3|exact W4].
  - destruct Hop2 as [old' [O1 O2 O3 O4 O5]]. exists old'. split; [exact O1|exact O2|exact O3|exact O4|exact O5].
  - exact Hfs2.
  - intros v. cbn [os_machine set_machine]. rewrite Hub3, Hu2. apply Hu1.
  - exact Hc2.
  - cbn [os_machine set_machine]. rewrite P3. exact A2.
  - cbn [os_machine set_machine]. by rewrite P1.
  - cbn [os_machine set_machine]. by rewrite P2, Hnp.
Qed.
End OSCalls.

(** ** Examples *)

(** A program at a SYSCALL, with the string hi at address 4 and the given registers. *)
Definition trap_page (r2 r4 r5 r6 : Z) : Machine :=
  set_reg (set_reg (set_reg (set_reg (sample_machine [12; 26984] (sample_regs 0 0 0)) 2 r2) 4 r4) 5 r5) 6 r6.

Lemma trap_page_ok r2 r4 r5 r6 : int32 r2 -> int32 r4 -> int32 r5 -> int32 r6 -> user_ok (trap_page r2 r4 r5 r6).
Proof.
  intros. repeat (apply user_ok_set_reg; [|done|done]).
  assert (Hwf : Machine_wf (sample_machine [12; 26984] (sample_regs 0 0 0))) by (apply sample_wf; first [vm_compute; done | unfold_int32; lia]).
  split; [done|vm_compute; split; congruence|].
  apply (table_injective _ [mkEntry 0 0 true false false false]); [done|reflexivity|reflexivity|].
  simpl. apply NoDup_singleton.
Qed.

Definition no_process (code : Z) (s : OS CSys DSys) : outcome (OS CSys DSys) := Undefined.
Abbreviation sample_step := (user_step (Calls0 := OS_calls zero_heap 0 no_process)).

Lemma write_instruction_witness :
  exists (s s' : OS CSys DSys) old, fs_file (os_disk s) (os_fs s) [97] = Some old /\ sample_step s = Ok s' /\
    reg (os_machine s') PCReg = 4 /\ reg (os_machine s') 2 = 4 /\ fs_file (os_disk s') (os_fs s') [97] = Some (splice old 0 [104; 105; 0; 0]).
Proof.
  assert (Hu : user_ok (trap_page 7 4 4 3)) by (apply trap_page_ok; unfold_int32; lia).
  destruct (sample_os (trap_page 7 4 4 3) 0 Hu) as (s & f & old & Em & Hs & Hop & Hty & Hpos & Hl & _).
  destruct (write_instruction (C := CSys) (D := DSys) zero_heap 0 no_process zero_heap_ok 352 s [97] f old [104; 105]) as (s' & E & _ & _ & Hfs & _ & _ & H2 & P & _).
  - rewrite Em. split; [exact Hu|reflexivity|]. exists 0. split; vm_compute; reflexivity.
  - rewrite Em. reflexivity.
  - rewrite Em. repeat constructor; vm_compute; discriminate.
  - exact Hs.
  - rewrite Em. exact Hop.
  - exact Hty.
  - rewrite Em. vm_compute. discriminate.
  - rewrite Em, Hpos. vm_compute. discriminate.
  - rewrite Em. vm_compute. reflexivity.
  - rewrite Em in Hfs, H2, P. change (reg (trap_page 7 4 4 3) 5) with 4 in *. rewrite Hl, Hpos in H2, Hfs. exists s, s', old.
    split; [exact (oo_file _ _ _ _ _ Hop)|]. split; [exact E|]. split; [exact P|]. split; [exact H2|]. exact (Hfs [97]).
Defined.

(** A call with code 9, which the handler does not know, after a thousand steps. *)
Lemma exception_control_witness :
  exists (s s1 s2 : OS CSys DSys), os_machine s = trap_page 28 3 4 0 /\ sample_step s = Ok s1 /\ reg (os_machine s1) 2 = 7 /\
    user_steps (Calls0 := OS_calls zero_heap 0 no_process) 1000 (set_machine s (trap_page 9 0 0 0)) = Ok s2 /\ reg (os_machine s2) PCReg = 0.
Proof.
  assert (Hu : user_ok (trap_page 28 3 4 0)) by (apply trap_page_ok; unfold_int32; lia).
  assert (Hu9 : user_ok (trap_page 9 0 0 0)) by (apply trap_page_ok; unfold_int32; lia).
  destruct (sample_os (trap_page 28 3 4 0) 0 Hu) as (s & _ & _ & Em & _).
  destruct (exception_control (Calls0 := OS_calls zero_heap 0 no_process) s) as [_ H1].
  destruct (exception_control (Calls0 := OS_calls zero_heap 0 no_process) (set_machine s (trap_page 9 0 0 0))) as [_ H2].
  cbn [call_machine OS_calls] in H1, H2. rewrite Em in H1. change (os_machine (set_machine s (trap_page 9 0 0 0))) with (trap_page 9 0 0 0) in H2.
  destruct H1 as (_ & H1 & _); [split; [exact Hu|reflexivity|exists 0; split; vm_compute; reflexivity]|vm_compute; discriminate|].
  destruct H2 as (_ & _ & H2); [split; [exact Hu9|reflexivity|exists 0; split; vm_compute; reflexivity]|vm_compute; discriminate|].
  destruct H1 as (s1 & E1 & R1 & _); [reflexivity|vm_compute; discriminate|vm_compute; discriminate|].
  destruct (H2 ltac:(apply (bool_decide_unpack (9 ∉ implemented)); vm_compute; exact I) 1000%nat) as (s2 & E2 & _ & (P & _) & _).
  exists s, s1, s2. split; [exact Em|]. split; [exact E1|]. split; [exact R1|]. split; [exact E2|exact P].
Defined.
