(* ===== verification/Stubs.v ===== *)
(** * The system call stubs (test/start.c, test/start.s)

    start.o is linked in front of every user program: [__start], which calls [main] and then
    [Exit], and one stub for each system call.  The code is given by its words, as the
    assembler writes them, with a nop behind the jump of each stub; [__start] has the move in
    the delay slot of its second jump.  The theorems run the words on the processor of [Cpu]
    with the handler of [Syscalls], for every implementation of the calls. *)

From stdpp Require Import strings.
From S2P Require Import Prelude Int32 Machine Cpu UserMem Disk OpenFile Directory FileSys Console ConsoleCalls FileCalls Syscalls.
Open Scope Z_scope.

(** ** The code *)

(** The stubs in their order, with the codes of userprog/syscall.h *)
Definition stubs : list (string * Z) :=
  [("Halt", 0); ("Exit", 1); ("Exec", 2); ("Join", 3); ("CreateFile", 4); ("Open", 5); ("Read", 6); ("Write", 7); ("Close", 8);
   ("Fork", 9); ("Yield", 10); ("ReadInt", 11); ("PrintInt", 12); ("ReadChar", 13); ("PrintChar", 14); ("ReadString", 15);
   ("PrintString", 16); ("FileSize", 17); ("CreateSemaphore", 18); ("Wait", 19); ("Signal", 20)].

(** [addiu $2,$0,code; syscall; j $31] *)
Definition stub (code : Z) : list Z := [0x24020000 + code; 0x0000000c; 0x03e00008; 0].

(** [jal target] *)
Definition jal_word (target : Z) : Z := 0x0c000000 + target / 4.

(** [__start]: [jal main; move $4,$0; jal Exit] *)
Definition start_words (main Exit : Z) : list Z := [jal_word main; 0; jal_word Exit; 0x00002021].

(** The text of start.o, linked at address 0 in front of [main], with [__main] at its end *)
Definition start_text (main : Z) : list Z := start_words main 32 ++ concat (map (fun s => stub s.2) stubs) ++ [0x03e00008; 0; 0; 0].

(** ** Instructions *)

(** The word [w] can be fetched at the address [a]. *)
Definition word_at (m : Machine) (a w : Z) : Prop :=
  exists pa, phys_of m a 4 false = Ok (inr pa) /\ load_value 4 (slice (mainMemory m) pa 4) = Ok w.

(** A machine between two instructions, without a load that is pending. *)
Record settled (m : Machine) : Prop := {
  sd_user : user_ok m;
  sd_zero : reg m 0 = 0;
  sd_load : reg m LoadReg = 0 }.

(** [m'] has the memory and the address map of [m]. *)
Definition same_memory (m m' : Machine) : Prop :=
  mainMemory m' = mainMemory m /\ forall va size w, phys_of m' va size w = phys_of m va size w.

#[export] Instance same_memory_refl : Reflexive same_memory.
Proof. done. Qed.
#[export] Instance same_memory_trans : Transitive same_memory.
Proof. intros m1 m2 m3 [A1 A2] [B1 B2]. split; [congruence|]. intros. by rewrite B2. Qed.

Lemma word_at_same m m' a w : same_memory m m' -> word_at m a w -> word_at m' a w.
Proof. intros [HM Hp] (pa & H1 & H2). exists pa. by rewrite Hp, HM. Qed.

Lemma memory_set_reg m r v : same_memory m (set_reg m r v).
Proof. split; [done|]. intros. apply phys_of_set_reg. Qed.
#[local] Hint Resolve memory_set_reg : nachos.

Lemma user_ok_same m m' : user_ok m -> same_memory m m' -> Machine_wf m' -> 0 <= reg m' LoadReg < 32 -> user_ok m'.
Proof. intros [_ _ Hi] [_ Hp] Hwf Hl. split; [done|done|]. intros v v' pa. unfold pa_of. rewrite !Hp. apply Hi. Qed.

Lemma finish_memory m pc r v m' : finish_instruction m pc r v = Ok m' -> same_memory m m'.
Proof.
  unfold finish_instruction, Machine_DelayedLoad. intros H. apply bind_Ok_inv in H as (m1 & H1 & H). apply bind_Ok_inv in H1 as (x & _ & H1).
  injection H1 as <-. injection H as <-. repeat (etransitivity; [|apply memory_set_reg]). reflexivity.
Qed.

(** What an instruction that raises nothing and loads nothing does: it may set the register
    [o], and says what comes behind the next instruction. *)
Definition assigned (o : option (Z * Z)) (m : Machine) : Machine := match o with Some (r, v) => set_reg m r v | None => m end.
Record stepped (m : Machine) (o : option (Z * Z)) (pcAfter : Z) (m' : Machine) : Prop := {
  st_settled : settled m';
  st_memory : same_memory m m';
  st_pc : reg m' PCReg = reg m NextPCReg;
  st_next : reg m' NextPCReg = pcAfter;
  st_regs : forall r, 0 < r < 32 -> reg m' r = match o with Some (q, v) => if r =? q then v else reg m r | None => reg m r end }.

Lemma plain_step m w i o pcAfter :
  settled m -> word_at m (reg m PCReg) w -> Instruction_Decode (wrap_u32 w) = Ok i -> int32 pcAfter ->
  (forall r v, o = Some (r, v) -> 0 <= r < 32 /\ int32 v) ->
  (forall m1, registers m1 = registers m -> execute m1 i (wrap_s32 (reg m NextPCReg + 4)) = Ok (Done (assigned o m1) pcAfter 0 0)) ->
  exists m', Machine_OneInstruction m = Ok (Next m') /\ stepped m o pcAfter m'.
Proof.
  intros [Hu Hz Hl] (pa & Hpa & Hv) Hd Hpc Ho Hex. pose proof (uo_wf _ Hu) as Hwf.
  destruct (ReadMem_at m (reg m PCReg) 4 pa w Hwf ltac:(by right; right) Hpa Hv) as (m1 & E & Hwf1 & HM & (Hr & _ & _ & _ & Hph)).
  assert (Hreg : forall r, reg m1 r = reg m r) by (intros r; unfold reg; by rewrite Hr).
  unfold Machine_OneInstruction. rewrite E. cbn [mbind outcome_bind]. rewrite Hd. cbn [mbind outcome_bind]. rewrite Hreg, (Hex m1 Hr). cbn [mbind outcome_bind].
  set (m2 := assigned o m1). assert (Hwf2 : Machine_wf m2) by (unfold m2, assigned; destruct o as [[r v]|]; [apply set_reg_wf; [done|by apply (Ho r v)]|done]).
  assert (Hhigh : forall r, 32 <= r -> reg m2 r = reg m r).
  { intros r Hr'. unfold m2, assigned. destruct o as [[q v]|]; [|apply Hreg]. destruct (Ho q v eq_refl). rewrite reg_set_reg_ne by lia. apply Hreg. }
  destruct (finish_spec m2 pcAfter 0 0 Hwf2) as (m' & Ef & [W1 W2 W3] & L1 & _ & _ & P1 & _ & P3 & Hlow); [rewrite Hhigh by (unfold LoadReg; lia); lia|done|lia|apply int32_small; lia|].
  rewrite Ef. cbn [mbind outcome_bind]. exists m'. split; [done|]. apply finish_memory in Ef.
  assert (Hm : same_memory m m').
  { etransitivity; [|exact Ef]. unfold m2, assigned. assert (same_memory m m1) by done. destruct o as [[r v]|]; [etransitivity; [done|apply memory_set_reg]|done]. }
  split; [split; [by apply (user_ok_same m)|done|done]|done| |done|].
  - rewrite P1. apply Hhigh. unfold NextPCReg. lia.
  - intros r Hr'. rewrite Hlow by (rewrite ?Hhigh by (unfold LoadReg; lia); lia). unfold m2, assigned. destruct o as [[q v]|]; [|apply Hreg].
    destruct (Z.eqb_spec r q) as [->|Hne]; [apply reg_set_reg_eq; rewrite (wf_registers _ Hwf1); unfold NumTotalRegs; lia|]. rewrite reg_set_reg_ne by done. apply Hreg.
Qed.

(** *** The instructions of the stubs *)

Lemma settled_int32 m r : settled m -> int32 (reg m r).
Proof. intros [[Hwf _ _] _ _]. by apply reg_int32. Qed.

Lemma addiu_step m code :
  settled m -> 0 <= code <= 20 -> word_at m (reg m PCReg) (0x24020000 + code) ->
  exists m', Machine_OneInstruction m = Ok (Next m') /\ stepped m (Some (2, code)) (wrap_s32 (reg m NextPCReg + 4)) m'.
Proof.
  intros Hs Hc Hw.
  assert (Hd : exists i, Instruction_Decode (wrap_u32 (0x24020000 + code)) = Ok i /\ opCode i = OP_ADDIU /\ rs i = 0 /\ rt i = 2 /\ extra i = code).
  { set (good c := match Instruction_Decode (wrap_u32 (0x24020000 + c)) with
      | Ok i => match opCode i with OP_ADDIU => (rs i =? 0) && (rt i =? 2) && (extra i =? c) | _ => false end | _ => false end).
    assert (HF : forallb good (seqZ 0 21) = true) by (vm_compute; reflexivity). rewrite forallb_forall in HF. specialize (HF code). rewrite <- list_elem_of_In, elem_of_seqZ in HF.
    specialize (HF ltac:(lia)). unfold good in HF. destruct (Instruction_Decode _) as [i| | |]; try done. exists i. split; [done|].
    destruct (opCode i); try done. apply andb_true_iff in HF as [HF H3]. apply andb_true_iff in HF as [H1 H2]. repeat split; by apply Z.eqb_eq. }
  destruct Hd as (i & Hd & Ho & Hrs & Hrt & He). eapply plain_step; [done|exact Hw|exact Hd|apply wrap_s32_range| |].
  - intros r v [= <- <-]. split; [lia|apply int32_small; lia].
  - intros m1 Hr. unfold execute. rewrite Ho. unfold exec_add_and. rewrite Ho. unfold assign, vrs. rewrite Hrs, Hrt, He.
    assert (E0 : reg m1 0 = 0) by (unfold reg; rewrite Hr; apply (sd_zero _ Hs)). rewrite E0, Z.add_0_l, wrap_s32_id by (apply int32_small; lia). done.
Qed.

Lemma jr_step m :
  settled m -> word_at m (reg m PCReg) 0x03e00008 -> exists m', Machine_OneInstruction m = Ok (Next m') /\ stepped m None (reg m 31) m'.
Proof.
  intros Hs Hw. eapply plain_step; [done|exact Hw|vm_compute; reflexivity|by apply settled_int32|done|].
  intros m1 Hr. unfold execute, exec_jump, vrs. cbn [opCode rs]. unfold reg. by rewrite Hr.
Qed.

Lemma nop_step m :
  settled m -> word_at m (reg m PCReg) 0 -> exists m', Machine_OneInstruction m = Ok (Next m') /\ stepped m (Some (0, 0)) (wrap_s32 (reg m NextPCReg + 4)) m'.
Proof.
  intros Hs Hw. eapply plain_step; [done|exact Hw|vm_compute; reflexivity|apply wrap_s32_range| |].
  - intros r v [= <- <-]. split; [lia|apply int32_small; lia].
  - intros m1 Hr. unfold execute, exec_shift_sub, assign, vrt. cbn [opCode rt rd extra].
    assert (E0 : reg m1 0 = 0) by (unfold reg; rewrite Hr; apply (sd_zero _ Hs)). rewrite E0. done.
Qed.

(** [move $4,$0] *)
Lemma move_step m :
  settled m -> word_at m (reg m PCReg) 0x00002021 -> exists m', Machine_OneInstruction m = Ok (Next m') /\ stepped m (Some (4, 0)) (wrap_s32 (reg m NextPCReg + 4)) m'.
Proof.
  intros Hs Hw. eapply plain_step; [done|exact Hw|vm_compute; reflexivity|apply wrap_s32_range| |].
  - intros r v [= <- <-]. split; [lia|apply int32_small; lia].
  - intros m1 Hr. unfold execute, exec_add_and, assign, vrs, vrt. cbn [opCode rs rt rd extra].
    assert (E0 : reg m1 0 = 0) by (unfold reg; rewrite Hr; apply (sd_zero _ Hs)). rewrite E0. done.
Qed.

Lemma jal_decode k : 0 <= k < 2 ^ 26 -> exists i, Instruction_Decode (wrap_u32 (0x0c000000 + k)) = Ok i /\ opCode i = OP_JAL /\ extra i = k.
Proof.
  intros Hk. change (2 ^ 26) with 67108864 in Hk. rewrite wrap_u32_id by (unfold_int32; lia). unfold Instruction_Decode. cbv zeta.
  assert (E : Z.land (Z.shiftr (0x0c000000 + k) 26) 0x3f = 3).
  { rewrite (land_low _ 6 ltac:(lia) : Z.land _ 0x3f = _ mod 2 ^ 6), Z.shiftr_div_pow2 by lia. change (2 ^ 26) with 67108864. change (2 ^ 6) with 64.
    Z.to_euclidean_division_equations; lia. }
  rewrite E. change (opTable.[3]) with (Some (OP_JAL, JFMT)). cbn [deref mbind outcome_bind]. eexists. split; [reflexivity|]. split; [done|]. cbn [extra].
  rewrite (land_low _ 26 ltac:(lia) : Z.land _ 0x3ffffff = _ mod 2 ^ 26). change (2 ^ 26) with 67108864. Z.to_euclidean_division_equations; lia.
Qed.

(** [jal] to an address in the first quarter of a gigabyte, from an instruction there *)
Lemma jal_step m target :
  settled m -> 0 <= target < 2 ^ 28 -> (4 | target) -> 0 <= reg m NextPCReg -> reg m NextPCReg + 4 < 2 ^ 28 -> word_at m (reg m PCReg) (jal_word target) ->
  exists m', Machine_OneInstruction m = Ok (Next m') /\ stepped m (Some (31, reg m NextPCReg + 4)) target m'.
Proof.
  intros Hs Ht [k Hk] Hn Hn4 Hw. change (2 ^ 28) with 268435456 in *. unfold jal_word in Hw. subst target. rewrite Z.div_mul in Hw by lia.
  destruct (jal_decode k) as (i & Hd & Ho & He); [change (2 ^ 26) with 67108864; lia|].
  eapply plain_step; [done|exact Hw|exact Hd|unfold_int32; lia| |].
  - intros r v [= <- <-]. split; [lia|unfold_int32; lia].
  - intros m1 Hr. unfold execute. rewrite Ho. unfold exec_jump. rewrite Ho. unfold link, jump_target, assigned. rewrite He.
    assert (En : reg m1 NextPCReg = reg m NextPCReg) by (unfold reg; by rewrite Hr). rewrite En, (wrap_s32_id (reg m NextPCReg + 4)) by (unfold_int32; lia). do 2 f_equal.
    unfold IndexToAddr. rewrite Z.shiftl_mul_pow2 by lia. change (2 ^ 2) with 4. rewrite (wrap_s32_id (k * 4)) by (unfold_int32; lia).
    rewrite (wrap_u32_id (reg m NextPCReg + 4)), (wrap_u32_id (k * 4)) by (unfold_int32; lia).
    assert (Ez : Z.land (reg m NextPCReg + 4) 0xf0000000 = 0).
    { apply Z.bits_inj'. intros j Hj. rewrite Z.land_spec, Z.bits_0. destruct (Z.lt_ge_cases j 28).
      - change 0xf0000000 with (Z.shiftl 15 28). by rewrite Z.shiftl_spec_low, andb_false_r by lia.
      - rewrite (Z.bits_above_log2 (reg m NextPCReg + 4) j); [done|lia|]. apply Z.log2_lt_pow2; [lia|]. apply (Z.lt_le_trans _ (2 ^ 28)); [done|]. apply Z.pow_le_mono_r; lia. }
    rewrite Ez, Z.lor_0_l. apply wrap_s32_id. unfold_int32. lia.
Qed.

(** ** The stubs *)

Section Calling.
Context {S : Type} `{!Calls S}.

(** The body of each system call, by its code; the other codes have none. *)
Definition body_of (code : Z) : option (S -> outcome S) :=
  match code with
  | 1 => Some do_Exit | 2 => Some do_Exec | 3 => Some do_Join | 4 => Some do_CreateFile | 5 => Some do_Open | 6 => Some do_Read
  | 7 => Some do_Write | 8 => Some do_Close | 11 => Some do_ReadInt | 12 => Some do_PrintInt | 13 => Some do_ReadChar
  | 14 => Some do_PrintChar | 15 => Some do_ReadString | 16 => Some do_PrintString | 18 => Some do_CreateSemaphore
  | 19 => Some do_Wait | 20 => Some do_Signal | _ => None
  end.

Lemma handler_runs s code f :
  Machine_wf (call_machine s) -> reg (call_machine s) 2 = code -> body_of code = Some f -> ExceptionHandler SyscallException s = then_step f s.
Proof.
  intros Hwf Hc Hf. unfold ExceptionHandler. rewrite ReadRegister_spec by done. change ((0 <=? 2) && (2 <? 40)) with true. cbn [mbind outcome_bind]. rewrite Hc.
  destruct code as [|p|p]; try done. repeat (destruct p as [p|p|]; try done); injection Hf as <-; reflexivity.
Qed.

Lemma user_step_next s m' : Machine_OneInstruction (call_machine s) = Ok (Next m') -> user_step s = Ok (call_with s m').
Proof. intros E. unfold user_step. by rewrite E. Qed.

(** A settled machine at a SYSCALL. *)
Lemma syscall_step s :
  let m := call_machine s in
  settled m -> word_at m (reg m PCReg) 12 ->
  exists m', user_step s = ExceptionHandler SyscallException (call_with s m') /\ settled m' /\ same_memory m m' /\ same_pcs m m' /\
    (forall r, 0 < r < 32 -> reg m' r = reg m r) /\ at_syscall m'.
Proof.
  intros m [Hu H0 Hl] Hw. assert (Hat : at_syscall m) by by split.
  destruct (syscall_traps m Hat) as (m' & E & Hat' & Hpc & HL & HM & _ & Hr & Hph). exists m'. unfold user_step. fold m. rewrite E. cbn [mbind outcome_bind].
  pose proof Hat' as [Hu' H0' _]. conjs; try done. intros r Hrr. apply Hr; [done|]. unfold no_load. rewrite Hl. lia.
Qed.

(** [step_pc] behind a call. *)
Lemma step_pc_settled s :
  settled (call_machine s) ->
  exists m', step_pc s = Ok (call_with s m') /\ settled m' /\ same_memory (call_machine s) m' /\ reg m' PCReg = reg (call_machine s) NextPCReg /\
    reg m' NextPCReg = wrap_s32 (reg (call_machine s) NextPCReg + 4) /\ forall r, 0 <= r < 32 -> reg m' r = reg (call_machine s) r.
Proof.
  intros [Hu H0 Hl]. unfold step_pc. destruct (Increase_ProgramCounter_spec _ (uo_wf _ Hu)) as (m' & E & Hwf & HM & _ & P1 & P2 & H3). rewrite E. cbn [mbind outcome_bind].
  assert (Hs : same_memory (call_machine s) m').
  { unfold Increase_ProgramCounter in E. rewrite !ReadRegister_spec in E by apply Hu. inv_ok. unfold Machine_WriteRegister in *. inv_ok.
    repeat (etransitivity; [|apply memory_set_reg]). reflexivity. }
  exists m'. assert (HL : reg m' LoadReg = 0) by (rewrite H3 by done; done). conjs; try done.
  - split; [apply (user_ok_same (call_machine s)); [done..|]; rewrite HL; lia|rewrite H3 by done; done|done].
  - intros r Hr. apply H3; unfold PrevPCReg, PCReg, NextPCReg; lia.
Qed.

(** The words [ws] are the code at the address [a]. *)
Definition code_at (m : Machine) (a : Z) (ws : list Z) : Prop := forall k w, ws !! k = Some w -> word_at m (a + 4 * Z.of_nat k) w.

Lemma code_at_same m m' a ws : same_memory m m' -> code_at m a ws -> code_at m' a ws.
Proof. intros Hm H k w Hk. apply (word_at_same m); auto. Qed.

(** The program is about to run the instruction at [a], which is in the first 128
    megabytes. *)
Record at_code (m : Machine) (a : Z) (ws : list Z) : Prop := {
  ac_settled : settled m;
  ac_code : code_at m a ws;
  ac_pc : reg m PCReg = a;
  ac_next : reg m NextPCReg = a + 4;
  ac_range : 0 <= a < 2 ^ 27 }.

(** The first half of a stub: the code is in register 2, and the handler is called. *)
Lemma stub_traps s a code :
  at_code (call_machine s) a (stub code) -> 0 <= code <= 20 ->
  exists m1 m2, let trap := call_with (call_with s m1) m2 in
    user_steps 2 s = ExceptionHandler SyscallException trap /\ call_machine trap = m2 /\ settled m2 /\ same_memory (call_machine s) m2 /\ at_syscall m2 /\
    reg m2 PCReg = a + 4 /\ reg m2 NextPCReg = a + 8 /\ reg m2 2 = code /\ forall r, 0 < r < 32 -> r <> 2 -> reg m2 r = reg (call_machine s) r.
Proof.
  intros [Hs Hc Hpc Hnp Ha] Hcode. change (2 ^ 27) with 134217728 in Ha.
  destruct (addiu_step (call_machine s) code Hs Hcode) as (m1 & E1 & [S1 M1 P1 N1 R1]); [rewrite Hpc; specialize (Hc 0%nat _ eq_refl); by rewrite Z.add_0_r in Hc|].
  rewrite Hnp, wrap_s32_id in N1 by (unfold_int32; lia). rewrite Hnp in P1. apply user_step_next in E1.
  destruct (syscall_step (call_with s m1)) as (m2 & E2 & S2 & M2 & (P2 & N2 & _) & R2 & A2); rewrite ?call_with_machine in *; [done| |].
  { rewrite P1. apply (code_at_same _ m1) in Hc; [|done]. exact (Hc 1%nat _ eq_refl). }
  exists m1, m2. cbv zeta. cbn [user_steps]. rewrite E1. cbn [mbind outcome_bind]. rewrite E2. rewrite !call_with_machine. conjs; try done.
  - by destruct (ExceptionHandler _ _).
  - by etransitivity.
  - congruence.
  - rewrite N2, N1. lia.
  - rewrite R2, R1 by lia. done.
  - intros r Hr Hn. rewrite R2, R1 by lia. by rewrite (proj2 (Z.eqb_neq r 2)) by done.
Qed.

(** The second half: the way back to the caller. *)
Lemma stub_returns s a code :
  settled (call_machine s) -> code_at (call_machine s) a (stub code) -> reg (call_machine s) PCReg = a + 8 -> reg (call_machine s) NextPCReg = a + 12 -> 0 <= a < 2 ^ 27 ->
  exists s', user_steps 2 s = Ok s' /\ settled (call_machine s') /\ same_memory (call_machine s) (call_machine s') /\
    reg (call_machine s') PCReg = reg (call_machine s) 31 /\ reg (call_machine s') NextPCReg = wrap_s32 (reg (call_machine s) 31 + 4) /\
    forall r, 0 < r < 32 -> reg (call_machine s') r = reg (call_machine s) r.
Proof.
  intros Hs Hc Hpc Hnp Ha. change (2 ^ 27) with 134217728 in Ha.
  destruct (jr_step (call_machine s) Hs) as (m1 & E1 & [S1 M1 P1 N1 R1]); [rewrite Hpc; exact (Hc 2%nat _ eq_refl)|].
  destruct (nop_step m1 S1) as (m2 & E2 & [S2 M2 P2 N2 R2]).
  { rewrite P1, Hnp. apply (code_at_same _ m1) in Hc; [|done]. exact (Hc 3%nat _ eq_refl). }
  exists (call_with (call_with s m1) m2). apply user_step_next in E1. cbn [user_steps]. rewrite E1. cbn [mbind outcome_bind].
  rewrite (user_step_next _ m2) by (by rewrite call_with_machine). cbn [mbind outcome_bind]. rewrite call_with_machine. conjs; try done.
  - by etransitivity.
  - congruence.
  - by rewrite N2, N1.
  - intros r Hr. rewrite R2 by done. rewrite (proj2 (Z.eqb_neq r 0)) by lia. by apply R1.
Qed.

(** What the body of a call leaves of the machine: the program counters, the return address
    and the code of the stub. *)
Record call_keeps (a code : Z) (m m' : Machine) : Prop := {
  ck_settled : settled m';
  ck_pcs : same_pcs m m';
  ck_ra : reg m' 31 = reg m 31;
  ck_code : code_at m' a (stub code) }.

Lemma user_steps_add n k s : user_steps (n + k) s = s' ← user_steps n s; user_steps k s'.
Proof. revert s. induction n as [|n IH]; intros s; [done|]. cbn [Nat.add user_steps]. destruct (user_step s); try done. cbn [mbind outcome_bind]. apply IH. Qed.

Lemma code_at_app m a ws ws' : code_at m a (ws ++ ws') -> code_at m a ws /\ code_at m (a + 4 * lenZ ws) ws'.
Proof.
  intros H. split; intros k w Hk; [apply H; by apply lookup_app_l_Some|]. specialize (H (length ws + k)%nat w). rewrite lookup_app_r in H by lia.
  replace (length ws + k - length ws)%nat with k in H by lia. replace (a + 4 * lenZ ws + 4 * Z.of_nat k) with (a + 4 * Z.of_nat (length ws + k)) by (unfold lenZ; lia). auto.
Qed.

(** The stub of [Exit] is at address 32 of the text of start.o. *)
Lemma start_Exit m main : code_at m 0 (start_text main) -> code_at m 32 (stub 1).
Proof.
  change (start_text main) with ((start_words main 32 ++ stub 0) ++ stub 1 ++ concat (map (fun s => stub s.2) (drop 2 stubs)) ++ [0x03e00008; 0; 0; 0]).
  intros H. apply code_at_app in H as [_ H]. apply code_at_app in H as [H _]. exact H.
Qed.

(** [__start], from address 0: [main] is called, with the return address 8, and nothing else
    has changed. *)
Lemma start_calls_main s main :
  at_code (call_machine s) 0 (start_text main) -> 0 <= main < 2 ^ 27 -> (4 | main) ->
  exists m1 m2, let s2 := call_with (call_with s m1) m2 in
    user_steps 2 s = Ok s2 /\ settled m2 /\ same_memory (call_machine s) m2 /\ reg m2 PCReg = main /\ reg m2 NextPCReg = main + 4 /\ reg m2 31 = 8 /\
    forall r, 0 < r < 31 -> reg m2 r = reg (call_machine s) r.
Proof.
  intros [Hs Hc Hpc Hnp _] Hm Hd. change (2 ^ 27) with 134217728 in Hm.
  destruct (jal_step (call_machine s) main) as (m1 & E1 & [S1 M1 P1 N1 R1]); [done|change (2 ^ 28) with 268435456; lia|done|lia|rewrite Hnp; reflexivity| |].
  { rewrite Hpc. exact (Hc 0%nat _ eq_refl). }
  destruct (nop_step m1 S1) as (m2 & E2 & [S2 M2 P2 N2 R2]).
  { rewrite P1, Hnp. apply (code_at_same _ m1) in Hc; [|done]. exact (Hc 1%nat _ eq_refl). }
  rewrite N1, wrap_s32_id in N2 by (unfold_int32; lia). exists m1, m2. apply user_step_next in E1. cbv zeta. cbn [user_steps]. rewrite E1. cbn [mbind outcome_bind].
  rewrite (user_step_next _ m2) by (by rewrite call_with_machine). cbn [mbind outcome_bind]. conjs; try done.
  - by etransitivity.
  - congruence.
  - rewrite R2, R1 by lia. rewrite Hnp. reflexivity.
  - intros r Hr. rewrite R2, R1 by lia. by rewrite !(proj2 (Z.eqb_neq r _)) by lia.
Qed.

(** [__start], behind the call of [main]: the kernel is entered by Exit(0). *)
Theorem start_exits s main :
  settled (call_machine s) -> code_at (call_machine s) 0 (start_text main) -> reg (call_machine s) PCReg = 8 -> reg (call_machine s) NextPCReg = 12 ->
  exists m1 m2 m3 m4, let trap := call_with (call_with (call_with (call_with s m1) m2) m3) m4 in
    user_steps 4 s = then_step do_Exit trap /\ call_machine trap = m4 /\ settled m4 /\ same_memory (call_machine s) m4 /\ reg m4 2 = 1 /\ reg m4 4 = 0.
Proof.
  intros Hs Hc Hpc Hnp.
  destruct (jal_step (call_machine s) 32) as (m1 & E1 & [S1 M1 P1 N1 R1]); [done|done|by exists 8|lia|rewrite Hnp; reflexivity|rewrite Hpc; exact (Hc 2%nat _ eq_refl)|].
  destruct (move_step m1 S1) as (m2 & E2 & [S2 M2 P2 N2 R2]).
  { rewrite P1, Hnp. apply (code_at_same _ m1) in Hc; [|done]. exact (Hc 3%nat _ eq_refl). }
  rewrite N1, wrap_s32_id in N2 by (unfold_int32; lia). rewrite N1 in P2. assert (M : same_memory (call_machine s) m2) by by etransitivity.
  destruct (stub_traps (call_with (call_with s m1) m2) 32 1) as (m3 & m4 & E4 & Em & S4 & M4 & _ & _ & _ & R4 & Hr4); rewrite ?call_with_machine; [|lia|].
  { split; [done|apply (start_Exit _ main); by apply (code_at_same (call_machine s))|done|done|done]. }
  exists m1, m2, m3, m4. cbv zeta in *. rewrite call_with_machine in *. change 4%nat with (2 + 2)%nat. rewrite user_steps_add.
  apply user_step_next in E1. cbn [user_steps]. rewrite E1. cbn [mbind outcome_bind]. rewrite (user_step_next _ m2) by (by rewrite call_with_machine). cbn [mbind outcome_bind].
  cbn [user_steps] in E4. rewrite E4. conjs; try done.
  - apply (handler_runs _ 1); rewrite ?call_with_machine; [apply S4|done|done].
  - by etransitivity.
  - rewrite Hr4, R2 by lia. done.
Qed.
End Calling.

(** C27: the system call stubs.  A program that calls a stub of start.o enters the kernel with
    the code of the call in register 2 and every other register, the memory and the address map
    as they were.  Halt stops the machine.  If the kernel has a body for the call and it
    returns, the program continues behind its call, with the registers, the memory and the
    state that the body has left.  Fork, Yield and FileSize have no body, and a program that
    calls them stays at the SYSCALL for ever. *)
Theorem stub_calls {S : Type} `{!Calls S} (s : S) a name code :
  (name, code) ∈ stubs -> at_code (call_machine s) a (stub code) ->
  exists m1 m2, let trap := call_with (call_with s m1) m2 in
    (call_machine trap = m2 /\ settled m2 /\ same_memory (call_machine s) m2 /\ reg m2 2 = code /\ forall r, 0 < r < 32 -> r <> 2 -> reg m2 r = reg (call_machine s) r) /\
    match body_of code with
    | Some body =>
        forall s2, body trap = Ok s2 -> call_keeps a code m2 (call_machine s2) ->
        exists s4, user_steps 4 s = Ok s4 /\ settled (call_machine s4) /\ same_memory (call_machine s2) (call_machine s4) /\
          reg (call_machine s4) PCReg = reg (call_machine s) 31 /\ reg (call_machine s4) NextPCReg = wrap_s32 (reg (call_machine s) 31 + 4) /\
          forall r, 0 < r < 32 -> reg (call_machine s4) r = reg (call_machine s2) r
    | None =>
        if code =? 0 then user_steps 2 s = Halt
        else forall n, exists s', user_steps (2 + n) s = Ok s' /\ reg (call_machine s') PCReg = a + 4
    end.
Proof.
  intros Hin Hat. assert (Hc : 0 <= code <= 20) by (apply list_elem_of_In in Hin; repeat (destruct Hin as [Hin|Hin]; [injection Hin as _ <-; lia|]); destruct Hin).
  destruct (stub_traps s a code Hat Hc) as (m1 & m2 & E & Em & S2 & M2 & A2 & P2 & N2 & R2 & Hr). pose proof Hat as [Hs Hcode Hpc Hnp Ha]. change (2 ^ 27) with 134217728 in Ha.
  exists m1, m2. cbv zeta in *. set (trap := call_with (call_with s m1) m2) in *. split; [done|].
  assert (Hwf : Machine_wf (call_machine trap)) by (rewrite Em; apply S2).
  destruct (body_of code) as [body|] eqn:Eb.
  - intros s2 E2 [K1 (Q1 & Q2 & _) K3 K4]. rewrite (handler_runs trap code body Hwf) in E by (rewrite ?Em; done). unfold then_step in E. rewrite E2 in E. cbn [mbind outcome_bind] in E.
    destruct (step_pc_settled s2 K1) as (m3 & E3 & S3 & M3 & P3 & N3 & R3). rewrite Q2, N2 in P3, N3. rewrite wrap_s32_id in N3 by (unfold_int32; lia).
    destruct (stub_returns (call_with s2 m3) a code) as (s4 & E4 & S4 & M4 & P4 & N4 & R4); rewrite ?call_with_machine; [done|by apply (code_at_same (call_machine s2))|done|rewrite N3; lia|done|].
    rewrite call_with_machine in *. exists s4. change 4%nat with (2 + 2)%nat. rewrite user_steps_add, E, E3. cbn [mbind outcome_bind].
    rewrite R3, K3, Hr in P4, N4 by lia. conjs; try done; [by etransitivity|]. intros r Hrr. rewrite R4, R3 by lia. done.
  - assert (Hcase : code = 0 \/ code ∈ [9; 10; 17]).
    { apply list_elem_of_In in Hin. repeat (destruct Hin as [Hin|Hin]; [injection Hin as _ <-; first [discriminate Eb|by left|right; set_solver]|]). destruct Hin. }
    destruct Hcase as [->|Hcase].
    + rewrite E. unfold ExceptionHandler. rewrite ReadRegister_spec by done. change ((0 <=? 2) && (2 <? 40)) with true. cbn [mbind outcome_bind]. rewrite Em, R2. reflexivity.
    + assert (Hun : code ∉ implemented /\ code <> 0) by (apply list_elem_of_In in Hcase; repeat (destruct Hcase as [<-|Hcase]; [split; [apply (bool_decide_unpack _); vm_compute; exact I|done]|]); destruct Hcase).
      destruct Hun as [Hun H0]. rewrite (proj2 (Z.eqb_neq _ _) H0). intros n. rewrite user_steps_add, E, unknown_call by first [exact Hwf|rewrite Em, R2; exact Hun]. cbn [mbind outcome_bind].
      destruct (unknown_spins n trap) as (s' & E' & _ & (Q1 & _) & _); rewrite ?Em, ?R2; [done|unfold no_load; rewrite (sd_load _ S2); lia|done|].
      exists s'. split; [done|]. rewrite Em in Q1. congruence.
Qed.

(** ** An example *)

(** A call whose body only returns a value *)
Lemma call_keeps_result m a code v : settled m -> int32 v -> code_at m a (stub code) -> call_keeps a code m (set_reg m 2 v).
Proof.
  intros [Hu H0 Hl] Hv Hc. split.
  - split; [by apply user_ok_set_reg|by rewrite reg_set_reg_ne|by rewrite reg_set_reg_ne].
  - unfold same_pcs; conjs; apply reg_set_reg_ne; done.
  - by rewrite reg_set_reg_ne.
  - apply (code_at_same m); [apply memory_set_reg|done].
Qed.

(** A program at its stub of Close, which was called from address 92 for the file 3. *)
Definition close_page : Machine := set_reg (set_reg (sample_machine (stub 8) (sample_regs 0 0 0)) 4 3) 31 100.

Lemma close_page_ok : at_code close_page 0 (stub 8).
Proof.
  assert (Hwf : Machine_wf (sample_machine (stub 8) (sample_regs 0 0 0))) by (apply sample_wf; first [vm_compute; done | unfold_int32; lia]).
  split; [split; [|reflexivity|reflexivity]| |reflexivity|reflexivity|done].
  - repeat (apply user_ok_set_reg; [|unfold_int32; lia|done]). split; [done|vm_compute; split; congruence|].
    apply (table_injective _ [mkEntry 0 0 true false false false]); [done|reflexivity|reflexivity|]. simpl. apply NoDup_singleton.
  - intros k w Hk. exists (4 * Z.of_nat k). do 4 (destruct k as [|k]; [injection Hk as <-; split; vm_compute; reflexivity|]). done.
Qed.

Lemma stub_calls_witness :
  exists (s s4 : OS CSys DSys), user_steps (Calls0 := OS_calls zero_heap 0 no_process) 4 s = Ok s4 /\ os_machine s = close_page /\
    reg (os_machine s4) PCReg = 100 /\ reg (os_machine s4) NextPCReg = 104 /\ reg (os_machine s4) 2 = 0.
Proof.
  pose proof close_page_ok as Hat. destruct (sample_os close_page 0 (sd_user _ (ac_settled _ _ _ Hat))) as (s & f & old & Em & _ & _ & _ & _ & _ & Hfr & Ho & _).
  destruct (stub_calls (S := OS CSys DSys) (Calls0 := OS_calls zero_heap 0 no_process) s 0 "Close"%string 8) as (m1 & m2 & (Ec & S2 & M2 & R2 & Hr) & H).
  - apply (bool_decide_unpack _). vm_compute. exact I.
  - cbn [call_machine OS_calls]. rewrite Em. exact Hat.
  - cbn [call_machine call_with OS_calls body_of do_Close] in *. rewrite Em in *.
    assert (E4 : reg m2 4 = 3) by (rewrite Hr by lia; reflexivity).
    destruct (H (mkOS (set_reg m2 2 0) (os_console s) (os_fs s) [O] (os_disk s))) as (s4 & E & _ & _ & P & N & Hregs).
    + unfold Exception_Close. rewrite get_arg_ok by first [lia|cbn [os_machine set_machine]; apply S2]. cbn [mbind outcome_bind]. unfold arg. cbn [os_machine set_machine].
      rewrite E4. change ((0 <=? 3) && (3 <=? 14)) with true. cbn iota. unfold openf_at. cbn [os_fs set_machine]. rewrite Ho. change ((([None; None; None; Some O] ++ replicate 11 None) : list (option nat)).[3]) with (Some (Some O)).
      cbn [deref mbind outcome_bind]. unfold set_result, Machine_WriteRegister. cbn. rewrite Hfr. reflexivity.
    + apply call_keeps_result; [exact S2|unfold_int32; lia|]. apply (code_at_same close_page); [exact M2|exact (ac_code _ _ _ Hat)].
    + exists s, s4. split; [exact E|]. split; [exact Em|]. split; [exact P|]. split; [exact N|]. rewrite Hregs by lia. cbn [os_machine].
      apply reg_set_reg_eq. rewrite (wf_registers _ (uo_wf _ (sd_user _ S2))). vm_compute. split; congruence.
Defined.
