(* ===== verification/UserProgs.v ===== *)
(** * The user programs test/shell.c and test/matmult.c

    [Shell]: the shell, above its four system calls (the class [ShellCalls]).  With calls that
    deliver every character, as userprog/syscall.h promises, it runs the command of a line
    ([shell_runs_command]); with those of the kernel, whose console keeps the newline to
    itself, it never sees the end of a line and runs out of its buffer ([shell_overruns]).
    [MatMult]: the matrix multiplication. *)

From S2P Require Import Prelude Int32 Machine Console UserMem FileCalls.
Open Scope Z_scope.

(** ** test/shell.c *)

Module Shell.

(** The system calls, on what is outside of the program.  [sys_Read] is a Read of one byte
    from the console: what the kernel stores at the address, which is at most one byte.
    [sys_Write] and [sys_Exec] get the memory at the address. *)
Class ShellCalls (W : Type) := {
  sys_Write : W -> list Z -> Z -> outcome W;
  sys_Read : W -> outcome (list Z * W);
  sys_Exec : W -> list Z -> outcome (Z * W);
  sys_Join : W -> Z -> outcome W }.

Section Program.
Context {W : Type} `{!ShellCalls W}.

(** [do Read(&buffer[i], 1, input); while (buffer[i++] != '\n')], for at most [n] rounds; the
    flag says that the loop has ended. *)
Fixpoint shell_loop (n : nat) (buffer : list Z) (i : Z) (w : W) : outcome (bool * list Z * Z * W) :=
  match n with
  | O => Ok (false, buffer, i, w)
  | S n =>
      '(got, w) ← sys_Read w;
      buffer ← store buffer i got;
      ch ← deref (buffer.[i]);
      if ch =? 10 then Ok (true, buffer, i + 1, w) else shell_loop n buffer (i + 1) w
  end.

(** [prompt] *)
Definition prompt : list Z := [45; 45].

(** A round of [main]; the flag is false when the line has not ended within [n] rounds. *)
Definition shell_round (n : nat) (buffer : list Z) (w : W) : outcome (bool * list Z * W) :=
  w ← sys_Write w prompt 2;
  '(ended, buffer, i, w) ← shell_loop n buffer 0 w;
  if ended : bool then
    let i := i - 1 in
    buffer ← store buffer i [0];
    if 0 <? i then
      '(newProc, w) ← sys_Exec w buffer;
      w ← sys_Join w newProc;
      Ok (true, buffer, w)
    else Ok (true, buffer, w)
  else Ok (false, buffer, w).

(** *** The calls as they are promised *)

Context (stream : W -> list Z).
Hypothesis read_delivers : forall w c rest, stream w = c :: rest -> exists w', sys_Read w = Ok ([c], w') /\ stream w' = rest.

Lemma lenZ_nil : lenZ (@nil Z) = 0.
Proof. done. Qed.

Lemma store_at_end (pre : list Z) x rest y : store (pre ++ x :: rest) (lenZ pre) [y] = Ok ((pre ++ [y]) ++ rest).
Proof.
  apply store_Ok. rewrite lenZ_app, !lenZ_cons, lenZ_nil. pose proof (lenZ_nonneg pre). pose proof (lenZ_nonneg rest). conjs; [lia|lia|]. unfold splice, lenZ.
  rewrite Nat2Z.id, take_app_length, drop_app_ge by (cbn [length]; lia). rewrite <- app_assoc. do 3 f_equal. cbn [length].
  by replace (length pre + 1 - length pre)%nat with 1%nat by lia.
Qed.

Lemma last_at (pre : list Z) y rest : ((pre ++ [y]) ++ rest).[lenZ pre] = Some y.
Proof. rewrite <- app_assoc, lookupZ_app_r, Z.sub_diag by lia. done. Qed.

Lemma shell_loop_round n buffer i w got w' buffer' ch :
  sys_Read w = Ok (got, w') -> store buffer i got = Ok buffer' -> buffer'.[i] = Some ch ->
  shell_loop (S n) buffer i w = if ch =? 10 then Ok (true, buffer', i + 1, w') else shell_loop n buffer' (i + 1) w'.
Proof. intros E1 E2 E3. cbn [shell_loop]. rewrite E1. cbn [mbind outcome_bind]. rewrite E2. cbn [mbind outcome_bind]. by rewrite E3. Qed.

Lemma shell_loop_delivers line pre room rest w :
  10 ∉ line -> (length line < length room)%nat -> stream w = line ++ 10 :: rest ->
  exists w', shell_loop (S (length line)) (pre ++ room) (lenZ pre) w =
      Ok (true, pre ++ line ++ [10] ++ drop (S (length line)) room, lenZ pre + lenZ line + 1, w') /\ stream w' = rest.
Proof.
  revert pre room w. induction line as [|c line IH]; intros pre room w Hl Hroom Hs; destruct room as [|x room]; try (cbn [length] in Hroom; lia).
  - destruct (read_delivers _ _ _ Hs) as (w' & E & Hs'). exists w'. rewrite (shell_loop_round _ _ _ _ _ _ _ _ E (store_at_end _ _ _ _) (last_at _ _ _)). change (10 =? 10) with true. cbn iota.
    split; [|done]. rewrite lenZ_nil, Z.add_0_r, <- app_assoc. done.
  - apply not_elem_of_cons in Hl as [Hc Hl]. destruct (read_delivers _ _ _ Hs) as (w1 & E & Hs1). cbn [length] in Hroom.
    destruct (IH (pre ++ [c]) room w1 Hl ltac:(lia) Hs1) as (w' & E' & Hs'). exists w'. split; [|done].
    rewrite (shell_loop_round _ _ _ _ _ _ _ _ E (store_at_end _ _ _ _) (last_at _ _ _)).
    rewrite (proj2 (Z.eqb_neq c 10)) by done. rewrite lenZ_app, lenZ_cons, lenZ_nil in E'. cbn [length]. rewrite (E' : shell_loop _ _ (lenZ pre + 1) _ = _), lenZ_cons, <- app_assoc. do 3 f_equal. lia.
Qed.

(** If Read gives the program the next character that was typed, as syscall.h says, then the
    shell prompts, collects a line of at most 59 characters, runs the command that the line
    names, NUL-terminated, and waits for it. *)
Theorem shell_runs_command w w1 line rest buffer :
  lenZ buffer = 60 -> 10 ∉ line -> 0 < lenZ line < 60 -> sys_Write w prompt 2 = Ok w1 -> stream w1 = line ++ 10 :: rest ->
  exists w2 buffer', buffer' = line ++ [0] ++ drop (S (length line)) buffer /\ stream w2 = rest /\
    shell_round (S (length line)) buffer w = '(newProc, w3) ← sys_Exec w2 buffer'; w4 ← sys_Join w3 newProc; Ok (true, buffer', w4).
Proof.
  intros Hb Hl Hn Hw Hs. unfold lenZ in Hb, Hn. destruct (shell_loop_delivers line [] buffer rest w1) as (w2 & E & Hs2); [done|lia|done|]. rewrite !app_nil_l in E. rewrite lenZ_nil in E.
  exists w2. eexists. split; [reflexivity|]. split; [done|]. unfold shell_round. rewrite Hw. cbn [mbind outcome_bind]. rewrite E. cbn [mbind outcome_bind]. cbv zeta.
  replace (0 + lenZ line + 1 - 1) with (lenZ line) by lia. change ([10] ++ drop (S (length line)) buffer) with (10 :: drop (S (length line)) buffer). rewrite store_at_end. cbn [mbind outcome_bind].
  rewrite (proj2 (Z.ltb_lt _ _)) by (unfold lenZ; lia). by rewrite <- app_assoc.
Qed.
End Program.

(** *** The calls of the kernel *)

Section Kernel.
Context {C : Type} `{!ConsoleDevice C} (junk : Z) (exec : C -> list Z -> outcome (Z * C)) (join : C -> Z -> outcome C).

(** The console as [Exception_Read] and [Exception_Write] use it, by [console_descriptors]. *)
Definition kernel_Read (c : C) : outcome (list Z * C) :=
  '(buf, size, c) ← cons_read c 1 junk;
  Ok (if size <? 0 then [] else upto_nul (take (Z.to_nat size) (map byte_of_int buf)), c).

Definition kernel_calls : ShellCalls C := {|
  sys_Write := fun c mem n => '(_, c) ← stdout_loop (take (Z.to_nat n) mem ++ [0]) 0 c; Ok c;
  sys_Read := kernel_Read;
  sys_Exec := exec;
  sys_Join := join |}.

Context `{!ConsoleLaws C}.

(** The console is ready for the shell, and [n] more characters are typed. *)
Record typing (n : nat) (c : C) : Prop := {
  ty_ready : cons_ready n c;
  ty_input : (n <= length (cons_input c))%nat;
  ty_chars : Forall (fun x => -128 <= x < 128) (cons_input c) }.

(** A Read of one byte takes a character, and stores it unless it ends the line. *)
Lemma kernel_Read_ok n c :
  typing (S n) c -> exists got c', kernel_Read c = Ok (got, c') /\ typing n c' /\ cons_input c' = drop 1 (cons_input c) /\
    cons_output c' = cons_output c /\ lenZ got <= 1 /\ 10 ∉ got.
Proof.
  intros [Hr Hi Hc]. destruct (cons_input c) as [|x inp] eqn:Ei; [cbn [length] in Hi; lia|]. apply Forall_cons in Hc as [Hx Hc]. cbn [length] in Hi.
  unfold kernel_Read. destruct ((x =? 10) || (x =? 1)) eqn:Ex.
  - destruct (cons_read_ok n c 1 junk [] (Some x) inp Hr ltac:(lia)) as (c' & -> & Hr' & Hi' & Ho'); [rewrite Ei; change (Z.to_nat 1) with 1%nat; cbn [read_line]; by rewrite Ex|]. cbn [mbind outcome_bind].
    exists [], c'. rewrite Hi'. conjs; try done; [|split; [done|rewrite Hi'; lia|by rewrite Hi']|apply not_elem_of_nil]. do 3 f_equal. case_bool_decide; done.
  - destruct (cons_read_ok n c 1 junk [x] None inp Hr ltac:(lia)) as (c' & -> & Hr' & Hi' & Ho'); [rewrite Ei; change (Z.to_nat 1) with 1%nat; cbn [read_line]; by rewrite Ex|]. cbn [mbind outcome_bind].
    exists [byte_of_int x], c'. rewrite Hi'. conjs; try done; [|split; [done|rewrite Hi'; lia|by rewrite Hi']|].
    + rewrite bool_decide_eq_false_2 by done. do 2 f_equal. change (lenZ [x]) with 1. change (upto_nul [byte_of_int x] = [byte_of_int x]). cbn [upto_nul]. by destruct (byte_of_int x =? 0).
    + rewrite list_elem_of_singleton. unfold byte_of_int. apply orb_false_iff in Ex as [Ex _]. apply Z.eqb_neq in Ex. Z.to_euclidean_division_equations. lia.
Qed.

(** What the loop does with such a Read: a round, and no end. *)
Lemma shell_loop_kernel n k buffer i c :
  typing (n + k) c -> 0 <= i -> i + Z.of_nat n <= lenZ buffer -> 10 ∉ buffer ->
  exists buffer' c', shell_loop (ShellCalls0 := kernel_calls) n buffer i c = Ok (false, buffer', i + Z.of_nat n, c') /\ typing k c' /\
    cons_input c' = drop n (cons_input c) /\ cons_output c' = cons_output c /\ lenZ buffer' = lenZ buffer /\ 10 ∉ buffer'.
Proof.
  revert buffer i c. induction n as [|n IH]; intros buffer i c Ht Hi Hn Hb.
  - exists buffer, c. cbn [shell_loop]. rewrite Z.add_0_r. done.
  - destruct (kernel_Read_ok (n + k) c Ht) as (got & c1 & E & Ht1 & Hi1 & Ho1 & Hg & Hg10). 
    assert (Es : store buffer i got = Ok (splice buffer i got)) by (apply store_Ok; conjs; [done|lia|done]).
    assert (Hls : lenZ (splice buffer i got) = lenZ buffer) by (apply lenZ_splice; lia). destruct (lookupZ_range (splice buffer i got) i) as [ch Ech]; [lia|].
    rewrite (shell_loop_round (ShellCalls0 := kernel_calls) _ _ _ _ _ _ _ _ E Es Ech).
    assert (Hs10 : 10 ∉ splice buffer i got). { assert (HF : Forall (fun x => x <> 10) (splice buffer i got)) by (apply Forall_splice; apply Forall_forall; intros x Hx ->; done). intros Hin. by apply (proj1 (Forall_forall _ _) HF 10 Hin). }
    rewrite (proj2 (Z.eqb_neq ch 10)) by (intros ->; by apply lookupZ_elem_of in Ech).
    destruct (IH (splice buffer i got) (i + 1) c1 Ht1) as (buffer' & c' & E' & Ht' & Hi' & Ho' & Hl' & Hb'); [lia|lia|done|].
    exists buffer', c'. rewrite E'. conjs; [do 3 f_equal; lia|done|rewrite Hi', Hi1, drop_drop; f_equal; lia|congruence|congruence|done].
Qed.

(** The shell on this kernel: whatever is typed, newlines included, the loop takes one cell of
    the buffer for each character and does not end; after sixty of them the next round is
    outside of the buffer. *)
Theorem shell_overruns n c buffer :
  typing (60 + S n) c -> lenZ buffer = 60 -> 10 ∉ buffer ->
  exists buffer' c', shell_loop (ShellCalls0 := kernel_calls) 60 buffer 0 c = Ok (false, buffer', 60, c') /\
    cons_input c' = drop 60 (cons_input c) /\ shell_loop (ShellCalls0 := kernel_calls) 1 buffer' 60 c' = Undefined.
Proof.
  intros Ht Hl Hb. destruct (shell_loop_kernel 60 (S n) buffer 0 c Ht) as (buffer' & c' & E & Ht' & Hi & _ & Hl' & _); [lia|lia|done|].
  exists buffer', c'. conjs; [exact E|done|]. destruct (kernel_Read_ok n c' Ht') as (got & c2 & E2 & _). cbn [shell_loop sys_Read kernel_calls]. rewrite E2. cbn [mbind outcome_bind].
  destruct (store buffer' 60 got) as [b| | |] eqn:Es; try done.
  - apply store_Ok in Es as (_ & Hg & ->). cbn [mbind outcome_bind]. rewrite lookupZ_None; [done|]. right. rewrite lenZ_splice by lia. lia.
  - unfold store in Es. by destruct (_ && _).
  - unfold store in Es. by destruct (_ && _).
Qed.
End Kernel.

(** *** Examples *)

(** A terminal that delivers every character; commands are remembered up to their NUL, and
    get their position as identifier. *)
Definition plain_calls : ShellCalls (list Z * list (list Z)) := {|
  sys_Write := fun w _ _ => Ok w;
  sys_Read := fun '(inp, ran) => match inp with [] => Halt | c :: inp => Ok ([c], (inp, ran)) end;
  sys_Exec := fun '(inp, ran) name => Ok (lenZ ran, (inp, ran ++ [upto_nul name]));
  sys_Join := fun w _ => Ok w |}.

Example shell_runs_ls :
  exists buffer, shell_round (ShellCalls0 := plain_calls) 3 (replicate 60 7) ([108; 115; 10; 120], []) = Ok (true, buffer, ([120], [[108; 115; 0]])).
Proof.
  destruct (shell_runs_command (ShellCalls0 := plain_calls) fst) with (w := ([108; 115; 10; 120], @nil (list Z))) (w1 := ([108; 115; 10; 120], @nil (list Z)))
    (line := [108; 115]) (rest := [120]) (buffer := replicate 60 7) as (w2 & b & Eb & Hs & E); try done.
  - intros [inp ran] c rest H. cbn in H. subst inp. by exists (rest, ran).
  - apply (bool_decide_unpack _). vm_compute. exact I.
  - eexists. vm_compute. reflexivity.
Qed.

(** Thirteen lines with the word halt on the console of the kernel: nothing is run. *)
Definition halts : list keypress := mjoin (replicate 13 (map Key [104; 97; 108; 116; 10])).

Example shell_overruns_halts :
  exists (c : CSys) buffer' c', shell_loop (ShellCalls0 := kernel_calls 0 (fun _ _ => Undefined) (fun _ _ => Undefined)) 60 (replicate 60 0) 0 c = Ok (false, buffer', 60, c') /\
    cons_input c' = [104; 97; 108; 116; 10].
Proof.
  destruct (new_console_ready 61 halts (mkSynchConsole (mkConsole [] [] false EOF) 0 0 0 0)) as (c & _ & Hr & Hi & _).
  { apply (bool_decide_unpack (EndOfFile ∉ halts)). vm_compute. exact I. }
  { vm_compute. discriminate. }
  assert (Hi' : cons_input c = typed halts) by exact Hi.
  destruct (shell_overruns 0 (fun _ _ => Undefined) (fun _ _ => Undefined) 0 c (replicate 60 0)) as (b & c' & E & Ed & _).
  - split; [exact Hr|rewrite Hi'; vm_compute; lia|]. rewrite Hi'. apply (bool_decide_unpack _). vm_compute. exact I.
  - done.
  - apply (bool_decide_unpack _). vm_compute. exact I.
  - exists c, b, c'. split; [exact E|]. rewrite Ed, Hi'. vm_compute. reflexivity.
Qed.
End Shell.

(** ** test/matmult.c *)

Module MatMult.

Definition Dim : Z := 20.

(** The matrices, which are zero when the program starts *)
Record Matrices := mkMatrices { A : list (list Z); B : list (list Z); C : list (list Z) }.
Definition zero : Matrices := let z := replicate (Z.to_nat Dim) (replicate (Z.to_nat Dim) 0) in mkMatrices z z z.

Definition get (m : list (list Z)) (i j : Z) : outcome Z := row ← deref (m.[i]); deref (row.[j]).
Definition put (m : list (list Z)) (i j v : Z) : outcome (list (list Z)) :=
  row ← deref (m.[i]);
  _ ← deref (row.[j]);
  Ok (m.[i <- row.[j <- v]]).

(** [for (i = 0; i < Dim; i++) body] *)
Definition for_Dim {S} (body : Z -> S -> outcome S) (s : S) : outcome S :=
  foldl (fun r i => s ← r; body i s) (Ok s) (seqZ 0 Dim).

Definition initialize : Matrices -> outcome Matrices :=
  for_Dim (fun i => for_Dim (fun j m =>
    a ← put (A m) i j i;
    b ← put (B m) i j j;
    c ← put (C m) i j 0;
    Ok (mkMatrices a b c))).

Definition multiply : Matrices -> outcome Matrices :=
  for_Dim (fun i => for_Dim (fun j => for_Dim (fun k m =>
    x ← get (C m) i j;
    a ← get (A m) i k;
    b ← get (B m) k j;
    c ← put (C m) i j (wrap_s32 (x + a * b));
    Ok (mkMatrices (A m) (B m) c)))).

(** [main]: the matrices in the end, and the argument of [Exit] *)
Definition matmult_main : outcome (Matrices * Z) :=
  m ← initialize zero;
  m ← multiply m;
  code ← get (C m) (Dim - 1) (Dim - 1);
  Ok (m, code).

(** The product of two matrices, by its definition *)
Definition product (a b : list (list Z)) (i j : Z) : Z :=
  foldr Z.add 0 (map (fun k => default 0 (a.[i] ≫= fun row => row.[k]) * default 0 (b.[k] ≫= fun row => row.[j])) (seqZ 0 Dim)).

(** The program ends with the product of its matrices, and with the exit code 7220. *)
Theorem matmult_product :
  exists m, matmult_main = Ok (m, 7220) /\ forall i j, 0 <= i < Dim -> 0 <= j < Dim -> (C m).[i] ≫= (fun row => row.[j]) = Some (product (A m) (B m) i j).
Proof.
  destruct matmult_main as [[m code]| | |] eqn:E; [|exfalso; assert (H : is_ok matmult_main = true) by (vm_compute; reflexivity); by rewrite E in H..].
  set (good i j := bool_decide ((C m).[i] ≫= (fun row => row.[j]) = Some (product (A m) (B m) i j))).
  assert (H : code = 7220 /\ forallb (fun i => forallb (good i) (seqZ 0 Dim)) (seqZ 0 Dim) = true).
  { vm_compute in E. injection E as <- <-. split; [done|]. vm_compute. reflexivity. }
  destruct H as [-> H]. exists m. split; [done|]. intros i j Hi Hj. rewrite forallb_forall in H. specialize (H i). rewrite <- list_elem_of_In, elem_of_seqZ, forallb_forall in H.
  specialize (H ltac:(lia) j). rewrite <- list_elem_of_In, elem_of_seqZ in H. by apply bool_decide_eq_true in H; [|lia].
Qed.

(** The arrays are small beside the memory of the machine. *)
Lemma matrices_fit : 3 * 4 * (Dim * Dim) < MemorySize.
Proof. done. Qed.
End MatMult.
