(* ===== verification/Network.v ===== *)
(** * The network and the post office

    machine/network.cc (the simulated network device), network/post.cc (mailboxes above
    it), threads/synchlist.cc and the dummy [Lock] and [Condition] of threads/synch.cc.

    One machine is a [NSys]: the interrupt hardware of [Interrupts] with a [PostOffice] as
    its world.  A [Net] is a set of machines by address; machines are UNIX processes, so
    their steps interleave in every order ([net_step]).  The socket of a machine is the
    queue of the datagrams that have arrived there: a UNIX datagram socket keeps them in
    order and loses none, packets are lost only where [Network::Send] says so.  The worker
    thread and the senders are cut where a [P] can block: a step that needs a unit of a
    semaphore is possible when there is one.

    [mail_fifo] says what the post office promises: each mailbox is a queue, over all
    interleavings, and no assertion about an arriving packet can fail. *)

From Stdlib Require Import QArith.QArith_base.
From S2P Require Import Prelude Int32 LinkedList Machine Interrupts.
Open Scope Z_scope.

(** ** Headers and packets *)

(** [class PacketHeader] and [class MailHeader]: two [int]s and an [unsigned] *)
Record PacketHeader := mkPacketHeader { pkt_to : Z; pkt_from : Z; pkt_length : Z }.
Record MailHeader := mkMailHeader { mail_to : Z; mail_from : Z; mail_length : Z }.

#[export] Instance PacketHeader_eq_dec : EqDecision PacketHeader.
Proof. solve_decision. Defined.
#[export] Instance MailHeader_eq_dec : EqDecision MailHeader.
Proof. solve_decision. Defined.

Definition MaxWireSize : Z := 64.
Definition sizeof_PacketHeader : Z := 12.
Definition sizeof_MailHeader : Z := 12.
Definition MaxPacketSize : Z := MaxWireSize - sizeof_PacketHeader.
Definition MaxMailSize : Z := MaxPacketSize - sizeof_MailHeader.

(** The bytes of two [int]s and an [unsigned], and back. *)
Definition header_bytes (a b n : Z) : list Z := le_split 4 a ++ le_split 4 b ++ le_split 4 n.
Definition int_at (bs : list Z) (off : Z) : Z := wrap_s32 (le_combine (slice bs off 4)).
Definition unsigned_at (bs : list Z) (off : Z) : Z := wrap_u32 (le_combine (slice bs off 4)).
Definition PacketHeader_at (bs : list Z) (off : Z) : PacketHeader :=
  mkPacketHeader (int_at bs off) (int_at bs (off + 4)) (unsigned_at bs (off + 8)).
Definition MailHeader_at (bs : list Z) (off : Z) : MailHeader :=
  mkMailHeader (int_at bs off) (int_at bs (off + 4)) (unsigned_at bs (off + 8)).

(** [class Mail]; of the array [data] only the first [mailHdr.length] bytes are ever
    written or read, and these are kept. *)
Record Mail := mkMail { pktHdr : PacketHeader; mailHdr : MailHeader; data : list Z }.
#[export] Instance Mail_eq_dec : EqDecision Mail.
Proof. solve_decision. Defined.

(** [Mail::Mail] *)
Definition Mail_new (pktH : PacketHeader) (mailH : MailHeader) (msgData : list Z) : outcome Mail :=
  _ ← ASSERT (mail_length mailH <=? MaxMailSize);
  bs ← fetch msgData 0 (mail_length mailH);
  Ok (mkMail pktH mailH bs).

(** ** [SynchList]

    The list is the sequence it stands for ([LinkedList]); [Acquire], [Release] and
    [Signal] do nothing, and [Condition::Wait] is [ASSERT(FALSE)]. *)

Definition Condition_Wait : outcome unit := ASSERT false.
Definition SynchList_Append {A} (l : list A) (item : A) : list A := l ++ [item].
Definition SynchList_Remove {A} (l : list A) : outcome (A * list A) :=
  match l with
  | [] => _ ← Condition_Wait; Undefined
  | item :: rest => Ok (item, rest)
  end.
Definition SynchList_Mapcar {A} (func : A -> outcome unit) (l : list A) : outcome unit :=
  foldl (fun r x => _ ← r; func x) (Ok tt) l.

(** [MailBox::Put] and [MailBox::Get]; [data] is the caller's buffer. *)
Definition MailBox_Put (box : list Mail) (pktHdr : PacketHeader) (mailHdr : MailHeader) (data : list Z) : outcome (list Mail) :=
  mail ← Mail_new pktHdr mailHdr data;
  Ok (SynchList_Append box mail).
Definition MailBox_Get (box : list Mail) (buffer : list Z) : outcome (PacketHeader * MailHeader * list Z * list Mail) :=
  '(mail, box) ← SynchList_Remove box;
  bs ← fetch (data mail) 0 (mail_length (mailHdr mail));
  buffer ← store buffer 0 bs;
  Ok (pktHdr mail, mailHdr mail, buffer, box).

(** ** The device *)

(** [class Network], with the datagrams that wait at [sock]; the handlers are those of
    network/post.cc. *)
Record Network := mkNetwork {
  ident : Z;
  chanceToWork : Q;
  sendBusy : bool;
  inHdr : PacketHeader;
  inbox : list Z;
  sock : list (list Z) }.

(** [class PostOffice], and the buffer of the loop of [PostalDelivery] *)
Record PostOffice := mkPostOffice {
  network : Network;
  netAddr : Z;
  boxes : list (list Mail);
  numBoxes : Z;
  messageAvailable : Z;
  messageSent : Z;
  delivery_buffer : list Z }.

Inductive net_handler := NetworkReadPoll | NetworkSendDone.
Abbreviation NSys := (Sys (W := PostOffice) (H := net_handler)).

Definition set_office (s : NSys) (w : PostOffice) : NSys := mkSys (interrupt s) (stats s) (machine s) w.
Definition set_network (w : PostOffice) (n : Network) : PostOffice :=
  mkPostOffice n (netAddr w) (boxes w) (numBoxes w) (messageAvailable w) (messageSent w) (delivery_buffer w).
Definition set_boxes (w : PostOffice) (b : list (list Mail)) : PostOffice :=
  mkPostOffice (network w) (netAddr w) b (numBoxes w) (messageAvailable w) (messageSent w) (delivery_buffer w).
Definition set_available (w : PostOffice) (v : Z) : PostOffice :=
  mkPostOffice (network w) (netAddr w) (boxes w) (numBoxes w) v (messageSent w) (delivery_buffer w).
Definition set_sent (w : PostOffice) (v : Z) : PostOffice :=
  mkPostOffice (network w) (netAddr w) (boxes w) (numBoxes w) (messageAvailable w) v (delivery_buffer w).
Definition set_buffer (w : PostOffice) (b : list Z) : PostOffice :=
  mkPostOffice (network w) (netAddr w) (boxes w) (numBoxes w) (messageAvailable w) (messageSent w) b.
Definition set_sock (n : Network) (q : list (list Z)) : Network :=
  mkNetwork (ident n) (chanceToWork n) (sendBusy n) (inHdr n) (inbox n) q.

Definition count_packet_sent (st : Statistics) : Statistics :=
  mkStats (totalTicks st) (idleTicks st) (systemTicks st) (userTicks st) (numDiskReads st) (numDiskWrites st)
    (numConsoleCharsRead st) (numConsoleCharsWritten st) (numPageFaults st) (wrap_s32 (numPacketsSent st + 1)) (numPacketsRecvd st).
Definition count_packet_recvd (st : Statistics) : Statistics :=
  mkStats (totalTicks st) (idleTicks st) (systemTicks st) (userTicks st) (numDiskReads st) (numDiskWrites st)
    (numConsoleCharsRead st) (numConsoleCharsWritten st) (numPageFaults st) (numPacketsSent st) (wrap_s32 (numPacketsRecvd st + 1)).

(** [PostOffice::IncomingPacket] and [PostOffice::PacketSent]: a [V] in a handler, where
    interrupts are off and stay off. *)
Definition PostOffice_IncomingPacket (s : NSys) : NSys :=
  set_office s (set_available (world s) (wrap_s32 (messageAvailable (world s) + 1))).
Definition PostOffice_PacketSent (s : NSys) : NSys :=
  set_office s (set_sent (world s) (wrap_s32 (messageSent (world s) + 1))).

(** [ReadFromSocket] of machine/sysdep.cc on a datagram: [recvfrom] gets at most
    [packetSize] bytes of it. *)
Definition ReadFromSocket (datagram : list Z) (packetSize : Z) : outcome (list Z) :=
  let got := slice datagram 0 packetSize in
  _ ← ASSERT (lenZ got =? packetSize);
  Ok got.

(** [Network::CheckPktAvail] *)
Definition Network_CheckPktAvail (s : NSys) : outcome NSys :=
  s ← Interrupt_Schedule s NetworkReadPoll 0 NetworkTime NetworkRecvInt;
  let w := world s in
  let n := network w in
  if negb (pkt_length (inHdr n) =? 0) then Ok s
  else match sock n with
  | [] => Ok s
  | datagram :: more =>
      buffer ← ReadFromSocket datagram MaxWireSize;
      let hdr := PacketHeader_at buffer 0 in
      _ ← ASSERT ((pkt_to hdr =? ident n) && (pkt_length hdr <=? MaxPacketSize));
      bs ← fetch buffer sizeof_PacketHeader (pkt_length hdr);
      inbox ← store (inbox n) 0 bs;
      let s := set_office s (set_network w (mkNetwork (ident n) (chanceToWork n) (sendBusy n) hdr inbox more)) in
      Ok (PostOffice_IncomingPacket (set_stats s (count_packet_recvd (stats s))))
  end.

(** [Network::SendDone] *)
Definition Network_SendDone (s : NSys) : outcome NSys :=
  let n := network (world s) in
  let s := set_office s (set_network (world s) (mkNetwork (ident n) (chanceToWork n) false (inHdr n) (inbox n) (sock n))) in
  Ok (PostOffice_PacketSent (set_stats s (count_packet_sent (stats s)))).

(** The static functions [NetworkReadPoll] and [NetworkSendDone] *)
Definition net_call (h : net_handler) (a : Z) (s : NSys) : outcome NSys :=
  match h with NetworkReadPoll => Network_CheckPktAvail s | NetworkSendDone => Network_SendDone s end.

(** [Random() % 100 >= chanceToWork * 100], on exact fractions; [random] is the next value
    of [Random()]. *)
Definition packet_lost (n : Network) (random : Z) : bool :=
  Qle_bool (chanceToWork n * inject_Z 100) (inject_Z (Z.rem random 100)).

(** [Network::Send]: the datagram for the socket of the machine [hdr.to], or nothing when
    the packet is lost; [storage] is the new buffer. *)
Definition Network_Send (s : NSys) (hdr : PacketHeader) (data storage : list Z) (random : Z) :
    outcome (option (list Z) * NSys) :=
  let n := network (world s) in
  _ ← ASSERT (negb (sendBusy n) && (0 <? pkt_length hdr) && (pkt_length hdr <=? MaxPacketSize) && (pkt_from hdr =? ident n));
  s ← Interrupt_Schedule s NetworkSendDone 0 NetworkTime NetworkSendInt;
  if packet_lost n random then Ok (None, s)
  else
    buffer ← store storage 0 (header_bytes (pkt_to hdr) (pkt_from hdr) (pkt_length hdr));
    bs ← fetch data 0 (pkt_length hdr);
    buffer ← store buffer sizeof_PacketHeader bs;
    Ok (Some buffer, s).

(** [Network::Receive]: the header and what is in [buffer] afterwards *)
Definition Network_Receive (s : NSys) (buffer : list Z) : outcome (PacketHeader * list Z * NSys) :=
  let n := network (world s) in
  let hdr := inHdr n in
  let s := set_office s (set_network (world s)
             (mkNetwork (ident n) (chanceToWork n) (sendBusy n) (mkPacketHeader (pkt_to hdr) (pkt_from hdr) 0) (inbox n) (sock n))) in
  if negb (pkt_length hdr =? 0) then
    bs ← fetch (inbox n) 0 (pkt_length hdr);
    buffer ← store buffer 0 bs;
    Ok (hdr, buffer, s)
  else Ok (hdr, buffer, s).

(** ** The post office *)

(** [PostOffice::PostOffice] with [Network::Network], apart from the [Fork] of the worker
    thread; [storage] and [buffer] are the arrays [inbox] and the buffer of the worker. *)
Definition PostOffice_new (s : NSys) (addr : Z) (reliability : Q) (nBoxes : Z) (storage buffer : list Z) : outcome NSys :=
  let chance := if negb (Qle_bool 0 reliability) then 0%Q else if negb (Qle_bool reliability 1) then 1%Q else reliability in
  let n := mkNetwork addr chance false (mkPacketHeader 0 0 0) storage [] in
  let s := set_office s (mkPostOffice n addr (replicate (Z.to_nat nBoxes) []) nBoxes 0 0 buffer) in
  Interrupt_Schedule s NetworkReadPoll 0 NetworkTime NetworkRecvInt.

Definition SetLevel (s : NSys) (l : IntStatus) : outcome (IntStatus * NSys) :=
  Interrupt_SetLevel net_call (fun s => Ok s) s l.

(** [Semaphore::P] on a semaphore of the post office: [None] when the thread goes to
    sleep. *)
Definition office_P (value : PostOffice -> Z) (set : PostOffice -> Z -> PostOffice) (s : NSys) : outcome (option NSys) :=
  '(oldLevel, s) ← SetLevel s IntOff;
  if value (world s) =? 0 then Ok None
  else
    let s := set_office s (set (world s) (wrap_s32 (value (world s) - 1))) in
    '(_, s) ← SetLevel s oldLevel;
    Ok (Some s).

(** A sleeping thread with no other to run: [Interrupt::Idle] inside [P]. *)
Definition office_idle (s : NSys) : outcome NSys :=
  '(oldLevel, s) ← SetLevel s IntOff;
  s ← Interrupt_Idle net_call s;
  '(_, s) ← SetLevel s oldLevel;
  Ok s.

(** [PostOffice::PostalDelivery]: the body of the loop behind its [P], and one round *)
Definition deliver_mail (s : NSys) : outcome NSys :=
  '(pktHdr, buffer, s) ← Network_Receive s (delivery_buffer (world s));
  let s := set_office s (set_buffer (world s) buffer) in
  let mailHdr := MailHeader_at buffer 0 in
  let w := world s in
  _ ← ASSERT ((0 <=? mail_to mailHdr) && (mail_to mailHdr <? numBoxes w));
  _ ← ASSERT (mail_length mailHdr <=? MaxMailSize);
  box ← deref ((boxes w).[mail_to mailHdr]);
  box ← MailBox_Put box pktHdr mailHdr (drop 12 buffer);
  Ok (set_office s (set_boxes w ((boxes w).[mail_to mailHdr <- box]))).
Definition PostOffice_PostalDelivery (s : NSys) : outcome (option NSys) :=
  r ← office_P messageAvailable set_available s;
  match r with None => Ok None | Some s => s ← deliver_mail s; Ok (Some s) end.

(** [PostOffice::Send] up to [messageSent->P()], and its end; the lock does nothing. *)
Definition PostOffice_Send (s : NSys) (pktHdr : PacketHeader) (mailHdr : MailHeader) (data storage wire : list Z) (random : Z) :
    outcome (option (list Z) * NSys) :=
  let w := world s in
  _ ← ASSERT (mail_length mailHdr <=? MaxMailSize);
  _ ← ASSERT ((0 <=? mail_to mailHdr) && (mail_to mailHdr <? numBoxes w));
  let pktHdr := mkPacketHeader (pkt_to pktHdr) (netAddr w) (wrap_u32 (mail_length mailHdr + sizeof_MailHeader)) in
  buffer ← store storage 0 (header_bytes (mail_to mailHdr) (mail_from mailHdr) (mail_length mailHdr));
  bs ← fetch data 0 (mail_length mailHdr);
  buffer ← store buffer sizeof_MailHeader bs;
  Network_Send s pktHdr buffer wire random.
Definition Send_ends (s : NSys) : outcome (option NSys) := office_P messageSent set_sent s.

(** [PostOffice::Receive] into the buffer [data] *)
Definition PostOffice_Receive (s : NSys) (box : Z) (data : list Z) : outcome (PacketHeader * MailHeader * list Z * NSys) :=
  let w := world s in
  _ ← ASSERT ((0 <=? box) && (box <? numBoxes w));
  b ← deref ((boxes w).[box]);
  '(pktHdr, mailHdr, data, b) ← MailBox_Get b data;
  _ ← ASSERT (mail_length mailHdr <=? MaxMailSize);
  Ok (pktHdr, mailHdr, data, set_office s (set_boxes w ((boxes w).[box <- b]))).

(** ** Many machines *)

Abbreviation Net := (gmap Z NSys).

(** A call of [PostOffice::Send] with the mail it sends, and whether the network loses
    it; the return of [PostOffice::Receive] at a machine and a box with the mail. *)
Inductive net_event := Quiet | Sent (m : Mail) (lost : bool) | Received (at_ box : Z) (m : Mail).

Definition header_ok (pkt : PacketHeader) (mail : MailHeader) : Prop :=
  int32 (pkt_to pkt) /\ int32 (mail_to mail) /\ int32 (mail_from mail) /\ uint32 (mail_length mail).

(** The mail that a call of [PostOffice::Send] makes of its arguments. *)
Definition mail_of (addr : Z) (pkt : PacketHeader) (mail : MailHeader) (msg : list Z) : Mail :=
  mkMail (mkPacketHeader (pkt_to pkt) addr (mail_length mail + sizeof_MailHeader)) mail (slice msg 0 (mail_length mail)).

(** [SendToSocket]: the datagram joins those that wait at the socket. *)
Definition arrive (s : NSys) (datagram : list Z) : NSys :=
  let n := network (world s) in
  set_office s (set_network (world s) (set_sock n (sock n ++ [datagram]))).

(** The steps of the machines: time passes while a thread runs or while all wait, the worker
    delivers a mail, a sender goes on, a thread sends or receives.  [storage] and [wire]
    are the fresh buffers of [PostOffice::Send] and [Network::Send]. *)
Inductive net_step (N : Net) : net_event -> Net -> Prop :=
| step_tick a s s' : N !! a = Some s -> Interrupt_OneTick net_call (fun s => Ok s) s = Ok s' ->
    net_step N Quiet (<[a := s']> N)
| step_idle a s s' : N !! a = Some s -> office_idle s = Ok s' -> net_step N Quiet (<[a := s']> N)
| step_deliver a s s' : N !! a = Some s -> PostOffice_PostalDelivery s = Ok (Some s') ->
    net_step N Quiet (<[a := s']> N)
| step_goes_on a s s' : N !! a = Some s -> Send_ends s = Ok (Some s') -> net_step N Quiet (<[a := s']> N)
| step_lost a s s' pkt mail msg storage wire random :
    N !! a = Some s -> header_ok pkt mail -> lenZ storage = MaxPacketSize -> lenZ wire = MaxWireSize ->
    PostOffice_Send s pkt mail msg storage wire random = Ok (None, s') ->
    net_step N (Sent (mail_of a pkt mail msg) true) (<[a := s']> N)
| step_send a s s' pkt mail msg storage wire random datagram r :
    N !! a = Some s -> header_ok pkt mail -> lenZ storage = MaxPacketSize -> lenZ wire = MaxWireSize ->
    PostOffice_Send s pkt mail msg storage wire random = Ok (Some datagram, s') ->
    <[a := s']> N !! pkt_to pkt = Some r ->
    net_step N (Sent (mail_of a pkt mail msg) false) (<[pkt_to pkt := arrive r datagram]> (<[a := s']> N))
| step_receive a s s' box buffer buffer' pkt mail :
    N !! a = Some s -> PostOffice_Receive s box buffer = Ok (pkt, mail, buffer', s') ->
    net_step N (Received a box (mkMail pkt mail (slice buffer' 0 (mail_length mail)))) (<[a := s']> N).

Inductive net_steps (N : Net) : list net_event -> Net -> Prop :=
| net_refl : net_steps N [] N
| net_snoc tr N1 e N2 : net_steps N tr N1 -> net_step N1 e N2 -> net_steps N (tr ++ [e]) N2.

(** Machines that have just started, each with the same number of boxes. *)
Definition booted (K : Z) (N : Net) : Prop :=
  forall a s, N !! a = Some s -> exists s0 reliability storage buffer,
    int32 a /\ lenZ storage = MaxPacketSize /\ lenZ buffer = MaxPacketSize /\
    PostOffice_new s0 a reliability K storage buffer = Ok s.

(** ** What is on its way *)

(** The mail in a packet with header [hdr] and payload [bs]. *)
Definition decode (hdr : PacketHeader) (bs : list Z) : Mail :=
  let mh := MailHeader_at bs 0 in mkMail hdr mh (slice bs sizeof_MailHeader (mail_length mh)).
Definition datagram_mail (d : list Z) : Mail := decode (PacketHeader_at d 0) (drop 12 d).

(** The mails that have reached a machine and are not in a box yet. *)
Definition in_transit (w : PostOffice) : list Mail :=
  let n := network w in
  (if pkt_length (inHdr n) =? 0 then [] else [decode (inHdr n) (inbox n)]) ++ map datagram_mail (sock n).

Definition for_box (x : Z) (ms : list Mail) : list Mail := filter (fun m => mail_to (mailHdr m) = x) ms.

(** The mails sent to box [x] of machine [a] and not lost, and those received there. *)
Definition sent_to (a x : Z) (tr : list net_event) : list Mail :=
  omap (fun e => match e with
    | Sent m false => if (pkt_to (pktHdr m) =? a) && (mail_to (mailHdr m) =? x) then Some m else None
    | _ => None end) tr.
Definition received_at (a x : Z) (tr : list net_event) : list Mail :=
  omap (fun e => match e with
    | Received a' x' m => if (a' =? a) && (x' =? x) then Some m else None
    | _ => None end) tr.

(** ** The invariant of a machine *)

Record good_mail (a K : Z) (m : Mail) : Prop := {
  gm_to : pkt_to (pktHdr m) = a;
  gm_length : pkt_length (pktHdr m) = mail_length (mailHdr m) + 12;
  gm_max : 0 <= mail_length (mailHdr m) <= MaxMailSize;
  gm_box : 0 <= mail_to (mailHdr m) < K;
  gm_data : lenZ (data m) = mail_length (mailHdr m) }.

(** [held] is 1 between the [P] of the worker and its [Receive]. *)
Record office_ok (a K held : Z) (w : PostOffice) : Prop := {
  oo_ident : ident (network w) = a;
  oo_addr : netAddr w = a;
  oo_boxes : numBoxes w = K /\ lenZ (boxes w) = K;
  oo_inbox : lenZ (inbox (network w)) = MaxPacketSize;
  oo_buffer : lenZ (delivery_buffer w) = MaxPacketSize;
  oo_wire : Forall (fun d => lenZ d = MaxWireSize) (sock (network w));
  oo_transit : Forall (good_mail a K) (in_transit w);
  oo_mails : Forall (Forall (good_mail a K)) (boxes w);
  oo_available : (messageAvailable w = 0 /\ held = 0 /\ pkt_length (inHdr (network w)) = 0) \/
                 (messageAvailable w + held = 1 /\ pkt_length (inHdr (network w)) <> 0) }.

Ltac sizes := unfold MaxMailSize, MaxPacketSize, MaxWireSize, sizeof_PacketHeader, sizeof_MailHeader in *; lia.

(** ** Packets *)

Lemma lenZ_header_bytes a b n : lenZ (header_bytes a b n) = 12.
Proof. unfold header_bytes. rewrite !lenZ_app, !lenZ_le_split. done. Qed.

(** Only the bytes read matter. *)
Lemma MailHeader_slice bs bs' n : 12 <= n -> slice bs 0 n = slice bs' 0 n -> MailHeader_at bs 0 = MailHeader_at bs' 0.
Proof.
  intros Hn E.
  assert (F : forall i, 0 <= i -> i + 4 <= n -> slice bs i 4 = slice bs' i 4).
  { intros i H0 H1. pose proof (f_equal (fun l => slice l i 4) E) as F. cbv beta in F. rewrite !slice_slice in F by lia. exact F. }
  unfold MailHeader_at, int_at, unsigned_at. rewrite !F by lia. done.
Qed.

Lemma decode_slice hdr bs bs' :
  slice bs 0 (pkt_length hdr) = slice bs' 0 (pkt_length hdr) -> 0 <= mail_length (MailHeader_at bs 0) ->
  pkt_length hdr = mail_length (MailHeader_at bs 0) + 12 -> decode hdr bs = decode hdr bs'.
Proof.
  intros E H0 Hl. unfold decode. rewrite <- (MailHeader_slice bs bs' (pkt_length hdr)) by (done || lia). cbv zeta. f_equal.
  pose proof (f_equal (fun l => slice l sizeof_MailHeader (mail_length (MailHeader_at bs 0))) E) as F. cbv beta in F.
  unfold sizeof_MailHeader in *. rewrite !slice_slice in F by lia. exact F.
Qed.

(** The headers survive the wire. *)
Lemma header_fields a b n bs :
  int32 a -> int32 b -> uint32 n -> slice bs 0 12 = header_bytes a b n ->
  int_at bs 0 = a /\ int_at bs 4 = b /\ unsigned_at bs 8 = n.
Proof.
  intros Ha Hb Hn E.
  assert (F : forall i, 0 <= i -> i + 4 <= 12 -> slice bs i 4 = slice (header_bytes a b n) i 4).
  { intros i H0 H1. rewrite <- E, slice_slice by lia. done. }
  unfold int_at, unsigned_at. rewrite !F by lia.
  change (slice (header_bytes a b n) 0 4) with (le_split 4 a). change (slice (header_bytes a b n) 4 4) with (le_split 4 b).
  change (slice (header_bytes a b n) 8 4) with (le_split 4 n). rewrite !le_combine_split4, !wrap_s32_wrap_u32, !wrap_s32_id by done.
  by rewrite !wrap_u32_id by (done || apply wrap_u32_range).
Qed.

(** A packet made of a header and a payload carries both. *)
Lemma packet_mail wire to from len payload :
  lenZ wire = MaxWireSize -> int32 to -> int32 from -> 12 <= len <= MaxPacketSize -> lenZ payload = len ->
  let d := splice (splice wire 0 (header_bytes to from len)) 12 payload in
  lenZ d = MaxWireSize /\ PacketHeader_at d 0 = mkPacketHeader to from len /\ slice (drop 12 d) 0 len = payload.
Proof.
  intros Hw Ht Hf Hl Hp d. unfold MaxPacketSize, MaxWireSize, sizeof_PacketHeader in *.
  pose proof (lenZ_header_bytes to from len) as Hh.
  assert (H1 : lenZ (splice wire 0 (header_bytes to from len)) = 64) by (rewrite lenZ_splice; lia).
  assert (H2 : lenZ d = 64) by (unfold d; rewrite lenZ_splice; lia).
  assert (H3 : slice d 0 12 = header_bytes to from len).
  { unfold d. rewrite slice_splice_disjoint by (rewrite ?H1; lia). apply slice_splice_n; lia. }
  split; [done|]. split.
  - apply header_fields in H3 as (E1 & E2 & E3); [|done..|unfold_int32; lia]. unfold PacketHeader_at. change (0 + 4) with 4. change (0 + 8) with 8. by rewrite E1, E2, E3.
  - rewrite slice_drop by lia. cbn [Z.of_nat Z.add Pos.of_succ_nat Pos.succ]. unfold d. apply slice_splice_n; lia.
Qed.

(** The same for the mail inside the packet. *)
Lemma payload_mail storage mail msg :
  lenZ storage = MaxPacketSize -> int32 (mail_to mail) -> int32 (mail_from mail) -> 0 <= mail_length mail <= MaxMailSize ->
  mail_length mail <= lenZ msg ->
  let buffer := splice (splice storage 0 (header_bytes (mail_to mail) (mail_from mail) (mail_length mail))) 12 (slice msg 0 (mail_length mail)) in
  lenZ buffer = MaxPacketSize /\ MailHeader_at buffer 0 = mail /\ slice buffer 12 (mail_length mail) = slice msg 0 (mail_length mail).
Proof.
  intros Hs Ht Hf Hl Hm buffer. unfold MaxMailSize, MaxPacketSize, MaxWireSize, sizeof_PacketHeader, sizeof_MailHeader in *.
  pose proof (lenZ_header_bytes (mail_to mail) (mail_from mail) (mail_length mail)) as Hh.
  assert (Hb : lenZ (slice msg 0 (mail_length mail)) = mail_length mail) by (apply lenZ_slice; lia).
  set (st := splice storage 0 (header_bytes (mail_to mail) (mail_from mail) (mail_length mail))) in *.
  assert (H1 : lenZ st = 52) by (unfold st; rewrite lenZ_splice; lia).
  assert (H3 : slice buffer 0 12 = header_bytes (mail_to mail) (mail_from mail) (mail_length mail)).
  { unfold buffer. rewrite slice_splice_disjoint by (rewrite ?H1; lia). unfold st. apply slice_splice_n; lia. }
  split; [unfold buffer; rewrite lenZ_splice; lia|]. split.
  - apply header_fields in H3 as (E1 & E2 & E3); [|done..|unfold_int32; lia]. unfold MailHeader_at. change (0 + 4) with 4. change (0 + 8) with 8. rewrite E1, E2, E3. by destruct mail.
  - unfold buffer. apply slice_splice_n; lia.
Qed.

(** [PostOffice::Send] changes nothing but the queue of interrupts, and its datagram carries
    the mail. *)
Lemma PostOffice_Send_inv a K held s pkt mail msg storage wire random o s' :
  int32 a -> office_ok a K held (world s) -> header_ok pkt mail -> lenZ storage = MaxPacketSize -> lenZ wire = MaxWireSize ->
  PostOffice_Send s pkt mail msg storage wire random = Ok (o, s') ->
  world s' = world s /\ good_mail (pkt_to pkt) K (mail_of a pkt mail msg) /\
  forall d, o = Some d -> lenZ d = MaxWireSize /\ datagram_mail d = mail_of a pkt mail msg.
Proof.
  intros Ha [Hi Haddr [HK HKb] _ _ _ _ _ _] (Ht & Hmt & Hmf & Hml) Hst Hw HS. unfold PostOffice_Send in HS.
  apply bind_Ok_inv in HS as (u1 & A1 & HS). apply ASSERT_Ok_inv in A1. apply bind_Ok_inv in HS as (u2 & A2 & HS). apply ASSERT_Ok_inv in A2.
  rewrite HK in A2. apply Z.leb_le in A1. apply andb_true_iff in A2 as [A2 A3]. apply Z.leb_le in A2. apply Z.ltb_lt in A3.
  cbv zeta in HS. apply bind_Ok_inv in HS as (b1 & E1 & HS). apply store_Ok in E1 as (_ & _ & ->).
  apply bind_Ok_inv in HS as (bs & E2 & HS).
  assert (Hml0 : 0 <= mail_length mail) by (unfold_int32; lia).
  assert (Hmsg : mail_length mail <= lenZ msg /\ bs = slice msg 0 (mail_length mail)).
  { unfold fetch in E2. destruct ((0 <=? 0) && (0 <=? mail_length mail) && (0 + mail_length mail <=? lenZ msg)) eqn:E; [|discriminate].
    apply andb_true_iff in E as [_ E]. apply Z.leb_le in E. split; [lia|congruence]. }
  destruct Hmsg as [Hmsg ->]. apply bind_Ok_inv in HS as (b2 & E3 & HS). apply store_Ok in E3 as (_ & _ & ->).
  assert (Hu : wrap_u32 (mail_length mail + sizeof_MailHeader) = mail_length mail + 12).
  { apply wrap_u32_id. unfold_int32. sizes. }
  change sizeof_MailHeader with 12 in Hu.
  destruct (payload_mail storage mail msg Hst Hmt Hmf ltac:(lia) Hmsg) as (P1 & P2 & P3).
  change sizeof_MailHeader with 12 in HS. set (buffer := splice (splice storage _ _) 12 _) in *.
  unfold Network_Send in HS. cbv zeta in HS. apply bind_Ok_inv in HS as (u3 & _ & HS). apply bind_Ok_inv in HS as (s1 & E4 & HS).
  assert (Hw1 : world s1 = world s).
  { unfold Interrupt_Schedule in E4. apply bind_Ok_inv in E4 as (? & _ & E4). injection E4 as <-. done. }
  assert (Hgood : good_mail (pkt_to pkt) K (mail_of a pkt mail msg)).
  { split; cbn [mail_of pktHdr mailHdr data pkt_to pkt_length]; [done|done|lia|lia|]. apply lenZ_slice; lia. }
  destruct (packet_lost (network (world s)) random).
  { injection HS as <- <-. split; [done|]. split; [done|]. discriminate. }
  cbn [pkt_to pkt_from pkt_length] in HS. rewrite Hu, Haddr in HS.
  apply bind_Ok_inv in HS as (b3 & E5 & HS). apply store_Ok in E5 as (_ & _ & ->).
  apply bind_Ok_inv in HS as (bs & E6 & HS). rewrite fetch_ok in E6 by (sizes).
  injection E6 as <-. apply bind_Ok_inv in HS as (b4 & E7 & HS). apply store_Ok in E7 as (_ & _ & ->). injection HS as <- <-.
  split; [done|]. split; [done|]. intros d [= <-].
  assert (Hp : lenZ (slice buffer 0 (mail_length mail + 12)) = mail_length mail + 12)
    by (apply lenZ_slice; sizes).
  destruct (packet_mail wire (pkt_to pkt) a (mail_length mail + 12) _ Hw Ht Ha ltac:(sizes) Hp) as (D1 & D2 & D3).
  change sizeof_PacketHeader with 12. split; [exact D1|]. unfold datagram_mail. rewrite D2.
  rewrite <- (decode_slice _ buffer).
  - unfold decode. rewrite P2. cbv zeta. change sizeof_MailHeader with 12. rewrite P3. done.
  - cbn [pkt_length]. by rewrite D3.
  - rewrite P2. lia.
  - cbn [pkt_length]. by rewrite P2.
Qed.

(** ** What the handlers do *)

Lemma Schedule_world (s : NSys) h a d t : 0 < d -> exists s', Interrupt_Schedule s h a d t = Ok s' /\ world s' = world s.
Proof. intros Hd. unfold Interrupt_Schedule. apply Z.ltb_lt in Hd. rewrite Hd. eexists. split; [reflexivity|done]. Qed.

(** A poll moves the first datagram into the buffer of the device when that is free; nothing is
    lost, and no check fails. *)
Lemma CheckPktAvail_ok a K held (s : NSys) :
  office_ok a K held (world s) ->
  exists s', Network_CheckPktAvail s = Ok s' /\ office_ok a K held (world s') /\ boxes (world s') = boxes (world s) /\
    in_transit (world s') = in_transit (world s) /\
    (messageAvailable (world s) + held = 0 -> in_transit (world s) <> [] -> messageAvailable (world s') = 1).
Proof.
  intros [Hi Ha HK Hin Hb Hw Ht Hm Hav]. unfold Network_CheckPktAvail.
  destruct (Schedule_world s NetworkReadPoll 0 NetworkTime NetworkRecvInt ltac:(done)) as (s1 & -> & E1). cbn [mbind outcome_bind].
  rewrite E1. destruct (Z.eqb_spec (pkt_length (inHdr (network (world s)))) 0) as [H0|H0]; cbn [negb].
  2: { exists s1. rewrite E1. split; [done|]. split; [by split|]. split; [done|]. split; [done|]. intros Hz _. lia. }
  destruct (sock (network (world s))) as [|d more] eqn:Es.
  { exists s1. rewrite E1. split; [done|]. split; [split; try done; by rewrite Es|]. split; [done|]. split; [done|].
    intros _ Hne. destruct Hne. unfold in_transit. rewrite H0, Es. done. }
  destruct Hav as [(Hav & Hh & _)|[_ ?]]; [|done]. apply Forall_cons in Hw as [Hd Hmore].
  assert (Ht' := Ht). unfold in_transit in Ht'. rewrite H0, Es in Ht'. cbn [Z.eqb app map] in Ht'. apply Forall_cons in Ht' as [Hg Hgs].
  destruct Hg as [G1 G2 G3 G4 G5]. unfold datagram_mail, decode in G1, G2, G3, G4, G5. cbv zeta in *. cbn [pktHdr mailHdr data] in *.
  unfold ReadFromSocket. rewrite (slice_all d) by (symmetry; exact Hd). cbv zeta. rewrite Hd, Z.eqb_refl. cbn [ASSERT mbind outcome_bind].
  rewrite G1, Hi, Z.eqb_refl. rewrite (proj2 (Z.leb_le (pkt_length (PacketHeader_at d 0)) MaxPacketSize)) by sizes. cbn [andb ASSERT mbind outcome_bind].
  rewrite fetch_ok by sizes. cbn [mbind outcome_bind].
  assert (Hl : lenZ (slice d sizeof_PacketHeader (pkt_length (PacketHeader_at d 0))) = pkt_length (PacketHeader_at d 0)) by (apply lenZ_slice; sizes).
  rewrite store_ok by (rewrite ?Hl; sizes). cbn [mbind outcome_bind]. set (ib := splice _ 0 _) in *.
  assert (Hdec : decode (PacketHeader_at d 0) ib = datagram_mail d).
  { unfold datagram_mail. symmetry. apply decode_slice; [|lia|done]. rewrite slice_drop by lia. change (Z.of_nat 12 + 0) with sizeof_PacketHeader. unfold ib. symmetry.
    apply slice_splice_n; [lia|rewrite Hl; sizes|by rewrite Hl]. }
  eexists. split; [reflexivity|]. unfold PostOffice_IncomingPacket. 
  cbn [world set_office set_stats set_available set_network messageAvailable network sock inHdr inbox boxes ident].
  assert (Htr : in_transit (set_available (set_network (world s) (mkNetwork a (chanceToWork (network (world s))) (sendBusy (network (world s))) (PacketHeader_at d 0) ib more)) (wrap_s32 (messageAvailable (world s) + 1)))
    = in_transit (world s)).
  { unfold in_transit. cbn [network set_available set_network inHdr inbox sock]. rewrite H0, Es. cbn [Z.eqb app map].
    rewrite (proj2 (Z.eqb_neq _ _)) by lia. rewrite Hdec. done. }
  split; [|split; [done|split; [exact Htr|]]].
  - split; cbn [network set_available set_network ident netAddr boxes numBoxes inbox delivery_buffer sock messageAvailable inHdr]; try done.
    + unfold ib. rewrite lenZ_splice; [done|lia|rewrite Hl; sizes].
    + rewrite Htr. exact Ht.
    + right. rewrite Hav, Hh. split; [done|lia].
  - intros _ _. by rewrite Hav.
Qed.

Lemma SendDone_ok a K held (s : NSys) :
  office_ok a K held (world s) ->
  exists s', Network_SendDone s = Ok s' /\ office_ok a K held (world s') /\ boxes (world s') = boxes (world s) /\ in_transit (world s') = in_transit (world s).
Proof. intros [Hi Ha HK Hin Hb Hw Ht Hm Hav]. eexists. split; [reflexivity|]. split; [by split|]. done. Qed.

(** *** Interrupts keep what every handler keeps *)

Section Keep.
Context (Q : PostOffice -> Prop) (keep : forall h a s s', net_call h a s = Ok s' -> Q (world s) -> Q (world s')).

Lemma fire_keeps s p s' : fire net_call s p = Ok s' -> Q (world s) -> Q (world s').
Proof.
  unfold fire. intros H HQ. apply bind_Ok_inv in H as (s1 & E1 & H). apply bind_Ok_inv in H as (s2 & E2 & H). injection H as <-.
  apply keep in E2; [done|]. unfold finish_delayed_load in E1. destruct (machine s); [|by injection E1 as <-].
  apply bind_Ok_inv in E1 as (m' & _ & E1). by injection E1 as <-.
Qed.

Lemma CheckIfDue_keeps s b r s' : Interrupt_CheckIfDue net_call s b = Ok (r, s') -> Q (world s) -> Q (world s').
Proof.
  unfold Interrupt_CheckIfDue. intros H HQ. apply bind_Ok_inv in H as (u & _ & H).
  destruct (pending (interrupt s)) as [|[w p] rest]; [by injection H as _ <-|]. cbv zeta in H.
  destruct (negb b && _); [by injection H as _ <-|].
  match type of H with (if ?c then _ else _) = _ => destruct c end; [injection H as _ <-; by case_match|].
  apply bind_Ok_inv in H as (s1 & E & H). injection H as _ <-. apply fire_keeps in E; [done|]. by case_match.
Qed.

Lemma check_loop_keeps n s s' : check_loop net_call n s = Ok s' -> Q (world s) -> Q (world s').
Proof.
  revert s. induction n as [|n IH]; intros s H HQ; [done|]. cbn [check_loop] in H. apply bind_Ok_inv in H as ([r s1] & E & H).
  apply CheckIfDue_keeps in E; [|done]. destruct r; [by eapply IH|by injection H as <-].
Qed.

Lemma OneTick_keeps s s' : Interrupt_OneTick net_call (fun s => Ok s) s = Ok s' -> Q (world s) -> Q (world s').
Proof.
  unfold Interrupt_OneTick. intros H HQ. apply bind_Ok_inv in H as (s1 & E & H). apply check_loop_keeps in E.
  - cbv zeta in H. case_match; [cbn [mbind outcome_bind] in H|]; by injection H as <-.
  - unfold advance. by destruct (bool_decide _).
Qed.

Lemma Idle_keeps s s' : Interrupt_Idle net_call s = Ok s' -> Q (world s) -> Q (world s').
Proof.
  unfold Interrupt_Idle. intros H HQ. apply bind_Ok_inv in H as ([r s1] & E & H). apply CheckIfDue_keeps in E; [|done].
  destruct r; [|done]. apply bind_Ok_inv in H as (s2 & E2 & H). apply check_loop_keeps in E2; [|done]. by injection H as <-.
Qed.

Lemma SetLevel_keeps s l o s' : SetLevel s l = Ok (o, s') -> Q (world s) -> Q (world s').
Proof.
  unfold SetLevel, Interrupt_SetLevel. intros H HQ. apply bind_Ok_inv in H as (u & _ & H). apply bind_Ok_inv in H as (s1 & E & H).
  injection H as _ <-. case_match; [by apply OneTick_keeps in E|by injection E as <-].
Qed.

Lemma idle_keeps s s' : office_idle s = Ok s' -> Q (world s) -> Q (world s').
Proof.
  unfold office_idle. intros H HQ. apply bind_Ok_inv in H as ([o s1] & E1 & H). apply bind_Ok_inv in H as (s2 & E2 & H).
  apply bind_Ok_inv in H as ([o' s3] & E3 & H). injection H as <-. apply SetLevel_keeps in E1; [|done]. apply Idle_keeps in E2; [|done]. by apply SetLevel_keeps in E3.
Qed.
End Keep.

(** ** What the threads do *)

(** The boxes of a machine are [bx] and [ms] is on its way. *)
Definition stays (a K held : Z) (bx : list (list Mail)) (ms : list Mail) (w : PostOffice) : Prop :=
  office_ok a K held w /\ boxes w = bx /\ in_transit w = ms.

Lemma call_stays a K held bx ms h z s s' : net_call h z s = Ok s' -> stays a K held bx ms (world s) -> stays a K held bx ms (world s').
Proof.
  intros H (Ho & Hb & Ht). destruct h; cbn [net_call] in H.
  - destruct (CheckPktAvail_ok a K held s Ho) as (s1 & E & O1 & B1 & T1 & _). rewrite H in E. injection E as <-. split; [done|]. by rewrite B1, T1.
  - destruct (SendDone_ok a K held s Ho) as (s1 & E & O1 & B1 & T1). rewrite H in E. injection E as <-. split; [done|]. by rewrite B1, T1.
Qed.

Lemma take_unit a K bx ms s s' :
  office_P messageAvailable set_available s = Ok (Some s') -> stays a K 0 bx ms (world s) -> stays a K 1 bx ms (world s').
Proof.
  unfold office_P. intros H HS. apply bind_Ok_inv in H as ([o s1] & E1 & H).
  apply (SetLevel_keeps _ (call_stays a K 0 bx ms)) in E1; [|done]. destruct (Z.eqb_spec (messageAvailable (world s1)) 0) as [|Hne]; [done|].
  apply bind_Ok_inv in H as ([o' s2] & E2 & H). injection H as <-. apply (SetLevel_keeps _ (call_stays a K 1 bx ms)) in E2; [done|].
  destruct E1 as ([] & Hb & Ht). destruct oo_available0 as [[? _]|[Hav Hp]]; [done|]. split; [|done]. split; try done.
  right. cbn [world set_office set_available messageAvailable network]. split; [|done]. replace (messageAvailable (world s1)) with 1 by lia. done.
Qed.

Lemma goes_on_stays a K held bx ms s s' :
  Send_ends s = Ok (Some s') -> stays a K held bx ms (world s) -> stays a K held bx ms (world s').
Proof.
  unfold Send_ends, office_P. intros H HS. apply bind_Ok_inv in H as ([o s1] & E1 & H).
  apply (SetLevel_keeps _ (call_stays a K held bx ms)) in E1; [|done]. destruct (messageSent (world s1) =? 0); [done|].
  apply bind_Ok_inv in H as ([o' s2] & E2 & H). injection H as <-. apply (SetLevel_keeps _ (call_stays a K held bx ms)) in E2; [done|].
  destruct E1 as ([] & Hb & Ht). split; [by split|done].
Qed.

(** The worker takes the first mail on its way and puts it behind those in its box. *)
Lemma deliver_ok a K s :
  office_ok a K 1 (world s) ->
  exists m ms box s', in_transit (world s) = m :: ms /\ (boxes (world s)).[mail_to (mailHdr m)] = Some box /\ deliver_mail s = Ok s' /\
    stays a K 0 ((boxes (world s)).[mail_to (mailHdr m) <- box ++ [m]]) ms (world s').
Proof.
  intros [Hi Ha [HK HKb] Hin Hb Hw Ht Hm Hav]. destruct Hav as [(_ & ? & _)|[Hav H0]]; [done|].
  unfold in_transit in Ht |- *. rewrite (proj2 (Z.eqb_neq _ _) H0) in Ht |- *. set (n := network (world s)) in *. cbn [app] in Ht |- *.
  apply Forall_cons in Ht as [Hg Hgs]. pose proof Hg as [G1 G2 G3 G4 G5].
  destruct (lookupZ_range (boxes (world s)) (mail_to (MailHeader_at (inbox n) 0)) ltac:(unfold decode in G4; cbv zeta in G4; cbn [mailHdr] in G4; lia)) as [box Hbox].
  unfold decode in G1, G2, G3, G4, G5. cbv zeta in *. cbn [pktHdr mailHdr data] in *.
  unfold deliver_mail, Network_Receive. cbv zeta. fold n. rewrite (proj2 (Z.eqb_neq _ _) H0). cbn [negb]. rewrite fetch_ok by sizes. cbn [mbind outcome_bind].
  assert (Hl : lenZ (slice (inbox n) 0 (pkt_length (inHdr n))) = pkt_length (inHdr n)) by (apply lenZ_slice; sizes).
  rewrite store_ok by (rewrite ?Hl; sizes). cbn [mbind outcome_bind]. set (buf := splice _ 0 _) in *.
  cbn [world set_office set_network set_buffer boxes numBoxes].
  assert (Hsl : slice (inbox n) 0 (pkt_length (inHdr n)) = slice buf 0 (pkt_length (inHdr n))).
  { symmetry. apply slice_splice_n; [lia|rewrite Hl; sizes|by rewrite Hl]. }
  assert (Hbuf : lenZ buf = MaxPacketSize) by (unfold buf; rewrite lenZ_splice; [done|lia|rewrite Hl; sizes]).
  assert (Hmh : MailHeader_at buf 0 = MailHeader_at (inbox n) 0) by (symmetry; apply (MailHeader_slice _ _ (pkt_length (inHdr n))); [lia|done]).
  pose proof (decode_slice (inHdr n) (inbox n) buf Hsl ltac:(lia) G2) as Hdec.
  rewrite Hmh, HK. rewrite (proj2 (Z.leb_le 0 _)), (proj2 (Z.ltb_lt _ K)) by lia. cbn [andb ASSERT mbind outcome_bind].
  rewrite (proj2 (Z.leb_le _ MaxMailSize)) by lia. cbn [ASSERT mbind outcome_bind]. rewrite Hbox. cbn [deref mbind outcome_bind].
  unfold MailBox_Put, Mail_new. rewrite (proj2 (Z.leb_le _ MaxMailSize)) by lia. cbn [ASSERT mbind outcome_bind].
  assert (Hdrop : lenZ (drop 12 buf) = 40). { unfold lenZ in *. rewrite length_drop. sizes. }
  rewrite fetch_ok by sizes. cbn [mbind outcome_bind]. rewrite slice_drop by lia. change (Z.of_nat 12 + 0) with sizeof_MailHeader.
  assert (Hmail : mkMail (inHdr n) (MailHeader_at (inbox n) 0) (slice buf sizeof_MailHeader (mail_length (MailHeader_at (inbox n) 0)))
    = decode (inHdr n) (inbox n)) by (rewrite Hdec; unfold decode; by rewrite Hmh).
  rewrite Hmail. do 4 eexists. split; [reflexivity|]. split; [exact Hbox|]. split; [reflexivity|]. split; [|split].
  - split; cbn [world set_office set_boxes set_buffer set_network network netAddr boxes numBoxes delivery_buffer ident inbox sock inHdr messageAvailable pkt_length]; try done.
    + split; [done|]. by rewrite lenZ_insertZ.
    + apply Forall_insertZ; [done|]. apply Forall_app. split; [|by apply Forall_singleton]. rewrite Forall_forall in Hm. apply Hm. by eapply lookupZ_elem_of.
    + left. split; [lia|done].
  - done.
  - done.
Qed.

(** [PostOffice::Receive] gives the first mail of the box. *)
Lemma Receive_inv a K held s x buffer pkt mail buffer' s' :
  office_ok a K held (world s) -> PostOffice_Receive s x buffer = Ok (pkt, mail, buffer', s') ->
  exists m rest, (boxes (world s)).[x] = Some (m :: rest) /\ m = mkMail pkt mail (slice buffer' 0 (mail_length mail)) /\
    stays a K held ((boxes (world s)).[x <- rest]) (in_transit (world s)) (world s').
Proof.
  intros [Hi Ha [HK HKb] Hin Hb Hw Ht Hm Hav] H. unfold PostOffice_Receive in H. cbv zeta in H.
  apply bind_Ok_inv in H as (u & _ & H). apply bind_Ok_inv in H as (box & Hbox & H). apply deref_Ok_inv in Hbox.
  apply bind_Ok_inv in H as ([[[p h] bf] rest] & HG & H). apply bind_Ok_inv in H as (u2 & _ & H). injection H as -> -> -> <-.
  unfold MailBox_Get in HG. apply bind_Ok_inv in HG as ([m r] & ER & HG). destruct box as [|m' r']; [done|]. injection ER as -> ->.
  assert (HF : Forall (good_mail a K) (m :: r)) by (rewrite Forall_forall in Hm; apply Hm; by eapply lookupZ_elem_of).
  apply Forall_cons in HF as [Hg Hr]. pose proof Hg as [G1 G2 G3 G4 G5].
  rewrite fetch_ok in HG by lia. cbn [mbind outcome_bind] in HG. rewrite slice_all in HG by done.
  apply bind_Ok_inv in HG as (bf & ES & HG). apply store_Ok in ES as (_ & Hl & ->). injection HG as <- <- <- <-.
  exists m, r. split; [done|]. split.
  - rewrite slice_splice_n by (lia || done). by destruct m.
  - split; [|done]. split; cbn [world set_office set_boxes network netAddr boxes numBoxes delivery_buffer messageAvailable]; try done.
    + split; [done|]. by rewrite lenZ_insertZ.
    + by apply Forall_insertZ.
Qed.

Lemma Receive_ok a K held s x box buffer :
  office_ok a K held (world s) -> (boxes (world s)).[x] = Some box -> MaxMailSize <= lenZ buffer ->
  match box with
  | [] => PostOffice_Receive s x buffer = AssertFail
  | m :: rest => exists buffer' s', PostOffice_Receive s x buffer = Ok (pktHdr m, mailHdr m, buffer', s') /\ slice buffer' 0 (mail_length (mailHdr m)) = data m
  end.
Proof.
  intros [Hi Ha [HK HKb] Hin Hb Hw Ht Hm Hav] Hbox Hl. unfold PostOffice_Receive. pose proof (lookupZ_Some_range _ _ _ Hbox) as Hx. cbv zeta.
  rewrite HK, (proj2 (Z.leb_le 0 x)), (proj2 (Z.ltb_lt x K)), Hbox by lia. cbn [andb ASSERT deref mbind outcome_bind].
  destruct box as [|m r]; [done|]. assert (HF : Forall (good_mail a K) (m :: r)) by (rewrite Forall_forall in Hm; apply Hm; by eapply lookupZ_elem_of).
  apply Forall_cons in HF as [[G1 G2 G3 G4 G5] _]. unfold MailBox_Get. cbn [SynchList_Remove mbind outcome_bind].
  rewrite fetch_ok by lia. cbn [mbind outcome_bind]. rewrite slice_all by done. rewrite store_ok by lia. cbn [mbind outcome_bind].
  rewrite (proj2 (Z.leb_le _ MaxMailSize)) by lia. cbn [ASSERT mbind outcome_bind]. do 2 eexists. split; [reflexivity|]. by apply slice_splice_n; [lia|lia|].
Qed.

(** ** The network *)

(** What the trace says of box [x] of a machine. *)
Definition accounted (a : Z) (w : PostOffice) (tr : list net_event) : Prop :=
  forall x box, (boxes w).[x] = Some box -> sent_to a x tr = received_at a x tr ++ box ++ for_box x (in_transit w).

Definition net_inv (K : Z) (N : Net) (tr : list net_event) : Prop :=
  forall a s, N !! a = Some s -> int32 a /\ office_ok a K 0 (world s) /\ accounted a (world s) tr.

Lemma sent_snoc a x tr e : sent_to a x (tr ++ [e]) = sent_to a x tr ++ sent_to a x [e].
Proof. unfold sent_to. by rewrite omap_app. Qed.
Lemma received_snoc a x tr e : received_at a x (tr ++ [e]) = received_at a x tr ++ received_at a x [e].
Proof. unfold received_at. by rewrite omap_app. Qed.
Lemma for_box_app x l l' : for_box x (l ++ l') = for_box x l ++ for_box x l'.
Proof. apply filter_app. Qed.

(** A step of one machine that does not show in the trace. *)
Lemma inv_stays K N tr a s s' e :
  net_inv K N tr -> N !! a = Some s -> stays a K 0 (boxes (world s)) (in_transit (world s)) (world s') ->
  (forall b x, sent_to b x [e] = []) -> (forall b x, received_at b x [e] = []) -> net_inv K (<[a := s']> N) (tr ++ [e]).
Proof.
  intros HI Hs (Ho & Hb & Ht) HS HR b r Hr. unfold accounted. setoid_rewrite sent_snoc. setoid_rewrite received_snoc.
  setoid_rewrite HS. setoid_rewrite HR. setoid_rewrite app_nil_r.
  destruct (decide (a = b)) as [<-|Hne].
  - rewrite lookup_insert_eq in Hr. injection Hr as <-. destruct (HI a s Hs) as (Ha & _ & Hacc). rewrite Ht. unfold accounted in Hacc. rewrite <- Hb in Hacc. done.
  - rewrite lookup_insert_ne in Hr by done. by destruct (HI b r Hr) as (? & ? & ?).
Qed.

(** The trace after a step of machine [a], seen from the others. *)
Lemma inv_insert K N tr a s' e :
  net_inv K N tr -> int32 a -> office_ok a K 0 (world s') -> accounted a (world s') (tr ++ [e]) ->
  (forall b x, b <> a -> sent_to b x [e] = [] /\ received_at b x [e] = []) -> net_inv K (<[a := s']> N) (tr ++ [e]).
Proof.
  intros HI Ha Ho Hacc Hother b r Hr. destruct (decide (a = b)) as [<-|Hne].
  - rewrite lookup_insert_eq in Hr. by injection Hr as <-.
  - rewrite lookup_insert_ne in Hr by done. destruct (HI b r Hr) as (Hb & Hro & Hracc). split; [done|]. split; [done|].
    intros x box Hbox. rewrite sent_snoc, received_snoc. destruct (Hother b x) as [-> ->]; [done|]. rewrite !app_nil_r. by apply Hracc.
Qed.

Lemma inv_deliver K N tr a s s' :
  net_inv K N tr -> N !! a = Some s -> PostOffice_PostalDelivery s = Ok (Some s') -> net_inv K (<[a := s']> N) (tr ++ [Quiet]).
Proof.
  intros HI Hs H. destruct (HI a s Hs) as (Ha & Ho & Hacc). unfold PostOffice_PostalDelivery in H. apply bind_Ok_inv in H as (r & HP & H).
  destruct r as [s1|]; [|done]. apply bind_Ok_inv in H as (s2 & HD & H). injection H as <-.
  apply (take_unit a K (boxes (world s)) (in_transit (world s))) in HP as (Ho1 & Hb1 & Ht1); [|by split].
  destruct (deliver_ok a K s1 Ho1) as (m & ms & box & s3 & T & B & E & (Ho3 & Hb3 & Ht3)). rewrite HD in E. injection E as <-.
  apply inv_insert; [done..| |done]. intros x bx Hx. rewrite sent_snoc, received_snoc. cbn [sent_to received_at omap list_omap]. rewrite !app_nil_r, Ht3.
  rewrite Hb3, Hb1 in Hx. rewrite Hb1 in B. rewrite T in Ht1. unfold accounted in Hacc. rewrite <- Ht1 in Hacc.
  rewrite lookupZ_insertZ in Hx. unfold for_box in *. setoid_rewrite filter_cons in Hacc.
  destruct (Z.eqb_spec (mail_to (mailHdr m)) x) as [Em|Em].
  - apply lookupZ_Some_range in B as HB. case_if; [|lia]. injection Hx as <-. rewrite (Hacc x box) by congruence. rewrite decide_True by done. by rewrite <- app_assoc.
  - case_if; [lia|]. rewrite (Hacc x bx Hx). by rewrite decide_False.
Qed.

Lemma inv_send K N tr a s s' pkt mail msg storage wire random d r :
  net_inv K N tr -> N !! a = Some s -> header_ok pkt mail -> lenZ storage = MaxPacketSize -> lenZ wire = MaxWireSize ->
  PostOffice_Send s pkt mail msg storage wire random = Ok (Some d, s') -> <[a := s']> N !! pkt_to pkt = Some r ->
  net_inv K (<[pkt_to pkt := arrive r d]> (<[a := s']> N)) (tr ++ [Sent (mail_of a pkt mail msg) false]).
Proof.
  intros HI Hs Hh Hst Hw HS Hr. destruct (HI a s Hs) as (Ha & Ho & Hacc).
  destruct (PostOffice_Send_inv a K 0 s pkt mail msg storage wire random (Some d) s' Ha Ho Hh Hst Hw HS) as (W & G & D). destruct (D d eq_refl) as [Hd Hdm].
  assert (HI' : net_inv K (<[a := s']> N) tr).
  { intros b q Hq. destruct (decide (a = b)) as [<-|Hne]; [rewrite lookup_insert_eq in Hq; injection Hq as <-; by rewrite W|rewrite lookup_insert_ne in Hq by done; by apply HI]. }
  destruct (HI' _ _ Hr) as (Hb & [Hi Haddr HK Hin Hbuf Hsw Ht Hm Hav] & Hracc).
  assert (HT : in_transit (world (arrive r d)) = in_transit (world r) ++ [mail_of a pkt mail msg]).
  { unfold in_transit, arrive. cbn [world set_office set_network network set_sock inHdr inbox sock]. rewrite map_app, app_assoc. cbn [map]. by rewrite Hdm. }
  apply inv_insert; [done..| | |].
  - split; try done.
    + apply Forall_app. split; [done|by apply Forall_singleton].
    + rewrite HT. apply Forall_app. split; [done|by apply Forall_singleton].
  - intros x box Hx. rewrite sent_snoc, received_snoc, HT, for_box_app. cbn [received_at omap list_omap]. rewrite app_nil_r, (Hracc x box Hx), <- !app_assoc. do 3 f_equal.
    unfold sent_to, for_box. cbn [omap list_omap mail_of pktHdr pkt_to mailHdr]. rewrite Z.eqb_refl, filter_cons. cbn [andb mailHdr].
    destruct (Z.eqb_spec (mail_to mail) x); [by rewrite decide_True by done|by rewrite decide_False by done].
  - intros b x Hne. split; [|done]. unfold sent_to. cbn [omap list_omap mail_of pktHdr pkt_to]. rewrite (proj2 (Z.eqb_neq (pkt_to pkt) b)) by congruence. done.
Qed.

Lemma inv_receive K N tr a s s' x buffer buffer' pkt mail :
  net_inv K N tr -> N !! a = Some s -> PostOffice_Receive s x buffer = Ok (pkt, mail, buffer', s') ->
  net_inv K (<[a := s']> N) (tr ++ [Received a x (mkMail pkt mail (slice buffer' 0 (mail_length mail)))]).
Proof.
  intros HI Hs H. destruct (HI a s Hs) as (Ha & Ho & Hacc).
  destruct (Receive_inv a K 0 s x buffer pkt mail buffer' s' Ho H) as (m & rest & Hbox & <- & (Ho' & Hb' & Ht')).
  apply inv_insert; [done..| |].
  - intros y box Hy. rewrite sent_snoc, received_snoc, Ht'. rewrite Hb', lookupZ_insertZ in Hy. cbn [sent_to omap list_omap]. rewrite app_nil_r.
    unfold received_at at 2. cbn [omap list_omap]. rewrite Z.eqb_refl. cbn [andb]. destruct (Z.eqb_spec x y) as [<-|Hne].
    + apply lookupZ_Some_range in Hbox as HB. case_if; [|lia]. injection Hy as <-. rewrite (Hacc x (m :: rest) Hbox). by rewrite <- app_assoc.
    + case_if; [lia|]. rewrite app_nil_r. by apply Hacc.
  - intros b y Hne. split; [done|]. unfold received_at. cbn [omap list_omap]. rewrite (proj2 (Z.eqb_neq a b)) by congruence. done.
Qed.

Lemma inv_step K N tr e N' : net_inv K N tr -> net_step N e N' -> net_inv K N' (tr ++ [e]).
Proof.
  intros HI H. destruct H as [a s s' Hs H|a s s' Hs H|a s s' Hs H|a s s' Hs H|a s s' pkt mail msg st w rnd Hs Hh Hst Hw H|a s s' pkt mail msg st w rnd d r Hs Hh Hst Hw H Hr|a s s' x bf bf' pkt mail Hs H].
  - apply (inv_stays _ _ _ _ s); try done. apply (OneTick_keeps _ (call_stays a K 0 (boxes (world s)) (in_transit (world s)))) in H; [done|]. by destruct (HI a s Hs) as (_ & ? & _).
  - apply (inv_stays _ _ _ _ s); try done. apply (idle_keeps _ (call_stays a K 0 (boxes (world s)) (in_transit (world s)))) in H; [done|]. by destruct (HI a s Hs) as (_ & ? & _).
  - by eapply inv_deliver.
  - apply (inv_stays _ _ _ _ s); try done. apply (goes_on_stays a K 0 (boxes (world s)) (in_transit (world s))) in H; [done|]. by destruct (HI a s Hs) as (_ & ? & _).
  - apply (inv_stays _ _ _ _ s); try done. destruct (HI a s Hs) as (Ha & Ho & _).
    destruct (PostOffice_Send_inv a K 0 s pkt mail msg st w rnd None s' Ha Ho Hh Hst Hw H) as (W & _). rewrite W. by split.
  - by eapply inv_send.
  - by eapply inv_receive.
Qed.

Lemma inv_boot K N : 0 <= K -> booted K N -> net_inv K N [].
Proof.
  intros HK HB a s Hs. destruct (HB a s Hs) as (s0 & rel & storage & buffer & Ha & Hst & Hbf & H). split; [done|]. unfold PostOffice_new in H.
  unfold Interrupt_Schedule in H. cbv zeta in H. apply bind_Ok_inv in H as (u & _ & H). injection H as <-.
  cbn [world set_pending set_interrupt set_office]. split.
  - split; cbn [network ident netAddr boxes numBoxes inbox delivery_buffer sock messageAvailable inHdr pkt_length]; try done.
    + split; [done|]. unfold lenZ. rewrite length_replicate. lia.
    + by apply Forall_replicate.
    + by left.
  - intros x box Hx. cbn [boxes] in Hx. apply lookupZ_elem_of in Hx. apply elem_of_replicate in Hx as [-> _]. done.
Qed.

Lemma inv_steps K N tr N' : net_inv K N [] -> net_steps N tr N' -> net_inv K N' tr.
Proof. intros HI. induction 1 as [|tr N1 e N2 _ IH Hst]; [done|]. by eapply inv_step. Qed.

(** C13: the post office is a set of queues.  Along every interleaving of the machines, the
    mails sent to a box and not lost by the network are, in order and unchanged, those received
    from it, then those in it, then those on their way: nothing is duplicated, reordered,
    damaged or delivered to another box, and the sender's address is the true one.  A
    [Receive] gives the first mail of the box, and fails an assertion when the box is empty.  No
    interrupt handler and no delivery fails: a poll announces the first mail that waits, and
    the worker then puts it behind the others in its box. *)
Theorem mail_fifo K N0 tr N a s :
  0 <= K -> booted K N0 -> net_steps N0 tr N -> N !! a = Some s ->
  (forall x, 0 <= x < K -> exists box, (boxes (world s)).[x] = Some box /\
    sent_to a x tr = received_at a x tr ++ box ++ for_box x (in_transit (world s)) /\
    forall buffer, MaxMailSize <= lenZ buffer ->
      match box with
      | [] => PostOffice_Receive s x buffer = AssertFail
      | m :: rest => exists buffer' s', PostOffice_Receive s x buffer = Ok (pktHdr m, mailHdr m, buffer', s') /\
          slice buffer' 0 (mail_length (mailHdr m)) = data m
      end) /\
  (forall h arg, exists s', net_call h arg s = Ok s' /\ in_transit (world s') = in_transit (world s) /\
    (h = NetworkReadPoll -> in_transit (world s) <> [] -> messageAvailable (world s') = 1)) /\
  (messageAvailable (world s) <> 0 ->
    exists m ms box s', in_transit (world s) = m :: ms /\ (boxes (world s)).[mail_to (mailHdr m)] = Some box /\
      deliver_mail (set_office s (set_available (world s) (messageAvailable (world s) - 1))) = Ok s' /\
      in_transit (world s') = ms /\ boxes (world s') = (boxes (world s)).[mail_to (mailHdr m) <- box ++ [m]]).
Proof.
  intros HK HB Hst Hs. destruct (inv_steps K N0 tr N (inv_boot K N0 HK HB) Hst a s Hs) as (Ha & Ho & Hacc).
  split; [|split].
  - intros x Hx. destruct (oo_boxes _ _ _ _ Ho) as [_ HL]. destruct (lookupZ_range (boxes (world s)) x ltac:(lia)) as [box Hbox].
    exists box. split; [done|]. split; [by apply Hacc|]. intros buffer Hl. by apply (Receive_ok a K 0 s x box buffer).
  - intros h z. destruct h; cbn [net_call].
    + destruct (CheckPktAvail_ok a K 0 s Ho) as (s' & E & Ho' & _ & T & A). exists s'. split; [done|]. split; [done|]. intros _ Hne.
      destruct (oo_available _ _ _ _ Ho) as [(H0 & _)|[H1 Hp]]; [apply A; [lia|done]|].
      destruct (oo_available _ _ _ _ Ho') as [(H0 & _ & Hp')|[H1' _]]; [|lia].
      unfold Network_CheckPktAvail in E. destruct (Schedule_world s NetworkReadPoll 0 NetworkTime NetworkRecvInt ltac:(done)) as (s1 & E1 & W1).
      rewrite E1 in E. cbn [mbind outcome_bind] in E. rewrite W1, (proj2 (Z.eqb_neq _ _) Hp) in E. cbn [negb] in E. injection E as <-. rewrite W1 in Hp'. done.
    + destruct (SendDone_ok a K 0 s Ho) as (s' & E & _ & _ & T). exists s'. done.
  - intros Hne. destruct (oo_available _ _ _ _ Ho) as [[? _]|[Hav Hp]]; [done|].
    destruct (deliver_ok a K (set_office s (set_available (world s) (messageAvailable (world s) - 1)))) as (m & ms & box & s' & T & B & E & (_ & B' & T')).
    + destruct Ho. split; try done. right. cbn [world set_office set_available messageAvailable network]. split; [lia|done].
    + by exists m, ms, box, s'.
Qed.

(** ** An example: two machines *)

Inductive net_op :=
| OpTick (a : Z) | OpIdle (a : Z) | OpDeliver (a : Z) | OpGoOn (a : Z)
| OpSend (a : Z) (pkt : PacketHeader) (mail : MailHeader) (msg : list Z) (random : Z)
| OpReceive (a box : Z).

Definition zeros (n : Z) : list Z := replicate (Z.to_nat n) 0.
Definition header_okb (pkt : PacketHeader) (mail : MailHeader) : bool :=
  let i32 x := (int32_min <=? x) && (x <=? int32_max) in
  i32 (pkt_to pkt) && i32 (mail_to mail) && i32 (mail_from mail) && (0 <=? mail_length mail) && (mail_length mail <? two32).

(** The steps as a function. *)
Definition do_net (N : Net) (op : net_op) : option (net_event * Net) :=
  let on a (f : NSys -> outcome NSys) := s ← N !! a; match f s with Ok s' => Some (Quiet, <[a := s']> N) | _ => None end in
  let some f (s : NSys) := r ← f s; match r with Some s' => Ok s' | None => Undefined end in
  match op with
  | OpTick a => on a (Interrupt_OneTick net_call (fun s => Ok s))
  | OpIdle a => on a office_idle
  | OpDeliver a => on a (some PostOffice_PostalDelivery)
  | OpGoOn a => on a (some Send_ends)
  | OpSend a pkt mail msg random =>
      s ← N !! a;
      if header_okb pkt mail then
        match PostOffice_Send s pkt mail msg (zeros MaxPacketSize) (zeros MaxWireSize) random with
        | Ok (None, s') => Some (Sent (mail_of a pkt mail msg) true, <[a := s']> N)
        | Ok (Some d, s') =>
            r ← <[a := s']> N !! pkt_to pkt;
            Some (Sent (mail_of a pkt mail msg) false, <[pkt_to pkt := arrive r d]> (<[a := s']> N))
        | _ => None
        end
      else None
  | OpReceive a box =>
      s ← N !! a;
      match PostOffice_Receive s box (zeros MaxMailSize) with
      | Ok (pkt, mail, buffer, s') => Some (Received a box (mkMail pkt mail (slice buffer 0 (mail_length mail))), <[a := s']> N)
      | _ => None
      end
  end.

Lemma header_okb_ok pkt mail : header_okb pkt mail = true -> header_ok pkt mail.
Proof. unfold header_okb, header_ok. rewrite !andb_true_iff, !Z.leb_le, Z.ltb_lt. unfold int32, uint32. lia. Qed.

Lemma do_net_sound N op e N' : do_net N op = Some (e, N') -> net_step N e N'.
Proof.
  destruct op as [a|a|a|a|a pkt mail msg random|a box]; cbn [do_net]; destruct (N !! a) as [s|] eqn:Hs; try done; cbn [mbind option_bind].
  - destruct (Interrupt_OneTick _ _ s) eqn:E; try done. intros [= <- <-]. by eapply step_tick.
  - destruct (office_idle s) eqn:E; try done. intros [= <- <-]. by eapply step_idle.
  - destruct (PostOffice_PostalDelivery s) as [[s'|]| | |] eqn:E; try done. cbn [mbind outcome_bind]. intros [= <- <-]. by eapply step_deliver.
  - destruct (Send_ends s) as [[s'|]| | |] eqn:E; try done. cbn [mbind outcome_bind]. intros [= <- <-]. by eapply step_goes_on.
  - destruct (header_okb pkt mail) eqn:Hh; [|done]. apply header_okb_ok in Hh. destruct (PostOffice_Send _ _ _ _ _ _ _) as [[[d|] s']| | |] eqn:E; try done.
    + destruct (_ !! pkt_to pkt) as [r|] eqn:Hr; [|done]. cbn [mbind option_bind]. intros [= <- <-]. eapply step_send; [exact Hs|exact Hh| | |exact E|exact Hr]; reflexivity.
    + intros [= <- <-]. eapply step_lost; [exact Hs|exact Hh| | |exact E]; reflexivity.
  - destruct (PostOffice_Receive _ _ _) as [[[[pkt mail] bf] s']| | |] eqn:E; try done. intros [= <- <-]. by eapply step_receive.
Qed.

Fixpoint run_net (ops : list net_op) (N : Net) : option (list net_event * Net) :=
  match ops with
  | [] => Some ([], N)
  | op :: ops => '(e, N1) ← do_net N op; '(tr, N2) ← run_net ops N1; Some (e :: tr, N2)
  end.

Lemma steps_cons N e N1 tr N2 : net_step N e N1 -> net_steps N1 tr N2 -> net_steps N (e :: tr) N2.
Proof.
  intros H. induction 1 as [|tr N2 e' N3 _ IH Hst]; [exact (net_snoc _ [] _ _ _ (net_refl _) H)|].
  exact (net_snoc _ (e :: tr) _ _ _ IH Hst).
Qed.

Lemma run_net_sound ops N tr N' : run_net ops N = Some (tr, N') -> net_steps N tr N'.
Proof.
  revert N tr. induction ops as [|op ops IH]; intros N tr H; cbn [run_net] in H; [injection H as <- <-; constructor|].
  destruct (do_net N op) as [[e N1]|] eqn:E; [|done]. cbn [mbind option_bind] in H. destruct (run_net ops N1) as [[tr1 N2]|] eqn:E2; [|done].
  injection H as <- <-. eapply steps_cons; [by eapply do_net_sound|by apply IH].
Qed.

Definition blank_office : PostOffice := mkPostOffice (mkNetwork 0 1 false (mkPacketHeader 0 0 0) [] []) 0 [] 0 0 0 [].
Definition new_machine : NSys := mkSys (mkInterrupt IntOn [] false false SystemMode) Statistics_new None blank_office.
Definition two_machines : Net :=
  match PostOffice_new new_machine 0 1 10 (zeros MaxPacketSize) (zeros MaxPacketSize),
        PostOffice_new new_machine 1 1 10 (zeros MaxPacketSize) (zeros MaxPacketSize) with
  | Ok s0, Ok s1 => {[0 := s0; 1 := s1]}
  | _, _ => ∅
  end.
Lemma two_booted : booted 10 two_machines.
Proof.
  intros a s Hs. exists new_machine, 1%Q, (zeros MaxPacketSize), (zeros MaxPacketSize). revert Hs. unfold two_machines.
  destruct (PostOffice_new _ 0 _ _ _ _) as [s0| | |] eqn:E0; [|intros Hs; by rewrite lookup_empty in Hs..]. destruct (PostOffice_new _ 1 _ _ _ _) as [s1| | |] eqn:E1; [|intros Hs; by rewrite lookup_empty in Hs..].
  intros Hs. apply lookup_insert_Some in Hs as [[<- <-]|[_ Hs]]; [by repeat split|]. apply lookup_singleton_Some in Hs as [<- <-].
  by repeat split.
Qed.

(** Machine 0 sends a mail to box 3 of machine 1, where it is delivered and received, and
    a second one, which waits at the socket. *)
Definition mail_run : list net_op :=
  [OpSend 0 (mkPacketHeader 1 0 0) (mkMailHeader 3 4 2) [104; 105] 0; OpIdle 0; OpGoOn 0; OpIdle 1; OpDeliver 1;
   OpSend 0 (mkPacketHeader 1 0 0) (mkMailHeader 3 4 1) [33] 7; OpReceive 1 3; OpIdle 1].

Lemma mail_fifo_witness :
  exists tr N s box, run_net mail_run two_machines = Some (tr, N) /\ N !! 1 = Some s /\ (boxes (world s)).[3] = Some box /\
    sent_to 1 3 tr = received_at 1 3 tr ++ box ++ for_box 3 (in_transit (world s)) /\ length (sent_to 1 3 tr) = 2%nat /\
    exists s', deliver_mail (set_office s (set_available (world s) (messageAvailable (world s) - 1))) = Ok s'.
Proof.
  assert (T : match run_net mail_run two_machines with
    | Some (tr, N) => match N !! 1 with Some s => (length (sent_to 1 3 tr) =? 2)%nat && (messageAvailable (world s) =? 1) | None => false end
    | None => false end = true) by (vm_compute; reflexivity).
  destruct (run_net mail_run two_machines) as [[tr N]|] eqn:E; [|discriminate T]. destruct (N !! 1) as [s|] eqn:Es; [|discriminate T].
  apply andb_true_iff in T as [T1 T2]. apply Nat.eqb_eq in T1. apply Z.eqb_eq in T2.
  destruct (mail_fifo 10 two_machines tr N 1 s ltac:(lia) two_booted (run_net_sound _ _ _ _ E) Es) as (HB & _ & HD).
  destruct (HB 3 ltac:(lia)) as (box & Hbox & Hq & _). destruct (HD ltac:(lia)) as (m & ms & b & s' & _ & _ & Hd & _).
  exists tr, N, s, box. split; [reflexivity|]. split; [exact Es|]. split; [exact Hbox|]. split; [exact Hq|]. split; [exact T1|]. by exists s'.
Defined.
