(* ===== verification/MailTest.v ===== *)
(** * The mail test (network/nettest.cc)

    [MailTest] on two machines that send to each other, above [Network].  A program is the
    point it has reached, its headers and its buffer; [MailTest_step] does the call at that
    point, with [Ok None] when it must wait, and [mail_test_step] interleaves the two
    programs with the clocks and the workers of their machines.  A machine that has halted
    takes no more steps, and sending to it fails the assertion of [SendToSocket]. *)

From S2P Require Import Prelude Int32 LinkedList Machine Interrupts Directory Network.
Open Scope Z_scope.

(** ** The program *)

(** "Hello there!" and "Got it!" *)
Definition hello_text : list Z := [72; 101; 108; 108; 111; 32; 116; 104; 101; 114; 101; 33].
Definition ack_text : list Z := [71; 111; 116; 32; 105; 116; 33].

Inductive mail_point := SendHello | HelloLeaves | GetHello | SendAck | AckLeaves | GetAck | Stopped.

(** The local variables; [printed] has the string, the machine and the box of each line. *)
Record MailTester := mkTester {
  at_point : mail_point;
  outPktHdr : PacketHeader;
  outMailHdr : MailHeader;
  buffer : list Z;
  printed : list (list Z * Z * Z) }.

Definition move_to (t : MailTester) (p : mail_point) : MailTester := mkTester p (outPktHdr t) (outMailHdr t) (buffer t) (printed t).

(** The start of [MailTest]; [pkt] is the header before [outPktHdr.to] is set, [buf] the
    array [buffer]. *)
Definition MailTest (farAddr : Z) (pkt : PacketHeader) (buf : list Z) : MailTester :=
  mkTester SendHello (mkPacketHeader farAddr (pkt_from pkt) (pkt_length pkt)) (mkMailHeader 0 1 (lenZ hello_text + 1)) buf [].

Abbreviation tester_move := (net_event * Net * MailTester)%type.

(** [postOffice->Send(outPktHdr, outMailHdr, msg)] up to its [P] *)
Definition tester_send (running : Z -> bool) (N : Net) (a : Z) (s : NSys) (t : MailTester) (msg storage wire : list Z) (random : Z)
    (next : mail_point) : outcome (option tester_move) :=
  let to := pkt_to (outPktHdr t) in
  let sent := Sent (mail_of a (outPktHdr t) (outMailHdr t) msg) in
  '(o, s') ← PostOffice_Send s (outPktHdr t) (outMailHdr t) msg storage wire random;
  match o with
  | None => Ok (Some (sent true, <[a := s']> N, move_to t next))
  | Some datagram =>
      _ ← ASSERT (running to);
      match <[a := s']> N !! to with
      | Some r => Ok (Some (sent false, <[to := arrive r datagram]> (<[a := s']> N), move_to t next))
      | None => AssertFail
      end
  end.

(** [messageSent->P()] of [PostOffice::Send] *)
Definition tester_waits (N : Net) (a : Z) (s : NSys) (t : MailTester) (next : mail_point) : outcome (option tester_move) :=
  r ← Send_ends s;
  match r with Some s' => Ok (Some (Quiet, <[a := s']> N, move_to t next)) | None => Ok None end.

(** [postOffice->Receive(box, &inPktHdr, &inMailHdr, buffer)] with the [printf] behind it and
    the assignments to the headers of the answer *)
Definition tester_receive (N : Net) (a : Z) (s : NSys) (t : MailTester) (box : Z) (next : mail_point)
    (answer : PacketHeader -> MailHeader -> PacketHeader * MailHeader) : outcome (option tester_move) :=
  '(inPktHdr, inMailHdr, buf, s') ← PostOffice_Receive s box (buffer t);
  let '(pkt, mail) := answer inPktHdr inMailHdr in
  Ok (Some (Received a box (mkMail inPktHdr inMailHdr (slice buf 0 (mail_length inMailHdr))), <[a := s']> N,
            mkTester next pkt mail buf (printed t ++ [(cstr buf, pkt_from inPktHdr, mail_from inMailHdr)]))).

(** [MailTest]: what the program does at its point *)
Definition MailTest_step (running : Z -> bool) (N : Net) (a : Z) (t : MailTester) (storage wire : list Z) (random : Z) :
    outcome (option tester_move) :=
  s ← deref (N !! a);
  match at_point t with
  | SendHello => tester_send running N a s t (hello_text ++ [0]) storage wire random HelloLeaves
  | HelloLeaves => tester_waits N a s t GetHello
  | GetHello =>
      tester_receive N a s t 0 SendAck (fun inPktHdr inMailHdr =>
        (mkPacketHeader (pkt_from inPktHdr) (pkt_from (outPktHdr t)) (pkt_length (outPktHdr t)),
         mkMailHeader (mail_from inMailHdr) (mail_from (outMailHdr t)) (lenZ ack_text + 1)))
  | SendAck => tester_send running N a s t (ack_text ++ [0]) storage wire random AckLeaves
  | AckLeaves => tester_waits N a s t GetAck
  | GetAck => tester_receive N a s t 1 Stopped (fun _ _ => (outPktHdr t, outMailHdr t))
  | Stopped => Ok None
  end.

(** ** Two machines *)

Record MailNet := mkMailNet { net : Net; tests : gmap Z MailTester }.

Definition stopped (t : MailTester) : bool := match at_point t with Stopped => true | _ => false end.
Definition running (T : gmap Z MailTester) (a : Z) : bool := match T !! a with Some t => negb (stopped t) | None => false end.

Inductive mail_test_step (st : MailNet) : net_event -> MailNet -> Prop :=
| mt_machine a op e N' : running (tests st) a = true -> op ∈ [OpTick a; OpIdle a; OpDeliver a] -> do_net (net st) op = Some (e, N') ->
    mail_test_step st e (mkMailNet N' (tests st))
| mt_program a t storage wire random e N' t' : tests st !! a = Some t -> lenZ storage = MaxPacketSize -> lenZ wire = MaxWireSize ->
    MailTest_step (running (tests st)) (net st) a t storage wire random = Ok (Some (e, N', t')) ->
    mail_test_step st e (mkMailNet N' (<[a := t']> (tests st))).

Inductive mail_test_steps (st : MailNet) : list net_event -> MailNet -> Prop :=
| mt_refl : mail_test_steps st [] st
| mt_snoc tr st1 e st2 : mail_test_steps st tr st1 -> mail_test_step st1 e st2 -> mail_test_steps st (tr ++ [e]) st2.

(** The machines [A] and [B] have just started, each with [MailTest] for the other. *)
Record mail_test_starts (A B : Z) (st : MailNet) : Prop := {
  ms_ne : A <> B;
  ms_boot : booted 10 (net st);
  ms_net : is_Some (net st !! A) /\ is_Some (net st !! B);
  ms_tests : exists pkt buf pkt' buf', lenZ buf = MaxMailSize /\ lenZ buf' = MaxMailSize /\
    tests st = {[A := MailTest B pkt buf; B := MailTest A pkt' buf']} }.

(** ** The invariant *)

Definition hello_mail (x y : Z) : Mail := mkMail (mkPacketHeader y x 25) (mkMailHeader 0 1 13) (hello_text ++ [0]).
Definition ack_mail (x y : Z) : Mail := mkMail (mkPacketHeader y x 20) (mkMailHeader 1 1 8) (ack_text ++ [0]).

(** How many of the six calls before its end a program has made. *)
Definition rank (p : mail_point) : Z :=
  match p with SendHello => 0 | HelloLeaves => 1 | GetHello => 2 | SendAck => 3 | AckLeaves => 4 | GetAck => 5 | Stopped => 6 end.

(** The lines that the program at [x] prints, [y] being the other machine. *)
Definition lines (y : Z) : list (list Z * Z * Z) := [(hello_text, y, 1); (ack_text, y, 1)].

(** The program at [x] and its part of the trace: what it has received and what it has sent. *)
Record tester_ok (x y : Z) (t : MailTester) (tr : list net_event) : Prop := {
  to_buffer : lenZ (buffer t) = MaxMailSize;
  to_far : pkt_to (outPktHdr t) = y;
  to_mail : outMailHdr t = if rank (at_point t) <=? 2 then mkMailHeader 0 1 13 else mkMailHeader 1 1 8;
  to_printed : printed t = take (if rank (at_point t) <=? 2 then 0 else if rank (at_point t) <=? 5 then 1 else 2) (lines y);
  to_hello : received_at x 0 tr = if rank (at_point t) <=? 2 then [] else [hello_mail y x];
  to_ack : received_at x 1 tr = if rank (at_point t) <=? 5 then [] else [ack_mail y x];
  to_sent : sent_to y 0 tr = [] \/ (1 <= rank (at_point t) /\ sent_to y 0 tr = [hello_mail x y]);
  to_answered : sent_to y 1 tr = [] \/ (4 <= rank (at_point t) /\ sent_to y 1 tr = [ack_mail x y]) }.

Definition idle_line (N : Net) : Prop := forall a s, N !! a = Some s -> sendBusy (network (world s)) = false.

Record mail_inv (A B : Z) (st : MailNet) (tr : list net_event) : Prop := {
  mi_net : net_inv 10 (net st) tr;
  mi_idle : idle_line (net st);
  mi_up : is_Some (net st !! A) /\ is_Some (net st !! B);
  mi_dom : dom (tests st) = {[A; B]};
  mi_tests : forall x y t, (x = A /\ y = B) \/ (x = B /\ y = A) -> tests st !! x = Some t -> tester_ok x y t tr }.

(** An event that is not of the program at [x] leaves its part of the trace alone. *)
Lemma tester_other x y t tr e :
  (forall k, sent_to y k [e] = []) -> (forall k, received_at x k [e] = []) -> tester_ok x y t tr -> tester_ok x y t (tr ++ [e]).
Proof. intros HS HR []. split; rewrite ?sent_snoc, ?received_snoc, ?HS, ?HR, ?app_nil_r; done. Qed.

(** *** [sendBusy] is never set *)

Lemma call_idle h z (s s' : NSys) : net_call h z s = Ok s' -> sendBusy (network (world s)) = false -> sendBusy (network (world s')) = false.
Proof.
  destruct h; cbn [net_call].
  - unfold Network_CheckPktAvail. destruct (Schedule_world s NetworkReadPoll 0 NetworkTime NetworkRecvInt ltac:(done)) as (s1 & -> & W).
    cbn [mbind outcome_bind]. rewrite W. case_if; [intros [= <-]; by rewrite W|]. destruct (sock (network (world s))); [intros [= <-]; by rewrite W|].
    intros H Hb. apply bind_Ok_inv in H as (b & _ & H). cbv zeta in H. apply bind_Ok_inv in H as (u & _ & H). apply bind_Ok_inv in H as (bs & _ & H).
    apply bind_Ok_inv in H as (ib & _ & H). injection H as <-. done.
  - intros [= <-] _. done.
Qed.

Lemma P_idle value set s r :
  (forall w v, network (set w v) = network w) -> office_P value set s = Ok (Some r) ->
  sendBusy (network (world s)) = false -> sendBusy (network (world r)) = false.
Proof.
  intros Hset H Hb. unfold office_P in H. apply bind_Ok_inv in H as ([l s1] & E1 & H). case_if; [done|]. apply bind_Ok_inv in H as ([l2 s2] & E2 & H). injection H as <-.
  apply (SetLevel_keeps (fun w => sendBusy (network w) = false) call_idle) in E1; [|done]. apply (SetLevel_keeps (fun w => sendBusy (network w) = false) call_idle) in E2; [done|].
  cbn [world set_office]. by rewrite Hset.
Qed.

Lemma deliver_idle s s' : deliver_mail s = Ok s' -> sendBusy (network (world s)) = false -> sendBusy (network (world s')) = false.
Proof.
  intros H Hb. unfold deliver_mail in H. apply bind_Ok_inv in H as ([[p b] s1] & E & H). cbv zeta in H. inv_ok.
  unfold Network_Receive in E. cbv zeta in E. case_if; inv_ok; done.
Qed.

Lemma idle_insert N a s : idle_line N -> sendBusy (network (world s)) = false -> idle_line (<[a := s]> N).
Proof. intros HI Hb b r Hr. apply lookup_insert_Some in Hr as [[_ <-]|[_ Hr]]; [done|by eapply HI]. Qed.

(** A step of the hardware or of the worker. *)
Lemma machine_step N a op e N' :
  op ∈ [OpTick a; OpIdle a; OpDeliver a] -> do_net N op = Some (e, N') -> idle_line N ->
  e = Quiet /\ idle_line N' /\ exists s', N' = <[a := s']> N.
Proof.
  intros Hop H HI. rewrite !elem_of_cons, elem_of_nil in Hop.
  destruct Hop as [->|[->|[->|[]]]]; cbn [do_net] in H; destruct (N !! a) as [s|] eqn:Hs; try done; cbn [mbind option_bind] in H.
  - destruct (Interrupt_OneTick _ _ s) as [s'| | |] eqn:E; try done. injection H as <- <-. split; [done|]. split; [|by exists s'].
    apply idle_insert; [done|]. apply (OneTick_keeps (fun w => sendBusy (network w) = false) call_idle) in E; [done|by eapply HI].
  - destruct (office_idle s) as [s'| | |] eqn:E; try done. injection H as <- <-. split; [done|]. split; [|by exists s'].
    apply idle_insert; [done|]. apply (idle_keeps (fun w => sendBusy (network w) = false) call_idle) in E; [done|by eapply HI].
  - destruct (PostOffice_PostalDelivery s) as [[s'|]| | |] eqn:E; try done. cbn [mbind outcome_bind] in H. injection H as <- <-. split; [done|]. split; [|by exists s'].
    apply idle_insert; [done|]. unfold PostOffice_PostalDelivery in E. apply bind_Ok_inv in E as ([s1|] & E1 & E); [|done]. apply bind_Ok_inv in E as (s2 & E2 & E). injection E as <-.
    eapply deliver_idle; [exact E2|]. eapply P_idle; [|exact E1|by eapply HI]. done.
Qed.

(** *** The calls of the program *)

Definition grows (N N' : Net) : Prop := forall a, is_Some (N !! a) -> is_Some (N' !! a).
Lemma grows_insert N a s : grows N (<[a := s]> N).
Proof. intros b Hb. destruct (decide (a = b)) as [<-|Hne]; [by rewrite lookup_insert_eq|by rewrite lookup_insert_ne]. Qed.
Lemma grows_trans N N1 N2 : grows N N1 -> grows N1 N2 -> grows N N2.
Proof. unfold grows. eauto. Qed.

Lemma tester_send_move run N x s t msg storage wire random next e N' t' tr :
  net_inv 10 N tr -> idle_line N -> N !! x = Some s -> header_ok (outPktHdr t) (outMailHdr t) -> lenZ storage = MaxPacketSize -> lenZ wire = MaxWireSize ->
  tester_send run N x s t msg storage wire random next = Ok (Some (e, N', t')) ->
  net_step N e N' /\ idle_line N' /\ grows N N' /\ t' = move_to t next /\ exists lost, e = Sent (mail_of x (outPktHdr t) (outMailHdr t) msg) lost.
Proof.
  intros HI Hid Hs Hh Hst Hw H. unfold tester_send in H. cbv zeta in H. apply bind_Ok_inv in H as ([o s'] & E & H).
  destruct (HI x s Hs) as (Hx & Ho & _). destruct (PostOffice_Send_inv x 10 0 s _ _ msg storage wire random o s' Hx Ho Hh Hst Hw E) as (W & _ & _).
  assert (Hid' : idle_line (<[x := s']> N)) by (apply idle_insert; [done|rewrite W; by eapply Hid]).
  destruct o as [d|].
  - apply bind_Ok_inv in H as (u & _ & H). destruct (<[x := s']> N !! pkt_to (outPktHdr t)) as [r|] eqn:Hr; [|done]. injection H as <- <- <-. conjs; [by eapply step_send| | |done|by exists false].
    + apply idle_insert; [done|]. cbn [arrive world set_office set_network network set_sock sendBusy]. by eapply Hid'.
    + eapply grows_trans; apply grows_insert.
  - injection H as <- <- <-. conjs; [by eapply step_lost|done|apply grows_insert|done|by exists true].
Qed.

Lemma tester_waits_move N x s t next e N' t' :
  idle_line N -> N !! x = Some s -> tester_waits N x s t next = Ok (Some (e, N', t')) ->
  net_step N e N' /\ idle_line N' /\ grows N N' /\ t' = move_to t next /\ e = Quiet.
Proof.
  intros Hid Hs H. unfold tester_waits in H. apply bind_Ok_inv in H as ([s'|] & E & H); [|done]. injection H as <- <- <-.
  conjs; [by eapply step_goes_on| |apply grows_insert|done|done]. apply idle_insert; [done|]. eapply P_idle; [|exact E|by eapply Hid]. done.
Qed.

Lemma Receive_buffer s box buf pkt mail buf' s' :
  PostOffice_Receive s box buf = Ok (pkt, mail, buf', s') -> lenZ buf' = lenZ buf /\ network (world s') = network (world s).
Proof.
  intros H. unfold PostOffice_Receive in H. cbv zeta in H. apply bind_Ok_inv in H as (u & _ & H). apply bind_Ok_inv in H as (b & _ & H).
  apply bind_Ok_inv in H as ([[[p h] bf] rest] & HG & H). apply bind_Ok_inv in H as (u2 & _ & H). injection H as -> -> -> <-.
  unfold MailBox_Get in HG. apply bind_Ok_inv in HG as ([m r] & _ & HG). apply bind_Ok_inv in HG as (bs & _ & HG). apply bind_Ok_inv in HG as (b2 & ES & HG).
  injection HG as _ _ -> _. apply store_Ok in ES as (H0 & Hl & ->). split; [|done]. apply lenZ_splice; lia.
Qed.

Lemma tester_receive_move N x s t box next answer e N' t' tr :
  net_inv 10 N tr -> idle_line N -> N !! x = Some s -> tester_receive N x s t box next answer = Ok (Some (e, N', t')) ->
  net_step N e N' /\ idle_line N' /\ grows N N' /\ exists m rest buf, sent_to x box tr = received_at x box tr ++ m :: rest /\ e = Received x box m /\
    lenZ buf = lenZ (buffer t) /\ slice buf 0 (mail_length (mailHdr m)) = data m /\
    t' = mkTester next (answer (pktHdr m) (mailHdr m)).1 (answer (pktHdr m) (mailHdr m)).2 buf
           (printed t ++ [(cstr buf, pkt_from (pktHdr m), mail_from (mailHdr m))]).
Proof.
  intros HI Hid Hs H. unfold tester_receive in H. apply bind_Ok_inv in H as ([[[p h] bf] s'] & E & H). destruct (answer p h) as [p' h'] eqn:Ea.
  injection H as <- <- <-. destruct (HI x s Hs) as (Hx & Ho & Hacc). destruct (Receive_buffer _ _ _ _ _ _ _ E) as [Hl Hn].
  destruct (Receive_inv x 10 0 s box (buffer t) p h bf s' Ho E) as (m & rest & Hb & Em & _).
  conjs; [by eapply step_receive| |apply grows_insert|].
  - apply idle_insert; [done|]. rewrite Hn. by eapply Hid.
  - exists m, (rest ++ for_box box (in_transit (world s))), bf. rewrite (Hacc box _ Hb). subst m. cbn [pktHdr mailHdr data]. rewrite Ea. done.
Qed.

Lemma cstr_slice buf n str : Forall (fun c => c <> 0) str -> slice buf 0 n = str ++ [0] -> cstr buf = str.
Proof.
  intros Hz H. unfold slice in H. change (Z.to_nat 0) with 0%nat in H. rewrite drop_0 in H. rewrite <- (take_drop (Z.to_nat n) buf), H, <- app_assoc. clear H.
  induction Hz as [|c l Hc _ IH]; [done|]. cbn [app cstr]. rewrite (proj2 (Z.eqb_neq c 0)) by done. by f_equal.
Qed.

(** What a mail in the trace adds. *)
Lemma sent_one a k m lost :
  sent_to a k [Sent m lost] = if negb lost && (pkt_to (pktHdr m) =? a) && (mail_to (mailHdr m) =? k) then [m] else [].
Proof. unfold sent_to. cbn [omap list_omap]. destruct lost; [done|]. cbn [negb andb]. by destruct (_ && _). Qed.
Lemma received_one a k b j m : received_at a k [Received b j m] = if (b =? a) && (j =? k) then [m] else [].
Proof. unfold received_at. cbn [omap list_omap]. by destruct (_ && _). Qed.

(** What holds from some point on holds later. *)
Ltac later H := destruct H as [H|[? H]]; [by left|right; split; [cbn; lia|done]].

(** The program at [x] goes on: its step is one of the network, and the events that it adds
    are its own. *)
Lemma program_step run N x y t ty storage wire random e N' t' tr :
  x <> y -> net_inv 10 N tr -> idle_line N -> is_Some (N !! y) -> tester_ok x y t tr -> tester_ok y x ty tr ->
  lenZ storage = MaxPacketSize -> lenZ wire = MaxWireSize ->
  MailTest_step run N x t storage wire random = Ok (Some (e, N', t')) ->
  net_step N e N' /\ idle_line N' /\ grows N N' /\ tester_ok x y t' (tr ++ [e]) /\
  (forall k, sent_to x k [e] = []) /\ (forall k, received_at y k [e] = []).
Proof.
  intros Hxy HI Hid [sy Hsy] [Hbuf Hfar Hmail Hpr Hh Ha Hs Hans] [_ _ _ _ _ _ Hs' Hans'] Hst Hw H. unfold MailTest_step in H.
  apply bind_Ok_inv in H as (s & Es & H). apply deref_Ok_inv in Es. destruct (HI y sy Hsy) as (Hiy & _ & _).
  assert (Hhdr : header_ok (outPktHdr t) (outMailHdr t)).
  { unfold header_ok. rewrite Hfar, Hmail. split; [done|]. case_if; cbn [mail_to mail_from mail_length]; unfold_int32; lia. }
  assert (Exy : x =? y = false) by (by apply Z.eqb_neq). assert (Eyx : y =? x = false) by (apply Z.eqb_neq; congruence).
  destruct t as [p [to fr ln] mh buf pr]. cbn [at_point outPktHdr outMailHdr buffer printed pkt_to] in *. subst to.
  destruct p; cbn [rank Z.leb Z.compare Pos.compare Pos.compare_cont] in Hmail, Hpr, Hh, Ha, Hs, Hans; subst mh pr; try done.
  - apply (tester_send_move _ _ _ _ _ _ _ _ _ _ _ _ _ tr) in H as (Hstep & Hid' & Hgr & -> & lost & ->); try done.
    assert (Hs0 : sent_to y 0 tr = []) by (destruct Hs as [Hs|[? _]]; [done|lia]). assert (Hs1 : sent_to y 1 tr = []) by (destruct Hans as [Hs1|[? _]]; [done|lia]).
    change (mail_of x _ _ _) with (hello_mail x y) in *. conjs; try done; [|intros k; rewrite sent_one; cbn [hello_mail pktHdr pkt_to]; by rewrite Eyx, andb_false_r].
    split; try done; rewrite ?sent_snoc, ?received_snoc, ?Hs0, ?Hs1, ?Hh, ?Ha; try done; rewrite sent_one; cbn [hello_mail pktHdr pkt_to mailHdr mail_to]; rewrite Z.eqb_refl; destruct lost; cbn [negb andb Z.eqb app]; auto.
    right. split; [cbn; lia|done].
  - apply tester_waits_move in H as (Hstep & Hid' & Hgr & -> & ->); try done. conjs; try done. apply tester_other; [done..|]. split; try done.
    later Hs.
  - apply (tester_receive_move _ _ _ _ _ _ _ _ _ _ tr) in H as (Hstep & Hid' & Hgr & m & rest & bf & Hsn & -> & Hl & Hsl & ->); try done.
    destruct Hs' as [Hs'|[_ Hs']]; rewrite Hs', Hh in Hsn; [done|]. injection Hsn as <- _. conjs; try done; [|intros k; rewrite received_one; by rewrite Exy].
    assert (Hc : cstr bf = hello_text) by (eapply cstr_slice; [|exact Hsl]; repeat constructor; lia).
    split; rewrite ?sent_snoc, ?received_snoc, ?received_one, ?Hh, ?Ha, ?Z.eqb_refl, ?app_nil_r; try done; first [by rewrite <- Hbuf|by cbn [printed]; rewrite Hc|later Hs|destruct Hans as [Hans|[? Hans]]; [by left|lia]].
  - apply (tester_send_move _ _ _ _ _ _ _ _ _ _ _ _ _ tr) in H as (Hstep & Hid' & Hgr & -> & lost & ->); try done.
    assert (Hs1 : sent_to y 1 tr = []) by (destruct Hans as [Hs1|[? _]]; [done|lia]).
    change (mail_of x _ _ _) with (ack_mail x y) in *. conjs; try done; [|intros k; rewrite sent_one; cbn [ack_mail pktHdr pkt_to]; by rewrite Eyx, andb_false_r].
    split; try done; rewrite ?sent_snoc, ?received_snoc, ?Hs1, ?Hh, ?Ha; try done; rewrite sent_one; cbn [ack_mail pktHdr pkt_to mailHdr mail_to]; rewrite Z.eqb_refl; destruct lost; cbn [negb andb Z.eqb app]; rewrite ?app_nil_r; auto.
    right. split; [cbn; lia|done].
  - apply tester_waits_move in H as (Hstep & Hid' & Hgr & -> & ->); try done. conjs; try done. apply tester_other; [done..|]. split; try done.
    later Hans.
  - apply (tester_receive_move _ _ _ _ _ _ _ _ _ _ tr) in H as (Hstep & Hid' & Hgr & m & rest & bf & Hsn & -> & Hl & Hsl & ->); try done.
    destruct Hans' as [Hans'|[_ Hans']]; rewrite Hans', Ha in Hsn; [done|]. injection Hsn as <- _. conjs; try done; [|intros k; rewrite received_one; by rewrite Exy].
    assert (Hc : cstr bf = ack_text) by (eapply cstr_slice; [|exact Hsl]; repeat constructor; lia).
    split; rewrite ?sent_snoc, ?received_snoc, ?received_one, ?Hh, ?Ha, ?Z.eqb_refl, ?app_nil_r; try done; first [by rewrite <- Hbuf|by cbn [printed]; rewrite Hc|later Hs|later Hans].
Qed.

Lemma mail_inv_step A B st tr e st' : A <> B -> mail_inv A B st tr -> mail_test_step st e st' -> mail_inv A B st' (tr ++ [e]).
Proof.
  intros Hne [HI Hid [HA HB] Hdom Ht] H. destruct H as [a op e N' Hr Hop E|a t storage wire random e N' t' Hta Hst Hw E].
  - destruct (machine_step _ _ _ _ _ Hop E Hid) as (-> & Hid' & s' & ->). apply do_net_sound in E. split; try done.
    + by eapply inv_step.
    + split; by apply grows_insert.
    + intros x y t Hxy Hx. apply tester_other; [done..|]. by apply Ht.
  - assert (Hxy : exists b, ((a = A /\ b = B) \/ (a = B /\ b = A))).
    { apply elem_of_dom_2 in Hta. rewrite Hdom in Hta. apply elem_of_union in Hta as [Ha|Ha]; apply elem_of_singleton in Ha; subst a; eauto. }
    destruct Hxy as (b & Hxy). assert (Hab : a <> b) by (destruct Hxy as [[-> ->]|[-> ->]]; congruence).
    assert (Hyx : (b = A /\ a = B) \/ (b = B /\ a = A)) by tauto.
    assert (Hb : is_Some (net st !! b)) by (destruct Hxy as [[-> ->]|[-> ->]]; done).
    assert (Htb : exists tb, tests st !! b = Some tb).
    { apply elem_of_dom. rewrite Hdom. destruct Hxy as [[-> ->]|[-> ->]]; set_solver. }
    destruct Htb as [tb Htb].
    destruct (program_step _ _ a b t tb _ _ _ _ _ _ tr Hab HI Hid Hb (Ht _ _ _ Hxy Hta) (Ht _ _ _ Hyx Htb) Hst Hw E) as (Hstep & Hid' & Hgr & Hok & HS & HR).
    split; cbn [net tests]; try done.
    + by eapply inv_step.
    + split; by apply Hgr.
    + rewrite dom_insert_L, Hdom. destruct Hxy as [[-> ->]|[-> ->]]; set_solver.
    + intros x y u Hp Hu. apply lookup_insert_Some in Hu as [[<- <-]|[Hax Hu]].
      * assert (y = b) as -> by (destruct Hp as [[? ?]|[? ?]], Hxy as [[? ?]|[? ?]]; congruence). done.
      * assert (x = b /\ y = a) as [-> ->] by (destruct Hp as [[? ?]|[? ?]], Hxy as [[? ?]|[? ?]]; split; congruence).
        apply tester_other; [done..|]. by apply Ht.
Qed.

Lemma mail_inv_start A B st : mail_test_starts A B st -> mail_inv A B st [].
Proof.
  intros [Hne HB Hnet (pkt & buf & pkt' & buf' & Hl & Hl' & E)]. split; try done.
  - by apply inv_boot.
  - intros a s Hs. destruct (HB a s Hs) as (s0 & rel & storage & bf & _ & _ & _ & H). unfold PostOffice_new, Interrupt_Schedule in H. cbv zeta in H.
    apply bind_Ok_inv in H as (u & _ & H). injection H as <-. done.
  - rewrite E, dom_insert_L, dom_singleton_L. done.
  - intros x y t Hxy Hx. rewrite E in Hx. apply lookup_insert_Some in Hx as [[<- <-]|[Hn Hx]].
    + assert (y = B) as -> by (destruct Hxy as [[? ?]|[? ?]]; congruence). split; try done; by left.
    + apply lookup_singleton_Some in Hx as [<- <-]. assert (y = A) as -> by (destruct Hxy as [[? ?]|[? ?]]; congruence). split; try done; by left.
Qed.

Lemma mail_inv_steps A B st tr st' : mail_test_starts A B st -> mail_test_steps st tr st' -> mail_inv A B st' tr.
Proof.
  intros Hs. induction 1 as [|tr st1 e st2 _ IH Hst]; [by apply mail_inv_start|]. eapply mail_inv_step; [apply Hs|exact IH|exact Hst].
Qed.

(** [PostOffice::Send] does not fail. *)
Lemma PostOffice_Send_ok a s pkt mail msg storage wire random :
  office_ok a 10 0 (world s) -> sendBusy (network (world s)) = false -> 0 <= mail_to mail < 10 -> 0 <= mail_length mail <= MaxMailSize ->
  mail_length mail <= lenZ msg -> lenZ storage = MaxPacketSize -> lenZ wire = MaxWireSize ->
  exists o s', PostOffice_Send s pkt mail msg storage wire random = Ok (o, s').
Proof.
  intros [Hi Ha [HK _] _ _ _ _ _ _] Hb Ht Hl Hm Hst Hw. unfold PostOffice_Send. cbv zeta.
  rewrite HK, (proj2 (Z.leb_le (mail_length mail) _)), (proj2 (Z.leb_le 0 (mail_to mail))), (proj2 (Z.ltb_lt (mail_to mail) 10)) by lia. cbn [andb ASSERT mbind outcome_bind].
  rewrite store_ok by (rewrite ?lenZ_header_bytes; sizes). cbn [mbind outcome_bind]. rewrite fetch_ok by lia. cbn [mbind outcome_bind].
  assert (Hs : lenZ (slice msg 0 (mail_length mail)) = mail_length mail) by (apply lenZ_slice; lia).
  assert (H1 : lenZ (splice storage 0 (header_bytes (mail_to mail) (mail_from mail) (mail_length mail))) = MaxPacketSize) by (rewrite lenZ_splice; rewrite ?lenZ_header_bytes; sizes).
  rewrite store_ok by (rewrite ?H1, ?Hs; sizes). cbn [mbind outcome_bind]. set (buf := splice _ sizeof_MailHeader _).
  assert (H2 : lenZ buf = MaxPacketSize) by (unfold buf; rewrite lenZ_splice; rewrite ?H1, ?Hs; sizes).
  assert (Hu : wrap_u32 (mail_length mail + sizeof_MailHeader) = mail_length mail + 12) by (apply wrap_u32_id; unfold_int32; sizes).
  unfold Network_Send. cbv zeta. cbn [pkt_to pkt_from pkt_length]. rewrite Hu, Hb, Ha, Hi, Z.eqb_refl, (proj2 (Z.ltb_lt 0 _)), (proj2 (Z.leb_le _ MaxPacketSize)) by sizes.
  cbn [negb andb ASSERT mbind outcome_bind]. destruct (Schedule_world s NetworkSendDone 0 NetworkTime NetworkSendInt ltac:(done)) as (s1 & -> & _). cbn [mbind outcome_bind].
  case_if; [eauto|]. rewrite store_ok by (rewrite ?lenZ_header_bytes; sizes). cbn [mbind outcome_bind]. rewrite fetch_ok by sizes. cbn [mbind outcome_bind].
  rewrite store_ok; [eauto|sizes|]. rewrite lenZ_splice, lenZ_slice; rewrite ?lenZ_header_bytes; sizes.
Qed.

(** ** The test *)

Section Reached.
Context (A B : Z) (st : MailNet) (tr : list net_event) (x y : Z) (t : MailTester) (s : NSys).
Hypothesis (HI : mail_inv A B st tr) (Hxy : (x = A /\ y = B) \/ (x = B /\ y = A)).
Hypothesis (Ht : tests st !! x = Some t) (Hs : net st !! x = Some s).

(** While a program has something to send, the other has not halted. *)
Lemma other_runs : rank (at_point t) <= 3 -> running (tests st) y = true.
Proof.
  intros Hr. destruct HI as [Hnet _ [HA HB] Hdom Hok]. unfold running.
  assert (Hyx : (y = A /\ x = B) \/ (y = B /\ x = A)) by tauto.
  assert (Hty : exists ty, tests st !! y = Some ty).
  { apply elem_of_dom. rewrite Hdom. destruct Hxy as [[-> ->]|[-> ->]]; set_solver. }
  destruct Hty as [ty Hty]. rewrite Hty. unfold stopped. destruct (at_point ty) eqn:Ep; try done.
  assert (HN : is_Some (net st !! y)) by (destruct Hxy as [[-> ->]|[-> ->]]; done). destruct HN as [sy Hsy].
  pose proof (to_ack _ _ _ _ (Hok _ _ _ Hyx Hty)) as Ha. rewrite Ep in Ha. cbn in Ha. destruct (Hnet y sy Hsy) as (_ & Ho & Hacc).
  destruct (oo_boxes _ _ _ _ Ho) as [_ HL]. destruct (lookupZ_range (boxes (world sy)) 1 ltac:(lia)) as [box Hbox].
  specialize (Hacc 1 box Hbox). rewrite Ha in Hacc. destruct (to_answered _ _ _ _ (Hok _ _ _ Hxy Ht)) as [E|[Hr4 _]]; [by rewrite E in Hacc|lia].
Qed.

Lemma send_proceeds msg storage wire random next :
  rank (at_point t) <= 3 -> mail_length (outMailHdr t) = lenZ msg -> lenZ storage = MaxPacketSize -> lenZ wire = MaxWireSize ->
  exists mv, tester_send (running (tests st)) (net st) x s t msg storage wire random next = Ok (Some mv).
Proof.
  intros Hr Hm Hst Hw. pose proof (other_runs Hr) as Hrun. destruct HI as [Hnet Hid [HA HB] Hdom Hok]. destruct (Hnet x s Hs) as (_ & Ho & _).
  pose proof (Hok _ _ _ Hxy Ht) as Htx. pose proof (to_mail _ _ _ _ Htx) as Email.
  destruct (PostOffice_Send_ok x s (outPktHdr t) (outMailHdr t) msg storage wire random Ho) as (o & s' & E); [by eapply Hid| | |lia|done..|].
  - rewrite Email. case_if; cbn; lia.
  - rewrite Email. case_if; cbn; sizes.
  - unfold tester_send. cbv zeta. rewrite E. cbn [mbind outcome_bind]. destruct o as [d|]; [|by eexists]. rewrite (to_far _ _ _ _ Htx), Hrun. cbn [ASSERT mbind outcome_bind].
    assert (HN : is_Some (net st !! y)) by (destruct Hxy as [[-> ->]|[-> ->]]; done). apply (grows_insert _ x s') in HN as [r ->]. by eexists.
Qed.

Lemma receive_proceeds k box next answer :
  (boxes (world s)).[k] = Some box ->
  match box with
  | [] => tester_receive (net st) x s t k next answer = AssertFail
  | _ :: _ => exists mv, tester_receive (net st) x s t k next answer = Ok (Some mv)
  end.
Proof.
  intros Hbox. destruct HI as [Hnet _ _ _ Hok]. destruct (Hnet x s Hs) as (_ & Ho & _). pose proof (to_buffer _ _ _ _ (Hok _ _ _ Hxy Ht)) as Hb.
  pose proof (Receive_ok x 10 0 s k box (buffer t) Ho Hbox ltac:(lia)) as H. unfold tester_receive. destruct box as [|m rest]; [by rewrite H|].
  destruct H as (bf & s' & -> & _). cbn [mbind outcome_bind]. destruct (answer _ _). by eexists.
Qed.
End Reached.

(** C24: the mail test.  Two machines run [MailTest] for each other; their programs, clocks and
    workers interleave in every order, and the network may lose packets.  A program prints
    nothing but the greeting and then the acknowledgement of the other machine, from box 1
    each, and both of them if it halts.  Its calls of [Send] never fail, and no packet goes to a
    machine that has halted.  Its calls of [Receive] succeed if the mail is there and fail the
    assertion of [Condition::Wait] otherwise. *)
Theorem MailTest_exchange A B st0 tr st x y t s :
  mail_test_starts A B st0 -> mail_test_steps st0 tr st -> (x = A /\ y = B) \/ (x = B /\ y = A) ->
  tests st !! x = Some t -> net st !! x = Some s ->
  printed t `prefix_of` [(hello_text, y, 1); (ack_text, y, 1)] /\
  (at_point t = Stopped -> printed t = [(hello_text, y, 1); (ack_text, y, 1)]) /\
  forall storage wire random, lenZ storage = MaxPacketSize -> lenZ wire = MaxWireSize ->
    let step := MailTest_step (running (tests st)) (net st) x t storage wire random in
    match at_point t with
    | SendHello | SendAck => exists move, step = Ok (Some move)
    | GetHello => exists box, (boxes (world s)).[0] = Some box /\ match box with [] => step = AssertFail | _ :: _ => exists move, step = Ok (Some move) end
    | GetAck => exists box, (boxes (world s)).[1] = Some box /\ match box with [] => step = AssertFail | _ :: _ => exists move, step = Ok (Some move) end
    | _ => True
    end.
Proof.
  intros H0 Hsteps Hxy Ht Hs. pose proof (mail_inv_steps A B st0 tr st H0 Hsteps) as HI. pose proof (mi_tests _ _ _ _ HI _ _ _ Hxy Ht) as Htx.
  pose proof (to_printed _ _ _ _ Htx) as Hp. pose proof (to_mail _ _ _ _ Htx) as Em. destruct (mi_net _ _ _ _ HI x s Hs) as (_ & Ho & _). destruct (oo_boxes _ _ _ _ Ho) as [_ HL].
  conjs.
  - rewrite Hp. apply prefix_take.
  - intros E. by rewrite E in Hp.
  - intros storage wire random Hst Hw. cbv zeta. unfold MailTest_step. rewrite Hs. cbn [deref mbind outcome_bind]. destruct (at_point t) eqn:Ep; try done.
    + apply (send_proceeds A B st tr x y t s HI Hxy Ht Hs); rewrite ?Ep, ?Em; try done; cbn; lia.
    + destruct (lookupZ_range (boxes (world s)) 0 ltac:(lia)) as [box Hbox]. exists box. split; [done|]. by apply (receive_proceeds A B st tr x y t s HI Hxy Ht Hs).
    + apply (send_proceeds A B st tr x y t s HI Hxy Ht Hs); rewrite ?Ep, ?Em; try done; cbn; lia.
    + destruct (lookupZ_range (boxes (world s)) 1 ltac:(lia)) as [box Hbox]. exists box. split; [done|]. by apply (receive_proceeds A B st tr x y t s HI Hxy Ht Hs).
Qed.

(** ** A run in which both programs end *)

Inductive mail_op := MTick (a : Z) | MIdle (a : Z) | MDeliver (a : Z) | MProgram (a random : Z).

Definition do_mail (st : MailNet) (op : mail_op) : option (net_event * MailNet) :=
  let machine a op := if running (tests st) a then '(e, N) ← do_net (net st) op; Some (e, mkMailNet N (tests st)) else None in
  match op with
  | MTick a => machine a (OpTick a)
  | MIdle a => machine a (OpIdle a)
  | MDeliver a => machine a (OpDeliver a)
  | MProgram a random =>
      t ← tests st !! a;
      match MailTest_step (running (tests st)) (net st) a t (zeros MaxPacketSize) (zeros MaxWireSize) random with
      | Ok (Some (e, N, t')) => Some (e, mkMailNet N (<[a := t']> (tests st)))
      | _ => None
      end
  end.

Lemma do_mail_sound st op e st' : do_mail st op = Some (e, st') -> mail_test_step st e st'.
Proof.
  destruct op as [a|a|a|a random]; cbn [do_mail]; cbv zeta beta.
  1-3: destruct (running (tests st) a) eqn:Er; [|done]; destruct (do_net _ _) as [[e1 N1]|] eqn:E; [|done]; cbn [mbind option_bind];
    intros [= <- <-]; eapply mt_machine; [exact Er| |exact E]; set_solver.
  destruct (tests st !! a) as [t|] eqn:Et; [|done]. cbn [mbind option_bind]. destruct (MailTest_step _ _ _ _ _ _ _) as [[[[e1 N1] t1]|]| | |] eqn:E; try done.
  intros [= <- <-]. eapply mt_program; [exact Et| | |exact E]; reflexivity.
Qed.

Fixpoint run_mail (ops : list mail_op) (st : MailNet) : option (list net_event * MailNet) :=
  match ops with
  | [] => Some ([], st)
  | op :: ops => '(e, st1) ← do_mail st op; '(tr, st2) ← run_mail ops st1; Some (e :: tr, st2)
  end.

Lemma mail_steps_cons st e st1 tr st2 : mail_test_step st e st1 -> mail_test_steps st1 tr st2 -> mail_test_steps st (e :: tr) st2.
Proof.
  intros H. induction 1 as [|tr st2 e' st3 _ IH Hst]; [exact (mt_snoc _ [] _ _ _ (mt_refl _) H)|].
  exact (mt_snoc _ (e :: tr) _ _ _ IH Hst).
Qed.

Lemma run_mail_sound ops st tr st' : run_mail ops st = Some (tr, st') -> mail_test_steps st tr st'.
Proof.
  revert st tr. induction ops as [|op ops IH]; intros st tr H; cbn [run_mail] in H; [injection H as <- <-; constructor|].
  destruct (do_mail st op) as [[e st1]|] eqn:E; [|done]. cbn [mbind option_bind] in H. destruct (run_mail ops st1) as [[tr1 st2]|] eqn:E2; [|done].
  injection H as <- <-. eapply mail_steps_cons; [by eapply do_mail_sound|by apply IH].
Qed.

Definition two_tests : MailNet :=
  mkMailNet two_machines {[0 := MailTest 1 (mkPacketHeader 0 0 0) (zeros MaxMailSize); 1 := MailTest 0 (mkPacketHeader 0 0 0) (zeros MaxMailSize)]}.

Lemma two_tests_start : mail_test_starts 0 1 two_tests.
Proof.
  split; [done|exact two_booted| |].
  - split; eexists; vm_compute; reflexivity.
  - exists (mkPacketHeader 0 0 0), (zeros MaxMailSize), (mkPacketHeader 0 0 0), (zeros MaxMailSize). by repeat split.
Qed.

(** Each machine in turn: the program sends, the machine idles until the packet is out, and so
    on. *)
Definition both (ops : list (Z -> mail_op)) : list mail_op := flat_map (fun f => [f 0; f 1]) ops.
Definition program : Z -> mail_op := fun a => MProgram a 5.
Definition mail_test_run : list mail_op :=
  both [program; MIdle; program; MDeliver; program; program; MIdle; MIdle; program; MDeliver; program].

Lemma MailTest_exchange_witness :
  exists tr st t, run_mail mail_test_run two_tests = Some (tr, st) /\ tests st !! 1 = Some t /\ at_point t = Stopped /\
    printed t = [(hello_text, 0, 1); (ack_text, 0, 1)].
Proof.
  assert (T : match run_mail mail_test_run two_tests with
    | Some (tr, st) => match tests st !! 1, net st !! 1 with Some t, Some _ => stopped t | _, _ => false end
    | None => false end = true) by (vm_compute; reflexivity).
  destruct (run_mail mail_test_run two_tests) as [[tr st]|] eqn:E; [|discriminate T].
  destruct (tests st !! 1) as [t|] eqn:Et; [|discriminate T]. destruct (net st !! 1) as [s|] eqn:Es; [|discriminate T].
  assert (Hp : at_point t = Stopped) by (unfold stopped in T; destruct (at_point t); [discriminate T..|reflexivity]).
  destruct (MailTest_exchange 0 1 two_tests tr st 1 0 t s two_tests_start (run_mail_sound _ _ _ _ E) ltac:(auto) Et Es) as (_ & Hend & _).
  exists tr, st, t. split; [reflexivity|]. split; [exact Et|]. split; [exact Hp|]. exact (Hend Hp).
Defined.
