(* ===== verification/Coff2Noff.v ===== *)
(** * From COFF to NOFF (bin/coff2noff.c, bin/coff.h)

    [coff2noff] is the body of [main] from the reading of the file header on, on the bytes
    of the COFF file: it gives the bytes of the NOFF file, or [None] when the program prints a
    message, removes its output and exits with 1.  The host has 32-bit [long]s.  A read
    or an allocation of a negative size has no meaning.

    [coff_program_loads] composes the converter with the loader of [AddrSpace]: the
    virtual memory of the process holds the sections of the COFF file at their
    addresses. *)

From S2P Require Import Prelude Int32 Machine BitMap AddrSpace.

Definition MIPSELMAGIC : Z := 0x0162.
Definition OMAGIC : Z := 263.

(** [struct filehdr], [struct aouthdr] and [struct scnhdr] of bin/coff.h: their sizes, and
    the fields the program uses *)
Definition sizeof_filehdr : Z := 20.
Definition sizeof_aouthdr : Z := 56.
Definition sizeof_scnhdr : Z := 40.
Definition sizeof_NoffHeader : Z := 40.
Record filehdr := mkFilehdr { f_magic : Z; f_nscns : Z }.
Record scnhdr := mkScnhdr { s_name : list Z; s_paddr : Z; s_size : Z; s_scnptr : Z }.

Definition short_at (bs : list Z) (off : Z) : Z := le_combine (slice bs off 2).
Definition long_at (bs : list Z) (off : Z) : Z := wrap_s32 (le_combine (slice bs off 4)).
Definition filehdr_of_bytes (bs : list Z) : filehdr := mkFilehdr (short_at bs 0) (short_at bs 2).
Definition scnhdr_of_bytes (bs : list Z) : scnhdr := mkScnhdr (slice bs 0 8) (long_at bs 8) (long_at bs 16) (long_at bs 20).
Definition scnhdr_at (bs : list Z) (i : nat) : scnhdr := scnhdr_of_bytes (slice bs (Z.of_nat i * sizeof_scnhdr) sizeof_scnhdr).

(** [Read] at position [pos]: [None] when the file is too short. *)
Definition Read (coff : list Z) (pos nBytes : Z) : outcome (option (list Z)) :=
  if nBytes <? 0 then Undefined
  else let bs := slice coff pos nBytes in Ok (if lenZ bs =? nBytes then Some bs else None).

(** [!strcmp(s_name, lit)] for a literal of less than eight characters: the comparison ends
    inside the array. *)
Definition name_is (s : scnhdr) (lit : list Z) : bool := bool_decide (slice (s_name s) 0 (lenZ lit + 1) = lit ++ [0]).
Definition dot_text : list Z := [46; 116; 101; 120; 116].
Definition dot_data : list Z := [46; 100; 97; 116; 97].
Definition dot_rdata : list Z := [46; 114; 100; 97; 116; 97].
Definition dot_bss : list Z := [46; 98; 115; 115].
Definition dot_sbss : list Z := [46; 115; 98; 115; 115].
Definition is_text (s : scnhdr) : bool := name_is s dot_text.
Definition is_data (s : scnhdr) : bool := name_is s dot_data || name_is s dot_rdata.
Definition is_bss (s : scnhdr) : bool := name_is s dot_bss || name_is s dot_sbss.

(** The bytes of a section: [lseek] to a negative position fails and leaves the file
    at [pos], the position behind the last read. *)
Definition read_section (coff : list Z) (pos : Z) (s : scnhdr) : outcome (option (list Z) * Z) :=
  let at_ := if s_scnptr s <? 0 then pos else s_scnptr s in
  r ← Read coff at_ (s_size s);
  Ok (r, at_ + s_size s).

(** The loop over the sections: [h] is [noffH], [body] what has been written behind the
    place of the header. *)
Fixpoint copy_sections (coff : list Z) (secs : list scnhdr) (pos inNoffFile : Z) (h : NoffHeader) (body : list Z) :
    outcome (option (NoffHeader * list Z)) :=
  match secs with
  | [] => Ok (Some (h, body))
  | s :: secs =>
      if s_size s =? 0 then copy_sections coff secs pos inNoffFile h body
      else if is_text s then
        let h := mkNoff (noffMagic h) (mkSegment (s_paddr s) inNoffFile (s_size s)) (initData h) (uninitData h) in
        '(r, pos) ← read_section coff pos s;
        match r with
        | None => Ok None
        | Some bs => copy_sections coff secs pos (wrap_s32 (inNoffFile + s_size s)) h (body ++ bs)
        end
      else if is_data s then
        if negb (seg_size (initData h) =? 0) then Ok None
        else
          let h := mkNoff (noffMagic h) (code h) (mkSegment (s_paddr s) inNoffFile (s_size s)) (uninitData h) in
          '(r, pos) ← read_section coff pos s;
          match r with
          | None => Ok None
          | Some bs => copy_sections coff secs pos (wrap_s32 (inNoffFile + s_size s)) h (body ++ bs)
          end
      else if is_bss s then
        let u := uninitData h in
        if negb (seg_size u =? 0) then
          if s_paddr s =? wrap_s32 (virtualAddr u + seg_size u) then Ok None
          else copy_sections coff secs pos inNoffFile
                 (mkNoff (noffMagic h) (code h) (initData h) (mkSegment (virtualAddr u) (inFileAddr u) (wrap_s32 (seg_size u + s_size s)))) body
        else copy_sections coff secs pos inNoffFile
               (mkNoff (noffMagic h) (code h) (initData h) (mkSegment (s_paddr s) (inFileAddr u) (s_size s))) body
      else Ok None
  end.

(** The bytes of [noffH]. *)
Definition segment_to_words (s : Segment) : list Z := [virtualAddr s; inFileAddr s; seg_size s].
Definition NoffHeader_to_bytes (h : NoffHeader) : list Z :=
  words_to_bytes ([noffMagic h] ++ segment_to_words (code h) ++ segment_to_words (initData h) ++ segment_to_words (uninitData h)).

Definition with_sizes_0 (junk : NoffHeader) : NoffHeader :=
  let zero s := mkSegment (virtualAddr s) (inFileAddr s) 0 in
  mkNoff NOFFMAGIC (zero (code junk)) (zero (initData junk)) (zero (uninitData junk)).

(** The section headers of a COFF file. *)
Definition sections_of (bs : list Z) (n : Z) : list scnhdr := map (scnhdr_at bs) (seq 0 (Z.to_nat n)).

(** [main]; [junk] is the uninitialised [noffH]. *)
Definition coff2noff (coff : list Z) (junk : NoffHeader) : outcome (option (list Z)) :=
  r ← Read coff 0 sizeof_filehdr;
  match r with
  | None => Ok None
  | Some bs =>
      let fileh := filehdr_of_bytes bs in
      if negb (f_magic fileh =? MIPSELMAGIC) then Ok None
      else
        r ← Read coff sizeof_filehdr sizeof_aouthdr;
        match r with
        | None => Ok None
        | Some bs =>
            if negb (short_at bs 0 =? OMAGIC) then Ok None
            else
              let numsections := f_nscns fileh in
              r ← Read coff (sizeof_filehdr + sizeof_aouthdr) (numsections * sizeof_scnhdr);
              match r with
              | None => Ok None
              | Some bs =>
                  r ← copy_sections coff (sections_of bs numsections)
                        (sizeof_filehdr + sizeof_aouthdr + numsections * sizeof_scnhdr) sizeof_NoffHeader (with_sizes_0 junk) [];
                  match r with
                  | None => Ok None
                  | Some (h, body) => Ok (Some (NoffHeader_to_bytes h ++ body))
                  end
              end
        end
  end.

(** ** What the sections mean *)

Inductive kind := KEmpty | KText | KData | KBss | KUnknown.
#[export] Instance kind_eq_dec : EqDecision kind.
Proof. solve_decision. Defined.
Definition kind_of (s : scnhdr) : kind :=
  if s_size s =? 0 then KEmpty else if is_text s then KText else if is_data s then KData else if is_bss s then KBss else KUnknown.
Definition of_kind (k : kind) (secs : list scnhdr) : list scnhdr := filter (fun s => kind_of s = k) secs.

(** The bytes of a section. *)
Definition raw (coff : list Z) (s : scnhdr) : list Z := slice coff (s_scnptr s) (s_size s).
Definition total_size (secs : list scnhdr) : Z := foldr (fun s n => s_size s + n) 0 secs.

Definition sec_ok (coff : list Z) (s : scnhdr) : Prop :=
  0 <= s_size s /\ kind_of s <> KUnknown /\ int32 (s_paddr s) /\
  (kind_of s = KText \/ kind_of s = KData -> 0 <= s_scnptr s /\ s_scnptr s + s_size s <= lenZ coff).

(** The headers of a COFF file. *)
Definition coff_nscns (coff : list Z) : Z := short_at coff 2.
Definition coff_sections (coff : list Z) : list scnhdr :=
  sections_of (slice coff 76 (coff_nscns coff * sizeof_scnhdr)) (coff_nscns coff).

(** A COFF file as the linker makes it for Nachos: code at address 0, at most one section of
    data right behind it and at most one of uninitialised data. *)
Record coff_ok (coff : list Z) (t : scnhdr) : Prop := {
  co_bytes : Forall byte coff;
  co_length : 76 + coff_nscns coff * sizeof_scnhdr <= lenZ coff;
  co_magic : short_at coff 0 = MIPSELMAGIC;
  co_omagic : short_at coff 20 = OMAGIC;
  co_secs : Forall (sec_ok coff) (coff_sections coff);
  co_text : of_kind KText (coff_sections coff) = [t] /\ s_paddr t = 0;
  co_data : (length (of_kind KData (coff_sections coff)) <= 1)%nat /\ Forall (fun d => s_paddr d = s_size t) (of_kind KData (coff_sections coff));
  co_bss : (length (of_kind KBss (coff_sections coff)) <= 1)%nat;
  co_total : total_size (coff_sections coff) + sizeof_NoffHeader + UserStackSize + PageSize <= int32_max }.

(** ** The loop *)

(** [g] is the segment of the only section of a list, at its place behind the header. *)
Definition placed (coff body : list Z) (secs : list scnhdr) (g0 g : Segment) : Prop :=
  match secs with
  | [] => g = g0
  | s :: _ => virtualAddr g = s_paddr s /\ seg_size g = s_size s /\ 40 <= inFileAddr g /\
      inFileAddr g - 40 + s_size s <= lenZ body /\ slice body (inFileAddr g - 40) (s_size s) = raw coff s
  end.

Lemma of_kind_cons k s secs : of_kind k (s :: secs) = if decide (kind_of s = k) then s :: of_kind k secs else of_kind k secs.
Proof. unfold of_kind. by rewrite filter_cons. Qed.

Lemma total_size_nonneg coff secs : Forall (sec_ok coff) secs -> 0 <= total_size secs.
Proof. induction 1 as [|s secs [Hs _] _ IH]; cbn [total_size foldr]; [lia|]. unfold total_size in IH. lia. Qed.

Lemma read_section_ok coff pos s :
  sec_ok coff s -> kind_of s = KText \/ kind_of s = KData ->
  exists pos', read_section coff pos s = Ok (Some (raw coff s), pos') /\ lenZ (raw coff s) = s_size s.
Proof.
  intros (H0 & _ & _ & Hp) Hk. destruct (Hp Hk) as [Hp0 Hp1]. unfold read_section, Read. rewrite (proj2 (Z.ltb_ge (s_scnptr s) 0)) by lia.
  rewrite (proj2 (Z.ltb_ge (s_size s) 0)) by lia. cbv zeta.
  assert (Hl : lenZ (slice coff (s_scnptr s) (s_size s)) = s_size s) by (apply lenZ_slice; lia). rewrite Hl, Z.eqb_refl. cbn [mbind outcome_bind]. by eexists.
Qed.

(** The state of the loop after all sections. *)
Record copied_to (coff : list Z) (secs : list scnhdr) (h : NoffHeader) (body : list Z) (h' : NoffHeader) (body' : list Z) : Prop := {
  ct_body : exists extra, body' = body ++ extra /\ lenZ extra <= total_size secs;
  ct_magic : noffMagic h' = noffMagic h;
  ct_code : placed coff body' (of_kind KText secs) (code h) (code h');
  ct_data : placed coff body' (of_kind KData secs) (initData h) (initData h');
  ct_bss : match of_kind KBss secs with [] => uninitData h' = uninitData h | s :: _ => virtualAddr (uninitData h') = s_paddr s /\ seg_size (uninitData h') = s_size s /\ inFileAddr (uninitData h') = inFileAddr (uninitData h) end }.

(** A segment placed by the first section stays where it is. *)
Lemma placed_front coff body body' secs s g0 g :
  (length (s :: secs) <= 1)%nat -> (exists extra, body' = body ++ raw coff s ++ extra) -> lenZ (raw coff s) = s_size s -> 0 <= s_size s ->
  placed coff body' secs (mkSegment (s_paddr s) (40 + lenZ body) (s_size s)) g -> placed coff body' (s :: secs) g0 g.
Proof.
  intros Hl (extra & ->) Hr Hs. destruct secs as [|]; [|simpl in Hl; lia]. intros ->. cbn [placed virtualAddr seg_size inFileAddr].
  replace (40 + lenZ body - 40) with (lenZ body) by lia. pose proof (lenZ_nonneg body). pose proof (lenZ_nonneg extra).
  conjs; [done..|lia|rewrite !lenZ_app; lia|]. rewrite app_assoc, slice_app_front by (rewrite ?lenZ_app; lia). by apply slice_app_back.
Qed.

(** The header after a section of each kind. *)
Definition with_code (h : NoffHeader) (g : Segment) : NoffHeader := mkNoff (noffMagic h) g (initData h) (uninitData h).
Definition with_data (h : NoffHeader) (g : Segment) : NoffHeader := mkNoff (noffMagic h) (code h) g (uninitData h).
Definition with_bss (h : NoffHeader) (g : Segment) : NoffHeader := mkNoff (noffMagic h) (code h) (initData h) g.

Lemma copy_section_step coff s secs pos h body :
  sec_ok coff s -> 40 + lenZ body + s_size s <= int32_max ->
  (kind_of s = KData -> seg_size (initData h) = 0) -> (kind_of s = KBss -> seg_size (uninitData h) = 0) ->
  exists pos', copy_sections coff (s :: secs) pos (40 + lenZ body) h body =
    match kind_of s with
    | KText => copy_sections coff secs pos' (40 + lenZ (body ++ raw coff s)) (with_code h (mkSegment (s_paddr s) (40 + lenZ body) (s_size s))) (body ++ raw coff s)
    | KData => copy_sections coff secs pos' (40 + lenZ (body ++ raw coff s)) (with_data h (mkSegment (s_paddr s) (40 + lenZ body) (s_size s))) (body ++ raw coff s)
    | KBss => copy_sections coff secs pos' (40 + lenZ body) (with_bss h (mkSegment (s_paddr s) (inFileAddr (uninitData h)) (s_size s))) body
    | _ => copy_sections coff secs pos' (40 + lenZ body) h body
    end.
Proof.
  intros Hs Hmax Hd Hb. pose proof (read_section_ok coff pos s Hs) as HR. destruct Hs as (Hs0 & Hku & _ & _). pose proof (lenZ_nonneg body).
  assert (Hw : wrap_s32 (40 + lenZ body + s_size s) = 40 + (lenZ body + s_size s)) by (rewrite wrap_s32_id; [lia|unfold_int32; lia]).
  unfold kind_of in *. cbn [copy_sections]. destruct (Z.eqb_spec (s_size s) 0); [by exists pos|].
  destruct (is_text s).
  { destruct HR as (pos' & -> & HL); [by left|]. exists pos'. cbn [mbind outcome_bind]. by rewrite Hw, lenZ_app, HL. }
  destruct (is_data s).
  { destruct HR as (pos' & -> & HL); [by right|]. exists pos'. rewrite Hd by done. cbn [Z.eqb negb mbind outcome_bind]. by rewrite Hw, lenZ_app, HL. }
  destruct (is_bss s); [|done]. exists pos. rewrite Hb by done. done.
Qed.

Ltac kinds :=
  repeat match goal with
  | H : context [decide (?a = ?b)] |- _ => first [rewrite (decide_True (P := a = b)) in H by done | rewrite (decide_False (P := a = b)) in H by done]
  | |- context [decide (?a = ?b)] => first [rewrite (decide_True (P := a = b)) by done | rewrite (decide_False (P := a = b)) by done]
  end.

Lemma copy_sections_ok coff secs pos h body :
  Forall (sec_ok coff) secs -> (length (of_kind KText secs) <= 1)%nat -> (length (of_kind KData secs) <= 1)%nat -> (length (of_kind KBss secs) <= 1)%nat ->
  (of_kind KData secs <> [] -> seg_size (initData h) = 0) -> (of_kind KBss secs <> [] -> seg_size (uninitData h) = 0) ->
  40 + lenZ body + total_size secs <= int32_max ->
  exists h' body', copy_sections coff secs pos (40 + lenZ body) h body = Ok (Some (h', body')) /\ copied_to coff secs h body h' body'.
Proof.
  intros Hsecs. revert pos h body. induction Hsecs as [|s secs Hs Hsecs IH]; intros pos h body HT HD HB Hd0 Hb0 Htot.
  { exists h, body. split; [done|]. split; try done. exists []. by rewrite app_nil_r. }
  cbn [total_size foldr] in Htot. fold (total_size secs) in Htot. pose proof (total_size_nonneg _ _ Hsecs) as Hts.
  pose proof Hs as (Hs0 & Hku & _ & _). rewrite !of_kind_cons in *.
  destruct (copy_section_step coff s secs pos h body Hs) as (pos' & ->); [lia|intros K; apply Hd0; by rewrite decide_True|intros K; apply Hb0; by rewrite decide_True|].
  assert (Hraw : kind_of s = KText \/ kind_of s = KData -> lenZ (raw coff s) = s_size s) by (intros K; by destruct (read_section_ok coff pos s Hs K) as (? & _ & ?)).
  destruct (kind_of s) eqn:K; [| | | |done]; kinds; simpl length in *.
  - destruct (IH pos' h body) as (h' & body' & E & [C1 C2 C3 C4 C5]); [done..|lia|]. exists h', body'. split; [exact E|].
    split; rewrite ?of_kind_cons, ?K; kinds; try done. destruct C1 as (extra & -> & Hl). exists extra. split; [done|]. cbn [total_size foldr]. unfold total_size in Hl. lia.
  - destruct (IH pos' (with_code h (mkSegment (s_paddr s) (40 + lenZ body) (s_size s))) (body ++ raw coff s)) as (h' & body' & E & [C1 C2 C3 C4 C5]);
      [lia|done..|rewrite lenZ_app, Hraw by auto; lia|].
    exists h', body'. split; [exact E|]. destruct C1 as (extra & Hb' & Hl). rewrite <- app_assoc in Hb'.
    split; rewrite ?of_kind_cons, ?K; kinds; try done.
    + exists (raw coff s ++ extra). split; [done|]. rewrite lenZ_app, Hraw by auto. cbn [total_size foldr]. unfold total_size in Hl. lia.
    + apply (placed_front coff body); [done|by exists extra|auto|done|]. exact C3.
  - destruct (IH pos' (with_data h (mkSegment (s_paddr s) (40 + lenZ body) (s_size s))) (body ++ raw coff s)) as (h' & body' & E & [C1 C2 C3 C4 C5]);
      [done|lia|done|intros Hne; destruct (of_kind KData secs); [done|simpl in HD; lia]|done|rewrite lenZ_app, Hraw by auto; lia|].
    exists h', body'. split; [exact E|]. destruct C1 as (extra & Hb' & Hl). rewrite <- app_assoc in Hb'.
    split; rewrite ?of_kind_cons, ?K; kinds; try done.
    + exists (raw coff s ++ extra). split; [done|]. rewrite lenZ_app, Hraw by auto. cbn [total_size foldr]. unfold total_size in Hl. lia.
    + apply (placed_front coff body); [done|by exists extra|auto|done|]. exact C4.
  - assert (HB0 : of_kind KBss secs = []) by (destruct (of_kind KBss secs); [done|simpl in HB; lia]).
    destruct (IH pos' (with_bss h (mkSegment (s_paddr s) (inFileAddr (uninitData h)) (s_size s))) body) as (h' & body' & E & [C1 C2 C3 C4 C5]);
      [done..|rewrite HB0; simpl; lia|done|by rewrite HB0|lia|].
    exists h', body'. split; [exact E|]. destruct C1 as (extra & -> & Hl). rewrite HB0 in C5.
    split; rewrite ?of_kind_cons, ?K; kinds; try done.
    + exists extra. split; [done|]. cbn [total_size foldr]. unfold total_size in Hl. lia.
    + cbn. by rewrite C5.
Qed.

(** ** The header *)

Definition segment_ints (s : Segment) : Prop := int32 (virtualAddr s) /\ int32 (inFileAddr s) /\ int32 (seg_size s).
Definition header_ints (h : NoffHeader) : Prop :=
  int32 (noffMagic h) /\ segment_ints (code h) /\ segment_ints (initData h) /\ segment_ints (uninitData h).

Lemma header_round_trip h : header_ints h -> NoffHeader_of_bytes (NoffHeader_to_bytes h) = h.
Proof.
  destruct h as [mg [a b c] [d e f] [x y z]]. unfold header_ints, segment_ints. cbn [noffMagic code initData uninitData virtualAddr inFileAddr seg_size].
  intros (H1 & (H2 & H3 & H4) & (H5 & H6 & H7) & (H8 & H9 & H10)).
  change (NoffHeader_of_bytes (NoffHeader_to_bytes _)) with
    (mkNoff (wrap_s32 (le_combine (le_split 4 mg)))
      (mkSegment (wrap_s32 (le_combine (le_split 4 a))) (wrap_s32 (le_combine (le_split 4 b))) (wrap_s32 (le_combine (le_split 4 c))))
      (mkSegment (wrap_s32 (le_combine (le_split 4 d))) (wrap_s32 (le_combine (le_split 4 e))) (wrap_s32 (le_combine (le_split 4 f))))
      (mkSegment (wrap_s32 (le_combine (le_split 4 x))) (wrap_s32 (le_combine (le_split 4 y))) (wrap_s32 (le_combine (le_split 4 z))))).
  rewrite !le_combine_split4, !wrap_s32_wrap_u32, !wrap_s32_id by done. done.
Qed.

Lemma lenZ_header h : lenZ (NoffHeader_to_bytes h) = 40.
Proof. done. Qed.

(** The loader reads back the header that was written. *)
Lemma read_header_ok h body storage :
  header_ints h -> noffMagic h = NOFFMAGIC -> lenZ storage = 40 -> read_header (NoffHeader_to_bytes h ++ body) storage = Ok h.
Proof.
  intros Hh Hm Hs. unfold read_header, OpenFile_ReadAt_stub. cbn [Z.leb ASSERT mbind outcome_bind]. change (0 <=? 0) with true. cbn [ASSERT mbind outcome_bind].
  change (40 <? 0) with false. cbv iota. cbn [mbind outcome_bind]. rewrite slice_app_front by (rewrite ?lenZ_header; lia). rewrite slice_all by done.
  assert (Hsp : splice storage 0 (NoffHeader_to_bytes h) = NoffHeader_to_bytes h).
  { unfold splice. simpl take. rewrite drop_ge by (unfold lenZ in Hs; change (length (NoffHeader_to_bytes h)) with 40%nat; lia). by rewrite app_nil_r. }
  cbv zeta. rewrite Hsp, header_round_trip by done. rewrite Hm, Z.eqb_refl. cbn [negb andb]. cbv iota. by rewrite Hm.
Qed.

(** ** The whole program *)

Lemma total_of_kinds coff secs :
  Forall (sec_ok coff) secs ->
  total_size (of_kind KText secs) + total_size (of_kind KData secs) + total_size (of_kind KBss secs) = total_size secs.
Proof.
  induction 1 as [|s secs (H0 & Hk & _) _ IH]; [done|]. rewrite !of_kind_cons. destruct (kind_of s) eqn:K; [| | | |done]; kinds; cbn [total_size foldr];
    fold (total_size secs); fold (total_size (of_kind KText secs)); fold (total_size (of_kind KData secs)); fold (total_size (of_kind KBss secs)); try lia.
  unfold kind_of in K. destruct (Z.eqb_spec (s_size s) 0); [lia|]. repeat (case_match; [done|]). done.
Qed.

Lemma short_slice bs off n i : 0 <= off -> 0 <= i -> i + 2 <= n -> short_at (slice bs off n) i = short_at bs (off + i).
Proof. intros. unfold short_at. by rewrite slice_slice by lia. Qed.

(** What the converter makes of a good file. *)
Lemma coff2noff_ok coff t junk :
  coff_ok coff t -> header_ints junk ->
  exists h body, coff2noff coff junk = Ok (Some (NoffHeader_to_bytes h ++ body)) /\ copied_to coff (coff_sections coff) (with_sizes_0 junk) [] h body.
Proof.
  intros [Hby Hlen Hm Hom Hsecs [Ht _] [Hd _] Hb Htot] Hj.
  assert (Hn : 0 <= coff_nscns coff) by (unfold coff_nscns, short_at; pose proof (le_combine_bound (slice coff 2 2) ltac:(by apply Forall_slice)); lia).
  unfold sizeof_scnhdr, sizeof_NoffHeader, UserStackSize, PageSize, SectorSize in *.
  assert (HR : forall pos n, 0 <= pos -> 0 <= n -> pos + n <= lenZ coff -> Read coff pos n = Ok (Some (slice coff pos n))).
  { intros pos n Hp0 Hn0 Hpn. unfold Read. rewrite (proj2 (Z.ltb_ge n 0)) by lia. cbv zeta. rewrite lenZ_slice by lia. by rewrite Z.eqb_refl. }
  unfold coff2noff, sizeof_filehdr, sizeof_aouthdr, sizeof_scnhdr, sizeof_NoffHeader. rewrite !HR by lia. cbn [mbind outcome_bind]. cbv zeta.
  unfold filehdr_of_bytes. cbn [f_magic f_nscns]. rewrite !short_slice by lia. change (0 + 0) with 0. change (0 + 2) with 2. change (20 + 0) with 20. change (20 + 56) with 76. rewrite Hm, Hom, !Z.eqb_refl. cbn [negb].
  fold (coff_nscns coff). rewrite HR by lia. cbn [mbind outcome_bind].
  change (sections_of (slice coff 76 (coff_nscns coff * 40)) (coff_nscns coff)) with (coff_sections coff).
  destruct (copy_sections_ok coff (coff_sections coff) (76 + coff_nscns coff * 40) (with_sizes_0 junk) []) as (h & body & E & C);
    [done|by rewrite Ht|done..|unfold lenZ; cbn [length]; lia|].
  change (40 + lenZ []) with 40 in E. rewrite E. cbn [mbind outcome_bind]. by exists h, body.
Qed.

(** The converted file is one the loader can load. *)
Lemma converted_noff coff t junk h body :
  coff_ok coff t -> header_ints junk -> copied_to coff (coff_sections coff) (with_sizes_0 junk) [] h body ->
  header_ints h /\ noffMagic h = NOFFMAGIC /\ noff_ok (NoffHeader_to_bytes h ++ body) h /\
  space_pages h = divRoundUp (total_size (coff_sections coff) + UserStackSize) PageSize /\
  seg_size (code h) = s_size t /\ seg_size (initData h) = total_size (of_kind KData (coff_sections coff)).
Proof.
  intros [Hby Hlen Hm Hom Hsecs [Ht Ht0] [Hd _] Hb Htot] (J1 & J2 & J3 & J4) [(extra & Hbody & Hbl) Hmg Hc Hda Hbs].
  pose proof (total_of_kinds _ _ Hsecs) as Hk. rewrite app_nil_l in Hbody. subst extra. rewrite Ht in *. cbn [placed] in Hc. destruct Hc as (C1 & C2 & C3 & C4 & _).
  assert (HF : forall k s, s ∈ of_kind k (coff_sections coff) -> 0 <= s_size s /\ int32 (s_paddr s)).
  { intros k s Hin. unfold of_kind in Hin. apply list_elem_of_filter in Hin as [_ Hin]. rewrite Forall_forall in Hsecs. by destruct (Hsecs s Hin) as (? & _ & ? & _). }
  assert (HT : 0 <= s_size t /\ int32 (s_paddr t)) by (apply (HF KText); rewrite Ht; left).
  pose proof (lenZ_nonneg body) as Hbl0. unfold sizeof_NoffHeader, UserStackSize, PageSize, SectorSize, segment_ints in *.
  assert (HD : 0 <= total_size (of_kind KData (coff_sections coff)) /\ seg_size (initData h) = total_size (of_kind KData (coff_sections coff)) /\
    int32 (virtualAddr (initData h)) /\ int32 (inFileAddr (initData h)) /\
    (seg_size (initData h) = 0 \/ (0 <= inFileAddr (initData h) /\ inFileAddr (initData h) + seg_size (initData h) <= 40 + lenZ body))).
  { pose proof (HF KData) as HFd. destruct (of_kind KData (coff_sections coff)) as [|d [|]]; cbn [placed total_size foldr] in *; [| |cbn [length] in Hd; lia].
    - rewrite Hda. destruct J3 as (? & ? & ?). cbn. conjs; [lia|done..|by left].
    - destruct (HFd d ltac:(left)) as [? ?]. destruct Hda as (D1 & D2 & D3 & D4 & _). rewrite D1, D2. conjs; [lia|lia|done|unfold_int32; lia|right; lia]. }
  assert (HB : 0 <= total_size (of_kind KBss (coff_sections coff)) /\ seg_size (uninitData h) = total_size (of_kind KBss (coff_sections coff)) /\
    int32 (virtualAddr (uninitData h)) /\ int32 (inFileAddr (uninitData h))).
  { pose proof (HF KBss) as HFb. destruct (of_kind KBss (coff_sections coff)) as [|d [|]]; cbn [total_size foldr] in *; [| |cbn [length] in Hb; lia].
    - rewrite Hbs. destruct J4 as (? & ? & ?). cbn. conjs; [lia|done..].
    - destruct (HFb d ltac:(left)) as [? ?]. destruct Hbs as (D1 & D2 & D3). rewrite D1, D2, D3. destruct J4 as (? & ? & ?). cbn. conjs; [lia|lia|done|done]. }
  destruct HD as (D0 & D1 & D2 & D3 & D4), HB as (B0 & B1 & B2 & B3). cbn [total_size foldr] in Hk. rewrite Z.add_0_r in Hk.
  unfold header_ints, segment_ints. conjs.
  - rewrite Hmg. done.
  - rewrite C1. tauto.
  - unfold_int32. lia.
  - rewrite C2. unfold_int32. lia.
  - done.
  - done.
  - rewrite D1. unfold_int32. lia.
  - done.
  - done.
  - rewrite B1. unfold_int32. lia.
  - by rewrite Hmg.
  - split; rewrite ?lenZ_app, ?lenZ_header; unfold UserStackSize, PageSize, SectorSize; lia.
  - unfold space_pages, UserStackSize, PageSize, SectorSize. rewrite C2, D1, B1, wrap_u32_id by (unfold_int32; lia). f_equal. lia.
  - exact C2.
  - exact D1.
Qed.

(** The byte that the image of a converted program has at a place of a section. *)
Lemma placed_byte coff h body s g i :
  sec_ok coff s -> kind_of s = KText \/ kind_of s = KData -> placed coff body [s] g g -> 0 <= i < s_size s ->
  (NoffHeader_to_bytes h ++ body).[inFileAddr g + i] = coff.[s_scnptr s + i].
Proof.
  intros (_ & _ & _ & Hp) Hk (_ & _ & P3 & P4 & P5) Hi. destruct (Hp Hk) as [Hp0 Hp1].
  rewrite lookupZ_app_r, lenZ_header by (rewrite ?lenZ_header; lia).
  transitivity ((slice body (inFileAddr g - 40) (s_size s)).[i]); [rewrite lookupZ_slice by lia; f_equal; lia|].
  rewrite P5. unfold raw. by rewrite lookupZ_slice by lia.
Qed.

(** C11: from the linker to the memory of a process.  A good COFF file is converted, and when the
    free frames of the memory are enough for its sections and the stack, whatever other bits
    of the bitmap are free, loading the result gives an address space in which every byte of
    the code and of the data is at its address, and every byte behind them, the
    uninitialised data and the stack, is 0. *)
Theorem coff_program_loads coff t junk storage m bm :
  coff_ok coff t -> header_ints junk -> lenZ storage = 40 -> Machine_wf m -> BitMap_wf bm -> numBits bm <= int32_max ->
  let secs := coff_sections coff in
  let pages := divRoundUp (total_size secs + UserStackSize) PageSize in
  pages <= free_frames bm ->
  exists noff pt mem' bm', coff2noff coff junk = Ok (Some noff) /\
    AddrSpace_load noff storage m bm = Ok (mkAddrSpace (Some pt) pages, set_mainMemory m mem', bm') /\
    (forall s i, s ∈ secs -> kind_of s = KText \/ kind_of s = KData -> 0 <= i < s_size s -> vbyte mem' pt (s_paddr s + i) = coff.[s_scnptr s + i]) /\
    (forall v, s_size t + total_size (of_kind KData secs) <= v < pages * PageSize -> vbyte mem' pt v = Some 0).
Proof.
  intros Hco Hj Hst Hm Hbm Hnb secs pages Hpages. destruct (coff2noff_ok coff t junk Hco Hj) as (h & body & E & C).
  destruct (converted_noff coff t junk h body Hco Hj C) as (Hi & Hmg & Hok & Hsp & Hcs & Hds). fold secs in Hsp, Hds. fold pages in Hsp.
  destruct (load_image_ok (NoffHeader_to_bytes h ++ body) storage m bm h Hm Hbm Hnb (read_header_ok h body storage Hi Hmg Hst) Hok) as (_ & _ & HL).
  rewrite Hsp in HL. destruct (HL Hpages) as (pt & mem' & bm' & EL & _ & _ & _ & _ & _ & Hv).
  exists (NoffHeader_to_bytes h ++ body), pt, mem', bm'. split; [exact E|]. split; [exact EL|].
  destruct Hco as [_ _ _ _ Hsecs [Ht Ht0] [Hd Hd0] _ _]. fold secs in Hsecs, Ht, Hd, Hd0. destruct (space_pages_fit _ _ Hok) as [Hfit _]. rewrite Hsp, Hcs, Hds in Hfit.
  destruct C as [_ _ Cc Cd _]. fold secs in Cc, Cd. rewrite Ht in Cc.
  pose proof (Forall_forall (sec_ok coff) secs) as [HF _]. specialize (HF Hsecs).
  assert (Hdn : 0 <= total_size (of_kind KData secs)) by (apply (total_size_nonneg coff); apply Forall_forall; intros s Hs; apply list_elem_of_filter in Hs as [_ Hs]; by apply HF).
  assert (Htn : 0 <= s_size t) by (apply (HF t); apply (list_elem_of_filter (fun s => kind_of s = KText)); fold (of_kind KText secs); rewrite Ht; left).
  split.
  - intros s i Hin Hk Hi'. destruct Hk as [Hk|Hk].
    + assert (s = t) as ->. { assert (s ∈ of_kind KText secs) as Hs by (by apply list_elem_of_filter). rewrite Ht in Hs. by apply list_elem_of_singleton in Hs. }
      rewrite Ht0, Z.add_0_l, Hv by lia. unfold program_image. rewrite Hcs, (proj2 (Z.ltb_lt _ _)) by lia.
      apply placed_byte; [by apply HF|by left| |done]. exact Cc.
    + assert (s ∈ of_kind KData secs) as Hs by (by apply list_elem_of_filter). 
      destruct (of_kind KData secs) as [|d [|]] eqn:Ed; [by apply elem_of_nil in Hs| |cbn [length] in Hd; lia]. apply list_elem_of_singleton in Hs as ->.
      apply Forall_cons in Hd0 as [Hd0 _]. cbn [total_size foldr] in *.
      rewrite Hd0, Hv by lia. unfold program_image. rewrite Hcs, (proj2 (Z.ltb_ge (s_size t + i) (s_size t))), Hds, (proj2 (Z.ltb_lt (s_size t + i) _)) by lia.
      replace (s_size t + i - s_size t) with i by lia. apply placed_byte; [by apply HF|by right| |done]. exact Cd.
  - intros v Hv'. rewrite Hv by lia. unfold program_image. rewrite Hcs, Hds, (proj2 (Z.ltb_ge v (s_size t))), (proj2 (Z.ltb_ge v (s_size t + _))) by lia. done.
Qed.

(** Two sections of uninitialised data are refused when they are contiguous, and merged when
    they are not. *)
Lemma contiguous_bss_refused coff s s' pos n h body :
  kind_of s = KBss -> kind_of s' = KBss -> seg_size (uninitData h) = 0 ->
  copy_sections coff [s; s'] pos n h body =
    if s_paddr s' =? wrap_s32 (s_paddr s + s_size s) then Ok None
    else Ok (Some (with_bss h (mkSegment (s_paddr s) (inFileAddr (uninitData h)) (wrap_s32 (s_size s + s_size s'))), body)).
Proof.
  intros K K' H0. unfold kind_of in K, K'. cbn [copy_sections].
  destruct (Z.eqb_spec (s_size s) 0) as [|Hs]; [done|]. destruct (is_text s); [done|]. destruct (is_data s); [done|]. destruct (is_bss s); [|done].
  destruct (Z.eqb_spec (s_size s') 0); [done|]. destruct (is_text s'); [done|]. destruct (is_data s'); [done|]. destruct (is_bss s'); [|done].
  rewrite H0. cbn [Z.eqb negb uninitData seg_size virtualAddr inFileAddr]. by rewrite (proj2 (Z.eqb_neq _ _) Hs).
Qed.

(** A file with one instruction, one word of data and eight bytes of uninitialised data *)
Definition short_bytes (x : Z) : list Z := le_split 2 x.
Definition pad_name (nm : list Z) : list Z := nm ++ replicate (8 - length nm) 0.
Definition section_bytes (nm : list Z) (paddr size scnptr : Z) : list Z :=
  pad_name nm ++ words_to_bytes [paddr; paddr; size; scnptr; 0; 0; 0; 0].
Definition sample_coff : list Z :=
  short_bytes MIPSELMAGIC ++ short_bytes 3 ++ words_to_bytes [0; 0; 0; 0] ++
  short_bytes OMAGIC ++ short_bytes 0 ++ words_to_bytes (replicate 13 0) ++
  section_bytes dot_text 0 4 196 ++ section_bytes dot_data 4 4 200 ++ section_bytes dot_bss 8 8 0 ++
  words_to_bytes [0x0000000c; 77].
Definition sample_text : scnhdr := mkScnhdr (pad_name dot_text) 0 4 196.
Definition junk_header : NoffHeader := mkNoff 1 (mkSegment 2 3 4) (mkSegment 5 6 7) (mkSegment 8 9 10).

Lemma sample_coff_ok : coff_ok sample_coff sample_text.
Proof.
  assert (HS : coff_sections sample_coff = [sample_text; mkScnhdr (pad_name dot_data) 4 4 200; mkScnhdr (pad_name dot_bss) 8 8 0]) by (vm_compute; reflexivity).
  split; rewrite ?HS; [|vm_compute; congruence|reflexivity|reflexivity| | | | |vm_compute; congruence].
  - apply Forall_forall. intros x Hx. assert (HB : forallb (fun b => (0 <=? b) && (b <? 256)) sample_coff = true) by (vm_compute; reflexivity).
    rewrite forallb_forall in HB. apply list_elem_of_In in Hx. apply HB in Hx. unfold byte. lia.
  - repeat constructor; try (vm_compute; congruence); intros _; vm_compute; split; congruence.
  - split; reflexivity.
  - split; [vm_compute; lia|repeat constructor].
  - vm_compute; lia.
Qed.

Lemma coff_program_loads_witness :
  exists noff pt mem' bm', coff2noff sample_coff junk_header = Ok (Some noff) /\
    AddrSpace_load noff (replicate 40 0) (sample_machine [] (sample_regs 0 0 0)) sample_frames =
      Ok (mkAddrSpace (Some pt) 3, set_mainMemory (sample_machine [] (sample_regs 0 0 0)) mem', bm') /\
    vbyte mem' pt 0 = Some 12 /\ vbyte mem' pt 8 = Some 0.
Proof.
  destruct (coff_program_loads sample_coff sample_text junk_header (replicate 40 0) (sample_machine [] (sample_regs 0 0 0)) sample_frames)
    as (noff & pt & mem' & bm' & E & L & Hs & Hz).
  - exact sample_coff_ok.
  - unfold header_ints, segment_ints. cbn. unfold_int32. lia.
  - reflexivity.
  - apply sample_wf; first [vm_compute; done | unfold_int32; lia].
  - exact sample_frames_wf.
  - vm_compute. congruence.
  - vm_compute. congruence.
  - exists noff, pt, mem', bm'. split; [exact E|]. split; [exact L|]. split.
    + refine (eq_trans (Hs sample_text 0 _ (or_introl eq_refl) _) _); [|cbn; lia|reflexivity]. vm_compute. left.
    + apply Hz. vm_compute. split; congruence.
Defined.
