(* ===== verification/Coff2Flat.v ===== *)
(** * From COFF to a flat image (bin/coff2flat.c)

    [coff2flat] is the body of [main] from the reading of the file header on, with the
    structures and the reader of [Coff2Noff]: it gives the bytes of the flat file, or [None]
    when the program exits with 1.  The file grows by the sections in their order, whatever
    their addresses are; [flat_image] says when this gives the image that the comments
    promise, and [flat_misplaces] shows that it does not otherwise. *)

From S2P Require Import Prelude Int32 Machine BitMap AddrSpace Coff2Noff.

Definition flat_StackSize : Z := 1024.

(** [Write] at a position that [lseek] has set: a gap reads as zeros; [lseek] to a negative
    position fails and leaves the file at its end. *)
Definition write_at (out : list Z) (pos : Z) (bs : list Z) : list Z :=
  if pos <? 0 then out ++ bs
  else
    let out := out ++ replicate (Z.to_nat (pos + lenZ bs - lenZ out)) 0 in
    splice out pos bs.

(** The loop over the sections *)
Fixpoint flat_sections (coff : list Z) (secs : list scnhdr) (pos top : Z) (out : list Z) : outcome (option (Z * list Z)) :=
  match secs with
  | [] => Ok (Some (top, out))
  | s :: secs =>
      let end_ := wrap_s32 (s_paddr s + s_size s) in
      let top := if top <? end_ then end_ else top in
      if is_bss s then flat_sections coff secs pos top out
      else
        '(r, pos) ← read_section coff pos s;
        match r with
        | None => Ok None
        | Some bs => flat_sections coff secs pos top (out ++ bs)
        end
  end.

(** [main] *)
Definition coff2flat (coff : list Z) : outcome (option (list Z)) :=
  r ← Read coff 0 sizeof_filehdr;
  match r with
  | None => Ok None
  | Some bs =>
      let fileh := filehdr_of_bytes bs in
      if negb (f_magic fileh =? MIPSELMAGIC) then Ok None
      else
        r ← Read coff sizeof_filehdr sizeof_aouthdr;
        match r with
        | None => Ok None
        | Some bs =>
            if negb (short_at bs 0 =? OMAGIC) then Ok None
            else
              let numsections := f_nscns fileh in
              r ← Read coff (sizeof_filehdr + sizeof_aouthdr) (numsections * sizeof_scnhdr);
              match r with
              | None => Ok None
              | Some bs =>
                  r ← flat_sections coff (sections_of bs numsections) (sizeof_filehdr + sizeof_aouthdr + numsections * sizeof_scnhdr) 0 [];
                  match r with
                  | None => Ok None
                  | Some (top, out) => Ok (Some (write_at out (wrap_s32 (top + flat_StackSize - 4)) [0; 0; 0; 0]))
                  end
              end
        end
  end.

(** ** When the image is right *)

(** The sections with bytes follow each other from [at_] on, in the order of their headers;
    the others may be anywhere. *)
Fixpoint laid_out (coff : list Z) (at_ : Z) (secs : list scnhdr) : Prop :=
  match secs with
  | [] => True
  | s :: secs =>
      0 <= s_size s /\ 0 <= s_paddr s /\ s_paddr s + s_size s + flat_StackSize <= int32_max /\
      if is_bss s then laid_out coff at_ secs
      else s_paddr s = at_ /\ 0 <= s_scnptr s /\ s_scnptr s + s_size s <= lenZ coff /\ laid_out coff (at_ + s_size s) secs
  end.

(** The highest address that a section reaches, and what the sections with bytes hold. *)
Definition highest (secs : list scnhdr) (top : Z) : Z := foldl (fun top s => Z.max top (s_paddr s + s_size s)) top secs.
Definition contents (coff : list Z) (secs : list scnhdr) : list Z :=
  concat (map (raw coff) (List.filter (fun s => negb (is_bss s)) secs)).

Lemma highest_ge secs top : top <= highest secs top.
Proof. revert top. induction secs as [|s secs IH]; intros top; cbn; [lia|]. specialize (IH (Z.max top (s_paddr s + s_size s))). unfold highest in IH. lia. Qed.

Lemma highest_bound coff at_ secs top : laid_out coff at_ secs -> top + flat_StackSize <= int32_max -> highest secs top + flat_StackSize <= int32_max.
Proof.
  revert at_ top. induction secs as [|s secs IH]; intros at_ top Hl Ht; [done|]. cbn [laid_out] in Hl. destruct Hl as (_ & _ & H & Hl).
  assert (exists a, laid_out coff a secs) as [a Ha] by (destruct (is_bss s); [by eexists|by destruct Hl as (_ & _ & _ & ?); eexists]).
  cbn. by apply (IH a); [|lia].
Qed.

Lemma read_raw coff pos s : 0 <= s_size s -> 0 <= s_scnptr s -> s_scnptr s + s_size s <= lenZ coff ->
  read_section coff pos s = Ok (Some (raw coff s), s_scnptr s + s_size s) /\ lenZ (raw coff s) = s_size s.
Proof.
  intros H0 H1 H2. unfold read_section, Read. rewrite (proj2 (Z.ltb_ge _ _) H1), (proj2 (Z.ltb_ge _ _) H0). cbv zeta.
  assert (Hl : lenZ (slice coff (s_scnptr s) (s_size s)) = s_size s) by (apply lenZ_slice; lia). by rewrite Hl, Z.eqb_refl.
Qed.

(** The loop writes the contents, and never beyond [top]. *)
Lemma flat_sections_ok coff secs pos top out : laid_out coff (lenZ out) secs -> lenZ out <= top ->
  flat_sections coff secs pos top out = Ok (Some (highest secs top, out ++ contents coff secs)) /\ lenZ (out ++ contents coff secs) <= highest secs top /\
  forall s, s ∈ secs -> is_bss s = false -> 0 <= s_paddr s /\ 0 <= s_size s /\ s_paddr s + s_size s <= lenZ (out ++ contents coff secs) /\
    slice (out ++ contents coff secs) (s_paddr s) (s_size s) = raw coff s.
Proof.
  revert pos top out. induction secs as [|s secs IH]; intros pos top out Hl Ht.
  { unfold contents. cbn. rewrite app_nil_r. conjs; [done|done|]. intros s Hs. by apply elem_of_nil in Hs. }
  cbn [laid_out] in Hl. destruct Hl as (H0 & H1 & H2 & Hl). cbn [flat_sections]. unfold flat_StackSize in H2.
  rewrite wrap_s32_id by (unfold_int32; lia). cbv zeta.
  replace (if top <? s_paddr s + s_size s then s_paddr s + s_size s else top) with (Z.max top (s_paddr s + s_size s)) by (case_if; to_prop; lia).
  change (highest (s :: secs) top) with (highest secs (Z.max top (s_paddr s + s_size s))). unfold contents. cbn [List.filter].
  destruct (is_bss s) eqn:Eb; cbn [negb].
  - destruct (IH pos (Z.max top (s_paddr s + s_size s)) out Hl ltac:(lia)) as (E & Hle & Hs). conjs; [done|done|].
    intros s' [->|Hs']%elem_of_cons Hb; [congruence|by apply Hs].
  - destruct Hl as (Ha & H3 & H4 & Hl). destruct (read_raw coff pos s H0 H3 H4) as [-> Hr]. cbn [mbind outcome_bind map concat]. rewrite app_assoc.
    destruct (IH (s_scnptr s + s_size s) (Z.max top (s_paddr s + s_size s)) (out ++ raw coff s)) as (E & Hle & Hs); [by rewrite lenZ_app, Hr|rewrite lenZ_app; lia|].
    conjs; [done|done|]. intros s' [->|Hs']%elem_of_cons Hb; [|by apply Hs].
    match goal with |- context [lenZ ((_ ++ _) ++ ?rest)] => pose proof (lenZ_nonneg rest) end. rewrite !lenZ_app. conjs; [done|done|lia|].
    rewrite slice_app_front by (rewrite ?lenZ_app; lia). rewrite Ha. by apply slice_app_back.
Qed.

(** [Write] far behind the end: a gap, then the bytes. *)
Lemma write_behind out pos bs : lenZ out <= pos -> write_at out pos bs = out ++ replicate (Z.to_nat (pos - lenZ out)) 0 ++ bs.
Proof.
  intros H. pose proof (lenZ_nonneg out) as H0. pose proof (lenZ_nonneg bs) as H1. unfold write_at. rewrite (proj2 (Z.ltb_ge _ _)) by lia. cbv zeta. unfold splice, lenZ in *.
  replace (Z.to_nat (pos + Z.of_nat (length bs) - Z.of_nat (length out))) with (Z.to_nat (pos - Z.of_nat (length out)) + length bs)%nat by lia.
  rewrite replicate_add, !app_assoc. set (n := Z.to_nat (pos - Z.of_nat (length out))). assert (Hz : length (out ++ replicate n 0) = Z.to_nat pos) by (rewrite length_app, length_replicate; lia).
  rewrite <- Hz, take_app_length, drop_ge by (rewrite !length_app, !length_replicate; lia). by rewrite app_nil_r.
Qed.

(** The flat file is the image of the program.  When the sections with bytes follow each
    other from address 0 in the order of their headers, the converter ends, every one of them is
    in the file at its address, everything behind them is zero, and the file ends 1024 bytes
    behind the highest address of a section. *)
Theorem flat_image coff :
  Forall byte coff -> 76 + coff_nscns coff * sizeof_scnhdr <= lenZ coff -> short_at coff 0 = MIPSELMAGIC -> short_at coff 20 = OMAGIC ->
  laid_out coff 0 (coff_sections coff) ->
  exists flat, coff2flat coff = Ok (Some flat) /\ lenZ flat = highest (coff_sections coff) 0 + 1024 /\
    (forall s, s ∈ coff_sections coff -> is_bss s = false -> slice flat (s_paddr s) (s_size s) = raw coff s) /\
    (forall k, lenZ (contents coff (coff_sections coff)) <= k < lenZ flat -> flat.[k] = Some 0).
Proof.
  intros Hby Hl Hm Ho Hs. unfold sizeof_scnhdr in Hl.
  assert (Hn : 0 <= coff_nscns coff) by (unfold coff_nscns, short_at; apply le_combine_bound; by apply Forall_slice).
  assert (HR : forall pos n, 0 <= pos -> 0 <= n -> pos + n <= lenZ coff -> Read coff pos n = Ok (Some (slice coff pos n))).
  { intros pos k Hp0 Hn0 Hpn. unfold Read. rewrite (proj2 (Z.ltb_ge k 0)) by lia. cbv zeta. rewrite lenZ_slice by lia. by rewrite Z.eqb_refl. }
  unfold coff2flat, sizeof_filehdr, sizeof_aouthdr, sizeof_scnhdr. rewrite !HR by lia. cbn [mbind outcome_bind]. cbv zeta.
  unfold filehdr_of_bytes. cbn [f_magic f_nscns]. rewrite !short_slice by lia. change (0 + 0) with 0. change (0 + 2) with 2. change (20 + 0) with 20. change (20 + 56) with 76.
  rewrite Hm, Ho, !Z.eqb_refl. cbn [negb]. fold (coff_nscns coff). rewrite HR by lia. cbn [mbind outcome_bind].
  change (sections_of (slice coff 76 (coff_nscns coff * 40)) (coff_nscns coff)) with (coff_sections coff). set (secs := coff_sections coff) in *.
  destruct (flat_sections_ok coff secs (76 + coff_nscns coff * 40) 0 []) as (E & Hle & Hsl); [done|done|]. rewrite E. cbn [mbind outcome_bind].
  change ([] ++ contents coff secs) with (contents coff secs) in *. pose proof (highest_bound coff 0 secs 0 Hs ltac:(vm_compute; discriminate)) as Hb. unfold flat_StackSize in *.
  pose proof (lenZ_nonneg (contents coff secs)) as H0. rewrite wrap_s32_id, write_behind by (unfold_int32; lia).
  eexists. split; [reflexivity|]. set (c := contents coff secs) in *. set (z := replicate (Z.to_nat (highest secs 0 + 1024 - 4 - lenZ c)) 0).
  assert (Hz : lenZ z = highest secs 0 + 1020 - lenZ c) by (unfold z, lenZ; rewrite length_replicate; unfold lenZ in *; lia). conjs.
  - rewrite !lenZ_app, Hz. change (lenZ [0; 0; 0; 0]) with 4. lia.
  - intros s Hin Hb'. destruct (Hsl s Hin Hb') as (A0 & A1 & A2 & <-). by apply slice_app_front.
  - intros k Hk. destruct (lookupZ_range (c ++ z ++ [0; 0; 0; 0]) k ltac:(lia)) as [x Hx]. rewrite Hx. f_equal.
    rewrite lookupZ_app_r in Hx by lia. apply lookupZ_elem_of, elem_of_app in Hx as [Hx|Hx].
    + by apply elem_of_replicate in Hx as [-> _].
    + apply list_elem_of_In in Hx. by repeat destruct Hx as [<-|Hx].
Qed.

Lemma flat_image_witness :
  exists flat, coff2flat sample_coff = Ok (Some flat) /\ lenZ flat = 16 + 1024 /\ slice flat 0 4 = [12; 0; 0; 0] /\ slice flat 4 4 = [77; 0; 0; 0] /\ flat.[8] = Some 0.
Proof.
  assert (HS : coff_sections sample_coff = [sample_text; mkScnhdr (pad_name dot_data) 4 4 200; mkScnhdr (pad_name dot_bss) 8 8 0]) by (vm_compute; reflexivity).
  destruct (flat_image sample_coff) as (flat & E & Hl & Hs & Hz).
  - apply (bool_decide_unpack _). vm_compute. exact I.
  - vm_compute. discriminate.
  - reflexivity.
  - reflexivity.
  - rewrite HS. vm_compute. repeat split; discriminate.
  - rewrite HS in Hl, Hs, Hz. exists flat. split; [exact E|]. split; [exact Hl|].
    split; [|split].
    + apply (Hs sample_text); [constructor|reflexivity].
    + apply (Hs (mkScnhdr (pad_name dot_data) 4 4 200)); [do 2 constructor|reflexivity].
    + apply Hz. rewrite Hl. vm_compute. split; [discriminate|reflexivity].
Defined.

(** A gap between the sections is lost: here the word of data belongs to address 8 and is at
    address 4 of the file. *)
Definition gap_coff : list Z :=
  short_bytes MIPSELMAGIC ++ short_bytes 2 ++ words_to_bytes [0; 0; 0; 0] ++
  short_bytes OMAGIC ++ short_bytes 0 ++ words_to_bytes (replicate 13 0) ++
  section_bytes dot_text 0 4 156 ++ section_bytes dot_data 8 4 160 ++ words_to_bytes [0x0000000c; 77].
Theorem flat_misplaces :
  exists flat, coff2flat gap_coff = Ok (Some flat) /\ slice flat 8 4 = [0; 0; 0; 0] /\ slice flat 4 4 = [77; 0; 0; 0].
Proof. eexists. split; [vm_compute; reflexivity|]. vm_compute. done. Qed.
