(* ===== verification/ThreadTest.v ===== *)
(** * The thread test (threads/threadtest.cc, and how threads/main.cc runs it)

    The first program that runs on top of the thread system: [main] forks one
    thread and both run [SimpleThread].  It is modelled on top of Threads.v (the
    scheduler) and Interrupts.v (the interrupt level and the clock): the world of
    the interrupt simulator is the kernel, the code each thread has left, and
    what was printed.  A step is what one thread does between two points where
    the scheduler can take over.  The theorems are about any group of threads
    that all run [SimpleThread]: the kernel runs them round robin and halts. *)

From Equations Require Import Equations.
From S2P Require Import Prelude Int32 Machine AddrSpace Interrupts Threads.

(** What a thread has left to do: the loop of [SimpleThread(which)] at [num], or
    only the [Finish] after it ([ThreadFinish] from [ThreadRoot], or the end of
    [main]). *)
Inductive code := Loop (which num : Z) | Return.

(** What [printf] shows. *)
Inductive line := Looped (which num : Z) | NoTestSpecified.

(** The locals of a thread: its code and [oldLevel] of [Thread::Yield]. *)
Record frame := mkFrame { f_code : code; f_oldLevel : IntStatus }.

(** Everything that the interrupt simulator does not touch. *)
Record World := mkWorld {
  kernel : Kernel;
  frames : gmap positive frame;
  printed : list line }.

(** ** The abstract scheduler: a queue of jobs *)

(** A job: the code a thread has left and where it is. *)
Notation job := (code * resume_point)%type.

(** The threads that can run, the running one first. *)
Definition run_queue (k : Kernel) : list positive :=
  if idle k then [] else currentThread k :: readyList k.

Definition lines_left (c : code) : nat := match c with Loop _ num => Z.to_nat (5 - num) | Return => 0 end.
Definition entered (a : resume_point) : bool := bool_decide (a = InThread).

(** The steps and the clock ticks a job still takes. *)
Definition job_work (j : job) : nat := 2 * S (lines_left j.1) - (if entered j.2 then 1 else 0).
Definition job_ticks (j : job) : Z := Z.of_nat (lines_left j.1) + (if entered j.2 then 0 else 1).
Definition work (js : list job) : nat := sum_list_with job_work js.
Definition ticks (js : list job) : Z := foldr (fun j n => job_ticks j + n) 0 js.

(** The lines that a queue of threads prints when each in turn prints one line and
    goes to the end of the queue, until it has no more to print. *)
Equations round_robin (q : list code) : list line by wf (sum_list_with (fun c => S (lines_left c)) q) lt :=
  round_robin [] := [];
  round_robin (Return :: q) := round_robin q;
  round_robin (Loop which num :: q) with Z_lt_dec num 5 := {
    | left _ => Looped which num :: round_robin (q ++ [Loop which (num + 1)]);
    | right _ => round_robin q }.
Next Obligation. intros. rewrite sum_list_with_app. simpl. lia. Qed.
Next Obligation. intros. simpl. lia. Qed.
Next Obligation. intros. simpl. lia. Qed.

Lemma round_robin_loop w n q :
  n < 5 -> round_robin (Loop w n :: q) = Looped w n :: round_robin (q ++ [Loop w (n + 1)]).
Proof. intros Hn. simp round_robin. destruct (Z_lt_dec n 5); [done|lia]. Qed.

Lemma round_robin_end w n q : 5 <= n -> round_robin (Loop w n :: q) = round_robin q.
Proof. intros Hn. simp round_robin. destruct (Z_lt_dec n 5); [lia|done]. Qed.

Lemma work_app js1 js2 : work (js1 ++ js2) = (work js1 + work js2)%nat.
Proof. apply sum_list_with_app. Qed.

Lemma ticks_app js1 js2 : ticks (js1 ++ js2) = ticks js1 + ticks js2.
Proof. induction js1 as [|j js1 IH]; simpl; [lia|]. unfold ticks in *. simpl. lia. Qed.

Lemma ticks_one j : ticks [j] = job_ticks j.
Proof. unfold ticks. simpl. lia. Qed.

Lemma ticks_nonneg js : 0 <= ticks js.
Proof. induction js as [|j js IH]; [done|]. unfold ticks, job_ticks in *. simpl. destruct (entered j.2); lia. Qed.

#[local] Arguments ticks : simpl never.
#[local] Arguments work : simpl never.

(** ** What the scheduler does to the queue *)

Lemma Yield_rotates k t r :
  kernel_wf k -> in_thread k -> readyList k = t :: r ->
  exists k', Thread_Yield k = Ok k' /\ kernel_wf k' /\ run_queue k' = t :: r ++ [currentThread k] /\
    at_ <$> threads k' !! currentThread k = Some InYield /\
    forall u, u <> currentThread k -> at_ <$> threads k' !! u = at_ <$> threads k !! u.
Proof.
  intros Hwf Hit Hr. destruct (wf_in_thread k Hwf Hit) as [Hinv (th & Hc & Hst & Ha)].
  unfold Thread_Yield, Scheduler_FindNextToRun. rewrite Hr in *.
  apply kinv_take in Hinv. assert (t <> currentThread k) as Hne.
  { intros ->. destruct (ki_taken _ _ _ _ _ _ Hinv _ eq_refl) as [_ (? & ? & ? & _)]. congruence. }
  unfold Scheduler_ReadyToRun. rewrite (upd_thread_ok _ _ th) by done. cbn [mbind outcome_bind].
  rewrite (upd_thread_ok _ _ (with_status th READY)) by (simpl; by rewrite lookup_insert_eq). cbn [mbind outcome_bind].
  match goal with |- context [Scheduler_Run ?k1 t] => destruct (Run_ok k1 t) as (k' & E & Hwf' & Hr' & _ & Hc' & Hi' & _) end; simpl.
  - rewrite insert_insert_eq. apply kinv_yield; [done..|congruence].
  - rewrite lookup_insert_eq. by eexists.
  - apply Hwf.
  - exists k'. conjs; [exact E|done| | |].
    + unfold run_queue. by rewrite Hi', Hc', Hr'.
    + destruct (Run_frame _ _ _ (currentThread k) E) as [_ ->]. simpl. by rewrite lookup_insert_eq.
    + intros u Hu. destruct (Run_frame _ _ _ u E) as [_ ->]. simpl. by rewrite !lookup_insert_ne.
Qed.

Lemma Finish_drops k :
  kernel_wf k -> in_thread k ->
  exists k', Thread_Finish k = Ok k' /\ kernel_wf k' /\ run_queue k' = readyList k /\
    forall u, u <> currentThread k -> at_ <$> threads k' !! u = at_ <$> threads k !! u.
Proof.
  intros Hwf Hit. destruct (Finish_ok k Hwf Hit) as (k' & E & Hwf' & _). exists k'. conjs; [done..| |].
  - destruct (wf_in_thread k Hwf Hit) as [Hinv (th & Hc & Hst & Ha)]. unfold Thread_Finish, Thread_Sleep in E.
    rewrite (upd_thread_ok _ _ th) in E by done. cbn [mbind outcome_bind] in E.
    unfold dispatch, Scheduler_FindNextToRun in E. simpl readyList in E. unfold run_queue.
    destruct (readyList k) as [|t r] eqn:Er; [by injection E as <-|].
    pose proof (kinv_finish _ _ _ _ _ _ Hinv Hc Ha) as Hinv'. apply kinv_take in Hinv'.
    match type of E with Scheduler_Run ?k1 t = _ => destruct (Run_ok k1 t) as (k2 & E2 & _ & Hr2 & _ & Hc2 & Hi2 & _) end; simpl.
    + exact Hinv'.
    + rewrite lookup_insert_eq. by eexists.
    + apply Hwf.
    + rewrite E2 in E. injection E as <-. by rewrite Hi2, Hc2, Hr2.
  - intros u Hu. pose proof (view_Sleep _ _ _ u E Hu) as Hv. unfold view in Hv. simpl in Hv.
    apply (f_equal (fmap (fun v => v.1.1))) in Hv. by rewrite <- !option_fmap_compose in Hv.
Qed.

Lemma Run_after_ready k k' : Scheduler_Run_after k = Ok k' -> readyList k' = readyList k.
Proof.
  unfold Scheduler_Run_after, destroy_doomed. intros E. apply bind_Ok_inv in E as (k1 & E1 & E).
  apply bind_Ok_inv in E as (th & _ & E). assert (readyList k1 = readyList k) as <-.
  { destruct (threadToBeDestroyed k); [apply bind_Ok_inv in E1 as (_ & _ & E1)|]; by simplify_eq. }
  destruct (space th); [apply bind_Ok_inv in E as (m & _ & E)|]; by simplify_eq.
Qed.

Lemma resume_enters k a :
  kernel_wf k -> idle k = false -> current_at k = Some a -> a = Fresh \/ a = InYield ->
  exists k', resume k = Ok k' /\ kernel_wf k' /\ run_queue k' = run_queue k /\
    at_ <$> threads k' !! currentThread k = Some InThread /\
    forall u, u ∈ readyList k -> at_ <$> threads k' !! u = at_ <$> threads k !! u.
Proof.
  intros Hwf Hi Hat Ha. destruct (resume_ok k Hwf Hi) as (k' & E & Hwf' & _). exists k'.
  destruct (wf_running k Hwf Hi) as [Hinv (th & Hc & Hst & _)].
  assert (Hq : idle k' = false /\ currentThread k' = currentThread k /\ readyList k' = readyList k /\
               current_at k' = Some InThread).
  { unfold resume in E. unfold current_at in Hat. rewrite Hc in E, Hat. simpl in Hat. injection Hat as Hat.
    cbn [deref mbind outcome_bind] in E. rewrite Hat in E. destruct Ha as [-> | ->].
    - rewrite (upd_thread_ok _ _ th) in E by done. simplify_eq. unfold current_at. simpl. by rewrite lookup_insert_eq.
    - destruct (Run_after_ok k th Hwf Hi Hc) as (k1 & E1 & _ & Hi1 & _ & Hc1 & _ & _ & Hth1 & _).
      pose proof (Run_after_ready _ _ E1) as Hr1.
      rewrite E1 in E. cbn [mbind outcome_bind] in E. rewrite (upd_thread_ok _ _ th) in E by done. simplify_eq.
      unfold current_at. simpl. by rewrite lookup_insert_eq. }
  destruct Hq as (Hi' & Hc' & Hr' & Hat'). conjs; [done..| |by rewrite <- Hc'|].
  - unfold run_queue. by rewrite Hi', Hi, Hc', Hr'.
  - intros u Hu. destruct (ki_ready _ _ _ _ _ _ Hinv u Hu) as (thu & Eu & Hsu & _).
    assert (u <> currentThread k) by congruence.
    assert (threadToBeDestroyed k <> Some u).
    { intros Hd. destruct (ki_doomed _ _ _ _ _ _ Hinv u Hd) as (? & ? & ? & ?). congruence. }
    pose proof (view_resume _ _ u E ltac:(done) ltac:(done)) as Hv. unfold view in Hv.
    apply (f_equal (fmap (fun v => v.1.1))) in Hv. by rewrite <- !option_fmap_compose in Hv.
Qed.

(** ** The program *)

Section ThreadTest.
Context {H : Type}.
Notation System := (Sys (W := World) (H := H)).

Definition set_world (s : System) (w : World) : System := mkSys (interrupt s) (stats s) (machine s) w.
Definition kern (s : System) : Kernel := kernel (world s).
Definition set_kern (s : System) (k : Kernel) : System :=
  set_world s (mkWorld k (frames (world s)) (printed (world s))).
Definition set_frame (s : System) (t : positive) (f : frame) : System :=
  set_world s (mkWorld (kern s) (<[t := f]> (frames (world s))) (printed (world s))).
Definition printf (s : System) (l : line) : System :=
  set_world s (mkWorld (kern s) (frames (world s)) (printed (world s) ++ [l])).

(** A routine of the scheduler, on the whole system. *)
Definition on_kernel (f : Kernel -> outcome Kernel) (s : System) : outcome System :=
  k ← f (kern s);
  Ok (set_kern s k).

(** The handlers and the [Yield] of a time slice; no device is started here, so
    neither is ever called. *)
Context (call : H -> Z -> System -> outcome System) (slice : System -> outcome System).

Notation SetLevel := (Interrupt_SetLevel call slice).

(** [Thread::Yield] up to [SWITCH]; with nobody else ready it returns at once.
    [c] is the code the thread goes on with. *)
Definition Yield_call (s : System) (c : code) : outcome System :=
  '(oldLevel, s) ← SetLevel s IntOff;
  let s := set_frame s (currentThread (kern s)) (mkFrame c oldLevel) in
  let alone := bool_decide (readyList (kern s) = []) in
  s ← on_kernel Thread_Yield s;
  if alone then '(_, s) ← SetLevel s oldLevel; Ok s else Ok s.

(** [Thread::Finish] up to [SWITCH] *)
Definition Finish_call (s : System) : outcome System :=
  '(_, s) ← SetLevel s IntOff;
  on_kernel Thread_Finish s.

(** One pass through the loop of [SimpleThread], or the return from it. *)
Definition SimpleThread_step (s : System) (c : code) : outcome System :=
  match c with
  | Loop which num =>
      if num <? 5 then Yield_call (printf s (Looped which num)) (Loop which (wrap_s32 (num + 1)))
      else Finish_call s
  | Return => Finish_call s
  end.

(** What happens next: the idle loop of [Thread::Sleep], the current thread's own
    code, the start of [ThreadRoot] ([InterruptEnable] first), or the rest of
    [Yield] after [SWITCH]. *)
Definition next (s : System) : outcome System :=
  let t := currentThread (kern s) in
  if idle (kern s) then
    s ← Interrupt_Idle call s;
    on_kernel dispatch s
  else
    match current_at (kern s) with
    | Some InThread =>
        f ← deref (frames (world s) !! t);
        SimpleThread_step s (f_code f)
    | Some Fresh =>
        s ← on_kernel resume s;
        Interrupt_Enable call slice s
    | Some InYield =>
        f ← deref (frames (world s) !! t);
        s ← on_kernel resume s;
        '(_, s) ← SetLevel s (f_oldLevel f);
        Ok s
    | _ => on_kernel resume s
    end.

(** The run from [s]: the state in which the machine halts. *)
Fixpoint run_threads (fuel : nat) (s : System) : option System :=
  match fuel with
  | O => None
  | S fuel =>
      match next s with
      | Ok s' => run_threads fuel s'
      | Halt => Some s
      | _ => None
      end
  end.

(** [Thread::Fork(SimpleThread, arg)] *)
Definition Fork_SimpleThread (s : System) (t : positive) (arg : Z) : outcome System :=
  let s := set_frame s t (mkFrame (Loop arg 0) IntOff) in
  '(oldLevel, s) ← SetLevel s IntOff;
  s ← on_kernel (fun k => Thread_Fork k t) s;
  '(_, s) ← SetLevel s oldLevel;
  Ok s.

(** [ThreadTest1], up to the loop of [SimpleThread(0)]; [t] is the address of the
    new thread and [junk] its uninitialised register array. *)
Definition ThreadTest1 (s : System) (t : positive) (junk : list Z) : outcome System :=
  let s := set_kern s (set_threads (kern s) (<[t := Thread_new junk]> (threads (kern s)))) in
  s ← Fork_SimpleThread s t 1;
  Ok (set_frame s (currentThread (kern s)) (mkFrame (Loop 0 0) IntOff)).

(** [ThreadTest], followed by the end of [main] *)
Definition ThreadTest (testnum : Z) (s : System) (t : positive) (junk : list Z) : outcome System :=
  if testnum =? 1 then ThreadTest1 s t junk
  else Ok (set_frame (printf s NoTestSpecified) (currentThread (kern s)) (mkFrame Return IntOff)).

(** The system as [Initialize] leaves it in the THREADS build, without [-rs]: no
    device, interrupts enabled. *)
Definition boot (m : Machine) (junk : list Z) : outcome System :=
  Interrupt_Enable call slice
    (mkSys Interrupt_new Statistics_new None (mkWorld (kernel_boot m junk) ∅ [])).



(** ** Interrupts without devices *)

(** Nothing is pending, no handler runs and the level is [l]. *)
Record quiet (s : System) (l : IntStatus) : Prop := {
  q_pending : pending (interrupt s) = [];
  q_handler : inHandler (interrupt s) = false;
  q_yield : yieldOnReturn (interrupt s) = false;
  q_status : status (interrupt s) = SystemMode;
  q_level : level (interrupt s) = l }.

Lemma quiet_SetLevel_off s l : SetLevel s IntOff = Ok (level (interrupt s), set_level s IntOff) /\ (quiet s l -> quiet (set_level s IntOff) IntOff).
Proof. split; [done|]. by intros [? ? ? ? ?]. Qed.

(** Enabling the interrupts takes one tick and nothing else. *)
Lemma quiet_SetLevel_on s :
  quiet s IntOff -> 0 <= now s -> now s + SystemTick <= int32_max ->
  exists s', SetLevel s IntOn = Ok (IntOff, s') /\ quiet s' IntOn /\ world s' = world s /\ now s' = now s + SystemTick.
Proof.
  destruct s as [[lv p h y st] sta m w]. intros [Hp Hh Hy Hs Hl] H0 Hmax. unfold now in *. simpl in *. subst.
  unfold Interrupt_SetLevel, Interrupt_OneTick, check_all, advance. simpl. eexists. split; [reflexivity|].
  split; [by split|]. split; [done|]. cbn [stats set_stats set_ticks totalTicks set_interrupt].
  apply wrap_s32_id. unfold_int32. unfold SystemTick in *. lia.
Qed.

Lemma SetLevel_on_on s : quiet s IntOn -> SetLevel s IntOn = Ok (IntOn, s).
Proof. destruct s as [[lv p h y st] sta m w]. intros [Hp Hh Hy Hs Hl]. simpl in *. by subst. Qed.

(** ** The invariant of a group of threads *)

(** Thread [t] does the job [j]. *)
Definition does (s : System) (t : positive) (j : job) : Prop :=
  (exists f, frames (world s) !! t = Some f /\ f_code f = j.1 /\ (j.2 = InYield -> f_oldLevel f = IntOn)) /\
  at_ <$> threads (kern s) !! t = Some j.2.

(** The jobs of [SimpleThread]: at most five passes, and no semaphore. *)
Definition job_ok (j : job) : Prop :=
  match j.1 with Loop _ num => 0 <= num <= 5 | Return => True end /\
  (j.2 = Fresh \/ j.2 = InThread \/ j.2 = InYield).

(** Only the thread at the front, once it runs its own code, has interrupts on. *)
Definition level_of (js : list job) : IntStatus :=
  match js with (_, InThread) :: _ => IntOn | _ => IntOff end.

(** The threads that can run do the jobs [js], in this order. *)
Record group (s : System) (js : list job) : Prop := {
  g_wf : kernel_wf (kern s);
  g_does : Forall2 (does s) (run_queue (kern s)) js;
  g_jobs : Forall job_ok js;
  g_quiet : quiet s (level_of js);
  g_clock : 0 <= now s /\ now s + SystemTick * ticks js <= int32_max }.

(** One step of the abstract scheduler. *)
Definition job_step (js : list job) : list line * list job :=
  match js with
  | (Loop w n, InThread) :: r =>
      if n <? 5 then ([Looped w n], match r with [] => [(Loop w (n + 1), InThread)] | _ => r ++ [(Loop w (n + 1), InYield)] end)
      else ([], r)
  | (Return, InThread) :: r => ([], r)
  | (c, _) :: r => ([], (c, InThread) :: r)
  | [] => ([], [])
  end.

Lemma queue_nodup k : kernel_wf k -> NoDup (run_queue k).
Proof.
  intros [Hinv _ _]. unfold run_queue. destruct (idle k) eqn:Ei; [constructor|]. constructor; [|apply Hinv].
  intros Hin. destruct (ki_ready _ _ _ _ _ _ Hinv _ Hin) as (th & E & Hr & _).
  destruct (ki_runner _ _ _ _ _ _ Hinv _ eq_refl) as (th' & E' & Hr' & _). congruence.
Qed.

(** A step on the other threads keeps what they do. *)
Lemma does_frame s s' ts js t :
  Forall2 (does s) ts js -> t ∉ ts ->
  (forall u, u ∈ ts -> at_ <$> threads (kern s') !! u = at_ <$> threads (kern s) !! u) ->
  (forall u, u <> t -> frames (world s') !! u = frames (world s) !! u) ->
  Forall2 (does s') ts js.
Proof.
  intros Hd Hn Ha Hf. induction Hd as [|u j ts js [H1 H2] _ IH]; constructor.
  - split; [rewrite Hf by set_solver; done|]. rewrite Ha by set_solver. done.
  - apply IH; [set_solver|]. intros v Hv. apply Ha. set_solver.
Qed.

Lemma group_cons s j js :
  group s (j :: js) ->
  idle (kern s) = false /\ current_at (kern s) = Some j.2 /\ does s (currentThread (kern s)) j /\
  Forall2 (does s) (readyList (kern s)) js /\ currentThread (kern s) ∉ readyList (kern s).
Proof.
  intros [Hwf Hd _ _ _]. pose proof (queue_nodup _ Hwf) as Hnd. unfold run_queue in *.
  destruct (idle (kern s)); [by apply Forall2_nil_inv_l in Hd|]. apply Forall2_cons in Hd as [Hj Hd].
  apply NoDup_cons in Hnd as [Hn _]. conjs; [done|apply Hj|done..].
Qed.

(** A thread on the ready list is not in its own code. *)
Lemma ready_level s js :
  kernel_wf (kern s) -> Forall2 (does s) (readyList (kern s)) js -> level_of js = IntOff.
Proof.
  intros [Hinv _ _] Hd. pose proof (ki_ready _ _ _ _ _ _ Hinv) as Hr.
  destruct Hd as [|t [c a] ts js [_ Ha] _]; [done|]. destruct (Hr t ltac:(set_solver)) as (th & E & _ & _ & Hni).
  rewrite E in Ha. injection Ha as <-. simpl. by destruct (at_ th).
Qed.

(** [s'] is one step of the abstract scheduler after [s]. *)
Definition advances (s : System) (js : list job) (s' : System) : Prop :=
  group s' (job_step js).2 /\ printed (world s') = printed (world s) ++ (job_step js).1 /\
  now s' + SystemTick * ticks (job_step js).2 = now s + SystemTick * ticks js.

Lemma next_resume s c a js :
  group s ((c, a) :: js) -> a <> InThread -> exists s', next s = Ok s' /\ advances s ((c, a) :: js) s'.
Proof.
  intros Hg Hne. pose proof (group_cons _ _ _ Hg) as (Hi & Hat & Hj & Hr & Hn). destruct Hg as [Hwf Hd Hok Hq [H0 Hmax]].
  apply Forall_cons in Hok as [[Hc Ha] Hok]. simpl in Ha, Hat.
  assert (a = Fresh \/ a = InYield) as Ha' by (destruct Ha as [|[|]]; auto; done).
  destruct (resume_enters (kern s) a Hwf Hi Hat Ha') as (k' & Er & Hwf' & Hq' & Hat' & Hoth).
  set (s1 := set_kern s k').
  assert (Hlev : level_of ((c, a) :: js) = IntOff) by (by destruct Ha' as [-> | ->]). rewrite Hlev in Hq.
  assert (Hq1 : quiet s1 IntOff) by (destruct Hq; by split).
  assert (Ht : ticks ((c, a) :: js) = ticks ((c, InThread) :: js) + 1).
  { unfold ticks, job_ticks. simpl. destruct Ha' as [-> | ->]; simpl; lia. }
  pose proof (ticks_nonneg ((c, InThread) :: js)) as Hnn. unfold SystemTick in *.
  destruct (quiet_SetLevel_on s1 Hq1) as (s2 & E2 & Hq2 & Hw2 & Hn2); [done|change (now s1) with (now s); unfold SystemTick; lia|].
  exists s2. split.
  - unfold next. rewrite Hi, Hat. unfold on_kernel. destruct Ha' as [-> | ->]; simpl.
    + rewrite Er. simpl. unfold Interrupt_Enable. fold s1. by rewrite E2.
    + destruct Hj as [(f & Ef & _ & Hf) _]. rewrite Ef, Er. simpl. rewrite Hf by done. fold s1. by rewrite E2.
  - assert (job_step ((c, a) :: js) = ([], (c, InThread) :: js)) as Hjs by (destruct Ha' as [-> | ->]; by destruct c).
    unfold advances. rewrite Hjs. simpl. rewrite app_nil_r, Hw2. change (now s1) with (now s) in Hn2.
    conjs; [|done|rewrite Hn2; unfold SystemTick; lia]. split.
    + unfold kern. rewrite Hw2. exact Hwf'.
    + unfold kern at 1. rewrite Hw2. unfold kern in Hq'. simpl. rewrite Hq'. unfold run_queue. unfold kern in Hi. rewrite Hi.
      constructor.
      * destruct Hj as [(f & Ef & Hfc & _) _]. split; [|unfold kern; by rewrite Hw2]. exists f. rewrite Hw2. done.
      * apply (does_frame s s2 _ _ _ Hr Hn); [|intros; by rewrite Hw2]. intros u Hu. unfold kern at 1. rewrite Hw2. by apply Hoth.
    + constructor; [|done]. by split; [|simpl; auto].
    + done.
    + rewrite Hn2. unfold SystemTick. lia.
Qed.

(** The running thread leaves the front of the queue: it goes to the end, or ends. *)
Lemma next_finish s c js :
  group s ((c, InThread) :: js) -> job_step ((c, InThread) :: js) = ([], js) -> ticks [(c, InThread)] = 0 ->
  exists s', Finish_call s = Ok s' /\ advances s ((c, InThread) :: js) s'.
Proof.
  intros Hg Hjs Ht0. pose proof (group_cons _ _ _ Hg) as (Hi & Hat & Hj & Hr & Hn). destruct Hg as [Hwf Hd Hok Hq [H0 Hmax]].
  destruct (Finish_drops (kern s) Hwf) as (k' & Ef & Hwf' & Hq' & Hoth); [by split|].
  exists (set_kern (set_level s IntOff) k'). unfold Finish_call. rewrite (proj1 (quiet_SetLevel_off s IntOn)). cbn [mbind outcome_bind].
  unfold on_kernel. change (kern (set_level s IntOff)) with (kern s). rewrite Ef. split; [done|].
  unfold advances. rewrite Hjs. cbn [fst snd]. rewrite app_nil_r.
  assert (Ht : ticks ((c, InThread) :: js) = ticks js) by (change ((c, InThread) :: js) with ([(c, InThread)] ++ js); rewrite ticks_app; lia).
  rewrite Ht in *. conjs; [|done..]. split.
  - exact Hwf'.
  - change (kern (set_kern (set_level s IntOff) k')) with k'. rewrite Hq'. apply (does_frame s _ _ _ _ Hr Hn).
    + intros u Hu. apply Hoth. by intros ->.
    + done.
  - apply Forall_cons in Hok as [_ ?]. done.
  - rewrite (ready_level s js Hwf Hr). destruct Hq. by split.
  - done.
Qed.

Lemma ticks_loop w n js :
  n < 5 -> ticks ((Loop w n, InThread) :: js) = ticks (js ++ [(Loop w (n + 1), InThread)]) + 1 /\
           ticks ((Loop w n, InThread) :: js) = ticks (js ++ [(Loop w (n + 1), InYield)]).
Proof.
  intros Hn. change ((Loop w n, InThread) :: js) with ([(Loop w n, InThread)] ++ js).
  rewrite !ticks_app, !ticks_one. unfold job_ticks. simpl. lia.
Qed.

Section Yielding.
Context (s : System) (w n : Z) (js : list job).
Hypothesis Hg : group s ((Loop w n, InThread) :: js).
Hypothesis Hn : n < 5.

(** The state inside [Yield], with interrupts disabled. *)
Definition yielding : System :=
  let s := set_level (printf s (Looped w n)) IntOff in
  set_frame s (currentThread (kern s)) (mkFrame (Loop w (n + 1)) IntOn).

Lemma Yield_call_yielding :
  Yield_call (printf s (Looped w n)) (Loop w (wrap_s32 (n + 1))) =
  (s ← on_kernel Thread_Yield yielding;
   if bool_decide (readyList (kern yielding) = []) then '(_, s) ← SetLevel s IntOn; Ok s else Ok s).
Proof.
  pose proof Hg as [_ _ Hok Hq _]. apply Forall_cons in Hok as [[Hc _] _]. simpl in Hc.
  rewrite wrap_s32_id by (unfold_int32; lia). unfold Yield_call. rewrite (proj1 (quiet_SetLevel_off _ IntOn)).
  cbn [mbind outcome_bind]. change (level (interrupt (printf s (Looped w n)))) with (level (interrupt s)).
  by rewrite (q_level _ _ Hq).
Qed.

Lemma yielding_frame : exists f, frames (world yielding) !! currentThread (kern s) = Some f /\
  f_code f = Loop w (n + 1) /\ f_oldLevel f = IntOn.
Proof. eexists. split; [apply lookup_insert_eq|done]. Qed.

Lemma yielding_quiet : quiet yielding IntOff.
Proof. pose proof Hg as [_ _ _ Hq _]. destruct Hq. by split. Qed.

Lemma loop_ok a : a = InThread \/ a = InYield -> job_ok (Loop w (n + 1), a).
Proof.
  intros Ha. pose proof Hg as [_ _ Hok _ _]. apply Forall_cons in Hok as [[Hc _] _]. simpl in Hc.
  split; [simpl; lia|]. destruct Ha as [-> | ->]; auto.
Qed.

Lemma next_yield_alone :
  js = [] -> exists s', Yield_call (printf s (Looped w n)) (Loop w (wrap_s32 (n + 1))) = Ok s' /\
    advances s ((Loop w n, InThread) :: js) s'.
Proof using Hg Hn.
  intros Ejs. pose proof (group_cons _ _ _ Hg) as (Hi & Hat & Hj & Hr & _). rewrite Ejs in Hr. apply Forall2_nil_inv_r in Hr.
  rewrite Yield_call_yielding. change (kern yielding) with (kern s). unfold on_kernel, Thread_Yield, Scheduler_FindNextToRun.
  change (kern yielding) with (kern s). rewrite Hr, bool_decide_eq_true_2 by done. cbn [mbind outcome_bind].
  set (s1 := set_kern yielding (kern s)). rewrite Ejs. pose proof Hg as [Hwf Hd Hok Hq [H0 Hmax]]. rewrite Ejs in Hmax.
  destruct (ticks_loop w n [] Hn) as [Ht _]. simpl in Ht. pose proof (ticks_nonneg [(Loop w (n + 1), InThread)]).
  destruct (quiet_SetLevel_on s1) as (s2 & E2 & Hq2 & Hw2 & Hn2); [exact yielding_quiet|done|change (now s1) with (now s); unfold SystemTick in *; lia|].
  change (now s1) with (now s) in Hn2. exists s2. rewrite E2. split; [done|]. unfold advances, job_step.
  rewrite (proj2 (Z.ltb_lt n 5)) by done. cbn [fst snd]. rewrite Hw2. unfold SystemTick in *. conjs; [|done|lia].
  split; [unfold kern; by rewrite Hw2| |constructor; [apply loop_ok; auto|done]|done|unfold SystemTick; lia].
  unfold kern. rewrite Hw2. change (kernel (world s1)) with (kern s). unfold run_queue. rewrite Hi, Hr.
  constructor; [|constructor]. split; [|unfold kern; rewrite Hw2; exact Hat].
  destruct yielding_frame as (f & Ef & Hfc & Hfl). exists f. rewrite Hw2. done.
Qed.

Lemma next_yield_rotate j js' :
  js = j :: js' -> exists s', Yield_call (printf s (Looped w n)) (Loop w (wrap_s32 (n + 1))) = Ok s' /\
    advances s ((Loop w n, InThread) :: js) s'.
Proof using Hg Hn.
  intros Ejs. pose proof (group_cons _ _ _ Hg) as (Hi & Hat & Hj & Hr & Hnin).
  rewrite Yield_call_yielding. change (kern yielding) with (kern s).
  destruct (readyList (kern s)) as [|t r] eqn:Er; [subst; by apply Forall2_nil_inv_l in Hr|].
  rewrite bool_decide_eq_false_2 by done. destruct (Yield_rotates (kern s) t r) as (k' & Ek & Hwf' & Hq' & Hat' & Hoth);
    [apply Hg|by split|done|].
  unfold on_kernel. change (kern yielding) with (kern s). rewrite Ek. cbn [mbind outcome_bind].
  set (s1 := set_kern yielding k'). exists s1. split; [done|]. pose proof Hg as [Hwf Hd Hok Hq [H0 Hmax]].
  assert (Hjs : job_step ((Loop w n, InThread) :: js) = ([Looped w n], js ++ [(Loop w (n + 1), InYield)])).
  { simpl. rewrite (proj2 (Z.ltb_lt n 5)) by done. by rewrite Ejs. }
  unfold advances. rewrite Hjs. cbn [fst snd]. destruct (ticks_loop w n js Hn) as [_ Ht]. rewrite <- Ht. conjs; [|done..].
  split; [exact Hwf'| | | |by rewrite <- Ht].
  - change (kern s1) with k'. rewrite Hq'. rewrite app_comm_cons. apply Forall2_app.
    + apply (does_frame s s1 _ _ _ Hr Hnin).
      * intros u Hu. apply Hoth. by intros ->.
      * intros u Hu. simpl. by rewrite lookup_insert_ne.
    + constructor; [|constructor]. split; [|exact Hat'].
      destruct yielding_frame as (f & Ef & Hfc & Hfl). by exists f.
  - apply Forall_app. apply Forall_cons in Hok as [_ Hok]. split; [done|]. constructor; [apply loop_ok; auto|done].
  - rewrite <- Er in Hr. pose proof (ready_level s js Hwf Hr) as Hl. rewrite Ejs in Hl |- *. simpl in Hl |- *. rewrite Hl. destruct yielding_quiet. by split.
Qed.
End Yielding.

(** Every step of the kernel is a step of the abstract scheduler. *)
Lemma next_ok s j js : group s (j :: js) -> exists s', next s = Ok s' /\ advances s (j :: js) s'.
Proof.
  intros Hg. destruct j as [c a]. destruct (decide (a = InThread)) as [->|Hne]; [|by apply next_resume].
  pose proof (group_cons _ _ _ Hg) as (Hi & Hat & [(f & Ef & Hf & _) _] & _ & _). unfold next. rewrite Hi, Hat. simpl.
  rewrite Ef. cbn [deref mbind outcome_bind]. rewrite Hf. destruct c as [w n|]; cbn [fst SimpleThread_step].
  - destruct (Z.ltb_spec n 5) as [H5|H5].
    + destruct js as [|j js]; [by apply next_yield_alone|by eapply next_yield_rotate].
    + apply (next_finish _ _ _ Hg); [simpl; by rewrite (proj2 (Z.ltb_ge n 5))|]. rewrite ticks_one. unfold job_ticks. simpl. lia.
  - by apply (next_finish _ _ _ Hg).
Qed.

(** The abstract scheduler prints round robin and gets closer to the end. *)
Lemma job_step_prints js :
  Forall job_ok js -> (job_step js).1 ++ round_robin (map fst (job_step js).2) = round_robin (map fst js).
Proof.
  intros Hok. destruct js as [|[c a] r]; [done|]. apply Forall_cons in Hok as [[Hc _] _]. simpl in Hc.
  assert (Ha : a = InThread \/ job_step ((c, a) :: r) = ([], (c, InThread) :: r)) by (destruct a, c; auto).
  destruct Ha as [-> | ->]; [|done]. destruct c as [w n|]; simpl; [|by simp round_robin].
  destruct (Z.ltb_spec n 5) as [H5|H5]; simpl; [|by rewrite round_robin_end].
  rewrite round_robin_loop by done. f_equal. f_equal. destruct r as [|j r]; [done|]. by rewrite map_app.
Qed.

Lemma job_step_work j js : job_ok j -> (work (job_step (j :: js)).2 < work (j :: js))%nat.
Proof.
  destruct j as [c a]. intros [Hc Ha]. simpl in Hc, Ha. change ((c, a) :: js) with ([(c, a)] ++ js). rewrite work_app.
  unfold work at 2, job_work. simpl sum_list_with. destruct Ha as [-> | [-> | ->]]; destruct c as [w n|]; simpl.
  all: try (unfold work, job_work; simpl; lia).
  destruct (Z.ltb_spec n 5) as [H5|H5]; simpl; [|unfold work; lia].
  destruct js as [|j js]; [|rewrite work_app]; unfold work, job_work; simpl; lia.
Qed.

Lemma group_halts s : group s [] -> next s = Halt.
Proof.
  intros [_ Hd _ Hq _]. apply Forall2_nil_inv_r in Hd. unfold run_queue in Hd. unfold next.
  destruct (idle (kern s)); [|done]. unfold Interrupt_Idle, Interrupt_CheckIfDue. simpl.
  by rewrite (q_level _ _ Hq), (q_pending _ _ Hq).
Qed.

Lemma run_halts fuel s js :
  (work js <= fuel)%nat -> group s js ->
  exists s', run_threads (S fuel) s = Some s' /\ next s' = Halt /\
    printed (world s') = printed (world s) ++ round_robin (map fst js) /\
    now s' = now s + SystemTick * ticks js.
Proof.
  revert s js. induction fuel as [|fuel IH]; intros s [|j js] Hle Hg.
  1, 3: pose proof (group_halts s Hg) as Hh; exists s; simpl; rewrite Hh; simp round_robin; rewrite app_nil_r;
        conjs; [done..|unfold ticks; simpl; lia].
  all: destruct (next_ok s j js Hg) as (s1 & E1 & Hg1 & Hp1 & Hn1); destruct Hg as [_ _ Hok _ _];
       pose proof (job_step_work j js (Forall_inv Hok)) as Hw; try lia.
  destruct (IH s1 (job_step (j :: js)).2 ltac:(lia) Hg1) as (s2 & E2 & Hh2 & Hp2 & Hn2). exists s2.
  change (run_threads (S (S fuel)) s) with (match next s with Ok s' => run_threads (S fuel) s' | Halt => Some s | _ => None end).
  rewrite E1. conjs; [done..| |lia]. rewrite Hp2, Hp1, <- app_assoc. f_equal. by apply job_step_prints.
Qed.

(** C22: a group of threads that all run [SimpleThread] always comes to an end: from any
    state of the kernel in which the threads that can run have the jobs [js], whatever
    the order and however far each of them has got, the machine halts after at most
    [work js] steps; until then the threads take turns in the order of the queue, one
    line each, so the output is [round_robin], and the clock advances by one
    [SystemTick] each time a thread leaves the scheduler. *)
Theorem SimpleThreads_terminate s js :
  group s js ->
  exists s', run_threads (S (work js)) s = Some s' /\ next s' = Halt /\
    printed (world s') = printed (world s) ++ round_robin (map fst js) /\
    now s' = now s + SystemTick * ticks js.
Proof.
  apply run_halts. done.
Qed.

(** ** From the start of the kernel *)

Section Start.
Context (m : Machine) (junk : list Z).
Hypothesis Hm : lenZ (registers m) = NumTotalRegs.
Hypothesis Hj : lenZ junk = NumTotalRegs.

(** The system when [main] is about to call [ThreadTest]. *)
Definition started : System :=
  mkSys (mkInterrupt IntOn [] false false SystemMode) (set_ticks Statistics_new 10 0 10 0) None
    (mkWorld (kernel_boot m junk) ∅ []).

Lemma boot_started : boot m junk = Ok started.
Proof. reflexivity. Qed.

(** The kernel with the new thread forked. *)
Definition forked (t : positive) (junk' : list Z) : Kernel :=
  mkKernel (<[t := with_status (Thread_StackAllocate (Thread_new junk')) READY]> {[ 1%positive := main_thread junk ]})
    [t] 1 None {[ 1%positive := Semaphore_new 1 ]} m false.

Lemma Fork_forked t junk' :
  let k := kernel_boot m junk in
  Thread_Fork (set_threads k (<[t := Thread_new junk']> (threads k))) t = Ok (forked t junk').
Proof.
  simpl. unfold Thread_Fork, Scheduler_ReadyToRun. erewrite upd_thread_ok by apply lookup_insert_eq. cbn [mbind outcome_bind].
  erewrite upd_thread_ok by apply lookup_insert_eq. simpl. by rewrite !insert_insert_eq.
Qed.

Lemma forked_wf t junk' : t <> 1%positive -> lenZ junk' = NumTotalRegs -> kernel_wf (forked t junk').
Proof using Hm Hj.
  intros Ht Hj'. pose proof (boot_wf m junk Hm Hj) as Hwf. set (k := kernel_boot m junk) in *.
  assert (kernel_wf (set_threads k (<[t := Thread_new junk']> (threads k)))) as Hwf1.
  { refine (proj1 (step_ok k Tau _ Hwf _)). apply step_new; [done| |done]. simpl. by rewrite lookup_singleton_ne. }
  destruct (Fork_ok _ t _ Hwf1 (lookup_insert_eq _ _ _) eq_refl) as (k' & E & Hwf' & _).
  rewrite Fork_forked in E. injection E as <-. done.
Qed.

(** What [main] and the forked thread have to do after [ThreadTest]. *)
Definition start_jobs (testnum : Z) : list job :=
  if testnum =? 1 then [(Loop 0 0, InThread); (Loop 1 0, Fresh)] else [(Return, InThread)].

Lemma ThreadTest_group testnum t junk' :
  t <> 1%positive -> lenZ junk' = NumTotalRegs ->
  exists s, ThreadTest testnum started t junk' = Ok s /\ group s (start_jobs testnum) /\
    printed (world s) = (if testnum =? 1 then [] else [NoTestSpecified]) /\ now s = (if testnum =? 1 then 20 else 10).
Proof using Hm Hj.
  intros Ht Hj'. unfold ThreadTest, start_jobs. destruct (testnum =? 1).
  - unfold ThreadTest1, Fork_SimpleThread, on_kernel. rewrite (proj1 (quiet_SetLevel_off _ IntOn)). cbn [mbind outcome_bind].
    match goal with |- context [Thread_Fork ?k t] =>
      change k with (set_threads (kernel_boot m junk) (<[t := Thread_new junk']> (threads (kernel_boot m junk)))) end.
    rewrite Fork_forked. simpl. eexists. split; [reflexivity|].
    conjs; [|done..]. split; [exact (forked_wf t junk' Ht Hj')| | |by split|vm_compute; split; discriminate].
    + repeat constructor; simpl.
      * exists (mkFrame (Loop 0 0) IntOff). by rewrite lookup_insert_eq.
      * by rewrite lookup_insert_ne, lookup_singleton_eq by done.
      * exists (mkFrame (Loop 1 0) IntOff). by rewrite lookup_insert_ne, lookup_insert_eq by done.
      * by rewrite lookup_insert_eq.
    + repeat constructor; simpl; auto; lia.
  - eexists. split; [reflexivity|]. conjs; [|done..].
    split; [exact (boot_wf m junk Hm Hj)| |by repeat constructor; auto|by split|vm_compute; split; discriminate].
    repeat constructor; simpl. exists (mkFrame Return IntOff). by rewrite lookup_insert_eq.
Qed.

End Start.

(** The ten lines of two threads that take turns. *)
Definition ping_pong : list line :=
  [Looped 0 0; Looped 1 0; Looped 0 1; Looped 1 1; Looped 0 2; Looped 1 2; Looped 0 3; Looped 1 3; Looped 0 4; Looped 1 4].

Lemma round_robin_ping_pong : round_robin [Loop 0 0; Loop 1 0] = ping_pong.
Proof. repeat (rewrite round_robin_loop by lia; simpl). rewrite !round_robin_end by lia. by simp round_robin. Qed.

(** The thread test from start-up to the halt, whatever the machine, the junk in
    the control blocks and the address of the new thread are: with [testnum] 1 [main]
    and the forked thread print their five lines each in turn and the machine halts at
    time 130; with any other number only the message comes, and it halts at time 10. *)
Theorem ThreadTest_halts m junk junk' t testnum :
  lenZ (registers m) = NumTotalRegs -> lenZ junk = NumTotalRegs -> lenZ junk' = NumTotalRegs -> t <> 1%positive ->
  exists s0 s1 s2, boot m junk = Ok s0 /\ ThreadTest testnum s0 t junk' = Ok s1 /\
    run_threads 24 s1 = Some s2 /\ next s2 = Halt /\
    printed (world s2) = (if testnum =? 1 then ping_pong else [NoTestSpecified]) /\
    now s2 = (if testnum =? 1 then 130 else 10).
Proof.
  intros Hm Hj Hj' Ht. destruct (ThreadTest_group m junk Hm Hj testnum t junk' Ht Hj') as (s1 & E1 & Hg & Hp & Hn).
  assert (Hw : (work (start_jobs testnum) <= 23)%nat) by (unfold start_jobs; destruct (testnum =? 1); vm_compute; lia).
  destruct (run_halts 23 s1 _ Hw Hg) as (s2 & E2 & Hh & Hp2 & Hn2).
  exists (started m junk), s1, s2. conjs; [apply boot_started|done..| |].
  - rewrite Hp2, Hp. unfold start_jobs. destruct (testnum =? 1); simpl; [apply round_robin_ping_pong|by simp round_robin].
  - rewrite Hn2, Hn. unfold start_jobs. by destruct (testnum =? 1).
Qed.

End ThreadTest.

Definition no_handler (h : unit) (a : Z) (s : Sys (W := World) (H := unit)) : outcome (Sys (W := World) (H := unit)) := Undefined.
Definition no_slice (s : Sys (W := World) (H := unit)) : outcome (Sys (W := World) (H := unit)) := Undefined.

Lemma small_regs : lenZ (registers small_cpu) = NumTotalRegs.
Proof. reflexivity. Qed.

Lemma sample_junk_len : lenZ sample_junk = NumTotalRegs.
Proof. reflexivity. Qed.

Lemma SimpleThreads_terminate_witness :
  exists s js s', ThreadTest no_handler no_slice 1 (started small_cpu sample_junk) 2 sample_junk = Ok s /\
    group s js /\ run_threads no_handler no_slice (S (work js)) s = Some s' /\ next no_handler no_slice s' = Halt.
Proof.
  destruct (ThreadTest_group no_handler no_slice small_cpu sample_junk small_regs sample_junk_len 1 2 sample_junk
              ltac:(discriminate) sample_junk_len) as (s & E & Hg & _).
  destruct (SimpleThreads_terminate no_handler no_slice s _ Hg) as (s' & E' & Hh & _).
  exists s, (start_jobs 1), s'. conjs; [exact E|exact Hg|exact E'|exact Hh].
Defined.

Lemma ThreadTest_halts_witness :
  exists s0 s1 s2, boot no_handler no_slice small_cpu sample_junk = Ok s0 /\
    ThreadTest no_handler no_slice 1 s0 2 sample_junk = Ok s1 /\
    run_threads no_handler no_slice 24 s1 = Some s2 /\ next no_handler no_slice s2 = Halt /\
    printed (world s2) = ping_pong /\ now s2 = 130.
Proof.
  exact (ThreadTest_halts no_handler no_slice small_cpu sample_junk sample_junk 2 1 small_regs sample_junk_len
           sample_junk_len ltac:(discriminate)).
Defined.
