(* ===== verification/StartUp.v ===== *)
(** * Start-up and the command line
      (threads/main.cc, threads/system.cc, threads/utility.cc)

    [Initialize] and [main] each walk over [argv]; which tests they make depends on
    the macros of the build, here the fields of [Build].  [argc] is a number of its
    own and [argv] the list of strings from the pointer on, the program name first.
    The calls that [main] makes
    are a list of [command]s: what a command does is in the other files.  [atof] is
    not evaluated, [PostOffice] gets the text. *)

From Stdlib Require Import Ascii String.
From S2P Require Import Prelude Int32.
Open Scope string_scope.
Open Scope list_scope.
Open Scope Z_scope.

(** The macros a Makefile defines. *)
Record Build := mkBuild {
  THREADS : bool;
  USER_PROGRAM : bool;
  FILESYS : bool;
  FILESYS_NEEDED : bool;
  NETWORK : bool }.

(** [!strcmp(a, b)] *)
Definition streq (a b : string) : bool := bool_decide (a = b).

(** ** The C library *)

(** [strchr(s, c) != 0]: the terminating NUL is found too. *)
Fixpoint strchr (s : string) (c : ascii) : bool :=
  match s with
  | EmptyString => bool_decide (c = zero)
  | String a s => bool_decide (a = c) || strchr s c
  end.

Definition isspace (c : ascii) : bool :=
  let n := Z.of_nat (nat_of_ascii c) in (n =? 32) || ((9 <=? n) && (n <=? 13)).
Definition digit (c : ascii) : option Z :=
  let n := Z.of_nat (nat_of_ascii c) in if (48 <=? n) && (n <=? 57) then Some (n - 48) else None.

Fixpoint digits (acc : Z) (s : string) : Z :=
  match s with
  | String c s => match digit c with Some d => digits (10 * acc + d) s | None => acc end
  | EmptyString => acc
  end.
Definition signed_digits (s : string) : Z :=
  match s with
  | String c r => if bool_decide (c = "-"%char) then - digits 0 r else if bool_decide (c = "+"%char) then digits 0 r else digits 0 s
  | EmptyString => 0
  end.
Fixpoint skip_space (s : string) : string :=
  match s with String c r => if isspace c then skip_space r else s | EmptyString => s end.

(** [atoi]: undefined when the number does not fit an [int]. *)
Definition atoi (s : string) : outcome Z :=
  let v := signed_digits (skip_space s) in
  if (int32_min <=? v) && (v <=? int32_max) then Ok v else Undefined.

(** ** Debug messages *)

(** [DebugInit], [DebugIsEnabled]: [enableFlags] is NULL until [Initialize]. *)
Definition DebugInit (flagList : string) : option string := Some flagList.
Definition DebugIsEnabled (enableFlags : option string) (flag : ascii) : bool :=
  match enableFlags with
  | Some flags => strchr flags flag || strchr flags "+"
  | None => false
  end.
(** [DEBUG], the message already formatted: what is printed. *)
Definition DEBUG (enableFlags : option string) (flag : ascii) (msg : string) : list string :=
  if DebugIsEnabled enableFlags flag then [msg] else [].

(** ** [Initialize] *)

(** The locals of [Initialize]; [seeds] are the calls of [RandomInit]. *)
Record Options := mkOptions {
  debugArgs : string;
  randomYield : bool;
  seeds : list Z;
  debugUserProg : bool;
  format : bool;
  rely : string;
  netname : Z }.

Definition default_options : Options := mkOptions "" false [] false false "1" 0.

Definition with_debugArgs (o : Options) s := mkOptions s (randomYield o) (seeds o) (debugUserProg o) (format o) (rely o) (netname o).
Definition with_seed (o : Options) n := mkOptions (debugArgs o) true (seeds o ++ [n]) (debugUserProg o) (format o) (rely o) (netname o).
Definition with_debugUserProg (o : Options) := mkOptions (debugArgs o) (randomYield o) (seeds o) true (format o) (rely o) (netname o).
Definition with_format (o : Options) := mkOptions (debugArgs o) (randomYield o) (seeds o) (debugUserProg o) true (rely o) (netname o).
Definition with_rely (o : Options) r := mkOptions (debugArgs o) (randomYield o) (seeds o) (debugUserProg o) (format o) r (netname o).
Definition with_netname (o : Options) n := mkOptions (debugArgs o) (randomYield o) (seeds o) (debugUserProg o) (format o) (rely o) n.

Section Build.
Context (b : Build).

(** [ASSERT(argc > n)], then [ *(argv + n)] *)
Definition argument (argc : Z) (argv : list string) (n : nat) : outcome string :=
  _ ← ASSERT (Z.of_nat n <? argc);
  deref (argv !! n).

(** The three groups of tests in the body of the loop, each with the [argCount] it leaves. *)
Definition Initialize_common (argc : Z) (argv : list string) (a : string) (o : Options) : outcome (Options * nat) :=
  if streq a "-d" then
    if argc =? 1 then Ok (with_debugArgs o "+", 1%nat)
    else v ← deref (argv !! 1%nat); Ok (with_debugArgs o v, 2%nat)
  else if streq a "-rs" then
    v ← argument argc argv 1;
    n ← atoi v;
    Ok (with_seed o n, 2%nat)
  else Ok (o, 1%nat).

Definition Initialize_flags (a : string) (o : Options) : Options :=
  let o := if USER_PROGRAM b && streq a "-s" then with_debugUserProg o else o in
  if FILESYS_NEEDED b && streq a "-f" then with_format o else o.

Definition Initialize_network (argc : Z) (argv : list string) (a : string) (o : Options) (argCount : nat) : outcome (Options * nat) :=
  if negb (NETWORK b) then Ok (o, argCount)
  else if streq a "-l" then
    v ← argument argc argv 1;
    Ok (with_rely o v, 2%nat)
  else if streq a "-m" then
    v ← argument argc argv 1;
    n ← atoi v;
    Ok (with_netname o n, 2%nat)
  else Ok (o, argCount).

(** The body of the loop. *)
Definition Initialize_body (argc : Z) (argv : list string) (o : Options) : outcome (Options * nat) :=
  a ← deref (head argv);
  '(o, argCount) ← Initialize_common argc argv a o;
  let o := Initialize_flags a o in
  Initialize_network argc argv a o argCount.

(** The loop: [argc -= argCount, argv += argCount]. *)
Fixpoint Initialize_loop (fuel : nat) (argc : Z) (argv : list string) (o : Options) : outcome Options :=
  match fuel with
  | O => Undefined
  | S fuel =>
      if 0 <? argc then
        '(o, argCount) ← Initialize_body argc argv o;
        Initialize_loop fuel (argc - Z.of_nat argCount) (drop argCount argv) o
      else Ok o
  end.

(** What [Initialize] creates: the arguments of the constructors. *)
Record Globals := mkGlobals {
  enableFlags : option string;
  timer : bool;
  machine : option bool;
  fileSystem : option bool;
  postOffice : option (Z * string * Z);
  synchDisk : bool }.

Definition when (c : bool) {A} (x : A) : option A := if c then Some x else None.

(** [Initialize] *)
Definition Initialize (argc : Z) (argv : list string) : outcome Globals :=
  o ← Initialize_loop (S (length argv)) (argc - 1) (drop 1 argv) default_options;
  Ok (mkGlobals (DebugInit (debugArgs o)) (randomYield o)
        (when (USER_PROGRAM b) (debugUserProg o)) (when (FILESYS_NEEDED b) (format o))
        (when (NETWORK b) (netname o, rely o, 10)) (FILESYS b)).

(** ** [main] *)

Inductive command :=
| PrintCopyright
| StartProcess (file : string)
| ConsoleTest (files : option (string * string))
| HaltMachine
| Copy (unixFile nachosFile : string)
| PrintFile (file : string)
| Remove (file : string)
| ListDirectory
| PrintFileSystem
| PerformanceTest
| MailTest (networkID : Z).

(** The loop under [#ifdef THREADS], which changes [argc] and [argv]. *)
Fixpoint testnum_loop (fuel : nat) (argc : Z) (argv : list string) (testnum : Z) : outcome (Z * list string * Z) :=
  match fuel with
  | O => Undefined
  | S fuel =>
      if 0 <? argc then
        a ← deref (head argv);
        c ← deref (if a is String _ r then Some (if r is String c _ then c else zero) else None);
        if bool_decide (c = "q"%char) then
          v ← deref (argv !! 1%nat);
          n ← atoi v;
          testnum_loop fuel (argc - 2) (drop 2 argv) n
        else testnum_loop fuel (argc - 1) (drop 1 argv) 1
      else Ok (argc, argv, testnum)
  end.

(** The commands of one pass of the second loop, with [argCount]; [true] when the
    last of them, [Halt], does not return. *)
Definition user_program_commands (argc : Z) (argv : list string) (a : string) : outcome (list command * nat * bool) :=
  if negb (USER_PROGRAM b) then Ok ([], 1%nat, false)
  else if streq a "-x" then f ← argument argc argv 1; Ok ([StartProcess f], 2%nat, false)
  else if streq a "-c" then
    if argc =? 1 then Ok ([ConsoleTest None; HaltMachine], 1%nat, true)
    else
      o ← argument argc argv 2;
      i ← argument argc argv 1;
      Ok ([ConsoleTest (Some (i, o)); HaltMachine], 3%nat, true)
  else Ok ([], 1%nat, false).

Definition filesys_commands (argc : Z) (argv : list string) (a : string) (argCount : nat) : outcome (list command * nat) :=
  if negb (FILESYS b) then Ok ([], argCount)
  else if streq a "-cp" then
    n ← argument argc argv 2;
    u ← argument argc argv 1;
    Ok ([Copy u n], 3%nat)
  else if streq a "-p" then f ← argument argc argv 1; Ok ([PrintFile f], 2%nat)
  else if streq a "-r" then f ← argument argc argv 1; Ok ([Remove f], 2%nat)
  else if streq a "-l" then Ok ([ListDirectory], argCount)
  else if streq a "-D" then Ok ([PrintFileSystem], argCount)
  else if streq a "-t" then Ok ([PerformanceTest], argCount)
  else Ok ([], argCount).

Definition network_commands (argc : Z) (argv : list string) (a : string) (argCount : nat) : outcome (list command * nat) :=
  if negb (NETWORK b) then Ok ([], argCount)
  else if streq a "-o" then
    v ← argument argc argv 1;
    n ← atoi v;
    Ok ([MailTest n], 2%nat)
  else Ok ([], argCount).

Definition main_body (argc : Z) (argv : list string) : outcome (list command * nat * bool) :=
  a ← deref (head argv);
  let z := if streq a "-z" then [PrintCopyright] else [] in
  '(u, argCount, halted) ← user_program_commands argc argv a;
  if (halted : bool) then Ok (z ++ u, argCount, true)
  else
    '(f, argCount) ← filesys_commands argc argv a argCount;
    '(n, argCount) ← network_commands argc argv a argCount;
    Ok (z ++ u ++ f ++ n, argCount, false).

(** The second loop: the calls it makes, if each of them returns. *)
Fixpoint main_loop (fuel : nat) (argc : Z) (argv : list string) : outcome (list command) :=
  match fuel with
  | O => Undefined
  | S fuel =>
      if 0 <? argc then
        '(cs, argCount, halted) ← main_body argc argv;
        if (halted : bool) then Ok cs
        else
          cs' ← main_loop fuel (argc - Z.of_nat argCount) (drop argCount argv);
          Ok (cs ++ cs')
      else Ok []
  end.

(** [main]: what it prints before [Initialize], what that creates, the number
    [ThreadTest] is called with, and the commands. *)
Definition main (argc : Z) (argv : list string) : outcome (list string * Globals * option Z * list command) :=
  let out := DEBUG None "t" "Entering main" in
  g ← Initialize argc argv;
  '(argc, argv, test) ←
     (if THREADS b then
        '(argc, argv, n) ← testnum_loop (S (length argv)) (argc - 1) (drop 1 argv) 1;
        Ok (argc, argv, Some n)
      else Ok (argc, argv, None));
  cs ← main_loop (S (length argv)) (argc - 1) (drop 1 argv);
  Ok (out, g, test, cs).

End Build.

(** ** What [Initialize] reads *)

Section InitializeReads.
Context (b : Build).

(** An option with its value, or a word that takes none. *)
Inductive item := Debug (v : string) | Seed (v : string) | Rely (v : string) | MachineId (v : string) | Word (w : string).

Definition render (i : item) : list string :=
  match i with
  | Debug v => ["-d"; v] | Seed v => ["-rs"; v] | Rely v => ["-l"; v] | MachineId v => ["-m"; v] | Word w => [w]
  end.

(** The words that take a value in this build, apart from [-d] at the end. *)
Definition needs_value (w : string) : bool :=
  streq w "-rs" || NETWORK b && (streq w "-l" || streq w "-m").

Definition item_ok (i : item) : Prop :=
  match i with
  | Rely _ | MachineId _ => NETWORK b = true
  | Word w => w <> "-d" /\ needs_value w = false
  | _ => True
  end.

Definition apply_item (i : item) (o : Options) : outcome Options :=
  match i with
  | Debug v => Ok (with_debugArgs o v)
  | Seed v => n ← atoi v; Ok (with_seed o n)
  | Rely v => Ok (with_rely o v)
  | MachineId v => n ← atoi v; Ok (with_netname o n)
  | Word w => Ok (Initialize_flags b w o)
  end.
Fixpoint apply_items (its : list item) (o : Options) : outcome Options :=
  match its with
  | [] => Ok o
  | i :: its => o ← apply_item i o; apply_items its o
  end.

(** What is left when no more value can be read. *)
Definition apply_rest (rest : list string) (o : Options) : outcome Options :=
  match rest with
  | [] => Ok o
  | w :: _ => if streq w "-d" then Ok (with_debugArgs o "+") else AssertFail
  end.

(** The words of [argv] as options. *)
Fixpoint read_items (argv : list string) : list item * list string :=
  match argv with
  | [] => ([], [])
  | w :: argv1 =>
      if streq w "-d" || needs_value w then
        match argv1 with
        | [] => ([], argv)
        | v :: argv2 =>
            let '(its, rest) := read_items argv2 in
            ((if streq w "-d" then Debug v else if streq w "-rs" then Seed v
              else if streq w "-l" then Rely v else MachineId v) :: its, rest)
        end
      else let '(its, rest) := read_items argv1 in (Word w :: its, rest)
  end.

Lemma streq_spec a c : reflect (a = c) (streq a c).
Proof. unfold streq. apply bool_decide_reflect. Qed.

(** The three kinds of words. *)
Lemma body_value w v r o :
  streq w "-d" || needs_value w = true ->
  exists i, item_ok i /\ render i = [w; v] /\
    i = (if streq w "-d" then Debug v else if streq w "-rs" then Seed v else if streq w "-l" then Rely v else MachineId v) /\
    Initialize_body b (lenZ (w :: v :: r)) (w :: v :: r) o = (o ← apply_item i o; Ok (o, 2%nat)).
Proof.
  assert (Hl : (Z.of_nat 1 <? lenZ (w :: v :: r)) = true /\ (lenZ (w :: v :: r) =? 1) = false)
    by (split; [apply Z.ltb_lt|apply Z.eqb_neq]; unfold lenZ; simpl length; lia).
  destruct Hl as [Hl1 Hl2]. unfold needs_value, Initialize_body, Initialize_common, Initialize_flags, Initialize_network, argument.
  cbn [hd_error deref mbind outcome_bind].
  destruct (streq_spec w "-d") as [->|Hd]; [|destruct (streq_spec w "-rs") as [->|Hrs]; [|destruct (NETWORK b) eqn:En; [|done]]].
  - intros _. exists (Debug v). rewrite Hl2. simpl. rewrite !andb_false_r. by destruct (NETWORK b).
  - intros _. exists (Seed v). rewrite Hl1. simpl. destruct (atoi v); simpl; [|done..]. rewrite !andb_false_r. by destruct (NETWORK b).
  - destruct (streq_spec w "-l") as [->|Hl].
    + intros _. exists (Rely v). rewrite Hl1. simpl. by rewrite !andb_false_r.
    + destruct (streq_spec w "-m") as [->|Hm]; [|done]. intros _. exists (MachineId v). rewrite Hl1. simpl.
      rewrite !andb_false_r. by destruct (atoi v).
Qed.

Lemma body_word w r o :
  w <> "-d" -> needs_value w = false ->
  Initialize_body b (lenZ (w :: r)) (w :: r) o = Ok (Initialize_flags b w o, 1%nat).
Proof.
  unfold needs_value, Initialize_body, Initialize_common, Initialize_network. cbn [hd_error deref mbind outcome_bind].
  intros Hd. destruct (streq_spec w "-d"); [done|]. destruct (streq w "-rs"); [done|]. cbn [mbind outcome_bind orb andb negb].
  destruct (NETWORK b); [|done]. simpl. intros [-> ->]%orb_false_iff. done.
Qed.

Lemma body_last w o :
  streq w "-d" || needs_value w = true ->
  Initialize_body b 1 [w] o = (o ← apply_rest [w] o; Ok (o, 1%nat)).
Proof.
  unfold needs_value, Initialize_body, Initialize_common, Initialize_flags, Initialize_network, argument, apply_rest.
  cbn [hd_error deref mbind outcome_bind]. destruct (streq_spec w "-d") as [->|Hd].
  - intros _. simpl. rewrite !andb_false_r. by destruct (NETWORK b).
  - destruct (streq w "-rs"); [done|]. destruct (NETWORK b); [|done]. cbn [mbind outcome_bind negb andb orb].
    destruct (streq w "-l"); [done|]. by destruct (streq w "-m").
Qed.

Lemma read_items_word w argv1 :
  streq w "-d" || needs_value w = false ->
  read_items (w :: argv1) = (Word w :: (read_items argv1).1, (read_items argv1).2).
Proof. intros E. cbn [read_items]. rewrite E. by destruct (read_items argv1). Qed.

Lemma Initialize_loop_reads fuel argv o :
  (length argv < fuel)%nat ->
  Initialize_loop b fuel (lenZ argv) argv o =
  (o ← apply_items (read_items argv).1 o; apply_rest (read_items argv).2 o).
Proof.
  revert argv o. induction fuel as [|fuel IH]; intros argv o Hf; [lia|]. destruct argv as [|w argv1]; [done|].
  cbn [Initialize_loop]. assert (0 <? lenZ (w :: argv1) = true) as -> by (apply Z.ltb_lt; unfold lenZ; simpl length; lia).
  simpl length in Hf. destruct (streq w "-d" || needs_value w) eqn:E.
  - cbn [read_items]. rewrite E. destruct argv1 as [|v r].
    + change (lenZ [w]) with 1. rewrite body_last by done. cbn [apply_items mbind outcome_bind fst snd].
      destruct (apply_rest [w] o); [|done..]. cbn [mbind outcome_bind drop]. by destruct fuel; [simpl in Hf; lia|].
    + destruct (body_value w v r o E) as (i & _ & _ & Ei & ->). rewrite <- Ei. destruct (read_items r) as [its rest] eqn:Er.
      cbn [fst snd apply_items]. destruct (apply_item i o) as [o'| | |]; [|done..]. cbn [mbind outcome_bind drop].
      replace (lenZ (w :: v :: r) - Z.of_nat 2) with (lenZ r) by (unfold lenZ; simpl length; lia).
      rewrite drop_0, IH by (simpl in Hf; lia). by rewrite Er.
  - rewrite (read_items_word _ _ E). apply orb_false_iff in E as [E1 E2]. destruct (streq_spec w "-d"); [done|].
    rewrite (body_word w argv1) by done. cbn [mbind outcome_bind drop].
    replace (lenZ (w :: argv1) - Z.of_nat 1) with (lenZ argv1) by (unfold lenZ; simpl length; lia).
    by rewrite drop_0, IH by lia.
Qed.

Lemma read_items_spec argv :
  let '(its, rest) := read_items argv in
  argv = concat (map render its) ++ rest /\ Forall item_ok its /\
  (rest = [] \/ exists w, rest = [w] /\ (w = "-d" \/ needs_value w = true)).
Proof.
  induction argv as [argv IH] using (induction_ltof1 _ length). unfold ltof in IH. destruct argv as [|w argv1]; [by split; auto|].
  destruct (streq w "-d" || needs_value w) eqn:E.
  - cbn [read_items]. rewrite E. destruct argv1 as [|v r].
    + conjs; [done|constructor|]. right. exists w. split; [done|]. apply orb_true_iff in E as [E|E]; [left|by right].
      by destruct (streq_spec w "-d").
    + destruct (body_value w v r default_options E) as (i & Hok & Hr & <- & _). specialize (IH r ltac:(simpl; lia)).
      destruct (read_items r) as [its rest]. destruct IH as (-> & Hits & Hrest). conjs; [|by constructor|done].
      cbn [map concat]. rewrite Hr. done.
  - rewrite (read_items_word _ _ E). specialize (IH argv1 ltac:(simpl; lia)). destruct (read_items argv1) as [its rest].
    destruct IH as (-> & Hits & Hrest). cbn [fst snd]. conjs; [done| |done]. constructor; [|done].
    apply orb_false_iff in E as [E1 E2]. split; [|done]. by destruct (streq_spec w "-d").
Qed.

(** [Initialize]'s constructors from the options. *)
Definition create (o : Options) : Globals :=
  mkGlobals (DebugInit (debugArgs o)) (randomYield o) (when (USER_PROGRAM b) (debugUserProg o))
    (when (FILESYS_NEEDED b) (format o)) (when (NETWORK b) (netname o, rely o, 10)) (FILESYS b).

(** [Initialize] reads any command line to its end, and reads nothing behind it: the
    words after the program name split into options with their values and words
    without one, their effects come one after the other, and what can be left
    over is a single word, a final [-d], which turns on every message, or an option
    whose value is missing, which fails the ASSERT before anything is created. *)
Theorem Initialize_reads_all name args :
  exists its rest, args = concat (map render its) ++ rest /\ Forall item_ok its /\
    (rest = [] \/ exists w, rest = [w] /\ (w = "-d" \/ needs_value w = true)) /\
    Initialize b (lenZ (name :: args)) (name :: args) =
      (o ← apply_items its default_options; o ← apply_rest rest o; Ok (create o)).
Proof.
  pose proof (read_items_spec args) as Hs. exists (read_items args).1, (read_items args).2. unfold Initialize.
  replace (lenZ (name :: args) - 1) with (lenZ args) by (unfold lenZ; simpl length; lia). cbn [drop]. rewrite drop_0.
  rewrite Initialize_loop_reads by (simpl; lia). destruct (read_items args) as [its rest]. destruct Hs as (? & ? & ?).
  conjs; [done..|]. cbn [fst snd]. by destruct (apply_items its default_options).
Qed.

End InitializeReads.

(** ** What [main] runs *)

Section MainRuns.
Context (b : Build).

Lemma argument_ok argv n v : argv !! n = Some v -> argument (lenZ argv) argv n = Ok v.
Proof.
  intros E. unfold argument. pose proof (lookup_lt_Some _ _ _ E). rewrite (proj2 (Z.ltb_lt _ _)) by (unfold lenZ; lia).
  cbn [ASSERT mbind outcome_bind]. by rewrite E.
Qed.

(** The words with which a command is given in this build. *)
Inductive written : command -> list string -> Prop :=
| w_copyright : written PrintCopyright ["-z"]
| w_exec f : USER_PROGRAM b = true -> written (StartProcess f) ["-x"; f]
| w_copy u n : FILESYS b = true -> written (Copy u n) ["-cp"; u; n]
| w_print f : FILESYS b = true -> written (PrintFile f) ["-p"; f]
| w_remove f : FILESYS b = true -> written (Remove f) ["-r"; f]
| w_list : FILESYS b = true -> written ListDirectory ["-l"]
| w_filesystem : FILESYS b = true -> written PrintFileSystem ["-D"]
| w_performance : FILESYS b = true -> written PerformanceTest ["-t"]
| w_mail v n : NETWORK b = true -> atoi v = Ok n -> written (MailTest n) ["-o"; v].

(** The console test, after which nothing more is read. *)
Inductive written_last : list command -> list string -> Prop :=
| wl_none : written_last [] []
| wl_console : USER_PROGRAM b = true -> written_last [ConsoleTest None; HaltMachine] ["-c"]
| wl_files i o r : USER_PROGRAM b = true -> written_last [ConsoleTest (Some (i, o)); HaltMachine] ("-c" :: i :: o :: r).

Lemma main_body_written c ws r :
  written c ws -> main_body b (lenZ (ws ++ r)) (ws ++ r) = Ok ([c], length ws, false).
Proof.
  destruct 1 as [|f Hb|u n Hb|f Hb|f Hb|Hb|Hb|Hb|v n Hb Hv];
    unfold main_body, user_program_commands, filesys_commands, network_commands;
    cbn [app hd_error deref mbind outcome_bind]; rewrite ?Hb.
  - destruct (USER_PROGRAM b), (FILESYS b), (NETWORK b); done.
  - rewrite (argument_ok _ 1 f) by done. destruct (FILESYS b), (NETWORK b); done.
  - rewrite (argument_ok _ 1 u), (argument_ok _ 2 n) by done. destruct (USER_PROGRAM b), (NETWORK b); done.
  - rewrite (argument_ok _ 1 f) by done. destruct (USER_PROGRAM b), (NETWORK b); done.
  - rewrite (argument_ok _ 1 f) by done. destruct (USER_PROGRAM b), (NETWORK b); done.
  - destruct (USER_PROGRAM b), (NETWORK b); done.
  - destruct (USER_PROGRAM b), (NETWORK b); done.
  - destruct (USER_PROGRAM b), (NETWORK b); done.
  - rewrite (argument_ok _ 1 v) by done. cbn [mbind outcome_bind]. rewrite Hv. destruct (USER_PROGRAM b), (FILESYS b); done.
Qed.

Lemma main_loop_last fuel cs ws : written_last cs ws -> main_loop b (S fuel) (lenZ ws) ws = Ok cs.
Proof.
  destruct 1 as [|Hb|i o r Hb]; [done| |]; cbn [main_loop]; (rewrite (proj2 (Z.ltb_lt _ _)) by (unfold lenZ; simpl length; lia));
    unfold main_body, user_program_commands; cbn [hd_error deref mbind outcome_bind]; rewrite Hb; [done|].
  rewrite (argument_ok _ 1 i), (argument_ok _ 2 o) by done.
  rewrite (proj2 (Z.eqb_neq (lenZ _) 1)) by (unfold lenZ; simpl length; lia). done.
Qed.

Lemma written_nonempty c ws : written c ws -> (0 < length ws)%nat.
Proof. destruct 1; simpl; lia. Qed.

Lemma main_loop_written cs wss last ws fuel :
  Forall2 written cs wss -> written_last last ws -> (length (concat wss ++ ws) < fuel)%nat ->
  main_loop b fuel (lenZ (concat wss ++ ws)) (concat wss ++ ws) = Ok (cs ++ last).
Proof.
  intros Hw Hl. revert fuel. induction Hw as [|c w cs wss Hc _ IH]; intros fuel Hf; (destruct fuel as [|fuel]; [lia|]).
  - by apply main_loop_last.
  - cbn [concat] in *. rewrite <- app_assoc in *. set (r := concat wss ++ ws) in *.
    pose proof (written_nonempty c w Hc). rewrite length_app in Hf.
    cbn [main_loop]. rewrite (proj2 (Z.ltb_lt _ _)) by (unfold lenZ; rewrite length_app; lia).
    rewrite (main_body_written c) by done. cbn [mbind outcome_bind]. rewrite drop_app_length.
    replace (lenZ (w ++ r) - Z.of_nat (length w)) with (lenZ r) by (unfold lenZ; rewrite length_app; lia).
    by rewrite IH by lia.
Qed.

(** [main] runs the command line it is given: in a build without THREADS, when the
    words after the program name spell the commands [cs], possibly followed by the
    console test, and [Initialize] returns, [main] makes exactly these calls, in this
    order; file names are taken as they are, also when they look like an option. *)
Theorem main_runs_commands name cs wss last ws g :
  THREADS b = false -> Forall2 written cs wss -> written_last last ws ->
  let argv := name :: concat wss ++ ws in
  Initialize b (lenZ argv) argv = Ok g -> main b (lenZ argv) argv = Ok ([], g, None, cs ++ last).
Proof.
  intros Ht Hw Hl argv Hi. unfold main. rewrite Hi, Ht. cbn [mbind outcome_bind]. subst argv. cbn [drop]. rewrite drop_0.
  replace (lenZ (name :: concat wss ++ ws) - 1) with (lenZ (concat wss ++ ws)) by (unfold lenZ; simpl length; lia).
  by rewrite (main_loop_written cs wss last ws) by (done || simpl; lia).
Qed.

(** ** The thread test's loop *)

Lemma testnum_loop_argc fuel argc argv n argc' argv' n' :
  testnum_loop fuel argc argv n = Ok (argc', argv', n') -> argc' <= 0.
Proof.
  revert argc argv n. induction fuel as [|fuel IH]; intros argc argv n E; [done|]. cbn [testnum_loop] in E.
  destruct (Z.ltb_spec 0 argc); [|by simplify_eq]. apply bind_Ok_inv in E as (a & _ & E). apply bind_Ok_inv in E as (c & _ & E).
  destruct (bool_decide _); [|by eapply IH]. apply bind_Ok_inv in E as (v & _ & E). apply bind_Ok_inv in E as (m & _ & E).
  by eapply IH.
Qed.

(** A word that is not an option of the thread test. *)
Definition no_q (w : string) : Prop :=
  match w with String _ (String c _) => c <> "q"%char | String _ EmptyString => True | EmptyString => False end.

Lemma testnum_loop_no_q fuel ws n :
  Forall no_q ws -> (length ws < fuel)%nat ->
  testnum_loop fuel (lenZ ws) ws n = Ok (0, [], if bool_decide (ws = []) then n else 1).
Proof.
  intros Hw. revert n fuel. induction Hw as [|w ws Hq _ IH]; intros n fuel Hf; (destruct fuel as [|fuel]; [lia|]); [done|].
  cbn [testnum_loop]. rewrite (proj2 (Z.ltb_lt _ _)) by (unfold lenZ; simpl length; lia). cbn [hd_error deref mbind outcome_bind].
  replace (lenZ (w :: ws) - 1) with (lenZ ws) by (unfold lenZ; simpl length; lia). simpl length in Hf.
  destruct w as [|c0 [|c r]]; [done| |]; cbn [deref mbind outcome_bind]; (rewrite bool_decide_eq_false_2; [|done || exact Hq]);
    cbn [drop]; rewrite drop_0, IH by lia; (rewrite (bool_decide_eq_false_2 (_ :: _ = [])) by done); by destruct (bool_decide _).
Qed.

Lemma testnum_loop_q fuel v ws n0 n :
  atoi v = Ok n ->
  testnum_loop (S fuel) (lenZ ("-q" :: v :: ws)) ("-q" :: v :: ws) n0 = testnum_loop fuel (lenZ ws) ws n.
Proof.
  intros Hv. cbn [testnum_loop]. rewrite (proj2 (Z.ltb_lt _ _)) by (unfold lenZ; simpl length; lia).
  simpl lookup. cbn [hd_error deref mbind outcome_bind]. rewrite bool_decide_eq_true_2 by done. rewrite Hv.
  replace (lenZ ("-q" :: v :: ws) - 2) with (lenZ ws) by (unfold lenZ; simpl length; lia). done.
Qed.

(** C36: a build with THREADS (the one of filesys/Makefile has it) runs none of the
    commands: the loop that looks for [-q] leaves [argc] at zero, so whatever the
    command line is, [main] calls [ThreadTest] and then goes straight to [Finish];
    and a [-q] that is not the last option is forgotten, every other word sets
    [testnum] back to 1. *)
Theorem threads_build_runs_no_command name args :
  THREADS b = true ->
  let argv := name :: args in
  (forall out g test cs, main b (lenZ argv) argv = Ok (out, g, test, cs) -> cs = []) /\
  (forall v n ws g, args = "-q" :: v :: ws -> atoi v = Ok n -> Forall no_q ws -> Initialize b (lenZ argv) argv = Ok g ->
     main b (lenZ argv) argv = Ok ([], g, Some (if bool_decide (ws = []) then n else 1), [])).
Proof.
  intros Ht argv. unfold main. rewrite Ht. split.
  - intros out g test cs E. apply bind_Ok_inv in E as (g' & _ & E). apply bind_Ok_inv in E as ([[argc' argv'] n'] & E1 & E).
    apply bind_Ok_inv in E1 as ([[argc1 argv1] n1] & E1 & E2). simplify_eq. apply testnum_loop_argc in E1.
    apply bind_Ok_inv in E as (cs' & E & E3). simplify_eq. cbn [main_loop] in E.
    rewrite (proj2 (Z.ltb_ge _ _)) in E by lia. by simplify_eq.
  - intros v n ws g Hargs Hv Hws Hi. rewrite Hi. cbn [mbind outcome_bind]. subst args. unfold argv. simpl drop.
    replace (lenZ (name :: "-q" :: v :: ws) - 1) with (lenZ ("-q" :: v :: ws)) by (unfold lenZ; simpl length; lia).
    rewrite (testnum_loop_q _ v ws 1 n Hv). rewrite testnum_loop_no_q by (done || simpl; lia). done.
Qed.

End MainRuns.

(** The builds of network/Makefile and of filesys/Makefile. *)
Definition network_build : Build := mkBuild false true true true true.
Definition filesys_build : Build := mkBuild true true true true false.

(** Removing a file called "-f" also formats the disk: [Initialize] sees the name. *)
Lemma main_runs_commands_witness :
  main network_build 4 ["nachos"; "-r"; "-f"; "-c"] =
    Ok ([], mkGlobals (Some "") false (Some false) (Some true) (Some (0, "1", 10)) true, None,
        [Remove "-f"; ConsoleTest None; HaltMachine]).
Proof.
  apply (main_runs_commands network_build "nachos" [Remove "-f"] [["-r"; "-f"]] [ConsoleTest None; HaltMachine] ["-c"]).
  - reflexivity.
  - constructor; [|constructor]. apply w_remove. reflexivity.
  - apply wl_console. reflexivity.
  - vm_compute. reflexivity.
Defined.

Lemma threads_build_runs_no_command_witness :
  main filesys_build 5 ["nachos"; "-q"; "7"; "-p"; "f"] =
    Ok ([], mkGlobals (Some "") false (Some false) (Some false) None true, Some 1, []).
Proof.
  destruct (threads_build_runs_no_command filesys_build "nachos" ["-q"; "7"; "-p"; "f"]) as [_ H]; [reflexivity|].
  apply (H "7" 7 ["-p"; "f"]).
  - reflexivity.
  - vm_compute. reflexivity.
  - repeat constructor. discriminate.
  - vm_compute. reflexivity.
Defined.

(** The usage comment of main.cc gives [-n] for the reliability of the network;
    [Initialize] looks for [-l], and takes no notice of [-n]. *)
Lemma reliability_flag b v :
  needs_value b "-n" = false /\ item_ok b (Word "-n") /\
  Initialize network_build 3 ["nachos"; "-n"; v] = Initialize network_build 2 ["nachos"; v].
Proof.
  assert (needs_value b "-n" = false) by (unfold needs_value; simpl; apply andb_false_r). conjs; [done|by split|].
  unfold Initialize. change (3 - 1) with (lenZ ["-n"; v]). change (2 - 1) with (lenZ [v]).
  change (drop 1 ["nachos"; "-n"; v]) with ["-n"; v]. change (drop 1 ["nachos"; v]) with [v].
  rewrite !Initialize_loop_reads by (simpl; lia). rewrite (read_items_word network_build "-n" [v]) by reflexivity. reflexivity.
Qed.
