(* ===== verification/UnixFiles.v ===== *)
(** * Files of the host (machine/sysdep.cc, and the FILESYS_STUB classes of
      filesys/openfile.h and filesys/filesys.h)

    In the builds with FILESYS_STUB (threads/Makefile and userprog/Makefile) the file
    system is the one of the UNIX host.  The host's system calls are not code of the
    program: they are the operations of the class [Unix], and [UnixLaws] is what their
    manual pages promise, on a view of the host as names, contents and open
    descriptors.  Every call may fail with -1; a write may be short.  [Toy] is a host
    that satisfies the laws. *)

From S2P Require Import Prelude Int32 AddrSpace.

(** What a program can see of the files of the host: names, contents, and for each
    open descriptor its file and offset. *)
Record Files := mkFiles {
  names : gmap (list Z) positive;
  contents : gmap positive (list Z);
  opened : gmap Z (positive * Z) }.

(** [O_RDWR] alone, or with [O_CREAT|O_TRUNC] *)
Inductive open_mode := ReadWrite | CreateTruncate.

Inductive whence := SEEK_SET | SEEK_CUR | SEEK_END.

(** [open], [read], [write], [lseek], [close] and [unlink]; a negative result is an error. *)
Class Unix (U : Type) := {
  u_open : list Z -> open_mode -> U -> Z * U;
  u_read : Z -> Z -> U -> Z * list Z * U;
  u_write : Z -> list Z -> U -> Z * U;
  u_lseek : Z -> Z -> whence -> U -> Z * U;
  u_close : Z -> U -> Z * U;
  u_unlink : list Z -> U -> Z * U;
  u_view : U -> Files }.

(** The bytes of a file after [bs] was written at [off]; a gap is filled with zeros, and
    writing nothing changes nothing. *)
Definition overwrite (old : list Z) (off : Z) (bs : list Z) : list Z :=
  if lenZ bs =? 0 then old
  else slice (old ++ replicate (Z.to_nat (off - lenZ old)) 0) 0 off ++ bs ++ drop (Z.to_nat (off + lenZ bs)) old.

Definition set_offset (F : Files) (fd : Z) (ino : positive) (off : Z) : Files :=
  mkFiles (names F) (contents F) (<[fd := (ino, off)]> (opened F)).
Definition set_content (F : Files) (ino : positive) (bs : list Z) : Files :=
  mkFiles (names F) (<[ino := bs]> (contents F)) (opened F).

(** A file that can still be reached, through a name or a descriptor. *)
Definition in_use (F : Files) (ino : positive) : Prop :=
  (exists nm, names F !! nm = Some ino) \/ (exists fd off, opened F !! fd = Some (ino, off)).

(** The target of a seek. *)
Definition seek_target (size cur offset : Z) (w : whence) : Z :=
  match w with SEEK_SET => offset | SEEK_CUR => cur + offset | SEEK_END => size + offset end.

Record files_ok (F : Files) : Prop := {
  fo_content : forall ino, in_use F ino -> is_Some (contents F !! ino);
  fo_offset : forall fd ino off, opened F !! fd = Some (ino, off) -> 0 <= fd /\ 0 <= off <= int32_max }.

Class UnixLaws (U : Type) `{!Unix U} := {
  view_ok : forall h, files_ok (u_view h);
  (** a new descriptor at offset 0; without [O_CREAT] the file must exist *)
  open_rw : forall nm h fd h', u_open nm ReadWrite h = (fd, h') ->
    (fd = -1 /\ u_view h' = u_view h) \/
    (0 <= fd <= int32_max /\ opened (u_view h) !! fd = None /\ exists ino, names (u_view h) !! nm = Some ino /\
       u_view h' = set_offset (u_view h) fd ino 0);
  open_create : forall nm h fd h', u_open nm CreateTruncate h = (fd, h') ->
    (fd = -1 /\ u_view h' = u_view h) \/
    (0 <= fd <= int32_max /\ opened (u_view h) !! fd = None /\ exists ino,
       (names (u_view h) !! nm = Some ino \/ (names (u_view h) !! nm = None /\ ~ in_use (u_view h) ino)) /\
       u_view h' = mkFiles (<[nm := ino]> (names (u_view h))) (<[ino := []]> (contents (u_view h)))
                     (<[fd := (ino, 0)]> (opened (u_view h))));
  (** as many bytes as there are from the offset on *)
  read_law : forall fd n h r bs h', u_read fd n h = (r, bs, h') -> 0 <= n ->
    (r = -1 /\ bs = [] /\ u_view h' = u_view h) \/
    (exists ino off d, opened (u_view h) !! fd = Some (ino, off) /\ contents (u_view h) !! ino = Some d /\
       bs = slice d off n /\ r = lenZ bs /\ u_view h' = set_offset (u_view h) fd ino (off + r));
  (** a first part of the bytes, with the offset behind it *)
  write_law : forall fd bs h r h', u_write fd bs h = (r, h') ->
    (r = -1 /\ u_view h' = u_view h) \/
    (0 <= r <= lenZ bs /\ exists ino off d, opened (u_view h) !! fd = Some (ino, off) /\ contents (u_view h) !! ino = Some d /\
       u_view h' = set_offset (set_content (u_view h) ino (overwrite d off (slice bs 0 r))) fd ino (off + r));
  lseek_law : forall fd offset w h r h', u_lseek fd offset w h = (r, h') ->
    (r = -1 /\ u_view h' = u_view h /\
       forall ino off d, opened (u_view h) !! fd = Some (ino, off) -> contents (u_view h) !! ino = Some d ->
         ~ 0 <= seek_target (lenZ d) off offset w <= int32_max) \/
    (exists ino off d, opened (u_view h) !! fd = Some (ino, off) /\ contents (u_view h) !! ino = Some d /\
       r = seek_target (lenZ d) off offset w /\ 0 <= r <= int32_max /\ u_view h' = set_offset (u_view h) fd ino r);
  close_law : forall fd h r h', u_close fd h = (r, h') ->
    (r = -1 /\ u_view h' = u_view h /\ opened (u_view h) !! fd = None) \/
    (r = 0 /\ is_Some (opened (u_view h) !! fd) /\ names (u_view h') = names (u_view h) /\
     opened (u_view h') = delete fd (opened (u_view h)) /\
     forall ino, in_use (u_view h') ino -> contents (u_view h') !! ino = contents (u_view h) !! ino);
  unlink_law : forall nm h r h', u_unlink nm h = (r, h') ->
    (r = -1 /\ u_view h' = u_view h) \/
    (r = 0 /\ is_Some (names (u_view h) !! nm) /\ names (u_view h') = delete nm (names (u_view h)) /\
     opened (u_view h') = opened (u_view h) /\
     forall ino, in_use (u_view h') ino -> contents (u_view h') !! ino = contents (u_view h) !! ino) }.

Section Calls.
Context {U : Type} `{!Unix U}.

(** [OpenForWrite] *)
Definition OpenForWrite (name : list Z) (h : U) : outcome (Z * U) :=
  let '(fd, h) := u_open name CreateTruncate h in
  _ ← ASSERT (0 <=? fd);
  Ok (fd, h).

(** [OpenForReadWrite] *)
Definition OpenForReadWrite (name : list Z) (crashOnError : bool) (h : U) : outcome (Z * U) :=
  let '(fd, h) := u_open name ReadWrite h in
  _ ← ASSERT (negb crashOnError || (0 <=? fd));
  Ok (fd, h).

(** [Read]: the bytes that land in [buffer] *)
Definition Read (fd nBytes : Z) (h : U) : outcome (list Z * U) :=
  let '(retVal, bs, h) := u_read fd nBytes h in
  _ ← ASSERT (retVal =? nBytes);
  Ok (bs, h).

(** [ReadPartial]: the result of [read] and the bytes *)
Definition ReadPartial (fd nBytes : Z) (h : U) : Z * list Z * U := u_read fd nBytes h.

(** [WriteFile]: the first [nBytes] of [buffer] *)
Definition WriteFile (fd : Z) (buffer : list Z) (nBytes : Z) (h : U) : outcome U :=
  if (0 <=? nBytes) && (nBytes <=? lenZ buffer) then
    let '(retVal, h) := u_write fd (slice buffer 0 nBytes) h in
    _ ← ASSERT (retVal =? nBytes);
    Ok h
  else Undefined.

(** [Lseek] *)
Definition Lseek (fd offset : Z) (w : whence) (h : U) : outcome U :=
  let '(retVal, h) := u_lseek fd offset w h in
  _ ← ASSERT (0 <=? retVal);
  Ok h.

(** [Tell], as [lseek(fd, 0, SEEK_CUR)] *)
Definition Tell (fd : Z) (h : U) : Z * U := u_lseek fd 0 SEEK_CUR h.

(** [Close] *)
Definition Close (fd : Z) (h : U) : outcome U :=
  let '(retVal, h) := u_close fd h in
  _ ← ASSERT (0 <=? retVal);
  Ok h.

(** [Unlink]: [TRUE] when [unlink] fails, its result -1 as a [bool] *)
Definition Unlink (name : list Z) (h : U) : bool * U :=
  let '(r, h) := u_unlink name h in (negb (r =? 0), h).

(** ** [class OpenFile], with FILESYS_STUB *)

Record HostFile := mkHostFile { file : Z; currentOffset : Z; hf_type : option Z }.

(** [OpenFile::OpenFile]: the first constructor leaves [type] alone. *)
Definition OpenFile_new (f : Z) : HostFile := mkHostFile f 0 None.
Definition OpenFile_new_type (f t : Z) : HostFile := mkHostFile f 0 (Some t).
(** [OpenFile::~OpenFile] *)
Definition OpenFile_delete (f : HostFile) (h : U) : outcome U := Close (file f) h.

Definition set_pos (f : HostFile) (p : Z) : HostFile := mkHostFile (file f) p (hf_type f).

(** [OpenFile::Seek] *)
Definition OpenFile_Seek (f : HostFile) (pos : Z) (h : U) : outcome (Z * HostFile * U) :=
  h ← Lseek (file f) pos SEEK_SET h;
  let '(p, h) := Tell (file f) h in
  Ok (p, set_pos f p, h).

(** [OpenFile::ReadAt] *)
Definition OpenFile_ReadAt (f : HostFile) (numBytes position : Z) (h : U) : outcome (Z * list Z * U) :=
  h ← Lseek (file f) position SEEK_SET h;
  Ok (ReadPartial (file f) numBytes h).

(** [OpenFile::WriteAt] *)
Definition OpenFile_WriteAt (f : HostFile) (from : list Z) (numBytes position : Z) (h : U) : outcome (Z * U) :=
  h ← Lseek (file f) position SEEK_SET h;
  h ← WriteFile (file f) from numBytes h;
  Ok (numBytes, h).

(** [OpenFile::Read] *)
Definition OpenFile_Read (f : HostFile) (numBytes : Z) (h : U) : outcome (Z * list Z * HostFile * U) :=
  '(numRead, bs, h) ← OpenFile_ReadAt f numBytes (currentOffset f) h;
  Ok (numRead, bs, set_pos f (wrap_s32 (currentOffset f + numRead)), h).

(** [OpenFile::Write] *)
Definition OpenFile_Write (f : HostFile) (from : list Z) (numBytes : Z) (h : U) : outcome (Z * HostFile * U) :=
  '(numWritten, h) ← OpenFile_WriteAt f from numBytes (currentOffset f) h;
  Ok (numWritten, set_pos f (wrap_s32 (currentOffset f + numWritten)), h).

(** [OpenFile::Length] *)
Definition OpenFile_Length (f : HostFile) (h : U) : outcome (Z * U) :=
  h ← Lseek (file f) 0 SEEK_END h;
  Ok (Tell (file f) h).

(** [OpenFile::GetCurrentPos] *)
Definition OpenFile_GetCurrentPos (f : HostFile) (h : U) : Z * HostFile * U :=
  let '(p, h) := Tell (file f) h in (p, set_pos f p, h).

(** ** [class FileSystem], with FILESYS_STUB *)

(** [openf] and [index] *)
Record HostFS := mkHostFS { openf : list (option HostFile); index : Z }.

(** [FileSystem::Create] *)
Definition FileSystem_Create (name : list Z) (initialSize : Z) (h : U) : outcome (bool * U) :=
  '(fileDescriptor, h) ← OpenForWrite name h;
  if fileDescriptor =? -1 then Ok (false, h)
  else h ← Close fileDescriptor h; Ok (true, h).

(** [FileSystem::Open], without and with the type *)
Definition FileSystem_Open (name : list Z) (h : U) : outcome (option HostFile * U) :=
  '(fileDescriptor, h) ← OpenForReadWrite name false h;
  if fileDescriptor =? -1 then Ok (None, h) else Ok (Some (OpenFile_new fileDescriptor), h).
Definition FileSystem_Open_type (name : list Z) (type : Z) (h : U) : outcome (option HostFile * U) :=
  '(fileDescriptor, h) ← OpenForReadWrite name false h;
  if fileDescriptor =? -1 then Ok (None, h) else Ok (Some (OpenFile_new_type fileDescriptor type), h).

(** "stdin" and "stdout" *)
Definition stdin_name : list Z := [115; 116; 100; 105; 110].
Definition stdout_name : list Z := [115; 116; 100; 111; 117; 116].

(** [openf[index++] = p] *)
Definition push_file (fs : HostFS) (p : option HostFile) : outcome HostFS :=
  _ ← deref ((openf fs).[index fs]);
  Ok (mkHostFS ((openf fs).[index fs <- p]) (wrap_s32 (index fs + 1))).

(** [FileSystem::FileSystem] *)
Definition FileSystem_new (format : bool) (h : U) : outcome (HostFS * U) :=
  let fs := mkHostFS (replicate 15 None) 0 in
  '(_, h) ← FileSystem_Create stdin_name 0 h;
  '(_, h) ← FileSystem_Create stdout_name 0 h;
  '(p, h) ← FileSystem_Open_type stdin_name 2 h;
  fs ← push_file fs p;
  '(p, h) ← FileSystem_Open_type stdout_name 3 h;
  fs ← push_file fs p;
  Ok (fs, h).

(** [FileSystem::~FileSystem] *)
Fixpoint delete_all (ps : list (option HostFile)) (h : U) : outcome U :=
  match ps with
  | [] => Ok h
  | None :: ps => delete_all ps h
  | Some f :: ps => h ← OpenFile_delete f h; delete_all ps h
  end.
Definition FileSystem_delete (fs : HostFS) (h : U) : outcome U := delete_all (openf fs) h.

(** [FileSystem::FindFreeSlot] *)
Fixpoint free_slot (fs : HostFS) (n : nat) (i : Z) : outcome Z :=
  match n with
  | O => Ok (-1)
  | S n =>
      p ← deref ((openf fs).[i]);
      match p with None => Ok i | Some _ => free_slot fs n (i + 1) end
  end.
Definition FileSystem_FindFreeSlot (fs : HostFS) : outcome Z := free_slot fs 13 2.

(** [FileSystem::Remove] *)
Definition FileSystem_Remove (name : list Z) (h : U) : bool * U :=
  let '(failed, h) := Unlink name h in (negb failed, h).

End Calls.

(** ** The calls, on the view of the host *)

Section Laws.
Context {U : Type} `{!Unix U} `{!UnixLaws U}.

(** [f]'s descriptor is open on the file [ino] with the bytes [d], at offset [o]. *)
Definition on_file (f : HostFile) (h : U) (ino : positive) (o : Z) (d : list Z) : Prop :=
  opened (u_view h) !! file f = Some (ino, o) /\ contents (u_view h) !! ino = Some d.

(** [h'] is [h] with the offset of [f] at [o] and the bytes [d]. *)
Definition moved (f : HostFile) (h : U) (ino : positive) (o : Z) (d : list Z) (h' : U) : Prop :=
  u_view h' = set_offset (set_content (u_view h) ino d) (file f) ino o.

Lemma moved_on_file f h ino o d h' : moved f h ino o d h' -> on_file f h' ino o d.
Proof. unfold moved, on_file. intros ->. simpl. by rewrite !lookup_insert_eq. Qed.

Lemma set_content_id F ino d : contents F !! ino = Some d -> set_content F ino d = F.
Proof. intros H. unfold set_content. rewrite insert_id by done. by destruct F. Qed.

Lemma set_offset_moved f h ino o0 o d h' :
  on_file f h ino o0 d -> u_view h' = set_offset (u_view h) (file f) ino o -> moved f h ino o d h'.
Proof. unfold moved. intros [_ Hd] ->. by rewrite set_content_id. Qed.

Lemma moved_moved f h ino o1 d1 h1 o2 d2 h2 :
  moved f h ino o1 d1 h1 -> moved f h1 ino o2 d2 h2 -> moved f h ino o2 d2 h2.
Proof. unfold moved. intros E1 ->. rewrite E1. unfold set_offset, set_content. simpl. by rewrite !insert_insert_eq. Qed.

Lemma on_file_offset f h ino o d : on_file f h ino o d -> 0 <= o <= int32_max.
Proof. intros [Ho _]. exact (proj2 (fo_offset _ (view_ok h) _ _ _ Ho)). Qed.

(** [Lseek] succeeds just when its target is an offset. *)
Lemma Lseek_ok f h ino o d offset w :
  on_file f h ino o d ->
  let t := seek_target (lenZ d) o offset w in
  if decide (0 <= t <= int32_max) then exists h', Lseek (file f) offset w h = Ok h' /\ moved f h ino t d h'
  else Lseek (file f) offset w h = AssertFail.
Proof.
  intros Hon t. pose proof Hon as [Ho Hd]. unfold Lseek. destruct (u_lseek (file f) offset w h) as [r h'] eqn:E.
  destruct (lseek_law _ _ _ _ _ _ E) as [(-> & _ & Hn)|(ino' & o' & d' & Ho' & Hd' & -> & Hr & Hv)].
  - rewrite decide_False by exact (Hn ino o d Ho Hd). done.
  - simplify_eq. rewrite decide_True by done. exists h'. rewrite (proj2 (Z.leb_le _ _)) by lia.
    split; [done|]. by eapply set_offset_moved.
Qed.

Lemma Lseek_set f h ino o d p :
  on_file f h ino o d -> 0 <= p <= int32_max -> exists h', Lseek (file f) p SEEK_SET h = Ok h' /\ moved f h ino p d h'.
Proof. intros Hon Hp. pose proof (Lseek_ok f h ino o d p SEEK_SET Hon) as H. simpl in H. by rewrite decide_True in H. Qed.

Lemma Tell_ok f h ino o d :
  on_file f h ino o d -> exists h', Tell (file f) h = (o, h') /\ moved f h ino o d h'.
Proof.
  intros Hon. pose proof (on_file_offset _ _ _ _ _ Hon). pose proof Hon as [Ho Hd]. unfold Tell.
  destruct (u_lseek (file f) 0 SEEK_CUR h) as [r h'] eqn:E.
  destruct (lseek_law _ _ _ _ _ _ E) as [(_ & _ & Hn)|(ino' & o' & d' & Ho' & Hd' & -> & Hr & Hv)].
  - destruct (Hn ino o d Ho Hd). simpl. lia.
  - simplify_eq. simpl in Hv |- *. rewrite Z.add_0_r in Hv |- *. exists h'. split; [done|]. by eapply set_offset_moved.
Qed.

Lemma ReadPartial_ok f h ino o d n r bs h' :
  on_file f h ino o d -> 0 <= n -> ReadPartial (file f) n h = (r, bs, h') ->
  (r = -1 /\ bs = [] /\ moved f h ino o d h') \/
  (bs = slice d o n /\ r = lenZ bs /\ moved f h ino (o + r) d h').
Proof.
  intros Hon Hn E. pose proof Hon as [Ho Hd]. destruct (read_law _ _ _ _ _ _ E Hn) as [(-> & -> & Hv)|(ino' & o' & d' & Ho' & Hd' & -> & -> & Hv)].
  - left. conjs; [done..|]. eapply set_offset_moved; [done|]. rewrite Hv. unfold set_offset. rewrite insert_id by done. by destruct (u_view h).
  - right. simplify_eq. conjs; [done..|]. by eapply set_offset_moved.
Qed.

Lemma WriteFile_ok f h ino o d bs n :
  on_file f h ino o d -> 0 <= n <= lenZ bs ->
  WriteFile (file f) bs n h = AssertFail \/
  exists h', WriteFile (file f) bs n h = Ok h' /\ moved f h ino (o + n) (overwrite d o (slice bs 0 n)) h'.
Proof.
  intros [Ho Hd] Hn. unfold WriteFile. rewrite (proj2 (Z.leb_le 0 n)), (proj2 (Z.leb_le n (lenZ bs))) by lia. cbn [andb].
  destruct (u_write (file f) (slice bs 0 n) h) as [r h'] eqn:E. destruct (Z.eqb_spec r n) as [->|Hne]; [right|by left].
  exists h'. split; [done|]. destruct (write_law _ _ _ _ _ E) as [(-> & _)|(_ & ino' & o' & d' & Ho' & Hd' & Hv)]; [lia|].
  simplify_eq. unfold moved. rewrite Hv. rewrite slice_slice by lia. done.
Qed.

(** [f] shows a file with the bytes [d] at position [p]: the descriptor is open on it,
    wherever the host's own offset is. *)
Definition shows (f : HostFile) (h : U) (ino : positive) (d : list Z) (p : Z) : Prop :=
  (exists o, on_file f h ino o d) /\ currentOffset f = p /\ 0 <= p <= int32_max.

Lemma host_ReadAt_ok f h ino o d n position :
  on_file f h ino o d -> 0 <= n -> 0 <= position <= int32_max ->
  exists r bs h', OpenFile_ReadAt f n position h = Ok (r, bs, h') /\
    ((r = -1 /\ bs = [] /\ moved f h ino position d h') \/
     (bs = slice d position n /\ r = lenZ bs /\ moved f h ino (position + r) d h')).
Proof.
  intros Hon Hn Hp. unfold OpenFile_ReadAt. destruct (Lseek_set f h ino o d position Hon Hp) as (h1 & -> & Hm1).
  cbn [mbind outcome_bind]. destruct (ReadPartial (file f) n h1) as [[r bs] h2] eqn:E. exists r, bs, h2. split; [done|].
  destruct (ReadPartial_ok f h1 ino position d n r bs h2 (moved_on_file _ _ _ _ _ _ Hm1) Hn E) as [(-> & -> & Hm)|(-> & -> & Hm)]; [left|right];
    (conjs; [done..|]); by eapply moved_moved.
Qed.

Lemma host_WriteAt_ok f h ino o d bs n position :
  on_file f h ino o d -> 0 <= n <= lenZ bs -> 0 <= position <= int32_max ->
  OpenFile_WriteAt f bs n position h = AssertFail \/
  exists h', OpenFile_WriteAt f bs n position h = Ok (n, h') /\
    moved f h ino (position + n) (overwrite d position (slice bs 0 n)) h'.
Proof.
  intros Hon Hn Hp. unfold OpenFile_WriteAt. destruct (Lseek_set f h ino o d position Hon Hp) as (h1 & -> & Hm1).
  cbn [mbind outcome_bind]. destruct (WriteFile_ok f h1 ino position d bs n (moved_on_file _ _ _ _ _ _ Hm1) Hn) as [-> |(h2 & -> & Hm2)];
    [by left|right]. exists h2. split; [done|]. by eapply moved_moved.
Qed.

Lemma Read_ok f h ino d p n :
  shows f h ino d p -> 0 <= n ->
  exists r bs f' h', OpenFile_Read f n h = Ok (r, bs, f', h') /\ file f' = file f /\
    ((r = -1 /\ bs = [] /\ currentOffset f' = p - 1 /\ moved f h ino p d h') \/
     (bs = slice d p n /\ r = lenZ bs /\ shows f' h' ino d (p + r) /\ moved f h ino (p + r) d h')).
Proof.
  intros ([o Hon] & Hpos & Hp) Hn. unfold OpenFile_Read. rewrite Hpos.
  destruct (host_ReadAt_ok f h ino o d n p Hon Hn Hp) as (r & bs & h' & -> & Hr). cbn [mbind outcome_bind].
  exists r, bs, (set_pos f (wrap_s32 (p + r))), h'. conjs; [done..|].
  destruct Hr as [(-> & -> & Hm)|(-> & -> & Hm)]; [left|right]; (conjs; [done..| |done]).
  - simpl. apply wrap_s32_id. unfold_int32. lia.
  - pose proof (moved_on_file _ _ _ _ _ _ Hm) as Hon'. pose proof (on_file_offset _ _ _ _ _ Hon') as Hb.
    split; [exists (p + lenZ (slice d p n)); exact Hon'|split; [|done]]. simpl. apply wrap_s32_id. unfold_int32. lia.
Qed.

Lemma Write_ok f h ino d p bs n :
  shows f h ino d p -> 0 <= n <= lenZ bs ->
  OpenFile_Write f bs n h = AssertFail \/
  exists f' h', OpenFile_Write f bs n h = Ok (n, f', h') /\ file f' = file f /\
    shows f' h' ino (overwrite d p (slice bs 0 n)) (p + n) /\ moved f h ino (p + n) (overwrite d p (slice bs 0 n)) h'.
Proof.
  intros ([o Hon] & Hpos & Hp) Hn. unfold OpenFile_Write. rewrite Hpos.
  destruct (host_WriteAt_ok f h ino o d bs n p Hon Hn Hp) as [-> |(h' & -> & Hm)]; [by left|right]. cbn [mbind outcome_bind].
  exists (set_pos f (wrap_s32 (p + n))), h'. conjs; [done..| |done].
  pose proof (moved_on_file _ _ _ _ _ _ Hm) as Hon'. pose proof (on_file_offset _ _ _ _ _ Hon') as Hb.
  split; [by exists (p + n)|split; [|done]]. simpl. apply wrap_s32_id. unfold_int32. lia.
Qed.

Lemma Seek_ok f h ino d p pos :
  shows f h ino d p ->
  if decide (0 <= pos <= int32_max)
  then exists f' h', OpenFile_Seek f pos h = Ok (pos, f', h') /\ file f' = file f /\ shows f' h' ino d pos /\ moved f h ino pos d h'
  else OpenFile_Seek f pos h = AssertFail.
Proof.
  intros ([o Hon] & _ & _). unfold OpenFile_Seek. pose proof (Lseek_ok f h ino o d pos SEEK_SET Hon) as HL. simpl in HL.
  destruct (decide (0 <= pos <= int32_max)); [|by rewrite HL]. destruct HL as (h1 & -> & Hm1). cbn [mbind outcome_bind].
  destruct (Tell_ok f h1 ino pos d (moved_on_file _ _ _ _ _ _ Hm1)) as (h2 & -> & Hm2).
  pose proof (moved_moved _ _ _ _ _ _ _ _ _ Hm1 Hm2) as Hm. exists (set_pos f pos), h2. conjs; [done..| |done].
  split; [|done]. exists pos. exact (moved_on_file _ _ _ _ _ _ Hm).
Qed.

Lemma Length_ok f h ino d p :
  shows f h ino d p -> lenZ d <= int32_max ->
  exists h', OpenFile_Length f h = Ok (lenZ d, h') /\ moved f h ino (lenZ d) d h'.
Proof.
  intros ([o Hon] & _ & _) Hl. unfold OpenFile_Length. pose proof (Lseek_ok f h ino o d 0 SEEK_END Hon) as HL.
  cbn [seek_target] in HL. rewrite Z.add_0_r, decide_True in HL by (pose proof (lenZ_nonneg d); lia).
  destruct HL as (h1 & -> & Hm1). cbn [mbind outcome_bind].
  destruct (Tell_ok f h1 ino (lenZ d) d (moved_on_file _ _ _ _ _ _ Hm1)) as (h2 & -> & Hm2). exists h2. split; [done|]. by eapply moved_moved.
Qed.

Lemma moved_shows f h ino d p o d' h' : shows f h ino d p -> moved f h ino o d' h' -> shows f h' ino d' p.
Proof. intros (_ & Hp & Hb) Hm. split; [|done]. exists o. exact (moved_on_file _ _ _ _ _ _ Hm). Qed.

Lemma ReadAt_stub d n p : 0 <= p -> 0 <= n -> OpenFile_ReadAt_stub d n p = Ok (slice d p n).
Proof.
  intros Hp Hn. unfold OpenFile_ReadAt_stub. rewrite (proj2 (Z.leb_le 0 p)), (proj2 (Z.ltb_ge n 0)) by lia. done.
Qed.

(** ** Theorems *)

(** C28: an [OpenFile] on a host file is a sequence of bytes with a position.  [Read]
    returns the bytes at the position and advances it, unless the host's [read] fails;
    [Write] replaces the bytes at the position, fills a gap with zeros and advances, or
    the kernel stops on a short write; [Seek] sets the position, and stops the kernel
    when it is negative; [ReadAt], [WriteAt] and [Length] work at any place and leave the
    position alone; what [ReadAt] delivers is what the program loader is given. *)
Theorem host_file_refines f h ino d p :
  shows f h ino d p ->
  (forall n, 0 <= n -> exists r bs f' h', OpenFile_Read f n h = Ok (r, bs, f', h') /\
     (r = -1 \/ (bs = slice d p n /\ r = lenZ bs /\ shows f' h' ino d (p + r)))) /\
  (forall bs n, 0 <= n <= lenZ bs -> OpenFile_Write f bs n h = AssertFail \/
     exists f' h', OpenFile_Write f bs n h = Ok (n, f', h') /\ shows f' h' ino (overwrite d p (slice bs 0 n)) (p + n)) /\
  (forall pos, if decide (0 <= pos <= int32_max)
     then exists f' h', OpenFile_Seek f pos h = Ok (pos, f', h') /\ shows f' h' ino d pos
     else OpenFile_Seek f pos h = AssertFail) /\
  (forall n pos, 0 <= n -> 0 <= pos <= int32_max -> exists r bs h', OpenFile_ReadAt f n pos h = Ok (r, bs, h') /\
     shows f h' ino d p /\ (r = -1 \/ OpenFile_ReadAt_stub d n pos = Ok bs)) /\
  (forall bs n pos, 0 <= n <= lenZ bs -> 0 <= pos <= int32_max -> OpenFile_WriteAt f bs n pos h = AssertFail \/
     exists h', OpenFile_WriteAt f bs n pos h = Ok (n, h') /\ shows f h' ino (overwrite d pos (slice bs 0 n)) p) /\
  (lenZ d <= int32_max -> exists h', OpenFile_Length f h = Ok (lenZ d, h') /\ shows f h' ino d p).
Proof.
  intros Hs. pose proof Hs as ([o Hon] & _ & _). conjs.
  - intros n Hn. destruct (Read_ok f h ino d p n Hs Hn) as (r & bs & f' & h' & E & _ & Hr). exists r, bs, f', h'. split; [done|].
    destruct Hr as [(-> & _)|(? & ? & ? & _)]; [by left|by right].
  - intros bs n Hn. destruct (Write_ok f h ino d p bs n Hs Hn) as [|(f' & h' & E & _ & Hw & _)]; [by left|right]. by exists f', h'.
  - intros pos. pose proof (Seek_ok f h ino d p pos Hs) as Hk. destruct (decide _); [|done].
    destruct Hk as (f' & h' & E & _ & Hk & _). by exists f', h'.
  - intros n pos Hn Hp. destruct (host_ReadAt_ok f h ino o d n pos Hon Hn Hp) as (r & bs & h' & E & Hr). exists r, bs, h'. split; [done|].
    destruct Hr as [(-> & _ & Hm)|(-> & _ & Hm)]; (split; [by eapply moved_shows|]); [by left|right]. apply ReadAt_stub; lia.
  - intros bs n pos Hn Hp. destruct (host_WriteAt_ok f h ino o d bs n pos Hon Hn Hp) as [|(h' & E & Hm)]; [by left|right].
    exists h'. split; [done|]. by eapply moved_shows.
  - intros Hl. destruct (Length_ok f h ino d p Hs Hl) as (h' & E & Hm). exists h'. split; [done|]. by eapply moved_shows.
Qed.

Lemma slice_end (d : list Z) n : slice d (lenZ d) n = [].
Proof. unfold slice, lenZ. rewrite Nat2Z.id, drop_all. by rewrite take_nil. Qed.

(** The position can get lost.  [GetCurrentPos] asks the host where its own offset is
    and makes that the position, but [Length] has moved that offset: after [Length],
    wherever the position was, [GetCurrentPos] says the end of the file, and from then on
    [Read] finds nothing.  A failing [read] moves the position one byte back, since its
    result -1 is added to it; from the start of the file the next [Read] then stops the
    kernel. *)
Theorem position_is_lost f h ino d p :
  shows f h ino d p ->
  (lenZ d <= int32_max ->
   exists h1 f2 h2, OpenFile_Length f h = Ok (lenZ d, h1) /\ OpenFile_GetCurrentPos f h1 = (lenZ d, f2, h2) /\
     shows f2 h2 ino d (lenZ d) /\
     forall n r bs f3 h3, 0 <= n -> OpenFile_Read f2 n h2 = Ok (r, bs, f3, h3) -> bs = []) /\
  (forall n bs f1 h1, 0 <= n -> OpenFile_Read f n h = Ok (-1, bs, f1, h1) ->
     currentOffset f1 = p - 1 /\ (p = 0 -> forall n', OpenFile_Read f1 n' h1 = AssertFail)).
Proof.
  intros Hs. split.
  - intros Hl. destruct (Length_ok f h ino d p Hs Hl) as (h1 & E1 & Hm1). pose proof (moved_on_file _ _ _ _ _ _ Hm1) as Hon1.
    destruct (Tell_ok f h1 ino (lenZ d) d Hon1) as (h2 & E2 & Hm2). exists h1, (set_pos f (lenZ d)), h2.
    unfold OpenFile_GetCurrentPos. rewrite E2. assert (Hs2 : shows (set_pos f (lenZ d)) h2 ino d (lenZ d)).
    { split; [exists (lenZ d); exact (moved_on_file _ _ _ _ _ _ Hm2)|]. pose proof (lenZ_nonneg d). split; [done|lia]. }
    conjs; [done..|]. intros n r bs f3 h3 Hn E3. destruct (Read_ok _ _ _ _ _ n Hs2 Hn) as (r' & bs' & f' & h' & E & _ & Hr).
    rewrite E in E3. injection E3 as <- <- <- <-. destruct Hr as [(_ & -> & _)|(-> & _)]; [done|apply slice_end].
  - intros n bs f1 h1 Hn E. destruct (Read_ok f h ino d p n Hs Hn) as (r' & bs' & f' & h' & E' & Hf & Hr).
    rewrite E' in E. injection E as -> <- <- <-. destruct Hr as [(_ & _ & Hc & Hm)|(_ & Hr & _)];
      [|pose proof (lenZ_nonneg bs'); lia]. split; [done|]. intros -> n'.
    unfold OpenFile_Read, OpenFile_ReadAt. pose proof (moved_on_file _ _ _ _ _ _ Hm) as Hon. rewrite Hf, Hc.
    pose proof (Lseek_ok f h' ino 0 d (0 - 1) SEEK_SET Hon) as HL. simpl in HL. by rewrite HL.
Qed.

(** [Create] leaves an empty file under the name, with no descriptor open on it, and
    never reports an error. *)
Lemma host_Create_ok nm size h :
  FileSystem_Create nm size h = AssertFail \/
  exists h' ino, FileSystem_Create nm size h = Ok (true, h') /\ names (u_view h') = <[nm := ino]> (names (u_view h)) /\
    contents (u_view h') !! ino = Some [] /\ opened (u_view h') = opened (u_view h) /\
    (forall ino0, names (u_view h) !! nm = Some ino0 -> ino0 = ino).
Proof.
  unfold FileSystem_Create, OpenForWrite. destruct (u_open nm CreateTruncate h) as [fd h1] eqn:E1.
  destruct (open_create _ _ _ _ E1) as [(-> & _)|(Hfd & Hnone & ino & Hino & Hv1)]; [by left|right].
  rewrite (proj2 (Z.leb_le 0 fd)) by lia. cbn [ASSERT mbind outcome_bind]. rewrite (proj2 (Z.eqb_neq fd (-1))) by lia.
  unfold Close. destruct (u_close fd h1) as [r h2] eqn:E2.
  destruct (close_law _ _ _ _ E2) as [(_ & _ & Hn)|(-> & _ & Hnm & Hop & Hct)].
  - rewrite Hv1 in Hn. simpl in Hn. by rewrite lookup_insert_eq in Hn.
  - cbn [ASSERT mbind outcome_bind]. exists h2, ino. rewrite Hv1 in Hnm, Hop, Hct. simpl in *. conjs; [done..| | |].
    + rewrite Hct; [apply lookup_insert_eq|]. left. exists nm. rewrite Hnm. apply lookup_insert_eq.
    + rewrite Hop. by rewrite delete_insert_id.
    + intros ino0 H0. destruct Hino as [Hino|[Hino _]]; congruence.
Qed.

Lemma Open_ok nm h :
  (exists h', FileSystem_Open nm h = Ok (None, h') /\ u_view h' = u_view h) \/
  (exists f h' ino d, FileSystem_Open nm h = Ok (Some f, h') /\ names (u_view h) !! nm = Some ino /\
     contents (u_view h) !! ino = Some d /\ shows f h' ino d 0 /\ u_view h' = set_offset (u_view h) (file f) ino 0).
Proof.
  unfold FileSystem_Open, OpenForReadWrite. destruct (u_open nm ReadWrite h) as [fd h1] eqn:E1. cbn [negb orb ASSERT mbind outcome_bind].
  destruct (open_rw _ _ _ _ E1) as [(-> & Hv)|(Hfd & Hnone & ino & Hnm & Hv)]; [left; by exists h1|right].
  rewrite (proj2 (Z.eqb_neq fd (-1))) by lia. destruct (fo_content _ (view_ok h) ino) as [d Hd]; [left; by exists nm|].
  exists (OpenFile_new fd), h1, ino, d. conjs; [done..| |done]. split; [|done]. exists 0. unfold on_file. rewrite Hv. simpl.
  by rewrite lookup_insert_eq.
Qed.

Lemma overwrite_empty bs : overwrite [] 0 bs = bs.
Proof. unfold overwrite. rewrite drop_nil, (app_nil_r bs). destruct bs as [|b bs]; [done|]. rewrite (proj2 (Z.eqb_neq _ 0)); [reflexivity|]. rewrite lenZ_cons. pose proof (lenZ_nonneg bs). lia. Qed.

(** What is written into a new host file is read back: after [Create] and [Open], a
    [Write] of [bs], a [Seek] to the start and a [Read] give [bs], if the host does not
    fail in between.  [Create] on the same name again empties the file, also for those
    who have it open; and [Create] never returns FALSE, when the host cannot create the
    file the kernel stops. *)
Theorem host_round_trip nm size bs h h1 f h2 n f3 h3 p f4 h4 r bs' f5 h5 :
  FileSystem_Create nm size h = Ok (true, h1) -> FileSystem_Open nm h1 = Ok (Some f, h2) ->
  OpenFile_Write f bs (lenZ bs) h2 = Ok (n, f3, h3) -> OpenFile_Seek f3 0 h3 = Ok (p, f4, h4) ->
  OpenFile_Read f4 (lenZ bs) h4 = Ok (r, bs', f5, h5) ->
  n = lenZ bs /\ (r = -1 \/ (bs' = bs /\ r = lenZ bs)) /\
  (FileSystem_Create nm size h5 = AssertFail \/
   exists h6 ino o, FileSystem_Create nm size h5 = Ok (true, h6) /\ names (u_view h6) !! nm = Some ino /\ on_file f5 h6 ino o []).
Proof.
  intros E1 E2 E3 E4 E5. destruct (host_Create_ok nm size h) as [E|(h1' & ino & E & Hn1 & Hc1 & _ & _)]; rewrite E in E1; [done|].
  injection E1 as <-. destruct (Open_ok nm h1') as [(h' & E' & _)|(f' & h2' & ino' & d & E' & Hn2 & Hc2 & Hs2 & Hv2)];
    rewrite E' in E2; [done|]. injection E2 as <- <-.
  assert (ino' = ino) as -> by (rewrite Hn1, lookup_insert_eq in Hn2; congruence). assert (d = []) as -> by congruence.
  pose proof (lenZ_nonneg bs) as Hl. destruct (Write_ok f' h2' ino [] 0 bs (lenZ bs) Hs2) as [E3'|(f3' & h3' & E3' & Hf3 & Hs3 & Hm3)];
    [lia|congruence|]. rewrite E3' in E3. injection E3 as <- <- <-. rewrite slice_all, overwrite_empty in Hs3, Hm3 by done.
  pose proof (Seek_ok f3' h3' ino bs _ 0 Hs3) as Hk. rewrite decide_True in Hk by (unfold_int32; lia).
  destruct Hk as (f4' & h4' & E4' & Hf4 & Hs4 & Hm4). rewrite E4' in E4. injection E4 as <- <- <-.
  destruct (Read_ok f4' h4' ino bs 0 (lenZ bs) Hs4 Hl) as (r' & bs2 & f5' & h5' & E5' & Hf5 & Hr). rewrite E5' in E5.
  injection E5 as <- <- <- <-. split; [done|]. split.
  { destruct Hr as [(-> & _)|(-> & -> & _)]; [by left|right]. by rewrite slice_all. }
  assert (exists o, moved f' h2' ino o bs h5') as [o Hm].
  { unfold moved in *. rewrite <- Hf3, Hf4 in *. destruct Hr as [(_ & _ & _ & Hm)|(_ & _ & _ & Hm)]; eexists;
      (eapply moved_moved; [exact Hm3|eapply moved_moved; [exact Hm4|exact Hm]]). }
  assert (names (u_view h5') !! nm = Some ino) as Hn5 by (rewrite Hm, Hv2; exact Hn2).
  destruct (host_Create_ok nm size h5') as [E6|(h6 & ino6 & E6 & Hn6 & Hc6 & Ho6 & Hsame)]; [by left|right].
  rewrite <- (Hsame _ Hn5) in *. exists h6, ino, o. conjs; [done|rewrite Hn6; apply lookup_insert_eq|].
  split; [|done]. rewrite Ho6, Hm. simpl. rewrite Hf5, Hf4, Hf3. apply lookup_insert_eq.
Qed.
End Laws.

(** ** A host *)

Module Toy.

(** The well-formedness of the files, decidable. *)
Definition okb (F : Files) : Prop :=
  map_Forall (fun _ ino => is_Some (contents F !! ino)) (names F) /\
  map_Forall (fun fd p => is_Some (contents F !! p.1) /\ 0 <= fd /\ 0 <= p.2 <= int32_max) (opened F).
#[local] Instance okb_dec F : Decision (okb F).
Proof. unfold okb. apply _. Defined.

Lemma okb_ok F : okb F -> files_ok F.
Proof.
  intros [Hn Ho]. split.
  - intros ino [(nm & E)|(fd & off & E)]; [exact (Hn _ _ E)|exact (proj1 (Ho _ _ E))].
  - intros fd ino off E. destruct (Ho _ _ E) as (_ & ? & ?). done.
Qed.

Definition host : Type := { F : Files | okb F }.

(** Do it if the result is well-formed, fail otherwise. *)
Definition attempt (r : Z) (F : Files) (h : host) : Z * host :=
  match decide (okb F) with left H => (r, F ↾ H) | right _ => (-1, h) end.

Lemma attempt_cases r F h r' h' : attempt r F h = (r', h') -> (r' = -1 /\ h' = h /\ ~ okb F) \/ (r' = r /\ `h' = F).
Proof. unfold attempt. destruct (decide (okb F)); intros [= <- <-]; auto. Qed.

Definition next_fd (F : Files) : Z := Z.of_nat (size (opened F)).
Definition next_inode (F : Files) : positive := Pos.of_succ_nat (size (contents F)).

Definition open (nm : list Z) (m : open_mode) (h : host) : Z * host :=
  let F := `h in
  let fd := next_fd F in
  if bool_decide (is_Some (opened F !! fd) \/ int32_max < fd) then (-1, h)
  else
    match m, names F !! nm with
    | ReadWrite, Some ino => attempt fd (set_offset F fd ino 0) h
    | ReadWrite, None => (-1, h)
    | CreateTruncate, o =>
        let ino := default (next_inode F) o in
        if bool_decide (o = None /\ is_Some (contents F !! ino)) then (-1, h)
        else attempt fd (mkFiles (<[nm := ino]> (names F)) (<[ino := []]> (contents F)) (<[fd := (ino, 0)]> (opened F))) h
    end.

(** The file and offset of a descriptor, with the bytes. *)
Definition descriptor (F : Files) (fd : Z) : option (positive * Z * list Z) :=
  '(ino, off) ← opened F !! fd;
  d ← contents F !! ino;
  Some (ino, off, d).

Definition read (fd n : Z) (h : host) : Z * list Z * host :=
  match descriptor (`h) fd with
  | Some (ino, off, d) =>
      let bs := slice d off n in
      let '(r, h') := attempt (lenZ bs) (set_offset (`h) fd ino (off + lenZ bs)) h in
      (r, if r =? -1 then [] else bs, h')
  | None => (-1, [], h)
  end.

Definition write (fd : Z) (bs : list Z) (h : host) : Z * host :=
  match descriptor (`h) fd with
  | Some (ino, off, d) =>
      attempt (lenZ bs) (set_offset (set_content (`h) ino (overwrite d off bs)) fd ino (off + lenZ bs)) h
  | None => (-1, h)
  end.

Definition lseek (fd offset : Z) (w : whence) (h : host) : Z * host :=
  match descriptor (`h) fd with
  | Some (ino, off, d) =>
      let t := seek_target (lenZ d) off offset w in
      if bool_decide (0 <= t <= int32_max) then attempt t (set_offset (`h) fd ino t) h else (-1, h)
  | None => (-1, h)
  end.

Definition close (fd : Z) (h : host) : Z * host :=
  match opened (`h) !! fd with
  | Some _ => attempt 0 (mkFiles (names (`h)) (contents (`h)) (delete fd (opened (`h)))) h
  | None => (-1, h)
  end.

Definition unlink (nm : list Z) (h : host) : Z * host :=
  match names (`h) !! nm with
  | Some _ => attempt 0 (mkFiles (delete nm (names (`h))) (contents (`h)) (opened (`h))) h
  | None => (-1, h)
  end.

#[global] Instance unix : Unix host := {
  u_open := open; u_read := read; u_write := write; u_lseek := lseek; u_close := close; u_unlink := unlink;
  u_view := fun h => `h }.

Lemma descriptor_Some F fd ino off d :
  descriptor F fd = Some (ino, off, d) <-> opened F !! fd = Some (ino, off) /\ contents F !! ino = Some d.
Proof.
  unfold descriptor. destruct (opened F !! fd) as [[ino' off']|]; simpl; [|naive_solver].
  destruct (contents F !! ino') eqn:E; simpl; naive_solver.
Qed.

Lemma okb_offset F fd ino off d t :
  okb F -> opened F !! fd = Some (ino, off) -> contents F !! ino = Some d -> 0 <= t <= int32_max -> okb (set_offset F fd ino t).
Proof.
  intros [Hn Ho] E Ec Ht. split; [done|]. simpl. apply map_Forall_insert_2; [|exact Ho]. destruct (Ho _ _ E) as (_ & ? & _).
  simpl. rewrite Ec. conjs; [by eexists|done|lia..].
Qed.

#[global] Instance unix_laws : UnixLaws host.
Proof.
  split; simpl.
  - intros [F HF]. by apply okb_ok.
  - intros nm h fd h'. unfold open. destruct (bool_decide _) eqn:Eb; [intros [= <- <-]; by left|].
    apply bool_decide_eq_false in Eb. destruct (names (`h) !! nm) as [ino|] eqn:En; [|intros [= <- <-]; by left].
    intros [(-> & -> & _)|(-> & ->)]%attempt_cases; [by left|right]. conjs; [unfold next_fd; lia|lia| |by exists ino].
    destruct (opened (`h) !! next_fd (`h)); [|done]. destruct Eb. left. by eexists.
  - intros nm h fd h'. unfold open. destruct (bool_decide _) eqn:Eb; [intros [= <- <-]; by left|].
    apply bool_decide_eq_false in Eb. destruct (bool_decide (_ /\ _)) eqn:Eb2; [intros [= <- <-]; by left|].
    apply bool_decide_eq_false in Eb2. intros [(-> & -> & _)|(-> & ->)]%attempt_cases; [by left|right].
    conjs; [unfold next_fd; lia|lia| |].
    + destruct (opened (`h) !! next_fd (`h)); [|done]. destruct Eb. left. by eexists.
    + eexists. split; [|done]. destruct (names (`h) !! nm) as [ino|]; [by left|right]. split; [done|]. simpl. intros Hu.
      destruct Eb2. split; [done|]. destruct h as [F HF]. exact (fo_content F (okb_ok F HF) _ Hu).
  - intros fd n h r bs h' E Hn. unfold read in E. destruct (descriptor (`h) fd) as [[[ino off] d]|] eqn:Ed; [|injection E as <- <- <-; by left].
    apply descriptor_Some in Ed as [Eo Ec]. destruct (attempt _ _ _) as [r1 h1] eqn:Ea. injection E as <- <- <-.
    apply attempt_cases in Ea as [(-> & -> & _)|(-> & ->)]; [by left|right]. exists ino, off, d.
    rewrite (proj2 (Z.eqb_neq _ _)) by (pose proof (lenZ_nonneg (slice d off n)); lia). done.
  - intros fd bs h r h'. unfold write. destruct (descriptor (`h) fd) as [[[ino off] d]|] eqn:Ed; [|intros [= <- <-]; by left].
    apply descriptor_Some in Ed as [Eo Ec]. intros [(-> & -> & _)|(-> & ->)]%attempt_cases; [by left|right].
    split; [pose proof (lenZ_nonneg bs); lia|]. exists ino, off, d. conjs; [done..|]. by rewrite slice_all.
  - intros fd offset w h r h'. unfold lseek. destruct (descriptor (`h) fd) as [[[ino off] d]|] eqn:Ed.
    + apply descriptor_Some in Ed as [Eo Ec]. destruct (bool_decide _) eqn:Eb.
      * apply bool_decide_eq_true in Eb. intros [(-> & -> & Hn)|(-> & ->)]%attempt_cases; [|right; by exists ino, off, d].
        destruct Hn. destruct h as [F HF]. by eapply okb_offset.
      * apply bool_decide_eq_false in Eb. intros [= <- <-]. left. conjs; [done..|]. intros ? ? ? ? ?. by simplify_eq.
    + intros [= <- <-]. left. conjs; [done..|]. intros ino off d Eo Ec. by rewrite (proj2 (descriptor_Some _ _ _ _ _) (conj Eo Ec)) in Ed.
  - intros fd h r h'. unfold close. destruct (opened (`h) !! fd) as [p|] eqn:Eo; [|intros [= <- <-]; by left].
    intros [(-> & -> & Hn)|(-> & ->)]%attempt_cases; [|right; conjs; [done|by eexists|done..]].
    destruct Hn. destruct h as [F [HF1 HF2]]. split; [done|]. by apply map_Forall_delete.
  - intros nm h r h'. unfold unlink. destruct (names (`h) !! nm) eqn:En; [|intros [= <- <-]; by left].
    intros [(-> & -> & _)|(-> & ->)]%attempt_cases; [by left|right]. conjs; [done|by eexists|done..].
Qed.

(** A host without files. *)
Lemma empty_okb : okb (mkFiles ∅ ∅ ∅).
Proof. split; apply map_Forall_empty. Qed.
Definition empty : host := mkFiles ∅ ∅ ∅ ↾ empty_okb.

End Toy.

(** A host with one file of five bytes, open as descriptor 0. *)
Definition sample_files : Files := mkFiles {[ [97] := 1%positive ]} {[ 1%positive := [10; 20; 30; 40; 50] ]} {[ 0 := (1%positive, 0) ]}.
Lemma sample_files_okb : Toy.okb sample_files.
Proof. split; apply map_Forall_singleton; simpl; [by eexists|]. conjs; [by eexists|unfold int32_max; lia..]. Qed.
Definition sample_host : Toy.host := sample_files ↾ sample_files_okb.
Definition sample_file : HostFile := mkHostFile 0 2 None.

Lemma sample_shows : shows sample_file sample_host 1 [10; 20; 30; 40; 50] 2.
Proof. split; [exists 0; by split|]. unfold int32_max. split; [done|lia]. Qed.

Lemma host_file_refines_witness :
  exists r bs f' h', OpenFile_Read sample_file 2 sample_host = Ok (r, bs, f', h') /\
    (r = -1 \/ (bs = [30; 40] /\ r = 2 /\ shows f' h' 1 [10; 20; 30; 40; 50] 4)).
Proof.
  destruct (host_file_refines sample_file sample_host 1 [10; 20; 30; 40; 50] 2 sample_shows) as [Hr _].
  destruct (Hr 2 ltac:(lia)) as (r & bs & f' & h' & E & H). exists r, bs, f', h'. split; [exact E|].
  destruct H as [H|(-> & -> & H)]; [left; exact H|right]. conjs; [reflexivity|reflexivity|exact H].
Defined.

Lemma position_is_lost_witness :
  exists h1 f2 h2, OpenFile_Length sample_file sample_host = Ok (5, h1) /\
    OpenFile_GetCurrentPos sample_file h1 = (5, f2, h2) /\ shows f2 h2 1 [10; 20; 30; 40; 50] 5.
Proof.
  destruct (position_is_lost sample_file sample_host 1 [10; 20; 30; 40; 50] 2 sample_shows) as [Hl _].
  destruct Hl as (h1 & f2 & h2 & E1 & E2 & Hs & _); [vm_compute; discriminate|].
  exists h1, f2, h2. conjs; [exact E1|exact E2|exact Hs].
Defined.

(** The result of a call that returns. *)
Definition result {A} (o : outcome A) (d : A) : A := match o with Ok a => a | _ => d end.

Definition rt1 : bool * Toy.host := result (FileSystem_Create [98] 0 sample_host) (false, sample_host).
Definition rt2 := result (FileSystem_Open [98] rt1.2) (None, sample_host).
Definition rt_file : HostFile := default sample_file rt2.1.
Definition rt3 := result (OpenFile_Write rt_file [7; 8; 9] 3 rt2.2) (0, sample_file, sample_host).
Definition rt4 := result (OpenFile_Seek rt3.1.2 0 rt3.2) (0, sample_file, sample_host).
Definition rt5 := result (OpenFile_Read rt4.1.2 3 rt4.2) (0, [], sample_file, sample_host).

Definition returns {A} (o : outcome A) : bool := match o with Ok _ => true | _ => false end.

Lemma result_Ok {A} (o : outcome A) d : returns o = true -> o = Ok (result o d).
Proof. by destruct o. Qed.

Lemma rt1_ok : FileSystem_Create [98] 0 sample_host = Ok (true, rt1.2).
Proof.
  assert (rt1.1 = true) as <- by (vm_compute; reflexivity). rewrite <- surjective_pairing. apply result_Ok. vm_compute. reflexivity.
Qed.
Lemma rt2_ok : FileSystem_Open [98] rt1.2 = Ok (Some rt_file, rt2.2).
Proof.
  assert (Some rt_file = rt2.1) as -> by (vm_compute; reflexivity). rewrite <- surjective_pairing. apply result_Ok. vm_compute. reflexivity.
Qed.

Lemma host_round_trip_witness :
  rt5.1.1.2 = [7; 8; 9] /\ (rt5.1.1.1 = -1 \/ (rt5.1.1.2 = [7; 8; 9] /\ rt5.1.1.1 = 3)).
Proof.
  split; [vm_compute; reflexivity|].
  destruct (host_round_trip [98] 0 [7; 8; 9] sample_host rt1.2 rt_file rt2.2 rt3.1.1 rt3.1.2 rt3.2 rt4.1.1 rt4.1.2 rt4.2
    rt5.1.1.1 rt5.1.1.2 rt5.1.2 rt5.2 rt1_ok rt2_ok) as (_ & H & _); [| | |exact H].
  all: rewrite <- !surjective_pairing; apply result_Ok; vm_compute; reflexivity.
Defined.
