(* ===== verification/FsTest.v ===== *)
(** * The file system tests (filesys/fstest.cc)

    [Copy], [Print] and [PerformanceTest], on top of FileSys.v and OpenFile.v.  The
    state is the file system with its table of open files, the [OpenFile] objects
    that were deleted, the disk and what was printed; [unix] gives the contents of the
    host's files, which [Copy] reads with [fopen] and [fread].  The two loops move the
    bytes in pieces of [TransferSize]; they are shown to move all of them.  What they
    move them to depends on [FileSystem::Open]. *)

From S2P Require Import Prelude Int32 BitMap Disk FileHdr OpenFile Directory FileSys.

Definition TransferSize : Z := 10.

(** What is printed; the statistics are those of Interrupts.v. *)
Inductive message :=
| CopyNoInput | CopyNoOutput | PrintNoFile | Characters (bs : list Z)
| TestStarts | StatsPrinted | WriteStarts | ReadStarts | TestNoCreate | TestNoOpen | TestNoWrite | TestNoRead | TestNoRemove.

Section FsTest.
Context {D : Type} `{!BlockDevice D} (H : Heap).
(** The files of the host; [None] when [fopen] fails. *)
Context (unix : list Z -> option (list Z)).

Record State := mkState {
  t_fs : FileSystem;
  t_freed : list nat;
  t_disk : D;
  t_out : list message }.

Definition say (s : State) (m : message) : State := mkState (t_fs s) (t_freed s) (t_disk s) (t_out s ++ [m]).
Definition with_disk (s : State) (d : D) : State := mkState (t_fs s) (t_freed s) d (t_out s).

(** [fileSystem->Open(name)] and [fileSystem->Create(name, size)] *)
Definition open_file (s : State) (nm : list Z) : outcome (option nat * State) :=
  '(p, fs, d) ← FileSystem_Open H (t_fs s) (t_disk s) nm;
  Ok (p, mkState fs (t_freed s) d (t_out s)).
Definition create_file (s : State) (nm : list Z) (size : Z) : outcome (bool * State) :=
  '(ok, d) ← FileSystem_Create H (t_fs s) (t_disk s) nm size;
  Ok (ok, with_disk s d).

(** The object behind a pointer, and the object after a change. *)
Definition get_object (s : State) (p : nat) : outcome OpenFile :=
  if bool_decide (p ∈ t_freed s) then Undefined else deref (objects (t_fs s) !! p).
Definition put_object (s : State) (p : nat) (f : OpenFile) (d : D) : State :=
  let fs := t_fs s in
  mkState (mkFS (freeMapFile fs) (directoryFile fs) (<[p := f]> (objects fs)) (openf fs) (index fs)) (t_freed s) d (t_out s).
(** [delete openFile] *)
Definition delete_object (s : State) (p : nat) : outcome State :=
  if bool_decide (p ∈ t_freed s) then Undefined else Ok (mkState (t_fs s) (p :: t_freed s) (t_disk s) (t_out s)).

(** The loop of [Copy]: [data] is what [fread] has not yet delivered. *)
Fixpoint copy_loop (fuel : nat) (data : list Z) (f : OpenFile) (d : D) : outcome (OpenFile * D) :=
  match fuel with
  | O => Undefined
  | S fuel =>
      let buffer := slice data 0 TransferSize in
      if 0 <? lenZ buffer then
        '(_, f, d) ← OpenFile_Write (new_chars H) f d buffer (lenZ buffer);
        copy_loop fuel (drop (Z.to_nat TransferSize) data) f d
      else Ok (f, d)
  end.

(** [Copy] *)
Definition Copy (s : State) (from to : list Z) : outcome State :=
  match unix from with
  | None => Ok (say s CopyNoInput)
  | Some data =>
      '(created, s) ← create_file s to (lenZ data);
      if negb created then Ok (say s CopyNoOutput)
      else
        '(openFile, s) ← open_file s to;
        _ ← ASSERT (if openFile then true else false);
        p ← deref openFile;
        f ← get_object s p;
        '(f, d) ← copy_loop (S (length data)) data f (t_disk s);
        delete_object (put_object s p f d) p
  end.

(** The loop of [Print]: the characters it prints *)
Fixpoint print_loop (fuel : nat) (f : OpenFile) (d : D) : outcome (list Z * OpenFile * D) :=
  match fuel with
  | O => Undefined
  | S fuel =>
      '(buffer, f, d) ← OpenFile_Read f d TransferSize;
      if 0 <? lenZ buffer then
        '(rest, f, d) ← print_loop fuel f d;
        Ok (buffer ++ rest, f, d)
      else Ok ([], f, d)
  end.

(** [Print] *)
Definition Print (s : State) (nm : list Z) : outcome State :=
  '(openFile, s) ← open_file s nm;
  match openFile with
  | None => Ok (say s PrintNoFile)
  | Some p =>
      f ← get_object s p;
      '(bs, f, d) ← print_loop (S (Z.to_nat (numBytes (hdr f)))) f (t_disk s);
      delete_object (say (put_object s p f d) (Characters bs)) p
  end.

(** "TestFile", "1234567890" and [FileSize] *)
Definition FileName : list Z := [84; 101; 115; 116; 70; 105; 108; 101].
Definition Contents : list Z := [49; 50; 51; 52; 53; 54; 55; 56; 57; 48].
Definition ContentSize : Z := lenZ Contents.
Definition FileSize : Z := ContentSize * 5000.

(** The loop of [FileWrite], [n] passes from the end: [false] when a write is short. *)
Fixpoint write_loop (n : nat) (f : OpenFile) (d : D) : outcome (bool * OpenFile * D) :=
  match n with
  | O => Ok (true, f, d)
  | S n =>
      '(numBytes, f, d) ← OpenFile_Write (new_chars H) f d Contents ContentSize;
      if numBytes <? 10 then Ok (false, f, d) else write_loop n f d
  end.

(** [FileWrite] *)
Definition FileWrite (s : State) : outcome State :=
  let s := say s WriteStarts in
  '(created, s) ← create_file s FileName 0;
  if negb created then Ok (say s TestNoCreate)
  else
    '(openFile, s) ← open_file s FileName;
    match openFile with
    | None => Ok (say s TestNoOpen)
    | Some p =>
        f ← get_object s p;
        '(ok, f, d) ← write_loop 5000 f (t_disk s);
        let s := put_object s p f d in
        delete_object (if (ok : bool) then s else say s TestNoWrite) p
    end.

(** The loop of [FileRead]; a short read leaves the rest of [buffer] as it is, but then
    the comparison is not made. *)
Fixpoint read_loop (n : nat) (f : OpenFile) (d : D) : outcome (bool * OpenFile * D) :=
  match n with
  | O => Ok (true, f, d)
  | S n =>
      '(buffer, f, d) ← OpenFile_Read f d ContentSize;
      if (lenZ buffer <? 10) || negb (bool_decide (buffer = Contents)) then Ok (false, f, d) else read_loop n f d
  end.

(** [FileRead] *)
Definition FileRead (s : State) : outcome State :=
  let s := say s ReadStarts in
  '(openFile, s) ← open_file s FileName;
  match openFile with
  | None => Ok (say s TestNoOpen)
  | Some p =>
      f ← get_object s p;
      '(ok, f, d) ← read_loop 5000 f (t_disk s);
      let s := put_object s p f d in
      delete_object (if (ok : bool) then s else say s TestNoRead) p
  end.

(** [PerformanceTest] *)
Definition PerformanceTest (s : State) : outcome State :=
  let s := say (say s TestStarts) StatsPrinted in
  s ← FileWrite s;
  s ← FileRead s;
  '(removed, d) ← FileSystem_Remove H (t_fs s) (t_disk s) FileName;
  let s := with_disk s d in
  if negb removed then Ok (say s TestNoRemove) else Ok (say s StatsPrinted).

(** ** The loops *)

Section Loops.
Context `{!BlockLaws D} (Hok : heap_ok H).

(** The bytes that one pass of a loop leaves to the next. *)
Lemma lenZ_drop_slice (l : list Z) n : 0 <= n -> lenZ (slice l 0 n) + lenZ (drop (Z.to_nat n) l) = lenZ l.
Proof. intros Hn. unfold slice, lenZ. rewrite drop_0, length_take, length_drop. lia. Qed.
Lemma slice_drop_app (l : list Z) n : 0 <= n -> slice l 0 n ++ drop (Z.to_nat n) l = l.
Proof. intros Hn. unfold slice. rewrite drop_0. apply take_drop. Qed.
Lemma splice_splice_app (l a b : list Z) off :
  0 <= off -> off + lenZ (a ++ b) <= lenZ l -> splice (splice l off a) (off + lenZ a) b = splice l off (a ++ b).
Proof.
  intros H0 Hl. rewrite lenZ_app in Hl. pose proof (lenZ_nonneg a). pose proof (lenZ_nonneg b). apply lookupZ_ext.
  - by rewrite !lenZ_splice by (rewrite ?lenZ_splice, ?lenZ_app; lia).
  - intros i Hi. rewrite !lookupZ_splice by (rewrite ?lenZ_splice, ?lenZ_app; lia). rewrite lenZ_app.
    destruct (Z.leb_spec (off + lenZ a) i), (Z.leb_spec off i); cbn [andb]; try lia.
    + replace (off + lenZ a + lenZ b) with (off + (lenZ a + lenZ b)) by lia. destruct (Z.ltb_spec i (off + (lenZ a + lenZ b))).
      * rewrite lookupZ_app_r by lia. f_equal. lia.
      * rewrite (proj2 (Z.ltb_ge i (off + lenZ a))) by lia. done.
    + rewrite (proj2 (Z.ltb_lt i (off + lenZ a))), (proj2 (Z.ltb_lt i (off + (lenZ a + lenZ b)))) by lia.
      by rewrite lookupZ_app_l by lia.
    + done.
Qed.

(** [Copy]'s loop writes the whole input at the position of the file. *)
Lemma copy_loop_ok fuel data f d m :
  hdr_wf (hdr f) -> NoDup (hdr_sectors (hdr f)) -> 0 <= seekPosition f -> seekPosition f + lenZ data <= numBytes (hdr f) ->
  Forall byte data -> (length data < fuel)%nat -> ready (128 * fuel + m) d ->
  exists d', copy_loop fuel data f d = Ok (OpenFile_Seek f (seekPosition f + lenZ data), d') /\ ready m d' /\
    file_bytes d' (hdr f) = splice (file_bytes d (hdr f)) (seekPosition f) data /\
    forall s, sector_ok s -> s ∉ hdr_sectors (hdr f) -> sector d' s = sector d s.
Proof.
  intros Hwf Hnd. revert data f Hwf Hnd d. induction fuel as [|fuel IH]; intros data f Hwf Hnd d Hp Hfit Hb Hlen Hr; [lia|].
  pose proof (size_fits _ Hwf) as (Hs & Hs' & _). cbn [copy_loop]. destruct data as [|x data'].
  - exists d. rewrite splice_nil. replace (seekPosition f + lenZ []) with (seekPosition f) by (unfold lenZ; simpl; lia).
    conjs; [by destruct f|by eapply ready_le|done..].
  - set (data := x :: data') in *. set (buffer := slice data 0 TransferSize). pose proof (lenZ_drop_slice data TransferSize ltac:(unfold TransferSize; lia)) as Hsum.
    fold buffer in Hsum. assert (Hpos : 0 < lenZ buffer) by (unfold buffer, data, slice, lenZ; simpl; lia).
    rewrite (proj2 (Z.ltb_lt 0 (lenZ buffer))) by done. unfold OpenFile_Write.
    pose proof (lenZ_nonneg (drop (Z.to_nat TransferSize) data)) as Hn2.
    destruct (WriteAt_refines (new_chars H) (ho_chars H Hok) (ho_bytes H Hok) (128 * fuel + m) f d buffer (lenZ buffer) (seekPosition f))
      as (d1 & E1 & Hr1 & Hc1 & Ho1 & _); [done|done|done|unfold SectorSize, int32_max in *; lia|lia|by apply Forall_slice| |].
    { by replace (128 + (128 * fuel + m))%nat with (128 * S fuel + m)%nat by lia. }
    rewrite Z.min_l, Z.max_r in E1, Hc1 by lia. rewrite E1. cbn [mbind outcome_bind]. rewrite wrap_s32_id by (unfold_int32; unfold SectorSize in *; lia).
    destruct (IH (drop (Z.to_nat TransferSize) data) (OpenFile_Seek f (seekPosition f + lenZ buffer))) with (d := d1)
      as (d2 & E2 & Hr2 & Hc2 & Ho2); cbn [hdr OpenFile_Seek seekPosition of_type]; [done|done|lia|lia|by apply Forall_drop| |done|].
    { unfold lenZ in Hsum, Hpos. lia. }
    exists d2. rewrite E2. cbn [hdr OpenFile_Seek seekPosition of_type] in *. conjs; [| done| |].
    + do 2 f_equal. unfold OpenFile_Seek. cbn [hdr of_type]. f_equal. lia.
    + rewrite Hc2, Hc1. rewrite slice_all by done. rewrite splice_splice_app.
      * unfold buffer. by rewrite slice_drop_app by (unfold TransferSize; lia).
      * done.
      * rewrite lenZ_app, (file_bytes_len _ d _ Hr Hwf). lia.
    + intros s Hss Hn. by rewrite Ho2, Ho1 by done.
Qed.

(** [Print]'s loop prints the file from its position on. *)
Lemma print_loop_ok fuel f d m :
  hdr_wf (hdr f) -> 0 <= seekPosition f <= numBytes (hdr f) -> (Z.to_nat (numBytes (hdr f) - seekPosition f) < fuel)%nat ->
  ready (126 * fuel + m) d ->
  exists d', print_loop fuel f d =
      Ok (drop (Z.to_nat (seekPosition f)) (file_bytes d (hdr f)), OpenFile_Seek f (numBytes (hdr f)), d') /\ ready m d' /\ only [] d d'.
Proof.
  intros Hwf. revert f Hwf d. induction fuel as [|fuel IH]; intros f Hwf d Hp Hlen Hr; [lia|].
  pose proof (size_fits _ Hwf) as (Hs & Hs' & _). cbn [print_loop]. unfold OpenFile_Read.
  destruct (ReadAt_any (126 * fuel + m) f d TransferSize (seekPosition f)) as (d1 & E1 & Hr1 & Hl1 & Ho1);
    [done|lia|unfold TransferSize, SectorSize, int32_max in *; lia|by replace (126 + (126 * fuel + m))%nat with (126 * S fuel + m)%nat by lia|].
  pose proof (file_bytes_len _ d _ Hr Hwf) as HF. apply only_nil in Ho1.
  set (len := Z.max 0 (Z.min TransferSize (numBytes (hdr f) - seekPosition f))) in *. rewrite E1. cbn [mbind outcome_bind]. rewrite Hl1.
  rewrite wrap_s32_id by (unfold_int32; unfold SectorSize, TransferSize in *; lia). destruct (Z.ltb_spec 0 len) as [Hpos|Hzero].
  - destruct (IH (OpenFile_Seek f (seekPosition f + len))) with (d := d1) as (d2 & E2 & Hr2 & Ho2);
      cbn [hdr OpenFile_Seek seekPosition of_type]; [done|unfold TransferSize in *; lia|lia|done|].
    exists d2. rewrite E2. cbn [mbind outcome_bind hdr OpenFile_Seek seekPosition of_type]. conjs; [|done|exact (only_trans [] [] _ _ _ Ho1 Ho2)].
    rewrite (only_file [] d d1 _ Ho1 Hwf (fun x _ => not_elem_of_nil x)). do 3 f_equal. unfold slice.
    rewrite Z2Nat.inj_add, <- drop_drop by lia. apply take_drop.
  - exists d1. assert (seekPosition f = numBytes (hdr f)) as Heq by (unfold TransferSize in *; lia).
    assert (len = 0) as -> by (unfold TransferSize in *; lia). rewrite Z.add_0_r, Heq. rewrite drop_ge by (unfold lenZ in HF; lia).
    conjs; [done|by eapply ready_le|done].
Qed.

(** The two transfer loops are inverse to each other: for any data and any open file
    that is exactly as long, [Copy]'s loop, ten bytes at a time, returns and fills the
    file with the data and changes no sector of any other file; [Print]'s loop, on a new
    [OpenFile] for the same header, then returns and prints exactly the data. *)
Theorem copy_then_print m f g d data :
  hdr_wf (hdr f) -> NoDup (hdr_sectors (hdr f)) -> numBytes (hdr f) = lenZ data -> Forall byte data ->
  seekPosition f = 0 -> seekPosition g = 0 -> hdr g = hdr f ->
  let n := S (length data) in
  ready (254 * n + m) d ->
  exists f' d1 g' d2, copy_loop n data f d = Ok (f', d1) /\ file_bytes d1 (hdr f) = data /\
    (forall s, sector_ok s -> s ∉ hdr_sectors (hdr f) -> sector d1 s = sector d s) /\
    print_loop n g d1 = Ok (data, g', d2) /\ ready m d2.
Proof.
  intros Hwf Hnd Hn Hb Hf Hg Hgf n Hr. pose proof (file_bytes_len _ d _ Hr Hwf) as HF.
  destruct (copy_loop_ok n data f d (126 * n + m) Hwf Hnd) as (d1 & E1 & Hr1 & Hc1 & Ho1); [lia|lia|done|lia| |].
  { by replace (128 * n + (126 * n + m))%nat with (254 * n + m)%nat by lia. }
  assert (Hd1 : file_bytes d1 (hdr f) = data).
  { rewrite Hc1, Hf. unfold splice. change (Z.to_nat 0) with 0%nat. rewrite take_0, drop_ge by (unfold lenZ in *; lia). by rewrite app_nil_r. }
  destruct (print_loop_ok n g d1 m) as (d2 & E2 & Hr2 & _); rewrite ?Hgf, ?Hg; [done|pose proof (lenZ_nonneg data); lia|unfold lenZ, n in *; lia|done|].
  rewrite Hgf, Hg, Hd1 in E2. change (Z.to_nat 0) with 0%nat in E2. rewrite drop_0 in E2.
  eexists _, d1, _, d2. conjs; [exact E1|exact Hd1|exact Ho1|exact E2|exact Hr2].
Qed.

(** ** The tests on the table of open files *)

(** [Open] on a NULL entry changes only the table's index and the objects. *)
Lemma open_null m fs d nm :
  fs_wf d fs -> ready (2 + m) d -> cstring nm -> (openf fs).[index fs] = Some None ->
  exists fs' d', FileSystem_Open H fs d nm = Ok (None, fs', d') /\ ready m d' /\ fs_wf d' fs' /\
    (forall nm', fs_file d' fs' nm' = fs_file d fs nm') /\ openf fs' = openf fs /\ index fs' = index fs + 1.
Proof.
  intros Hwf Hr Hc Hp. unfold FileSystem_Open.
  destruct (fetch_dir H Hok (S m) d fs Hr Hwf) as (d1 & -> & Hr1 & O1). cbn [mbind outcome_bind].
  rewrite (Find_ok (disk_dir d fs) nm (fw_dir _ _ Hwf) Hc). cbn [mbind outcome_bind disk_dir table].
  assert (Hend : forall fs1 d2, ready m d2 -> only [] d d2 -> freeMapFile fs1 = freeMapFile fs -> directoryFile fs1 = directoryFile fs ->
    openf fs1 = openf fs -> index fs1 = index fs ->
    exists fs' d', (p ← deref ((openf (set_index fs1 (index fs1 + 1))).[index (set_index fs1 (index fs1 + 1)) - 1]); Ok (p, set_index fs1 (index fs1 + 1), d2))
      = Ok (None, fs', d') /\ ready m d' /\ fs_wf d' fs' /\ (forall nm', fs_file d' fs' nm' = fs_file d fs nm') /\
      openf fs' = openf fs /\ index fs' = index fs + 1).
  { intros fs1 d2 Hr2 O2 F1 F2 F3 F4. exists (set_index fs1 (index fs1 + 1)), d2. destruct (fs_wf_same H Hok d d2 fs Hwf O2) as (W2 & Hf2 & _).
    cbn [set_index openf index freeMapFile directoryFile]. replace (index fs1 + 1 - 1) with (index fs1) by lia. rewrite F3, F4, Hp.
    cbn [deref mbind outcome_bind]. conjs; [done|done| | |done|done].
    - refine (fs_wf_ext d2 fs _ _ _ W2); [exact F1|exact F2].
    - intros nm'. rewrite <- Hf2. unfold fs_file, dir_table. cbn [directoryFile set_index]. by rewrite F2. }
  destruct (dir_lookup (dir_table d fs) (key nm)) as [sec|] eqn:El; cbn [from_option].
  - pose proof (found_sector d fs nm sec Hwf El) as Hs. unfold id. rewrite (proj2 (Z.leb_le 0 sec)) by (unfold sector_ok in Hs; lia).
    destruct (OpenFile_new_ok m d1 sec (new_type H) Hr1 Hs) as (d2 & -> & Hr2 & O2). cbn [mbind outcome_bind].
    apply Hend; [done|exact (only_trans [] [] d d1 d2 O1 O2)|done..].
  - change (0 <=? -1) with false. cbn [mbind outcome_bind]. apply Hend; [by apply ready_S|done..].
Qed.

(** The table has NULL where [Open] will look. *)
Record no_entry (s : State) (m k : nat) : Prop := {
  ne_wf : fs_wf (t_disk s) (t_fs s);
  ne_ready : ready m (t_disk s);
  ne_table : forall i, 0 <= i < Z.of_nat k -> (openf (t_fs s)).[index (t_fs s) + i] = Some None }.

Lemma open_file_null m k s nm :
  no_entry s (2 + m) (S k) -> cstring nm ->
  exists s', open_file s nm = Ok (None, s') /\ no_entry s' m k /\ t_out s' = t_out s /\
    forall nm', fs_file (t_disk s') (t_fs s') nm' = fs_file (t_disk s) (t_fs s) nm'.
Proof.
  intros [Hwf Hr Ht] Hc. destruct (open_null m (t_fs s) (t_disk s) nm Hwf Hr Hc) as (fs' & d' & E & Hr' & Hwf' & Hf & Ho & Hi).
  { specialize (Ht 0 ltac:(lia)). by rewrite Z.add_0_r in Ht. }
  unfold open_file. rewrite E. eexists. conjs; [done| |done|done]. split; [done|done|]. simpl. intros i Hi'. rewrite Ho, Hi.
  replace (index (t_fs s) + 1 + i) with (index (t_fs s) + (i + 1)) by lia. apply Ht. lia.
Qed.

Lemma create_file_ok m k s nm size :
  no_entry s (9 + m) k -> cstring nm -> 0 <= size <= MaxFileSize ->
  exists ok s', create_file s nm size = Ok (ok, s') /\ no_entry s' m k /\ t_out s' = t_out s /\
    (ok = true <-> can_create (t_disk s) (t_fs s) nm size) /\
    (ok = true -> fs_file (t_disk s') (t_fs s') nm <> None).
Proof.
  intros [Hwf Hr Ht] Hc Hs. destruct (Create_ok H Hok m (t_fs s) (t_disk s) nm size Hwf Hr Hc Hs) as (ok & d' & E & Hr' & Hwf' & Hiff & Hres).
  unfold create_file. rewrite E. exists ok, (with_disk s d'). conjs; [done|by split|done|done|]. intros ->.
  destruct Hres as (_ & _ & content & _ & Hfile). simpl. rewrite Hfile. by rewrite bool_decide_eq_true_2.
Qed.

Lemma FileName_cstring : cstring FileName.
Proof. repeat constructor; lia. Qed.

(** As long as the table of open files has NULL at its index, as it has after
    formatting, the tests cannot work, because [FileSystem::Open] returns the table's
    entry: [Print] says of every file, also of one that exists, that it cannot be opened;
    [Copy] of a file that exists and fits creates the Nachos file and then stops the
    kernel, it copies nothing; [PerformanceTest] writes nothing and reads nothing, and
    ends as if it had succeeded. *)
Theorem tests_fail_on_new_table m s :
  no_entry s (30 + m) 2 ->
  (forall nm, cstring nm -> exists s', Print s nm = Ok s' /\ t_out s' = t_out s ++ [PrintNoFile]) /\
  (forall from to data, unix from = Some data -> cstring to -> lenZ data <= MaxFileSize ->
     can_create (t_disk s) (t_fs s) to (lenZ data) -> Copy s from to = AssertFail) /\
  (can_create (t_disk s) (t_fs s) FileName 0 -> exists s', PerformanceTest s = Ok s' /\
     t_out s' = t_out s ++ [TestStarts; StatsPrinted; WriteStarts; TestNoOpen; ReadStarts; TestNoOpen; StatsPrinted]).
Proof.
  intros Hn. conjs.
  - intros nm Hc. destruct (open_file_null (28 + m) 1 s nm Hn Hc) as (s' & E & _ & Ho & _). unfold Print. rewrite E.
    cbn [mbind outcome_bind]. eexists. split; [done|]. simpl. by rewrite Ho.
  - intros from to data Hu Hc Hl Hcan. unfold Copy. rewrite Hu. pose proof (lenZ_nonneg data).
    destruct (create_file_ok (21 + m) 2 s to (lenZ data) Hn Hc ltac:(lia)) as (ok & s1 & -> & Hn1 & _ & Hiff & _).
    rewrite (proj2 Hiff Hcan). cbn [mbind outcome_bind negb]. destruct (open_file_null (19 + m) 1 s1 to Hn1 Hc) as (s2 & -> & _). done.
  - intros Hcan. unfold PerformanceTest, FileWrite, FileRead.
    set (s0 := say (say (say s TestStarts) StatsPrinted) WriteStarts). assert (Hn0 : no_entry s0 (30 + m) 2) by (destruct Hn; by split).
    destruct (create_file_ok (21 + m) 2 s0 FileName 0 Hn0 FileName_cstring ltac:(vm_compute; split; discriminate)) as (ok & s1 & -> & Hn1 & Ho1 & Hiff & Hf1).
    pose proof (proj2 Hiff Hcan) as Hok1. specialize (Hf1 Hok1). rewrite Hok1. cbn [mbind outcome_bind negb].
    destruct (open_file_null (19 + m) 1 s1 FileName Hn1 FileName_cstring) as (s2 & -> & Hn2 & Ho2 & Hf2). cbn [mbind outcome_bind].
    set (s3 := say (say s2 TestNoOpen) ReadStarts). assert (Hn3 : no_entry s3 (19 + m) 1) by (destruct Hn2; by split).
    destruct (open_file_null (17 + m) 0 s3 FileName Hn3 FileName_cstring) as (s4 & -> & [Hwf4 Hr4 _] & Ho4 & Hf4). cbn [mbind outcome_bind].
    destruct (FileSystem_Remove_ok H Hok (8 + m) (t_fs s4) (t_disk s4) FileName Hwf4 Hr4 FileName_cstring) as (rm & d' & E & _ & _ & Hrm & _).
    cbn [t_fs t_disk say]. rewrite E. cbn [mbind outcome_bind].
    assert (rm = true) as -> by (apply Hrm; rewrite Hf4; cbn [t_fs t_disk say s3]; rewrite Hf2; exact Hf1).
    eexists. split; [reflexivity|]. cbn [t_out say with_disk]. rewrite Ho4. cbn [t_out say s3]. rewrite Ho2, Ho1.
    cbn [t_out say s0]. rewrite <- !app_assoc. reflexivity.
Qed.
End Loops.
End FsTest.

Lemma copy_then_print_witness :
  exists (d : DSys) f f' d1 g' d2, hdr_wf (hdr f) /\ copy_loop zero_heap 3 [7; 8] f d = Ok (f', d1) /\
    print_loop 3 f d1 = Ok ([7; 8], g', d2).
Proof.
  destruct Disk_new_blank as (dk & _ & Hd & Ha & _).
  set (f := mkOpenFile (mkHdr 2 1 (7 :: replicate 125 0)) 0 0).
  assert (Hwf : hdr_wf (hdr f)) by (vm_compute; repeat (split || constructor); discriminate).
  destruct (copy_then_print zero_heap zero_heap_ok 0 f f (blank_sys dk) [7; 8] Hwf) as (f' & d1 & g' & d2 & E1 & _ & _ & E2 & _).
  - repeat constructor. apply not_elem_of_nil.
  - reflexivity.
  - repeat constructor; lia.
  - reflexivity.
  - reflexivity.
  - reflexivity.
  - apply blank_ready; [exact Hd|exact Ha|simpl length; lia].
  - exists (blank_sys dk), f, f', d1, g', d2. conjs; [exact Hwf|exact E1|exact E2].
Defined.

Lemma tests_fail_on_new_table_witness :
  exists (s s' : State (D := DSys)), t_out s = [] /\ PerformanceTest zero_heap s = Ok s' /\
    t_out s' = [TestStarts; StatsPrinted; WriteStarts; TestNoOpen; ReadStarts; TestNoOpen; StatsPrinted].
Proof.
  destruct sample_fs as (d & fs & Hr & Hwf & Hu & Hfree & Ho & Hi). exists (mkState fs [] d []).
  destruct (tests_fail_on_new_table zero_heap (fun _ => None) zero_heap_ok 470 (mkState fs [] d [])) as (_ & _ & Hp).
  - split; [exact Hwf|exact Hr|]. intros i Hi2. cbn [t_fs]. rewrite Ho, Hi.
    assert (i = 0 \/ i = 1) as [-> | ->] by lia; reflexivity.
  - destruct Hp as (s' & E & Hout); [|exists s'; conjs; [reflexivity|exact E|exact Hout]].
    split; [|split; [cbn [t_disk t_fs]; rewrite Hu; reflexivity|cbn [t_disk t_fs]; rewrite Hfree; vm_compute; discriminate]].
    cbn [t_disk t_fs]. apply fs_file_none, dir_lookup_None. rewrite Hu. apply not_elem_of_nil.
Defined.
