(* ===== verification/Stacks.v ===== *)
(** * The stack examples (c++example: stack.cc, templatestack.cc, inheritstack.cc
      and list.cc, with their headers)

    Three versions of a stack that come with the system's introduction to C++.  The
    array stack is the same code three times, here once for any element type
    ([ArrayStack], the template).  [ListStack] sits on the linked list of list.cc,
    modelled with its heap of list elements.  The abstract class [Stack] of
    inheritstack.h is the type class [Stack]; [StackLaws] is what [SelfTest] relies
    on, and both implementations satisfy it. *)

From S2P Require Import Prelude Int32.

(** ** The array stack *)

Section ArrayStack.
Context {T : Type}.

(** [class Stack<T>], [class ArrayStack] *)
Record ArrayStack := mkArrayStack { size : Z; top : Z; stack : list T }.

(** The constructor; [junk] is the new array. *)
Definition ArrayStack_new (sz : Z) (junk : list T) : outcome ArrayStack :=
  _ ← ASSERT (1 <=? sz);
  Ok (mkArrayStack sz 0 junk).

Definition ArrayStack_Full (s : ArrayStack) : bool := top s =? size s.
Definition ArrayStack_Empty (s : ArrayStack) : bool := top s =? 0.

(** [stack[top++] = value] after the check *)
Definition ArrayStack_Push (s : ArrayStack) (value : T) : outcome ArrayStack :=
  _ ← ASSERT (negb (ArrayStack_Full s));
  _ ← deref ((stack s).[top s]);
  Ok (mkArrayStack (size s) (wrap_s32 (top s + 1)) ((stack s).[top s <- value])).

(** [stack[--top]] after the check *)
Definition ArrayStack_Pop (s : ArrayStack) : outcome (T * ArrayStack) :=
  _ ← ASSERT (negb (ArrayStack_Empty s));
  let top := wrap_s32 (top s - 1) in
  v ← deref ((stack s).[top]);
  Ok (v, mkArrayStack (size s) top (stack s)).

(** What [SelfTest] prints. *)
Inductive said := Pushing (v : T) | Popping (v : T).

(** [count++] of the element type *)
Context (incr : T -> T).

(** The two loops of [Stack<T>::SelfTest] *)
Fixpoint fill_loop (fuel : nat) (s : ArrayStack) (count : T) : outcome (list said * ArrayStack) :=
  match fuel with
  | O => Undefined
  | S fuel =>
      if negb (ArrayStack_Full s) then
        s ← ArrayStack_Push s count;
        '(out, s) ← fill_loop fuel s (incr count);
        Ok (Pushing count :: out, s)
      else Ok ([], s)
  end.
Fixpoint drain_loop (fuel : nat) (s : ArrayStack) : outcome (list said * ArrayStack) :=
  match fuel with
  | O => Undefined
  | S fuel =>
      if negb (ArrayStack_Empty s) then
        '(v, s) ← ArrayStack_Pop s;
        '(out, s) ← drain_loop fuel s;
        Ok (Popping v :: out, s)
      else Ok ([], s)
  end.
Definition ArrayStack_SelfTest (s : ArrayStack) (start : T) : outcome (list said * ArrayStack) :=
  let fuel := S (Z.to_nat (size s)) in
  '(out1, s) ← fill_loop fuel s start;
  '(out2, s) ← drain_loop fuel s;
  Ok (out1 ++ out2, s).

(** *** The contents, the last one pushed first *)

Record array_holds (s : ArrayStack) (l : list T) : Prop := {
  ah_top : top s = lenZ l;
  ah_size : lenZ l <= size s <= int32_max;
  ah_array : lenZ (stack s) = size s;
  ah_items : rev l = slice (stack s) 0 (top s) }.

Lemma array_new sz junk :
  1 <= sz <= int32_max -> lenZ junk = sz -> exists s, ArrayStack_new sz junk = Ok s /\ array_holds s [] /\ size s = sz.
Proof.
  intros Hsz Hj. unfold ArrayStack_new. rewrite (proj2 (Z.leb_le 1 sz)) by lia. eexists. conjs; [done| |done].
  split; cbn [top size stack]; [done|unfold lenZ; simpl; lia|done|done].
Qed.

Lemma array_full s l : array_holds s l -> ArrayStack_Full s = bool_decide (lenZ l = size s).
Proof.
  intros [Ht _ _ _]. unfold ArrayStack_Full. rewrite Ht. destruct (Z.eqb_spec (lenZ l) (size s)).
  - by rewrite bool_decide_eq_true_2.
  - by rewrite bool_decide_eq_false_2.
Qed.

Lemma array_empty s l : array_holds s l -> ArrayStack_Empty s = bool_decide (l = []).
Proof. intros [Ht _ _ _]. unfold ArrayStack_Empty. rewrite Ht. by destruct l. Qed.

Lemma array_push s l v :
  array_holds s l ->
  if decide (lenZ l < size s)
  then exists s', ArrayStack_Push s v = Ok s' /\ array_holds s' (v :: l) /\ size s' = size s
  else ArrayStack_Push s v = AssertFail.
Proof.
  intros Hh. pose proof (array_full s l Hh) as Hf. destruct Hh as [Ht Hs Ha Hi]. pose proof (lenZ_nonneg l).
  unfold ArrayStack_Push. rewrite Hf. destruct (decide (lenZ l < size s)).
  - rewrite bool_decide_eq_false_2 by lia. cbn [negb ASSERT mbind outcome_bind].
    destruct (lookupZ_range (stack s) (top s) ltac:(lia)) as [x ->]. cbn [deref mbind outcome_bind].
    rewrite wrap_s32_id by (unfold_int32; lia). eexists. conjs; [done| |done].
    assert (Hc : lenZ (v :: l) = lenZ l + 1) by apply lenZ_cons.
    split; cbn [top size stack]; [lia|lia|by rewrite lenZ_insertZ|].
    cbn [rev]. rewrite Hi. apply lookupZ_ext.
    + rewrite lenZ_app, !lenZ_slice by (rewrite ?lenZ_insertZ; lia). done.
    + intros i Hr. rewrite lenZ_app, lenZ_slice in Hr by lia. change (lenZ [v]) with 1 in Hr.
      rewrite lookupZ_slice by lia. cbn [Z.add]. destruct (decide (i = top s)) as [->|Hne].
      * rewrite lookupZ_insertZ_eq by lia. rewrite lookupZ_app_r by (rewrite lenZ_slice; lia).
        rewrite lenZ_slice by lia. by rewrite Z.sub_diag.
      * rewrite lookupZ_insertZ_ne by lia. rewrite lookupZ_app_l by (rewrite lenZ_slice; lia). by rewrite lookupZ_slice by lia.
  - rewrite bool_decide_eq_true_2 by lia. done.
Qed.

Lemma array_pop s l :
  array_holds s l ->
  match l with
  | [] => ArrayStack_Pop s = AssertFail
  | v :: l => exists s', ArrayStack_Pop s = Ok (v, s') /\ array_holds s' l /\ size s' = size s
  end.
Proof.
  intros Hh. pose proof (array_empty s l Hh) as He. destruct Hh as [Ht Hs Ha Hi]. unfold ArrayStack_Pop. rewrite He.
  destruct l as [|v l]; [done|]. cbn [negb ASSERT mbind outcome_bind bool_decide]. rewrite bool_decide_eq_false_2 by done.
  cbn [negb ASSERT mbind outcome_bind]. rewrite lenZ_cons in Ht, Hs. pose proof (lenZ_nonneg l).
  rewrite wrap_s32_id by (unfold_int32; lia). rewrite Ht. replace (lenZ l + 1 - 1) with (lenZ l) by lia.
  assert (Hl : lenZ (rev l) = lenZ l) by (unfold lenZ; by rewrite length_rev).
  assert ((stack s).[lenZ l] = Some v) as ->.
  { cbn [rev] in Hi. apply (f_equal (fun x => x.[lenZ l])) in Hi. rewrite lookupZ_slice in Hi by lia. rewrite Z.add_0_l in Hi.
    rewrite <- Hi, lookupZ_app_r by lia. by rewrite Hl, Z.sub_diag. }
  cbn [deref mbind outcome_bind]. eexists. conjs; [done| |done]. split; cbn [top size stack]; [done|lia|done|].
  cbn [rev] in Hi. rewrite Ht in Hi. apply (f_equal (fun x => slice x 0 (lenZ l))) in Hi. rewrite slice_slice in Hi by lia.
  rewrite Z.add_0_l in Hi. rewrite <- Hi. rewrite slice_app_front by lia. by rewrite slice_all.
Qed.
End ArrayStack.
Arguments ArrayStack : clear implicits.
Arguments said : clear implicits.

(** *** The other two copies *)

(** [class Stack] of stack.cc: the same code with [int] for the element type *)
Abbreviation IntStack := (ArrayStack Z).
Definition IntStack_new (sz : Z) (junk : list Z) : outcome IntStack := ArrayStack_new sz junk.
Definition IntStack_Push (s : IntStack) (value : Z) : outcome IntStack := ArrayStack_Push s value.
Definition IntStack_Pop (s : IntStack) : outcome (Z * IntStack) := ArrayStack_Pop s.
Definition IntStack_Full (s : IntStack) : bool := ArrayStack_Full s.
Definition IntStack_Empty (s : IntStack) : bool := ArrayStack_Empty s.
(** [count++] of an [int] and of a [char] *)
Definition incr_int (v : Z) : Z := wrap_s32 (v + 1).
Definition incr_char (v : Z) : Z := (v + 1 + 128) mod 256 - 128.
Definition IntStack_SelfTest (s : IntStack) : outcome (list (said Z) * IntStack) := ArrayStack_SelfTest incr_int s 17.
Definition stack_main (junk : list Z) : outcome (list (said Z)) :=
  s ← IntStack_new 10 junk;
  '(out, _) ← IntStack_SelfTest s;
  Ok out.

(** [main] of templatestack.cc: [Stack<int>] and [Stack<char>] *)
Definition templatestack_main (junk1 junk2 : list Z) : outcome (list (said Z) * list (said Z)) :=
  s1 ← ArrayStack_new 10 junk1;
  s2 ← ArrayStack_new 10 junk2;
  '(out1, _) ← ArrayStack_SelfTest incr_int s1 17;
  '(out2, _) ← ArrayStack_SelfTest incr_char s2 97;
  Ok (out1, out2).

(** [class ArrayStack] of inheritstack.cc: the code of stack.cc again *)
Definition Inherit_new (sz : Z) (junk : list Z) : outcome IntStack := ArrayStack_new sz junk.
Definition Inherit_Push (s : IntStack) (value : Z) : outcome IntStack := ArrayStack_Push s value.
Definition Inherit_Pop (s : IntStack) : outcome (Z * IntStack) := ArrayStack_Pop s.
Definition Inherit_Full (s : IntStack) : bool := ArrayStack_Full s.
Definition Inherit_Empty (s : IntStack) : bool := ArrayStack_Empty s.

(** ** The list stack *)

(** [class ListElement] *)
Record ListElement := mkElement { next : option positive; item : Z }.

(** [class List] and its heap *)
Record IntList := mkIntList { first : option positive; last : option positive; heap : gmap positive ListElement }.

(** [List::List], [List::Empty] *)
Definition List_new : IntList := mkIntList None None ∅.
Definition List_Empty (l : IntList) : bool := bool_decide (first l = None).

(** [List::Prepend]; [new] gives an address that is not in use. *)
Definition List_Prepend (l : IntList) (value : Z) : IntList :=
  let element := fresh (dom (heap l) : gset positive) in
  if List_Empty l then mkIntList (Some element) (Some element) (<[element := mkElement None value]> (heap l))
  else mkIntList (Some element) (last l) (<[element := mkElement (first l) value]> (heap l)).

(** [List::Remove] *)
Definition List_Remove (l : IntList) : outcome (Z * IntList) :=
  _ ← ASSERT (negb (List_Empty l));
  element ← deref (first l);
  e ← deref (heap l !! element);
  let '(f, t) := if bool_decide (first l = last l) then (None, None) else (next e, last l) in
  Ok (item e, mkIntList f t (delete element (heap l))).

(** [List::~List] *)
Fixpoint List_delete (fuel : nat) (l : IntList) : outcome IntList :=
  match fuel with
  | O => Undefined
  | S fuel => if negb (List_Empty l) then '(_, l) ← List_Remove l; List_delete fuel l else Ok l
  end.

(** [class ListStack] *)
Definition ListStack_Push (s : IntList) (value : Z) : outcome IntList := Ok (List_Prepend s value).
Definition ListStack_Pop (s : IntList) : outcome (Z * IntList) :=
  _ ← ASSERT (negb (List_Empty s));
  List_Remove s.
Definition ListStack_Full (s : IntList) : bool := false.
Definition ListStack_Empty (s : IntList) : bool := List_Empty s.

(** *** The elements of the list, in order *)

(** The chain from [p] to the last element [z], at the addresses [ps]. *)
Inductive chain (h : gmap positive ListElement) : option positive -> list positive -> list Z -> option positive -> Prop :=
| chain_nil : chain h None [] [] None
| chain_one p v : h !! p = Some (mkElement None v) -> chain h (Some p) [p] [v] (Some p)
| chain_cons p q ps v vs z :
    h !! p = Some (mkElement (Some q) v) -> chain h (Some q) ps vs z -> chain h (Some p) (p :: ps) (v :: vs) z.

(** The heap holds the elements of the list and nothing else. *)
Definition list_holds (l : IntList) (vs : list Z) : Prop :=
  exists ps, chain (heap l) (first l) ps vs (last l) /\ NoDup ps /\ dom (heap l) = list_to_set ps.

Lemma chain_first h p ps vs z : chain h p ps vs z -> match p with None => ps = [] /\ vs = [] /\ z = None
  | Some a => exists v vs' ps', vs = v :: vs' /\ ps = a :: ps' /\ exists y, z = Some y /\ y ∈ ps end.
Proof.
  induction 1 as [|p v Hp|p q ps v vs z Hp Hc IH]; [done| |].
  - exists v, [], []. conjs; [done..|]. exists p. split; [done|]. by apply list_elem_of_singleton.
  - exists v, vs, ps. conjs; [done..|]. destruct IH as (? & ? & ? & _ & _ & y & -> & Hy). exists y. split; [done|].
    by apply list_elem_of_further.
Qed.

(** Other addresses do not matter. *)
Lemma chain_frame h h' p ps vs z :
  chain h p ps vs z -> (forall a, a ∈ ps -> h' !! a = h !! a) -> chain h' p ps vs z.
Proof.
  induction 1 as [|p v Hp|p q ps v vs z Hp Hc IH]; intros Hf; [constructor| |].
  - constructor. rewrite Hf; [done|]. by apply list_elem_of_singleton.
  - econstructor; [rewrite Hf; [exact Hp|apply list_elem_of_here]|]. apply IH. intros a Ha. apply Hf. by apply list_elem_of_further.
Qed.

Lemma list_new : list_holds List_new [].
Proof. exists []. conjs; [constructor|constructor|done]. Qed.

Lemma list_empty l vs : list_holds l vs -> List_Empty l = bool_decide (vs = []).
Proof.
  intros (ps & Hc & _). apply chain_first in Hc. unfold List_Empty. destruct (first l).
  - destruct Hc as (v & vs' & ps' & -> & _). done.
  - destruct Hc as (_ & -> & _). done.
Qed.

Lemma list_prepend l vs v : list_holds l vs -> list_holds (List_Prepend l v) (v :: vs).
Proof.
  intros Hl. pose proof (list_empty l vs Hl) as He. destruct Hl as (ps & Hc & Hnd & Hd). unfold List_Prepend. rewrite He.
  set (a := fresh (dom (heap l))). assert (Ha : a ∉ ps).
  { pose proof (is_fresh (dom (heap l))) as Hf. fold a in Hf. rewrite Hd in Hf. set_solver. }
  exists (a :: ps). assert (Hframe : forall e b, b ∈ ps -> <[a := e]> (heap l) !! b = heap l !! b).
  { intros e b Hb. rewrite lookup_insert_ne; [done|]. congruence. }
  assert (Hdom : forall e, dom (<[a := e]> (heap l)) = list_to_set (a :: ps)) by (intros e; rewrite dom_insert_L, Hd; set_solver).
  apply chain_first in Hc as Hfst. destruct (first l) as [p|].
  - destruct Hfst as (v1 & vs' & ps' & -> & _). rewrite bool_decide_eq_false_2 by done.
    conjs; [|by constructor|apply Hdom]. cbn [first last heap]. eapply chain_cons; [apply lookup_insert_eq|].
    by eapply chain_frame; [|apply Hframe].
  - destruct Hfst as (-> & -> & _). rewrite bool_decide_eq_true_2 by done. conjs; [|by constructor|apply Hdom].
    cbn [first last heap]. apply chain_one, lookup_insert_eq.
Qed.

Lemma list_remove l vs :
  list_holds l vs ->
  match vs with
  | [] => List_Remove l = AssertFail
  | v :: vs => exists l', List_Remove l = Ok (v, l') /\ list_holds l' vs
  end.
Proof.
  intros Hl. pose proof (list_empty l vs Hl) as He. destruct Hl as (ps & Hc & Hnd & Hd). unfold List_Remove. rewrite He.
  destruct l as [f t h]. cbn [first last heap] in *. destruct Hc as [|p v Hp|p q ps v vs z Hp Hc]; [done| |];
    (rewrite (bool_decide_eq_false_2 (_ :: _ = [])) by done); cbn [negb ASSERT deref mbind outcome_bind]; rewrite Hp; cbn [deref mbind outcome_bind next item].
  - rewrite bool_decide_eq_true_2 by done. eexists. split; [done|]. exists []. conjs; [constructor|constructor|].
    cbn [heap]. rewrite dom_delete_L, Hd. set_solver.
  - apply NoDup_cons in Hnd as [Hn Hnd]. pose proof (chain_first _ _ _ _ _ Hc) as (_ & _ & _ & _ & _ & y & -> & Hy).
    rewrite bool_decide_eq_false_2 by congruence. eexists. split; [done|]. exists ps. cbn [first last heap]. conjs; [|done|].
    + eapply chain_frame; [exact Hc|]. intros a Ha. rewrite lookup_delete_ne; [done|]. congruence.
    + rewrite dom_delete_L, Hd. set_solver.
Qed.

(** [~List] frees every element and returns. *)
Lemma list_delete vs l : list_holds l vs -> exists l', List_delete (S (length vs)) l = Ok l' /\ heap l' = ∅.
Proof.
  revert l. induction vs as [|v vs IH]; intros l Hl; cbn [length List_delete]; rewrite (list_empty l _ Hl).
  - rewrite bool_decide_eq_true_2 by done. exists l. split; [done|]. destruct Hl as (ps & Hc & _ & Hd).
    inversion Hc; subst. apply dom_empty_inv_L. rewrite Hd. done.
  - rewrite bool_decide_eq_false_2 by done. cbn [negb]. destruct (list_remove l _ Hl) as (l' & -> & Hl'). cbn [mbind outcome_bind].
    by apply IH.
Qed.

(** ** The abstract class [Stack] *)

Class Stack (S : Type) := {
  Push : S -> Z -> outcome S;
  Pop : S -> outcome (Z * S);
  Full : S -> bool;
  Empty : S -> bool;
  (** the values on the stack, the last one pushed first *)
  holds : S -> list Z -> Prop;
  (** how many it can hold *)
  capacity : S -> option Z }.

(** There is room for one more. *)
Definition room (c : option Z) (l : list Z) : bool := match c with Some n => lenZ l <? n | None => true end.

(** A stack is last in, first out; [Full] and [Empty] say when [Push] and [Pop] would stop. *)
Class StackLaws (S : Type) `{!Stack S} := {
  Full_law : forall s l, holds s l -> Full s = negb (room (capacity s) l);
  Empty_law : forall s l, holds s l -> Empty s = bool_decide (l = []);
  Push_law : forall s l v, holds s l ->
    if room (capacity s) l then exists s', Push s v = Ok s' /\ holds s' (v :: l) /\ capacity s' = capacity s
    else Push s v = AssertFail;
  Pop_law : forall s l, holds s l ->
    match l with
    | [] => Pop s = AssertFail
    | v :: l => exists s', Pop s = Ok (v, s') /\ holds s' l /\ capacity s' = capacity s
    end }.

#[export] Instance ArrayStack_stack : Stack (ArrayStack Z) := {
  Push := Inherit_Push; Pop := Inherit_Pop; Full := Inherit_Full; Empty := Inherit_Empty;
  holds := array_holds; capacity := fun s => Some (size s) }.
#[export] Instance ArrayStack_laws : StackLaws (ArrayStack Z).
Proof.
  split; simpl; unfold room, Inherit_Full, Inherit_Empty, Inherit_Push, Inherit_Pop.
  - intros s l Hh. rewrite (array_full s l Hh). destruct (ah_size _ _ Hh). destruct (Z.ltb_spec (lenZ l) (size s)).
    + by rewrite bool_decide_eq_false_2 by lia.
    + by rewrite bool_decide_eq_true_2 by lia.
  - exact array_empty.
  - intros s l v Hh. pose proof (array_push s l v Hh) as Hp. destruct (Z.ltb_spec (lenZ l) (size s)).
    + rewrite decide_True in Hp by done. destruct Hp as (s' & E & Hs & Hz). exists s'. by rewrite Hz.
    + by rewrite decide_False in Hp by lia.
  - intros s l Hh. pose proof (array_pop s l Hh) as Hp. destruct l; [done|]. destruct Hp as (s' & E & Hs & Hz). exists s'. by rewrite Hz.
Qed.

#[export] Instance ListStack_stack : Stack IntList := {
  Push := ListStack_Push; Pop := ListStack_Pop; Full := ListStack_Full; Empty := ListStack_Empty;
  holds := list_holds; capacity := fun _ => None }.
#[export] Instance ListStack_laws : StackLaws IntList.
Proof.
  split; simpl; unfold room.
  - done.
  - exact list_empty.
  - intros s l v Hh. exists (List_Prepend s v). conjs; [done| |done]. by apply list_prepend.
  - intros s l Hh. unfold ListStack_Pop. rewrite (list_empty s l Hh). pose proof (list_remove s l Hh) as Hr.
    destruct l; [done|]. destruct Hr as (s' & -> & Hs). rewrite bool_decide_eq_false_2 by done. by exists s'.
Qed.

(** ** [Stack::SelfTest] *)

Section SelfTest.
Context {S : Type} `{!Stack S}.

(** The loop that pushes: [n] passes from [count] on. *)
Fixpoint push_loop (n : nat) (s : S) (count : Z) : outcome (list (said Z) * S) :=
  match n with
  | O => Ok ([], s)
  | Datatypes.S n =>
      _ ← ASSERT (negb (Full s));
      s ← Push s count;
      '(out, s) ← push_loop n s (wrap_s32 (count + 1));
      Ok (Pushing count :: out, s)
  end.

(** The loop that pops until the stack is empty. *)
Fixpoint pop_loop (fuel : nat) (s : S) : outcome (list (said Z) * S) :=
  match fuel with
  | O => Undefined
  | Datatypes.S fuel =>
      if negb (Empty s) then
        '(v, s) ← Pop s;
        '(out, s) ← pop_loop fuel s;
        Ok (Popping v :: out, s)
      else Ok ([], s)
  end.

(** [SelfTest]; the loops need one pass per element, [fuel] bounds what was on the stack. *)
Definition Stack_SelfTest (fuel : nat) (s : S) (numToPush : Z) : outcome (list (said Z) * S) :=
  '(out1, s) ← push_loop (Z.to_nat numToPush) s 17;
  '(out2, s) ← pop_loop fuel s;
  Ok (out1 ++ out2, s).

Context `{!StackLaws S}.

Lemma push_loop_ok n s l count :
  holds s l -> int32_min <= count -> count + Z.of_nat n <= int32_max ->
  if match capacity s with Some c => lenZ l + Z.of_nat n <=? Z.max (lenZ l) c | None => true end
  then exists s', push_loop n s count = Ok (map Pushing (seqZ count (Z.of_nat n)), s') /\ holds s' (rev (seqZ count (Z.of_nat n)) ++ l) /\
         capacity s' = capacity s
  else push_loop n s count = AssertFail.
Proof.
  revert s l count. induction n as [|n IH]; intros s l count Hh H1 H2.
  - assert (Hseq : seqZ count (Z.of_nat 0) = []) by reflexivity. rewrite Hseq.
    destruct (capacity s) as [c|] eqn:Ec; [rewrite (proj2 (Z.leb_le _ _)) by lia|]; by exists s.
  - cbn [push_loop]. rewrite (Full_law s l Hh), negb_involutive. pose proof (Push_law s l count Hh) as Hp.
    destruct (room (capacity s) l) eqn:Er; cbn [ASSERT mbind outcome_bind].
    + destruct Hp as (s1 & -> & Hh1 & Hc1). cbn [mbind outcome_bind]. rewrite wrap_s32_id by (unfold_int32; lia).
      specialize (IH s1 (count :: l) (count + 1) Hh1 ltac:(lia) ltac:(lia)). rewrite Hc1, lenZ_cons in IH.
      assert (Hseq : seqZ count (Z.of_nat (Datatypes.S n)) = count :: seqZ (count + 1) (Z.of_nat n)).
      { rewrite seqZ_cons by lia. do 2 f_equal; lia. }
      rewrite Hseq. assert (Hcond : forall c, capacity s = Some c ->
        (lenZ l + Z.of_nat (Datatypes.S n) <=? Z.max (lenZ l) c) = (lenZ l + 1 + Z.of_nat n <=? Z.max (lenZ l + 1) c)).
      { intros c E. rewrite E in Er. simpl in Er. apply Z.ltb_lt in Er. rewrite !Z.max_r by lia. f_equal. lia. }
      destruct (capacity s) as [c|] eqn:Ec; [rewrite (Hcond c eq_refl); destruct (_ <=? _)|].
      * destruct IH as (s2 & -> & Hh2 & Hc2). exists s2. conjs; [done| |done]. cbn [rev]. by rewrite <- app_assoc.
      * by rewrite IH.
      * destruct IH as (s2 & -> & Hh2 & Hc2). exists s2. conjs; [done| |done]. cbn [rev]. by rewrite <- app_assoc.
    + destruct (capacity s) as [c|]; [|done]. simpl in Er. apply Z.ltb_ge in Er. by rewrite (proj2 (Z.leb_gt _ _)) by lia.
Qed.

Lemma pop_loop_ok l s fuel :
  holds s l -> (length l < fuel)%nat ->
  exists s', pop_loop fuel s = Ok (map Popping l, s') /\ holds s' [] /\ capacity s' = capacity s.
Proof.
  revert s fuel. induction l as [|v l IH]; intros s fuel Hh Hf; (destruct fuel as [|fuel]; [simpl in Hf; lia|]); cbn [pop_loop];
    rewrite (Empty_law s _ Hh).
  - rewrite bool_decide_eq_true_2 by done. by exists s.
  - rewrite bool_decide_eq_false_2 by done. cbn [negb]. destruct (Pop_law s _ Hh) as (s1 & -> & Hh1 & Hc1). cbn [mbind outcome_bind].
    destruct (IH s1 fuel Hh1 ltac:(simpl in Hf; lia)) as (s2 & -> & Hh2 & Hc2). exists s2. conjs; [done..|congruence].
Qed.

Lemma SelfTest_ok s n :
  holds s [] -> 0 <= n -> 17 + n <= int32_max ->
  if match capacity s with Some c => n <=? Z.max 0 c | None => true end
  then exists s', Stack_SelfTest (Datatypes.S (Z.to_nat n)) s n = Ok (map Pushing (seqZ 17 n) ++ map Popping (rev (seqZ 17 n)), s') /\ holds s' []
  else Stack_SelfTest (Datatypes.S (Z.to_nat n)) s n = AssertFail.
Proof.
  intros Hh Hn Hmax. pose proof (push_loop_ok (Z.to_nat n) s [] 17 Hh ltac:(unfold_int32; lia) ltac:(lia)) as Hp.
  rewrite Z2Nat.id in Hp by done. change (lenZ []) with 0 in Hp. rewrite Z.add_0_l in Hp. unfold Stack_SelfTest.
  assert (Hpop : forall s1, holds s1 (rev (seqZ 17 n) ++ []) -> exists s', pop_loop (Datatypes.S (Z.to_nat n)) s1 = Ok (map Popping (rev (seqZ 17 n)), s') /\ holds s' []).
  { intros s1 H1. rewrite app_nil_r in H1. destruct (pop_loop_ok _ s1 (Datatypes.S (Z.to_nat n)) H1) as (s2 & E & H2 & _); [|by exists s2].
    rewrite length_rev, length_seqZ. lia. }
  destruct (capacity s) as [c|]; [destruct (n <=? Z.max 0 c); [|by rewrite Hp]|];
    destruct Hp as (s1 & -> & H1 & _); cbn [mbind outcome_bind]; destruct (Hpop s1 H1) as (s2 & -> & H2); by exists s2.
Qed.

(** The self test is the same for every kind of stack: on an empty stack with room for
    [n] values it pushes 17, 18, ... and pops exactly these values in the opposite order,
    returns and leaves the stack empty; on a stack with less room it stops at the ASSERT
    instead of overrunning it. *)
Theorem SelfTest_last_in_first_out s n :
  holds s [] -> 0 <= n -> 17 + n <= int32_max ->
  if match capacity s with Some c => n <=? Z.max 0 c | None => true end
  then exists s', Stack_SelfTest (Datatypes.S (Z.to_nat n)) s n = Ok (map Pushing (seqZ 17 n) ++ map Popping (rev (seqZ 17 n)), s') /\ holds s' []
  else Stack_SelfTest (Datatypes.S (Z.to_nat n)) s n = AssertFail.
Proof. apply SelfTest_ok. Qed.
End SelfTest.

(** [main] of inheritstack.cc: both tests, and the destructor of the list *)
Definition inheritstack_main (junk : list Z) : outcome (list (said Z) * list (said Z)) :=
  s1 ← Inherit_new 10 junk;
  '(out1, _) ← Stack_SelfTest 11 s1 10;
  '(out2, s2) ← Stack_SelfTest 11 List_new 10;
  _ ← List_delete 1 s2;
  Ok (out1, out2).

(** Both tests print the same, and the list's elements are all freed. *)
Lemma inheritstack_main_ok junk :
  lenZ junk = 10 -> let out := map Pushing (seqZ 17 10) ++ map Popping (rev (seqZ 17 10)) in inheritstack_main junk = Ok (out, out).
Proof.
  intros Hj out. unfold inheritstack_main, Inherit_new. destruct (array_new 10 junk) as (s1 & -> & H1 & Hs); [unfold_int32; lia|done|].
  cbn [mbind outcome_bind]. pose proof (SelfTest_ok s1 10 H1 ltac:(lia) ltac:(unfold_int32; lia)) as Ht.
  cbn [capacity ArrayStack_stack] in Ht. rewrite Hs in Ht. change (10 <=? Z.max 0 10) with true in Ht. destruct Ht as (s2 & E2 & _).
  change 11%nat with (S (Z.to_nat 10)). rewrite E2. cbn [mbind outcome_bind].
  destruct (SelfTest_ok (Stack0 := ListStack_stack) List_new 10 list_new ltac:(lia) ltac:(unfold_int32; lia)) as (s3 & -> & H3). cbn [mbind outcome_bind].
  destruct (list_delete [] s3 H3) as (s4 & E4 & _). cbn [length] in E4. by rewrite E4.
Qed.

(** ** The template's self test *)

Section TemplateTest.
Context {T : Type} (incr : T -> T).

(** The values that are pushed. *)
Fixpoint counts (n : nat) (v : T) : list T := match n with O => [] | S n => v :: counts n (incr v) end.

Lemma fill_loop_ok n s l v fuel :
  array_holds s l -> lenZ l + Z.of_nat n = size s -> (n < fuel)%nat ->
  exists s', fill_loop incr fuel s v = Ok (map Pushing (counts n v), s') /\ array_holds s' (rev (counts n v) ++ l).
Proof.
  revert s l v fuel. induction n as [|n IH]; intros s l v fuel Hh Hn Hf; (destruct fuel as [|fuel]; [lia|]); cbn [fill_loop];
    rewrite (array_full s l Hh).
  - rewrite bool_decide_eq_true_2 by lia. by exists s.
  - rewrite bool_decide_eq_false_2 by lia. cbn [negb]. pose proof (array_push s l v Hh) as Hp. rewrite decide_True in Hp by lia.
    destruct Hp as (s1 & -> & Hh1 & Hs1). cbn [mbind outcome_bind].
    destruct (IH s1 (v :: l) (incr v) fuel Hh1) as (s2 & -> & Hh2); [rewrite lenZ_cons, Hs1; lia|lia|].
    exists s2. cbn [counts map rev]. by rewrite <- app_assoc.
Qed.

Lemma drain_loop_ok l (s : ArrayStack T) fuel :
  array_holds s l -> (length l < fuel)%nat -> exists s', drain_loop fuel s = Ok (map Popping l, s') /\ array_holds s' [].
Proof.
  revert s fuel. induction l as [|v l IH]; intros s fuel Hh Hf; (destruct fuel as [|fuel]; [simpl in Hf; lia|]); cbn [drain_loop];
    rewrite (array_empty s _ Hh).
  - rewrite bool_decide_eq_true_2 by done. by exists s.
  - rewrite bool_decide_eq_false_2 by done. cbn [negb]. destruct (array_pop s _ Hh) as (s1 & -> & Hh1 & _). cbn [mbind outcome_bind].
    destruct (IH s1 fuel Hh1 ltac:(simpl in Hf; lia)) as (s2 & -> & Hh2). by exists s2.
Qed.

(** The self test of [Stack<T>] fills the stack and pops everything in the opposite order. *)
Lemma template_SelfTest_ok sz junk start :
  1 <= sz <= int32_max -> lenZ junk = sz ->
  exists s s', ArrayStack_new sz junk = Ok s /\
    ArrayStack_SelfTest incr s start = Ok (map Pushing (counts (Z.to_nat sz) start) ++ map Popping (rev (counts (Z.to_nat sz) start)), s').
Proof.
  intros Hsz Hj. destruct (array_new sz junk Hsz Hj) as (s & E & Hh & Hs). exists s. unfold ArrayStack_SelfTest. rewrite Hs.
  destruct (fill_loop_ok (Z.to_nat sz) s [] start (S (Z.to_nat sz)) Hh) as (s1 & -> & Hh1); [unfold lenZ; simpl; lia|lia|]. cbn [mbind outcome_bind].
  rewrite app_nil_r in Hh1. destruct (drain_loop_ok _ s1 (S (Z.to_nat sz)) Hh1) as (s2 & -> & _); [|by exists s2].
  pose proof (ah_size _ _ Hh1) as Hl. rewrite length_rev. assert (length (counts (Z.to_nat sz) start) = Z.to_nat sz) as ->; [|lia].
  clear. revert start. induction (Z.to_nat sz) as [|n IH]; intros start; simpl; [done|]. by rewrite IH.
Qed.
End TemplateTest.

(** The mains of stack.cc and templatestack.cc. *)
Lemma array_mains_ok junk1 junk2 :
  lenZ junk1 = 10 -> lenZ junk2 = 10 ->
  let ints := map Pushing (seqZ 17 10) ++ map Popping (rev (seqZ 17 10)) in
  let chars := map Pushing (seqZ 97 10) ++ map Popping (rev (seqZ 97 10)) in
  stack_main junk1 = Ok ints /\ templatestack_main junk1 junk2 = Ok (ints, chars).
Proof.
  intros H1 H2 ints chars. unfold stack_main, templatestack_main, IntStack_new, IntStack_SelfTest.
  destruct (template_SelfTest_ok incr_int 10 junk1 17) as (s1 & s1' & -> & E1); [unfold_int32; lia|done|].
  destruct (template_SelfTest_ok incr_char 10 junk2 97) as (s2 & s2' & -> & E2); [unfold_int32; lia|done|].
  cbn [mbind outcome_bind]. rewrite E1, E2. split; reflexivity.
Qed.

Lemma SelfTest_last_in_first_out_witness :
  exists s', Stack_SelfTest 4 List_new 3 =
    Ok ([Pushing 17; Pushing 18; Pushing 19; Popping 19; Popping 18; Popping 17], s') /\ list_holds s' [].
Proof. exact (SelfTest_last_in_first_out List_new 3 list_new ltac:(lia) ltac:(vm_compute; discriminate)). Defined.
