(* ===== verification/Taps.v ===== *)
(** * The two taps (test/main.c, test/sinhvien.c, test/voinuoc.c)

    Three user programs that work together: [main] reads a table of students from
    input.txt, line by line; [sinhvien] copies the volume of each student to output.txt and
    [voinuoc] adds the number of the tap that fills it.  The two take turns by semaphores.
    A program is a set of points, one before each system call, with the values of its
    variables; [call_of] is the call at a point and [next] goes on with its result.  The
    kernel is seen through its calls, in the build with the files of the host: the table of
    15 descriptors, of which Close frees none, the named semaphores and the table of 10
    processes.  A step is one call of one process; processes interleave freely. *)

From Stdlib Require Import Ascii String.
From stdpp Require Import strings.
From S2P Require Import Prelude Int32 ConsoleCalls UnixFiles.

(** ** Calls *)

Inductive call :=
| CreateSemaphore (name : string) (semval : Z)
| Wait (name : string)
| Signal (name : string)
| CreateFile (name : string)
| Open (name : string) (type : Z)
| Read (charcount id : Z)
| Write (buffer : list Z) (id : Z)
| Close (id : Z)
| PrintString (str : string)
| Exec (name : string)
| Join (id : Z)
| Exit (status : Z).

Definition main_txt : string := "main"%string.
Definition sinhvien_sem : string := "sinhvien"%string.
Definition voinuoc_sem : string := "voinuoc"%string.
Definition input_txt : string := "./test/input.txt"%string.
Definition output_txt : string := "./test/output.txt"%string.
Definition sinhvien_txt : string := "./test/sinhvien.txt"%string.

(** ** test/main.c *)

(** The variables that are still used: [N] is what [N--] has left, [c] the one character. *)
Inductive main_point :=
| M_sem_main | M_sem_sinhvien | M_sem_voinuoc
| M_create_output
| M_open_input
| M_read_N (fileIn N c : Z)
| M_create_sinhvien (fileIn N c : Z)
| M_open_sinhvien (fileIn N c : Z)
| M_wait (fileIn fileSinhVien N c : Z)
| M_read_line (fileIn fileSinhVien N c : Z)
| M_write_char (fileIn fileSinhVien N c : Z)
| M_close_sinhvien (fileIn fileSinhVien N c : Z)
| M_exec_sinhvien (fileIn N c : Z)
| M_exec_voinuoc (fileIn N c sinhvien_proc : Z)
| M_join_sinhvien (fileIn N c sinhvien_proc voinuoc_proc : Z)
| M_join_voinuoc (fileIn N c voinuoc_proc : Z)
| M_close_input (fileIn : Z)
| M_exit.

(** ** test/sinhvien.c *)

(** [V] is what the array holds up to [len]. *)
Inductive sinhvien_point :=
| S_open_sinhvien
| S_open_output (fileSinhVien : Z)
| S_seek_first (fileSinhVien fileOut c : Z)
| S_read (fileSinhVien fileOut c : Z) (V : list Z)
| S_wait (fileSinhVien fileOut c : Z) (V : list Z) (stop : bool)
| S_seek (fileSinhVien fileOut c : Z) (V : list Z) (stop : bool)
| S_write (fileSinhVien fileOut c : Z) (V : list Z) (stop : bool)
| S_signal (fileSinhVien fileOut c : Z) (stop : bool)
| S_signal_last (fileSinhVien fileOut : Z)
| S_close_sinhvien (fileSinhVien fileOut : Z)
| S_close_output (fileOut : Z)
| S_exit.

(** ** test/voinuoc.c *)

Inductive voinuoc_point :=
| V_open
| V_seek (fileOut : Z)
| V_wait (fileOut v1 v2 : Z)
| V_read (fileOut v1 v2 V c : Z)
| V_write_1 (fileOut v1 v2 V : Z)
| V_write_2 (fileOut v1 v2 V : Z)
| V_signal (fileOut v1 v2 : Z)
| V_newline (fileOut : Z)
| V_signal_main (fileOut : Z)
| V_close (fileOut : Z)
| V_exit.

(** [Rest c cs]: the calls of an error path are left, up to [Exit]. *)
Inductive point :=
| Main (p : main_point)
| Sinhvien (p : sinhvien_point)
| Voinuoc (p : voinuoc_point)
| Rest (c : call) (cs : list call).

Definition main_call (p : main_point) : call :=
  match p with
  | M_sem_main => CreateSemaphore main_txt 1
  | M_sem_sinhvien => CreateSemaphore sinhvien_sem 0
  | M_sem_voinuoc => CreateSemaphore voinuoc_sem 1
  | M_create_output => CreateFile output_txt
  | M_open_input => Open input_txt 1
  | M_read_N fileIn _ _ => Read 1 fileIn
  | M_create_sinhvien _ _ _ => CreateFile sinhvien_txt
  | M_open_sinhvien _ _ _ => Open sinhvien_txt 0
  | M_wait _ _ _ _ => Wait main_txt
  | M_read_line fileIn _ _ _ => Read 1 fileIn
  | M_write_char _ fileSinhVien _ c => Write [c] fileSinhVien
  | M_close_sinhvien _ fileSinhVien _ _ => Close fileSinhVien
  | M_exec_sinhvien _ _ _ => Exec "./test/sinhvien"
  | M_exec_voinuoc _ _ _ _ => Exec "./test/voinuoc"
  | M_join_sinhvien _ _ _ sinhvien_proc _ => Join sinhvien_proc
  | M_join_voinuoc _ _ _ voinuoc_proc => Join voinuoc_proc
  | M_close_input fileIn => Close fileIn
  | M_exit => Exit 0
  end.

(** A [char] array of one cell after a [Read]. *)
Definition cell (c : Z) (bytes : list Z) : Z := match bytes with b :: _ => b | [] => c end.
Definition is_digit (c : Z) : bool := (48 <=? c) && (c <=? 57).

(** [while (N--)] *)
Definition while_N (fileIn N c : Z) : point :=
  if N =? 0 then Main (M_close_input fileIn) else Main (M_create_sinhvien fileIn (wrap_s32 (N - 1)) c).

(** [N = N * 10 + c[0] - '0'] *)
Definition add_digit (N c : Z) : Z := wrap_s32 (N * 10 + c - 48).

Definition no_semaphore : point := Rest (PrintString "\nCreate semaphore failed!") [Exit (-1)].
Definition read_error (cs : list call) : point := Rest (PrintString "\nRead error in file input.txt!") cs.

Definition main_next (p : main_point) (r : Z) (bytes : list Z) : point :=
  match p with
  | M_sem_main => if r =? -1 then no_semaphore else Main M_sem_sinhvien
  | M_sem_sinhvien => if r =? -1 then no_semaphore else Main M_sem_voinuoc
  | M_sem_voinuoc => if r =? -1 then no_semaphore else Main M_create_output
  | M_create_output =>
      if r =? -1 then Rest (PrintString "\nCan't create file output.txt!") [Exit (-1)] else Main M_open_input
  | M_open_input =>
      if r =? -1 then Rest (PrintString "\nCan't open file input.txt!") [Exit (-1)]
      else Main (M_read_N r (add_digit 0 48) 48)
  | M_read_N fileIn N c =>
      let c := cell c bytes in
      if r =? -1 then read_error [Close fileIn; Exit (-1)]
      else if is_digit c then Main (M_read_N fileIn (add_digit N c) c)
      else while_N fileIn N c
  | M_create_sinhvien fileIn N c =>
      if r =? -1 then Rest (PrintString "\nCan't create file sinhvien.txt!") [Close fileIn; Exit (-1)]
      else Main (M_open_sinhvien fileIn N c)
  | M_open_sinhvien fileIn N c =>
      if r =? -1 then
        Rest (PrintString "\nmain.c") [PrintString "\nCan't open file sinhvien.txt!"; Close fileIn; Exit (-1)]
      else Main (M_wait fileIn r N c)
  | M_wait fileIn fileSinhVien N c => Main (M_read_line fileIn fileSinhVien N c)
  | M_read_line fileIn fileSinhVien N c =>
      let c := cell c bytes in
      if (r =? 0) || (r =? -2) then Main (M_close_sinhvien fileIn fileSinhVien N c)
      else if r =? -1 then read_error [Close fileIn; Close fileSinhVien; Exit (-1)]
      else if c =? 10 then Main (M_close_sinhvien fileIn fileSinhVien N c)
      else Main (M_write_char fileIn fileSinhVien N c)
  | M_write_char fileIn fileSinhVien N c =>
      if r =? -1 then
        Rest (PrintString "\nWrite error in file sinhvien.txt!") [Close fileIn; Close fileSinhVien; Exit (-1)]
      else Main (M_read_line fileIn fileSinhVien N c)
  | M_close_sinhvien fileIn _ N c => Main (M_exec_sinhvien fileIn N c)
  | M_exec_sinhvien fileIn N c =>
      if r =? -1 then Rest (PrintString "\nCan't execute process sinhvien\n") [Close fileIn; Exit 1]
      else Main (M_exec_voinuoc fileIn N c r)
  | M_exec_voinuoc fileIn N c sinhvien_proc =>
      if r =? -1 then Rest (PrintString "\nCan't execute process voinuoc\n") [Close fileIn; Exit 1]
      else Main (M_join_sinhvien fileIn N c sinhvien_proc r)
  | M_join_sinhvien fileIn N c _ voinuoc_proc =>
      if r =? -1 then Rest (PrintString "\nCan't join process sinhvien!") [Close fileIn; Exit (-1)]
      else Main (M_join_voinuoc fileIn N c voinuoc_proc)
  | M_join_voinuoc fileIn N c _ =>
      if r =? -1 then Rest (PrintString "\nCan't join process voinuoc!") [Close fileIn; Exit (-1)]
      else while_N fileIn N c
  | M_close_input _ => Main M_exit
  | M_exit => Rest (Exit 0) []
  end.

Definition sinhvien_call (p : sinhvien_point) : call :=
  match p with
  | S_open_sinhvien => Open sinhvien_txt 1
  | S_open_output _ => Open output_txt 0
  | S_seek_first _ fileOut _ => Read 1 fileOut
  | S_read fileSinhVien _ _ _ => Read 1 fileSinhVien
  | S_wait _ _ _ _ _ => Wait voinuoc_sem
  | S_seek _ fileOut _ _ _ => Read 1 fileOut
  | S_write _ fileOut _ V _ => Write V fileOut
  | S_signal _ _ _ _ => Signal sinhvien_sem
  | S_signal_last _ _ => Signal sinhvien_sem
  | S_close_sinhvien fileSinhVien _ => Close fileSinhVien
  | S_close_output fileOut => Close fileOut
  | S_exit => Exit 0
  end.

(** [V[len] = x; len++], where [V] has 10 cells *)
Definition push (V : list Z) (x : Z) : outcome (list Z) :=
  if lenZ V <? 10 then Ok (V ++ [x]) else Undefined.

Definition close_both (msg : string) (fileSinhVien fileOut : Z) : point :=
  Rest (PrintString msg) [Close fileSinhVien; Close fileOut; Exit (-1)].
Definition sinhvien_error := close_both "\nRead error in file sinhvien.txt!".

Definition sinhvien_next (p : sinhvien_point) (r : Z) (bytes : list Z) : outcome point :=
  match p with
  | S_open_sinhvien =>
      Ok (if r =? -1 then Rest (PrintString "\nsinhvien.c") [PrintString "\nCan't open file sinhvien.txt!"; Exit (-1)]
          else Sinhvien (S_open_output r))
  | S_open_output fileSinhVien =>
      Ok (if r =? -1 then Rest (PrintString "\nCan't open file output.txt!") [Close fileSinhVien; Exit (-1)]
          else Sinhvien (S_seek_first fileSinhVien r 0))
  | S_seek_first fileSinhVien fileOut c =>
      let c := cell c bytes in
      Ok (if r =? -1 then sinhvien_error fileSinhVien fileOut
          else if negb (r =? -2) then Sinhvien (S_seek_first fileSinhVien fileOut c)
          else Sinhvien (S_read fileSinhVien fileOut c []))
  | S_read fileSinhVien fileOut c V =>
      let c := cell c bytes in
      if r =? -1 then Ok (sinhvien_error fileSinhVien fileOut)
      else if (r =? -2) || (c =? 32) || (c =? 10) then
        V ← push V 32;
        Ok (Sinhvien (S_wait fileSinhVien fileOut c V (r =? -2)))
      else
        V ← push V c;
        Ok (Sinhvien (S_read fileSinhVien fileOut c V))
  | S_wait fileSinhVien fileOut c V stop => Ok (Sinhvien (S_seek fileSinhVien fileOut c V stop))
  | S_seek fileSinhVien fileOut c V stop =>
      let c := cell c bytes in
      Ok (if r =? -1 then sinhvien_error fileSinhVien fileOut
          else if negb (r =? -2) then Sinhvien (S_seek fileSinhVien fileOut c V stop)
          else Sinhvien (S_write fileSinhVien fileOut c V stop))
  | S_write fileSinhVien fileOut c V stop =>
      Ok (if r =? -1 then close_both "\nWrite error in file sinhvien.txt!" fileSinhVien fileOut
          else Sinhvien (S_signal fileSinhVien fileOut c stop))
  | S_signal fileSinhVien fileOut c stop =>
      Ok (if negb stop then Sinhvien (S_read fileSinhVien fileOut c []) else Sinhvien (S_signal_last fileSinhVien fileOut))
  | S_signal_last fileSinhVien fileOut => Ok (Sinhvien (S_close_sinhvien fileSinhVien fileOut))
  | S_close_sinhvien _ fileOut => Ok (Sinhvien (S_close_output fileOut))
  | S_close_output _ => Ok (Sinhvien S_exit)
  | S_exit => Ok (Rest (Exit 0) [])
  end.

Definition voinuoc_call (p : voinuoc_point) : call :=
  match p with
  | V_open => Open output_txt 0
  | V_seek fileOut => Read 1 fileOut
  | V_wait _ _ _ => Wait sinhvien_sem
  | V_read fileOut _ _ _ _ => Read 1 fileOut
  | V_write_1 fileOut _ _ _ => Write [49; 32] fileOut
  | V_write_2 fileOut _ _ _ => Write [50; 32] fileOut
  | V_signal _ _ _ => Signal voinuoc_sem
  | V_newline fileOut => Write [10] fileOut
  | V_signal_main _ => Signal main_txt
  | V_close fileOut => Close fileOut
  | V_exit => Exit 0
  end.

Definition voinuoc_error (msg : string) (fileOut : Z) : point := Rest (PrintString msg) [Close fileOut; Exit (-1)].

(** [if (V == 0) break; if (v1 == 0) ... else ...] *)
Definition choose_tap (fileOut v1 v2 V : Z) : point :=
  if V =? 0 then Voinuoc (V_newline fileOut)
  else if v1 =? 0 then Voinuoc (V_write_1 fileOut v1 v2 V)
  else Voinuoc (V_write_2 fileOut v1 v2 V).

Definition voinuoc_next (p : voinuoc_point) (r : Z) (bytes : list Z) : point :=
  match p with
  | V_open =>
      if r =? -1 then Rest (PrintString "\nCan't open file output.txt!") [Exit (-1)] else Voinuoc (V_seek r)
  | V_seek fileOut =>
      if r =? -1 then voinuoc_error "\nRead error in file sinhvien.txt!" fileOut
      else if negb (r =? -2) then Voinuoc (V_seek fileOut)
      else Voinuoc (V_wait fileOut 0 0)
  | V_wait fileOut v1 v2 => Voinuoc (V_read fileOut v1 v2 (add_digit 0 48) 48)
  | V_read fileOut v1 v2 V c =>
      let c := cell c bytes in
      if r =? -1 then voinuoc_error "\nRead error in file output.txt!" fileOut
      else if (r =? -2) || (r =? 0) then choose_tap fileOut v1 v2 V
      else if is_digit c then Voinuoc (V_read fileOut v1 v2 (add_digit V c) c)
      else choose_tap fileOut v1 v2 V
  | V_write_1 fileOut v1 v2 V =>
      if r =? -1 then voinuoc_error "\nWrite error in file output.txt!" fileOut
      else if v2 <? V then Voinuoc (V_signal fileOut (wrap_s32 (V - v2)) 0)
      else Voinuoc (V_signal fileOut v1 (wrap_s32 (v2 - V)))
  | V_write_2 fileOut v1 v2 V =>
      if r =? -1 then voinuoc_error "\nWrite error in file output.txt!" fileOut
      else if v1 <? V then Voinuoc (V_signal fileOut 0 (wrap_s32 (V - v1)))
      else Voinuoc (V_signal fileOut (wrap_s32 (v1 - V)) v2)
  | V_signal fileOut v1 v2 => Voinuoc (V_wait fileOut v1 v2)
  | V_newline fileOut =>
      if r =? -1 then voinuoc_error "\nWrite error in file output.txt!" fileOut else Voinuoc (V_signal_main fileOut)
  | V_signal_main fileOut => Voinuoc (V_close fileOut)
  | V_close _ => Voinuoc V_exit
  | V_exit => Rest (Exit 0) []
  end.

Definition call_of (p : point) : call :=
  match p with
  | Main p => main_call p
  | Sinhvien p => sinhvien_call p
  | Voinuoc p => voinuoc_call p
  | Rest c _ => c
  end.

Definition next (p : point) (r : Z) (bytes : list Z) : outcome point :=
  match p with
  | Main p => Ok (main_next p r bytes)
  | Sinhvien p => sinhvien_next p r bytes
  | Voinuoc p => Ok (voinuoc_next p r bytes)
  | Rest _ (c :: cs) => Ok (Rest c cs)
  | Rest _ [] => Undefined
  end.

(** ** The kernel, as the calls show it *)

(** An entry of [openf]: NULL, the console, a file with its position and type, or a pointer
    to an object that Close has deleted. *)
Inductive slot := Null | Console | Opened (name : string) (pos type : Z) | Deleted.
#[export] Instance slot_eq_dec : EqDecision slot.
Proof. solve_decision. Defined.

(** An entry of [pcb] that is not NULL: the process runs, has called Exit and waits for its
    parent, or was joined and has ended.  The destructor of [PCB] does not return, so the
    pointer to a process that has ended stays in the table. *)
Inductive Process := Running (p : point) | Exited (code : Z) | Joined.

Record Sys := mkSys {
  files : gmap string (list Z);
  openf : list slot;
  semTab : gmap string Z;
  pcb : list (option Process);
  screen : list string }.

Definition set_files (σ : Sys) (F : gmap string (list Z)) : Sys := mkSys F (openf σ) (semTab σ) (pcb σ) (screen σ).
Definition set_openf (σ : Sys) (t : list slot) : Sys := mkSys (files σ) t (semTab σ) (pcb σ) (screen σ).
Definition set_sem (σ : Sys) (s : string) (v : Z) : Sys :=
  mkSys (files σ) (openf σ) (<[s := v]> (semTab σ)) (pcb σ) (screen σ).
Definition set_proc (σ : Sys) (i : Z) (P : option Process) : Sys :=
  mkSys (files σ) (openf σ) (semTab σ) ((pcb σ).[i <- P]) (screen σ).

(** The first cell from [i] on that satisfies [free] ([FindFreeSlot], [GetFreeSlot]). *)
Fixpoint first_from {A} (free : A -> bool) (i : Z) (l : list A) : option Z :=
  match l with
  | [] => None
  | x :: l => if free x then Some i else first_from free (i + 1) l
  end.
Definition is_null (s : slot) : bool := match s with Null => true | _ => false end.
Definition is_none {A} (o : option A) : bool := match o with None => true | Some _ => false end.
Definition find_free_slot (σ : Sys) : option Z := first_from is_null 2 (drop 2 (openf σ)).
Definition get_free_slot (σ : Sys) : option Z := first_from is_none 0 (pcb σ).

(** The number of a call that sets no result stays in register 2. *)
Definition SC_Open : Z := 5.
Definition SC_Write : Z := 7.

(** A call that returns gives its result and what it stores into the buffer; [None] is a
    call that waits. *)
Definition answer : Type := option (outcome (Z * list Z * Sys)).
Definition returns (r : Z) (σ : Sys) : answer := Some (Ok (r, [], σ)).

Definition sys_CreateSemaphore (σ : Sys) (name : string) (semval : Z) : answer :=
  match semTab σ !! name with
  | Some _ => returns (-1) σ
  | None => if (size (semTab σ) <? 10)%nat then returns 0 (set_sem σ name semval) else returns (-1) σ
  end.

Definition sys_Wait (σ : Sys) (name : string) : answer :=
  match semTab σ !! name with
  | None => returns (-1) σ
  | Some v => if v =? 0 then None else returns 0 (set_sem σ name (v - 1))
  end.

Definition sys_Signal (σ : Sys) (name : string) : answer :=
  match semTab σ !! name with
  | None => returns (-1) σ
  | Some v => returns 0 (set_sem σ name (v + 1))
  end.

Definition sys_CreateFile (σ : Sys) (name : string) : answer := returns 0 (set_files σ (<[name := []]> (files σ))).

Definition sys_Open (σ : Sys) (name : string) (type : Z) : answer :=
  match find_free_slot σ with
  | None => returns (-1) σ
  | Some i =>
      if (type =? 0) || (type =? 1) then
        match files σ !! name with
        | Some _ => returns i (set_openf σ ((openf σ).[i <- Opened name 0 type]))
        | None => returns SC_Open σ
        end
      else returns (if type =? 2 then 0 else 1) σ
  end.

Definition sys_Close (σ : Sys) (id : Z) : answer :=
  if (0 <=? id) && (id <=? 14) then
    match (openf σ).[id] with
    | Some Null => returns (-1) σ
    | Some (Opened _ _ _) => returns 0 (set_openf σ ((openf σ).[id <- Deleted]))
    | Some Console => returns 0 (set_openf σ ((openf σ).[id <- Deleted]))
    | Some Deleted | None => Some Undefined
    end
  else returns (-1) σ.

(** Read and Write on the console are left out: [Undefined], like a use of a deleted object. *)
Definition sys_Read (σ : Sys) (charcount id : Z) : answer :=
  if (id <? 0) || (14 <? id) then returns (-1) σ
  else
    match (openf σ).[id] with
    | Some Null => returns (-1) σ
    | Some (Opened name pos type) =>
        match files σ !! name with
        | Some content =>
            let bytes := slice content pos charcount in
            if 0 <? lenZ bytes then
              Some (Ok (lenZ bytes, bytes, set_openf σ ((openf σ).[id <- Opened name (pos + lenZ bytes) type])))
            else returns (-2) σ
        | None => Some Undefined
        end
    | _ => Some Undefined
    end.

Definition sys_Write (σ : Sys) (buffer : list Z) (id : Z) : answer :=
  match (openf σ).[id] with
  | Some (Opened name pos type) =>
      match files σ !! name with
      | Some content =>
          if type =? 0 then
            if 0 <? lenZ buffer then
              returns (lenZ buffer)
                (set_openf (set_files σ (<[name := overwrite content pos buffer]> (files σ)))
                   ((openf σ).[id <- Opened name (pos + lenZ buffer) type]))
            else returns SC_Write σ
          else returns (-1) σ
      | None => Some Undefined
      end
  | _ => Some Undefined
  end.

Definition program (name : string) : option point :=
  if bool_decide (name = "./test/sinhvien"%string) then Some (Sinhvien S_open_sinhvien)
  else if bool_decide (name = "./test/voinuoc"%string) then Some (Voinuoc V_open)
  else None.

Definition sys_Exec (σ : Sys) (name : string) : answer :=
  match program name, get_free_slot σ with
  | Some p, Some i => returns i (set_proc σ i (Some (Running p)))
  | _, _ => returns (-1) σ
  end.

(** A parent joins its child once. *)
Definition sys_Join (σ : Sys) (id : Z) : answer :=
  if (id <? 0) || (10 <=? id) then returns (-1) σ
  else
    match (pcb σ).[id] with
    | Some (Some (Running _)) => None
    | Some (Some (Exited code)) => returns code (set_proc σ id (Some Joined))
    | Some (Some Joined) => Some Undefined
    | _ => returns (-1) σ
    end.

Definition do_call (σ : Sys) (c : call) : answer :=
  match c with
  | CreateSemaphore name v => sys_CreateSemaphore σ name v
  | Wait name => sys_Wait σ name
  | Signal name => sys_Signal σ name
  | CreateFile name => sys_CreateFile σ name
  | Open name type => sys_Open σ name type
  | Read n id => sys_Read σ n id
  | Write buffer id => sys_Write σ buffer id
  | Close id => sys_Close σ id
  | PrintString str => returns 0 (mkSys (files σ) (openf σ) (semTab σ) (pcb σ) (screen σ ++ [str]))
  | Exec name => sys_Exec σ name
  | Join id => sys_Join σ id
  | Exit _ => Some Undefined
  end.

(** Exit of the first process halts the machine. *)
Definition halted (σ : Sys) : option Z :=
  match (pcb σ).[0] with Some (Some (Exited code)) => Some code | _ => None end.

(** One call of process [i]; [None] when it waits or there is no such process. *)
Definition step (σ : Sys) (i : Z) : option (outcome Sys) :=
  match halted σ, (pcb σ).[i] with
  | None, Some (Some (Running p)) =>
      match call_of p with
      | Exit code => Some (Ok (set_proc σ i (Some (Exited code))))
      | c =>
          match do_call σ c with
          | Some a => Some ('(r, bytes, σ) ← a; p ← next p r bytes; Ok (set_proc σ i (Some (Running p))))
          | None => None
          end
      end
  | _, _ => None
  end.

(** The state in which [main] starts: the two console descriptors are taken. *)
Definition boot (input : list Z) : Sys :=
  mkSys {[input_txt := input]} ([Console; Console] ++ replicate 13 Null) ∅
    (Some (Running (Main M_sem_main)) :: replicate 9 None) [].

(** Running a schedule; a process that cannot move is passed over. *)
Fixpoint run (σ : Sys) (sched : list Z) : outcome Sys :=
  match sched with
  | [] => Ok σ
  | i :: sched => match step σ i with Some a => σ ← a; run σ sched | None => run σ sched end
  end.

(** Without time slices the process that runs goes on until it waits. *)
Fixpoint go_on (fuel : nat) (σ : Sys) (i : Z) : outcome Sys :=
  match fuel with
  | O => Ok σ
  | S fuel => match step σ i with Some a => σ ← a; go_on fuel σ i | None => Ok σ end
  end.
