(* ===== verification/TapsOk.v ===== *)
(** * The two taps: the programs of test/ do their job

    The programs of [Taps], in every order of steps in which the taps listen before the
    first volume of a line is written ([in_order]): no process goes wrong, no deadlock is
    reached, the number of steps is bounded, and at the end output.txt holds, for each line,
    every volume with the tap that is free first.  The proof gives each program its own
    view of the state (what it holds in the table of descriptors and how far it is) and
    counts waits and signals to get from the semaphores who may write. *)

From Stdlib Require Import Ascii String.
From stdpp Require Import strings.
From S2P Require Import Prelude Int32 ConsoleCalls UnixFiles Taps.

(** ** The reference *)

(** A volume: up to nine digits, not all zero. *)
Record token (t : list Z) : Prop := {
  tk_digits : Forall (fun b => is_digit b = true) t;
  tk_length : 1 <= lenZ t <= 9;
  tk_value : digits_value t <> 0 }.

(** A line of the input. *)
Fixpoint line_text (ts : list (list Z)) : list Z :=
  match ts with
  | [] => []
  | [t] => t
  | t :: ts => t ++ [32] ++ line_text ts
  end.

(** The times at which the taps are free; the next one goes to the tap that is free first. *)
Definition tap (t : Z * Z) : Z := if t.1 <=? t.2 then 1 else 2.
Definition serve (t : Z * Z) (V : Z) : Z * Z := if t.1 <=? t.2 then (t.1 + V, t.2) else (t.1, t.2 + V).
Fixpoint entries (t : Z * Z) (ts : list (list Z)) : list (list Z) :=
  match ts with
  | [] => []
  | x :: ts => (x ++ [32; 48 + tap t; 32]) :: entries (serve t (digits_value x)) ts
  end.

(** The line of the output for a line of the input. *)
Definition served (ts : list (list Z)) : list Z := concat (entries (0, 0) ts) ++ [10].

Definition times (ts : list (list Z)) (j : nat) : Z * Z := foldl serve (0, 0) (digits_value <$> take j ts).

Lemma entries_lookup t0 ts j x :
  ts !! j = Some x -> entries t0 ts !! j = Some (x ++ [32; 48 + tap (foldl serve t0 (digits_value <$> take j ts)); 32]).
Proof.
  revert t0 j. induction ts as [|y ts IH]; intros t0 j Hj; [done|]. destruct j as [|j]; cbn in Hj.
  - injection Hj as ->. reflexivity.
  - cbn [entries lookup list_lookup take fmap list_fmap foldl]. by apply IH.
Qed.
Lemma length_entries t0 ts : length (entries t0 ts) = length ts.
Proof. revert t0. induction ts as [|x ts IH]; intros t0; [done|]. cbn [entries length]. by rewrite IH. Qed.

Lemma times_S ts j x : ts !! j = Some x -> times ts (S j) = serve (times ts j) (digits_value x).
Proof. intros Hj. unfold times. rewrite (take_S_r _ _ _ Hj), fmap_app, foldl_app. reflexivity. Qed.

(** What [voinuoc] keeps of the times: how much longer each tap runs than the other. *)
Definition left_over (t : Z * Z) (v1 v2 : Z) : Prop := v1 = Z.max 0 (t.1 - t.2) /\ v2 = Z.max 0 (t.2 - t.1).

Lemma left_over_tap t v1 v2 : left_over t v1 v2 -> tap t = if v1 =? 0 then 1 else 2.
Proof. intros [-> ->]. unfold tap. destruct (Z.leb_spec t.1 t.2), (Z.eqb_spec (Z.max 0 (t.1 - t.2)) 0); lia. Qed.

Lemma left_over_serve t v1 v2 V :
  left_over t v1 v2 -> 0 < V ->
  left_over (serve t V) (if v1 =? 0 then if v2 <? V then V - v2 else v1 else if v1 <? V then 0 else v1 - V)
    (if v1 =? 0 then if v2 <? V then 0 else v2 - V else if v1 <? V then V - v1 else v2).
Proof.
  intros [-> ->] HV. unfold left_over, serve.
  destruct (Z.leb_spec t.1 t.2); cbn [fst snd]; destruct (Z.eqb_spec (Z.max 0 (t.1 - t.2)) 0); try lia;
    repeat match goal with |- context [if ?b then _ else _] => destruct b eqn:? end; lia.
Qed.

(** *** Digits *)

Lemma digits_value_snoc ds b : digits_value (ds ++ [b]) = digits_value ds * 10 + (b - 48).
Proof. unfold digits_value. by rewrite foldl_app. Qed.

Lemma digits_value_bound ds : Forall (fun b => is_digit b = true) ds -> 0 <= digits_value ds < 10 ^ lenZ ds.
Proof.
  induction ds as [|b ds IH] using rev_ind; intros Hd; [done|].
  apply Forall_app in Hd as [Hd [Hb _]%Forall_cons]. specialize (IH Hd). rewrite digits_value_snoc, lenZ_app.
  change (lenZ [b]) with 1. rewrite Z.pow_add_r, Z.pow_1_r by (pose proof (lenZ_nonneg ds); lia). unfold is_digit in Hb. lia.
Qed.

Lemma token_value t ds : token t -> ds `prefix_of` t -> 0 <= digits_value ds <= 999999999.
Proof.
  intros [Hd Hl _] [u ->]. apply Forall_app in Hd as [Hd _]. rewrite lenZ_app in Hl. pose proof (lenZ_nonneg u).
  pose proof (digits_value_bound ds Hd). pose proof (Z.pow_le_mono_r 10 (lenZ ds) 9 ltac:(lia) ltac:(lia)). lia.
Qed.

(** *** A line, character by character *)

(** Where the volume [w] starts. *)
Definition start (ts : list (list Z)) (w : nat) : Z := lenZ (concat ((fun t => t ++ [32]) <$> take w ts)).

Lemma start_S ts w t : ts !! w = Some t -> start ts (S w) = start ts w + lenZ t + 1.
Proof.
  intros Hw. unfold start. rewrite (take_S_r _ _ _ Hw), fmap_app, concat_app, lenZ_app. cbn [fmap list_fmap concat].
  rewrite app_nil_r, lenZ_app. change (lenZ [32]) with 1. lia.
Qed.

Lemma line_text_split ts w t :
  ts !! w = Some t ->
  line_text ts = concat ((fun t => t ++ [32]) <$> take w ts) ++ t ++ (if (S w =? length ts)%nat then [] else [32] ++ line_text (drop (S w) ts)).
Proof.
  revert w. induction ts as [|x ts IH]; intros w Hw; [done|]. destruct w as [|w]; cbn in Hw.
  - injection Hw as ->. cbn [take fmap list_fmap concat drop app]. destruct ts as [|y ts]; [by rewrite app_nil_r|reflexivity].
  - destruct ts as [|y ts]; [done|]. change (line_text (x :: y :: ts)) with (x ++ [32] ++ line_text (y :: ts)).
    rewrite (IH w Hw). cbn [take fmap list_fmap concat drop]. rewrite <- !app_assoc. reflexivity.
Qed.

Lemma line_char ts w t i : ts !! w = Some t -> 0 <= i < lenZ t -> (line_text ts).[start ts w + i] = t.[i].
Proof.
  intros Hw Hi. rewrite (line_text_split _ _ _ Hw), lookupZ_app_r by (unfold start; lia). unfold start.
  rewrite lookupZ_app_l by lia. f_equal. lia.
Qed.

Lemma line_stop ts w t :
  ts !! w = Some t -> (line_text ts).[start ts w + lenZ t] = if (S w =? length ts)%nat then None else Some 32.
Proof.
  intros Hw. pose proof (lenZ_nonneg t). rewrite (line_text_split _ _ _ Hw), lookupZ_app_r by (unfold start; lia). unfold start.
  rewrite lookupZ_app_r by lia. destruct (S w =? length ts)%nat; [apply lookupZ_None; change (lenZ []) with 0; lia|].
  rewrite lookupZ_app_l by (change (lenZ [32]) with 1; lia). match goal with |- context [[32].[?x]] => replace x with 0 by lia end. done.
Qed.

Lemma start_nonneg ts w : 0 <= start ts w.
Proof. apply lenZ_nonneg. Qed.

Lemma start_le ts w t : ts !! w = Some t -> start ts w + lenZ t <= lenZ (line_text ts).
Proof.
  intros Hw. rewrite (line_text_split _ _ _ Hw). rewrite !lenZ_app. fold (start ts w).
  match goal with |- context [lenZ (if ?b then ?x else ?y)] => pose proof (lenZ_nonneg (if b then x else y)) end. unfold start. lia.
Qed.

Lemma line_no_newline ts : Forall token ts -> Forall (fun b => b <> 10) (line_text ts).
Proof.
  intros Hts. assert (Ht : forall t, token t -> Forall (fun b => b <> 10) t).
  { intros t [Hd _ _]. eapply Forall_impl; [exact Hd|]. unfold is_digit. cbn beta. lia. }
  induction Hts as [|t ts Hx Hts IH]; [constructor|]. destruct ts as [|u ts]; [by apply Ht|].
  change (line_text (t :: u :: ts)) with (t ++ 32 :: line_text (u :: ts)). apply Forall_app. split; [by apply Ht|]. by constructor.
Qed.

Lemma length_line_text ts : Forall token ts -> Z.of_nat (length ts) <= lenZ (line_text ts).
Proof.
  intros Hts. induction Hts as [|t ts [_ Hl _] Hts IH]; [done|]. destruct ts as [|u ts]; [simpl in *; lia|].
  change (line_text (t :: u :: ts)) with (t ++ 32 :: line_text (u :: ts)). rewrite lenZ_app, lenZ_cons. cbn [length] in *. lia.
Qed.

(** ** Descriptors *)

(** Slots are taken in order and never given back; [own] says which program opened each. *)
Definition held (own : list nat) (tb : list slot) (g : nat) (i : Z) (d : slot) : Prop := own.[i] = Some g /\ tb.[i] = Some d.

Record table_ok (own : list nat) (tb : list slot) : Prop := {
  tab_form : exists used, tb = used ++ replicate (15 - length own) Null /\ length used = length own /\ Forall (fun s => s <> Null) used;
  tab_size : 2 <= lenZ own <= 15 }.

Lemma first_from_app {A} (free : A -> bool) i l1 l2 :
  Forall (fun x => free x = false) l1 -> first_from free i (l1 ++ l2) = first_from free (i + lenZ l1) l2.
Proof.
  intros Hl. revert i. induction Hl as [|x l1 Hx Hl IH]; intros i; [change (lenZ []) with 0; by rewrite Z.add_0_r|].
  cbn [app first_from]. rewrite Hx, IH, lenZ_cons. f_equal. lia.
Qed.

Lemma free_slot_next own σ : table_ok own (openf σ) -> find_free_slot σ = if lenZ own <? 15 then Some (lenZ own) else None.
Proof.
  intros [(used & Hf & Hl & Hn) Hs]. unfold find_free_slot. rewrite Hf. unfold lenZ in *.
  destruct used as [|a [|b used]]; [simpl in Hl; lia..|]. cbn [app drop]. rewrite !Forall_cons in Hn. rewrite drop_0, first_from_app.
  - cbn [length] in Hl. unfold lenZ. destruct (Z.ltb_spec (Z.of_nat (length own)) 15).
    + destruct (15 - length own)%nat eqn:E; [lia|]. cbn [replicate first_from is_null]. f_equal. lia.
    + by replace (15 - length own)%nat with O by lia.
  - eapply Forall_impl; [apply Hn|]. intros [] Hx; done.
Qed.

Lemma held_range own tb g i d : table_ok own tb -> held own tb g i d -> 0 <= i < 15.
Proof. intros [_ Hs] [Ho _]. apply lookupZ_Some_range in Ho. lia. Qed.

Lemma held_other own tb g i d h j d' : held own tb g i d -> held own tb h j d' -> h <> g -> j <> i.
Proof. intros [H1 _] [H2 _] Hne ->. congruence. Qed.

Lemma table_set own tb g i d d' :
  table_ok own tb -> held own tb g i d -> d' <> Null ->
  table_ok own (tb.[i <- d']) /\ held own (tb.[i <- d']) g i d' /\ forall h j e, j <> i -> held own tb h j e -> held own (tb.[i <- d']) h j e.
Proof.
  intros [(used & -> & Hl & Hn) Hs] [Ho Ht] Hd. pose proof (lookupZ_Some_range _ _ _ Ho) as Hi. conjs.
  - split; [|done]. exists (used.[i <- d']). unfold insertZ, lenZ in *. rewrite (proj2 (Z.ltb_ge i 0)) by lia.
    rewrite insert_app_l by lia. conjs; [done|by rewrite length_insert|by apply Forall_insert].
  - split; [done|]. apply lookupZ_insertZ_eq. by apply lookupZ_Some_range in Ht.
  - intros h j e Hj [H1 H2]. split; [done|]. by rewrite lookupZ_insertZ_ne by done.
Qed.

Lemma table_new own tb g d :
  table_ok own tb -> lenZ own < 15 -> d <> Null ->
  table_ok (own ++ [g]) (tb.[lenZ own <- d]) /\ held (own ++ [g]) (tb.[lenZ own <- d]) g (lenZ own) d /\
  forall h j e, held own tb h j e -> held (own ++ [g]) (tb.[lenZ own <- d]) h j e.
Proof.
  intros [(used & -> & Hl & Hn) Hs] Hlt Hd.
  assert (Hlo : lenZ (used ++ replicate (15 - length own) Null) = 15) by (unfold lenZ in *; rewrite length_app, length_replicate; lia). conjs.
  - split; [|rewrite lenZ_app; change (lenZ [g]) with 1; lia]. exists (used ++ [d]). unfold insertZ, lenZ in *. rewrite (proj2 (Z.ltb_ge _ 0)), Nat2Z.id by lia.
    rewrite <- Hl, insert_app_r_alt, Nat.sub_diag by lia. rewrite !length_app. cbn [length]. conjs; [|lia|by apply Forall_app; split; [|repeat constructor]].
    rewrite <- app_assoc. f_equal. destruct (15 - length used)%nat eqn:E; [lia|]. cbn [replicate insert list_insert app]. f_equal. f_equal. lia.
  - split; [|apply lookupZ_insertZ_eq; pose proof (lenZ_nonneg own); lia]. rewrite lookupZ_app_r, Z.sub_diag by lia. done.
  - intros h j e [H1 H2]. pose proof (lookupZ_Some_range _ _ _ H1) as Hj. split; [by rewrite lookupZ_app_l by lia|]. by rewrite lookupZ_insertZ_ne by lia.
Qed.

(** What a call does to the table, as its caller sees it: [i] now holds [d], nothing else moves. *)
Record table_step (own own' : list nat) (tb tb' : list slot) (g : nat) (i : Z) (d : slot) : Prop := {
  ts_ok : table_ok own' tb';
  ts_held : held own' tb' g i d;
  ts_kept : forall h j e, j <> i -> held own tb h j e -> held own' tb' h j e;
  ts_others : forall h j e, h <> g -> held own tb h j e -> held own' tb' h j e }.

Lemma table_step_set own tb g i d d' :
  table_ok own tb -> held own tb g i d -> d' <> Null -> table_step own own tb (tb.[i <- d']) g i d'.
Proof.
  intros Ht Hh Hd. destruct (table_set own tb g i d d' Ht Hh Hd) as (H1 & H2 & H3). split; [done..|].
  intros h j e Hne Hj. apply H3; [exact (held_other _ _ _ _ _ _ _ _ Hh Hj Hne)|done].
Qed.

Lemma sys_Open_new σ own g nm ty X :
  table_ok own (openf σ) -> lenZ own < 15 -> files σ !! nm = Some X -> ty = 0 \/ ty = 1 ->
  exists tb, do_call σ (Open nm ty) = returns (lenZ own) (set_openf σ tb) /\ table_step own (own ++ [g]) (openf σ) tb g (lenZ own) (Opened nm 0 ty).
Proof.
  intros Ht Hlt HX Hty. cbn [do_call]. unfold sys_Open. rewrite (free_slot_next own) by done. rewrite (proj2 (Z.ltb_lt _ 15)) by done.
  replace ((ty =? 0) || (ty =? 1)) with true by lia. rewrite HX.
  destruct (table_new own (openf σ) g (Opened nm 0 ty) Ht Hlt ltac:(done)) as (H1 & H2 & H3).
  eexists. split; [reflexivity|]. by split; eauto.
Qed.

Lemma sys_Open_full σ own nm ty : table_ok own (openf σ) -> lenZ own = 15 -> do_call σ (Open nm ty) = returns (-1) σ.
Proof. intros Ht Hl. cbn [do_call]. unfold sys_Open. by rewrite (free_slot_next own), Hl by done. Qed.

Lemma slice_one (X : list Z) p : 0 <= p -> slice X p 1 = match X.[p] with Some b => [b] | None => [] end.
Proof.
  intros Hp. unfold slice, lookupZ. rewrite (proj2 (Z.ltb_ge p 0)) by lia. change (Z.to_nat 1) with 1%nat.
  destruct (X !! Z.to_nat p) as [b|] eqn:E; [|by rewrite drop_ge by (by apply lookup_ge_None)].
  rewrite (drop_S _ _ _ E). cbn [firstn]. by rewrite take_0.
Qed.

Lemma sys_Read_held σ own g id nm p ty X :
  table_ok own (openf σ) -> held own (openf σ) g id (Opened nm p ty) -> files σ !! nm = Some X -> 0 <= p ->
  match X.[p] with
  | Some b => exists tb, do_call σ (Read 1 id) = Some (Ok (1, [b], set_openf σ tb)) /\ table_step own own (openf σ) tb g id (Opened nm (p + 1) ty)
  | None => do_call σ (Read 1 id) = returns (-2) σ
  end.
Proof.
  intros Ht Hh HX Hp. pose proof (held_range _ _ _ _ _ Ht Hh). cbn [do_call]. unfold sys_Read.
  replace ((id <? 0) || (14 <? id)) with false by lia. pose proof (proj2 Hh) as ->. rewrite HX, slice_one by done.
  destruct (X.[p]) as [b|]; [|done]. change (0 <? lenZ [b]) with true.
  eexists. split; [reflexivity|]. by eapply table_step_set.
Qed.

Lemma overwrite_end X bs : 0 < lenZ bs -> overwrite X (lenZ X) bs = X ++ bs.
Proof.
  intros Hb. unfold overwrite. rewrite (proj2 (Z.eqb_neq _ 0)) by lia. rewrite Z.sub_diag. cbn [Z.to_nat replicate]. rewrite app_nil_r, slice_all by done. unfold lenZ. rewrite drop_ge by lia. by rewrite app_nil_r.
Qed.

Lemma sys_Write_end σ own g id nm X bs :
  table_ok own (openf σ) -> held own (openf σ) g id (Opened nm (lenZ X) 0) -> files σ !! nm = Some X -> 0 < lenZ bs ->
  exists tb, do_call σ (Write bs id) = returns (lenZ bs) (set_openf (set_files σ (<[nm := X ++ bs]> (files σ))) tb) /\
    table_step own own (openf σ) tb g id (Opened nm (lenZ X + lenZ bs) 0).
Proof.
  intros Ht Hh HX Hb. cbn [do_call]. unfold sys_Write. pose proof (proj2 Hh) as ->. rewrite HX. cbn [Z.eqb].
  rewrite (proj2 (Z.ltb_lt 0 _)), overwrite_end by done.
  eexists. split; [reflexivity|]. by eapply table_step_set.
Qed.

Lemma sys_Close_held σ own g id nm p ty :
  table_ok own (openf σ) -> held own (openf σ) g id (Opened nm p ty) ->
  exists tb, do_call σ (Close id) = returns 0 (set_openf σ tb) /\ table_step own own (openf σ) tb g id Deleted.
Proof.
  intros Ht Hh. pose proof (held_range _ _ _ _ _ Ht Hh). cbn [do_call]. unfold sys_Close. replace ((0 <=? id) && (id <=? 14)) with true by lia.
  pose proof (proj2 Hh) as ->. eexists. split; [reflexivity|]. by eapply table_step_set.
Qed.

Lemma sys_Signal_ok σ s v : semTab σ !! s = Some v -> do_call σ (Signal s) = returns 0 (set_sem σ s (v + 1)).
Proof. intros H. cbn [do_call]. unfold sys_Signal. by rewrite H. Qed.
Lemma sys_Wait_ok σ s v : semTab σ !! s = Some v -> do_call σ (Wait s) = if v =? 0 then None else returns 0 (set_sem σ s (v - 1)).
Proof. intros H. cbn [do_call]. unfold sys_Wait. by rewrite H. Qed.

(** ** Steps *)

Lemma step_call σ i p r bs σ1 p' :
  halted σ = None -> (pcb σ).[i] = Some (Some (Running p)) -> do_call σ (call_of p) = Some (Ok (r, bs, σ1)) -> next p r bs = Ok p' ->
  step σ i = Some (Ok (set_proc σ1 i (Some (Running p')))).
Proof. intros Hh Hp Hc Hn. unfold step. rewrite Hh, Hp. destruct (call_of p); [rewrite Hc; cbn; by rewrite Hn..|done]. Qed.

Lemma step_waits σ i p : (pcb σ).[i] = Some (Some (Running p)) -> do_call σ (call_of p) = None -> step σ i = None.
Proof. intros Hp Hc. unfold step. destruct (halted σ); [done|]. rewrite Hp. destruct (call_of p); [by rewrite Hc..|done]. Qed.

Lemma step_exit σ i p code :
  halted σ = None -> (pcb σ).[i] = Some (Some (Running p)) -> call_of p = Exit code -> step σ i = Some (Ok (set_proc σ i (Some (Exited code)))).
Proof. intros Hh Hp Hc. unfold step. by rewrite Hh, Hp, Hc. Qed.

(** What the programs share. *)
Record view (σ : Sys) (own : list nat) (s v m : Z) (out : list Z) : Prop := {
  vw_table : table_ok own (openf σ);
  vw_s : semTab σ !! sinhvien_sem = Some s;
  vw_v : semTab σ !! voinuoc_sem = Some v;
  vw_m : semTab σ !! main_txt = Some m;
  vw_out : files σ !! output_txt = Some out }.

(** A step of a child: process [i], which opened the slots of [g], goes on as [P]; it now has
    opened [n'] files instead of [n]. *)
Record moved (g : nat) (n n' : Z) (σ σ' : Sys) (own own' : list nat) (i : Z) (P : Process) : Prop := {
  mv_pcb : pcb σ' = (pcb σ).[i <- Some P];
  mv_others : forall h j d, h <> g -> held own (openf σ) h j d -> held own' (openf σ') h j d;
  mv_count : lenZ own' + n = lenZ own + n';
  mv_files : forall f, f <> output_txt -> files σ' !! f = files σ !! f;
  mv_screen : screen σ' = screen σ }.

Section Moves.
Context (σ : Sys) (own : list nat) (s v m : Z) (out : list Z) (g : nat) (n i : Z) (P : Process).
Hypothesis Hv : view σ own s v m out.

Lemma moved_table own' n' tb id d :
  table_step own own' (openf σ) tb g id d -> lenZ own' + n = lenZ own + n' ->
  view (set_proc (set_openf σ tb) i (Some P)) own' s v m out /\ moved g n n' σ (set_proc (set_openf σ tb) i (Some P)) own own' i P.
Proof. intros [H1 H2 H3 H4] Hn. destruct Hv. split; split; cbn; try done. Qed.

Lemma moved_only : view (set_proc σ i (Some P)) own s v m out /\ moved g n n σ (set_proc σ i (Some P)) own own i P.
Proof. destruct Hv. split; split; cbn; done. Qed.

Lemma moved_sem x y :
  view (set_proc (set_sem σ x y) i (Some P)) own (if bool_decide (x = sinhvien_sem) then y else s)
    (if bool_decide (x = voinuoc_sem) then y else v) (if bool_decide (x = main_txt) then y else m) out /\
  moved g n n σ (set_proc (set_sem σ x y) i (Some P)) own own i P.
Proof. destruct Hv. split; split; cbn; try done; case_bool_decide as E; subst; rewrite ?lookup_insert_eq, ?lookup_insert_ne; done. Qed.

Lemma moved_write tb id d bs :
  table_step own own (openf σ) tb g id d ->
  let σ' := set_proc (set_openf (set_files σ (<[output_txt := bs]> (files σ))) tb) i (Some P) in
  view σ' own s v m bs /\ moved g n n σ σ' own own i P.
Proof.
  intros [H1 H2 H3 H4] σ'. destruct Hv. split; split; cbn; try done; [by rewrite lookup_insert_eq|]. intros f Hf. by rewrite lookup_insert_ne.
Qed.
End Moves.

(** ** One line *)

(** How far [sinhvien] is with volume [w]: before it waits for its turn, with the turn,
    with the volume written; at the end, before and after the last signal. *)
Inductive sv_phase := Prep (w : nat) | Hold (w : nat) | Wrote (w : nat) | Last | Done.
(** How far [voinuoc] is with volume [j]: waiting, reading it, with a tap to write, with the
    tap written; at the end of the line, before and after the newline, and whether it has
    told [main]. *)
Inductive vn_phase := Start | Idle (j : nat) | Reading (j : nat) | Pouring (j : nat) | Marked (j : nat) | Ending | Fin (told : bool).

Section Line.
Context (pre : list Z) (ts : list (list Z)) (T : Z).
Notation k := (length ts).

(** The output with [j] volumes done. *)
Definition R (j : nat) : list Z := pre ++ concat (take j (entries (0, 0) ts)).
(** The output with [a] volumes and [b] taps written. *)
Definition shown (a b : nat) (ended : bool) : list Z :=
  R b ++ (if (b <? a)%nat then default [] (ts !! b) ++ [32] else []) ++ (if ended then [10] else []).

Definition sv_written (φ : sv_phase) : nat := match φ with Prep w | Hold w => w | Wrote w => S w | Last | Done => k end.
Definition sv_waits (φ : sv_phase) : nat := match φ with Prep w => w | Hold w | Wrote w => S w | Last | Done => k end.
Definition sv_signals (φ : sv_phase) : nat := match φ with Prep w | Hold w | Wrote w => w | Last => k | Done => S k end.
Definition vn_waits (ψ : vn_phase) : nat :=
  match ψ with Start => 0%nat | Idle j => j | Reading j | Pouring j | Marked j => S j | Ending | Fin _ => S k end.
Definition vn_signals (ψ : vn_phase) : nat :=
  match ψ with Start => 0%nat | Idle j | Reading j | Pouring j | Marked j => j | Ending | Fin _ => k end.
Definition vn_marked (ψ : vn_phase) : nat :=
  match ψ with Start => 0%nat | Idle j | Reading j | Pouring j => j | Marked j => S j | Ending | Fin _ => k end.
Definition vn_ended (ψ : vn_phase) : bool := match ψ with Fin _ => true | _ => false end.

(** The values of the two semaphores and the output, given how far the two are. *)
Record joint (φ : sv_phase) (ψ : vn_phase) (s v : Z) (out : list Z) : Prop := {
  jn_s : 0 <= s /\ s + Z.of_nat (vn_waits ψ) = Z.of_nat (sv_signals φ);
  jn_v : 0 <= v /\ v + Z.of_nat (sv_waits φ) = 1 + Z.of_nat (vn_signals ψ);
  jn_out : out = shown (sv_written φ) (vn_marked ψ) (vn_ended ψ);
  jn_first : ψ = Start -> sv_written φ = 0%nat;
  jn_sv : match φ with Prep w | Hold w | Wrote w => (w < k)%nat | _ => True end;
  jn_vn : match ψ with Idle j | Reading j => (j <= k)%nat | Pouring j | Marked j => (j < k)%nat | _ => True end }.


Lemma shown_even b : shown b b false = R b.
Proof. unfold shown. rewrite Nat.ltb_irrefl. by rewrite !app_nil_r. Qed.
Lemma shown_ahead j t : ts !! j = Some t -> shown (S j) j false = R j ++ t ++ [32].
Proof. intros Ht. unfold shown. rewrite (proj2 (Nat.ltb_lt j (S j))), Ht by lia. cbn [default]. by rewrite app_nil_r. Qed.
Lemma R_0 : R 0 = pre.
Proof. unfold R. by rewrite take_0, app_nil_r. Qed.
Lemma R_S j t : ts !! j = Some t -> R (S j) = R j ++ t ++ [32; 48 + tap (times ts j); 32].
Proof.
  intros Ht. unfold R. rewrite (take_S_r _ _ _ (entries_lookup (0, 0) ts j t Ht)), concat_app. cbn [concat]. by rewrite app_nil_r, app_assoc.
Qed.
Lemma len_R_S j t : ts !! j = Some t -> lenZ (R (S j)) = lenZ (R j) + lenZ t + 3.
Proof. intros Ht. rewrite (R_S _ _ Ht), !lenZ_app. change (lenZ [32; 48 + tap (times ts j); 32]) with 3. lia. Qed.

(** *** [sinhvien] moves *)

Lemma joint_start φ s v out : joint φ Start s v out -> out = pre.
Proof. intros [Hs Hv -> Hf H1 _]. specialize (Hf eq_refl). rewrite Hf. cbn [vn_marked vn_ended]. by rewrite shown_even, R_0. Qed.

Lemma joint_prep0 ψ s v out : joint (Prep 0) ψ s v out -> out = pre.
Proof. intros [Hs Hv -> _ H1 H2]. destruct ψ as [|j|j|j|j| |]; cbn in Hs, Hv; try lia; [|replace j with 0%nat by lia]; cbn; by rewrite shown_even, R_0. Qed.

Lemma joint_hold w ψ s v out : joint (Hold w) ψ s v out -> out = R w /\ (ψ = Start \/ ψ = Idle w).
Proof.
  intros [Hs Hv -> Hf H1 H2]. destruct ψ as [|j|j|j|j| |]; cbn in Hs, Hv; try lia.
  - specialize (Hf eq_refl). cbn in Hf. subst w. cbn. rewrite shown_even. auto.
  - replace j with w by lia. cbn. rewrite shown_even. auto.
Qed.

Lemma joint_sv_wait w ψ s v out : joint (Prep w) ψ s v out -> v <> 0 -> joint (Hold w) ψ s (v - 1) out.
Proof. intros [Hs Hv Ho Hf H1 H2] Hn. split; cbn in *; try done; lia. Qed.

Lemma joint_sv_write w t s v out : joint (Hold w) (Idle w) s v out -> ts !! w = Some t -> joint (Wrote w) (Idle w) s v (out ++ t ++ [32]).
Proof.
  intros J Ht. pose proof (joint_hold _ _ _ _ _ J) as [-> _]. destruct J as [Hs Hv _ Hf H1 H2]. split; cbn in *; try done. by rewrite (shown_ahead _ _ Ht).
Qed.

Lemma joint_sv_signal w ψ s v out : joint (Wrote w) ψ s v out -> joint (if (S w =? k)%nat then Last else Prep (S w)) ψ (s + 1) v out.
Proof.
  intros [Hs Hv Ho Hf H1 H2]. destruct (Nat.eqb_spec (S w) k) as [E|E]; split; cbn in *; try done; rewrite <- ?E; try done; try lia; try (intros Hx; specialize (Hf Hx); lia).
Qed.

Lemma joint_sv_last ψ s v out : joint Last ψ s v out -> joint Done ψ (s + 1) v out.
Proof. intros [Hs Hv Ho Hf H1 H2]. split; cbn in *; try done; lia. Qed.

(** *** [voinuoc] moves *)

Lemma joint_vn_start φ s v out : joint φ Start s v out -> joint φ (Idle 0) s v out.
Proof. intros [Hs Hv Ho Hf H1 H2]. split; cbn in *; try done; lia. Qed.

Lemma joint_vn_wait φ j s v out : joint φ (Idle j) s v out -> s <> 0 -> joint φ (Reading j) (s - 1) v out.
Proof. intros [Hs Hv Ho Hf H1 H2] Hn. split; cbn in *; try done; lia. Qed.

Lemma joint_reading φ ψ j t s v out : joint φ ψ s v out -> ψ = Reading j \/ ψ = Pouring j -> ts !! j = Some t -> out = R j ++ t ++ [32] /\ sv_written φ = S j.
Proof.
  intros [Hs Hv -> Hf H1 H2] Hψ Ht. pose proof (lookup_lt_Some _ _ _ Ht) as Hj.
  assert (Hw : sv_written φ = S j) by (destruct Hψ as [-> | ->]; destruct φ; cbn in *; lia).
  rewrite Hw. destruct Hψ as [-> | ->]; cbn; by rewrite (shown_ahead _ _ Ht).
Qed.

Lemma joint_reading_end φ s v out : joint φ (Reading k) s v out -> out = R k /\ φ = Done.
Proof.
  intros [Hs Hv -> Hf H1 H2]. assert (φ = Done) as -> by (destruct φ; cbn in *; (lia || done)). cbn. by rewrite shown_even.
Qed.

Lemma joint_vn_pour φ j s v out : joint φ (Reading j) s v out -> (j < k)%nat -> joint φ (Pouring j) s v out.
Proof. intros [Hs Hv Ho Hf H1 H2] Hn. split; cbn in *; try done. Qed.

Lemma joint_vn_end φ s v out : joint φ (Reading k) s v out -> joint φ Ending s v out.
Proof. intros [Hs Hv Ho Hf H1 H2]. split; cbn in *; try done. Qed.

Lemma joint_vn_mark φ j t s v out :
  joint φ (Pouring j) s v out -> ts !! j = Some t -> joint φ (Marked j) s v (out ++ [48 + tap (times ts j); 32]).
Proof.
  intros J Ht. destruct (joint_reading _ _ j t _ _ _ J (or_intror eq_refl) Ht) as [-> Hw]. destruct J as [Hs Hv _ Hf H1 H2]. split; cbn in *; try done.
  rewrite Hw, shown_even, (R_S _ _ Ht), <- !app_assoc. reflexivity.
Qed.

Lemma joint_vn_signal φ j s v out : joint φ (Marked j) s v out -> joint φ (Idle (S j)) s (v + 1) out.
Proof. intros [Hs Hv Ho Hf H1 H2]. split; cbn in *; try done; lia. Qed.

Lemma joint_vn_newline φ s v out : joint φ Ending s v out -> out = R k /\ joint φ (Fin false) s v (out ++ [10]).
Proof.
  intros [Hs Hv Ho Hf H1 H2]. assert (φ = Done) as -> by (destruct φ; cbn in *; (lia || done)). cbn in Ho. rewrite shown_even in Ho. subst out.
  split; [done|]. split; cbn in *; try done. unfold shown. by rewrite Nat.ltb_irrefl.
Qed.

Lemma joint_vn_told φ s v out : joint φ (Fin false) s v out -> joint φ (Fin true) s v out.
Proof. intros [Hs Hv Ho Hf H1 H2]. split; cbn in *; try done. Qed.

(** *** What each program holds *)

Notation F := (line_text ts).
Definition after (w : nat) (t : list Z) : Z := start ts w + lenZ t + (if (S w =? k)%nat then 0 else 1).

(** The steps that are left at most, from how far the program has read. *)
Definition sv_left (p q : Z) (w : nat) (c : Z) : Z := (T - p) + (lenZ F - q) + 6 * (Z.of_nat k - Z.of_nat w) + c.
Definition vn_left (p : Z) (j : nat) (c : Z) : Z := (T - p) + 4 * (Z.of_nat k - Z.of_nat j) + c.

Definition sv_files (own : list nat) (tb : list slot) (fs fo q p : Z) : Prop :=
  held own tb 1 fs (Opened sinhvien_txt q 1) /\ held own tb 1 fo (Opened output_txt p 0).
Definition vn_file (own : list nat) (tb : list slot) (fo p : Z) : Prop := held own tb 2 fo (Opened output_txt p 0).

(** [sinhvien] at a point, its phase, the files it has opened and the steps it has left. *)
Inductive sv_ok (own : list nat) (tb : list slot) : Process -> sv_phase -> Z -> Z -> Prop :=
| so_start : sv_ok own tb (Running (Sinhvien S_open_sinhvien)) (Prep 0) 0 (sv_left 0 0 0 30)
| so_open fs : held own tb 1 fs (Opened sinhvien_txt 0 1) -> sv_ok own tb (Running (Sinhvien (S_open_output fs))) (Prep 0) 1 (sv_left 0 0 0 25)
| so_first fs fo c p : sv_files own tb fs fo 0 p -> 0 <= p <= lenZ pre ->
    sv_ok own tb (Running (Sinhvien (S_seek_first fs fo c))) (Prep 0) 2 (sv_left p 0 0 20)
| so_read fs fo c w V u p : ts !! w = Some (V ++ u) -> sv_files own tb fs fo (start ts w + lenZ V) p -> 0 <= p <= lenZ (R w) ->
    sv_ok own tb (Running (Sinhvien (S_read fs fo c V))) (Prep w) 2 (sv_left p (start ts w + lenZ V) w 10)
| so_wait fs fo c w t p : ts !! w = Some t -> sv_files own tb fs fo (after w t) p -> 0 <= p <= lenZ (R w) ->
    sv_ok own tb (Running (Sinhvien (S_wait fs fo c (t ++ [32]) (S w =? k)%nat))) (Prep w) 2 (sv_left p (after w t) w 9)
| so_seek fs fo c w t p : ts !! w = Some t -> sv_files own tb fs fo (after w t) p -> 0 <= p <= lenZ (R w) ->
    sv_ok own tb (Running (Sinhvien (S_seek fs fo c (t ++ [32]) (S w =? k)%nat))) (Hold w) 2 (sv_left p (after w t) w 8)
| so_write fs fo c w t : ts !! w = Some t -> sv_files own tb fs fo (after w t) (lenZ (R w)) ->
    sv_ok own tb (Running (Sinhvien (S_write fs fo c (t ++ [32]) (S w =? k)%nat))) (Hold w) 2 (sv_left (lenZ (R w)) (after w t) w 7)
| so_signal fs fo c w t : ts !! w = Some t -> sv_files own tb fs fo (after w t) (lenZ (R w) + lenZ t + 1) ->
    sv_ok own tb (Running (Sinhvien (S_signal fs fo c (S w =? k)%nat))) (Wrote w) 2 (sv_left (lenZ (R w) + lenZ t + 1) (after w t) w 6)
| so_last fs fo p q : sv_files own tb fs fo q p -> sv_ok own tb (Running (Sinhvien (S_signal_last fs fo))) Last 2 8
| so_close fs fo p q : sv_files own tb fs fo q p -> sv_ok own tb (Running (Sinhvien (S_close_sinhvien fs fo))) Done 2 7
| so_close_out fo p : held own tb 1 fo (Opened output_txt p 0) -> sv_ok own tb (Running (Sinhvien (S_close_output fo))) Done 2 6
| so_exit : sv_ok own tb (Running (Sinhvien S_exit)) Done 2 5
| so_exited : sv_ok own tb (Exited 0) Done 2 4.

Definition small (v : Z) : Prop := 0 <= v <= 999999999.

Inductive vn_ok (own : list nat) (tb : list slot) : Process -> vn_phase -> Z -> Z -> Prop :=
| vo_start : vn_ok own tb (Running (Voinuoc V_open)) Start 0 (vn_left 0 0 20)
| vo_seek fo p : vn_file own tb fo p -> 0 <= p <= lenZ pre -> vn_ok own tb (Running (Voinuoc (V_seek fo))) Start 1 (vn_left p 0 15)
| vo_wait fo v1 v2 j : (j <= k)%nat -> vn_file own tb fo (lenZ (R j)) -> left_over (times ts j) v1 v2 -> small v1 -> small v2 ->
    vn_ok own tb (Running (Voinuoc (V_wait fo v1 v2))) (Idle j) 1 (vn_left (lenZ (R j)) j 10)
| vo_read fo v1 v2 c j ds u : (j <= k)%nat -> default [] (ts !! j) = ds ++ u -> vn_file own tb fo (lenZ (R j) + lenZ ds) ->
    left_over (times ts j) v1 v2 -> small v1 -> small v2 ->
    vn_ok own tb (Running (Voinuoc (V_read fo v1 v2 (digits_value ds) c))) (Reading j) 1 (vn_left (lenZ (R j) + lenZ ds) j 9)
| vo_pour fo v1 v2 j t : ts !! j = Some t -> vn_file own tb fo (lenZ (R j) + lenZ t + 1) -> left_over (times ts j) v1 v2 -> small v1 -> small v2 ->
    vn_ok own tb (Running (Voinuoc (if v1 =? 0 then V_write_1 fo v1 v2 (digits_value t) else V_write_2 fo v1 v2 (digits_value t))))
      (Pouring j) 1 (vn_left (lenZ (R j) + lenZ t + 1) j 9)
| vo_signal fo v1 v2 j : (j < k)%nat -> vn_file own tb fo (lenZ (R (S j))) -> left_over (times ts (S j)) v1 v2 -> small v1 -> small v2 ->
    vn_ok own tb (Running (Voinuoc (V_signal fo v1 v2))) (Marked j) 1 (vn_left (lenZ (R (S j))) j 9)
| vo_newline fo : vn_file own tb fo (lenZ (R k)) -> vn_ok own tb (Running (Voinuoc (V_newline fo))) Ending 1 8
| vo_tell fo p : vn_file own tb fo p -> vn_ok own tb (Running (Voinuoc (V_signal_main fo))) (Fin false) 1 7
| vo_close fo p : vn_file own tb fo p -> vn_ok own tb (Running (Voinuoc (V_close fo))) (Fin true) 1 6
| vo_exit : vn_ok own tb (Running (Voinuoc V_exit)) (Fin true) 1 5
| vo_exited : vn_ok own tb (Exited 0) (Fin true) 1 4.

(** A program keeps what it holds when the others move. *)
Lemma sv_ok_kept own tb own' tb' P φ n m :
  (forall j d, held own tb 1 j d -> held own' tb' 1 j d) -> sv_ok own tb P φ n m -> sv_ok own' tb' P φ n m.
Proof. unfold sv_files. intros Hk Hok. destruct Hok; econstructor; unfold sv_files in *; naive_solver. Qed.
Lemma vn_ok_kept own tb own' tb' P ψ n m :
  (forall j d, held own tb 2 j d -> held own' tb' 2 j d) -> vn_ok own tb P ψ n m -> vn_ok own' tb' P ψ n m.
Proof. unfold vn_file. intros Hk Hok. destruct Hok; econstructor; unfold vn_file in *; eauto. Qed.

(** *** The steps of [sinhvien] *)

Hypothesis Htok : Forall token ts.
Hypothesis HT : lenZ (R k) + 1 <= T.

Lemma len_R_mono a b : (a <= b)%nat -> (b <= k)%nat -> lenZ (R a) <= lenZ (R b).
Proof.
  intros Hab. induction Hab as [|b Hab IH]; intros Hb; [done|]. destruct (lookup_lt_is_Some_2 ts b) as [t Ht]; [lia|].
  rewrite (len_R_S _ _ Ht). pose proof (lenZ_nonneg t). specialize (IH ltac:(lia)). lia.
Qed.

Lemma len_R_T w : (w <= k)%nat -> 0 <= lenZ (R w) < T.
Proof. intros Hw. pose proof (len_R_mono w k Hw ltac:(lia)). pose proof (lenZ_nonneg (R w)). lia. Qed.

Lemma token_at w t : ts !! w = Some t -> token t.
Proof. intros Hw. exact (Forall_lookup_1 _ _ _ _ Htok Hw). Qed.

Lemma after_le w t : ts !! w = Some t -> 0 <= after w t <= lenZ F.
Proof.
  intros Hw. unfold after. pose proof (start_le _ _ _ Hw). pose proof (start_nonneg ts w). pose proof (lenZ_nonneg t).
  destruct (Nat.eqb_spec (S w) k); [lia|]. pose proof (lookup_lt_Some _ _ _ Hw).
  destruct (lookup_lt_is_Some_2 ts (S w)) as [u Hu]; [lia|]. pose proof (start_le _ _ _ Hu). pose proof (lenZ_nonneg u).
  rewrite (start_S _ _ _ Hw) in *. lia.
Qed.

Section SvSteps.
Context (σ : Sys) (own : list nat) (ψ : vn_phase) (s v ms : Z) (out : list Z) (i : Z).
Hypothesis Hh : halted σ = None.
Hypothesis Hvw : view σ own s v ms out.
Hypothesis HF : files σ !! sinhvien_txt = Some F.

Definition sv_goes (n m : Z) : Prop := exists σ' own' P φ s v out n' m',
  step σ i = Some (Ok σ') /\ view σ' own' s v ms out /\ moved 1 n n' σ σ' own own' i P /\
  sv_ok own' (openf σ') P φ n' m' /\ joint φ ψ s v out /\ 0 <= m' < m.

Notation at_point p := ((pcb σ).[i] = Some (Some (Running (Sinhvien p)))).

(** A call that only moves in the table of descriptors. *)
Lemma sv_goes_table p r bs tb p' own' id d φ n n' m m' :
  at_point p -> do_call σ (sinhvien_call p) = Some (Ok (r, bs, set_openf σ tb)) -> sinhvien_next p r bs = Ok (Sinhvien p') ->
  table_step own own' (openf σ) tb 1 id d -> lenZ own' + n = lenZ own + n' ->
  sv_ok own' tb (Running (Sinhvien p')) φ n' m' -> joint φ ψ s v out -> 0 <= m' < m -> sv_goes n m.
Proof.
  intros Hp Hc Hn Ht Hl Hok J Hm. destruct (moved_table σ own s v ms out 1 n i (Running (Sinhvien p')) Hvw own' n' tb id d Ht Hl) as [Vw Mv].
  do 9 eexists. conjs; [exact (step_call _ _ (Sinhvien p) _ _ _ _ Hh Hp Hc Hn)|exact Vw|exact Mv|exact Hok|exact J|apply Hm..].
Qed.

(** A call that changes nothing. *)
Lemma sv_goes_same p r bs p' φ n m m' :
  at_point p -> do_call σ (sinhvien_call p) = Some (Ok (r, bs, σ)) -> sinhvien_next p r bs = Ok (Sinhvien p') ->
  sv_ok own (openf σ) (Running (Sinhvien p')) φ n m' -> joint φ ψ s v out -> 0 <= m' < m -> sv_goes n m.
Proof.
  intros Hp Hc Hn Hok J Hm. destruct (moved_only σ own s v ms out 1 n i (Running (Sinhvien p')) Hvw) as [Vw Mv].
  do 9 eexists. conjs; [exact (step_call _ _ (Sinhvien p) _ _ _ _ Hh Hp Hc Hn)|exact Vw|exact Mv|exact Hok|exact J|apply Hm..].
Qed.

Lemma sv_open : at_point S_open_sinhvien -> lenZ own < 15 -> joint (Prep 0) ψ s v out -> sv_goes 0 (sv_left 0 0 0 30).
Proof.
  intros Hp Hl J. destruct (sys_Open_new σ own 1 sinhvien_txt 1 F (vw_table _ _ _ _ _ _ Hvw) Hl HF ltac:(by right)) as (tb & Hc & Ht).
  pose proof (len_R_T 0 ltac:(lia)). pose proof (lenZ_nonneg F). pose proof (lenZ_nonneg own).
  eapply (sv_goes_table S_open_sinhvien _ _ _ (S_open_output (lenZ own)) (own ++ [1%nat]) _ _ (Prep 0) _ 1 _ (sv_left 0 0 0 25)); [exact Hp|exact Hc| |exact Ht| | |exact J|unfold sv_left; lia].
  - cbn. by rewrite (proj2 (Z.eqb_neq _ (-1))) by lia.
  - rewrite lenZ_app. change (lenZ [1%nat]) with 1. lia.
  - constructor. apply Ht.
Qed.

Lemma sv_open_output fs :
  at_point (S_open_output fs) -> held own (openf σ) 1 fs (Opened sinhvien_txt 0 1) -> lenZ own < 15 -> joint (Prep 0) ψ s v out -> sv_goes 1 (sv_left 0 0 0 25).
Proof.
  intros Hp Hfs Hl J. destruct (sys_Open_new σ own 1 output_txt 0 out (vw_table _ _ _ _ _ _ Hvw) Hl (vw_out _ _ _ _ _ _ Hvw) ltac:(by left)) as (tb & Hc & Ht).
  pose proof (len_R_T 0 ltac:(lia)). pose proof (lenZ_nonneg F). pose proof (lenZ_nonneg own).
  eapply (sv_goes_table (S_open_output fs) _ _ _ (S_seek_first fs (lenZ own) 0) (own ++ [1%nat]) _ _ (Prep 0) _ 2 _ (sv_left 0 0 0 20)); [exact Hp|exact Hc| |exact Ht| | |exact J|unfold sv_left; lia].
  - cbn. by rewrite (proj2 (Z.eqb_neq _ (-1))) by lia.
  - rewrite lenZ_app. change (lenZ [1%nat]) with 1. lia.
  - constructor; [|pose proof (lenZ_nonneg pre); lia]. split; [|apply Ht]. apply (ts_kept _ _ _ _ _ _ _ Ht); [|exact Hfs].
    destruct Hfs as [Ho _]. apply lookupZ_Some_range in Ho. lia.
Qed.

Lemma files_apart fs fo q p : sv_files own (openf σ) fs fo q p -> fs <> fo.
Proof. intros [[_ H1] [_ H2]] ->. rewrite H1 in H2. done. Qed.

Lemma sv_first fs fo c p :
  at_point (S_seek_first fs fo c) -> sv_files own (openf σ) fs fo 0 p -> 0 <= p <= lenZ pre -> joint (Prep 0) ψ s v out -> sv_goes 2 (sv_left p 0 0 20).
Proof.
  intros Hp Hf Hr J. pose proof (files_apart _ _ _ _ Hf) as Hne. destruct Hf as [Hfs Hfo]. pose proof (len_R_T 0 ltac:(lia)) as HR. rewrite R_0 in HR. pose proof (lenZ_nonneg F).
  pose proof (sys_Read_held σ own 1 fo _ _ _ out (vw_table _ _ _ _ _ _ Hvw) Hfo (vw_out _ _ _ _ _ _ Hvw) ltac:(lia)) as Hc.
  pose proof (joint_prep0 _ _ _ _ J) as Ho. rewrite Ho in Hc. destruct (pre.[p]) as [b|] eqn:E.
  - destruct Hc as (tb & Hc & Ht). apply lookupZ_Some_range in E.
    eapply (sv_goes_table (S_seek_first fs fo c) _ _ _ (S_seek_first fs fo b) own _ _ (Prep 0) _ 2 _ (sv_left (p + 1) 0 0 20)); [exact Hp|exact Hc|reflexivity|exact Ht|lia| |exact J|unfold sv_left; lia].
    constructor; [|lia]. split; [by apply (ts_kept _ _ _ _ _ _ _ Ht)|apply Ht].
  - pose proof (jn_sv _ _ _ _ _ J) as Hk. cbn in Hk. destruct (lookup_lt_is_Some_2 ts 0) as [t Ht0]; [lia|].
    eapply (sv_goes_same (S_seek_first fs fo c) _ _ (S_read fs fo c []) (Prep 0) _ _ (sv_left p 0 0 10)); [exact Hp|exact Hc|reflexivity| |exact J|unfold sv_left; lia].
    apply (so_read own (openf σ) fs fo c 0 [] t p); [done| |rewrite R_0; lia]. by split.
Qed.

Lemma push_ok V x : lenZ V < 10 -> push V x = Ok (V ++ [x]).
Proof. intros H. unfold push. by rewrite (proj2 (Z.ltb_lt _ _)) by lia. Qed.

Lemma sv_read fs fo c w V u p :
  at_point (S_read fs fo c V) -> ts !! w = Some (V ++ u) -> sv_files own (openf σ) fs fo (start ts w + lenZ V) p -> 0 <= p <= lenZ (R w) ->
  joint (Prep w) ψ s v out -> sv_goes 2 (sv_left p (start ts w + lenZ V) w 10).
Proof.
  intros Hp Hw Hf Hr J. pose proof (files_apart _ _ _ _ Hf) as Hne. destruct Hf as [Hfs Hfo].
  pose proof (lookup_lt_Some _ _ _ Hw) as Hlt. pose proof (len_R_T w ltac:(lia)) as HR. pose proof (start_nonneg ts w) as Hs0. pose proof (lenZ_nonneg V) as HV0.
  pose proof (token_at _ _ Hw) as [Hd Hl _]. rewrite lenZ_app in Hl. pose proof (lenZ_nonneg u) as Hu0. pose proof (after_le _ _ Hw) as Haf.
  pose proof (sys_Read_held σ own 1 fs _ _ _ F (vw_table _ _ _ _ _ _ Hvw) Hfs HF ltac:(lia)) as Hc.
  destruct u as [|b u].
  - rewrite app_nil_r in Hw, Haf. rewrite (line_stop _ _ _ Hw) in Hc. unfold after in Haf. destruct (Nat.eqb_spec (S w) k) as [Ek|Ek].
    + eapply (sv_goes_same (S_read fs fo c V) _ _ (S_wait fs fo c (V ++ [32]) true) (Prep w) _ _ (sv_left p (after w V) w 9)); [exact Hp|exact Hc| | |exact J|].
      * cbn. by rewrite push_ok by lia.
      * replace true with (S w =? k)%nat by (by apply Nat.eqb_eq). apply so_wait; [done| |done]. unfold after. rewrite (proj2 (Nat.eqb_eq _ _) Ek), Z.add_0_r. by split.
      * unfold sv_left, after. rewrite (proj2 (Nat.eqb_eq _ _) Ek). lia.
    + destruct Hc as (tb & Hc & Ht).
      eapply (sv_goes_table (S_read fs fo c V) _ _ _ (S_wait fs fo 32 (V ++ [32]) false) own _ _ (Prep w) _ 2 _ (sv_left p (after w V) w 9)); [exact Hp|exact Hc| |exact Ht|lia| |exact J|].
      * cbn. by rewrite push_ok by lia.
      * replace false with (S w =? k)%nat by (by apply Nat.eqb_neq). apply so_wait; [done| |done]. unfold after. rewrite (proj2 (Nat.eqb_neq _ _) Ek).
        split; [apply Ht|by apply (ts_kept _ _ _ _ _ _ _ Ht)].
      * unfold sv_left, after. rewrite (proj2 (Nat.eqb_neq _ _) Ek). lia.
  - assert (HC : F.[start ts w + lenZ V] = Some b).
    { rewrite (line_char _ _ _ _ Hw) by (rewrite lenZ_app, lenZ_cons; pose proof (lenZ_nonneg u); lia). rewrite lookupZ_app_r, Z.sub_diag by lia. done. }
    rewrite HC in Hc. destruct Hc as (tb & Hc & Ht). apply Forall_app in Hd as [_ [Hb _]%Forall_cons]. unfold is_digit in Hb.
    rewrite lenZ_cons in Hl. pose proof (start_le _ _ _ Hw) as Hle. rewrite lenZ_app, lenZ_cons in Hle. pose proof (lenZ_nonneg u).
    eapply (sv_goes_table (S_read fs fo c V) _ _ _ (S_read fs fo b (V ++ [b])) own _ _ (Prep w) _ 2 _ (sv_left p (start ts w + lenZ (V ++ [b])) w 10)); [exact Hp|exact Hc| |exact Ht|lia| |exact J|].
    + cbn. replace ((b =? 32) || (b =? 10)) with false by lia. by rewrite push_ok by lia.
    + apply so_read with (u := u); [by rewrite <- app_assoc| |done]. rewrite lenZ_app. change (lenZ [b]) with 1.
      split; [rewrite Z.add_assoc; apply Ht|by apply (ts_kept _ _ _ _ _ _ _ Ht)].
    + unfold sv_left. rewrite lenZ_app. change (lenZ [b]) with 1. lia.
Qed.

(** A call on a semaphore, or one that writes the output. *)
Lemma sv_goes_any p r bs σ1 p' φ s' v' out' n m m' :
  at_point p -> do_call σ (sinhvien_call p) = Some (Ok (r, bs, σ1)) -> sinhvien_next p r bs = Ok (Sinhvien p') ->
  let σ' := set_proc σ1 i (Some (Running (Sinhvien p'))) in
  view σ' own s' v' ms out' -> moved 1 n n σ σ' own own i (Running (Sinhvien p')) ->
  sv_ok own (openf σ1) (Running (Sinhvien p')) φ n m' -> joint φ ψ s' v' out' -> 0 <= m' < m -> sv_goes n m.
Proof.
  intros Hp Hc Hn σ' Vw Mv Hok J Hm.
  do 9 eexists. conjs; [exact (step_call _ _ (Sinhvien p) _ _ _ _ Hh Hp Hc Hn)|exact Vw|exact Mv|exact Hok|exact J|apply Hm..].
Qed.

Lemma sv_wait fs fo c w t p :
  at_point (S_wait fs fo c (t ++ [32]) (S w =? k)%nat) -> ts !! w = Some t -> sv_files own (openf σ) fs fo (after w t) p -> 0 <= p <= lenZ (R w) ->
  joint (Prep w) ψ s v out -> v <> 0 -> sv_goes 2 (sv_left p (after w t) w 9).
Proof.
  intros Hp Hw Hf Hr J Hv0. pose proof (sys_Wait_ok σ voinuoc_sem v (vw_v _ _ _ _ _ _ Hvw)) as Hc. rewrite (proj2 (Z.eqb_neq v 0)) in Hc by done.
  pose proof (lookup_lt_Some _ _ _ Hw). pose proof (len_R_T w ltac:(lia)). pose proof (after_le _ _ Hw).
  destruct (moved_sem σ own s v ms out 1 2 i (Running (Sinhvien (S_seek fs fo c (t ++ [32]) (S w =? k)%nat))) Hvw voinuoc_sem (v - 1)) as [Vw Mv].
  eapply (sv_goes_any _ _ _ _ _ (Hold w) _ _ _ _ _ (sv_left p (after w t) w 8) Hp Hc); [reflexivity|exact Vw|exact Mv| | |unfold sv_left; lia].
  - by apply so_seek.
  - by apply joint_sv_wait.
Qed.

Lemma sv_wait_blocked fs fo c w t :
  at_point (S_wait fs fo c (t ++ [32]) (S w =? k)%nat) -> v = 0 -> step σ i = None.
Proof.
  intros Hp Hv0. apply (step_waits _ _ _ Hp). cbn [call_of sinhvien_call]. rewrite (sys_Wait_ok σ voinuoc_sem v (vw_v _ _ _ _ _ _ Hvw)). by rewrite Hv0.
Qed.

Lemma sv_seek fs fo c w t p :
  at_point (S_seek fs fo c (t ++ [32]) (S w =? k)%nat) -> ts !! w = Some t -> sv_files own (openf σ) fs fo (after w t) p -> 0 <= p <= lenZ (R w) ->
  joint (Hold w) ψ s v out -> sv_goes 2 (sv_left p (after w t) w 8).
Proof.
  intros Hp Hw Hf Hr J. pose proof (files_apart _ _ _ _ Hf) as Hne. destruct Hf as [Hfs Hfo]. pose proof (lookup_lt_Some _ _ _ Hw).
  pose proof (len_R_T w ltac:(lia)). pose proof (after_le _ _ Hw).
  pose proof (sys_Read_held σ own 1 fo _ _ _ out (vw_table _ _ _ _ _ _ Hvw) Hfo (vw_out _ _ _ _ _ _ Hvw) ltac:(lia)) as Hc.
  pose proof (joint_hold _ _ _ _ _ J) as [Ho _]. rewrite Ho in Hc. destruct ((R w).[p]) as [b|] eqn:E.
  - destruct Hc as (tb & Hc & Ht). apply lookupZ_Some_range in E.
    eapply (sv_goes_table _ _ _ _ (S_seek fs fo b (t ++ [32]) (S w =? k)%nat) own _ _ (Hold w) _ 2 _ (sv_left (p + 1) (after w t) w 8)); [exact Hp|exact Hc|reflexivity|exact Ht|lia| |exact J|unfold sv_left; lia].
    apply so_seek; [done| |lia]. split; [by apply (ts_kept _ _ _ _ _ _ _ Ht)|apply Ht].
  - assert (Hpe : p = lenZ (R w)).
    { destruct (decide (p = lenZ (R w))); [done|]. destruct (lookupZ_range (R w) p ltac:(lia)) as [x Hx]. congruence. }
    eapply (sv_goes_same _ _ _ (S_write fs fo c (t ++ [32]) (S w =? k)%nat) (Hold w) _ _ (sv_left (lenZ (R w)) (after w t) w 7)); [exact Hp|exact Hc|reflexivity| |exact J|unfold sv_left; lia].
    apply so_write; [done|]. rewrite <- Hpe. by split.
Qed.

Lemma sv_write fs fo c w t :
  at_point (S_write fs fo c (t ++ [32]) (S w =? k)%nat) -> ts !! w = Some t -> sv_files own (openf σ) fs fo (after w t) (lenZ (R w)) ->
  joint (Hold w) ψ s v out -> ψ <> Start -> sv_goes 2 (sv_left (lenZ (R w)) (after w t) w 7).
Proof.
  intros Hp Hw Hf J Hst. pose proof (files_apart _ _ _ _ Hf) as Hne. destruct Hf as [Hfs Hfo]. pose proof (lookup_lt_Some _ _ _ Hw) as Hlt.
  pose proof (len_R_T (S w) ltac:(lia)) as HR. rewrite (len_R_S _ _ Hw) in HR. pose proof (lenZ_nonneg (R w)). pose proof (after_le _ _ Hw). pose proof (lenZ_nonneg t).
  pose proof (joint_hold _ _ _ _ _ J) as [Ho Hpsi]. assert (ψ = Idle w) as Hpsi' by (destruct Hpsi; done).
  destruct (sys_Write_end σ own 1 fo output_txt out (t ++ [32]) (vw_table _ _ _ _ _ _ Hvw)) as (tb & Hc & Ht).
  { by rewrite Ho. } { apply Hvw. } { rewrite lenZ_app. change (lenZ [32]) with 1. lia. }
  destruct (moved_write σ own s v ms out 1 2 i (Running (Sinhvien (S_signal fs fo c (S w =? k)%nat))) Hvw tb fo _ (out ++ t ++ [32]) Ht) as [Vw Mv].
  eapply (sv_goes_any _ _ _ _ _ (Wrote w) _ _ _ _ _ (sv_left (lenZ (R w) + lenZ t + 1) (after w t) w 6) Hp Hc); [|exact Vw|exact Mv| | |unfold sv_left; lia].
  - cbn. rewrite (proj2 (Z.eqb_neq _ (-1))); [done|]. rewrite lenZ_app. change (lenZ [32]) with 1. lia.
  - apply so_signal; [done|]. split; [by apply (ts_kept _ _ _ _ _ _ _ Ht)|]. destruct Ht as [_ Ht _ _]. rewrite Ho, lenZ_app in Ht. change (lenZ [32]) with 1 in Ht. by rewrite Z.add_assoc in Ht.
  - rewrite Hpsi' in J |- *. by apply joint_sv_write.
Qed.

Lemma sv_signal fs fo c w t :
  at_point (S_signal fs fo c (S w =? k)%nat) -> ts !! w = Some t -> sv_files own (openf σ) fs fo (after w t) (lenZ (R w) + lenZ t + 1) ->
  joint (Wrote w) ψ s v out -> sv_goes 2 (sv_left (lenZ (R w) + lenZ t + 1) (after w t) w 6).
Proof.
  intros Hp Hw Hf J. pose proof (sys_Signal_ok σ sinhvien_sem s (vw_s _ _ _ _ _ _ Hvw)) as Hc. pose proof (lookup_lt_Some _ _ _ Hw) as Hlt.
  pose proof (len_R_T (S w) ltac:(lia)) as HR. rewrite (len_R_S _ _ Hw) in HR. pose proof (lenZ_nonneg (R w)). pose proof (after_le _ _ Hw) as Haf. pose proof (lenZ_nonneg t).
  apply joint_sv_signal in J. destruct (Nat.eqb_spec (S w) k) as [Ek|Ek].
  - destruct (moved_sem σ own s v ms out 1 2 i (Running (Sinhvien (S_signal_last fs fo))) Hvw sinhvien_sem (s + 1)) as [Vw Mv].
    eapply (sv_goes_any _ _ _ _ _ Last _ _ _ _ _ 8 Hp Hc); [reflexivity|exact Vw|exact Mv| |exact J|unfold sv_left; lia]. by eapply so_last.
  - destruct (moved_sem σ own s v ms out 1 2 i (Running (Sinhvien (S_read fs fo c []))) Hvw sinhvien_sem (s + 1)) as [Vw Mv].
    destruct (lookup_lt_is_Some_2 ts (S w)) as [u Hu]; [lia|].
    assert (Hst : start ts (S w) + lenZ (@nil Z) = after w t) by (rewrite (start_S _ _ _ Hw); unfold after; rewrite (proj2 (Nat.eqb_neq _ _) Ek); change (lenZ (@nil Z)) with 0; lia).
    eapply (sv_goes_any _ _ _ _ _ (Prep (S w)) _ _ _ _ _ (sv_left (lenZ (R w) + lenZ t + 1) (start ts (S w) + lenZ (@nil Z)) (S w) 10) Hp Hc);
      [reflexivity|exact Vw|exact Mv| |exact J|rewrite Hst; unfold sv_left; lia].
    apply so_read with (u := u); [done|by rewrite Hst|]. rewrite (len_R_S _ _ Hw). lia.
Qed.

Lemma sv_last fs fo p q : at_point (S_signal_last fs fo) -> sv_files own (openf σ) fs fo q p -> joint Last ψ s v out -> sv_goes 2 8.
Proof.
  intros Hp Hf J. pose proof (sys_Signal_ok σ sinhvien_sem s (vw_s _ _ _ _ _ _ Hvw)) as Hc.
  destruct (moved_sem σ own s v ms out 1 2 i (Running (Sinhvien (S_close_sinhvien fs fo))) Hvw sinhvien_sem (s + 1)) as [Vw Mv].
  eapply (sv_goes_any _ _ _ _ _ Done _ _ _ _ _ 7 Hp Hc); [reflexivity|exact Vw|exact Mv| | |lia]; [by eapply so_close|by apply joint_sv_last].
Qed.

Lemma sv_close fs fo p q : at_point (S_close_sinhvien fs fo) -> sv_files own (openf σ) fs fo q p -> joint Done ψ s v out -> sv_goes 2 7.
Proof.
  intros Hp Hf J. pose proof (files_apart _ _ _ _ Hf) as Hne. destruct Hf as [Hfs Hfo].
  destruct (sys_Close_held σ own 1 fs _ _ _ (vw_table _ _ _ _ _ _ Hvw) Hfs) as (tb & Hc & Ht).
  eapply (sv_goes_table _ _ _ _ (S_close_output fo) own _ _ Done _ 2 _ 6); [exact Hp|exact Hc|reflexivity|exact Ht|lia| |exact J|lia].
  eapply so_close_out. by apply (ts_kept _ _ _ _ _ _ _ Ht).
Qed.

Lemma sv_close_out fo p : at_point (S_close_output fo) -> held own (openf σ) 1 fo (Opened output_txt p 0) -> joint Done ψ s v out -> sv_goes 2 6.
Proof.
  intros Hp Hfo J. destruct (sys_Close_held σ own 1 fo _ _ _ (vw_table _ _ _ _ _ _ Hvw) Hfo) as (tb & Hc & Ht).
  eapply (sv_goes_table _ _ _ _ S_exit own _ _ Done _ 2 _ 5); [exact Hp|exact Hc|reflexivity|exact Ht|lia|constructor|exact J|lia].
Qed.

Lemma sv_exit : at_point S_exit -> joint Done ψ s v out -> sv_goes 2 5.
Proof.
  intros Hp J. destruct (moved_only σ own s v ms out 1 2 i (Exited 0) Hvw) as [Vw Mv].
  do 9 eexists. conjs; [exact (step_exit _ _ _ _ Hh Hp eq_refl)|exact Vw|exact Mv|apply so_exited|exact J|lia..].
Qed.

(** Every step of [sinhvien]: it goes on, or it waits for its turn, or it has exited. *)
Lemma sv_steps P φ n m :
  (pcb σ).[i] = Some (Some P) -> sv_ok own (openf σ) P φ n m -> joint φ ψ s v out -> lenZ own + (2 - n) <= 15 ->
  (forall fs fo c V stop, P = Running (Sinhvien (S_write fs fo c V stop)) -> ψ <> Start) ->
  sv_goes n m \/ (step σ i = None /\ ((exists w, φ = Prep w) /\ v = 0 \/ P = Exited 0)).
Proof.
  intros Hp Hok J Hroom Hord. destruct Hok as [|fs|fs fo c p|fs fo c w V u p|fs fo c w t p|fs fo c w t p|fs fo c w t|fs fo c w t|fs fo p q|fs fo p q|fo p| |].
  - left. apply sv_open; [done|lia|done].
  - left. eapply sv_open_output; [done|done|lia|done].
  - left. by eapply sv_first.
  - left. by eapply sv_read.
  - destruct (decide (v = 0)) as [E|E]; [right; split; [by eapply sv_wait_blocked|by left; eauto]|left; by eapply sv_wait].
  - left. by eapply sv_seek.
  - left. eapply sv_write; [done..|]. by eapply Hord.
  - left. by eapply sv_signal.
  - left. by eapply sv_last.
  - left. by eapply sv_close.
  - left. by eapply sv_close_out.
  - left. by apply sv_exit.
  - right. split; [|by right]. unfold step. destruct (halted σ); [done|]. by rewrite Hp.
Qed.
End SvSteps.

(** *** The steps of [voinuoc] *)

Definition told (ψ : vn_phase) : Z := match ψ with Fin true => 1 | _ => 0 end.

Section VnSteps.
Context (σ : Sys) (own : list nat) (φ : sv_phase) (s v ms : Z) (out : list Z) (i : Z).
Hypothesis Hh : halted σ = None.
Hypothesis Hvw : view σ own s v ms out.

Definition vn_goes (ψ : vn_phase) (n m : Z) : Prop := exists σ' own' P ψ' s v ms' out n' m',
  step σ i = Some (Ok σ') /\ view σ' own' s v ms' out /\ moved 2 n n' σ σ' own own' i P /\
  vn_ok own' (openf σ') P ψ' n' m' /\ joint φ ψ' s v out /\ ms' - told ψ' = ms - told ψ /\ 0 <= m' < m.

Notation at_point p := ((pcb σ).[i] = Some (Some (Running (Voinuoc p)))).

Lemma vn_goes_table p r bs tb p' own' id d ψ ψ' n n' m m' :
  at_point p -> do_call σ (voinuoc_call p) = Some (Ok (r, bs, set_openf σ tb)) -> voinuoc_next p r bs = Voinuoc p' ->
  table_step own own' (openf σ) tb 2 id d -> lenZ own' + n = lenZ own + n' ->
  vn_ok own' tb (Running (Voinuoc p')) ψ' n' m' -> joint φ ψ' s v out -> told ψ' = told ψ -> 0 <= m' < m -> vn_goes ψ n m.
Proof.
  intros Hp Hc Hn Ht Hl Hok J Htl Hm. destruct (moved_table σ own s v ms out 2 n i (Running (Voinuoc p')) Hvw own' n' tb id d Ht Hl) as [Vw Mv].
  assert (Hn' : next (Voinuoc p) r bs = Ok (Voinuoc p')) by (cbn; by rewrite Hn).
  do 10 eexists. conjs; [exact (step_call _ _ (Voinuoc p) _ _ _ _ Hh Hp Hc Hn')|exact Vw|exact Mv|exact Hok|exact J|lia|apply Hm..].
Qed.

Lemma vn_goes_any p r bs σ1 p' ψ ψ' s' v' ms' out' n m m' :
  at_point p -> do_call σ (voinuoc_call p) = Some (Ok (r, bs, σ1)) -> voinuoc_next p r bs = Voinuoc p' ->
  let σ' := set_proc σ1 i (Some (Running (Voinuoc p'))) in
  view σ' own s' v' ms' out' -> moved 2 n n σ σ' own own i (Running (Voinuoc p')) ->
  vn_ok own (openf σ1) (Running (Voinuoc p')) ψ' n m' -> joint φ ψ' s' v' out' -> ms' - told ψ' = ms - told ψ -> 0 <= m' < m -> vn_goes ψ n m.
Proof.
  intros Hp Hc Hn σ' Vw Mv Hok J Htl Hm. assert (Hn' : next (Voinuoc p) r bs = Ok (Voinuoc p')) by (cbn; by rewrite Hn).
  do 10 eexists. conjs; [exact (step_call _ _ (Voinuoc p) _ _ _ _ Hh Hp Hc Hn')|exact Vw|exact Mv|exact Hok|exact J|lia|apply Hm..].
Qed.

Lemma vn_open : at_point V_open -> lenZ own < 15 -> joint φ Start s v out -> vn_goes Start 0 (vn_left 0 0 20).
Proof.
  intros Hp Hl J. destruct (sys_Open_new σ own 2 output_txt 0 out (vw_table _ _ _ _ _ _ Hvw) Hl (vw_out _ _ _ _ _ _ Hvw) ltac:(by left)) as (tb & Hc & Ht).
  pose proof (len_R_T 0 ltac:(lia)). pose proof (lenZ_nonneg own).
  eapply (vn_goes_table _ _ _ _ (V_seek (lenZ own)) (own ++ [2%nat]) _ _ _ Start _ 1 _ (vn_left 0 0 15)); [exact Hp|exact Hc| |exact Ht| | |exact J|done|unfold vn_left; lia].
  - cbn. by rewrite (proj2 (Z.eqb_neq _ (-1))) by lia.
  - rewrite lenZ_app. change (lenZ [2%nat]) with 1. lia.
  - constructor; [apply Ht|pose proof (lenZ_nonneg pre); lia].
Qed.

Lemma vn_seek fo p : at_point (V_seek fo) -> vn_file own (openf σ) fo p -> 0 <= p <= lenZ pre -> joint φ Start s v out -> vn_goes Start 1 (vn_left p 0 15).
Proof.
  intros Hp Hfo Hr J. pose proof (len_R_T 0 ltac:(lia)) as HR. rewrite R_0 in HR.
  pose proof (sys_Read_held σ own 2 fo _ _ _ out (vw_table _ _ _ _ _ _ Hvw) Hfo (vw_out _ _ _ _ _ _ Hvw) ltac:(lia)) as Hc.
  pose proof (joint_start _ _ _ _ J) as Ho. rewrite Ho in Hc. destruct (pre.[p]) as [b|] eqn:E.
  - destruct Hc as (tb & Hc & Ht). apply lookupZ_Some_range in E.
    eapply (vn_goes_table _ _ _ _ (V_seek fo) own _ _ _ Start _ 1 _ (vn_left (p + 1) 0 15)); [exact Hp|exact Hc|reflexivity|exact Ht|lia| |exact J|done|unfold vn_left; lia].
    constructor; [apply Ht|lia].
  - assert (Hpe : p = lenZ pre).
    { destruct (decide (p = lenZ pre)); [done|]. destruct (lookupZ_range pre p ltac:(lia)) as [x Hx]. congruence. }
    destruct (moved_only σ own s v ms out 2 1 i (Running (Voinuoc (V_wait fo 0 0))) Hvw) as [Vw Mv].
    eapply (vn_goes_any _ _ _ _ _ _ (Idle 0) _ _ _ _ _ _ (vn_left (lenZ (R 0)) 0 10) Hp Hc); [reflexivity|exact Vw|exact Mv| |by apply joint_vn_start|done|rewrite R_0; unfold vn_left; lia].
    constructor; [lia|unfold vn_file in *; by rewrite R_0, <- Hpe|done|unfold small; lia..].
Qed.

Lemma vn_wait fo v1 v2 j :
  at_point (V_wait fo v1 v2) -> (j <= k)%nat -> vn_file own (openf σ) fo (lenZ (R j)) -> left_over (times ts j) v1 v2 -> small v1 -> small v2 ->
  joint φ (Idle j) s v out -> s <> 0 -> vn_goes (Idle j) 1 (vn_left (lenZ (R j)) j 10).
Proof.
  intros Hp Hj Hfo Hlo Hs1 Hs2 J Hs0. pose proof (sys_Wait_ok σ sinhvien_sem s (vw_s _ _ _ _ _ _ Hvw)) as Hc. rewrite (proj2 (Z.eqb_neq s 0)) in Hc by done.
  pose proof (len_R_T j ltac:(lia)) as HR. destruct (moved_sem σ own s v ms out 2 1 i (Running (Voinuoc (V_read fo v1 v2 0 48))) Hvw sinhvien_sem (s - 1)) as [Vw Mv].
  eapply (vn_goes_any _ _ _ _ _ _ (Reading j) _ _ _ _ _ _ (vn_left (lenZ (R j) + lenZ (@nil Z)) j 9) Hp Hc); [reflexivity|exact Vw|exact Mv| |by apply joint_vn_wait|done|].
  - apply (vo_read own (openf σ) fo v1 v2 48 j [] (default [] (ts !! j))); try done. change (lenZ []) with 0. by rewrite Z.add_0_r.
  - change (lenZ (@nil Z)) with 0. unfold vn_left. lia.
Qed.

Lemma vn_wait_blocked fo v1 v2 : at_point (V_wait fo v1 v2) -> s = 0 -> step σ i = None.
Proof.
  intros Hp Hs0. apply (step_waits _ _ _ Hp). cbn [call_of voinuoc_call]. rewrite (sys_Wait_ok σ sinhvien_sem s (vw_s _ _ _ _ _ _ Hvw)). by rewrite Hs0.
Qed.

(** Reading a volume that is there, up to the blank behind it. *)
Lemma vn_read_volume fo v1 v2 c j t ds u :
  at_point (V_read fo v1 v2 (digits_value ds) c) -> ts !! j = Some t -> t = ds ++ u -> vn_file own (openf σ) fo (lenZ (R j) + lenZ ds) ->
  left_over (times ts j) v1 v2 -> small v1 -> small v2 -> joint φ (Reading j) s v out -> vn_goes (Reading j) 1 (vn_left (lenZ (R j) + lenZ ds) j 9).
Proof.
  intros Hp Hj -> Hfo Hlo Hs1 Hs2 J. pose proof (lookup_lt_Some _ _ _ Hj) as Hlt. pose proof (len_R_T (S j) ltac:(lia)) as HR. rewrite (len_R_S _ _ Hj), lenZ_app in HR.
  pose proof (lenZ_nonneg (R j)). pose proof (lenZ_nonneg ds). pose proof (lenZ_nonneg u). pose proof (token_at _ _ Hj) as Htk. pose proof (tk_digits _ Htk) as Hd.
  pose proof (sys_Read_held σ own 2 fo _ _ _ out (vw_table _ _ _ _ _ _ Hvw) Hfo (vw_out _ _ _ _ _ _ Hvw) ltac:(lia)) as Hc.
  pose proof (joint_reading _ _ _ _ _ _ _ J (or_introl eq_refl) Hj) as [Ho _].
  assert (Hch : out.[lenZ (R j) + lenZ ds] = Some (match u with b :: _ => b | [] => 32 end)).
  { rewrite Ho, lookupZ_app_r by lia. replace (lenZ (R j) + lenZ ds - lenZ (R j)) with (lenZ ds) by lia. rewrite <- app_assoc, lookupZ_app_r, Z.sub_diag by lia.
    by destruct u. }
  rewrite Hch in Hc. destruct Hc as (tb & Hc & Ht). destruct u as [|b u].
  - rewrite app_nil_r in *. pose proof (tk_value _ Htk) as Hne.
    eapply (vn_goes_table _ _ _ _ (if v1 =? 0 then V_write_1 fo v1 v2 (digits_value ds) else V_write_2 fo v1 v2 (digits_value ds)) own _ _ _ (Pouring j) _ 1 _
      (vn_left (lenZ (R j) + lenZ ds + 1) j 9)); [exact Hp|exact Hc| |exact Ht|lia| |by apply joint_vn_pour|done|change (lenZ (@nil Z)) with 0 in *; unfold vn_left; lia].
    + cbn. unfold choose_tap. rewrite (proj2 (Z.eqb_neq (digits_value ds) 0)) by done. by destruct (v1 =? 0).
    + apply vo_pour; try done. apply Ht.
  - apply Forall_app in Hd as [_ [Hb _]%Forall_cons]. rewrite lenZ_cons in HR. pose proof (lenZ_nonneg u).
    assert (Hv : 0 <= digits_value (ds ++ [b]) <= 999999999) by (apply (token_value _ _ Htk); exists u; by rewrite <- app_assoc).
    assert (Ha : add_digit (digits_value ds) b = digits_value (ds ++ [b])).
    { rewrite digits_value_snoc in *. unfold add_digit. rewrite wrap_s32_id; [lia|unfold_int32; lia]. }
    eapply (vn_goes_table _ _ _ _ (V_read fo v1 v2 (digits_value (ds ++ [b])) b) own _ _ _ (Reading j) _ 1 _ (vn_left (lenZ (R j) + lenZ (ds ++ [b])) j 9));
      [exact Hp|exact Hc| |exact Ht|lia| |exact J|done|rewrite lenZ_app; change (lenZ [b]) with 1; unfold vn_left; lia].
    + cbn. by rewrite Hb, Ha.
    + apply vo_read with (u := u); try done; [lia|by rewrite Hj, <- app_assoc|]. rewrite lenZ_app. change (lenZ [b]) with 1. rewrite Z.add_assoc. apply Ht.
Qed.

(** At the end of the line there is nothing to read. *)
Lemma vn_read_end fo v1 v2 c :
  at_point (V_read fo v1 v2 (digits_value []) c) -> vn_file own (openf σ) fo (lenZ (R k)) -> joint φ (Reading k) s v out ->
  vn_goes (Reading k) 1 (vn_left (lenZ (R k)) k 9).
Proof.
  intros Hp Hfo J. pose proof (len_R_T k ltac:(lia)) as HR.
  pose proof (sys_Read_held σ own 2 fo _ _ _ out (vw_table _ _ _ _ _ _ Hvw) Hfo (vw_out _ _ _ _ _ _ Hvw) ltac:(lia)) as Hc.
  pose proof (joint_reading_end _ _ _ _ J) as [Ho _]. rewrite Ho, lookupZ_None in Hc by lia.
  destruct (moved_only σ own s v ms out 2 1 i (Running (Voinuoc (V_newline fo))) Hvw) as [Vw Mv].
  eapply (vn_goes_any _ _ _ _ _ _ Ending _ _ _ _ _ _ 8 Hp Hc); [reflexivity|exact Vw|exact Mv|by constructor|by apply joint_vn_end|done|unfold vn_left; lia].
Qed.

Lemma vn_pour fo v1 v2 j t :
  at_point (if v1 =? 0 then V_write_1 fo v1 v2 (digits_value t) else V_write_2 fo v1 v2 (digits_value t)) -> ts !! j = Some t ->
  vn_file own (openf σ) fo (lenZ (R j) + lenZ t + 1) -> left_over (times ts j) v1 v2 -> small v1 -> small v2 ->
  joint φ (Pouring j) s v out -> vn_goes (Pouring j) 1 (vn_left (lenZ (R j) + lenZ t + 1) j 9).
Proof.
  intros Hp Hj Hfo Hlo Hs1 Hs2 J. pose proof (lookup_lt_Some _ _ _ Hj) as Hlt. pose proof (len_R_T (S j) ltac:(lia)) as HR. pose proof (len_R_S _ _ Hj) as HlS.
  pose proof (lenZ_nonneg t). pose proof (token_at _ _ Hj) as Htk. pose proof (token_value t t Htk ltac:(by exists []; rewrite app_nil_r)) as HV. pose proof (tk_value _ Htk) as HV0.
  destruct (joint_reading _ _ _ _ _ _ _ J (or_intror eq_refl) Hj) as [Ho _].
  assert (Hpos : lenZ (R j) + lenZ t + 1 = lenZ out) by (rewrite Ho, !lenZ_app; change (lenZ [32]) with 1; lia).
  set (V := digits_value t) in *. set (v1' := if v1 =? 0 then if v2 <? V then V - v2 else v1 else if v1 <? V then 0 else v1 - V).
  set (v2' := if v1 =? 0 then if v2 <? V then 0 else v2 - V else if v1 <? V then V - v1 else v2).
  pose proof (left_over_serve _ _ _ V Hlo ltac:(lia)) as Hlo'. fold v1' v2' in Hlo'. assert (Hts : times ts (S j) = serve (times ts j) V) by (by apply times_S). rewrite <- Hts in Hlo'.
  assert (Hs1' : small v1') by (unfold v1', small in *; destruct (v1 =? 0), (v2 <? V) eqn:?, (v1 <? V) eqn:?; lia).
  assert (Hs2' : small v2') by (unfold v2', small in *; destruct (v1 =? 0), (v2 <? V) eqn:?, (v1 <? V) eqn:?; lia).
  pose proof (left_over_tap _ _ _ Hlo) as Htap. unfold vn_file in Hfo. rewrite Hpos in Hfo |- *.
  destruct (sys_Write_end σ own 2 fo output_txt out [48 + tap (times ts j); 32] (vw_table _ _ _ _ _ _ Hvw) Hfo (vw_out _ _ _ _ _ _ Hvw) ltac:(done)) as (tb & Hc & Ht).
  destruct (moved_write σ own s v ms out 2 1 i (Running (Voinuoc (V_signal fo v1' v2'))) Hvw tb fo _ (out ++ [48 + tap (times ts j); 32]) Ht) as [Vw Mv].
  assert (HlR : lenZ out + 2 = lenZ (R (S j))) by lia.
  match type of Hc with _ = ?a =>
    assert (Hc' : do_call σ (voinuoc_call (if v1 =? 0 then V_write_1 fo v1 v2 V else V_write_2 fo v1 v2 V)) = a) by (rewrite <- Hc, Htap; by destruct (v1 =? 0)) end.
  eapply (vn_goes_any _ _ _ _ _ _ (Marked j) _ _ _ _ _ _ (vn_left (lenZ (R (S j))) j 9) Hp Hc'); [|exact Vw|exact Mv| |by eapply joint_vn_mark|done|unfold vn_left; lia].
  - change (lenZ [48 + tap (times ts j); 32]) with 2. unfold v1', v2', small in *. destruct (v1 =? 0); cbn; [destruct (v2 <? V) eqn:?|destruct (v1 <? V) eqn:?];
      rewrite ?wrap_s32_id by (unfold_int32; lia); done.
  - apply vo_signal; try done. rewrite <- HlR. apply Ht.
Qed.

Lemma vn_signal fo v1 v2 j :
  at_point (V_signal fo v1 v2) -> (j < k)%nat -> vn_file own (openf σ) fo (lenZ (R (S j))) -> left_over (times ts (S j)) v1 v2 -> small v1 -> small v2 ->
  joint φ (Marked j) s v out -> vn_goes (Marked j) 1 (vn_left (lenZ (R (S j))) j 9).
Proof.
  intros Hp Hj Hfo Hlo Hs1 Hs2 J. pose proof (sys_Signal_ok σ voinuoc_sem v (vw_v _ _ _ _ _ _ Hvw)) as Hc. pose proof (len_R_T (S j) ltac:(lia)) as HR.
  destruct (moved_sem σ own s v ms out 2 1 i (Running (Voinuoc (V_wait fo v1 v2))) Hvw voinuoc_sem (v + 1)) as [Vw Mv].
  eapply (vn_goes_any _ _ _ _ _ _ (Idle (S j)) _ _ _ _ _ _ (vn_left (lenZ (R (S j))) (S j) 10) Hp Hc); [reflexivity|exact Vw|exact Mv| |by apply joint_vn_signal|done|unfold vn_left; lia].
  apply vo_wait; try done.
Qed.

Lemma vn_newline fo : at_point (V_newline fo) -> vn_file own (openf σ) fo (lenZ (R k)) -> joint φ Ending s v out -> vn_goes Ending 1 8.
Proof.
  intros Hp Hfo J. destruct (joint_vn_newline _ _ _ _ J) as [Ho J']. unfold vn_file in Hfo. rewrite <- Ho in Hfo.
  destruct (sys_Write_end σ own 2 fo output_txt out [10] (vw_table _ _ _ _ _ _ Hvw) Hfo (vw_out _ _ _ _ _ _ Hvw) ltac:(done)) as (tb & Hc & Ht).
  destruct (moved_write σ own s v ms out 2 1 i (Running (Voinuoc (V_signal_main fo))) Hvw tb fo _ (out ++ [10]) Ht) as [Vw Mv].
  eapply (vn_goes_any _ _ _ _ _ _ (Fin false) _ _ _ _ _ _ 7 Hp Hc); [reflexivity|exact Vw|exact Mv| |exact J'|done|lia]. eapply vo_tell. apply Ht.
Qed.

Lemma vn_tell fo p : at_point (V_signal_main fo) -> vn_file own (openf σ) fo p -> joint φ (Fin false) s v out -> vn_goes (Fin false) 1 7.
Proof.
  intros Hp Hfo J. pose proof (sys_Signal_ok σ main_txt ms (vw_m _ _ _ _ _ _ Hvw)) as Hc.
  destruct (moved_sem σ own s v ms out 2 1 i (Running (Voinuoc (V_close fo))) Hvw main_txt (ms + 1)) as [Vw Mv].
  eapply (vn_goes_any _ _ _ _ _ _ (Fin true) _ _ _ _ _ _ 6 Hp Hc); [reflexivity|exact Vw|exact Mv|by eapply vo_close|by apply joint_vn_told|cbn; lia|lia].
Qed.

Lemma vn_close fo p : at_point (V_close fo) -> vn_file own (openf σ) fo p -> joint φ (Fin true) s v out -> vn_goes (Fin true) 1 6.
Proof.
  intros Hp Hfo J. destruct (sys_Close_held σ own 2 fo _ _ _ (vw_table _ _ _ _ _ _ Hvw) Hfo) as (tb & Hc & Ht).
  eapply (vn_goes_table _ _ _ _ V_exit own _ _ _ (Fin true) _ 1 _ 5); [exact Hp|exact Hc|reflexivity|exact Ht|lia|constructor|exact J|done|lia].
Qed.

Lemma vn_exit : at_point V_exit -> joint φ (Fin true) s v out -> vn_goes (Fin true) 1 5.
Proof.
  intros Hp J. destruct (moved_only σ own s v ms out 2 1 i (Exited 0) Hvw) as [Vw Mv].
  do 10 eexists. conjs; [exact (step_exit _ _ _ _ Hh Hp eq_refl)|exact Vw|exact Mv|apply vo_exited|exact J|lia..].
Qed.

(** Every step of [voinuoc]: it goes on, or it waits for a volume, or it has exited. *)
Lemma vn_steps P ψ n m :
  (pcb σ).[i] = Some (Some P) -> vn_ok own (openf σ) P ψ n m -> joint φ ψ s v out -> lenZ own + (1 - n) <= 15 ->
  vn_goes ψ n m \/ (step σ i = None /\ ((exists j, ψ = Idle j) /\ s = 0 \/ P = Exited 0)).
Proof.
  intros Hp Hok J Hroom. destruct Hok as [|fo p|fo v1 v2 j|fo v1 v2 c j ds u|fo v1 v2 j t|fo v1 v2 j|fo|fo p|fo p| |].
  - left. apply vn_open; [done|lia|done].
  - left. by eapply vn_seek.
  - destruct (decide (s = 0)) as [E|E]; [right; split; [by eapply vn_wait_blocked|by left; eauto]|left; by eapply vn_wait].
  - left. destruct (ts !! j) as [t|] eqn:E.
    + by eapply vn_read_volume.
    + assert (ds = [] /\ j = k) as [-> ->]; [|change (lenZ (@nil Z)) with 0 in *; rewrite Z.add_0_r in *; by eapply vn_read_end].
      apply lookup_ge_None in E. split; [by destruct ds|lia].
  - left. by eapply vn_pour.
  - left. by eapply vn_signal.
  - left. by eapply vn_newline.
  - left. by eapply vn_tell.
  - left. by eapply vn_close.
  - left. by apply vn_exit.
  - right. split; [|by right]. unfold step. destruct (halted σ); [done|]. by rewrite Hp.
Qed.
End VnSteps.
End Line.
