(* ===== verification/TapsRun.v ===== *)
(** * The two taps: the whole run

    [main] around the two programs of [TapsOk]: it reads the number of lines, copies each
    line to sinhvien.txt, starts the two programs and joins them.  [working] is the state
    while a line is served, [booting] before the first and [ending] behind the last.  Every
    step that keeps the order leads from such a state to one with fewer steps left. *)

From Stdlib Require Import Ascii String.
From stdpp Require Import strings.
From S2P Require Import Prelude Int32 ConsoleCalls Taps TapsOk.

(** ** The order of steps *)

(** [voinuoc] listens once it has gone to the end of output.txt. *)
Definition listening (P : option Process) : bool :=
  match P with
  | Some (Running (Voinuoc V_open)) | Some (Running (Voinuoc (V_seek _))) => false
  | Some (Running (Voinuoc _)) => true
  | _ => false
  end.
Definition writing (P : option Process) : bool :=
  match P with Some (Running (Sinhvien (S_write _ _ _ _ _))) => true | _ => false end.

(** [sinhvien] writes only when [voinuoc] listens. *)
Definition in_order (σ : Sys) (i : Z) : bool :=
  match (pcb σ).[i] with Some P => if writing P then existsb listening (pcb σ) else true | None => true end.
Definition step_in_order (σ σ' : Sys) : Prop := exists i, in_order σ i = true /\ step σ i = Some (Ok σ').

(** ** The whole table *)

Definition is_some {A} (o : option A) : bool := match o with Some _ => true | None => false end.
Fixpoint count {A} (f : A -> bool) (l : list A) : Z := match l with [] => 0 | x :: l => (if f x then 1 else 0) + count f l end.

Lemma tally_insert {A} (f : A -> bool) l i x y :
  l.[i] = Some x -> count f (l.[i <- y]) = count f l - (if f x then 1 else 0) + (if f y then 1 else 0).
Proof.
  unfold lookupZ, insertZ. destruct (i <? 0); [done|]. generalize (Z.to_nat i) as j. induction l as [|z l IH]; intros j Hj; [done|].
  destruct j as [|j]; cbn in Hj.
  - injection Hj as ->. change (<[0%nat := y]> (x :: l)) with (y :: l). cbn [count]. destruct (f x), (f y); lia.
  - change (<[S j := y]> (z :: l)) with (z :: <[j := y]> l). cbn [count]. rewrite (IH j Hj). destruct (f z), (f x), (f y); lia.
Qed.

Lemma first_from_free {A} (l : list (option A)) i :
  count is_some l < lenZ l -> exists j, first_from is_none i l = Some j /\ i <= j < i + lenZ l /\ l.[j - i] = Some None.
Proof.
  revert i. induction l as [|x l IH]; intros i Hc; [change (lenZ []) with 0 in Hc; cbn in Hc; lia|]. cbn [first_from count] in *. rewrite lenZ_cons in *.
  pose proof (lenZ_nonneg l). destruct x as [x|]; cbn [is_none is_some] in *.
  - destruct (IH (i + 1) ltac:(lia)) as (j & E & Hr & Hn). exists j. conjs; [done|lia|lia|]. rewrite lookupZ_cons.
    rewrite (proj2 (Z.eqb_neq _ 0)), (proj2 (Z.ltb_ge _ 0)) by lia. by replace (j - i - 1) with (j - (i + 1)) by lia.
  - exists i. conjs; [done|lia|lia|]. by rewrite Z.sub_diag.
Qed.

Inductive kid := NotYet | At (i : Z) | Gone.
#[export] Instance kid_eq_dec : EqDecision kid.
Proof. solve_decision. Defined.
Definition kid_counts (κ : kid) : Z := match κ with NotYet => 0 | _ => 1 end.


Section Table.
Context (nds : list Z) (lines : list (list (list Z))) (rest : list Z).
Notation n := (Z.of_nat (length lines)).

(** The input: the number of lines, and the lines. *)
Definition input_text : list Z := nds ++ [10] ++ concat ((fun l => line_text l ++ [10]) <$> lines) ++ rest.
(** The output for the first [l] lines. *)
Definition out_upto (l : nat) : list Z := concat (served <$> take l lines).
(** Where line [l] starts. *)
Definition istart (l : nat) : Z := lenZ nds + 1 + lenZ (concat ((fun l => line_text l ++ [10]) <$> take l lines)).

Hypothesis Hnds : Forall (fun b => is_digit b = true) nds.
Hypothesis Hnl : lenZ nds <= 9.
Hypothesis Hnum : digits_value nds = n.
Hypothesis Hlines : Forall (fun ts => ts <> [] /\ Forall token ts) lines.

Notation T := (lenZ (out_upto (length lines))).
Notation LI := (lenZ input_text).
Definition W : Z := 2 * T + 13 * LI + 80.

Lemma istart_S l ts : lines !! l = Some ts -> istart (S l) = istart l + lenZ (line_text ts) + 1.
Proof.
  intros Hl. unfold istart. rewrite (take_S_r _ _ _ Hl), fmap_app, concat_app, lenZ_app. cbn [fmap list_fmap concat]. rewrite app_nil_r, lenZ_app.
  change (lenZ [10]) with 1. lia.
Qed.

Lemma input_at l ts :
  lines !! l = Some ts -> exists a b, input_text = a ++ line_text ts ++ [10] ++ b /\ lenZ a = istart l.
Proof.
  intros Hl. exists (nds ++ [10] ++ concat ((fun l => line_text l ++ [10]) <$> take l lines)), (concat ((fun l => line_text l ++ [10]) <$> drop (S l) lines) ++ rest). split.
  - unfold input_text. rewrite <- (take_drop_middle _ _ _ Hl) at 1. rewrite fmap_app, concat_app. cbn [fmap list_fmap concat]. by rewrite <- !app_assoc.
  - unfold istart. rewrite !lenZ_app. change (lenZ [10]) with 1. lia.
Qed.

Lemma input_char l ts i : lines !! l = Some ts -> 0 <= i < lenZ (line_text ts) -> input_text.[istart l + i] = (line_text ts).[i].
Proof.
  intros Hl Hi. destruct (input_at _ _ Hl) as (a & b & -> & <-). rewrite lookupZ_app_r by lia. rewrite lookupZ_app_l by lia. f_equal. lia.
Qed.
Lemma input_newline l ts : lines !! l = Some ts -> input_text.[istart l + lenZ (line_text ts)] = Some 10.
Proof.
  intros Hl. pose proof (lenZ_nonneg (line_text ts)). destruct (input_at _ _ Hl) as (a & b & -> & <-). rewrite !lookupZ_app_r by lia.
  match goal with |- context [([10] ++ b).[?x]] => replace x with 0 by lia end. done.
Qed.
Lemma istart_le l ts : lines !! l = Some ts -> 0 <= istart l /\ istart l + lenZ (line_text ts) + 1 <= LI.
Proof.
  intros Hl. split; [unfold istart; pose proof (lenZ_nonneg nds); match goal with |- context [lenZ (concat ?x)] => pose proof (lenZ_nonneg (concat x)) end; lia|].
  destruct (input_at _ _ Hl) as (a & b & -> & <-). rewrite !lenZ_app. change (lenZ [10]) with 1. pose proof (lenZ_nonneg b). lia.
Qed.

Lemma out_upto_S l ts : lines !! l = Some ts -> out_upto (S l) = R (out_upto l) ts (length ts) ++ [10].
Proof.
  intros Hl. unfold out_upto, R, served. rewrite (take_S_r _ _ _ Hl), fmap_app, concat_app. cbn [fmap list_fmap concat].
  rewrite app_nil_r, (take_ge (entries _ _)) by by rewrite length_entries. by rewrite app_assoc.
Qed.
Lemma out_upto_mono a b : (a <= b)%nat -> lenZ (out_upto a) <= lenZ (out_upto b).
Proof.
  intros Hab. induction Hab as [|b Hab IH]; [done|]. destruct (lines !! b) as [ts|] eqn:E.
  - transitivity (lenZ (out_upto b)); [done|]. unfold out_upto. rewrite (take_S_r _ _ _ E), fmap_app, concat_app, lenZ_app.
    match goal with |- context [lenZ _ + lenZ ?x] => pose proof (lenZ_nonneg x) end. lia.
  - apply lookup_ge_None in E. unfold out_upto in *. rewrite (take_ge lines (S b)), (take_ge lines b) in * by lia. done.
Qed.
Lemma line_bound l ts : lines !! l = Some ts -> lenZ (R (out_upto l) ts (length ts)) + 1 <= T.
Proof.
  intros Hl. pose proof (out_upto_mono (S l) (length lines) ltac:(apply lookup_lt_Some in Hl; lia)) as Hm. rewrite (out_upto_S _ _ Hl), lenZ_app in Hm.
  change (lenZ [10]) with 1 in Hm. lia.
Qed.

(** *** While a line is served *)

Section Served.
Context (l : nat) (ts : list (list Z)).
Notation F := (line_text ts).
Notation pre := (out_upto l).
Notation left := (n - Z.of_nat l - 1).

Definition input_held (own : list nat) (tb : list slot) (fi q : Z) : Prop := held own tb 0 fi (Opened input_txt q 1).
Definition copy_held (own : list nat) (tb : list slot) (fs q : Z) : Prop := held own tb 0 fs (Opened sinhvien_txt q 0).

(** [main] at a point: its children, whether it has passed its Wait, the files it has opened
    for this line, what sinhvien.txt must hold and the steps it has left. *)
Inductive main_ok (own : list nat) (tb : list slot) : main_point -> kid -> kid -> bool -> Z -> option (list Z) -> Z -> Prop :=
| mo_create fi c : input_held own tb fi (istart l) ->
    main_ok own tb (M_create_sinhvien fi left c) NotYet NotYet false 0 None (2 * (LI - istart l) + 24)
| mo_open fi c : input_held own tb fi (istart l) ->
    main_ok own tb (M_open_sinhvien fi left c) NotYet NotYet false 0 (Some []) (2 * (LI - istart l) + 23)
| mo_wait fi fs c : input_held own tb fi (istart l) -> copy_held own tb fs 0 ->
    main_ok own tb (M_wait fi fs left c) NotYet NotYet false 1 (Some []) (2 * (LI - istart l) + 22)
| mo_read fi fs c i : input_held own tb fi (istart l + i) -> copy_held own tb fs i -> 0 <= i <= lenZ F ->
    main_ok own tb (M_read_line fi fs left c) NotYet NotYet true 1 (Some (slice F 0 i)) (2 * (LI - (istart l + i)) + 20)
| mo_write fi fs c i : input_held own tb fi (istart l + (i + 1)) -> copy_held own tb fs i -> F.[i] = Some c ->
    main_ok own tb (M_write_char fi fs left c) NotYet NotYet true 1 (Some (slice F 0 i)) (2 * (LI - (istart l + (i + 1))) + 21)
| mo_close fi fs c q : input_held own tb fi (istart (S l)) -> copy_held own tb fs q ->
    main_ok own tb (M_close_sinhvien fi fs left c) NotYet NotYet true 1 (Some F) 19
| mo_exec_sv fi c : input_held own tb fi (istart (S l)) -> main_ok own tb (M_exec_sinhvien fi left c) NotYet NotYet true 1 (Some F) 12
| mo_exec_vn fi c i : input_held own tb fi (istart (S l)) -> main_ok own tb (M_exec_voinuoc fi left c i) (At i) NotYet true 1 (Some F) 10
| mo_join_sv fi c i j : input_held own tb fi (istart (S l)) -> main_ok own tb (M_join_sinhvien fi left c i j) (At i) (At j) true 1 (Some F) 8
| mo_join_vn fi c j : input_held own tb fi (istart (S l)) -> main_ok own tb (M_join_voinuoc fi left c j) Gone (At j) true 1 (Some F) 6.

Definition sv_kid (κ : kid) (own : list nat) (σ : Sys) (φ : sv_phase) (o m : Z) : Prop :=
  match κ with
  | NotYet => φ = Prep 0 /\ o = 0 /\ m = sv_left ts T 0 0 0 31
  | At i => i <> 0 /\ exists P, (pcb σ).[i] = Some (Some P) /\ sv_ok pre ts T own (openf σ) P φ o m
  | Gone => φ = Done /\ o = 2 /\ m = 0
  end.
Definition vn_kid (κ : kid) (own : list nat) (σ : Sys) (ψ : vn_phase) (o m : Z) : Prop :=
  match κ with
  | NotYet => ψ = Start /\ o = 0 /\ m = vn_left ts T 0 0 21
  | At i => i <> 0 /\ exists P, (pcb σ).[i] = Some (Some P) /\ vn_ok pre ts T own (openf σ) P ψ o m
  | Gone => False
  end.

(** The table of processes: beside [main] and its two children there are only processes
    that have ended. *)
Record procs_ok (σ : Sys) (κs κv : kid) : Prop := {
  pr_length : lenZ (pcb σ) = 10;
  pr_others : forall i P, (pcb σ).[i] = Some (Some P) -> i <> 0 -> κs <> At i -> κv <> At i -> P = Joined;
  pr_count : count is_some (pcb σ) <= 1 + 2 * Z.of_nat l + kid_counts κs + kid_counts κv;
  pr_apart : forall i, κs = At i -> κv <> At i }.

Record working (σ : Sys) (p : main_point) (κs κv : kid) (own : list nat) (φ : sv_phase) (ψ : vn_phase) (s v : Z) (out : list Z)
    (b : bool) (om os ov mm ms mv : Z) (X : option (list Z)) : Prop := {
  wk_main : (pcb σ).[0] = Some (Some (Running (Main p)));
  wk_view : view σ own s v (1 - (if b then 1 else 0) + told ψ) out;
  wk_point : main_ok own (openf σ) p κs κv b om X mm;
  wk_sv : sv_kid κs own σ φ os ms;
  wk_vn : vn_kid κv own σ ψ ov mv;
  wk_joint : joint pre ts φ ψ s v out;
  wk_own : lenZ own = 3 + 4 * Z.of_nat l + om + os + ov;
  wk_input : files σ !! input_txt = Some input_text;
  wk_copy : match X with Some x => files σ !! sinhvien_txt = Some x | None => True end;
  wk_procs : procs_ok σ κs κv;
  wk_screen : screen σ = [];
  wk_pos : 0 <= mm /\ 0 <= ms /\ 0 <= mv }.

(** The steps that are left, at most. *)
Definition total (mm ms mv : Z) : Z := left * W + mm + ms + mv.

Lemma main_ok_kept own tb own' tb' p κs κv b om X m :
  (forall j d, held own tb 0 j d -> held own' tb' 0 j d) -> main_ok own tb p κs κv b om X m -> main_ok own' tb' p κs κv b om X m.
Proof. intros Hk Hok. unfold input_held, copy_held in *. destruct Hok; econstructor; unfold input_held, copy_held in *; eauto. Qed.

Lemma main_opens own tb p κs κv b om X m : main_ok own tb p κs κv b om X m -> 0 <= om <= 1.
Proof. intros Hok. destruct Hok; lia. Qed.

Lemma procs_set σ σ' κs κv i P Q :
  procs_ok σ κs κv -> (pcb σ).[i] = Some (Some P) -> pcb σ' = (pcb σ).[i <- Some Q] -> i = 0 \/ κs = At i \/ κv = At i -> procs_ok σ' κs κv.
Proof.
  intros [H1 H2 H3 H4] Hi E Hm. split; rewrite ?E; [by rewrite lenZ_insertZ| |by rewrite (tally_insert _ _ _ _ _ Hi); cbn; lia|done].
  intros j P' Hj ? ? ?. rewrite lookupZ_insertZ_ne in Hj by naive_solver. by eapply H2.
Qed.

Lemma sv_kid_kept κ own own' σ σ' φ o m :
  sv_kid κ own σ φ o m -> (forall j d, held own (openf σ) 1 j d -> held own' (openf σ') 1 j d) ->
  (forall i, κ = At i -> (pcb σ').[i] = (pcb σ).[i]) -> sv_kid κ own' σ' φ o m.
Proof.
  intros Hk Hh Hp. destruct κ as [|i|]; [done| |done]. destruct Hk as (Hi & P & HP & Hok). split; [done|]. exists P. rewrite (Hp i eq_refl). split; [done|].
  by eapply sv_ok_kept.
Qed.
Lemma vn_kid_kept κ own own' σ σ' ψ o m :
  vn_kid κ own σ ψ o m -> (forall j d, held own (openf σ) 2 j d -> held own' (openf σ') 2 j d) ->
  (forall i, κ = At i -> (pcb σ').[i] = (pcb σ).[i]) -> vn_kid κ own' σ' ψ o m.
Proof.
  intros Hk Hh Hp. destruct κ as [|i|]; [done| |done]. destruct Hk as (Hi & P & HP & Hok). split; [done|]. exists P. rewrite (Hp i eq_refl). split; [done|].
  by eapply vn_ok_kept.
Qed.

Lemma sv_ok_facts own tb P φ o m : sv_ok pre ts T own tb P φ o m -> P <> Joined /\ 0 <= o <= 2.
Proof. intros Hok. destruct Hok; split; (done || lia). Qed.
Lemma vn_ok_facts own tb P ψ o m : vn_ok pre ts T own tb P ψ o m -> P <> Joined /\ 0 <= o <= 1.
Proof. intros Hok. destruct Hok; split; (done || lia). Qed.

Section Steps.
Context (σ : Sys) (p : main_point) (κs κv : kid) (own : list nat) (φ : sv_phase) (ψ : vn_phase) (s v : Z) (out : list Z)
  (b : bool) (om os ov mm ms mv : Z) (X : option (list Z)).
Hypothesis Hw : working σ p κs κv own φ ψ s v out b om os ov mm ms mv X.

Lemma working_running : halted σ = None.
Proof. unfold halted. by rewrite (wk_main _ _ _ _ _ _ _ _ _ _ _ _ _ _ _ _ _ _ Hw). Qed.

(** A step of [sinhvien] in the whole. *)
Lemma working_sv i P σ' own' P' φ' s' v' out' o' m' :
  κs = At i -> (pcb σ).[i] = Some (Some P) -> sv_ok pre ts T own (openf σ) P φ os ms ->
  view σ' own' s' v' (1 - (if b then 1 else 0) + told ψ) out' -> moved 1 os o' σ σ' own own' i P' ->
  sv_ok pre ts T own' (openf σ') P' φ' o' m' -> joint pre ts φ' ψ s' v' out' -> 0 <= m' < ms ->
  working σ' p κs κv own' φ' ψ s' v' out' b om o' ov mm m' mv X /\ total mm m' mv < total mm ms mv.
Proof.
  intros Hi HP Hok Hv' [E1 E2 E3 E4 E5] Hok' J' Hm. destruct Hw as [W1 W2 W3 W4 W5 W6 W7 W8 W9 W10 W11 W12]. rewrite Hi in W4. destruct W4 as (Hi0 & _).
  pose proof (pr_apart _ _ _ W10 i Hi) as Hap. split.
  - split; try done; rewrite ?E1, ?E5.
    + by rewrite lookupZ_insertZ_ne.
    + eapply main_ok_kept; [|exact W3]. intros; by apply E2.
    + rewrite Hi. split; [done|]. exists P'. rewrite E1. split; [|done]. apply lookupZ_insertZ_eq. by apply lookupZ_Some_range in HP.
    + eapply vn_kid_kept; [exact W5|intros; by apply E2|]. intros j ->. rewrite E1. rewrite lookupZ_insertZ_ne; [done|]. by intros ->.
    + lia.
    + by rewrite E4.
    + destruct X; [by rewrite E4|done].
    + eapply procs_set; [exact W10|exact HP|exact E1|auto].
    + done.
    + lia.
  - unfold total. lia.
Qed.

Lemma working_vn i P σ' own' P' ψ' s' v' ms' out' o' m' :
  κv = At i -> (pcb σ).[i] = Some (Some P) -> vn_ok pre ts T own (openf σ) P ψ ov mv ->
  view σ' own' s' v' ms' out' -> ms' - told ψ' = 1 - (if b then 1 else 0) + told ψ - told ψ -> moved 2 ov o' σ σ' own own' i P' ->
  vn_ok pre ts T own' (openf σ') P' ψ' o' m' -> joint pre ts φ ψ' s' v' out' -> 0 <= m' < mv ->
  working σ' p κs κv own' φ ψ' s' v' out' b om os o' mm ms m' X /\ total mm ms m' < total mm ms mv.
Proof.
  intros Hi HP Hok Hv' Hms [E1 E2 E3 E4 E5] Hok' J' Hm. destruct Hw as [W1 W2 W3 W4 W5 W6 W7 W8 W9 W10 W11 W12]. rewrite Hi in W5. destruct W5 as (Hi0 & _).
  assert (Hap : forall j, κs = At j -> j <> i) by (intros j Hj ->; by apply (pr_apart _ _ _ W10 i Hj)). split.
  - split; try done; rewrite ?E1, ?E5.
    + by rewrite lookupZ_insertZ_ne.
    + by replace (1 - (if b then 1 else 0) + told ψ') with ms' by lia.
    + eapply main_ok_kept; [|exact W3]. intros; by apply E2.
    + eapply sv_kid_kept; [exact W4|intros; by apply E2|]. intros j Hj. rewrite E1. rewrite lookupZ_insertZ_ne; [done|]. by apply not_eq_sym, Hap.
    + rewrite Hi. split; [done|]. exists P'. rewrite E1. split; [|done]. apply lookupZ_insertZ_eq. by apply lookupZ_Some_range in HP.
    + lia.
    + by rewrite E4.
    + destruct X; [by rewrite E4|done].
    + eapply procs_set; [exact W10|exact HP|exact E1|auto].
    + done.
    + lia.
  - unfold total. lia.
Qed.

(** A step of [main] that starts or joins no process. *)
Lemma working_main σ' own' p' (b' : bool) om' mm' X' :
  pcb σ' = (pcb σ).[0 <- Some (Running (Main p'))] -> view σ' own' s v (1 - (if b' then 1 else 0) + told ψ) out ->
  (forall h j d, h <> 0%nat -> held own (openf σ) h j d -> held own' (openf σ') h j d) ->
  main_ok own' (openf σ') p' κs κv b' om' X' mm' -> lenZ own' + om = lenZ own + om' -> files σ' !! input_txt = Some input_text ->
  match X' with Some x => files σ' !! sinhvien_txt = Some x | None => True end -> screen σ' = [] -> 0 <= mm' < mm ->
  working σ' p' κs κv own' φ ψ s v out b' om' os ov mm' ms mv X' /\ total mm' ms mv < total mm ms mv.
Proof.
  intros E1 Hv' E2 Hok' E3 E4 E6 E5 Hm. destruct Hw as [W1 W2 W3 W4 W5 W6 W7 W8 W9 W10 W11 W12]. split.
  - split; try done; rewrite ?E1.
    + apply lookupZ_insertZ_eq. by apply lookupZ_Some_range in W1.
    + eapply sv_kid_kept; [exact W4|intros; by apply E2|]. intros j ->. rewrite E1. rewrite lookupZ_insertZ_ne; [done|]. by destruct W4 as [? _].
    + eapply vn_kid_kept; [exact W5|intros; by apply E2|]. intros j ->. rewrite E1. rewrite lookupZ_insertZ_ne; [done|]. by destruct W5 as [? _].
    + lia.
    + eapply procs_set; [exact W10|exact W1|exact E1|auto].
    + lia.
  - unfold total. lia.
Qed.
End Steps.

(** *** The steps of [main] in a line *)

Hypothesis Hl : lines !! l = Some ts.

Definition line_goes (σ : Sys) (m : Z) : Prop := exists σ' p κs κv own φ ψ s v out b om os ov mm ms mv X,
  step σ 0 = Some (Ok σ') /\ working σ' p κs κv own φ ψ s v out b om os ov mm ms mv X /\ total mm ms mv < m.

Lemma line_goes_call σ p κs κv own φ ψ s v out b om os ov mm ms mv X r bs σ1 p' own' (b' : bool) om' mm' X' :
  working σ p κs κv own φ ψ s v out b om os ov mm ms mv X ->
  do_call σ (main_call p) = Some (Ok (r, bs, σ1)) -> main_next p r bs = Main p' -> pcb σ1 = pcb σ ->
  view σ1 own' s v (1 - (if b' then 1 else 0) + told ψ) out ->
  (forall h j d, h <> 0%nat -> held own (openf σ) h j d -> held own' (openf σ1) h j d) ->
  main_ok own' (openf σ1) p' κs κv b' om' X' mm' -> lenZ own' + om = lenZ own + om' -> files σ1 !! input_txt = Some input_text ->
  match X' with Some x => files σ1 !! sinhvien_txt = Some x | None => True end -> screen σ1 = screen σ -> 0 <= mm' < mm ->
  line_goes σ (total mm ms mv).
Proof.
  intros Hw Hc Hn E1 Hv' E2 Hok' E3 E4 E6 E5 Hm. pose proof Hw as [W1 W2 W3 W4 W5 W6 W7 W8 W9 W10 W11 W12].
  assert (Hn' : next (Main p) r bs = Ok (Main p')) by (cbn; by rewrite Hn).
  destruct (working_main _ _ _ _ _ _ _ _ _ _ _ _ _ _ _ _ _ _ Hw (set_proc σ1 0 (Some (Running (Main p')))) own' p' b' om' mm' X') as [H1 H2]; try done.
  - cbn. by rewrite E1.
  - destruct Hv'. by split.
  - cbn. by rewrite E5.
  - do 18 eexists. conjs; [|exact H1|exact H2]. exact (step_call _ _ (Main p) _ _ _ _ (working_running _ _ _ _ _ _ _ _ _ _ _ _ _ _ _ _ _ _ Hw) W1 Hc Hn').
Qed.

Section InLine.
Context (σ : Sys) (own : list nat) (φ : sv_phase) (ψ : vn_phase) (s v : Z) (out : list Z) (os ov ms mv : Z).
Notation working_at p κs κv b om mm X := (working σ p κs κv own φ ψ s v out b om os ov mm ms mv X).

Lemma line_bounds : 0 <= istart l /\ istart l + lenZ F + 1 <= LI /\ 0 <= lenZ F.
Proof. pose proof (istart_le _ _ Hl). pose proof (lenZ_nonneg F). lia. Qed.

Lemma main_create fi c m :
  working_at (M_create_sinhvien fi left c) NotYet NotYet false 0 m None -> input_held own (openf σ) fi (istart l) -> m = 2 * (LI - istart l) + 24 ->
  line_goes σ (total m ms mv).
Proof.
  intros Hw Hfi ->. pose proof Hw as [W1 W2 W3 W4 W5 W6 W7 W8 W9 W10 W11 W12]. pose proof line_bounds.
  eapply (line_goes_call _ _ _ _ _ _ _ _ _ _ _ _ _ _ _ _ _ _ _ _ _ (M_open_sinhvien fi left c) own false 0 (2 * (LI - istart l) + 23) (Some []) Hw eq_refl);
    try done; cbn; try lia.
  - destruct W2. split; cbn; try done. by rewrite lookup_insert_ne.
  - by constructor.
  - by rewrite lookup_insert_ne.
  - by rewrite lookup_insert_eq.
Qed.

Lemma main_open fi c m :
  working_at (M_open_sinhvien fi left c) NotYet NotYet false 0 m (Some []) -> input_held own (openf σ) fi (istart l) -> m = 2 * (LI - istart l) + 23 ->
  lenZ own < 15 -> line_goes σ (total m ms mv).
Proof.
  intros Hw Hfi -> Hroom. pose proof Hw as [W1 W2 W3 W4 W5 W6 W7 W8 W9 W10 W11 W12]. pose proof line_bounds. pose proof (lenZ_nonneg own).
  destruct (sys_Open_new σ own 0 sinhvien_txt 0 [] (vw_table _ _ _ _ _ _ W2) Hroom W9 ltac:(by left)) as (tb & Hc & Ht).
  eapply (line_goes_call _ _ _ _ _ _ _ _ _ _ _ _ _ _ _ _ _ _ _ _ _ (M_wait fi (lenZ own) left c) (own ++ [0%nat]) false 1 (2 * (LI - istart l) + 22) (Some []) Hw Hc);
    try done; try lia.
  - cbn. by rewrite (proj2 (Z.eqb_neq _ (-1))) by lia.
  - destruct W2. split; cbn; try done. apply Ht.
  - apply Ht.
  - constructor; [|apply Ht]. apply (ts_kept _ _ _ _ _ _ _ Ht); [|exact Hfi]. destruct Hfi as [Ho _]. apply lookupZ_Some_range in Ho. lia.
  - rewrite lenZ_app. change (lenZ [0%nat]) with 1. lia.
Qed.

Lemma main_wait fi fs c m :
  working_at (M_wait fi fs left c) NotYet NotYet false 1 m (Some []) -> input_held own (openf σ) fi (istart l) -> copy_held own (openf σ) fs 0 ->
  m = 2 * (LI - istart l) + 22 -> line_goes σ (total m ms mv).
Proof.
  intros Hw Hfi Hfs ->. pose proof Hw as [W1 W2 W3 W4 W5 W6 W7 W8 W9 W10 W11 W12]. pose proof line_bounds. destruct W5 as (Hpsi & _ & _). rewrite Hpsi in *.
  pose proof (sys_Wait_ok σ main_txt _ (vw_m _ _ _ _ _ _ W2)) as Hc. cbn in Hc.
  eapply (line_goes_call _ _ _ _ _ _ _ _ _ _ _ _ _ _ _ _ _ _ _ _ _ (M_read_line fi fs left c) own true 1 (2 * (LI - (istart l + 0)) + 20) (Some (slice F 0 0)) Hw Hc);
    try done; cbn; try lia.
  - destruct W2. split; cbn; try done; by rewrite ?lookup_insert_eq, ?lookup_insert_ne.
  - constructor; [by rewrite Z.add_0_r|done|lia].
Qed.

Lemma main_read fi fs c i m :
  working_at (M_read_line fi fs left c) NotYet NotYet true 1 m (Some (slice F 0 i)) -> input_held own (openf σ) fi (istart l + i) -> copy_held own (openf σ) fs i ->
  0 <= i <= lenZ F -> Forall token ts -> m = 2 * (LI - (istart l + i)) + 20 -> line_goes σ (total m ms mv).
Proof.
  intros Hw Hfi Hfs Hi Htok ->. pose proof Hw as [W1 W2 W3 W4 W5 W6 W7 W8 W9 W10 W11 W12]. pose proof line_bounds.
  assert (Hne : fs <> fi) by (intros ->; destruct Hfi as [_ E1], Hfs as [_ E2]; rewrite E1 in E2; done).
  pose proof (sys_Read_held σ own 0 fi _ _ _ input_text (vw_table _ _ _ _ _ _ W2) Hfi W8 ltac:(lia)) as Hc.
  destruct (decide (i = lenZ F)) as [->|Hlt].
  - rewrite (input_newline _ _ Hl) in Hc. destruct Hc as (tb & Hc & Ht).
    eapply (line_goes_call _ _ _ _ _ _ _ _ _ _ _ _ _ _ _ _ _ _ _ _ _ (M_close_sinhvien fi fs left 10) own true 1 19 (Some F) Hw Hc); try done; try lia.
    + destruct W2. split; cbn; try done. apply Ht.
    + apply Ht.
    + eapply mo_close; [|by apply (ts_kept _ _ _ _ _ _ _ Ht)]. unfold input_held. rewrite (istart_S _ _ Hl). apply Ht.
    + cbn in W9 |- *. by rewrite slice_all in W9.
  - assert (Hin : 0 <= i < lenZ F) by lia. destruct (lookupZ_range F i Hin) as [x Hx]. rewrite (input_char _ _ _ Hl Hin), Hx in Hc. destruct Hc as (tb & Hc & Ht).
    assert (Hx10 : x <> 10).
    { pose proof (line_no_newline _ Htok) as Hn. rewrite Forall_lookupZ in Hn. by apply (Hn i x). }
    eapply (line_goes_call _ _ _ _ _ _ _ _ _ _ _ _ _ _ _ _ _ _ _ _ _ (M_write_char fi fs left x) own true 1 (2 * (LI - (istart l + (i + 1))) + 21) (Some (slice F 0 i)) Hw Hc);
      try done; try lia.
    + cbn. by rewrite (proj2 (Z.eqb_neq x 10)).
    + destruct W2. split; cbn; try done. apply Ht.
    + apply Ht.
    + constructor; [|by apply (ts_kept _ _ _ _ _ _ _ Ht)|done]. rewrite Z.add_assoc. apply Ht.
Qed.

Lemma slice_snoc (x : Z) i : 0 <= i -> F.[i] = Some x -> slice F 0 i ++ [x] = slice F 0 (i + 1).
Proof.
  intros Hi Hx. unfold slice. change (Z.to_nat 0) with 0%nat. rewrite !drop_0. unfold lookupZ in Hx. rewrite (proj2 (Z.ltb_ge i 0)) in Hx by lia.
  replace (Z.to_nat (i + 1)) with (S (Z.to_nat i)) by lia. by rewrite (take_S_r _ _ _ Hx).
Qed.

Lemma main_write fi fs c i m :
  working_at (M_write_char fi fs left c) NotYet NotYet true 1 m (Some (slice F 0 i)) -> input_held own (openf σ) fi (istart l + (i + 1)) -> copy_held own (openf σ) fs i ->
  F.[i] = Some c -> m = 2 * (LI - (istart l + (i + 1))) + 21 -> line_goes σ (total m ms mv).
Proof.
  intros Hw Hfi Hfs Hx ->. pose proof Hw as [W1 W2 W3 W4 W5 W6 W7 W8 W9 W10 W11 W12]. pose proof line_bounds. pose proof (lookupZ_Some_range _ _ _ Hx) as Hi.
  assert (Hne : fi <> fs) by (intros ->; destruct Hfi as [_ E1], Hfs as [_ E2]; rewrite E1 in E2; done).
  assert (HX : lenZ (slice F 0 i) = i) by (rewrite lenZ_slice; lia). unfold copy_held in Hfs. rewrite <- HX in Hfs.
  destruct (sys_Write_end σ own 0 fs sinhvien_txt _ [c] (vw_table _ _ _ _ _ _ W2) Hfs W9 ltac:(done)) as (tb & Hc & Ht). rewrite (slice_snoc _ _ (proj1 Hi) Hx) in Hc.
  eapply (line_goes_call _ _ _ _ _ _ _ _ _ _ _ _ _ _ _ _ _ _ _ _ _ (M_read_line fi fs left c) own true 1 (2 * (LI - (istart l + (i + 1))) + 20) (Some (slice F 0 (i + 1))) Hw Hc);
    try done; try lia.
  - destruct W2. split; cbn; try done; [apply Ht|by rewrite lookup_insert_ne].
  - apply Ht.
  - constructor; [by apply (ts_kept _ _ _ _ _ _ _ Ht)| |lia]. destruct Ht as [_ Ht _ _]. by rewrite HX in Ht.
  - cbn. by rewrite lookup_insert_ne.
  - cbn. by rewrite lookup_insert_eq.
Qed.

Lemma main_close fi fs c q m :
  working_at (M_close_sinhvien fi fs left c) NotYet NotYet true 1 m (Some F) -> input_held own (openf σ) fi (istart (S l)) -> copy_held own (openf σ) fs q -> m = 19 ->
  line_goes σ (total m ms mv).
Proof.
  intros Hw Hfi Hfs ->. pose proof Hw as [W1 W2 W3 W4 W5 W6 W7 W8 W9 W10 W11 W12].
  assert (Hne : fi <> fs) by (intros ->; destruct Hfi as [_ E1], Hfs as [_ E2]; rewrite E1 in E2; done).
  destruct (sys_Close_held σ own 0 fs _ _ _ (vw_table _ _ _ _ _ _ W2) Hfs) as (tb & Hc & Ht).
  eapply (line_goes_call _ _ _ _ _ _ _ _ _ _ _ _ _ _ _ _ _ _ _ _ _ (M_exec_sinhvien fi left c) own true 1 12 (Some F) Hw Hc); try done; try lia.
  - destruct W2. split; cbn; try done. apply Ht.
  - apply Ht.
  - constructor. by apply (ts_kept _ _ _ _ _ _ _ Ht).
Qed.
End InLine.

(** *** Starting and joining the two programs *)

Lemma sv_kid_there κ own σ φ o m i : sv_kid κ own σ φ o m -> κ = At i -> exists P, (pcb σ).[i] = Some (Some P) /\ i <> 0.
Proof. intros Hk ->. destruct Hk as (? & P & HP & _). eauto. Qed.
Lemma vn_kid_there κ own σ ψ o m i : vn_kid κ own σ ψ o m -> κ = At i -> exists P, (pcb σ).[i] = Some (Some P) /\ i <> 0.
Proof. intros Hk ->. destruct Hk as (? & P & HP & _). eauto. Qed.

Lemma procs_new σ σ' κs κv κs' κv' j P Q Q' :
  procs_ok σ κs κv -> (pcb σ).[j] = Some None -> (pcb σ).[0] = Some (Some Q) -> pcb σ' = ((pcb σ).[j <- Some P]).[0 <- Some Q'] ->
  (forall i, κs = At i \/ κv = At i -> i <> j) ->
  κs = NotYet /\ κs' = At j /\ κv' = κv \/ κv = NotYet /\ κv' = At j /\ κs' = κs -> procs_ok σ' κs' κv'.
Proof.
  intros [H1 H2 H3 H4] Hj H0 E Hne Hk. assert (Hj0 : j <> 0) by (intros ->; congruence).
  assert (H0' : ((pcb σ).[j <- Some P]).[0] = Some (Some Q)) by (by rewrite lookupZ_insertZ_ne).
  split; rewrite ?E, ?(tally_insert _ _ _ _ _ H0'), ?(tally_insert _ _ _ _ _ Hj), ?lenZ_insertZ; try done.
  - intros i P' Hi Hi0 Hs Hv. rewrite lookupZ_insertZ_ne in Hi by done. destruct (decide (i = j)) as [->|Hij]; [naive_solver|].
    rewrite lookupZ_insertZ_ne in Hi by done. eapply H2; [exact Hi|done|..]; naive_solver.
  - destruct Hk as [(-> & -> & ->)|(-> & -> & ->)]; cbn in *; lia.
  - intros i Hs Hv. destruct Hk as [(-> & -> & ->)|(-> & -> & ->)]; naive_solver.
Qed.

Lemma sys_Exec_ok σ name p κs κv :
  program name = Some p -> procs_ok σ κs κv -> count is_some (pcb σ) < 10 ->
  exists j, do_call σ (Exec name) = returns j (set_proc σ j (Some (Running p))) /\ 0 <= j /\ (pcb σ).[j] = Some None.
Proof.
  intros Hp Hpr Hc. pose proof (pr_length _ _ _ Hpr) as Hlen. destruct (first_from_free (pcb σ) 0 ltac:(lia)) as (j & E & Hr & Hn). rewrite Z.sub_0_r in Hn.
  exists j. cbn [do_call]. unfold sys_Exec, get_free_slot. rewrite Hp, E. conjs; [done|lia|done].
Qed.

Lemma joined (σ σ' : Sys) κs κv i j Q Q' P :
  procs_ok σ κs κv -> κs = At i -> κv = At j -> (pcb σ).[i] = Some (Some P) -> (pcb σ).[0] = Some (Some Q) ->
  pcb σ' = ((pcb σ).[i <- Some Joined]).[0 <- Some Q'] -> i <> 0 -> procs_ok σ' Gone κv.
Proof.
  intros [H1 H2 H3 H4] Hi Hj HP H0 E Hi0. subst κs. assert (H0' : ((pcb σ).[i <- Some Joined]).[0] = Some (Some Q)) by (by rewrite lookupZ_insertZ_ne).
  split; rewrite ?E, ?(tally_insert _ _ _ _ _ H0'), ?(tally_insert _ _ _ _ _ HP), ?lenZ_insertZ; cbn [kid_counts is_some] in *; try done; try lia.
  intros x P' Hx Hx0 _ Hv. rewrite lookupZ_insertZ_ne in Hx by done. rewrite lookupZ_insertZ in Hx. case_decide as Hd; [by injection Hx as <-|].
  eapply H2; [exact Hx|done| |done]. intros [= ->]. apply Hd. split; [done|]. by apply lookupZ_Some_range in HP.
Qed.

Section Starting.
Context (σ : Sys) (own : list nat) (φ : sv_phase) (ψ : vn_phase) (s v : Z) (out : list Z) (os ov ms mv : Z).
Notation working_at p κs κv b om mm X := (working σ p κs κv own φ ψ s v out b om os ov mm ms mv X).

Lemma main_exec_sv fi c m :
  working_at (M_exec_sinhvien fi left c) NotYet NotYet true 1 m (Some F) -> input_held own (openf σ) fi (istart (S l)) -> m = 12 -> line_goes σ (total m ms mv).
Proof.
  intros Hw Hfi ->. pose proof Hw as [W1 W2 W3 W4 W5 W6 W7 W8 W9 W10 W11 W12]. destruct W4 as (E1 & E2 & E3), W5 as (E4 & E5 & E6).
  pose proof (tab_size _ _ (vw_table _ _ _ _ _ _ W2)) as Hsz. pose proof (pr_count _ _ _ W10) as Hcnt. cbn [kid_counts] in Hcnt.
  destruct (sys_Exec_ok σ "./test/sinhvien" (Sinhvien S_open_sinhvien) NotYet NotYet eq_refl W10 ltac:(lia)) as (j & Hc & Hj0 & Hj).
  assert (Hjn : j <> 0) by (intros ->; congruence). pose proof (lookupZ_Some_range _ _ _ Hj) as Hjr.
  assert (Hn : next (Main (M_exec_sinhvien fi left c)) j [] = Ok (Main (M_exec_voinuoc fi left c j))) by (cbn; by rewrite (proj2 (Z.eqb_neq j (-1))) by lia).
  pose proof (step_call _ _ (Main (M_exec_sinhvien fi left c)) _ _ _ _ (working_running _ _ _ _ _ _ _ _ _ _ _ _ _ _ _ _ _ _ Hw) W1 Hc Hn) as Hst.
  assert (H0 : ((pcb σ).[j <- Some (Running (Sinhvien S_open_sinhvien))]).[0] = Some (Some (Running (Main (M_exec_sinhvien fi left c))))) by (by rewrite lookupZ_insertZ_ne).
  exists (set_proc (set_proc σ j (Some (Running (Sinhvien S_open_sinhvien)))) 0 (Some (Running (Main (M_exec_voinuoc fi left c j))))).
  exists (M_exec_voinuoc fi left c j), (At j), NotYet, own, φ, ψ, s, v, out, true, 1, os, ov, 10, (sv_left ts T 0 0 0 30), mv, (Some F).
  conjs; [exact Hst| |].
  - split; try done; cbn [pcb set_proc].
    + apply lookupZ_insertZ_eq. rewrite lenZ_insertZ, (pr_length _ _ _ W10). lia.
    + destruct W2. by split.
    + by constructor.
    + split; [done|]. exists (Running (Sinhvien S_open_sinhvien)). cbn [pcb set_proc]. rewrite lookupZ_insertZ_ne by done. rewrite lookupZ_insertZ_eq by done.
      split; [done|]. rewrite E1, E2. constructor.
    + eapply procs_new; [exact W10|exact Hj|exact W1|reflexivity|naive_solver|by left].
    + pose proof (lenZ_nonneg (out_upto (length lines))). pose proof (lenZ_nonneg F). unfold sv_left in *. lia.
  - unfold total. unfold sv_left in *. lia.
Qed.

Lemma main_exec_vn fi c i m :
  working_at (M_exec_voinuoc fi left c i) (At i) NotYet true 1 m (Some F) -> input_held own (openf σ) fi (istart (S l)) -> m = 10 -> line_goes σ (total m ms mv).
Proof.
  intros Hw Hfi ->. pose proof Hw as [W1 W2 W3 W4 W5 W6 W7 W8 W9 W10 W11 W12]. destruct W5 as (E4 & E5 & E6). destruct W4 as (Hi0 & P & HP & Hok).
  destruct (sv_ok_facts _ _ _ _ _ _ Hok) as [_ Hos].
  pose proof (tab_size _ _ (vw_table _ _ _ _ _ _ W2)) as Hsz. pose proof (pr_count _ _ _ W10) as Hcnt. cbn [kid_counts] in Hcnt.
  destruct (sys_Exec_ok σ "./test/voinuoc" (Voinuoc V_open) (At i) NotYet eq_refl W10 ltac:(lia)) as (j & Hc & Hj0 & Hj).
  assert (Hjn : j <> 0) by (intros ->; congruence). assert (Hij : i <> j) by (intros ->; congruence). pose proof (lookupZ_Some_range _ _ _ Hj) as Hjr.
  assert (Hn : next (Main (M_exec_voinuoc fi left c i)) j [] = Ok (Main (M_join_sinhvien fi left c i j))) by (cbn; by rewrite (proj2 (Z.eqb_neq j (-1))) by lia).
  pose proof (step_call _ _ (Main (M_exec_voinuoc fi left c i)) _ _ _ _ (working_running _ _ _ _ _ _ _ _ _ _ _ _ _ _ _ _ _ _ Hw) W1 Hc Hn) as Hst.
  assert (H0 : ((pcb σ).[j <- Some (Running (Voinuoc V_open))]).[0] = Some (Some (Running (Main (M_exec_voinuoc fi left c i))))) by (by rewrite lookupZ_insertZ_ne).
  exists (set_proc (set_proc σ j (Some (Running (Voinuoc V_open)))) 0 (Some (Running (Main (M_join_sinhvien fi left c i j))))).
  exists (M_join_sinhvien fi left c i j), (At i), (At j), own, φ, ψ, s, v, out, true, 1, os, ov, 8, ms, (vn_left ts T 0 0 20), (Some F).
  conjs; [exact Hst| |].
  - split; try done; cbn [pcb set_proc].
    + apply lookupZ_insertZ_eq. rewrite lenZ_insertZ, (pr_length _ _ _ W10). lia.
    + destruct W2. by split.
    + by constructor.
    + split; [done|]. exists P. cbn [pcb set_proc]. by rewrite !lookupZ_insertZ_ne.
    + split; [done|]. exists (Running (Voinuoc V_open)). cbn [pcb set_proc]. rewrite lookupZ_insertZ_ne by done. rewrite lookupZ_insertZ_eq by done.
      split; [done|]. rewrite E4, E5. constructor.
    + eapply procs_new; [exact W10|exact Hj|exact W1|reflexivity|naive_solver|by right].
    + pose proof (lenZ_nonneg (out_upto (length lines))). unfold vn_left in *. lia.
  - unfold total. unfold vn_left in *. lia.
Qed.

Lemma join_exited i P : 0 <= i < 10 -> (pcb σ).[i] = Some (Some P) -> P = Exited 0 -> do_call σ (Join i) = returns 0 (set_proc σ i (Some Joined)).
Proof. intros Hi HP ->. cbn [do_call]. unfold sys_Join. replace ((i <? 0) || (10 <=? i)) with false by lia. by rewrite HP. Qed.

Lemma main_join_sv fi c i j m :
  working_at (M_join_sinhvien fi left c i j) (At i) (At j) true 1 m (Some F) -> input_held own (openf σ) fi (istart (S l)) -> m = 8 ->
  (pcb σ).[i] = Some (Some (Exited 0)) -> line_goes σ (total m ms mv).
Proof.
  intros Hw Hfi -> Hex. pose proof Hw as [W1 W2 W3 W4 W5 W6 W7 W8 W9 W10 W11 W12]. destruct W4 as (Hi0 & P & HP & Hok). assert (P = Exited 0) as -> by congruence.
  destruct W5 as (Hj0 & P' & HP' & Hok'). destruct (vn_ok_facts _ _ _ _ _ _ Hok') as [HPl _].
  assert (Hij : i <> j) by (intros ->; by apply (pr_apart _ _ _ W10 j eq_refl)).
  assert (Hphi : φ = Done /\ os = 2 /\ ms = 4) by (inversion Hok; done). pose proof (lookupZ_Some_range _ _ _ HP) as Hir. rewrite (pr_length _ _ _ W10) in Hir.
  assert (Hn : next (Main (M_join_sinhvien fi left c i j)) 0 [] = Ok (Main (M_join_voinuoc fi left c j))) by reflexivity.
  pose proof (step_call _ _ (Main (M_join_sinhvien fi left c i j)) _ _ _ _ (working_running _ _ _ _ _ _ _ _ _ _ _ _ _ _ _ _ _ _ Hw) W1 (join_exited i _ Hir HP eq_refl) Hn) as Hst.
  assert (H0 : ((pcb σ).[i <- Some Joined]).[0] = Some (Some (Running (Main (M_join_sinhvien fi left c i j))))) by (by rewrite lookupZ_insertZ_ne).
  exists (set_proc (set_proc σ i (Some Joined)) 0 (Some (Running (Main (M_join_voinuoc fi left c j))))).
  exists (M_join_voinuoc fi left c j), Gone, (At j), own, φ, ψ, s, v, out, true, 1, os, ov, 6, 0, mv, (Some F).
  conjs; [exact Hst| |].
  - split; try done; cbn [pcb set_proc].
    + apply lookupZ_insertZ_eq. rewrite lenZ_insertZ, (pr_length _ _ _ W10). lia.
    + destruct W2. by split.
    + by constructor.
    + by destruct Hphi as (-> & -> & ->).
    + split; [done|]. exists P'. cbn [pcb set_proc]. by rewrite !lookupZ_insertZ_ne.
    + eapply joined; [exact W10|reflexivity|reflexivity|exact HP|exact W1|reflexivity|done].
    + lia.
  - unfold total. lia.
Qed.
End Starting.
End Served.

(** *** Behind the last line *)

(** The lines that are served, the code of [main] and what it prints: the table of
    descriptors has room for three lines. *)
Definition served_lines : nat := Nat.min 3 (length lines).
Definition exit_code : Z := if (length lines <=? 3)%nat then 0 else -1.
Definition refusal : list string := ["\nmain.c"; "\nCan't open file sinhvien.txt!"]%string.
Definition messages : list string := if (length lines <=? 3)%nat then [] else refusal.

Inductive last_ok (own : list nat) (tb : list slot) : Process -> list string -> Z -> Prop :=
| lo_close fi q : (length lines <= 3)%nat -> input_held own tb fi q -> last_ok own tb (Running (Main (M_close_input fi))) [] 3
| lo_exit : (length lines <= 3)%nat -> last_ok own tb (Running (Main M_exit)) [] 2
| lo_main_c fi q : (3 < length lines)%nat -> input_held own tb fi q ->
    last_ok own tb (Running (Rest (PrintString "\nmain.c") [PrintString "\nCan't open file sinhvien.txt!"; Close fi; Exit (-1)])) [] 5
| lo_cannot fi q : (3 < length lines)%nat -> input_held own tb fi q ->
    last_ok own tb (Running (Rest (PrintString "\nCan't open file sinhvien.txt!") [Close fi; Exit (-1)])) ["\nmain.c"%string] 4
| lo_close_input fi q : (3 < length lines)%nat -> input_held own tb fi q -> last_ok own tb (Running (Rest (Close fi) [Exit (-1)])) refusal 3
| lo_give_up : (3 < length lines)%nat -> last_ok own tb (Running (Rest (Exit (-1)) [])) refusal 2
| lo_exited : last_ok own tb (Exited exit_code) messages 1.

Record ending (σ : Sys) (own : list nat) (P : Process) (m : Z) : Prop := {
  en_main : (pcb σ).[0] = Some (Some P);
  en_table : table_ok own (openf σ);
  en_point : last_ok own (openf σ) P (screen σ) m;
  en_others : forall i P, (pcb σ).[i] = Some (Some P) -> i <> 0 -> P = Joined;
  en_out : files σ !! output_txt = Some (out_upto served_lines) }.

(** *** Before the first line *)

Definition empty_table : list slot := [Console; Console] ++ replicate 13 Null.
Definition booted (F : gmap string (list Z)) (tb : list slot) (sems : gmap string Z) (p : main_point) : Sys :=
  mkSys F tb sems (Some (Running (Main p)) :: replicate 9 None) [].
Definition first_files : gmap string (list Z) := <[output_txt := []]> {[input_txt := input_text]}.
Definition all_sems : gmap string Z := <[voinuoc_sem := 1]> (<[sinhvien_sem := 0]> {[main_txt := 1]}).

Inductive booting : Sys -> Z -> Prop :=
| bt_start : booting (boot input_text) (n * W + 25 + lenZ nds)
| bt_main : booting (booted {[input_txt := input_text]} empty_table {[main_txt := 1]} M_sem_sinhvien) (n * W + 24 + lenZ nds)
| bt_sinhvien : booting (booted {[input_txt := input_text]} empty_table (<[sinhvien_sem := 0]> {[main_txt := 1]}) M_sem_voinuoc) (n * W + 23 + lenZ nds)
| bt_voinuoc : booting (booted {[input_txt := input_text]} empty_table all_sems M_create_output) (n * W + 22 + lenZ nds)
| bt_output : booting (booted first_files empty_table all_sems M_open_input) (n * W + 21 + lenZ nds)
| bt_number ds u c : nds = ds ++ u ->
    booting (booted first_files (empty_table.[2 <- Opened input_txt (lenZ ds) 1]) all_sems (M_read_N 2 (digits_value ds) c)) (n * W + 10 + lenZ u).

(** ** The invariant, with the number of steps that are left at most *)

Inductive Inv (σ : Sys) (m : Z) : Prop :=
| inv_boot : booting σ m -> Inv σ m
| inv_work l ts p κs κv own φ ψ s v out b om os ov mm ms mv X :
    lines !! l = Some ts -> working l ts σ p κs κv own φ ψ s v out b om os ov mm ms mv X -> m = total l mm ms mv -> Inv σ m
| inv_end own P k : ending σ own P k -> m = k -> Inv σ m.

Lemma line_cost l ts :
  lines !! l = Some ts -> 0 <= 2 * (LI - istart l) + 24 /\ 2 * (LI - istart l) + 24 + sv_left ts T 0 0 0 31 + vn_left ts T 0 0 21 <= W - 4.
Proof.
  intros Hl. pose proof (istart_le _ _ Hl). pose proof (Forall_lookup_1 _ _ _ _ Hlines Hl) as [_ Htok]. pose proof (length_line_text _ Htok).
  pose proof (lenZ_nonneg (line_text ts)). unfold sv_left, vn_left, W. lia.
Qed.

(** [main] comes to [while (N--)] with [l] lines served. *)
Lemma arrive l σ own fi c :
  (l <= length lines)%nat -> (pcb σ).[0] = Some (Some (Running (while_N fi (n - Z.of_nat l) c))) -> view σ own 0 1 1 (out_upto l) ->
  input_held own (openf σ) fi (istart l) -> lenZ own = 3 + 4 * Z.of_nat l -> files σ !! input_txt = Some input_text -> screen σ = [] ->
  lenZ (pcb σ) = 10 -> (forall i P, (pcb σ).[i] = Some (Some P) -> i <> 0 -> P = Joined) -> count is_some (pcb σ) <= 1 + 2 * Z.of_nat l ->
  exists m, Inv σ m /\ m <= (n - Z.of_nat l) * W + 3.
Proof.
  intros Hln H0 Hv Hfi Ho HI Hsc Hlen Hoth Hcnt. unfold while_N in H0. pose proof (tab_size _ _ (vw_table _ _ _ _ _ _ Hv)) as Hsz.
  pose proof (digits_value_bound nds Hnds) as Hdb. pose proof (Z.pow_le_mono_r 10 (lenZ nds) 9 ltac:(lia) ltac:(lia)).
  destruct (Z.eqb_spec (n - Z.of_nat l) 0) as [E|E].
  - exists 3. split; [|lia]. apply (inv_end σ _ own (Running (Main (M_close_input fi))) 3); [|done]. split; try done; [apply Hv| |].
    + rewrite Hsc. eapply lo_close; [lia|exact Hfi].
    + rewrite (vw_out _ _ _ _ _ _ Hv). do 2 f_equal. unfold served_lines. lia.
  - destruct (lookup_lt_is_Some_2 lines l) as [ts Hl]; [lia|]. pose proof (line_cost _ _ Hl) as Hc. pose proof (Forall_lookup_1 _ _ _ _ Hlines Hl) as [Hne Htok].
    rewrite wrap_s32_id in H0 by (unfold_int32; lia).
    exists (total l (2 * (LI - istart l) + 24) (sv_left ts T 0 0 0 31) (vn_left ts T 0 0 21)). split; [|unfold total; lia].
    eapply (inv_work σ _ l ts _ NotYet NotYet own (Prep 0) Start 0 1 (out_upto l) false 0 0 0 _ _ _ None); [exact Hl| |reflexivity].
    pose proof (lenZ_nonneg (out_upto (length lines))). pose proof (lenZ_nonneg (line_text ts)).
    split; try done.
    + by constructor.
    + split; cbn; try done; try lia; [|destruct ts; [done|simpl; lia]]. by rewrite shown_even, R_0.
    + lia.
    + split; cbn; try done; try lia. intros i P Hi Hi0 _ _. by eapply Hoth.
    + unfold sv_left, vn_left. lia.
Qed.

Definition goes (σ : Sys) (i m : Z) : Prop := exists σ' m', step σ i = Some (Ok σ') /\ Inv σ' m' /\ m' < m.

Lemma main_join_vn l ts σ own φ ψ s v out os ov m ms mv fi c j :
  lines !! l = Some ts ->
  working l ts σ (M_join_voinuoc fi (n - Z.of_nat l - 1) c j) Gone (At j) own φ ψ s v out true 1 os ov m ms mv (Some (line_text ts)) ->
  input_held own (openf σ) fi (istart (S l)) -> m = 6 -> (pcb σ).[j] = Some (Some (Exited 0)) -> goes σ 0 (total l m ms mv).
Proof.
  intros Hl Hw Hfi -> Hex. pose proof Hw as [W1 W2 W3 W4 W5 W6 W7 W8 W9 W10 W11 W12]. destruct W4 as (E1 & E2 & E3). destruct W5 as (Hj0 & P & HP & Hok).
  assert (P = Exited 0) as -> by congruence. assert (Hpsi : ψ = Fin true /\ ov = 1 /\ mv = 4) by (inversion Hok; done). destruct Hpsi as (E4 & E5 & E6). subst φ ψ.
  pose proof W6 as [[_ Js] [_ Jv] Jo _ _ _]. cbn in Js, Jv, Jo. assert (Hout : out = out_upto (S l)).
  { rewrite (out_upto_S _ _ Hl), Jo. unfold shown. by rewrite Nat.ltb_irrefl. }
  pose proof (pr_length _ _ _ _ W10) as Hlen. pose proof (lookupZ_Some_range _ _ _ HP) as Hjr. rewrite Hlen in Hjr.
  assert (Hn : next (Main (M_join_voinuoc fi (n - Z.of_nat l - 1) c j)) 0 [] = Ok (while_N fi (n - Z.of_nat (S l)) c)).
  { cbn [next main_next Z.eqb]. do 2 f_equal. lia. }
  pose proof (step_call _ _ (Main _) _ _ _ _ (working_running _ _ _ _ _ _ _ _ _ _ _ _ _ _ _ _ _ _ _ _ Hw) W1 (join_exited _ j _ Hjr HP eq_refl) Hn) as Hst.
  assert (H0 : ((pcb σ).[j <- Some Joined]).[0] = Some (Some (Running (Main (M_join_voinuoc fi (n - Z.of_nat l - 1) c j))))) by (by rewrite lookupZ_insertZ_ne).
  destruct (arrive (S l) (set_proc (set_proc σ j (Some Joined)) 0 (Some (Running (while_N fi (n - Z.of_nat (S l)) c)))) own fi c) as (m' & HI & Hm); try done; cbn [pcb set_proc].
  - apply lookup_lt_Some in Hl. lia.
  - apply lookupZ_insertZ_eq. rewrite lenZ_insertZ. lia.
  - rewrite <- Hout. destruct W2 as [V1 V2 V3 V4 V5]. cbn in V4. split; cbn; try done; rewrite ?V2, ?V3; f_equal; lia.
  - lia.
  - by rewrite !lenZ_insertZ.
  - intros i P Hi Hi0. rewrite lookupZ_insertZ_ne in Hi by done. rewrite lookupZ_insertZ in Hi. case_decide as Hd; [by injection Hi as <-|].
    eapply (pr_others _ _ _ _ W10); [exact Hi|done|done|]. intros [= ->]. apply Hd. split; [done|lia].
  - rewrite (tally_insert _ _ _ _ _ H0), (tally_insert _ _ _ _ _ HP). cbn [is_some]. pose proof (pr_count _ _ _ _ W10) as Hc. cbn in Hc. lia.
  - do 2 eexists. conjs; [exact Hst|exact HI|]. unfold total. lia.
Qed.

Lemma main_open_full l ts σ own φ ψ s v out os ov m ms mv fi c :
  lines !! l = Some ts ->
  working l ts σ (M_open_sinhvien fi (n - Z.of_nat l - 1) c) NotYet NotYet own φ ψ s v out false 0 os ov m ms mv (Some []) ->
  input_held own (openf σ) fi (istart l) -> m = 2 * (LI - istart l) + 23 -> lenZ own = 15 -> goes σ 0 (total l m ms mv).
Proof.
  intros Hl Hw Hfi -> Hfull. pose proof Hw as [W1 W2 W3 W4 W5 W6 W7 W8 W9 W10 W11 W12]. destruct W4 as (E1 & E2 & E3), W5 as (E4 & E5 & E6). subst φ ψ os ov.
  pose proof (joint_prep0 _ _ _ _ _ _ W6) as Hout. assert (l = 3%nat) as -> by lia. pose proof (lookup_lt_Some _ _ _ Hl) as Hlt. pose proof (istart_le _ _ Hl). pose proof (lenZ_nonneg (line_text ts)).
  pose proof (step_call _ _ (Main _) _ _ _ _ (working_running _ _ _ _ _ _ _ _ _ _ _ _ _ _ _ _ _ _ _ _ Hw) W1 (sys_Open_full σ own sinhvien_txt 0 (vw_table _ _ _ _ _ _ W2) Hfull) eq_refl) as Hst.
  do 2 eexists. conjs; [exact Hst| |].
  - eapply (inv_end _ 5 own _ 5).
    + split; cbn [pcb set_proc files openf screen].
      * apply lookupZ_insertZ_eq. by apply lookupZ_Some_range in W1.
      * apply W2.
      * rewrite W11. by eapply lo_main_c.
      * intros i P Hi Hi0. rewrite lookupZ_insertZ_ne in Hi by done. by eapply (pr_others _ _ _ _ W10).
      * rewrite (vw_out _ _ _ _ _ _ W2), Hout. do 2 f_equal. unfold served_lines. lia.
    + done.
  - unfold total. assert (0 <= W) by (unfold W; pose proof (lenZ_nonneg (out_upto (length lines))); pose proof (lenZ_nonneg input_text); lia). nia.
Qed.

(** *** The last steps *)

Lemma ending_next σ own P m σ1 own1 P' m' p r bs :
  ending σ own P m -> P = Running p -> do_call σ (call_of p) = Some (Ok (r, bs, σ1)) -> (exists p', next p r bs = Ok p' /\ P' = Running p') ->
  pcb σ1 = pcb σ -> files σ1 = files σ -> table_ok own1 (openf σ1) -> last_ok own1 (openf σ1) P' (screen σ1) m' -> m' < m -> halted σ = None ->
  goes σ 0 m.
Proof.
  intros [H1 H2 H3 H4 H5] -> Hc (p' & Hn & ->) E1 E2 Ht Hl Hm Hh. do 2 eexists. conjs; [exact (step_call _ _ _ _ _ _ _ Hh H1 Hc Hn)| |].
  - eapply (inv_end _ m' own1 _ m'); [|done].
    split; cbn [pcb set_proc files openf screen]; rewrite ?E1, ?E2; try done.
    + apply lookupZ_insertZ_eq. by apply lookupZ_Some_range in H1.
    + intros i P Hi Hi0. rewrite lookupZ_insertZ_ne in Hi by done. by eapply H4.
  - lia.
Qed.

Lemma ending_exit σ own p code m :
  ending σ own (Running p) m -> call_of p = Exit code -> code = exit_code -> screen σ = messages -> 1 < m -> halted σ = None -> goes σ 0 m.
Proof.
  intros [H1 H2 H3 H4 H5] Hc -> Hs Hm Hh. do 2 eexists. conjs; [exact (step_exit _ _ _ _ Hh H1 Hc)| |].
  - eapply (inv_end _ 1 own _ 1); [|done].
    split; cbn [pcb set_proc files openf screen]; try done.
    + apply lookupZ_insertZ_eq. by apply lookupZ_Some_range in H1.
    + rewrite Hs. constructor.
    + intros i P Hi Hi0. rewrite lookupZ_insertZ_ne in Hi by done. by eapply H4.
  - lia.
Qed.

Lemma ending_main σ own P m : ending σ own P m -> halted σ = None -> goes σ 0 m.
Proof.
  intros He Hh. pose proof He as [H1 H2 H3 H4 H5].
  assert (Hnx : P <> Exited exit_code) by (intros ->; unfold halted in Hh; by rewrite H1 in Hh).
  remember (screen σ) as scr eqn:Es. destruct H3 as [fi q Hle Hfi|Hle|fi q Hle Hfi|fi q Hle Hfi|fi q Hle Hfi|Hle|]; [..|done].
  - destruct (sys_Close_held σ own 0 fi _ _ _ H2 Hfi) as (tb & Hc & Ht). eapply (ending_next _ _ _ _ _ own _ 2 _ _ _ He eq_refl Hc); [by eexists|done|done|apply Ht| |lia|done].
    cbn. rewrite <- Es. by constructor.
  - eapply ending_exit; [exact He|done|..]; unfold exit_code, messages; rewrite ?(proj2 (Nat.leb_le _ _) Hle); try done; lia.
  - eapply (ending_next _ _ _ _ _ own _ 4 _ _ _ He eq_refl eq_refl); [by eexists|done|done|done| |lia|done]. cbn. rewrite <- Es. by eapply lo_cannot.
  - eapply (ending_next _ _ _ _ _ own _ 3 _ _ _ He eq_refl eq_refl); [by eexists|done|done|done| |lia|done]. cbn. rewrite <- Es. by eapply lo_close_input.
  - destruct (sys_Close_held σ own 0 fi _ _ _ H2 Hfi) as (tb & Hc & Ht). eapply (ending_next _ _ _ _ _ own _ 2 _ _ _ He eq_refl Hc); [by eexists|done|done|apply Ht| |lia|done].
    cbn. rewrite <- Es. by constructor.
  - eapply ending_exit; [exact He|done|..]; unfold exit_code, messages; rewrite ?(proj2 (Nat.leb_gt _ _) Hle); try done; lia.
Qed.

Lemma ending_others σ own P m i : ending σ own P m -> i <> 0 -> step σ i = None.
Proof.
  intros [H1 H2 H3 H4 H5] Hi0. unfold step. destruct (halted σ); [done|]. destruct ((pcb σ).[i]) as [[Q|]|] eqn:Ei; [|done..].
  by pose proof (H4 i Q Ei Hi0) as ->.
Qed.

(** *** The first steps *)

Lemma input_digit ds b u : nds = ds ++ b :: u -> input_text.[lenZ ds] = Some b.
Proof. intros E. unfold input_text. rewrite E, <- app_assoc, lookupZ_app_r, Z.sub_diag by lia. done. Qed.
Lemma input_after_number : input_text.[lenZ nds] = Some 10.
Proof. unfold input_text. rewrite lookupZ_app_r, Z.sub_diag by lia. done. Qed.

Lemma empty_table_ok : table_ok [9; 9]%nat empty_table.
Proof. split; [|done]. exists [Console; Console]. conjs; [done|done|repeat constructor; done]. Qed.

Lemma number_table p : table_ok [9; 9; 0]%nat (empty_table.[2 <- Opened input_txt p 1]) /\ input_held [9; 9; 0]%nat (empty_table.[2 <- Opened input_txt p 1]) 2 p.
Proof. destruct (table_new [9; 9]%nat empty_table 0 (Opened input_txt p 1) empty_table_ok ltac:(done) ltac:(done)) as (H1 & H2 & _). by split. Qed.

Lemma booting_number ds u c :
  nds = ds ++ u -> goes (booted first_files (empty_table.[2 <- Opened input_txt (lenZ ds) 1]) all_sems (M_read_N 2 (digits_value ds) c)) 0 (n * W + 10 + lenZ u).
Proof.
  intros Hd. set (σ := booted _ _ _ _). destruct (number_table (lenZ ds)) as [Ht Hfi].
  pose proof (sys_Read_held σ [9; 9; 0]%nat 0 2 _ _ _ input_text Ht Hfi ltac:(done) (lenZ_nonneg ds)) as Hc. pose proof (digits_value_bound nds Hnds) as Hdb.
  pose proof (Z.pow_le_mono_r 10 (lenZ nds) 9 ltac:(lia) ltac:(lia)) as Hp9. destruct u as [|b u].
  - rewrite app_nil_r in Hd. subst ds. rewrite input_after_number in Hc. destruct Hc as (tb & Hc & Hts).
    destruct (arrive 0 (set_proc (set_openf σ tb) 0 (Some (Running (while_N 2 (n - Z.of_nat 0) 10)))) [9; 9; 0]%nat 2 10) as (m' & HI & Hm); try done; try lia.
    + split; try done. apply Hts.
    + destruct Hts as [_ Hts _ _]. unfold input_held, istart. cbn [openf set_proc set_openf take fmap list_fmap concat]. change (lenZ []) with 0. rewrite Z.add_0_r. exact Hts.
    + intros i P Hi Hi0. cbn [pcb set_proc set_openf σ booted] in Hi. rewrite lookupZ_insertZ_ne, lookupZ_cons in Hi by done.
      rewrite (proj2 (Z.eqb_neq i 0)) in Hi by done. destruct (i <? 0); [done|]. unfold lookupZ in Hi. case_if; [done|]. apply lookup_replicate in Hi as [? _]. done.
    + exists (set_proc (set_openf σ tb) 0 (Some (Running (while_N 2 (n - Z.of_nat 0) 10)))), m'. conjs; [|exact HI|].
      * apply (step_call σ 0 (Main (M_read_N 2 (digits_value nds) c)) _ _ _ _ eq_refl eq_refl Hc). cbn [next main_next cell Z.eqb is_digit]. rewrite Hnum. do 2 f_equal. lia.
      * change (lenZ []) with 0. lia.
  - rewrite (input_digit _ _ _ Hd) in Hc. destruct Hc as (tb & Hc & Hts).
    assert (Hb : is_digit b = true) by (rewrite Hd in Hnds; by apply Forall_app in Hnds as [_ [? _]%Forall_cons]).
    assert (Hv : add_digit (digits_value ds) b = digits_value (ds ++ [b])).
    { assert (Hpre : 0 <= digits_value (ds ++ [b]) < 10 ^ lenZ (ds ++ [b])) by (apply digits_value_bound; rewrite Hd in Hnds; apply Forall_app in Hnds as [? [? _]%Forall_cons]; apply Forall_app; auto).
      pose proof (lenZ_nonneg u). rewrite Hd, lenZ_app, lenZ_cons in Hnl. pose proof (Z.pow_le_mono_r 10 (lenZ (ds ++ [b])) 9 ltac:(lia) ltac:(rewrite lenZ_app; change (lenZ [b]) with 1; lia)).
      rewrite digits_value_snoc in *. unfold add_digit. rewrite wrap_s32_id; [lia|unfold_int32; lia]. }
    exists (booted first_files (empty_table.[2 <- Opened input_txt (lenZ (ds ++ [b])) 1]) all_sems (M_read_N 2 (digits_value (ds ++ [b])) b)), (n * W + 10 + lenZ u). conjs.
    + assert (Htb : tb = empty_table.[2 <- Opened input_txt (lenZ (ds ++ [b])) 1]).
      { cbn [do_call] in Hc. unfold sys_Read in Hc. rewrite lenZ_app. change (lenZ [b]) with 1.
        change (openf σ) with (empty_table.[2 <- Opened input_txt (lenZ ds) 1]) in Hc. change ((2 <? 0) || (14 <? 2)) with false in Hc. rewrite lookupZ_insertZ_eq in Hc by done. cbv beta iota in Hc.
        change (files σ !! input_txt) with (Some input_text) in Hc. cbv beta iota in Hc. rewrite slice_one, (input_digit _ _ _ Hd) in Hc by apply lenZ_nonneg. change (0 <? lenZ [b]) with true in Hc. cbv beta iota in Hc.
        rewrite insertZ_insertZ in Hc. change (lenZ [b]) with 1 in Hc. by injection Hc as <-. }
      rewrite Htb in Hc. rewrite (step_call σ 0 (Main (M_read_N 2 (digits_value ds) c)) _ _ _ (Main (M_read_N 2 (digits_value (ds ++ [b])) b)) eq_refl eq_refl Hc); [reflexivity|].
      cbn [next main_next cell Z.eqb]. by rewrite Hb, Hv.
    + apply inv_boot. constructor. by rewrite <- app_assoc.
    + rewrite lenZ_cons. lia.
Qed.

Lemma booting_main σ m : booting σ m -> goes σ 0 m.
Proof.
  assert (Hnext : forall σ σ' m m', step σ 0 = Some (Ok σ') -> booting σ' m' -> m' < m -> goes σ 0 m).
  { intros σ1 σ2 m1 m2 Hs Hb Hm. exists σ2, m2. conjs; [done|by apply inv_boot|done]. }
  intros Hb. destruct Hb; [| | | | |by apply booting_number].
  - eapply Hnext; [reflexivity|apply bt_main|lia].
  - eapply Hnext; [reflexivity|apply bt_sinhvien|lia].
  - eapply Hnext; [reflexivity|apply bt_voinuoc|lia].
  - eapply Hnext; [reflexivity|apply bt_output|lia].
  - eapply Hnext; [reflexivity|apply (bt_number [] nds 48); done|lia].
Qed.

(** ** Every step *)

Lemma line_goes_goes l ts σ m : lines !! l = Some ts -> line_goes l ts σ m -> goes σ 0 m.
Proof.
  intros Hl (σ' & p & κs & κv & own & φ & ψ & s & v & out & b & om & os & ov & mm & ms & mv & X & Hs & Hw & Hm).
  exists σ', (total l mm ms mv). conjs; [done| |done]. by eapply inv_work.
Qed.

Lemma join_blocked σ i P : 0 <= i < 10 -> (pcb σ).[i] = Some (Some (Running P)) -> do_call σ (Join i) = None.
Proof. intros Hi HP. cbn [do_call]. unfold sys_Join. replace ((i <? 0) || (10 <=? i)) with false by lia. by rewrite HP. Qed.

Section Working.
Context (l : nat) (ts : list (list Z)) (σ : Sys) (p : main_point) (κs κv : kid) (own : list nat) (φ : sv_phase) (ψ : vn_phase) (s v : Z) (out : list Z)
  (b : bool) (om os ov mm ms mv : Z) (X : option (list Z)).
Hypothesis Hl : lines !! l = Some ts.
Hypothesis Hw : working l ts σ p κs κv own φ ψ s v out b om os ov mm ms mv X.

Lemma working_tokens : Forall token ts.
Proof. by apply (Forall_lookup_1 _ _ _ _ Hlines Hl). Qed.

Lemma child_range i P : (pcb σ).[i] = Some P -> 0 <= i < 10.
Proof. intros HP. apply lookupZ_Some_range in HP. by rewrite (pr_length _ _ _ _ (wk_procs _ _ _ _ _ _ _ _ _ _ _ _ _ _ _ _ _ _ _ _ Hw)) in HP. Qed.

(** [main] goes on, or waits for a child that runs. *)
Lemma main_steps :
  goes σ 0 (total l mm ms mv) \/
  (exists i j P, κs = At i /\ κv = At j /\ (pcb σ).[i] = Some (Some (Running P)) /\ step σ 0 = None) \/
  (exists j P, κs = Gone /\ κv = At j /\ (pcb σ).[j] = Some (Some (Running P)) /\ step σ 0 = None).
Proof.
  pose proof working_tokens as Htok. pose proof child_range as Hrng. pose proof Hw as [W1 W2 W3 W4 W5 W6 W7 W8 W9 W10 W11 W12]. clear W8 W9 W10 W11 W12.
  destruct W3 as [fi c Hfi|fi c Hfi|fi fs c Hfi Hfs|fi fs c i Hfi Hfs Hi|fi fs c i Hfi Hfs Hi|fi fs c q Hfi Hfs|fi c Hfi|fi c i Hfi|fi c i j Hfi|fi c j Hfi].
  - left. eapply line_goes_goes; [exact Hl|]. by eapply main_create.
  - left. destruct W4 as (_ & E1 & _), W5 as (_ & E2 & _). pose proof (tab_size _ _ (vw_table _ _ _ _ _ _ W2)). destruct (decide (lenZ own = 15)).
    + by eapply main_open_full.
    + eapply line_goes_goes; [exact Hl|]. eapply main_open; try done. lia.
  - left. eapply line_goes_goes; [exact Hl|]. by eapply main_wait.
  - left. eapply line_goes_goes; [exact Hl|]. by eapply main_read.
  - left. eapply line_goes_goes; [exact Hl|]. by eapply main_write.
  - left. eapply line_goes_goes; [exact Hl|]. by eapply main_close.
  - left. eapply line_goes_goes; [exact Hl|]. by eapply main_exec_sv.
  - left. eapply line_goes_goes; [exact Hl|]. by eapply main_exec_vn.
  - destruct W4 as (Hi0 & P & HP & Hok). destruct P as [P|code|].
    + right. left. exists i, j, P. conjs; try done. apply (step_waits _ _ _ W1). cbn [call_of main_call]. eapply join_blocked; [by eapply Hrng|done].
    + left. eapply line_goes_goes; [exact Hl|]. eapply main_join_sv; try done. by inversion Hok; subst.
    + by inversion Hok.
  - destruct W5 as (Hj0 & P & HP & Hok). destruct P as [P|code|].
    + right. right. exists j, P. conjs; try done. apply (step_waits _ _ _ W1). cbn [call_of main_call]. eapply join_blocked; [by eapply Hrng|done].
    + left. eapply main_join_vn; try done. by inversion Hok; subst.
    + by inversion Hok.
Qed.

Lemma kid_facts i : κs = At i \/ κv = At i -> om = 1 /\ X = Some (line_text ts).
Proof. intros Hk. destruct (wk_point _ _ _ _ _ _ _ _ _ _ _ _ _ _ _ _ _ _ _ _ Hw); destruct Hk; done. Qed.

Lemma opened_so_far : 0 <= os <= 2 /\ 0 <= ov <= 1.
Proof.
  pose proof Hw as [_ _ _ W4 W5 _ _ _ _ _ _ _]. split.
  - destruct κs as [|i|]; [destruct W4 as (_ & -> & _); lia| |destruct W4 as (_ & -> & _); lia]. destruct W4 as (_ & P & _ & Hok). by apply (sv_ok_facts _ _ _ _ _ _ _ _ Hok).
  - destruct κv as [|i|]; [destruct W5 as (_ & -> & _); lia| |done]. destruct W5 as (_ & P & _ & Hok). by apply (vn_ok_facts _ _ _ _ _ _ _ _ Hok).
Qed.

(** [sinhvien] goes on, or waits for its turn, or has exited. *)
Lemma child_sv i P :
  κs = At i -> (pcb σ).[i] = Some (Some P) -> (forall fs fo c V stop, P = Running (Sinhvien (S_write fs fo c V stop)) -> ψ <> Start) ->
  goes σ i (total l mm ms mv) \/ (step σ i = None /\ ((exists w, φ = Prep w) /\ v = 0 \/ P = Exited 0)).
Proof.
  intros Hi HP Hord. pose proof (kid_facts i (or_introl Hi)) as [Hom HX]. pose proof opened_so_far as Hop. pose proof Hw as [W1 W2 W3 W4 W5 W6 W7 W8 W9 W10 W11 W12].
  rewrite Hi in W4. destruct W4 as (Hi0 & P1 & HP1 & Hok). assert (P1 = P) as -> by congruence. rewrite HX in W9. pose proof (tab_size _ _ (vw_table _ _ _ _ _ _ W2)).
  destruct (sv_steps (out_upto l) ts T working_tokens (line_bound _ _ Hl) σ own ψ s v _ out i (working_running _ _ _ _ _ _ _ _ _ _ _ _ _ _ _ _ _ _ _ _ Hw) W2 W9 P φ os ms HP Hok W6)
    as [(σ' & own' & P' & φ' & s' & v' & out' & o' & m' & Hs & Hv' & Hmv & Hok' & J' & Hm)|Hno]; [lia|exact Hord| |by right].
  left. destruct (working_sv _ _ _ _ _ _ _ _ _ _ _ _ _ _ _ _ _ _ _ _ Hw i P σ' own' P' φ' s' v' out' o' m' Hi HP Hok Hv' Hmv Hok' J' Hm) as [Hw' Ht].
  do 2 eexists. conjs; [exact Hs| |exact Ht]. by eapply inv_work.
Qed.

(** [voinuoc] goes on, or waits for a volume, or has exited. *)
Lemma child_vn i P :
  κv = At i -> (pcb σ).[i] = Some (Some P) ->
  goes σ i (total l mm ms mv) \/ (step σ i = None /\ ((exists j, ψ = Idle j) /\ s = 0 \/ P = Exited 0)).
Proof.
  intros Hi HP. pose proof (kid_facts i (or_intror Hi)) as [Hom HX]. pose proof opened_so_far as Hop. pose proof Hw as [W1 W2 W3 W4 W5 W6 W7 W8 W9 W10 W11 W12].
  rewrite Hi in W5. destruct W5 as (Hi0 & P1 & HP1 & Hok). assert (P1 = P) as -> by congruence. pose proof (tab_size _ _ (vw_table _ _ _ _ _ _ W2)).
  destruct (vn_steps (out_upto l) ts T working_tokens (line_bound _ _ Hl) σ own φ s v _ out i (working_running _ _ _ _ _ _ _ _ _ _ _ _ _ _ _ _ _ _ _ _ Hw) W2 P ψ ov mv HP Hok W6)
    as [(σ' & own' & P' & ψ' & s' & v' & ms' & out' & o' & m' & Hs & Hv' & Hmv & Hok' & J' & Htl & Hm)|Hno]; [lia| |by right].
  left. destruct (working_vn _ _ _ _ _ _ _ _ _ _ _ _ _ _ _ _ _ _ _ _ Hw i P σ' own' P' ψ' s' v' ms' out' o' m' Hi HP Hok Hv' Htl Hmv Hok' J' Hm) as [Hw' Ht].
  do 2 eexists. conjs; [exact Hs| |exact Ht]. by eapply inv_work.
Qed.
End Working.

(** *** Steps in order *)

Lemma elem_lookupZ {A} (t : list A) x : x ∈ t -> exists j, t.[j] = Some x.
Proof.
  intros (j & Hj)%list_elem_of_lookup. exists (Z.of_nat j). unfold lookupZ. by rewrite (proj2 (Z.ltb_ge _ 0)), Nat2Z.id by lia.
Qed.

Lemma in_order_start l ts σ p κs κv own φ ψ s v out b om os ov mm ms mv X i P :
  working l ts σ p κs κv own φ ψ s v out b om os ov mm ms mv X -> κs = At i -> (pcb σ).[i] = Some (Some P) -> in_order σ i = true ->
  forall fs fo c V stop, P = Running (Sinhvien (S_write fs fo c V stop)) -> ψ <> Start.
Proof.
  intros Hw Hi HP Ho fs fo c V stop ->. unfold in_order in Ho. rewrite HP in Ho. cbn [writing] in Ho. apply existsb_exists in Ho as (Q & HQ & Hlis).
  apply list_elem_of_In, elem_lookupZ in HQ as (j & Hj). pose proof Hw as [W1 W2 W3 W4 W5 W6 W7 W8 W9 W10 W11 W12].
  destruct Q as [Q|]; [|done]. destruct (decide (j = 0)) as [->|Hj0]; [rewrite W1 in Hj; by injection Hj as <-|].
  destruct (decide (j = i)) as [->|Hji]; [rewrite HP in Hj; by injection Hj as <-|].
  destruct (decide (κv = At j)) as [Hv|Hv].
  - rewrite Hv in W5. destruct W5 as (_ & P' & HP' & Hok). rewrite HP' in Hj. injection Hj as ->. intros ->. by inversion Hok; subst.
  - assert (Q = Joined) as ->; [|done]. eapply (pr_others _ _ _ _ W10); [exact Hj|done| |done]. rewrite Hi. naive_solver.
Qed.

Lemma booting_others σ m i : booting σ m -> i <> 0 -> step σ i = None.
Proof.
  intros Hb Hi. assert (Hp : exists Q, pcb σ = Q :: replicate 9 None) by (destruct Hb; eexists; reflexivity). destruct Hp as [Q Hp].
  unfold step. destruct (halted σ); [done|]. rewrite Hp, lookupZ_cons, (proj2 (Z.eqb_neq i 0)) by done. destruct (i <? 0); [done|].
  destruct ((replicate 9 None).[i - 1]) as [x|] eqn:E; [|done]. unfold lookupZ in E. case_if; [done|]. by apply lookup_replicate in E as [-> _].
Qed.

(** From a state of the invariant, every step that keeps the order leads to one with fewer
    steps left. *)
Lemma Inv_step σ m i : Inv σ m -> in_order σ i = true -> step σ i = None \/ goes σ i m.
Proof.
  intros HI Ho. destruct (halted σ) as [code|] eqn:Hh; [left; unfold step; by rewrite Hh|].
  destruct HI as [Hb|l ts p κs κv own φ ψ s v out b om os ov mm ms mv X Hl Hw ->|own P k He ->].
  - destruct (decide (i = 0)) as [->|Hi]; [right; by apply booting_main|left; by eapply booting_others].
  - destruct (decide (i = 0)) as [->|Hi0].
    { destruct (main_steps _ _ _ _ _ _ _ _ _ _ _ _ _ _ _ _ _ _ _ _ Hl Hw) as [Hg|[(?&?&?&?&?&?&?)|(?&?&?&?&?&?)]]; auto. }
    pose proof Hw as [W1 W2 W3 W4 W5 W6 W7 W8 W9 W10 W11 W12].
    destruct (decide (κs = At i)) as [Hs|Hs].
    { rewrite Hs in W4. destruct W4 as (_ & P & HP & _).
      destruct (child_sv _ _ _ _ _ _ _ _ _ _ _ _ _ _ _ _ _ _ _ _ Hl Hw i P Hs HP) as [?|[? _]]; auto. by eapply in_order_start. }
    destruct (decide (κv = At i)) as [Hv|Hv].
    { rewrite Hv in W5. destruct W5 as (_ & P & HP & _). destruct (child_vn _ _ _ _ _ _ _ _ _ _ _ _ _ _ _ _ _ _ _ _ Hl Hw i P Hv HP) as [?|[? _]]; auto. }
    left. unfold step. rewrite Hh. destruct ((pcb σ).[i]) as [[Q|]|] eqn:Ei; [|done..]. by pose proof (pr_others _ _ _ _ W10 i Q Ei Hi0 Hs Hv) as ->.
  - destruct (decide (i = 0)) as [->|Hi]; [right; by eapply ending_main|left; by eapply ending_others].
Qed.

Lemma not_writing_order σ i P : (pcb σ).[i] = Some P -> writing P = false -> in_order σ i = true.
Proof. intros HP Hn. unfold in_order. by rewrite HP, Hn. Qed.

Lemma listening_order σ i j P : (pcb σ).[j] = Some P -> listening P = true -> in_order σ i = true.
Proof.
  intros HP Hlis. unfold in_order. destruct ((pcb σ).[i]) as [Q|]; [|done]. destruct (writing Q); [|done]. apply existsb_exists. exists P. split; [|done].
  apply list_elem_of_In. by eapply lookupZ_elem_of.
Qed.

(** A line in which [main] waits for [sinhvien]: one of the two programs can go on. *)
Lemma children_progress l ts σ p κs κv own φ ψ s v out b om os ov mm ms mv X i j P :
  lines !! l = Some ts -> working l ts σ p κs κv own φ ψ s v out b om os ov mm ms mv X -> κs = At i -> κv = At j -> (pcb σ).[i] = Some (Some (Running P)) ->
  exists h, in_order σ h = true /\ goes σ h (total l mm ms mv).
Proof.
  intros Hl Hw Hi Hj HP. pose proof Hw as [W1 W2 W3 W4 W5 W6 W7 W8 W9 W10 W11 W12]. rewrite Hi in W4. rewrite Hj in W5.
  destruct W4 as (_ & P1 & HP1 & Hsv). assert (P1 = Running P) as -> by congruence. destruct W5 as (_ & Q & HQ & Hvn).
  assert (Hjo : writing (Some Q) = false) by (destruct Hvn; try done; by destruct (v1 =? 0)).
  pose proof (not_writing_order σ j (Some Q) HQ Hjo) as Hord_j. pose proof W6 as [[Hs0 Js] [Hv0 Jv] _ _ J1 J2].
  destruct (child_vn _ _ _ _ _ _ _ _ _ _ _ _ _ _ _ _ _ _ _ _ Hl Hw j Q Hj HQ) as [Hg|[_ Hno]]; [by exists j|].
  assert (Hst : ψ <> Start) by (destruct Hno as [[[? ->] _]| ->]; [done|inversion Hvn; by subst]).
  destruct (child_sv _ _ _ _ _ _ _ _ _ _ _ _ _ _ _ _ _ _ _ _ Hl Hw i _ Hi HP) as [Hg|[_ Hno']]; [by intros|exists i; split; [|done]|].
  - destruct (writing (Some (Running P))) eqn:Ewr; [|by eapply not_writing_order].
    assert (Hhold : exists w, φ = Hold w) by (inversion Hsv; subst; try done; by eexists). destruct Hhold as [w ->].
    pose proof (joint_hold _ _ _ _ _ _ _ W6) as [_ [?|Hpsi]]; [done|]. eapply (listening_order σ i j (Some Q) HQ). rewrite Hpsi in Hvn. by inversion Hvn.
  - destruct Hno' as [[[w ->] ->]|?]; [|done]. cbn in *. destruct Hno as [[[k ->] ->]| ->]; [cbn in *; lia|]. inversion Hvn; subst; cbn in *; lia.
Qed.

Lemma Inv_progress σ m : Inv σ m -> halted σ = None -> exists i, in_order σ i = true /\ goes σ i m.
Proof.
  intros HI Hh. destruct HI as [Hb|l ts p κs κv own φ ψ s v out b om os ov mm ms mv X Hl Hw ->|own P k He ->].
  - exists 0. split; [by destruct Hb|by apply booting_main].
  - pose proof Hw as [W1 W2 W3 W4 W5 W6 W7 W8 W9 W10 W11 W12].
    destruct (main_steps _ _ _ _ _ _ _ _ _ _ _ _ _ _ _ _ _ _ _ _ Hl Hw) as [Hg|[(i & j & P & Hi & Hj & HP & _)|(j & P & Hi & Hj & HP & _)]].
    + exists 0. split; [by eapply not_writing_order|done].
    + by eapply children_progress.
    + exists j. rewrite Hi in W4. destruct W4 as (-> & _ & _). rewrite Hj in W5. destruct W5 as (_ & Q & HQ & Hvn). assert (Q = Running P) as -> by congruence.
      split; [eapply not_writing_order; [exact HQ|]; destruct Hvn; try done; by destruct (v1 =? 0)|].
      destruct (child_vn _ _ _ _ _ _ _ _ _ _ _ _ _ _ _ _ _ _ _ _ Hl Hw j _ Hj HP) as [Hg|[_ [[[k ->] ->]|?]]]; [done| |done].
      destruct W6 as [[_ Js] _ _ _ _ J2]. cbn in *. lia.
  - exists 0. split; [|by eapply ending_main]. destruct He as [H1 H2 H3 H4 H5]. eapply not_writing_order; [exact H1|]. by destruct H3.
Qed.

Lemma Inv_nonneg σ m : Inv σ m -> 0 <= m.
Proof.
  intros HI. assert (HW : 0 <= W) by (unfold W; pose proof (lenZ_nonneg (out_upto (length lines))); pose proof (lenZ_nonneg input_text); lia).
  destruct HI as [Hb|l ts p κs κv own φ ψ s v out b om os ov mm ms mv X Hl Hw ->|own P k He ->].
  - destruct Hb; try (pose proof (lenZ_nonneg nds); nia). pose proof (lenZ_nonneg u). nia.
  - pose proof (wk_pos _ _ _ _ _ _ _ _ _ _ _ _ _ _ _ _ _ _ _ _ Hw). apply lookup_lt_Some in Hl. unfold total. nia.
  - destruct He as [_ _ H3 _ _]. destruct H3; lia.
Qed.

Lemma Inv_halted σ m code :
  Inv σ m -> halted σ = Some code -> code = exit_code /\ files σ !! output_txt = Some (out_upto served_lines) /\ screen σ = messages.
Proof.
  intros HI Hh. destruct HI as [Hb|l ts p κs κv own φ ψ s v out b om os ov mm ms mv X Hl Hw ->|own P k [H1 H2 H3 H4 H5] ->].
  - by destruct Hb.
  - by rewrite (working_running _ _ _ _ _ _ _ _ _ _ _ _ _ _ _ _ _ _ _ _ Hw) in Hh.
  - unfold halted in Hh. rewrite H1 in Hh. remember (screen σ) as scr. destruct H3; try done. injection Hh as <-. done.
Qed.
End Table.

(** ** The theorems *)

(** A table with its number of lines in front; no line is empty. *)
Record good_table (nds : list Z) (lines : list (list (list Z))) : Prop := {
  gt_digits : Forall (fun b => is_digit b = true) nds;
  gt_length : lenZ nds <= 9;
  gt_number : digits_value nds = Z.of_nat (length lines);
  gt_lines : Forall (fun ts => ts <> [] /\ Forall token ts) lines }.

Definition most_steps (nds : list Z) (lines : list (list (list Z))) (rest : list Z) : Z :=
  Z.of_nat (length lines) * W nds lines rest + 25 + lenZ nds.

Lemma Inv_reachable nds lines rest k σ :
  good_table nds lines -> nsteps step_in_order k (boot (input_text nds lines rest)) σ ->
  exists m, Inv nds lines rest σ m /\ Z.of_nat k + m <= most_steps nds lines rest.
Proof.
  intros [H1 H2 H3 H4]. assert (Hstart : Inv nds lines rest (boot (input_text nds lines rest)) (most_steps nds lines rest)) by (apply inv_boot, bt_start).
  revert Hstart. generalize (boot (input_text nds lines rest)) as σ0. generalize (most_steps nds lines rest) as m0. intros m0 σ0 HI Hs. revert m0 HI.
  induction Hs as [σ0|k σ0 σ1 σ (i & Ho & Hst) Hs IH]; intros m0 HI; [exists m0; split; [done|lia]|].
  destruct (Inv_step nds lines rest H1 H2 H3 H4 σ0 m0 i HI Ho) as [E|(σ2 & m2 & E & HI2 & Hm)]; [congruence|]. assert (σ2 = σ1) as -> by congruence.
  destruct (IH m2 HI2) as (m & HIm & Hk). exists m. split; [done|lia].
Qed.

(** Running a schedule in order; a process that cannot move is passed over. *)
Fixpoint run_in_order (σ : Sys) (sched : list Z) : nat * Sys :=
  match sched with
  | [] => (0%nat, σ)
  | i :: sched =>
      match in_order σ i, step σ i with
      | true, Some (Ok σ') => let '(k, σ2) := run_in_order σ' sched in (S k, σ2)
      | _, _ => run_in_order σ sched
      end
  end.

Lemma run_in_order_steps σ sched : nsteps step_in_order (run_in_order σ sched).1 σ (run_in_order σ sched).2.
Proof.
  revert σ. induction sched as [|i sched IH]; intros σ; [constructor|]. cbn [run_in_order]. destruct (in_order σ i) eqn:Ho; [|apply IH].
  destruct (step σ i) as [[σ'| | |]|] eqn:Hs; try apply IH. specialize (IH σ'). destruct (run_in_order σ' sched) as [k σ2]. econstructor; [|exact IH].
  by exists i.
Qed.

(** C9: the two taps.  Let the input be the number of lines and the lines, each with at least
    one volume of up to nine digits that is not zero.  Whatever the order of the steps of the
    processes, as long as [sinhvien] never writes a volume before [voinuoc] has gone to the
    end of output.txt: the number of steps is bounded, no process does anything undefined,
    as long as [main] has not exited some process can go on (there is no deadlock), and when
    it exits output.txt holds the lines with every volume followed by the tap that is free
    first.  For up to three lines the code is 0; with more, three lines are served and [main]
    gives up, since descriptors are never given back. *)
Theorem taps_serve nds lines rest k σ :
  good_table nds lines -> nsteps step_in_order k (boot (input_text nds lines rest)) σ ->
  Z.of_nat k <= most_steps nds lines rest /\
  (forall i, in_order σ i = true -> step σ i = None \/ exists σ', step σ i = Some (Ok σ')) /\
  (halted σ = None -> exists σ', step_in_order σ σ') /\
  (forall code, halted σ = Some code ->
     code = (if (length lines <=? 3)%nat then 0 else -1) /\
     files σ !! output_txt = Some (concat (served <$> take 3 lines)) /\
     screen σ = (if (length lines <=? 3)%nat then [] else refusal)).
Proof.
  intros Hg Hs. destruct (Inv_reachable _ _ _ _ _ Hg Hs) as (m & HI & Hk). destruct Hg as [H1 H2 H3 H4].
  pose proof (Inv_nonneg nds lines rest H2 σ m HI). conjs; [lia| | |].
  - intros i Ho. destruct (Inv_step nds lines rest H1 H2 H3 H4 σ m i HI Ho) as [?|(σ' & ? & ? & _)]; eauto.
  - intros Hh. destruct (Inv_progress nds lines rest H1 H2 H3 H4 σ m HI Hh) as (i & Ho & σ' & ? & Hst & _). exists σ', i. auto.
  - intros code Hh. destruct (Inv_halted nds lines rest σ m code HI Hh) as (-> & -> & ->). conjs; [done| |done]. f_equal. unfold out_upto, served_lines.
    do 2 f_equal. destruct (decide (length lines <= 3)%nat); [rewrite Nat.min_r by lia; by rewrite !take_ge by lia|by rewrite Nat.min_l by lia].
Qed.

(** Round robin over [main] and two children. *)
Definition round_robin : list Z := concat (replicate 80 [0; 1; 2]).

Lemma taps_serve_witness :
  good_table [49] [[[51]; [53]; [52]]] /\
  let r := run_in_order (boot (input_text [49] [[[51]; [53]; [52]]] [])) round_robin in
  nsteps step_in_order r.1 (boot (input_text [49] [[[51]; [53]; [52]]] [])) r.2 /\ halted r.2 = Some 0 /\
  files r.2 !! output_txt = Some [51; 32; 49; 32; 53; 32; 50; 32; 52; 32; 49; 32; 10].
Proof.
  assert (Hg : good_table [49] [[[51]; [53]; [52]]]).
  { split; [by repeat constructor|vm_compute; congruence|reflexivity|]. repeat constructor; (done || (vm_compute; congruence)). }
  split; [exact Hg|]. intros r. pose proof (run_in_order_steps (boot (input_text [49] [[[51]; [53]; [52]]] [])) round_robin) as Hs. fold r in Hs.
  split; [exact Hs|]. assert (Hh : halted r.2 = Some 0) by (vm_compute; reflexivity). split; [exact Hh|].
  destruct (taps_serve _ _ _ _ _ Hg Hs) as (_ & _ & _ & Hf). destruct (Hf 0 Hh) as (_ & -> & _). reflexivity.
Defined.

(** Without time slices (the timer is off unless nachos runs with -rs) the process that
    runs goes on until it waits, and the order is lost: on a table with one line, the volumes
    3 and 5, [main] runs up to its Join, [sinhvien] writes the first volume and waits for its
    turn, [voinuoc] skips the volume on its way to the end of output.txt, finds nothing to
    read and exits without giving the turn back.  Then no process can ever move again and
    [main] has not exited; output.txt holds the volume without a tap. *)
Theorem taps_deadlock_without_slices :
  let start := boot (input_text [49] [[[51]; [53]]] []) in
  exists σ, (σ ← go_on 100 start 0; σ ← go_on 100 σ 1; go_on 100 σ 2) = Ok σ /\
    good_table [49] [[[51]; [53]]] /\ halted σ = None /\ (forall i, step σ i = None) /\ files σ !! output_txt = Some [51; 32; 10].
Proof.
  intros start. eexists. split; [vm_compute; reflexivity|]. split.
  { split; [by repeat constructor|vm_compute; congruence|reflexivity|]. repeat constructor; (done || (vm_compute; congruence)). }
  split; [reflexivity|]. split; [|reflexivity]. intros i.
  destruct (decide (0 <= i < 10)) as [Hi|Hi].
  - assert (Hc : i = 0 \/ i = 1 \/ i = 2 \/ i = 3 \/ i = 4 \/ i = 5 \/ i = 6 \/ i = 7 \/ i = 8 \/ i = 9) by lia.
    repeat destruct Hc as [-> | Hc]; [vm_compute; reflexivity..|]. subst i. vm_compute. reflexivity.
  - unfold step. destruct (halted _); [done|]. rewrite lookupZ_None; [done|]. change (lenZ _) with 10. lia.
Qed.
