(* ===== verification/HostCalls.v ===== *)
(** * The file calls on the files of the host

    [Exception_CreateFile], [Open], [Close], [Read] and [Write] of userprog/exception.cc in
    the build with FILESYS_STUB, on the machine of the program ([Machine], with the copies of
    [UserMem]) and above the classes of [UnixFiles].  The theorem is that these calls, on any
    host that keeps the promises of its system calls, do what the programs of [Taps] see. *)

From Stdlib Require Import Ascii String.
From stdpp Require Import strings.
From S2P Require Import Prelude Int32 Machine Directory UserMem ConsoleCalls FileCalls Taps UnixFiles.

(** [gSynchConsole], which these calls only use: [Read] gives the size and the buffer it has
    filled.  What it does with the terminal is in [Console]. *)
Class Terminal (U : Type) := {
  t_read : list Z -> Z -> U -> Z * list Z * U;
  t_write : list Z -> U -> U }.

Section HostCalls.
Context {U : Type} `{!Unix U} `{!Terminal U}.

(** [fileSystem], the descriptors whose object was deleted, and the host. *)
Record Desk := mkDesk { d_fs : HostFS; d_freed : list Z; d_host : U }.

Definition set_host (d : Desk) (h : U) : Desk := mkDesk (d_fs d) (d_freed d) h.
(** [fileSystem->openf[i] = p] *)
Definition set_entry (d : Desk) (i : Z) (p : option HostFile) : Desk :=
  mkDesk (mkHostFS ((UnixFiles.openf (d_fs d)).[i <- p]) (index (d_fs d))) (d_freed d) (d_host d).

(** The object behind [fileSystem->openf[id]]. *)
Definition object (d : Desk) (id : Z) : outcome HostFile :=
  p ← deref ((UnixFiles.openf (d_fs d)).[id]);
  f ← deref p;
  if bool_decide (id ∈ d_freed d) then Undefined else Ok f.
(** [type], which the first constructor leaves alone *)
Definition type_of (f : HostFile) : outcome Z := deref (hf_type f).

(** [Exception_CreateFile]: whatever happens, 0 is written last. *)
Definition call_CreateFile (m : Machine) (d : Desk) : outcome (Machine * Desk) :=
  addr ← Machine_ReadRegister m 4;
  '(fileName, m) ← User2System m addr 33;
  len ← strlen fileName;
  m ← (if len =? 0 then Machine_WriteRegister m 2 (-1) else Ok m);
  '(created, h) ← FileSystem_Create (cstr fileName) 0 (d_host d);
  m ← (if negb created then Machine_WriteRegister m 2 (-1) else Ok m);
  m ← Machine_WriteRegister m 2 0;
  Ok (m, set_host d h).

(** [Exception_Open]: register 2 is left alone when the file cannot be opened. *)
Definition call_Open (m : Machine) (d : Desk) : outcome (Machine * Desk) :=
  virtAddr ← Machine_ReadRegister m 4;
  type ← Machine_ReadRegister m 5;
  '(filename, m) ← User2System m virtAddr 32;
  freeSlot ← FileSystem_FindFreeSlot (d_fs d);
  if negb (freeSlot =? -1) then
    if (type =? 0) || (type =? 1) then
      '(p, h) ← FileSystem_Open_type (cstr filename) type (d_host d);
      let d := set_entry (set_host d h) freeSlot p in
      m ← (if p : option HostFile then Machine_WriteRegister m 2 freeSlot else Ok m);
      Ok (m, d)
    else if type =? 2 then m ← Machine_WriteRegister m 2 0; Ok (m, d)
    else m ← Machine_WriteRegister m 2 1; Ok (m, d)
  else m ← Machine_WriteRegister m 2 (-1); Ok (m, d).

(** [Exception_Close] *)
Definition call_Close (m : Machine) (d : Desk) : outcome (Machine * Desk) :=
  fileId ← Machine_ReadRegister m 4;
  if (0 <=? fileId) && (fileId <=? 14) then
    p ← deref ((UnixFiles.openf (d_fs d)).[fileId]);
    match p with
    | Some _ =>
        m ← Machine_WriteRegister m 2 0;
        f ← object d fileId;
        h ← OpenFile_delete f (d_host d);
        Ok (m, mkDesk (d_fs d) (fileId :: d_freed d) h)
    | None => m ← Machine_WriteRegister m 2 (-1); Ok (m, d)
    end
  else m ← Machine_WriteRegister m 2 (-1); Ok (m, d).

(** [Exception_Read]: what is read lands at the front of [temp]. *)
Definition call_Read (m : Machine) (d : Desk) : outcome (Machine * Desk) :=
  addr ← Machine_ReadRegister m 4;
  charCount ← Machine_ReadRegister m 5;
  id ← Machine_ReadRegister m 6;
  if (id <? 0) || (14 <? id) then m ← Machine_WriteRegister m 2 (-1); Ok (m, d)
  else
    p ← deref ((UnixFiles.openf (d_fs d)).[id]);
    match p with
    | None => m ← Machine_WriteRegister m 2 (-1); Ok (m, d)
    | Some _ =>
        f ← object d id;
        type ← type_of f;
        if type =? 3 then m ← Machine_WriteRegister m 2 (-1); Ok (m, d)
        else
          let '(firstPositionInFile, f, h) := OpenFile_GetCurrentPos f (d_host d) in
          '(temp, m) ← User2System m addr charCount;
          if type =? 2 then
            let '(size, temp, h) := t_read temp charCount h in
            '(_, m) ← System2User m addr size temp;
            m ← Machine_WriteRegister m 2 size;
            Ok (m, set_entry (set_host d h) id (Some f))
          else
            '(n, bytes, f, h) ← OpenFile_Read f charCount h;
            temp ← store temp 0 bytes;
            if 0 <? n then
              let '(lastPositionInFile, f, h) := OpenFile_GetCurrentPos f h in
              let len := wrap_s32 (lastPositionInFile - firstPositionInFile) in
              '(_, m) ← System2User m addr len temp;
              m ← Machine_WriteRegister m 2 len;
              Ok (m, set_entry (set_host d h) id (Some f))
            else m ← Machine_WriteRegister m 2 (-2); Ok (m, set_entry (set_host d h) id (Some f))
    end.

(** The loop of Write on the console: it shows [temp] up to a NUL or a newline and then a
    newline, and counts; without either it runs out of the buffer. *)
Fixpoint show_line (temp : list Z) (h : U) : outcome (Z * U) :=
  match temp with
  | [] => Undefined
  | c :: rest =>
      if negb (c =? 0) && negb (c =? 10) then
        '(i, h) ← show_line rest (t_write [c] h);
        Ok (i + 1, h)
      else Ok (0, t_write [10] h)
  end.

(** [Exception_Write]: after an error the call goes on. *)
Definition call_Write (m : Machine) (d : Desk) : outcome (Machine * Desk) :=
  virtAddr ← Machine_ReadRegister m 4;
  charcount ← Machine_ReadRegister m 5;
  id ← Machine_ReadRegister m 6;
  m ← (if (id <? 0) || (14 <? id) then Machine_WriteRegister m 2 (-1) else Ok m);
  p ← deref ((UnixFiles.openf (d_fs d)).[id]);
  m ← (if p : option HostFile then Ok m else Machine_WriteRegister m 2 (-1));
  f ← object d id;
  type ← type_of f;
  m ← (if (type =? 1) || (type =? 2) then Machine_WriteRegister m 2 (-1) else Ok m);
  let '(OldPos, f, h) := OpenFile_GetCurrentPos f (d_host d) in
  '(temp, m) ← User2System m virtAddr charcount;
  if type =? 0 then
    '(n, f, h) ← OpenFile_Write f temp charcount h;
    if 0 <? n then
      let '(NewPos, f, h) := OpenFile_GetCurrentPos f h in
      m ← Machine_WriteRegister m 2 (wrap_s32 (NewPos - OldPos));
      Ok (m, set_entry (set_host d h) id (Some f))
    else Ok (m, set_entry (set_host d h) id (Some f))
  else if type =? 3 then
    '(i, h) ← show_line temp h;
    m ← Machine_WriteRegister m 2 (i - 1);
    Ok (m, set_entry (set_host d h) id (Some f))
  else Ok (m, set_entry (set_host d h) id (Some f)).

(** The bytes of a string. *)
Definition text (s : string) : list Z := map (fun a => Z.of_N (N_of_ascii a)) (list_ascii_of_string s).

(** The file calls of a user program, from its registers and its memory *)
Definition host_call (m : Machine) (d : Desk) (c : call) : outcome (Machine * Desk) :=
  match c with
  | CreateFile _ => call_CreateFile m d
  | Open _ _ => call_Open m d
  | Taps.Read _ _ => call_Read m d
  | Taps.Write _ _ => call_Write m d
  | Taps.Close _ => call_Close m d
  | _ => Undefined
  end.

(** ** What the programs see *)

Definition console_name (name : string) : Prop := name = "stdin"%string \/ name = "stdout"%string.
Notation V d := (u_view (d_host d)).

(** An entry of the table, as [Taps] has it. *)
Definition entry_ok (d : Desk) (i : Z) (e : slot) : Prop :=
  match e with
  | Null => (UnixFiles.openf (d_fs d)).[i] = Some None /\ i ∉ d_freed d
  | Console => exists f, (UnixFiles.openf (d_fs d)).[i] = Some (Some f) /\ i ∉ d_freed d /\ is_Some (opened (V d) !! file f)
  | Opened name pos type => exists f ino, (UnixFiles.openf (d_fs d)).[i] = Some (Some f) /\ i ∉ d_freed d /\
      hf_type f = Some type /\ (type = 0 \/ type = 1) /\ currentOffset f = pos /\ ~ console_name name /\
      names (V d) !! text name = Some ino /\ opened (V d) !! file f = Some (ino, pos)
  | Deleted => (exists f, (UnixFiles.openf (d_fs d)).[i] = Some (Some f)) /\ i ∈ d_freed d
  end.

Definition content (F : Files) (name : list Z) : option (list Z) := ino ← names F !! name; contents F !! ino.

Record represents (σ : Sys) (d : Desk) : Prop := {
  rp_files : forall name, ~ console_name name -> files σ !! name = content (V d) (text name);
  rp_names : forall a b ino, names (V d) !! a = Some ino -> names (V d) !! b = Some ino -> a = b;
  rp_length : lenZ (Taps.openf σ) = 15 /\ lenZ (UnixFiles.openf (d_fs d)) = 15;
  rp_table : forall i e, (Taps.openf σ).[i] = Some e -> entry_ok d i e;
  rp_apart : forall i j f g, i <> j -> (UnixFiles.openf (d_fs d)).[i] = Some (Some f) -> (UnixFiles.openf (d_fs d)).[j] = Some (Some g) ->
    i ∉ d_freed d -> j ∉ d_freed d -> file f <> file g }.

(** The host when Read or Write calls it for the object [f]: after [GetCurrentPos] and the
    seek to the position. *)
Definition host_at_io (d : Desk) (f : HostFile) : outcome U :=
  let '(_, f, h) := OpenFile_GetCurrentPos f (d_host d) in Lseek (file f) (currentOffset f) SEEK_SET h.

(** The system call of the host in [c] reports an error, or writes less than it should. *)
Definition host_fails (d : Desk) (c : call) : Prop :=
  match c with
  | CreateFile name => (u_open (text name) CreateTruncate (d_host d)).1 = -1
  | Open name _ => (u_open (text name) ReadWrite (d_host d)).1 = -1 /\ is_Some (names (V d) !! text name)
  | Taps.Read n id => exists f h, (UnixFiles.openf (d_fs d)).[id] = Some (Some f) /\ host_at_io d f = Ok h /\ (u_read (file f) n h).1.1 = -1
  | Taps.Write buffer id => exists f h, (UnixFiles.openf (d_fs d)).[id] = Some (Some f) /\ host_at_io d f = Ok h /\ (u_write (file f) buffer h).1 <> lenZ buffer
  | _ => False
  end.

(** The code of a call, which is in register 2. *)
Definition call_number (c : call) : Z :=
  match c with CreateFile _ => 4 | Open _ _ => SC_Open | Taps.Read _ _ => 6 | Taps.Write _ _ => SC_Write | _ => 8 end.

(** The bytes [str], without a NUL, are in the memory of the program at [va]; a C string has
    a NUL behind them. *)
Definition bytes_at (m : Machine) (va : Z) (str : list Z) : Prop := 0 ∉ str /\ forall j, 0 <= j < lenZ str -> at_user m va j = str.[j].
Definition name_at (m : Machine) (va : Z) (str : list Z) : Prop := bytes_at m va str /\ at_user m va (lenZ str) = Some 0.

(** The program makes the call [c]: the arguments are in its registers and its memory.  Names
    are not longer than the kernel copies, the buffer of a Write has no NUL in it, and the
    buffer of a Read is in writable memory. *)
Definition at_call (m : Machine) (c : call) : Prop :=
  reg m 2 = call_number c /\
  match c with
  | CreateFile name => ~ console_name name /\ name_at m (reg m 4) (text name) /\ lenZ (text name) <= 33
  | Open name type => ~ console_name name /\ name_at m (reg m 4) (text name) /\ lenZ (text name) <= 32 /\ reg m 5 = type
  | Taps.Read n id => reg m 5 = n /\ reg m 6 = id /\ 0 <= n /\
      forall j, 0 <= j < n -> is_Some (at_user m (reg m 4) j) /\ is_Some (pa_of m (wrap_s32 (reg m 4 + j)) true)
  | Taps.Write buffer id => reg m 5 = lenZ buffer /\ reg m 6 = id /\ bytes_at m (reg m 4) buffer
  | Taps.Close id => reg m 4 = id
  | _ => False
  end.

(** What [System2User] copies whole: it stops behind the first NUL. *)
Definition copied_whole (bs : list Z) : Prop := Forall byte bs /\ upto_nul bs = bs.

Context `{!UnixLaws U}.

Lemma text_inj a b : text a = text b -> a = b.
Proof.
  intros H.
  assert (list_ascii_of_string a = list_ascii_of_string b) as E.
  { revert H. unfold text. generalize (list_ascii_of_string a) (list_ascii_of_string b). intros l. induction l as [|x l IH]; intros [|y l'] H; try done.
    cbn [map] in H. injection H as Hx Hl. rewrite (IH _ Hl). f_equal. rewrite <- (ascii_N_embedding x), <- (ascii_N_embedding y). f_equal. lia. }
  by rewrite <- (string_of_list_ascii_of_string a), <- (string_of_list_ascii_of_string b), E.
Qed.

(** The object of an open file. *)
Lemma opened_object σ d id name pos type :
  represents σ d -> (Taps.openf σ).[id] = Some (Opened name pos type) ->
  exists f ino X, object d id = Ok f /\ (openf (d_fs d)).[id] = Some (Some f) /\ id ∉ d_freed d /\ type_of f = Ok type /\ (type = 0 \/ type = 1) /\
    currentOffset f = pos /\ ~ console_name name /\ names (V d) !! text name = Some ino /\ on_file f (d_host d) ino pos X /\ files σ !! name = Some X /\ 0 <= pos <= int32_max.
Proof.
  intros Hr Hi. destruct (rp_table _ _ Hr _ _ Hi) as (f & ino & H1 & H2 & H3 & H4 & H5 & H6 & H7 & H8).
  destruct (fo_content _ (view_ok (d_host d)) ino) as [X HX]; [left; by exists (text name)|]. exists f, ino, X.
  unfold object, type_of. rewrite H1. cbn [deref mbind outcome_bind]. rewrite bool_decide_eq_false_2 by done. rewrite H3.
  conjs; try done; [|by apply (fo_offset _ (view_ok (d_host d)) _ _ _ H8)..]. rewrite (rp_files _ _ Hr) by done. unfold content. by rewrite H7.
Qed.

(** The file of [id] has moved to [q] and holds [X] now. *)
Lemma represents_moved σ d id name pos type f ino X0 f' X q h' σ' :
  represents σ d -> (Taps.openf σ).[id] = Some (Opened name pos type) -> (openf (d_fs d)).[id] = Some (Some f) -> id ∉ d_freed d -> hf_type f = Some type ->
  (type = 0 \/ type = 1) -> ~ console_name name -> names (V d) !! text name = Some ino -> on_file f (d_host d) ino pos X0 ->
  moved f (d_host d) ino q X h' -> file f' = file f -> hf_type f' = hf_type f -> currentOffset f' = q ->
  (forall nm, files σ' !! nm = if decide (nm = name) then Some X else files σ !! nm) -> Taps.openf σ' = (Taps.openf σ).[id <- Opened name q type] ->
  represents σ' (set_entry (set_host d h') id (Some f')).
Proof.
  intros Hr Hi Hf Hfr Hty Ht01 Hcn Hino [Ho Hc] Hm Ef Ety Epos Hfs Htb. unfold moved in Hm. destruct (rp_length _ _ Hr) as [Hl1 Hl2].
  assert (Hid : 0 <= id < 15) by (apply lookupZ_Some_range in Hi; lia).
  split; cbn [set_entry set_host d_fs d_freed d_host openf]; rewrite ?Hm, ?Htb, ?lenZ_insertZ; try done.
  - intros nm Hnm. rewrite Hfs. unfold content. cbn [names contents set_offset set_content]. case_decide as Hd.
    + subst nm. rewrite Hino. cbn. by rewrite lookup_insert_eq.
    + rewrite (rp_files _ _ Hr) by done. unfold content. destruct (names (V d) !! text nm) as [ino'|] eqn:E; [|done]. cbn.
      rewrite lookup_insert_ne; [done|]. intros ->. apply Hd, text_inj. by eapply (rp_names _ _ Hr).
  - apply (rp_names _ _ Hr).
  - intros i e. rewrite lookupZ_insertZ. case_decide as Hd.
    + destruct Hd as [<- _]. intros [= <-]. exists f', ino. cbn [set_entry set_host d_fs d_freed d_host openf]. rewrite Hm, lookupZ_insertZ_eq by lia.
      cbn [names opened set_offset set_content]. rewrite Ef, Ety, lookup_insert_eq. conjs; try done.
    + intros He. pose proof (rp_table _ _ Hr _ _ He) as Hok. assert (Hne : id <> i) by (intros ->; apply Hd; split; [done|]; apply lookupZ_Some_range in He; lia).
      assert (Hfd : forall g, (openf (d_fs d)).[i] = Some (Some g) -> i ∉ d_freed d -> file g <> file f) by (intros g Hg Hgf; apply not_eq_sym; by apply (rp_apart _ _ Hr id i)).
      unfold entry_ok in *. cbn [set_entry set_host d_fs d_freed d_host openf]. rewrite Hm, (lookupZ_insertZ_ne _ id i) by done. cbn [names opened set_offset set_content].
      destruct e as [| |nm' p' t'|]; [done| | |done].
      * destruct Hok as (g & G1 & G2 & G3). exists g. conjs; [done..|]. rewrite lookup_insert_ne; [done|]. by apply not_eq_sym, Hfd.
      * destruct Hok as (g & ino' & G1 & G2 & G3 & G4 & G5 & G6 & G7 & G8). exists g, ino'. conjs; try done. rewrite lookup_insert_ne; [done|]. by apply not_eq_sym, Hfd.
  - intros i j g1 g2 Hij H1 H2 F1 F2. destruct (decide (id = i)) as [Ei|Ei], (decide (id = j)) as [Ej|Ej]; subst;
      rewrite ?lookupZ_insertZ_eq in H1 by lia; rewrite ?lookupZ_insertZ_eq in H2 by lia; rewrite ?lookupZ_insertZ_ne in H1 by done; rewrite ?lookupZ_insertZ_ne in H2 by done.
    + done.
    + injection H1 as <-. rewrite Ef. by eapply (rp_apart _ _ Hr i j).
    + injection H2 as <-. rewrite Ef. by eapply (rp_apart _ _ Hr i j).
    + by eapply (rp_apart _ _ Hr i j).
Qed.

(** *** The machine of the program *)

(** The kernel has changed nothing of the program but registers. *)
Record same_program (m m' : Machine) : Prop := {
  sp_ok : user_ok m';
  sp_bytes : forall v, ubyte m' v = ubyte m v;
  sp_map : forall v w, pa_of m' v w = pa_of m v w }.

Lemma same_program_trans m1 m2 m3 : same_program m1 m2 -> same_program m2 m3 -> same_program m1 m3.
Proof. intros [A1 A2 A3] [B1 B2 B3]. split; [done|intros; by rewrite B2|intros; by rewrite B3]. Qed.

Lemma same_program_stored m m' va : same_program m m' -> stored va 0 [] m m'.
Proof. intros [_ H _]. split; [intros j; change (lenZ (@nil Z)) with 0; lia|]. intros v _. apply H. Qed.

Lemma same_program_at m m' va j : same_program m m' -> at_user m' va j = at_user m va j.
Proof. intros [_ H _]. apply H. Qed.

Lemma read_arg m r : user_ok m -> 0 <= r < 40 -> Machine_ReadRegister m r = Ok (reg m r).
Proof. intros Hu Hr. rewrite ReadRegister_spec by apply Hu. by rewrite (proj2 (Z.leb_le 0 r)), (proj2 (Z.ltb_lt r 40)) by lia. Qed.

Lemma write_r2 m v :
  user_ok m -> int32 v -> exists m', Machine_WriteRegister m 2 v = Ok m' /\ same_program m m' /\ reg m' 2 = v /\ forall r, r <> 2 -> reg m' r = reg m r.
Proof.
  intros Hu Hv. unfold Machine_WriteRegister. change ((0 <=? 2) && (2 <? NumTotalRegs)) with true. cbn [ASSERT mbind outcome_bind]. eexists. split; [reflexivity|]. split; [split|].
  - by apply user_ok_set_reg.
  - intros x. unfold ubyte, pa_of. by rewrite phys_of_set_reg.
  - intros x w. unfold pa_of. by rewrite phys_of_set_reg.
  - split; [apply reg_set_reg_eq; rewrite (wf_registers _ (uo_wf _ Hu)); unfold NumTotalRegs; lia|]. intros r Hr. by apply reg_set_reg_ne.
Qed.

Lemma copied_in m va n str :
  user_ok m -> 0 <= n -> cstring_at (at_user m va) (Z.to_nat n) 0 = Some str ->
  exists m', User2System m va n = Ok (kernel_buf n str, m') /\ same_program m m' /\ (forall r, reg m' r = reg m r) /\ (length str <= Z.to_nat n)%nat.
Proof.
  intros Hu Hn Hs. pose proof (User2System_spec m va n Hu ltac:(lia)) as HU. rewrite Hs in HU. destruct HU as (m' & E & Hl & Hu' & HM & Hmap).
  exists m'. conjs; [done| |intros r; unfold reg; by destruct Hmap as [-> _]|done]. split; [done|intros v; by apply ubyte_same|intros v w; by apply pa_of_same_map].
Qed.

Lemma cstring_bytes f str n i :
  0 ∉ str -> (forall j, 0 <= j < lenZ str -> f (i + j) = str.[j]) -> (length str = n \/ (length str < n)%nat /\ f (i + lenZ str) = Some 0) -> cstring_at f n i = Some str.
Proof.
  revert n i. induction str as [|b str IH]; intros n i H0 Hf Hn.
  - destruct n as [|n]; [done|]. destruct Hn as [Hn|[_ Hn]]; [done|]. cbn [cstring_at]. change (lenZ (@nil Z)) with 0 in Hn. rewrite Z.add_0_r in Hn. by rewrite Hn.
  - apply not_elem_of_cons in H0 as [Hb H0]. destruct n as [|n]; [destruct Hn as [Hn|[Hn _]]; cbn [length] in Hn; lia|]. cbn [cstring_at].
    assert (Hl : lenZ (b :: str) = lenZ str + 1) by (rewrite lenZ_cons; lia). pose proof (lenZ_nonneg str).
    pose proof (Hf 0 ltac:(lia)) as E0. rewrite Z.add_0_r in E0. rewrite E0. change ((b :: str).[0]) with (Some b). cbn [mbind option_bind]. rewrite (proj2 (Z.eqb_neq b 0)) by lia.
    rewrite (IH n (i + 1) H0); [done| |].
    + intros j Hj. replace (i + 1 + j) with (i + (j + 1)) by lia. rewrite Hf by lia. rewrite lookupZ_cons. rewrite (proj2 (Z.eqb_neq (j + 1) 0)), (proj2 (Z.ltb_ge (j + 1) 0)) by lia. f_equal. lia.
    + cbn [length] in Hn. destruct Hn as [Hn|[Hn E]]; [left; lia|right]. split; [lia|]. rewrite <- E. f_equal. lia.
Qed.

Lemma copy_name m va name limit :
  user_ok m -> name_at m va (text name) -> 0 <= limit -> lenZ (text name) <= limit ->
  exists m' rest, User2System m va limit = Ok (text name ++ 0 :: rest, m') /\ same_program m m' /\ (forall r, reg m' r = reg m r) /\ cstr (text name ++ 0 :: rest) = text name /\ 0 ∉ text name.
Proof.
  intros Hu [[H0 Hb] Hz] Hn Hl. pose proof Hl as Hl'. unfold lenZ in Hl'. destruct (copied_in m va limit (text name) Hu Hn) as (m' & E & Hs & Hr & Hle).
  { apply cstring_bytes; [done|done|]. destruct (decide (length (text name) = Z.to_nat limit)) as [|]; [by left|right; split; [lia|exact Hz]]. }
  unfold kernel_buf in E. destruct (Z.to_nat (limit + 1) - length (text name))%nat as [|k] eqn:Ek; [lia|]. exists m', (replicate k 0). conjs; try done.
  clear - H0. induction (text name) as [|b l IH]; [done|]. apply not_elem_of_cons in H0 as [Hb H0]. cbn [app cstr]. rewrite (proj2 (Z.eqb_neq b 0)) by lia. by rewrite IH.
Qed.

Lemma readable_string f n i : (forall j, 0 <= j < Z.of_nat n -> is_Some (f (i + j))) -> exists str, cstring_at f n i = Some str.
Proof.
  revert i. induction n as [|n IH]; intros i Hf; [by exists []|]. cbn [cstring_at]. destruct (Hf 0 ltac:(lia)) as [b Eb]. rewrite Z.add_0_r in Eb. rewrite Eb. cbn [mbind option_bind].
  destruct (b =? 0); [by exists []|]. destruct (IH (i + 1)) as [str ->]; [|by exists (b :: str)]. intros j Hj. replace (i + 1 + j) with (i + (j + 1)) by lia. apply Hf. lia.
Qed.

(** The end of a Read: the bytes [bs] at the front of [buf] are copied out, and counted. *)
Lemma copied_out m m1 va buf bs :
  same_program m m1 -> slice buf 0 (lenZ bs) = bs -> 0 < lenZ bs <= lenZ buf -> int32 (lenZ bs) -> Forall byte buf -> upto_nul bs = bs ->
  (forall j, 0 <= j < lenZ bs -> is_Some (pa_of m (wrap_s32 (va + j)) true)) ->
  exists z m2 m3, System2User m1 va (lenZ bs) buf = Ok (z, m2) /\ Machine_WriteRegister m2 2 (lenZ bs) = Ok m3 /\ user_ok m3 /\ reg m3 2 = lenZ bs /\ stored va 0 bs m m3.
Proof.
  intros Hs Hsl Hl Hi Hb Hw Hpa. destruct (System2User_ok m1 va (lenZ bs) buf (sp_ok _ _ Hs)) as (m2 & ES & Hu2 & _ & Hst); [done|unfold_int32; lia|done| |].
  { rewrite Hsl, Hw. intros j Hj. rewrite (sp_map _ _ Hs). by apply Hpa. }
  rewrite Hsl, Hw in *. destruct (write_r2 m2 (lenZ bs) Hu2 Hi) as (m3 & EW & Hs3 & H2 & _). exists (lenZ bs), m2, m3. conjs; [done|done|apply Hs3|done|].
  destruct Hst as [W1 W2]. split.
  - intros j Hj. rewrite (same_program_at _ _ _ _ Hs3). by apply W1.
  - intros v Hv. rewrite (sp_bytes _ _ Hs3), W2 by done. apply Hs.
Qed.

(** The start of a Write: the buffer of the program, with a NUL behind it. *)
Lemma copied_buffer m m1 va buffer :
  bytes_at m va buffer -> same_program m m1 -> exists m2, User2System m1 va (lenZ buffer) = Ok (buffer ++ [0], m2) /\ same_program m m2 /\ reg m2 2 = reg m1 2.
Proof.
  intros [H0 Hbytes] Hs. destruct (copied_in m1 va (lenZ buffer) buffer (sp_ok _ _ Hs) (lenZ_nonneg _)) as (m2 & E & Hs2 & Hreg & _).
  - apply cstring_bytes; [done| |left; unfold lenZ; lia]. intros j Hj. rewrite (same_program_at _ _ _ _ Hs). by apply Hbytes.
  - exists m2. conjs; [|by eapply same_program_trans|done]. rewrite E. unfold kernel_buf, lenZ. replace (Z.to_nat (Z.of_nat (length buffer) + 1) - length buffer)%nat with 1%nat by lia. done.
Qed.

(** The call [c] gives the programs what [Taps] says, unless the host fails: the result in
    register 2, the bytes at the address in register 4 and nowhere else, and the same files
    and descriptors. *)
Definition implements (σ : Sys) (m : Machine) (d : Desk) (c : call) (r : Z) (bs : list Z) (σ' : Sys) : Prop :=
  host_fails d c \/ exists m' d', host_call m d c = Ok (m', d') /\ user_ok m' /\ reg m' 2 = r /\ stored (reg m 4) 0 bs m m' /\ represents σ' d'.

(** A call that ends with a result and copies nothing out. *)
Lemma ends_with σ σ' m d d' m1 c r :
  (forall m2, Machine_WriteRegister m1 2 r = Ok m2 -> host_call m d c = Ok (m2, d')) -> same_program m m1 -> int32 r -> represents σ' d' -> implements σ m d c r [] σ'.
Proof.
  intros Hc Hs Hr Hrep. destruct (write_r2 m1 r (sp_ok _ _ Hs) Hr) as (m2 & E & Hs2 & H2 & _). right. exists m2, d'.
  conjs; [by apply Hc|apply Hs2|done| |done]. apply same_program_stored. by eapply same_program_trans.
Qed.
Lemma same_program_refl m : user_ok m -> same_program m m.
Proof. by split. Qed.

Lemma moved_same f h ino o X h' : on_file f h ino o X -> moved f h ino o X h' -> u_view h' = u_view h.
Proof.
  intros [Ho Hc] Hm. unfold moved in Hm. rewrite Hm, set_content_id by done. unfold set_offset. rewrite insert_id by done. by destruct (u_view h).
Qed.

Lemma same_on_file f h ino o X h' : on_file f h ino o X -> u_view h' = u_view h -> on_file f h' ino o X.
Proof. intros Hon E. unfold on_file. rewrite E. exact Hon. Qed.

Lemma represents_id σ d id name pos type X nm :
  represents σ d -> files σ !! name = Some X -> (Taps.openf σ).[id] = Some (Opened name pos type) ->
  files σ !! nm = (if decide (nm = name) then Some X else files σ !! nm) /\ Taps.openf σ = (Taps.openf σ).[id <- Opened name pos type].
Proof. intros _ HX Hi. split; [case_decide; [by subst|done]|]. symmetry. by apply insertZ_id. Qed.

Lemma Read_implements σ m d n id r bs σ' :
  represents σ d -> user_ok m -> at_call m (Taps.Read n id) -> copied_whole bs -> do_call σ (Taps.Read n id) = Some (Ok (r, bs, σ')) -> implements σ m d (Taps.Read n id) r bs σ'.
Proof.
  intros Hr Hu (_ & H5 & H6 & Hn & Hbuf) [Hbyte Hwhole] Hc. cbn [do_call] in Hc. unfold sys_Read in Hc.
  assert (Hmax : n <= int32_max) by (pose proof (reg_int32 m 5 (uo_wf _ Hu)); unfold_int32; lia).
  assert (Hfail : forall d', (forall m2, Machine_WriteRegister m 2 (-1) = Ok m2 -> call_Read m d = Ok (m2, d')) -> represents σ d' -> implements σ m d (Taps.Read n id) (-1) [] σ).
  { intros d' Hcall Hrep. eapply ends_with; [exact Hcall|by apply same_program_refl|unfold_int32; lia|done]. }
  pose proof (eq_refl (call_Read m d)) as Hstart. unfold call_Read at 2 in Hstart. rewrite !read_arg in Hstart by (done || lia). cbn [mbind outcome_bind] in Hstart. rewrite H5, H6 in Hstart.
  destruct ((id <? 0) || (14 <? id)) eqn:Eid.
  { injection Hc as <- <- <-. apply (Hfail d); [|done]. intros m2 E. by rewrite Hstart, E. }
  destruct ((Taps.openf σ).[id]) as [e|] eqn:Ei; [|done]. destruct e as [| |name pos type|]; [|done| |done].
  - injection Hc as <- <- <-. destruct (rp_table _ _ Hr _ _ Ei) as [En _]. apply (Hfail d); [|done]. intros m2 E. rewrite Hstart, En. cbn [deref mbind outcome_bind]. by rewrite E.
  - destruct (opened_object _ _ _ _ _ _ Hr Ei) as (f & ino & X & O1 & O2 & O3 & O4 & O5 & O6 & O7 & O8 & O9 & O10 & O11). rewrite O10 in Hc.
    rewrite O2 in Hstart. cbn [deref mbind outcome_bind] in Hstart. rewrite O1 in Hstart. cbn [mbind outcome_bind] in Hstart. rewrite O4 in Hstart. cbn [mbind outcome_bind] in Hstart.
    rewrite (proj2 (Z.eqb_neq type 3)), (proj2 (Z.eqb_neq type 2)) in Hstart by lia.
    assert (Hty : hf_type f = Some type) by (unfold type_of in O4; by apply deref_Ok_inv in O4).
    destruct (readable_string (at_user m (reg m 4)) (Z.to_nat n) 0) as [str Hstr]; [intros j Hj; apply Hbuf; lia|].
    destruct (copied_in m (reg m 4) n str Hu Hn Hstr) as (m1 & EU & Hs1 & Hreg1 & Hl1).
    destruct (kernel_buf_ok n str Hn Hl1 (cstring_at_bytes _ _ _ _ _ (uo_wf _ Hu) Hstr)) as [Htemp Htb]. set (temp := kernel_buf n str) in *.
    destruct (Tell_ok f (d_host d) ino pos X O9) as (h1 & ET & Hm1). pose proof (moved_same _ _ _ _ _ _ O9 Hm1) as Ev1.
    unfold OpenFile_GetCurrentPos at 1 in Hstart. rewrite ET in Hstart. rewrite EU in Hstart. cbn [mbind outcome_bind] in Hstart.
    unfold OpenFile_Read, OpenFile_ReadAt in Hstart. cbn [file currentOffset set_pos] in Hstart.
    destruct (Lseek_set f h1 ino pos X pos (same_on_file _ _ _ _ _ _ O9 Ev1) O11) as (h2 & EL & Hm2). rewrite EL in Hstart. cbn [mbind outcome_bind] in Hstart.
    pose proof (moved_same _ _ _ _ _ _ (same_on_file _ _ _ _ _ _ O9 Ev1) Hm2) as Ev2. rewrite Ev1 in Ev2. pose proof (same_on_file _ _ _ _ _ _ O9 Ev2) as Hon2.
    destruct (ReadPartial (file f) n h2) as [[k bytes] h3] eqn:ER. destruct (ReadPartial_ok f h2 ino pos X n k bytes h3 Hon2 ltac:(lia) ER) as [(-> & -> & Hm3)|(Hb & Hk & Hm3)].
    { left. exists f, h2. conjs; [done| |unfold ReadPartial in ER; by rewrite ER]. unfold host_at_io, OpenFile_GetCurrentPos. by rewrite ET. }
    cbn [mbind outcome_bind] in Hstart. rewrite <- Hb in Hc. pose proof (lenZ_nonneg bytes) as Hb0.
    assert (Hbn : lenZ bytes <= n) by (rewrite Hb; unfold slice, lenZ; rewrite length_take; lia). rewrite store_ok in Hstart by lia. cbn [mbind outcome_bind] in Hstart.
    pose proof (moved_on_file _ _ _ _ _ _ Hm3) as Hon3. pose proof (on_file_offset _ _ _ _ _ Hon3) as Hof. pose proof (moved_moved _ _ _ _ _ _ _ _ _ Hm2 Hm3) as Hm13.
    pose proof (moved_moved _ _ _ _ _ _ _ _ _ Hm1 Hm13) as HM. subst k. destruct (Z.ltb_spec 0 (lenZ bytes)) as [Hlt|Hge].
    + injection Hc as <- <- <-. unfold OpenFile_GetCurrentPos in Hstart. cbn [file set_pos] in Hstart. destruct (Tell_ok f h3 ino _ X Hon3) as (h4 & ET4 & Hm4). rewrite ET4 in Hstart.
      replace (pos + lenZ bytes - pos) with (lenZ bytes) in Hstart by lia. cbv zeta in Hstart. rewrite ?(wrap_s32_id (pos + lenZ bytes)), !(wrap_s32_id (lenZ bytes)) in Hstart by (unfold_int32; lia).
      assert (Hsl : slice (splice temp 0 bytes) 0 (lenZ bytes) = bytes) by (apply slice_splice_n; lia).
      destruct (copied_out m m1 (reg m 4) (splice temp 0 bytes) bytes Hs1 Hsl) as (z & m2 & m3 & ES & EW & Hu3 & H2 & Hst); [rewrite lenZ_splice by lia; lia|unfold_int32; lia|by apply Forall_splice|done| |].
      { intros j Hj. apply Hbuf. lia. }
      rewrite ES in Hstart. cbn [mbind outcome_bind] in Hstart. rewrite EW in Hstart. cbn [mbind outcome_bind] in Hstart.
      right. do 2 eexists. conjs; [exact Hstart|done|done|done|].
      * eapply (represents_moved σ d id name pos type f ino X); try done; [by eapply moved_moved|].
        intros nm. cbn [files set_openf]. by apply (represents_id σ d id name pos type).
    + injection Hc as <- <- <-. assert (Hb00 : lenZ bytes = 0) by lia. eapply ends_with; [intros m2 E2; cbn [host_call]; rewrite Hstart, E2; reflexivity|exact Hs1|unfold_int32; lia|].
      rewrite Hb00, Z.add_0_r in HM. rewrite Hb00, Z.add_0_r. eapply (represents_moved σ d id name pos type f ino X); try done; cbn [currentOffset set_pos]; [apply wrap_s32_id; unfold_int32; lia| |].
      * intros nm. by apply (represents_id σ d id name pos type).
      * by apply (represents_id σ d id name pos type X name).
Qed.

(** A result that was written before the buffer is copied in. *)
Lemma ends_early σ σ' m d d' m1 c r :
  host_call m d c = Ok (m1, d') -> same_program m m1 -> reg m1 2 = r -> represents σ' d' -> implements σ m d c r [] σ'.
Proof. intros Hc Hs Hr Hrep. right. exists m1, d'. conjs; [done|apply Hs|done|by apply same_program_stored|done]. Qed.

Lemma Write_implements σ m d buffer id r bs σ' :
  represents σ d -> user_ok m -> at_call m (Taps.Write buffer id) -> do_call σ (Taps.Write buffer id) = Some (Ok (r, bs, σ')) -> implements σ m d (Taps.Write buffer id) r bs σ'.
Proof.
  intros Hr Hu (H2 & H5 & H6 & Hbytes) Hc. cbn [do_call] in Hc. unfold sys_Write in Hc. pose proof (lenZ_nonneg buffer) as Hb0.
  pose proof (eq_refl (call_Write m d)) as Hstart. unfold call_Write at 2 in Hstart. rewrite !read_arg in Hstart by (done || lia). cbn [mbind outcome_bind] in Hstart. rewrite H5, H6 in Hstart.
  destruct ((Taps.openf σ).[id]) as [e|] eqn:Ei; [|done]. destruct e as [| |name pos type|]; [done|done| |done].
  destruct (opened_object _ _ _ _ _ _ Hr Ei) as (f & ino & X & O1 & O2 & O3 & O4 & O5 & O6 & O7 & O8 & O9 & O10 & O11). rewrite O10 in Hc.
  pose proof (lookupZ_Some_range _ _ _ O2) as Hid. rewrite (proj2 (rp_length _ _ Hr)) in Hid. replace ((id <? 0) || (14 <? id)) with false in Hstart by lia.
  cbn [mbind outcome_bind] in Hstart. rewrite O2 in Hstart. cbn [deref mbind outcome_bind] in Hstart. rewrite O1 in Hstart. cbn [mbind outcome_bind] in Hstart. rewrite O4 in Hstart. cbn [mbind outcome_bind] in Hstart.
  assert (Hty : hf_type f = Some type) by (unfold type_of in O4; by apply deref_Ok_inv in O4).
  destruct (Tell_ok f (d_host d) ino pos X O9) as (h1 & ET & Hm1). pose proof (moved_same _ _ _ _ _ _ O9 Hm1) as Ev1.
  unfold OpenFile_GetCurrentPos at 1 in Hstart. rewrite ET in Hstart.
  assert (Hsame : represents σ (set_entry (set_host d h1) id (Some (set_pos f pos)))).
  { eapply (represents_moved σ d id name pos type f ino X); try done; [intros nm|]; by apply (represents_id σ d id name pos type X). }
  destruct O5 as [->| ->]; cbn [Z.eqb orb Pos.eqb mbind outcome_bind] in Hstart, Hc; cycle 1.
  { injection Hc as <- <- <-. destruct (write_r2 m (-1) Hu) as (m1 & E1 & Hs1 & R1 & _); [unfold_int32; lia|]. destruct (copied_buffer m m1 (reg m 4) buffer Hbytes Hs1) as (m2 & E2 & Hs2 & R2).
    rewrite E1 in Hstart. cbn [mbind outcome_bind] in Hstart. rewrite E2 in Hstart. cbn [mbind outcome_bind] in Hstart. eapply ends_early; [exact Hstart|done|congruence|done]. }
  destruct (copied_buffer m m (reg m 4) buffer Hbytes (same_program_refl _ Hu)) as (m1 & E1 & Hs1 & R1). rewrite E1 in Hstart. cbn [mbind outcome_bind] in Hstart.
  unfold OpenFile_Write, OpenFile_WriteAt in Hstart. cbn [file currentOffset set_pos] in Hstart.
  destruct (Lseek_set f h1 ino pos X pos (same_on_file _ _ _ _ _ _ O9 Ev1) O11) as (h2 & EL & Hm2). rewrite EL in Hstart. cbn [mbind outcome_bind] in Hstart.
  pose proof (moved_same _ _ _ _ _ _ (same_on_file _ _ _ _ _ _ O9 Ev1) Hm2) as Ev2. rewrite Ev1 in Ev2. pose proof (same_on_file _ _ _ _ _ _ O9 Ev2) as Hon2.
  assert (Hsl : slice (buffer ++ [0]) 0 (lenZ buffer) = buffer) by (unfold slice, lenZ; by rewrite Nat2Z.id, drop_0, take_app_length).
  assert (Hle : 0 <= lenZ buffer <= lenZ (buffer ++ [0])) by (rewrite lenZ_app; change (lenZ [0]) with 1; lia).
  destruct (WriteFile_ok f h2 ino pos X (buffer ++ [0]) (lenZ buffer) Hon2 Hle) as [E|(h3 & EWF & Hm3)].
  { left. exists f, h2. conjs; [done|unfold host_at_io, OpenFile_GetCurrentPos; by rewrite ET|]. unfold WriteFile in E. rewrite Hsl in E.
    replace ((0 <=? lenZ buffer) && (lenZ buffer <=? lenZ (buffer ++ [0]))) with true in E by lia.
    destruct (u_write (file f) buffer h2) as [k h'] eqn:EW. cbn [fst]. intros ->. rewrite Z.eqb_refl in E. done. }
  rewrite EWF in Hstart. cbn [mbind outcome_bind] in Hstart. rewrite Hsl in Hm3. pose proof (moved_on_file _ _ _ _ _ _ Hm3) as Hon3. pose proof (on_file_offset _ _ _ _ _ Hon3) as Hof.
  pose proof (moved_moved _ _ _ _ _ _ _ _ _ Hm1 (moved_moved _ _ _ _ _ _ _ _ _ Hm2 Hm3)) as HM. destruct (Z.ltb_spec 0 (lenZ buffer)) as [Hlt|Hge].
  - injection Hc as <- <- <-. unfold OpenFile_GetCurrentPos in Hstart. cbn [file set_pos] in Hstart. destruct (Tell_ok f h3 ino _ _ Hon3) as (h4 & ET4 & Hm4). rewrite ET4 in Hstart.
    replace (pos + lenZ buffer - pos) with (lenZ buffer) in Hstart by lia. rewrite ?(wrap_s32_id (pos + lenZ buffer)), !(wrap_s32_id (lenZ buffer)) in Hstart by (unfold_int32; lia).
    eapply ends_with; [intros m2 E2; cbn [host_call]; rewrite Hstart, E2; reflexivity|exact Hs1|unfold_int32; lia|].
    eapply (represents_moved σ d id name pos 0 f ino X); try done; [by left|by eapply moved_moved|]. intros nm. cbn [files set_openf set_files]. case_decide as Hd.
    + subst nm. by rewrite lookup_insert_eq.
    + by rewrite lookup_insert_ne.
  - injection Hc as <- <- <-. assert (Hb : buffer = []) by (destruct buffer; [done|rewrite lenZ_cons in Hge; pose proof (lenZ_nonneg buffer); lia]). subst buffer.
    eapply ends_early; [exact Hstart|exact Hs1|rewrite R1; exact H2|]. change (lenZ (@nil Z)) with 0 in *. rewrite Z.add_0_r in *.
    eapply (represents_moved σ d id name pos 0 f ino X); try done; cbn [currentOffset set_pos]; [by left|apply wrap_s32_id; unfold_int32; lia| |].
    + intros nm. by apply (represents_id σ d id name pos 0).
    + by apply (represents_id σ d id name pos 0 X name).
Qed.

(** Every object that was not deleted has an open descriptor. *)
Lemma live_open σ d i f : represents σ d -> (openf (d_fs d)).[i] = Some (Some f) -> i ∉ d_freed d -> is_Some (opened (V d) !! file f).
Proof.
  intros Hr Hf Hn. pose proof (lookupZ_Some_range _ _ _ Hf) as Hi. destruct (rp_length _ _ Hr) as [Hl1 Hl2].
  destruct (lookupZ_range (Taps.openf σ) i) as [e He]; [lia|]. pose proof (rp_table _ _ Hr _ _ He) as Hok. destruct e as [| |name pos type|]; cbn in Hok.
  - destruct Hok as [E _]. congruence.
  - destruct Hok as (g & G1 & _ & G3). by simplify_eq.
  - destruct Hok as (g & ino & G1 & _ & _ & _ & _ & _ & _ & G8). simplify_eq. by eexists.
  - by destruct Hok as [_ ?].
Qed.

Lemma Close_implements σ m d id r bs σ' :
  represents σ d -> user_ok m -> at_call m (Taps.Close id) -> do_call σ (Taps.Close id) = Some (Ok (r, bs, σ')) -> implements σ m d (Taps.Close id) r bs σ'.
Proof.
  intros Hr Hu [_ H4] Hc. cbn [do_call] in Hc. unfold sys_Close in Hc.
  assert (Hfail : forall d', (forall m2, Machine_WriteRegister m 2 (-1) = Ok m2 -> call_Close m d = Ok (m2, d')) -> represents σ d' -> implements σ m d (Taps.Close id) (-1) [] σ).
  { intros d' Hcall Hrep. eapply ends_with; [exact Hcall|by apply same_program_refl|unfold_int32; lia|done]. }
  pose proof (eq_refl (call_Close m d)) as Hstart. unfold call_Close at 2 in Hstart. rewrite !read_arg in Hstart by (done || lia). cbn [mbind outcome_bind] in Hstart. rewrite H4 in Hstart.
  destruct ((0 <=? id) && (id <=? 14)) eqn:Eid; [|injection Hc as <- <- <-; apply (Hfail d); [intros m2 E; by rewrite Hstart, E|done]].
  destruct ((Taps.openf σ).[id]) as [e|] eqn:Ei; [|done]. pose proof (rp_table _ _ Hr _ _ Ei) as Hok. destruct (rp_length _ _ Hr) as [Hl1 Hl2].
  destruct (decide (e = Null)) as [->|Hnull].
  { injection Hc as <- <- <-. destruct Hok as [En _]. rewrite En in Hstart. cbn [deref mbind outcome_bind] in Hstart. apply (Hfail d); [intros m2 E; by rewrite Hstart, E|done]. }
  assert (Hf : e <> Deleted /\ r = 0 /\ bs = [] /\ σ' = Taps.set_openf σ ((Taps.openf σ).[id <- Deleted]) /\ exists f, (openf (d_fs d)).[id] = Some (Some f) /\ id ∉ d_freed d).
  { destruct e as [| |name pos type|]; [done| | |done]; injection Hc as <- <- <-; (conjs; [done..|]); naive_solver. }
  destruct Hf as (_ & -> & -> & -> & f & Hf & Hfr). rewrite Hf in Hstart. unfold object in Hstart. rewrite Hf in Hstart. cbn [deref mbind outcome_bind] in Hstart. rewrite bool_decide_eq_false_2 in Hstart by done.
  cbn [mbind outcome_bind] in Hstart. unfold OpenFile_delete, Close in Hstart. destruct (live_open _ _ _ _ Hr Hf Hfr) as [p Hp].
  destruct (u_close (file f) (d_host d)) as [k h'] eqn:EC. destruct (close_law _ _ _ _ EC) as [(_ & _ & Hx)|(-> & _ & Hn & Ho & Hcs)]; [congruence|].
  cbn [Z.leb Z.compare ASSERT mbind outcome_bind] in Hstart.
  eapply ends_with; [intros m2 E2; cbn [host_call]; rewrite Hstart, E2; reflexivity|by apply same_program_refl|unfold_int32; lia|].
  split; cbn [files Taps.openf Taps.set_openf d_fs d_freed d_host]; rewrite ?Hn, ?lenZ_insertZ; try done.
  - intros name Hname. rewrite (rp_files _ _ Hr) by done. unfold content. rewrite Hn. destruct (names (V d) !! text name) as [ino|] eqn:E; [|done]. cbn. symmetry. apply Hcs.
    left. exists (text name). by rewrite Hn.
  - apply (rp_names _ _ Hr).
  - intros i e'. rewrite lookupZ_insertZ. case_decide as Hd.
    + destruct Hd as [<- _]. intros [= <-]. cbn. split; [by exists f|apply list_elem_of_here].
    + intros He. pose proof (rp_table _ _ Hr _ _ He) as Hok'. assert (Hne : id <> i) by (intros ->; apply Hd; split; [done|]; apply lookupZ_Some_range in He; lia).
      assert (Hfd : forall g, (openf (d_fs d)).[i] = Some (Some g) -> i ∉ d_freed d -> file f <> file g) by (intros g Hg Hgf; by apply (rp_apart _ _ Hr id i)).
      assert (Hnot : i ∉ d_freed d -> i ∉ id :: d_freed d) by (intros Hx; apply not_elem_of_cons; split; [by apply not_eq_sym|done]).
      unfold entry_ok in *. cbn [d_fs d_freed d_host]. rewrite Hn, Ho. destruct e' as [| |nm' p' t'|].
      * destruct Hok'. auto.
      * destruct Hok' as (g & G1 & G2 & G3). exists g. conjs; [done|by apply Hnot|]. rewrite lookup_delete_ne; [done|by apply Hfd].
      * destruct Hok' as (g & ino' & G1 & G2 & G3 & G4 & G5 & G6 & G7 & G8). exists g, ino'. conjs; try done; [by apply Hnot|]. rewrite lookup_delete_ne; [done|by apply Hfd].
      * destruct Hok' as [G1 G2]. split; [done|by apply list_elem_of_further].
  - intros i j g1 g2 Hij H1 H2 F1 F2. apply not_elem_of_cons in F1 as [_ F1], F2 as [_ F2]. by eapply (rp_apart _ _ Hr i j).
Qed.

Lemma drop_lookupZ {A} (l : list A) i x : 0 <= i -> l.[i] = Some x -> drop (Z.to_nat i) l = x :: drop (Z.to_nat (i + 1)) l.
Proof.
  intros Hi Hx. unfold lookupZ in Hx. rewrite (proj2 (Z.ltb_ge i 0)) in Hx by lia. replace (Z.to_nat (i + 1)) with (S (Z.to_nat i)) by lia. by apply drop_S.
Qed.

(** The two searches for a free descriptor agree. *)
Lemma free_slot_agrees σ d n i :
  represents σ d -> 0 <= i -> i + Z.of_nat n = 15 ->
  free_slot (d_fs d) n i = Ok (default (-1) (first_from is_null i (drop (Z.to_nat i) (Taps.openf σ)))) /\
  forall j, first_from is_null i (drop (Z.to_nat i) (Taps.openf σ)) = Some j -> i <= j < 15 /\ (Taps.openf σ).[j] = Some Null.
Proof.
  intros Hr. destruct (rp_length _ _ Hr) as [Hl1 Hl2]. revert i. induction n as [|n IH]; intros i Hi Hn.
  - rewrite drop_ge by (unfold lenZ in Hl1; lia). done.
  - destruct (lookupZ_range (Taps.openf σ) i) as [e He]; [lia|]. rewrite (drop_lookupZ _ _ _ Hi He). cbn [first_from free_slot].
    pose proof (rp_table _ _ Hr _ _ He) as Hok. destruct (IH (i + 1) ltac:(lia) ltac:(lia)) as [IH1 IH2].
    destruct e as [| |name pos type|]; cbn [is_null]; cbn in Hok.
    + destruct Hok as [-> _]. cbn. split; [done|]. intros j [= <-]. split; [lia|done].
    + destruct Hok as (f & -> & _). cbn [deref mbind outcome_bind]. split; [done|]. intros j Hj. destruct (IH2 j Hj). split; [lia|done].
    + destruct Hok as (f & ino & -> & _). cbn [deref mbind outcome_bind]. split; [done|]. intros j Hj. destruct (IH2 j Hj). split; [lia|done].
    + destruct Hok as ((f & ->) & _). cbn [deref mbind outcome_bind]. split; [done|]. intros j Hj. destruct (IH2 j Hj). split; [lia|done].
Qed.

(** A new object in a free entry. *)
Lemma represents_new σ d j name type fd ino h' :
  represents σ d -> (Taps.openf σ).[j] = Some Null -> type = 0 \/ type = 1 -> ~ console_name name -> opened (V d) !! fd = None -> names (V d) !! text name = Some ino ->
  u_view h' = set_offset (V d) fd ino 0 ->
  represents (Taps.set_openf σ ((Taps.openf σ).[j <- Opened name 0 type])) (set_entry (set_host d h') j (Some (OpenFile_new_type fd type))).
Proof.
  intros Hr Hj Hty Hcn Hfd Hino Hv. destruct (rp_length _ _ Hr) as [Hl1 Hl2]. destruct (rp_table _ _ Hr _ _ Hj) as [Hjn Hjf]. pose proof (lookupZ_Some_range _ _ _ Hj) as Hjr.
  assert (Hlive : forall i f, (openf (d_fs d)).[i] = Some (Some f) -> i ∉ d_freed d -> file f <> fd).
  { intros i f Hf Hn Heq. destruct (live_open _ _ _ _ Hr Hf Hn) as [p Hp]. rewrite Heq in Hp. congruence. }
  split; cbn [set_entry set_host d_fs d_freed d_host openf files Taps.openf Taps.set_openf]; rewrite ?Hv, ?lenZ_insertZ; cbn [names contents opened set_offset]; try done.
  - apply (rp_files _ _ Hr).
  - apply (rp_names _ _ Hr).
  - intros i e. rewrite lookupZ_insertZ. case_decide as Hd.
    + destruct Hd as [<- _]. intros [= <-]. exists (OpenFile_new_type fd type), ino. cbn [set_entry set_host d_fs d_freed d_host openf]. rewrite Hv, lookupZ_insertZ_eq by lia.
      cbn [names opened set_offset file hf_type currentOffset OpenFile_new_type]. rewrite lookup_insert_eq. conjs; done.
    + intros He. pose proof (rp_table _ _ Hr _ _ He) as Hok. assert (Hne : j <> i) by (intros ->; apply Hd; split; [done|lia]).
      unfold entry_ok in *. cbn [set_entry set_host d_fs d_freed d_host openf]. rewrite Hv, (lookupZ_insertZ_ne _ j i) by done. cbn [names opened set_offset].
      destruct e as [| |nm' p' t'|]; [done| | |done].
      * destruct Hok as (g & G1 & G2 & G3). exists g. conjs; [done..|]. rewrite lookup_insert_ne; [done|]. apply not_eq_sym. by eapply Hlive.
      * destruct Hok as (g & ino' & G1 & G2 & G3 & G4 & G5 & G6 & G7 & G8). exists g, ino'. conjs; try done. rewrite lookup_insert_ne; [done|]. apply not_eq_sym. by eapply Hlive.
  - intros i i' g1 g2 Hij H1 H2 F1 F2. destruct (decide (j = i)) as [Ei|Ei], (decide (j = i')) as [Ej|Ej]; subst;
      rewrite ?lookupZ_insertZ_eq in H1 by lia; rewrite ?lookupZ_insertZ_eq in H2 by lia; rewrite ?lookupZ_insertZ_ne in H1 by done; rewrite ?lookupZ_insertZ_ne in H2 by done.
    + done.
    + injection H1 as <-. cbn [file OpenFile_new_type]. apply not_eq_sym. by eapply Hlive.
    + injection H2 as <-. cbn [file OpenFile_new_type]. by eapply Hlive.
    + by eapply (rp_apart _ _ Hr i i').
Qed.

(** The same objects on a host whose view has not changed. *)
Lemma represents_same σ d j h' : represents σ d -> (openf (d_fs d)).[j] = Some None -> u_view h' = V d -> represents σ (set_entry (set_host d h') j None).
Proof.
  intros [H1 H2 H3 H4 H5] Hj Hv. split; cbn [set_entry set_host d_fs d_freed d_host openf]; rewrite ?Hv, ?(insertZ_id _ _ _ Hj); try done.
  intros i e He. specialize (H4 i e He). unfold entry_ok in *. cbn [set_entry set_host d_fs d_freed d_host openf]. by rewrite Hv, (insertZ_id _ _ _ Hj).
Qed.

Lemma Open_implements σ m d name type r bs σ' :
  represents σ d -> user_ok m -> at_call m (Open name type) -> do_call σ (Open name type) = Some (Ok (r, bs, σ')) -> implements σ m d (Open name type) r bs σ'.
Proof.
  intros Hr Hu (H2 & Hcn & Hname & Hlen & H5) Hc. cbn [do_call] in Hc. unfold sys_Open, find_free_slot in Hc.
  destruct (copy_name m (reg m 4) name 32 Hu Hname ltac:(lia) Hlen) as (m1 & rest & EU & Hs1 & Hreg1 & Hcstr & _).
  pose proof (eq_refl (call_Open m d)) as Hstart. unfold call_Open at 2 in Hstart. unfold FileSystem_FindFreeSlot in Hstart. rewrite !read_arg in Hstart by (done || lia). cbn [mbind outcome_bind] in Hstart.
  rewrite EU in Hstart. cbn [mbind outcome_bind] in Hstart. rewrite Hcstr, H5 in Hstart.
  assert (Hend : forall v, int32 v -> (forall m2, Machine_WriteRegister m1 2 v = Ok m2 -> call_Open m d = Ok (m2, d)) -> implements σ m d (Open name type) v [] σ).
  { intros v Hv Hcall. eapply ends_with; [exact Hcall|exact Hs1|done|done]. }
  destruct (free_slot_agrees σ d 13 2 Hr ltac:(lia) ltac:(lia)) as [Eslot Hj]. change (Z.to_nat 2) with 2%nat in *. rewrite Eslot in Hstart. cbn [mbind outcome_bind] in Hstart.
  destruct (first_from is_null 2 (drop 2 (Taps.openf σ))) as [j|]; cbn [default] in Hstart;
    [|injection Hc as <- <- <-; apply Hend; [unfold_int32; lia|intros m2 E; rewrite Hstart; change (negb (-1 =? -1)) with false; cbn iota; by rewrite E]].
  destruct (Hj j eq_refl) as [Hjr Hjn]. unfold id in *. rewrite (proj2 (Z.eqb_neq j (-1))) in Hstart by lia. cbn [negb] in Hstart.
  destruct ((type =? 0) || (type =? 1)) eqn:Ety;
    [|destruct (type =? 2); injection Hc as <- <- <-; (apply Hend; [unfold_int32; lia|intros m2 E; by rewrite Hstart, E])].
  unfold FileSystem_Open_type, OpenForReadWrite in Hstart. destruct (u_open (text name) ReadWrite (d_host d)) as [fd h'] eqn:EO. cbn [negb orb ASSERT mbind outcome_bind] in Hstart.
  rewrite (rp_files _ _ Hr) in Hc by done. destruct (open_rw _ _ _ _ EO) as [(-> & Hv)|(Hfd & Hnew & ino & Hino & Hv)].
  - destruct (names (V d) !! text name) as [ino|] eqn:E; [left; cbn [host_fails]; rewrite EO, E; split; [done|by eexists]|].
    unfold content in Hc. rewrite E in Hc. injection Hc as <- <- <-. eapply ends_early; [exact Hstart|exact Hs1|by rewrite Hreg1|].
    apply represents_same; [done|by apply (rp_table _ _ Hr _ _ Hjn)|done].
  - rewrite (proj2 (Z.eqb_neq fd (-1))) in Hstart by lia. cbn [mbind outcome_bind] in Hstart. unfold content in Hc. rewrite Hino in Hc. cbn in Hc.
    destruct (fo_content _ (view_ok (d_host d)) ino) as [X HX]; [left; by exists (text name)|]. rewrite HX in Hc. injection Hc as <- <- <-.
    eapply ends_with; [intros m2 E2; cbn [host_call]; rewrite Hstart, E2; reflexivity|exact Hs1|unfold_int32; lia|]. eapply represents_new; try done. lia.
Qed.

(** A file that was created, or cut to nothing, and closed again. *)
Lemma represents_created σ d name ino h' :
  represents σ d -> ~ console_name name ->
  (names (V d) !! text name = Some ino \/ (names (V d) !! text name = None /\ ~ in_use (V d) ino)) ->
  names (u_view h') = <[text name := ino]> (names (V d)) -> opened (u_view h') = opened (V d) ->
  (forall i, in_use (u_view h') i -> contents (u_view h') !! i = (<[ino := []]> (contents (V d))) !! i) ->
  represents (set_files σ (<[name := []]> (files σ))) (set_host d h').
Proof.
  intros Hr Hcn Hino Hn Ho Hcs.
  assert (Hother : forall nm i, nm <> text name -> names (V d) !! nm = Some i -> i <> ino).
  { intros nm i Hne Hi ->. destruct Hino as [Hx|[_ Hx]]; [by apply Hne; eapply (rp_names _ _ Hr)|]. apply Hx. left. by exists nm. }
  split; cbn [set_host d_fs d_freed d_host files set_files Taps.openf]; try done.
  - intros nm Hnm. unfold content. rewrite Hn. destruct (decide (nm = name)) as [->|Hne].
    + rewrite !lookup_insert_eq. cbn. rewrite Hcs, lookup_insert_eq; [done|]. left. exists (text name). by rewrite Hn, lookup_insert_eq.
    + assert (Ht : text name <> text nm) by (intros E; by apply Hne, text_inj). rewrite !lookup_insert_ne by (done || by apply not_eq_sym).
      rewrite (rp_files _ _ Hr) by done. unfold content. destruct (names (V d) !! text nm) as [i|] eqn:E; [|done]. cbn. rewrite Hcs.
      * rewrite lookup_insert_ne; [done|]. apply not_eq_sym. by eapply (Hother (text nm)); [apply not_eq_sym|].
      * left. exists (text nm). by rewrite Hn, lookup_insert_ne.
  - intros a b i. rewrite Hn. destruct (decide (a = text name)) as [->|Ha], (decide (b = text name)) as [->|Hb];
      rewrite ?lookup_insert_eq, ?(lookup_insert_ne _ (text name)) by (by apply not_eq_sym).
    + done.
    + intros [= <-] Hx. by destruct (Hother b ino).
    + intros Hx [= <-]. by destruct (Hother a ino).
    + apply (rp_names _ _ Hr).
  - apply (rp_length _ _ Hr).
  - intros i e He. pose proof (rp_table _ _ Hr _ _ He) as Hok. unfold entry_ok in *. cbn [set_host d_fs d_freed d_host]. rewrite Hn, Ho. destruct e as [| |nm' p' t'|]; try done.
    destruct Hok as (g & ino' & G1 & G2 & G3 & G4 & G5 & G6 & G7 & G8). exists g, ino'. conjs; try done. destruct (decide (text nm' = text name)) as [E|E].
    + rewrite E in *. rewrite lookup_insert_eq. destruct Hino as [Hx|[Hx _]]; congruence.
    + by rewrite lookup_insert_ne by (by apply not_eq_sym).
  - apply (rp_apart _ _ Hr).
Qed.

Lemma CreateFile_implements σ m d name r bs σ' :
  represents σ d -> user_ok m -> at_call m (CreateFile name) -> do_call σ (CreateFile name) = Some (Ok (r, bs, σ')) -> implements σ m d (CreateFile name) r bs σ'.
Proof.
  intros Hr Hu (_ & Hcn & Hname & Hlen) Hc. injection Hc as <- <- <-.
  destruct (copy_name m (reg m 4) name 33 Hu Hname ltac:(lia) Hlen) as (m1 & rest & EU & Hs1 & _ & Hcstr & H0).
  pose proof (eq_refl (call_CreateFile m d)) as Hstart. unfold call_CreateFile at 2 in Hstart. rewrite !read_arg in Hstart by (done || lia). cbn [mbind outcome_bind] in Hstart.
  rewrite EU in Hstart. cbn [mbind outcome_bind] in Hstart. rewrite strlen_string, Hcstr in Hstart by done. cbn [mbind outcome_bind] in Hstart.
  assert (Hempty : exists m2, (if lenZ (text name) =? 0 then Machine_WriteRegister m1 2 (-1) else Ok m1) = Ok m2 /\ same_program m m2).
  { destruct (lenZ (text name) =? 0); [|by exists m1]. destruct (write_r2 m1 (-1) (sp_ok _ _ Hs1)) as (m2 & E2 & Hs2 & _); [unfold_int32; lia|]. exists m2. split; [done|by eapply same_program_trans]. }
  destruct Hempty as (m2 & E2 & Hs2). rewrite E2 in Hstart. cbn [mbind outcome_bind] in Hstart. unfold FileSystem_Create, OpenForWrite in Hstart.
  destruct (u_open (text name) CreateTruncate (d_host d)) as [fd h1] eqn:EO.
  destruct (open_create _ _ _ _ EO) as [(-> & _)|(Hfd & Hnew & ino & Hino & Hv1)]; [left; cbn [host_fails]; by rewrite EO|].
  rewrite (proj2 (Z.leb_le 0 fd)) in Hstart by lia. cbn [ASSERT mbind outcome_bind] in Hstart. rewrite (proj2 (Z.eqb_neq fd (-1))) in Hstart by lia. unfold Close in Hstart.
  destruct (u_close fd h1) as [k h2] eqn:EC. destruct (close_law _ _ _ _ EC) as [(_ & _ & Hx)|(-> & _ & Hn & Ho & Hcs)].
  { rewrite Hv1 in Hx. cbn [opened] in Hx. by rewrite lookup_insert_eq in Hx. }
  cbn [Z.leb Z.compare ASSERT mbind outcome_bind negb] in Hstart.
  eapply ends_with; [intros m3 E3; cbn [host_call]; rewrite Hstart, E3; reflexivity|exact Hs2|unfold_int32; lia|].
  rewrite Hv1 in Hn, Ho, Hcs. cbn [names opened contents] in Hn, Ho, Hcs. rewrite delete_insert_id in Ho by done. by eapply represents_created.
Qed.
End HostCalls.

(** C29: the file calls of the kernel on the files of the host, as the programs of test/ see
    them.  The table of descriptors and the names and bytes of the files represent a state
    of [Taps], and the registers and the memory of the program hold a file call: a name that
    is not longer than the kernel copies, or a buffer.  If the call returns in [Taps] with a
    result and bytes, of which none is a NUL except the last, it returns in the kernel with
    that result in register 2 (which keeps the code of the call when the code does not set
    it) and these bytes in the memory of the program, where nothing else changes, and the new
    states represent each other; unless the system call that it makes reports an error or
    writes less than it was given.  This holds for every host that keeps the promises of its
    system calls. *)
Theorem host_calls_refine {U : Type} `{!Unix U} `{!Terminal U} `{!UnixLaws U} (σ : Sys) (m : Machine) (d : Desk) c r bs σ' :
  represents σ d -> user_ok m -> at_call m c -> copied_whole bs -> do_call σ c = Some (Ok (r, bs, σ')) ->
  implements σ m d c r bs σ'.
Proof.
  intros Hr Hu Hat Hw Hc. destruct c; try by destruct Hat.
  - by apply CreateFile_implements.
  - by apply Open_implements.
  - by apply Read_implements.
  - by apply Write_implements.
  - by apply Close_implements.
Qed.

(** A terminal nobody uses. *)
#[local] Instance silent : Terminal Toy.host := { t_read temp _ h := (0, temp, h); t_write _ h := h }.

(** The kernel at the start of [main], on a host with input.txt. *)
Definition booted_files : Files := mkFiles
  (<[text input_txt := 1%positive]> (<[text "stdin" := 2%positive]> (<[text "stdout" := 3%positive]> ∅)))
  (<[1%positive := [49; 10; 51; 10]]> (<[2%positive := []]> (<[3%positive := []]> ∅)))
  (<[0 := (2%positive, 0)]> (<[1 := (3%positive, 0)]> ∅)).
Lemma booted_files_okb : Toy.okb booted_files.
Proof.
  split; repeat (apply map_Forall_insert_2; [|]); try apply map_Forall_empty; cbn [contents booted_files fst snd].
  all: conjs; try (unfold int32_max; lia); by eexists.
Qed.
Definition booted_desk : Desk := mkDesk
  (mkHostFS ([Some (mkHostFile 0 0 (Some 2)); Some (mkHostFile 1 0 (Some 3))] ++ replicate 13 None) 2) [] (booted_files ↾ booted_files_okb : Toy.host).

Lemma booted_desk_represents : represents (boot [49; 10; 51; 10]) booted_desk.
Proof.
  assert (Hn : names (u_view (d_host booted_desk)) = names booted_files) by reflexivity.
  assert (Hc : contents (u_view (d_host booted_desk)) = contents booted_files) by reflexivity.
  assert (Ho : opened (u_view (d_host booted_desk)) = opened booted_files) by reflexivity.
  assert (Ht : openf (d_fs booted_desk) = [Some (mkHostFile 0 0 (Some 2)); Some (mkHostFile 1 0 (Some 3))] ++ replicate 13 None) by reflexivity.
  cbn [names contents opened booted_files] in Hn, Hc, Ho.
  assert (Hne : forall a b, a <> b -> text a <> text b) by (intros a b Hab E; by apply Hab, text_inj).
  split.
  - intros name Hcn. unfold content. rewrite Hn. destruct (decide (name = input_txt)) as [->|Hi].
    + rewrite lookup_insert_eq. cbn [mbind option_bind]. by rewrite Hc, lookup_insert_eq.
    + assert (Hs1 : name <> "stdin"%string) by (intros ->; apply Hcn; by left). assert (Hs2 : name <> "stdout"%string) by (intros ->; apply Hcn; by right).
      rewrite !lookup_insert_ne by (apply not_eq_sym; by apply Hne). rewrite lookup_empty. cbn [mbind option_bind boot files].
      by rewrite lookup_singleton_ne by (by apply not_eq_sym).
  - intros a b ino. rewrite Hn. rewrite !lookup_insert_Some, !lookup_empty. intros Ha Hb. repeat (destruct_or?; destruct_and?); simplify_eq; first [done|idtac].
  - rewrite Ht. done.
  - intros i e He. unfold entry_ok. rewrite Hn, Ho, Ht. change (Taps.openf (boot [49; 10; 51; 10])) with (Console :: Console :: replicate 13 Null) in He. apply lookupZ_Some_range in He as Hi. change (lenZ _) with 15 in Hi.
    rewrite lookupZ_cons in He. rewrite lookupZ_cons in He. cbn [app]. rewrite !lookupZ_cons.
    destruct (Z.eqb_spec i 0) as [->|H0]; [injection He as <-; eexists; (split; [done|]); (split; [apply not_elem_of_nil|]); by eexists|].
    rewrite (proj2 (Z.ltb_ge i 0)) in * by lia. destruct (Z.eqb_spec (i - 1) 0) as [E1|H1].
    + injection He as <-. eexists. split; [done|]. split; [apply not_elem_of_nil|]. by eexists.
    + rewrite (proj2 (Z.ltb_ge (i - 1) 0)) in * by lia. unfold lookupZ in *. rewrite (proj2 (Z.ltb_ge (i - 1 - 1) 0)) in * by lia.
      apply lookup_replicate in He as [-> Hlt]. split; [by apply lookup_replicate|apply not_elem_of_nil].
  - intros i j f g Hij. rewrite Ht. cbn [app]. rewrite !lookupZ_cons. intros Hf Hg _ _.
    assert (Hrep : forall x y, (replicate 13 (@None HostFile)).[x] = Some (Some y) -> False).
    { intros x y. unfold lookupZ. destruct (x <? 0); [done|]. by intros [? _]%lookup_replicate. }
    destruct (Z.eqb_spec i 0), (Z.eqb_spec j 0); [lia| | |]; (destruct (i <? 0); [try done|]); (destruct (j <? 0); [try done|]);
      repeat match goal with H : context [if ?b then _ else _] |- _ => destruct b eqn:? end; simplify_eq; try done; try lia;
      exfalso; eauto.
Qed.

(** A program with the string ./test/input.txt at address 0, about to open it for reading. *)
Definition open_page : Machine :=
  set_reg (set_reg (set_reg (sample_machine [0x65742f2e; 0x692f7473; 0x7475706e; 0x7478742e] (sample_regs 0 0 0)) 2 5) 4 0) 5 1.

Lemma open_page_ok : user_ok open_page.
Proof.
  repeat (apply user_ok_set_reg; [|unfold_int32; lia|done]).
  assert (Hwf : Machine_wf (sample_machine [0x65742f2e; 0x692f7473; 0x7475706e; 0x7478742e] (sample_regs 0 0 0))) by (apply sample_wf; first [vm_compute; done | unfold_int32; lia]).
  split; [done|vm_compute; split; congruence|].
  apply (table_injective _ [mkEntry 0 0 true false false false]); [done|reflexivity|reflexivity|]. simpl. apply NoDup_singleton.
Qed.

Lemma open_page_call : at_call open_page (Open input_txt 1).
Proof.
  split; [reflexivity|]. split; [intros [H|H]; discriminate H|]. split; [|split; [vm_compute; congruence|reflexivity]].
  split; [split; [apply (bool_decide_unpack _); vm_compute; exact I|]|reflexivity].
  intros j Hj. assert (H : Forall (fun j => at_user open_page (reg open_page 4) j = (text input_txt).[j]) (seqZ 0 16)) by (apply (bool_decide_unpack _); vm_compute; exact I).
  rewrite Forall_forall in H. apply H, elem_of_seqZ. change (lenZ (text input_txt)) with 16 in Hj. lia.
Qed.

Lemma host_calls_refine_witness :
  exists m' d', host_call open_page booted_desk (Open input_txt 1) = Ok (m', d') /\ reg m' 2 = 2 /\
    represents (Taps.set_openf (boot [49; 10; 51; 10]) ((Taps.openf (boot [49; 10; 51; 10])).[2 <- Opened input_txt 0 1])) d'.
Proof.
  destruct (host_calls_refine (boot [49; 10; 51; 10]) open_page booted_desk (Open input_txt 1) 2 []
    (Taps.set_openf (boot [49; 10; 51; 10]) ((Taps.openf (boot [49; 10; 51; 10])).[2 <- Opened input_txt 0 1]))
    booted_desk_represents open_page_ok open_page_call) as [Hf|(m' & d' & E & _ & H2 & _ & Hrep)].
  - split; [constructor|reflexivity].
  - reflexivity.
  - exfalso. destruct Hf as [Hf _]. vm_compute in Hf. discriminate Hf.
  - exists m', d'. split; [exact E|]. split; [exact H2|exact Hrep].
Defined.
