(* ===== verification/Execute.v ===== *)
(** * The offline interpreter (bin/execute.c, bin/system.c, bin/instr.h, bin/int.h, bin/encode.h)

    [runprogram] interprets MIPS programs on the host, outside Nachos: the loop over
    instructions with the program counters, the arguments it puts on the stack first, and the
    system calls that it passes on to the host.  The array [mem] is a function from indices to
    bytes; an address is an index plus [memoffset], and an access outside the array has no
    meaning.  The system calls of the host are the class [InterpHost]; their numbers are those
    in the comments of system.c.  Output of the options for tracing is not modelled, and
    [TRACE] and [Traptrace] are 0. *)

From S2P Require Import Prelude Int32.

Definition MEMSIZE : Z := 16777216.
Definition memoffset : Z := 0x10000000.

(** The variables of execute.c and the local ones of [runprogram] *)
Record Interp := mkInterp {
  Reg : list Z;
  HI : Z;
  LO : Z;
  mem : Z -> Z;
  pc : Z;
  npc : Z;
  icount : Z }.

Definition set_mem (t : Interp) (f : Z -> Z) : Interp := mkInterp (Reg t) (HI t) (LO t) f (pc t) (npc t) (icount t).
Definition set_npc (t : Interp) (a : Z) : Interp := mkInterp (Reg t) (HI t) (LO t) (mem t) (pc t) a (icount t).
Definition set_HI (t : Interp) (v : Z) : Interp := mkInterp (Reg t) v (LO t) (mem t) (pc t) (npc t) (icount t).
Definition set_LO (t : Interp) (v : Z) : Interp := mkInterp (Reg t) (HI t) v (mem t) (pc t) (npc t) (icount t).

(** [Reg[r]], and the assignment to it; every index is a field of five bits. *)
Definition getR (t : Interp) (r : Z) : Z := default 0 ((Reg t).[r]).
Definition setR (t : Interp) (r v : Z) : Interp :=
  mkInterp ((Reg t).[r <- v]) (HI t) (LO t) (mem t) (pc t) (npc t) (icount t).

(** ** instr.h: the fields of an instruction *)

Definition i_rd (i : Z) : Z := Z.land (Z.shiftr i 11) 0x1f.
Definition i_rt (i : Z) : Z := Z.land (Z.shiftr i 16) 0x1f.
Definition i_rs (i : Z) : Z := Z.land (Z.shiftr i 21) 0x1f.
Definition shamt (i : Z) : Z := Z.land (Z.shiftr i 6) 0x1f.
Definition immed (i : Z) : Z := if negb (Z.land i 0x8000 =? 0) then Z.lor i (-0x8000) else Z.land i 0x7fff.

(** ** int.h: accesses to the memory *)

(** [&(mem-memoffset)[addr]], for an access of [n] bytes *)
Definition index (addr n : Z) : outcome Z :=
  let k := addr - memoffset in
  if (0 <=? k) && (k + n <=? MEMSIZE) then Ok k else Undefined.

Definition bytes_at (f : Z -> Z) (k n : Z) : list Z := map (fun j => f (k + Z.of_nat j)) (seq 0 (Z.to_nat n)).
Definition put_bytes (f : Z -> Z) (k : Z) (bs : list Z) : Z -> Z :=
  fun j => if (k <=? j) && (j <? k + lenZ bs) then default 0 (bs.[j - k]) else f j.

Definition load (t : Interp) (addr n : Z) : outcome (list Z) := k ← index addr n; Ok (bytes_at (mem t) k n).
Definition save (t : Interp) (addr : Z) (bs : list Z) : outcome Interp :=
  k ← index addr (lenZ bs); Ok (set_mem t (put_bytes (mem t) k bs)).

Definition fetch (t : Interp) (addr : Z) : outcome Z := bs ← load t addr 4; Ok (wrap_s32 (le_combine bs)).
Definition ifetch := fetch.
Definition sfetch (t : Interp) (addr : Z) : outcome Z :=
  bs ← load t addr 2; let v := le_combine bs in Ok (if v <? 32768 then v else v - 65536).
Definition usfetch (t : Interp) (addr : Z) : outcome Z := bs ← load t addr 2; Ok (le_combine bs).
Definition cfetch (t : Interp) (addr : Z) : outcome Z := bs ← load t addr 1; Ok (char_of_byte (le_combine bs)).
Definition ucfetch (t : Interp) (addr : Z) : outcome Z := bs ← load t addr 1; Ok (le_combine bs).
Definition store (t : Interp) (addr i : Z) : outcome Interp := save t addr (le_split 4 i).
Definition sstore (t : Interp) (addr i : Z) : outcome Interp := save t addr (le_split 2 i).
Definition cstore (t : Interp) (addr i : Z) : outcome Interp := save t addr (le_split 1 i).

(** ** system.c *)

(** The system calls of the host.  [h_read] gives the bytes it has read, [h_write] gets the
    bytes and the count, [h_ioctl] an index of the memory and makes a new one of it. *)
Class InterpHost (W : Type) := {
  h_read : Z -> Z -> W -> Z * list Z * W;
  h_write : Z -> list Z -> Z -> W -> Z * W;
  h_open : list Z -> Z -> Z -> W -> Z * W;
  h_lseek : Z -> Z -> Z -> W -> Z * W;
  h_ioctl : Z -> Z -> Z -> (Z -> Z) -> W -> (Z -> Z) * W;
  h_getpagesize : Z }.

(** An instruction ends the interpreter with a code, or is done. *)
Inductive progress (W : Type) := Exit (code : Z) | Goes (t : Interp) (w : W).
Arguments Exit {W} code.
Arguments Goes {W} t w.

Section Interpreter.
Context {W : Type} `{!InterpHost W}.

(** The NUL-terminated string at [addr]; [n] bytes are left of the array. *)
Fixpoint c_string (f : Z -> Z) (k : Z) (n : nat) : outcome (list Z) :=
  match n with
  | O => Undefined
  | S n => if f k =? 0 then Ok [] else s ← c_string f (k + 1) n; Ok (f k :: s)
  end.

(** [system_trap]; [fstat] gets a pointer of the program and writes outside [mem]. *)
Definition system_trap (t : Interp) (w : W) : outcome (progress W) :=
  let o0 := getR t 4 in
  let o1 := getR t 5 in
  let o2 := getR t 6 in
  let result r t w := Ok (Goes (setR t 1 r) w) in
  match getR t 2 with
  | 1 => Ok (Exit 0)
  | 3 =>
      let '(r, bs, w) := h_read o0 o2 w in
      t ← match bs with [] => Ok t | _ => save t o1 bs end;
      result r t w
  | 4 =>
      bs ← if o2 <=? 0 then Ok [] else load t o1 o2;
      let '(r, w) := h_write o0 bs o2 w in
      result r t w
  | 5 =>
      k ← index o0 1;
      name ← c_string (mem t) k (Z.to_nat (MEMSIZE - k));
      let '(r, w) := h_open name o1 o2 w in
      result r t w
  | 6 => result 0 t w
  | 17 => result (wrap_s32 ((Z.quot o0 8192 + 1) * 8192)) t w
  | 19 => let '(r, w) := h_lseek o0 o1 o2 w in result r t w
  | 54 =>
      let size := Z.land (Z.shiftr o1 16) 0x7f in
      let ioctl_group := char_of_byte (Z.land (Z.shiftr o1 8) 0xff) in
      let o1 :=
        if (ioctl_group =? 116) && (size =? 8)
        then Z.lor (Z.land o1 (Z.lnot (Z.shiftl 0x7f 16))) (Z.shiftl 6 16)
        else o1 in
      let '(f, w) := h_ioctl o0 o1 (o2 - memoffset) (mem t) w in
      result 0 (set_mem t f) w
  | 62 => Undefined
  | 64 => result h_getpagesize t w
  | _ => Ok (Exit 2)
  end.

Definition system_break := system_trap.

(** [u], for an instruction that is not implemented *)
Definition u : outcome (progress W) := Ok (Exit 2).

(** ** execute.c: one instruction [instr], fetched from [xpc] *)

Section Instr.
Context (t : Interp) (w : W) (instr xpc : Z).

Definition R_rs : Z := getR t (i_rs instr).
Definition R_rt : Z := getR t (i_rt instr).
Definition goes (t : Interp) : outcome (progress W) := Ok (Goes t w).
Definition to_rd (v : Z) : outcome (progress W) := goes (setR t (i_rd instr) v).
Definition to_rt (v : Z) : outcome (progress W) := goes (setR t (i_rt instr) v).
Definition c_flag (b : bool) : Z := if b then 1 else 0.

(** A shift by a register; the count has to be less than the width. *)
Definition shift_by (n : Z) (v : Z) : outcome (progress W) :=
  if (0 <=? n) && (n <? 32) then to_rd v else Undefined.

(** I_MULT and I_MULTU: the products of the halves, without their carries *)
Definition high_product (t1 t2 : Z) : Z :=
  let t1l := Z.land t1 0xffff in
  let t1h := Z.land (Z.shiftr t1 16) 0xffff in
  let t2l := Z.land t2 0xffff in
  let t2h := Z.land (Z.shiftr t2 16) 0xffff in
  wrap_s32 (wrap_s32 (t1h * t2h) + Z.shiftr (wrap_s32 (t1h * t2l)) 16 + Z.shiftr (wrap_s32 (t2h * t1l)) 16).

Definition exec_mult : Interp :=
  let t1 := R_rs in
  let t2 := R_rt in
  let neg := xorb (t1 <? 0) (t2 <? 0) in
  let t1 := if t1 <? 0 then wrap_s32 (- t1) else t1 in
  let t2 := if t2 <? 0 then wrap_s32 (- t2) else t2 in
  let lo := wrap_s32 (t1 * t2) in
  let hi := high_product t1 t2 in
  if neg then
    let lo := wrap_s32 (Z.lnot lo + 1) in
    set_HI (set_LO t lo) (if lo =? 0 then wrap_s32 (Z.lnot hi + 1) else Z.lnot hi)
  else set_HI (set_LO t lo) hi.

Definition exec_special : outcome (progress W) :=
  match Z.land instr 0x3f with
  | 0 (* I_SLL *) => to_rd (wrap_s32 (Z.shiftl R_rt (shamt instr)))
  | 2 (* I_SRL *) => to_rd (wrap_s32 (Z.shiftr (wrap_u32 R_rt) (shamt instr)))
  | 3 (* I_SRA *) => to_rd (Z.shiftr R_rt (shamt instr))
  | 4 (* I_SLLV *) => shift_by R_rs (wrap_s32 (Z.shiftl R_rt R_rs))
  | 6 (* I_SRLV *) => shift_by R_rs (wrap_s32 (Z.shiftr (wrap_u32 R_rt) R_rs))
  | 7 (* I_SRAV *) => shift_by R_rs (Z.shiftr R_rt R_rs)
  | 8 (* I_JR *) => goes (set_npc t R_rs)
  | 9 (* I_JALR *) => goes (setR (set_npc t R_rs) (i_rd instr) (wrap_s32 (xpc + 8)))
  | 12 (* I_SYSCALL *) => system_trap t w
  | 13 (* I_BREAK *) => system_break t w
  | 16 (* I_MFHI *) => to_rd (HI t)
  | 17 (* I_MTHI *) => goes (set_HI t R_rs)
  | 18 (* I_MFLO *) => to_rd (LO t)
  | 19 (* I_MTLO *) => goes (set_LO t R_rs)
  | 24 (* I_MULT *) => goes exec_mult
  | 25 (* I_MULTU *) => goes (set_HI (set_LO t (wrap_s32 (R_rs * R_rt))) (high_product R_rs R_rt))
  | 26 (* I_DIV *) =>
      if (R_rt =? 0) || (R_rs =? int32_min) && (R_rt =? -1) then Undefined
      else goes (set_HI (set_LO t (Z.quot R_rs R_rt)) (Z.rem R_rs R_rt))
  | 27 (* I_DIVU *) =>
      if R_rt =? 0 then Undefined
      else goes (set_HI (set_LO t (wrap_s32 (wrap_u32 R_rs / wrap_u32 R_rt))) (wrap_s32 (wrap_u32 R_rs mod wrap_u32 R_rt)))
  | 32 | 33 (* I_ADD, I_ADDU *) => to_rd (wrap_s32 (R_rs + R_rt))
  | 34 | 35 (* I_SUB, I_SUBU *) => to_rd (wrap_s32 (R_rs - R_rt))
  | 36 (* I_AND *) => to_rd (Z.land R_rs R_rt)
  | 37 (* I_OR *) => to_rd (Z.lor R_rs R_rt)
  | 38 (* I_XOR *) => to_rd (Z.lxor R_rs R_rt)
  | 39 (* I_NOR *) => to_rd (Z.lnot (Z.lor R_rs R_rt))
  | 42 (* I_SLT *) => to_rd (c_flag (R_rs <? R_rt))
  | 43 (* I_SLTU *) => to_rd (c_flag (wrap_u32 R_rs <? wrap_u32 R_rt))
  | _ => u
  end.

(** The target of a branch, and a branch of the given state. *)
Definition target : Z := wrap_s32 (xpc + 4 + Z.shiftl (immed instr) 2).
Definition branch_if (t : Interp) (b : bool) : outcome (progress W) := goes (if b then set_npc t target else t).
Definition link31 : Interp := setR t 31 (wrap_s32 (xpc + 8)).

Definition exec_bcond : outcome (progress W) :=
  match i_rt instr with
  | 0 (* I_BLTZ *) => branch_if t (R_rs <? 0)
  | 1 (* I_BGEZ *) => branch_if t (0 <=? R_rs)
  | 16 (* I_BLTZAL *) => branch_if link31 (getR link31 (i_rs instr) <? 0)
  | 17 (* I_BGEZAL *) => branch_if link31 (0 <=? getR link31 (i_rs instr))
  | _ => u
  end.

(** [(xpc & 0xf0000000) | ((instr & 0x03ffffff) << 2)] *)
Definition far_target : Z :=
  wrap_s32 (Z.lor (Z.land (wrap_u32 xpc) 0xf0000000) (Z.shiftl (Z.land instr 0x03ffffff) 2)).

(** The address of a load or store. *)
Definition ea : Z := wrap_s32 (R_rs + immed instr).
Definition load_rt (v : outcome Z) : outcome (progress W) := v ← v; to_rt v.
Definition stored (r : outcome Interp) : outcome (progress W) := t ← r; goes t.

(** I_LWL and I_LWR; [-1 >> n] is -1 *)
Definition exec_lwl : outcome (progress W) :=
  let i := ea in
  let old := Z.land R_rt (Z.shiftr (-1) (8 * Z.land (- i) 3)) in
  v ← fetch t (Z.land i (-4));
  to_rt (Z.lor old (wrap_s32 (Z.shiftl v (8 * Z.land i 3)))).
Definition exec_lwr : outcome (progress W) :=
  let i := ea in
  let old := Z.land R_rt (Z.shiftl (-1) (8 * Z.land i 3)) in
  let old := if Z.land i 3 =? 0 then 0 else old in
  v ← fetch t (Z.land i (-4));
  to_rt (Z.lor old (Z.shiftr v (8 * Z.land (- i) 3))).

(** The [switch] on the opcode *)
Definition exec_instr : outcome (progress W) :=
  match Z.land (Z.shiftr instr 26) 0x3f with
  | 0 (* I_SPECIAL *) => exec_special
  | 1 (* I_BCOND *) => exec_bcond
  | 2 (* I_J *) => goes (set_npc t far_target)
  | 3 (* I_JAL *) => goes (set_npc link31 far_target)
  | 4 (* I_BEQ *) => branch_if t (R_rs =? R_rt)
  | 5 (* I_BNE *) => branch_if t (negb (R_rs =? R_rt))
  | 6 (* I_BLEZ *) => branch_if t (R_rs <=? 0)
  | 7 (* I_BGTZ *) => branch_if t (0 <? R_rs)
  | 8 | 9 (* I_ADDI, I_ADDIU *) => to_rt (wrap_s32 (R_rs + immed instr))
  | 10 (* I_SLTI *) => to_rt (c_flag (R_rs <? immed instr))
  | 11 (* I_SLTIU *) => to_rt (c_flag (wrap_u32 R_rs <? wrap_u32 (immed instr)))
  | 12 (* I_ANDI *) => to_rt (Z.land R_rs (immed instr))
  | 13 (* I_ORI *) => to_rt (Z.lor R_rs (immed instr))
  | 14 (* I_XORI *) => to_rt (Z.lxor R_rs (immed instr))
  | 15 (* I_LUI *) => to_rt (wrap_s32 (Z.shiftl instr 16))
  | 16 | 17 | 18 | 19 (* I_COP0 to I_COP3 *) => Ok (Exit 2)
  | 32 (* I_LB *) => load_rt (cfetch t ea)
  | 33 (* I_LH *) => load_rt (sfetch t ea)
  | 34 (* I_LWL *) => exec_lwl
  | 35 (* I_LW *) => load_rt (fetch t ea)
  | 36 (* I_LBU *) => load_rt (ucfetch t ea)
  | 37 (* I_LHU *) => load_rt (usfetch t ea)
  | 38 (* I_LWR *) => exec_lwr
  | 40 (* I_SB *) => stored (cstore t ea R_rt)
  | 41 (* I_SH *) => stored (sstore t ea R_rt)
  | 42 (* I_SWL *) => u
  | 43 (* I_SW *) => stored (store t ea R_rt)
  | 46 (* I_SWR *) => u
  | 48 | 49 | 50 | 51 | 56 | 57 | 58 | 59 (* I_LWC0 to I_SWC3 *) => Ok (Exit 2)
  | _ => u
  end.

End Instr.

(** One round of the loop of [runprogram] *)
Definition interpret (t : Interp) (w : W) : outcome (progress W) :=
  let xpc := pc t in
  let t := mkInterp (Reg t) (HI t) (LO t) (mem t) (npc t) (wrap_s32 (npc t + 4)) (wrap_s32 (icount t + 1)) in
  instr ← ifetch t xpc;
  let t := setR t 0 0 in
  if negb (instr =? 0) then exec_instr t w instr xpc else Ok (Goes t w).

(** [n] rounds of the loop. *)
Fixpoint rounds (n : nat) (t : Interp) (w : W) : outcome (progress W) :=
  match n with
  | O => Ok (Goes t w)
  | S n => r ← interpret t w; match r with Exit code => Ok (Exit code) | Goes t w => rounds n t w end
  end.

(** The loop that copies the arguments: [strcpy] copies the string and its NUL. *)
Fixpoint copy_args (argv : list (list Z)) (aci ai : Z) (t : Interp) : outcome Interp :=
  match argv with
  | [] => Ok t
  | s :: argv =>
      t ← save t ai (s ++ [0]);
      t ← store t aci ai;
      copy_args argv (aci + 4) (ai + lenZ s + 1) t
  end.

(** [runprogram] up to its loop; [t] holds the program and the registers as they are. *)
Definition start_program (startpc : Z) (argv : list (list Z)) (t : Interp) : outcome Interp :=
  let i := MEMSIZE - 1024 + memoffset in
  let t := mkInterp ((Reg t).[29 <- i]) (HI t) (LO t) (mem t) startpc (wrap_s32 (startpc + 4)) 0 in
  t ← store t i (lenZ argv);
  copy_args argv (i + 4) (i + 4 + 32) t.

End Interpreter.

(** ** Fields of the instruction *)

Lemma field_u32 x n k : 0 <= n -> 0 <= k -> n + k <= 32 ->
  Z.land (Z.shiftr (wrap_u32 x) n) (2 ^ k - 1) = Z.land (Z.shiftr x n) (2 ^ k - 1).
Proof.
  intros Hn Hk Hs. rewrite !land_low by done. apply Z.bits_inj'. intros i Hi.
  destruct (Z.lt_ge_cases i k); [|by rewrite !Z.mod_pow2_bits_high by lia].
  rewrite !Z.mod_pow2_bits_low, !Z.shiftr_spec by lia. unfold wrap_u32. change two32 with (2 ^ 32).
  by rewrite Z.mod_pow2_bits_low by lia.
Qed.

Lemma field_low x k : 0 <= k <= 32 -> Z.land (wrap_u32 x) (2 ^ k - 1) = Z.land x (2 ^ k - 1).
Proof. intros Hk. pose proof (field_u32 x 0 k ltac:(lia) ltac:(lia) ltac:(lia)) as H. by rewrite !Z.shiftr_0_r in H. Qed.

(** The sign extension of the low 16 bits. *)
Definition imm16 (x : Z) : Z := let e := x mod 65536 in if e <? 32768 then e else e - 65536.

Lemma imm16_range x : -32768 <= imm16 x < 32768.
Proof. unfold imm16. pose proof (Z.mod_pos_bound x 65536 ltac:(lia)). destruct (Z.ltb_spec (x mod 65536) 32768); lia. Qed.

Lemma bit15 x : Z.testbit x 15 = negb (x mod 65536 <? 32768).
Proof.
  rewrite <- (Z.mod_pow2_bits_low x 16 15) by lia. change (2 ^ 16) with 65536. pose proof (Z.mod_pos_bound x 65536 ltac:(lia)) as Hb.
  destruct (Z.ltb_spec (x mod 65536) 32768); simpl negb.
  - apply Z.testbit_false; [lia|]. change (2 ^ 15) with 32768. by rewrite Z.div_small by lia.
  - apply Z.testbit_true; [lia|]. change (2 ^ 15) with 32768. replace (x mod 65536 / 32768) with 1; [done|].
    apply Z.div_unique with (x mod 65536 - 32768); lia.
Qed.

Lemma mod_32768 x : x mod 32768 = if x mod 65536 <? 32768 then x mod 65536 else x mod 65536 - 32768.
Proof.
  pose proof (Z.mod_pos_bound x 65536 ltac:(lia)) as Hb. rewrite (Znumtheory.Zmod_div_mod 32768 65536 x) by (try lia; by exists 2).
  destruct (Z.ltb_spec (x mod 65536) 32768); [by rewrite Z.mod_small by lia|]. symmetry. apply (Z.mod_unique_pos _ _ 1); lia.
Qed.

Lemma lor_high x n : 0 <= n -> Z.lor x (- 2 ^ n) = x mod 2 ^ n - 2 ^ n.
Proof.
  intros Hn. pose proof (Z.pow_pos_nonneg 2 n ltac:(lia) Hn) as Hp.
  assert (E : - 2 ^ n = Z.lnot (2 ^ n - 1)) by (unfold Z.lnot; lia). rewrite E.
  rewrite <- (Z.lnot_involutive x) at 1. rewrite <- Z.lnot_land, land_low by done. unfold Z.lnot at 1.
  assert (Em : Z.lnot x mod 2 ^ n = 2 ^ n - 1 - x mod 2 ^ n); [|lia].
  symmetry. apply (Z.mod_unique_pos _ _ (- (x / 2 ^ n) - 1)).
  - pose proof (Z.mod_pos_bound x (2 ^ n) Hp). lia.
  - unfold Z.lnot. pose proof (Z.div_mod x (2 ^ n) ltac:(lia)). lia.
Qed.

Lemma immed_sext x : immed x = imm16 x.
Proof.
  unfold immed, imm16. change (-0x8000) with (- 2 ^ 15). change 0x8000 with (2 ^ 15). rewrite land_pow2_bit, bit15 by lia.
  rewrite (land_low x 15 ltac:(lia) : Z.land x 0x7fff = x mod 32768). rewrite lor_high by lia.
  change (2 ^ 15) with 32768. rewrite mod_32768. destruct (Z.ltb_spec (x mod 65536) 32768); simpl; lia.
Qed.

(** ** [ilog2], a debugging aid *)

(** One of its lines: the bits of [mask] that are set in [i] replace it. *)
Definition halve (mask step : Z) (p : Z * Z) : Z * Z :=
  let '(i, l) := p in
  let j := Z.land i mask in
  if negb (j =? 0) then (j, l + step) else (i, l).

Definition ilog2 (i : Z) : Z :=
  if i =? 0 then 0
  else
    let p := (wrap_u32 i, 1) in
    let p := halve 0xffff0000 16 p in
    let p := halve 0xff00ff00 8 p in
    let p := halve 0xf0f0f0f0 4 p in
    let p := halve 0xcccccccc 2 p in
    let p := halve 0xaaaaaaaa 1 p in
    p.2.

(** ** [ilog2] finds the highest bit *)

(** The mask has the bits whose position has bit [k]. *)
Definition picks (mask k : Z) : bool := forallb (fun q => Bool.eqb (Z.testbit mask q) (Z.testbit q k)) (seqZ 0 32).

Lemma picks_spec mask k q : picks mask k = true -> 0 <= q < 32 -> Z.testbit mask q = Z.testbit q k.
Proof.
  intros H Hq. unfold picks in H. rewrite forallb_forall in H. apply Bool.eqb_prop, H, list_elem_of_In, elem_of_seqZ. lia.
Qed.

(** The bits of [i] are in one block of [2 ^ j] with the highest bit [p], and [l] counts the
    blocks before it. *)
Definition narrowed (p j : Z) (x : Z * Z) : Prop :=
  Z.testbit x.1 p = true /\ (forall q, 0 <= q -> Z.testbit x.1 q = true -> Z.shiftr q j = Z.shiftr p j /\ q <= p) /\
  x.2 = 1 + Z.shiftl (Z.shiftr p j) j.

Lemma shiftr_bit q k : 0 <= k -> Z.shiftr q k = 2 * Z.shiftr q (k + 1) + Z.b2z (Z.testbit q k).
Proof.
  intros Hk. rewrite <- Z.shiftr_shiftr by lia. rewrite <- Z.div2_spec. rewrite (Z.div2_odd (Z.shiftr q k)) at 1. do 2 f_equal.
  rewrite <- Z.bit0_odd, Z.shiftr_spec by lia. done.
Qed.

Lemma halve_narrows mask k p x :
  0 <= k -> 0 <= p < 32 -> picks mask k = true -> narrowed p (k + 1) x -> narrowed p k (halve mask (2 ^ k) x).
Proof.
  intros Hk Hp Hm. destruct x as [i l]. unfold narrowed. cbn [fst snd]. intros (H1 & H2 & H3). unfold halve.
  assert (Hblock : l + (if Z.testbit p k then 2 ^ k else 0) = 1 + Z.shiftl (Z.shiftr p k) k).
  { rewrite (shiftr_bit p k Hk), H3, !Z.shiftl_mul_pow2 by lia. rewrite Z.pow_add_r by lia. change (2 ^ 1) with 2. destruct (Z.testbit p k); cbn [Z.b2z]; lia. }
  assert (Hq : forall q, 0 <= q -> Z.testbit i q = true -> q <= p /\ (Z.testbit q k = Z.testbit p k -> Z.shiftr q k = Z.shiftr p k)).
  { intros q Hq0 Hb. destruct (H2 q Hq0 Hb) as [E L]. split; [done|]. intros Eb. rewrite (shiftr_bit q k), (shiftr_bit p k) by done. by rewrite E, Eb. }
  assert (Hland : forall q, 0 <= q < 32 -> Z.testbit (Z.land i mask) q = Z.testbit i q && Z.testbit q k) by (intros q Hq0; rewrite Z.land_spec; by rewrite (picks_spec mask k q)).
  destruct (Z.eqb_spec (Z.land i mask) 0) as [E0|E0]; cbn [negb fst snd].
  - assert (Hpk : Z.testbit p k = false) by (pose proof (Hland p Hp) as E; rewrite E0, Z.bits_0, H1 in E; by destruct (Z.testbit p k)).
    rewrite Hpk, Z.add_0_r in Hblock. conjs; try done. intros q Hq0 Hb. destruct (Hq q Hq0 Hb) as [L E]. split; [|done]. apply E. rewrite Hpk.
    pose proof (Hland q ltac:(lia)) as E'. rewrite E0, Z.bits_0, Hb in E'. by destruct (Z.testbit q k).
  - assert (Hpk : Z.testbit p k = true).
    { destruct (Z.testbit p k) eqn:Hpk; [done|]. exfalso. apply E0. apply Z.bits_inj'. intros q Hq0. rewrite Z.bits_0. destruct (Z.testbit i q) eqn:Hb; [|by rewrite Z.land_spec, Hb].
      destruct (Hq q Hq0 Hb) as [L _]. rewrite Hland, Hb by lia. cbn [andb]. destruct (Z.testbit q k) eqn:Hqk; [|done]. exfalso.
      destruct (H2 q Hq0 Hb) as [E _]. pose proof (shiftr_bit q k Hk) as Sq. pose proof (shiftr_bit p k Hk) as Sp. rewrite Hqk in Sq. rewrite Hpk in Sp. cbn [Z.b2z] in Sq, Sp.
      assert (Hlt : Z.shiftr p k < Z.shiftr q k) by lia. rewrite !Z.shiftr_div_pow2 in Hlt by done. pose proof (Z.div_le_mono q p (2 ^ k) ltac:(apply Z.pow_pos_nonneg; lia) L). lia. }
    rewrite Hpk in Hblock. conjs; [by rewrite Hland, H1, Hpk by done| |done]. intros q Hq0 Hb. rewrite Z.land_spec in Hb. apply andb_true_iff in Hb as [Hb Hmq].
    destruct (Hq q Hq0 Hb) as [L E]. split; [|done]. apply E. by rewrite Hpk, <- (picks_spec mask k q) by (done || lia).
Qed.

(** [ilog2] of an [int], taken as unsigned, is the number of its significant bits.  The table
    in its comment says otherwise: it has 2 -> 1 and 4 -> 2. *)
Theorem ilog2_spec i : int32 i -> i <> 0 -> ilog2 i = Z.log2 (wrap_u32 i) + 1.
Proof.
  intros Hi H0. unfold ilog2. rewrite (proj2 (Z.eqb_neq i 0)) by done. pose proof (wrap_u32_range i) as Hu. unfold uint32, two32 in Hu.
  assert (Hpos : 0 < wrap_u32 i).
  { assert (wrap_u32 i <> 0); [|lia]. intros E. apply H0. rewrite <- (wrap_s32_id i Hi), <- wrap_s32_wrap_u32, E. done. }
  set (p := Z.log2 (wrap_u32 i)). assert (Hp : 0 <= p < 32) by (split; [apply Z.log2_nonneg|]; apply Z.log2_lt_pow2; [done|]; change (2 ^ 32) with 4294967296; lia).
  assert (N : narrowed p (4 + 1) (wrap_u32 i, 1)).
  { unfold narrowed. cbn [fst snd]. assert (Hs : forall q, 0 <= q < 32 -> Z.shiftr q (4 + 1) = 0) by (intros q Hq; rewrite Z.shiftr_div_pow2 by lia; apply Z.div_small; change (2 ^ (4 + 1)) with 32; lia).
    conjs; [apply Z.bit_log2; done| |by rewrite Hs by done]. intros q Hq Hb. assert (L : q <= p). { destruct (Z.le_gt_cases q p) as [|Hgt]; [done|]. by rewrite Z.bits_above_log2 in Hb by lia. }
    rewrite !Hs by lia. done. }
  apply (halve_narrows 0xffff0000 4) in N; [|lia|done|reflexivity]. apply (halve_narrows 0xff00ff00 3) in N; [|lia|done|reflexivity].
  apply (halve_narrows 0xf0f0f0f0 2) in N; [|lia|done|reflexivity]. apply (halve_narrows 0xcccccccc 1) in N; [|lia|done|reflexivity].
  apply (halve_narrows 0xaaaaaaaa 0) in N; [|lia|done|reflexivity]. destruct N as (_ & _ & N). change (2 ^ 4) with 16 in N. change (2 ^ 3) with 8 in N. change (2 ^ 2) with 4 in N.
  change (2 ^ 1) with 2 in N. change (2 ^ 0) with 1 in N. rewrite N, Z.shiftl_0_r, Z.shiftr_0_r. lia.
Qed.

(** ** The arguments on the stack *)

Lemma bytes_at_ext f g k n : (forall j, k <= j < k + n -> f j = g j) -> bytes_at f k n = bytes_at g k n.
Proof. intros H. unfold bytes_at. apply map_ext_in. intros j Hj%in_seq. apply H. lia. Qed.

Lemma bytes_at_put f k bs : bytes_at (put_bytes f k bs) k (lenZ bs) = bs.
Proof.
  unfold bytes_at, lenZ. rewrite Nat2Z.id. apply list_eq. intros j. rewrite list_lookup_fmap. destruct (Nat.lt_ge_cases j (length bs)) as [Hj|Hj].
  - rewrite lookup_seq_lt by done. cbn [fmap option_fmap option_map Nat.add]. unfold put_bytes, lenZ. rewrite (proj2 (Z.leb_le _ _)), (proj2 (Z.ltb_lt _ _)) by lia. cbn [andb].
    destruct (lookup_lt_is_Some_2 bs j Hj) as [b E]. rewrite E. unfold lookupZ. rewrite (proj2 (Z.ltb_ge _ 0)) by lia. replace (Z.to_nat (k + Z.of_nat j - k)) with j by lia. by rewrite E.
  - rewrite lookup_seq_ge by lia. cbn. symmetry. by apply lookup_ge_None_2.
Qed.

Lemma put_bytes_other f k bs j : j < k \/ k + lenZ bs <= j -> put_bytes f k bs j = f j.
Proof. intros H. unfold put_bytes. destruct ((k <=? j) && (j <? k + lenZ bs)) eqn:E; [|done]. to_prop. lia. Qed.

Lemma index_inside addr n : memoffset <= addr -> addr + n <= memoffset + MEMSIZE -> index addr n = Ok (addr - memoffset).
Proof. intros H1 H2. unfold index. by rewrite (proj2 (Z.leb_le _ _)), (proj2 (Z.leb_le _ _)) by lia. Qed.

Lemma save_inside t addr bs : memoffset <= addr -> addr + lenZ bs <= memoffset + MEMSIZE -> save t addr bs = Ok (set_mem t (put_bytes (mem t) (addr - memoffset) bs)).
Proof. intros H1 H2. unfold save. by rewrite index_inside. Qed.

(** The bytes at an address of the array; they depend only on the memory there. *)
Lemma load_ext t t' addr n bs :
  (forall j, addr - memoffset <= j < addr - memoffset + n -> mem t' j = mem t j) -> load t addr n = Ok bs -> load t' addr n = Ok bs.
Proof.
  intros H. unfold load, index. destruct (_ && _); [|done]. cbn [mbind outcome_bind]. intros [= <-]. f_equal. by apply bytes_at_ext.
Qed.

Definition strings_size (argv : list (list Z)) : Z := fold_right (fun s n => lenZ s + 1 + n) 0 argv.

Lemma strings_size_nonneg argv : 0 <= strings_size argv.
Proof. induction argv as [|s argv IH]; [done|]. cbn [strings_size fold_right]. unfold strings_size in IH. pose proof (lenZ_nonneg s). lia. Qed.

(** [p] is the address of the string [s]. *)
Definition string_at (t : Interp) (p : Z) (s : list Z) : Prop := load t p (lenZ s + 1) = Ok (s ++ [0]).
Definition word_at (t : Interp) (addr v : Z) : Prop := load t addr 4 = Ok (le_split 4 v).

Lemma word_at_fetch t addr v : int32 v -> word_at t addr v -> fetch t addr = Ok v.
Proof. intros Hv E. unfold fetch. rewrite E. cbn [mbind outcome_bind]. by rewrite le_combine_split4, wrap_s32_wrap_u32, wrap_s32_id. Qed.

Lemma copy_args_ok argv aci ai t :
  memoffset <= aci -> aci + 4 * lenZ argv <= ai -> ai + strings_size argv <= memoffset + MEMSIZE ->
  exists f, copy_args argv aci ai t = Ok (set_mem t f) /\
    (forall k, k < aci - memoffset \/ aci + 4 * lenZ argv - memoffset <= k < ai - memoffset \/ ai + strings_size argv - memoffset <= k -> f k = mem t k) /\
    (forall j s, argv.[j] = Some s -> exists p, ai <= p <= ai + strings_size argv /\ word_at (set_mem t f) (aci + 4 * j) p /\ string_at (set_mem t f) p s).
Proof.
  revert aci ai t. induction argv as [|s argv IH]; intros aci ai t H1 H2 H3.
  { exists (mem t). conjs; [by destruct t|done|]. intros j s Hj. by apply lookupZ_Some_range in Hj; unfold lenZ in Hj; cbn in Hj; lia. }
  assert (EL : lenZ (s :: argv) = 1 + lenZ argv) by (unfold lenZ; cbn [length]; lia). pose proof (lenZ_nonneg argv) as La. rewrite EL in *.
  assert (ES : strings_size (s :: argv) = lenZ s + 1 + strings_size argv) by done. pose proof (lenZ_nonneg s) as Ls. pose proof (strings_size_nonneg argv) as Lz. rewrite ES in *.
  assert (E1 : lenZ (s ++ [0]) = lenZ s + 1) by (rewrite lenZ_app; done). assert (E4 : lenZ (le_split 4 ai) = 4) by apply (lenZ_le_split 4).
  cbn [copy_args]. rewrite save_inside by lia. cbn [mbind outcome_bind]. unfold store. rewrite save_inside by lia. cbn [mbind outcome_bind set_mem mem].
  set (t1 := set_mem _ (put_bytes _ (aci - memoffset) _)).
  assert (Hm1 : forall k, (k < aci - memoffset \/ aci + 4 - memoffset <= k < ai - memoffset \/ ai + lenZ s + 1 - memoffset <= k) -> mem t1 k = mem t k).
  { intros k Hk. unfold t1. cbn [set_mem mem]. rewrite !put_bytes_other by lia. done. }
  assert (Hw : word_at t1 aci ai). { unfold word_at, load. rewrite index_inside by lia. cbn [mbind outcome_bind t1 set_mem mem]. f_equal. apply (bytes_at_put _ _ (le_split 4 ai)). }
  assert (Hs : string_at t1 ai s).
  { unfold string_at, load. rewrite index_inside by lia. cbn [mbind outcome_bind t1 set_mem mem]. f_equal. rewrite <- E1.
    etransitivity; [|apply (bytes_at_put (mem t) (ai - memoffset))]. apply bytes_at_ext. intros j Hj. apply put_bytes_other. lia. }
  destruct (IH (aci + 4) (ai + lenZ s + 1) t1) as (f & -> & Hf & Hargs); [lia..|]. exists f. conjs; [done| |].
  - intros k Hk. rewrite Hf by lia. apply Hm1. lia.
  - intros j s' Hj. rewrite lookupZ_cons in Hj. destruct (j <? 0) eqn:Ej.
    { exfalso. destruct (j =? 0) eqn:E0; to_prop; [lia|done]. }
    destruct (Z.eqb_spec j 0) as [->|Hj0].
    + injection Hj as <-. exists ai. rewrite Z.mul_0_r, Z.add_0_r. conjs; [lia..|eapply load_ext; [|exact Hw]|eapply load_ext; [|exact Hs]]; intros k Hk; cbn [set_mem mem]; apply Hf; lia.
    + destruct (Hargs (j - 1) s' Hj) as (p & Hp & Hpw & Hps). exists p. conjs; [lia..| |done]. replace (aci + 4 * j) with (aci + 4 + 4 * (j - 1)) by lia. done.
Qed.

(** [runprogram] puts the arguments on the stack of the program: the stack pointer points at
    their number, behind it are the pointers, and every pointer leads to its string.  This is
    so for at most eight arguments whose strings fit in the 988 bytes that are left. *)
Theorem start_program_arguments startpc argv t :
  lenZ (Reg t) = 32 -> lenZ argv <= 8 -> strings_size argv <= 988 ->
  exists t', start_program startpc argv t = Ok t' /\ pc t' = startpc /\ npc t' = wrap_s32 (startpc + 4) /\
    fetch t' (getR t' 29) = Ok (lenZ argv) /\
    (forall j s, argv.[j] = Some s -> exists p, fetch t' (getR t' 29 + 4 + 4 * j) = Ok p /\ string_at t' p s).
Proof.
  intros HL Hn Hs. unfold start_program. change (MEMSIZE - 1024 + memoffset) with 0x10fffc00. set (t0 := mkInterp _ _ _ _ _ _ _). pose proof (lenZ_nonneg argv) as La.
  unfold store. rewrite save_inside by (unfold memoffset, MEMSIZE; rewrite ?(lenZ_le_split 4); lia). cbn [mbind outcome_bind]. set (t1 := set_mem t0 _).
  destruct (copy_args_ok argv (0x10fffc00 + 4) (0x10fffc00 + 4 + 32) t1) as (f & E & Hf & Hargs); [unfold memoffset, MEMSIZE; lia..|]. rewrite E. eexists. split; [done|]. conjs; [done..| |].
  - assert (Esp : getR (set_mem t1 f) 29 = 0x10fffc00) by (unfold getR; cbn [set_mem t1 t0 Reg]; by rewrite lookupZ_insertZ_eq by lia). rewrite Esp.
    apply word_at_fetch; [unfold_int32; lia|]. unfold word_at. apply (load_ext t1).
    + intros j Hj. cbn [set_mem mem]. apply Hf. unfold memoffset in *. lia.
    + unfold load. rewrite index_inside by (unfold memoffset, MEMSIZE; lia). cbn [mbind outcome_bind t1 set_mem mem]. done.
  - assert (Esp : getR (set_mem t1 f) 29 = 0x10fffc00) by (unfold getR; cbn [set_mem t1 t0 Reg]; by rewrite lookupZ_insertZ_eq by lia). rewrite Esp.
    intros j s Hj. destruct (Hargs j s Hj) as (p & Hp & Hw & Hst). exists p. split; [|done]. apply word_at_fetch; [|done]. unfold_int32. pose proof (strings_size_nonneg argv). lia.
Qed.

(** With nine arguments the ninth pointer is written over the first string. *)
Example nine_arguments :
  match start_program memoffset (replicate 9 [97]) (mkInterp (replicate 32 0) 0 0 (fun _ => 0) 0 4 0) with
  | Ok t => match load t (getR t 29 + 36) 2 with Ok bs => bool_decide (bs = [97; 0]) | _ => true end
  | _ => true
  end = false.
Proof. vm_compute. reflexivity. Qed.
