(* ===== verification/ExecuteAgree.v ===== *)
(** * The two interpreters agree

    bin/execute.c and machine/mipssim.cc interpret the same instruction set.  The relation
    [agree] connects their states: a load that the simulator still has pending is already in
    its register in the interpreter, and every virtual address of the simulator is an address
    of the interpreter's array with the same byte.  The theorem is that a program which
    respects the delay slots and stays with the instructions on which the two programs do the
    same ([common], with the differences as its side conditions) runs the same on both. *)

From S2P Require Import Prelude Int32 Machine Cpu Execute.

(** ** Fields of the instruction *)

(** The same field in [Decode]. *)
Lemma extra_sext x :
  (let e := Z.land x 0xffff in if negb (Z.land e 0x8000 =? 0) then wrap_s32 (Z.lor e 0xffff0000) else e) = imm16 x.
Proof.
  cbn zeta. rewrite (land_low x 16 ltac:(lia) : Z.land x 0xffff = x mod 65536). unfold imm16. pose proof (Z.mod_pos_bound x 65536 ltac:(lia)) as Hb.
  rewrite (land_pow2_bit _ 15 ltac:(lia) : negb (Z.land _ 0x8000 =? 0) = _), bit15, Z.mod_mod by lia. destruct (Z.ltb_spec (x mod 65536) 32768); simpl; [done|].
  assert (E : Z.lor (x mod 65536) 0xffff0000 = x mod 65536 + 0xffff0000).
  { rewrite <- Z.lxor_lor, <- Z.add_nocarry_lxor; [done|..]; apply Z.bits_inj'; intros i Hi; rewrite Z.land_spec, Z.bits_0;
      change 0xffff0000 with (Z.shiftl 0xffff 16); (destruct (Z.lt_ge_cases i 16); [by rewrite Z.shiftl_spec_low, andb_false_r by lia|]);
      change 65536 with (2 ^ 16); by rewrite Z.mod_pow2_bits_high by lia. }
  rewrite E. apply wrap_s32_unique; [unfold_int32; lia|]. exists (-1). unfold_int32. lia.
Qed.

Lemma imm16_u32 x : imm16 (wrap_u32 x) = imm16 x.
Proof. unfold imm16, wrap_u32. by rewrite <- (Znumtheory.Zmod_div_mod 65536 two32) by (try done; by exists 65536). Qed.

(** The numbers of an operation: opcode, or function of I_SPECIAL, or field of I_BCOND. *)
Inductive number := Opcode (k : Z) | Special (k : Z) | Bcond (k : Z).
#[export] Instance number_eq_dec : EqDecision number.
Proof. solve_decision. Defined.
Definition number_of (op : OpCode) : option number :=
  match op with
  | OP_ADD => Some (Special 32) | OP_ADDI => Some (Opcode 8) | OP_ADDIU => Some (Opcode 9) | OP_ADDU => Some (Special 33)
  | OP_AND => Some (Special 36) | OP_ANDI => Some (Opcode 12) | OP_BEQ => Some (Opcode 4) | OP_BGEZ => Some (Bcond 1)
  | OP_BGEZAL => Some (Bcond 17) | OP_BGTZ => Some (Opcode 7) | OP_BLEZ => Some (Opcode 6) | OP_BLTZ => Some (Bcond 0)
  | OP_BLTZAL => Some (Bcond 16) | OP_BNE => Some (Opcode 5) | OP_DIV => Some (Special 26) | OP_DIVU => Some (Special 27)
  | OP_J => Some (Opcode 2) | OP_JAL => Some (Opcode 3) | OP_JALR => Some (Special 9) | OP_JR => Some (Special 8)
  | OP_LB => Some (Opcode 32) | OP_LBU => Some (Opcode 36) | OP_LH => Some (Opcode 33) | OP_LHU => Some (Opcode 37)
  | OP_LUI => Some (Opcode 15) | OP_LW => Some (Opcode 35) | OP_LWL => Some (Opcode 34) | OP_LWR => Some (Opcode 38)
  | OP_MFHI => Some (Special 16) | OP_MFLO => Some (Special 18) | OP_MTHI => Some (Special 17) | OP_MTLO => Some (Special 19)
  | OP_MULT => Some (Special 24) | OP_MULTU => Some (Special 25) | OP_NOR => Some (Special 39) | OP_OR => Some (Special 37)
  | OP_ORI => Some (Opcode 13) | OP_SB => Some (Opcode 40) | OP_SH => Some (Opcode 41) | OP_SLL => Some (Special 0)
  | OP_SLLV => Some (Special 4) | OP_SLT => Some (Special 42) | OP_SLTI => Some (Opcode 10) | OP_SLTIU => Some (Opcode 11)
  | OP_SLTU => Some (Special 43) | OP_SRA => Some (Special 3) | OP_SRAV => Some (Special 7) | OP_SRL => Some (Special 2)
  | OP_SRLV => Some (Special 6) | OP_SUB => Some (Special 34) | OP_SUBU => Some (Special 35) | OP_SW => Some (Opcode 43)
  | OP_SWL => Some (Opcode 42) | OP_SWR => Some (Opcode 46) | OP_XOR => Some (Special 38) | OP_XORI => Some (Opcode 14)
  | OP_SYSCALL => Some (Special 12)
  | OP_RFE | OP_UNIMP | OP_RES | SPECIAL | BCOND => None
  end.

(** The number is in the word. *)
Definition has_number (x : Z) (n : number) : Prop :=
  match n with
  | Opcode k => Z.land (Z.shiftr x 26) 0x3f = k
  | Special k => Z.land (Z.shiftr x 26) 0x3f = 0 /\ Z.land x 0x3f = k
  | Bcond k => Z.land (Z.shiftr x 26) 0x3f = 1 /\ i_rt x = k
  end.

Definition word_extra (x : Z) (n : number) : Z :=
  match n with
  | Opcode k => if (k =? 2) || (k =? 3) then Z.land x 0x3ffffff else imm16 x
  | Special _ => shamt x
  | Bcond _ => imm16 x
  end.

(** The tables of mipssim.h and encode.h name the same operations. *)
Definition row_ok (k : Z) (row : option (OpCode * Format)) : bool :=
  match row with
  | Some (SPECIAL, fmt) => bool_decide (k = 0 /\ fmt = RFMT)
  | Some (BCOND, fmt) => bool_decide (k = 1 /\ fmt = IFMT)
  | Some (op, fmt) =>
      match number_of op with
      | None => true
      | n => bool_decide (n = Some (Opcode k) /\ fmt = if (k =? 2) || (k =? 3) then JFMT else IFMT)
      end
  | None => false
  end.
Lemma opTable_rows k : 0 <= k < 64 -> row_ok k (opTable.[k]) = true.
Proof.
  intros Hk. assert (H : Forall (fun j => row_ok j (opTable.[j]) = true) (seqZ 0 64)) by (apply (bool_decide_unpack _); vm_compute; done).
  rewrite Forall_forall in H. apply H, elem_of_seqZ. lia.
Qed.
Lemma specialTable_rows k op : specialTable.[k] = Some op -> number_of op = None \/ number_of op = Some (Special k).
Proof.
  intros E. assert (Hk : 0 <= k < 64) by (exact (lookupZ_Some_range _ _ _ E)).
  assert (H : Forall (fun j => match specialTable.[j] with Some op => bool_decide (number_of op = None \/ number_of op = Some (Special j)) | None => true end = true) (seqZ 0 64))
    by (apply (bool_decide_unpack _); vm_compute; done).
  rewrite Forall_forall in H. specialize (H k ltac:(apply elem_of_seqZ; lia)). rewrite E in H. by apply bool_decide_eq_true in H.
Qed.

Lemma bcond_field x : Z.land x 0x1f0000 = i_rt x * 65536.
Proof.
  unfold i_rt. rewrite <- Z.shiftl_mul_pow2 with (n := 16) by lia. change 0x1f0000 with (Z.shiftl 0x1f 16).
  apply Z.bits_inj'. intros i Hi. rewrite Z.land_spec. destruct (Z.lt_ge_cases i 16).
  - rewrite !Z.shiftl_spec_low by lia. apply andb_false_r.
  - rewrite !Z.shiftl_spec, Z.land_spec, Z.shiftr_spec by lia. by replace (i - 16 + 16) with i by lia.
Qed.

(** What [Decode] makes of a word, and the fields that execute.c sees in it. *)
Lemma Decode_word x i n :
  Instruction_Decode (wrap_u32 x) = Ok i -> number_of (opCode i) = Some n ->
  has_number x n /\ rs i = i_rs x /\ rt i = i_rt x /\ rd i = i_rd x /\ extra i = word_extra x n.
Proof.
  unfold Instruction_Decode.
  rewrite (field_u32 x 21 5 ltac:(lia) ltac:(lia) ltac:(lia) : Z.land _ 0x1f = i_rs x),
    (field_u32 x 16 5 ltac:(lia) ltac:(lia) ltac:(lia) : Z.land _ 0x1f = i_rt x),
    (field_u32 x 11 5 ltac:(lia) ltac:(lia) ltac:(lia) : Z.land _ 0x1f = i_rd x),
    (field_u32 x 6 5 ltac:(lia) ltac:(lia) ltac:(lia) : Z.land _ 0x1f = shamt x),
    (field_u32 x 26 6 ltac:(lia) ltac:(lia) ltac:(lia) : Z.land _ 0x3f = Z.land (Z.shiftr x 26) 0x3f),
    (field_low x 26 ltac:(lia) : Z.land _ 0x3ffffff = Z.land x 0x3ffffff), (field_low x 6 ltac:(lia) : Z.land _ 0x3f = Z.land x 0x3f).
  pose proof (extra_sext (wrap_u32 x)) as Hex. cbn zeta in Hex |- *. rewrite Hex, imm16_u32, bcond_field. clear Hex.
  assert (Ert : i_rt (wrap_u32 x) = i_rt x) by exact (field_u32 x 16 5 ltac:(lia) ltac:(lia) ltac:(lia)). rewrite Ert.
  pose proof (land_low_range (Z.shiftr x 26) 63 6 ltac:(lia) eq_refl) as Hop. pose proof (opTable_rows _ Hop) as Hrow.
  destruct (opTable.[_]) as [[op fmt]|] eqn:Eop; [|done]. cbn [deref mbind outcome_bind].
  destruct op; cbn [row_ok number_of] in Hrow;
    try (apply bool_decide_eq_true in Hrow as [Hn ->]; injection Hn as Hn; rewrite <- Hn; intros [= <-] [= <-]; done);
    try (intros [= <-]; done).
  - apply bool_decide_eq_true in Hrow as [H0 ->]. intros (op & Esp & [= <-])%bind_Ok_inv Hn. apply deref_Ok_inv in Esp. cbn [opCode] in Hn.
    destruct (specialTable_rows _ _ Esp) as [Hs|Hs]; rewrite Hs in Hn; [done|]. injection Hn as <-. done.
  - apply bool_decide_eq_true in Hrow as [H1 ->]. intros [= <-]. cbn [opCode Cpu.rs Cpu.rt Cpu.rd extra].
    assert (Hz : forall k, (i_rt x * 65536 =? k * 65536) = (i_rt x =? k)) by (intros k; destruct (Z.eqb_spec (i_rt x) k), (Z.eqb_spec (i_rt x * 65536) (k * 65536)); lia).
    rewrite (Hz 0 : (_ =? 0) = _), (Hz 1 : (_ =? 0x10000) = _), (Hz 16 : (_ =? 0x100000) = _), (Hz 17 : (_ =? 0x110000) = _).
    repeat (match goal with |- context [i_rt x =? ?k] => destruct (Z.eqb_spec (i_rt x) k) end); intros [= <-]; cbn [has_number word_extra]; auto.
Qed.

(** ** Memory *)

(** The bytes of an access are translated one by one to the bytes behind its address. *)
Lemma phys_of_byte m va size w pa k :
  Machine_wf m -> valid_size size -> phys_of m va size w = Ok (inr pa) -> 0 <= k < size ->
  phys_of m (va + k) 1 false = Ok (inr (pa + k)).
Proof.
  intros Hwf Hs Hp Hk. unfold phys_of in *. destruct (Machine_Translate m va size w) as [[e|[pa' m']]| | |] eqn:E; cbn [mbind outcome_bind] in Hp; try done.
  injection Hp as ->. unfold Machine_Translate in *. destruct (misaligned va size) eqn:Hm; [done|].
  pose proof (aligned_fits va size Hs Hm) as Hfit. destruct (wf_table_asserts m Hwf) as [H1 H2]. rewrite H1, H2 in *. cbn [ASSERT mbind outcome_bind] in *.
  pose proof (wrap_u32_range va) as Hu. unfold uint32, two32, PageSize, SectorSize in *.
  assert (Hq : wrap_u32 va = 512 * (wrap_u32 va / 512) + wrap_u32 va mod 512) by (apply Z.div_mod; lia).
  pose proof (Z.mod_pos_bound (wrap_u32 va) 512 ltac:(lia)) as Hm5. assert (Hqb : wrap_u32 va / 512 < 8388608) by (apply Z.div_lt_upper_bound; lia).
  assert (Hw : wrap_u32 (va + k) = wrap_u32 va + k).
  { unfold wrap_u32 at 1. rewrite <- (Zplus_mod_idemp_l va k two32). fold (wrap_u32 va). apply Z.mod_small. unfold two32. lia. }
  rewrite Hw. assert (Hd : (wrap_u32 va + k) / 512 = wrap_u32 va / 512) by (symmetry; apply Z.div_unique with (wrap_u32 va mod 512 + k); lia).
  assert (Hmo : (wrap_u32 va + k) mod 512 = wrap_u32 va mod 512 + k) by (symmetry; apply Z.mod_unique with (wrap_u32 va / 512); lia).
  rewrite Hd, Hmo. replace (misaligned (va + k) 1) with false by done.
  destruct (find_entry m (wrap_u32 va / 512)) as [[e|[e put]]| | |] eqn:Ef; cbn [mbind outcome_bind] in *; try done.
  destruct (readOnly e && w); [done|]. rewrite andb_false_r. destruct (Z.leb_spec NumPhysPages (wrap_u32 (physicalPage e))) as [|Hf]; [done|].
  pose proof (wrap_u32_range (physicalPage e)) as [Hf0 _]. unfold NumPhysPages in Hf.
  pose proof (physAddr_eq (wrap_u32 (physicalPage e)) (wrap_u32 va mod 512) ltac:(lia) ltac:(lia)) as P1.
  pose proof (physAddr_eq (wrap_u32 (physicalPage e)) (wrap_u32 va mod 512 + k) ltac:(lia) ltac:(lia)) as P2.
  unfold PageSize, SectorSize in P1, P2. rewrite P1 in E. rewrite P2. unfold MemorySize in *.
  rewrite (proj2 (Z.leb_le 0 _)), (proj2 (Z.leb_le (_ + 1) _)) by lia. cbn [andb ASSERT mbind outcome_bind].
  destruct (_ && _); [|done]. injection E as <- <-. do 2 f_equal. lia.
Qed.

(** An access does not reach the end of the address space. *)
Lemma access_int32 va size : valid_size size -> misaligned va size = false -> int32 va -> forall k, 0 <= k < size -> int32 (va + k).
Proof.
  intros Hs Hm Hva k Hk. unfold misaligned in Hm. unfold_int32. destruct Hs as [-> | [-> | ->]]; [lia|..]; simpl in Hm;
    rewrite ?orb_false_r in Hm; apply negb_false_iff, Z.eqb_eq in Hm.
  - rewrite (land_low va 1 ltac:(lia) : Z.land va 1 = va mod 2) in Hm. apply Z.mod_divide in Hm as [c Hc]; lia.
  - rewrite (land_low va 2 ltac:(lia) : Z.land va 3 = va mod 4) in Hm. apply Z.mod_divide in Hm as [c Hc]; lia.
Qed.

Lemma phys_aligned m va size w pa : phys_of m va size w = Ok (inr pa) -> misaligned va size = false.
Proof. unfold phys_of, Machine_Translate. by destruct (misaligned va size). Qed.

(** The virtual memory of [m] is in the array of the interpreter: every address has a byte
    there, the same one, and no two addresses share a byte of the physical memory. *)
Record same_memory (m : Machine) (f : Z -> Z) : Prop := {
  sm_byte : forall va pa, int32 va -> phys_of m va 1 false = Ok (inr pa) ->
    0 <= va - memoffset < MEMSIZE /\ (mainMemory m).[pa] = Some (f (va - memoffset));
  sm_apart : forall va va' pa, int32 va -> int32 va' -> phys_of m va 1 false = Ok (inr pa) -> phys_of m va' 1 false = Ok (inr pa) -> va = va' }.

Lemma same_memory_ext m m' f :
  mainMemory m' = mainMemory m -> (forall va size w, phys_of m' va size w = phys_of m va size w) -> same_memory m f -> same_memory m' f.
Proof. intros Hm Hp [H1 H2]. split; [intros va pa; rewrite Hm, Hp; apply H1|intros va va' pa; rewrite !Hp; apply H2]. Qed.

Lemma index_ok m f va size w pa :
  Machine_wf m -> valid_size size -> int32 va -> same_memory m f -> phys_of m va size w = Ok (inr pa) -> index va size = Ok (va - memoffset).
Proof.
  intros Hwf Hs Hva Hsm Hp. pose proof (phys_aligned _ _ _ _ _ Hp) as Ha. assert (Hpos : 1 <= size) by (destruct Hs; lia).
  destruct (sm_byte _ _ Hsm va pa Hva) as [Hlo _].
  { pose proof (phys_of_byte m va size w pa 0 Hwf Hs Hp ltac:(lia)) as H. by rewrite !Z.add_0_r in H. }
  destruct (sm_byte _ _ Hsm (va + (size - 1)) (pa + (size - 1))) as [Hhi _].
  { apply (access_int32 va size); try done. lia. }
  { apply (phys_of_byte m va size w); try done. lia. }
  unfold index. rewrite (proj2 (Z.leb_le 0 _)), (proj2 (Z.leb_le _ _)) by lia. done.
Qed.

Lemma lookup_bytes_at f k n j : (j < n)%nat -> bytes_at f k (Z.of_nat n) !! j = Some (f (k + Z.of_nat j)).
Proof. intros Hj. unfold bytes_at. rewrite Nat2Z.id, list_lookup_fmap, lookup_seq_lt by done. done. Qed.

(** The bytes of a read. *)
Lemma read_bytes m f va size pa :
  Machine_wf m -> valid_size size -> int32 va -> same_memory m f -> phys_of m va size false = Ok (inr pa) ->
  0 <= pa -> pa + size <= MemorySize -> bytes_at f (va - memoffset) size = slice (mainMemory m) pa size.
Proof.
  intros Hwf Hs Hva Hsm Hp H0 H1. assert (Hpos : 0 <= size) by (destruct Hs; lia).
  pose proof (lenZ_slice (mainMemory m) pa size H0 Hpos ltac:(rewrite (wf_memory _ Hwf); done)) as Hl. unfold lenZ in Hl.
  apply list_eq. intros j. destruct (Nat.lt_ge_cases j (Z.to_nat size)) as [Hj|Hj].
  - rewrite <- (Z2Nat.id size) at 1 by done. rewrite lookup_bytes_at by done.
    pose proof (phys_of_byte m va size false pa (Z.of_nat j) Hwf Hs Hp ltac:(lia)) as Hpj.
    destruct (sm_byte _ _ Hsm (va + Z.of_nat j) (pa + Z.of_nat j)) as [_ Hb]; [|done|].
    { eapply access_int32; try done; [by eapply phys_aligned|lia]. }
    replace (va + Z.of_nat j - memoffset) with (va - memoffset + Z.of_nat j) in Hb by lia. rewrite <- Hb.
    unfold slice. rewrite lookup_take_lt, lookup_drop by lia. unfold lookupZ. rewrite (proj2 (Z.ltb_ge _ 0)) by lia. f_equal. lia.
  - rewrite !lookup_ge_None_2; [done|lia|]. unfold bytes_at. rewrite length_map, length_seq. lia.
Qed.

(** What the interpreter reads where the simulator reads. *)
Lemma load_same m t va size v m' :
  Machine_wf m -> valid_size size -> int32 va -> same_memory m (mem t) -> Machine_ReadMem m va size = Ok (MemOk v m') ->
  exists bs, load t va size = Ok bs /\ load_value size bs = Ok v /\ Forall byte bs /\ lenZ bs = size /\
    Machine_wf m' /\ registers m' = registers m /\ same_memory m' (mem t) /\ int32 v.
Proof.
  intros Hwf Hs Hva Hsm E. destruct (ReadMem_cases m va size Hwf Hs) as [(w & E' & _)|(v' & m1 & pa & E' & Hp & H0 & H1 & Hv & Hi & Hwf' & Hmm & Hmap)];
    rewrite E in E'; [done|]. injection E' as <- <-. exists (slice (mainMemory m) pa size). assert (Hpos : 0 <= size) by (destruct Hs; lia). conjs; try done.
  - unfold load. by rewrite (index_ok m (mem t) va size false pa), bind_Ok, (read_bytes m (mem t) va size pa).
  - apply Forall_slice, Hwf.
  - apply lenZ_slice; try done. by rewrite (wf_memory _ Hwf).
  - apply Hmap.
  - eapply same_memory_ext; [done| |done]. apply Hmap.
Qed.

(** Writing the same bytes on both sides. *)
Lemma save_same m t va size value m' bs :
  Machine_wf m -> valid_size size -> int32 va -> same_memory m (mem t) -> Machine_WriteMem m va size value = Ok (MemOk tt m') ->
  store_bytes size value = Ok bs ->
  exists t', save t va bs = Ok t' /\ t' = set_mem t (mem t') /\ Machine_wf m' /\ registers m' = registers m /\ same_memory m' (mem t').
Proof.
  intros Hwf Hs Hva Hsm E Hbs. destruct (WriteMem_cases m va size value Hwf Hs) as [(w & E' & _)|(m1 & pa & bs' & E' & Hp & H0 & H1 & Hb & Hl & Hmm & Hwf' & Hmap)];
    rewrite E in E'; [done|]. injection E' as <-. rewrite Hbs in Hb. injection Hb as <-.
  unfold save. rewrite Hl, (index_ok m (mem t) va size true pa), bind_Ok by done. eexists. split; [done|]. cbn [set_mem mem]. conjs; try done; [apply Hmap|].
  assert (Hmap' : forall va' size' w', phys_of m' va' size' w' = phys_of m va' size' w') by apply Hmap. pose proof (phys_aligned _ _ _ _ _ Hp) as Ha.
  assert (Hin : forall va' pa', int32 va' -> phys_of m va' 1 false = Ok (inr pa') -> (va <= va' < va + size <-> pa <= pa' < pa + size) /\ (va <= va' < va + size -> pa' = pa + (va' - va))).
  { intros va' pa' Hva' Hp'. assert (H : va <= va' < va + size -> pa' = pa + (va' - va)).
    { intros Hr. pose proof (phys_of_byte m va size true pa (va' - va) Hwf Hs Hp ltac:(lia)) as Hk. replace (va + (va' - va)) with va' in Hk by lia. congruence. }
    split; [split; [lia|]|done]. intros Hr. pose proof (phys_of_byte m va size true pa (pa' - pa) Hwf Hs Hp ltac:(lia)) as Hk. replace (pa + (pa' - pa)) with pa' in Hk by lia.
    pose proof (sm_apart _ _ Hsm _ _ _ (access_int32 va size Hs Ha Hva (pa' - pa) ltac:(lia)) Hva' Hk Hp'). lia. }
  split.
  - intros va' pa' Hva' Hp'. rewrite Hmap' in Hp'. destruct (sm_byte _ _ Hsm va' pa' Hva' Hp') as [Hr Hby]. split; [done|].
    destruct (Hin va' pa' Hva' Hp') as [Hiff Heq]. rewrite Hmm. unfold put_bytes. rewrite Hl. pose proof (lookupZ_Some_range _ _ _ Hby) as Hpr.
    destruct (decide (va <= va' < va + size)) as [Hd|Hd].
    + rewrite (proj2 (Z.leb_le _ _)), (proj2 (Z.ltb_lt _ _)) by lia. cbn [andb]. rewrite (Heq Hd).
      replace (va' - memoffset - (va - memoffset)) with (va' - va) by lia. destruct (lookupZ_range bs (va' - va)) as [b Eb]; [lia|]. rewrite Eb.
      rewrite lookupZ_splice by (rewrite ?(wf_memory _ Hwf); lia). rewrite (proj2 (Z.leb_le _ _)), (proj2 (Z.ltb_lt _ _)) by lia. cbn [andb default].
      by replace (pa + (va' - va) - pa) with (va' - va) by lia.
    + replace ((va - memoffset <=? va' - memoffset) && (va' - memoffset <? va - memoffset + size)) with false by (symmetry; apply not_true_is_false; intros ?; to_prop; lia).
      rewrite lookupZ_splice by (rewrite ?(wf_memory _ Hwf); lia). replace ((pa <=? pa') && (pa' <? pa + lenZ bs)) with false; [done|].
      symmetry. apply not_true_is_false. intros ?. to_prop. lia.
  - intros va' va'' pa'. rewrite !Hmap'. apply (sm_apart _ _ Hsm).
Qed.

(** ** The relation between the states *)

(** Registers and memory.  The pending load of [m] has been done in [t]; register 0 of [t]
    holds anything between two rounds. *)
Record core (m : Machine) (t : Interp) : Prop := {
  co_len : lenZ (Reg t) = 32;
  co_regs : forall r, 0 < r < 32 -> getR t r = if r =? reg m LoadReg then reg m LoadValueReg else reg m r;
  co_HI : HI t = reg m HiReg;
  co_LO : LO t = reg m LoReg;
  co_mem : same_memory m (mem t) }.

Record agree (m : Machine) (t : Interp) : Prop := {
  ag_core : core m t;
  ag_pc : pc t = reg m PCReg;
  ag_npc : npc t = reg m NextPCReg }.

Lemma getR_setR t r r' v : 0 <= r < lenZ (Reg t) -> getR (setR t r v) r' = if r' =? r then v else getR t r'.
Proof.
  intros Hr. unfold getR, setR. cbn [Reg]. destruct (Z.eqb_spec r' r) as [->|Hne]; [by rewrite lookupZ_insertZ_eq|by rewrite lookupZ_insertZ_ne by done].
Qed.

Lemma core_same_regs m m' t t' :
  core m t -> registers m' = registers m -> same_memory m' (mem t') -> Reg t' = Reg t -> HI t' = HI t -> LO t' = LO t -> core m' t'.
Proof.
  intros [H1 H2 H3 H4 _] Hr Hm E1 E2 E3. assert (E : forall r, reg m' r = reg m r) by (intros; unfold reg; by rewrite Hr).
  split; rewrite ?E1, ?E2, ?E3, ?E; try done. intros r Hr'. unfold getR. rewrite E1, !E. by apply H2.
Qed.

Lemma same_memory_set_reg m r v f : same_memory m f -> same_memory (set_reg m r v) f.
Proof. apply same_memory_ext; [done|]. intros va size w. apply phys_of_mapping; [done|done|]. intros vpn. unfold find_entry. cbn [set_reg set_registers tlb pageTable pageTableSize].
  destruct (tlb m) as [tl|]; [by destruct (tlb_search tl vpn 0) as [[? ?]|]|]. destruct (_ <=? _); [done|]. destruct (deref (pageTable m)) as [pt| | |]; [|done..]. cbn [mbind outcome_bind].
  destruct (deref (pt.[vpn])) as [e| | |]; [|done..]. cbn [mbind outcome_bind]. by destruct (negb (valid e)).
Qed.

Lemma core_setR m t r v :
  Machine_wf m -> core m t -> 0 <= r < 32 -> r = 0 \/ r <> reg m LoadReg -> core (set_reg m r v) (setR t r v).
Proof.
  intros Hwf [H1 H2 H3 H4 H5] Hr Hl. pose proof (wf_registers _ Hwf : _ = 40) as HL.
  split; rewrite ?reg_set_reg_ne by (unfold_regs; lia); try done.
  - unfold setR. cbn [Reg]. by rewrite lenZ_insertZ.
  - intros r' Hr'. rewrite getR_setR by lia. rewrite H2 by done. destruct (Z.eqb_spec r' r) as [->|Hne].
    + rewrite reg_set_reg_eq by lia. destruct (Z.eqb_spec r (reg m LoadReg)); [lia|done].
    + by rewrite reg_set_reg_ne by lia.
  - by apply same_memory_set_reg.
Qed.

Lemma core_set_HI m t v : Machine_wf m -> core m t -> core (set_reg m HiReg v) (set_HI t v).
Proof.
  intros Hwf [H1 H2 H3 H4 H5]. pose proof (wf_registers _ Hwf : _ = 40) as HL. split; cbn [set_HI HI LO mem Reg]; try done; [|by reg_simpl..|by apply same_memory_set_reg].
  intros r Hr. change (getR (set_HI t v) r) with (getR t r). rewrite !reg_set_reg_ne by (unfold_regs; lia). by apply H2.
Qed.
Lemma core_set_LO m t v : Machine_wf m -> core m t -> core (set_reg m LoReg v) (set_LO t v).
Proof.
  intros Hwf [H1 H2 H3 H4 H5]. pose proof (wf_registers _ Hwf : _ = 40) as HL. split; cbn [set_LO HI LO mem Reg]; try done; [|by reg_simpl..|by apply same_memory_set_reg].
  intros r Hr. change (getR (set_LO t v) r) with (getR t r). rewrite !reg_set_reg_ne by (unfold_regs; lia). by apply H2.
Qed.
Lemma core_set_npc m t a : core m t -> core m (set_npc t a).
Proof. intros H. eapply core_same_regs; try done. apply H. Qed.

(** The end of [OneInstruction]: the pending load is done, the next one is pending. *)
Lemma core_finish m t pcAfter nr nv m' :
  Machine_wf m -> 0 <= reg m LoadReg < 32 -> core m t -> 0 <= nr < 32 -> finish_instruction m pcAfter nr nv = Ok m' ->
  core m' (if nr =? 0 then t else setR t nr nv) /\ reg m' PCReg = reg m NextPCReg /\ reg m' NextPCReg = pcAfter.
Proof.
  intros Hwf Hl Hc Hn. pose proof (wf_registers _ Hwf : _ = 40) as HL. unfold finish_instruction. rewrite DelayedLoad_spec by (auto; lia). cbn [mbind outcome_bind]. intros [= <-].
  set (L := reg m LoadReg) in *. set (V := reg m LoadValueReg) in *.
  assert (Hx : forall r, 0 < r < 34 -> reg (set_reg (set_reg (set_reg (set_reg m L V) LoadReg nr) LoadValueReg nv) 0 0) r = if r =? L then V else reg m r).
  { intros r Hr. rewrite !reg_set_reg_ne by (unfold_regs; lia). destruct (Z.eqb_spec r L) as [->|Hne]; [by rewrite reg_set_reg_eq by lia|by rewrite reg_set_reg_ne by lia]. }
  set (m3 := set_reg (set_reg (set_reg (set_reg m L V) LoadReg nr) LoadValueReg nv) 0 0) in *.
  assert (HL3 : lenZ (registers m3) = 40) by (unfold m3; autorewrite with arr; done).
  assert (H37 : reg m3 LoadReg = nr) by (unfold m3; reg_simpl; done). assert (H38 : reg m3 LoadValueReg = nv) by (unfold m3; reg_simpl; done).
  assert (H35 : reg m3 NextPCReg = reg m NextPCReg) by (unfold m3; rewrite !reg_set_reg_ne by (unfold_regs; lia); done).
  split; [|by reg_simpl]. destruct Hc as [C1 C2 C3 C4 C5]. split.
  - case_match; [done|]. unfold setR. cbn [Reg]. by rewrite lenZ_insertZ.
  - intros r Hr. rewrite !reg_set_reg_ne by (unfold_regs; lia). rewrite H37, H38, Hx by lia.
    destruct (Z.eqb_spec nr 0) as [->|Hn0]; [rewrite (proj2 (Z.eqb_neq r 0)) by lia; by apply C2|]. rewrite getR_setR by lia. destruct (Z.eqb_spec r nr); [done|]. by apply C2.
  - rewrite !reg_set_reg_ne by (unfold_regs; lia). rewrite Hx by (unfold_regs; lia). rewrite (proj2 (Z.eqb_neq _ L)) by (unfold_regs; lia). rewrite <- C3. by case_match.
  - rewrite !reg_set_reg_ne by (unfold_regs; lia). rewrite Hx by (unfold_regs; lia). rewrite (proj2 (Z.eqb_neq _ L)) by (unfold_regs; lia). rewrite <- C4. by case_match.
  - unfold m3. repeat apply same_memory_set_reg. by case_match.
Qed.

(** ** The instructions on which the programs do the same *)

(** The registers an instruction reads, and writes other than by a load. *)
Definition touched (i : Instruction) : list Z :=
  match opCode i with
  | OP_ADD | OP_ADDU | OP_AND | OP_NOR | OP_OR | OP_SLLV | OP_SLT | OP_SLTU | OP_SRAV | OP_SRLV | OP_SUB | OP_SUBU | OP_XOR => [rs i; rt i; rd i]
  | OP_SLL | OP_SRA | OP_SRL => [rt i; rd i]
  | OP_ADDI | OP_ADDIU | OP_ANDI | OP_ORI | OP_SLTI | OP_SLTIU | OP_XORI => [rs i; rt i]
  | OP_BEQ | OP_BNE | OP_DIV | OP_DIVU | OP_MULT | OP_MULTU | OP_SB | OP_SH | OP_SW => [rs i; rt i]
  | OP_BGEZ | OP_BGTZ | OP_BLEZ | OP_BLTZ | OP_JR | OP_MTHI | OP_MTLO | OP_LB | OP_LBU | OP_LH | OP_LHU | OP_LW => [rs i]
  | OP_BGEZAL | OP_BLTZAL => [rs i; R31]
  | OP_JAL => [R31]
  | OP_JALR => [rs i; rd i]
  | OP_LUI => [rt i]
  | OP_MFHI | OP_MFLO => [rd i]
  | _ => []
  end.

(** The instruction has nothing to do with the pending load. *)
Definition load_slot_ok (m : Machine) (i : Instruction) : bool :=
  (reg m LoadReg =? 0) || bool_decide (reg m LoadReg ∉ touched i).

(** Not in the delay slot of a branch that is taken. *)
Definition straight (m : Machine) : bool := reg m NextPCReg =? wrap_s32 (reg m PCReg + 4).

Definition small (x : Z) : bool := Z.abs x <? 65536.

(** The instructions on which both programs do the same.  The conditions are the differences:
    Nachos computes SRL and SRLV with the sign and OR without the second operand; execute.c
    does not mask a shift count, extends the sign of every immediate operand, loses carries in
    products and stops at a division by 0; they take the base of a branch and the region of a
    jump from different program counters; and JALR of one register is ambiguous. *)
Definition common (m : Machine) (i : Instruction) : bool :=
  match opCode i with
  | OP_ADD | OP_ADDU | OP_SUB | OP_SUBU | OP_AND | OP_XOR | OP_NOR | OP_SLT | OP_SLTU | OP_SLL | OP_SRA
  | OP_ADDI | OP_ADDIU | OP_SLTI | OP_SLTIU | OP_LUI | OP_MFHI | OP_MFLO | OP_MTHI | OP_MTLO | OP_JR
  | OP_LB | OP_LBU | OP_LH | OP_LHU | OP_LW | OP_SB | OP_SH | OP_SW => true
  | OP_SRL => 0 <=? vrt m i
  | OP_SRLV => (0 <=? vrt m i) && ((0 <=? vrs m i) && (vrs m i <? 32))
  | OP_SLLV | OP_SRAV => (0 <=? vrs m i) && (vrs m i <? 32)
  | OP_OR => Z.lor (vrs m i) (vrt m i) =? vrs m i
  | OP_ANDI | OP_ORI | OP_XORI => 0 <=? extra i
  | OP_MULT => small (vrs m i) && small (vrt m i)
  | OP_MULTU => ((0 <=? vrs m i) && small (vrs m i)) && ((0 <=? vrt m i) && small (vrt m i))
  | OP_DIV | OP_DIVU => negb (vrt m i =? 0)
  | OP_BEQ | OP_BNE | OP_BGEZ | OP_BGTZ | OP_BLEZ | OP_BLTZ | OP_BGEZAL | OP_BLTZAL => straight m
  | OP_JALR => straight m && negb (rd i =? rs i)
  | OP_J | OP_JAL =>
      straight m && (Z.land (wrap_u32 (reg m PCReg)) 0xf0000000 =? Z.land (wrap_u32 (reg m NextPCReg + 4)) 0xf0000000)
  | _ => false
  end.

Section Agree.
Context {W : Type} `{!InterpHost W}.

(** What the interpreter does where the [switch] of the simulator ends in [break]. *)
Definition mirrors (t : Interp) (w : W) (x : outcome exec_result) (y : outcome (progress W)) : Prop :=
  match x with
  | Ok (Done m2 pcAfter nr nv) => exists t2, y = Ok (Goes (if nr =? 0 then t2 else setR t2 nr nv) w) /\
      core m2 t2 /\ npc t2 = pcAfter /\ pc t2 = pc t
  | _ => True
  end.

Section OneInstr.
Context (m : Machine) (t : Interp) (w : W) (x xpc : Z) (i : Instruction).
Context (Hwf : Machine_wf m) (Hz : reg m 0 = 0) (Hiw : instr_wf i).
Context (Hc : core m t) (Ht0 : getR t 0 = 0).
Context (Hdec : Instruction_Decode (wrap_u32 x) = Ok i).
Context (Hxpc : xpc = reg m PCReg) (Hnpc : npc t = wrap_s32 (reg m NextPCReg + 4)).
Context (Hslot : load_slot_ok m i = true).
Notation pcAfter := (wrap_s32 (reg m NextPCReg + 4)).

Lemma getR_touched r : 0 <= r < 32 -> r ∈ touched i -> getR t r = reg m r.
Proof.
  intros Hr Hin. destruct (decide (r = 0)) as [->|Hne]; [congruence|]. rewrite (co_regs _ _ Hc) by lia.
  destruct (Z.eqb_spec r (reg m LoadReg)) as [->|]; [|done]. unfold load_slot_ok in Hslot. apply orb_true_iff in Hslot as [H|H]; [apply Z.eqb_eq in H; lia|by apply bool_decide_eq_true in H].
Qed.

Lemma touched_target r : 0 <= r < 32 -> r ∈ touched i -> r = 0 \/ r <> reg m LoadReg.
Proof.
  intros Hr Hin. destruct (decide (r = 0)) as [|Hne]; [by left|right]. intros ->. unfold load_slot_ok in Hslot.
  apply orb_true_iff in Hslot as [H|H]; [apply Z.eqb_eq in H; lia|by apply bool_decide_eq_true in H].
Qed.

(** A case that only assigns one register. *)
Lemma assign_mirrors r v y :
  0 <= r < 32 -> r ∈ touched i -> y = Ok (Goes (setR t r v) w) -> mirrors t w (assign m pcAfter r v) y.
Proof.
  intros Hr Hin ->. exists (setR t r v). conjs; [done| |done|done]. by apply core_setR; [..|apply touched_target].
Qed.

#[local] Ltac in_list := repeat first [apply list_elem_of_here | apply list_elem_of_further].

Lemma R_rs_eq : rs i = i_rs x -> rs i ∈ touched i -> R_rs t x = vrs m i.
Proof. intros E Hin. unfold R_rs, vrs. rewrite <- E. apply getR_touched; [apply Hiw|done]. Qed.
Lemma R_rt_eq : rt i = i_rt x -> rt i ∈ touched i -> R_rt t x = vrt m i.
Proof. intros E Hin. unfold R_rt, vrt. rewrite <- E. apply getR_touched; [apply Hiw|done]. Qed.

(** The fields of the operation that [Eo] names, and the values of its operands. *)
#[local] Ltac fields Eo Hn Ers Ert Erd Eex Hrs Hrt :=
  edestruct (Decode_word x i) as (Hn & Ers & Ert & Erd & Eex); [exact Hdec|rewrite Eo; reflexivity|];
  try (pose proof (R_rs_eq Ers ltac:(unfold touched; rewrite Eo; in_list)) as Hrs);
  try (pose proof (R_rt_eq Ert ltac:(unfold touched; rewrite Eo; in_list)) as Hrt);
  cbn [has_number] in Hn; cbn [word_extra Z.eqb Pos.eqb orb] in Eex.
(** The case of the [switch] of execute.c. *)
#[local] Ltac dispatch Hn :=
  unfold exec_instr;
  first [ rewrite (proj1 Hn); first [unfold exec_special; rewrite (proj2 Hn) | unfold exec_bcond; rewrite (proj2 Hn)] | rewrite Hn ].
#[local] Ltac assigns Eo :=
  apply assign_mirrors; [first [apply (iw_rd _ Hiw) | apply (iw_rt _ Hiw)]|unfold touched; rewrite Eo; in_list|];
  unfold shift_by, to_rd, to_rt, goes.
(** The operations of a list, one by one. *)
#[local] Ltac each_op Hop Eo := apply list_elem_of_In in Hop; repeat (destruct Hop as [Eo|Hop]; [symmetry in Eo|]); [..|destruct Hop].

Lemma add_sub_mirrors :
  opCode i ∈ [OP_ADD; OP_ADDU; OP_SUB; OP_SUBU; OP_AND; OP_XOR; OP_NOR; OP_SLT; OP_SLTU; OP_SLL; OP_SRA] ->
  mirrors t w (execute m i pcAfter) (exec_instr t w x xpc).
Proof.
  intros Hop. each_op Hop Eo; fields Eo Hn Ers Ert Erd Eex Hrs Hrt; dispatch Hn;
    unfold execute, exec_add_and, exec_shift_sub, exec_trap_xor, exec_move_or; rewrite Eo;
    try (match goal with |- context [if ?b then Ok (Raise _ _ _) else _] => destruct b; [done|] end); assigns Eo; rewrite <- Erd, ?Hrs, ?Hrt, ?Eex; done.
Qed.

Lemma imm16_id y : 0 <= imm16 y -> Z.land (imm16 y) 0xffff = imm16 y.
Proof.
  intros H. pose proof (imm16_range y). rewrite (land_low _ 16 ltac:(lia) : Z.land _ 0xffff = _ mod 65536). apply Z.mod_small. lia.
Qed.

Lemma lui_word y : wrap_s32 (Z.shiftl (imm16 y) 16) = wrap_s32 (Z.shiftl y 16).
Proof.
  rewrite !Z.shiftl_mul_pow2 by lia. change (2 ^ 16) with 65536. apply wrap_s32_congr. unfold imm16, two32.
  pose proof (Z.div_mod y 65536 ltac:(lia)) as Hd. destruct (Z.ltb_spec (y mod 65536) 32768).
  - replace (y mod 65536 * 65536 - y * 65536) with (- (y / 65536) * 4294967296) by lia. apply Z_mod_mult.
  - replace ((y mod 65536 - 65536) * 65536 - y * 65536) with ((- (y / 65536) - 1) * 4294967296) by lia. apply Z_mod_mult.
Qed.

Lemma immediate_mirrors :
  opCode i ∈ [OP_ADDI; OP_ADDIU; OP_SLTI; OP_SLTIU; OP_LUI; OP_ANDI; OP_ORI; OP_XORI] -> common m i = true ->
  mirrors t w (execute m i pcAfter) (exec_instr t w x xpc).
Proof.
  intros Hop Hco. unfold common in Hco. each_op Hop Eo; rewrite Eo in Hco; fields Eo Hn Ers Ert Erd Eex Hrs Hrt; dispatch Hn;
    unfold execute, exec_add_and, exec_shift_sub, exec_trap_xor, exec_move_or, exec_load; rewrite Eo;
    try (match goal with |- context [if ?b then Ok (Raise _ _ _) else _] => destruct b; [done|] end); assigns Eo;
    rewrite <- Ert, ?immed_sext, ?Hrs, ?Eex, ?lui_word; try done;
    (rewrite imm16_id; [done|]; apply Z.leb_le in Hco; by rewrite Eex in Hco).
Qed.

Lemma shift_mirrors :
  opCode i ∈ [OP_SRL; OP_SRLV; OP_SLLV; OP_SRAV; OP_OR] -> common m i = true ->
  mirrors t w (execute m i pcAfter) (exec_instr t w x xpc).
Proof.
  intros Hop Hco. unfold common in Hco. pose proof (vrt_int32 m i Hwf) as Hvt.
  assert (Hmask : 0 <= vrs m i < 32 -> Z.land (vrs m i) 0x1f = vrs m i)
    by (intros; rewrite (land_low _ 5 ltac:(lia) : Z.land _ 0x1f = _ mod 32); by apply Z.mod_small).
  assert (Hsrl : forall n, 0 <= n -> 0 <= vrt m i -> wrap_s32 (Z.shiftr (wrap_u32 (vrt m i)) n) = Z.shiftr (vrt m i) n).
  { intros n Hn0 H0. rewrite wrap_u32_nonneg by done. apply wrap_s32_id. by apply int32_shiftr_closed. }
  pose proof (iw_shamt _ Hiw) as Hsh.
  each_op Hop Eo; rewrite Eo in Hco; to_prop; fields Eo Hn Ers Ert Erd Eex Hrs Hrt; dispatch Hn;
    unfold execute, exec_shift_sub, exec_move_or; rewrite Eo; assigns Eo; rewrite <- Erd, ?Hrs, ?Hrt, <- ?Eex.
  - rewrite Hsrl; [done| |lia]. apply Hsh. rewrite Eo. in_list.
  - rewrite (proj2 (Z.leb_le 0 _)), (proj2 (Z.ltb_lt _ 32)), Hmask, Hsrl by lia. done.
  - rewrite (proj2 (Z.leb_le 0 _)), (proj2 (Z.ltb_lt _ 32)), Hmask by lia. done.
  - rewrite (proj2 (Z.leb_le 0 _)), (proj2 (Z.ltb_lt _ 32)), Hmask by lia. done.
  - rewrite Hco. by rewrite Z.lor_diag.
Qed.

(** A case that writes HI and LO. *)
Lemma hi_lo_mirrors hi lo y :
  y = Ok (Goes (set_HI (set_LO t lo) hi) w) -> int32 hi -> int32 lo ->
  mirrors t w (Ok (Done (set_reg (set_reg m LoReg lo) HiReg hi) pcAfter 0 0)) y.
Proof.
  intros -> Hh Hl. eexists. conjs; [done| |done|done]. apply core_set_HI; [auto with nachos|]. by apply core_set_LO.
Qed.
Lemma lo_hi_mirrors hi lo y :
  y = Ok (Goes (set_HI (set_LO t lo) hi) w) -> int32 hi -> int32 lo ->
  mirrors t w (Ok (Done (set_reg (set_reg m HiReg hi) LoReg lo) pcAfter 0 0)) y.
Proof.
  intros -> Hh Hl. eexists. conjs; [done| |done|done]. change (set_HI (set_LO t lo) hi) with (set_LO (set_HI t hi) lo).
  apply core_set_LO; [auto with nachos|]. by apply core_set_HI.
Qed.

Lemma move_mirrors :
  opCode i ∈ [OP_MFHI; OP_MFLO; OP_MTHI; OP_MTLO] -> mirrors t w (execute m i pcAfter) (exec_instr t w x xpc).
Proof.
  intros Hop. each_op Hop Eo; fields Eo Hn Ers Ert Erd Eex Hrs Hrt; dispatch Hn; unfold execute, exec_move_or; rewrite Eo.
  - assigns Eo. by rewrite <- Erd, (co_HI _ _ Hc).
  - assigns Eo. by rewrite <- Erd, (co_LO _ _ Hc).
  - eexists. conjs; [unfold goes; rewrite Hrs; done| |done|done]. by apply core_set_HI.
  - eexists. conjs; [unfold goes; rewrite Hrs; done| |done|done]. by apply core_set_LO.
Qed.

Lemma div_mirrors :
  opCode i ∈ [OP_DIV; OP_DIVU] -> common m i = true -> mirrors t w (execute m i pcAfter) (exec_instr t w x xpc).
Proof.
  intros Hop Hco. unfold common in Hco. pose proof (vrs_int32 m i Hwf) as Hvs. pose proof (vrt_int32 m i Hwf) as Hvt.
  each_op Hop Eo; rewrite Eo in Hco; to_prop; fields Eo Hn Ers Ert Erd Eex Hrs Hrt; dispatch Hn; unfold execute, exec_div; rewrite Eo, Hrs, Hrt.
  - rewrite (proj2 (Z.eqb_neq (vrt m i) 0)) by done. cbn [orb]. destruct ((vrs m i =? int32_min) && (vrt m i =? -1)) eqn:Eq; [done|].
    destruct (quot_rem_int32 0 (int32_small 0 ltac:(lia)) _ _ Hvs Hvt Hco) as [Hq Hr]. { intros [E1 E2]. rewrite E1, E2 in Eq. done. }
    by apply hi_lo_mirrors.
  - assert (Hu : wrap_u32 (vrt m i) <> 0).
    { intros H0. apply Hco. rewrite <- (wrap_s32_id _ Hvt), <- wrap_s32_wrap_u32, H0. done. }
    rewrite (proj2 (Z.eqb_neq (vrt m i) 0)), (proj2 (Z.eqb_neq (wrap_u32 (vrt m i)) 0)) by done. apply hi_lo_mirrors; auto with nachos.
Qed.

Lemma pair_value_inj hi lo hi' lo' :
  int32 lo -> int32 lo' -> pair_value true (hi, lo) = pair_value true (hi', lo') -> hi = hi' /\ lo = lo'.
Proof.
  intros Hl Hl' E. unfold pair_value, dword in E. cbn [fst snd] in E. pose proof (wrap_u32_range lo) as H1. pose proof (wrap_u32_range lo') as H2. unfold uint32 in *.
  assert (E1 : hi = hi') by (unfold_int32; lia). split; [done|]. assert (E2 : wrap_u32 lo = wrap_u32 lo') by lia.
  rewrite <- (wrap_s32_id lo Hl), <- (wrap_s32_id lo' Hl'), <- (wrap_s32_wrap_u32 lo), <- (wrap_s32_wrap_u32 lo'), E2. done.
Qed.

(** Small operands have no high halves. *)
Lemma high_product_small a b : 0 <= a < 65536 -> 0 <= b < 65536 -> high_product a b = 0.
Proof.
  intros Ha Hb. unfold high_product. rewrite !Z.shiftr_div_pow2 by lia. change (2 ^ 16) with 65536. rewrite (Z.div_small a), (Z.div_small b) by lia.
  change (Z.land 0 0xffff) with 0. rewrite !Z.mul_0_l. done.
Qed.

Lemma small_abs y : small y = true -> -65536 < y < 65536.
Proof. unfold small. intros H%Z.ltb_lt. lia. Qed.

Lemma exec_mult_small a b :
  int32 a -> int32 b -> small a = true -> small b = true -> R_rs t x = a -> R_rt t x = b ->
  exec_mult t x = set_HI (set_LO t (Mult a b true).2) (Mult a b true).1.
Proof.
  intros Ha Hb Hsa%small_abs Hsb%small_abs Ea Eb. destruct (Mult_range a b true) as [Hrh Hrl]. pose proof (Mult_value a b true Ha Hb) as Hv. destruct (Mult a b true) as [hi lo]. cbn [fst snd] in *.
  assert (Habs : forall y, -65536 < y < 65536 -> (if y <? 0 then wrap_s32 (- y) else y) = Z.abs y)
    by (intros y Hy; destruct (Z.ltb_spec y 0); [rewrite wrap_s32_id by (unfold_int32; lia)|]; lia).
  unfold exec_mult. rewrite Ea, Eb, !Habs, high_product_small by lia. set (p := Z.abs a * Z.abs b).
  assert (Hp : 0 <= p < 4294967296) by (unfold p; nia).
  assert (Hpos : xorb (a <? 0) (b <? 0) = false -> a * b = p) by (unfold p; destruct (Z.ltb_spec a 0), (Z.ltb_spec b 0); try done; nia).
  assert (Hneg : xorb (a <? 0) (b <? 0) = true -> a * b = - p) by (unfold p; destruct (Z.ltb_spec a 0), (Z.ltb_spec b 0); try done; nia).
  destruct (xorb (a <? 0) (b <? 0)).
  - rewrite (Hneg eq_refl) in Hv. clear Hpos Hneg. change (Z.lnot 0) with (-1). change (wrap_s32 (-1 + 1)) with 0.
    set (l := wrap_s32 (Z.lnot (wrap_s32 p) + 1)).
    assert (El : l = wrap_s32 (- p)).
    { unfold l. apply wrap_s32_congr. destruct (wrap_s32_eq p) as [k ->]. unfold Z.lnot. replace (Z.pred (- (p + k * two32)) + 1 - - p) with (- k * two32) by lia. apply Z_mod_mult. }
    destruct (pair_value_inj hi lo (if l =? 0 then 0 else -1) l) as [-> ->]; [done|unfold l; auto with nachos| |done].
    rewrite Hv. unfold pair_value, dword. cbn [fst snd]. rewrite El, wrap_u32_wrap_s32. unfold two32. destruct (decide (p = 0)) as [->|Hp0]; [done|].
    assert (Ew : wrap_u32 (- p) = 4294967296 - p) by (unfold wrap_u32; symmetry; apply (Z.mod_unique_pos _ _ (-1)); unfold two32; lia).
    rewrite (proj2 (Z.eqb_neq (wrap_s32 (- p)) 0)); [rewrite Ew; lia|]. intros E0. rewrite <- wrap_u32_wrap_s32, E0 in Ew. change (wrap_u32 0) with 0 in Ew. lia.
  - rewrite (Hpos eq_refl) in Hv. destruct (pair_value_inj hi lo 0 (wrap_s32 p)) as [-> ->]; [done|auto with nachos| |done].
    rewrite Hv. unfold pair_value, dword. cbn [fst snd]. rewrite wrap_u32_wrap_s32, wrap_u32_id by (unfold_int32; lia). lia.
Qed.

Lemma mult_mirrors :
  opCode i ∈ [OP_MULT; OP_MULTU] -> common m i = true -> mirrors t w (execute m i pcAfter) (exec_instr t w x xpc).
Proof.
  intros Hop Hco. unfold common in Hco. pose proof (vrs_int32 m i Hwf) as Hvs. pose proof (vrt_int32 m i Hwf) as Hvt.
  each_op Hop Eo; rewrite Eo in Hco; rewrite ?andb_true_iff in Hco; fields Eo Hn Ers Ert Erd Eex Hrs Hrt; dispatch Hn;
    unfold execute, exec_move_or, assign_hi_lo; rewrite Eo; (apply lo_hi_mirrors; [|apply Mult_range..]); unfold goes.
  - rewrite (exec_mult_small (vrs m i) (vrt m i)); tauto.
  - destruct Hco as ([Hs0 Hs1%small_abs] & [Ht0' Ht1%small_abs]). apply Z.leb_le in Hs0, Ht0'. rewrite Hrs, Hrt, high_product_small by lia.
    destruct (Mult_range (vrs m i) (vrt m i) false) as [Hrh Hrl]. pose proof (Mult_value _ _ false Hvs Hvt) as Hv. destruct (Mult _ _ false) as [hi lo]. cbn [fst snd] in *.
    rewrite !wrap_u32_nonneg in Hv by done. unfold pair_value, dword in Hv. cbn [fst snd] in Hv. pose proof (wrap_u32_range lo) as H1. pose proof (wrap_u32_range hi) as H2. unfold uint32, two32 in *.
    assert (Hprod : 0 <= vrs m i * vrt m i < 4294967296) by nia. assert (Eh : wrap_u32 hi = 0) by lia.
    replace hi with 0 by (rewrite <- (wrap_s32_id hi Hrh), <- wrap_s32_wrap_u32, Eh; done).
    replace lo with (wrap_s32 (vrs m i * vrt m i)); [done|]. rewrite <- (wrap_s32_id lo Hrl), <- (wrap_s32_wrap_u32 lo). f_equal. lia.
Qed.

(** *** Branches and jumps *)

Lemma straight_pc : straight m = true -> reg m NextPCReg = wrap_s32 (xpc + 4).
Proof. unfold straight. rewrite Hxpc. apply Z.eqb_eq. Qed.

Lemma wrap_s32_add a b : wrap_s32 (wrap_s32 a + b) = wrap_s32 (a + b).
Proof. destruct (wrap_s32_eq a) as [k ->]. apply wrap_s32_congr. replace (a + k * two32 + b - (a + b)) with (k * two32) by lia. apply Z_mod_mult. Qed.

Lemma target_eq n : straight m = true -> extra i = imm16 x -> n = reg m NextPCReg -> wrap_s32 (n + IndexToAddr (extra i)) = target x xpc.
Proof.
  intros Hs He ->. rewrite (straight_pc Hs), wrap_s32_add, He. unfold target, IndexToAddr. rewrite immed_sext, (Z.add_comm (xpc + 4) (wrap_s32 _)), wrap_s32_add. f_equal. lia.
Qed.

Lemma branch_mirrors m' t' b y :
  core m' t' -> npc t' = pcAfter -> pc t' = pc t -> (b = true -> branch_target i m' = target x xpc) -> y = branch_if w x xpc t' b ->
  mirrors t w (branch i pcAfter m' b) y.
Proof.
  intros Hc' Hn Hp Hb ->. unfold branch_if, goes. eexists. conjs; [done| | |]; destruct b; try done; [by apply core_set_npc|]. cbn [set_npc npc]. by rewrite Hb.
Qed.

Lemma link_core r : straight m = true -> 0 <= r < 32 -> r ∈ touched i ->
  core (link m r) (setR t r (wrap_s32 (xpc + 8))) /\ Machine_wf (link m r).
Proof.
  intros Hs Hr Hin. unfold link. rewrite (straight_pc Hs), wrap_s32_add. replace (xpc + 4 + 4) with (xpc + 8) by lia.
  split; [|auto with nachos]. apply core_setR; try done. by apply touched_target.
Qed.

Lemma linked_rs : straight m = true -> rs i = i_rs x -> rs i ∈ touched i -> getR (link31 t xpc) (i_rs x) = reg (link m R31) (rs i).
Proof.
  intros Hs Ers Hin. pose proof (wf_registers _ Hwf : _ = 40) as HL. unfold link31, link. rewrite (straight_pc Hs), wrap_s32_add, <- Ers. rewrite getR_setR by (rewrite (co_len _ _ Hc); lia).
  unfold R31. destruct (Z.eqb_spec (rs i) 31) as [->|Hne]; [rewrite reg_set_reg_eq by lia; f_equal; lia|]. rewrite reg_set_reg_ne by lia. apply getR_touched; [apply Hiw|done].
Qed.

Lemma sign_leb y : int32 y -> negb (sign_set y) = (0 <=? y).
Proof. intros Hy. rewrite sign_set_spec by done. by rewrite Z.leb_antisym. Qed.

Lemma branches_mirror :
  opCode i ∈ [OP_BEQ; OP_BNE; OP_BGEZ; OP_BGTZ; OP_BLEZ; OP_BLTZ; OP_BGEZAL; OP_BLTZAL] -> common m i = true ->
  mirrors t w (execute m i pcAfter) (exec_instr t w x xpc).
Proof.
  intros Hop Hco. unfold common in Hco. pose proof (vrs_int32 m i Hwf) as Hvs.
  each_op Hop Eo; rewrite Eo in Hco; fields Eo Hn Ers Ert Erd Eex Hrs Hrt; dispatch Hn; unfold execute, exec_branch; rewrite Eo, ?sign_leb, ?sign_set_spec by done;
    try (apply branch_mirrors with t; try done; [intros _; by apply target_eq|by rewrite ?Hrs, ?Hrt]).
  all: destruct (link_core R31) as [Hcl Hwl]; [done|unfold R31; lia|unfold touched; rewrite Eo; in_list|];
    (apply branch_mirrors with (link31 t xpc); [done..| |]);
    [intros _; apply target_eq; try done; unfold link; by rewrite reg_set_reg_ne by (unfold R31; unfold_regs; lia)|].
  all: rewrite linked_rs; [|done|done|unfold touched; rewrite Eo; in_list]; by rewrite ?sign_leb, ?sign_set_spec by (by apply reg_int32).
Qed.

Lemma far_target_eq :
  straight m = true -> Z.land (wrap_u32 (reg m PCReg)) 0xf0000000 = Z.land (wrap_u32 (reg m NextPCReg + 4)) 0xf0000000 ->
  extra i = Z.land x 0x3ffffff -> jump_target i pcAfter = far_target x xpc.
Proof.
  intros Hs Hreg He. unfold jump_target, far_target, IndexToAddr. rewrite wrap_u32_wrap_s32, wrap_u32_wrap_s32, <- Hreg, <- Hxpc, He.
  pose proof (land_low_range x 0x3ffffff 26 ltac:(lia) eq_refl) as Hr. change (2 ^ 26) with 67108864 in Hr.
  rewrite (wrap_u32_id (Z.shiftl _ 2)); [done|]. rewrite Z.shiftl_mul_pow2 by lia. unfold_int32. lia.
Qed.

Lemma jumps_mirror :
  opCode i ∈ [OP_J; OP_JAL; OP_JR; OP_JALR] -> common m i = true -> mirrors t w (execute m i pcAfter) (exec_instr t w x xpc).
Proof.
  intros Hop Hco. unfold common in Hco.
  each_op Hop Eo; rewrite Eo in Hco; fields Eo Hn Ers Ert Erd Eex Hrs Hrt; dispatch Hn; unfold execute, exec_jump; rewrite Eo; unfold goes.
  - apply andb_true_iff in Hco as [Hs Hreg%Z.eqb_eq]. eexists. conjs; [done|by apply core_set_npc| |done]. by rewrite far_target_eq.
  - apply andb_true_iff in Hco as [Hs Hreg%Z.eqb_eq]. destruct (link_core R31) as [Hcl _]; [done|unfold R31; lia|unfold touched; rewrite Eo; in_list|].
    eexists. conjs; [done|by apply core_set_npc| |done]. by rewrite far_target_eq.
  - eexists. conjs; [done|by apply core_set_npc|by cbn [set_npc npc]|done].
  - apply andb_true_iff in Hco as [Hs Hne]. apply negb_true_iff, Z.eqb_neq in Hne. destruct (link_core (rd i)) as [Hcl _]; [done|apply Hiw|unfold touched; rewrite Eo; in_list|].
    rewrite <- Erd. exists (set_npc (setR t (rd i) (wrap_s32 (xpc + 8))) (R_rs t x)). conjs; [done|by apply core_set_npc| |done].
    cbn [set_npc npc]. unfold link. rewrite reg_set_reg_ne by done. done.
Qed.

(** *** Loads and stores *)

Lemma ea_eq : rs i = i_rs x -> rs i ∈ touched i -> extra i = imm16 x -> ea t x = address m i.
Proof. intros Ers Hin Ee. unfold ea, address. by rewrite R_rs_eq, immed_sext, Ee. Qed.

Lemma char_word b : byte b ->
  (if negb (Z.land (char_of_byte b) 0x80 =? 0) then wrap_s32 (Z.lor (wrap_u32 (char_of_byte b)) 0xffffff00) else Z.land (char_of_byte b) 0xff) = char_of_byte b /\
  Z.land (char_of_byte b) 0xff = b.
Proof.
  intros Hb. assert (E : Forall (fun c => (if negb (Z.land (char_of_byte c) 0x80 =? 0) then wrap_s32 (Z.lor (wrap_u32 (char_of_byte c)) 0xffffff00)
    else Z.land (char_of_byte c) 0xff) = char_of_byte c /\ Z.land (char_of_byte c) 0xff = c) (seqZ 0 256)) by (apply (bool_decide_unpack _); vm_compute; done).
  rewrite Forall_forall in E. apply E, elem_of_seqZ. unfold byte in Hb. lia.
Qed.

Lemma half_word v : 0 <= v < 65536 ->
  (if negb (Z.land v 0x8000 =? 0) then wrap_s32 (Z.lor (wrap_u32 v) 0xffff0000) else Z.land v 0xffff) = (if v <? 32768 then v else v - 65536) /\
  Z.land v 0xffff = v.
Proof.
  intros Hv. assert (E : Z.land v 0xffff = v) by (rewrite (land_low v 16 ltac:(lia) : Z.land v 0xffff = v mod 65536); by apply Z.mod_small). split; [|done].
  pose proof (extra_sext v) as Hx. cbn zeta in Hx. rewrite E in Hx. rewrite (wrap_u32_id v) by (unfold_int32; lia). rewrite E, Hx. unfold imm16. by rewrite Z.mod_small.
Qed.

(** A load that the simulator leaves pending is done at once. *)
Lemma delayed_mirrors m' v y :
  registers m' = registers m -> same_memory m' (mem t) -> y = Ok (Goes (setR t (i_rt x) v) w) -> rt i = i_rt x ->
  mirrors t w (delayed i pcAfter m' v) y.
Proof.
  intros Hr Hs -> Ert. unfold delayed, mirrors. assert (Hcm : core m' t) by (by apply core_same_regs with m t).
  destruct (Z.eqb_spec (rt i) 0) as [E0|E0].
  - exists (setR t 0 v). rewrite <- Ert, E0. conjs; try done. destruct Hcm as [C1 C2 C3 C4 C5]. split; try done.
    + unfold setR. cbn [Reg]. by rewrite lenZ_insertZ.
    + intros r Hr0. rewrite getR_setR by lia. rewrite (proj2 (Z.eqb_neq r 0)) by lia. by apply C2.
  - exists t. rewrite <- Ert. done.
Qed.

Lemma loads_mirror :
  opCode i ∈ [OP_LB; OP_LBU; OP_LH; OP_LHU; OP_LW] -> mirrors t w (execute m i pcAfter) (exec_instr t w x xpc).
Proof.
  assert (Haddr : int32 (address m i)) by (unfold address; auto with nachos).
  assert (Hread : forall size (k : Z -> Machine -> outcome exec_result) y, valid_size size ->
    (forall v m' bs, registers m' = registers m -> same_memory m' (mem t) -> load t (address m i) size = Ok bs -> load_value size bs = Ok v ->
       Forall byte bs -> lenZ bs = size -> mirrors t w (k v m') y) ->
    mirrors t w (after_read m (Machine_ReadMem m (address m i) size) k) y).
  { intros size k y Hs Hk. unfold after_read. destruct (Machine_ReadMem m (address m i) size) as [[v m'|wh b]| | |] eqn:E; cbn [mbind outcome_bind]; try done.
    destruct (load_same m t (address m i) size v m' Hwf Hs Haddr (co_mem _ _ Hc) E) as (bs & L1 & L2 & L3 & L4 & L5 & L6 & L7 & L8). by eapply Hk. }
  assert (V1 : valid_size 1) by (unfold valid_size; lia). assert (V2 : valid_size 2) by (unfold valid_size; lia). assert (V4 : valid_size 4) by (unfold valid_size; lia).
  intros Hop. each_op Hop Eo; fields Eo Hn Ers Ert Erd Eex Hrs Hrt; dispatch Hn; unfold execute, exec_load; rewrite Eo; unfold load_rt, to_rt, goes;
    rewrite ea_eq by first [done|unfold touched; rewrite Eo; in_list];
    try (match goal with |- context [if negb ?b then Ok (Raise _ _ _) else _] => destruct b; [|done] end);
    cbn [negb]; (apply Hread; [done|]); intros v m' bs Hr Hs Hl Hv Hb Hlen; (apply delayed_mirrors; [done..| |done]);
    unfold cfetch, ucfetch, sfetch, usfetch, fetch; rewrite Hl; cbn [mbind outcome_bind].
  - destruct (lenZ_1_lookup _ Hlen) as [b ->]. injection Hv as <-. pose proof (Forall_inv Hb) as Hb1. cbn [le_combine]. rewrite Z.mul_0_r, Z.add_0_r.
    rewrite (bool_decide_eq_true_2 (OP_LB = OP_LB)), andb_true_r by done. by rewrite (proj1 (char_word b Hb1)).
  - destruct (lenZ_1_lookup _ Hlen) as [b ->]. injection Hv as <-. pose proof (Forall_inv Hb) as Hb1. cbn [le_combine]. rewrite Z.mul_0_r, Z.add_0_r.
    rewrite (bool_decide_eq_false_2 (OP_LBU = OP_LB)), andb_false_r by done. by rewrite (proj2 (char_word b Hb1)).
  - injection Hv as <-. unfold ShortToHost. pose proof (le_combine_bound _ Hb) as Hbd. rewrite Hlen in Hbd. change (256 ^ 2) with 65536 in Hbd.
    rewrite (bool_decide_eq_true_2 (OP_LH = OP_LH)), andb_true_r by done. by rewrite (proj1 (half_word _ Hbd)).
  - injection Hv as <-. unfold ShortToHost. pose proof (le_combine_bound _ Hb) as Hbd. rewrite Hlen in Hbd. change (256 ^ 2) with 65536 in Hbd.
    rewrite (bool_decide_eq_false_2 (OP_LHU = OP_LH)), andb_false_r by done. by rewrite (proj2 (half_word _ Hbd)).
  - by injection Hv as <-.
Qed.

Lemma le_split_mod n M v : M = 256 ^ Z.of_nat n -> le_split n (v mod M) = le_split n v.
Proof.
  intros ->. revert v. induction n as [|n IH]; intros v; [done|]. cbn [le_split].
  assert (Hp : 0 < 256 ^ Z.of_nat n) by (apply Z.pow_pos_nonneg; lia). rewrite Nat2Z.inj_succ, Z.pow_succ_r by lia.
  rewrite Z.rem_mul_r by lia. f_equal.
  - rewrite Z.mul_comm, Z_mod_plus_full. by apply Z.mod_mod.
  - rewrite <- (IH (v / 256)). f_equal. rewrite Z.mul_comm, Z.div_add by lia. rewrite Z.div_small; [lia|]. apply Z.mod_pos_bound. lia.
Qed.

Lemma store_bytes_split size v : valid_size size -> store_bytes size v = Ok (le_split (Z.to_nat size) v).
Proof.
  intros [-> | [-> | ->]]; unfold store_bytes; cbn -[Z.land le_split wrap_u32].
  - by rewrite (land_low v 8 ltac:(lia) : Z.land v 0xff = v mod 256).
  - rewrite (land_low v 16 ltac:(lia) : Z.land v 0xffff = v mod 65536). unfold ShortToMachine, ShortToHost. f_equal. apply le_split_mod. done.
  - unfold WordToMachine, WordToHost, wrap_u32. f_equal. apply le_split_mod. done.
Qed.

Lemma stores_mirror : opCode i ∈ [OP_SB; OP_SH; OP_SW] -> mirrors t w (execute m i pcAfter) (exec_instr t w x xpc).
Proof.
  assert (Haddr : int32 (address m i)) by (unfold address; auto with nachos).
  assert (Hwrite : forall size y, valid_size size -> y = stored w (save t (address m i) (le_split (Z.to_nat size) (vrt m i))) ->
    mirrors t w (after_read m (Machine_WriteMem m (wrap_s32 (wrap_u32 (address m i))) size (vrt m i)) (fun _ m' => Ok (Done m' pcAfter 0 0))) y).
  { intros size y Hs ->. rewrite wrap_s32_wrap_u32, (wrap_s32_id _ Haddr). unfold after_read.
    destruct (Machine_WriteMem m (address m i) size (vrt m i)) as [[[] m'|wh b]| | |] eqn:E; cbn [mbind outcome_bind]; try done.
    destruct (save_same m t (address m i) size (vrt m i) m' _ Hwf Hs Haddr (co_mem _ _ Hc) E (store_bytes_split size _ Hs)) as (t' & L1 & L2 & L3 & L4 & L5).
    rewrite L1. cbn [stored mbind outcome_bind goes]. exists t'. rewrite L2. conjs; try done. apply core_same_regs with m t; try done. }
  intros Hop. each_op Hop Eo; fields Eo Hn Ers Ert Erd Eex Hrs Hrt; dispatch Hn; unfold execute, exec_store; rewrite Eo;
    apply Hwrite; try (unfold valid_size; lia); rewrite Hrt, ea_eq by first [done|unfold touched; rewrite Eo; in_list]; done.
Qed.

Lemma exec_mirrors : common m i = true -> mirrors t w (execute m i pcAfter) (exec_instr t w x xpc).
Proof.
  intros Hco. destruct (opCode i) eqn:Eo; try (exfalso; revert Hco; unfold common; rewrite Eo; done);
    first [ apply add_sub_mirrors; rewrite Eo; in_list; fail | apply immediate_mirrors; [rewrite Eo; in_list; fail|done]
          | apply shift_mirrors; [rewrite Eo; in_list; fail|done] | apply move_mirrors; rewrite Eo; in_list; fail
          | apply div_mirrors; [rewrite Eo; in_list; fail|done] | apply mult_mirrors; [rewrite Eo; in_list; fail|done]
          | apply branches_mirror; [rewrite Eo; in_list; fail|done] | apply jumps_mirror; [rewrite Eo; in_list; fail|done]
          | apply loads_mirror; rewrite Eo; in_list; fail | apply stores_mirror; rewrite Eo; in_list; fail ].
Qed.
End OneInstr.

Lemma core_reg0 m t v : core m t -> core m (setR t 0 v).
Proof.
  intros [C1 C2 C3 C4 C5]. split; try done.
  - unfold setR. cbn [Reg]. by rewrite lenZ_insertZ.
  - intros r Hr0. rewrite getR_setR by lia. rewrite (proj2 (Z.eqb_neq r 0)) by lia. by apply C2.
Qed.

(** The word 0 is an instruction that changes nothing. *)
Lemma exec_nop t w xpc : lenZ (Reg t) = 32 -> getR t 0 = 0 -> exec_instr t w 0 xpc = Ok (Goes t w).
Proof.
  intros Hl H0. unfold exec_instr, exec_special, to_rd, goes, R_rt. change (i_rt 0) with 0. rewrite H0. change (wrap_s32 (Z.shiftl 0 (shamt 0))) with 0. change (i_rd 0) with 0. change (Z.land (Z.shiftr 0 26) 0x3f) with 0. change (Z.land 0 0x3f) with 0. cbv iota. do 2 f_equal.
  unfold setR. rewrite insertZ_id; [by destruct t|]. unfold getR in H0. destruct (lookupZ_range (Reg t) 0) as [v E]; [lia|]. rewrite E in *. by cbn in H0; subst.
Qed.

Lemma same_regs_common m m1 i : registers m1 = registers m -> common m1 i = common m i /\ load_slot_ok m1 i = load_slot_ok m i.
Proof. intros E. unfold common, load_slot_ok, straight, vrs, vrt, reg. by rewrite E. Qed.

(** One instruction. *)
Lemma interpret_agrees m t w i m1 m' :
  cpu_wf m -> agree m t -> fetched m i m1 -> load_slot_ok m i = true -> common m i = true -> Machine_OneInstruction m = Ok (Next m') ->
  exists t', interpret t w = Ok (Goes t' w) /\ agree m' t' /\ cpu_wf m'.
Proof.
  intros Hcpu [Hc Hp Hn] (raw & Er & Ed) Hslot Hco E. pose proof (OneInstruction_cases m Hcpu) as Hnext. rewrite E in Hnext. destruct Hnext as (Hcpu' & _).
  destruct Hcpu as [Hwf Hl Hz]. set (t0 := mkInterp (Reg t) (HI t) (LO t) (mem t) (npc t) (wrap_s32 (npc t + 4)) (wrap_s32 (icount t + 1))).
  destruct (load_same m t0 (reg m PCReg) 4 raw m1 Hwf ltac:(unfold valid_size; lia) ltac:(auto with nachos) (co_mem _ _ Hc) Er) as (bs & L1 & L2 & L3 & L4 & Hwf1 & Hr1 & Hm1 & Hraw).
  assert (Eraw : fetch t0 (pc t) = Ok raw) by (unfold fetch; rewrite Hp, L1; cbn [mbind outcome_bind]; exact L2).
  assert (Hreg : forall r, reg m1 r = reg m r) by (intros r; unfold reg; by rewrite Hr1).
  destruct (same_regs_common m m1 i Hr1) as [Hco1 Hslot1]. rewrite <- Hco1 in Hco. rewrite <- Hslot1 in Hslot.
  set (t1 := setR t0 0 0). assert (Hc1 : core m1 t1) by (apply core_reg0; by apply core_same_regs with m t).
  assert (H01 : getR t1 0 = 0) by (unfold t1; rewrite getR_setR; [done|]; rewrite (co_len _ _ Hc : lenZ (Reg t0) = 32); lia).
  destruct (Decode_wf (wrap_u32 raw)) as (i' & Ed' & Hi). assert (i' = i) as -> by congruence.
  pose proof (exec_mirrors m1 t1 w raw (pc t) i Hwf1 ltac:(by rewrite Hreg) Hi Hc1 H01 Ed ltac:(by rewrite Hreg) ltac:(by rewrite Hreg, <- Hn) Hslot Hco) as Hmir.
  unfold Machine_OneInstruction in E. rewrite Er in E. cbn [mbind outcome_bind] in E. rewrite Ed in E. cbn [mbind outcome_bind] in E.
  pose proof (execute_ok m1 i (wrap_s32 (reg m1 NextPCReg + 4)) Hwf1 Hi ltac:(auto with nachos)) as Hx.
  destruct (execute m1 i _) as [[m2 pcA nr nv|m2 wh b]| | |]; cbn [mbind outcome_bind exec_ok mirrors] in *; try done; [|unfold raise in E; by destruct (Machine_RaiseException m2 b)].
  destruct Hx as ((Hwf2 & Hk) & Hpc & Hnr & Hnv). destruct Hmir as (t2 & Ey & Hc2 & Hn2 & Hp2).
  destruct (finish_instruction m2 pcA nr nv) as [m3| | |] eqn:Ef; cbn [mbind outcome_bind] in E; try done. injection E as <-.
  assert (Hl2 : 0 <= reg m2 LoadReg < 32) by (rewrite Hk by (unfold_regs; lia); by rewrite Hreg).
  destruct (core_finish m2 t2 pcA nr nv m3 Hwf2 Hl2 Hc2 Hnr Ef) as (Hc3 & P1 & P2).
  exists (if nr =? 0 then t2 else setR t2 nr nv). conjs; [|split; [done|..]|done].
  - unfold interpret. fold t0. unfold ifetch. rewrite Eraw. cbn [mbind outcome_bind]. fold t1. destruct (Z.eqb_spec raw 0) as [->|]; cbn [negb]; [|done].
    rewrite exec_nop in Ey by (done || apply Hc1). done.
  - rewrite P1, Hk, Hreg by (unfold_regs; lia). rewrite <- Hn. change (npc t) with (pc t1). rewrite <- Hp2. by case_match.
  - rewrite P2, <- Hn2. by case_match.
Qed.
End Agree.

(** ** Runs of programs that keep to the common instructions *)

(** One instruction of such a run. *)
Definition regular_step (m : Machine) : option Machine :=
  match Machine_ReadMem m (reg m PCReg) 4 with
  | Ok (MemOk raw _) =>
      match Instruction_Decode (wrap_u32 raw), Machine_OneInstruction m with
      | Ok i, Ok (Next m') => if load_slot_ok m i && common m i then Some m' else None
      | _, _ => None
      end
  | _ => None
  end.

Fixpoint regular_run (n : nat) (m : Machine) : option Machine :=
  match n with
  | O => Some m
  | S n => m' ← regular_step m; regular_run n m'
  end.

(** C10: the simulator of Nachos ([Machine::OneInstruction]) and the offline interpreter
    ([runprogram] of bin/execute.c) are two programs for one instruction set.  Started in
    states that agree, a program that keeps to the instructions on which they do the same and
    leaves the delay slots of its loads alone runs the same on both: after any number of
    instructions, loads, stores, branches and jumps included, the states agree again. *)
Theorem interpreters_agree {W : Type} `{!InterpHost W} n m t (w : W) m' :
  cpu_wf m -> agree m t -> regular_run n m = Some m' -> exists t', rounds n t w = Ok (Goes t' w) /\ agree m' t' /\ cpu_wf m'.
Proof.
  revert m t. induction n as [|n IH]; intros m t Hcpu Ha Hr; cbn [regular_run rounds] in *; [injection Hr as <-; by exists t|].
  destruct (regular_step m) as [m1|] eqn:Es; [|done]. cbn [mbind option_bind] in Hr. unfold regular_step in Es.
  destruct (Machine_ReadMem m (reg m PCReg) 4) as [[raw mf|]| | |] eqn:Er; try done. destruct (Instruction_Decode (wrap_u32 raw)) as [i| | |] eqn:Ed; try done.
  destruct (Machine_OneInstruction m) as [[m2|]| | |] eqn:Eo; try done. destruct (load_slot_ok m i && common m i) eqn:Eb; [|done]. injection Es as ->.
  apply andb_true_iff in Eb as [Hslot Hco]. destruct (interpret_agrees m t w i mf m1) as (t1 & -> & Ha1 & Hcpu1); try done; [by exists raw|].
  cbn [mbind outcome_bind]. by apply IH with m1.
Qed.

(** *** A machine whose program is where execute.c has it *)

(** The page at [memoffset] is in the TLB. *)
Definition far_machine (code regs : list Z) : Machine :=
  let bytes := code ≫= le_split 4 in
  mkMachine (bytes ++ replicate (Z.to_nat (MemorySize - lenZ bytes)) 0) regs
    (Some (mkEntry 524288 0 true false false false :: replicate 3 (mkEntry 0 0 false false false false))) None 0 false 0.

Definition far_regs : list Z := replicate 34 0 ++ [memoffset; memoffset + 4] ++ replicate 4 0.

(** The interpreter with the same memory. *)
Definition far_interp (m : Machine) : Interp :=
  mkInterp (replicate 32 0) 0 0 (fun k => default 0 ((mainMemory m).[k])) memoffset (memoffset + 4) 0.

Lemma far_wf code : 4 * lenZ code <= MemorySize -> cpu_wf (far_machine code far_regs).
Proof.
  intros Hc. destruct (sample_wf code 0 0 0 Hc) as [W1 W2 _ _ _]; try (apply int32_small; lia). split; [split|done|done]; try done.
  - change (registers _) with far_regs. unfold far_regs, memoffset. cbn [replicate app Nat.add]. repeat (apply Forall_cons; split; [unfold_int32; lia|]). constructor.
  - left. eexists. conjs; [done..|]. repeat (apply Forall_cons; split; [split; unfold_int32; cbn; lia|]). constructor.
Qed.

Lemma far_phys code regs va pa :
  int32 va -> phys_of (far_machine code regs) va 1 false = Ok (inr pa) -> va = memoffset + pa /\ 0 <= pa < 512.
Proof.
  intros Hva. unfold phys_of, Machine_Translate. cbn [misaligned Z.eqb Pos.eqb andb orb far_machine tlb pageTable]. rewrite (bool_decide_eq_true_2 (is_Some (Some _))) by (by eexists).
  rewrite bool_decide_eq_false_2 by (by intros [? ?]). cbn [andb orb negb ASSERT mbind outcome_bind]. unfold find_entry. cbn [far_machine tlb tlb_search replicate valid virtualPage andb].
  change (wrap_u32 524288) with 524288. unfold PageSize, SectorSize. destruct (Z.eqb_spec 524288 (wrap_u32 va / 512)) as [Hv|Hv]; [|done]. cbn [mbind outcome_bind readOnly andb physicalPage].
  change (wrap_u32 0) with 0. pose proof (wrap_u32_range va) as Hu. unfold uint32, two32 in Hu. pose proof (Z.mod_pos_bound (wrap_u32 va) 512 ltac:(lia)) as Hm.
  pose proof (Z.div_mod (wrap_u32 va) 512 ltac:(lia)) as Hd. change (NumPhysPages <=? 0) with false. cbv iota. rewrite Z.mul_0_l, Z.add_0_l.
  rewrite wrap_u32_id, wrap_s32_id by (unfold_int32; lia). destruct (_ && _); [|done]. intros [= <-]. split; [|done].
  destruct (Z.lt_ge_cases va 0); [rewrite wrap_s32_of_neg in * by done|rewrite wrap_u32_nonneg in * by done]; unfold memoffset; unfold_int32; lia.
Qed.

Lemma far_agree code : 4 * lenZ code <= MemorySize -> agree (far_machine code far_regs) (far_interp (far_machine code far_regs)).
Proof.
  intros Hc. destruct (far_wf code Hc) as [Hwf _ _]. split; [split|done|done]; try done.
  - intros r Hr. unfold getR, far_interp. cbn [Reg]. unfold reg, far_machine, far_regs. cbn [registers].
    assert (E : Forall (fun r => default 0 ((replicate 32 0).[r]) = (if r =? default 0 ((replicate 34 0 ++ [memoffset; memoffset + 4] ++ replicate 4 0).[LoadReg])
      then default 0 ((replicate 34 0 ++ [memoffset; memoffset + 4] ++ replicate 4 0).[LoadValueReg]) else default 0 ((replicate 34 0 ++ [memoffset; memoffset + 4] ++ replicate 4 0).[r])))
      (seqZ 1 31)) by (apply (bool_decide_unpack _); vm_compute; done).
    rewrite Forall_forall in E. apply E, elem_of_seqZ. lia.
  - split.
    + intros va pa Hva [-> Hpa]%far_phys; [|done]. replace (memoffset + pa - memoffset) with pa by lia. split; [unfold MEMSIZE; lia|]. cbn [far_interp mem].
      destruct (lookupZ_range (mainMemory (far_machine code far_regs)) pa) as [b ->]; [|done]. rewrite (wf_memory _ Hwf). unfold MemorySize. lia.
    + intros va va' pa Hva Hva' [-> _]%far_phys [-> _]%far_phys; done.
Qed.

(** A host whose calls do nothing. *)
#[local] Instance idle_host : InterpHost unit := {
  h_read _ _ w := (0, [], w); h_write _ _ _ w := (0, w); h_open _ _ _ w := (-1, w);
  h_lseek _ _ _ w := (0, w); h_ioctl _ _ _ f w := (f, w); h_getpagesize := 4096 }.

(** LUI, ADDIU, SW, LW, a nop, ADD, BNE back to the ADD, and a nop. *)
Definition far_code : list Z := [0x3c011000; 0x24020007; 0xac220040; 0x8c230040; 0; 0x00622020; 0x1480fffe; 0].

Lemma interpreters_agree_witness :
  exists m' t', regular_run 9 (far_machine far_code far_regs) = Some m' /\ rounds 9 (far_interp (far_machine far_code far_regs)) tt = Ok (Goes t' tt) /\
    agree m' t' /\ reg m' 4 = 14 /\ reg m' PCReg = 0x10000018.
Proof.
  destruct (regular_run 9 (far_machine far_code far_regs)) as [m'|] eqn:E.
  - destruct (interpreters_agree 9 (far_machine far_code far_regs) (far_interp (far_machine far_code far_regs)) tt m') as (t' & Hr & Ha & _).
    + apply far_wf. vm_compute. discriminate.
    + apply far_agree. vm_compute. discriminate.
    + exact E.
    + exists m', t'. conjs; [reflexivity|exact Hr|exact Ha|..].
      * assert (Hv : (reg m' 4 =? 14) = (match regular_run 9 (far_machine far_code far_regs) with Some m => reg m 4 =? 14 | None => false end)) by (rewrite E; reflexivity).
        apply Z.eqb_eq. rewrite Hv. vm_compute. reflexivity.
      * assert (Hv : (reg m' PCReg =? 0x10000018) = (match regular_run 9 (far_machine far_code far_regs) with Some m => reg m PCReg =? 0x10000018 | None => false end)) by (rewrite E; reflexivity).
        apply Z.eqb_eq. rewrite Hv. vm_compute. reflexivity.
  - exfalso. assert (Hv : (match regular_run 9 (far_machine far_code far_regs) with Some _ => true | None => false end) = true) by (vm_compute; reflexivity).
    rewrite E in Hv. discriminate.
Defined.

(** Where the programs differ: the operands are in R1 and R2 (and in the word), the results
    in R3, or in HI for MULT. *)
Definition run_one (word r1 r2 : Z) : outcome exec_result * outcome (progress unit) :=
  let m := mkMachine [] ([0; r1; r2] ++ replicate 37 0) None None 0 false 0 in
  let t := mkInterp ([0; r1; r2] ++ replicate 29 0) 0 0 (fun _ => 0) 0 4 0 in
  (i ← Instruction_Decode word; execute m i 8, exec_instr t tt word 0).
Definition results (r : Z) (p : outcome exec_result * outcome (progress unit)) : option (Z * Z) :=
  match p with
  | (Ok (Done m _ _ _), Ok (Goes t _)) => Some (if r =? HiReg then (reg m HiReg, HI t) else (reg m r, getR t r))
  | _ => None
  end.

(** The conditions of [common] are needed: OR in Nachos ignores its second operand and SRL
    copies the sign, where execute.c computes what MIPS specifies; ANDI in execute.c extends
    the sign of its operand and MULT loses the carry of the middle products, where Nachos is
    right. *)
Theorem interpreters_differ :
  results 3 (run_one 0x00221825 4 3) = Some (4, 7) /\
  results 3 (run_one 0x00021902 0 (-1)) = Some (-1, 0x0fffffff) /\
  results 3 (run_one 0x3023ffff (-1) 0) = Some (0xffff, -1) /\
  results HiReg (run_one 0x00220018 0x1ffff 0x1ffff) = Some (3, 1).
Proof. conjs; vm_compute; reflexivity. Qed.
