(* ===== verification/Disasm.v ===== *)
(** * The disassembler (bin/d.c, bin/opstrings.c, bin/disasm.c)

    [dump_ascii] gives the text of one instruction; [%x] and [%08x] are written out as
    [hex] and [hex8].  The reference is an assembler, [assemble], which reads such a line back:
    the theorem is that the instruction it finds does the same in the interpreter of
    [Execute] as the one that was printed. *)

From Stdlib Require Import Ascii.
From stdpp Require Import strings.
From S2P Require Import Prelude Int32 Execute.
Open Scope Z_scope.

(** ** [printf] *)

Definition tab : string := String "009"%char EmptyString.

Definition hex_digit (d : Z) : ascii :=
  default "0"%char (["0"; "1"; "2"; "3"; "4"; "5"; "6"; "7"; "8"; "9"; "a"; "b"; "c"; "d"; "e"; "f"]%char.[d]).

(** The digits of an [unsigned] from the last one, without leading zeros and at least one, or
    exactly as many as asked for. *)
Fixpoint hex_min (fuel : nat) (n : Z) (acc : string) : string :=
  match fuel with
  | O => acc
  | S fuel => let acc := String (hex_digit (n mod 16)) acc in if n / 16 =? 0 then acc else hex_min fuel (n / 16) acc
  end.
Fixpoint hex_pad (digits : nat) (n : Z) (acc : string) : string :=
  match digits with O => acc | S k => hex_pad k (n / 16) (String (hex_digit (n mod 16)) acc) end.

(** [%x] and [%08x] of an [int] *)
Definition hex (i : Z) : string := hex_min 8 (wrap_u32 i) EmptyString.
Definition hex8 (i : Z) : string := hex_pad 8 (wrap_u32 i) EmptyString.

(** ** opstrings.c *)

Definition normalops : list string :=
  ["special"; "bcond"; "j"; "jal"; "beq"; "bne"; "blez"; "bgtz";
   "addi"; "addiu"; "slti"; "sltiu"; "andi"; "ori"; "xori"; "lui";
   "cop0"; "cop1"; "cop2"; "cop3"; "024"; "025"; "026"; "027";
   "030"; "031"; "032"; "033"; "034"; "035"; "036"; "037";
   "lb"; "lh"; "lwl"; "lw"; "lbu"; "lhu"; "lwr"; "047";
   "sb"; "sh"; "swl"; "sw"; "054"; "055"; "swr"; "057";
   "lwc0"; "lwc1"; "lwc2"; "lwc3"; "064"; "065"; "066"; "067";
   "swc0"; "swc1"; "swc2"; "swc3"; "074"; "075"; "076"; "077"].

Definition specialops : list string :=
  ["sll"; "001"; "srl"; "sra"; "sllv"; "005"; "srlv"; "srav";
   "jr"; "jalr"; "012"; "013"; "syscall"; "break"; "016"; "017";
   "mfhi"; "mthi"; "mflo"; "mtlo"; "024"; "025"; "026"; "027";
   "mult"; "multu"; "div"; "divu"; "034"; "035"; "036"; "037";
   "add"; "addu"; "sub"; "subu"; "and"; "or"; "xor"; "nor";
   "050"; "051"; "slt"; "sltu"; "054"; "055"; "056"; "057";
   "060"; "061"; "062"; "063"; "064"; "065"; "066"; "067";
   "070"; "071"; "072"; "073"; "074"; "075"; "076"; "077"].

(** ** d.c *)

Definition regstrings : list string :=
  ["0"; "r1"; "r2"; "r3"; "r4"; "r5"; "r6"; "r7"; "r8"; "r9";
   "r10"; "r11"; "r12"; "r13"; "r14"; "r15"; "r16"; "r17"; "r18"; "r19";
   "r20"; "r21"; "r22"; "r23"; "r24"; "r25"; "r26"; "r27"; "gp"; "sp";
   "r30"; "r31"].

Definition R (i : Z) : outcome string := deref (regstrings.[i]).

(** [off26], [top4] and [off16] of instr.h *)
Definition off26 (i : Z) : Z := Z.shiftl (Z.land i (2 ^ 26 - 1)) 2.
Definition top4 (i : Z) : Z := Z.land i (Z.lnot (2 ^ 28 - 1)).
Definition off16 (i : Z) : Z := Z.shiftl (immed i) 2.

(** The operands of an instruction with opcode I_SPECIAL *)
Definition special_operands (opcode i : Z) : outcome string :=
  match opcode with
  | 0 | 2 | 3 (* I_SLL, I_SRL, I_SRA *) =>
      a ← R (i_rd i); b ← R (i_rt i); Ok (a +:+ "," +:+ b +:+ ",0x" +:+ hex (shamt i))
  | 4 | 6 | 7 (* I_SLLV, I_SRLV, I_SRAV *) =>
      a ← R (i_rd i); b ← R (i_rt i); c ← R (i_rs i); Ok (a +:+ "," +:+ b +:+ "," +:+ c)
  | 8 | 9 | 18 | 19 (* I_JR, I_JALR, I_MFLO, I_MTLO *) => R (i_rs i)
  | 12 | 13 (* I_SYSCALL, I_BREAK *) => Ok EmptyString
  | 16 | 17 (* I_MFHI, I_MTHI *) => R (i_rd i)
  | 24 | 25 | 26 | 27 (* I_MULT, I_MULTU, I_DIV, I_DIVU *) => a ← R (i_rs i); b ← R (i_rt i); Ok (a +:+ "," +:+ b)
  | 32 | 33 | 34 | 35 | 36 | 37 | 38 | 39 | 42 | 43 (* I_ADD to I_NOR, I_SLT, I_SLTU *) =>
      a ← R (i_rd i); b ← R (i_rs i); c ← R (i_rt i); Ok (a +:+ "," +:+ b +:+ "," +:+ c)
  | _ => Ok EmptyString
  end.

(** The name of an instruction with opcode I_BCOND *)
Definition bcond_name (rt : Z) : string :=
  match rt with 0 => "bltz" | 1 => "bgez" | 16 => "bltzal" | 17 => "bgezal" | _ => "BCOND" end.

(** The operands of the other instructions *)
Definition normal_operands (opcode i pc : Z) : outcome string :=
  match opcode with
  | 2 | 3 (* I_J, I_JAL *) => Ok (hex8 (Z.lor (top4 pc) (off26 i)))
  | 4 | 5 (* I_BEQ, I_BNE *) => a ← R (i_rt i); b ← R (i_rs i); Ok (a +:+ "," +:+ b +:+ "," +:+ hex8 (off16 i + pc + 4))
  | 8 | 9 | 10 | 11 | 12 | 13 | 14 (* I_ADDI to I_XORI *) =>
      a ← R (i_rt i); b ← R (i_rs i); Ok (a +:+ "," +:+ b +:+ ",0x" +:+ hex (immed i))
  | 15 (* I_LUI *) => a ← R (i_rt i); Ok (a +:+ ",0x" +:+ hex (immed i))
  | 16 | 17 | 18 | 19 (* I_COP0 to I_COP3 *) => Ok EmptyString
  | 32 | 33 | 34 | 35 | 36 | 37 | 38 | 40 | 41 | 42 | 43 | 46 | 48 | 49 | 50 | 51 | 56 | 57 | 58 | 59 (* loads and stores *) =>
      a ← R (i_rt i); b ← R (i_rs i); Ok (a +:+ ",0x" +:+ hex (immed i) +:+ "(" +:+ b +:+ ")")
  | _ => Ok EmptyString
  end.

(** [dump_ascii] *)
Definition dump_ascii (longdis : bool) (instruction pc : Z) : outcome string :=
  let start := if longdis then hex8 pc +:+ ": " +:+ hex8 instruction +:+ "  " else EmptyString in
  let opcode := Z.shiftr (wrap_u32 instruction) 26 in
  if instruction =? 0 then Ok (start +:+ tab +:+ "nop")
  else if opcode =? 0 then
    let opcode := Z.land instruction 0x3f in
    name ← deref (specialops.[opcode]);
    operands ← special_operands opcode instruction;
    Ok (start +:+ tab +:+ name +:+ tab +:+ operands)
  else if opcode =? 1 then
    a ← R (i_rs instruction);
    Ok (start +:+ tab +:+ bcond_name (i_rt instruction) +:+ tab +:+ a +:+ "," +:+ hex8 (off16 instruction + pc + 4))
  else
    name ← deref (normalops.[opcode]);
    operands ← normal_operands opcode instruction pc;
    Ok (start +:+ tab +:+ name +:+ tab +:+ operands).

(** ** The reference: reading a line back *)

Definition is_sep (c : ascii) : bool := bool_decide (c ∈ ["009"; ","; "("; ")"]%char).

(** The parts of a line between tabs, commas and brackets. *)
Fixpoint tokens (s : string) : list string :=
  match s with
  | EmptyString => [EmptyString]
  | String c s =>
      if is_sep c then EmptyString :: tokens s
      else match tokens s with a :: l => String c a :: l | [] => [] end
  end.

Definition digit_value (c : ascii) : Z :=
  let n := Z.of_N (N_of_ascii c) in if n <? 58 then n - 48 else n - 87.
Fixpoint hex_value (v : Z) (s : string) : Z :=
  match s with EmptyString => v | String c s => hex_value (v * 16 + digit_value c) s end.
Definition number (s : string) : Z :=
  match s with String "0" (String "x" s) => hex_value 0 s | _ => hex_value 0 s end.

Definition find (l : list string) (s : string) : option Z := (fun p => Z.of_nat p.1) <$> list_find (eq s) l.
Definition reg_of (s : string) : option Z := find regstrings s.

(** What a name stands for. *)
Inductive which := Nop | Bcond (rt : Z) | Special (function : Z) | Normal (opcode : Z).
#[export] Instance which_eq_dec : EqDecision which.
Proof. solve_decision. Defined.
Definition which_op (name : string) : option which :=
  if decide (name = "nop") then Some Nop
  else match find ["bltz"; "bgez"; "bltzal"; "bgezal"; "BCOND"] name with
  | Some k => Some (Bcond (default 2 ([0; 1; 16; 17; 2].[k])))
  | None => match find specialops name with Some f => Some (Special f) | None => Normal <$> find normalops name end
  end.

(** The word with the given fields. *)
Definition word (opcode rs rt low : Z) : Z := wrap_s32 (opcode * 2 ^ 26 + rs * 2 ^ 21 + rt * 2 ^ 16 + low).
Definition special_word (rs rt rd shamt function : Z) : Z := word 0 rs rt (rd * 2 ^ 11 + shamt * 2 ^ 6 + function).

Definition assemble_special (f : Z) (ops : list string) : option Z :=
  match ops with
  | [a; b; c] =>
      if (f =? 0) || (f =? 2) || (f =? 3) then d ← reg_of a; t ← reg_of b; Some (special_word 0 t d (number c) f)
      else if (f =? 4) || (f =? 6) || (f =? 7) then d ← reg_of a; t ← reg_of b; s ← reg_of c; Some (special_word s t d 0 f)
      else d ← reg_of a; s ← reg_of b; t ← reg_of c; Some (special_word s t d 0 f)
  | [a; b] => s ← reg_of a; t ← reg_of b; Some (special_word s t 0 0 f)
  | [a] =>
      if (f =? 8) || (f =? 19) then s ← reg_of a; Some (special_word s 0 0 0 f)
      else if f =? 16 then d ← reg_of a; Some (special_word 0 0 d 0 f)
      else Some (special_word 0 0 0 0 f)
  | _ => None
  end.

(** The offset of a branch at [pc] to [to]. *)
Definition branch_field (pc to : Z) : Z := (wrap_s32 (to - pc - 4) / 4) mod 2 ^ 16.

Definition assemble_normal (opcode pc : Z) (ops : list string) : option Z :=
  match ops with
  | [a; n; b; _] => t ← reg_of a; s ← reg_of b; Some (word opcode s t (number n mod 2 ^ 16))
  | [a; b; n] =>
      t ← reg_of a; s ← reg_of b;
      Some (word opcode s t (if opcode <? 8 then branch_field pc (number n) else number n mod 2 ^ 16))
  | [a; n] => t ← reg_of a; Some (word opcode 0 t (number n mod 2 ^ 16))
  | [n] => if opcode <? 4 then Some (wrap_s32 (opcode * 2 ^ 26 + number n / 4 mod 2 ^ 26)) else Some (word opcode 0 0 0)
  | _ => None
  end.

(** The instruction of a line that stands at [pc]. *)
Definition assemble (pc : Z) (line : string) : option Z :=
  match tokens line with
  | _ :: name :: ops =>
      kind ← which_op name;
      match kind, ops with
      | Nop, _ => Some 0
      | Bcond rt, [a; n] => s ← reg_of a; Some (word 1 s rt (branch_field pc (number n)))
      | Special f, _ => assemble_special f ops
      | Normal op, _ => assemble_normal op pc ops
      | _, _ => None
      end
  | _ => None
  end.

(** ** Tokens *)

Fixpoint plain (s : string) : bool := match s with EmptyString => true | String c s => negb (is_sep c) && plain s end.

Lemma tokens_plain s : plain s = true -> tokens s = [s].
Proof. induction s as [|c s IH]; [done|]. simpl. destruct (is_sep c); [done|]. intros H. by rewrite IH. Qed.

Lemma tokens_sep a c s : plain a = true -> is_sep c = true -> tokens (a +:+ String c s) = a :: tokens s.
Proof.
  intros Ha Hc. induction a as [|d a IH]; simpl in *; [by rewrite Hc|]. destruct (is_sep d); [done|]. by rewrite IH.
Qed.

Lemma plain_app a b : plain (a +:+ b) = plain a && plain b.
Proof. induction a as [|c a IH]; [done|]. simpl. by rewrite IH, andb_assoc. Qed.

(** A check of every number below a bound. *)
Lemma forallb_below n (P : Z -> bool) x : forallb P (seqZ 0 n) = true -> 0 <= x < n -> P x = true.
Proof. rewrite forallb_forall. intros H Hx. apply H, list_elem_of_In, elem_of_seqZ. lia. Qed.

Lemma digit_ok d : 0 <= d < 16 -> is_sep (hex_digit d) = false /\ digit_value (hex_digit d) = d.
Proof.
  intros Hd. assert (H : negb (is_sep (hex_digit d)) && (digit_value (hex_digit d) =? d) = true).
  { apply (forallb_below 16 (fun d => negb (is_sep (hex_digit d)) && (digit_value (hex_digit d) =? d))); [vm_compute; reflexivity|done]. }
  apply andb_true_iff in H as [H1 H2]. by apply negb_true_iff in H1; apply Z.eqb_eq in H2.
Qed.

Lemma hex_min_ok f n acc v : 0 <= n < 16 ^ Z.of_nat f -> (0 < f)%nat -> plain acc = true ->
  plain (hex_min f n acc) = true /\ exists k, hex_value v (hex_min f n acc) = hex_value (v * 16 ^ k + n) acc.
Proof.
  revert n acc. induction f as [|f IH]; [lia|]. intros n acc Hn _ Ha. cbn [hex_min].
  destruct (digit_ok (n mod 16)) as [D1 D2]; [by apply Z.mod_pos_bound|]. pose proof (Z.div_mod n 16 ltac:(lia)) as Hdm. assert (Hp : plain (String (hex_digit (n mod 16)) acc) = true) by (simpl; by rewrite D1, Ha).
  rewrite Nat2Z.inj_succ, Z.pow_succ_r in Hn by lia. destruct (Z.eqb_spec (n / 16) 0) as [E|E].
  - split; [done|]. exists 1. cbn [hex_value]. rewrite D2. change (16 ^ 1) with 16. f_equal. lia.
  - destruct f as [|f]; [exfalso; apply E, Z.div_small; simpl in Hn; lia|]. destruct (IH (n / 16) (String (hex_digit (n mod 16)) acc)) as (P & k & K); [split; [apply Z.div_pos; lia|]; apply Z.div_lt_upper_bound; lia|lia|done|].
    split; [done|]. destruct (decide (0 <= k)) as [Hk|Hk].
    + exists (k + 1). rewrite K. cbn [hex_value]. rewrite D2, Z.pow_add_r by lia. change (16 ^ 1) with 16. f_equal. lia.
    + exists k. rewrite K. cbn [hex_value]. rewrite D2, Z.pow_neg_r by lia. f_equal. lia.
Qed.

Lemma hex_pad_ok k n acc v : 0 <= n -> plain acc = true ->
  plain (hex_pad k n acc) = true /\ hex_value v (hex_pad k n acc) = hex_value (v * 16 ^ Z.of_nat k + n mod 16 ^ Z.of_nat k) acc.
Proof.
  revert n acc. induction k as [|k IH]; intros n acc Hn Ha; cbn [hex_pad].
  - split; [done|]. f_equal. change (16 ^ Z.of_nat 0) with 1. rewrite Z.mod_1_r. lia.
  - destruct (digit_ok (n mod 16)) as [D1 D2]; [by apply Z.mod_pos_bound|]. pose proof (Z.div_mod n 16 ltac:(lia)) as Hdm. destruct (IH (n / 16) (String (hex_digit (n mod 16)) acc)) as [P K]; [apply Z.div_pos; lia|simpl; by rewrite D1, Ha|].
    split; [done|]. rewrite K. cbn [hex_value]. rewrite D2, Nat2Z.inj_succ, Z.pow_succ_r by lia. f_equal.
    rewrite (Z.rem_mul_r n 16) by lia. lia.
Qed.

Lemma hex_ok i : plain (hex i) = true /\ number ("0x" +:+ hex i) = wrap_u32 i.
Proof.
  pose proof (wrap_u32_range i) as Hu. unfold uint32, two32 in Hu. destruct (hex_min_ok 8 (wrap_u32 i) EmptyString 0) as (P & k & K); [done|lia|done|].
  split; [exact P|]. change (number ("0x" +:+ hex i)) with (hex_value 0 (hex_min 8 (wrap_u32 i) EmptyString)). rewrite K. simpl. lia.
Qed.

(** A number of eight digits does not start with 0x. *)
Lemma hex8_ok i : plain (hex8 i) = true /\ number (hex8 i) = wrap_u32 i.
Proof.
  pose proof (wrap_u32_range i) as Hu. unfold uint32, two32 in Hu. destruct (hex_pad_ok 8 (wrap_u32 i) EmptyString 0) as [P K]; [lia|done|].
  split; [exact P|]. unfold hex8 in *. rewrite Z.mod_small in K by (simpl; lia). simpl hex_value in K at 2.
  assert (E : forall s, plain s = true -> number s = hex_value 0 s \/ exists s', s = String "0" (String "x" s')).
  { intros s _. destruct s as [|c s]; [by left|]. destruct s as [|d s]; [left; unfold number; by destruct c as [[] [] [] [] [] [] [] []]|].
    destruct (decide (c = "0"%char)) as [->|Hc]; [|left; unfold number; destruct c as [[] [] [] [] [] [] [] []]; congruence].
    destruct (decide (d = "x"%char)) as [->|Hd]; [right; by eexists|left; unfold number; destruct d as [[] [] [] [] [] [] [] []]; congruence]. }
  destruct (E _ P) as [->|[s' Es]]; [by rewrite K|]. exfalso. cbn [hex_pad] in Es. injection Es as _ Ed _.
  match type of Ed with hex_digit ?d = _ => assert (Hd : 0 <= d < 16) by (apply Z.mod_pos_bound; lia); destruct (digit_ok d Hd) as [_ D]; rewrite Ed in D; change (digit_value "x") with 33 in D; lia end.
Qed.

(** ** Fields *)

Definition opcode_of (i : Z) : Z := Z.land (Z.shiftr i 26) 0x3f.
Definition function_of (i : Z) : Z := Z.land i 0x3f.

Lemma field_div x n k m : 0 <= n -> 0 <= k -> m = 2 ^ k - 1 -> Z.land (Z.shiftr x n) m = x / 2 ^ n mod 2 ^ k.
Proof. intros Hn Hk ->. by rewrite land_low, Z.shiftr_div_pow2. Qed.

Lemma fields_range i :
  0 <= i_rs i < 32 /\ 0 <= i_rt i < 32 /\ 0 <= i_rd i < 32 /\ 0 <= shamt i < 32 /\ 0 <= opcode_of i < 64 /\ 0 <= function_of i < 64.
Proof.
  unfold i_rs, i_rt, i_rd, shamt, opcode_of, function_of.
  do 4 (split; [exact (land_low_range _ 31 5 ltac:(lia) eq_refl)|]). split; exact (land_low_range _ 63 6 ltac:(lia) eq_refl).
Qed.

(** The fields of an assembled word. *)
Lemma word_fields op rs rt low : 0 <= op < 64 -> 0 <= rs < 32 -> 0 <= rt < 32 -> 0 <= low < 65536 ->
  opcode_of (word op rs rt low) = op /\ i_rs (word op rs rt low) = rs /\ i_rt (word op rs rt low) = rt /\ word op rs rt low mod 65536 = low.
Proof.
  intros Ho Hs Ht Hl. unfold opcode_of, i_rs, i_rt. rewrite (field_div _ 26 6 63), !(field_div _ _ 5 31) by done. unfold word.
  destruct (wrap_s32_eq (op * 2 ^ 26 + rs * 2 ^ 21 + rt * 2 ^ 16 + low)) as [k ->]. unfold two32.
  change (2 ^ 26) with 67108864. change (2 ^ 21) with 2097152. change (2 ^ 16) with 65536. change (2 ^ 5) with 32. change (2 ^ 6) with 64.
  conjs; Z.to_euclidean_division_equations; lia.
Qed.

Lemma low_fields x : i_rd x = x mod 65536 / 2048 /\ shamt x = x mod 65536 / 64 mod 32 /\ function_of x = x mod 65536 mod 64.
Proof.
  unfold i_rd, shamt, function_of. rewrite !(field_div _ _ 5 31) by done. rewrite (land_low x 6 ltac:(lia) : Z.land x 0x3f = x mod 64).
  change (2 ^ 11) with 2048. change (2 ^ 6) with 64. change (2 ^ 5) with 32. conjs; Z.to_euclidean_division_equations; lia.
Qed.

Lemma special_fields rs rt rd sh f : 0 <= rs < 32 -> 0 <= rt < 32 -> 0 <= rd < 32 -> 0 <= sh < 32 -> 0 <= f < 64 ->
  let j := special_word rs rt rd sh f in
  opcode_of j = 0 /\ i_rs j = rs /\ i_rt j = rt /\ i_rd j = rd /\ shamt j = sh /\ function_of j = f.
Proof.
  intros Hs Ht Hd Hh Hf j. unfold j, special_word. set (low := rd * 2 ^ 11 + sh * 2 ^ 6 + f). assert (Hl : 0 <= low < 65536) by (unfold low; lia).
  destruct (word_fields 0 rs rt low ltac:(lia) Hs Ht Hl) as (-> & -> & -> & E). destruct (low_fields (word 0 rs rt low)) as (-> & -> & ->). rewrite E. unfold low.
  change (2 ^ 11) with 2048. change (2 ^ 6) with 64. conjs; try done; Z.to_euclidean_division_equations; lia.
Qed.

(** The immediate operand is known from the low half. *)
Lemma immed_low x y : x mod 65536 = y mod 65536 -> immed x = immed y.
Proof. intros H. rewrite !immed_sext. unfold imm16. by rewrite H. Qed.
Lemma immed_mod x : wrap_u32 (immed x) mod 65536 = x mod 65536.
Proof.
  rewrite immed_sext. unfold imm16, wrap_u32, two32. cbv zeta.
  destruct (Z.ltb_spec (x mod 65536) 32768); Z.to_euclidean_division_equations; lia.
Qed.

(** ** The tables *)

Lemma reg_ok r : 0 <= r < 32 -> exists a, R r = Ok a /\ plain a = true /\ reg_of a = Some r.
Proof.
  intros Hr. set (good r := match regstrings.[r] with Some a => plain a && bool_decide (reg_of a = Some r) | None => false end).
  assert (H : good r = true) by (apply (forallb_below 32); [vm_compute; reflexivity|done]). unfold good in H. unfold R.
  destruct (regstrings.[r]) as [a|]; [|done]. exists a. apply andb_true_iff in H as [H1 H2]. by apply bool_decide_eq_true in H2.
Qed.

Lemma special_op_ok f : 0 <= f < 64 -> exists m, specialops.[f] = Some m /\ plain m = true /\ which_op m = Some (Special f).
Proof.
  intros Hf. set (good f := match specialops.[f] with Some m => plain m && bool_decide (which_op m = Some (Special f)) | None => false end).
  assert (H : good f = true) by (apply (forallb_below 64); [vm_compute; reflexivity|done]). unfold good in H.
  destruct (specialops.[f]) as [m|]; [|done]. exists m. apply andb_true_iff in H as [H1 H2]. by apply bool_decide_eq_true in H2.
Qed.

(** The opcodes and functions without an instruction have numbers for names. *)
Definition unassigned : list Z := [20; 21; 22; 23; 28; 29; 30; 31; 44; 45; 47; 52; 53; 54; 55; 60; 61; 62; 63].
Definition unused_opcode (op : Z) : bool := bool_decide (op ∈ unassigned ++ [24; 25; 26; 27; 39]).

Lemma normal_op_ok op : 2 <= op < 64 ->
  exists m, normalops.[op] = Some m /\ plain m = true /\
    (which_op m = Some (Normal op) \/ unused_opcode op = true /\ exists f, f ∈ unassigned /\ which_op m = Some (Special f)).
Proof.
  intros Hop. set (good op := match normalops.[op] with
    | Some m => plain m && (bool_decide (which_op m = Some (Normal op)) ||
        unused_opcode op && match which_op m with Some (Special f) => bool_decide (f ∈ unassigned) | _ => false end)
    | None => false end || (op <? 2)).
  assert (H : good op = true) by (apply (forallb_below 64); [vm_compute; reflexivity|lia]). unfold good in H.
  rewrite (proj2 (Z.ltb_ge op 2)), orb_false_r in H by lia.
  destruct (normalops.[op]) as [m|]; [|done]. exists m. split; [done|]. apply andb_true_iff in H as [H1 H2]. split; [done|].
  apply orb_true_iff in H2 as [H2|H2]; [left; by apply bool_decide_eq_true in H2|right]. apply andb_true_iff in H2 as [H2 H3]. split; [done|].
  destruct (which_op m) as [[| | f|]|]; try done. exists f. by apply bool_decide_eq_true in H3.
Qed.

(** ** Instructions *)

(** The parts of a line. *)
Lemma comma x : "," +:+ x = String "," x.
Proof. done. Qed.
Lemma comma_0x x : ",0x" +:+ x = String "," ("0x" +:+ x).
Proof. done. Qed.
Lemma bracket x : "(" +:+ x = String "(" x.
Proof. done. Qed.
Lemma tab_sep x : tab +:+ x = String "009" x.
Proof. done. Qed.
Lemma plain_hex i : plain ("0x" +:+ hex i) = true.
Proof. rewrite plain_app. by rewrite (proj1 (hex_ok i)). Qed.
Lemma tokens_0x i c s : is_sep c = true -> tokens ("0x" +:+ hex i +:+ String c s) = ("0x" +:+ hex i) :: tokens s.
Proof. intros Hc. pose proof (tokens_sep ("0x" +:+ hex i) c s (plain_hex i) Hc) as H. exact H. Qed.
Lemma plain_hex8 i : plain (hex8 i) = true.
Proof. apply hex8_ok. Qed.

Create HintDb disasm.
#[local] Hint Resolve plain_hex plain_hex8 : disasm.
#[local] Hint Rewrite comma comma_0x bracket tab_sep : disasm.

(** [cut] takes a line apart, [same] compares two instructions of which the fields are known. *)
Ltac cut := autorewrite with disasm; rewrite ?tokens_sep by (reflexivity || auto with disasm); rewrite ?tokens_0x by reflexivity; rewrite ?tokens_sep by (reflexivity || auto with disasm); rewrite ?tokens_plain by (reflexivity || auto with disasm).

(** Every number below 64. *)
Lemma each_below_64 (P : Z -> Prop) x : Forall P (seqZ 0 64) -> 0 <= x < 64 -> P x.
Proof. rewrite Forall_forall. intros H Hx. apply H, elem_of_seqZ. lia. Qed.

(** Two instructions do the same at [pc]. *)
Definition same_effect (pc i j : Z) : Prop :=
  forall W (host : InterpHost W) (t : Interp) (w : W), exec_instr t w j pc = exec_instr t w i pc.

Lemma exec_of_special {W} `{!InterpHost W} t (w : W) i pc : opcode_of i = 0 -> exec_instr t w i pc = exec_special t w i pc.
Proof. intros H. unfold exec_instr. change (Z.land (Z.shiftr i 26) 63) with (opcode_of i). by rewrite H. Qed.

(** The instructions of I_SPECIAL that the disassembler shows. *)
Lemma special_shown pc i f : opcode_of i = 0 -> function_of i = f -> f ∉ [9; 17; 18] ->
  exists ops j, special_operands f i = Ok ops /\ assemble_special f (tokens ops) = Some j /\ same_effect pc i j.
Proof.
  intros Ho Hf. destruct (fields_range i) as (Bs & Bt & Bd & Bh & _ & Bf). revert Hf.
  destruct (reg_ok _ Bs) as (rs & Rs & Ps & Is). destruct (reg_ok _ Bt) as (rt & Rt & Pt & It). destruct (reg_ok _ Bd) as (rd & Rd & Pd & Id).
  assert (Nh : number ("0x" +:+ hex (shamt i)) = shamt i) by (rewrite (proj2 (hex_ok _)); apply wrap_u32_id; unfold_int32; lia).
  intros Hf. rewrite Hf in Bf. revert Hf.
  apply (each_below_64 (fun f => function_of i = f -> f ∉ [9; 17; 18] -> exists ops j, special_operands f i = Ok ops /\ assemble_special f (tokens ops) = Some j /\ same_effect pc i j)); [|done].
  set (l := seqZ 0 64). vm_compute in l. subst l. repeat constructor; intros Hf Hn.
  all: try (exfalso; apply Hn; apply (bool_decide_unpack _); vm_compute; exact I).
  all: eexists _, _; split; [cbn [special_operands]; rewrite ?Rs, ?Rt, ?Rd; cbn [mbind outcome_bind]; reflexivity|].
  all: cut; split; [cbn [assemble_special]; cbv beta iota delta [Z.eqb Pos.eqb orb]; rewrite ?Is, ?It, ?Id; cbn [mbind option_bind]; rewrite ?Nh; reflexivity|].
  all: match goal with |- same_effect _ _ (special_word ?s ?t ?d ?h ?f) => generalize (special_fields s t d h f ltac:(lia) ltac:(lia) ltac:(lia) ltac:(lia) ltac:(lia)) end.
  all: cbv zeta; match goal with |- _ -> same_effect _ _ ?j => generalize j end.
  all: intros j (E0 & E1 & E2 & E3 & E4 & E5) W host t w; rewrite !exec_of_special by done; unfold exec_special.
  all: change (Z.land i 63) with (function_of i); change (Z.land j 63) with (function_of j); rewrite Hf, E5; cbv iota.
  all: unfold shift_by, exec_mult, to_rd, R_rs, R_rt; rewrite ?E1, ?E2, ?E3, ?E4; reflexivity.
Qed.

(** *** Branches and jumps *)

Lemma branch_field_ok i pc : branch_field pc (number (hex8 (off16 i + pc + 4))) = i mod 65536.
Proof.
  rewrite (proj2 (hex8_ok _)). unfold branch_field, off16. rewrite Z.shiftl_mul_pow2 by lia. change (2 ^ 2) with 4. change (2 ^ 16) with 65536.
  pose proof (imm16_range i) as Hr. rewrite immed_sext. assert (E : wrap_s32 (wrap_u32 (imm16 i * 4 + pc + 4) - pc - 4) = imm16 i * 4).
  { apply wrap_s32_unique; [unfold_int32; lia|]. unfold wrap_u32. pose proof (Z.div_mod (imm16 i * 4 + pc + 4) two32 ltac:(unfold two32; lia)).
    exists ((imm16 i * 4 + pc + 4) / two32). lia. }
  rewrite E, Z.div_mul by lia. unfold imm16. destruct (Z.ltb_spec (i mod 65536) 32768); Z.to_euclidean_division_equations; lia.
Qed.

Lemma jump_field_ok i pc : number (hex8 (Z.lor (top4 pc) (off26 i))) / 4 mod 2 ^ 26 = Z.land i 0x3ffffff.
Proof.
  rewrite (proj2 (hex8_ok _)). change 4 with (2 ^ 2). rewrite <- Z.shiftr_div_pow2 by lia. apply Z.bits_inj'. intros n Hn.
  change 0x3ffffff with (2 ^ 26 - 1). rewrite land_low by lia.
  destruct (Z.lt_ge_cases n 26); [|by rewrite !Z.mod_pow2_bits_high by lia]. rewrite !Z.mod_pow2_bits_low, Z.shiftr_spec by lia.
  unfold wrap_u32. change two32 with (2 ^ 32). rewrite Z.mod_pow2_bits_low, Z.lor_spec by lia. unfold top4, off26.
  rewrite Z.land_spec, Z.lnot_spec by lia. rewrite Z.shiftl_spec by lia. replace (n + 2 - 2) with n by lia. rewrite land_low, Z.mod_pow2_bits_low by lia.
  replace (Z.testbit (2 ^ 28 - 1) (n + 2)) with true; [by rewrite andb_false_r|]. symmetry. replace (2 ^ 28 - 1) with (Z.ones 28) by done. apply Z.ones_spec_low. lia.
Qed.

Lemma jump_word op k : 0 <= op < 64 -> 0 <= k < 2 ^ 26 -> let j := wrap_s32 (op * 2 ^ 26 + k) in opcode_of j = op /\ Z.land j 0x3ffffff = k.
Proof.
  intros Ho Hk j. unfold j, opcode_of. rewrite (field_div _ 26 6 63) by done. rewrite (land_low _ 26 ltac:(lia) : Z.land _ 0x3ffffff = _ mod 2 ^ 26).
  destruct (wrap_s32_eq (op * 2 ^ 26 + k)) as [q ->]. unfold two32. change (2 ^ 26) with 67108864 in *. change (2 ^ 6) with 64. split; Z.to_euclidean_division_equations; lia.
Qed.

(** I_LUI takes the low half of the instruction. *)
Lemma lui_low i j : j mod 65536 = i mod 65536 -> wrap_s32 (Z.shiftl j 16) = wrap_s32 (Z.shiftl i 16).
Proof.
  intros H. apply wrap_s32_congr. rewrite !Z.shiftl_mul_pow2 by lia. change (2 ^ 16) with 65536. unfold two32.
  Z.to_euclidean_division_equations; lia.
Qed.

(** *** The other opcodes *)

Lemma exec_of_unused {W} `{!InterpHost W} t (w : W) i pc : unused_opcode (opcode_of i) = true -> exec_instr t w i pc = u.
Proof.
  intros H. unfold exec_instr. change (Z.land (Z.shiftr i 26) 63) with (opcode_of i). unfold unused_opcode in H. apply bool_decide_eq_true in H.
  apply list_elem_of_In in H. repeat (destruct H as [<-|H]; [done|]). destruct H.
Qed.
Lemma exec_of_unassigned {W} `{!InterpHost W} t (w : W) f pc : f ∈ unassigned -> exec_instr t w (special_word 0 0 0 0 f) pc = u.
Proof.
  intros H. apply list_elem_of_In in H. repeat (destruct H as [<-|H]; [reflexivity|]). destruct H.
Qed.

(** The other instructions that the disassembler shows. *)
Lemma normal_shown pc i op : opcode_of i = op -> 2 <= op -> op ∉ [6; 7] ->
  exists ops j, normal_operands op i pc = Ok ops /\ assemble_normal op pc (tokens ops) = Some j /\ same_effect pc i j.
Proof.
  intros Ho H2. destruct (fields_range i) as (Bs & Bt & _ & _ & Bo & _). pose proof (Z.mod_pos_bound i 65536 ltac:(lia)) as Bl.
  destruct (reg_ok _ Bs) as (rs & Rs & Ps & Is). destruct (reg_ok _ Bt) as (rt & Rt & Pt & It).
  assert (Nh : number ("0x" +:+ hex (immed i)) mod 2 ^ 16 = i mod 65536) by (rewrite (proj2 (hex_ok _)); apply immed_mod).
  pose proof (branch_field_ok i pc) as Nb. pose proof (jump_field_ok i pc) as Nj. pose proof (land_low_range i 0x3ffffff 26 ltac:(lia) eq_refl) as Bj.
  rewrite Ho in Bo. revert Ho H2.
  apply (each_below_64 (fun op => opcode_of i = op -> 2 <= op -> op ∉ [6; 7] -> exists ops j, normal_operands op i pc = Ok ops /\ assemble_normal op pc (tokens ops) = Some j /\ same_effect pc i j)); [|done].
  set (l := seqZ 0 64). vm_compute in l. subst l. repeat constructor; intros Ho H2 Hn; try lia.
  all: try (exfalso; apply Hn; apply (bool_decide_unpack _); vm_compute; exact I).
  all: eexists _, _; split; [cbn [normal_operands]; rewrite ?Rs, ?Rt; cbn [mbind outcome_bind]; reflexivity|].
  all: cut; split; [cbn [assemble_normal]; cbv beta iota delta [Z.ltb Z.compare Pos.compare Pos.compare_cont]; rewrite ?Is, ?It; cbn [mbind option_bind]; rewrite ?Nh, ?Nb, ?Nj; reflexivity|].
  all: intros W host t w; unfold exec_instr; change (Z.land (Z.shiftr i 26) 63) with (opcode_of i); rewrite Ho.
  all: match goal with
    | |- context [word ?o ?s ?t ?l] =>
        destruct (word_fields o s t l) as (E0 & E1 & E2 & E3); [lia..|]; change (Z.land (Z.shiftr (word o s t l) 26) 63) with (opcode_of (word o s t l)); rewrite E0;
        first [reflexivity|
          pose proof (immed_low (word o s t l) i ltac:(rewrite E3, ?Z.mod_mod by lia; done)) as Ei;
          unfold branch_if, load_rt, exec_lwl, exec_lwr, target, ea, to_rt, R_rs, R_rt; rewrite ?(lui_low i (word o s t l)), ?E1, ?E2, ?Ei by done; reflexivity]
    | |- context [wrap_s32 (?o * 2 ^ 26 + ?k)] =>
        destruct (jump_word o k) as [E0 E1]; [lia..|]; change (Z.land (Z.shiftr (wrap_s32 (o * 2 ^ 26 + k)) 26) 63) with (opcode_of (wrap_s32 (o * 2 ^ 26 + k))); rewrite E0;
        unfold far_target; rewrite E1; reflexivity
    end.
Qed.

(** The conditional branches of I_BCOND. *)
Lemma bcond_shown pc i : opcode_of i = 1 ->
  exists rs rt', R (i_rs i) = Ok rs /\ plain rs = true /\ reg_of rs = Some (i_rs i) /\ plain (bcond_name (i_rt i)) = true /\
    which_op (bcond_name (i_rt i)) = Some (Bcond rt') /\ same_effect pc i (word 1 (i_rs i) rt' (i mod 65536)).
Proof.
  intros Ho. destruct (fields_range i) as (Bs & Bt & _). pose proof (Z.mod_pos_bound i 65536 ltac:(lia)) as Bl. destruct (reg_ok _ Bs) as (rs & Rs & Ps & Is).
  assert (H : exists rt', 0 <= rt' < 32 /\ plain (bcond_name (i_rt i)) = true /\ which_op (bcond_name (i_rt i)) = Some (Bcond rt') /\
    (rt' = i_rt i \/ i_rt i ∉ [0; 1; 16; 17] /\ rt' = 2)).
  { set (good rt := plain (bcond_name rt) && match which_op (bcond_name rt) with
      | Some (Bcond k) => (0 <=? k) && (k <? 32) && ((k =? rt) || bool_decide (rt ∉ [0; 1; 16; 17] /\ k = 2)) | _ => false end).
    assert (H : good (i_rt i) = true) by (apply (forallb_below 32); [vm_compute; reflexivity|done]). unfold good in H. apply andb_true_iff in H as [H1 H].
    destruct (which_op (bcond_name (i_rt i))) as [[|k| |]|]; try done. exists k. apply andb_true_iff in H as [H2 H3]. apply andb_true_iff in H2 as [H2 H4].
    split; [lia|]. split; [done|]. split; [done|]. apply orb_true_iff in H3 as [H3|H3]; [left; lia|right; by apply bool_decide_eq_true in H3]. }
  destruct H as (rt' & Br & Hp & Hw & Hr). exists rs, rt'. conjs; try done.
  destruct (word_fields 1 (i_rs i) rt' (i mod 65536) ltac:(lia) Bs Br Bl) as (E0 & E1 & E2 & E3). revert E0 E1 E2 E3.
  generalize (word 1 (i_rs i) rt' (i mod 65536)). intros j E0 E1 E2 E3 W host t w. pose proof (immed_low j i E3) as Ei.
  unfold exec_instr. change (Z.land (Z.shiftr i 26) 63) with (opcode_of i). change (Z.land (Z.shiftr j 26) 63) with (opcode_of j). rewrite Ho, E0.
  unfold exec_bcond, branch_if, target, R_rs. rewrite E1, E2, Ei. destruct Hr as [->|[Hr ->]]; [done|].
  repeat (apply not_elem_of_cons in Hr as [? Hr]). destruct (i_rt i) as [|q|]; try done. repeat (destruct q as [q|q|]; try done).
Qed.
(** ** A line determines its instruction *)

(** I_JALR, I_MTHI, I_MFLO, I_BLEZ and I_BGTZ *)
Definition hidden (i : Z) : bool :=
  bool_decide (opcode_of i = 0 /\ function_of i ∈ [9; 17; 18] \/ opcode_of i ∈ [6; 7]).

Definition start (longdis : bool) (i pc : Z) : string := if longdis then hex8 pc +:+ ": " +:+ hex8 i +:+ "  " else EmptyString.

Lemma line_tokens longdis i pc name ops :
  plain name = true -> tokens (start longdis i pc +:+ tab +:+ name +:+ tab +:+ ops) = start longdis i pc :: name :: tokens ops.
Proof.
  intros Hn. assert (Hs : plain (start longdis i pc) = true) by (unfold start; destruct longdis; [|done]; by rewrite !plain_app, !plain_hex8).
  autorewrite with disasm. rewrite tokens_sep by done. by rewrite tokens_sep.
Qed.

Lemma dump_opcode i : Z.shiftr (wrap_u32 i) 26 = opcode_of i.
Proof.
  unfold opcode_of. pose proof (field_u32 i 26 6 ltac:(lia) ltac:(lia) ltac:(lia)) as E. change (2 ^ 6 - 1) with 63 in E. rewrite <- E. clear E.
  rewrite (land_low _ 6 ltac:(lia) : Z.land _ 63 = _ mod 2 ^ 6). symmetry. apply Z.mod_small. rewrite Z.shiftr_div_pow2 by lia.
  pose proof (wrap_u32_range i) as Hu. unfold uint32, two32 in Hu. split; [apply Z.div_pos; lia|apply Z.div_lt_upper_bound; lia].
Qed.

(** C25: the disassembler shows what an instruction does.  For every instruction, at every
    address, with and without the columns of [longdis], [dump_ascii] stays inside its tables
    and prints a line that the reference assembler reads back as an instruction with the same
    effect in the interpreter, for all states of the machine and of the host.  Two
    instructions with the same line therefore do the same.  This leaves out five instructions
    ([hidden]). *)
Theorem dump_ascii_reassembles longdis i pc :
  hidden i = false ->
  exists line j, dump_ascii longdis i pc = Ok line /\ assemble pc line = Some j /\
    forall W (host : InterpHost W) (t : Interp) (w : W), exec_instr t w j pc = exec_instr t w i pc.
Proof.
  intros Hh. unfold hidden in Hh. apply bool_decide_eq_false in Hh. destruct (fields_range i) as (Bs & _ & _ & _ & Bo & Bf).
  unfold dump_ascii. cbv zeta. fold (start longdis i pc). rewrite dump_opcode.
  destruct (Z.eqb_spec i 0) as [->|Hi].
  { eexists _, 0. split; [reflexivity|]. split; [|done]. unfold assemble. autorewrite with disasm.
    assert (Hs : plain (start longdis 0 pc) = true) by (unfold start; destruct longdis; [|done]; by rewrite !plain_app, !plain_hex8). by rewrite tokens_sep. }
  destruct (Z.eqb_spec (opcode_of i) 0) as [E0|E0]; [|destruct (Z.eqb_spec (opcode_of i) 1) as [E1|E1]].
  - destruct (special_op_ok _ Bf) as (m & Em & Pm & Wm). change (Z.land i 63) with (function_of i). rewrite Em. cbn [deref mbind outcome_bind].
    destruct (special_shown pc i (function_of i) E0 eq_refl) as (ops & j & Eo & Ea & Hj); [tauto|]. rewrite Eo. cbn [mbind outcome_bind].
    eexists _, j. split; [reflexivity|]. split; [|exact Hj]. unfold assemble. rewrite line_tokens by done. rewrite Wm. cbn [mbind option_bind]. done.
  - destruct (bcond_shown pc i E1) as (rs & rt' & Rs & Ps & Is & Pm & Wm & Hj). rewrite Rs. cbn [mbind outcome_bind].
    eexists _, _. split; [reflexivity|]. split; [|exact Hj]. unfold assemble. rewrite line_tokens by done. rewrite Wm. cbn [mbind option_bind]. cut. rewrite Is. cbn [mbind option_bind].
    by rewrite branch_field_ok.
  - destruct (normal_op_ok (opcode_of i) ltac:(lia)) as (m & Em & Pm & Wm). rewrite Em. cbn [deref mbind outcome_bind].
    destruct (normal_shown pc i (opcode_of i) eq_refl ltac:(lia)) as (ops & j & Eo & Ea & Hj); [tauto|]. rewrite Eo. cbn [mbind outcome_bind].
    destruct Wm as [Wm|(Hu & f & Hf & Wm)].
    + eexists _, j. split; [reflexivity|]. split; [|exact Hj]. unfold assemble. rewrite line_tokens by done. rewrite Wm. cbn [mbind option_bind]. done.
    + eexists _, (special_word 0 0 0 0 f). split; [reflexivity|]. split.
      * unfold assemble. rewrite line_tokens by done. rewrite Wm. cbn [mbind option_bind].
        assert (ops = EmptyString) as -> by (unfold unused_opcode in Hu; apply bool_decide_eq_true, list_elem_of_In in Hu;
          repeat (destruct Hu as [Hu|Hu]; [rewrite <- Hu in Eo; cbn [normal_operands] in Eo; congruence|]); destruct Hu).
        apply list_elem_of_In in Hf. repeat (destruct Hf as [<-|Hf]; [reflexivity|]). destruct Hf.
      * intros W host t w. rewrite exec_of_unassigned by done. by rewrite exec_of_unused.
Qed.

(** The load "lw r4,0xfffffffc(sp)". *)
Lemma dump_ascii_reassembles_witness :
  exists line j, dump_ascii false (-1883963396) 0x10000040 = Ok line /\ assemble 0x10000040 line = Some j /\
    forall W (host : InterpHost W) (t : Interp) (w : W), exec_instr t w j 0x10000040 = exec_instr t w (-1883963396) 0x10000040.
Proof. apply (dump_ascii_reassembles false (-1883963396) 0x10000040). vm_compute. reflexivity. Defined.

(** The other five.  Pairs of instructions have one line and different effects: jalr does not
    show the register that it links, mthi and mflo show a register that they do not use,
    blez and bgtz show nothing. *)
Definition hidden_pairs : list (Z * Z) :=
  [(0x0040f809, 0x00400009); (0x00400011, 0x00600011); (0x00001012, 0x00001812);
   (0x18400001, 0x18400002); (0x1c400001, 0x1c400002)].

Definition probe : Interp := mkInterp (map (fun r => (-1) ^ r * (r + 1)) (seqZ 0 32)) 7 8 (fun _ => 0) 0x10000004 0x10000008 0.
#[local] Instance quiet_host : InterpHost unit := {
  h_read _ _ w := (0, [], w); h_write _ _ _ w := (0, w); h_open _ _ _ w := (0, w); h_lseek _ _ _ w := (0, w); h_ioctl _ _ _ f w := (f, w); h_getpagesize := 4096 }.

(** What can be seen of a state. *)
Definition seen (r : outcome (progress unit)) : option (list Z * Z * Z * Z) :=
  match r with Ok (Goes t _) => Some (Reg t, HI t, LO t, npc t) | _ => None end.
Definition differs (p : Z * Z) : Prop :=
  let '(i, j) := p in
  let t := if Z.shiftr i 26 =? 6 then setR probe 2 (-1) else probe in
  dump_ascii false i 0x10000000 = dump_ascii false j 0x10000000 /\
  seen (exec_instr t tt i 0x10000000) <> seen (exec_instr t tt j 0x10000000).
Theorem dump_ascii_hides : Forall differs hidden_pairs /\ Forall (fun p => hidden p.1 = true /\ hidden p.2 = true) hidden_pairs.
Proof. split; repeat constructor; vm_compute; (reflexivity || discriminate). Qed.
