(* ===== verification/Listing.v ===== *)
(** * Loading and listing a program (bin/disasm.c, bin/main.c)

    The loops of the two offline tools over the bytes of a section and over the instructions
    of the text.  The sections are found by the object file library of the host, and a header
    is a parameter; the library seeks in a stream of its own.  Both tools read with
    [getc(fp)] from a stream that their [main] has closed, which has no meaning in C
    ([tools_read_closed_stream]).  [disasm_lists_memory] is about the listing itself: its
    lines are those of the words that the interpreter fetches from the same memory. *)

From stdpp Require Import strings.
From S2P Require Import Prelude Int32 Execute Disasm.
Open Scope Z_scope.

(** The fields of [SCNHDR] that the tools use *)
Record SCNHDR := mkSCNHDR { s_vaddr : Z; s_size : Z; s_scnptr : Z }.

(** A stream: a file and a position, or closed. *)
Definition FILE : Type := option (list Z * Z).
Definition fclose (fp : FILE) : FILE := None.

(** [getc], stored into a [char]; at the end of the file [EOF] is stored. *)
Definition getc (fp : FILE) : outcome (Z * FILE) :=
  match fp with
  | None => Undefined
  | Some (file, pos) => Ok (default 255 (file.[pos]), Some (file, pos + 1))
  end.

(** [exit(0)] for a file that cannot be opened or is of the wrong type, [exit(1)], or the
    memory *)
Inductive loading := NoFile | WrongType | TooSmall | Loaded (mem : Z -> Z).

(** The loop of [load_section] of disasm.c *)
Fixpoint load_loop (n : nat) (pc : Z) (fp : FILE) (f : Z -> Z) : outcome (loading * FILE) :=
  match n with
  | O => Ok (Loaded f, fp)
  | S n =>
      if MEMSIZE <=? pc - memoffset then Ok (TooSmall, fp)
      else
        '(c, fp) ← getc fp;
        k ← index pc 1;
        load_loop n (pc + 1) fp (put_bytes f k [c])
  end.
Definition load_section (hd : SCNHDR) (fp : FILE) (f : Z -> Z) : outcome (loading * FILE) :=
  if negb (s_scnptr hd =? 0) then load_loop (Z.to_nat (s_size hd)) (s_vaddr hd) fp f else Ok (Loaded f, fp).

(** [LOADSECTION] of main.c: the bytes first, the test behind them *)
Fixpoint store_loop (n : nat) (pc : Z) (fp : FILE) (f : Z -> Z) : outcome ((Z -> Z) * FILE) :=
  match n with
  | O => Ok (f, fp)
  | S n =>
      '(c, fp) ← getc fp;
      k ← index pc 1;
      store_loop n (pc + 1) fp (put_bytes f k [c])
  end.
Definition LOADSECTION (hd : SCNHDR) (fp : FILE) (f : Z -> Z) : outcome (loading * FILE) :=
  if negb (s_scnptr hd =? 0) then
    let n := Z.to_nat (s_size hd) in
    '(f, fp) ← store_loop n (s_vaddr hd) fp f;
    if MEMSIZE <=? s_vaddr hd + Z.of_nat n - memoffset then Ok (TooSmall, fp) else Ok (Loaded f, fp)
  else Ok (Loaded f, fp).

(** [load_program], the same in both tools but for the loader of a section: [ld] is
    [TYPE(ldptr)] of what [ldopen] gives, if it does, and [head] the header that [ldnshread]
    finds for a name, if it does. *)
Definition section_names : list string := [".text"; ".rdata"; ".data"; ".sdata"; ".sbss"; ".bss"].
Fixpoint load_all (loader : SCNHDR -> FILE -> (Z -> Z) -> outcome (loading * FILE)) (head : string -> option SCNHDR)
    (names : list string) (fp : FILE) (f : Z -> Z) : outcome (loading * FILE) :=
  match names with
  | [] => Ok (Loaded f, fp)
  | name :: names =>
      match head name with
      | None => load_all loader head names fp f
      | Some hd =>
          '(r, fp) ← loader hd fp f;
          match r with Loaded f => load_all loader head names fp f | r => Ok (r, fp) end
      end
  end.
Definition load_program (loader : SCNHDR -> FILE -> (Z -> Z) -> outcome (loading * FILE)) (ld : option Z) (head : string -> option SCNHDR)
    (fp : FILE) (f : Z -> Z) : outcome (loading * FILE) :=
  match ld with
  | None => Ok (NoFile, fp)
  | Some ftype => if negb (ftype =? 0x162) then Ok (WrongType, fp) else load_all loader head section_names fp f
  end.

(** [main] of both tools up to the work on the program: [fp] is what [fopen] gives. *)
Definition tool_main (loader : SCNHDR -> FILE -> (Z -> Z) -> outcome (loading * FILE)) (fp : FILE) (ld : option Z) (head : string -> option SCNHDR)
    (f : Z -> Z) : outcome loading :=
  if fp then
    let fp := fclose fp in
    '(r, _) ← load_program loader ld head fp f;
    Ok r
  else Ok NoFile.

(** The memory that [fetch] reads. *)
Definition with_mem (f : Z -> Z) : Interp := mkInterp [] 0 0 f 0 0 0.

(** [dis1]: the line for the global [pc] *)
Definition dis1 (longdis : bool) (f : Z -> Z) (pc : Z) : outcome string :=
  instr ← fetch (with_mem f) pc;
  dump_ascii longdis instr pc.

(** [disasm]: the loop over the text, [rounds] of it left; the lines without their newlines *)
Fixpoint disasm_loop (rounds : nat) (longdis : bool) (f : Z -> Z) (pc : Z) : outcome (list string) :=
  match rounds with
  | O => Ok []
  | S rounds =>
      line ← dis1 longdis f pc;
      lines ← disasm_loop rounds longdis f (pc + 4);
      Ok (line :: lines)
  end.
Definition disasm (longdis : bool) (texthead : SCNHDR) (f : Z -> Z) : outcome (list string) :=
  disasm_loop (Z.to_nat ((s_size texthead + 3) / 4)) longdis f memoffset.

(** ** Lemmas *)

(** [dump_ascii] never leaves its tables. *)
Lemma special_operands_total f i : exists ops, special_operands f i = Ok ops.
Proof.
  destruct (fields_range i) as (Bs & Bt & Bd & _). destruct (reg_ok _ Bs) as (rs & Rs & _). destruct (reg_ok _ Bt) as (rt & Rt & _). destruct (reg_ok _ Bd) as (rd & Rd & _).
  unfold special_operands. rewrite Rs, Rt, Rd. cbn [mbind outcome_bind]. repeat case_match; eauto.
Qed.
Lemma normal_operands_total op i pc : exists ops, normal_operands op i pc = Ok ops.
Proof.
  destruct (fields_range i) as (Bs & Bt & _). destruct (reg_ok _ Bs) as (rs & Rs & _). destruct (reg_ok _ Bt) as (rt & Rt & _).
  unfold normal_operands. rewrite Rs, Rt. cbn [mbind outcome_bind]. repeat case_match; eauto.
Qed.
Lemma dump_ascii_total longdis i pc : exists line, dump_ascii longdis i pc = Ok line.
Proof.
  destruct (fields_range i) as (Bs & _ & _ & _ & Bo & Bf). unfold dump_ascii. cbv zeta. rewrite dump_opcode. case_if; [eauto|].
  destruct (Z.eqb_spec (opcode_of i) 0); [|destruct (Z.eqb_spec (opcode_of i) 1)].
  - destruct (special_op_ok _ Bf) as (m & Em & _). change (Z.land i 63) with (function_of i). rewrite Em. cbn [deref mbind outcome_bind].
    destruct (special_operands_total (function_of i) i) as [ops ->]. cbn [mbind outcome_bind]. eauto.
  - destruct (reg_ok _ Bs) as (rs & -> & _). cbn [mbind outcome_bind]. eauto.
  - destruct (normal_op_ok (opcode_of i) ltac:(lia)) as (m & Em & _). rewrite Em. cbn [deref mbind outcome_bind].
    destruct (normal_operands_total (opcode_of i) i pc) as [ops ->]. cbn [mbind outcome_bind]. eauto.
Qed.

(** The memory [f] has [n] bytes of the file, from [pos], at the index [k]. *)
Definition holds (f : Z -> Z) (k n : Z) (file : list Z) (pos : Z) : Prop := forall j, 0 <= j < n -> f (k + j) = default 255 (file.[pos + j]).

(** Both loops on a stream that is open. *)
Lemma load_loop_ok n pc pos file f : memoffset <= pc -> pc + Z.of_nat n <= memoffset + MEMSIZE ->
  exists f', load_loop n pc (Some (file, pos)) f = Ok (Loaded f', Some (file, pos + Z.of_nat n)) /\
    store_loop n pc (Some (file, pos)) f = Ok (f', Some (file, pos + Z.of_nat n)) /\
    holds f' (pc - memoffset) (Z.of_nat n) file pos /\ forall j, j < pc - memoffset -> f' j = f j.
Proof.
  revert pc pos f. induction n as [|n IH]; intros pc pos f H1 H2; cbn [load_loop store_loop].
  - exists f. rewrite Z.add_0_r. conjs; try done. intros j Hj. lia.
  - rewrite (proj2 (Z.leb_gt _ _)) by lia. cbn [getc mbind outcome_bind]. rewrite index_inside by lia. cbn [mbind outcome_bind]. set (c := default 255 (file.[pos])).
    destruct (IH (pc + 1) (pos + 1) (put_bytes f (pc - memoffset) [c]) ltac:(lia) ltac:(lia)) as (f' & E1 & E2 & Hh & Ho).
    replace (pos + 1 + Z.of_nat n) with (pos + Z.of_nat (S n)) in E1, E2 by lia. exists f'. conjs; try done.
    + intros j Hj. destruct (decide (j = 0)) as [->|Hj0].
      * rewrite !Z.add_0_r, Ho by lia. unfold put_bytes. change (lenZ [c]) with 1. rewrite (proj2 (Z.leb_le _ _)), (proj2 (Z.ltb_lt _ _)) by lia. by rewrite Z.sub_diag.
      * specialize (Hh (j - 1) ltac:(lia)). replace (pc + 1 - memoffset + (j - 1)) with (pc - memoffset + j) in Hh by lia. by replace (pos + 1 + (j - 1)) with (pos + j) in Hh by lia.
    + intros j Hj. rewrite Ho by lia. apply put_bytes_other. lia.
Qed.

(** The lines of a piece of memory. *)
Lemma disasm_loop_ok rounds longdis f pc : memoffset <= pc -> pc + 4 * Z.of_nat rounds <= memoffset + MEMSIZE ->
  exists lines, disasm_loop rounds longdis f pc = Ok lines /\ length lines = rounds /\
    forall k line, lines !! k = Some line -> exists instr, fetch (with_mem f) (pc + 4 * Z.of_nat k) = Ok instr /\ dump_ascii longdis instr (pc + 4 * Z.of_nat k) = Ok line.
Proof.
  revert pc. induction rounds as [|n IH]; intros pc H1 H2; cbn [disasm_loop]; [by exists []|].
  assert (Ef : exists instr, fetch (with_mem f) pc = Ok instr) by (unfold fetch, load; rewrite index_inside by lia; eexists; reflexivity).
  destruct Ef as [instr Ef]. destruct (dump_ascii_total longdis instr pc) as [line El]. destruct (IH (pc + 4) ltac:(lia) ltac:(lia)) as (lines & E & Hl & Hk).
  unfold dis1. rewrite Ef. cbn [mbind outcome_bind]. rewrite El. cbn [mbind outcome_bind]. rewrite E. cbn [mbind outcome_bind].
  exists (line :: lines). split; [done|]. split; [simpl; by rewrite Hl|]. intros [|k] ln Hln.
  - injection Hln as <-. exists instr. by rewrite Z.mul_0_r, Z.add_0_r.
  - destruct (Hk k ln Hln) as (i & ? & ?). exists i. by replace (pc + 4 * Z.of_nat (S k)) with (pc + 4 + 4 * Z.of_nat k) by lia.
Qed.

(** ** Theorems *)

Definition is_loader (loader : SCNHDR -> FILE -> (Z -> Z) -> outcome (loading * FILE)) : Prop := loader = load_section \/ loader = LOADSECTION.

(** A section that is not loaded. *)
Definition no_bytes (hd : SCNHDR) : Prop := s_scnptr hd = 0.

(** The tools read from a stream that they have closed.  Whatever the object file is: if its
    text has bytes in the file, for an address in the memory, the work of both tools has no
    meaning; if no section has bytes in the file, they load nothing. *)
Theorem tools_read_closed_stream loader file head f :
  is_loader loader ->
  (forall text, head ".text" = Some text -> s_scnptr text <> 0 -> 0 < s_size text -> s_vaddr text < memoffset + MEMSIZE ->
    tool_main loader (Some (file, 0)) (Some 0x162) head f = Undefined) /\
  ((forall name hd, name ∈ section_names -> head name = Some hd -> no_bytes hd) ->
    tool_main loader (Some (file, 0)) (Some 0x162) head f = Ok (Loaded f)).
Proof.
  intros HL. unfold tool_main, load_program, fclose. cbn [negb Z.eqb Pos.eqb mbind outcome_bind]. split.
  - intros text Ht Hp Hs Hv. unfold section_names. cbn [load_all]. rewrite Ht. destruct (Z.to_nat (s_size text)) as [|n] eqn:En; [lia|].
    destruct HL as [->| ->]; unfold load_section, LOADSECTION; rewrite (proj2 (Z.eqb_neq _ _) Hp); cbn [negb]; rewrite En; [|done].
    cbn [load_loop]. by rewrite (proj2 (Z.leb_gt _ _)) by lia.
  - intros Hno. assert (E : forall names, (forall name, name ∈ names -> name ∈ section_names) -> load_all loader head names None f = Ok (Loaded f, None)).
    { induction names as [|name names IH]; intros Hsub; cbn [load_all]; [done|].
      assert (IH' : load_all loader head names None f = Ok (Loaded f, None)) by (apply IH; intros x Hx; apply Hsub; by right).
      destruct (head name) as [hd|] eqn:Eh; [|done]. pose proof (Hno name hd (Hsub name ltac:(by left)) Eh) as H0. unfold no_bytes in H0.
      destruct HL as [->| ->]; unfold load_section, LOADSECTION; rewrite H0; exact IH'. }
    by rewrite E.
Qed.

(** The listing of a memory: disasm prints a line for each word of the text, and line [k] is
    the text of the word that the interpreter fetches at address [memoffset + 4 * k]. *)
Theorem disasm_lists_memory longdis text n f :
  s_size text = 4 * Z.of_nat n -> s_size text <= MEMSIZE ->
  exists lines, disasm longdis text f = Ok lines /\ length lines = n /\
    forall k line, lines !! k = Some line -> exists instr, fetch (with_mem f) (memoffset + 4 * Z.of_nat k) = Ok instr /\
      dump_ascii longdis instr (memoffset + 4 * Z.of_nat k) = Ok line.
Proof.
  intros Hs Hlt. assert (Er : Z.to_nat ((s_size text + 3) / 4) = n) by (rewrite Hs; Z.to_euclidean_division_equations; lia).
  unfold disasm. rewrite Er. apply disasm_loop_ok; lia.
Qed.

(** Two words, an addition and a return *)
Example disasm_lists_sample :
  exists l1 l2, disasm false (mkSCNHDR memoffset 8 8) (put_bytes (fun _ => 0) 0 (le_split 4 0x00851020 ++ le_split 4 0x03e00008)) = Ok [l1; l2] /\
    dump_ascii false 0x00851020 memoffset = Ok l1 /\ dump_ascii false 0x03e00008 (memoffset + 4) = Ok l2.
Proof. do 2 eexists. vm_compute. done. Qed.

(** A section that fills the memory, on a stream that is open: [load_section] takes it,
    [LOADSECTION] does not. *)
Theorem loaders_differ file pos f :
  (exists f' fp, load_section (mkSCNHDR memoffset MEMSIZE 8) (Some (file, pos)) f = Ok (Loaded f', fp)) /\
  exists fp, LOADSECTION (mkSCNHDR memoffset MEMSIZE 8) (Some (file, pos)) f = Ok (TooSmall, fp).
Proof.
  assert (H : Z.of_nat (Z.to_nat MEMSIZE) = MEMSIZE) by (apply Z2Nat.id; vm_compute; discriminate).
  destruct (load_loop_ok (Z.to_nat MEMSIZE) memoffset pos file f) as (f' & E1 & E2 & _); [lia..|]. unfold load_section, LOADSECTION. cbn [s_scnptr s_vaddr s_size Z.eqb negb].
  rewrite E1. cbv zeta. rewrite E2. cbn [mbind outcome_bind]. split; [do 2 eexists; exact eq_refl|].
  rewrite H, Z.add_simpl_l, Z.leb_refl. eexists. exact eq_refl.
Qed.
