(* ===== verification/Switch.v ===== *)
(** * The context switch (threads/switch.c, threads/switch.h, threads/switch.s)

    [SWITCH] and [ThreadRoot] for the Intel 386, instruction by instruction, on a processor
    with its eight registers and a memory of words; an access that is not aligned has no
    meaning here.  [_eax_save] is the address of the word that the assembler reserves.  What
    [ThreadRoot] calls is a parameter: a function from the address and the state at its entry
    to the state when it returns, if it does.  The versions for MIPS and for the HP Snake are
    lists of stores and loads and are proved together; the one for SPARC, which works with
    register windows, is not modelled.  [StackAllocate] prepares the first switch. *)

From S2P Require Import Prelude Int32.

(** Changing a function at one place. *)
Definition upd {A} `{EqDecision A} (f : A -> Z) (a : A) (v : Z) : A -> Z := fun b => if decide (b = a) then v else f b.

Lemma upd_eq {A} `{EqDecision A} (f : A -> Z) a v : upd f a v a = v.
Proof. unfold upd. by rewrite decide_True. Qed.
Lemma upd_ne {A} `{EqDecision A} (f : A -> Z) a v b : b <> a -> upd f a v b = f b.
Proof. intros H. unfold upd. by rewrite decide_False. Qed.

(** ** The processor *)

Inductive register := eax | ebx | ecx | edx | esi | edi | ebp | esp.
#[export] Instance register_eq_dec : EqDecision register.
Proof. solve_decision. Defined.

Record X86 := mkX86 { reg_of : register -> Z; word_of : Z -> Z }.

Inductive operand := Rg (r : register) | At (offset : Z) (r : register) | Var (address : Z).
Inductive instruction := movl (src dst : operand) | pushl (src : operand) | popl (r : register) | call_star (r : register) | ret.

Definition load_word (s : X86) (a : Z) : outcome Z := if a mod 4 =? 0 then Ok (word_of s a) else Undefined.
Definition store_word (s : X86) (a v : Z) : outcome X86 :=
  if a mod 4 =? 0 then Ok (mkX86 (reg_of s) (upd (word_of s) a v)) else Undefined.
Definition set_register (s : X86) (r : register) (v : Z) : X86 := mkX86 (upd (reg_of s) r v) (word_of s).

Definition value (s : X86) (o : operand) : outcome Z :=
  match o with
  | Rg r => Ok (reg_of s r)
  | At offset r => load_word s (reg_of s r + offset)
  | Var a => load_word s a
  end.
Definition assign_to (s : X86) (o : operand) (v : Z) : outcome X86 :=
  match o with
  | Rg r => Ok (set_register s r v)
  | At offset r => store_word s (reg_of s r + offset) v
  | Var a => store_word s a v
  end.
Definition push_word (s : X86) (v : Z) : outcome X86 :=
  let s := set_register s esp (reg_of s esp - 4) in
  store_word s (reg_of s esp) v.
Definition pop_word (s : X86) : outcome (Z * X86) :=
  v ← load_word s (reg_of s esp);
  Ok (v, set_register s esp (reg_of s esp + 4)).

(** ** switch.h: where a thread object keeps the registers *)

Definition _ESP : Z := 0.
Definition _EAX : Z := 4.
Definition _EBX : Z := 8.
Definition _ECX : Z := 12.
Definition _EDX : Z := 16.
Definition _EBP : Z := 20.
Definition _ESI : Z := 24.
Definition _EDI : Z := 28.
Definition _PC : Z := 32.

Definition PCState : Z := _PC / 4 - 1.
Definition InitialPCState : Z := _ESI / 4 - 1.
Definition InitialArgState : Z := _EDX / 4 - 1.
Definition WhenDonePCState : Z := _EDI / 4 - 1.
Definition StartupPCState : Z := _ECX / 4 - 1.

Definition InitialPC : register := esi.
Definition InitialArg : register := edx.
Definition WhenDonePC : register := edi.
Definition StartupPC : register := ecx.

Section Switch386.
Context (_eax_save : Z).

(** ** [SWITCH] *)

Definition SWITCH : list instruction := [
  movl (Rg eax) (Var _eax_save);
  movl (At 4 esp) (Rg eax);
  movl (Rg ebx) (At _EBX eax);
  movl (Rg ecx) (At _ECX eax);
  movl (Rg edx) (At _EDX eax);
  movl (Rg esi) (At _ESI eax);
  movl (Rg edi) (At _EDI eax);
  movl (Rg ebp) (At _EBP eax);
  movl (Rg esp) (At _ESP eax);
  movl (Var _eax_save) (Rg ebx);
  movl (Rg ebx) (At _EAX eax);
  movl (At 0 esp) (Rg ebx);
  movl (Rg ebx) (At _PC eax);
  movl (At 8 esp) (Rg eax);
  movl (At _EAX eax) (Rg ebx);
  movl (Rg ebx) (Var _eax_save);
  movl (At _EBX eax) (Rg ebx);
  movl (At _ECX eax) (Rg ecx);
  movl (At _EDX eax) (Rg edx);
  movl (At _ESI eax) (Rg esi);
  movl (At _EDI eax) (Rg edi);
  movl (At _EBP eax) (Rg ebp);
  movl (At _ESP eax) (Rg esp);
  movl (At _PC eax) (Rg eax);
  movl (Rg eax) (At 4 esp);
  movl (Var _eax_save) (Rg eax);
  ret ].

(** Code without calls, up to its [ret]: where it returns to, and the state then. *)
Fixpoint run_to_ret (code : list instruction) (s : X86) : outcome (Z * X86) :=
  match code with
  | [] => Undefined
  | movl src dst :: code => v ← value s src; s ← assign_to s dst v; run_to_ret code s
  | pushl src :: code => v ← value s src; s ← push_word s v; run_to_ret code s
  | popl r :: code => '(v, s) ← pop_word s; run_to_ret code (set_register s r v)
  | call_star _ :: _ => Undefined
  | ret :: _ => pop_word s
  end.

(** ** [ThreadRoot] *)

Definition ThreadRoot_code : list instruction := [
  pushl (Rg ebp);
  movl (Rg esp) (Rg ebp);
  pushl (Rg InitialArg);
  call_star StartupPC;
  call_star InitialPC;
  call_star WhenDonePC;
  movl (Rg ebp) (Rg esp);
  popl ebp;
  ret ].

(** What the functions at the addresses do, from their entry to their return; [None] for one
    that does not return. *)
Context (callee : Z -> X86 -> option X86).
(** The return address that a [call] pushes; nothing depends on it. *)
Context (back : Z).

(** The calls that code makes: the function and the word where its first argument is. *)
Fixpoint calls (code : list instruction) (s : X86) : outcome (list (Z * Z)) :=
  match code with
  | [] | ret :: _ => Ok []
  | movl src dst :: code => v ← value s src; s ← assign_to s dst v; calls code s
  | pushl src :: code => v ← value s src; s ← push_word s v; calls code s
  | popl r :: code => '(v, s) ← pop_word s; calls code (set_register s r v)
  | call_star r :: code =>
      let f := reg_of s r in
      s ← push_word s back;
      arg ← load_word s (reg_of s esp + 4);
      match callee f s with
      | None => Ok [(f, arg)]
      | Some s => l ← calls code s; Ok ((f, arg) :: l)
      end
  end.

(** ** [Thread::StackAllocate] on this host

    [t] and [stack] are the addresses of the thread object and of the new array, [M] is the
    memory; the three functions of the kernel are given by their addresses. *)
Definition StackSize : Z := 4 * 16384.
Definition STACK_FENCEPOST : Z := 0xdeadbeef.
Definition machineState (t k : Z) : Z := t + 4 + 4 * k.

Definition StackAllocate (ThreadRoot InterruptEnable ThreadFinish : Z) (t stack func arg : Z) (M : Z -> Z) : Z -> Z :=
  let stackTop := stack + 4 * (StackSize - 4) in
  let stackTop := stackTop - 4 in
  let M := upd M stackTop ThreadRoot in
  let M := upd M stack STACK_FENCEPOST in
  let M := upd M (t + _ESP) stackTop in
  let M := upd M (machineState t PCState) ThreadRoot in
  let M := upd M (machineState t StartupPCState) InterruptEnable in
  let M := upd M (machineState t InitialPCState) func in
  let M := upd M (machineState t InitialArgState) arg in
  upd M (machineState t WhenDonePCState) ThreadFinish.

End Switch386.

(** ** MIPS and Snake: stores, then loads, then a jump *)

(** The register and the offset of each word that is saved; the last pair is the return
    address. *)
Definition MIPS_table : list (Z * Z) :=
  [(29, 0); (16, 4); (17, 8); (18, 12); (19, 16); (20, 20); (21, 24); (22, 28); (23, 32); (30, 36); (31, 40)].
Definition SNAKE_table : list (Z * Z) :=
  [(30, 0); (3, 4); (4, 8); (5, 12); (6, 16); (7, 20); (8, 24); (9, 28); (10, 32); (11, 36); (12, 40); (13, 44); (14, 48);
   (15, 52); (16, 56); (17, 60); (18, 64); (2, 68)].

Record Risc := mkRisc { gpr : Z -> Z; rmem : Z -> Z }.

(** [sw r, off(base)] and [lw r, off(base)] *)
Definition sw (base : Z) (s : Risc) (p : Z * Z) : Risc := mkRisc (gpr s) (upd (rmem s) (gpr s base + p.2) (gpr s p.1)).
Definition lw (base : Z) (s : Risc) (p : Z * Z) : Risc := mkRisc (upd (gpr s) p.1 (rmem s (gpr s base + p.2))) (rmem s).

(** The registers of the arguments, and of the return address. *)
Definition MIPS_SWITCH (s : Risc) : Z * Risc :=
  let s := foldl (sw 4) s MIPS_table in
  let s := foldl (lw 5) s MIPS_table in
  (gpr s 31, s).

(** The load of R18 stands in the delay slot of the jump. *)
Definition SNAKE_SWITCH (s : Risc) : Z * Risc :=
  let s := foldl (sw 26) s SNAKE_table in
  let s := foldl (lw 25) s (take 16 SNAKE_table) in
  let s := lw 25 s (2, 68) in
  (gpr s 2, lw 25 s (18, 64)).

(** ** [SWITCH] saves one context and loads the other *)

Definition offset (r : register) : Z :=
  match r with eax => _EAX | ebx => _EBX | ecx => _ECX | edx => _EDX | esi => _ESI | edi => _EDI | ebp => _EBP | esp => _ESP end.

(** The bytes of the thread object that hold its context. *)
Definition in_object (t a : Z) : Prop := t <= a < t + 36.

(** What is in the memory once the context of [t1] has been saved. *)
Definition saved (_eax_save : Z) (s : X86) (t1 a : Z) : Z :=
  if decide (a = _eax_save \/ a = t1 + _EAX) then reg_of s eax
  else if decide (a = t1 + _EBX) then reg_of s ebx
  else if decide (a = t1 + _ECX) then reg_of s ecx
  else if decide (a = t1 + _EDX) then reg_of s edx
  else if decide (a = t1 + _ESI) then reg_of s esi
  else if decide (a = t1 + _EDI) then reg_of s edi
  else if decide (a = t1 + _EBP) then reg_of s ebp
  else if decide (a = t1 + _ESP) then reg_of s esp
  else if decide (a = t1 + _PC) then word_of s (reg_of s esp)
  else word_of s a.

(** The processor enters [SWITCH(t1, t2)].  The objects, the stack and [_eax_save] do not
    overlap; [t1] and [t2] may be the same thread. *)
Record at_switch (_eax_save : Z) (s : X86) (t1 t2 : Z) : Prop := {
  as_t1 : word_of s (reg_of s esp + 4) = t1;
  as_t2 : word_of s (reg_of s esp + 8) = t2;
  as_aligned : (4 | reg_of s esp) /\ (4 | t1) /\ (4 | t2) /\ (4 | _eax_save);
  as_stack : forall k, 0 <= k < 12 -> ~ in_object t1 (reg_of s esp + k) /\ reg_of s esp + k <> _eax_save;
  as_save : ~ in_object t1 _eax_save /\ ~ in_object t2 _eax_save;
  as_objects : t1 = t2 \/ t1 + 36 <= t2 \/ t2 + 36 <= t1 }.

(** The context that is loaded: the saved one of [t2]. *)
Definition next_context (s : X86) (t1 t2 : Z) (r : register) : Z := if decide (t1 = t2) then reg_of s r else word_of s (t2 + offset r).

(** The stack of [t2] is apart from the objects as well. *)
Record stack_ready (_eax_save : Z) (s : X86) (t1 t2 : Z) : Prop := {
  sr_aligned : (4 | next_context s t1 t2 esp);
  sr_object : forall k, 0 <= k < 8 -> ~ in_object t1 (next_context s t1 t2 esp + k) /\ ~ in_object t2 (next_context s t1 t2 esp + k) /\
    next_context s t1 t2 esp + k <> _eax_save }.

Lemma aligned_mod a : (4 | a) -> (a mod 4 =? 0) = true.
Proof. intros H. apply Z.eqb_eq. by apply Z.mod_divide. Qed.

Ltac offsets := unfold in_object, offset, _ESP, _EAX, _EBX, _ECX, _EDX, _EBP, _ESI, _EDI, _PC in *.

(** One instruction at a time. *)
Lemma store_word_ok u a v : (4 | a) -> store_word u a v = Ok (mkX86 (reg_of u) (upd (word_of u) a v)).
Proof. intros H. unfold store_word. by rewrite aligned_mod. Qed.
Lemma load_word_ok u a : (4 | a) -> load_word u a = Ok (word_of u a).
Proof. intros H. unfold load_word. by rewrite aligned_mod. Qed.

#[local] Ltac divides := repeat apply Z.divide_add_r; first [assumption | apply Z.mod_divide; [discriminate|reflexivity]].
#[local] Ltac registers := cbn [mbind outcome_bind reg_of word_of set_register]; repeat first [rewrite upd_eq | rewrite upd_ne by discriminate].
#[local] Ltac words := repeat first [rewrite upd_eq | rewrite upd_ne by lia].
#[local] Ltac step := registers; first [rewrite store_word_ok by divides | rewrite load_word_ok by divides]; registers.

Section Proof386.
Context (_eax_save : Z) (s : X86) (t1 t2 : Z).
Context (Hat : at_switch _eax_save s t1 t2).

(** The registers and the memory when the context of [t1] has been saved. *)
Lemma run_saves code :
  exists r M, run_to_ret (take 13 (SWITCH _eax_save) ++ code) s = run_to_ret code (mkX86 r M) /\
    r esp = reg_of s esp /\ r eax = t1 /\ (forall a, M a = saved _eax_save s t1 a).
Proof.
  destruct Hat as [A1 A2 (A3 & A4 & A5 & A6) A7 [A8 _] _].
  pose proof (A7 0 ltac:(lia)) as S0. pose proof (A7 4 ltac:(lia)) as S4. clear A7. rewrite Z.add_0_r in S0. offsets.
  assert (E1 : upd (word_of s) _eax_save (reg_of s eax) (reg_of s esp + 4) = t1) by (words; done).
  cbn [take SWITCH app run_to_ret value assign_to]. do 2 step. rewrite E1. do 7 step.
  match goal with |- context [mkX86 _ (upd ?M (t1 + _ESP) ?v)] => set (M1 := upd M (t1 + _ESP) v) end.
  assert (E2 : M1 _eax_save = reg_of s eax) by (unfold M1; offsets; words; done).
  assert (E3 : M1 (reg_of s esp + 0) = word_of s (reg_of s esp)) by (unfold M1; offsets; words; by rewrite Z.add_0_r).
  step. rewrite E2. step. registers. step.
  assert (E4 : upd M1 (t1 + _EAX) (reg_of s eax) (reg_of s esp + 0) = word_of s (reg_of s esp)) by (rewrite upd_ne by (offsets; lia); done).
  rewrite E4. step. eexists _, _. split; [reflexivity|]. conjs; [by registers..|].
  intros a. unfold saved, M1. clear -A8. offsets. unfold upd. repeat case_decide; try lia; done.
Qed.

(** The rest of the code, from any state in which the pointer to [t2] is on the stack. *)
Lemma run_loads r M :
  (4 | r esp) -> (4 | t2) -> (4 | _eax_save) -> M (r esp + 8) = t2 -> ~ in_object t2 _eax_save ->
  (4 | M (t2 + _ESP)) -> M (t2 + _ESP) <> _eax_save -> M (t2 + _ESP) + 4 <> _eax_save ->
  exists r' M', run_to_ret (drop 13 (SWITCH _eax_save)) (mkX86 r M) = Ok (M (M (t2 + _ESP)), mkX86 r' M') /\
    (forall q, q <> esp -> r' q = M (t2 + offset q)) /\ r' esp = M (t2 + _ESP) + 4 /\
    (forall a, a <> _eax_save -> a <> M (t2 + _ESP) + 4 -> M' a = M a).
Proof.
  intros H1 H2 H3 H4 H5 H6 H7 H8. unfold in_object in H5. cbn [drop SWITCH run_to_ret value assign_to]. step. rewrite H4. step. step.
  set (M1 := upd M _eax_save (M (t2 + _EAX))).
  assert (HM : forall off, 0 <= off < 36 -> M1 (t2 + off) = M (t2 + off)) by (intros off Ho; apply upd_ne; lia).
  do 8 (step; rewrite ?HM by (offsets; lia)). step. step. unfold pop_word.
  set (N := M (t2 + _ESP)) in *. assert (E1 : upd M1 (N + 4) (M (t2 + _PC)) _eax_save = M (t2 + _EAX)) by (rewrite upd_ne by lia; apply upd_eq).
  assert (E2 : upd M1 (N + 4) (M (t2 + _PC)) N = M N) by (rewrite upd_ne by lia; unfold M1; by rewrite upd_ne by lia).
  rewrite E1. step. rewrite E2. eexists _, _. split; [reflexivity|]. conjs.
  - intros q Hq. destruct q; [..|done]; cbn [offset]; by registers.
  - by registers.
  - intros a Ha1 Ha2. cbn [word_of set_register]. rewrite upd_ne by done. unfold M1. by rewrite upd_ne by done.
Qed.

(** The saved context. *)
Lemma saved_reg q : ~ in_object t1 _eax_save -> saved _eax_save s t1 (t1 + offset q) = reg_of s q.
Proof. intros H. unfold saved. destruct q; offsets; repeat case_decide; try done; lia. Qed.
Lemma saved_pc : ~ in_object t1 _eax_save -> saved _eax_save s t1 (t1 + _PC) = word_of s (reg_of s esp).
Proof. intros H. unfold saved. offsets. repeat case_decide; try done; lia. Qed.
Lemma saved_other a : ~ in_object t1 a -> a <> _eax_save -> saved _eax_save s t1 a = word_of s a.
Proof. intros H1 H2. unfold saved. offsets. repeat case_decide; try done; lia. Qed.

Lemma saved_next q : saved _eax_save s t1 (t2 + offset q) = next_context s t1 t2 q.
Proof.
  destruct Hat as [_ _ _ _ [A8 A9] A10]. unfold next_context. case_decide as E; [subst t2; by apply saved_reg|].
  apply saved_other; destruct q; offsets; lia.
Qed.

(** [SWITCH(t1, t2)] puts the registers and the return address into the object of [t1] and
    continues with those of [t2]: the processor returns to the address on top of the stack of
    [t2].  Apart from the object of [t1] and [_eax_save] it writes one word, the slot of the
    first argument on the stack of [t2]. *)
Lemma SWITCH_effect :
  stack_ready _eax_save s t1 t2 ->
  exists s', run_to_ret (SWITCH _eax_save) s = Ok (word_of s (next_context s t1 t2 esp), s') /\
    (forall q, word_of s' (t1 + offset q) = reg_of s q) /\ word_of s' (t1 + _PC) = word_of s (reg_of s esp) /\
    (forall q, q <> esp -> reg_of s' q = next_context s t1 t2 q) /\ reg_of s' esp = next_context s t1 t2 esp + 4 /\
    (forall a, ~ in_object t1 a -> a <> _eax_save -> a <> next_context s t1 t2 esp + 4 -> word_of s' a = word_of s a).
Proof.
  intros [R1 R2]. destruct Hat as [A1 A2 (A3 & A4 & A5 & A6) A7 [A8 A9] A10].
  rewrite <- (take_drop 13 (SWITCH _eax_save)). destruct (run_saves (drop 13 (SWITCH _eax_save))) as (r & M & -> & Hesp & _ & HM).
  assert (HN : M (t2 + _ESP) = next_context s t1 t2 esp) by (rewrite HM; apply (saved_next esp)). set (N := next_context s t1 t2 esp) in *.
  destruct (R2 0 ltac:(lia)) as (R3 & _ & R4). destruct (R2 4 ltac:(lia)) as (R5 & _ & R6). rewrite Z.add_0_r in R3, R4.
  destruct (run_loads r M) as (r' & M' & -> & Hr & Hre & HM'); rewrite ?HN, ?Hesp; try done.
  { rewrite HM, saved_other; [done|apply (A7 8); lia|apply (A7 8); lia]. }
  rewrite HN in *. exists (mkX86 r' M'). cbn [reg_of word_of].
  assert (Hobj : forall off, 0 <= off < 36 -> M' (t1 + off) = M (t1 + off)) by (intros off Ho; apply HM'; offsets; lia).
  conjs.
  - do 2 f_equal. rewrite HM. by apply saved_other.
  - intros q. rewrite Hobj by (destruct q; offsets; lia). rewrite HM. by apply saved_reg.
  - rewrite Hobj by (offsets; lia). rewrite HM. by apply saved_pc.
  - intros q Hq. rewrite Hr by done. rewrite HM. apply saved_next.
  - done.
  - intros a Ha1 Ha2 Ha3. rewrite HM' by done. rewrite HM. by apply saved_other.
Qed.
End Proof386.

(** ** Coming back *)

(** C15: a thread that was switched away from continues where it was.  [SWITCH(t1, t2)] is
    entered in [s]; after any code that leaves the object of [t1] and the top of its stack
    alone, some thread [t3] enters [SWITCH(t3, t1)], in [s2].  Then the processor returns to
    the return address of the first call with every register as it was there, the stack
    pointer behind the return address, and the memory as in [s2] apart from the object of
    [t3], [_eax_save] and the slot of the first argument. *)
Theorem switch_back sv s t1 t2 t3 pc1 s1 s2 :
  at_switch sv s t1 t2 -> stack_ready sv s t1 t2 -> reg_of s esp <> next_context s t1 t2 esp + 4 ->
  run_to_ret (SWITCH sv) s = Ok (pc1, s1) ->
  at_switch sv s2 t3 t1 -> t3 <> t1 -> (forall k, 0 <= k < 8 -> ~ in_object t3 (reg_of s esp + k)) ->
  (forall a, in_object t1 a \/ a = reg_of s esp -> word_of s2 a = word_of s1 a) ->
  exists s3, run_to_ret (SWITCH sv) s2 = Ok (word_of s (reg_of s esp), s3) /\
    (forall q, q <> esp -> reg_of s3 q = reg_of s q) /\ reg_of s3 esp = reg_of s esp + 4 /\
    (forall a, ~ in_object t3 a -> a <> sv -> a <> reg_of s esp + 4 -> word_of s3 a = word_of s2 a).
Proof.
  intros Hat Hsr Hne Hrun Hat2 Ht31 Hst Hkeep.
  destruct (SWITCH_effect sv s t1 t2 Hat Hsr) as (s1' & E1 & Hsaved & _ & _ & _ & Hframe). rewrite Hrun in E1. injection E1 as -> ->.
  assert (Hctx : forall q, next_context s2 t3 t1 q = reg_of s q).
  { intros q. unfold next_context. rewrite decide_False by done. rewrite Hkeep, Hsaved; [done|]. left. destruct q; offsets; lia. }
  pose proof (as_stack _ _ _ _ Hat) as Hstk.
  destruct (SWITCH_effect sv s2 t3 t1 Hat2) as (s3 & E3 & _ & _ & Hr & Hesp & Hf3).
  { split; rewrite Hctx; [apply Hat|]. intros k Hk. conjs; [by apply Hst|apply Hstk; lia|apply Hstk; lia]. }
  rewrite Hctx in *. exists s3. conjs.
  - rewrite E3. do 2 f_equal. rewrite Hkeep by (by right). pose proof (Hstk 0 ltac:(lia)) as [H1 H2]. rewrite Z.add_0_r in H1, H2. by apply Hframe.
  - intros q Hq. by rewrite Hr, Hctx.
  - done.
  - intros a Ha1 Ha2 Ha3. by apply Hf3.
Qed.

(** A thread that is woken while the scheduler is idle switches to itself: [SWITCH] returns
    at once, and changes no register. *)
Theorem switch_to_self sv s t :
  at_switch sv s t t -> exists s', run_to_ret (SWITCH sv) s = Ok (word_of s (reg_of s esp), s') /\
    (forall q, q <> esp -> reg_of s' q = reg_of s q) /\ reg_of s' esp = reg_of s esp + 4.
Proof.
  intros Hat. assert (Hctx : forall q, next_context s t t q = reg_of s q) by (intros q; unfold next_context; by rewrite decide_True).
  pose proof (as_stack _ _ _ _ Hat) as Hstk.
  destruct (SWITCH_effect sv s t t Hat) as (s' & E & _ & _ & Hr & Hesp & _).
  { split; rewrite Hctx; [apply Hat|]. intros k Hk. destruct (Hstk k ltac:(lia)). done. }
  rewrite Hctx in *. exists s'. conjs; [done| |done]. intros q Hq. by rewrite Hr, Hctx.
Qed.

(** ** The first switch to a thread *)

(** A stack from [low] to [high], and what the functions of the kernel rely on: the
    predicate [kernel] on the memory, which writes to the stack do not affect. *)
Section Callees.
Context (callee : Z -> X86 -> option X86) (kernel : (Z -> Z) -> Prop) (low high : Z).

(** What the i386 calling convention says of a function that gets [n] words of arguments,
    called on this stack while the data of the kernel are in order: it returns to its caller
    with the stack pointer behind the return address, keeps EBX, ESI, EDI and EBP, leaves the
    part of the stack that belongs to its callers alone and the data of the kernel in order.
    It may write anywhere else. *)
Definition returns_with (f n : Z) : Prop :=
  forall u, kernel (word_of u) -> low <= reg_of u esp -> reg_of u esp + 4 + 4 * n <= high ->
  exists u', callee f u = Some u' /\ reg_of u' esp = reg_of u esp + 4 /\ kernel (word_of u') /\
    (forall q, q = ebx \/ q = esi \/ q = edi \/ q = ebp -> reg_of u' q = reg_of u q) /\
    (forall a, reg_of u esp + 4 + 4 * n <= a < high -> word_of u' a = word_of u a).

(** A function that does not return. *)
Definition never_returns (f : Z) : Prop := forall u, kernel (word_of u) -> callee f u = None.

Hypothesis kernel_stack : forall M a v, low <= a < high -> kernel M -> kernel (upd M a v).

Lemma push_word_ok u v : (4 | reg_of u esp) ->
  push_word u v = Ok (mkX86 (upd (reg_of u) esp (reg_of u esp - 4)) (upd (word_of u) (reg_of u esp - 4) v)).
Proof. intros H. unfold push_word. registers. rewrite store_word_ok; [done|]. by apply Z.divide_sub_r; [|exists 1]. Qed.

(** A call of a function that returns, and of one that does not. *)
Lemma calls_returning back r code u n :
  (4 | reg_of u esp) -> 0 <= n -> r <> esp -> kernel (word_of u) -> low + 4 <= reg_of u esp -> reg_of u esp + 4 * n <= high -> reg_of u esp <= high -> returns_with (reg_of u r) n ->
  exists u', calls callee back (call_star r :: code) u = (l ← calls callee back code u'; Ok ((reg_of u r, word_of u (reg_of u esp)) :: l)) /\
    reg_of u' esp = reg_of u esp /\ kernel (word_of u') /\ (forall q, q = ebx \/ q = esi \/ q = edi \/ q = ebp -> reg_of u' q = reg_of u q) /\
    (forall a, reg_of u esp + 4 * n <= a < high -> word_of u' a = word_of u a).
Proof.
  intros Ha Hn Hr Hk Hlo Hhi Hhi' Hret. cbn [calls]. rewrite push_word_ok by done. registers. replace (reg_of u esp - 4 + 4) with (reg_of u esp) by lia. rewrite load_word_ok by done. registers.
  rewrite upd_ne by lia. set (u0 := mkX86 _ _). assert (E0 : reg_of u0 esp = reg_of u esp - 4) by (unfold u0; by registers).
  destruct (Hret u0) as (u' & -> & H1 & Hk' & H2 & H3); [apply kernel_stack; [lia|done]|lia|lia|]. exists u'. rewrite E0 in H1, H3. conjs; [done|lia|done| |].
  - intros q Hq. rewrite H2 by done. unfold u0. cbn [reg_of]. apply upd_ne. intros ->. by destruct Hq as [|[|[|]]].
  - intros a Hle. rewrite H3 by lia. unfold u0. cbn [word_of]. apply upd_ne. lia.
Qed.
Lemma calls_last back r code u :
  (4 | reg_of u esp) -> kernel (word_of u) -> low + 4 <= reg_of u esp <= high -> never_returns (reg_of u r) ->
  calls callee back (call_star r :: code) u = Ok [(reg_of u r, word_of u (reg_of u esp))].
Proof.
  intros Ha Hk Hlo Hnone. cbn [calls]. rewrite push_word_ok by done. registers. replace (reg_of u esp - 4 + 4) with (reg_of u esp) by lia. rewrite load_word_ok by done. registers.
  rewrite upd_ne by lia. rewrite Hnone; [done|]. apply kernel_stack; [lia|done].
Qed.

(** The calls of [ThreadRoot] from the state after the first switch. *)
Lemma ThreadRoot_calls back u InterruptEnable func ThreadFinish :
  (4 | reg_of u esp) -> kernel (word_of u) -> low + 12 <= reg_of u esp <= high -> reg_of u StartupPC = InterruptEnable -> reg_of u InitialPC = func -> reg_of u WhenDonePC = ThreadFinish ->
  returns_with InterruptEnable 0 -> returns_with func 1 -> never_returns ThreadFinish ->
  exists junk, calls callee back ThreadRoot_code u = Ok [(InterruptEnable, reg_of u InitialArg); (func, reg_of u InitialArg); (ThreadFinish, junk)].
Proof.
  unfold StartupPC, InitialPC, WhenDonePC, InitialArg. intros Ha Hk Hlh E1 E2 E3 R1 R2 R3.
  assert (Hm : forall k, (4 | reg_of u esp - 4 * k)) by (intros k; apply Z.divide_sub_r; [done|exists k; lia]).
  unfold ThreadRoot_code. set (rest := [movl (Rg ebp) (Rg esp); popl ebp; ret]).
  set (tail3 := call_star WhenDonePC :: rest). set (tail2 := call_star InitialPC :: tail3). set (tail1 := call_star StartupPC :: tail2).
  cbn [calls value assign_to mbind outcome_bind]. rewrite push_word_ok by done. cbn [mbind outcome_bind]. rewrite push_word_ok by (registers; apply (Hm 1)). cbn [mbind outcome_bind]. unfold InitialArg. registers.
  set (u0 := mkX86 _ _).
  assert (F0 : reg_of u0 esp = reg_of u esp - 8) by (unfold u0; registers; lia). assert (Fw : word_of u0 (reg_of u esp - 8) = reg_of u edx) by (replace (reg_of u esp - 8) with (reg_of u esp - 4 - 4) by lia; unfold u0; by registers).
  assert (F1 : reg_of u0 ecx = InterruptEnable) by (unfold u0; by registers). assert (F2 : reg_of u0 esi = func) by (unfold u0; by registers). assert (F3 : reg_of u0 edi = ThreadFinish) by (unfold u0; by registers).
  assert (A8 : (4 | reg_of u esp - 8)) by (apply (Hm 2)). assert (Fk : kernel (word_of u0)) by (unfold u0; cbn [word_of]; repeat (apply kernel_stack; [lia|]); done).
  unfold tail1, StartupPC. destruct (calls_returning back ecx tail2 u0 0) as (u1 & -> & G0 & Gk & G1 & G2); [by rewrite F0|lia|done|done|lia|lia|lia|by rewrite F1|]. rewrite F0 in *.
  unfold tail2, InitialPC. destruct (calls_returning back esi tail3 u1 1) as (u2 & -> & K0 & Kk & K1 & K2); [by rewrite G0|lia|done|done|lia|lia|lia|rewrite G1 by auto; by rewrite F2|]. rewrite G0 in *.
  unfold tail3, WhenDonePC. assert (K3 : reg_of u2 edi = ThreadFinish) by (rewrite K1, G1 by auto; done).
  rewrite calls_last by (rewrite ?K0, ?K3; first [done|lia]). cbn [mbind outcome_bind]. rewrite K3, F1, (G1 esi) by auto. rewrite F2, Fw, (G2 (reg_of u esp - 8)) by lia. rewrite Fw. by eexists.
Qed.
End Callees.

(** C23: a forked thread starts as [StackAllocate] prepared it.  The first [SWITCH] to its
    object goes to [ThreadRoot], which calls [InterruptEnable], then the forked function with
    its argument, and when that has returned [ThreadFinish].  This holds for all functions
    that keep the calling convention on the stack of the thread, have [room] bytes of it, and
    may change any other memory; they may rely on the data of the kernel, which are not in
    the stack, nor in what [SWITCH] writes. *)
Theorem first_switch sv s t1 t2 stack func arg M0 ThreadRoot InterruptEnable ThreadFinish callee back kernel room :
  at_switch sv s t1 t2 -> stack_ready sv s t1 t2 -> t1 <> t2 -> (4 | stack) ->
  let high := stack + 4 * StackSize in
  (forall a, in_object t2 a \/ stack <= a < high ->
     word_of s a = StackAllocate ThreadRoot InterruptEnable ThreadFinish t2 stack func arg M0 a) ->
  (t2 + 36 <= stack \/ high <= t2) ->
  (forall M M', (forall a, ~ in_object t1 a -> a <> sv -> ~ (stack <= a < high) -> M' a = M a) -> kernel M -> kernel M') -> kernel (word_of s) ->
  0 <= room <= 4 * (StackSize - 7) ->
  returns_with callee kernel (stack + room) high InterruptEnable 0 -> returns_with callee kernel (stack + room) high func 1 ->
  never_returns callee kernel ThreadFinish ->
  exists s' junk, run_to_ret (SWITCH sv) s = Ok (ThreadRoot, s') /\
    calls callee back ThreadRoot_code s' = Ok [(InterruptEnable, arg); (func, arg); (ThreadFinish, junk)].
Proof.
  intros Hat Hsr Hne Hal high HM Hapart Hstab Hk0 Hroom R1 R2 R3. unfold high in HM, Hapart.
  destruct (SWITCH_effect sv s t1 t2 Hat Hsr) as (s' & E & _ & _ & Hr & Hesp & Hf).
  assert (Hctx : forall q, next_context s t1 t2 q = StackAllocate ThreadRoot InterruptEnable ThreadFinish t2 stack func arg M0 (t2 + offset q)).
  { intros q. unfold next_context. rewrite decide_False by done. apply HM. left. destruct q; offsets; lia. }
  set (top := stack + 4 * (StackSize - 4) - 4).
  assert (Cesp : next_context s t1 t2 esp = top).
  { rewrite Hctx. unfold StackAllocate, machineState, top. cbn [offset]. change PCState with 7. change StartupPCState with 2. change InitialPCState with 5. change InitialArgState with 3. change WhenDonePCState with 6.
    offsets. unfold StackSize in *. words. done. }
  assert (Cecx : next_context s t1 t2 ecx = InterruptEnable /\ next_context s t1 t2 esi = func /\ next_context s t1 t2 edx = arg /\ next_context s t1 t2 edi = ThreadFinish).
  { rewrite !Hctx. unfold StackAllocate, machineState. cbn [offset]. change PCState with 7. change StartupPCState with 2. change InitialPCState with 5. change InitialArgState with 3. change WhenDonePCState with 6.
    offsets. unfold StackSize in *. replace (t2 + 4 + 4 * 2) with (t2 + 12) by lia. replace (t2 + 4 + 4 * 5) with (t2 + 24) by lia. replace (t2 + 4 + 4 * 3) with (t2 + 16) by lia. replace (t2 + 4 + 4 * 6) with (t2 + 28) by lia.
    conjs; words; done. }
  destruct Cecx as (C1 & C2 & C3 & C4). rewrite Cesp in *.
  destruct (ThreadRoot_calls callee kernel (stack + room) high) with (back := back) (u := s') (InterruptEnable := InterruptEnable) (func := func) (ThreadFinish := ThreadFinish) as (junk & Hcalls); try done.
  - intros M a v Ha HkM. apply (Hstab M); [|done]. intros a' _ _ Hna. apply upd_ne. unfold high in *. lia.
  - rewrite Hesp. unfold top, StackSize. repeat first [apply Z.divide_add_r|apply Z.divide_sub_r]; [done|..]; apply Z.mod_divide; done.
  - apply (Hstab (word_of s)); [|done]. intros a Ha1 Ha2 Ha3. apply Hf; [done|done|]. unfold top, high, StackSize in *. lia.
  - rewrite Hesp. unfold top, high, StackSize in *. lia.
  - unfold StartupPC. by rewrite Hr, C1.
  - unfold InitialPC. by rewrite Hr, C2.
  - unfold WhenDonePC. by rewrite Hr, C4.
  - exists s', junk. unfold InitialArg in Hcalls. rewrite Hr, C3 in Hcalls by done. split; [|done]. rewrite E. do 2 f_equal.
    rewrite HM by (right; unfold top, StackSize; lia). unfold StackAllocate, machineState. change PCState with 7. change StartupPCState with 2. change InitialPCState with 5. change InitialArgState with 3. change WhenDonePCState with 6.
    unfold top in *. offsets. unfold StackSize in *. words. done.
Qed.

(** *** A switch and its return, with numbers *)

(** Thread 1000 calls [SWITCH] with its stack at 8000; thread 2000 has its stack at 9000. *)
Definition sample_switch : X86 := mkX86
  (fun r => match r with eax => 1 | ebx => 2 | ecx => 3 | edx => 4 | esi => 5 | edi => 6 | ebp => 7 | esp => 8000 end)
  (upd (upd (upd (upd (fun _ => 0) 8000 77) 8004 1000) 8008 2000) 2000 9000).
(** From [s1], thread 2000 calls [SWITCH] with its stack at 8900. *)
Definition sample_again (s1 : X86) : X86 := mkX86 (upd (fun _ => 42) esp 8900) (upd (upd (word_of s1) 8904 2000) 8908 1000).

Lemma sample_at_switch : at_switch 4000 sample_switch 1000 2000.
Proof.
  split; [reflexivity..| | | |lia].
  - conjs; apply Z.mod_divide; done.
  - intros k Hk. change (reg_of sample_switch esp) with 8000. unfold in_object. lia.
  - unfold in_object. lia.
Qed.
Lemma sample_stack_ready : stack_ready 4000 sample_switch 1000 2000.
Proof.
  assert (E : next_context sample_switch 1000 2000 esp = 9000) by reflexivity. split; rewrite E; [by apply Z.mod_divide|]. intros k Hk. unfold in_object. lia.
Qed.

Lemma switch_back_witness :
  exists s1 s3, run_to_ret (SWITCH 4000) sample_switch = Ok (0, s1) /\ run_to_ret (SWITCH 4000) (sample_again s1) = Ok (77, s3) /\
    reg_of s3 ebx = 2 /\ reg_of s3 esp = 8004.
Proof.
  destruct (SWITCH_effect 4000 sample_switch 1000 2000 sample_at_switch sample_stack_ready) as (s1 & E1 & _).
  assert (E0 : word_of sample_switch (next_context sample_switch 1000 2000 esp) = 0) by reflexivity. rewrite E0 in E1.
  destruct (switch_back 4000 sample_switch 1000 2000 2000 0 s1 (sample_again s1)) as (s3 & E & Hr & Hs & _).
  - exact sample_at_switch.
  - exact sample_stack_ready.
  - vm_compute. discriminate.
  - exact E1.
  - assert (Esp : reg_of (sample_again s1) esp = 8900) by reflexivity. split; rewrite ?Esp; [unfold sample_again; cbn [word_of]; by repeat first [rewrite upd_eq | rewrite upd_ne by lia]..| | | |lia].
    + conjs; apply Z.mod_divide; done.
    + intros k Hk. unfold in_object. lia.
    + unfold in_object. lia.
  - lia.
  - intros k Hk. change (reg_of sample_switch esp) with 8000. unfold in_object. lia.
  - intros a Ha. change (reg_of sample_switch esp) with 8000 in Ha. unfold in_object in Ha. unfold sample_again. cbn [word_of]. by rewrite !upd_ne by lia.
  - exists s1, s3. conjs; [exact E1|exact E|by rewrite Hr|exact Hs].
Defined.

(** The object at 2000 was prepared for the function at 500 with the argument 9; its stack is
    at 100000.  [InterruptEnable], at 400, needs the pointer [interrupt] at 50000 and sets the
    word behind it, [interrupt->level], to 1; the function counts its calls at 50008 and uses
    a word of the stack; the one at 600 never returns. *)
Definition sample_first : X86 := mkX86 (reg_of sample_switch)
  (upd (upd (upd (upd (StackAllocate 300 400 600 2000 100000 500 9 (fun _ => 0)) 8000 77) 8004 1000) 8008 2000) 50000 50004).
Definition sample_callee (f : Z) (u : X86) : option X86 :=
  if f =? 600 then None
  else if f =? 400 then
    if word_of u 50000 =? 50004 then Some (mkX86 (upd (reg_of u) esp (reg_of u esp + 4)) (upd (word_of u) (word_of u 50000) 1)) else None
  else Some (mkX86 (upd (reg_of u) esp (reg_of u esp + 4)) (upd (upd (word_of u) 50008 (word_of u 50008 + 1)) (reg_of u esp - 4) 5)).
Definition sample_kernel (M : Z -> Z) : Prop := M 50000 = 50004.

Lemma first_switch_witness :
  exists s' junk, run_to_ret (SWITCH 4000) sample_first = Ok (300, s') /\
    calls sample_callee 0 ThreadRoot_code s' = Ok [(400, 9); (500, 9); (600, junk)].
Proof.
  apply (first_switch 4000 sample_first 1000 2000 100000 500 9 (fun _ => 0) 300 400 600 sample_callee 0 sample_kernel 64).
  - split; [reflexivity..| | | |lia].
    + conjs; apply Z.mod_divide; done.
    + intros k Hk. change (reg_of sample_first esp) with 8000. unfold in_object. lia.
    + unfold in_object. lia.
  - assert (E : next_context sample_first 1000 2000 esp = 362124) by reflexivity. split; rewrite E; [by apply Z.mod_divide|]. intros k Hk. unfold in_object. lia.
  - lia.
  - by apply Z.mod_divide.
  - intros a Ha. unfold in_object, StackSize in Ha. unfold sample_first. cbn [word_of]. by rewrite !upd_ne by lia.
  - unfold StackSize. lia.
  - intros M M' HM Hk. unfold sample_kernel in *. rewrite HM; [done|unfold in_object; lia|lia|lia].
  - reflexivity.
  - unfold StackSize. lia.
  - intros u Hk Hlo Hhi. unfold sample_kernel in *. unfold sample_callee. cbn [Z.eqb Pos.eqb]. rewrite Hk. cbn [Z.eqb Pos.eqb]. eexists. conjs; [reflexivity|apply upd_eq| | |].
    + cbn [word_of]. by rewrite upd_ne by lia.
    + intros q Hq. apply upd_ne. intros ->. by destruct Hq as [|[|[|]]].
    + intros a Ha. cbn [word_of]. by rewrite upd_ne by lia.
  - intros u Hk Hlo Hhi. unfold sample_kernel in *. unfold sample_callee. cbn [Z.eqb Pos.eqb]. eexists. conjs; [reflexivity|apply upd_eq| | |].
    + cbn [word_of]. by rewrite !upd_ne by lia.
    + intros q Hq. apply upd_ne. intros ->. by destruct Hq as [|[|[|]]].
    + intros a Ha. cbn [word_of]. by rewrite !upd_ne by lia.
  - intros u _. reflexivity.
Defined.

(** ** MIPS and Snake *)

(** A switch of this kind: a table of registers to save, the order in which they are loaded,
    and the registers of the arguments and of the return address. *)
Definition risc_switch (a0 a1 ra : Z) (saves loads : list (Z * Z)) (s : Risc) : Z * Risc :=
  let s := foldl (lw a1) (foldl (sw a0) s saves) loads in (gpr s ra, s).

Lemma foldl_sw a0 T s :
  gpr (foldl (sw a0) s T) = gpr s /\
  (forall a, (forall p, p ∈ T -> a <> gpr s a0 + p.2) -> rmem (foldl (sw a0) s T) a = rmem s a) /\
  (NoDup T.*2 -> forall p, p ∈ T -> rmem (foldl (sw a0) s T) (gpr s a0 + p.2) = gpr s p.1).
Proof.
  revert s. induction T as [|p T IH]; intros s; cbn [foldl]; [conjs; [done..|by intros _ p ?%not_elem_of_nil]|].
  destruct (IH (sw a0 s p)) as (H1 & H2 & H3). unfold sw in H1, H2, H3. cbn [gpr rmem] in H1, H2, H3. conjs; [done| |].
  - intros a Ha. rewrite H2 by (intros q Hq; apply Ha; by right). apply upd_ne, Ha. by left.
  - intros [Hp Hnd]%NoDup_cons q [->|Hq]%elem_of_cons; [|by apply H3]. rewrite H2; [apply upd_eq|].
    intros q Hq. assert (p.2 <> q.2); [|lia]. intros E. apply Hp. rewrite E. by apply list_elem_of_fmap_2.
Qed.

Lemma foldl_lw a1 T s :
  a1 ∉ T.*1 -> rmem (foldl (lw a1) s T) = rmem s /\
  (forall r, r ∉ T.*1 -> gpr (foldl (lw a1) s T) r = gpr s r) /\
  (NoDup T.*1 -> forall p, p ∈ T -> gpr (foldl (lw a1) s T) p.1 = rmem s (gpr s a1 + p.2)).
Proof.
  revert s. induction T as [|p T IH]; intros s Ha; cbn [foldl]; [conjs; [done..|by intros _ p ?%not_elem_of_nil]|].
  apply not_elem_of_cons in Ha as [Hne Ha]. destruct (IH (lw a1 s p) Ha) as (H1 & H2 & H3). unfold lw in H1, H2, H3. cbn [gpr rmem] in H1, H2, H3.
  rewrite upd_ne in H3 by done. conjs; [done| |].
  - intros r [Hr1 Hr2]%not_elem_of_cons. rewrite H2 by done. by apply upd_ne.
  - intros [Hp Hnd]%NoDup_cons q [->|Hq]%elem_of_cons; [|by apply H3]. rewrite H2 by done. apply upd_eq.
Qed.

(** What such a table has to satisfy: no register and no offset twice, the offsets inside the
    object, the registers of the arguments not among them, the return address saved, and
    everything loaded that was saved. *)
Record risc_ok (a0 a1 ra : Z) (saves loads : list (Z * Z)) : Prop := {
  ro_regs : NoDup loads.*1;
  ro_offsets : NoDup saves.*2;
  ro_inside : forall p, p ∈ saves -> 0 <= p.2 < 76;
  ro_args : a1 ∉ loads.*1;
  ro_ra : ra ∈ saves.*1;
  ro_same : forall p, p ∈ loads <-> p ∈ saves }.

Definition apart (t t' : Z) : Prop := t + 76 <= t' \/ t' + 76 <= t.

Lemma risc_switch_back a0 a1 ra saves loads s s1 s2 t3 :
  risc_ok a0 a1 ra saves loads -> risc_switch a0 a1 ra saves loads s = (gpr s1 ra, s1) ->
  gpr s2 a0 = t3 -> gpr s2 a1 = gpr s a0 -> apart t3 (gpr s a0) ->
  (forall a, gpr s a0 <= a < gpr s a0 + 76 -> rmem s2 a = rmem s1 a) ->
  exists s3, risc_switch a0 a1 ra saves loads s2 = (gpr s ra, s3) /\ (forall r, r ∈ saves.*1 -> gpr s3 r = gpr s r).
Proof.
  intros [O1 O2 O3 O4 O5 O6] E <- Ea1 Hap Hk. unfold risc_switch in *. injection E as _ <-.
  destruct (foldl_sw a0 saves s) as (G1 & _ & G3). set (u := foldl (sw a0) s saves) in *. destruct (foldl_lw a1 loads u O4) as (L1 & _ & _). rewrite L1 in Hk.
  destruct (foldl_sw a0 saves s2) as (K1 & K2 & _). set (v := foldl (sw a0) s2 saves) in *. destruct (foldl_lw a1 loads v O4) as (M1 & _ & M3).
  assert (H : forall p, p ∈ saves -> gpr (foldl (lw a1) v loads) p.1 = gpr s p.1).
  { intros p Hp. pose proof (O3 p Hp) as Hb. rewrite M3 by (done || by apply O6). rewrite K1, Ea1, K2 by (intros q Hq; pose proof (O3 q Hq); unfold apart in Hap; lia).
    rewrite Hk by lia. by apply G3. }
  assert (H' : forall r, r ∈ saves.*1 -> gpr (foldl (lw a1) v loads) r = gpr s r) by (intros r (p & -> & Hp)%list_elem_of_fmap; by apply H).
  eexists. split; [|exact H']. f_equal. by apply H'.
Qed.

Definition SNAKE_loads : list (Z * Z) := take 16 SNAKE_table ++ [(2, 68); (18, 64)].
Lemma MIPS_ok : risc_ok 4 5 31 MIPS_table MIPS_table.
Proof. split; try (apply (bool_decide_unpack _); vm_compute; done); try done. apply Forall_forall, (bool_decide_unpack _). vm_compute. done. Qed.
Lemma SNAKE_ok : risc_ok 26 25 2 SNAKE_table SNAKE_loads.
Proof.
  split; try (apply (bool_decide_unpack _); vm_compute; done).
  - apply Forall_forall, (bool_decide_unpack _). vm_compute. done.
  - intros p. rewrite (elem_of_Permutation_proper p SNAKE_loads SNAKE_table); [done|]. unfold SNAKE_loads, SNAKE_table. cbn [take app]. do 16 apply perm_skip. apply perm_swap.
Qed.

(** The same on the other hosts: on MIPS and on the Snake a thread that is switched to again
    has the stack pointer, the frame pointer and all registers that a function has to keep,
    and returns where it called [SWITCH]. *)
Theorem switch_back_risc s s1 s2 t3 :
  (MIPS_SWITCH s = (gpr s1 31, s1) -> gpr s2 4 = t3 -> gpr s2 5 = gpr s 4 -> apart t3 (gpr s 4) ->
   (forall a, gpr s 4 <= a < gpr s 4 + 76 -> rmem s2 a = rmem s1 a) ->
   exists s3, MIPS_SWITCH s2 = (gpr s 31, s3) /\ (forall r, r ∈ MIPS_table.*1 -> gpr s3 r = gpr s r)) /\
  (SNAKE_SWITCH s = (gpr s1 2, s1) -> gpr s2 26 = t3 -> gpr s2 25 = gpr s 26 -> apart t3 (gpr s 26) ->
   (forall a, gpr s 26 <= a < gpr s 26 + 76 -> rmem s2 a = rmem s1 a) ->
   exists s3, SNAKE_SWITCH s2 = (gpr s 2, s3) /\ (forall r, r ∈ SNAKE_table.*1 -> gpr s3 r = gpr s r)).
Proof.
  assert (E : forall u, SNAKE_SWITCH u = risc_switch 26 25 2 SNAKE_table SNAKE_loads u).
  { intros u. unfold SNAKE_SWITCH, risc_switch, SNAKE_loads. rewrite foldl_app. generalize (foldl (lw 25) (foldl (sw 26) u SNAKE_table) (take 16 SNAKE_table)). intros v.
    cbn [foldl]. f_equal. }
  assert (EM : forall u, MIPS_SWITCH u = risc_switch 4 5 31 MIPS_table MIPS_table u) by (intros u; unfold MIPS_SWITCH, risc_switch; reflexivity).
  split; [rewrite (EM s), (EM s2); apply risc_switch_back, MIPS_ok|]. rewrite (E s), (E s2). apply risc_switch_back, SNAKE_ok.
Qed.
